(* ===== verification/_CoqProject ===== *)
-Q . S2P
Prelude.v
Arc4.v
Crc32.v
Michael.v
Tkip.v
Aes.v
Ccmp.v
Sha256.v
Omac.v
SecFrames.v
RxFrame.v
Reorder.v
WifiHdr.v
MacId.v
StaMgt.v
TxQueue.v
PowerSave.v
RecvPath.v
Ie.v
IeWpa.v
IeElems.v
IeAttr.v
BeaconIe.v
Bip.v
RxEntry.v
TxAttrib.v
XmitFrame.v
EndToEnd.v
BssInfo.v
ScanTable.v
ScanJoin.v
ApCap.v
ApAuth.v
ApAssoc.v
ApInv.v
ApRun.v
MgtDispatch.v
StaElems.v
StaReq.v
StaLink.v
StaRun.v
