(* ===== verification/Prelude.v ===== *)
(** * Verification of the rtl8812au / rtl8821au driver

    The repository is the Linux driver of the Realtek RTL8812AU and RTL8821AU USB
    wireless adapters.  Its protocol logic is C code under src/core; src/os_dep binds
    it to Linux and USB, src/hal programs the chip.  This library models parts of that
    logic and proves theorems about the models.

    ** How the parts interact

    A received frame enters src/core/rtw_recv.c with its 802.11 header (WifiHdr) through
    [recv_func] (RxEntry), which checks it by type, finds the station a data frame
    belongs to, drops duplicates, and applies the protection of management frames (Bip).
    Control frames and the power management bits of data frames drive the buffering for
    sleeping stations (PowerSave).  [recv_func_posthandle] (RecvPath) decrypts a data
    frame with one of the software ciphers (SecFrames over Arc4, Crc32, Tkip, Aes,
    Ccmp), joins fragments and strips A-MSDU and 802.11 headers (RxFrame), checks the
    TKIP MIC (Michael), applies the 802.1X port, puts frames in order (Reorder), and
    hands packets on: to the network stack, or at an access point to the station they are
    for.  The state of the peers is in the station table
    (StaMgt), whose entries own reordering windows, transmit queues and a hardware id
    (MacId).  A packet to transmit gets its attributes, among them its cipher and packet
    number, from [update_attrib] (TxAttrib); [rtw_xmitframe_coalesce] (XmitFrame) builds
    its frames in a transmit buffer, which wait in the queues of the stations (TxQueue).
    EndToEnd composes the two directions: a station's packet at its access point.
    Management frames carry information elements (Ie), among them those that say how a
    network is protected (IeWpa), the one-pass parse that association uses (IeElems) and
    those of WPS, P2P and Wi-Fi Display (IeAttr); an access point edits the elements of
    its own beacon (BeaconIe), the TIM from the bitmap PowerSave keeps.  Beacons and probe
    responses heard during a scan are described (BssInfo) and recorded (ScanTable), and
    from the table a network is chosen (ScanJoin).  [mgt_dispatcher] (MgtDispatch) chooses
    the handler of a management frame; at an access point these authenticate (ApAuth) and
    associate (ApAssoc) stations of the table, whose capabilities the access point counts
    and announces in its beacon (ApCap).  A station joins the network chosen by its link state
    machine (StaLink), which sends the association request (StaReq) and takes the elements
    of the response (StaElems).  Key derivation uses Sha256, the MIC of protected
    management frames Omac.

    ** Conventions

    - An integer of w bits is a [Z]; [u8], [u16], [u32] are the conversions of C, written
      where the code converts or where an operation can leave the range.
    - A buffer is a list of bytes.  [rd], [ld], [wr], [st] (and [rdr], [ldr], [wrr] of
      Ie) are checked accesses: an access outside the buffer is [None] or
      [OutOfBounds], so a theorem that a function returns a value says that every access
      was in bounds.  [ld0] and [nth] with a default are used where an index is below
      the length by construction.
    - A structure is a record of the fields the operations use, named after them; a
      global or a shared object is an argument that is returned updated.  Locks are
      left out: every operation modelled runs under one, or on objects it owns; the
      exception is the balance of [sta_hash_lock] in StaMgt.
    - Calls whose effect is outside the model (network stack, commands to the firmware,
      beacon updates, timers) append to a log or set a flag.  Log messages and
      statistics that no modelled code reads are left out.
    - Loops are structural on a count, or have fuel.  Where fuel is used, a theorem
      states that the run ends (or for which inputs it does not).
    - Parameters of the models are the state of code that is not modelled (registry
      settings, time stamps, allocation failures), so the theorems hold for all of them.

    ** Files

    - Prelude: C operators, checked memory, loops, byte and length lemmas, hints.
    - Arc4, Crc32, Michael, Tkip, Aes, Ccmp, Sha256, Omac: the cryptographic routines of
      core/rtw_security.c, a file each, one definition per C function.  The theorems give
      the textbook function (CRC as a bit-serial division, AES and SHA-256 over their
      standards' tables, CCM, CMAC, HMAC and the counter-mode key derivation as equations
      over lists) and equate the two AES implementations.
    - SecFrames: [rtw_wep_encrypt] ... [rtw_aes_decrypt] and [decryptor]: encryption
      followed by decryption is the identity on every fragmented frame; what the
      decryptor delivers and drops, and what it fails to check.
    - RxFrame: the buffer of a frame, its pool, [wlanhdr_to_ethhdr], [amsdu_to_msdu],
      [recvframe_defrag]: operations keep the offsets in range, deaggregation inverts the
      encoding of an A-MSDU, and reassembly concatenates the payloads.  The A-MSDU loop
      has fuel 65: the code stops after MAX_SUBFRAME_COUNT (64) packets.
      [rtw_os_recv_indicate_pkt] decides where a packet goes (the logs [indicated] and
      [forwarded] of [rx_env]); what it asks of the rest of the driver is the record
      [os_env], whose station lookups RecvPath takes from the station table.  The bridge's
      [nat25_handle_frame] (core/rtw_br_ext.c) is a function of that record.
    - Reorder: the window of one traffic identifier, its timer, and ADDBA / DELBA.  An
      abstract window on unbounded sequence numbers is refined by the 12-bit code.  In a
      session of frames that a sender numbers, with timeouts in between, every frame is
      indicated, buffered or dropped, once; those indicated are in the sender's order, and
      only frames the window has passed are dropped.  Buffered frames leave after finitely
      many timeouts.
    - WifiHdr: the accessors of a received header.
    - MacId, StaMgt: the table of stations, with an invariant that partitions the pool
      into the free queue and the hash lists and is preserved by all operations.
    - TxQueue: the queues of the transmit path; frames of a station and access category
      leave in the order in which they entered, and by priority between categories.
    - PowerSave: sleep, wake-up, PS-poll, U-APSD and group frames; what is buffered is
      released once, in order, and the TIM and sleep bits follow the queues.
    - RecvPath: the composition for a data frame after duplicate detection.  Theorems
      state the outcome for CCMP and TKIP frames on every branch, the packets going where
      [handled] says, and that no frame buffer is lost or used twice (with the one
      exception the code has).
    - Ie: building, finding and removing information elements.  [encode] is the list of
      elements of the standard; the searches return the first element that fits, the
      builders append, removal filters, and reads stay within one byte of the limit.
      The fuel of a search is its length limit, since each iteration advances.
    - IeWpa: WPA and RSN parsers, [rtw_get_sec_ie], [rtw_get_bcn_info]: parsing inverts
      the encoding, parsing any bytes is safe, classification of a network, and the one
      loop that does not end (the dump of an element longer than 248 bytes).
    - IeElems: [rtw_ieee802_11_parse_elems], one pass over a list of elements: each kind
      gets the last element of that kind, and the pass reads nothing outside its length.
    - IeAttr: WPS, P2P and Wi-Fi Display elements and the attributes inside them: search,
      copy, write and removal.  Attribute searches take their fuel as an argument,
      because a length of 2^16 less the header makes them repeat the same attribute
      ([attr_search_hangs]); for the attributes of an encoded element a fuel above their
      number is enough, which the theorems state.
    - BeaconIe: [update_BCNTIM], [rtw_add_bcn_ie], [rtw_remove_bcn_ie] of core/rtw_ap.c:
      which element list the beacon holds afterwards, and what a TIM says to stations.
    - Bip: [rtw_BIP_verify] and [rtw_mgmt_xmitframe_coalesce]: a protected group frame is
      accepted exactly when its packet number is new, its key id fits and its MIC is the
      CMAC of header and body; what is sent is accepted once; the length of the element
      is not checked.
    - RxEntry: [recv_func] in front of RecvPath: from which station a data frame is
      taken and with which attributes, on every branch, for all modes of the interface but
      the manufacturing test ([normal_mode]); which management frames pass an 802.11w link; what happens to data frames in clear; and that no frame buffer gets
      into two places.
    - TxAttrib: which packets [update_attrib] accepts (the receiver must be a linked station
      of the table), and under which cipher and packet number they leave; no CCMP nonce is used twice.
    - XmitFrame: the transmit buffer after [rtw_xmitframe_coalesce]: header, fragments and
      their places, software CCMP.  The loop over the fragments has fuel one above the
      length of the packet, since each fragment takes a byte of it; the theorems state that
      it ends.  All fragments of a packet carry the same numbers.
    - EndToEnd: what a station sends under WPA2 with software CCMP is what [recv_func] of
      its access point hands to the stack, or to the station of its cell it is for
      ([arrives]); the specification of a link is the record [station] for the sender and
      [access_point] for the receiver.
    - BssInfo: [WLAN_BSSID_EX] and [collect_bss_info]: what a beacon or probe response
      says of its network, as the standard reads its elements; probe requests, whose
      listen channel attribute is copied without a bound.  The fuel bounds the walk over
      P2P attributes (see IeAttr).
    - ScanTable: the 128 entries of scanned networks of core/rtw_mlme.c.  The invariant
      (the two queues partition the pool, the count is right but for releases of entries
      that are free already, no network has two entries) holds in every table reached; the
      kernel's [time_after] is a parameter, and [ages_32], [ages_64] say when the macro tells
      the ages of entries; what a survey event does to the table; which entries
      expire, with 32-bit ticks; where the smoothed signal settles.
    - ScanJoin: a beacon heard while scanning is an entry of the table afterwards; the
      network joined or roamed to is the first of the strongest eligible ones; leaving a
      network releases its entry and its stations (StaMgt).
    - ApCap: [bss_cap_update_on_sta_join] and [bss_cap_update_on_sta_leave] of core/rtw_ap.c
      and the beacon elements that follow: over every run of associations, also
      repeated ones, and departures the counters are the numbers of stations that have the
      property at present, and the beacon asks for protection exactly while an 802.11b
      station is associated.
    - ApAuth, ApAssoc: [OnAuth], [OnDeAuth], [OnDisassoc], [OnAssocReq] of
      core/rtw_mlme_ext.c and the expiry and flush of core/rtw_ap.c, on the station table
      (StaMgt) and the counters (ApCap); frames sent and commands are a log.  The search
      for the WMM element has fuel one above the length of the frame ([check_wmm_ends]).
    - ApInv: the invariant of the stations of an access point, kept by every handler.
    - ApRun: what follows for every run (only authenticated stations are associated, ids
      are unique, the counters do not wrap), what an accepted request needs and leaves,
      open authentication; and runs in which the code does not do what it means to.
    - MgtDispatch: [mgt_dispatcher] and the table [mlme_sta_tbl] that it overwrites: which
      handler a frame reaches.  No authentication frame reaches one, so that no station
      ever associates behind it; the theorems of ApRun are about the handlers themselves.
    - StaElems, StaReq: what a joining station sends of itself and takes over from the
      access point: [issue_assocreq] and the elements of an association response.  The
      request repeats the elements of the network that [association_request] lists; the walk
      over a response has the length of the frame as fuel, since each element takes two
      bytes.  What overflows is excluded by name and shown in examples.
    - StaLink: the link of a station, from [start_clnt_join] over authentication and
      association to the report, with its timer; an abstract machine [join_step] which every
      handler refines.
    - StaRun: runs of that machine, of handlers that complete: a join reports one result,
      or none when the event cannot be allocated, and takes at most eleven expiries of the
      timer; behind the dispatcher no join succeeds.

    ** Not modelled

    - The HAL, PHY, RF, power tables and firmware images of src/hal: register sequences
      and data of the chip, with no contract to state.
    - src/os_dep: bindings to cfg80211, wireless extensions, USB and /proc.
    - The commands and events of a join around the link of StaLink, action frames, P2P, TDLS,
      WAPI key handling: driven by timers, commands and the firmware.  Of rtw_ap.c:
      [start_bss_network] and [rtw_check_beacon_data], the keys, the access list ioctls, and
      in [ApAuth] the channel switch for keep-alive frames.
    - Of the transmit path: [rtw_xmit] with its pool of frames and buffers, the transmit
      descriptor and USB aggregation (hal), the bridge, TDLS.
    - EFUSE, SMS4 and the build-time options the default Makefile leaves off. *)

From Stdlib Require Export ZArith Lia List.
From stdpp Require Export base tactics list numbers option.

#[global] Open Scope Z_scope.

(** ** C integer operators *)

Declare Scope c_scope.
Delimit Scope c_scope with c.
Infix ".&" := Z.land (at level 40, left associativity) : c_scope.
Infix ".^" := Z.lxor (at level 45, left associativity) : c_scope.
Infix ".|" := Z.lor (at level 46, left associativity) : c_scope.
Infix ".<<" := Z.shiftl (at level 39, left associativity) : c_scope.
Infix ".>>" := Z.shiftr (at level 39, left associativity) : c_scope.
#[global] Open Scope c_scope.

(** Conversions to the unsigned C types: the value modulo the type's range. *)
Definition u8 (x : Z) : Z := x mod 2 ^ 8.
Definition u16 (x : Z) : Z := x mod 2 ^ 16.
Definition u32 (x : Z) : Z := x mod 2 ^ 32.
Definition u64 (x : Z) : Z := x mod 2 ^ 64.
(** Conversion to [int]. *)
Definition s32 (x : Z) : Z := (x + 2 ^ 31) mod 2 ^ 32 - 2 ^ 31.

(** Ranges of the types. *)
Abbreviation is_u8 x := (0 <= x < 2 ^ 8).
Abbreviation is_u16 x := (0 <= x < 2 ^ 16).
Abbreviation is_u32 x := (0 <= x < 2 ^ 32).

(** A buffer of bytes, and its length in [Z]. *)
Abbreviation bytes := (list Z).
Definition bytes_ok (l : list Z) : Prop := Forall (fun x => is_u8 x) l.
Definition zlen {A} (l : list A) : Z := Z.of_nat (length l).

(** Boolean version of [bytes_ok], for concrete buffers. *)
Definition bytes_okb (l : list Z) : bool := forallb (fun x => (0 <=? x) && (x <? 256)) l.

(** The return codes of the driver (include/osdep_service.h). *)
Definition _FAIL : Z := 0.
Definition _SUCCESS : Z := 1.
Definition RTW_RX_HANDLED : Z := 2.

(** [nth] with the C index type, for the arrays that are local to a function
    and read at indices below their length. *)
Definition ld0 (l : list Z) (i : Z) : Z := nth (Z.to_nat i) l 0.

(** A group address. *)
Definition IS_MCAST (da : list Z) : bool := negb (ld0 da 0 .& 0x01 =? 0).

(** ** Checked memory

    The frame buffers a function receives by pointer are lists of bytes, read
    and written through [rd], [ld], [wr] and [st].  An access outside the buffer,
    which is undefined behaviour in C, is [None]: a theorem that a function
    returns [Some] says that every access was in bounds. *)
Definition rd (m : list Z) (off n : Z) : option (list Z) :=
  if (0 <=? off) && (0 <=? n) && (off + n <=? zlen m)
  then Some (take (Z.to_nat n) (drop (Z.to_nat off) m)) else None.

Definition ld (m : list Z) (off : Z) : option Z :=
  if (0 <=? off) && (off <? zlen m) then Some (nth (Z.to_nat off) m 0) else None.

Definition wr (m : list Z) (off : Z) (bs : list Z) : option (list Z) :=
  if (0 <=? off) && (off + zlen bs <=? zlen m)
  then Some (take (Z.to_nat off) m ++ bs ++ drop (Z.to_nat off + length bs) m)
  else None.

Definition st (m : list Z) (off : Z) (b : Z) : option (list Z) := wr m off [b].

(** Counted loop [for (i = i0; n iterations; i++) s = f i s] whose body can fail. *)
Fixpoint for_from {S : Type} (n : nat) (i : Z) (f : Z -> S -> option S) (s : S) : option S :=
  match n with
  | O => Some s
  | Datatypes.S n' => s' ← f i s; for_from n' (i + 1) f s'
  end.

(** The same for a body that cannot fail. *)
Fixpoint iter_from {S : Type} (n : nat) (i : Z) (f : Z -> S -> S) (s : S) : S :=
  match n with
  | O => s
  | Datatypes.S n' => iter_from n' (i + 1) f (f i s)
  end.

(** Loops are the last thing conversion unfolds. *)
#[global] Strategy 1000 [for_from iter_from].

(** Exclusive or of two buffers, byte by byte. *)
Definition xor_list (a b : list Z) : list Z := zip_with Z.lxor a b.

(** The integers [i, i+1, ..., i+n-1]. *)
Definition zseq (i : Z) (n : nat) : list Z := map (fun k => i + Z.of_nat k) (seq 0 n).

(** Big-endian bytes of an integer, and the integer of big-endian bytes. *)
Definition be_bytes (n : nat) (x : Z) : list Z :=
  map (fun k => x / 2 ^ (8 * (Z.of_nat n - 1 - k)) mod 256) (zseq 0 n).
Definition be_val (l : list Z) : Z := fold_left (fun a b => a * 256 + b) l 0.

(** The first [n] pieces of [k] elements of a list. *)
Fixpoint chunks {A} (k n : nat) (l : list A) : list (list A) :=
  match n with
  | O => []
  | S n' => take k l :: chunks k n' (drop k l)
  end.

(** ** Tactics *)

(** Turns boolean comparisons into propositions. *)
Ltac bool_to_prop :=
  repeat match goal with
  | H : (_ && _)%bool = true |- _ => apply andb_prop in H as [? ?]
  | H : (_ =? _) = true |- _ => apply Z.eqb_eq in H
  | H : (_ =? _) = false |- _ => apply Z.eqb_neq in H
  | H : (_ <=? _) = true |- _ => apply Z.leb_le in H
  | H : (_ <=? _) = false |- _ => apply Z.leb_gt in H
  | H : (_ <? _) = true |- _ => apply Z.ltb_lt in H
  | H : (_ <? _) = false |- _ => apply Z.ltb_ge in H
  end.

(** Computes the reads of list literals at constant indices. *)
Ltac ld0_eval :=
  unfold ld0;
  repeat match goal with
  | |- context [Z.to_nat ?k] =>
      let n := eval vm_compute in (Z.to_nat k) in
      match n with O => idtac | S _ => idtac end;
      change (Z.to_nat k) with n
  end;
  cbn [nth].

(** Reads off the result of a chain of [option] binds. *)
Ltac inv_bind :=
  repeat match goal with
  | H : (_ ≫= _) = Some _ |- _ => apply bind_Some in H as (? & ? & H)
  | H : Some _ = Some _ |- _ => injection H as H
  end.

(** ** Ranges of the bit operations *)

Lemma lxor_range n a b : 0 <= n -> 0 <= a < 2 ^ n -> 0 <= b < 2 ^ n -> 0 <= a .^ b < 2 ^ n.
Proof.
  intros Hn [Ha Ha'] [Hb Hb'].
  assert (H0 : 0 <= a .^ b) by (apply Z.lxor_nonneg; lia).
  split; [done|].
  destruct (Z.eq_dec (a .^ b) 0) as [->|Hne]; [lia|].
  apply Z.log2_lt_pow2; [lia|].
  eapply Z.le_lt_trans; [apply Z.log2_lxor; lia|].
  destruct (Z.eq_dec a 0) as [->|], (Z.eq_dec b 0) as [->|]; simpl Z.log2 at 1 2;
    rewrite ?Z.lxor_0_l, ?Z.lxor_0_r in *; try lia;
    apply Z.max_lub_lt; try (apply Z.log2_lt_pow2; lia).
  all: destruct (Z.eq_dec n 0) as [->|]; simpl in *; lia.
Qed.

Lemma lor_range n a b : 0 <= n -> 0 <= a < 2 ^ n -> 0 <= b < 2 ^ n -> 0 <= a .| b < 2 ^ n.
Proof.
  intros Hn Ha Hb. split; [apply Z.lor_nonneg; lia|].
  destruct (Z.eq_dec (a .| b) 0) as [->|Hne]; [lia|].
  assert (0 <= a .| b) by (apply Z.lor_nonneg; lia).
  apply Z.log2_lt_pow2; [lia|]. rewrite Z.log2_lor by lia.
  destruct (Z.eq_dec n 0) as [->|].
  { assert (a = 0) as -> by (simpl in *; lia). assert (b = 0) as -> by (simpl in *; lia). done. }
  destruct (Z.eq_dec a 0) as [->|], (Z.eq_dec b 0) as [->|]; try (simpl; lia);
    apply Z.max_lub_lt; try (simpl; lia); apply Z.log2_lt_pow2; lia.
Qed.

Lemma land_range_r n a b : 0 <= b < 2 ^ n -> 0 <= a .& b < 2 ^ n.
Proof.
  intros Hb. split; [apply Z.land_nonneg; lia|].
  assert (a .& b <= b); [|lia].
  apply Z.ldiff_le; [lia|]. apply Z.bits_inj'. intros i Hi.
  rewrite Z.ldiff_spec, Z.land_spec, Z.bits_0.
  by destruct (Z.testbit a i), (Z.testbit b i).
Qed.

Lemma land_range_l n a b : 0 <= a < 2 ^ n -> 0 <= a .& b < 2 ^ n.
Proof. rewrite Z.land_comm. apply land_range_r. Qed.

Lemma shiftr_range n a k : 0 <= k -> 0 <= a < 2 ^ n -> 0 <= a .>> k < 2 ^ n.
Proof.
  intros Hk Ha. rewrite Z.shiftr_div_pow2 by done.
  assert (0 < 2 ^ k) by lia.
  split; [apply Z.div_pos; lia|].
  apply Z.div_lt_upper_bound; [lia|nia].
Qed.

Lemma u8_range x : is_u8 (u8 x).
Proof. apply Z.mod_pos_bound. lia. Qed.
Lemma u16_range x : is_u16 (u16 x).
Proof. apply Z.mod_pos_bound. lia. Qed.
Lemma u32_range x : is_u32 (u32 x).
Proof. apply Z.mod_pos_bound. lia. Qed.
Lemma u8_id x : is_u8 x -> u8 x = x.
Proof. apply Z.mod_small. Qed.
Lemma u16_id x : is_u16 x -> u16 x = x.
Proof. apply Z.mod_small. Qed.
Lemma u32_id x : is_u32 x -> u32 x = x.
Proof. apply Z.mod_small. Qed.
Lemma s32_id x : - 2 ^ 31 <= x < 2 ^ 31 -> s32 x = x.
Proof. intros H. unfold s32. rewrite Z.mod_small by lia. lia. Qed.

Create HintDb crange discriminated.
#[export] Hint Resolve lxor_range lor_range land_range_r land_range_l shiftr_range
  u8_range u16_range u32_range : crange.
#[export] Hint Extern 3 (0 <= _)%Z => lia : crange.
#[export] Hint Extern 3 (0 <= _ < _) => lia : crange.

(** [x ^ y ^ y = x]. *)
Lemma lxor_cancel_r a b : a .^ b .^ b = a.
Proof. by rewrite Z.lxor_assoc, Z.lxor_nilpotent, Z.lxor_0_r. Qed.
Lemma lxor_cancel_l a b : b .^ (b .^ a) = a.
Proof. by rewrite <- Z.lxor_assoc, Z.lxor_nilpotent, Z.lxor_0_l. Qed.

(** A boolean property of bytes holds for all of them when it is checked for all of them. *)
Lemma forall_byte (P : Z -> bool) :
  forallb P (zseq 0 256) = true -> forall x, is_u8 x -> P x = true.
Proof.
  intros H x Hx. rewrite forallb_forall in H. apply H.
  unfold zseq. apply in_map_iff. exists (Z.to_nat x). rewrite in_seq. lia.
Qed.

(** ** Lengths and checked accesses *)

Lemma zlen_nonneg {A} (l : list A) : 0 <= zlen l.
Proof. unfold zlen. lia. Qed.
Lemma zlen_app {A} (a b : list A) : zlen (a ++ b) = zlen a + zlen b.
Proof. unfold zlen. rewrite length_app. lia. Qed.
Lemma zlen_cons {A} (x : A) l : zlen (x :: l) = 1 + zlen l.
Proof. unfold zlen. simpl. lia. Qed.
Lemma zlen_nil {A} : zlen (@nil A) = 0.
Proof. done. Qed.
Lemma zlen_to_nat {A} (l : list A) : Z.to_nat (zlen l) = length l.
Proof. unfold zlen. lia. Qed.
Create Rewrite HintDb zlen.
#[export] Hint Rewrite @zlen_app @zlen_cons @zlen_nil @zlen_to_nat : zlen.

(** A read or write of the middle segment of a buffer. *)
Lemma rd_mid (a b c : list Z) off n :
  off = zlen a -> n = zlen b -> rd (a ++ b ++ c) off n = Some b.
Proof.
  intros -> ->. unfold rd. pose proof (zlen_nonneg a). pose proof (zlen_nonneg b).
  pose proof (zlen_nonneg c).
  rewrite !zlen_app, !(proj2 (Z.leb_le _ _)) by lia. simpl.
  by rewrite !zlen_to_nat, drop_app_length, take_app_length.
Qed.

Lemma wr_mid (a b c bs : list Z) off :
  off = zlen a -> length bs = length b -> wr (a ++ b ++ c) off bs = Some (a ++ bs ++ c).
Proof.
  intros -> Hb. unfold wr. pose proof (zlen_nonneg a). pose proof (zlen_nonneg c).
  rewrite !zlen_app, !(proj2 (Z.leb_le _ _)) by (unfold zlen in *; lia). simpl.
  by rewrite zlen_to_nat, take_app_length, Hb, <- drop_drop, drop_app_length, drop_app_length.
Qed.

(** The same at the start of the buffer. *)
Lemma rd_prefix (a c : list Z) n : n = zlen a -> rd (a ++ c) 0 n = Some a.
Proof. intros ->. by apply (rd_mid [] a c). Qed.

Lemma wr_prefix (a c bs : list Z) : length bs = length a -> wr (a ++ c) 0 bs = Some (bs ++ c).
Proof. intros H. by apply (wr_mid [] a c). Qed.

Lemma ld_app_l (a b : list Z) i : 0 <= i < zlen a -> ld (a ++ b) i = ld a i.
Proof.
  intros Hi. unfold ld. pose proof (zlen_nonneg b). rewrite zlen_app.
  rewrite !(proj2 (Z.leb_le _ _)), !(proj2 (Z.ltb_lt _ _)) by lia. simpl.
  rewrite app_nth1; [done|]. unfold zlen in Hi. lia.
Qed.

Lemma ld_mid (a c : list Z) b off : off = zlen a -> ld (a ++ b :: c) off = Some b.
Proof.
  intros ->. unfold ld. pose proof (zlen_nonneg a). pose proof (zlen_nonneg c).
  rewrite zlen_app, zlen_cons, (proj2 (Z.leb_le _ _)), (proj2 (Z.ltb_lt _ _)) by lia. simpl.
  rewrite zlen_to_nat, app_nth2, Nat.sub_diag by lia. done.
Qed.

Lemma ld_Some (m : list Z) i : 0 <= i < zlen m -> ld m i = Some (ld0 m i).
Proof.
  intros Hi. unfold ld, ld0.
  by rewrite (proj2 (Z.leb_le _ _)), (proj2 (Z.ltb_lt _ _)) by lia.
Qed.

Lemma ld_None (m : list Z) i : zlen m <= i -> ld m i = None.
Proof. intros Hi. unfold ld. rewrite (proj2 (Z.ltb_ge _ _)) by lia. by rewrite andb_false_r. Qed.

Lemma rd_app_l (a b : list Z) off n : off + n <= zlen a -> 0 <= off -> 0 <= n ->
  rd (a ++ b) off n = rd a off n.
Proof.
  intros H1 H2 H3. unfold rd. pose proof (zlen_nonneg b). rewrite zlen_app.
  rewrite !(proj2 (Z.leb_le _ _)) by lia. simpl. f_equal.
  rewrite drop_app_le by (unfold zlen in *; lia).
  apply take_app_le. rewrite length_drop. unfold zlen in *. lia.
Qed.

Lemma ld0_app_l (a b : list Z) i : 0 <= i < zlen a -> ld0 (a ++ b) i = ld0 a i.
Proof. intros Hi. unfold ld0. rewrite app_nth1; [done|]. unfold zlen in Hi. lia. Qed.

Lemma ld0_app_r (a b : list Z) i k : i = zlen a + k -> 0 <= k -> ld0 (a ++ b) i = ld0 b k.
Proof.
  intros -> Hk. unfold ld0. pose proof (zlen_nonneg a).
  rewrite app_nth2 by (unfold zlen in *; lia). f_equal. unfold zlen in *. lia.
Qed.

(** A successful read splits the buffer. *)
Lemma rd_inv (m l : list Z) off n : rd m off n = Some l ->
  exists a c, m = a ++ l ++ c /\ zlen a = off /\ zlen l = n.
Proof.
  unfold rd. intros H. destruct (_ && _ && _) eqn:E; [|done].
  injection H as <-. bool_to_prop. unfold zlen in *.
  exists (take (Z.to_nat off) m), (drop (Z.to_nat n) (drop (Z.to_nat off) m)).
  rewrite take_drop, take_drop, !length_take, length_drop. repeat split; lia.
Qed.

Lemma rd_Some (m : list Z) off n : 0 <= off -> 0 <= n -> off + n <= zlen m ->
  rd m off n = Some (take (Z.to_nat n) (drop (Z.to_nat off) m)).
Proof. intros ???. unfold rd. by rewrite !(proj2 (Z.leb_le _ _)) by lia. Qed.

Lemma rd_None (m : list Z) off n : zlen m < off + n -> rd m off n = None.
Proof. intros H. unfold rd. by rewrite (proj2 (Z.leb_gt _ (zlen m))), andb_false_r by lia. Qed.

Lemma wr_None (m bs : list Z) off : zlen m < off + zlen bs -> wr m off bs = None.
Proof. intros H. unfold wr. by rewrite (proj2 (Z.leb_gt _ (zlen m))), andb_false_r by lia. Qed.

Lemma wr_inv (m bs m' : list Z) off : wr m off bs = Some m' ->
  exists a b c, m = a ++ b ++ c /\ m' = a ++ bs ++ c /\ zlen a = off /\ length b = length bs.
Proof.
  unfold wr. intros H. destruct (_ && _) eqn:E; [|done]. injection H as <-. bool_to_prop.
  exists (take (Z.to_nat off) m), (take (length bs) (drop (Z.to_nat off) m)),
    (drop (length bs) (drop (Z.to_nat off) m)).
  rewrite take_drop, take_drop, drop_drop. unfold zlen in *.
  rewrite !length_take, length_drop. repeat split; lia.
Qed.

Lemma wr_length (m bs m' : list Z) off : wr m off bs = Some m' -> zlen m' = zlen m.
Proof.
  intros (a & b & c & -> & -> & _ & Hb)%wr_inv. rewrite !zlen_app. unfold zlen. lia.
Qed.

(** Any buffer splits at a given offset. *)
Lemma split_at {A} (m : list A) n : 0 <= n <= zlen m ->
  exists a b, m = a ++ b /\ zlen a = n /\ zlen b = zlen m - n.
Proof.
  intros Hn. exists (take (Z.to_nat n) m), (drop (Z.to_nat n) m).
  rewrite take_drop. unfold zlen in *. rewrite length_take, length_drop. repeat split; lia.
Qed.

(** ** Buffers of bytes *)

Lemma bytes_ok_app a b : bytes_ok (a ++ b) <-> bytes_ok a /\ bytes_ok b.
Proof. apply Forall_app. Qed.

Lemma bytes_ok_nil : bytes_ok [].
Proof. constructor. Qed.
Lemma bytes_ok_cons x l : is_u8 x -> bytes_ok l -> bytes_ok (x :: l).
Proof. by constructor. Qed.
Lemma bytes_ok_app_2 a b : bytes_ok a -> bytes_ok b -> bytes_ok (a ++ b).
Proof. intros. by apply bytes_ok_app. Qed.

Lemma bytes_ok_spec l : bytes_okb l = true -> bytes_ok l.
Proof.
  unfold bytes_okb, bytes_ok. rewrite forallb_forall, Forall_forall.
  intros H x Hx. specialize (H x Hx). bool_to_prop. lia.
Qed.

Lemma bytes_ok_nth l i : bytes_ok l -> is_u8 (nth i l 0).
Proof.
  intros H. destruct (Nat.lt_ge_cases i (length l)) as [Hi|Hi].
  - unfold bytes_ok in H. rewrite Forall_forall in H. apply H.
    by apply nth_In.
  - rewrite nth_overflow by done. lia.
Qed.

Lemma bytes_ok_take n l : bytes_ok l -> bytes_ok (take n l).
Proof. apply Forall_take. Qed.
Lemma bytes_ok_drop n l : bytes_ok l -> bytes_ok (drop n l).
Proof. apply Forall_drop. Qed.

Lemma bytes_ok_replicate n x : is_u8 x -> bytes_ok (replicate n x).
Proof. intros. by apply Forall_replicate. Qed.

Lemma xor_list_length a b : length (xor_list a b) = (length a `min` length b)%nat.
Proof. apply length_zip_with. Qed.

Lemma xor_list_ok a b : bytes_ok a -> bytes_ok b -> bytes_ok (xor_list a b).
Proof.
  intros Ha. revert b. induction Ha as [|x a Hx Ha IH]; intros b Hb; [constructor|].
  destruct Hb as [|y b Hy Hb]; constructor; [|by apply IH].
  by apply lxor_range.
Qed.

(** Xoring twice with the same key stream is the identity. *)
Lemma xor_list_involutive a k : (length a <= length k)%nat -> xor_list (xor_list a k) k = a.
Proof.
  revert k. induction a as [|x a IH]; intros [|y k] H; simpl in *; try done; try lia.
  unfold xor_list in *. simpl. rewrite IH by lia. by rewrite lxor_cancel_r.
Qed.

Lemma xor_list_comm a b : xor_list a b = xor_list b a.
Proof.
  revert b. induction a as [|x a IH]; intros [|y b]; try done.
  unfold xor_list in *. simpl. by rewrite Z.lxor_comm, IH.
Qed.

Lemma xor_list_assoc a b c : xor_list (xor_list a b) c = xor_list a (xor_list b c).
Proof.
  revert b c. induction a as [|x a IH]; intros [|y b] [|z c]; try done.
  unfold xor_list in *. simpl. by rewrite Z.lxor_assoc, IH.
Qed.

(** Only the first bytes of a key stream that is too long are used. *)
Lemma xor_list_take a k n : (length a <= n)%nat -> xor_list a (take n k) = xor_list a k.
Proof.
  revert k n. induction a as [|x a IH]; intros [|y k] [|n] H; simpl in *; try done; try lia.
  unfold xor_list in *. simpl. rewrite IH by lia. done.
Qed.

Lemma xor_list_app_r a k k' : (length a <= length k)%nat -> xor_list a (k ++ k') = xor_list a k.
Proof.
  intros H. rewrite <- (xor_list_take a (k ++ k') (length k)) by done.
  by rewrite take_app_length.
Qed.

Lemma take_xor_list n a b : take n (xor_list a b) = xor_list (take n a) (take n b).
Proof.
  revert a b. induction n as [|n IH]; intros [|x a] [|y b]; try done.
  unfold xor_list in *. simpl. by rewrite IH.
Qed.

Lemma xor_list_zero a n : (length a <= n)%nat -> xor_list a (replicate n 0) = a.
Proof.
  revert n. induction a as [|x a IH]; intros [|n] H; simpl in *; try done; try lia.
  unfold xor_list in *. simpl. by rewrite Z.lxor_0_r, IH by lia.
Qed.

Lemma xor_list_cons x y a b : xor_list (x :: a) (y :: b) = x .^ y :: xor_list a b.
Proof. done. Qed.

Lemma xor_list_app a1 a2 k1 k2 : length a1 = length k1 ->
  xor_list (a1 ++ a2) (k1 ++ k2) = xor_list a1 k1 ++ xor_list a2 k2.
Proof. intros H. unfold xor_list. by apply zip_with_app. Qed.

#[export] Hint Resolve bytes_ok_nil bytes_ok_cons bytes_ok_app_2 xor_list_ok bytes_ok_take bytes_ok_drop bytes_ok_nth
  bytes_ok_replicate : crange.

(** ** Pieces of a list *)

Lemma chunks_length {A} k n (l : list A) : length (chunks k n l) = n.
Proof. revert l. induction n as [|n IH]; intros l; simpl; [done|]. by rewrite IH. Qed.

Lemma chunks_app {A} k n m (a b : list A) : length a = (k * n)%nat ->
  chunks k (n + m) (a ++ b) = chunks k n a ++ chunks k m b.
Proof.
  revert a. induction n as [|n IH]; intros a Ha; cbn [chunks Nat.add app].
  - rewrite (nil_length_inv a) by lia. done.
  - rewrite take_app_le, drop_app_le by lia. rewrite IH by (rewrite length_drop; lia). done.
Qed.

Lemma chunks_Forall {A} (P : A -> Prop) k n l : Forall P l -> Forall (Forall P) (chunks k n l).
Proof.
  revert l. induction n as [|n IH]; intros l Hl; simpl; constructor.
  - by apply Forall_take.
  - by apply IH, Forall_drop.
Qed.

Lemma chunks_length_all {A} k n (l : list A) : length l = (k * n)%nat ->
  Forall (fun b => length b = k) (chunks k n l).
Proof.
  revert l. induction n as [|n IH]; intros l Hl; cbn [chunks]; constructor.
  - rewrite length_take. lia.
  - apply IH. rewrite length_drop. lia.
Qed.

Lemma concat_chunks {A} k n (l : list A) : length l = (k * n)%nat -> concat (chunks k n l) = l.
Proof.
  revert l. induction n as [|n IH]; intros l Hl; cbn [chunks concat].
  - symmetry. apply nil_length_inv. lia.
  - rewrite IH by (rewrite length_drop; lia). apply take_drop.
Qed.

Lemma concat_length_const {A} k (ls : list (list A)) : Forall (fun l => length l = k) ls ->
  length (concat ls) = (k * length ls)%nat.
Proof. induction 1 as [|l ls Hl _ IH]; simpl; [lia|]. rewrite length_app, IH, Hl. lia. Qed.

Lemma zseq_length i n : length (zseq i n) = n.
Proof. unfold zseq. by rewrite length_map, length_seq. Qed.

Lemma zseq_cons i n : zseq i (S n) = i :: zseq (i + 1) n.
Proof.
  unfold zseq. cbn [seq map]. rewrite <- seq_shift, map_map. f_equal; [lia|].
  apply map_ext. intros. lia.
Qed.

Lemma zseq_app i n m : zseq i (n + m) = zseq i n ++ zseq (i + Z.of_nat n) m.
Proof.
  revert i. induction n as [|n IH]; intros i; [by rewrite Z.add_0_r|].
  cbn [Nat.add]. rewrite !zseq_cons, IH. cbn [app]. do 3 f_equal. lia.
Qed.

(** ** Counted loops *)

Lemma for_from_inv {S} (P : Z -> S -> Prop) f n i (s : S) :
  P i s ->
  (forall j t, i <= j < i + Z.of_nat n -> P j t -> exists t', f j t = Some t' /\ P (j + 1) t') ->
  exists s', for_from n i f s = Some s' /\ P (i + Z.of_nat n) s'.
Proof.
  revert i s. induction n as [|n IH]; intros i s HP Hf; cbn [for_from].
  - exists s. rewrite Z.add_0_r. done.
  - destruct (Hf i s) as (t & Ht & HPt); [lia|done|]. rewrite Ht. simpl.
    destruct (IH (i + 1) t HPt) as (s' & -> & Hs'); [intros; apply Hf; [lia|done]|].
    exists s'. split; [done|]. by replace (i + Z.of_nat (Datatypes.S n)) with (i + 1 + Z.of_nat n) by lia.
Qed.

Lemma iter_from_app {S} f n m i (s : S) :
  iter_from (n + m) i f s = iter_from m (i + Z.of_nat n) f (iter_from n i f s).
Proof.
  revert i s. induction n as [|n IH]; intros i s; cbn [iter_from Nat.add].
  - by rewrite Z.add_0_r.
  - rewrite IH. f_equal. lia.
Qed.

Lemma iter_from_inv {S} (P : Z -> S -> Prop) f n i (s : S) :
  P i s -> (forall j t, i <= j < i + Z.of_nat n -> P j t -> P (j + 1) (f j t)) ->
  P (i + Z.of_nat n) (iter_from n i f s).
Proof.
  revert i s. induction n as [|n IH]; intros i s HP Hf; cbn [iter_from].
  - by rewrite Z.add_0_r.
  - replace (i + Z.of_nat (Datatypes.S n)) with (i + 1 + Z.of_nat n) by lia.
    apply IH; [apply Hf; [lia|done]|]. intros; apply Hf; [lia|done].
Qed.

(** A loop that assigns every cell of an array in turn. *)
Lemma iter_fill {A} (f : Z -> A) n i (t : list A) :
  0 <= i -> i + Z.of_nat n <= zlen t ->
  iter_from n i (fun k t => <[Z.to_nat k := f k]> t) t =
    take (Z.to_nat i) t ++ map f (zseq i n) ++ drop (Z.to_nat i + n) t.
Proof.
  revert i t. induction n as [|n IH]; intros i t Hi Hn; cbn [iter_from].
  { simpl. by rewrite Nat.add_0_r, take_drop. }
  rewrite IH by (unfold zlen in *; rewrite ?length_insert; lia).
  unfold zseq. cbn [seq map]. rewrite <- seq_shift, !map_map. unfold zlen in Hn.
  replace (Z.to_nat (i + 1)) with (S (Z.to_nat i)) by lia.
  rewrite (take_S_r _ _ (f i)) by (apply list_lookup_insert_eq; lia).
  rewrite take_insert_ge, drop_insert_lt by lia.
  rewrite <- app_assoc. simpl. rewrite Z.add_0_r. do 3 f_equal.
  - apply map_ext. intros. f_equal. lia.
  - f_equal. lia.
Qed.

(** ** Concatenating bit fields *)

Lemma land_shiftl_0 lo hi k : 0 <= k -> 0 <= lo < 2 ^ k -> lo .& (hi .<< k) = 0.
Proof.
  intros Hk Hlo. apply Z.bits_inj'. intros n Hn.
  rewrite Z.land_spec, Z.shiftl_spec, Z.bits_0 by done.
  destruct (Z.lt_ge_cases n k).
  - by rewrite (Z.testbit_neg_r hi), andb_false_r by lia.
  - rewrite <- (Z.mod_small lo (2 ^ k)) by done.
    by rewrite Z.mod_pow2_bits_high by lia.
Qed.

(** A field of [k] bits below another one: exclusive or, or and addition agree. *)
Lemma lxor_shiftl_add lo hi k : 0 <= k -> 0 <= lo < 2 ^ k -> lo .^ (hi .<< k) = lo + hi * 2 ^ k.
Proof.
  intros Hk Hlo. rewrite <- Z.add_nocarry_lxor by (by apply land_shiftl_0).
  by rewrite Z.shiftl_mul_pow2.
Qed.

Lemma lor_shiftl_add lo hi k : 0 <= k -> 0 <= lo < 2 ^ k -> lo .| (hi .<< k) = lo + hi * 2 ^ k.
Proof.
  intros Hk Hlo. rewrite <- lxor_shiftl_add by done.
  by rewrite Z.lxor_lor by (by apply land_shiftl_0).
Qed.

(** Low and high fields of a value. *)
Lemma land_ones_mod x k : 0 <= k -> x .& (2 ^ k - 1) = x mod 2 ^ k.
Proof. intros. replace (2 ^ k - 1) with (Z.ones k) by (rewrite Z.ones_equiv; lia). by apply Z.land_ones. Qed.

Lemma land_mask x k m : 0 <= k -> m = 2 ^ k - 1 -> x .& m = x mod 2 ^ k.
Proof. intros ? ->. by apply land_ones_mod. Qed.

Lemma div_mod_inj a b k : 0 < k -> a mod k = b mod k -> a / k = b / k -> a = b.
Proof. intros Hk Hm Hd. rewrite (Z.div_mod a k), (Z.div_mod b k), Hm, Hd by lia. done. Qed.

(** Modular addition of the same value is injective on the range. *)
Lemma add_mod_inj a b k m : 0 <= a < m -> 0 <= b < m -> (a + k) mod m = (b + k) mod m -> a = b.
Proof.
  intros Ha Hb H. rewrite <- (Z.mod_small a m), <- (Z.mod_small b m) by done.
  replace a with (a + k - k) by lia. replace b with (b + k - k) by lia.
  by rewrite (Zminus_mod (a + k)), (Zminus_mod (b + k)), H.
Qed.

(** ** Big-endian integers *)

Lemma be_bytes_ok n x : bytes_ok (be_bytes n x).
Proof.
  unfold be_bytes, bytes_ok. apply Forall_map, Forall_forall. intros.
  apply Z.mod_pos_bound. lia.
Qed.

Lemma be_bytes_length n x : length (be_bytes n x) = n.
Proof. unfold be_bytes. by rewrite length_map, zseq_length. Qed.

Lemma be_val_app a b : be_val (a ++ b) = be_val a * 256 ^ zlen b + be_val b.
Proof.
  assert (H : forall b k, fold_left (fun a b => a * 256 + b) b k = k * 256 ^ zlen b + be_val b).
  { unfold be_val. induction b0 as [|x b0 IH]; intros k; cbn [fold_left]; [change (zlen []) with 0; lia|].
    rewrite IH, (IH (0 * 256 + x)), zlen_cons, Z.pow_add_r by (pose proof (zlen_nonneg b0); lia). lia. }
  unfold be_val at 1. rewrite fold_left_app. apply H.
Qed.

Lemma be_val_snoc a x : be_val (a ++ [x]) = be_val a * 256 + x.
Proof. unfold be_val. by rewrite fold_left_app. Qed.

Lemma be_val_range l : bytes_ok l -> 0 <= be_val l < 256 ^ zlen l.
Proof.
  induction l as [|x l IH] using rev_ind; intros H; [done|].
  apply bytes_ok_app in H as [Hl Hx]. apply Forall_inv in Hx.
  rewrite be_val_snoc, zlen_app. change (zlen [x]) with 1.
  rewrite Z.pow_add_r by (pose proof (zlen_nonneg l); lia). specialize (IH Hl). lia.
Qed.

Lemma be_bytes_S n x : be_bytes (S n) x = be_bytes n (x / 256) ++ [x mod 256].
Proof.
  unfold be_bytes. rewrite <- Nat.add_1_r, zseq_app, map_app. f_equal.
  - apply map_ext_in. intros k Hk. unfold zseq in Hk. apply in_map_iff in Hk as (j & <- & Hj).
    rewrite in_seq in Hj. change 256 with (2 ^ 8) at 2. rewrite Z.div_div by lia.
    rewrite <- Z.pow_add_r by lia. do 3 f_equal. lia.
  - unfold zseq. cbn [seq map]. do 2 f_equal.
    replace (8 * _) with 0 by lia. by rewrite Z.div_1_r.
Qed.

Lemma be_bytes_val l : bytes_ok l -> be_bytes (length l) (be_val l) = l.
Proof.
  induction l as [|x l IH] using rev_ind; intros H; [done|].
  apply bytes_ok_app in H as [Hl Hx]. apply Forall_inv in Hx.
  rewrite length_app, Nat.add_1_r, be_bytes_S, be_val_snoc.
  rewrite Z.div_add_l, (Z.div_small x), Z.add_0_r, IH by (done || lia). do 2 f_equal.
  rewrite Z.add_comm, Z.mod_add by lia. by apply Z.mod_small.
Qed.

Lemma be_val_bytes n x : 0 <= x < 256 ^ Z.of_nat n -> be_val (be_bytes n x) = x.
Proof.
  revert x. induction n as [|n IH]; intros x Hx.
  { assert (x = 0) as -> by (simpl in Hx; lia). done. }
  rewrite be_bytes_S, be_val_snoc. rewrite Nat2Z.inj_succ, Z.pow_succ_r in Hx by lia.
  rewrite IH; [pose proof (Z.div_mod x 256); lia|].
  split; [apply Z.div_pos; lia|apply Z.div_lt_upper_bound; lia].
Qed.

(** ** Queues of places in a pool *)

Lemma filter_absent (o : nat) (l : list nat) : o ∉ l -> filter (fun x => x <> o) l = l.
Proof.
  intros H. induction l as [|x l IH]; [done|]. apply not_elem_of_cons in H as [Hx Hl].
  rewrite filter_cons_True by congruence. by rewrite IH.
Qed.

Lemma filter_remove (o : nat) (l : list nat) : NoDup l -> o ∈ l -> Permutation (o :: filter (fun x => x <> o) l) l.
Proof.
  intros Hnd Hin. induction l as [|x l IH]; [by apply elem_of_nil in Hin|].
  apply list.NoDup_cons in Hnd as [Hx Hnd]. destruct (decide (x = o)) as [->|Hne].
  - by rewrite filter_cons_False, filter_absent by (done || tauto).
  - rewrite filter_cons_True by done. apply elem_of_cons in Hin as [->|Hin]; [done|].
    rewrite perm_swap. by rewrite IH.
Qed.

Lemma filter_eq {A} (P Q : A -> Prop) `{!forall x, Decision (P x)} `{!forall x, Decision (Q x)} (l : list A) :
  (forall x, x ∈ l -> P x <-> Q x) -> filter P l = filter Q l.
Proof.
  induction l as [|x l IH]; intros Hl; [done|]. rewrite !filter_cons, IH by (intros y Hy; apply Hl; by right).
  pose proof (Hl x ltac:(by left)). destruct (decide (P x)), (decide (Q x)); tauto.
Qed.
Lemma filter_true {A} (P : A -> Prop) `{!forall x, Decision (P x)} (l : list A) :
  (forall x, x ∈ l -> P x) -> filter P l = l.
Proof.
  induction l as [|x l IH]; intros Hl; [done|]. rewrite filter_cons, IH by (intros y Hy; apply Hl; by right).
  by rewrite decide_True by (apply Hl; by left).
Qed.
