(* ===== verification/Arc4.v ===== *)
(** * RC4 (core/rtw_security.c, "WEP related")

    The stream cipher that WEP and TKIP share: [arcfour_init] (key scheduling),
    [arcfour_byte] (one key-stream byte) and [arcfour_encrypt].  Invariant: the
    state is a permutation of the 256 bytes and both counters are bytes. *)

From S2P Require Import Prelude.

(** [struct arc4context]. *)
Record arc4context := mk_arc4 { arc4_x : Z; arc4_y : Z; arc4_state : list Z }.

(** One iteration of the key-scheduling loop of [arcfour_init]; the loop state is
    [(keyindex, stateindex, state)]. *)
Definition arcfour_init_step (key : list Z) (key_len counter : Z)
    (s : Z * Z * list Z) : Z * Z * list Z :=
  let '(keyindex, stateindex, state) := s in
  let t := ld0 state counter in
  let stateindex := (stateindex + ld0 key keyindex + t) .& 255 in
  let u := ld0 state stateindex in
  let state := <[Z.to_nat stateindex := u8 t]> state in
  let state := <[Z.to_nat counter := u8 u]> state in
  let keyindex := keyindex + 1 in
  (if key_len <=? keyindex then 0 else keyindex, stateindex, state).

Definition arcfour_init (key : list Z) (key_len : Z) : arc4context :=
  let '(_, _, state) :=
    iter_from 256 0 (arcfour_init_step key key_len) (0, 0, zseq 0 256) in
  mk_arc4 0 0 state.

Definition arcfour_byte (ctx : arc4context) : Z * arc4context :=
  let state := arc4_state ctx in
  let x := (arc4_x ctx + 1) .& 255 in
  let sx := ld0 state x in
  let y := (sx + arc4_y ctx) .& 255 in
  let sy := ld0 state y in
  let state := <[Z.to_nat y := u8 sx]> state in
  let state := <[Z.to_nat x := u8 sy]> state in
  (ld0 state ((sx + sy) .& 255), mk_arc4 x y state).

(** [dest[i] = src[i] ^ (unsigned char)arcfour_byte(ctx)]; every caller passes
    [dest = src], and each [src[i]] is read before [dest[i]] is written. *)
Fixpoint arcfour_encrypt (ctx : arc4context) (src : list Z) : list Z * arc4context :=
  match src with
  | [] => ([], ctx)
  | b :: src' =>
      let '(k, ctx') := arcfour_byte ctx in
      let '(dest, ctx'') := arcfour_encrypt ctx' src' in
      (b .^ u8 k :: dest, ctx'')
  end.

(** The key stream on its own: [n] bytes from [ctx]. *)
Fixpoint arcfour_stream (ctx : arc4context) (n : nat) : list Z :=
  match n with
  | O => []
  | S n' => let '(k, ctx') := arcfour_byte ctx in u8 k :: arcfour_stream ctx' n'
  end.

(** ** Invariant *)

Record arc4_ok (ctx : arc4context) : Prop := {
  arc4_ok_x : is_u8 (arc4_x ctx);
  arc4_ok_y : is_u8 (arc4_y ctx);
  arc4_ok_perm : arc4_state ctx ≡ₚ zseq 0 256
}.

Lemma land_255_range a : is_u8 (a .& 255).
Proof. apply land_range_r. lia. Qed.
#[export] Hint Resolve land_255_range : crange.

Lemma arc4_perm_length s : s ≡ₚ zseq 0 256 -> length s = 256%nat.
Proof. intros H. by rewrite H, zseq_length. Qed.

Lemma zseq_byte x : x ∈ zseq 0 256 -> is_u8 x.
Proof.
  intros H%list_elem_of_In. unfold zseq in H. apply in_map_iff in H as (k & <- & Hk).
  rewrite in_seq in Hk. lia.
Qed.

Lemma arc4_perm_lookup s i : s ≡ₚ zseq 0 256 -> is_u8 i ->
  s !! Z.to_nat i = Some (ld0 s i) /\ is_u8 (ld0 s i).
Proof.
  intros Hs Hi.
  destruct (lookup_lt_is_Some_2 s (Z.to_nat i)) as [x Hx].
  { rewrite (arc4_perm_length s Hs). lia. }
  assert (ld0 s i = x) as ->.
  { unfold ld0. rewrite nth_lookup, Hx. done. }
  split; [done|]. apply zseq_byte. rewrite <- Hs. by apply list_elem_of_lookup_2 in Hx.
Qed.

(** Exchanging two cells of the state keeps it a permutation. *)
Lemma arc4_swap s i j : s ≡ₚ zseq 0 256 -> is_u8 i -> is_u8 j ->
  <[Z.to_nat i := u8 (ld0 s j)]> (<[Z.to_nat j := u8 (ld0 s i)]> s) ≡ₚ zseq 0 256.
Proof.
  intros Hs Hi Hj.
  destruct (arc4_perm_lookup s i Hs Hi) as [Li Ri].
  destruct (arc4_perm_lookup s j Hs Hj) as [Lj Rj].
  rewrite !u8_id by done.
  by rewrite Permutation_insert_swap.
Qed.

Lemma arcfour_byte_ok ctx : arc4_ok ctx ->
  is_u8 (arcfour_byte ctx).1 /\ arc4_ok (arcfour_byte ctx).2.
Proof.
  intros [Hx Hy Hp]. unfold arcfour_byte. simpl.
  set (x := (arc4_x ctx + 1) .& 255). set (sx := ld0 _ x).
  set (y := (sx + arc4_y ctx) .& 255).
  assert (is_u8 x) by apply land_255_range. assert (is_u8 y) by apply land_255_range.
  assert (Hp' : <[Z.to_nat x := u8 (ld0 (arc4_state ctx) y)]>
      (<[Z.to_nat y := u8 sx]> (arc4_state ctx)) ≡ₚ zseq 0 256)
    by (apply arc4_swap; done).
  split; [|by constructor].
  by apply arc4_perm_lookup, land_255_range.
Qed.

(** ** Key scheduling is the textbook algorithm *)

(** Textbook key scheduling: [j := j + S[i] + K[i mod len]; swap S[i] S[j]]. *)
Definition ksa_step (key : list Z) (i : Z) (s : Z * list Z) : Z * list Z :=
  let '(j, st) := s in
  let j := (j + ld0 st i + ld0 key (i mod zlen key)) mod 256 in
  (j, <[Z.to_nat i := ld0 st j]> (<[Z.to_nat j := ld0 st i]> st)).

Definition ksa (key : list Z) : list Z := (iter_from 256 0 (ksa_step key) (0, zseq 0 256)).2.

Lemma land_255_mod a : a .& 255 = a mod 256.
Proof. change 255 with (Z.ones 8). by rewrite Z.land_ones. Qed.

Lemma mod_succ_wrap i n : 0 < n -> 0 <= i ->
  (if n <=? i mod n + 1 then 0 else i mod n + 1) = (i + 1) mod n.
Proof.
  intros Hn Hi. pose proof (Z.mod_pos_bound i n Hn). pose proof (Z.div_mod i n).
  destruct (n <=? i mod n + 1) eqn:E; bool_to_prop.
  - apply (Z.mod_unique_pos _ _ (i / n + 1)); lia.
  - apply (Z.mod_unique_pos _ _ (i / n)); lia.
Qed.

Lemma arcfour_init_step_ksa key counter j st :
  key <> [] -> is_u8 counter -> st ≡ₚ zseq 0 256 ->
  let '(j', st') := ksa_step key counter (j, st) in
  arcfour_init_step key (zlen key) counter (counter mod zlen key, j, st) =
    ((counter + 1) mod zlen key, j', st') /\ st' ≡ₚ zseq 0 256.
Proof.
  intros Hk Hc HS. unfold ksa_step, arcfour_init_step.
  assert (0 < zlen key) by (unfold zlen; destruct key; simpl; [done|lia]).
  rewrite mod_succ_wrap by lia.
  replace (j + ld0 key (counter mod zlen key) + ld0 st counter) with
    (j + ld0 st counter + ld0 key (counter mod zlen key)) by lia.
  rewrite land_255_mod. set (j' := _ mod 256).
  assert (Hj : is_u8 j') by (apply Z.mod_pos_bound; lia).
  pose proof (proj2 (arc4_perm_lookup st j' HS Hj)).
  pose proof (proj2 (arc4_perm_lookup st counter HS Hc)).
  rewrite !u8_id by done. split; [done|].
  rewrite <- (u8_id (ld0 st j')), <- (u8_id (ld0 st counter)) by done.
  by apply arc4_swap.
Qed.

Lemma arcfour_init_ksa key : key <> [] ->
  arcfour_init key (zlen key) = mk_arc4 0 0 (ksa key) /\ ksa key ≡ₚ zseq 0 256.
Proof.
  intros Hk. unfold arcfour_init, ksa.
  assert (H : forall n i j st, 0 <= i -> i + Z.of_nat n <= 256 -> st ≡ₚ zseq 0 256 ->
    let '(_, _, state) := iter_from n i (arcfour_init_step key (zlen key)) (i mod zlen key, j, st) in
    state = (iter_from n i (ksa_step key) (j, st)).2 /\ state ≡ₚ zseq 0 256).
  { induction n as [|n IH]; intros i j st Hi Hn HS; [done|]. cbn [iter_from].
    pose proof (arcfour_init_step_ksa key i j st Hk ltac:(lia) HS) as Hstep.
    destruct (ksa_step key i (j, st)) as [j' st'] eqn:E. destruct Hstep as [-> HS'].
    apply IH; [lia|lia|done]. }
  specialize (H 256%nat 0 0 (zseq 0 256) ltac:(lia) ltac:(lia) (reflexivity _)).
  rewrite Zmod_0_l in H.
  destruct (iter_from 256 0 (arcfour_init_step _ _) _) as [[ki si] st].
  destruct H as [-> H]. done.
Qed.

(** ** Encryption *)


Lemma arcfour_encrypt_stream ctx src :
  (arcfour_encrypt ctx src).1 = xor_list src (arcfour_stream ctx (length src)).
Proof.
  revert ctx. induction src as [|b src IH]; intros ctx; [done|].
  cbn [arcfour_encrypt arcfour_stream length].
  destruct (arcfour_byte ctx) as [k ctx']. specialize (IH ctx').
  destruct (arcfour_encrypt ctx' src) as [d ctx'']. cbn [fst snd] in *. by rewrite IH, xor_list_cons.
Qed.

Lemma arcfour_encrypt_length ctx src : length (arcfour_encrypt ctx src).1 = length src.
Proof.
  revert ctx. induction src as [|b src IH]; intros ctx; [done|].
  cbn [arcfour_encrypt arcfour_stream length].
  destruct (arcfour_byte ctx) as [k ctx']. specialize (IH ctx').
  destruct (arcfour_encrypt ctx' src). cbn [fst length] in *. by rewrite IH.
Qed.

(** Encrypting two buffers one after the other is encrypting their concatenation. *)
Lemma arcfour_encrypt_app ctx a b :
  let '(da, ctx1) := arcfour_encrypt ctx a in
  let '(db, ctx2) := arcfour_encrypt ctx1 b in
  arcfour_encrypt ctx (a ++ b) = (da ++ db, ctx2).
Proof.
  revert ctx. induction a as [|x a IH]; intros ctx; cbn [arcfour_encrypt app].
  { by destruct (arcfour_encrypt ctx b). }
  destruct (arcfour_byte ctx) as [k ctx']. specialize (IH ctx').
  destruct (arcfour_encrypt ctx' a) as [da ctx1].
  destruct (arcfour_encrypt ctx1 b) as [db ctx2]. by rewrite IH.
Qed.

Lemma arcfour_stream_length ctx n : length (arcfour_stream ctx n) = n.
Proof.
  revert ctx. induction n as [|n IH]; intros ctx; [done|].
  cbn [arcfour_encrypt arcfour_stream length].
  destruct (arcfour_byte ctx). cbn [length]. by rewrite IH.
Qed.

Lemma arcfour_encrypt_involutive ctx src :
  (arcfour_encrypt ctx (arcfour_encrypt ctx src).1).1 = src.
Proof.
  rewrite (arcfour_encrypt_stream ctx (_).1), arcfour_encrypt_length, arcfour_encrypt_stream.
  apply xor_list_involutive. by rewrite arcfour_stream_length.
Qed.

Lemma arcfour_stream_ok ctx n : bytes_ok (arcfour_stream ctx n).
Proof.
  revert ctx. induction n as [|n IH]; intros ctx; [constructor|].
  cbn [arcfour_stream].
  destruct (arcfour_byte ctx). constructor; [apply u8_range|apply IH].
Qed.

Lemma arcfour_encrypt_ok ctx src : bytes_ok src -> bytes_ok (arcfour_encrypt ctx src).1.
Proof. intros H. rewrite arcfour_encrypt_stream. apply xor_list_ok; [exact H|apply arcfour_stream_ok]. Qed.

Lemma arcfour_encrypt_ctx_ok ctx src : arc4_ok ctx -> arc4_ok (arcfour_encrypt ctx src).2.
Proof.
  revert ctx. induction src as [|b src IH]; intros ctx Hctx; [done|]. cbn [arcfour_encrypt].
  pose proof (arcfour_byte_ok ctx Hctx) as [_ Hc]. destruct (arcfour_byte ctx) as [k ctx'].
  specialize (IH ctx' Hc). by destruct (arcfour_encrypt ctx' src).
Qed.

(** ** Properties *)

(** Key scheduling ([arcfour_init]) is the textbook RC4 key schedule for every
    non-empty key, and leaves a state that is a permutation of the 256 byte values. *)
Theorem arcfour_init_textbook key : key <> [] ->
  arcfour_init key (zlen key) = mk_arc4 0 0 (ksa key) /\ arc4_ok (arcfour_init key (zlen key)).
Proof.
  intros Hk. destruct (arcfour_init_ksa key Hk) as [E Hp]. split; [done|].
  rewrite E. constructor; [simpl; lia..|done].
Qed.

Lemma arcfour_init_textbook_witness : let key := [1; 2; 3; 4; 5] in
  arcfour_init key (zlen key) = mk_arc4 0 0 (ksa key) /\ arc4_ok (arcfour_init key (zlen key)).
Proof. apply (arcfour_init_textbook [1; 2; 3; 4; 5]). discriminate. Defined.

(** Encrypting in several calls is encrypting the concatenation; the second of two
    runs from the same context undoes the first; every byte stays a byte and the context
    stays well formed. *)
Theorem arcfour_encrypt_round_trip ctx a b : arc4_ok ctx -> bytes_ok (a ++ b) ->
  let '(da, ctx1) := arcfour_encrypt ctx a in
  let '(db, ctx2) := arcfour_encrypt ctx1 b in
  arcfour_encrypt ctx (a ++ b) = (da ++ db, ctx2) /\
  (arcfour_encrypt ctx (da ++ db)).1 = a ++ b /\ bytes_ok (da ++ db) /\ arc4_ok ctx2.
Proof.
  intros Hctx Hok. pose proof (arcfour_encrypt_app ctx a b) as Happ.
  destruct (arcfour_encrypt ctx a) as [da ctx1]. destruct (arcfour_encrypt ctx1 b) as [db ctx2].
  split; [done|]. pose proof (arcfour_encrypt_involutive ctx (a ++ b)) as Hinv.
  pose proof (arcfour_encrypt_ok ctx (a ++ b) Hok) as Hbytes.
  pose proof (arcfour_encrypt_ctx_ok ctx (a ++ b) Hctx) as Hc. rewrite Happ in *. done.
Qed.

Lemma arcfour_encrypt_round_trip_witness :
  let ctx := arcfour_init [7; 8; 9] 3 in
  let '(da, ctx1) := arcfour_encrypt ctx [1; 2] in
  let '(db, ctx2) := arcfour_encrypt ctx1 [3] in
  arcfour_encrypt ctx [1; 2; 3] = (da ++ db, ctx2) /\
  (arcfour_encrypt ctx (da ++ db)).1 = [1; 2; 3] /\ bytes_ok (da ++ db) /\ arc4_ok ctx2.
Proof.
  apply (arcfour_encrypt_round_trip (arcfour_init [7; 8; 9] 3) [1; 2] [3]).
  - change 3 with (zlen [7; 8; 9]). destruct (arcfour_init_ksa [7; 8; 9]) as [-> Hp]; [discriminate|].
    constructor; [simpl; lia..|exact Hp].
  - apply bytes_ok_spec. reflexivity.
Defined.
