(* ===== verification/Crc32.v ===== *)
(** * CRC-32 integrity check value (core/rtw_security.c)

    [crc32_init] builds the 256-entry table once (a file-scope flag records it);
    [getcrc32] runs the table-driven computation.  The specification is the
    bit-serial CRC-32 of IEEE 802.3 in its reflected form. *)

From S2P Require Import Prelude.

Definition CRC32_POLY : Z := 0x04c11db7.

Definition crc32_reverseBit (data : Z) : Z :=
  u8 ((data .<< 7) .& 0x80) .| ((data .<< 5) .& 0x40) .| ((data .<< 3) .& 0x20)
    .| ((data .<< 1) .& 0x10) .| ((data .>> 1) .& 0x08) .| ((data .>> 3) .& 0x04)
    .| ((data .>> 5) .& 0x02) .| ((data .>> 7) .& 0x01).

(** The body of the inner loop, [c & 0x80000000 ? (c << 1) ^ CRC32_POLY : (c << 1)] on a [u32]. *)
Definition crc32_shift (c : Z) : Z :=
  if c .& 0x80000000 =? 0 then u32 (c .<< 1) else u32 (c .<< 1) .^ CRC32_POLY.

(** Byte [k] of a [u32] in little-endian memory order. *)
Definition byte_of (c k : Z) : Z := u8 (c .>> (8 * k)).

(** One table entry: [p] points to the bytes of [c], [p1] to those of the entry. *)
Definition crc32_entry (i : Z) : Z :=
  let k := crc32_reverseBit (u8 i) in
  let c := iter_from 8 0 (fun _ c => crc32_shift c) (u32 (k .<< 24)) in
  crc32_reverseBit (byte_of c 3) .| (crc32_reverseBit (byte_of c 2) .<< 8)
    .| (crc32_reverseBit (byte_of c 1) .<< 16) .| (crc32_reverseBit (byte_of c 0) .<< 24).

(** The file-scope variables [bcrc32initialized] and [crc32_table]. *)
Record crc32_globals := mk_crc32_globals { bcrc32initialized : Z; crc32_table : list Z }.

(** The values they have when the module is loaded. *)
Definition crc32_globals0 : crc32_globals := mk_crc32_globals 0 (replicate 256 0).

Definition crc32_init (g : crc32_globals) : crc32_globals :=
  if bcrc32initialized g =? 1 then g
  else mk_crc32_globals 1
    (iter_from 256 0 (fun i tbl => <[Z.to_nat i := crc32_entry i]> tbl) (crc32_table g)).

(** The loop body of [getcrc32]. *)
Definition crc32_update (tbl : list Z) (crc p : Z) : Z :=
  ld0 tbl ((crc .^ p) .& 0xff) .^ (crc .>> 8).

(** [getcrc32 buf len] for [len] the length of [buf]; the flag and the table are
    threaded. *)
Definition getcrc32 (g : crc32_globals) (buf : list Z) : Z * crc32_globals :=
  let g := if bcrc32initialized g =? 0 then crc32_init g else g in
  (u32 (Z.lnot (fold_left (crc32_update (crc32_table g)) buf 0xffffffff)), g).

(** ** Specification: the bit-serial reflected CRC *)

(** One step of the shift register: the reflected polynomial is 0xEDB88320. *)
Definition crc_bit (c : Z) : Z :=
  if Z.odd c then (c .>> 1) .^ 0xEDB88320 else c .>> 1.

Definition crc_byte (crc b : Z) : Z := Nat.iter 8 crc_bit (crc .^ b).

Definition crc32_spec (buf : list Z) : Z :=
  fold_left crc_byte buf 0xffffffff .^ 0xffffffff.

(** ** The step is linear over exclusive or *)

Lemma crc_bit_lxor a b : crc_bit (a .^ b) = crc_bit a .^ crc_bit b.
Proof.
  unfold crc_bit. rewrite Z.shiftr_lxor.
  assert (Z.odd (a .^ b) = xorb (Z.odd a) (Z.odd b)) as ->.
  { rewrite <- !Z.bit0_odd. apply Z.lxor_spec. }
  set (p := 0xEDB88320). generalize (a .>> 1) (b .>> 1). intros x y.
  destruct (Z.odd a), (Z.odd b); simpl; try done.
  - rewrite (Z.lxor_comm y), <- (Z.lxor_assoc _ p y), (Z.lxor_assoc x p p).
    by rewrite Z.lxor_nilpotent, Z.lxor_0_r.
  - by rewrite !Z.lxor_assoc, (Z.lxor_comm y p).
  - by rewrite Z.lxor_assoc.
Qed.

Lemma crc_bits_lxor n a b :
  Nat.iter n crc_bit (a .^ b) = Nat.iter n crc_bit a .^ Nat.iter n crc_bit b.
Proof. induction n as [|n IH]; [done|]. simpl. by rewrite IH, crc_bit_lxor. Qed.

Lemma crc_bits_shiftl n z : Nat.iter n crc_bit (z .<< Z.of_nat n) = z.
Proof.
  induction n as [|n IH]; [apply Z.shiftl_0_r|].
  rewrite Nat.iter_succ_r. rewrite <- IH at 2. f_equal.
  unfold crc_bit. rewrite <- Z.bit0_odd, Z.shiftl_spec_low by lia.
  rewrite Z.shiftr_shiftl_l by lia. f_equal. lia.
Qed.

Lemma split_low8 x : x = (x .& 0xff) .^ ((x .>> 8) .<< 8).
Proof.
  apply Z.bits_inj'. intros n Hn. change 0xff with (Z.ones 8).
  rewrite Z.lxor_spec, Z.land_spec, Z.shiftl_spec by done.
  destruct (Z.lt_ge_cases n 8).
  - rewrite Z.ones_spec_low by lia. rewrite (Z.testbit_neg_r _ (n - 8)) by lia.
    by rewrite xorb_false_r, andb_true_r.
  - rewrite Z.ones_spec_high, Z.shiftr_spec by lia.
    rewrite andb_false_r. simpl. f_equal. lia.
Qed.

(** ** The table *)

Definition crc_table_spec : list Z := map (fun i => Nat.iter 8 crc_bit i) (zseq 0 256).

(** Whatever the table held, [crc32_init] fills it with the bit-serial remainders. *)
Lemma crc32_init_table g : bcrc32initialized g <> 1 -> length (crc32_table g) = 256%nat ->
  crc32_init g = mk_crc32_globals 1 crc_table_spec.
Proof.
  intros Hg Hlen. unfold crc32_init. rewrite (proj2 (Z.eqb_neq _ _) Hg). f_equal.
  rewrite iter_fill by (unfold zlen; lia). rewrite drop_ge, app_nil_r by lia. by vm_compute.
Qed.

Definition crc32_globals_ok (g : crc32_globals) : Prop :=
  (bcrc32initialized g = 0 /\ length (crc32_table g) = 256%nat) \/
  g = mk_crc32_globals 1 crc_table_spec.

Lemma crc32_update_spec crc b : is_u32 crc -> is_u8 b ->
  crc32_update crc_table_spec crc b = crc_byte crc b.
Proof.
  intros Hc Hb. unfold crc32_update, crc_byte.
  rewrite (split_low8 (crc .^ b)) at 2. rewrite crc_bits_lxor.
  rewrite (crc_bits_shiftl 8). f_equal.
  - assert (Hr : is_u8 ((crc .^ b) .& 0xff)) by (apply land_range_r; lia).
    generalize dependent ((crc .^ b) .& 0xff). intros x Hx.
    apply Z.eqb_eq. revert x Hx. by apply forall_byte; vm_compute.
  - rewrite Z.shiftr_lxor.
    replace (b .>> 8) with 0; [by rewrite Z.lxor_0_r|].
    rewrite Z.shiftr_div_pow2 by lia. by rewrite Z.div_small.
Qed.

Lemma crc_bit_range c : is_u32 c -> is_u32 (crc_bit c).
Proof.
  intros H. unfold crc_bit. destruct (Z.odd c); [apply lxor_range; try lia|];
    apply shiftr_range; lia.
Qed.

Lemma crc_byte_range crc b : is_u32 crc -> is_u8 b -> is_u32 (crc_byte crc b).
Proof.
  intros Hc Hb. unfold crc_byte.
  assert (H : is_u32 (crc .^ b)) by (apply lxor_range; lia).
  generalize dependent (crc .^ b). intros x Hx.
  cbn [Nat.iter nat_rect]. by repeat apply crc_bit_range.
Qed.

Lemma crc_fold_range buf crc : is_u32 crc -> bytes_ok buf -> is_u32 (fold_left crc_byte buf crc).
Proof.
  intros Hc Hb. revert crc Hc. induction Hb as [|b buf Hb Hbs IH]; intros crc Hc; [done|].
  apply IH. by apply crc_byte_range.
Qed.

Lemma crc_fold_spec buf crc : is_u32 crc -> bytes_ok buf ->
  fold_left (crc32_update crc_table_spec) buf crc = fold_left crc_byte buf crc.
Proof.
  intros Hc Hb. revert crc Hc. induction Hb as [|b buf Hb Hbs IH]; intros crc Hc; [done|].
  cbn [fold_left]. rewrite crc32_update_spec by done. apply IH. by apply crc_byte_range.
Qed.

(** The complement of a 32-bit value is its exclusive or with all ones. *)
Lemma u32_lnot x : is_u32 x -> u32 (Z.lnot x) = x .^ 0xffffffff.
Proof.
  intros Hx. unfold u32. rewrite <- Z.land_ones by lia. change 0xffffffff with (Z.ones 32).
  apply Z.bits_inj'. intros n Hn. rewrite Z.land_spec, Z.lxor_spec, Z.lnot_spec by done.
  destruct (Z.lt_ge_cases n 32).
  - rewrite Z.ones_spec_low by lia. by destruct (Z.testbit x n).
  - rewrite Z.ones_spec_high by lia. rewrite andb_false_r, xorb_false_r.
    rewrite <- (Z.mod_small x (2 ^ 32)) by done. by rewrite Z.mod_pow2_bits_high by lia.
Qed.

Lemma getcrc32_ok g buf : crc32_globals_ok g -> bytes_ok buf ->
  getcrc32 g buf = (crc32_spec buf, mk_crc32_globals 1 crc_table_spec).
Proof.
  intros Hg Hb. unfold getcrc32.
  assert (Hg' : (if bcrc32initialized g =? 0 then crc32_init g else g) =
    mk_crc32_globals 1 crc_table_spec).
  { destruct Hg as [[H0 Hl]|Hg].
    - rewrite H0. simpl. apply crc32_init_table; [lia|done].
    - by rewrite Hg. }
  rewrite Hg'. cbn [crc32_table]. f_equal.
  rewrite crc_fold_spec by (done || lia).
  apply u32_lnot. apply crc_fold_range; [lia|done].
Qed.

Lemma crc32_spec_range buf : bytes_ok buf -> is_u32 (crc32_spec buf).
Proof.
  intros Hb. unfold crc32_spec. apply lxor_range; try lia. apply crc_fold_range; [lia|done].
Qed.

(** ** Properties *)

(** [getcrc32] computes the bit-serial CRC-32 of the buffer, from any state of the
    lookup table (not yet initialised, with any contents, or initialised), and leaves the
    table initialised for the next call. *)
Theorem getcrc32_is_crc32 g buf : crc32_globals_ok g -> bytes_ok buf ->
  exists g', getcrc32 g buf = (crc32_spec buf, g') /\ crc32_globals_ok g' /\
    bcrc32initialized g' = 1 /\ is_u32 (crc32_spec buf).
Proof.
  intros Hg Hb. exists (mk_crc32_globals 1 crc_table_spec). rewrite getcrc32_ok by done.
  repeat split; try (by apply crc32_spec_range). by right.
Qed.

Lemma getcrc32_is_crc32_witness :
  exists g', getcrc32 crc32_globals0 [0x31; 0x32; 0x33] = (crc32_spec [0x31; 0x32; 0x33], g') /\
    crc32_globals_ok g' /\ bcrc32initialized g' = 1 /\ is_u32 (crc32_spec [0x31; 0x32; 0x33]).
Proof.
  apply (getcrc32_is_crc32 crc32_globals0 [0x31; 0x32; 0x33]).
  - left. split; reflexivity.
  - apply bytes_ok_spec. reflexivity.
Defined.
