(* ===== verification/Michael.v ===== *)
(** * The Michael message integrity code of TKIP (core/rtw_security.c)

    [struct mic_data] accumulates bytes into a 32-bit word and runs the block
    function when the word is full.  The specification is the block function
    folded over the little-endian words of the padded message. *)

From S2P Require Import Prelude.

(** Macros [ROL32] and [ROR32] (include/rtw_security.h) on [u32] operands. *)
Definition ROL32 (A n : Z) : Z :=
  u32 (A .<< n) .| ((A .>> (32 - n)) .& ((1 .<< n) - 1)).
Definition ROR32 (A n : Z) : Z := ROL32 A (32 - n).

(** [struct mic_data]. *)
Record mic_data := mk_mic_data {
  K0 : Z; K1 : Z;
  mic_L : Z; mic_R : Z;
  mic_M : Z;
  nBytesInM : Z
}.

Definition secmicgetuint32 (p : list Z) : Z :=
  iter_from 4 0 (fun i res => res .| (ld0 p i .<< (8 * i))) 0.

Definition secmicputuint32 (val : Z) : list Z :=
  [val .& 0xff; (val .>> 8) .& 0xff; (val .>> 8 .>> 8) .& 0xff; (val .>> 8 .>> 8 .>> 8) .& 0xff].

Definition secmicclear (d : mic_data) : mic_data :=
  mk_mic_data (K0 d) (K1 d) (K0 d) (K1 d) 0 0.

Definition rtw_secmicsetkey (key : list Z) : mic_data :=
  secmicclear (mk_mic_data (secmicgetuint32 key) (secmicgetuint32 (drop 4 key)) 0 0 0 0).

(** The statements that process a full word: the Michael block function on [(L, R)]. *)
Definition michael_block (s : Z * Z) (M : Z) : Z * Z :=
  let '(L, R) := s in
  let L := L .^ M in
  let R := R .^ ROL32 L 17 in
  let L := u32 (L + R) in
  let R := R .^ (((L .& 0xff00ff00) .>> 8) .| ((L .& 0x00ff00ff) .<< 8)) in
  let L := u32 (L + R) in
  let R := R .^ ROL32 L 3 in
  let L := u32 (L + R) in
  let R := R .^ ROR32 L 2 in
  let L := u32 (L + R) in
  (L, R).

Definition rtw_secmicappendbyte (d : mic_data) (b : Z) : mic_data :=
  let M := u32 (mic_M d .| (b .<< (8 * nBytesInM d))) in
  let n := nBytesInM d + 1 in
  if 4 <=? n then
    let LR := michael_block (mic_L d, mic_R d) M in
    mk_mic_data (K0 d) (K1 d) LR.1 LR.2 0 0
  else mk_mic_data (K0 d) (K1 d) (mic_L d) (mic_R d) M n.

(** [while (nbytes > 0)] over the source bytes. *)
Definition rtw_secmicappend (d : mic_data) (src : list Z) : mic_data :=
  fold_left rtw_secmicappendbyte src d.

(** [while (nBytesInM != 0) appendbyte(0)]; [None] when the fuel runs out. *)
Fixpoint secmic_flush (fuel : nat) (d : mic_data) : option mic_data :=
  if nBytesInM d =? 0 then Some d
  else match fuel with
  | O => None
  | S fuel => secmic_flush fuel (rtw_secmicappendbyte d 0)
  end.

Definition rtw_secgetmic (d : mic_data) : option (list Z * mic_data) :=
  let d := rtw_secmicappendbyte d 0x5a in
  let d := rtw_secmicappendbyte d 0 in
  let d := rtw_secmicappendbyte d 0 in
  let d := rtw_secmicappendbyte d 0 in
  let d := rtw_secmicappendbyte d 0 in
  d ← secmic_flush 4 d;
  Some (secmicputuint32 (mic_L d) ++ secmicputuint32 (mic_R d), secmicclear d).

(** [rtw_seccalctkipmic] from the point where the address fields are known: DA, SA, the
    priority word, the data, and the MIC. *)
Definition seccalctkipmic_addrs (key da sa data : list Z) (pri : Z) : option (list Z) :=
  let d := rtw_secmicsetkey key in
  let d := rtw_secmicappend d da in
  let d := rtw_secmicappend d sa in
  let d := rtw_secmicappend d [pri; 0; 0; 0] in
  let d := rtw_secmicappend d data in
  '(mic, _) ← rtw_secgetmic d;
  Some mic.

(** [rtw_seccalctkipmic key header data data_len mic_code pri]: the pseudo header
    is DA, SA, priority and three zero bytes; the frame header is read at the offsets the
    ToDS and FromDS bits select. *)
Definition rtw_seccalctkipmic (key header data : list Z) (pri : Z) : option (list Z) :=
  fc1 ← ld header 1;
  if negb (fc1 .& 1 =? 0) then
    da ← rd header 16 6;
    sa ← (if negb (fc1 .& 2 =? 0) then rd header 24 6 else rd header 10 6);
    seccalctkipmic_addrs key da sa data pri
  else
    da ← rd header 4 6;
    sa ← (if negb (fc1 .& 2 =? 0) then rd header 16 6 else rd header 10 6);
    seccalctkipmic_addrs key da sa data pri.

(** ** Specification *)

(** Little-endian value of a (partial) word. *)
Fixpoint le_word (l : list Z) (sh : Z) : Z :=
  match l with [] => 0 | b :: l' => (b .<< sh) .| le_word l' (sh + 8) end.

(** Absorbs the complete words of a message and returns the unfinished word. *)
Fixpoint michael_absorb (s : Z * Z) (msg : list Z) : (Z * Z) * list Z :=
  match msg with
  | a :: b :: c :: d :: rest => michael_absorb (michael_block s (le_word [a; b; c; d] 0)) rest
  | tail => (s, tail)
  end.

(** The message followed by 0x5a, four zero bytes, and zeroes up to a multiple of 4. *)
Definition michael_pad (msg : list Z) : list Z :=
  msg ++ [0x5a; 0; 0; 0; 0] ++ replicate (Z.to_nat ((- (zlen msg + 5)) mod 4)) 0.

Definition le_bytes4 (v : Z) : list Z :=
  [v .& 0xff; (v .>> 8) .& 0xff; (v .>> 16) .& 0xff; (v .>> 24) .& 0xff].

Definition michael_spec (key msg : list Z) : list Z :=
  let '((l, r), _) := michael_absorb (le_word (take 4 key) 0, le_word (take 4 (drop 4 key)) 0)
                        (michael_pad msg) in
  le_bytes4 l ++ le_bytes4 r.

(** ** Refinement *)

(** The [mic_data] that holds state [s] and the unfinished word [tail]. *)
Definition mic_of (k0 k1 : Z) (s : Z * Z) (tail : list Z) : mic_data :=
  mk_mic_data k0 k1 s.1 s.2 (le_word tail 0) (zlen tail).

Lemma michael_absorb_app s t msg : (length t < 4)%nat ->
  forall x, let '(s', t') := michael_absorb s (t ++ [x]) in
  michael_absorb s (t ++ x :: msg) = michael_absorb s' (t' ++ msg) /\ (length t' < 4)%nat.
Proof.
  intros Ht x. do 4 (destruct t as [|? t]; [cbn; split; [done|lia]|]). simpl in Ht. lia.
Qed.

Lemma le_word_range l : bytes_ok l -> (length l <= 4)%nat -> is_u32 (le_word l 0).
Proof.
  intros Hl Hlen.
  assert (Hsh : forall b sh, is_u8 b -> 0 <= sh <= 24 -> is_u32 (b .<< sh)).
  { intros b sh Hb Hsh. rewrite Z.shiftl_mul_pow2 by lia.
    assert (2 ^ sh <= 2 ^ 24) by (apply Z.pow_le_mono_r; lia). split; [lia|nia]. }
  assert (H : forall l sh, bytes_ok l -> 0 <= sh -> sh + 8 * zlen l <= 32 -> is_u32 (le_word l sh)).
  { clear l Hl Hlen. induction l as [|b l IH]; intros sh Hl Hs Hlen; [simpl; lia|].
    inversion_clear Hl. rewrite zlen_cons in Hlen. pose proof (zlen_nonneg l).
    apply lor_range; [lia|apply Hsh; [done|lia]|apply IH; [done|lia|lia]]. }
  apply H; [done|lia|unfold zlen; lia].
Qed.

Lemma le_word_snoc l b sh : le_word (l ++ [b]) sh = le_word l sh .| (b .<< (sh + 8 * zlen l)).
Proof.
  revert sh. induction l as [|a l IH]; intros sh.
  - simpl. rewrite Z.lor_0_r, Z.add_0_r. done.
  - cbn [le_word app]. rewrite IH, zlen_cons, Z.lor_assoc. do 2 f_equal. lia.
Qed.

Lemma appendbyte_refine k0 k1 s t b : (length t < 4)%nat -> bytes_ok t -> is_u8 b ->
  let '(s', t') := michael_absorb s (t ++ [b]) in
  rtw_secmicappendbyte (mic_of k0 k1 s t) b = mic_of k0 k1 s' t'.
Proof.
  intros Hlen Ht Hb.
  assert (HM : u32 (mic_M (mic_of k0 k1 s t) .| (b .<< (8 * nBytesInM (mic_of k0 k1 s t)))) =
    le_word (t ++ [b]) 0).
  { cbn [mic_of mic_M nBytesInM]. rewrite le_word_snoc, Z.add_0_l, <- (Z.add_0_l (8 * zlen t)).
    rewrite <- le_word_snoc. apply u32_id, le_word_range;
      [auto with crange|rewrite length_app; simpl; lia]. }
  unfold rtw_secmicappendbyte. rewrite HM. clear HM.
  do 4 (destruct t as [|? t]; [by destruct s|]). simpl in Hlen. lia.
Qed.

Lemma michael_absorb_tail s t : (length t < 4)%nat -> michael_absorb s t = (s, t).
Proof. intros. do 4 (destruct t as [|? t]; [done|]). simpl in *. lia. Qed.

Lemma append_refine k0 k1 msg s t : (length t < 4)%nat -> bytes_ok t -> bytes_ok msg ->
  let '(s', t') := michael_absorb s (t ++ msg) in
  rtw_secmicappend (mic_of k0 k1 s t) msg = mic_of k0 k1 s' t' /\
  (length t' < 4)%nat /\ bytes_ok t'.
Proof.
  revert s t. induction msg as [|b msg IH]; intros s t Hlen Ht Hm.
  { rewrite app_nil_r, michael_absorb_tail by done. done. }
  inversion_clear Hm as [|? ? Hb Hm'].
  pose proof (michael_absorb_app s t msg Hlen b) as H1.
  pose proof (appendbyte_refine k0 k1 s t b Hlen Ht Hb) as H2.
  assert (H3 : bytes_ok (michael_absorb s (t ++ [b])).2).
  { assert (bytes_ok (t ++ [b])) by auto with crange.
    do 4 (destruct t as [|? t]; [cbn; try done; by constructor|]). simpl in Hlen. lia. }
  destruct (michael_absorb s (t ++ [b])) as [s1 t1]. destruct H1 as [-> Hlen1].
  unfold rtw_secmicappend in *. cbn [fold_left]. rewrite H2. by apply IH.
Qed.

Lemma le_word_get p : (4 <= length p)%nat -> secmicgetuint32 p = le_word (take 4 p) 0.
Proof.
  intros H. do 4 (destruct p as [|? p]; [simpl in H; lia|]). unfold secmicgetuint32, ld0.
  cbn [iter_from take le_word]. simpl Z.to_nat. simpl Z.mul. simpl Z.add. cbn [nth].
  by rewrite Z.lor_0_l, Z.lor_0_r, !Z.lor_assoc.
Qed.

Lemma put_le_bytes v : secmicputuint32 v = le_bytes4 v.
Proof. unfold secmicputuint32, le_bytes4. by rewrite !Z.shiftr_shiftr by lia. Qed.

(** Padding: the four zeroes of the minimum padding and the loop that follows end on a word
    boundary, with at most three more zeroes. *)
Lemma absorb_snoc_tail s t b : (0 < length t < 4)%nat ->
  (michael_absorb s (t ++ [b])).2 = if decide (length t = 3)%nat then [] else t ++ [b].
Proof. intros H. do 4 (destruct t as [|? t]; [done || (simpl in H; lia)|]). simpl in H. lia. Qed.

Lemma flush_steps k0 k1 m fuel s t :
  (t = [] /\ m = 0 \/ 0 < length t < 4 /\ length t + m = 4)%nat -> (m <= fuel)%nat -> bytes_ok t ->
  let '(s', t') := michael_absorb s (t ++ replicate m 0) in
  secmic_flush fuel (mic_of k0 k1 s t) = Some (mic_of k0 k1 s' []) /\ t' = [].
Proof.
  revert fuel s t. induction m as [|m IH]; intros fuel s t Ht Hf Hok.
  { destruct Ht as [[-> _]|[H1 H2]]; [by destruct fuel|lia]. }
  destruct Ht as [[_ ?]|[H1 H2]]; [done|]. destruct fuel as [|fuel]; [lia|].
  pose proof (michael_absorb_app s t (replicate m 0) ltac:(lia) 0) as Happ.
  pose proof (appendbyte_refine k0 k1 s t 0 ltac:(lia) Hok ltac:(lia)) as Hstep.
  pose proof (absorb_snoc_tail s t 0 H1) as Htail.
  destruct (michael_absorb s (t ++ [0])) as [s1 t1]. simpl in Htail. destruct Happ as [Happ _].
  change (replicate (S m) 0) with (0 :: replicate m 0). rewrite Happ.
  cbn [secmic_flush]. replace (nBytesInM (mic_of k0 k1 s t) =? 0) with false
    by (symmetry; apply Z.eqb_neq; cbn [mic_of nBytesInM]; unfold zlen; lia).
  rewrite Hstep. subst t1. apply IH; [|lia|].
  - case_decide; [left; split; [done|lia]|right]. rewrite length_app. simpl. lia.
  - case_decide; [constructor|]. apply bytes_ok_app_2; [done|]. auto with crange.
Qed.

Lemma getmic_unfold d : rtw_secgetmic d =
  (d ← secmic_flush 4 (rtw_secmicappend d [0x5a; 0; 0; 0; 0]);
   Some (secmicputuint32 (mic_L d) ++ secmicputuint32 (mic_R d), secmicclear d)).
Proof. done. Qed.

(** The MIC of a message absorbed from an arbitrary state [s]. *)
Lemma getmic_refine k0 k1 s t : (length t < 4)%nat -> bytes_ok t ->
  let '(s', t') := michael_absorb s (michael_pad t) in
  rtw_secgetmic (mic_of k0 k1 s t) =
    Some (le_bytes4 s'.1 ++ le_bytes4 s'.2, mk_mic_data k0 k1 k0 k1 0 0) /\ t' = [].
Proof.
  intros Hlen Ht. rewrite getmic_unfold. unfold michael_pad.
  assert (Hpad : bytes_ok [0x5a; 0; 0; 0; 0]) by (apply bytes_ok_spec; done).
  pose proof (append_refine k0 k1 [0x5a; 0; 0; 0; 0] s t Hlen Ht Hpad) as H.
  rewrite app_assoc. set (z := Z.to_nat _).
  assert (Happ : michael_absorb s ((t ++ [0x5a; 0; 0; 0; 0]) ++ replicate z 0) =
    michael_absorb (michael_absorb s (t ++ [0x5a; 0; 0; 0; 0])).1
      ((michael_absorb s (t ++ [0x5a; 0; 0; 0; 0])).2 ++ replicate z 0))
    by (do 4 (destruct t as [|? t]; [done|]); simpl in Hlen; lia).
  assert (Htl : length (michael_absorb s (t ++ [0x5a; 0; 0; 0; 0])).2 =
    ((length t + 5) mod 4)%nat)
    by (do 4 (destruct t as [|? t]; [done|]); simpl in Hlen; lia).
  rewrite Happ. destruct (michael_absorb s (t ++ _)) as [s1 t1]. cbn [fst snd] in *.
  destruct H as (-> & Hlen1 & Hok1).
  assert (Hz : (t1 = [] /\ z = 0 \/ 0 < length t1 < 4 /\ length t1 + z = 4)%nat).
  { subst z. clear -Htl Hlen. unfold zlen. destruct (length t) as [|[|[|[|n]]]]; try lia;
      cbn in Htl; rewrite ?Htl; try (right; vm_compute; lia).
    left. by destruct t1. }
  pose proof (flush_steps k0 k1 z 4 s1 t1 Hz ltac:(lia) Hok1) as Hf.
  destruct (michael_absorb s1 (t1 ++ replicate z 0)) as [s2 t2].
  destruct Hf as [-> ->]. cbn [mbind option_bind]. split; [|done].
  by rewrite !put_le_bytes.
Qed.

Lemma absorb_prefix s a b : michael_absorb s (a ++ b) =
  let '(s', t') := michael_absorb s a in michael_absorb s' (t' ++ b).
Proof.
  assert (H : forall n a s, (length a <= n)%nat -> michael_absorb s (a ++ b) =
    let '(s', t') := michael_absorb s a in michael_absorb s' (t' ++ b)); [|by apply (H (length a))].
  clear. induction n as [|n IH]; intros a s Ha; [by destruct a; [|simpl in Ha; lia]|].
  do 4 (destruct a as [|? a]; [done|]). simpl in Ha.
  change (((z :: z0 :: z1 :: z2 :: a) ++ b)) with (z :: z0 :: z1 :: z2 :: (a ++ b)).
  cbn [michael_absorb]. apply IH. lia.
Qed.

Lemma pad_prefix s msg :
  (let '(s', t') := michael_absorb s msg in michael_absorb s' (michael_pad t')) =
  michael_absorb s (michael_pad msg).
Proof.
  unfold michael_pad at 2. rewrite absorb_prefix.
  assert (Hl : forall n msg s, (length msg <= n)%nat ->
    zlen (michael_absorb s msg).2 mod 4 = zlen msg mod 4).
  { clear. induction n as [|n IH]; intros msg s Hn; [by destruct msg; [|simpl in Hn; lia]|].
    do 4 (destruct msg as [|? msg]; [done|]). simpl in Hn. cbn [michael_absorb].
    rewrite IH by lia. rewrite !zlen_cons. rewrite <- (Z.mod_add (zlen msg) 1) by lia.
    f_equal. lia. }
  specialize (Hl (length msg) msg s (le_n _)).
  destruct (michael_absorb s msg) as [s' t']. unfold michael_pad. cbn [snd] in Hl.
  replace ((- (zlen t' + 5)) mod 4) with ((- (zlen msg + 5)) mod 4); [done|].
  by rewrite <- !Z.sub_0_l, Zminus_mod, Zplus_mod, <- Hl, <- Zplus_mod, <- Zminus_mod.
Qed.

(** Absorbing any message byte by byte after [rtw_secmicsetkey] and finishing with
    [rtw_secgetmic] computes the specification, and leaves the keyed empty state. *)
Lemma michael_correct key msg : (8 <= length key)%nat -> bytes_ok msg ->
  rtw_secgetmic (rtw_secmicappend (rtw_secmicsetkey key) msg) =
    Some (michael_spec key msg, rtw_secmicsetkey key).
Proof.
  intros Hk Hm. unfold rtw_secmicsetkey, michael_spec.
  rewrite !le_word_get by (rewrite ?length_drop; lia).
  set (k0 := le_word (take 4 key) 0). set (k1 := le_word (take 4 (drop 4 key)) 0).
  change (secmicclear (mk_mic_data k0 k1 0 0 0 0)) with (mic_of k0 k1 (k0, k1) []).
  pose proof (append_refine k0 k1 msg (k0, k1) [] ltac:(simpl; lia) bytes_ok_nil Hm) as H.
  rewrite app_nil_l in H. rewrite <- pad_prefix.
  destruct (michael_absorb (k0, k1) msg) as [s t]. destruct H as (-> & Hl & Hok).
  pose proof (getmic_refine k0 k1 s t Hl Hok) as Hg.
  destruct (michael_absorb s (michael_pad t)) as [[l r] t']. destruct Hg as [-> ->]. done.
Qed.

Lemma append_app d a b : rtw_secmicappend (rtw_secmicappend d a) b = rtw_secmicappend d (a ++ b).
Proof. unfold rtw_secmicappend. by rewrite fold_left_app. Qed.

(** ** The MIC of a frame *)

(** Destination and source address of a data frame, selected by the ToDS and FromDS bits from
    the address fields (IEEE 802.11, table of the address fields of data frames). *)
Definition mic_da (to_ds : bool) (a1 a3 : list Z) : list Z := if to_ds then a3 else a1.
Definition mic_sa (to_ds from_ds : bool) (a2 a3 a4 : list Z) : list Z :=
  if from_ds then (if to_ds then a4 else a3) else a2.

Lemma rd_seg (a b c l : list Z) off : l = a ++ b ++ c -> off = zlen a -> zlen b = 6 ->
  rd l off 6 = Some b.
Proof. intros -> ??. by apply rd_mid. Qed.

Lemma calc_addrs_correct key da sa data pri : (8 <= length key)%nat ->
  bytes_ok da -> bytes_ok sa -> bytes_ok data -> is_u8 pri ->
  seccalctkipmic_addrs key da sa data pri = Some (michael_spec key (da ++ sa ++ [pri; 0; 0; 0] ++ data)).
Proof.
  intros Hk Hda Hsa Hdata Hpri. unfold seccalctkipmic_addrs.
  rewrite !append_app, michael_correct; [done|done|].
  auto 10 with crange.
Qed.

Lemma land_bit_eqb x k : 0 <= k -> (x .& (2 ^ k) =? 0) = negb (Z.testbit x k).
Proof.
  intros Hk. destruct (Z.testbit x k) eqn:E; [apply Z.eqb_neq|apply Z.eqb_eq].
  - intros H0. apply (f_equal (fun y => Z.testbit y k)) in H0.
    rewrite Z.land_spec, E, Z.pow2_bits_true, Z.bits_0 in H0 by done. done.
  - apply Z.bits_inj'. intros n Hn. rewrite Z.land_spec, Z.bits_0, Z.pow2_bits_eqb by done.
    destruct (k =? n) eqn:En; bool_to_prop; [subst|]; rewrite ?E; auto using andb_false_r.
Qed.

(** The fields of a data frame header. *)
Definition data_header (fc0 fc1 : Z) (dur a1 a2 a3 sc a4 : list Z) : list Z :=
  [fc0; fc1] ++ dur ++ a1 ++ a2 ++ a3 ++ sc ++ a4.

Lemma data_header_rd fc0 fc1 dur a1 a2 a3 sc a4 :
  zlen dur = 2 -> zlen a1 = 6 -> zlen a2 = 6 -> zlen a3 = 6 -> zlen sc = 2 ->
  let h := data_header fc0 fc1 dur a1 a2 a3 sc a4 in
  ld h 1 = Some fc1 /\ rd h 4 6 = Some a1 /\ rd h 10 6 = Some a2 /\ rd h 16 6 = Some a3 /\
  (zlen a4 = 6 -> rd h 24 6 = Some a4).
Proof.
  intros Hd H1 H2 H3 Hs h. repeat split; [by apply (ld_mid [fc0])|..].
  - apply (rd_seg ([fc0; fc1] ++ dur) a1 (a2 ++ a3 ++ sc ++ a4));
      [by rewrite <- !app_assoc|autorewrite with zlen; lia|done].
  - apply (rd_seg ([fc0; fc1] ++ dur ++ a1) a2 (a3 ++ sc ++ a4));
      [by rewrite <- !app_assoc|autorewrite with zlen; lia|done].
  - apply (rd_seg ([fc0; fc1] ++ dur ++ a1 ++ a2) a3 (sc ++ a4));
      [by rewrite <- !app_assoc|autorewrite with zlen; lia|done].
  - intros H4. apply (rd_seg ([fc0; fc1] ++ dur ++ a1 ++ a2 ++ a3 ++ sc) a4 []);
      [by rewrite app_nil_r, <- !app_assoc|autorewrite with zlen; lia|done].
Qed.

Lemma calctkipmic_correct key fc0 fc1 dur a1 a2 a3 sc a4 data pri :
  let to_ds := Z.testbit fc1 0 in
  let from_ds := Z.testbit fc1 1 in
  (8 <= length key)%nat -> zlen dur = 2 -> zlen a1 = 6 -> zlen a2 = 6 -> zlen a3 = 6 ->
  zlen sc = 2 -> (to_ds && from_ds = true -> zlen a4 = 6) ->
  bytes_ok (a1 ++ a2 ++ a3 ++ a4) -> bytes_ok data -> is_u8 pri ->
  rtw_seccalctkipmic key (data_header fc0 fc1 dur a1 a2 a3 sc a4) data pri =
    Some (michael_spec key
      (mic_da to_ds a1 a3 ++ mic_sa to_ds from_ds a2 a3 a4 ++ [pri; 0; 0; 0] ++ data)).
Proof.
  intros to_ds from_ds Hk Hd H1 H2 H3 Hs H4 Hh Hdata Hpri.
  destruct (data_header_rd fc0 fc1 dur a1 a2 a3 sc a4 Hd H1 H2 H3 Hs) as (Hl & R1 & R2 & R3 & R4).
  unfold rtw_seccalctkipmic. rewrite Hl. cbn [mbind option_bind].
  rewrite (land_bit_eqb fc1 0 ltac:(lia) : (fc1 .& 1 =? 0) = _),
    (land_bit_eqb fc1 1 ltac:(lia) : (fc1 .& 2 =? 0) = _), !negb_involutive.
  fold to_ds from_ds. rewrite !bytes_ok_app in Hh. destruct Hh as (? & ? & ? & ?).
  destruct to_ds, from_ds; rewrite ?R1, ?R2, ?R3, ?R4 by auto; cbn [mbind option_bind];
    by apply calc_addrs_correct.
Qed.

(** ** Properties *)

(** Feeding a message to the Michael interface in any number of pieces and taking the
    MIC gives the Michael MIC of the concatenation, and resets the state for the next
    message. *)
Theorem michael_streaming key msgs : (8 <= length key)%nat -> Forall bytes_ok msgs ->
  rtw_secgetmic (fold_left rtw_secmicappend msgs (rtw_secmicsetkey key)) =
    Some (michael_spec key (concat msgs), rtw_secmicsetkey key).
Proof.
  intros Hk Hm. rewrite <- michael_correct by (done || (by apply Forall_concat)).
  f_equal. generalize (rtw_secmicsetkey key). induction msgs as [|m msgs IH]; intros d; [done|].
  inversion Hm; subst. cbn [fold_left concat]. by rewrite IH, append_app.
Qed.

Lemma michael_streaming_witness : let key := [1; 2; 3; 4; 5; 6; 7; 8] in
  rtw_secgetmic (fold_left rtw_secmicappend [[10; 11; 12]; [13; 14]] (rtw_secmicsetkey key)) =
    Some (michael_spec key (concat [[10; 11; 12]; [13; 14]]), rtw_secmicsetkey key).
Proof.
  apply (michael_streaming [1; 2; 3; 4; 5; 6; 7; 8] [[10; 11; 12]; [13; 14]]).
  - simpl. lia.
  - do 2 (constructor; [apply bytes_ok_spec; reflexivity|]). constructor.
Defined.

(** [rtw_seccalctkipmic] protects the destination and source addresses that the ToDS
    and FromDS bits select, the priority, and the payload, for each of the four
    combinations of the two bits. *)
Theorem seccalctkipmic_frame key fc0 fc1 dur a1 a2 a3 sc a4 data pri :
  let to_ds := Z.testbit fc1 0 in
  let from_ds := Z.testbit fc1 1 in
  (8 <= length key)%nat -> zlen dur = 2 -> zlen a1 = 6 -> zlen a2 = 6 -> zlen a3 = 6 ->
  zlen sc = 2 -> (to_ds && from_ds = true -> zlen a4 = 6) ->
  bytes_ok (a1 ++ a2 ++ a3 ++ a4) -> bytes_ok data -> is_u8 pri ->
  rtw_seccalctkipmic key (data_header fc0 fc1 dur a1 a2 a3 sc a4) data pri =
    Some (michael_spec key
      (mic_da to_ds a1 a3 ++ mic_sa to_ds from_ds a2 a3 a4 ++ [pri; 0; 0; 0] ++ data)).
Proof. intros. by apply calctkipmic_correct. Qed.

Lemma seccalctkipmic_frame_witness :
  rtw_seccalctkipmic (replicate 8 3) (data_header 8 2 [0; 0] (replicate 6 1) (replicate 6 2)
      (replicate 6 3) [0; 0] []) [9; 9] 5 =
    Some (michael_spec (replicate 8 3)
      (mic_da false (replicate 6 1) (replicate 6 3)
       ++ mic_sa false true (replicate 6 2) (replicate 6 3) [] ++ [5; 0; 0; 0] ++ [9; 9])).
Proof.
  apply (seccalctkipmic_frame (replicate 8 3) 8 2 [0; 0] (replicate 6 1) (replicate 6 2)
    (replicate 6 3) [0; 0] [] [9; 9] 5); try reflexivity; try (simpl; lia).
  all: try discriminate; try (apply bytes_ok_spec; reflexivity).
Defined.
