(* ===== verification/Tkip.v ===== *)
(** * TKIP key mixing (core/rtw_security.c, [phase1] and [phase2])

    The per-packet RC4 key of TKIP from the temporal key, the transmitter address
    and the 48-bit sequence counter. *)

From S2P Require Import Prelude.

(** Macros for 16-bit halves and words. *)
Definition RotR1 (v16 : Z) : Z := ((v16 .>> 1) .& 0x7FFF) .^ ((v16 .& 1) .<< 15).
Definition Lo8 (v16 : Z) : Z := u8 (v16 .& 0x00FF).
Definition Hi8 (v16 : Z) : Z := u8 ((v16 .>> 8) .& 0x00FF).
Definition Lo16 (v32 : Z) : Z := u16 (v32 .& 0xFFFF).
Definition Hi16 (v32 : Z) : Z := u16 ((v32 .>> 16) .& 0xFFFF).
Definition Mk16 (hi lo : Z) : Z := lo .^ (u16 hi .<< 8).
Definition TK16 (tk : list Z) (N : Z) : Z := Mk16 (ld0 tk (2 * N + 1)) (ld0 tk (2 * N)).

Definition Sbox1_0 : list Z := [
   0xC6A5; 0xF884; 0xEE99; 0xF68D; 0xFF0D; 0xD6BD; 0xDEB1; 0x9154;
   0x6050; 0x0203; 0xCEA9; 0x567D; 0xE719; 0xB562; 0x4DE6; 0xEC9A;
   0x8F45; 0x1F9D; 0x8940; 0xFA87; 0xEF15; 0xB2EB; 0x8EC9; 0xFB0B;
   0x41EC; 0xB367; 0x5FFD; 0x45EA; 0x23BF; 0x53F7; 0xE496; 0x9B5B;
   0x75C2; 0xE11C; 0x3DAE; 0x4C6A; 0x6C5A; 0x7E41; 0xF502; 0x834F;
   0x685C; 0x51F4; 0xD134; 0xF908; 0xE293; 0xAB73; 0x6253; 0x2A3F;
   0x080C; 0x9552; 0x4665; 0x9D5E; 0x3028; 0x37A1; 0x0A0F; 0x2FB5;
   0x0E09; 0x2436; 0x1B9B; 0xDF3D; 0xCD26; 0x4E69; 0x7FCD; 0xEA9F;
   0x121B; 0x1D9E; 0x5874; 0x342E; 0x362D; 0xDCB2; 0xB4EE; 0x5BFB;
   0xA4F6; 0x764D; 0xB761; 0x7DCE; 0x527B; 0xDD3E; 0x5E71; 0x1397;
   0xA6F5; 0xB968; 0x0000; 0xC12C; 0x4060; 0xE31F; 0x79C8; 0xB6ED;
   0xD4BE; 0x8D46; 0x67D9; 0x724B; 0x94DE; 0x98D4; 0xB0E8; 0x854A;
   0xBB6B; 0xC52A; 0x4FE5; 0xED16; 0x86C5; 0x9AD7; 0x6655; 0x1194;
   0x8ACF; 0xE910; 0x0406; 0xFE81; 0xA0F0; 0x7844; 0x25BA; 0x4BE3;
   0xA2F3; 0x5DFE; 0x80C0; 0x058A; 0x3FAD; 0x21BC; 0x7048; 0xF104;
   0x63DF; 0x77C1; 0xAF75; 0x4263; 0x2030; 0xE51A; 0xFD0E; 0xBF6D;
   0x814C; 0x1814; 0x2635; 0xC32F; 0xBEE1; 0x35A2; 0x88CC; 0x2E39;
   0x9357; 0x55F2; 0xFC82; 0x7A47; 0xC8AC; 0xBAE7; 0x322B; 0xE695;
   0xC0A0; 0x1998; 0x9ED1; 0xA37F; 0x4466; 0x547E; 0x3BAB; 0x0B83;
   0x8CCA; 0xC729; 0x6BD3; 0x283C; 0xA779; 0xBCE2; 0x161D; 0xAD76;
   0xDB3B; 0x6456; 0x744E; 0x141E; 0x92DB; 0x0C0A; 0x486C; 0xB8E4;
   0x9F5D; 0xBD6E; 0x43EF; 0xC4A6; 0x39A8; 0x31A4; 0xD337; 0xF28B;
   0xD532; 0x8B43; 0x6E59; 0xDAB7; 0x018C; 0xB164; 0x9CD2; 0x49E0;
   0xD8B4; 0xACFA; 0xF307; 0xCF25; 0xCAAF; 0xF48E; 0x47E9; 0x1018;
   0x6FD5; 0xF088; 0x4A6F; 0x5C72; 0x3824; 0x57F1; 0x73C7; 0x9751;
   0xCB23; 0xA17C; 0xE89C; 0x3E21; 0x96DD; 0x61DC; 0x0D86; 0x0F85;
   0xE090; 0x7C42; 0x71C4; 0xCCAA; 0x90D8; 0x0605; 0xF701; 0x1C12;
   0xC2A3; 0x6A5F; 0xAEF9; 0x69D0; 0x1791; 0x9958; 0x3A27; 0x27B9;
   0xD938; 0xEB13; 0x2BB3; 0x2233; 0xD2BB; 0xA970; 0x0789; 0x33A7;
   0x2DB6; 0x3C22; 0x1592; 0xC920; 0x8749; 0xAAFF; 0x5078; 0xA57A;
   0x038F; 0x59F8; 0x0980; 0x1A17; 0x65DA; 0xD731; 0x84C6; 0xD0B8;
   0x82C3; 0x29B0; 0x5A77; 0x1E11; 0x7BCB; 0xA8FC; 0x6DD6; 0x2C3A].

Definition Sbox1_1 : list Z := [
   0xA5C6; 0x84F8; 0x99EE; 0x8DF6; 0x0DFF; 0xBDD6; 0xB1DE; 0x5491;
   0x5060; 0x0302; 0xA9CE; 0x7D56; 0x19E7; 0x62B5; 0xE64D; 0x9AEC;
   0x458F; 0x9D1F; 0x4089; 0x87FA; 0x15EF; 0xEBB2; 0xC98E; 0x0BFB;
   0xEC41; 0x67B3; 0xFD5F; 0xEA45; 0xBF23; 0xF753; 0x96E4; 0x5B9B;
   0xC275; 0x1CE1; 0xAE3D; 0x6A4C; 0x5A6C; 0x417E; 0x02F5; 0x4F83;
   0x5C68; 0xF451; 0x34D1; 0x08F9; 0x93E2; 0x73AB; 0x5362; 0x3F2A;
   0x0C08; 0x5295; 0x6546; 0x5E9D; 0x2830; 0xA137; 0x0F0A; 0xB52F;
   0x090E; 0x3624; 0x9B1B; 0x3DDF; 0x26CD; 0x694E; 0xCD7F; 0x9FEA;
   0x1B12; 0x9E1D; 0x7458; 0x2E34; 0x2D36; 0xB2DC; 0xEEB4; 0xFB5B;
   0xF6A4; 0x4D76; 0x61B7; 0xCE7D; 0x7B52; 0x3EDD; 0x715E; 0x9713;
   0xF5A6; 0x68B9; 0x0000; 0x2CC1; 0x6040; 0x1FE3; 0xC879; 0xEDB6;
   0xBED4; 0x468D; 0xD967; 0x4B72; 0xDE94; 0xD498; 0xE8B0; 0x4A85;
   0x6BBB; 0x2AC5; 0xE54F; 0x16ED; 0xC586; 0xD79A; 0x5566; 0x9411;
   0xCF8A; 0x10E9; 0x0604; 0x81FE; 0xF0A0; 0x4478; 0xBA25; 0xE34B;
   0xF3A2; 0xFE5D; 0xC080; 0x8A05; 0xAD3F; 0xBC21; 0x4870; 0x04F1;
   0xDF63; 0xC177; 0x75AF; 0x6342; 0x3020; 0x1AE5; 0x0EFD; 0x6DBF;
   0x4C81; 0x1418; 0x3526; 0x2FC3; 0xE1BE; 0xA235; 0xCC88; 0x392E;
   0x5793; 0xF255; 0x82FC; 0x477A; 0xACC8; 0xE7BA; 0x2B32; 0x95E6;
   0xA0C0; 0x9819; 0xD19E; 0x7FA3; 0x6644; 0x7E54; 0xAB3B; 0x830B;
   0xCA8C; 0x29C7; 0xD36B; 0x3C28; 0x79A7; 0xE2BC; 0x1D16; 0x76AD;
   0x3BDB; 0x5664; 0x4E74; 0x1E14; 0xDB92; 0x0A0C; 0x6C48; 0xE4B8;
   0x5D9F; 0x6EBD; 0xEF43; 0xA6C4; 0xA839; 0xA431; 0x37D3; 0x8BF2;
   0x32D5; 0x438B; 0x596E; 0xB7DA; 0x8C01; 0x64B1; 0xD29C; 0xE049;
   0xB4D8; 0xFAAC; 0x07F3; 0x25CF; 0xAFCA; 0x8EF4; 0xE947; 0x1810;
   0xD56F; 0x88F0; 0x6F4A; 0x725C; 0x2438; 0xF157; 0xC773; 0x5197;
   0x23CB; 0x7CA1; 0x9CE8; 0x213E; 0xDD96; 0xDC61; 0x860D; 0x850F;
   0x90E0; 0x427C; 0xC471; 0xAACC; 0xD890; 0x0506; 0x01F7; 0x121C;
   0xA3C2; 0x5F6A; 0xF9AE; 0xD069; 0x9117; 0x5899; 0x273A; 0xB927;
   0x38D9; 0x13EB; 0xB32B; 0x3322; 0xBBD2; 0x70A9; 0x8907; 0xA733;
   0xB62D; 0x223C; 0x9215; 0x20C9; 0x4987; 0xFFAA; 0x7850; 0x7AA5;
   0x8F03; 0xF859; 0x8009; 0x171A; 0xDA65; 0x31D7; 0xC684; 0xB8D0;
   0xC382; 0xB029; 0x775A; 0x111E; 0xCB7B; 0xFCA8; 0xD66D; 0x3A2C].

(** The S-box lookup macro [_S_]. *)
Definition S_ (v16 : Z) : Z := ld0 Sbox1_0 (Lo8 v16) .^ ld0 Sbox1_1 (Hi8 v16).

Definition PHASE1_LOOP_CNT : nat := 8.

(** The array [p1k[5]]. *)
Record p1k_t := mk_p1k { p1k0 : Z; p1k1 : Z; p1k2 : Z; p1k3 : Z; p1k4 : Z }.

(** One iteration of the loop of [phase1]; every [+=] is on a [u16]. *)
Definition phase1_step (tk : list Z) (i : Z) (p : p1k_t) : p1k_t :=
  let q0 := u16 (p1k0 p + S_ (p1k4 p .^ TK16 tk ((i .& 1) + 0))) in
  let q1 := u16 (p1k1 p + S_ (q0 .^ TK16 tk ((i .& 1) + 2))) in
  let q2 := u16 (p1k2 p + S_ (q1 .^ TK16 tk ((i .& 1) + 4))) in
  let q3 := u16 (p1k3 p + S_ (q2 .^ TK16 tk ((i .& 1) + 6))) in
  let q4 := u16 (p1k4 p + S_ (q3 .^ TK16 tk ((i .& 1) + 0))) in
  mk_p1k q0 q1 q2 q3 (u16 (q4 + u16 i)).

Definition phase1 (tk ta : list Z) (iv32 : Z) : p1k_t :=
  iter_from PHASE1_LOOP_CNT 0 (phase1_step tk)
    (mk_p1k (Lo16 iv32) (Hi16 iv32)
      (Mk16 (ld0 ta 1) (ld0 ta 0)) (Mk16 (ld0 ta 3) (ld0 ta 2)) (Mk16 (ld0 ta 5) (ld0 ta 4))).

(** The array [PPK[6]] after the mixing steps of [phase2]. *)
Definition phase2_ppk (tk : list Z) (p : p1k_t) (iv16 : Z) : list Z :=
  let k5 := u16 (p1k4 p + iv16) in
  let k0 := u16 (p1k0 p + S_ (k5 .^ TK16 tk 0)) in
  let k1 := u16 (p1k1 p + S_ (k0 .^ TK16 tk 1)) in
  let k2 := u16 (p1k2 p + S_ (k1 .^ TK16 tk 2)) in
  let k3 := u16 (p1k3 p + S_ (k2 .^ TK16 tk 3)) in
  let k4 := u16 (p1k4 p + S_ (k3 .^ TK16 tk 4)) in
  let k5 := u16 (k5 + S_ (k4 .^ TK16 tk 5)) in
  let k0 := u16 (k0 + RotR1 (k5 .^ TK16 tk 6)) in
  let k1 := u16 (k1 + RotR1 (k0 .^ TK16 tk 7)) in
  let k2 := u16 (k2 + RotR1 k1) in
  let k3 := u16 (k3 + RotR1 k2) in
  let k4 := u16 (k4 + RotR1 k3) in
  let k5 := u16 (k5 + RotR1 k4) in
  [k0; k1; k2; k3; k4; k5].

Definition phase2 (tk : list Z) (p : p1k_t) (iv16 : Z) : list Z :=
  let PPK := phase2_ppk tk p iv16 in
  [Hi8 iv16; (Hi8 iv16 .| 0x20) .& 0x7F; Lo8 iv16; Lo8 ((ld0 PPK 5 .^ TK16 tk 0) .>> 1)]
  ++ concat (map (fun k => [Lo8 k; Hi8 k]) PPK).

(** ** Ranges *)

Record p1k_ok (p : p1k_t) : Prop := {
  p1k_ok0 : is_u16 (p1k0 p); p1k_ok1 : is_u16 (p1k1 p); p1k_ok2 : is_u16 (p1k2 p);
  p1k_ok3 : is_u16 (p1k3 p); p1k_ok4 : is_u16 (p1k4 p)
}.

Lemma Mk16_add hi lo : is_u8 hi -> is_u8 lo -> Mk16 hi lo = lo + hi * 2 ^ 8.
Proof. intros Hh Hl. unfold Mk16. rewrite u16_id by lia. by apply lxor_shiftl_add. Qed.

Lemma Mk16_range hi lo : is_u8 hi -> is_u8 lo -> is_u16 (Mk16 hi lo).
Proof. intros Hh Hl. rewrite Mk16_add by done. lia. Qed.

Lemma Lo8_mod v : Lo8 v = v mod 2 ^ 8.
Proof.
  unfold Lo8, u8. rewrite (land_mask v 8) by lia. by rewrite Z.mod_mod.
Qed.
Lemma Hi8_div v : is_u16 v -> Hi8 v = v / 2 ^ 8.
Proof.
  intros Hv. unfold Hi8, u8. rewrite (land_mask _ 8) by lia.
  rewrite Z.mod_mod, Z.shiftr_div_pow2 by lia. apply Z.mod_small.
  split; [apply Z.div_pos; lia|apply Z.div_lt_upper_bound; lia].
Qed.
Lemma Lo16_mod v : Lo16 v = v mod 2 ^ 16.
Proof.
  unfold Lo16, u16. rewrite (land_mask v 16) by lia. by rewrite Z.mod_mod.
Qed.
Lemma Hi16_div v : is_u32 v -> Hi16 v = v / 2 ^ 16.
Proof.
  intros Hv. unfold Hi16, u16. rewrite (land_mask _ 16) by lia.
  rewrite Z.mod_mod, Z.shiftr_div_pow2 by lia. apply Z.mod_small.
  split; [apply Z.div_pos; lia|apply Z.div_lt_upper_bound; lia].
Qed.

(** The bytes of the key material. *)
Lemma halves_inj v w : is_u16 v -> is_u16 w -> Lo8 v = Lo8 w -> Hi8 v = Hi8 w -> v = w.
Proof.
  intros Hv Hw Hl Hh. rewrite !Lo8_mod in Hl. rewrite !Hi8_div in Hh by done.
  by apply (div_mod_inj v w (2 ^ 8)).
Qed.

Lemma u16_add_inj a b k : is_u16 a -> is_u16 b -> u16 (a + k) = u16 (b + k) -> a = b.
Proof. apply add_mod_inj. Qed.

#[local] Opaque S_ RotR1.

Lemma phase1_step_ok tk i p : p1k_ok (phase1_step tk i p).
Proof. constructor; apply u16_range. Qed.

(** Each round of phase 1 is injective: it is an unbalanced Feistel round. *)
Lemma phase1_step_inj tk i p q : p1k_ok p -> p1k_ok q ->
  phase1_step tk i p = phase1_step tk i q -> p = q.
Proof.
  intros [P0 P1 P2 P3 P4] [Q0 Q1 Q2 Q3 Q4] H. unfold phase1_step in H.
  injection H as E0 E1 E2 E3 E4.
  apply (u16_add_inj _ _ _ (u16_range _) (u16_range _)) in E4.
  rewrite E3 in E4. apply u16_add_inj in E4; [|done|done].
  rewrite E2 in E3. apply u16_add_inj in E3; [|done|done].
  rewrite E1 in E2. apply u16_add_inj in E2; [|done|done].
  rewrite E0 in E1. apply u16_add_inj in E1; [|done|done].
  rewrite E4 in E0. apply u16_add_inj in E0; [|done|done].
  destruct p, q; simpl in *; congruence.
Qed.

Lemma phase1_iter_inj tk n i p q : p1k_ok p -> p1k_ok q ->
  iter_from n i (phase1_step tk) p = iter_from n i (phase1_step tk) q -> p = q.
Proof.
  revert i p q. induction n as [|n IH]; intros i p q Hp Hq H; [done|].
  cbn [iter_from] in H. apply IH in H; [|apply phase1_step_ok..].
  by apply phase1_step_inj in H.
Qed.

Lemma six_bytes (l : list Z) : zlen l = 6 ->
  exists a b c d e f, l = [a; b; c; d; e; f].
Proof.
  unfold zlen. intros H. do 6 (destruct l as [|? l]; [simpl in H; lia|]).
  destruct l; [|simpl in H; lia]. by eauto 10.
Qed.

(** The initial block determines the address and the upper half of the counter. *)
Lemma p1k_init_inj ta ta' iv iv' : bytes_ok ta -> bytes_ok ta' -> zlen ta = 6 -> zlen ta' = 6 ->
  is_u32 iv -> is_u32 iv' ->
  Lo16 iv = Lo16 iv' -> Hi16 iv = Hi16 iv' ->
  Mk16 (ld0 ta 1) (ld0 ta 0) = Mk16 (ld0 ta' 1) (ld0 ta' 0) ->
  Mk16 (ld0 ta 3) (ld0 ta 2) = Mk16 (ld0 ta' 3) (ld0 ta' 2) ->
  Mk16 (ld0 ta 5) (ld0 ta 4) = Mk16 (ld0 ta' 5) (ld0 ta' 4) -> ta = ta' /\ iv = iv'.
Proof.
  intros Hta Hta' Hl Hl' Hiv Hiv' Elo Ehi E1 E2 E3. split.
  - rewrite !Mk16_add in E1, E2, E3 by (by apply bytes_ok_nth).
    destruct (six_bytes ta Hl) as (a0 & a1 & a2 & a3 & a4 & a5 & ->).
    destruct (six_bytes ta' Hl') as (b0 & b1 & b2 & b3 & b4 & b5 & ->).
    unfold bytes_ok in Hta, Hta'. rewrite !Forall_cons_iff in Hta, Hta'.
    unfold ld0 in E1, E2, E3. simpl in *. repeat f_equal; lia.
  - rewrite !Lo16_mod in Elo. rewrite !Hi16_div in Ehi by done.
    by apply (div_mod_inj iv iv' (2 ^ 16)).
Qed.

Lemma p1k_init_ok ta iv : bytes_ok ta -> p1k_ok (mk_p1k (Lo16 iv) (Hi16 iv)
  (Mk16 (ld0 ta 1) (ld0 ta 0)) (Mk16 (ld0 ta 3) (ld0 ta 2)) (Mk16 (ld0 ta 5) (ld0 ta 4))).
Proof. intros H. constructor; cbn; try apply u16_range; apply Mk16_range; by apply bytes_ok_nth. Qed.

Lemma phase1_iter_ok tk n i p : (0 < n)%nat -> p1k_ok (iter_from n i (phase1_step tk) p).
Proof.
  revert i p. induction n as [|n IH]; intros i p Hn; [lia|]. cbn [iter_from].
  destruct n as [|n]; [apply phase1_step_ok|]. apply IH. lia.
Qed.

Lemma phase1_ok tk ta iv : p1k_ok (phase1 tk ta iv).
Proof. unfold phase1. apply phase1_iter_ok. unfold PHASE1_LOOP_CNT. lia. Qed.

Lemma phase1_inj tk ta ta' iv iv' :
  bytes_ok ta -> bytes_ok ta' -> zlen ta = 6 -> zlen ta' = 6 -> is_u32 iv -> is_u32 iv' ->
  phase1 tk ta iv = phase1 tk ta' iv' -> ta = ta' /\ iv = iv'.
Proof.
  intros ?????? H. unfold phase1 in H.
  apply phase1_iter_inj in H; [|by apply p1k_init_ok..].
  injection H. intros. by apply p1k_init_inj.
Qed.

(** Phase 2 is a keyed permutation of the block and the lower half of the counter. *)
Lemma phase2_ppk_inj tk p q iv iv' : p1k_ok p -> p1k_ok q -> is_u16 iv -> is_u16 iv' ->
  phase2_ppk tk p iv = phase2_ppk tk q iv' -> p = q /\ iv = iv'.
Proof.
  intros [P0 P1 P2 P3 P4] [Q0 Q1 Q2 Q3 Q4] Hiv Hiv' H. unfold phase2_ppk in H.
  injection H as F0 F1 F2 F3 F4 F5.
  pose proof u16_range as U.
  rewrite F4 in F5. apply u16_add_inj in F5; [|done..].
  rewrite F3 in F4. apply u16_add_inj in F4; [|done..].
  rewrite F2 in F3. apply u16_add_inj in F3; [|done..].
  rewrite F1 in F2. apply u16_add_inj in F2; [|done..].
  rewrite F0 in F1. apply u16_add_inj in F1; [|done..].
  rewrite F5 in F0. apply u16_add_inj in F0; [|done..].
  rewrite F4 in F5. apply u16_add_inj in F5; [|done..].
  rewrite F3 in F4. apply u16_add_inj in F4; [|done..].
  rewrite F2 in F3. apply u16_add_inj in F3; [|done..].
  rewrite F1 in F2. apply u16_add_inj in F2; [|done..].
  rewrite F0 in F1. apply u16_add_inj in F1; [|done..].
  rewrite F5 in F0. apply u16_add_inj in F0; [|done..].
  rewrite F4, !(Z.add_comm (p1k4 q)) in F5. apply u16_add_inj in F5; [|done..].
  split; [destruct p, q; simpl in *; congruence|done].
Qed.

Lemma phase2_ppk_ok tk p iv : Forall (fun x => is_u16 x) (phase2_ppk tk p iv).
Proof. unfold phase2_ppk. repeat constructor; apply u16_range. Qed.

Lemma le_pairs_inj l l' : Forall (fun x => is_u16 x) l -> Forall (fun x => is_u16 x) l' ->
  concat (map (fun k => [Lo8 k; Hi8 k]) l) = concat (map (fun k => [Lo8 k; Hi8 k]) l') -> l = l'.
Proof.
  intros Hl. revert l'. induction Hl as [|x l Hx Hl IH]; intros l' Hl' H.
  - destruct l'; [done|discriminate].
  - destruct Hl' as [|y l' Hy Hl']; [discriminate|]. cbn in H. injection H as E1 E2 E3.
    f_equal; [by apply halves_inj|by apply IH].
Qed.

Lemma phase2_inj tk p q iv iv' : p1k_ok p -> p1k_ok q -> is_u16 iv -> is_u16 iv' ->
  phase2 tk p iv = phase2 tk q iv' -> p = q /\ iv = iv'.
Proof.
  intros Hp Hq Hiv Hiv' H. unfold phase2 in H.
  apply app_inj_1 in H as [_ H]; [|done].
  apply le_pairs_inj in H; [|apply phase2_ppk_ok..]. by apply phase2_ppk_inj in H.
Qed.

Lemma phase2_length tk p iv : length (phase2 tk p iv) = 16%nat.
Proof. done. Qed.

Lemma phase2_bytes_ok tk p iv : bytes_ok (phase2 tk p iv).
Proof.
  unfold phase2. apply bytes_ok_app_2.
  - repeat apply bytes_ok_cons; try apply u8_range; [|apply bytes_ok_nil].
    apply land_range_r. lia.
  - apply Forall_concat, Forall_fmap, Forall_forall. intros x _.
    repeat apply bytes_ok_cons; try apply u8_range. apply bytes_ok_nil.
Qed.

(** ** Properties *)

(** Under one temporal key, different transmitter addresses or different packet
    numbers give different RC4 keys: phase 1 followed by phase 2 is injective. *)
Theorem tkip_mixing_injective tk ta ta' iv32 iv32' iv16 iv16' :
  bytes_ok ta -> bytes_ok ta' -> zlen ta = 6 -> zlen ta' = 6 ->
  is_u32 iv32 -> is_u32 iv32' -> is_u16 iv16 -> is_u16 iv16' ->
  phase2 tk (phase1 tk ta iv32) iv16 = phase2 tk (phase1 tk ta' iv32') iv16' ->
  ta = ta' /\ iv32 = iv32' /\ iv16 = iv16'.
Proof.
  intros. destruct (phase2_inj tk (phase1 tk ta iv32) (phase1 tk ta' iv32') iv16 iv16') as [Hp ->];
    try done; try apply phase1_ok.
  by destruct (phase1_inj tk ta ta' iv32 iv32').
Qed.

Lemma tkip_mixing_injective_witness :
  let tk := zseq 0 16 in let ta := [1; 2; 3; 4; 5; 6] in
  ta = ta /\ 0x01020304 = 0x01020304 /\ 0x0506 = 0x0506.
Proof.
  apply (tkip_mixing_injective (zseq 0 16) [1; 2; 3; 4; 5; 6] [1; 2; 3; 4; 5; 6]
    0x01020304 0x01020304 0x0506 0x0506); try (apply bytes_ok_spec); try reflexivity; lia.
Defined.

(** Every RC4 key of TKIP has the shape that avoids the weak keys of WEP: 16 bytes,
    the first and third carry the low packet number, and the second has bit 5 set and
    bit 7 clear, so that it is never 255. *)
Theorem tkip_key_not_weak tk p iv16 : is_u16 iv16 ->
  let k := phase2 tk p iv16 in
  zlen k = 16 /\ bytes_ok k /\ ld0 k 0 = iv16 / 256 /\ ld0 k 2 = iv16 mod 256 /\
  Z.testbit (ld0 k 1) 5 = true /\ Z.testbit (ld0 k 1) 7 = false /\ ld0 k 1 <> 255.
Proof.
  intros Hiv k. assert (Hk1 : ld0 k 1 = (Hi8 iv16 .| 0x20) .& 0x7F) by done.
  assert (H5 : Z.testbit (ld0 k 1) 5 = true).
  { rewrite Hk1, Z.land_spec, Z.lor_spec. change (Z.testbit 0x20 5) with true.
    change (Z.testbit 0x7F 5) with true. by rewrite orb_true_r. }
  assert (H7 : Z.testbit (ld0 k 1) 7 = false).
  { rewrite Hk1, Z.land_spec. change (Z.testbit 0x7F 7) with false. apply andb_false_r. }
  repeat split; try done; try apply phase2_bytes_ok.
  - change (ld0 k 0) with (Hi8 iv16). by apply Hi8_div.
  - change (ld0 k 2) with (Lo8 iv16). apply Lo8_mod.
  - intros H. rewrite H in H7. done.
Qed.

Lemma tkip_key_not_weak_witness :
  let k := phase2 (zseq 0 16) (phase1 (zseq 0 16) [1; 2; 3; 4; 5; 6] 9) 0xFFFF in
  zlen k = 16 /\ bytes_ok k /\ ld0 k 0 = 0xFFFF / 256 /\ ld0 k 2 = 0xFFFF mod 256 /\
  Z.testbit (ld0 k 1) 5 = true /\ Z.testbit (ld0 k 1) 7 = false /\ ld0 k 1 <> 255.
Proof.
  apply (tkip_key_not_weak (zseq 0 16) (phase1 (zseq 0 16) [1; 2; 3; 4; 5; 6] 9) 0xFFFF). lia.
Defined.
