(* ===== verification/Aes.v ===== *)
(** * AES-128 (core/rtw_security.c)

    The file holds two implementations of the AES-128 block encryption:
    [aes128k128d], byte oriented, used by the software CCMP code, and
    [rijndaelEncrypt], table driven, used by OMAC1.  Both are modelled, and they
    are proved to compute the same function. *)

From Stdlib Require Import Btauto.
From S2P Require Import Prelude.

(** ** The byte-oriented implementation *)

Definition sbox_table : list Z := [
   0x63; 0x7c; 0x77; 0x7b; 0xf2; 0x6b; 0x6f; 0xc5; 0x30; 0x01; 0x67; 0x2b; 0xfe; 0xd7; 0xab; 0x76;
   0xca; 0x82; 0xc9; 0x7d; 0xfa; 0x59; 0x47; 0xf0; 0xad; 0xd4; 0xa2; 0xaf; 0x9c; 0xa4; 0x72; 0xc0;
   0xb7; 0xfd; 0x93; 0x26; 0x36; 0x3f; 0xf7; 0xcc; 0x34; 0xa5; 0xe5; 0xf1; 0x71; 0xd8; 0x31; 0x15;
   0x04; 0xc7; 0x23; 0xc3; 0x18; 0x96; 0x05; 0x9a; 0x07; 0x12; 0x80; 0xe2; 0xeb; 0x27; 0xb2; 0x75;
   0x09; 0x83; 0x2c; 0x1a; 0x1b; 0x6e; 0x5a; 0xa0; 0x52; 0x3b; 0xd6; 0xb3; 0x29; 0xe3; 0x2f; 0x84;
   0x53; 0xd1; 0x00; 0xed; 0x20; 0xfc; 0xb1; 0x5b; 0x6a; 0xcb; 0xbe; 0x39; 0x4a; 0x4c; 0x58; 0xcf;
   0xd0; 0xef; 0xaa; 0xfb; 0x43; 0x4d; 0x33; 0x85; 0x45; 0xf9; 0x02; 0x7f; 0x50; 0x3c; 0x9f; 0xa8;
   0x51; 0xa3; 0x40; 0x8f; 0x92; 0x9d; 0x38; 0xf5; 0xbc; 0xb6; 0xda; 0x21; 0x10; 0xff; 0xf3; 0xd2;
   0xcd; 0x0c; 0x13; 0xec; 0x5f; 0x97; 0x44; 0x17; 0xc4; 0xa7; 0x7e; 0x3d; 0x64; 0x5d; 0x19; 0x73;
   0x60; 0x81; 0x4f; 0xdc; 0x22; 0x2a; 0x90; 0x88; 0x46; 0xee; 0xb8; 0x14; 0xde; 0x5e; 0x0b; 0xdb;
   0xe0; 0x32; 0x3a; 0x0a; 0x49; 0x06; 0x24; 0x5c; 0xc2; 0xd3; 0xac; 0x62; 0x91; 0x95; 0xe4; 0x79;
   0xe7; 0xc8; 0x37; 0x6d; 0x8d; 0xd5; 0x4e; 0xa9; 0x6c; 0x56; 0xf4; 0xea; 0x65; 0x7a; 0xae; 0x08;
   0xba; 0x78; 0x25; 0x2e; 0x1c; 0xa6; 0xb4; 0xc6; 0xe8; 0xdd; 0x74; 0x1f; 0x4b; 0xbd; 0x8b; 0x8a;
   0x70; 0x3e; 0xb5; 0x66; 0x48; 0x03; 0xf6; 0x0e; 0x61; 0x35; 0x57; 0xb9; 0x86; 0xc1; 0x1d; 0x9e;
   0xe1; 0xf8; 0x98; 0x11; 0x69; 0xd9; 0x8e; 0x94; 0x9b; 0x1e; 0x87; 0xe9; 0xce; 0x55; 0x28; 0xdf;
   0x8c; 0xa1; 0x89; 0x0d; 0xbf; 0xe6; 0x42; 0x68; 0x41; 0x99; 0x2d; 0x0f; 0xb0; 0x54; 0xbb; 0x16].

Definition sbox (a : Z) : Z := ld0 sbox_table a.

Definition xor_128 (a b : list Z) : list Z :=
  map (fun i => ld0 a i .^ ld0 b i) (zseq 0 16).
Definition xor_32 (a b : list Z) : list Z :=
  map (fun i => ld0 a i .^ ld0 b i) (zseq 0 4).

Definition rcon_table : list Z :=
  [0x01; 0x02; 0x04; 0x08; 0x10; 0x20; 0x40; 0x80; 0x1b; 0x36; 0x36; 0x36].

(** The key [key] after [next_key(key, round)]: four words updated in place. *)
Definition next_key (key : list Z) (round : Z) : list Z :=
  let sbox_key := [sbox (ld0 key 13); sbox (ld0 key 14); sbox (ld0 key 15); sbox (ld0 key 12)] in
  let rcon := ld0 rcon_table round in
  let w0 := xor_32 (take 4 key) sbox_key in
  let w0 := <[0%nat := ld0 w0 0 .^ rcon]> w0 in
  let w1 := xor_32 (take 4 (drop 4 key)) w0 in
  let w2 := xor_32 (take 4 (drop 8 key)) w1 in
  let w3 := xor_32 (take 4 (drop 12 key)) w2 in
  w0 ++ w1 ++ w2 ++ w3.

Definition byte_sub (l : list Z) : list Z := map (fun i => sbox (ld0 l i)) (zseq 0 16).

Definition shift_row (l : list Z) : list Z :=
  [ld0 l 0; ld0 l 5; ld0 l 10; ld0 l 15; ld0 l 4; ld0 l 9; ld0 l 14; ld0 l 3;
   ld0 l 8; ld0 l 13; ld0 l 2; ld0 l 7; ld0 l 12; ld0 l 1; ld0 l 6; ld0 l 11].

(** One iteration of the loop [for (i = 3; i > 0; i--)] of [mix_column] that shifts the
    four bytes of [andf7] left by one bit. *)
Definition mix_shift (i : Z) (andf7 : list Z) : list Z :=
  let v := u8 (ld0 andf7 i .<< 1) in
  let v := if ld0 andf7 (i - 1) .& 0x80 =? 0x80 then v .| 0x01 else v in
  <[Z.to_nat i := v]> andf7.

Definition mix_column (l : list Z) : list Z :=
  let add1b := map (fun i => if ld0 l i .& 0x80 =? 0x80 then 0x1b else 0x00) (zseq 0 4) in
  let swap_halfs := [ld0 l 2; ld0 l 3; ld0 l 0; ld0 l 1] in
  let rotl := [ld0 l 3; ld0 l 0; ld0 l 1; ld0 l 2] in
  let andf7 := [ld0 l 0 .& 0x7f; ld0 l 1 .& 0x7f; ld0 l 2 .& 0x7f; ld0 l 3 .& 0x7f] in
  let andf7 := mix_shift 1 (mix_shift 2 (mix_shift 3 andf7)) in
  let a0 := u8 (ld0 andf7 0 .<< 1) .& 0xfe in
  let andf7 := <[0%nat := a0]> andf7 in
  let add1bf7 := xor_32 add1b andf7 in
  let rotr := xor_32 l add1bf7 in
  let rotr := [ld0 rotr 1; ld0 rotr 2; ld0 rotr 3; ld0 rotr 0] in
  let temp := xor_32 add1bf7 rotr in
  let tempb := xor_32 swap_halfs rotl in
  xor_32 temp tempb.

(** The body of the round loop of [aes128k128d] on [(round_key, ciphertext)]. *)
Definition aes_round (data : list Z) (round : Z) (s : list Z * list Z) : list Z * list Z :=
  let '(round_key, ciphertext) := s in
  if round =? 0 then (next_key round_key round, xor_128 round_key data)
  else if round =? 10 then
    let intermediatea := byte_sub ciphertext in
    let intermediateb := shift_row intermediatea in
    (round_key, xor_128 intermediateb round_key)
  else
    let intermediatea := byte_sub ciphertext in
    let intermediateb := shift_row intermediatea in
    let intermediatea := mix_column intermediateb ++ mix_column (drop 4 intermediateb)
      ++ mix_column (drop 8 intermediateb) ++ mix_column (drop 12 intermediateb) in
    (next_key round_key round, xor_128 intermediatea round_key).

Definition aes128k128d (key data : list Z) : list Z :=
  (iter_from 11 0 (aes_round data) (take 16 key, replicate 16 0)).2.

(** ** The table-driven implementation *)

Definition Te0 : list Z := [
   0xc66363a5; 0xf87c7c84; 0xee777799; 0xf67b7b8d; 0xfff2f20d; 0xd66b6bbd;
   0xde6f6fb1; 0x91c5c554; 0x60303050; 0x02010103; 0xce6767a9; 0x562b2b7d;
   0xe7fefe19; 0xb5d7d762; 0x4dababe6; 0xec76769a; 0x8fcaca45; 0x1f82829d;
   0x89c9c940; 0xfa7d7d87; 0xeffafa15; 0xb25959eb; 0x8e4747c9; 0xfbf0f00b;
   0x41adadec; 0xb3d4d467; 0x5fa2a2fd; 0x45afafea; 0x239c9cbf; 0x53a4a4f7;
   0xe4727296; 0x9bc0c05b; 0x75b7b7c2; 0xe1fdfd1c; 0x3d9393ae; 0x4c26266a;
   0x6c36365a; 0x7e3f3f41; 0xf5f7f702; 0x83cccc4f; 0x6834345c; 0x51a5a5f4;
   0xd1e5e534; 0xf9f1f108; 0xe2717193; 0xabd8d873; 0x62313153; 0x2a15153f;
   0x0804040c; 0x95c7c752; 0x46232365; 0x9dc3c35e; 0x30181828; 0x379696a1;
   0x0a05050f; 0x2f9a9ab5; 0x0e070709; 0x24121236; 0x1b80809b; 0xdfe2e23d;
   0xcdebeb26; 0x4e272769; 0x7fb2b2cd; 0xea75759f; 0x1209091b; 0x1d83839e;
   0x582c2c74; 0x341a1a2e; 0x361b1b2d; 0xdc6e6eb2; 0xb45a5aee; 0x5ba0a0fb;
   0xa45252f6; 0x763b3b4d; 0xb7d6d661; 0x7db3b3ce; 0x5229297b; 0xdde3e33e;
   0x5e2f2f71; 0x13848497; 0xa65353f5; 0xb9d1d168; 0x00000000; 0xc1eded2c;
   0x40202060; 0xe3fcfc1f; 0x79b1b1c8; 0xb65b5bed; 0xd46a6abe; 0x8dcbcb46;
   0x67bebed9; 0x7239394b; 0x944a4ade; 0x984c4cd4; 0xb05858e8; 0x85cfcf4a;
   0xbbd0d06b; 0xc5efef2a; 0x4faaaae5; 0xedfbfb16; 0x864343c5; 0x9a4d4dd7;
   0x66333355; 0x11858594; 0x8a4545cf; 0xe9f9f910; 0x04020206; 0xfe7f7f81;
   0xa05050f0; 0x783c3c44; 0x259f9fba; 0x4ba8a8e3; 0xa25151f3; 0x5da3a3fe;
   0x804040c0; 0x058f8f8a; 0x3f9292ad; 0x219d9dbc; 0x70383848; 0xf1f5f504;
   0x63bcbcdf; 0x77b6b6c1; 0xafdada75; 0x42212163; 0x20101030; 0xe5ffff1a;
   0xfdf3f30e; 0xbfd2d26d; 0x81cdcd4c; 0x180c0c14; 0x26131335; 0xc3ecec2f;
   0xbe5f5fe1; 0x359797a2; 0x884444cc; 0x2e171739; 0x93c4c457; 0x55a7a7f2;
   0xfc7e7e82; 0x7a3d3d47; 0xc86464ac; 0xba5d5de7; 0x3219192b; 0xe6737395;
   0xc06060a0; 0x19818198; 0x9e4f4fd1; 0xa3dcdc7f; 0x44222266; 0x542a2a7e;
   0x3b9090ab; 0x0b888883; 0x8c4646ca; 0xc7eeee29; 0x6bb8b8d3; 0x2814143c;
   0xa7dede79; 0xbc5e5ee2; 0x160b0b1d; 0xaddbdb76; 0xdbe0e03b; 0x64323256;
   0x743a3a4e; 0x140a0a1e; 0x924949db; 0x0c06060a; 0x4824246c; 0xb85c5ce4;
   0x9fc2c25d; 0xbdd3d36e; 0x43acacef; 0xc46262a6; 0x399191a8; 0x319595a4;
   0xd3e4e437; 0xf279798b; 0xd5e7e732; 0x8bc8c843; 0x6e373759; 0xda6d6db7;
   0x018d8d8c; 0xb1d5d564; 0x9c4e4ed2; 0x49a9a9e0; 0xd86c6cb4; 0xac5656fa;
   0xf3f4f407; 0xcfeaea25; 0xca6565af; 0xf47a7a8e; 0x47aeaee9; 0x10080818;
   0x6fbabad5; 0xf0787888; 0x4a25256f; 0x5c2e2e72; 0x381c1c24; 0x57a6a6f1;
   0x73b4b4c7; 0x97c6c651; 0xcbe8e823; 0xa1dddd7c; 0xe874749c; 0x3e1f1f21;
   0x964b4bdd; 0x61bdbddc; 0x0d8b8b86; 0x0f8a8a85; 0xe0707090; 0x7c3e3e42;
   0x71b5b5c4; 0xcc6666aa; 0x904848d8; 0x06030305; 0xf7f6f601; 0x1c0e0e12;
   0xc26161a3; 0x6a35355f; 0xae5757f9; 0x69b9b9d0; 0x17868691; 0x99c1c158;
   0x3a1d1d27; 0x279e9eb9; 0xd9e1e138; 0xebf8f813; 0x2b9898b3; 0x22111133;
   0xd26969bb; 0xa9d9d970; 0x078e8e89; 0x339494a7; 0x2d9b9bb6; 0x3c1e1e22;
   0x15878792; 0xc9e9e920; 0x87cece49; 0xaa5555ff; 0x50282878; 0xa5dfdf7a;
   0x038c8c8f; 0x59a1a1f8; 0x09898980; 0x1a0d0d17; 0x65bfbfda; 0xd7e6e631;
   0x844242c6; 0xd06868b8; 0x824141c3; 0x299999b0; 0x5a2d2d77; 0x1e0f0f11;
   0x7bb0b0cb; 0xa85454fc; 0x6dbbbbd6; 0x2c16163a].

Definition rcons : list Z := [0x01; 0x02; 0x04; 0x08; 0x10; 0x20; 0x40; 0x80; 0x1B; 0x36].

(** Macros of include/rtw_security.h. *)
Definition rotr (val bits : Z) : Z := (val .>> bits) .| u32 (val .<< (32 - bits)).
Definition RCON (i : Z) : Z := ld0 rcons i .<< 24.
Definition GETU32 (pt : list Z) : Z :=
  (ld0 pt 0 .<< 24) .^ (ld0 pt 1 .<< 16) .^ (ld0 pt 2 .<< 8) .^ ld0 pt 3.
Definition PUTU32 (st : Z) : list Z := [u8 (st .>> 24); u8 (st .>> 16); u8 (st .>> 8); u8 st].
Definition TE0 (i : Z) : Z := ld0 Te0 ((i .>> 24) .& 0xff).
Definition TE1 (i : Z) : Z := rotr (ld0 Te0 ((i .>> 16) .& 0xff)) 8.
Definition TE2 (i : Z) : Z := rotr (ld0 Te0 ((i .>> 8) .& 0xff)) 16.
Definition TE3 (i : Z) : Z := rotr (ld0 Te0 (i .& 0xff)) 24.
Definition TE41 (i : Z) : Z := u32 (ld0 Te0 ((i .>> 24) .& 0xff) .<< 8) .& 0xff000000.
Definition TE42 (i : Z) : Z := ld0 Te0 ((i .>> 16) .& 0xff) .& 0x00ff0000.
Definition TE43 (i : Z) : Z := ld0 Te0 ((i .>> 8) .& 0xff) .& 0x0000ff00.
Definition TE44 (i : Z) : Z := (ld0 Te0 (i .& 0xff) .>> 8) .& 0x000000ff.
Definition TE421 (i : Z) : Z := u32 (ld0 Te0 ((i .>> 16) .& 0xff) .<< 8) .& 0xff000000.
Definition TE432 (i : Z) : Z := ld0 Te0 ((i .>> 8) .& 0xff) .& 0x00ff0000.
Definition TE443 (i : Z) : Z := ld0 Te0 (i .& 0xff) .& 0x0000ff00.
Definition TE414 (i : Z) : Z := (ld0 Te0 ((i .>> 24) .& 0xff) .>> 8) .& 0x000000ff.

(** [rijndaelKeySetupEnc]: iteration [i] appends four words to the schedule; [rk += 4]
    makes the previous four words [rk[0..3]]. *)
Definition key_setup_step (i : Z) (rk : list Z) : list Z :=
  let r k := ld0 rk (4 * i + k) in
  let temp := r 3 in
  let rk4 := r 0 .^ TE421 temp .^ TE432 temp .^ TE443 temp .^ TE414 temp .^ RCON i in
  let rk5 := r 1 .^ rk4 in
  let rk6 := r 2 .^ rk5 in
  let rk7 := r 3 .^ rk6 in
  rk ++ [rk4; rk5; rk6; rk7].

Definition rijndaelKeySetupEnc (cipherKey : list Z) : list Z :=
  iter_from 10 0 key_setup_step
    [GETU32 cipherKey; GETU32 (drop 4 cipherKey); GETU32 (drop 8 cipherKey);
     GETU32 (drop 12 cipherKey)].

(** The macro [ROUND(i,d,s)]: words [4i .. 4i+3] of [rk] are the round key. *)
Definition ROUND (rk : list Z) (i : Z) (s : Z * Z * Z * Z) : Z * Z * Z * Z :=
  let '(s0, s1, s2, s3) := s in
  (TE0 s0 .^ TE1 s1 .^ TE2 s2 .^ TE3 s3 .^ ld0 rk (4 * i),
   TE0 s1 .^ TE1 s2 .^ TE2 s3 .^ TE3 s0 .^ ld0 rk (4 * i + 1),
   TE0 s2 .^ TE1 s3 .^ TE2 s0 .^ TE3 s1 .^ ld0 rk (4 * i + 2),
   TE0 s3 .^ TE1 s0 .^ TE2 s1 .^ TE3 s2 .^ ld0 rk (4 * i + 3)).

(** [for (;;) { ROUND(1,t,s); rk += 8; if (--r == 0) break; ROUND(0,s,t); }]; returns the
    state [t] and the advanced [rk]. *)
Fixpoint rijndael_rounds (r : nat) (rk : list Z) (s : Z * Z * Z * Z) : (Z * Z * Z * Z) * list Z :=
  let t := ROUND rk 1 s in
  let rk := drop 8 rk in
  match r with
  | O | S O => (t, rk)
  | S r => rijndael_rounds r rk (ROUND rk 0 t)
  end.

Definition rijndaelEncrypt (rk pt : list Z) : list Z :=
  let s0 := GETU32 pt .^ ld0 rk 0 in
  let s1 := GETU32 (drop 4 pt) .^ ld0 rk 1 in
  let s2 := GETU32 (drop 8 pt) .^ ld0 rk 2 in
  let s3 := GETU32 (drop 12 pt) .^ ld0 rk 3 in
  let '((t0, t1, t2, t3), rk) := rijndael_rounds 5 rk (s0, s1, s2, s3) in
  PUTU32 (TE41 t0 .^ TE42 t1 .^ TE43 t2 .^ TE44 t3 .^ ld0 rk 0)
  ++ PUTU32 (TE41 t1 .^ TE42 t2 .^ TE43 t3 .^ TE44 t0 .^ ld0 rk 1)
  ++ PUTU32 (TE41 t2 .^ TE42 t3 .^ TE43 t0 .^ TE44 t1 .^ ld0 rk 2)
  ++ PUTU32 (TE41 t3 .^ TE42 t0 .^ TE43 t1 .^ TE44 t2 .^ ld0 rk 3).

(** [aes_encrypt_init] returns the key schedule, or fails when the key length is not 16
    ([rtw_malloc] is assumed to succeed). *)
Definition aes_encrypt_init (key : list Z) (len : Z) : option (list Z) :=
  if len =? 16 then Some (rijndaelKeySetupEnc key) else None.

Definition aes_128_encrypt (ctx plain : list Z) : list Z := rijndaelEncrypt ctx plain.

(** ** Words as packed bytes *)

(** Equalities between exclusive-or expressions, up to associativity and commutativity. *)
Ltac lxor_ac := apply Z.bits_inj'; intros ? _; rewrite ?Z.lxor_spec; btauto.

Definition pack (a b c d : Z) : Z := GETU32 [a; b; c; d].

Lemma pack_lxor a b c d a' b' c' d' :
  pack (a .^ a') (b .^ b') (c .^ c') (d .^ d') = pack a b c d .^ pack a' b' c' d'.
Proof. unfold pack, GETU32, ld0. simpl nth. rewrite !Z.shiftl_lxor. lxor_ac. Qed.

Lemma pack_add a b c d : is_u8 a -> is_u8 b -> is_u8 c -> is_u8 d ->
  pack a b c d = a * 2 ^ 24 + b * 2 ^ 16 + c * 2 ^ 8 + d.
Proof.
  intros Ha Hb Hc Hd. unfold pack, GETU32, ld0. simpl nth.
  replace ((a .<< 24) .^ (b .<< 16) .^ (c .<< 8) .^ d) with
    (d .^ ((c .^ ((b .^ (a .<< 8)) .<< 8)) .<< 8))
    by (rewrite !Z.shiftl_lxor, !Z.shiftl_shiftl by lia; change (8 + (8 + 8)) with 24;
        change (8 + 8) with 16; lxor_ac).
  rewrite !lxor_shiftl_add by lia. lia.
Qed.

Section pack_bytes.
Context (a b c d : Z) (Ha : is_u8 a) (Hb : is_u8 b) (Hc : is_u8 c) (Hd : is_u8 d).

Lemma pack_byte3 : (pack a b c d .>> 24) .& 0xff = a.
Proof using All.
  rewrite (land_mask _ 8), Z.shiftr_div_pow2, pack_add by lia.
  Z.div_mod_to_equations. lia.
Qed.
Lemma pack_byte2 : (pack a b c d .>> 16) .& 0xff = b.
Proof using All.
  rewrite (land_mask _ 8), Z.shiftr_div_pow2, pack_add by lia.
  Z.div_mod_to_equations. lia.
Qed.
Lemma pack_byte1 : (pack a b c d .>> 8) .& 0xff = c.
Proof using All.
  rewrite (land_mask _ 8), Z.shiftr_div_pow2, pack_add by lia.
  Z.div_mod_to_equations. lia.
Qed.
Lemma pack_byte0 : pack a b c d .& 0xff = d.
Proof using All.
  rewrite (land_mask _ 8), pack_add by lia. Z.div_mod_to_equations. lia.
Qed.

(** Rotations of a word rotate its bytes. *)
Lemma rotr_pack8 : rotr (pack a b c d) 8 = pack d a b c.
Proof using All.
  unfold rotr, u32. rewrite !pack_add, Z.shiftr_div_pow2, Z.shiftl_mul_pow2 by lia.
  replace (_ / 2 ^ 8) with (a * 2 ^ 16 + b * 2 ^ 8 + c) by (Z.div_mod_to_equations; lia).
  replace (_ mod 2 ^ 32) with (d .<< 24)
    by (rewrite Z.shiftl_mul_pow2 by lia; Z.div_mod_to_equations; lia).
  rewrite lor_shiftl_add by lia. lia.
Qed.
Lemma rotr_pack16 : rotr (pack a b c d) 16 = pack c d a b.
Proof using All.
  unfold rotr, u32. rewrite !pack_add, Z.shiftr_div_pow2, Z.shiftl_mul_pow2 by lia.
  replace (_ / 2 ^ 16) with (a * 2 ^ 8 + b) by (Z.div_mod_to_equations; lia).
  replace (_ mod 2 ^ 32) with ((c * 2 ^ 8 + d) .<< 16)
    by (rewrite Z.shiftl_mul_pow2 by lia; Z.div_mod_to_equations; lia).
  rewrite lor_shiftl_add by lia. lia.
Qed.
Lemma rotr_pack24 : rotr (pack a b c d) 24 = pack b c d a.
Proof using All.
  unfold rotr, u32. rewrite !pack_add, Z.shiftr_div_pow2, Z.shiftl_mul_pow2 by lia.
  replace (_ / 2 ^ 24) with a by (Z.div_mod_to_equations; lia).
  replace (_ mod 2 ^ 32) with ((b * 2 ^ 16 + c * 2 ^ 8 + d) .<< 8)
    by (rewrite Z.shiftl_mul_pow2 by lia; Z.div_mod_to_equations; lia).
  rewrite lor_shiftl_add by lia. lia.
Qed.

Lemma PUTU32_pack : PUTU32 (pack a b c d) = [a; b; c; d].
Proof using All.
  unfold PUTU32, u8. rewrite !Z.shiftr_div_pow2, pack_add by lia.
  f_equal; [|f_equal; [|f_equal; [|f_equal]]]; Z.div_mod_to_equations; lia.
Qed.
End pack_bytes.

(** ** The S-box, doubling, and the table *)

Lemma sbox_range x : is_u8 x -> is_u8 (sbox x).
Proof.
  intros Hx. assert (H : (0 <=? sbox x) && (sbox x <? 256) = true).
  { revert x Hx. apply forall_byte. by vm_compute. }
  bool_to_prop. lia.
Qed.

(** Multiplication by 2 in the field of AES. *)
Definition xtime (x : Z) : Z := (if x .& 0x80 =? 0x80 then 0x1b else 0) .^ u8 (x .<< 1).

Lemma xtime_range x : is_u8 x -> is_u8 (xtime x).
Proof.
  intros Hx. assert (H : (0 <=? xtime x) && (xtime x <? 256) = true).
  { revert x Hx. apply forall_byte. by vm_compute. }
  bool_to_prop. lia.
Qed.

(** [Te0[x]] packs [2 S, S, S, 3 S] for [S] the S-box value of [x]. *)
Lemma Te0_pack x : is_u8 x ->
  ld0 Te0 x = pack (xtime (sbox x)) (sbox x) (sbox x) (xtime (sbox x) .^ sbox x).
Proof. intros Hx. apply Z.eqb_eq. revert x Hx. apply forall_byte. by vm_compute. Qed.

Lemma Te0_last3 x : is_u8 x -> u32 (ld0 Te0 x .<< 8) .& 0xff000000 = pack (sbox x) 0 0 0.
Proof. intros Hx. apply Z.eqb_eq. revert x Hx. apply forall_byte. by vm_compute. Qed.
Lemma Te0_last2 x : is_u8 x -> ld0 Te0 x .& 0x00ff0000 = pack 0 (sbox x) 0 0.
Proof. intros Hx. apply Z.eqb_eq. revert x Hx. apply forall_byte. by vm_compute. Qed.
Lemma Te0_last1 x : is_u8 x -> ld0 Te0 x .& 0x0000ff00 = pack 0 0 (sbox x) 0.
Proof. intros Hx. apply Z.eqb_eq. revert x Hx. apply forall_byte. by vm_compute. Qed.
Lemma Te0_last0 x : is_u8 x -> (ld0 Te0 x .>> 8) .& 0x000000ff = pack 0 0 0 (sbox x).
Proof. intros Hx. apply Z.eqb_eq. revert x Hx. apply forall_byte. by vm_compute. Qed.

(** ** Mixing one column *)

Lemma map_zseq4 {A} (f : Z -> A) : map f (zseq 0 4) = [f 0; f 1; f 2; f 3].
Proof. done. Qed.
Lemma xor_32_eq a b : xor_32 a b =
  [ld0 a 0 .^ ld0 b 0; ld0 a 1 .^ ld0 b 1; ld0 a 2 .^ ld0 b 2; ld0 a 3 .^ ld0 b 3].
Proof. done. Qed.

Definition mixc (a b c d : Z) : Z := (xtime a .^ (b .^ xtime b)) .^ (c .^ d).

Lemma andf7_low x : x .& 0x7f .& 0x80 = 0.
Proof. rewrite <- Z.land_assoc. apply Z.land_0_r. Qed.

Lemma shift_xtime x : is_u8 x ->
  (if x .& 0x80 =? 0x80 then 0x1b else 0) .^ u8 ((x .& 0x7f) .<< 1) = xtime x.
Proof. intros Hx. apply Z.eqb_eq. revert x Hx. apply forall_byte. by vm_compute. Qed.
Lemma shift_xtime0 x : is_u8 x ->
  (if x .& 0x80 =? 0x80 then 0x1b else 0) .^ (u8 ((x .& 0x7f) .<< 1) .& 0xfe) = xtime x.
Proof. intros Hx. apply Z.eqb_eq. revert x Hx. apply forall_byte. by vm_compute. Qed.

Lemma mix_shift_low i l : ld0 l (i - 1) .& 0x80 = 0 ->
  mix_shift i l = <[Z.to_nat i := u8 (ld0 l i .<< 1)]> l.
Proof. intros H. unfold mix_shift. by rewrite H. Qed.

Lemma mix_column_mixc a b c d l : is_u8 a -> is_u8 b -> is_u8 c -> is_u8 d ->
  mix_column (a :: b :: c :: d :: l) = [mixc a b c d; mixc b c d a; mixc c d a b; mixc d a b c].
Proof.
  intros Ha Hb Hc Hd. unfold mix_column.
  set (l0 := a :: b :: c :: d :: l).
  assert (E : mix_shift 1 (mix_shift 2 (mix_shift 3 [a .& 0x7f; b .& 0x7f; c .& 0x7f; d .& 0x7f])) =
    [a .& 0x7f; u8 ((b .& 0x7f) .<< 1); u8 ((c .& 0x7f) .<< 1); u8 ((d .& 0x7f) .<< 1)]).
  { rewrite (mix_shift_low 3), (mix_shift_low 2), (mix_shift_low 1) by apply andf7_low. done. }
  change (ld0 l0 0) with a. change (ld0 l0 1) with b. change (ld0 l0 2) with c.
  change (ld0 l0 3) with d. rewrite E, map_zseq4, !xor_32_eq. unfold l0. clear E l0.
  cbn [insert list_insert]. ld0_eval. unfold mixc.
  rewrite !shift_xtime, !shift_xtime0 by done. done.
Qed.

Lemma column_mix a b c d : is_u8 a -> is_u8 b -> is_u8 c -> is_u8 d ->
  ld0 Te0 a .^ rotr (ld0 Te0 b) 8 .^ rotr (ld0 Te0 c) 16 .^ rotr (ld0 Te0 d) 24 =
    pack (mixc (sbox a) (sbox b) (sbox c) (sbox d)) (mixc (sbox b) (sbox c) (sbox d) (sbox a))
      (mixc (sbox c) (sbox d) (sbox a) (sbox b)) (mixc (sbox d) (sbox a) (sbox b) (sbox c)).
Proof.
  intros Ha Hb Hc Hd. rewrite !Te0_pack by done.
  pose proof (sbox_range a Ha). pose proof (sbox_range b Hb).
  pose proof (sbox_range c Hc). pose proof (sbox_range d Hd).
  assert (forall s, is_u8 s -> is_u8 (xtime s .^ s))
    by (intros; apply lxor_range; [lia|by apply xtime_range|done]).
  rewrite rotr_pack8, rotr_pack16, rotr_pack24 by auto using xtime_range.
  rewrite <- !pack_lxor. unfold mixc. f_equal; lxor_ac.
Qed.

(** ** Blocks as four words *)

Lemma block16 (l : list Z) : length l = 16%nat ->
  exists a0 a1 a2 a3 b0 b1 b2 b3 c0 c1 c2 c3 d0 d1 d2 d3,
    l = [a0; a1; a2; a3; b0; b1; b2; b3; c0; c1; c2; c3; d0; d1; d2; d3].
Proof.
  intros H. do 16 (destruct l as [|? l]; [discriminate|]). destruct l; [|discriminate].
  by repeat eexists.
Qed.

Definition words (l : list Z) : Z * Z * Z * Z :=
  (GETU32 l, GETU32 (drop 4 l), GETU32 (drop 8 l), GETU32 (drop 12 l)).
Definition wlist (l : list Z) : list Z :=
  [GETU32 l; GETU32 (drop 4 l); GETU32 (drop 8 l); GETU32 (drop 12 l)].

(** [words] and the steps of a round on a block given by its bytes. *)
Section explicit_block.
Context (a0 a1 a2 a3 b0 b1 b2 b3 c0 c1 c2 c3 d0 d1 d2 d3 : Z).
Let blk := [a0; a1; a2; a3; b0; b1; b2; b3; c0; c1; c2; c3; d0; d1; d2; d3].

Lemma words_blk : words blk =
  (pack a0 a1 a2 a3, pack b0 b1 b2 b3, pack c0 c1 c2 c3, pack d0 d1 d2 d3).
Proof using Type. done. Qed.
Lemma wlist_blk : wlist blk =
  [pack a0 a1 a2 a3; pack b0 b1 b2 b3; pack c0 c1 c2 c3; pack d0 d1 d2 d3].
Proof using Type. done. Qed.
Lemma shift_sub_blk : shift_row (byte_sub blk) =
  [sbox a0; sbox b1; sbox c2; sbox d3; sbox b0; sbox c1; sbox d2; sbox a3;
   sbox c0; sbox d1; sbox a2; sbox b3; sbox d0; sbox a1; sbox b2; sbox c3].
Proof using Type. done. Qed.
End explicit_block.

Lemma xor_128_blk a0 a1 a2 a3 b0 b1 b2 b3 c0 c1 c2 c3 d0 d1 d2 d3
    e0 e1 e2 e3 f0 f1 f2 f3 g0 g1 g2 g3 h0 h1 h2 h3 :
  xor_128 [a0; a1; a2; a3; b0; b1; b2; b3; c0; c1; c2; c3; d0; d1; d2; d3]
    [e0; e1; e2; e3; f0; f1; f2; f3; g0; g1; g2; g3; h0; h1; h2; h3] =
  [a0 .^ e0; a1 .^ e1; a2 .^ e2; a3 .^ e3; b0 .^ f0; b1 .^ f1; b2 .^ f2; b3 .^ f3;
   c0 .^ g0; c1 .^ g1; c2 .^ g2; c3 .^ g3; d0 .^ h0; d1 .^ h1; d2 .^ h2; d3 .^ h3].
Proof. done. Qed.

(** A block of 16 bytes. *)
Definition block_ok (l : list Z) : Prop := length l = 16%nat /\ bytes_ok l.

Lemma bytes_ok_inv x l : bytes_ok (x :: l) -> is_u8 x /\ bytes_ok l.
Proof. apply Forall_cons_iff. Qed.

(** Splits a block into its bytes, with their ranges. *)
Ltac explode_block l H :=
  let Hl := fresh in let Hb := fresh in
  destruct H as [Hl Hb];
  apply block16 in Hl as (? & ? & ? & ? & ? & ? & ? & ? & ? & ? & ? & ? & ? & ? & ? & ? & ->);
  repeat (apply bytes_ok_inv in Hb as [? Hb]); clear Hb.

Lemma xor_128_ok a b : block_ok a -> block_ok b -> block_ok (xor_128 a b).
Proof.
  intros Ha Hb. explode_block a Ha. explode_block b Hb. rewrite xor_128_blk.
  split; [done|]. repeat apply bytes_ok_cons; try (by apply lxor_range). apply bytes_ok_nil.
Qed.

(** The state after the middle-round steps, before the next key is mixed in. *)
Definition aes_mix (c : list Z) : list Z :=
  let b := shift_row (byte_sub c) in
  mix_column b ++ mix_column (drop 4 b) ++ mix_column (drop 8 b) ++ mix_column (drop 12 b).

Lemma mixc_range a b c d : is_u8 a -> is_u8 b -> is_u8 c -> is_u8 d -> is_u8 (mixc a b c d).
Proof.
  intros. unfold mixc.
  apply lxor_range; [lia| |by apply lxor_range].
  apply lxor_range; [lia|by apply xtime_range|].
  apply lxor_range; [lia|done|by apply xtime_range].
Qed.

Lemma aes_mix_ok c : block_ok c -> block_ok (aes_mix c).
Proof.
  intros Hc. explode_block c Hc. unfold aes_mix. rewrite shift_sub_blk. cbn [drop].
  rewrite !mix_column_mixc by (by apply sbox_range). split; [done|].
  repeat apply bytes_ok_cons; try (apply mixc_range; by apply sbox_range). apply bytes_ok_nil.
Qed.

Lemma shift_sub_ok c : block_ok c -> block_ok (shift_row (byte_sub c)).
Proof.
  intros Hc. explode_block c Hc. rewrite shift_sub_blk. split; [done|].
  repeat apply bytes_ok_cons; try (by apply sbox_range). apply bytes_ok_nil.
Qed.

(** A table-driven round on the words of a block is a byte-oriented round on the block. *)
Lemma round_words rk i c K : block_ok c -> block_ok K ->
  (forall k, 0 <= k < 4 -> ld0 rk (4 * i + k) = ld0 (wlist K) k) ->
  ROUND rk i (words c) = words (xor_128 (aes_mix c) K).
Proof.
  intros Hc HK Hrk. pose proof (Hrk 0 ltac:(lia)) as R0. rewrite Z.add_0_r in R0.
  pose proof (Hrk 1 ltac:(lia)) as R1. pose proof (Hrk 2 ltac:(lia)) as R2.
  pose proof (Hrk 3 ltac:(lia)) as R3. clear Hrk.
  explode_block c Hc. explode_block K HK. unfold ROUND, aes_mix.
  rewrite words_blk, shift_sub_blk, R0, R1, R2, R3, wlist_blk. ld0_eval.
  cbn [drop]. rewrite !mix_column_mixc by (by apply sbox_range). cbn [app].
  rewrite xor_128_blk, words_blk, !pack_lxor.
  unfold TE0, TE1, TE2, TE3.
  rewrite !pack_byte3, !pack_byte2, !pack_byte1, !pack_byte0 by done.
  by rewrite !column_mix.
Qed.

(** ** Key schedule *)

Lemma next_key_ok K i : block_ok K -> is_u8 (ld0 rcon_table i) -> block_ok (next_key K i).
Proof.
  intros HK Hi. explode_block K HK. unfold next_key. cbn [take drop]. rewrite !xor_32_eq.
  ld0_eval. cbn [insert list_insert]. ld0_eval. split; [done|].
  repeat apply bytes_ok_cons; try apply bytes_ok_nil;
    repeat apply lxor_range; try lia; try done; by apply sbox_range.
Qed.

Lemma rcon_ok i : 0 <= i < 10 -> is_u8 (ld0 rcon_table i) /\ RCON i = pack (ld0 rcon_table i) 0 0 0.
Proof.
  intros Hi. assert (H : forallb (fun i => (0 <=? ld0 rcon_table i) && (ld0 rcon_table i <? 256)
    && (RCON i =? pack (ld0 rcon_table i) 0 0 0)) (zseq 0 10) = true) by (by vm_compute).
  rewrite forallb_forall in H. specialize (H i). rewrite !andb_true_iff in H.
  destruct H as [[? ?] ?]; [|bool_to_prop; split; [lia|done]].
  unfold zseq. apply in_map_iff. exists (Z.to_nat i). rewrite in_seq. lia.
Qed.

(** The words that [rijndaelKeySetupEnc] appends are those of the next round key. *)
Lemma key_setup_words i rk K : block_ok K -> 0 <= i < 10 ->
  (forall k, 0 <= k < 4 -> ld0 rk (4 * i + k) = ld0 (wlist K) k) ->
  key_setup_step i rk = rk ++ wlist (next_key K i).
Proof.
  intros HK Hi Hrk. unfold key_setup_step. rewrite !Hrk by lia. clear Hrk.
  destruct (rcon_ok i Hi) as [Hr ->]. set (rc := ld0 rcon_table i) in *.
  explode_block K HK. unfold next_key. cbn [take drop]. rewrite !xor_32_eq, wlist_blk.
  fold rc. ld0_eval. cbn [insert list_insert app]. ld0_eval.
  rewrite wlist_blk. unfold TE421, TE432, TE443, TE414.
  rewrite !pack_byte3, !pack_byte2, !pack_byte1, !pack_byte0 by done.
  rewrite !Te0_last3, !Te0_last2, !Te0_last1, !Te0_last0 by done.
  rewrite <- !pack_lxor, !Z.lxor_0_r. done.
Qed.

(** The round keys [K_0 .. K_10] of the byte-oriented implementation. *)
Fixpoint rkey (key : list Z) (n : nat) : list Z :=
  match n with O => key | S n => next_key (rkey key n) (Z.of_nat n) end.

Lemma rkey_ok key n : block_ok key -> (n <= 10)%nat -> block_ok (rkey key n).
Proof.
  intros Hk. induction n as [|n IH]; intros Hn; [done|]. cbn [rkey].
  apply next_key_ok; [apply IH; lia|]. by apply rcon_ok; lia.
Qed.

(** The part of the key schedule that holds round keys [n .. n+m-1]. *)
Definition sched (key : list Z) (n m : nat) : list Z :=
  concat (map (fun i => wlist (rkey key i)) (seq n m)).

Lemma sched_S key n m : sched key n (S m) = wlist (rkey key n) ++ sched key (S n) m.
Proof. done. Qed.

Lemma sched_snoc key n m : sched key n (S m) = sched key n m ++ wlist (rkey key (n + m)).
Proof.
  unfold sched. rewrite seq_S, map_app, concat_app. cbn [map concat]. by rewrite app_nil_r.
Qed.

Lemma sched_length key n m : zlen (sched key n m) = 4 * Z.of_nat m.
Proof.
  induction m as [|m IH]; [done|]. rewrite sched_snoc, zlen_app, IH.
  change (zlen (wlist _)) with 4. lia.
Qed.

Lemma wlist_len l : zlen (wlist l) = 4.
Proof. done. Qed.

Lemma key_setup_sched key : block_ok key -> rijndaelKeySetupEnc key = sched key 0 11.
Proof.
  intros Hk.
  assert (H : forall n j, (j + n <= 10)%nat ->
    iter_from n (Z.of_nat j) key_setup_step (sched key 0 (S j)) = sched key 0 (S j + n)).
  { induction n as [|n IH]; intros j Hj; cbn [iter_from]; [by rewrite Nat.add_0_r|].
    rewrite (key_setup_words _ _ (rkey key j)) by
      (try apply rkey_ok; try done; try lia; intros k Hkk; rewrite sched_snoc;
       apply (ld0_app_r _ _ _ k); rewrite ?sched_length; lia).
    replace (sched key 0 (S j) ++ wlist (next_key (rkey key j) (Z.of_nat j)))
      with (sched key 0 (S (S j))) by (by rewrite (sched_snoc key 0 (S j))).
    replace (Z.of_nat j + 1) with (Z.of_nat (S j)) by lia.
    rewrite IH by lia. f_equal. lia. }
  specialize (H 10%nat 0%nat ltac:(lia)). exact H.
Qed.

(** The state after [n] middle rounds. *)
Fixpoint aes_state (key data : list Z) (n : nat) : list Z :=
  match n with
  | O => xor_128 key data
  | S n => xor_128 (aes_mix (aes_state key data n)) (rkey key (S n))
  end.

Lemma aes_state_ok key data n : block_ok key -> block_ok data -> (n <= 9)%nat ->
  block_ok (aes_state key data n).
Proof.
  intros Hk Hd. induction n as [|n IH]; intros Hn; [by apply xor_128_ok|].
  cbn [aes_state]. apply xor_128_ok; [apply aes_mix_ok, IH; lia|apply rkey_ok; [done|lia]].
Qed.

Lemma rijndael_rounds_SS r rk s : rijndael_rounds (S (S r)) rk s =
  rijndael_rounds (S r) (drop 8 rk) (ROUND (drop 8 rk) 0 (ROUND rk 1 s)).
Proof. done. Qed.

Lemma rounds_state key data r n : block_ok key -> block_ok data -> (n + 2 * r + 1 <= 9)%nat ->
  rijndael_rounds (S r) (sched key n (2 * S r + 1)) (words (aes_state key data n)) =
    (words (aes_state key data (n + 2 * r + 1)), sched key (n + 2 * r + 2) 1).
Proof.
  intros Hk Hd. revert n. induction r as [|r IH]; intros n Hn.
  - cbn [rijndael_rounds]. rewrite (round_words _ _ _ (rkey key (S n))).
    + rewrite !Nat.add_0_r. replace (n + 1)%nat with (S n) by lia.
      replace (n + 2)%nat with (S (S n)) by lia. done.
    + apply aes_state_ok; [done|done|lia].
    + apply rkey_ok; [done|lia].
    + intros k Hkk. change (2 * 1 + 1)%nat with 3%nat. rewrite sched_S.
      rewrite (ld0_app_r _ _ _ k), sched_S, ld0_app_l; rewrite ?wlist_len; lia || done.
  - replace (2 * S (S r) + 1)%nat with (S (S (2 * S r + 1))) by lia.
    remember (2 * S r + 1)%nat as m eqn:Em. rewrite rijndael_rounds_SS.
    rewrite (round_words _ 1 _ (rkey key (S n))).
    2: { apply aes_state_ok; [done|done|lia]. }
    2: { apply rkey_ok; [done|lia]. }
    2: { intros k Hkk. rewrite sched_S, (ld0_app_r _ _ _ k), sched_S, ld0_app_l; rewrite ?wlist_len; lia || done. }
    rewrite !sched_S. change (drop 8 (wlist ?a ++ wlist ?b ++ ?t)) with t.
    change (xor_128 (aes_mix (aes_state key data n)) (rkey key (S n))) with (aes_state key data (S n)).
    rewrite (round_words _ 0 _ (rkey key (S (S n)))).
    2: { apply aes_state_ok; [done|done|lia]. }
    2: { apply rkey_ok; [done|lia]. }
    2: { intros k Hkk. replace m with (S (2 * S r)) by lia.
         rewrite sched_S, ld0_app_l; rewrite ?wlist_len; [done|lia]. }
    change (xor_128 (aes_mix (aes_state key data (S n))) (rkey key (S (S n))))
      with (aes_state key data (S (S n))).
    subst m. rewrite IH by lia.
    replace (n + 2 * S r + 1)%nat with (S (S n) + 2 * r + 1)%nat by lia.
    by replace (n + 2 * S r + 2)%nat with (S (S n) + 2 * r + 2)%nat by lia.
Qed.

(** The first and the last round of the two implementations. *)
Lemma first_words rk K data : block_ok K -> block_ok data ->
  (forall k, 0 <= k < 4 -> ld0 rk k = ld0 (wlist K) k) ->
  (GETU32 data .^ ld0 rk 0, GETU32 (drop 4 data) .^ ld0 rk 1,
   GETU32 (drop 8 data) .^ ld0 rk 2, GETU32 (drop 12 data) .^ ld0 rk 3) = words (xor_128 K data).
Proof.
  intros HK Hd Hrk. rewrite !Hrk by lia. explode_block data Hd. explode_block K HK.
  rewrite xor_128_blk, words_blk, wlist_blk, !pack_lxor. ld0_eval. cbn [drop].
  unfold pack. f_equal; [f_equal; [f_equal|]|]; apply Z.lxor_comm.
Qed.

Lemma last_words rk K c : block_ok c -> block_ok K ->
  (forall k, 0 <= k < 4 -> ld0 rk k = ld0 (wlist K) k) ->
  (let '(t0, t1, t2, t3) := words c in
   PUTU32 (TE41 t0 .^ TE42 t1 .^ TE43 t2 .^ TE44 t3 .^ ld0 rk 0)
   ++ PUTU32 (TE41 t1 .^ TE42 t2 .^ TE43 t3 .^ TE44 t0 .^ ld0 rk 1)
   ++ PUTU32 (TE41 t2 .^ TE42 t3 .^ TE43 t0 .^ TE44 t1 .^ ld0 rk 2)
   ++ PUTU32 (TE41 t3 .^ TE42 t0 .^ TE43 t1 .^ TE44 t2 .^ ld0 rk 3)) =
  xor_128 (shift_row (byte_sub c)) K.
Proof.
  intros Hc HK Hrk. rewrite !Hrk by lia. explode_block c Hc. explode_block K HK.
  rewrite words_blk, shift_sub_blk, xor_128_blk, wlist_blk. ld0_eval.
  unfold TE41, TE42, TE43, TE44.
  rewrite !pack_byte3, !pack_byte2, !pack_byte1, !pack_byte0 by done.
  rewrite !Te0_last3, !Te0_last2, !Te0_last1, !Te0_last0 by done.
  rewrite <- !pack_lxor, !Z.lxor_0_r, !Z.lxor_0_l.
  rewrite !PUTU32_pack by (apply lxor_range; [lia|by apply sbox_range|done]). done.
Qed.

Lemma iter_11 {A} (f : Z -> A -> A) s :
  iter_from 11 0 f s = f 10 (iter_from 9 1 f (f 0 s)).
Proof. done. Qed.

Lemma aes128_rounds key data : block_ok key -> block_ok data ->
  aes128k128d key data = xor_128 (shift_row (byte_sub (aes_state key data 9))) (rkey key 10).
Proof.
  intros Hk Hd. unfold aes128k128d.
  assert (H : forall n j, (j + n <= 9)%nat ->
    iter_from n (Z.of_nat (S j)) (aes_round data) (rkey key (S j), aes_state key data j) =
    (rkey key (S j + n), aes_state key data (j + n))).
  { induction n as [|n IH]; intros j Hj; cbn [iter_from]; [by rewrite !Nat.add_0_r|].
    replace (aes_round data (Z.of_nat (S j)) (rkey key (S j), aes_state key data j))
      with (rkey key (S (S j)), aes_state key data (S j)).
    - replace (Z.of_nat (S j) + 1) with (Z.of_nat (S (S j))) by lia.
      rewrite IH by lia. f_equal; f_equal; lia.
    - unfold aes_round. rewrite !(proj2 (Z.eqb_neq _ _)) by lia. done. }
  specialize (H 9%nat 0%nat ltac:(lia)).
  rewrite (iter_11 (aes_round data)), take_ge by (destruct Hk; lia).
  change (aes_round data 0 (key, replicate 16 0)) with (rkey key 1, aes_state key data 0).
  change (Z.of_nat 1) with 1 in H. rewrite H. done.
Qed.

(** The two implementations agree on every key and block. *)
Lemma rijndael_aes128 key data : block_ok key -> block_ok data ->
  rijndaelEncrypt (rijndaelKeySetupEnc key) data = aes128k128d key data.
Proof.
  intros Hk Hd. rewrite aes128_rounds by done. unfold rijndaelEncrypt.
  rewrite key_setup_sched by done.
  rewrite (first_words (sched key 0 11) key data Hk Hd).
  2: { intros k Hkk. rewrite sched_S. rewrite ld0_app_l; [done|]. rewrite wlist_len. lia. }
  change (xor_128 key data) with (aes_state key data 0).
  pose proof (rounds_state key data 4 0 Hk Hd ltac:(lia)) as Hr.
  change (2 * 5 + 1)%nat with 11%nat in Hr. rewrite Hr.
  apply (last_words _ (rkey key 10)); [apply aes_state_ok; [done|done|lia]|apply rkey_ok; [done|lia]|].
  intros k Hkk. change (0 + 2 * 4 + 2)%nat with 10%nat. rewrite sched_S.
  rewrite ld0_app_l; [done|]. rewrite wlist_len. lia.
Qed.

Lemma aes128_ok key data : block_ok key -> block_ok data -> block_ok (aes128k128d key data).
Proof.
  intros Hk Hd. rewrite aes128_rounds by done.
  apply xor_128_ok; [apply shift_sub_ok, aes_state_ok; [done|done|lia]|apply rkey_ok; [done|lia]].
Qed.

(** The output is a block of 16 bytes whatever the input. *)
Lemma aes128_length key data : length (aes128k128d key data) = 16%nat.
Proof.
  unfold aes128k128d. rewrite (iter_11 (aes_round data)).
  destruct (iter_from 9 1 _ _) as [rk ct]. unfold aes_round.
  change (10 =? 0) with false. change (10 =? 10) with true. cbn [snd].
  unfold xor_128. by rewrite length_map, zseq_length.
Qed.

(** ** Properties *)

(** C39: The two AES-128 implementations of the file, the byte-oriented [aes128k128d] and
    the table-driven [rijndaelKeySetupEnc] with [rijndaelEncrypt], are the same function
    on every key and block, and map blocks of bytes to blocks of bytes. *)
Theorem rijndael_is_aes128 key data : block_ok key -> block_ok data ->
  rijndaelEncrypt (rijndaelKeySetupEnc key) data = aes128k128d key data /\
  block_ok (aes128k128d key data).
Proof. intros Hk Hd. split; [by apply rijndael_aes128|by apply aes128_ok]. Qed.

Lemma rijndael_is_aes128_witness :
  rijndaelEncrypt (rijndaelKeySetupEnc (zseq 0 16)) (replicate 16 0xff) =
    aes128k128d (zseq 0 16) (replicate 16 0xff) /\
  block_ok (aes128k128d (zseq 0 16) (replicate 16 0xff)).
Proof.
  apply (rijndael_is_aes128 (zseq 0 16) (replicate 16 0xff));
    (split; [reflexivity|apply bytes_ok_spec; reflexivity]).
Defined.

(** Conversion unfolds the cipher last. *)
#[global] Strategy 900 [aes128k128d rijndaelEncrypt rijndaelKeySetupEnc].
