(* ===== verification/Ccmp.v ===== *)
(** * Software CCMP (core/rtw_security.c, [aes_cipher] and [aes_decipher])

    CCM encryption of an 802.11 frame in place: the nonce and additional data are
    built from the frame header, the payload is authenticated with CBC-MAC and
    encrypted with counter mode.  Frames are checked buffers; [CONFIG_IEEE80211W]
    is a parameter, and [CONSISTENT_PN_ORDER], which no build defines, is off. *)

From S2P Require Import Prelude Aes.

(** Constants of include/wifi.h. *)
Definition WLAN_HDR_A3_LEN : Z := 24.
Definition WLAN_HDR_A4_LEN : Z := 30.
Definition WLAN_HDR_A3_QOS_LEN : Z := 26.
Definition WLAN_HDR_A4_QOS_LEN : Z := 32.
Definition WIFI_MGT_TYPE : Z := 0.
Definition WIFI_DATA : Z := 0x08.
Definition WIFI_DATA_CFACK : Z := 0x18.
Definition WIFI_DATA_CFPOLL : Z := 0x28.
Definition WIFI_DATA_CFACKPOLL : Z := 0x38.
Definition MAX_MSG_SIZE : Z := 2048.

(** [GetFrameType] and [GetFrameSubType] on the little-endian frame control field. *)
Definition frame_ctl (pframe : list Z) : option Z :=
  b0 ← ld pframe 0; b1 ← ld pframe 1; Some (b0 .| (b1 .<< 8)).
Definition GetFrameType (fc : Z) : Z := fc .& 0x0c.
Definition GetFrameSubType (fc : Z) : Z := fc .& 0xfc.

Definition bitwise_xor (ina inb : list Z) : list Z :=
  map (fun i => ld0 ina i .^ ld0 inb i) (zseq 0 16).

Section ccmp.
Context (CONFIG_IEEE80211W : bool).

Definition construct_mic_iv (qc_exists a4_exists : bool) (mpdu : list Z)
    (payload_length : Z) (pn_vector : list Z) (frtype : Z) : option (list Z) :=
  b1 ← (if qc_exists && a4_exists then b ← ld mpdu 30; Some (b .& 0x0f)
        else if qc_exists && negb a4_exists then b ← ld mpdu 24; Some (b .& 0x0f)
        else Some 0x00);
  let b1 := if CONFIG_IEEE80211W && (frtype =? WIFI_MGT_TYPE) then b1 .| 16 else b1 in
  a2 ← rd mpdu 10 6;
  Some ([0x59; b1] ++ a2
    ++ map (fun i => ld0 pn_vector (13 - i)) (zseq 8 6)
    ++ [u8 (payload_length / 256); u8 (payload_length mod 256)]).

Definition construct_mic_header1 (header_length : Z) (mpdu : list Z) (frtype : Z)
    : option (list Z) :=
  fc0 ← ld mpdu 0;
  fc1 ← ld mpdu 1;
  let h2 := if CONFIG_IEEE80211W && (frtype =? WIFI_MGT_TYPE) then fc0 else fc0 .& 0xcf in
  a1a2 ← rd mpdu 4 12;
  Some ([u8 (Z.quot (header_length - 2) 256); u8 (Z.rem (header_length - 2) 256);
         h2; fc1 .& 0xc7] ++ a1a2).

Definition construct_mic_header2 (mpdu : list Z) (a4_exists qc_exists : bool)
    : option (list Z) :=
  a3 ← rd mpdu 16 6;
  tail ← (if negb qc_exists && a4_exists then a4 ← rd mpdu 24 6; Some (a4 ++ [0; 0])
          else if qc_exists && negb a4_exists then
            b ← ld mpdu 24; b' ← ld mpdu 25;
            Some [b .& 0x0f; b' .& 0x00; 0; 0; 0; 0; 0; 0]
          else if qc_exists && a4_exists then
            a4 ← rd mpdu 24 6; b ← ld mpdu 30; b' ← ld mpdu 31;
            Some (a4 ++ [b .& 0x0f; b' .& 0x00])
          else Some (replicate 8 0));
  Some (a3 ++ [0x00; 0x00] ++ tail).

Definition construct_ctr_preload (a4_exists qc_exists : bool) (mpdu pn_vector : list Z)
    (c frtype : Z) : option (list Z) :=
  b1 ← (if qc_exists && a4_exists then b ← ld mpdu 30; Some (b .& 0x0f)
        else if qc_exists && negb a4_exists then b ← ld mpdu 24; Some (b .& 0x0f)
        else Some 0x00);
  let b1 := if CONFIG_IEEE80211W && (frtype =? WIFI_MGT_TYPE) then b1 .| 16 else b1 in
  a2 ← rd mpdu 10 6;
  Some ([0x01; b1] ++ a2
    ++ map (fun i => ld0 pn_vector (13 - i)) (zseq 8 6)
    ++ [u8 (c / 256); u8 (c mod 256)]).

(** The frame classification both functions start with: the type, whether the header
    has a QoS field and a fourth address, and the header length used from there on. *)
Record ccmp_class := mk_class {
  cl_frtype : Z; cl_qc_exists : bool; cl_a4_exists : bool; cl_hdrlen : Z
}.

Definition ccmp_classify (fc hdrlen : Z) : ccmp_class :=
  let frtype := GetFrameType fc in
  let frsubtype := GetFrameSubType fc .>> 4 in
  let a4_exists := negb ((hdrlen =? WLAN_HDR_A3_LEN) || (hdrlen =? WLAN_HDR_A3_QOS_LEN)) in
  let bump := if negb (hdrlen =? WLAN_HDR_A3_QOS_LEN) then hdrlen + 2 else hdrlen in
  if (frtype .| frsubtype =? WIFI_DATA_CFACK) || (frtype .| frsubtype =? WIFI_DATA_CFPOLL)
     || (frtype .| frsubtype =? WIFI_DATA_CFACKPOLL)
  then mk_class frtype true a4_exists bump
  else if (frtype =? WIFI_DATA) && ((frsubtype =? 0x08) || (frsubtype =? 0x09)
            || (frsubtype =? 0x0a) || (frsubtype =? 0x0b))
  then mk_class frtype true a4_exists bump
  else mk_class frtype false a4_exists hdrlen.

Definition read_pn (pframe : list Z) (hdrlen : Z) : option (list Z) :=
  p0 ← ld pframe hdrlen; p1 ← ld pframe (hdrlen + 1);
  p2 ← ld pframe (hdrlen + 4); p3 ← ld pframe (hdrlen + 5);
  p4 ← ld pframe (hdrlen + 6); p5 ← ld pframe (hdrlen + 7);
  Some [p0; p1; p2; p3; p4; p5].

(** One full block of the CBC-MAC loop, and of the counter-mode loop; [E] is the block
    cipher under the key, the loop state [(aes_out, payload_index)] or
    [(frame, payload_index)]. *)
Definition mic_block (E : list Z -> list Z) (mpdu : list Z) (_ : Z) (s : list Z * Z)
    : option (list Z * Z) :=
  let '(aes_out, payload_index) := s in
  blk ← rd mpdu payload_index 16;
  Some (E (bitwise_xor aes_out blk), payload_index + 16).

Definition ctr_block (E : list Z -> list Z) (cl : ccmp_class) (pn_vector : list Z) (i : Z)
    (s : list Z * Z) : option (list Z * Z) :=
  let '(m, payload_index) := s in
  ctr_preload ← construct_ctr_preload (cl_a4_exists cl) (cl_qc_exists cl) m pn_vector (i + 1)
                  (cl_frtype cl);
  let aes_out := E ctr_preload in
  blk ← rd m payload_index 16;
  m ← wr m payload_index (bitwise_xor aes_out blk);
  Some (m, payload_index + 16).

(** "Calculate MIC": CBC-MAC over the nonce block, the two header blocks, and the
    payload of [plen] bytes padded with zeroes.  Returns [aes_out] and [payload_index]. *)
Definition ccmp_mic (key : list Z) (cl : ccmp_class) (mpdu : list Z) (plen : Z)
    (pn_vector : list Z) : option (list Z * Z) :=
  mic_iv ← construct_mic_iv (cl_qc_exists cl) (cl_a4_exists cl) mpdu plen pn_vector (cl_frtype cl);
  mic_header1 ← construct_mic_header1 (cl_hdrlen cl) mpdu (cl_frtype cl);
  mic_header2 ← construct_mic_header2 mpdu (cl_a4_exists cl) (cl_qc_exists cl);
  let payload_remainder := plen mod 16 in
  let num_blocks := plen / 16 in
  let payload_index := cl_hdrlen cl + 8 in
  let aes_out := aes128k128d key mic_iv in
  let aes_out := aes128k128d key (bitwise_xor aes_out mic_header1) in
  let aes_out := aes128k128d key (bitwise_xor aes_out mic_header2) in
  '(aes_out, payload_index) ←
    for_from (Z.to_nat num_blocks) 0 (mic_block (aes128k128d key) mpdu)
      (aes_out, payload_index);
  if 0 <? payload_remainder then
    rest ← rd mpdu payload_index payload_remainder;
    let padded_buffer := rest ++ replicate (16 - Z.to_nat payload_remainder) 0 in
    Some (aes128k128d key (bitwise_xor aes_out padded_buffer), payload_index + payload_remainder)
  else Some (aes_out, payload_index).

(** Counter-mode pass over the payload, in place.  Returns the buffer and [payload_index]. *)
Definition ccmp_ctr (key : list Z) (cl : ccmp_class) (m : list Z) (plen : Z)
    (pn_vector : list Z) : option (list Z * Z) :=
  let payload_remainder := plen mod 16 in
  let num_blocks := plen / 16 in
  let payload_index := cl_hdrlen cl + 8 in
  '(m, payload_index) ←
    for_from (Z.to_nat num_blocks) 0 (ctr_block (aes128k128d key) cl pn_vector)
      (m, payload_index);
  if 0 <? payload_remainder then
    ctr_preload ← construct_ctr_preload (cl_a4_exists cl) (cl_qc_exists cl) m pn_vector
                    (num_blocks + 1) (cl_frtype cl);
    rest ← rd m payload_index payload_remainder;
    let padded_buffer := rest ++ replicate (16 - Z.to_nat payload_remainder) 0 in
    let chain_buffer := bitwise_xor (aes128k128d key ctr_preload) padded_buffer in
    m ← wr m payload_index (take (Z.to_nat payload_remainder) chain_buffer);
    Some (m, payload_index + payload_remainder)
  else Some (m, payload_index).

(** "Encrypt the MIC": counter block 0 over the 8 bytes after the payload. *)
Definition ccmp_encrypt_mic (key : list Z) (cl : ccmp_class) (m : list Z) (plen : Z)
    (pn_vector : list Z) (payload_index : Z) : option (list Z) :=
  ctr_preload ← construct_ctr_preload (cl_a4_exists cl) (cl_qc_exists cl) m pn_vector 0
                  (cl_frtype cl);
  mic ← rd m (cl_hdrlen cl + 8 + plen) 8;
  let padded_buffer := mic ++ replicate 8 0 in
  let chain_buffer := bitwise_xor (aes128k128d key ctr_preload) padded_buffer in
  wr m payload_index (take 8 chain_buffer).

(** [aes_cipher key hdrlen pframe plen]: the encrypted frame and the return code. *)
Definition aes_cipher (key : list Z) (hdrlen : Z) (pframe : list Z) (plen : Z)
    : option (list Z * Z) :=
  fc ← frame_ctl pframe;
  let cl := ccmp_classify fc hdrlen in
  pn_vector ← read_pn pframe (cl_hdrlen cl);
  '(aes_out, payload_index) ← ccmp_mic key cl pframe plen pn_vector;
  pframe ← wr pframe payload_index (take 8 aes_out);
  '(pframe, payload_index) ← ccmp_ctr key cl pframe plen pn_vector;
  pframe ← ccmp_encrypt_mic key cl pframe plen pn_vector payload_index;
  Some (pframe, _SUCCESS).

(** [aes_decipher key hdrlen pframe plen]; [message] is the static array of
    [MAX_MSG_SIZE] bytes, which keeps its contents between calls.  [plen] is unsigned:
    [plen - 8] wraps around.  Returns the frame, the array and the return code. *)
Definition aes_decipher (key : list Z) (hdrlen : Z) (pframe : list Z) (plen : Z)
    (message : list Z) : option (list Z * list Z * Z) :=
  fc ← frame_ctl pframe;
  pn_vector ← read_pn pframe hdrlen;
  let cl := ccmp_classify fc hdrlen in
  let hdrlen := cl_hdrlen cl in
  '(pframe, _) ← ccmp_ctr key cl pframe (u32 (plen - 8)) pn_vector;
  message ← (if hdrlen + plen + 8 <=? MAX_MSG_SIZE
             then copy ← rd pframe 0 (hdrlen + plen + 8); wr message 0 copy
             else Some message);
  pn_vector ← read_pn pframe hdrlen;
  '(aes_out, payload_index) ← ccmp_mic key cl message (u32 (plen - 8)) pn_vector;
  message ← wr message payload_index (take 8 aes_out);
  '(message, payload_index) ← ccmp_ctr key cl message (u32 (plen - 8)) pn_vector;
  message ← ccmp_encrypt_mic key cl message (plen - 8) pn_vector payload_index;
  got ← rd pframe (hdrlen + 8 + plen - 8) 8;
  want ← rd message (hdrlen + 8 + plen - 8) 8;
  Some (pframe, message, if bool_decide (got = want) then _SUCCESS else _FAIL).
End ccmp.

(** ** Reference: the counter with CBC-MAC mode *)

(** The mode as the standard states it, over any block cipher: CBC-MAC of a sequence of
    blocks, and the counter-mode key stream from counter 1 on. *)
Section ccm_spec.
Context (E : list Z -> list Z).

Definition cbc_step (acc b : list Z) : list Z := E (xor_list acc b).
Definition cbc_mac (bs : list (list Z)) : list Z := fold_left cbc_step bs (replicate 16 0).

(** A message padded with zeroes to whole blocks, as blocks. *)
Definition blocks16 (l : list Z) : list (list Z) :=
  let n := (length l / 16)%nat in
  let r := (length l mod 16)%nat in
  chunks 16 n (take (16 * n) l)
  ++ (if decide (r = 0)%nat then [] else [drop (16 * n) l ++ replicate (16 - r) 0]).

Definition key_stream (ctr : Z -> list Z) (n : nat) : list Z :=
  concat (map (fun i => E (ctr i)) (zseq 1 n)).
End ccm_spec.

(** The fields of a CCMP frame (IEEE 802.11, CCMP nonce and additional data).  The only
    difference with the standard is the one the code has: the fragment number of the
    sequence-control field is masked out as well. *)
Section ccmp_spec.
Context (CONFIG_IEEE80211W : bool) (cl : ccmp_class) (h pn : list Z).

Definition is_11w_mgt : bool := CONFIG_IEEE80211W && (cl_frtype cl =? WIFI_MGT_TYPE).
Definition ccmp_tid : Z :=
  if cl_qc_exists cl then ld0 h (if cl_a4_exists cl then 30 else 24) .& 0x0f else 0.
Definition ccmp_nonce : list Z :=
  [if is_11w_mgt then ccmp_tid .| 16 else ccmp_tid] ++ take 6 (drop 10 h) ++ rev pn.
Definition be16 (x : Z) : list Z := [u8 (x / 256); u8 (x mod 256)].
Definition ccmp_b0 (plen : Z) : list Z := 0x59 :: ccmp_nonce ++ be16 plen.
Definition ccmp_ctr_block (c : Z) : list Z := 0x01 :: ccmp_nonce ++ be16 c.

(** Masked frame control, A1, A2, A3, zero, A4 if present, QoS control if present. *)
Definition ccmp_aad : list Z :=
  [if is_11w_mgt then ld0 h 0 else ld0 h 0 .& 0xcf; ld0 h 1 .& 0xc7]
  ++ take 18 (drop 4 h) ++ [0; 0]
  ++ (if cl_a4_exists cl then take 6 (drop 24 h) else [])
  ++ (if cl_qc_exists cl then [ccmp_tid; 0] else []).

Definition ccmp_mac (key p : list Z) : list Z :=
  take 8 (cbc_mac (aes128k128d key)
    (ccmp_b0 (zlen p) :: blocks16 (be16 (zlen ccmp_aad) ++ ccmp_aad) ++ blocks16 p)).
Definition ccmp_key_stream (key : list Z) (n : nat) : list Z :=
  key_stream (aes128k128d key) ccmp_ctr_block n.
Definition ccmp_mask (key : list Z) : list Z := take 8 (aes128k128d key (ccmp_ctr_block 0)).
End ccmp_spec.

(** The header lengths for which the class describes the header. *)
Definition class_ok (cl : ccmp_class) : Prop :=
  cl_hdrlen cl = 24 + (if cl_a4_exists cl then 6 else 0) + (if cl_qc_exists cl then 2 else 0).

(** ** Block operations *)

Lemma map_zseq16 {A} (f : Z -> A) : map f (zseq 0 16) =
  [f 0; f 1; f 2; f 3; f 4; f 5; f 6; f 7; f 8; f 9; f 10; f 11; f 12; f 13; f 14; f 15].
Proof. done. Qed.

Lemma bitwise_xor_list a b : length a = 16%nat -> length b = 16%nat ->
  bitwise_xor a b = xor_list a b.
Proof.
  intros (?&?&?&?&?&?&?&?&?&?&?&?&?&?&?&?&->)%block16 (?&?&?&?&?&?&?&?&?&?&?&?&?&?&?&?&->)%block16.
  unfold bitwise_xor. rewrite map_zseq16. ld0_eval. done.
Qed.

Lemma key_stream_length E ctr n : (forall b, length (E b) = 16%nat) ->
  length (key_stream E ctr n) = (16 * n)%nat.
Proof.
  intros HE. unfold key_stream. rewrite (concat_length_const 16).
  - by rewrite length_map, zseq_length.
  - apply Forall_map, Forall_forall. intros. apply HE.
Qed.

(** ** The blocks built from the header *)

Create Rewrite HintDb hdr.

Section header_blocks.
Context (CONFIG_IEEE80211W : bool) (cl : ccmp_class) (h r pn : list Z).
Context (Hh : 32 <= zlen h).

Lemma ld_hdr i : 0 <= i < 32 -> ld (h ++ r) i = Some (ld0 h i).
Proof using Hh. intros. rewrite ld_app_l by lia. apply ld_Some. lia. Qed.

Lemma rd_hdr off n : 0 <= off -> 0 <= n -> off + n <= 32 ->
  rd (h ++ r) off n = Some (take (Z.to_nat n) (drop (Z.to_nat off) h)).
Proof using Hh. intros. rewrite rd_app_l by lia. apply rd_Some; lia. Qed.

Hint Rewrite ld_hdr rd_hdr using lia : hdr.

Lemma pn_rev : zlen pn = 6 -> map (fun i => ld0 pn (13 - i)) (zseq 8 6) = rev pn.
Proof using Type.
  intros H. unfold zlen in H.
  destruct pn as [|? [|? [|? [|? [|? [|? [|]]]]]]]; simpl in H; try lia. done.
Qed.

Lemma construct_mic_iv_eq plen : zlen pn = 6 ->
  construct_mic_iv CONFIG_IEEE80211W (cl_qc_exists cl) (cl_a4_exists cl) (h ++ r) plen pn
    (cl_frtype cl) = Some (ccmp_b0 CONFIG_IEEE80211W cl h pn plen).
Proof using Hh.
  intros Hp. unfold construct_mic_iv, ccmp_b0, ccmp_nonce, ccmp_tid.
  rewrite pn_rev by done.
  destruct (cl_qc_exists cl), (cl_a4_exists cl); cbn [andb negb];
    autorewrite with hdr; cbn; rewrite <- ?app_assoc; done.
Qed.

Lemma construct_ctr_preload_eq c : zlen pn = 6 ->
  construct_ctr_preload CONFIG_IEEE80211W (cl_a4_exists cl) (cl_qc_exists cl) (h ++ r) pn c
    (cl_frtype cl) = Some (ccmp_ctr_block CONFIG_IEEE80211W cl h pn c).
Proof using Hh.
  intros Hp. unfold construct_ctr_preload, ccmp_ctr_block, ccmp_nonce, ccmp_tid.
  rewrite pn_rev by done.
  destruct (cl_qc_exists cl), (cl_a4_exists cl); cbn [andb negb];
    autorewrite with hdr; cbn; rewrite <- ?app_assoc; done.
Qed.

Lemma hdr_aad : class_ok cl -> exists h1 h2,
  construct_mic_header1 CONFIG_IEEE80211W (cl_hdrlen cl) (h ++ r) (cl_frtype cl) = Some h1 /\
  construct_mic_header2 (h ++ r) (cl_a4_exists cl) (cl_qc_exists cl) = Some h2 /\
  length h1 = 16%nat /\ length h2 = 16%nat /\
  blocks16 (be16 (zlen (ccmp_aad CONFIG_IEEE80211W cl h)) ++ ccmp_aad CONFIG_IEEE80211W cl h)
    = [h1; h2].
Proof using Hh.
  intros Hcl. unfold construct_mic_header1, construct_mic_header2, ccmp_aad, ccmp_tid.
  unfold class_ok in Hcl. rewrite Hcl. clear Hcl.
  fold (is_11w_mgt CONFIG_IEEE80211W cl). generalize (is_11w_mgt CONFIG_IEEE80211W cl). intros w.
  destruct (cl_qc_exists cl), (cl_a4_exists cl); cbn [andb negb];
    autorewrite with hdr; cbn [option_bind mbind];
    do 2 eexists; (split; [reflexivity|]); (split; [reflexivity|]);
    destruct (split_at h 32) as (h0 & h' & -> & H0 & _); try lia; clear Hh;
    destruct (split_at h0 16) as (a & b & -> & Ha & Hb); try lia;
    rewrite H0 in Hb; unfold zlen in Ha, Hb;
    apply (Nat2Z.inj _ 16), block16 in Ha as (?&?&?&?&?&?&?&?&?&?&?&?&?&?&?&?&->);
    apply (Nat2Z.inj _ 16), block16 in Hb as (?&?&?&?&?&?&?&?&?&?&?&?&?&?&?&?&->);
    clear H0; rewrite ?Z.land_0_r; repeat split; reflexivity.
Qed.
End header_blocks.

(** ** The passes over the payload *)

Section passes.
Context (E : list Z -> list Z) (HE : forall b, length (E b) = 16%nat).

Lemma mic_block_mid i acc a b c : length acc = 16%nat -> length b = 16%nat ->
  mic_block E (a ++ b ++ c) i (acc, zlen a) = Some (cbc_step E acc b, zlen a + 16).
Proof using Type.
  intros Hacc Hb. unfold mic_block. rewrite (rd_mid a) by (unfold zlen; lia).
  cbn [mbind option_bind]. by rewrite bitwise_xor_list.
Qed.

(** Full blocks of the CBC-MAC pass. *)
Lemma mic_loop n i acc a b c off : off = zlen a -> length acc = 16%nat ->
  length b = (16 * n)%nat ->
  for_from n i (mic_block E (a ++ b ++ c)) (acc, off)
  = Some (fold_left (cbc_step E) (chunks 16 n b) acc, off + 16 * Z.of_nat n).
Proof using HE.
  intros ->. revert i acc a b. induction n as [|n IH]; intros i acc a b Hacc Hb;
    cbn [for_from chunks fold_left].
  { by rewrite Z.add_0_r. }
  destruct (split_at b 16) as (b1 & b2 & -> & Hb1 & Hb2); [unfold zlen; lia|].
  assert (length b1 = 16%nat) by (unfold zlen in *; lia).
  rewrite take_app_length', drop_app_length' by done. rewrite <- (app_assoc b1).
  rewrite mic_block_mid by done. cbn [mbind option_bind].
  specialize (IH (i + 1) (cbc_step E acc b1) (a ++ b1) b2).
  rewrite <- app_assoc, zlen_app, Hb1 in IH. rewrite length_app in Hb.
  rewrite IH by (try apply HE; lia). do 2 f_equal. lia.
Qed.

(** Full blocks of the counter-mode pass: [ctr] is the counter block of this header. *)
Context (w : bool) (cl : ccmp_class) (h pn : list Z) (Hh : 32 <= zlen h) (Hpn : zlen pn = 6).
Abbreviation ctr := (ccmp_ctr_block w cl h pn).

Lemma ctr_block_mid i a b c : length b = 16%nat ->
  ctr_block w E cl pn i (h ++ a ++ b ++ c, zlen h + zlen a)
  = Some (h ++ a ++ xor_list b (E (ctr (i + 1))) ++ c, zlen h + zlen a + 16).
Proof using HE Hh Hpn.
  intros Hb. unfold ctr_block. rewrite construct_ctr_preload_eq by done.
  cbn [mbind option_bind].
  rewrite (app_assoc h a), (rd_mid (h ++ a)) by (rewrite ?zlen_app; unfold zlen; lia).
  cbn [mbind option_bind]. rewrite bitwise_xor_list, xor_list_comm by done.
  rewrite (wr_mid (h ++ a)) by (rewrite ?zlen_app, ?xor_list_length, ?HE; lia).
  by rewrite <- app_assoc.
Qed.

Lemma ctr_loop n i a b c off : off = zlen h + zlen a -> length b = (16 * n)%nat ->
  for_from n i (ctr_block w E cl pn) (h ++ a ++ b ++ c, off)
  = Some (h ++ a ++ xor_list b (concat (map (fun i => E (ctr i)) (zseq (i + 1) n))) ++ c,
          off + 16 * Z.of_nat n).
Proof using HE Hh Hpn.
  intros ->. revert i a b. induction n as [|n IH]; intros i a b Hb; cbn [for_from].
  { rewrite Z.add_0_r. rewrite (nil_length_inv b) by lia. done. }
  destruct (split_at b 16) as (b1 & b2 & -> & Hb1 & Hb2); [unfold zlen; lia|].
  assert (length b1 = 16%nat) by (unfold zlen in *; lia).
  rewrite <- (app_assoc b1), ctr_block_mid by done. cbn [mbind option_bind].
  set (x := xor_list b1 (E (ctr (i + 1)))).
  assert (length x = 16%nat) by (unfold x; rewrite xor_list_length, HE; lia).
  specialize (IH (i + 1) (a ++ x) b2). rewrite length_app in Hb.
  rewrite zlen_app in IH. replace (zlen x) with 16 in IH by (unfold zlen; lia).
  rewrite <- !app_assoc in IH. rewrite Z.add_assoc in IH.
  rewrite IH by lia. rewrite zseq_cons. cbn [map concat].
  rewrite xor_list_app by (rewrite HE; lia). fold x. rewrite <- !app_assoc.
  do 2 f_equal. lia.
Qed.
End passes.

(** The first block of a CBC-MAC goes through the cipher as it is. *)
Lemma cbc_first E b : (length b <= 16)%nat -> cbc_step E (replicate 16 0) b = E b.
Proof. intros. unfold cbc_step. by rewrite xor_list_comm, xor_list_zero. Qed.

Lemma cbc_fold_length E bs acc : (forall b, length (E b) = 16%nat) -> length acc = 16%nat ->
  length (fold_left (cbc_step E) bs acc) = 16%nat.
Proof. intros HE. revert acc. induction bs as [|b bs IH]; intros acc Hacc; [done|]. apply IH, HE. Qed.

Lemma cbc_mac_length E bs : (forall b, length (E b) = 16%nat) -> length (cbc_mac E bs) = 16%nat.
Proof. intros HE. by apply cbc_fold_length. Qed.

(** A payload as full blocks and a rest. *)
Lemma split16 (p : list Z) : exists n p1 p2, p = p1 ++ p2 /\ length p1 = (16 * n)%nat /\
  (length p2 < 16)%nat /\ zlen p / 16 = Z.of_nat n /\ zlen p mod 16 = zlen p2.
Proof.
  destruct (split_at p (16 * (zlen p / 16))) as (p1 & p2 & Hp & H1 & H2).
  { pose proof (zlen_nonneg p). Z.to_euclidean_division_equations. lia. }
  pose proof (zlen_nonneg p). exists (Z.to_nat (zlen p / 16)), p1, p2. unfold zlen in *.
  split; [done|]. Z.to_euclidean_division_equations. lia.
Qed.

Lemma blocks16_split n p1 p2 : length p1 = (16 * n)%nat -> (length p2 < 16)%nat ->
  blocks16 (p1 ++ p2) = chunks 16 n p1
    ++ (if decide (length p2 = 0)%nat then [] else [p2 ++ replicate (16 - length p2) 0]).
Proof.
  intros H1 H2. unfold blocks16. rewrite length_app, H1.
  replace ((16 * n + length p2) / 16)%nat with n
    by (rewrite Nat.mul_comm, Nat.div_add_l, Nat.div_small by lia; lia).
  replace ((16 * n + length p2) mod 16)%nat with (length p2)
    by (rewrite Nat.mul_comm, Nat.add_comm, Nat.Div0.mod_add, Nat.mod_small by lia; done).
  by rewrite <- H1, take_app_length, drop_app_length.
Qed.

Lemma key_stream_S E ctr n :
  key_stream E ctr (S n) = key_stream E ctr n ++ E (ctr (1 + Z.of_nat n)).
Proof.
  unfold key_stream. rewrite <- Nat.add_1_r, zseq_app, map_app, concat_app.
  cbn [zseq map seq concat]. by rewrite app_nil_r, Z.add_0_r.
Qed.

(** A partial block, padded, xored and cut back to its length. *)
Lemma take_pad_xor k x : length k = 16%nat -> (length x <= 16)%nat ->
  take (length x) (bitwise_xor k (x ++ replicate (16 - length x) 0)) = xor_list x k.
Proof.
  intros Hk Hx. rewrite bitwise_xor_list by (rewrite ?length_app, ?length_replicate; lia).
  by rewrite xor_list_comm, take_xor_list, take_app_length, xor_list_take.
Qed.

Section frame.
Context (w : bool) (key : list Z) (cl : ccmp_class) (h pn : list Z).
Context (Hcl : class_ok cl) (Hh : zlen h = cl_hdrlen cl + 8) (Hpn : zlen pn = 6).

Lemma hdr_32 : 32 <= zlen h.
Proof using Hcl Hh.
  unfold class_ok in Hcl. destruct (cl_a4_exists cl), (cl_qc_exists cl); lia.
Qed.
#[local] Hint Resolve hdr_32 : core.

Lemma b0_length plen : length (ccmp_b0 w cl h pn plen) = 16%nat.
Proof using Hcl Hh Hpn.
  pose proof hdr_32. unfold ccmp_b0, ccmp_nonce, zlen in *. cbn [length].
  rewrite !length_app, length_rev, length_take, length_drop. cbn [length be16]. lia.
Qed.

Lemma ccmp_mic_eq p r : ccmp_mic w key cl (h ++ p ++ r) (zlen p) pn =
  Some (cbc_mac (aes128k128d key)
          (ccmp_b0 w cl h pn (zlen p) ::
            blocks16 (be16 (zlen (ccmp_aad w cl h)) ++ ccmp_aad w cl h) ++ blocks16 p),
        cl_hdrlen cl + 8 + zlen p).
Proof using Hcl Hh Hpn.
  destruct (hdr_aad w cl h (p ++ r) hdr_32 Hcl) as (h1 & h2 & E1 & E2 & L1 & L2 & ->).
  destruct (split16 p) as (n & p1 & p2 & -> & Hp1 & Hp2 & Hq & Hr).
  unfold ccmp_mic. rewrite Hq, Hr, construct_mic_iv_eq by done. rewrite E1, E2.
  cbn [mbind option_bind]. pose proof (aes128_length key) as HE. revert HE.
  generalize (aes128k128d key) as E. intros E HE.
  rewrite (bitwise_xor_list _ h1), (bitwise_xor_list _ h2) by (done || apply HE).
  rewrite <- (app_assoc p1), Nat2Z.id, (mic_loop _ HE) by (done || apply HE).
  cbn [mbind option_bind]. rewrite (blocks16_split n) by done.
  unfold cbc_mac. rewrite zlen_app. cbn [app]. rewrite app_comm_cons.
  set (b0 := ccmp_b0 _ _ _ _ _). cbn [fold_left]. rewrite fold_left_app.
  rewrite (cbc_first _ b0) by (unfold b0; rewrite b0_length; lia).
  set (acc := fold_left (cbc_step E) (chunks 16 n p1) (cbc_step E (cbc_step E (E b0) h1) h2)).
  change (fold_left (cbc_step E) (chunks 16 n p1) (E (xor_list (E (xor_list (E b0) h1)) h2)))
    with acc.
  assert (length acc = 16%nat) by (apply cbc_fold_length; apply HE).
  destruct (decide (length p2 = 0)%nat) as [H0|H0].
  - rewrite (proj2 (Z.ltb_ge 0 _)) by (unfold zlen; lia). cbn [fold_left].
    do 2 f_equal. unfold zlen. lia.
  - rewrite (proj2 (Z.ltb_lt 0 _)) by (unfold zlen; lia).
    rewrite !app_assoc, <- (app_assoc _ p2), (rd_mid (h ++ p1)) by (rewrite ?zlen_app; unfold zlen in *; lia).
    cbn [mbind option_bind fold_left]. rewrite zlen_to_nat, bitwise_xor_list
      by (rewrite ?length_app, ?length_replicate; lia).
    do 2 f_equal. unfold zlen. lia.
Qed.

(** The counter-mode pass exclusive-ors the payload with the key stream. *)
Lemma ccmp_ctr_eq p r : ccmp_ctr w key cl (h ++ p ++ r) (zlen p) pn =
  Some (h ++ xor_list p (ccmp_key_stream w cl h pn key (S (length p / 16))) ++ r,
        cl_hdrlen cl + 8 + zlen p).
Proof using Hcl Hh Hpn.
  destruct (split16 p) as (n & p1 & p2 & -> & Hp1 & Hp2 & Hq & Hr).
  unfold ccmp_ctr. rewrite Hq, Hr, Nat2Z.id.
  replace (length (p1 ++ p2) / 16)%nat with n
    by (rewrite length_app, Hp1, Nat.mul_comm, Nat.div_add_l, Nat.div_small by lia; lia).
  unfold ccmp_key_stream. rewrite key_stream_S.
  pose proof (aes128_length key) as HE. revert HE.
  generalize (aes128k128d key) as E. intros E HE.
  pose proof (ctr_loop _ HE w cl h pn hdr_32 Hpn n 0 [] p1 (p2 ++ r)
                (cl_hdrlen cl + 8) ltac:(unfold zlen in *; cbn; lia) Hp1) as HL.
  cbn [app] in HL. change (0 + 1) with 1 in HL.
  fold (key_stream E (ccmp_ctr_block w cl h pn) n) in HL.
  rewrite <- (app_assoc p1), HL. cbn [mbind option_bind].
  pose proof (key_stream_length E (ccmp_ctr_block w cl h pn) n HE) as Hks.
  destruct (decide (length p2 = 0)%nat) as [H0|H0].
  - rewrite (proj2 (Z.ltb_ge 0 _)) by (unfold zlen; lia).
    rewrite (nil_length_inv p2 H0), app_nil_r, xor_list_app_r by lia.
    do 2 f_equal. unfold zlen. lia.
  - rewrite (proj2 (Z.ltb_lt 0 _)) by (unfold zlen; lia).
    rewrite construct_ctr_preload_eq by done. cbn [mbind option_bind].
    set (x := xor_list p1 _). assert (Hx : zlen x = zlen p1)
      by (unfold zlen, x; rewrite xor_list_length; lia).
    rewrite xor_list_app, app_assoc by lia.
    rewrite (rd_mid (h ++ x)) by (rewrite ?zlen_app; unfold zlen in *; lia).
    cbn [mbind option_bind]. rewrite zlen_to_nat, take_pad_xor by (done || lia).
    rewrite (wr_mid (h ++ x)) by (rewrite ?zlen_app, ?xor_list_length, ?HE; unfold zlen in *; lia).
    cbn [mbind option_bind]. fold x. rewrite <- !app_assoc, (Z.add_comm 1).
    do 2 f_equal. rewrite zlen_app. unfold zlen. lia.
Qed.

(** The MIC field is masked with counter block 0. *)
Lemma ccmp_encrypt_mic_eq p x r : zlen x = 8 ->
  ccmp_encrypt_mic w key cl (h ++ p ++ x ++ r) (zlen p) pn (cl_hdrlen cl + 8 + zlen p)
  = Some (h ++ p ++ xor_list x (ccmp_mask w cl h pn key) ++ r).
Proof using Hcl Hh Hpn.
  intros Hx. unfold ccmp_encrypt_mic, ccmp_mask.
  rewrite construct_ctr_preload_eq by done. cbn [mbind option_bind].
  pose proof (aes128_length key) as HE. revert HE.
  generalize (aes128k128d key) as E. intros E HE.
  rewrite (app_assoc h p), (rd_mid (h ++ p)) by (rewrite ?zlen_app; lia).
  cbn [mbind option_bind]. unfold zlen in Hx.
  pose proof (take_pad_xor (E (ccmp_ctr_block w cl h pn 0)) x (HE _) ltac:(lia)) as T.
  replace (length x) with 8%nat in T by lia. cbn [Nat.sub] in T. rewrite T.
  rewrite (wr_mid (h ++ p)) by (rewrite ?zlen_app, ?xor_list_length, ?HE; unfold zlen in *; lia).
  by rewrite <- app_assoc, xor_list_take by lia.
Qed.
End frame.

(** ** The whole functions *)

(** Frame control and packet number of a header, without bounds checks. *)
Definition hdr_fc (h : list Z) : Z := ld0 h 0 .| (ld0 h 1 .<< 8).
Definition hdr_pn (h : list Z) (off : Z) : list Z :=
  map (fun k => ld0 h (off + k)) [0; 1; 4; 5; 6; 7].

Lemma frame_ctl_eq h r : 2 <= zlen h -> frame_ctl (h ++ r) = Some (hdr_fc h).
Proof. intros H. unfold frame_ctl. by rewrite !ld_app_l, !ld_Some by lia. Qed.

Lemma read_pn_eq h r off : 0 <= off -> off + 8 <= zlen h ->
  read_pn (h ++ r) off = Some (hdr_pn h off).
Proof.
  intros H0 H. unfold read_pn. rewrite !ld_app_l, !ld_Some by lia. cbn [mbind option_bind].
  unfold hdr_pn. cbn [map]. by rewrite Z.add_0_r.
Qed.

(** A well-formed CCMP frame: [h] is the header and the 8 bytes of CCMP header after it. *)
Record ccmp_header (hdrlen : Z) (cl : ccmp_class) (h : list Z) : Prop := {
  ch_class : ccmp_classify (hdr_fc h) hdrlen = cl;
  ch_ok : class_ok cl;
  ch_len : zlen h = cl_hdrlen cl + 8
}.

Section whole.
Context (w : bool) (key : list Z) (hdrlen : Z) (cl : ccmp_class) (h : list Z).
Context (Hf : ccmp_header hdrlen cl h).
Abbreviation pn := (hdr_pn h (cl_hdrlen cl)).
Abbreviation ks p := (ccmp_key_stream w cl h pn key (S (length p / 16))).
Abbreviation mac p := (ccmp_mac w cl h pn key p).
Abbreviation mask := (ccmp_mask w cl h pn key).

Lemma header_len : 32 <= zlen h /\ 24 <= cl_hdrlen cl <= 32.
Proof using Hf.
  destruct Hf as [_ Hok Hl]. unfold class_ok in Hok.
  destruct (cl_a4_exists cl), (cl_qc_exists cl); lia.
Qed.

Lemma mac_length p : zlen (mac p) = 8.
Proof using Type.
  unfold ccmp_mac, zlen. pose proof (aes128_length key) as HE. revert HE.
  generalize (aes128k128d key) as E. intros E HE.
  by rewrite length_take, cbc_mac_length.
Qed.

Lemma mask_length : zlen mask = 8.
Proof using Type.
  unfold ccmp_mask, zlen. by rewrite length_take, aes128_length.
Qed.

Lemma xor_ks_length p : zlen (xor_list p (ks p)) = zlen p.
Proof using Type.
  unfold ccmp_key_stream, zlen. rewrite xor_list_length, key_stream_length by apply aes128_length.
  pose proof (Nat.div_mod_eq (length p) 16). pose proof (Nat.mod_upper_bound (length p) 16). lia.
Qed.

Lemma xor_ks_involutive p : let c := xor_list p (ks p) in xor_list c (ks c) = p.
Proof using Type.
  intros c. assert (length c = length p) as ->.
  { pose proof (xor_ks_length p). unfold c, zlen in *. lia. }
  apply xor_list_involutive. unfold ccmp_key_stream.
  rewrite key_stream_length by apply aes128_length.
  pose proof (Nat.div_mod_eq (length p) 16). pose proof (Nat.mod_upper_bound (length p) 16). lia.
Qed.

(** Encryption: payload xor key stream, then the masked MIC. *)
Lemma aes_cipher_eq p x t : zlen x = 8 ->
  aes_cipher w key hdrlen (h ++ p ++ x ++ t) (zlen p) =
  Some (h ++ xor_list p (ks p) ++ xor_list (mac p) mask ++ t, _SUCCESS).
Proof using Hf.
  intros Hx. destruct header_len as [Hh Hc]. destruct Hf as [Hcl Hok Hlen].
  unfold aes_cipher. rewrite frame_ctl_eq by lia. cbn [mbind option_bind]. rewrite Hcl.
  rewrite read_pn_eq by lia. cbn [mbind option_bind].
  rewrite ccmp_mic_eq by done. cbn [mbind option_bind].
  fold (ccmp_mac w cl h pn key p).
  rewrite (app_assoc h p), (wr_mid (h ++ p) x) by
    (rewrite ?zlen_app; pose proof (mac_length p); unfold zlen in *; lia).
  cbn [mbind option_bind]. rewrite <- app_assoc, ccmp_ctr_eq by done. cbn [mbind option_bind].
  pose proof (xor_ks_length p) as Hl. rewrite <- Hl.
  rewrite ccmp_encrypt_mic_eq by (done || apply mac_length). done.
Qed.

(** Decryption of a frame that fits the static buffer: the payload is decrypted, and
    the frame accepted exactly when its last 8 bytes are the masked MIC of the result. *)
Lemma aes_decipher_eq p x t message : cl_hdrlen cl = hdrlen -> zlen x = 8 ->
  zlen message = MAX_MSG_SIZE -> zlen h + zlen p + 8 <= MAX_MSG_SIZE ->
  let p' := xor_list p (ks p) in
  aes_decipher w key hdrlen (h ++ p ++ x ++ t) (zlen p + 8) message =
  Some (h ++ p' ++ x ++ t,
        h ++ p ++ xor_list (mac p') mask ++ drop (length h + length p + 8) message,
        if bool_decide (x = xor_list (mac p') mask) then _SUCCESS else _FAIL).
Proof using Hf.
  intros Hhd Hx Hmsg Hfit p'. destruct header_len as [Hh Hc].
  pose proof (xor_ks_length p) as Hl. fold p' in Hl.
  pose proof (mac_length p') as Hm. pose proof mask_length as Hk.
  destruct Hf as [Hcl Hok Hlen]. unfold MAX_MSG_SIZE in *. pose proof (zlen_nonneg p).
  unfold aes_decipher. rewrite frame_ctl_eq by lia. cbn [mbind option_bind].
  rewrite <- Hhd at 1. rewrite read_pn_eq by lia. cbn [mbind option_bind]. rewrite Hcl.
  replace (zlen p + 8 - 8) with (zlen p) by lia. rewrite u32_id by lia.
  rewrite ccmp_ctr_eq by done. cbn [mbind option_bind]. fold p'.
  unfold MAX_MSG_SIZE. rewrite (proj2 (Z.leb_le _ 2048)) by lia.
  rewrite (app_assoc p' x), (app_assoc h (p' ++ x)), (rd_prefix (h ++ p' ++ x) t)
    by (rewrite ?zlen_app; lia).
  cbn [mbind option_bind].
  destruct (split_at message (zlen h + zlen p + 8)) as (m1 & m2 & -> & Hm1 & Hm2); [lia|].
  rewrite (wr_prefix m1 m2) by (rewrite !length_app; unfold zlen in *; lia).
  cbn [mbind option_bind app]. rewrite <- !app_assoc, read_pn_eq by lia.
  cbn [mbind option_bind]. rewrite <- Hl, ccmp_mic_eq by done. cbn [mbind option_bind].
  fold (ccmp_mac w cl h pn key p').
  rewrite (app_assoc h p' (x ++ m2)), (wr_mid (h ++ p') x) by
    (rewrite ?zlen_app; unfold zlen in *; lia).
  cbn [mbind option_bind]. rewrite <- app_assoc, ccmp_ctr_eq by done. cbn [mbind option_bind].
  assert (Hp : length p' = length p) by (unfold zlen in Hl; lia).
  pose proof (xor_ks_involutive p) as Hx'. fold p' in Hx'. cbv zeta in Hx'.
  rewrite Hx', Hl. rewrite ccmp_encrypt_mic_eq by done. cbn [mbind option_bind].
  rewrite (app_assoc h p' (x ++ t)), (rd_mid (h ++ p') x t) by (rewrite ?zlen_app; lia).
  cbn [mbind option_bind].
  assert (Hy : zlen (xor_list (mac p') mask) = 8)
    by (unfold zlen in *; rewrite xor_list_length; lia).
  rewrite (app_assoc h p), (rd_mid (h ++ p)) by (rewrite ?zlen_app; lia).
  cbn [mbind option_bind]. rewrite <- !app_assoc.
  replace (length h + length p + 8)%nat with (length m1) by (unfold zlen in *; lia).
  by rewrite drop_app_length.
Qed.
End whole.

(** ** Lengths the code does not check *)

Section indices.
Context (w : bool) (E : list Z -> list Z) (cl : ccmp_class) (pn : list Z).

Lemma mic_loop_index n i m acc off acc' off' : (forall b, length (E b) = 16%nat) ->
  length acc = 16%nat -> for_from n i (mic_block E m) (acc, off) = Some (acc', off') ->
  off' = off + 16 * Z.of_nat n /\ length acc' = 16%nat.
Proof using Type.
  intros HE. revert i acc off. induction n as [|n IH]; intros i acc off Hacc H; cbn [for_from] in H.
  { injection H as <- <-. lia. }
  apply bind_Some in H as ([acc1 off1] & H1 & H). unfold mic_block in H1.
  apply bind_Some in H1 as (blk & _ & H1). injection H1 as <- <-.
  apply IH in H as [-> Hl]; [lia|apply HE].
Qed.

Lemma ctr_loop_index n i m off m' off' :
  for_from n i (ctr_block w E cl pn) (m, off) = Some (m', off') ->
  off' = off + 16 * Z.of_nat n /\ zlen m' = zlen m /\ ((0 < n)%nat -> off' <= zlen m).
Proof using Type.
  revert i m off. induction n as [|n IH]; intros i m off H; cbn [for_from] in H.
  { injection H as <- <-. lia. }
  apply bind_Some in H as ([m1 off1] & H1 & H).
  apply IH in H as (-> & Hm & Hn). unfold ctr_block in H1.
  apply bind_Some in H1 as (? & _ & H1). apply bind_Some in H1 as (? & Hrd & H1).
  apply bind_Some in H1 as (m2 & Hw & H1). injection H1 as <- <-.
  apply wr_length in Hw. apply rd_inv in Hrd as (a & c & -> & Ha & Hb).
  rewrite !zlen_app in *. pose proof (zlen_nonneg c). lia.
Qed.
End indices.

Lemma ccmp_mic_index w key cl m plen pn acc off : 0 <= plen ->
  ccmp_mic w key cl m plen pn = Some (acc, off) ->
  off = cl_hdrlen cl + 8 + plen /\ length acc = 16%nat.
Proof.
  intros Hp H. unfold ccmp_mic in H. revert H. pose proof (aes128_length key) as HE. revert HE.
  generalize (aes128k128d key) as E. intros E HE H.
  apply bind_Some in H as (? & _ & H). apply bind_Some in H as (? & _ & H).
  apply bind_Some in H as (? & _ & H). apply bind_Some in H as ([acc1 off1] & H1 & H).
  apply mic_loop_index in H1 as [-> Hl]; [|apply HE..].
  destruct (0 <? plen mod 16) eqn:Er; bool_to_prop.
  - apply bind_Some in H as (? & _ & H). injection H as <- <-. rewrite HE. split; [|done].
    Z.to_euclidean_division_equations. lia.
  - injection H as <- <-. split; [|done]. Z.to_euclidean_division_equations. lia.
Qed.

(** A length below the 8 bytes of the MIC wraps around and the first pass runs off the
    end of the buffer. *)
Lemma aes_decipher_underflow w key hdrlen m plen message :
  0 <= plen < 8 -> 0 <= hdrlen -> zlen m < 2 ^ 31 ->
  aes_decipher w key hdrlen m plen message = None.
Proof.
  intros Hp Hh Hm. unfold aes_decipher.
  destruct (frame_ctl m) as [fc|]; [|done]. cbn [mbind option_bind].
  destruct (read_pn m hdrlen) as [pn|]; [|done]. cbn [mbind option_bind].
  assert (Hc : 0 <= cl_hdrlen (ccmp_classify fc hdrlen)).
  { unfold ccmp_classify. repeat case_match; cbn; lia. }
  destruct (ccmp_ctr _ _ _ m _ pn) as [[m' off]|] eqn:E; [|done]. exfalso.
  unfold ccmp_ctr in E. apply bind_Some in E as ([m1 off1] & E & _).
  assert (Hu : u32 (plen - 8) = 2 ^ 32 + plen - 8).
  { unfold u32. symmetry. apply (Z.mod_unique_pos _ _ (-1)); lia. }
  rewrite Hu in E.
  assert (Hn : 2 ^ 28 - 1 <= (2 ^ 32 + plen - 8) / 16) by (Z.to_euclidean_division_equations; lia).
  apply ctr_loop_index in E as (-> & _ & E). lia.
Qed.

(** A frame larger than the static buffer is not copied, but the MIC is still inserted
    and re-encrypted at its offset, past the end of the buffer. *)
Lemma aes_decipher_overflow w key hdrlen m plen message :
  8 <= plen < 2 ^ 32 -> zlen message = MAX_MSG_SIZE ->
  MAX_MSG_SIZE < cl_hdrlen (ccmp_classify (hdr_fc m) hdrlen) + plen + 8 ->
  aes_decipher w key hdrlen m plen message = None.
Proof.
  intros Hp Hmsg Hbig. unfold aes_decipher.
  destruct (Z.lt_ge_cases (zlen m) 2) as [Hm|Hm].
  { unfold frame_ctl. destruct (ld m 0); [|done]. cbn [mbind option_bind].
    by rewrite (ld_None m 1) by lia. }
  rewrite <- (app_nil_r m), frame_ctl_eq, app_nil_r by lia. cbn [mbind option_bind].
  destruct (read_pn m hdrlen) as [pn|]; [|done]. cbn [mbind option_bind].
  set (cl := ccmp_classify (hdr_fc m) hdrlen) in *.
  rewrite u32_id by lia.
  destruct (ccmp_ctr _ _ _ m _ pn) as [[m' off]|]; [|done]. cbn [mbind option_bind].
  rewrite (proj2 (Z.leb_gt _ MAX_MSG_SIZE)) by lia. cbn [mbind option_bind].
  destruct (read_pn m' _) as [pn'|]; [|done]. cbn [mbind option_bind].
  destruct (ccmp_mic _ _ _ message _ pn') as [[acc off']|] eqn:E; [|done].
  cbn [mbind option_bind]. apply ccmp_mic_index in E as [-> Hl]; [|lia].
  rewrite wr_None; [done|]. unfold zlen at 2. rewrite length_take. lia.
Qed.

(** ** Properties *)

(** C38: [aes_cipher] implements CCM on an 802.11 frame: the payload is replaced by its
    exclusive or with the counter-mode key stream, the 8 bytes after it by the CBC-MAC of
    nonce block, additional data and payload masked with counter block 0; the header and
    everything after the MIC are unchanged. *)
Theorem aes_cipher_is_ccm w key hdrlen cl h p x t : ccmp_header hdrlen cl h -> zlen x = 8 ->
  let pn := hdr_pn h (cl_hdrlen cl) in
  aes_cipher w key hdrlen (h ++ p ++ x ++ t) (zlen p) =
  Some (h ++ xor_list p (ccmp_key_stream w cl h pn key (S (length p / 16)))
        ++ xor_list (ccmp_mac w cl h pn key p) (ccmp_mask w cl h pn key) ++ t, _SUCCESS).
Proof. intros Hf Hx. by apply aes_cipher_eq. Qed.

(** A QoS data frame of 26 header bytes and 8 CCMP header bytes, and a key. *)
Definition example_hdr : list Z :=
  [0x88; 0x41; 0; 0] ++ zseq 0x10 18 ++ [0x30; 0x12; 0x03; 0] ++ [1; 2; 0; 0x20; 3; 4; 5; 6].
Definition example_cl : ccmp_class := mk_class 8 true false 26.

Lemma example_header : ccmp_header 26 example_cl example_hdr.
Proof. split; reflexivity. Qed.

Lemma aes_cipher_is_ccm_witness :
  let pn := hdr_pn example_hdr 26 in
  let key := zseq 0 16 in
  aes_cipher false key 26 (example_hdr ++ [1; 2; 3] ++ replicate 8 0 ++ [9]) 3 =
  Some (example_hdr
        ++ xor_list [1; 2; 3] (ccmp_key_stream false example_cl example_hdr pn key 1)
        ++ xor_list (ccmp_mac false example_cl example_hdr pn key [1; 2; 3])
             (ccmp_mask false example_cl example_hdr pn key) ++ [9], _SUCCESS).
Proof.
  apply (aes_cipher_is_ccm false (zseq 0 16) 26 example_cl example_hdr [1; 2; 3]
           (replicate 8 0) [9] example_header). reflexivity.
Defined.

(** [aes_decipher] on a frame that fits its static buffer decrypts the payload and
    accepts the frame exactly when the 8 bytes after it are the masked MIC of the
    decrypted payload, whatever the static buffer held before. *)
Theorem aes_decipher_accepts_iff w key hdrlen cl h c x t message :
  ccmp_header hdrlen cl h -> cl_hdrlen cl = hdrlen -> zlen x = 8 ->
  zlen message = MAX_MSG_SIZE -> zlen h + zlen c + 8 <= MAX_MSG_SIZE ->
  let pn := hdr_pn h hdrlen in
  let p := xor_list c (ccmp_key_stream w cl h pn key (S (length c / 16))) in
  exists message' res,
    aes_decipher w key hdrlen (h ++ c ++ x ++ t) (zlen c + 8) message =
      Some (h ++ p ++ x ++ t, message', res) /\
    (res = _SUCCESS <-> x = xor_list (ccmp_mac w cl h pn key p) (ccmp_mask w cl h pn key)) /\
    (res = _SUCCESS \/ res = _FAIL).
Proof.
  intros Hf Hh Hx Hm Hfit pn p. subst hdrlen.
  eexists _, _. rewrite (aes_decipher_eq w key _ cl h Hf) by done. split; [reflexivity|].
  fold pn p. case_bool_decide; (split; [|by auto]); done.
Qed.

Lemma aes_decipher_accepts_iff_witness :
  let key := zseq 0 16 in
  let pn := hdr_pn example_hdr 26 in
  let p := xor_list [7; 7; 7] (ccmp_key_stream false example_cl example_hdr pn key 1) in
  exists message' res,
    aes_decipher false key 26 (example_hdr ++ [7; 7; 7] ++ replicate 8 0 ++ []) 11
      (replicate 2048 0) = Some (example_hdr ++ p ++ replicate 8 0 ++ [], message', res) /\
    (res = _SUCCESS <-> replicate 8 0 = xor_list (ccmp_mac false example_cl example_hdr pn key p)
       (ccmp_mask false example_cl example_hdr pn key)) /\
    (res = _SUCCESS \/ res = _FAIL).
Proof.
  apply (aes_decipher_accepts_iff false (zseq 0 16) 26 example_cl example_hdr [7; 7; 7]
           (replicate 8 0) [] (replicate 2048 0) example_header); vm_compute; done.
Defined.

(** Decryption undoes encryption: a frame that [aes_cipher] produced, followed by
    anything, is accepted by [aes_decipher] under the same key and gives the original
    payload back. *)
Theorem ccmp_round_trip w key hdrlen cl h p x t message :
  ccmp_header hdrlen cl h -> cl_hdrlen cl = hdrlen -> zlen x = 8 ->
  zlen message = MAX_MSG_SIZE -> zlen h + zlen p + 8 <= MAX_MSG_SIZE ->
  exists f mic message',
    aes_cipher w key hdrlen (h ++ p ++ x ++ t) (zlen p) = Some (f, _SUCCESS) /\
    aes_decipher w key hdrlen f (zlen p + 8) message =
      Some (h ++ p ++ mic ++ t, message', _SUCCESS).
Proof.
  intros Hf Hh Hx Hm Hfit. subst hdrlen. rewrite (aes_cipher_eq w key _ cl h Hf) by done.
  set (pn := hdr_pn _ _). set (mic := xor_list (ccmp_mac _ _ _ _ _ _) _).
  set (c := xor_list p _). eexists _, mic. pose proof (xor_ks_length w key cl h p) as Hc.
  fold pn c in Hc.
  assert (Hmic : zlen mic = 8).
  { pose proof (mac_length w key cl h p) as H1. pose proof (mask_length w key cl h) as H2.
    fold pn in H1, H2. unfold mic, zlen in *. rewrite xor_list_length. lia. }
  rewrite <- Hc. eexists. split; [reflexivity|].
  rewrite (aes_decipher_eq w key _ cl h Hf) by (done || lia). fold pn.
  assert (Hp : xor_list c (ccmp_key_stream w cl h pn key (S (length c / 16))) = p)
    by (unfold c, pn; apply xor_ks_involutive).
  rewrite Hp, bool_decide_true; done.
Qed.

Lemma ccmp_round_trip_witness : exists f mic message',
  aes_cipher true (zseq 0 16) 26 (example_hdr ++ [1; 2; 3] ++ replicate 8 0 ++ [5]) 3
    = Some (f, _SUCCESS) /\
  aes_decipher true (zseq 0 16) 26 f 11 (replicate 2048 1) =
    Some (example_hdr ++ [1; 2; 3] ++ mic ++ [5], message', _SUCCESS).
Proof.
  apply (ccmp_round_trip true (zseq 0 16) 26 example_cl example_hdr [1; 2; 3] (replicate 8 0)
    [5] (replicate 2048 1) example_header); vm_compute; done.
Defined.

(** The lengths [aes_decipher] does not check: a frame body shorter than the MIC makes
    the unsigned length wrap and the first pass run off the frame, and a frame that does
    not fit the static buffer is not copied to it but its MIC is written past the end of
    the buffer all the same; the model reports both as out of bounds. *)
Theorem aes_decipher_unchecked_lengths w key hdrlen m plen message :
  0 <= hdrlen -> zlen m < 2 ^ 31 -> zlen message = MAX_MSG_SIZE ->
  (0 <= plen < 8 \/
   8 <= plen < 2 ^ 32 /\
   MAX_MSG_SIZE < cl_hdrlen (ccmp_classify (hdr_fc m) hdrlen) + plen + 8) ->
  aes_decipher w key hdrlen m plen message = None.
Proof.
  intros Hh Hm Hmsg [Hp|[Hp Hbig]]; [by apply aes_decipher_underflow|by apply aes_decipher_overflow].
Qed.

Lemma aes_decipher_unchecked_lengths_witness :
  aes_decipher false (zseq 0 16) 26 (example_hdr ++ replicate 2100 0) 2100 (replicate 2048 0) = None.
Proof.
  apply (aes_decipher_unchecked_lengths false (zseq 0 16) 26 (example_hdr ++ replicate 2100 0)
    2100 (replicate 2048 0)); [lia|vm_compute; done|vm_compute; done|].
  right. split; [lia|vm_compute; done].
Defined.
