(* ===== verification/Sha256.v ===== *)
(** * SHA-256, HMAC and the key-derivation function (core/rtw_security.c)

    [sha256_compress], the streaming interface [sha256_init], [sha256_process],
    [sha256_done], [sha256_vector], [hmac_sha256_vector] and [sha256_prf].  The buffer of a
    fresh [struct sha256_state] is not initialised: it is an argument here, and the
    theorems hold whatever it contains. *)

From S2P Require Import Prelude.

(** ** Macros of include/rtw_security.h *)

Definition K : list Z := [
  0x428A2F98; 0x71374491; 0xB5C0FBCF; 0xE9B5DBA5; 0x3956C25B;
  0x59F111F1; 0x923F82A4; 0xAB1C5ED5; 0xD807AA98; 0x12835B01;
  0x243185BE; 0x550C7DC3; 0x72BE5D74; 0x80DEB1FE; 0x9BDC06A7;
  0xC19BF174; 0xE49B69C1; 0xEFBE4786; 0x0FC19DC6; 0x240CA1CC;
  0x2DE92C6F; 0x4A7484AA; 0x5CB0A9DC; 0x76F988DA; 0x983E5152;
  0xA831C66D; 0xB00327C8; 0xBF597FC7; 0xC6E00BF3; 0xD5A79147;
  0x06CA6351; 0x14292967; 0x27B70A85; 0x2E1B2138; 0x4D2C6DFC;
  0x53380D13; 0x650A7354; 0x766A0ABB; 0x81C2C92E; 0x92722C85;
  0xA2BFE8A1; 0xA81A664B; 0xC24B8B70; 0xC76C51A3; 0xD192E819;
  0xD6990624; 0xF40E3585; 0x106AA070; 0x19A4C116; 0x1E376C08;
  0x2748774C; 0x34B0BCB5; 0x391C0CB3; 0x4ED8AA4A; 0x5B9CCA4F;
  0x682E6FF3; 0x748F82EE; 0x78A5636F; 0x84C87814; 0x8CC70208;
  0x90BEFFFA; 0xA4506CEB; 0xBEF9A3F7; 0xC67178F2].

Definition RORc (x y : Z) : Z :=
  (((x .& 0xFFFFFFFF) .>> (y .& 31)) .| (x .<< (32 - (y .& 31)))) .& 0xFFFFFFFF.
Definition Ch (x y z : Z) : Z := z .^ (x .& (y .^ z)).
Definition Maj (x y z : Z) : Z := ((x .| y) .& z) .| (x .& y).
Definition R (x n : Z) : Z := (x .& 0xFFFFFFFF) .>> n.
Definition Sigma0 (x : Z) : Z := RORc x 2 .^ RORc x 13 .^ RORc x 22.
Definition Sigma1 (x : Z) : Z := RORc x 6 .^ RORc x 11 .^ RORc x 25.
Definition Gamma0 (x : Z) : Z := RORc x 7 .^ RORc x 18 .^ R x 3.
Definition Gamma1 (x : Z) : Z := RORc x 17 .^ RORc x 19 .^ R x 10.

Definition WPA_GET_BE32 (a : list Z) : Z :=
  (ld0 a 0 .<< 24) .| (ld0 a 1 .<< 16) .| (ld0 a 2 .<< 8) .| ld0 a 3.
Definition WPA_PUT_LE16 (val : Z) : list Z := [u16 val .& 0xff; u8 (u16 val .>> 8)].
Definition WPA_PUT_BE32 (val : Z) : list Z :=
  map (fun k => u8 ((u32 val .>> k) .& 0xff)) [24; 16; 8; 0].
Definition WPA_PUT_BE64 (val : Z) : list Z :=
  map (fun k => u8 (u64 val .>> k)) [56; 48; 40; 32; 24; 16; 8; 0].

(** ** Compression function *)

Definition sha256_expand (i : Z) (W : list Z) : list Z :=
  W ++ [u32 (Gamma1 (ld0 W (i - 2)) + ld0 W (i - 7) + Gamma0 (ld0 W (i - 15)) + ld0 W (i - 16))].

(** [RND] on [S], followed by the rotation of [S]. *)
Definition RND (W : list Z) (i : Z) (S : list Z) : list Z :=
  let a := ld0 S 0 in let b := ld0 S 1 in let c := ld0 S 2 in let d := ld0 S 3 in
  let e := ld0 S 4 in let f := ld0 S 5 in let g := ld0 S 6 in let h := ld0 S 7 in
  let t0 := u32 (h + Sigma1 e + Ch e f g + ld0 K i + ld0 W i) in
  let t1 := u32 (Sigma0 a + Maj a b c) in
  [u32 (t0 + t1); a; b; c; u32 (d + t0); e; f; g].

(** The new [md->state] from the old one and a block of 64 bytes. *)
Definition sha256_compress (state buf : list Z) : list Z :=
  let W := map (fun i => WPA_GET_BE32 (drop (Z.to_nat (4 * i)) buf)) (zseq 0 16) in
  let W := iter_from 48 16 sha256_expand W in
  let S := iter_from 64 0 (RND W) state in
  map (fun i => u32 (ld0 state i + ld0 S i)) (zseq 0 8).

#[global] Strategy 900 [sha256_compress].

(** ** Streaming interface *)

(** [struct sha256_state]. *)
Record sha256_state := mk_sha256 {
  sha_length : Z; sha_state : list Z; sha_curlen : Z; sha_buf : list Z
}.

Definition sha256_H0 : list Z :=
  [0x6A09E667; 0xBB67AE85; 0x3C6EF372; 0xA54FF53A; 0x510E527F; 0x9B05688C; 0x1F83D9AB; 0x5BE0CD19].

Definition sha256_init (md : sha256_state) : sha256_state :=
  mk_sha256 0 sha256_H0 0 (sha_buf md).

(** The [while (inlen > 0)] loop; [input] is what [in] points to, of length [inlen].
    [None]: out of fuel, or a copy outside [md->buf]. *)
Fixpoint sha256_process_loop (fuel : nat) (md : sha256_state) (input : list Z)
    : option sha256_state :=
  match input, fuel with
  | [], _ => Some md
  | _, O => None
  | _, Datatypes.S fuel' =>
      if (sha_curlen md =? 0) && (64 <=? zlen input) then
        sha256_process_loop fuel'
          (mk_sha256 (u64 (sha_length md + 64 * 8)) (sha256_compress (sha_state md) (take 64 input))
             (sha_curlen md) (sha_buf md)) (drop 64 input)
      else
        let n := Z.min (zlen input) (64 - sha_curlen md) in
        buf ← wr (sha_buf md) (sha_curlen md) (take (Z.to_nat n) input);
        let curlen := sha_curlen md + n in
        sha256_process_loop fuel'
          (if curlen =? 64
           then mk_sha256 (u64 (sha_length md + 8 * 64)) (sha256_compress (sha_state md) buf) 0 buf
           else mk_sha256 (sha_length md) (sha_state md) curlen buf)
          (drop (Z.to_nat n) input)
  end.

(** The result is [None] when the function returns -1 as well. *)
Definition sha256_process (md : sha256_state) (input : list Z) : option sha256_state :=
  if 64 <? sha_curlen md then None else sha256_process_loop (length input) md input.

(** [while (curlen < upto) buf[curlen++] = 0]. *)
Definition sha256_zero_fill (upto : Z) (md : sha256_state) : option sha256_state :=
  let n := upto - sha_curlen md in
  buf ← wr (sha_buf md) (sha_curlen md) (replicate (Z.to_nat n) 0);
  Some (mk_sha256 (sha_length md) (sha_state md) (Z.max upto (sha_curlen md)) buf).

Definition sha256_done (md : sha256_state) : option (list Z) :=
  if 64 <=? sha_curlen md then None else
  let len := u64 (sha_length md + u32 (sha_curlen md * 8)) in
  buf ← st (sha_buf md) (sha_curlen md) 0x80;
  let md := mk_sha256 len (sha_state md) (sha_curlen md + 1) buf in
  md ← (if 56 <? sha_curlen md then
          md ← sha256_zero_fill 64 md;
          Some (mk_sha256 (sha_length md) (sha256_compress (sha_state md) (sha_buf md)) 0 (sha_buf md))
        else Some md);
  md ← sha256_zero_fill 56 md;
  buf ← wr (sha_buf md) 56 (WPA_PUT_BE64 (sha_length md));
  let state := sha256_compress (sha_state md) buf in
  Some (concat (map (fun i => WPA_PUT_BE32 (ld0 state i)) (zseq 0 8))).

(** The data areas [addr[i]], [len[i]] are the elements of [data]; [ctx] is the
    uninitialised local. *)
Fixpoint sha256_feed (md : sha256_state) (data : list (list Z)) : option sha256_state :=
  match data with
  | [] => Some md
  | d :: data' => md' ← sha256_process md d; sha256_feed md' data'
  end.

Definition sha256_vector (ctx : sha256_state) (data : list (list Z)) : option (list Z) :=
  md ← sha256_feed (sha256_init ctx) data; sha256_done md.

(** [hmac_sha256_vector]: [None] when nothing is written to [mac] (more than 5 fragments). *)
Definition hmac_sha256_vector (ctx : sha256_state) (key : list Z) (data : list (list Z))
    : option (list Z) :=
  if 5 <? zlen data then None else
  key ← (if 64 <? zlen key then sha256_vector ctx [key] else Some key);
  k_pad ← wr (replicate 64 0) 0 key;
  mac ← sha256_vector ctx (map (fun b => b .^ 0x36) k_pad :: data);
  sha256_vector ctx [map (fun b => b .^ 0x5c) k_pad; mac].

(** [os_strlen] has return type [u8]; [label] is the string before its final zero byte. *)
Definition os_strlen (label : list Z) : Z := u8 (zlen label).

(** The [while (pos < buf_len)] loop: the key bytes from [pos] on. *)
Fixpoint sha256_prf_loop (fuel : nat) (ctx : sha256_state) (key label data length_le : list Z)
    (counter pos buf_len : Z) : option (list Z) :=
  if pos <? buf_len then
    match fuel with
    | O => None
    | Datatypes.S fuel' =>
        let plen := buf_len - pos in
        hash ← hmac_sha256_vector ctx key
                 [WPA_PUT_LE16 counter; take (Z.to_nat (os_strlen label)) label; data; length_le];
        if 32 <=? plen then
          rest ← sha256_prf_loop fuel' ctx key label data length_le (u16 (counter + 1)) (pos + 32) buf_len;
          Some (hash ++ rest)
        else Some (take (Z.to_nat plen) hash)
    end
  else Some [].

Definition sha256_prf (ctx : sha256_state) (key label data : list Z) (buf_len : Z)
    : option (list Z) :=
  sha256_prf_loop (Z.to_nat (buf_len / 32) + 1) ctx key label data
    (WPA_PUT_LE16 (buf_len * 8)) 1 0 buf_len.

(** ** Reference: FIPS 180-4, RFC 2104 *)

Definition rotr32 (x n : Z) : Z := x / 2 ^ n + x mod 2 ^ n * 2 ^ (32 - n).
Definition fips_Ch (x y z : Z) : Z := (x .& y) .^ (Z.lnot x .& z).
Definition fips_Maj (x y z : Z) : Z := (x .& y) .^ (x .& z) .^ (y .& z).
Definition fips_S0 (x : Z) : Z := rotr32 x 2 .^ rotr32 x 13 .^ rotr32 x 22.
Definition fips_S1 (x : Z) : Z := rotr32 x 6 .^ rotr32 x 11 .^ rotr32 x 25.
Definition fips_s0 (x : Z) : Z := rotr32 x 7 .^ rotr32 x 18 .^ (x / 2 ^ 3).
Definition fips_s1 (x : Z) : Z := rotr32 x 17 .^ rotr32 x 19 .^ (x / 2 ^ 10).

(** Message schedule: the first 16 words are those of the block. *)
Definition be_word (b : list Z) : Z :=
  match b with [b0; b1; b2; b3] => b0 * 2 ^ 24 + b1 * 2 ^ 16 + b2 * 2 ^ 8 + b3 | _ => 0 end.
Definition fips_W_step (t : Z) (W : list Z) : list Z :=
  W ++ [(fips_s1 (ld0 W (t - 2)) + ld0 W (t - 7) + fips_s0 (ld0 W (t - 15)) + ld0 W (t - 16))
          mod 2 ^ 32].
Definition fips_W (block : list Z) : list Z :=
  iter_from 48 16 fips_W_step (map be_word (chunks 4 16 block)).

Definition fips_round (W : list Z) (t : Z) (s : list Z) : list Z :=
  match s with
  | [a; b; c; d; e; f; g; h] =>
      let T1 := h + fips_S1 e + fips_Ch e f g + ld0 K t + ld0 W t in
      let T2 := fips_S0 a + fips_Maj a b c in
      [(T1 + T2) mod 2 ^ 32; a; b; c; (d + T1) mod 2 ^ 32; e; f; g]
  | _ => s
  end.
Definition fips_compress (H block : list Z) : list Z :=
  zip_with (fun x y => (x + y) mod 2 ^ 32) H (iter_from 64 0 (fips_round (fips_W block)) H).

(** Padding, and the hash. *)
Definition sha256_pad (m : list Z) : list Z :=
  m ++ [0x80] ++ replicate ((119 - length m mod 64) mod 64) 0 ++ be_bytes 8 (8 * zlen m).
Definition sha256_spec (m : list Z) : list Z :=
  let p := sha256_pad m in
  concat (map (be_bytes 4) (fold_left fips_compress (chunks 64 (length p / 64) p) sha256_H0)).

Definition hmac_spec (key text : list Z) : list Z :=
  let k := if 64 <? zlen key then sha256_spec key else key in
  let k := k ++ replicate (64 - length k) 0 in
  sha256_spec (map (fun b => b .^ 0x5c) k ++ sha256_spec (map (fun b => b .^ 0x36) k ++ text)).

(** ** The compression function is that of the standard *)

Lemma RORc_rotr x y : is_u32 x -> 0 < y < 32 -> RORc x y = rotr32 x y.
Proof.
  intros Hx Hy. unfold RORc, rotr32.
  rewrite (land_mask x 32), (land_mask y 5), !Z.mod_small by lia.
  rewrite (land_mask _ 32) by lia.
  rewrite Z.shiftr_div_pow2 by lia.
  assert (Hp : 2 ^ 32 = 2 ^ (32 - y) * 2 ^ y) by (rewrite <- Z.pow_add_r by lia; f_equal; lia).
  assert (0 < 2 ^ y) by lia. assert (0 < 2 ^ (32 - y)) by lia.
  assert (Hlo : 0 <= x / 2 ^ y < 2 ^ (32 - y))
    by (split; [apply Z.div_pos; lia|apply Z.div_lt_upper_bound; lia]).
  rewrite lor_shiftl_add by lia. rewrite Hp.
  rewrite Z.rem_mul_r by lia.
  rewrite Z.mod_add, Z.div_add, Z.mod_small, (Z.div_small _ (2 ^ (32 - y))) by lia.
  rewrite Z.add_0_l. lia.
Qed.

Lemma rotr32_range x y : is_u32 x -> 0 < y < 32 -> is_u32 (rotr32 x y).
Proof.
  intros Hx Hy. rewrite <- RORc_rotr by done. unfold RORc. apply land_range_r. lia.
Qed.

Lemma Ch_fips x y z : Ch x y z = fips_Ch x y z.
Proof.
  unfold Ch, fips_Ch. apply Z.bits_inj'. intros n Hn.
  rewrite !Z.lxor_spec, !Z.land_spec, Z.lxor_spec, Z.lnot_spec by done.
  by destruct (Z.testbit x n), (Z.testbit y n), (Z.testbit z n).
Qed.

Lemma Maj_fips x y z : Maj x y z = fips_Maj x y z.
Proof.
  unfold Maj, fips_Maj. apply Z.bits_inj'. intros n Hn.
  rewrite Z.lor_spec, !Z.lxor_spec, !Z.land_spec, Z.lor_spec.
  by destruct (Z.testbit x n), (Z.testbit y n), (Z.testbit z n).
Qed.

Lemma R_div x n : is_u32 x -> 0 <= n -> R x n = x / 2 ^ n.
Proof.
  intros Hx Hn. unfold R. by rewrite (land_mask x 32), Z.mod_small, Z.shiftr_div_pow2 by lia.
Qed.

Lemma sigmas x : is_u32 x -> Sigma0 x = fips_S0 x /\ Sigma1 x = fips_S1 x /\
  Gamma0 x = fips_s0 x /\ Gamma1 x = fips_s1 x.
Proof.
  intros Hx. unfold Sigma0, Sigma1, Gamma0, Gamma1.
  by rewrite !RORc_rotr, !R_div by lia.
Qed.

Definition words_ok (l : list Z) : Prop := Forall (fun x => is_u32 x) l.

Lemma words_ok_ld0 l i : words_ok l -> is_u32 (ld0 l i).
Proof.
  intros H. unfold ld0. destruct (nth_in_or_default (Z.to_nat i) l 0) as [Hi| ->]; [|lia].
  unfold words_ok in H. rewrite Forall_forall in H. by apply H.
Qed.

Lemma be_word_get b : length b = 4%nat -> bytes_ok b -> WPA_GET_BE32 b = be_word b.
Proof.
  intros Hl Hb. destruct b as [|b0 [|b1 [|b2 [|b3 [|? ?]]]]]; try done.
  unfold bytes_ok in Hb. rewrite !Forall_cons_iff in Hb. simpl in Hb.
  unfold WPA_GET_BE32, be_word. ld0_eval.
  replace (b0 .<< 24 .| b1 .<< 16 .| b2 .<< 8) with ((((b1 .| (b0 .<< 8)) .<< 8) .| b2) .<< 8).
  - rewrite Z.lor_comm, lor_shiftl_add, Z.lor_comm, lor_shiftl_add, lor_shiftl_add by lia. lia.
  - rewrite !Z.shiftl_lor, !Z.shiftl_shiftl by lia. by rewrite (Z.lor_comm (b1 .<< _)).
Qed.

Lemma be_word_range b : bytes_ok b -> is_u32 (be_word b).
Proof.
  intros Hb. destruct b as [|b0 [|b1 [|b2 [|b3 [|? ?]]]]]; simpl; try lia.
  unfold bytes_ok in Hb. rewrite !Forall_cons_iff in Hb. simpl in Hb. lia.
Qed.

Lemma expand_fips i W : words_ok W -> sha256_expand i W = fips_W_step i W.
Proof.
  intros HW. unfold sha256_expand, fips_W_step.
  destruct (sigmas (ld0 W (i - 2))) as (_ & _ & _ & ->); [by apply words_ok_ld0|].
  by destruct (sigmas (ld0 W (i - 15))) as (_ & _ & -> & _); [apply words_ok_ld0|].
Qed.

Lemma expand_ok i W : words_ok W -> words_ok (sha256_expand i W).
Proof.
  intros HW. unfold sha256_expand. apply Forall_app. split; [done|].
  constructor; [apply u32_range|constructor].
Qed.

Lemma GET_BE32_take l : WPA_GET_BE32 (take 4 l) = WPA_GET_BE32 l.
Proof. by destruct l as [|? [|? [|? [|? ?]]]]. Qed.

Lemma get_words buf n i : 0 <= i -> length buf = (4 * (Z.to_nat i + n))%nat -> bytes_ok buf ->
  map (fun j => WPA_GET_BE32 (drop (Z.to_nat (4 * j)) buf)) (zseq i n) =
    map be_word (chunks 4 n (drop (Z.to_nat (4 * i)) buf)).
Proof.
  revert i. induction n as [|n IH]; intros i Hi Hl Hb; [done|].
  rewrite zseq_cons. cbn [map chunks]. rewrite IH by (done || lia). f_equal.
  - rewrite <- GET_BE32_take, be_word_get; [done| |by auto with crange].
    rewrite length_take, length_drop. lia.
  - rewrite drop_drop. do 3 f_equal. lia.
Qed.

Lemma block_words buf : length buf = 64%nat -> bytes_ok buf ->
  map (fun i => WPA_GET_BE32 (drop (Z.to_nat (4 * i)) buf)) (zseq 0 16) =
    map be_word (chunks 4 16 buf) /\ words_ok (map be_word (chunks 4 16 buf)).
Proof.
  intros Hl Hb. split; [apply (get_words buf 16 0); [lia|done|done]|].
  unfold words_ok. apply Forall_map. eapply Forall_impl; [apply be_word_range|].
  by apply chunks_Forall.
Qed.

Lemma schedule_fips buf : length buf = 64%nat -> bytes_ok buf ->
  iter_from 48 16 sha256_expand
    (map (fun i => WPA_GET_BE32 (drop (Z.to_nat (4 * i)) buf)) (zseq 0 16)) = fips_W buf /\ words_ok (fips_W buf).
Proof.
  intros Hl Hb. destruct (block_words buf Hl Hb) as [-> HW]. unfold fips_W.
  revert HW. generalize (map be_word (chunks 4 16 buf)). generalize 16. generalize 48%nat.
  induction n as [|n IH]; intros i W HW; cbn [iter_from]; [done|].
  pose proof (expand_ok i W HW) as HW'. rewrite <- expand_fips by done. by apply IH.
Qed.

(** A state of eight words. *)
Definition hstate_ok (l : list Z) : Prop := length l = 8%nat /\ words_ok l.

Lemma RND_fips W i S : hstate_ok S -> words_ok W -> RND W i S = fips_round W i S /\ hstate_ok (RND W i S).
Proof.
  intros [Hl HS] HW.
  destruct S as [|a [|b [|c [|d [|e [|f [|g [|h [|? ?]]]]]]]]]; try done.
  unfold words_ok in HS. rewrite !Forall_cons_iff in HS. simpl in HS.
  unfold RND, fips_round. ld0_eval.
  destruct (sigmas a) as (-> & _); [lia|]. destruct (sigmas e) as (_ & -> & _); [lia|].
  rewrite Ch_fips, Maj_fips. unfold u32. split.
  - rewrite Zplus_mod_idemp_l, Zplus_mod_idemp_r, Zplus_mod_idemp_r. done.
  - split; [done|]. repeat (constructor; [try lia; apply Z.mod_pos_bound; lia|]). constructor.
Qed.

Lemma compress_fips H block : hstate_ok H -> length block = 64%nat -> bytes_ok block ->
  sha256_compress H block = fips_compress H block /\ hstate_ok (sha256_compress H block).
Proof.
  intros HH Hl Hb. unfold sha256_compress, fips_compress.
  destruct (schedule_fips block Hl Hb) as [-> HW]. revert HW.
  generalize (fips_W block) as W. intros W HW.
  assert (Hr : forall n i S, hstate_ok S -> iter_from n i (RND W) S = iter_from n i (fips_round W) S
                 /\ hstate_ok (iter_from n i (RND W) S)).
  { induction n as [|n IH]; intros i S HS; cbn [iter_from]; [done|].
    destruct (RND_fips W i S HS HW) as [E HS']. rewrite <- E. by apply IH. }
  destruct (Hr 64%nat 0 H HH) as [<- [Hl' HS]].
  destruct (iter_from 64 0 (RND W) H) as [|a [|b [|c [|d [|e [|f [|g [|h [|? ?]]]]]]]]]; try done.
  destruct HH as [HlH _].
  destruct H as [|a' [|b' [|c' [|d' [|e' [|f' [|g' [|h' [|? ?]]]]]]]]]; try done.
  split; [reflexivity|]. split; [done|]. unfold words_ok. apply Forall_map, Forall_forall.
  intros. apply u32_range.
Qed.

(** ** The streaming interface computes the hash of the concatenation *)

Definition hash_blocks (H m : list Z) : list Z :=
  fold_left sha256_compress (chunks 64 (length m / 64) m) H.

Lemma hash_blocks_app H a b k : length a = (64 * k)%nat ->
  hash_blocks H (a ++ b) = hash_blocks (hash_blocks H a) b.
Proof.
  intros Ha. unfold hash_blocks. rewrite length_app, Ha.
  rewrite (Nat.mul_comm 64 k), Nat.div_add_l, Nat.div_mul by lia.
  by rewrite chunks_app, fold_left_app by lia.
Qed.

Lemma hash_blocks_1 H b : length b = 64%nat -> hash_blocks H b = sha256_compress H b.
Proof.
  intros Hb. unfold hash_blocks. rewrite Hb. change (64 / 64)%nat with 1%nat.
  cbn [chunks fold_left]. by rewrite take_ge by lia.
Qed.

(** [md] is the state after the bytes [m]: [k] whole blocks [m1] are hashed, and the rest
    [m2] is in the buffer. *)
Record sha_repr (md : sha256_state) (m : list Z) : Prop := {
  sr_split : exists k m1 m2 junk, m = m1 ++ m2 /\ length m1 = (64 * k)%nat /\
    (length m2 < 64)%nat /\ sha_curlen md = zlen m2 /\ sha_buf md = m2 ++ junk /\
    sha_state md = hash_blocks sha256_H0 m1 /\ sha_length md = u64 (512 * Z.of_nat k);
  sr_buf : length (sha_buf md) = 64%nat
}.

Lemma sha256_init_repr ctx : length (sha_buf ctx) = 64%nat -> sha_repr (sha256_init ctx) [].
Proof. intros H. split; [|done]. exists 0%nat, [], [], (sha_buf ctx). cbn. repeat split; lia. Qed.

Lemma u64_step k : u64 (u64 (512 * Z.of_nat k) + 512) = u64 (512 * Z.of_nat (S k)).
Proof. unfold u64. rewrite Zplus_mod_idemp_l. f_equal. lia. Qed.

Lemma process_loop_repr fuel md m input : (length input <= fuel)%nat -> sha_repr md m ->
  exists md', sha256_process_loop fuel md input = Some md' /\ sha_repr md' (m ++ input).
Proof.
  revert md m input. induction fuel as [|fuel IH]; intros md m input Hf Hr.
  { destruct input; simpl in Hf; [|lia]. exists md. by rewrite app_nil_r. }
  destruct input as [|b input]; [exists md; by rewrite app_nil_r|].
  cbn [sha256_process_loop]. set (inp := b :: input) in *.
  destruct Hr as [(k & m1 & m2 & junk & -> & Hm1 & Hm2 & Hc & Hbuf & Hst & Hlen) Hbl].
  assert (Hi : (0 < length inp)%nat) by (unfold inp; simpl; lia).
  destruct ((sha_curlen md =? 0) && (64 <=? zlen inp)) eqn:E; bool_to_prop.
  - assert (m2 = []) as -> by (apply nil_length_inv; unfold zlen in Hc; lia).
    destruct (IH (mk_sha256 (u64 (sha_length md + 64 * 8)) (sha256_compress (sha_state md) (take 64 inp))
                    (sha_curlen md) (sha_buf md)) (m1 ++ take 64 inp) (drop 64 inp)) as (md' & -> & Hmd').
    + rewrite length_drop. lia.
    + split; [|done]. exists (S k), (m1 ++ take 64 inp), [], (sha_buf md). cbn [sha_curlen sha_state sha_buf sha_length].
      assert (length (take 64 inp) = 64%nat) by (rewrite length_take; unfold zlen in *; lia).
      rewrite app_nil_r, length_app. repeat split; try done; try lia.
      * by rewrite (hash_blocks_app _ _ _ k), (hash_blocks_1 _ (take 64 inp)), Hst.
      * rewrite Hlen. apply (u64_step k).
    + exists md'. split; [done|]. by rewrite app_nil_r, <- app_assoc, take_drop in *.
  - set (n := Z.min (zlen inp) (64 - sha_curlen md)) in *.
    assert (Hn : 0 < n <= 64 - zlen m2 /\ n <= zlen inp) by (unfold zlen in *; lia).
    destruct (split_at inp n) as (a & c & Ha & Hla & Hlc); [lia|].
    assert (Ha' : take (Z.to_nat n) inp = a)
      by (rewrite Ha, <- Hla, zlen_to_nat; apply take_app_length).
    assert (Hc' : drop (Z.to_nat n) inp = c)
      by (rewrite Ha, <- Hla, zlen_to_nat; apply drop_app_length).
    rewrite Ha', Hc'. clear Ha' Hc'. rewrite Hbuf in Hbl |- *. rewrite length_app in Hbl.
    destruct (split_at junk n) as (j1 & j2 & -> & Hj1 & Hj2); [unfold zlen in *; lia|].
    rewrite (wr_mid m2 j1 j2) by (unfold zlen in *; lia). cbn [mbind option_bind].
    rewrite length_app in Hbl.
    assert (Hlb : length (m2 ++ a ++ j2) = 64%nat) by (rewrite !length_app; unfold zlen in *; lia).
    match goal with |- context [sha256_process_loop fuel ?md1 c] =>
      destruct (IH md1 (m1 ++ m2 ++ a) c) as (md' & -> & Hmd') end.
    + rewrite Ha, length_app in Hf. unfold zlen in *. lia.
    + destruct (sha_curlen md + n =? 64) eqn:E64; bool_to_prop; split; cbn [sha_curlen sha_state sha_buf sha_length]; try done.
      * assert (j2 = []) as -> by (apply nil_length_inv; unfold zlen in *; lia).
        rewrite app_nil_r in *. exists (S k), (m1 ++ m2 ++ a), [], (m2 ++ a).
        rewrite app_nil_r, length_app, Hm1, Hlb. repeat split; try lia.
        -- simpl. lia.
        -- by rewrite (hash_blocks_app _ _ _ k), (hash_blocks_1 _ (m2 ++ a)), Hst.
        -- rewrite Hlen. apply (u64_step k).
      * exists k, m1, (m2 ++ a), j2. rewrite <- !app_assoc, length_app, zlen_app.
        unfold zlen in *. repeat split; try done; lia.
    + exists md'. split; [done|]. by rewrite Ha, <- !app_assoc in *.
Qed.

(** A byte of a word that was reduced to [w] bits. *)
Lemma byte_of_mod x k w : 0 <= k -> k + 8 <= w -> u8 ((x mod 2 ^ w) .>> k) = x / 2 ^ k mod 256.
Proof.
  intros Hk Hw. unfold u8. rewrite Z.shiftr_div_pow2 by done. change 256 with (2 ^ 8).
  apply Z.bits_inj'. intros n Hn.
  destruct (Z.lt_ge_cases n 8) as [Hn8|Hn8]; [|by rewrite !Z.mod_pow2_bits_high by lia].
  rewrite !Z.mod_pow2_bits_low, !Z.div_pow2_bits, Z.mod_pow2_bits_low by lia. done.
Qed.

Lemma PUT_BE64_spec x : WPA_PUT_BE64 (u64 x) = be_bytes 8 x.
Proof.
  assert (E : forall k, 0 <= k <= 56 -> u8 (u64 (u64 x) .>> k) = x / 2 ^ k mod 256).
  { intros k Hk. unfold u64. rewrite Z.mod_mod by lia. apply byte_of_mod; lia. }
  unfold WPA_PUT_BE64, be_bytes. cbn [map]. rewrite !E by lia. reflexivity.
Qed.

Lemma PUT_BE32_spec x : WPA_PUT_BE32 x = be_bytes 4 x.
Proof.
  assert (E : forall k, 0 <= k <= 24 -> u8 ((u32 x .>> k) .& 0xff) = x / 2 ^ k mod 256).
  { intros k Hk. rewrite (land_mask _ 8) by lia. rewrite u8_id by (apply Z.mod_pos_bound; lia).
    apply byte_of_mod; lia. }
  unfold WPA_PUT_BE32, be_bytes. cbn [map]. rewrite !E by lia. reflexivity.
Qed.

Lemma replicate_app_0 n m : replicate n 0 ++ replicate m 0 = replicate (n + m) 0.
Proof. by rewrite replicate_add. Qed.

(** The finalisation hashes the padded message. *)
Lemma zero_fill_eq upto len H cur pre junk rest : zlen pre = cur ->
  0 <= zlen junk -> zlen junk = upto - cur ->
  sha256_zero_fill upto (mk_sha256 len H cur (pre ++ junk ++ rest)) =
  Some (mk_sha256 len H upto (pre ++ replicate (length junk) 0 ++ rest)).
Proof.
  intros Hp Hj0 Hj. unfold sha256_zero_fill. cbn [sha_curlen sha_buf sha_state sha_length].
  rewrite <- Hj, zlen_to_nat, (wr_mid pre) by (rewrite ?length_replicate; done).
  cbn [mbind option_bind]. by rewrite Z.max_l by lia.
Qed.

Lemma sha256_done_eq md m : sha_repr md m ->
  sha256_done md = Some (concat (map (be_bytes 4)
    (map (ld0 (hash_blocks sha256_H0 (sha256_pad m))) (zseq 0 8)))).
Proof.
  intros [(k & m1 & m2 & junk & -> & Hm1 & Hm2 & Hc & Hbuf & Hst & Hlen) Hbl].
  unfold sha256_done. rewrite Hc, Hbuf, Hst, Hlen. rewrite Hbuf, length_app in Hbl.
  rewrite (proj2 (Z.leb_gt 64 _)) by (unfold zlen; lia).
  destruct junk as [|j junk]; [simpl in Hbl; lia|].
  unfold st. rewrite (wr_mid m2 [j] junk) by done. cbn [mbind option_bind].
  cbn [sha_curlen sha_buf sha_state sha_length].
  set (L := u64 _).
  assert (HL : L = u64 (8 * zlen (m1 ++ m2))).
  { unfold L, u64, u32. rewrite Zplus_mod_idemp_l, (Z.mod_small (_ * 8)) by (unfold zlen; lia).
    f_equal. unfold zlen. rewrite length_app. lia. }
  assert (Hmod : (length (m1 ++ m2) mod 64 = length m2)%nat).
  { rewrite length_app, Hm1, Nat.add_comm, Nat.mul_comm, Nat.Div0.mod_add.
    apply Nat.mod_small. lia. }
  assert (Hput : length (WPA_PUT_BE64 L) = 8%nat) by done.
  unfold sha256_pad. rewrite Hmod, <- PUT_BE64_spec, <- HL. simpl in Hbl.
  destruct (56 <? zlen m2 + 1) eqn:E; bool_to_prop.
  - rewrite (app_assoc m2), <- (app_nil_r junk) at 1.
    rewrite zero_fill_eq by (rewrite ?zlen_app; unfold zlen in *; simpl; lia).
    cbn [mbind option_bind sha_curlen sha_buf sha_state sha_length].
    rewrite app_nil_r, <- app_assoc. set (b1 := m2 ++ [128] ++ replicate (length junk) 0).
    assert (Hb1 : length b1 = 64%nat)
      by (unfold b1; rewrite !length_app, length_replicate; simpl; lia).
    pose proof (zero_fill_eq 56 L (sha256_compress (hash_blocks sha256_H0 m1) b1) 0 []
      (take 56 b1) (drop 56 b1) eq_refl ltac:(apply zlen_nonneg)
      ltac:(unfold zlen; rewrite length_take; lia)) as HZ.
    cbn [app] in HZ. rewrite take_drop in HZ. rewrite HZ. clear HZ.
    cbn [mbind option_bind sha_curlen sha_buf sha_state sha_length].
    rewrite length_take, Hb1, <- (app_nil_r (drop 56 b1)).
    change (56 `min` 64)%nat with 56%nat. cbn [app].
    rewrite (wr_mid (replicate 56 0)) by (rewrite ?Hput, ?length_drop; done || lia).
    cbn [mbind option_bind]. rewrite app_nil_r.
    replace ((119 - length m2) mod 64)%nat with (length junk + 56)%nat
      by (rewrite Nat.mod_small; unfold zlen in E; lia).
    rewrite <- replicate_app_0.
    rewrite <- ?app_assoc.
    replace (m1 ++ m2 ++ 128 :: replicate (length junk) 0 ++ replicate 56 0 ++ WPA_PUT_BE64 L)
      with (m1 ++ b1 ++ replicate 56 0 ++ WPA_PUT_BE64 L) by (unfold b1; by rewrite <- !app_assoc).
    rewrite (hash_blocks_app _ m1 _ k), (hash_blocks_app _ b1 _ 1), (hash_blocks_1 _ b1),
      (hash_blocks_1 _ (replicate 56 0 ++ _)) by done.
    by rewrite map_map, (map_ext _ _ (fun i => PUT_BE32_spec _)).
  - destruct (split_at junk (55 - zlen m2)) as (j1 & j2 & -> & Hj1 & Hj2); [unfold zlen in *; lia|].
    rewrite length_app in Hbl. rewrite (app_assoc m2 [128] (j1 ++ j2)). cbn [mbind option_bind].
    rewrite zero_fill_eq by (rewrite ?zlen_app; unfold zlen in *; simpl; lia).
    cbn [mbind option_bind sha_curlen sha_buf sha_state sha_length].
    rewrite <- (app_nil_r j2), (app_assoc (m2 ++ [128])).
    rewrite (wr_mid ((m2 ++ [128]) ++ replicate (length j1) 0)) by
      (rewrite ?Hput, ?zlen_app; unfold zlen in *; rewrite ?length_replicate; simpl; lia).
    cbn [mbind option_bind]. rewrite app_nil_r.
    replace ((119 - length m2) mod 64)%nat with (length j1).
    2: { replace (119 - length m2)%nat with (length j1 + 1 * 64)%nat by (unfold zlen in *; lia).
         rewrite Nat.Div0.mod_add, Nat.mod_small; unfold zlen in *; lia. }
    rewrite <- !app_assoc, (hash_blocks_app _ m1 _ k), (hash_blocks_1 _ (m2 ++ _)) by
      (done || (rewrite !length_app, length_replicate, Hput; unfold zlen in *; simpl; lia)).
    by rewrite map_map, (map_ext _ _ (fun i => PUT_BE32_spec _)).
Qed.

Lemma sha256_pad_ok m : bytes_ok m -> bytes_ok (sha256_pad m) /\
  length (sha256_pad m) = (64 * (length (sha256_pad m) / 64))%nat.
Proof.
  intros Hm. split.
  - unfold sha256_pad. repeat apply bytes_ok_app_2; try done.
    + apply bytes_ok_cons; [lia|apply bytes_ok_nil].
    + apply bytes_ok_replicate. lia.
    + apply be_bytes_ok.
  - apply Nat.Div0.div_exact. unfold sha256_pad.
    rewrite !length_app, length_replicate, be_bytes_length. cbn [length].
    apply Nat2Z.inj. rewrite !Nat2Z.inj_mod, !Nat2Z.inj_add, Nat2Z.inj_mod, Nat2Z.inj_sub, Nat2Z.inj_mod.
    + Z.to_euclidean_division_equations. lia.
    + pose proof (Nat.mod_upper_bound (length m) 64). lia.
Qed.

Lemma fold_compress_fips bs H : hstate_ok H -> Forall (fun b => length b = 64%nat /\ bytes_ok b) bs ->
  fold_left sha256_compress bs H = fold_left fips_compress bs H /\
  hstate_ok (fold_left sha256_compress bs H).
Proof.
  intros HH Hbs. revert H HH. induction Hbs as [|b bs [Hl Hb] _ IH]; intros H HH; [done|].
  cbn [fold_left]. destruct (compress_fips H b HH Hl Hb) as [E HH']. rewrite <- E. by apply IH.
Qed.

Lemma sha256_H0_ok : hstate_ok sha256_H0.
Proof. split; [done|]. unfold sha256_H0, words_ok. repeat (constructor; [lia|]). constructor. Qed.

Lemma map_ld0_8 l : length l = 8%nat -> map (ld0 l) (zseq 0 8) = l.
Proof.
  intros Hl. destruct l as [|a [|b [|c [|d [|e [|f [|g [|h [|? ?]]]]]]]]]; try done.
Qed.

Lemma hash_pad_spec m : bytes_ok m ->
  concat (map (be_bytes 4) (map (ld0 (hash_blocks sha256_H0 (sha256_pad m))) (zseq 0 8)))
  = sha256_spec m.
Proof.
  intros Hm. unfold sha256_spec, hash_blocks. destruct (sha256_pad_ok m Hm) as [Hb Hl].
  set (p := sha256_pad m) in *.
  destruct (fold_compress_fips (chunks 64 (length p / 64) p) sha256_H0 sha256_H0_ok) as [<- [H8 _]].
  { apply Forall_and; [by apply chunks_length_all|by apply chunks_Forall]. }
  by rewrite map_ld0_8.
Qed.

Lemma sha256_feed_repr data md m : sha_repr md m ->
  exists md', sha256_feed md data = Some md' /\ sha_repr md' (m ++ concat data).
Proof.
  revert md m. induction data as [|d data IH]; intros md m Hr; cbn [sha256_feed concat].
  - exists md. by rewrite app_nil_r.
  - unfold sha256_process. rewrite (proj2 (Z.ltb_ge 64 _)).
    2: { destruct Hr as [(k & m1 & m2 & junk & _ & _ & Hm2 & -> & _)]. unfold zlen. lia. }
    destruct (process_loop_repr (length d) md m d ltac:(lia) Hr) as (md1 & -> & Hr1).
    cbn [mbind option_bind]. rewrite app_assoc. by apply IH.
Qed.

(** The digest of a data vector is the hash of its concatenation, whatever the
    uninitialised context holds. *)
Lemma sha256_vector_spec ctx data : length (sha_buf ctx) = 64%nat -> Forall bytes_ok data ->
  sha256_vector ctx data = Some (sha256_spec (concat data)).
Proof.
  intros Hc Hd. unfold sha256_vector.
  destruct (sha256_feed_repr data (sha256_init ctx) [] (sha256_init_repr ctx Hc)) as (md & -> & Hr).
  cbn [mbind option_bind app] in *. rewrite (sha256_done_eq _ _ Hr).
  f_equal. apply hash_pad_spec. by apply Forall_concat.
Qed.

Lemma sha256_spec_ok m : bytes_ok (sha256_spec m).
Proof.
  unfold sha256_spec. apply Forall_concat, Forall_map, Forall_forall. intros. apply be_bytes_ok.
Qed.

Lemma sha256_spec_length m : bytes_ok m -> length (sha256_spec m) = 32%nat.
Proof.
  intros Hm. rewrite <- hash_pad_spec by done.
  rewrite (concat_length_const 4).
  - by rewrite !length_map, zseq_length.
  - apply Forall_map, Forall_forall. intros. apply be_bytes_length.
Qed.

(** ** HMAC and the pseudo-random function *)

(** A key copied into the zeroed pad. *)
Lemma k_pad_eq key : zlen key <= 64 ->
  wr (replicate 64 0) 0 key = Some (key ++ replicate (64 - length key) 0).
Proof.
  intros Hk. replace 64%nat with (length key + (64 - length key))%nat at 1 by (unfold zlen in Hk; lia).
  rewrite <- replicate_app_0.
  apply wr_prefix. by rewrite length_replicate.
Qed.

Lemma bytes_ok_map_lxor k l : is_u8 k -> bytes_ok l -> bytes_ok (map (fun b => b .^ k) l).
Proof.
  intros Hk Hl. unfold bytes_ok in *. apply Forall_map. eapply Forall_impl; [|exact Hl].
  intros b Hb. by apply lxor_range.
Qed.

Lemma hmac_vector_spec ctx key data : length (sha_buf ctx) = 64%nat -> bytes_ok key ->
  Forall bytes_ok data -> zlen data <= 5 ->
  hmac_sha256_vector ctx key data = Some (hmac_spec key (concat data)).
Proof.
  intros Hc Hk Hd H5. unfold hmac_sha256_vector, hmac_spec.
  rewrite (proj2 (Z.ltb_ge 5 _)) by lia.
  set (k := if 64 <? zlen key then sha256_spec key else key).
  assert (Hkk : bytes_ok k /\ zlen k <= 64).
  { unfold k. destruct (64 <? zlen key) eqn:E; bool_to_prop; [|done]. split; [apply sha256_spec_ok|].
    unfold zlen. rewrite sha256_spec_length by done. done. }
  replace (if 64 <? zlen key then sha256_vector ctx [key] else Some key) with (Some k).
  2: { unfold k. destruct (64 <? zlen key); [|done]. rewrite sha256_vector_spec by auto.
       cbn [concat]. by rewrite app_nil_r. }
  cbn [mbind option_bind]. rewrite k_pad_eq by easy. cbn [mbind option_bind].
  assert (Hp : bytes_ok (k ++ replicate (64 - length k) 0)).
  { apply bytes_ok_app_2; [easy|]. apply bytes_ok_replicate. lia. }
  rewrite sha256_vector_spec; [|done|constructor; [by apply bytes_ok_map_lxor|done]].
  cbn [mbind option_bind concat]. rewrite sha256_vector_spec; [|done|].
  - cbn [concat]. by rewrite app_nil_r.
  - constructor; [by apply bytes_ok_map_lxor|]. constructor; [apply sha256_spec_ok|constructor].
Qed.

(** The key derivation function of IEEE 802.11r, 8.5.1.5.2. *)
Definition le16 (x : Z) : list Z := [x mod 256; x / 256 mod 256].
Definition prf_block (key label data : list Z) (bits i : Z) : list Z :=
  hmac_spec key (le16 i ++ label ++ data ++ le16 bits).
Definition prf_spec (key label data : list Z) (buf_len : Z) : list Z :=
  take (Z.to_nat buf_len)
    (concat (map (prf_block key label data (buf_len * 8)) (zseq 1 (Z.to_nat (buf_len / 32) + 1)))).

Lemma PUT_LE16_spec x : WPA_PUT_LE16 x = le16 x.
Proof.
  unfold WPA_PUT_LE16, le16. rewrite (land_mask _ 8) by lia.
  pose proof (byte_of_mod x 0 16 ltac:(lia) ltac:(lia)) as H0.
  pose proof (byte_of_mod x 8 16 ltac:(lia) ltac:(lia)) as H8.
  rewrite Z.shiftr_0_r, Z.div_1_r in H0. unfold u16. unfold u8 in *. rewrite H0, H8. done.
Qed.

Lemma le16_u16 x : le16 (u16 x) = le16 x.
Proof.
  unfold le16, u16. change (2 ^ 16) with 65536.
  f_equal; [|f_equal]; Z.to_euclidean_division_equations; lia.
Qed.

Lemma le16_ok x : bytes_ok (le16 x).
Proof. unfold le16. repeat constructor; apply Z.mod_pos_bound; lia. Qed.

Lemma hmac_spec_length key text : bytes_ok key -> bytes_ok text -> length (hmac_spec key text) = 32%nat.
Proof.
  intros Hk Ht. unfold hmac_spec. apply sha256_spec_length.
  apply bytes_ok_app_2; [|apply sha256_spec_ok]. apply bytes_ok_map_lxor; [lia|].
  apply bytes_ok_app_2; [|apply bytes_ok_replicate; lia].
  destruct (64 <? zlen key); [apply sha256_spec_ok|done].
Qed.

Lemma prf_loop_spec ctx key label data buf_len fuel c :
  length (sha_buf ctx) = 64%nat -> bytes_ok key -> bytes_ok label -> bytes_ok data ->
  zlen label < 256 -> (buf_len - 32 * c) / 32 < Z.of_nat fuel -> 0 <= c ->
  sha256_prf_loop fuel ctx key label data (le16 (buf_len * 8)) (u16 (c + 1)) (32 * c) buf_len =
  Some (take (Z.to_nat (buf_len - 32 * c))
          (concat (map (prf_block key label data (buf_len * 8)) (zseq (c + 1) fuel)))).
Proof.
  intros Hctx Hk Hl Hd Hlab. revert c. induction fuel as [|fuel IH]; intros c Hf Hc;
    cbn [sha256_prf_loop].
  { rewrite (proj2 (Z.ltb_ge _ _)) by (Z.to_euclidean_division_equations; lia).
    unfold zseq. cbn [seq map concat]. by rewrite take_nil. }
  destruct (32 * c <? buf_len) eqn:E; bool_to_prop.
  2: { by replace (Z.to_nat (buf_len - 32 * c)) with O by lia. }
  unfold os_strlen. rewrite u8_id, zlen_to_nat, (take_ge label) by (pose proof (zlen_nonneg label); lia).
  rewrite PUT_LE16_spec, le16_u16, hmac_vector_spec; [|done|done| |done].
  2: { repeat (constructor; [try done; apply le16_ok|]). constructor. }
  cbn [mbind option_bind concat]. rewrite app_nil_r. rewrite zseq_cons. cbn [map concat].
  fold (prf_block key label data (buf_len * 8) (c + 1)).
  set (hash := prf_block _ _ _ _ _).
  assert (Hh : length hash = 32%nat).
  { apply hmac_spec_length; [done|]. repeat apply bytes_ok_app_2; try done; apply le16_ok. }
  destruct (32 <=? buf_len - 32 * c) eqn:E32; bool_to_prop.
  - specialize (IH (c + 1)). replace (32 * (c + 1)) with (32 * c + 32) in IH by lia.
    replace (u16 (u16 (c + 1) + 1)) with (u16 (c + 1 + 1))
      by (unfold u16; by rewrite Zplus_mod_idemp_l).
    rewrite IH by (lia || (Z.to_euclidean_division_equations; lia)). cbn [mbind option_bind].
    replace (Z.to_nat (buf_len - 32 * c)) with (length hash + Z.to_nat (buf_len - (32 * c + 32)))%nat by lia.
    by rewrite take_app_add.
  - by rewrite take_app_le by lia.
Qed.

Lemma sha256_prf_spec ctx key label data buf_len :
  length (sha_buf ctx) = 64%nat -> bytes_ok key -> bytes_ok label -> bytes_ok data ->
  zlen label < 256 -> 0 <= buf_len ->
  sha256_prf ctx key label data buf_len = Some (prf_spec key label data buf_len).
Proof.
  intros. unfold sha256_prf, prf_spec. rewrite PUT_LE16_spec.
  rewrite (prf_loop_spec ctx key label data buf_len _ 0) by (done || Z.to_euclidean_division_equations; lia).
  by rewrite Z.sub_0_r.
Qed.

Lemma prf_spec_length key label data buf_len : bytes_ok key -> bytes_ok label -> bytes_ok data ->
  0 <= buf_len -> zlen (prf_spec key label data buf_len) = buf_len.
Proof.
  intros Hk Hl Hd Hb. unfold prf_spec, zlen. rewrite length_take, (concat_length_const 32).
  - rewrite length_map, zseq_length. Z.to_euclidean_division_equations. lia.
  - apply Forall_map, Forall_forall. intros i _. apply hmac_spec_length; [done|].
    repeat apply bytes_ok_app_2; try done; apply le16_ok.
Qed.

(** ** Properties *)

(** C40: Hashing a data vector with [sha256_vector] (initialise, one [sha256_process] per
    element, finish) succeeds and gives the FIPS 180-4 hash of the concatenation, however
    the data is split and whatever the uninitialised context holds. *)
Theorem sha256_vector_is_sha256 ctx data : length (sha_buf ctx) = 64%nat -> Forall bytes_ok data ->
  sha256_vector ctx data = Some (sha256_spec (concat data)) /\
  length (sha256_spec (concat data)) = 32%nat /\ bytes_ok (sha256_spec (concat data)).
Proof.
  intros Hc Hd. assert (bytes_ok (concat data)) by (by apply Forall_concat).
  split; [by apply sha256_vector_spec|].
  split; [by apply sha256_spec_length|apply sha256_spec_ok].
Qed.

Definition example_ctx : sha256_state := mk_sha256 5 [1] 3 (replicate 64 0xAA).

Lemma sha256_vector_is_sha256_witness :
  sha256_vector example_ctx [[0x61]; [0x62; 0x63]] = Some (sha256_spec [0x61; 0x62; 0x63]) /\
  length (sha256_spec [0x61; 0x62; 0x63]) = 32%nat /\ bytes_ok (sha256_spec [0x61; 0x62; 0x63]).
Proof.
  apply (sha256_vector_is_sha256 example_ctx [[0x61]; [0x62; 0x63]]); [reflexivity|].
  do 2 (constructor; [apply bytes_ok_spec; reflexivity|]). constructor.
Defined.

(** [hmac_sha256_vector] writes the HMAC-SHA-256 (RFC 2104) of the concatenated
    fragments for keys of any length and at most 5 fragments; with more than 5 it returns
    without writing anything. *)
Theorem hmac_sha256_vector_is_hmac ctx key data : length (sha_buf ctx) = 64%nat ->
  bytes_ok key -> Forall bytes_ok data ->
  hmac_sha256_vector ctx key data =
    if decide (zlen data <= 5) then Some (hmac_spec key (concat data)) else None.
Proof.
  intros Hc Hk Hd. destruct (decide (zlen data <= 5)) as [H5|H5]; [by apply hmac_vector_spec|].
  unfold hmac_sha256_vector. by rewrite (proj2 (Z.ltb_lt 5 _)) by lia.
Qed.

Lemma hmac_sha256_vector_is_hmac_witness :
  hmac_sha256_vector example_ctx (replicate 70 0x0b) [[1; 2]; [3]] =
    if decide (zlen [[1; 2]; [3]] <= 5) then Some (hmac_spec (replicate 70 0x0b) [1; 2; 3]) else None.
Proof.
  apply (hmac_sha256_vector_is_hmac example_ctx (replicate 70 0x0b) [[1; 2]; [3]]);
    [reflexivity|apply bytes_ok_spec; reflexivity|].
  do 2 (constructor; [apply bytes_ok_spec; reflexivity|]). constructor.
Defined.

(** [sha256_prf] fills the buffer with the first [buf_len] bytes of the key
    derivation function of IEEE 802.11r: HMAC blocks over counter, label, data and bit
    length, the last one cut; its loop ends after [buf_len / 32 + 1] rounds at most. *)
Theorem sha256_prf_is_kdf ctx key label data buf_len :
  length (sha_buf ctx) = 64%nat -> bytes_ok key -> bytes_ok label -> bytes_ok data ->
  zlen label < 256 -> 0 <= buf_len ->
  sha256_prf ctx key label data buf_len = Some (prf_spec key label data buf_len) /\
  zlen (prf_spec key label data buf_len) = buf_len.
Proof.
  intros Hc Hk Hl Hd Hlab Hb. split; [by apply sha256_prf_spec|].
  by apply prf_spec_length.
Qed.

Lemma sha256_prf_is_kdf_witness :
  sha256_prf example_ctx [1; 2; 3] [0x54; 0x44] [9; 9] 40 =
    Some (prf_spec [1; 2; 3] [0x54; 0x44] [9; 9] 40) /\
  zlen (prf_spec [1; 2; 3] [0x54; 0x44] [9; 9] 40) = 40.
Proof.
  apply (sha256_prf_is_kdf example_ctx [1; 2; 3] [0x54; 0x44] [9; 9] 40);
    [reflexivity|apply bytes_ok_spec; reflexivity..|simpl; vm_compute; done|lia].
Defined.
