(* ===== verification/Omac.v ===== *)
(** * AES-CMAC (core/rtw_security.c, [omac1_aes_128_vector])

    The message authentication code of protected management frames (BIP) and TDLS,
    computed over a vector of data areas through a cursor.  When the cursor reaches the
    end of an element the code loads the next pointer at once, also after the last
    element: the argument [beyond] is the memory it then points to, and the theorems
    hold for any contents. *)

From S2P Require Import Prelude Aes Ccmp.

Definition AES_BLOCK_SIZE : Z := 16.

(** One iteration of the loop of [gf_mulx]. *)
Definition gf_shift_step (i : Z) (pad : list Z) : list Z :=
  <[Z.to_nat i := u8 ((ld0 pad i .<< 1) .| (ld0 pad (i + 1) .>> 7))]> pad.

Definition gf_mulx (pad : list Z) : list Z :=
  let carry := ld0 pad 0 .& 0x80 in
  let pad := iter_from 15 0 gf_shift_step pad in
  let pad := <[15%nat := u8 (ld0 pad 15 .<< 1)]> pad in
  if negb (carry =? 0) then <[15%nat := ld0 pad 15 .^ 0x87]> pad else pad.

(** The cursor [(pos .. end, addr[e+1 ..])]: the bytes left in the current element and
    the elements after it.  [*pos++] followed by [if (pos >= end) e++]. *)
Definition cursor : Type := list Z * list (list Z).

Definition omac_next (c : cursor) : option (Z * cursor) :=
  match c with
  | ([b], r :: rest) => Some (b, (r, rest))
  | (b :: (_ :: _) as cur, rest) => Some (b, (cur, rest))
  | _ => None
  end.

(** [cbc[i] ^= *pos++]. *)
Definition omac_absorb_step (i : Z) (s : list Z * cursor) : option (list Z * cursor) :=
  let '(cbc, c) := s in
  '(b, c) ← omac_next c;
  Some (<[Z.to_nat i := ld0 cbc i .^ b]> cbc, c).

(** The loop [while (left >= AES_BLOCK_SIZE)]. *)
Fixpoint omac_blocks (fuel : nat) (rk : list Z) (lft : Z) (cbc : list Z) (c : cursor)
    : option (Z * list Z * cursor) :=
  if AES_BLOCK_SIZE <=? lft then
    match fuel with
    | O => None
    | S fuel' =>
        '(cbc, c) ← for_from 16 0 omac_absorb_step (cbc, c);
        let cbc := if AES_BLOCK_SIZE <? lft then aes_128_encrypt rk cbc else cbc in
        omac_blocks fuel' rk (lft - AES_BLOCK_SIZE) cbc c
    end
  else Some (lft, cbc, c).

Definition omac1_aes_128_vector (key : list Z) (data : list (list Z)) (beyond : list Z)
    : option (list Z) :=
  ctx ← aes_encrypt_init key 16;
  let total_len := zlen (concat data) in
  c ← (match data with d :: data' => Some (d, data' ++ [beyond]) | [] => None end);
  '(lft, cbc, c) ← omac_blocks (Z.to_nat (total_len / 16)) ctx total_len (replicate 16 0) c;
  let pad := aes_128_encrypt ctx (replicate 16 0) in
  let pad := gf_mulx pad in
  '(cbc, pad) ← (if negb (lft =? 0) || (total_len =? 0) then
                   '(cbc, c) ← for_from (Z.to_nat lft) 0 omac_absorb_step (cbc, c);
                   Some (<[Z.to_nat lft := ld0 cbc lft .^ 0x80]> cbc, gf_mulx pad)
                 else Some (cbc, pad));
  Some (aes_128_encrypt ctx (bitwise_xor pad cbc)).

Definition omac1_aes_128 (key data beyond : list Z) : option (list Z) :=
  omac1_aes_128_vector key [data] beyond.

(** ** Reference: NIST SP 800-38B *)

(** Doubling in the field of 2^128 elements, on big-endian blocks. *)
Definition cmac_dbl (b : list Z) : list Z :=
  let v := be_val b in
  be_bytes 16 (if v <? 2 ^ 127 then 2 * v else (2 * v - 2 ^ 128) .^ 0x87).

Definition cmac_spec (key m : list Z) : list Z :=
  let E := aes128k128d key in
  let K1 := cmac_dbl (E (replicate 16 0)) in
  let K2 := cmac_dbl K1 in
  let q := ((length m - 1) / 16)%nat in
  let last := drop (16 * q) m in
  let Mn := if (length last =? 16)%nat then xor_list last K1
            else xor_list (last ++ [0x80] ++ replicate (15 - length last) 0) K2 in
  E (xor_list (fold_left (cbc_step E) (chunks 16 q m) (replicate 16 0)) Mn).

(** ** Doubling *)

Lemma gf_mulx_16 a0 a1 a2 a3 a4 a5 a6 a7 a8 a9 a10 a11 a12 a13 a14 a15 :
  let sh a b := u8 ((a .<< 1) .| (b .>> 7)) in
  let hd := [sh a0 a1; sh a1 a2; sh a2 a3; sh a3 a4; sh a4 a5; sh a5 a6; sh a6 a7; sh a7 a8;
     sh a8 a9; sh a9 a10; sh a10 a11; sh a11 a12; sh a12 a13; sh a13 a14; sh a14 a15] in
  gf_mulx [a0; a1; a2; a3; a4; a5; a6; a7; a8; a9; a10; a11; a12; a13; a14; a15] =
  hd ++ [if negb (a0 .& 0x80 =? 0) then u8 (a15 .<< 1) .^ 0x87 else u8 (a15 .<< 1)].
Proof. unfold gf_mulx. change (ld0 _ 0) with a0 at 1. by destruct (negb (a0 .& 0x80 =? 0)). Qed.

Lemma gf_byte a b : is_u8 a -> is_u8 b -> u8 ((a .<< 1) .| (b .>> 7)) = 2 * (a mod 128) + b / 128.
Proof.
  intros Ha Hb. rewrite Z.shiftr_div_pow2, Z.lor_comm, lor_shiftl_add by
    (try lia; change (2 ^ 7) with 128; change (2 ^ 1) with 2; Z.to_euclidean_division_equations; lia).
  unfold u8. change (2 ^ 7) with 128; change (2 ^ 1) with 2; change (2 ^ 8) with 256.
  Z.to_euclidean_division_equations. lia.
Qed.

Lemma gf_last a : is_u8 a -> u8 (a .<< 1) = 2 * (a mod 128).
Proof.
  intros Ha. rewrite Z.shiftl_mul_pow2 by lia. unfold u8.
  change (2 ^ 1) with 2; change (2 ^ 8) with 256. Z.to_euclidean_division_equations. lia.
Qed.

Lemma gf_carry a : is_u8 a -> negb (a .& 0x80 =? 0) = (128 <=? a).
Proof.
  intros Ha.
  pose proof (forall_byte (fun a => Bool.eqb (negb (a .& 0x80 =? 0)) (128 <=? a)) eq_refl a Ha) as H.
  by apply Bool.eqb_prop in H.
Qed.

(** A mask of one byte only changes the low byte. *)
Lemma lxor_low hi lo m : is_u8 lo -> is_u8 m -> (hi * 256 + lo) .^ m = hi * 256 + (lo .^ m).
Proof.
  intros Hlo Hm. pose proof (lxor_range 8 lo m ltac:(lia) Hlo Hm).
  rewrite (Z.add_comm _ lo), (Z.add_comm _ (lo .^ m)). change 256 with (2 ^ 8).
  rewrite <- !lxor_shiftl_add by lia.
  by rewrite !Z.lxor_assoc, (Z.lxor_comm m).
Qed.

Lemma gf_mulx_dbl b : block_ok b -> gf_mulx b = cmac_dbl b.
Proof.
  intros Hb. explode_block b Hb. rewrite gf_mulx_16. rewrite !gf_byte, gf_last, gf_carry by done.
  match goal with |- ?l = cmac_dbl ?b => set (res := l); set (arg := b) end.
  assert (Hr : bytes_ok res).
  { unfold res. apply bytes_ok_app_2.
    - repeat apply bytes_ok_cons; try (Z.to_euclidean_division_equations; lia). apply bytes_ok_nil.
    - apply bytes_ok_cons; [|apply bytes_ok_nil].
      match goal with |- is_u8 (if ?c then _ else _) => destruct c end;
        [apply lxor_range; [lia| |lia]|]; Z.to_euclidean_division_equations; lia. }
  rewrite <- (be_bytes_val res Hr). unfold cmac_dbl. change (length res) with 16%nat. f_equal.
  unfold res. rewrite be_val_snoc.
  set (hd := be_val [_; _; _; _; _; _; _; _; _; _; _; _; _; _; _]).
  assert (Hv : hd * 256 + 2 * (x14 mod 128) = 2 * be_val arg - (if 128 <=? x then 2 ^ 128 else 0)
               /\ (128 <=? x) = negb (be_val arg <? 2 ^ 127)).
  { unfold hd, arg, be_val. cbn [fold_left]. clear hd res Hr arg.
    destruct (128 <=? x) eqn:E; bool_to_prop; (split; [Z.to_euclidean_division_equations; lia|]);
      symmetry; [apply negb_true_iff, Z.ltb_ge|apply negb_false_iff, Z.ltb_lt]; lia. }
  destruct Hv as [Hv Hx]. destruct (128 <=? x); destruct (be_val arg <? 2 ^ 127); try done.
  - rewrite <- lxor_low by (Z.to_euclidean_division_equations; lia). f_equal. lia.
  - rewrite Hv. lia.
Qed.

Lemma cmac_dbl_ok b : block_ok (cmac_dbl b).
Proof. split; [apply be_bytes_length|apply be_bytes_ok]. Qed.

(** ** The cursor *)

(** Cursor [c] has the bytes [m] ahead of it. *)
Inductive cursor_at (beyond : list Z) : cursor -> list Z -> Prop :=
  | at_data cur rs : cur <> [] -> Forall (fun r => r <> []) rs ->
      cursor_at beyond (cur, rs ++ [beyond]) (cur ++ concat rs)
  | at_end c : cursor_at beyond c [].

Lemma omac_next_at beyond c b m : cursor_at beyond c (b :: m) ->
  exists c', omac_next c = Some (b, c') /\ cursor_at beyond c' m.
Proof.
  intros H. inversion H as [cur rs Hc Hrs Ec Em|]; subst.
  destruct cur as [|b' [|b2 cur]]; [done| |].
  - cbn [app] in *. injection Em as -> <-. destruct Hrs as [|r rs Hr Hrs].
    + exists (beyond, []). split; [done|constructor].
    + exists (r, rs ++ [beyond]). split; [done|]. by constructor.
  - cbn [app] in *. injection Em as -> <-. exists (b2 :: cur, rs ++ [beyond]). split; [done|].
    apply (at_data beyond (b2 :: cur) rs); done.
Qed.

Lemma absorb_step_at beyond i u x v b m c : zlen u = i -> cursor_at beyond c (b :: m) ->
  exists c', omac_absorb_step i (u ++ x :: v, c) = Some (u ++ x .^ b :: v, c') /\
    cursor_at beyond c' m.
Proof.
  intros <- Hc. destruct (omac_next_at _ _ _ _ Hc) as (c1 & E & Hc1).
  exists c1. split; [|done]. unfold omac_absorb_step. rewrite E. cbn [mbind option_bind].
  unfold ld0. rewrite zlen_to_nat, app_nth2, Nat.sub_diag by lia.
  by rewrite insert_app_r_alt, Nat.sub_diag by lia.
Qed.

Lemma absorb_loop beyond n i u v w a m c : zlen u = i -> length v = n -> length a = n ->
  cursor_at beyond c (a ++ m) ->
  exists c', for_from n i omac_absorb_step (u ++ v ++ w, c) = Some (u ++ xor_list v a ++ w, c') /\
    cursor_at beyond c' m.
Proof.
  revert i u v a c. induction n as [|n IH]; intros i u v a c Hu Hv Ha Hc; cbn [for_from].
  { apply nil_length_inv in Hv, Ha. subst. by exists c. }
  destruct v as [|x v]; [done|]. destruct a as [|b a]; [done|].
  destruct (absorb_step_at beyond i u x (v ++ w) b (a ++ m) c Hu Hc) as (c1 & E & Hc1).
  cbn [app]. rewrite E. cbn [mbind option_bind].
  destruct (IH (i + 1) (u ++ [x .^ b]) v a c1) as (c' & E' & Hc');
    [by rewrite zlen_app, Hu|by injection Hv|by injection Ha|done|].
  exists c'. split; [|done]. by rewrite <- !app_assoc in E'.
Qed.

Lemma absorb_0 beyond n v w a m c : length v = n -> length a = n -> cursor_at beyond c (a ++ m) ->
  exists c', for_from n 0 omac_absorb_step (v ++ w, c) = Some (xor_list v a ++ w, c') /\
    cursor_at beyond c' m.
Proof. intros Hv Ha Hc. by apply (absorb_loop beyond n 0 [] v w a m c). Qed.

(** ** The loop over the blocks and the whole function *)

Lemma xor_block_ok a b : block_ok a -> block_ok b -> block_ok (xor_list a b).
Proof.
  intros [La Ha] [Lb Hb]. split; [rewrite xor_list_length; lia|by apply xor_list_ok].
Qed.

Lemma cbc_fold_ok E bs acc : (forall b, block_ok b -> block_ok (E b)) -> block_ok acc ->
  Forall block_ok bs -> block_ok (fold_left (cbc_step E) bs acc).
Proof.
  intros HE Hacc Hbs. revert acc Hacc. induction Hbs as [|b bs Hb _ IH]; intros acc Hacc; [done|].
  cbn [fold_left]. apply IH, HE, xor_block_ok; done.
Qed.

Section omac.
Context (rk : list Z) (E : list Z -> list Z).
Context (Hrk : forall b, block_ok b -> aes_128_encrypt rk b = E b).
Context (HE : forall b, block_ok b -> block_ok (E b)).

(** The loop over the blocks that are not the last one. *)
Lemma omac_blocks_mid beyond q fuel m1 m2 acc c : length m1 = (16 * q)%nat ->
  (0 < length m2)%nat -> block_ok acc -> bytes_ok m1 -> cursor_at beyond c (m1 ++ m2) ->
  exists c', omac_blocks (q + fuel) rk (zlen (m1 ++ m2)) acc c =
    omac_blocks fuel rk (zlen m2) (fold_left (cbc_step E) (chunks 16 q m1) acc) c' /\
    cursor_at beyond c' m2.
Proof using Hrk HE.
  revert m1 acc c. induction q as [|q IH]; intros m1 acc c H1 H2 Hacc Hb Hc.
  { rewrite (nil_length_inv m1) in * by lia. by exists c. }
  destruct (split_at m1 16) as (b1 & m1' & -> & Hb1 & Hm1'); [unfold zlen; lia|].
  assert (Hl : length b1 = 16%nat) by (unfold zlen in Hb1; lia).
  rewrite length_app in H1. apply bytes_ok_app in Hb as [Hbb Hbm].
  rewrite <- app_assoc in Hc |- *. destruct Hacc as [La Ha].
  destruct (absorb_0 beyond 16 acc [] b1 (m1' ++ m2) c La Hl Hc) as (c1 & Ec & Hc1).
  rewrite !app_nil_r in Ec. cbn [omac_blocks Nat.add].
  unfold AES_BLOCK_SIZE. rewrite (proj2 (Z.leb_le 16 _)), (proj2 (Z.ltb_lt 16 _))
    by (rewrite !zlen_app; unfold zlen in *; lia).
  rewrite Ec. cbn [mbind option_bind].
  assert (Hx : block_ok (xor_list acc b1)) by (apply xor_block_ok; done).
  rewrite Hrk by done. cbn [chunks fold_left].
  rewrite take_app_length', drop_app_length' by done.
  destruct (IH m1' (E (xor_list acc b1)) c1) as (c' & E' & Hc'); try done; [lia|by apply HE|].
  exists c'. split; [|done].
  change (E (xor_list acc b1)) with (cbc_step E acc b1) in E' |- *.
  rewrite <- E'. f_equal. rewrite zlen_app. lia.
Qed.

(** The last block, complete or padded. *)
Lemma omac_last_full beyond last acc c : length last = 16%nat -> length acc = 16%nat ->
  cursor_at beyond c (last ++ []) ->
  exists c', omac_blocks 1 rk (zlen last) acc c = Some (0, xor_list acc last, c').
Proof using Type.
  intros Hl Ha Hc. destruct (absorb_0 beyond 16 acc [] last [] c Ha Hl Hc) as (c' & Ec & _).
  exists c'. rewrite !app_nil_r in Ec. unfold zlen. rewrite Hl. cbn [omac_blocks].
  change (AES_BLOCK_SIZE <=? Z.of_nat 16) with true.
  change (AES_BLOCK_SIZE <? Z.of_nat 16) with false. cbv iota.
  rewrite Ec. done.
Qed.

Lemma omac_last_pad beyond last acc c : (length last < 16)%nat -> length acc = 16%nat ->
  cursor_at beyond c (last ++ []) ->
  exists cbc c', for_from (length last) 0 omac_absorb_step (acc, c) = Some (cbc, c') /\
    <[length last := ld0 cbc (zlen last) .^ 0x80]> cbc =
      xor_list acc (last ++ [0x80] ++ replicate (15 - length last) 0).
Proof using Type.
  intros Hl Ha Hc. rewrite <- (take_drop (length last) acc).
  assert (Hu : length (take (length last) acc) = length last) by (rewrite length_take; lia).
  destruct (absorb_0 beyond (length last) _ (drop (length last) acc) last [] c Hu eq_refl Hc)
    as (c' & -> & _).
  eexists _, c'. split; [reflexivity|].
  assert (Hd : length (drop (length last) acc) = (16 - length last)%nat) by (rewrite length_drop; lia).
  set (u := take _ acc) in *. destruct (drop (length last) acc) as [|x v]; [simpl in Hd; lia|].
  simpl in Hd. rewrite (xor_list_app u), (xor_list_app [x] v) by done.
  rewrite xor_list_zero by lia.
  assert (Hx : length (xor_list u last) = length last) by (rewrite xor_list_length; lia).
  unfold ld0. rewrite zlen_to_nat, app_nth2, Hx, Nat.sub_diag by lia.
  by rewrite insert_app_r_alt, Hx, Nat.sub_diag by lia.
Qed.
End omac.

Lemma bitwise_xor_comm a b : block_ok a -> block_ok b -> bitwise_xor a b = xor_list b a.
Proof. intros [Ha _] [Hb _]. by rewrite bitwise_xor_list, xor_list_comm. Qed.

Lemma chunks_block_ok n m : length m = (16 * n)%nat -> bytes_ok m -> Forall block_ok (chunks 16 n m).
Proof.
  intros Hl Hm. apply Forall_and; [by apply chunks_length_all|by apply chunks_Forall].
Qed.

(** The cursor at the start of a vector of non-empty elements. *)
Lemma cursor_start beyond d data : concat (d :: data) = [] \/ Forall (fun r => r <> []) (d :: data) ->
  cursor_at beyond (d, data ++ [beyond]) (concat (d :: data)).
Proof.
  intros [H|H]; [rewrite H; constructor|]. inversion H; subst. by apply (at_data beyond d data).
Qed.

(** The final encryption of the last block mixed with the subkey. *)
Lemma omac_final rk E acc last pad : (forall b, block_ok b -> aes_128_encrypt rk b = E b) ->
  block_ok pad -> block_ok (xor_list acc last) -> 
  aes_128_encrypt rk (bitwise_xor pad (xor_list acc last)) = E (xor_list (xor_list acc last) pad).
Proof. intros Hrk Hp Hx. by rewrite bitwise_xor_comm, Hrk by auto using xor_block_ok. Qed.

(** A message as full blocks and a last block, complete or not. *)
Lemma split_last (m : list Z) : exists q m1 last, m = m1 ++ last /\
  ((length m - 1) / 16)%nat = q /\ length m1 = (16 * q)%nat /\ (length last <= 16)%nat /\
  Z.to_nat (zlen m / 16) = (q + (if decide (length last = 16) then 1 else 0))%nat /\
  (length m1 = 0 \/ length last <> 0)%nat.
Proof.
  set (q := ((length m - 1) / 16)%nat).
  pose proof (Nat.div_mod_eq (length m - 1) 16) as Hd. fold q in Hd.
  pose proof (Nat.mod_upper_bound (length m - 1) 16 ltac:(lia)).
  exists q, (take (16 * q) m), (drop (16 * q) m). rewrite take_drop, length_take, length_drop.
  repeat split; try lia. unfold zlen. rewrite <- (Nat2Z.inj_div _ 16), Nat2Z.id.
  destruct (decide _) as [H16|H16].
  - symmetry. apply (Nat.div_unique _ 16 _ 0); lia.
  - symmetry. apply (Nat.div_unique _ 16 _ (length m - 16 * q)); lia.
Qed.

Lemma cmac_spec_split key m q m1 last : m = m1 ++ last -> ((length m - 1) / 16)%nat = q ->
  length m1 = (16 * q)%nat ->
  cmac_spec key m = aes128k128d key
    (xor_list (fold_left (cbc_step (aes128k128d key)) (chunks 16 q m1) (replicate 16 0))
       (if decide (length last = 16)%nat
        then xor_list last (cmac_dbl (aes128k128d key (replicate 16 0)))
        else xor_list (last ++ [0x80] ++ replicate (15 - length last) 0)
               (cmac_dbl (cmac_dbl (aes128k128d key (replicate 16 0)))))).
Proof.
  intros -> Hq Hm1. unfold cmac_spec. rewrite Hq, <- Hm1, drop_app_length.
  pose proof (chunks_app 16 q 0 m1 last Hm1) as Hc. rewrite Nat.add_0_r in Hc. rewrite Hc.
  cbn [chunks]. rewrite app_nil_r.
  destruct (decide (length last = 16)%nat) as [->|H]; [done|].
  by rewrite (proj2 (Nat.eqb_neq _ 16)).
Qed.

Lemma zero_block_ok : block_ok (replicate 16 0).
Proof. split; [done|apply bytes_ok_replicate; lia]. Qed.

Lemma cmac_spec_ok key m : block_ok key -> bytes_ok m -> block_ok (cmac_spec key m).
Proof.
  intros Hkey Hm. destruct (split_last m) as (q & m1 & last & Em & Hq & Hm1 & Hlast & _).
  assert (HE : forall b, block_ok b -> block_ok (aes128k128d key b)) by (intros; by apply aes128_ok).
  rewrite (cmac_spec_split key m q m1 last) by done. subst m. apply bytes_ok_app in Hm as [Ho1 Ho2].
  apply HE, xor_block_ok; [apply cbc_fold_ok; auto using zero_block_ok, chunks_block_ok|].
  destruct (decide _); apply xor_block_ok; auto using cmac_dbl_ok; [by split|].
  split; [rewrite !length_app, length_replicate; simpl; lia|].
  repeat apply bytes_ok_app_2; [done|by apply bytes_ok_spec|apply bytes_ok_replicate; lia].
Qed.

Section omac_whole.
Context (rk : list Z) (E : list Z -> list Z).
Context (Hrk : forall b, block_ok b -> aes_128_encrypt rk b = E b).
Context (HE : forall b, block_ok b -> block_ok (E b)).
Context (m last m1 : list Z) (q : nat) (beyond : list Z).
Context (Em : m = m1 ++ last) (Hm : bytes_ok m) (Hm1 : length m1 = (16 * q)%nat).
Context (Hlast : (length last <= 16)%nat) (Hne : (length m1 = 0 \/ length last <> 0)%nat).
Abbreviation acc := (fold_left (cbc_step E) (chunks 16 q m1) (replicate 16 0)).

Lemma acc_ok : block_ok acc.
Proof using Em Hm Hm1 HE.
  subst m. apply bytes_ok_app in Hm as [? ?].
  apply cbc_fold_ok; auto using chunks_block_ok, zero_block_ok.
Qed.

(** The loop up to the last block, for any fuel left over. *)
Lemma omac_mid fuel c : cursor_at beyond c m ->
  exists c', omac_blocks (q + fuel) rk (zlen m) (replicate 16 0) c
    = omac_blocks fuel rk (zlen last) acc c' /\ cursor_at beyond c' (last ++ []).
Proof using Em Hlast Hm Hm1 Hne Hrk HE.
  intros Hc. rewrite app_nil_r. subst m. apply bytes_ok_app in Hm as [? ?].
  destruct (decide (length last = 0)%nat) as [Hz0|Hz0].
  - rewrite (nil_length_inv last Hz0) in *. destruct Hne as [H1|H1]; [|done].
    assert (Hq0 : q = 0%nat) by lia. rewrite Hq0, (nil_length_inv m1 H1) in *. by exists c.
  - apply (omac_blocks_mid rk E Hrk HE); auto using zero_block_ok. lia.
Qed.

(** From the last block to the end of the function. *)
Lemma omac_tail c K1 : block_ok K1 -> cursor_at beyond c m ->
  ('(lft, cbc, c) ← omac_blocks (q + (if decide (length last = 16)%nat then 1 else 0)) rk (zlen m)
     (replicate 16 0) c;
   '(cbc, pad) ← (if negb (lft =? 0) || (zlen m =? 0) then
                    '(cbc, c) ← for_from (Z.to_nat lft) 0 omac_absorb_step (cbc, c);
                    Some (<[Z.to_nat lft := ld0 cbc lft .^ 0x80]> cbc, gf_mulx K1)
                  else Some (cbc, K1));
   Some (aes_128_encrypt rk (bitwise_xor pad cbc)))
  = Some (E (xor_list acc
     (if decide (length last = 16)%nat then xor_list last K1
      else xor_list (last ++ [0x80] ++ replicate (15 - length last) 0) (cmac_dbl K1)))).
Proof using Em Hm Hm1 Hne Hrk HE Hlast.
  intros HK1 Hc. destruct (omac_mid (if decide (length last = 16)%nat then 1 else 0) c Hc)
    as (c' & -> & Hc').
  pose proof acc_ok as Hacc. set (A := acc) in *.
  assert (Hok2 : bytes_ok last) by (subst m; by apply bytes_ok_app in Hm as [? ?]).
  destruct (decide (length last = 16)%nat) as [H16|H16].
  - destruct (omac_last_full rk beyond last A c') as (c2 & ->); [done|apply Hacc|done|].
    cbn [mbind option_bind]. rewrite (proj2 (Z.eqb_neq (zlen m) 0)).
    2: { rewrite Em, zlen_app. unfold zlen. lia. }
    change (negb (0 =? 0) || false) with false. cbn [mbind option_bind].
    assert (block_ok last) by (split; done).
    by rewrite (omac_final rk E), xor_list_assoc by auto using xor_block_ok.
  - destruct (omac_last_pad beyond last A c') as (cbc & c2 & Ef & Ei); [lia|apply Hacc|done|].
    assert (Hb0 : omac_blocks 0 rk (zlen last) A c' = Some (zlen last, A, c')).
    { cbn [omac_blocks]. unfold AES_BLOCK_SIZE. by rewrite (proj2 (Z.leb_gt 16 _)) by (unfold zlen; lia). }
    rewrite Hb0. cbn [mbind option_bind].
    assert (negb (zlen last =? 0) || (zlen m =? 0) = true) as ->.
    { destruct (zlen last =? 0) eqn:E0; bool_to_prop; [|done]. simpl.
      apply Z.eqb_eq. rewrite Em, zlen_app. destruct Hne; unfold zlen in *; lia. }
    rewrite zlen_to_nat, Ef. cbn [mbind option_bind]. rewrite Ei, gf_mulx_dbl by done.
    assert (block_ok (last ++ [128] ++ replicate (15 - length last) 0)).
    { split; [rewrite !length_app, length_replicate; simpl; lia|].
      repeat apply bytes_ok_app_2; [done|by apply bytes_ok_spec|apply bytes_ok_replicate; lia]. }
    rewrite (omac_final rk E), xor_list_assoc by auto using xor_block_ok, cmac_dbl_ok. done.
Qed.
End omac_whole.

(** The code computes CMAC of the concatenation, for elements that are not empty (or an
    empty message), whatever lies beyond the last element. *)
Lemma omac1_vector_spec key d data beyond : block_ok key ->
  Forall bytes_ok (d :: data) ->
  concat (d :: data) = [] \/ Forall (fun r => r <> []) (d :: data) ->
  omac1_aes_128_vector key (d :: data) beyond = Some (cmac_spec key (concat (d :: data))).
Proof.
  intros Hkey Hok Hne. unfold omac1_aes_128_vector, aes_encrypt_init.
  change (16 =? 16) with true. cbv iota. cbn [mbind option_bind].
  assert (Hrk : forall b, block_ok b ->
            aes_128_encrypt (rijndaelKeySetupEnc key) b = aes128k128d key b)
    by (intros b Hb; by apply rijndael_aes128).
  assert (HE : forall b, block_ok b -> block_ok (aes128k128d key b))
    by (intros b Hb; by apply aes128_ok).
  pose proof (cursor_start beyond d data Hne) as Hc.
  assert (Hm : bytes_ok (concat (d :: data))) by (by apply Forall_concat).
  set (m := concat (d :: data)) in *. clearbody m.
  destruct (split_last m) as (q & m1 & last & Em & Hq & Hm1 & Hlast & Hdiv & Hne0).
  rewrite (cmac_spec_split key m q m1 last), Hdiv by done.
  revert Hrk HE. generalize (rijndaelKeySetupEnc key) as rk. generalize (aes128k128d key) as E.
  intros E rk Hrk HE. rewrite (Hrk _ zero_block_ok).
  pose proof (HE _ zero_block_ok) as HL. rewrite (gf_mulx_dbl _ HL).
  apply (omac_tail rk E Hrk HE m last m1 q beyond); auto using cmac_dbl_ok.
Qed.

(** ** Properties *)

(** [omac1_aes_128_vector] computes AES-CMAC (NIST SP 800-38B) of the concatenation
    of its data areas with either AES implementation, for any split into non-empty areas
    and for the empty message, whatever the pointer loaded past the last area points to. *)
Theorem omac1_aes_128_vector_is_cmac key d data beyond : block_ok key ->
  Forall bytes_ok (d :: data) ->
  concat (d :: data) = [] \/ Forall (fun r => r <> []) (d :: data) ->
  omac1_aes_128_vector key (d :: data) beyond = Some (cmac_spec key (concat (d :: data))).
Proof. intros. by apply omac1_vector_spec. Qed.

Lemma omac1_aes_128_vector_is_cmac_witness :
  omac1_aes_128_vector (zseq 0 16) [[1; 2; 3]; zseq 4 20] [77] =
    Some (cmac_spec (zseq 0 16) (concat [[1; 2; 3]; zseq 4 20])).
Proof.
  apply (omac1_aes_128_vector_is_cmac (zseq 0 16) [1; 2; 3] [zseq 4 20] [77]).
  - split; [reflexivity|apply bytes_ok_spec; reflexivity].
  - do 2 (constructor; [apply bytes_ok_spec; reflexivity|]). constructor.
  - right. do 2 (constructor; [discriminate|]). constructor.
Defined.

(** [gf_mulx] doubles a block in the field of 2^128 elements: the big-endian integer
    is shifted left by one bit and reduced by 0x87 when the top bit was set. *)
Theorem gf_mulx_doubles b : block_ok b ->
  gf_mulx b = cmac_dbl b /\ block_ok (gf_mulx b) /\
  be_val (gf_mulx b) = (if be_val b <? 2 ^ 127 then 2 * be_val b
                        else (2 * be_val b - 2 ^ 128) .^ 0x87).
Proof.
  intros Hb. rewrite gf_mulx_dbl by done. split; [done|]. split; [apply cmac_dbl_ok|].
  unfold cmac_dbl. apply be_val_bytes. destruct Hb as [Hl Hb].
  pose proof (be_val_range b Hb) as Hr. unfold zlen in Hr. rewrite Hl in Hr.
  change (256 ^ Z.of_nat 16) with (2 ^ 128) in *.
  destruct (be_val b <? 2 ^ 127) eqn:E; bool_to_prop; [lia|].
  apply lxor_range; lia.
Qed.

Lemma gf_mulx_doubles_witness : let b := replicate 16 0xC1 in
  gf_mulx b = cmac_dbl b /\ block_ok (gf_mulx b) /\
  be_val (gf_mulx b) = (if be_val b <? 2 ^ 127 then 2 * be_val b
                        else (2 * be_val b - 2 ^ 128) .^ 0x87).
Proof.
  apply (gf_mulx_doubles (replicate 16 0xC1)). split; [reflexivity|apply bytes_ok_spec; reflexivity].
Defined.
