(* ===== verification/SecFrames.v ===== *)
(** * Software encryption and decryption of frames (core/rtw_security.c, core/rtw_recv.c)

    [rtw_wep_encrypt], [rtw_wep_decrypt], [rtw_tkip_encrypt], [rtw_tkip_decrypt],
    [rtw_aes_encrypt], [rtw_aes_decrypt] on whole frame buffers, fragments included, and
    [decryptor], which selects one of them on receive.  The table of stations is reached
    through the interface [StaLookup]; StaMgt implements it.  The rate-limited log
    counters of [rtw_tkip_decrypt] and [rtw_aes_decrypt] are not modelled. *)

From S2P Require Import Prelude Arc4 Crc32 Tkip Aes Ccmp.

(** ** Data *)

Definition _NO_PRIVACY_ : Z := 0x0.
Definition _WEP40_ : Z := 0x1.
Definition _TKIP_ : Z := 0x2.
Definition _AES_ : Z := 0x4.
Definition _WEP104_ : Z := 0x5.
Definition WEP_KEYS : Z := 4.
Definition TXDESC_SIZE : Z := 40.
Definition PACKET_OFFSET_SZ : Z := 8.

(** What the frame code asks of the station table: the pairwise key
    ([rtw_get_stainfo] and [dot118021x_UncstKey.skey]) of a transmitter address. *)
Class StaLookup (T : Type) := unicast_key : T -> list Z -> option (list Z).

(** Counters of frames processed in software: broadcast, multicast, unicast. *)
Record sw_cnt := mk_cnt { cnt_bc : Z; cnt_mc : Z; cnt_uc : Z }.

(** The fields of [struct security_priv] the frame code uses. *)
Record security_priv := mk_sec {
  dot11PrivacyKeyIndex : Z; dot11DefKey : list (list Z); dot11DefKeylen : list Z;
  dot118021XGrpKeyid : Z; dot118021XGrpKey : list (list Z);
  binstallGrpkey : bool; busetkipkey : bool; sw_decrypt : bool; hw_decrypted : bool;
  wep_sw_enc : sw_cnt; wep_sw_dec : sw_cnt; tkip_sw_enc : sw_cnt; tkip_sw_dec : sw_cnt;
  aes_sw_enc : sw_cnt; aes_sw_dec : sw_cnt
}.

(** [struct pkt_attrib] and the other transmit parameters: [buf_base] is the address of
    the first byte of the buffer, which the alignment of the fragments depends on. *)
Record pkt_attrib := mk_pkt_attrib {
  pa_encrypt : Z; pa_hdrlen : Z; pa_iv_len : Z; pa_icv_len : Z; pa_nr_frags : Z;
  pa_last_txcmdsz : Z; pa_ra : list Z; pa_ta : list Z; pa_UncstKey : list Z;
  pa_frag_len : Z; pa_pkt_offset : Z; pa_buf_base : Z
}.

(** [struct rx_pkt_attrib] and the frame; [rx_data] runs to the end of the buffer. *)
Record recv_frame := mk_recv {
  ra_encrypt : Z; ra_hdrlen : Z; ra_iv_len : Z; ra_key_index : Z; ra_bdecrypted : bool;
  ra_ra : list Z; ra_ta : list Z; rx_data : list Z; rx_len : Z
}.

Definition set_rx_data (m : list Z) (f : recv_frame) : recv_frame :=
  mk_recv (ra_encrypt f) (ra_hdrlen f) (ra_iv_len f) (ra_key_index f) (ra_bdecrypted f)
    (ra_ra f) (ra_ta f) m (rx_len f).
Definition set_key_index (k : Z) (f : recv_frame) : recv_frame :=
  mk_recv (ra_encrypt f) (ra_hdrlen f) (ra_iv_len f) k (ra_bdecrypted f)
    (ra_ra f) (ra_ta f) (rx_data f) (rx_len f).
Definition set_bdecrypted (b : bool) (f : recv_frame) : recv_frame :=
  mk_recv (ra_encrypt f) (ra_hdrlen f) (ra_iv_len f) (ra_key_index f) b
    (ra_ra f) (ra_ta f) (rx_data f) (rx_len f).

Definition is_broadcast_mac_addr (a : list Z) : bool :=
  forallb (fun i => ld0 a i =? 0xff) (zseq 0 6).
Definition is_multicast_mac_addr (a : list Z) : bool :=
  negb (ld0 a 0 =? 0xff) && negb (0x01 .& ld0 a 0 =? 0).

(** The macros [*_SW_ENC_CNT_INC], [*_SW_DEC_CNT_INC] on one group of counters. *)
Definition cnt_inc (ra : list Z) (c : sw_cnt) : sw_cnt :=
  if is_broadcast_mac_addr ra then mk_cnt (u64 (cnt_bc c + 1)) (cnt_mc c) (cnt_uc c)
  else if is_multicast_mac_addr ra then mk_cnt (cnt_bc c) (u64 (cnt_mc c + 1)) (cnt_uc c)
  else mk_cnt (cnt_bc c) (cnt_mc c) (u64 (cnt_uc c + 1)).

Definition upd_cnt (we wd te td ae ad : sw_cnt -> sw_cnt) (s : security_priv) : security_priv :=
  mk_sec (dot11PrivacyKeyIndex s) (dot11DefKey s) (dot11DefKeylen s) (dot118021XGrpKeyid s)
    (dot118021XGrpKey s) (binstallGrpkey s) (busetkipkey s) (sw_decrypt s) (hw_decrypted s)
    (we (wep_sw_enc s)) (wd (wep_sw_dec s)) (te (tkip_sw_enc s)) (td (tkip_sw_dec s))
    (ae (aes_sw_enc s)) (ad (aes_sw_dec s)).
Definition set_hw_decrypted (b : bool) (s : security_priv) : security_priv :=
  mk_sec (dot11PrivacyKeyIndex s) (dot11DefKey s) (dot11DefKeylen s) (dot118021XGrpKeyid s)
    (dot118021XGrpKey s) (binstallGrpkey s) (busetkipkey s) (sw_decrypt s) b
    (wep_sw_enc s) (wep_sw_dec s) (tkip_sw_enc s) (tkip_sw_dec s) (aes_sw_enc s) (aes_sw_dec s).
Definition WEP_SW_ENC_CNT_INC s ra := upd_cnt (cnt_inc ra) id id id id id s.
Definition WEP_SW_DEC_CNT_INC s ra := upd_cnt id (cnt_inc ra) id id id id s.
Definition TKIP_SW_ENC_CNT_INC s ra := upd_cnt id id (cnt_inc ra) id id id s.
Definition TKIP_SW_DEC_CNT_INC s ra := upd_cnt id id id (cnt_inc ra) id id s.
Definition AES_SW_ENC_CNT_INC s ra := upd_cnt id id id id (cnt_inc ra) id s.
Definition AES_SW_DEC_CNT_INC s ra := upd_cnt id id id id id (cnt_inc ra) s.

Definition RND4 (x : Z) : Z := ((x .>> 2) + (if x .& 3 =? 0 then 0 else 1)) .<< 2.

Definition hw_hdr_offset (a : pkt_attrib) : Z :=
  u8 (TXDESC_SIZE + pa_pkt_offset a * PACKET_OFFSET_SZ).

(** ** RC4 over a payload and its integrity check value *)

(** [arcfour_encrypt(ctx, m + off, m + off, len)]; [len] is converted to [u32]. *)
Definition arcfour_in_place (ctx : arc4context) (m : list Z) (off len : Z)
    : option (list Z * arc4context) :=
  src ← rd m off (u32 len);
  let '(dest, ctx) := arcfour_encrypt ctx src in
  m ← wr m off dest;
  Some (m, ctx).

(** [*((u32 * )crc) = getcrc32(m + off, len)], no iteration when [len] is negative. *)
Definition payload_crc (g : crc32_globals) (m : list Z) (off len : Z)
    : option (list Z * crc32_globals) :=
  data ← rd m off (Z.max 0 len);
  let '(c, g) := getcrc32 g data in
  Some (map (byte_of c) [0; 1; 2; 3], g).

(** The sequence shared by the four branches that encrypt a fragment. *)
Definition seal_payload (g : crc32_globals) (key : list Z) (keylen : Z) (m : list Z)
    (payload length : Z) : option (list Z * crc32_globals) :=
  '(crc, g) ← payload_crc g m payload length;
  let mycontext := arcfour_init key keylen in
  '(m, mycontext) ← arcfour_in_place mycontext m payload length;
  let '(dest, _) := arcfour_encrypt mycontext crc in
  m ← wr m (payload + length) dest;
  Some (m, g).

(** Decryption in place and the comparison of the check value. *)
Definition open_payload (g : crc32_globals) (key : list Z) (keylen : Z) (m : list Z)
    (payload length : Z) : option (list Z * bool * crc32_globals) :=
  let mycontext := arcfour_init key keylen in
  '(m, _) ← arcfour_in_place mycontext m payload length;
  '(crc, g) ← payload_crc g m payload (length - 4);
  got ← rd m (payload + length - 4) 4;
  Some (m, bool_decide (crc = got), g).

(** ** Transmit *)

(** The length of fragment [i], and the loop [for (curfragnum = 0; ...)] over the
    fragments: [body] encrypts one at [pframe] (an offset in the buffer). *)
Definition frag_length (a : pkt_attrib) (i : Z) : Z :=
  if i + 1 =? pa_nr_frags a
  then pa_last_txcmdsz a - pa_hdrlen a - pa_iv_len a - pa_icv_len a
  else pa_frag_len a - pa_hdrlen a - pa_iv_len a - pa_icv_len a.

Definition next_frag (a : pkt_attrib) (pframe : Z) : Z :=
  RND4 (pa_buf_base a + (pframe + pa_frag_len a)) - pa_buf_base a.

Definition encrypt_frag {S : Type} (a : pkt_attrib) (body : Z -> Z -> S -> option S)
    (i : Z) (s : S * Z) : option (S * Z) :=
  let '(st, pframe) := s in
  st ← body pframe (frag_length a i) st;
  Some (st, if i + 1 =? pa_nr_frags a then pframe else next_frag a pframe).

Definition encrypt_frags {S : Type} (a : pkt_attrib) (body : Z -> Z -> S -> option S) (st : S)
    : option S :=
  '(st, _) ← for_from (Z.to_nat (pa_nr_frags a)) 0 (encrypt_frag a body) (st, hw_hdr_offset a);
  Some st.

(** Both functions start from [wepkey[16]], filled with the 3 bytes of the IV and the key. *)
Definition fill_wepkey (iv skey : list Z) (keylength : Z) : option (list Z) :=
  wepkey ← wr (replicate 16 0) 0 iv;
  k ← rd skey 0 keylength;
  wr wepkey 3 k.

Definition wep_frag (skey : list Z) (keylength : Z) (a : pkt_attrib) (pframe length : Z)
    (s : list Z * crc32_globals) : option (list Z * crc32_globals) :=
  let '(m, g) := s in
  iv ← rd m (pframe + pa_hdrlen a) 3;
  wepkey ← fill_wepkey iv skey keylength;
  let payload := pframe + pa_iv_len a + pa_hdrlen a in
  seal_payload g wepkey (3 + keylength) m payload length.

Definition rtw_wep_encrypt (sec : security_priv) (a : pkt_attrib) (s : list Z * crc32_globals)
    : option (list Z * crc32_globals * security_priv) :=
  if (pa_encrypt a =? _WEP40_) || (pa_encrypt a =? _WEP104_) then
    keylength ← dot11DefKeylen sec !! Z.to_nat (dot11PrivacyKeyIndex sec);
    skey ← dot11DefKey sec !! Z.to_nat (dot11PrivacyKeyIndex sec);
    s ← encrypt_frags a (wep_frag skey keylength a) s;
    Some (s, WEP_SW_ENC_CNT_INC sec (pa_ra a))
  else Some (s, sec).

(** [GET_TKIP_PN] and the two halves of the packet number: [(pnl, pnh)]. *)
Definition GET_TKIP_PN (iv : list Z) : list Z :=
  [ld0 iv 2; ld0 iv 0; ld0 iv 4; ld0 iv 5; ld0 iv 6; ld0 iv 7].
Definition tkip_pn (tsc : list Z) : Z * Z :=
  (ld0 tsc 0 .| (ld0 tsc 1 .<< 8),
   ld0 tsc 2 .| (ld0 tsc 3 .<< 8) .| (ld0 tsc 4 .<< 16) .| (ld0 tsc 5 .<< 24)).

Definition tkip_rc4key (prwskey ta iv : list Z) : list Z :=
  let '(pnl, pnh) := tkip_pn (GET_TKIP_PN iv) in
  phase2 prwskey (phase1 prwskey ta pnh) pnl.

Definition tkip_frag (prwskey : list Z) (a : pkt_attrib) (pframe length : Z)
    (s : list Z * crc32_globals) : option (list Z * crc32_globals) :=
  let '(m, g) := s in
  iv ← rd m (pframe + pa_hdrlen a) 8;
  let payload := pframe + pa_iv_len a + pa_hdrlen a in
  seal_payload g (tkip_rc4key prwskey (pa_ta a) iv) 16 m payload length.

(** The group key or the pairwise key of the attributes. *)
Definition tx_key (sec : security_priv) (a : pkt_attrib) : option (list Z) :=
  if IS_MCAST (pa_ra a) then dot118021XGrpKey sec !! Z.to_nat (dot118021XGrpKeyid sec)
  else Some (pa_UncstKey a).

Definition rtw_tkip_encrypt (sec : security_priv) (a : pkt_attrib) (s : list Z * crc32_globals)
    : option (list Z * crc32_globals * security_priv * Z) :=
  if pa_encrypt a =? _TKIP_ then
    prwskey ← tx_key sec a;
    s ← encrypt_frags a (tkip_frag prwskey a) s;
    Some (s, TKIP_SW_ENC_CNT_INC sec (pa_ra a), _SUCCESS)
  else Some (s, sec, _SUCCESS).

Section frames.
Context (CONFIG_IEEE80211W : bool).

(** [aes_cipher(prwskey, hdrlen, pframe, length)] on the buffer from [pframe] on. *)
Definition aes_frag (prwskey : list Z) (a : pkt_attrib) (pframe length : Z) (m : list Z)
    : option (list Z) :=
  f ← rd m pframe (zlen m - pframe);
  '(f, _) ← aes_cipher CONFIG_IEEE80211W prwskey (pa_hdrlen a) f (u32 length);
  wr m pframe f.

Definition rtw_aes_encrypt (sec : security_priv) (a : pkt_attrib) (m : list Z)
    : option (list Z * security_priv * Z) :=
  if pa_encrypt a =? _AES_ then
    prwskey ← tx_key sec a;
    m ← encrypt_frags a (aes_frag prwskey a) m;
    Some (m, AES_SW_ENC_CNT_INC sec (pa_ra a), _SUCCESS)
  else Some (m, sec, _SUCCESS).

(** ** Receive *)

Definition rtw_wep_decrypt (sec : security_priv) (f : recv_frame) (g : crc32_globals)
    : option (recv_frame * crc32_globals * security_priv) :=
  if (ra_encrypt f =? _WEP40_) || (ra_encrypt f =? _WEP104_) then
    iv ← rd (rx_data f) (ra_hdrlen f) 3;
    keylength ← dot11DefKeylen sec !! Z.to_nat (ra_key_index f);
    skey ← dot11DefKey sec !! Z.to_nat (ra_key_index f);
    wepkey ← fill_wepkey iv skey keylength;
    let length := rx_len f - ra_hdrlen f - ra_iv_len f in
    let payload := ra_iv_len f + ra_hdrlen f in
    '(m, _, g) ← open_payload g wepkey (3 + keylength) (rx_data f) payload length;
    Some (set_rx_data m f, g, WEP_SW_DEC_CNT_INC sec (ra_ra f))
  else Some (f, g, sec).

Context {T : Type} `{!StaLookup T}.

Definition rtw_tkip_decrypt (sec : security_priv) (stas : T) (f : recv_frame)
    (g : crc32_globals) : option (recv_frame * crc32_globals * security_priv * Z) :=
  if ra_encrypt f =? _TKIP_ then
    match unicast_key stas (ra_ta f) with
    | Some ukey =>
        if IS_MCAST (ra_ra f) && negb (binstallGrpkey sec) then Some (f, g, sec, _FAIL)
        else
          prwskey ← (if IS_MCAST (ra_ra f)
                     then dot118021XGrpKey sec !! Z.to_nat (ra_key_index f) else Some ukey);
          iv ← rd (rx_data f) (ra_hdrlen f) 8;
          let payload := ra_iv_len f + ra_hdrlen f in
          let length := rx_len f - ra_hdrlen f - ra_iv_len f in
          '(m, ok, g) ← open_payload g (tkip_rc4key prwskey (ra_ta f) iv) 16 (rx_data f)
                          payload length;
          Some (set_rx_data m f, g, TKIP_SW_DEC_CNT_INC sec (ra_ra f),
                if ok : bool then _SUCCESS else _FAIL)
    | None => Some (f, g, sec, _FAIL)
    end
  else Some (f, g, sec, _SUCCESS).

(** [message] is the static array of [aes_decipher]. *)
Definition rtw_aes_decrypt (sec : security_priv) (stas : T) (f : recv_frame)
    (message : list Z) : option (recv_frame * list Z * security_priv * Z) :=
  if ra_encrypt f =? _AES_ then
    match unicast_key stas (ra_ta f) with
    | Some ukey =>
        if IS_MCAST (ra_ra f)
           && (negb (binstallGrpkey sec) || negb (dot118021XGrpKeyid sec =? ra_key_index f))
        then Some (f, message, sec, _FAIL)
        else
          prwskey ← (if IS_MCAST (ra_ra f)
                     then dot118021XGrpKey sec !! Z.to_nat (ra_key_index f) else Some ukey);
          let length := rx_len f - ra_hdrlen f - ra_iv_len f in
          '(m, message, res) ← aes_decipher CONFIG_IEEE80211W prwskey (ra_hdrlen f) (rx_data f)
                                 (u32 length) message;
          Some (set_rx_data m f, message, AES_SW_DEC_CNT_INC sec (ra_ra f), res)
    | None => Some (f, message, sec, _FAIL)
    end
  else Some (f, message, sec, _SUCCESS).

(** The globals the frame code keeps between calls. *)
Record sec_globals := mk_glob { g_crc : crc32_globals; g_message : list Z }.

Definition extract_key_index (sec : security_priv) (f : recv_frame) : option recv_frame :=
  if 0 <? ra_encrypt f then
    iv3 ← ld (rx_data f) (ra_hdrlen f + 3);
    let k := (iv3 .>> 6) .& 0x3 in
    Some (set_key_index
      (if WEP_KEYS <? k then
         (if (ra_encrypt f =? _WEP40_) || (ra_encrypt f =? _WEP104_)
          then u8 (dot11PrivacyKeyIndex sec) else u8 (dot118021XGrpKeyid sec))
       else k) f)
  else Some f.

Definition sw_decrypt_frame (sec : security_priv) (stas : T) (f : recv_frame) (g : sec_globals)
    : option (recv_frame * sec_globals * security_priv * Z) :=
  if (ra_encrypt f =? _WEP40_) || (ra_encrypt f =? _WEP104_) then
    '(f, c, sec) ← rtw_wep_decrypt sec f (g_crc g);
    Some (f, mk_glob c (g_message g), sec, _SUCCESS)
  else if ra_encrypt f =? _TKIP_ then
    '(f, c, sec, res) ← rtw_tkip_decrypt sec stas f (g_crc g);
    Some (f, mk_glob c (g_message g), sec, res)
  else if ra_encrypt f =? _AES_ then
    '(f, msg, sec, res) ← rtw_aes_decrypt sec stas f (g_message g);
    Some (f, mk_glob (g_crc g) msg, sec, res)
  else Some (f, g, sec, _SUCCESS).

(** [decryptor]: [None] inside the result is the frame that was freed. *)
Definition decryptor (sec : security_priv) (stas : T) (f : recv_frame) (g : sec_globals)
    : option (option recv_frame * sec_globals * security_priv) :=
  f ← extract_key_index sec f;
  '(f, g, sec, res) ←
    (if (0 <? ra_encrypt f) && (negb (ra_bdecrypted f) || sw_decrypt sec) then
       sw_decrypt_frame (set_hw_decrypted false sec) stas f g
     else if ra_bdecrypted f && (0 <? ra_encrypt f)
             && (busetkipkey sec || negb (ra_encrypt f =? _TKIP_)) then
       Some (f, g, set_hw_decrypted true sec, _SUCCESS)
     else Some (f, g, sec, _SUCCESS));
  Some (if res =? _FAIL then None else Some (set_bdecrypted true f), g, sec).
End frames.

(** ** Sealing and opening a payload *)

(** The integrity check value of a payload. *)
Definition icv (p : list Z) : list Z := map (byte_of (crc32_spec p)) [0; 1; 2; 3].

(** RC4 under a fresh key; encryption and decryption. *)
Definition rc4 (key : list Z) (keylen : Z) (l : list Z) : list Z :=
  (arcfour_encrypt (arcfour_init key keylen) l).1.

Definition crc_ready (g : crc32_globals) : Prop :=
  (bcrc32initialized g = 0 /\ length (crc32_table g) = 256%nat) \/
  g = mk_crc32_globals 1 crc_table_spec.

Lemma icv_length p : zlen (icv p) = 4.
Proof. done. Qed.

Lemma rc4_length key kl l : zlen (rc4 key kl l) = zlen l.
Proof. unfold rc4, zlen. by rewrite arcfour_encrypt_length. Qed.

Lemma rc4_involutive key kl l : rc4 key kl (rc4 key kl l) = l.
Proof. apply arcfour_encrypt_involutive. Qed.

Lemma arcfour_in_place_mid ctx h p t len : len = zlen p -> zlen p < 2 ^ 32 ->
  arcfour_in_place ctx (h ++ p ++ t) (zlen h) len =
  Some (h ++ (arcfour_encrypt ctx p).1 ++ t, (arcfour_encrypt ctx p).2).
Proof.
  intros -> Hp. unfold arcfour_in_place. pose proof (zlen_nonneg p).
  rewrite u32_id, (rd_mid h p t) by lia. cbn [mbind option_bind].
  pose proof (arcfour_encrypt_length ctx p) as Hl.
  destruct (arcfour_encrypt ctx p) as [d ctx']. cbn [fst snd] in *.
  by rewrite (wr_mid h p t).
Qed.

Lemma payload_crc_mid g h p t off len : crc_ready g -> bytes_ok p -> off = zlen h -> len = zlen p ->
  payload_crc g (h ++ p ++ t) off len = Some (icv p, mk_crc32_globals 1 crc_table_spec).
Proof.
  intros Hg Hp -> ->. unfold payload_crc. pose proof (zlen_nonneg p).
  rewrite Z.max_r, (rd_mid h p t) by lia. cbn [mbind option_bind]. by rewrite getcrc32_ok.
Qed.

Lemma crc_ready_1 : crc_ready (mk_crc32_globals 1 crc_table_spec).
Proof. by right. Qed.
#[export] Hint Resolve crc_ready_1 : core.

(** The payload and its check value are encrypted with one key stream. *)
Lemma seal_mid g key kl h p x t : crc_ready g -> bytes_ok p -> zlen x = 4 -> zlen p < 2 ^ 32 ->
  seal_payload g key kl (h ++ p ++ x ++ t) (zlen h) (zlen p) =
  Some (h ++ rc4 key kl (p ++ icv p) ++ t, mk_crc32_globals 1 crc_table_spec).
Proof.
  intros Hg Hp Hx Hlen. unfold seal_payload.
  rewrite payload_crc_mid by done. cbn [mbind option_bind].
  rewrite arcfour_in_place_mid by done. cbn [mbind option_bind].
  pose proof (arcfour_encrypt_app (arcfour_init key kl) p (icv p)) as Ha. unfold rc4.
  pose proof (arcfour_encrypt_length (arcfour_init key kl) p) as Hl.
  destruct (arcfour_encrypt (arcfour_init key kl) p) as [d ctx]. cbn [fst snd] in *.
  pose proof (arcfour_encrypt_length ctx (icv p)) as Hl'.
  destruct (arcfour_encrypt ctx (icv p)) as [d' ctx']. rewrite Ha. cbn [fst snd] in *.
  pose proof (icv_length p).
  rewrite (app_assoc h d), (wr_mid (h ++ d) x t) by (rewrite ?zlen_app; unfold zlen in *; lia).
  cbn [mbind option_bind]. by rewrite <- !app_assoc.
Qed.

Lemma open_mid g key kl h c t len : crc_ready g -> bytes_ok c -> 4 <= zlen c < 2 ^ 32 -> len = zlen c ->
  let d := rc4 key kl c in
  open_payload g key kl (h ++ c ++ t) (zlen h) len =
  Some (h ++ d ++ t, bool_decide (icv (take (length c - 4) d) = drop (length c - 4) d),
        mk_crc32_globals 1 crc_table_spec).
Proof.
  intros Hg Hc Hlen -> d. unfold open_payload.
  rewrite arcfour_in_place_mid by (done || lia). cbn [mbind option_bind].
  fold (rc4 key kl c). fold d. assert (Hd : zlen d = zlen c) by apply rc4_length.
  assert (Hok : bytes_ok d) by (by apply arcfour_encrypt_ok).
  set (d1 := take (length c - 4) d). set (d2 := drop (length c - 4) d).
  replace (h ++ d ++ t) with (h ++ d1 ++ d2 ++ t)
    by (unfold d1, d2; by rewrite (app_assoc (take _ d)), take_drop).
  assert (H1 : zlen d1 = zlen c - 4) by (unfold d1, zlen in *; rewrite length_take; lia).
  assert (H2 : zlen d2 = 4) by (unfold d2, zlen in *; rewrite length_drop; lia).
  rewrite payload_crc_mid by (done || (by apply bytes_ok_take)).
  cbn [mbind option_bind]. rewrite (app_assoc h d1), (rd_mid (h ++ d1) d2 t) by
    (rewrite ?zlen_app; lia).
  cbn [mbind option_bind]. by rewrite <- app_assoc.
Qed.

(** Opening a sealed payload gives it back with a correct check value. *)
Lemma open_sealed g key kl h p t len : crc_ready g -> bytes_ok p -> zlen p + 4 < 2 ^ 32 ->
  len = zlen p + 4 ->
  open_payload g key kl (h ++ rc4 key kl (p ++ icv p) ++ t) (zlen h) len =
  Some (h ++ p ++ icv p ++ t, true, mk_crc32_globals 1 crc_table_spec).
Proof.
  intros Hg Hp Hlen ->. pose proof (zlen_nonneg p).
  assert (Hpi : bytes_ok (p ++ icv p)).
  { apply bytes_ok_app_2; [done|]. unfold icv. apply Forall_map, Forall_forall.
    intros. apply u8_range. }
  rewrite open_mid; [|done|by apply arcfour_encrypt_ok|
    rewrite rc4_length, zlen_app, icv_length; lia|by rewrite rc4_length, zlen_app, icv_length].
  rewrite rc4_involutive.
  replace (length (rc4 key kl (p ++ icv p)) - 4)%nat with (length p).
  2: { pose proof (rc4_length key kl (p ++ icv p)) as H1. rewrite zlen_app, icv_length in H1.
       unfold zlen in H1. lia. }
  rewrite take_app_length, drop_app_length, bool_decide_true, <- app_assoc by done. done.
Qed.

(** ** The loop over the fragments *)

(** A fragment in the buffer: the header with the IV, the payload, the room for the
    check value, and the padding up to the next fragment. *)
Record frag := mk_frag { f_hdr : list Z; f_payload : list Z; f_icv : list Z; f_pad : list Z }.

Definition layout (fs : list frag) : list Z :=
  concat (map (fun f => f_hdr f ++ f_payload f ++ f_icv f ++ f_pad f) fs).

(** The same fragments sealed by [seal]. *)
Definition sealed (seal : list Z -> list Z -> list Z) (fs : list frag) : list Z :=
  concat (map (fun f => f_hdr f ++ seal (f_hdr f) (f_payload f) ++ f_pad f) fs).

(** The fragments of attributes [a] from number [i] at offset [off]; [Hdr] is what the
    cipher needs of the header. *)
Fixpoint frags_ok (Hdr : list Z -> Prop) (a : pkt_attrib) (i off : Z) (fs : list frag) : Prop :=
  match fs with
  | [] => i = pa_nr_frags a
  | f :: fs' =>
      zlen (f_hdr f) = pa_hdrlen a + pa_iv_len a /\ zlen (f_icv f) = pa_icv_len a /\
      zlen (f_payload f) = frag_length a i /\ zlen (f_payload f) < 2 ^ 31 /\
      Hdr (f_hdr f) /\ bytes_ok (f_payload f) /\
      (fs' <> [] -> zlen (f_pad f) = next_frag a off - (off + pa_frag_len a)) /\
      frags_ok Hdr a (i + 1) (if i + 1 =? pa_nr_frags a then off else next_frag a off) fs'
  end.

(** What one run of the body does to the buffer it works on. *)
Definition frag_body_ok {S} (Hdr : list Z -> Prop) (a : pkt_attrib) (holds : S -> list Z -> Prop)
    (body : Z -> Z -> S -> option S) (seal : list Z -> list Z -> list Z) : Prop :=
  forall pre h p x t s, holds s (pre ++ h ++ p ++ x ++ t) -> Hdr h -> bytes_ok p ->
    zlen p < 2 ^ 31 ->
    zlen h = pa_hdrlen a + pa_iv_len a -> zlen x = pa_icv_len a ->
    exists s', body (zlen pre) (zlen p) s = Some s' /\ holds s' (pre ++ h ++ seal h p ++ t).

Lemma frag_loop {S} Hdr a holds (body : Z -> Z -> S -> option S) seal fs i pre post s :
  frag_body_ok Hdr a holds body seal ->
  (forall h p, zlen (seal h p) = zlen p + pa_icv_len a) ->
  frags_ok Hdr a i (zlen pre) fs -> i + Z.of_nat (length fs) = pa_nr_frags a ->
  holds s (pre ++ layout fs ++ post) ->
  exists s' off, for_from (length fs) i (encrypt_frag a body) (s, zlen pre) = Some (s', off) /\
    holds s' (pre ++ sealed seal fs ++ post).
Proof.
  intros Hb Hseal. revert i pre s. induction fs as [|f fs IH]; intros i pre s Hok Hn Hs;
    cbn [length for_from]; [by exists s, (zlen pre)|].
  destruct Hok as (Hh & Hi & Hp & Hlp & Hokh & Hokp & Hpad & Hok).
  unfold layout in Hs. cbn [map concat] in Hs. rewrite <- !app_assoc in Hs.
  destruct (Hb pre (f_hdr f) (f_payload f) (f_icv f) _ s Hs Hokh Hokp Hlp Hh Hi) as (s1 & E & Hs1).
  assert (E1 : encrypt_frag a body i (s, zlen pre) =
    Some (s1, if i + 1 =? pa_nr_frags a then zlen pre else next_frag a (zlen pre))).
  { unfold encrypt_frag. rewrite <- Hp, E. done. }
  rewrite E1. cbn [mbind option_bind]. clear E1 E.
  destruct (i + 1 =? pa_nr_frags a) eqn:El; bool_to_prop.
  - cbn [length] in Hn. assert (fs = []) as -> by (apply nil_length_inv; lia).
    exists s1, (zlen pre). split; [done|]. unfold sealed. cbn [map concat] in *.
    by rewrite <- !app_assoc in *.
  - cbn [length] in Hn. assert (Hne : fs <> []) by (intros ->; cbn [length] in Hn; lia).
    specialize (Hpad Hne).
    assert (Hoff : next_frag a (zlen pre) =
      zlen (pre ++ f_hdr f ++ seal (f_hdr f) (f_payload f) ++ f_pad f)).
    { rewrite !zlen_app, Hseal. unfold frag_length in Hp.
      rewrite (proj2 (Z.eqb_neq _ _) El) in Hp. lia. }
    rewrite Hoff in Hok |- *.
    destruct (IH (i + 1) _ s1 Hok) as (s' & off & E' & Hs'); [lia| |].
    { rewrite <- !app_assoc. exact Hs1. }
    exists s', off. split; [done|]. unfold sealed in *. cbn [map concat].
    by rewrite <- !app_assoc in *.
Qed.

Lemma encrypt_frags_spec {S} Hdr a holds (body : Z -> Z -> S -> option S) seal fs pre post s :
  frag_body_ok Hdr a holds body seal ->
  (forall h p, zlen (seal h p) = zlen p + pa_icv_len a) ->
  zlen pre = hw_hdr_offset a -> frags_ok Hdr a 0 (zlen pre) fs -> zlen fs = pa_nr_frags a ->
  holds s (pre ++ layout fs ++ post) ->
  exists s', encrypt_frags a body s = Some s' /\ holds s' (pre ++ sealed seal fs ++ post).
Proof.
  intros Hb Hseal Hpre Hok Hn Hs.
  destruct (frag_loop Hdr a holds body seal fs 0 pre post s) as (s' & off & E & Hs'); try done.
  exists s'. split; [|done]. unfold encrypt_frags.
  by rewrite <- Hn, zlen_to_nat, <- Hpre, E.
Qed.

(** ** WEP *)

(** The buffer and the checksum tables. *)
Definition holds_crc (s : list Z * crc32_globals) (m : list Z) : Prop := s.1 = m /\ crc_ready s.2.

(** The RC4 key of a frame with header [h]. *)
Definition wep_key (skey : list Z) (keylength hdrlen : Z) (h : list Z) : list Z :=
  take 3 (drop (Z.to_nat hdrlen) h) ++ take (Z.to_nat keylength) skey
  ++ replicate (Z.to_nat (13 - keylength)) 0.

Definition wep_seal (skey : list Z) (keylength hdrlen : Z) (h p : list Z) : list Z :=
  rc4 (wep_key skey keylength hdrlen h) (3 + keylength) (p ++ icv p).

Lemma fill_wepkey_eq iv skey keylength : zlen iv = 3 -> 0 <= keylength <= 13 ->
  keylength <= zlen skey ->
  fill_wepkey iv skey keylength =
  Some (iv ++ take (Z.to_nat keylength) skey ++ replicate (Z.to_nat (13 - keylength)) 0).
Proof.
  intros Hiv Hk Hs. unfold fill_wepkey.
  change (replicate 16 0) with (replicate 3 0 ++ replicate 13 0).
  rewrite (wr_prefix (replicate 3 0)) by (unfold zlen in Hiv; simpl; lia).
  cbn [mbind option_bind]. rewrite rd_Some by lia. cbn [mbind option_bind].
  rewrite drop_0. replace 13%nat with (Z.to_nat keylength + Z.to_nat (13 - keylength))%nat by lia.
  rewrite replicate_add. apply wr_mid; [done|].
  rewrite length_take, length_replicate. unfold zlen in Hs. lia.
Qed.

Lemma wep_key_fill skey keylength hdrlen h r : 0 <= hdrlen -> hdrlen + 3 <= zlen h ->
  0 <= keylength <= 13 -> keylength <= zlen skey ->
  (iv ← rd (h ++ r) hdrlen 3; fill_wepkey iv skey keylength) = Some (wep_key skey keylength hdrlen h).
Proof.
  intros H0 H3 Hk Hs. rewrite rd_app_l, rd_Some by lia. cbn [mbind option_bind].
  rewrite fill_wepkey_eq; [done| |done|done].
  unfold zlen in *. rewrite length_take, length_drop. lia.
Qed.

Lemma rd_pre pre m off n : 0 <= off -> rd (pre ++ m) (zlen pre + off) n = rd m off n.
Proof.
  intros Ho. unfold rd. pose proof (zlen_nonneg pre). rewrite zlen_app.
  rewrite (proj2 (Z.leb_le 0 (zlen pre + off))), (proj2 (Z.leb_le 0 off)) by lia.
  replace (zlen pre + off + n <=? zlen pre + zlen m) with (off + n <=? zlen m)
    by (destruct (Z.leb_spec (off + n) (zlen m)), (Z.leb_spec (zlen pre + off + n) (zlen pre + zlen m)); lia).
  replace (drop (Z.to_nat (zlen pre + off)) (pre ++ m)) with (drop (Z.to_nat off) m); [done|].
  rewrite drop_app_ge by (unfold zlen; lia). f_equal. unfold zlen. lia.
Qed.

Lemma wep_body skey keylength a : 0 <= pa_hdrlen a -> 4 <= pa_iv_len a -> pa_icv_len a = 4 ->
  0 <= keylength <= 13 -> keylength <= zlen skey ->
  frag_body_ok (fun _ => True) a holds_crc (wep_frag skey keylength a)
    (wep_seal skey keylength (pa_hdrlen a)).
Proof.
  intros Hhd Hiv Hicv Hk Hs pre h p x t [m g] [Em Hg] _ Hp Hlp Hh Hx. cbn [fst snd] in *. subst m.
  exists (pre ++ h ++ wep_seal skey keylength (pa_hdrlen a) h p ++ t, mk_crc32_globals 1 crc_table_spec).
  split; [|done]. unfold wep_frag. rewrite rd_pre by lia.
  pose proof (wep_key_fill skey keylength (pa_hdrlen a) h (p ++ x ++ t)) as Hf.
  destruct (rd (h ++ p ++ x ++ t) (pa_hdrlen a) 3) as [iv|]; cbn [mbind option_bind] in *.
  2: { specialize (Hf ltac:(lia) ltac:(lia) Hk Hs). done. }
  rewrite Hf by (done || lia). cbn [mbind option_bind].
  replace (zlen pre + pa_iv_len a + pa_hdrlen a) with (zlen (pre ++ h)) by (rewrite zlen_app; lia).
  rewrite (app_assoc pre h), seal_mid by (done || lia). by rewrite <- app_assoc.
Qed.

(** ** TKIP *)

Definition tkip_seal (prwskey ta : list Z) (hdrlen : Z) (h p : list Z) : list Z :=
  rc4 (tkip_rc4key prwskey ta (take 8 (drop (Z.to_nat hdrlen) h))) 16 (p ++ icv p).

Lemma tkip_body prwskey a : 0 <= pa_hdrlen a -> 8 <= pa_iv_len a -> pa_icv_len a = 4 ->
  frag_body_ok (fun _ => True) a holds_crc (tkip_frag prwskey a)
    (tkip_seal prwskey (pa_ta a) (pa_hdrlen a)).
Proof.
  intros Hhd Hiv Hicv pre h p x t [m g] [Em Hg] _ Hp Hlp Hh Hx. cbn [fst snd] in *. subst m.
  exists (pre ++ h ++ tkip_seal prwskey (pa_ta a) (pa_hdrlen a) h p ++ t,
    mk_crc32_globals 1 crc_table_spec).
  split; [|done]. unfold tkip_frag. rewrite rd_pre by lia.
  rewrite rd_app_l, rd_Some by lia. cbn [mbind option_bind].
  replace (zlen pre + pa_iv_len a + pa_hdrlen a) with (zlen (pre ++ h)) by (rewrite zlen_app; lia).
  rewrite (app_assoc pre h), seal_mid by (done || lia). by rewrite <- app_assoc.
Qed.

(** ** CCMP *)

Section ccmp_frames.
Context (CONFIG_IEEE80211W : bool).

Definition ccmp_hdr (hdrlen : Z) (h : list Z) : Prop :=
  ccmp_header hdrlen (ccmp_classify (hdr_fc h) hdrlen) h.

Definition ccmp_seal (key : list Z) (hdrlen : Z) (h p : list Z) : list Z :=
  let cl := ccmp_classify (hdr_fc h) hdrlen in
  let pn := hdr_pn h (cl_hdrlen cl) in
  let w := CONFIG_IEEE80211W in
  xor_list p (ccmp_key_stream w cl h pn key (S (length p / 16)))
  ++ xor_list (ccmp_mac w cl h pn key p) (ccmp_mask w cl h pn key).

Lemma ccmp_seal_length key hdrlen h p : zlen (ccmp_seal key hdrlen h p) = zlen p + 8.
Proof using Type.
  unfold ccmp_seal. set (cl := ccmp_classify _ _). set (pn := hdr_pn _ _).
  rewrite zlen_app. f_equal; [unfold pn; apply xor_ks_length|].
  pose proof (mac_length CONFIG_IEEE80211W key cl h p) as H1.
  pose proof (mask_length CONFIG_IEEE80211W key cl h) as H2. fold pn in H1, H2.
  unfold zlen in *. rewrite xor_list_length. lia.
Qed.

Lemma aes_body key a : pa_icv_len a = 8 ->
  frag_body_ok (ccmp_hdr (pa_hdrlen a)) a eq (aes_frag CONFIG_IEEE80211W key a)
    (ccmp_seal key (pa_hdrlen a)).
Proof using Type.
  intros Hicv pre h p x t m -> Hhdr Hp Hlp Hh Hx.
  eexists. split; [|reflexivity]. unfold aes_frag. pose proof (zlen_nonneg p).
  pose proof (rd_mid pre (h ++ p ++ x ++ t) [] (zlen pre)
                (zlen (pre ++ h ++ p ++ x ++ t) - zlen pre) eq_refl) as Hr.
  rewrite app_nil_r in Hr. rewrite Hr by (rewrite zlen_app; lia). cbn [mbind option_bind].
  rewrite u32_id, (aes_cipher_eq _ _ _ _ _ Hhdr) by lia. cbn [mbind option_bind].
  pose proof (wr_mid pre (h ++ p ++ x ++ t) []
    (h ++ ccmp_seal key (pa_hdrlen a) h p ++ t) (zlen pre) eq_refl) as Hw.
  rewrite !app_nil_r in Hw. unfold ccmp_seal in Hw |- *. rewrite <- !app_assoc in Hw.
  rewrite Hw, <- !app_assoc; [done|].
  pose proof (ccmp_seal_length key (pa_hdrlen a) h p) as Hl.
  unfold ccmp_seal in Hl. rewrite zlen_app in Hl. unfold zlen in *. rewrite !length_app. lia.
Qed.
End ccmp_frames.

(** ** Decryption of a sealed frame *)

(** A received frame of header [h], [n] protected bytes [c], then unused room [t]. *)
Record rx_frame (f : recv_frame) (h c t : list Z) : Prop := {
  rxf_data : rx_data f = h ++ c ++ t;
  rxf_len : rx_len f = zlen h + zlen c;
  rxf_hdr : zlen h = ra_hdrlen f + ra_iv_len f;
  rxf_pos : 0 <= ra_hdrlen f
}.

Lemma seal_len (c p : list Z) : zlen c = zlen (p ++ icv p) -> zlen c = zlen p + 4.
Proof. by rewrite zlen_app, icv_length. Qed.

Lemma wep_decrypt_sealed sec f g h p t skey keylength :
  ra_encrypt f = _WEP40_ \/ ra_encrypt f = _WEP104_ ->
  dot11DefKey sec !! Z.to_nat (ra_key_index f) = Some skey ->
  dot11DefKeylen sec !! Z.to_nat (ra_key_index f) = Some keylength ->
  0 <= keylength <= 13 -> keylength <= zlen skey -> crc_ready g -> bytes_ok p ->
  4 <= ra_iv_len f -> zlen p < 2 ^ 31 ->
  rx_frame f h (wep_seal skey keylength (ra_hdrlen f) h p) t ->
  rtw_wep_decrypt sec f g =
  Some (set_rx_data (h ++ p ++ icv p ++ t) f, mk_crc32_globals 1 crc_table_spec,
        WEP_SW_DEC_CNT_INC sec (ra_ra f)).
Proof.
  intros Henc Hk Hkl Hkr Hsk Hg Hp Hiv Hlp [Hd Hl Hh H0]. unfold rtw_wep_decrypt.
  replace ((ra_encrypt f =? _WEP40_) || (ra_encrypt f =? _WEP104_)) with true.
  2: { symmetry. apply orb_true_iff. rewrite !Z.eqb_eq. done. }
  rewrite Hd, Hk, Hkl. unfold wep_seal in *. rewrite (seal_len _ _ (rc4_length _ _ _)) in Hl.
  set (rest := _ ++ t). pose proof (wep_key_fill skey keylength (ra_hdrlen f) h rest) as Hf.
  destruct (rd (h ++ rest) (ra_hdrlen f) 3) as [iv|]; cbn [mbind option_bind] in *.
  2: { specialize (Hf H0 ltac:(lia) Hkr Hsk). done. }
  rewrite Hf by (done || lia). cbn [mbind option_bind].
  replace (ra_iv_len f + ra_hdrlen f) with (zlen h) by lia. unfold rest.
  by rewrite open_sealed by (done || lia).
Qed.

Section receive.
Context (CONFIG_IEEE80211W : bool) {T : Type} `{!StaLookup T}.

(** The key [rtw_tkip_decrypt] uses, when it has one. *)
Definition rx_key (sec : security_priv) (stas : T) (f : recv_frame) : option (list Z) :=
  if IS_MCAST (ra_ra f)
  then (if binstallGrpkey sec then dot118021XGrpKey sec !! Z.to_nat (ra_key_index f) else None)
  else unicast_key stas (ra_ta f).

Lemma tkip_decrypt_sealed sec stas f g h p t key :
  ra_encrypt f = _TKIP_ -> unicast_key stas (ra_ta f) <> None ->
  rx_key sec stas f = Some key -> crc_ready g -> bytes_ok p -> 8 <= ra_iv_len f ->
  zlen p < 2 ^ 31 -> rx_frame f h (tkip_seal key (ra_ta f) (ra_hdrlen f) h p) t ->
  rtw_tkip_decrypt sec stas f g =
  Some (set_rx_data (h ++ p ++ icv p ++ t) f, mk_crc32_globals 1 crc_table_spec,
        TKIP_SW_DEC_CNT_INC sec (ra_ra f), _SUCCESS).
Proof using Type.
  intros Henc Hsta Hk Hg Hp Hiv Hlp [Hd Hl Hh H0]. unfold rtw_tkip_decrypt.
  rewrite Henc, Z.eqb_refl. destruct (unicast_key stas (ra_ta f)) as [ukey|] eqn:Eu; [|done].
  unfold rx_key in Hk. rewrite Eu in Hk.
  assert (E : IS_MCAST (ra_ra f) && negb (binstallGrpkey sec) = false /\
    (if IS_MCAST (ra_ra f) then dot118021XGrpKey sec !! Z.to_nat (ra_key_index f) else Some ukey)
      = Some key).
  { destruct (IS_MCAST (ra_ra f)), (binstallGrpkey sec); done. }
  destruct E as [-> ->]. cbn [mbind option_bind]. rewrite Hd.
  unfold tkip_seal in *. rewrite (seal_len _ _ (rc4_length _ _ _)) in Hl.
  rewrite rd_app_l, rd_Some by lia. cbn [mbind option_bind].
  replace (ra_iv_len f + ra_hdrlen f) with (zlen h) by lia.
  change (Z.to_nat 8) with 8%nat. by rewrite open_sealed by (done || lia).
Qed.

(** CCMP: the payload [c], the received MIC [x], accepted when it is the masked MIC. *)
Lemma aes_decrypt_frame sec stas f message h c x t key :
  ra_encrypt f = _AES_ -> unicast_key stas (ra_ta f) <> None ->
  rx_key sec stas f = Some key ->
  (IS_MCAST (ra_ra f) = true -> dot118021XGrpKeyid sec = ra_key_index f) ->
  ccmp_hdr (ra_hdrlen f) h -> cl_hdrlen (ccmp_classify (hdr_fc h) (ra_hdrlen f)) = ra_hdrlen f ->
  zlen x = 8 -> rx_frame f h (c ++ x) t ->
  zlen message = MAX_MSG_SIZE -> zlen h + zlen c + 8 <= MAX_MSG_SIZE ->
  let cl := ccmp_classify (hdr_fc h) (ra_hdrlen f) in
  let w := CONFIG_IEEE80211W in
  let pn := hdr_pn h (cl_hdrlen cl) in
  let p := xor_list c (ccmp_key_stream w cl h pn key (S (length c / 16))) in
  exists message', zlen message' = MAX_MSG_SIZE /\
    rtw_aes_decrypt w sec stas f message =
    Some (set_rx_data (h ++ p ++ x ++ t) f, message', AES_SW_DEC_CNT_INC sec (ra_ra f),
      if bool_decide (x = xor_list (ccmp_mac w cl h pn key p) (ccmp_mask w cl h pn key))
      then _SUCCESS else _FAIL).
Proof using Type.
  intros Henc Hsta Hk Hid Hhdr Hcl Hx [Hd Hl Hh H0] Hm Hfit cl w pn p.
  unfold rtw_aes_decrypt.
  rewrite Henc, Z.eqb_refl. destruct (unicast_key stas (ra_ta f)) as [ukey|] eqn:Eu; [|done].
  unfold rx_key in Hk. rewrite Eu in Hk.
  assert (E : IS_MCAST (ra_ra f) &&
      (negb (binstallGrpkey sec) || negb (dot118021XGrpKeyid sec =? ra_key_index f)) = false /\
    (if IS_MCAST (ra_ra f) then dot118021XGrpKey sec !! Z.to_nat (ra_key_index f) else Some ukey)
      = Some key).
  { destruct (IS_MCAST (ra_ra f)); [|done]. rewrite Hid, Z.eqb_refl by done.
    destruct (binstallGrpkey sec); done. }
  destruct E as [-> ->]. cbn [mbind option_bind]. rewrite Hd, <- app_assoc.
  rewrite zlen_app in Hl. pose proof (zlen_nonneg c).
  destruct Hhdr as [Hc1 Hc2 Hc3]. unfold MAX_MSG_SIZE in *.
  replace (rx_len f - ra_hdrlen f - ra_iv_len f) with (zlen c + 8) by lia.
  rewrite u32_id by lia.
  rewrite (aes_decipher_eq w key (ra_hdrlen f) cl h ltac:(by split)) by (done || (unfold MAX_MSG_SIZE; lia)).
  cbn [mbind option_bind]. fold pn p. eexists. split; [|reflexivity].
  pose proof (xor_ks_length w key cl h c) as Hp. fold pn p in Hp.
  pose proof (ccmp_seal_length w key (ra_hdrlen f) h p) as Hs. unfold ccmp_seal in Hs. fold cl pn in Hs.
  pose proof (xor_ks_length w key cl h p) as Hp2. fold pn in Hp2.
  rewrite zlen_app in Hs. rewrite !zlen_app. unfold zlen in *. rewrite length_drop. lia.
Qed.
End receive.

(** ** Properties *)

Lemma frags_ok_elem Hdr a i off fs fr : frags_ok Hdr a i off fs -> fr ∈ fs ->
  zlen (f_hdr fr) = pa_hdrlen a + pa_iv_len a /\ zlen (f_payload fr) < 2 ^ 31 /\
  Hdr (f_hdr fr) /\ bytes_ok (f_payload fr).
Proof.
  revert i off. induction fs as [|f fs IH]; intros i off Hok Hin; [by apply not_elem_of_nil in Hin|].
  destruct Hok as (Hh & _ & _ & Hl & Hhdr & Hp & _ & Hok).
  apply elem_of_cons in Hin as [->|Hin]; [done|by eapply IH].
Qed.

(** The fragments of [a] in a transmit buffer, after [pre] (descriptor and offset). *)
Record tx_frags (Hdr : list Z -> Prop) (a : pkt_attrib) (pre : list Z) (fs : list frag) : Prop := {
  tf_pre : zlen pre = hw_hdr_offset a;
  tf_frags : frags_ok Hdr a 0 (zlen pre) fs;
  tf_number : zlen fs = pa_nr_frags a;
  tf_hdrlen : 0 <= pa_hdrlen a
}.

(** [rtw_wep_encrypt] seals every fragment of the buffer in place (payload and CRC
    under RC4 with the fragment's own IV) and changes nothing else, and
    [rtw_wep_decrypt] with the same key turns each sealed fragment back into its payload
    followed by its CRC. *)
Theorem wep_frames_round_trip sec a pre fs post g skey keylength :
  pa_encrypt a = _WEP40_ \/ pa_encrypt a = _WEP104_ ->
  dot11DefKey sec !! Z.to_nat (dot11PrivacyKeyIndex sec) = Some skey ->
  dot11DefKeylen sec !! Z.to_nat (dot11PrivacyKeyIndex sec) = Some keylength ->
  0 <= keylength <= 13 -> keylength <= zlen skey -> 4 <= pa_iv_len a -> pa_icv_len a = 4 ->
  tx_frags (fun _ => True) a pre fs -> crc_ready g ->
  let seal := wep_seal skey keylength (pa_hdrlen a) in
  exists g', crc_ready g' /\
    rtw_wep_encrypt sec a (pre ++ layout fs ++ post, g) =
      Some ((pre ++ sealed seal fs ++ post, g'), WEP_SW_ENC_CNT_INC sec (pa_ra a)) /\
    forall sec' f fr t, fr ∈ fs -> ra_encrypt f = pa_encrypt a ->
      dot11DefKey sec' !! Z.to_nat (ra_key_index f) = Some skey ->
      dot11DefKeylen sec' !! Z.to_nat (ra_key_index f) = Some keylength ->
      ra_hdrlen f = pa_hdrlen a -> ra_iv_len f = pa_iv_len a ->
      rx_frame f (f_hdr fr) (seal (f_hdr fr) (f_payload fr)) t ->
      exists g'', rtw_wep_decrypt sec' f g' =
        Some (set_rx_data (f_hdr fr ++ f_payload fr ++ icv (f_payload fr) ++ t) f, g'',
              WEP_SW_DEC_CNT_INC sec' (ra_ra f)).
Proof.
  intros Henc Hk Hkl Hkr Hsk Hiv Hicv [Hpre Hfr Hn Hhd] Hg seal.
  destruct (encrypt_frags_spec (fun _ => True) a holds_crc (wep_frag skey keylength a) seal fs pre
    post (pre ++ layout fs ++ post, g)) as ([m' g'] & E & Em & Hg'); try done.
  { by apply wep_body. }
  { intros h p. unfold seal, wep_seal. rewrite rc4_length, zlen_app, icv_length. lia. }
  cbn [fst snd] in *. subst m'. exists g'. split; [done|]. split.
  - unfold rtw_wep_encrypt. rewrite <- !Z.eqb_eq, <- orb_true_iff in Henc.
    rewrite Henc, Hk, Hkl. cbn [mbind option_bind]. by rewrite E.
  - intros sec' f fr t Hin He Hk' Hkl' Hh' Hi' Hrx.
    destruct (frags_ok_elem _ _ _ _ _ _ Hfr Hin) as (_ & Hl & _ & Hp).
    exists (mk_crc32_globals 1 crc_table_spec). unfold seal in Hrx. rewrite <- Hh' in Hrx.
    apply (wep_decrypt_sealed sec' f g' _ _ t skey keylength); rewrite ?He, ?Hi'; done.
Qed.

(** Round trip of TKIP: every fragment is sealed under the RC4 key mixed from the
    temporal key, the transmitter address and the fragment's packet number, and
    [rtw_tkip_decrypt] at a receiver that has the key accepts it and gives the payload back. *)
Theorem tkip_frames_round_trip sec a pre fs post g key :
  pa_encrypt a = _TKIP_ -> tx_key sec a = Some key -> 8 <= pa_iv_len a -> pa_icv_len a = 4 ->
  tx_frags (fun _ => True) a pre fs -> crc_ready g ->
  let seal := tkip_seal key (pa_ta a) (pa_hdrlen a) in
  exists g', crc_ready g' /\
    rtw_tkip_encrypt sec a (pre ++ layout fs ++ post, g) =
      Some ((pre ++ sealed seal fs ++ post, g'), TKIP_SW_ENC_CNT_INC sec (pa_ra a), _SUCCESS) /\
    forall (T : Type) (lk : StaLookup T) (stas : T) sec' f fr t, fr ∈ fs -> ra_encrypt f = _TKIP_ ->
      unicast_key stas (ra_ta f) <> None -> rx_key sec' stas f = Some key ->
      ra_ta f = pa_ta a -> ra_hdrlen f = pa_hdrlen a -> ra_iv_len f = pa_iv_len a ->
      rx_frame f (f_hdr fr) (seal (f_hdr fr) (f_payload fr)) t ->
      exists g'', rtw_tkip_decrypt sec' stas f g' =
        Some (set_rx_data (f_hdr fr ++ f_payload fr ++ icv (f_payload fr) ++ t) f, g'',
              TKIP_SW_DEC_CNT_INC sec' (ra_ra f), _SUCCESS).
Proof.
  intros Henc Hk Hiv Hicv [Hpre Hfr Hn Hhd] Hg seal.
  destruct (encrypt_frags_spec (fun _ => True) a holds_crc (tkip_frag key a) seal fs pre
    post (pre ++ layout fs ++ post, g)) as ([m' g'] & E & Em & Hg'); try done.
  { by apply tkip_body. }
  { intros h p. unfold seal, tkip_seal. rewrite rc4_length, zlen_app, icv_length. lia. }
  cbn [fst snd] in *. subst m'. exists g'. split; [done|]. split.
  - unfold rtw_tkip_encrypt. rewrite Henc, Z.eqb_refl, Hk. cbn [mbind option_bind]. by rewrite E.
  - intros T HT stas sec' f fr t Hin He Hu Hk' Hta Hh' Hi' Hrx.
    destruct (frags_ok_elem _ _ _ _ _ _ Hfr Hin) as (_ & Hl & _ & Hp).
    exists (mk_crc32_globals 1 crc_table_spec). unfold seal in Hrx. rewrite <- Hh', <- Hta in Hrx.
    apply (tkip_decrypt_sealed sec' stas f g' _ _ t key); rewrite ?Hi'; done.
Qed.

(** Round trip of CCMP: [rtw_aes_encrypt] turns the payload of every fragment into
    ciphertext and MIC, and [rtw_aes_decrypt] at a receiver that has the key accepts each
    fragment and gives the payload back. *)
Theorem ccmp_frames_round_trip w sec a pre fs post key :
  pa_encrypt a = _AES_ -> tx_key sec a = Some key -> pa_icv_len a = 8 ->
  tx_frags (ccmp_hdr (pa_hdrlen a)) a pre fs ->
  let seal := ccmp_seal w key (pa_hdrlen a) in
  rtw_aes_encrypt w sec a (pre ++ layout fs ++ post) =
    Some (pre ++ sealed seal fs ++ post, AES_SW_ENC_CNT_INC sec (pa_ra a), _SUCCESS) /\
  forall (T : Type) (lk : StaLookup T) (stas : T) sec' f fr t message, fr ∈ fs ->
    ra_encrypt f = _AES_ -> unicast_key stas (ra_ta f) <> None -> rx_key sec' stas f = Some key ->
    (IS_MCAST (ra_ra f) = true -> dot118021XGrpKeyid sec' = ra_key_index f) ->
    ra_hdrlen f = pa_hdrlen a -> ra_iv_len f = pa_iv_len a ->
    cl_hdrlen (ccmp_classify (hdr_fc (f_hdr fr)) (ra_hdrlen f)) = ra_hdrlen f ->
    rx_frame f (f_hdr fr) (seal (f_hdr fr) (f_payload fr)) t ->
    zlen message = MAX_MSG_SIZE -> zlen (f_hdr fr) + zlen (f_payload fr) + 8 <= MAX_MSG_SIZE ->
    exists mic message', zlen message' = MAX_MSG_SIZE /\
      rtw_aes_decrypt w sec' stas f message =
        Some (set_rx_data (f_hdr fr ++ f_payload fr ++ mic ++ t) f, message',
              AES_SW_DEC_CNT_INC sec' (ra_ra f), _SUCCESS).
Proof.
  intros Henc Hk Hicv [Hpre Hfr Hn Hhd] seal.
  destruct (encrypt_frags_spec (ccmp_hdr (pa_hdrlen a)) a eq (aes_frag w key a) seal fs pre
    post (pre ++ layout fs ++ post)) as (m' & E & ->); try done.
  { by apply aes_body. }
  { intros h p. unfold seal. rewrite ccmp_seal_length. lia. }
  split.
  - unfold rtw_aes_encrypt. rewrite Henc, Z.eqb_refl, Hk. cbn [mbind option_bind]. by rewrite E.
  - intros T HT stas sec' f fr t message Hin He Hu Hk' Hid Hh' Hi' Hcl Hrx Hm Hfit.
    destruct (frags_ok_elem _ _ _ _ _ _ Hfr Hin) as (_ & Hl & Hhdr & Hp).
    rewrite <- Hh' in Hhdr. unfold seal, ccmp_seal in Hrx. rewrite <- Hh' in Hrx.
    set (h := f_hdr fr) in *. set (p := f_payload fr) in *.
    set (cl := ccmp_classify (hdr_fc h) (ra_hdrlen f)) in *. set (pn := hdr_pn h _) in *.
    set (c := xor_list p _) in *. set (x := xor_list (ccmp_mac _ _ _ _ _ _) _) in *.
    assert (Hx : zlen x = 8).
    { pose proof (mac_length w key cl h p) as H1. pose proof (mask_length w key cl h) as H2.
      fold pn in H1, H2. unfold x, zlen in *. rewrite xor_list_length. lia. }
    pose proof (xor_ks_length w key cl h p) as Hc. fold pn c in Hc.
    pose proof (xor_ks_involutive w key cl h p) as Hinv. fold pn c in Hinv. cbv zeta in Hinv.
    destruct (aes_decrypt_frame w sec' stas f message h c x t key) as (message' & Hm' & E');
      try done; [lia|].
    fold cl pn in E'. rewrite Hinv in E'. fold x in E'.
    exists x, message'. split; [done|]. rewrite E', bool_decide_true; done.
Qed.

Lemma decryptor_ccmp_run {T} `{!StaLookup T} w sec (stas : T) f g h c x t key :
  let k := (ld0 h (ra_hdrlen f + 3) .>> 6) .& 0x3 in
  let f1 := set_key_index k f in
  ra_encrypt f = _AES_ -> ra_bdecrypted f = false -> unicast_key stas (ra_ta f) <> None ->
  rx_key sec stas f1 = Some key ->
  (IS_MCAST (ra_ra f) = true -> dot118021XGrpKeyid sec = k) ->
  ccmp_hdr (ra_hdrlen f) h -> cl_hdrlen (ccmp_classify (hdr_fc h) (ra_hdrlen f)) = ra_hdrlen f ->
  zlen x = 8 -> rx_frame f h (c ++ x) t -> zlen (g_message g) = MAX_MSG_SIZE ->
  zlen h + zlen c + 8 <= MAX_MSG_SIZE ->
  let cl := ccmp_classify (hdr_fc h) (ra_hdrlen f) in
  let pn := hdr_pn h (cl_hdrlen cl) in
  let p := xor_list c (ccmp_key_stream w cl h pn key (S (length c / 16))) in
  exists g',
    decryptor w sec stas f g =
    Some (if bool_decide (x = xor_list (ccmp_mac w cl h pn key p) (ccmp_mask w cl h pn key))
          then Some (set_bdecrypted true (set_rx_data (h ++ p ++ x ++ t) f1)) else None,
          g', AES_SW_DEC_CNT_INC (set_hw_decrypted false sec) (ra_ra f)).
Proof.
  intros k f1 Henc Hb Hu Hk Hid Hhdr Hcl Hx Hrx Hm Hfit cl pn p.
  pose proof (ch_len _ _ _ Hhdr) as Hlen. destruct (Hrx) as [Hd Hl Hh H0].
  unfold decryptor, extract_key_index. rewrite Henc. change (0 <? _AES_) with true. cbv iota.
  rewrite Hd, ld_app_l, ld_Some by lia. cbn [mbind option_bind]. fold k.
  rewrite (proj2 (Z.ltb_ge WEP_KEYS k)).
  2: { pose proof (land_range_r 2 (ld0 h (ra_hdrlen f + 3) .>> 6) 3 ltac:(lia)). unfold k, WEP_KEYS. lia. }
  fold f1. change (ra_encrypt f1) with (ra_encrypt f). change (ra_bdecrypted f1) with (ra_bdecrypted f).
  rewrite Henc, Hb. change ((0 <? _AES_) && (negb false || sw_decrypt sec)) with true. cbv iota.
  unfold sw_decrypt_frame. change (ra_encrypt f1) with (ra_encrypt f). rewrite Henc.
  change ((_AES_ =? _WEP40_) || (_AES_ =? _WEP104_)) with false.
  change (_AES_ =? _TKIP_) with false. rewrite Z.eqb_refl. cbv iota.
  destruct (aes_decrypt_frame w (set_hw_decrypted false sec) stas f1 (g_message g) h c x t key)
    as (message' & _ & E); try done.
  cbv zeta in E. change (ra_hdrlen f1) with (ra_hdrlen f) in E. fold cl in E. fold pn in E.
  fold p in E. rewrite E. cbn [mbind option_bind].
  exists (mk_glob (g_crc g) message').
  cbv beta iota. change (ra_ra f1) with (ra_ra f).
  match goal with |- context [bool_decide ?P] => destruct (bool_decide P) end; reflexivity.
Qed.

(** For a CCMP frame that needs software decryption, [decryptor] delivers the frame,
    decrypted and marked as such, exactly when its MIC verifies, and frees it otherwise. *)
Theorem decryptor_ccmp_delivers_iff {T} `{!StaLookup T} w sec (stas : T) f g h c x t key :
  let k := (ld0 h (ra_hdrlen f + 3) .>> 6) .& 0x3 in
  let f1 := set_key_index k f in
  ra_encrypt f = _AES_ -> ra_bdecrypted f = false -> unicast_key stas (ra_ta f) <> None ->
  rx_key sec stas f1 = Some key ->
  (IS_MCAST (ra_ra f) = true -> dot118021XGrpKeyid sec = k) ->
  ccmp_hdr (ra_hdrlen f) h -> cl_hdrlen (ccmp_classify (hdr_fc h) (ra_hdrlen f)) = ra_hdrlen f ->
  zlen x = 8 -> rx_frame f h (c ++ x) t -> zlen (g_message g) = MAX_MSG_SIZE ->
  zlen h + zlen c + 8 <= MAX_MSG_SIZE ->
  let cl := ccmp_classify (hdr_fc h) (ra_hdrlen f) in
  let pn := hdr_pn h (cl_hdrlen cl) in
  let p := xor_list c (ccmp_key_stream w cl h pn key (S (length c / 16))) in
  exists g',
    decryptor w sec stas f g =
    Some (if bool_decide (x = xor_list (ccmp_mac w cl h pn key p) (ccmp_mask w cl h pn key))
          then Some (set_bdecrypted true (set_rx_data (h ++ p ++ x ++ t) f1)) else None,
          g', AES_SW_DEC_CNT_INC (set_hw_decrypted false sec) (ra_ra f)).
Proof. apply decryptor_ccmp_run. Qed.

(** A WEP frame that needs software decryption is delivered whenever it is decrypted
    at all, also when its check value is wrong: [rtw_wep_decrypt] returns nothing, and
    [decryptor] keeps its initial result [_SUCCESS]. *)
Theorem decryptor_wep_ignores_icv {T} `{!StaLookup T} w sec (stas : T) f g out g' sec' :
  ra_encrypt f = _WEP40_ \/ ra_encrypt f = _WEP104_ ->
  decryptor w sec stas f g = Some (out, g', sec') -> out <> None.
Proof.
  intros Henc H. unfold decryptor in H.
  apply bind_Some in H as (f1 & H1 & H). apply bind_Some in H as ([[[f2 g2] sec2] res] & H2 & H).
  injection H as <- _ _. assert (res = _SUCCESS) as ->; [|done].
  assert (He : (ra_encrypt f1 =? _WEP40_) || (ra_encrypt f1 =? _WEP104_) = true).
  { apply orb_true_iff. rewrite !Z.eqb_eq. unfold extract_key_index in H1.
    destruct (0 <? ra_encrypt f); [|by injection H1 as <-].
    apply bind_Some in H1 as (? & _ & H1). by injection H1 as <-. }
  destruct ((0 <? ra_encrypt f1) && _) in H2.
  - unfold sw_decrypt_frame in H2. rewrite He in H2.
    apply bind_Some in H2 as ([[? ?] ?] & _ & H2). by injection H2 as _ _ _ <-.
  - destruct (ra_bdecrypted f1 && _ && _) in H2; by injection H2 as _ _ _ <-.
Qed.

(** ** The properties at concrete inputs *)

Definition ex_cnt : sw_cnt := mk_cnt 0 0 0.
Definition ex_sec (b : bool) : security_priv :=
  mk_sec 0 [zseq 1 16; zseq 2 16; zseq 3 16; zseq 4 16] [5; 13; 0; 0] 1
    [zseq 1 16; zseq 2 16; zseq 3 16; zseq 4 16] b false true false
    ex_cnt ex_cnt ex_cnt ex_cnt ex_cnt ex_cnt.
#[local] Instance ex_lookup : StaLookup (list Z) := fun key ta => if ld0 ta 0 =? 2 then Some key else None.

(** Two fragments: 3 bytes of payload, one byte of padding, then 2 bytes of payload. *)
Definition ex_attr (alg iv_len : Z) : pkt_attrib :=
  mk_pkt_attrib alg 24 iv_len 4 2 (24 + iv_len + 2 + 4) [4; 0; 0; 0; 0; 1] [2; 0; 0; 0; 0; 2]
    (zseq 5 16) (24 + iv_len + 3 + 4) 0 0.
Definition ex_frags (iv_len : nat) : list frag :=
  [mk_frag (replicate (24 + iv_len) 8) [1; 2; 3] [0; 0; 0; 0] [0xEE];
   mk_frag (replicate (24 + iv_len) 9) [4; 5] [0; 0; 0; 0] []].

Lemma ex_tx_frags alg n : n = 4%nat \/ n = 8%nat ->
  tx_frags (fun _ => True) (ex_attr alg (Z.of_nat n)) (replicate 40 0) (ex_frags n).
Proof.
  intros [-> | ->]; (split; [reflexivity| |reflexivity|simpl; lia]); cbn;
    repeat split; try (vm_compute; done); apply bytes_ok_spec; reflexivity.
Qed.

Lemma ex_crc_ready : crc_ready crc32_globals0.
Proof. left. split; reflexivity. Qed.

Lemma wep_frames_round_trip_witness :
  let seal := wep_seal (zseq 1 16) 5 24 in
  exists g', crc_ready g' /\
    rtw_wep_encrypt (ex_sec true) (ex_attr _WEP40_ 4)
        (replicate 40 0 ++ layout (ex_frags 4) ++ [], crc32_globals0) =
      Some ((replicate 40 0 ++ sealed seal (ex_frags 4) ++ [], g'),
            WEP_SW_ENC_CNT_INC (ex_sec true) [4; 0; 0; 0; 0; 1]).
Proof.
  destruct (wep_frames_round_trip (ex_sec true) (ex_attr _WEP40_ 4) (replicate 40 0) (ex_frags 4) []
    crc32_globals0 (zseq 1 16) 5) as (g' & H1 & H2 & _).
  - left. reflexivity.
  - reflexivity.
  - reflexivity.
  - lia.
  - vm_compute. done.
  - vm_compute. done.
  - reflexivity.
  - apply (ex_tx_frags _ 4). auto.
  - apply ex_crc_ready.
  - exists g'. split; [exact H1|exact H2].
Defined.

Lemma tkip_frames_round_trip_witness :
  let seal := tkip_seal (zseq 5 16) [2; 0; 0; 0; 0; 2] 24 in
  exists g', crc_ready g' /\
    rtw_tkip_encrypt (ex_sec true) (ex_attr _TKIP_ 8)
        (replicate 40 0 ++ layout (ex_frags 8) ++ [], crc32_globals0) =
      Some ((replicate 40 0 ++ sealed seal (ex_frags 8) ++ [], g'),
            TKIP_SW_ENC_CNT_INC (ex_sec true) [4; 0; 0; 0; 0; 1], _SUCCESS).
Proof.
  destruct (tkip_frames_round_trip (ex_sec true) (ex_attr _TKIP_ 8) (replicate 40 0) (ex_frags 8) []
    crc32_globals0 (zseq 5 16)) as (g' & H1 & H2 & _).
  - reflexivity.
  - reflexivity.
  - vm_compute. done.
  - reflexivity.
  - apply (ex_tx_frags _ 8). auto.
  - apply ex_crc_ready.
  - exists g'. split; [exact H1|exact H2].
Defined.

(** One QoS data frame for CCMP. *)
Definition ex_attr_aes : pkt_attrib :=
  mk_pkt_attrib _AES_ 26 8 8 1 (26 + 8 + 3 + 8) [4; 0; 0; 0; 0; 1] [2; 0; 0; 0; 0; 2]
    (zseq 5 16) 2346 1 0.
Definition ex_frag_aes : list frag := [mk_frag example_hdr [1; 2; 3] (replicate 8 0) []].

Lemma ccmp_frames_round_trip_witness :
  rtw_aes_encrypt false (ex_sec true) ex_attr_aes
      (replicate 48 0 ++ layout ex_frag_aes ++ [0xEE]) =
    Some (replicate 48 0 ++ sealed (ccmp_seal false (zseq 5 16) 26) ex_frag_aes ++ [0xEE],
          AES_SW_ENC_CNT_INC (ex_sec true) [4; 0; 0; 0; 0; 1], _SUCCESS).
Proof.
  apply (ccmp_frames_round_trip false (ex_sec true) ex_attr_aes (replicate 48 0) ex_frag_aes [0xEE]
    (zseq 5 16)); [reflexivity..|].
  split; [reflexivity| |reflexivity|simpl; lia]. cbn.
  split; [reflexivity|]. split; [reflexivity|]. split; [reflexivity|]. split; [reflexivity|].
  split; [split; reflexivity|]. split; [apply bytes_ok_spec; reflexivity|]. split; done.
Defined.

(** A received frame with an all-zero MIC, and its key index 0. *)
Definition ex_rx (alg iv_len : Z) (m : list Z) (len : Z) : recv_frame :=
  mk_recv alg 26 iv_len 3 false [4; 0; 0; 0; 0; 1] [2; 0; 0; 0; 0; 2] m len.

Lemma decryptor_ccmp_delivers_iff_witness :
  let h := example_hdr in let c := [7; 7; 7] in let x := replicate 8 0 in
  let f := ex_rx _AES_ 8 (h ++ (c ++ x) ++ []) 45 in
  let cl := ccmp_classify (hdr_fc h) 26 in
  let pn := hdr_pn h (cl_hdrlen cl) in
  let key := zseq 5 16 in
  let p := xor_list c (ccmp_key_stream false cl h pn key 1) in
  exists g',
    decryptor false (ex_sec true) (zseq 5 16) f (mk_glob crc32_globals0 (replicate 2048 0)) =
    Some (if bool_decide (x = xor_list (ccmp_mac false cl h pn key p) (ccmp_mask false cl h pn key))
          then Some (set_bdecrypted true (set_rx_data (h ++ p ++ x ++ []) (set_key_index 0 f))) else None,
          g', AES_SW_DEC_CNT_INC (set_hw_decrypted false (ex_sec true)) [4; 0; 0; 0; 0; 1]).
Proof.
  apply (decryptor_ccmp_delivers_iff false (ex_sec true) (zseq 5 16)
    (ex_rx _AES_ 8 (example_hdr ++ ([7; 7; 7] ++ replicate 8 0) ++ []) 45)
    (mk_glob crc32_globals0 (replicate 2048 0)) example_hdr [7; 7; 7] (replicate 8 0) [] (zseq 5 16));
    try reflexivity; try discriminate; try (split; reflexivity).
  split; [reflexivity|reflexivity|reflexivity|simpl; lia].
Defined.

(** A WEP frame with a wrong check value, with which the frame is delivered. *)
Definition ex_wep_rx : recv_frame := ex_rx _WEP40_ 4 (replicate 40 0) 40.

Lemma decryptor_wep_ignores_icv_witness :
  match decryptor false (ex_sec true) (zseq 5 16) ex_wep_rx (mk_glob crc32_globals0 []) with
  | Some (out, _, _) => out <> None
  | None => False
  end.
Proof.
  destruct (decryptor false (ex_sec true) (zseq 5 16) ex_wep_rx (mk_glob crc32_globals0 []))
    as [[[out g'] sec']|] eqn:E; [|vm_compute in E; discriminate].
  apply (decryptor_wep_ignores_icv false (ex_sec true) (zseq 5 16) ex_wep_rx
    (mk_glob crc32_globals0 []) out g' sec'); [left; reflexivity|exact E].
Defined.
