(* ===== verification/RxFrame.v ===== *)
(** * Receive frames: buffers, Ethernet conversion, A-MSDU and fragments

    The buffer operations of include/rtw_recv.h, the pool of free frames,
    [wlanhdr_to_ethhdr], [amsdu_to_msdu] and [recvframe_defrag] of core/rtw_recv.c, with
    [rtw_os_alloc_msdu_pkt] and [rtw_recv_indicatepkt] of os_dep/linux/recv_linux.c.

    A frame is the memory from [rx_head] to [rx_end] with [rx_data] and [rx_tail] as
    offsets.  [rx_env] keeps the packets handed to the network stack and those an access
    point gives back to its transmit path, in order. *)

From S2P Require Import Prelude.

(** ** Data *)

Definition ETH_ALEN : Z := 6.
Definition ETH_HLEN : Z := 14.
Definition ETHERNET_HEADER_SIZE : Z := 14.
Definition SNAP_SIZE : Z := 6.
Definition MAX_SUBFRAME_COUNT : Z := 64.
Definition ETH_P_AARP : Z := 0x80F3.
Definition ETH_P_IPX : Z := 0x8137.
Definition SNAP_ETH_TYPE_IPX : list Z := [0x81; 0x37].
Definition SNAP_ETH_TYPE_APPLETALK_AARP : list Z := [0x80; 0xf3].
Definition rtw_rfc1042_header : list Z := [0xaa; 0xaa; 0x03; 0x00; 0x00; 0x00].
Definition rtw_bridge_tunnel_header : list Z := [0xaa; 0xaa; 0x03; 0x00; 0x00; 0xf8].

(** [struct rx_pkt_attrib]: the fields of the receive path. *)
Record rx_pkt_attrib := mk_rxa {
  hdrlen : Z; iv_len : Z; icv_len : Z; encrypt : Z; privacy : bool; qos : Z;
  priority : Z; amsdu : Z; seq_num : Z; frag_num : Z; mfrag : Z; eth_type : Z;
  dst : list Z; src : list Z; ta : list Z; ra : list Z; key_index : Z; bdecrypted : bool
}.

(** [struct recv_frame_hdr]: [rf_id] is the frame's place in the pool, [rf_pkt] tells
    that the socket buffer [pkt] is not NULL, [rf_psta] is the station [psta] (its place in
    the table); [preorder_ctrl] points to the window of this station and [priority]. *)
Record rframe := mk_rf {
  rf_id : Z; rf_pkt : bool; rf_psta : nat; attrib : rx_pkt_attrib;
  rx_mem : list Z; rx_data : Z; rx_tail : Z; rx_len : Z
}.

Definition set_eth_type (t : Z) (a : rx_pkt_attrib) : rx_pkt_attrib :=
  mk_rxa (hdrlen a) (iv_len a) (icv_len a) (encrypt a) (privacy a) (qos a) (priority a)
    (amsdu a) (seq_num a) (frag_num a) (mfrag a) t (dst a) (src a) (ta a) (ra a)
    (key_index a) (bdecrypted a).
Definition set_icv_len (n : Z) (a : rx_pkt_attrib) : rx_pkt_attrib :=
  mk_rxa (hdrlen a) (iv_len a) n (encrypt a) (privacy a) (qos a) (priority a)
    (amsdu a) (seq_num a) (frag_num a) (mfrag a) (eth_type a) (dst a) (src a) (ta a) (ra a)
    (key_index a) (bdecrypted a).
Definition set_attrib (a : rx_pkt_attrib) (f : rframe) : rframe :=
  mk_rf (rf_id f) (rf_pkt f) (rf_psta f) a (rx_mem f) (rx_data f) (rx_tail f) (rx_len f).
Definition set_span (d t n : Z) (f : rframe) : rframe :=
  mk_rf (rf_id f) (rf_pkt f) (rf_psta f) (attrib f) (rx_mem f) d t n.
Definition set_mem (m : list Z) (f : rframe) : rframe :=
  mk_rf (rf_id f) (rf_pkt f) (rf_psta f) (attrib f) m (rx_data f) (rx_tail f) (rx_len f).

(** The bytes between [rx_data] and [rx_tail]. *)
Definition rx_bytes (f : rframe) : list Z :=
  take (Z.to_nat (rx_tail f - rx_data f)) (drop (Z.to_nat (rx_data f)) (rx_mem f)).

(** ** Buffer operations: the frame after the call and whether the result is a pointer *)

Definition recvframe_push (f : rframe) (sz : Z) : rframe * bool :=
  let d := rx_data f - sz in
  if d <? 0 then (f, false) else (set_span d (rx_tail f) (u32 (rx_len f + sz)) f, true).

Definition recvframe_pull (f : rframe) (sz : Z) : rframe * bool :=
  let d := rx_data f + sz in
  if rx_tail f <? d then (f, false) else (set_span d (rx_tail f) (u32 (rx_len f - sz)) f, true).

Definition recvframe_put (f : rframe) (sz : Z) : rframe * bool :=
  let t := rx_tail f + sz in
  if zlen (rx_mem f) <? t then (f, false) else (set_span (rx_data f) t (u32 (rx_len f + sz)) f, true).

Definition recvframe_pull_tail (f : rframe) (sz : Z) : rframe * bool :=
  let t := rx_tail f - sz in
  if t <? rx_data f then (f, false) else (set_span (rx_data f) t (u32 (rx_len f - sz)) f, true).

(** ** The pool of frames and the packets handed to the stack *)

Record rx_env := mk_env {
  free_recv_queue : list Z; free_recvframe_cnt : Z;
  indicated : list (list Z); forwarded : list (list Z)
}.

(** What [rtw_os_recv_indicate_pkt] reads: the states [WIFI_AP_STATE] and
    [WIFI_STATION_STATE|WIFI_ADHOC_STATE], the adapter's address, whether
    [rtw_get_bcmc_stainfo] and [rtw_get_stainfo] find a station (RecvPath fills these from
    its table), whether [rtw_skb_clone] of a packet succeeds, whether the interface is the
    port of a bridge, and what [nat25_handle_frame] of core/rtw_br_ext.c, which is not
    modelled, makes of a packet. *)
Record os_env := mk_os {
  os_ap : bool; os_station : bool; os_myid : list Z;
  os_bcmc : bool; os_stainfo : list Z -> bool; os_clone : list Z -> bool;
  os_br_port : bool; nat25_handle_frame : list Z -> list Z
}.

(** [_rtw_alloc_recvframe] on the free queue. *)
Definition rtw_alloc_recvframe (e : rx_env) : option Z * rx_env :=
  match free_recv_queue e with
  | [] => (None, e)
  | i :: q => (Some i, mk_env q (u32 (free_recvframe_cnt e - 1)) (indicated e) (forwarded e))
  end.

(** [rtw_list_delete] and [rtw_list_insert_tail] of a list entry: it ends up at the tail,
    also when it was in the list. *)
Definition relink (i : Z) (q : list Z) : list Z := filter (fun x => x <> i) q ++ [i].

(** [rtw_free_recvframe(f, &free_recv_queue)]. *)
Definition rtw_free_recvframe (f : rframe) (e : rx_env) : rx_env :=
  mk_env (relink (rf_id f) (free_recv_queue e)) (u32 (free_recvframe_cnt e + 1))
    (indicated e) (forwarded e).

Definition rtw_free_recvframe_queue (q : list rframe) (e : rx_env) : rx_env :=
  fold_left (fun e f => rtw_free_recvframe f e) q e.

(** [_rtw_xmit_entry] gets a packet; what it does with it is the transmit path's. *)
Definition xmit_entry (p : list Z) (e : rx_env) : rx_env :=
  mk_env (free_recv_queue e) (free_recvframe_cnt e) (indicated e) (forwarded e ++ [p]).
(** From the bridge code on: the packet reaches [rtw_netif_rx]. *)
Definition netif_rx (o : os_env) (p : list Z) (e : rx_env) : rx_env :=
  let p := if os_br_port o && os_station o then nat25_handle_frame o p else p in
  mk_env (free_recv_queue e) (free_recvframe_cnt e) (indicated e ++ [p]) (forwarded e).

(** [rtw_os_recv_indicate_pkt(padapter, pkt, pattrib)]; [d] is [pattrib->dst]. *)
Definition rtw_os_recv_indicate_pkt (o : os_env) (d : list Z) (p : list Z) (e : rx_env) : rx_env :=
  if os_ap o && negb (bool_decide (d = os_myid o)) then
    let bmcast := IS_MCAST d in
    let pskb2 := if bmcast then os_clone o p else false in
    let psta := if bmcast then os_bcmc o else os_stainfo o d in
    if psta then
      let e := xmit_entry p e in
      if bmcast && pskb2 then netif_rx o p e else e
    else netif_rx o p e
  else netif_rx o p e.

(** [rtw_recv_indicatepkt]: the socket buffer is given [rx_data] and [len]. *)
Definition rtw_recv_indicatepkt (o : os_env) (f : rframe) (e : rx_env) : option (rx_env * Z) :=
  if rf_pkt f then
    p ← rd (rx_mem f) (rx_data f) (rx_len f);
    Some (rtw_free_recvframe f (rtw_os_recv_indicate_pkt o (dst (attrib f)) p e), _SUCCESS)
  else Some (rtw_free_recvframe f e, _FAIL).

(** ** From the 802.11 header to the Ethernet header *)

Definition memcmp_at (m : list Z) (off : Z) (pat : list Z) : option bool :=
  b ← rd m off (zlen pat); Some (bool_decide (b = pat)).

(** The test for an RFC 1042 or bridge-tunnel encapsulation to remove. *)
Definition bsnaphdr (m : list Z) (psnap : Z) : option bool :=
  rfc ← memcmp_at m psnap rtw_rfc1042_header;
  rfc ← (if rfc : bool then
           ipx ← memcmp_at m (psnap + SNAP_SIZE) SNAP_ETH_TYPE_IPX;
           if ipx : bool then Some false
           else aarp ← memcmp_at m (psnap + SNAP_SIZE) SNAP_ETH_TYPE_APPLETALK_AARP;
                Some (negb aarp)
         else Some false);
  if rfc : bool then Some true else memcmp_at m psnap rtw_bridge_tunnel_header.

(** [mp] is [check_fwstate(pmlmepriv, WIFI_MP_STATE)]. *)
Definition wlanhdr_to_ethhdr (mp : bool) (f : rframe) : option (rframe * Z) :=
  let ptr := rx_data f in
  let a := attrib f in
  let f := if encrypt a =? 0 then f else fst (recvframe_pull_tail f (icv_len a)) in
  snap ← bsnaphdr (rx_mem f) (ptr + hdrlen a + iv_len a);
  let rmv_len := hdrlen a + iv_len a + (if snap : bool then SNAP_SIZE else 0) in
  let len := u16 (rx_len f - rmv_len) in
  t ← rd (rx_mem f) (ptr + rmv_len) 2;
  let f := set_attrib (set_eth_type (be_val t) a) f in
  '(f, ptr) ←
    (if mp then
       m ← wr (rx_mem f) (ptr + rmv_len) [0x87; 0x12];
       let '(f, ok) := recvframe_pull (set_mem m f) (rmv_len - 14 + 2 - 24) in
       if negb ok then Some (f, None)
       else
         s ← rd (rx_mem f) 0 24;
         m ← wr (rx_mem f) (rx_data f) s;
         Some (set_mem m f, Some (rx_data f + 24))
     else
       let '(f, ok) := recvframe_pull f (rmv_len - 14 + (if snap then 2 else 0)) in
       Some (f, if ok then Some (rx_data f) else None));
  match ptr with
  | None => Some (f, _FAIL)
  | Some ptr =>
      m ← wr (rx_mem f) ptr (dst a);
      m ← wr m (ptr + ETH_ALEN) (src a);
      m ← (if snap then Some m else wr m (ptr + 12) (be_bytes 2 len));
      Some (set_mem m f, _SUCCESS)
  end.

(** ** A-MSDU *)

(** [RTW_GET_BE16]. *)
Definition RTW_GET_BE16 (b : list Z) : Z := u16 ((ld0 b 0 .<< 8) .| ld0 b 1).

(** The packet of one subframe: [body] is [data[0 .. nSubframe_Length)].  The type is
    read from [data[6]], [data[7]] also when the subframe is shorter, but is used only
    when it is not. *)
Definition msdu_pkt (a : rx_pkt_attrib) (body : list Z) : list Z :=
  let eth_type := RTW_GET_BE16 (drop 6 body) in
  if (8 <=? zlen body)
     && ((bool_decide (take 6 body = rtw_rfc1042_header)
          && negb (eth_type =? ETH_P_AARP) && negb (eth_type =? ETH_P_IPX))
         || bool_decide (take 6 body = rtw_bridge_tunnel_header))
  then dst a ++ src a ++ drop 6 body
  else dst a ++ src a ++ be_bytes 2 (u16 (zlen body)) ++ body.

Section amsdu.
(** Whether [rtw_skb_alloc], or else [rtw_skb_clone], gives a packet for a subframe. *)
Context (skb_alloc_ok : Z -> bool).

Definition rtw_os_alloc_msdu_pkt (f : rframe) (nSubframe_Length pdata nr : Z)
    : option (option (list Z)) :=
  body ← rd (rx_mem f) (pdata + ETH_HLEN) nSubframe_Length;
  Some (if skb_alloc_ok nr then Some (msdu_pkt (attrib f) body) else None).

(** The loop [while (a_len > ETH_HLEN)]; [fuel] bounds the number of subframes. *)
Fixpoint amsdu_loop (fuel : nat) (f : rframe) (pdata a_len nr : Z) (subframes : list (list Z))
    : option (list (list Z)) :=
  match fuel with
  | O => None
  | S fuel =>
    if negb (ETH_HLEN <? a_len) then Some subframes else
    n ← rd (rx_mem f) (pdata + 12) 2;
    let n := RTW_GET_BE16 n in
    if a_len <? ETHERNET_HEADER_SIZE + n then Some subframes else
    sub ← rtw_os_alloc_msdu_pkt f n pdata nr;
    match sub with
    | None => Some subframes
    | Some sub_pkt =>
        let subframes := subframes ++ [sub_pkt] in
        if MAX_SUBFRAME_COUNT <=? nr + 1 then Some subframes else
        let pdata := pdata + ETH_HLEN + n in
        let a_len := a_len - ETH_HLEN - n in
        if a_len =? 0 then amsdu_loop fuel f pdata a_len (nr + 1) subframes else
        let padding := 4 - ((n + ETH_HLEN) .& (4 - 1)) in
        let padding_len := if padding =? 4 then 0 else padding in
        if a_len <? padding_len then Some subframes
        else amsdu_loop fuel f (pdata + padding_len) (a_len - padding_len) (nr + 1) subframes
    end
  end.

(** The frame's packets are indicated in order and the frame is freed. *)
Definition amsdu_to_msdu (o : os_env) (f : rframe) (e : rx_env) : option (rx_env * Z) :=
  let f := fst (recvframe_pull f (hdrlen (attrib f))) in
  let f := if 0 <? iv_len (attrib f) then fst (recvframe_pull f (iv_len (attrib f))) else f in
  subs ← amsdu_loop 65 f (rx_data f) (s32 (rx_len f)) 0 [];
  Some (rtw_free_recvframe f (fold_left (fun e p => rtw_os_recv_indicate_pkt o (dst (attrib f)) p e) subs e),
        _SUCCESS).
End amsdu.

(** ** Reassembly of fragments *)

(** The loop over the second and later fragments: [Some (inl _)] is the abandoned
    reassembly, [Some (inr f)] the first fragment with the payloads appended. *)
Fixpoint defrag_loop (curfragnum : Z) (f : rframe) (q : list rframe)
    : option (rframe + rframe) :=
  match q with
  | [] => Some (inr f)
  | n :: q =>
    if negb (curfragnum =? frag_num (attrib n)) then Some (inl f) else
    let wlanhdr_offset := u8 (hdrlen (attrib n) + iv_len (attrib n)) in
    let n := fst (recvframe_pull n wlanhdr_offset) in
    let f := fst (recvframe_pull_tail f (icv_len (attrib f))) in
    p ← rd (rx_mem n) (rx_data n) (rx_len n);
    m ← wr (rx_mem f) (rx_tail f) p;
    let f := fst (recvframe_put (set_mem m f) (rx_len n)) in
    defrag_loop (u8 (curfragnum + 1)) (set_attrib (set_icv_len (icv_len (attrib n)) (attrib f)) f) q
  end.

(** [recvframe_defrag(adapter, defrag_q)] on a queue that is not empty: the result is
    the reassembled frame or NULL; the queue is empty afterwards. *)
Definition recvframe_defrag (q : list rframe) (e : rx_env) : option (option rframe * rx_env) :=
  match q with
  | [] => None
  | f :: rest =>
    if negb (0 =? frag_num (attrib f)) then
      Some (None, rtw_free_recvframe_queue rest (rtw_free_recvframe f e))
    else
      r ← defrag_loop 1 f rest;
      match r with
      | inl _ => Some (None, rtw_free_recvframe_queue rest (rtw_free_recvframe f e))
      | inr f => Some (Some f, rtw_free_recvframe_queue rest e)
      end
  end.

(** The free queue after freeing frames one after the other. *)
Definition relinks (l q : list Z) : list Z := fold_left (fun q i => relink i q) l q.

Lemma relinks_app l l' q : relinks (l ++ l') q = relinks l' (relinks l q).
Proof. apply fold_left_app. Qed.

Lemma relink_fresh i q : i ∉ q -> relink i q = q ++ [i].
Proof.
  intros H. unfold relink. f_equal. induction q as [|x q IH]; [done|].
  apply not_elem_of_cons in H as [Hx Hq]. rewrite filter_cons_True by done. f_equal. by apply IH.
Qed.

(** ** Well-formed frames *)

Record rx_ok (f : rframe) : Prop := {
  rx_ok_data : 0 <= rx_data f <= rx_tail f;
  rx_ok_tail : rx_tail f <= zlen (rx_mem f) < 2 ^ 31;
  rx_ok_len : rx_len f = rx_tail f - rx_data f
}.

(** The frame whose bytes are [b], between [pre] and [post]. *)
Record rx_repr (f : rframe) (pre b post : list Z) : Prop := {
  repr_mem : rx_mem f = pre ++ b ++ post;
  repr_data : rx_data f = zlen pre;
  repr_tail : rx_tail f = zlen pre + zlen b;
  repr_len : rx_len f = zlen b;
  repr_small : zlen (pre ++ b ++ post) < 2 ^ 31
}.

Lemma rx_repr_ok f pre b post : rx_repr f pre b post -> rx_ok f.
Proof.
  intros [Hm Hd Ht Hl Hs]. pose proof (zlen_nonneg pre). pose proof (zlen_nonneg b).
  pose proof (zlen_nonneg post). rewrite !zlen_app in Hs.
  constructor; rewrite ?Hm, ?Hd, ?Ht, ?Hl, ?zlen_app; lia.
Qed.

Lemma rx_ok_repr f : rx_ok f -> exists pre post, rx_repr f pre (rx_bytes f) post.
Proof.
  intros [Hd Ht Hl].
  destruct (split_at (rx_mem f) (rx_data f)) as (pre & r & Hr & Hpre & Hrl); [lia|].
  destruct (split_at r (rx_tail f - rx_data f)) as (b & post & -> & Hb & Hpl); [lia|].
  exists pre, post.
  assert (rx_bytes f = b) as ->.
  { unfold rx_bytes. rewrite <- Hb, Hr, <- Hpre, !zlen_to_nat, drop_app_length.
    apply take_app_length. }
  constructor; rewrite ?Hpre, ?Hb, ?Hl; rewrite <- ?Hr; lia || done.
Qed.

Lemma rx_bytes_repr f pre b post : rx_repr f pre b post -> rx_bytes f = b.
Proof.
  intros [Hm Hd Ht _ _]. unfold rx_bytes. rewrite Hm, Ht, Hd, zlen_to_nat, drop_app_length.
  replace (zlen pre + zlen b - zlen pre) with (zlen b) by lia.
  by rewrite zlen_to_nat, take_app_length.
Qed.

(** Lengths of the parts of a represented frame, for [lia]. *)
Ltac repr_lens :=
  repeat match goal with
  | H : rx_repr _ _ _ _ |- _ => destruct H
  | H : context [zlen (_ ++ _)] |- _ => rewrite zlen_app in H
  | |- context [zlen (_ ++ _)] => rewrite zlen_app
  end;
  repeat match goal with
  | |- context [zlen ?l] => lazymatch goal with
      | _ : 0 <= zlen l |- _ => fail
      | _ => pose proof (zlen_nonneg l) end
  | _ : context [zlen ?l] |- _ => lazymatch goal with
      | _ : 0 <= zlen l |- _ => fail
      | _ => pose proof (zlen_nonneg l) end
  end.

Lemma pull_repr f pre a b post n : rx_repr f pre (a ++ b) post -> n = zlen a ->
  exists f', recvframe_pull f n = (f', true) /\ rx_repr f' (pre ++ a) b post /\
    attrib f' = attrib f /\ rf_id f' = rf_id f.
Proof.
  intros Hf ->. unfold recvframe_pull.
  rewrite (proj2 (Z.ltb_ge _ _)) by (repr_lens; lia).
  eexists. split; [done|]. split; [|done]. destruct Hf as [Hm Hd Ht Hl Hs].
  constructor; cbn [set_span rx_mem rx_data rx_tail rx_len];
    rewrite ?Hm, ?Hd, ?Ht, ?Hl, <- ?app_assoc; repr_lens; try done; try lia.
  rewrite u32_id; lia.
Qed.

Lemma push_repr f pre a b post n : rx_repr f (pre ++ a) b post -> n = zlen a ->
  exists f', recvframe_push f n = (f', true) /\ rx_repr f' pre (a ++ b) post /\
    attrib f' = attrib f /\ rf_id f' = rf_id f.
Proof.
  intros Hf ->. unfold recvframe_push.
  rewrite (proj2 (Z.ltb_ge _ _)) by (repr_lens; lia).
  eexists. split; [done|]. split; [|done]. destruct Hf as [Hm Hd Ht Hl Hs].
  rewrite <- app_assoc in Hm, Hs.
  constructor; cbn [set_span rx_mem rx_data rx_tail rx_len];
    rewrite ?Hm, ?Hd, ?Ht, ?Hl, <- ?app_assoc; repr_lens; try done; try lia.
  rewrite u32_id; lia.
Qed.

Lemma pull_tail_repr f pre b c post n : rx_repr f pre (b ++ c) post -> n = zlen c ->
  exists f', recvframe_pull_tail f n = (f', true) /\ rx_repr f' pre b (c ++ post) /\
    attrib f' = attrib f /\ rf_id f' = rf_id f.
Proof.
  intros Hf ->. unfold recvframe_pull_tail.
  rewrite (proj2 (Z.ltb_ge _ _)) by (repr_lens; lia).
  eexists. split; [done|]. split; [|done]. destruct Hf as [Hm Hd Ht Hl Hs].
  rewrite <- app_assoc in Hm, Hs.
  constructor; cbn [set_span rx_mem rx_data rx_tail rx_len];
    rewrite ?Hm, ?Hd, ?Ht, ?Hl; repr_lens; try done; try lia.
  rewrite u32_id; lia.
Qed.

Lemma put_repr f pre b c post n : rx_repr f pre b (c ++ post) -> n = zlen c ->
  exists f', recvframe_put f n = (f', true) /\ rx_repr f' pre (b ++ c) post /\
    attrib f' = attrib f /\ rf_id f' = rf_id f.
Proof.
  intros Hf ->. unfold recvframe_put.
  rewrite (proj2 (Z.ltb_ge _ _)) by (destruct Hf as [Hm Hd Ht Hl Hs]; rewrite Hm; repr_lens; lia).
  eexists. split; [done|]. split; [|done]. destruct Hf as [Hm Hd Ht Hl Hs].
  constructor; cbn [set_span rx_mem rx_data rx_tail rx_len];
    rewrite ?Hm, ?Hd, ?Ht, ?Hl, <- ?app_assoc; repr_lens; try done; try lia.
  rewrite u32_id; lia.
Qed.

Lemma set_attrib_repr a f pre b post : rx_repr f pre b post -> rx_repr (set_attrib a f) pre b post.
Proof. intros []. by constructor. Qed.

Lemma pull_ok f n : 0 <= n -> rx_ok f -> rx_ok (fst (recvframe_pull f n)).
Proof.
  intros Hn [Hd Ht Hl]. unfold recvframe_pull. destruct (_ <? _) eqn:E; bool_to_prop; [done|].
  constructor; cbn [fst set_span rx_mem rx_data rx_tail rx_len]; rewrite ?u32_id; lia.
Qed.

(** The four buffer operations keep a receive frame well formed: for every size that
    is not negative, the data pointer stays between the head and the tail, the tail stays
    below the end, and [len] stays their difference, whether the operation succeeds or
    returns NULL; when it returns NULL the frame is unchanged. *)
Theorem recvframe_ops_ok (op : rframe -> Z -> rframe * bool) f sz :
  In op [recvframe_push; recvframe_pull; recvframe_put; recvframe_pull_tail] ->
  0 <= sz -> rx_ok f ->
  rx_ok (fst (op f sz)) /\ (snd (op f sz) = false -> fst (op f sz) = f).
Proof.
  intros Hop Hsz [Hd Ht Hl].
  repeat destruct Hop as [<-|Hop]; try done;
    unfold recvframe_push, recvframe_pull, recvframe_put, recvframe_pull_tail;
    destruct (_ <? _) eqn:E; bool_to_prop; (split; [|done]); cbn [fst];
    constructor; cbn [set_span rx_mem rx_data rx_tail rx_len]; rewrite ?u32_id; lia.
Qed.

(** ** The Ethernet frame of an 802.11 frame *)

(** Reading inside the represented bytes. *)
Lemma rd_repr f pre x y z post off n : rx_repr f pre (x ++ y ++ z) post ->
  off = rx_data f + zlen x -> n = zlen y -> rd (rx_mem f) off n = Some y.
Proof.
  intros [Hm Hd _ _ _] -> ->. rewrite Hm, Hd.
  replace (pre ++ (x ++ y ++ z) ++ post) with ((pre ++ x) ++ y ++ (z ++ post))
    by (by rewrite <- !app_assoc).
  apply rd_mid; [|done]. by rewrite zlen_app.
Qed.

Lemma wr_repr f pre x y z post off d : rx_repr f pre (x ++ y ++ z) post ->
  off = rx_data f + zlen x -> zlen d = zlen y ->
  exists m, wr (rx_mem f) off d = Some m /\ rx_repr (set_mem m f) pre (x ++ d ++ z) post.
Proof.
  intros Hf -> Hn. pose proof Hf as [Hm Hd Ht Hl Hs]. rewrite Hm, Hd.
  exists ((pre ++ x) ++ d ++ (z ++ post)). split.
  - replace (pre ++ (x ++ y ++ z) ++ post) with ((pre ++ x) ++ y ++ (z ++ post))
      by (by rewrite <- !app_assoc).
    apply wr_mid; [by rewrite zlen_app|unfold zlen in Hn; lia].
  - constructor; cbn [set_mem rx_mem rx_data rx_tail rx_len]; rewrite ?Hd, ?Ht, ?Hl;
      rewrite <- ?app_assoc; try done; repr_lens; lia.
Qed.

Lemma list_len2 (l : list Z) : zlen l = 2 -> exists a b, l = [a; b].
Proof.
  unfold zlen. intros H. destruct l as [|a [|b [|? ?]]]; simpl in H; try lia. by exists a, b.
Qed.

Lemma BE16_eq a b x y : is_u8 a -> is_u8 b -> is_u8 x -> is_u8 y ->
  (RTW_GET_BE16 (a :: b :: []) =? x * 256 + y) = bool_decide ([a; b] = [x; y]).
Proof.
  intros Ha Hb Hx Hy. unfold RTW_GET_BE16. ld0_eval.
  rewrite Z.lor_comm, lor_shiftl_add, u16_id by lia.
  destruct (Z.eqb_spec (b + a * 2 ^ 8) (x * 256 + y)) as [E|E]; symmetry.
  - apply bool_decide_eq_true. f_equal; [lia|f_equal; lia].
  - apply bool_decide_eq_false. intros [= -> ->]. lia.
Qed.

(** Whether [msdu_pkt] removes the encapsulation. *)
Definition is_snap (body : list Z) : bool :=
  (bool_decide (take 6 body = rtw_rfc1042_header)
   && negb (RTW_GET_BE16 (drop 6 body) =? ETH_P_AARP)
   && negb (RTW_GET_BE16 (drop 6 body) =? ETH_P_IPX))
  || bool_decide (take 6 body = rtw_bridge_tunnel_header).

Lemma bsnaphdr_spec m off p t0 t1 rest : zlen p = 6 -> is_u8 t0 -> is_u8 t1 ->
  rd m off 6 = Some p -> rd m (off + 6) 2 = Some [t0; t1] ->
  bsnaphdr m off = Some (is_snap (p ++ t0 :: t1 :: rest)).
Proof.
  intros Hp H0 H1 R1 R2. unfold bsnaphdr, is_snap, memcmp_at.
  change (zlen rtw_rfc1042_header) with 6. change (zlen rtw_bridge_tunnel_header) with 6.
  change (zlen SNAP_ETH_TYPE_IPX) with 2. change (zlen SNAP_ETH_TYPE_APPLETALK_AARP) with 2.
  unfold SNAP_SIZE. rewrite R1, R2. cbn [mbind option_bind].
  assert (length p = 6%nat) as Hp' by (unfold zlen in Hp; lia).
  rewrite take_app_le, take_ge, drop_app_ge, Hp' by lia. cbn [Nat.sub drop].
  change (RTW_GET_BE16 (t0 :: t1 :: rest)) with (RTW_GET_BE16 [t0; t1]). change ETH_P_AARP with (0x80 * 256 + 0xf3).
  change ETH_P_IPX with (0x81 * 256 + 0x37). rewrite !BE16_eq by lia.
  change SNAP_ETH_TYPE_IPX with [0x81; 0x37]. change SNAP_ETH_TYPE_APPLETALK_AARP with [0x80; 0xf3].
  destruct (bool_decide (p = rtw_rfc1042_header)) eqn:E.
  - apply bool_decide_eq_true in E. subst p. cbn [mbind option_bind].
    destruct (bool_decide ([t0; t1] = [0x81; 0x37])); cbn [mbind option_bind negb andb].
    + by rewrite andb_false_r.
    + rewrite andb_true_r. by destruct (bool_decide ([t0; t1] = [0x80; 0xf3])).
  - done.
Qed.

Lemma msdu_pkt_snap a body : 8 <= zlen body -> is_snap body = true ->
  msdu_pkt a body = dst a ++ src a ++ drop 6 body.
Proof. intros H E. unfold msdu_pkt. fold (is_snap body). by rewrite E, (proj2 (Z.leb_le _ _)). Qed.
Lemma msdu_pkt_raw a body : is_snap body = false ->
  msdu_pkt a body = dst a ++ src a ++ be_bytes 2 (u16 (zlen body)) ++ body.
Proof. intros E. unfold msdu_pkt. fold (is_snap body). by rewrite E, andb_false_r. Qed.

(** The last two steps of [wlanhdr_to_ethhdr]: two addresses at the start of the bytes. *)
Lemma ethhdr_addrs f pre y1 y2 r post d1 d2 : rx_repr f pre (y1 ++ y2 ++ r) post ->
  zlen y1 = 6 -> zlen d1 = 6 -> zlen y2 = 6 -> zlen d2 = 6 ->
  exists m m', wr (rx_mem f) (rx_data f) d1 = Some m /\ wr m (rx_data f + ETH_ALEN) d2 = Some m' /\
    rx_repr (set_mem m' f) pre (d1 ++ d2 ++ r) post.
Proof.
  intros Hf H1 H2 H3 H4. unfold ETH_ALEN.
  destruct (wr_repr f pre [] y1 (y2 ++ r) post (rx_data f) d1) as (m & Hm & R1);
    [done|change (zlen []) with 0; lia|lia|].
  destruct (wr_repr (set_mem m f) pre d1 y2 r post (rx_data f + 6) d2) as (m' & Hm' & R2);
    [done|cbn [set_mem rx_data]; lia|lia|].
  by exists m, m'.
Qed.

(** Header bytes are removed and the last twelve become the two addresses. *)
Lemma ethhdr_strip f pre x y r z post n d1 d2 : rx_repr f pre z post ->
  z = x ++ y ++ r -> n = zlen x -> zlen y = 12 -> zlen d1 = 6 -> zlen d2 = 6 ->
  exists f2 m m', recvframe_pull f n = (f2, true) /\
    wr (rx_mem f2) (rx_data f2) d1 = Some m /\ wr m (rx_data f2 + ETH_ALEN) d2 = Some m' /\
    rx_repr (set_mem m' f2) (pre ++ x) (d1 ++ d2 ++ r) post.
Proof.
  intros Hf -> -> Hy Hd1 Hd2.
  destruct (pull_repr _ _ _ _ _ (zlen x) Hf eq_refl) as (f2 & -> & R2 & _).
  destruct (split_at y 6) as (y1 & y2 & -> & Hy1 & Hy2); [lia|]. rewrite <- app_assoc in R2.
  destruct (ethhdr_addrs f2 _ _ _ _ _ d1 d2 R2) as (m & m' & Hm & Hm' & R3); try lia.
  by exists f2, m, m'.
Qed.

(** The integrity check value of an encrypted frame is removed from the tail. *)
Lemma strip_icv f pre b t post : rx_repr f pre (b ++ t) post ->
  zlen t = (if encrypt (attrib f) =? 0 then 0 else icv_len (attrib f)) ->
  exists f1 post1,
    (if encrypt (attrib f) =? 0 then f else fst (recvframe_pull_tail f (icv_len (attrib f)))) = f1 /\
    rx_repr f1 pre b post1 /\ attrib f1 = attrib f /\ rx_data f1 = rx_data f.
Proof.
  intros Hf Ht. pose proof Hf as Hf'. destruct (encrypt (attrib f) =? 0).
  - assert (t = []) as -> by (apply nil_length_inv; unfold zlen in Ht; lia).
    rewrite app_nil_r in Hf. by exists f, post.
  - destruct (pull_tail_repr _ _ _ _ _ (icv_len (attrib f)) Hf) as (f1 & E & R & Ea & _); [lia|].
    exists f1, (t ++ post). rewrite E. repeat split; try done; destruct R, Hf'; congruence.
Qed.

Lemma split8 (b : list Z) : 8 <= zlen b -> exists p t0 t1 rest, b = p ++ t0 :: t1 :: rest /\ zlen p = 6.
Proof.
  intros H. destruct (split_at b 6) as (p & q & -> & Hp & Hq); [lia|].
  destruct q as [|t0 [|t1 rest]]; rewrite ?zlen_cons, ?zlen_nil in Hq; try lia.
  by exists p, t0, t1, rest.
Qed.

Lemma wlanhdr_to_ethhdr_run f pre h body t post :
  let a := attrib f in
  rx_repr f pre (h ++ body ++ t) post ->
  zlen h = hdrlen a + iv_len a -> 14 <= zlen h -> 8 <= zlen body -> bytes_ok body ->
  zlen t = (if encrypt a =? 0 then 0 else icv_len a) ->
  zlen (dst a) = 6 -> zlen (src a) = 6 ->
  exists f', wlanhdr_to_ethhdr false f = Some (f', _SUCCESS) /\ rx_ok f' /\
    rx_bytes f' = msdu_pkt a body.
Proof.
  intros a Hf Hh Hh14 Hb Hbok Ht Hd Hs. unfold wlanhdr_to_ethhdr. rewrite app_assoc in Hf.
  destruct (strip_icv _ _ _ _ _ Hf Ht) as (f1 & post1 & -> & R1 & Ha1 & Hdata). fold a.
  destruct (split8 body Hb) as (p & t0 & t1 & rest & -> & Hp).
  pose proof Hbok as [_ Hbok']%bytes_ok_app. inversion Hbok' as [|? ? H0 Hb1]; subst.
  inversion Hb1 as [|? ? H1 _]; subst.
  rewrite (bsnaphdr_spec _ _ p t0 t1 rest); [|done..| |].
  2: { apply (rd_repr f1 pre h p (t0 :: t1 :: rest) post1); [done|lia|lia]. }
  2: { apply (rd_repr f1 pre (h ++ p) [t0; t1] rest post1); rewrite ?zlen_app; [|lia|done].
       by rewrite <- !app_assoc. }
  cbn [mbind option_bind].
  destruct (is_snap (p ++ t0 :: t1 :: rest)) eqn:Es; cbv zeta.
  - rewrite msdu_pkt_snap by done. unfold SNAP_SIZE.
    rewrite (rd_repr f1 pre (h ++ p) [t0; t1] rest post1); rewrite ?zlen_app; [|by rewrite <- !app_assoc|lia|done].
    cbn [mbind option_bind].
    destruct (split_at (h ++ p) (zlen h - 6)) as (x & y & Hxy & Hx & Hy); [rewrite zlen_app; lia|].
    rewrite zlen_app in Hy. eapply set_attrib_repr in R1.
    edestruct (ethhdr_strip _ _ x y (t0 :: t1 :: rest) _ _ (hdrlen a + iv_len a + 6 - 14 + 2) (dst a) (src a) R1)
      as (f2 & m & m' & -> & Hm & Hm' & R3); try lia; [by rewrite !app_assoc, Hxy|].
    cbn [mbind option_bind]. rewrite Hm. cbn [mbind option_bind]. rewrite Hm'. cbn [mbind option_bind].
    eexists. split; [done|]. split; [by eapply rx_repr_ok|].
    by rewrite (rx_bytes_repr _ _ _ _ R3), drop_app_length' by (unfold zlen in Hp; lia).
  - rewrite msdu_pkt_raw by done. rewrite Z.add_0_r.
    set (body := p ++ t0 :: t1 :: rest) in *.
    destruct (split_at body 2) as (q & r & Eq & Hq & Hr); [lia|].
    rewrite (rd_repr f1 pre h q r post1); [|by rewrite <- Eq|lia|done]. cbn [mbind option_bind].
    destruct (split_at h (zlen h - 14)) as (x & yz & -> & Hx & Hyz); [lia|].
    destruct (split_at yz 12) as (y & z & -> & Hy & Hz); [lia|].
    pose proof (repr_len _ _ _ _ R1) as Hlen. eapply set_attrib_repr in R1.
    edestruct (ethhdr_strip _ _ x y (z ++ body) _ _ (hdrlen a + iv_len a - 14 + 0) (dst a) (src a) R1)
      as (f2 & m & m' & -> & Hm & Hm' & R3); try lia; [by rewrite <- !app_assoc|].
    cbn [mbind option_bind]. rewrite Hm. cbn [mbind option_bind]. rewrite Hm'. cbn [mbind option_bind].
    rewrite app_assoc in R3.
    edestruct (wr_repr _ _ (dst a ++ src a) z body post1 (rx_data f2 + 12)
      (be_bytes 2 (u16 (rx_len f1 - (hdrlen a + iv_len a)))) R3) as (m2 & Hm2 & R4).
    { cbn [set_mem rx_data]. rewrite zlen_app. lia. }
    { unfold zlen. rewrite be_bytes_length. unfold zlen in *. lia. }
    cbn [set_mem rx_mem] in Hm2. rewrite Hm2. cbn [mbind option_bind].
    eexists. split; [done|]. split; [by eapply rx_repr_ok|].
    etransitivity; [exact (rx_bytes_repr _ _ _ _ R4)|]. rewrite <- app_assoc. do 5 f_equal.
    rewrite Hlen, !zlen_app. lia.
Qed.

(** The conversion of a data frame to an Ethernet frame.  For a frame of an 802.11
    header and IV, a body of at least 8 bytes, and the integrity check value when it is
    encrypted, [wlanhdr_to_ethhdr] succeeds with no access out of bounds, and the frame is
    the destination, the source and the body with an RFC 1042 or bridge-tunnel header
    removed, or preceded by its length when there is none: the packet that
    [rtw_os_alloc_msdu_pkt] builds of an A-MSDU subframe with that body. *)
Theorem wlanhdr_to_ethhdr_is_msdu f pre h body t post :
  let a := attrib f in
  rx_repr f pre (h ++ body ++ t) post ->
  zlen h = hdrlen a + iv_len a -> 14 <= zlen h -> 8 <= zlen body -> bytes_ok body ->
  zlen t = (if encrypt a =? 0 then 0 else icv_len a) ->
  zlen (dst a) = 6 -> zlen (src a) = 6 ->
  exists f', wlanhdr_to_ethhdr false f = Some (f', _SUCCESS) /\ rx_ok f' /\
    rx_bytes f' = msdu_pkt a body.
Proof. apply wlanhdr_to_ethhdr_run. Qed.

(** ** What [wlanhdr_to_ethhdr] keeps, for every frame *)

Lemma pull_inv g n g' : rx_ok g -> recvframe_pull g n = (g', true) ->
  attrib g' = attrib g /\ rf_id g' = rf_id g /\ (0 <= rx_data g' -> rx_ok g').
Proof.
  intros [Hd Ht Hl] E. unfold recvframe_pull in E. destruct (_ <? _) eqn:El; [done|].
  bool_to_prop. injection E as <-. split; [done|]. split; [done|]. cbn [set_span rx_data]. intros H0.
  constructor; cbn [set_span rx_data rx_tail rx_len rx_mem]; rewrite ?u32_id; lia.
Qed.

Lemma pull_tail_ok f n : 0 <= n -> rx_ok f -> rx_ok (fst (recvframe_pull_tail f n)).
Proof.
  intros Hn [Hd Ht Hl]. unfold recvframe_pull_tail. destruct (_ <? _) eqn:E; bool_to_prop; [done|].
  constructor; cbn [fst set_span rx_mem rx_data rx_tail rx_len]; rewrite ?u32_id; lia.
Qed.

Lemma set_mem_ok m f : zlen m = zlen (rx_mem f) -> rx_ok f -> rx_ok (set_mem m f).
Proof. intros Hm [Hd Ht Hl]. constructor; cbn [set_mem rx_data rx_tail rx_len rx_mem]; lia. Qed.

Lemma wr_pos m off bs m' : wr m off bs = Some m' -> 0 <= off.
Proof. unfold wr. destruct (_ && _) eqn:E'; [|done]. bool_to_prop. lia. Qed.

Lemma wlanhdr_to_ethhdr_ready f f' : rx_ok f -> 0 <= icv_len (attrib f) ->
  wlanhdr_to_ethhdr false f = Some (f', _SUCCESS) ->
  rx_ok f' /\ rf_id f' = rf_id f /\
  exists t, attrib f' = set_eth_type t (attrib f).
Proof.
  intros Hf Hicv E. unfold wlanhdr_to_ethhdr in E.
  set (f1 := if encrypt (attrib f) =? 0 then f else _) in E.
  assert (rx_ok f1 /\ rf_id f1 = rf_id f) as [H1 Hid].
  { subst f1. destruct (encrypt (attrib f) =? 0); [done|].
    split; [by apply pull_tail_ok|]. unfold recvframe_pull_tail. by case_match. }
  clearbody f1. apply bind_Some in E as (snap & _ & E). cbv zeta in E.
  apply bind_Some in E as (t & _ & E).
  set (f2 := set_attrib _ f1) in E. assert (rx_ok f2) as H2 by (by destruct H1).
  destruct (recvframe_pull f2 _) as [f3 okp] eqn:Ep. cbn [mbind option_bind] in E.
  destruct okp; [|done].
  apply bind_Some in E as (m1 & Hm1 & E). apply bind_Some in E as (m2 & Hm2 & E).
  apply bind_Some in E as (m3 & Hm3 & E). injection E as <-.
  destruct (pull_inv _ _ _ H2 Ep) as (Ha & Hi & H3). specialize (H3 (wr_pos _ _ _ _ Hm1)).
  assert (zlen m3 = zlen (rx_mem f3)) as Hlen.
  { apply wr_length in Hm1, Hm2. destruct snap; [injection Hm3 as <-|apply wr_length in Hm3]; lia. }
  split; [by apply set_mem_ok|]. cbn [set_mem rf_id attrib]. rewrite Ha, Hi. split; [done|by eexists].
Qed.

(** ** A-MSDU: every frame is parsed in bounds, and a well-formed one gives its subframes *)

(** Who a packet with the destination [d] is for, as an access point sees it; in the other
    modes everything is for the host itself. *)
Inductive receiver := ForHost | ForStation | ForGroup | ForNobody.
Definition receiver_of (o : os_env) (d : list Z) : receiver :=
  if negb (os_ap o) || bool_decide (d = os_myid o) then ForHost
  else if IS_MCAST d then (if os_bcmc o then ForGroup else ForNobody)
  else if os_stainfo o d then ForStation else ForNobody.

(** The packet as the stack sees it, behind the bridge code. *)
Definition bridged (o : os_env) (p : list Z) : list Z :=
  if os_br_port o && os_station o then nat25_handle_frame o p else p.

(** What of a packet reaches the stack, and what goes back to the air: a packet for an
    associated station only the air, a packet for the group both (the stack only when the
    clone succeeds), every other packet only the stack. *)
Definition to_stack (o : os_env) (d : list Z) (p : list Z) : list (list Z) :=
  match receiver_of o d with
  | ForHost | ForNobody => [bridged o p]
  | ForStation => []
  | ForGroup => if os_clone o p then [bridged o p] else []
  end.
Definition to_air (o : os_env) (d : list Z) (p : list Z) : list (list Z) :=
  match receiver_of o d with ForHost | ForNobody => [] | ForStation | ForGroup => [p] end.

(** The frame's buffer is free again and its packets have gone where they belong. *)
Definition handed (o : os_env) (f : rframe) (d : list Z) (pkts : list (list Z)) (e : rx_env) : rx_env :=
  mk_env (relink (rf_id f) (free_recv_queue e)) (u32 (free_recvframe_cnt e + 1))
    (indicated e ++ concat (map (to_stack o d) pkts)) (forwarded e ++ concat (map (to_air o d) pkts)).

Lemma indicate_pkt_shares o d p e : rtw_os_recv_indicate_pkt o d p e =
  mk_env (free_recv_queue e) (free_recvframe_cnt e) (indicated e ++ to_stack o d p) (forwarded e ++ to_air o d p).
Proof.
  unfold rtw_os_recv_indicate_pkt, to_stack, to_air, receiver_of, netif_rx, xmit_entry, bridged.
  destruct (os_ap o), (bool_decide (d = os_myid o)), (IS_MCAST d); cbn [andb orb negb]; rewrite ?app_nil_r; try done.
  - destruct (os_bcmc o), (os_clone o p); by rewrite ?app_nil_r.
  - destruct (os_stainfo o d); by rewrite ?app_nil_r.
Qed.

Lemma fold_indicate o d subs e :
  fold_left (fun e p => rtw_os_recv_indicate_pkt o d p e) subs e =
    mk_env (free_recv_queue e) (free_recvframe_cnt e)
      (indicated e ++ concat (map (to_stack o d) subs)) (forwarded e ++ concat (map (to_air o d) subs)).
Proof.
  revert e. induction subs as [|p subs IH]; intros e; cbn [fold_left map concat].
  - destruct e. by rewrite !app_nil_r.
  - rewrite IH, indicate_pkt_shares. cbn [free_recv_queue free_recvframe_cnt indicated forwarded].
    by rewrite <- !app_assoc.
Qed.

Lemma RTW_GET_BE16_range l : is_u16 (RTW_GET_BE16 l).
Proof. apply u16_range. Qed.

Lemma amsdu_loop_total ok f fuel pdata a_len nr subs :
  0 <= pdata -> pdata + a_len <= zlen (rx_mem f) -> 0 <= nr <= 63 -> zlen subs = nr ->
  (65 <= Z.of_nat fuel + nr)%Z ->
  exists subs', amsdu_loop ok fuel f pdata a_len nr subs = Some subs' /\ (length subs' <= 64)%nat.
Proof.
  revert pdata a_len nr subs. induction fuel as [|fuel IH]; intros pdata a_len nr subs Hp Ha Hnr Hs Hf; [lia|].
  assert (Hlen : (length subs <= 64)%nat) by (unfold zlen in Hs; lia).
  cbn [amsdu_loop]. unfold ETH_HLEN, ETHERNET_HEADER_SIZE, MAX_SUBFRAME_COUNT, rtw_os_alloc_msdu_pkt, ETH_HLEN.
  destruct (14 <? a_len) eqn:E1; bool_to_prop; cbn [negb]; [|by exists subs].
  rewrite rd_Some by lia. cbn [mbind option_bind].
  set (n := RTW_GET_BE16 _). assert (is_u16 n) as Hn by apply RTW_GET_BE16_range. clearbody n.
  destruct (a_len <? 14 + n) eqn:E2; bool_to_prop; [by exists subs|].
  rewrite rd_Some by lia. cbn [mbind option_bind].
  destruct (ok nr); [|by exists subs].
  assert (Hs' : zlen (subs ++ [msdu_pkt (attrib f) (take (Z.to_nat n) (drop (Z.to_nat (pdata + 14)) (rx_mem f)))])
    = nr + 1) by (rewrite zlen_app, Hs; done).
  revert Hs'. generalize (subs ++ [msdu_pkt (attrib f) (take (Z.to_nat n) (drop (Z.to_nat (pdata + 14)) (rx_mem f)))]).
  intros subs' Hs'.
  assert (Hlen' : (length subs' <= 64)%nat) by (unfold zlen in Hs'; lia).
  destruct (64 <=? nr + 1) eqn:E3; bool_to_prop; [by exists subs'|].
  destruct (a_len - 14 - n =? 0) eqn:E4; bool_to_prop; [apply IH; lia|].
  set (pad := if _ =? 4 then 0 else _).
  destruct (_ <? pad) eqn:E5; bool_to_prop; [by exists subs'|].
  assert (0 <= pad); [|apply IH; lia].
  pose proof (land_range_r 2 (n + 14) (4 - 1)). subst pad. destruct (_ =? 4); lia.
Qed.

Lemma amsdu_result ok o f e e' r : amsdu_to_msdu ok o f e = Some (e', r) -> r = _SUCCESS.
Proof.
  unfold amsdu_to_msdu. set (f1 := fst (recvframe_pull f _)). set (f2 := if 0 <? _ then _ else f1).
  clearbody f2. by intros (subs & _ & [= _ <-])%bind_Some.
Qed.

Lemma amsdu_to_msdu_run ok o f e :
  rx_ok f -> 0 <= hdrlen (attrib f) ->
  exists pkts, amsdu_to_msdu ok o f e = Some (handed o f (dst (attrib f)) pkts e, _SUCCESS) /\
    (length pkts <= 64)%nat.
Proof.
  intros Hf Hh. unfold amsdu_to_msdu.
  assert (exists f1, (let g := fst (recvframe_pull f (hdrlen (attrib f))) in
    if 0 <? iv_len (attrib g) then fst (recvframe_pull g (iv_len (attrib g))) else g) = f1 /\
    rx_ok f1 /\ rf_id f1 = rf_id f /\ attrib f1 = attrib f) as (f1 & E & H1 & Hid & Hat).
  { eexists. split; [done|]. cbv zeta. pose proof (pull_ok f _ Hh Hf) as Hg. split.
    - destruct (0 <? _) eqn:E; bool_to_prop; [apply pull_ok; [lia|done]|done].
    - unfold recvframe_pull. by repeat case_match. }
  cbv zeta in E |- *. rewrite E. pose proof H1 as [Hd Ht Hl].
  destruct (amsdu_loop_total ok f1 65 (rx_data f1) (s32 (rx_len f1)) 0 []) as (subs & -> & Hsubs);
    try done; try lia.
  { rewrite s32_id by lia. lia. }
  exists subs. cbn [mbind option_bind]. rewrite fold_indicate. unfold rtw_free_recvframe.
  by rewrite Hid, Hat.
Qed.

(** A-MSDU parsing is total.  For every well-formed receive frame, whatever its bytes
    and whichever packet allocations fail, [amsdu_to_msdu] terminates without reading out
    of bounds, returns [_SUCCESS], hands over at most 64 packets and gives exactly
    this frame back to the pool. *)
Theorem amsdu_to_msdu_total ok o f e :
  rx_ok f -> 0 <= hdrlen (attrib f) ->
  exists pkts, amsdu_to_msdu ok o f e = Some (handed o f (dst (attrib f)) pkts e, _SUCCESS) /\
    (length pkts <= 64)%nat.
Proof. apply amsdu_to_msdu_run. Qed.

(** A subframe: the addresses, the body and the padding after it. *)
Record subframe := mk_sub { s_addrs : list Z; s_body : list Z; s_pad : list Z }.

Definition subframe_bytes (s : subframe) : list Z :=
  s_addrs s ++ be_bytes 2 (zlen (s_body s)) ++ s_body s.

(** The padding that aligns a subframe of the given body length. *)
Definition pad_len (n : Z) : Z := (- (n + 14)) mod 4.

Record subframe_ok (s : subframe) : Prop := {
  sub_addrs : zlen (s_addrs s) = 12;
  sub_body : 1 <= zlen (s_body s) < 2 ^ 16;
  sub_pad : zlen (s_pad s) = pad_len (zlen (s_body s))
}.

(** An A-MSDU: the last subframe is not padded. *)
Fixpoint amsdu_bytes (subs : list subframe) : list Z :=
  match subs with
  | [] => []
  | [s] => subframe_bytes s
  | s :: subs => subframe_bytes s ++ s_pad s ++ amsdu_bytes subs
  end.

Lemma pad_len_code n : 0 <= n ->
  (let p := 4 - ((n + 14) .& (4 - 1)) in if p =? 4 then 0 else p) = pad_len n.
Proof.
  intros Hn. unfold pad_len. rewrite (land_mask _ 2) by lia. change (2 ^ 2) with 4.
  cbv zeta. destruct (_ =? 4) eqn:E; bool_to_prop; Z.to_euclidean_division_equations; lia.
Qed.

Lemma RTW_GET_BE16_be n : is_u16 n -> RTW_GET_BE16 (be_bytes 2 n) = n.
Proof.
  intros Hn. unfold RTW_GET_BE16, be_bytes, zseq. cbn [seq map]. ld0_eval.
  rewrite Z.lor_comm, lor_shiftl_add by (try apply Z.mod_pos_bound; lia).
  change (2 ^ _) with 256 at 2. change (2 ^ (8 * (Z.of_nat 2 - 1 - (0 + Z.of_nat 1)))) with 1.
  change (2 ^ (8 * (Z.of_nat 2 - 1 - (0 + Z.of_nat 0)))) with 256. change (2 ^ 8) with 256.
  rewrite u16_id; Z.to_euclidean_division_equations; lia.
Qed.

(** The packets up to the first one whose socket buffer cannot be allocated. *)
Fixpoint allocated (ok : Z -> bool) (nr : Z) (pkts : list (list Z)) : list (list Z) :=
  match pkts with
  | [] => []
  | p :: pkts => if ok nr then p :: allocated ok (nr + 1) pkts else []
  end.

(** One iteration of the loop on a well-formed subframe. *)
Lemma amsdu_step ok f fuel pre s rest nr acc : rx_mem f = pre ++ subframe_bytes s ++ rest ->
  subframe_ok s -> forall a_len, zlen (subframe_bytes s) <= a_len ->
  amsdu_loop ok (S fuel) f (zlen pre) a_len nr acc =
   if negb (ok nr) then Some acc else
    (let acc' := acc ++ [msdu_pkt (attrib f) (s_body s)] in
     let a' := a_len - zlen (subframe_bytes s) in
     let pdata := zlen pre + zlen (subframe_bytes s) in
     if 64 <=? nr + 1 then Some acc'
     else if a' =? 0 then amsdu_loop ok fuel f pdata a' (nr + 1) acc'
     else if a' <? pad_len (zlen (s_body s)) then Some acc'
     else amsdu_loop ok fuel f (pdata + pad_len (zlen (s_body s)))
            (a' - pad_len (zlen (s_body s))) (nr + 1) acc').
Proof.
  intros Hm [Ha Hb Hp] a_len Hlen.
  assert (H2 : zlen (be_bytes 2 (zlen (s_body s))) = 2) by (unfold zlen; by rewrite be_bytes_length).
  assert (Hsz : zlen (subframe_bytes s) = 14 + zlen (s_body s)).
  { unfold subframe_bytes. rewrite !zlen_app. lia. }
  assert (R1 : rd (rx_mem f) (zlen pre + 12) 2 = Some (be_bytes 2 (zlen (s_body s)))).
  { rewrite Hm. unfold subframe_bytes.
    replace (pre ++ (s_addrs s ++ be_bytes 2 (zlen (s_body s)) ++ s_body s) ++ rest)
      with ((pre ++ s_addrs s) ++ be_bytes 2 (zlen (s_body s)) ++ (s_body s ++ rest))
      by (by rewrite <- !app_assoc).
    apply rd_mid; rewrite ?zlen_app; lia. }
  assert (R2 : rd (rx_mem f) (zlen pre + 14) (zlen (s_body s)) = Some (s_body s)).
  { rewrite Hm. unfold subframe_bytes.
    replace (pre ++ (s_addrs s ++ be_bytes 2 (zlen (s_body s)) ++ s_body s) ++ rest)
      with ((pre ++ s_addrs s ++ be_bytes 2 (zlen (s_body s))) ++ s_body s ++ rest)
      by (by rewrite <- !app_assoc).
    apply rd_mid; rewrite ?zlen_app; lia. }
  cbn [amsdu_loop]. unfold ETH_HLEN, ETHERNET_HEADER_SIZE, MAX_SUBFRAME_COUNT, rtw_os_alloc_msdu_pkt, ETH_HLEN.
  rewrite (proj2 (Z.ltb_lt 14 a_len)) by lia. cbn [negb]. rewrite R1. cbn [mbind option_bind].
  rewrite RTW_GET_BE16_be by lia. rewrite (proj2 (Z.ltb_ge a_len _)) by lia.
  rewrite R2. cbn [mbind option_bind]. destruct (ok nr); cbn [negb]; [|done].
  rewrite <- (pad_len_code (zlen (s_body s))) by lia. cbv zeta.
  replace (a_len - 14 - zlen (s_body s)) with (a_len - zlen (subframe_bytes s)) by lia.
  by replace (zlen pre + 14 + zlen (s_body s)) with (zlen pre + zlen (subframe_bytes s)) by lia.
Qed.

Lemma amsdu_stop ok f fuel pdata a_len nr acc : a_len <= 14 ->
  amsdu_loop ok (S fuel) f pdata a_len nr acc = Some acc.
Proof.
  intros H. cbn [amsdu_loop]. unfold ETH_HLEN. by rewrite (proj2 (Z.ltb_ge 14 a_len)).
Qed.

Lemma amsdu_loop_parse ok f subs t post : Forall subframe_ok subs -> zlen t <= 14 ->
  forall fuel pre nr acc, rx_mem f = pre ++ amsdu_bytes subs ++ t ++ post ->
  0 <= nr <= 63 -> 65 <= Z.of_nat fuel + nr ->
  amsdu_loop ok fuel f (zlen pre) (zlen (amsdu_bytes subs ++ t)) nr acc =
    Some (acc ++ allocated ok nr (take (Z.to_nat (64 - nr)) (map (fun s => msdu_pkt (attrib f) (s_body s)) subs))).
Proof.
  intros Hsubs Ht. induction Hsubs as [|s subs Hs Hsubs IH]; intros fuel pre nr acc Hm Hnr Hf;
    (destruct fuel as [|fuel]; [lia|]).
  { rewrite amsdu_stop by done. cbn [map]. rewrite take_nil. by rewrite app_nil_r. }
  pose proof (zlen_nonneg t) as Ht0. pose proof Hs as [_ Hb Hp].
  assert (0 <= pad_len (zlen (s_body s)) < 4) as Hpad by (apply Z.mod_pos_bound; lia).
  replace (Z.to_nat (64 - nr)) with (S (Z.to_nat (64 - (nr + 1)))) by lia. cbn [map take].
  assert (exists rest, amsdu_bytes (s :: subs) = subframe_bytes s ++ rest /\
    (subs = [] /\ rest = [] \/ subs <> [] /\ rest = s_pad s ++ amsdu_bytes subs))
    as (rest & E & Hrest) by (destruct subs; [exists []|exists (s_pad s ++ amsdu_bytes (s0 :: subs))];
      cbn [amsdu_bytes]; rewrite ?app_nil_r; split; auto).
  rewrite E in Hm |- *. rewrite <- app_assoc in Hm. rewrite <- app_assoc.
  rewrite (amsdu_step ok f fuel pre s (rest ++ t ++ post)) by (done || rewrite zlen_app; pose proof (zlen_nonneg (rest ++ t)); lia).
  cbn [allocated]. destruct (ok nr); cbn [negb]; [|by rewrite app_nil_r].
  cbv zeta. rewrite (zlen_app (subframe_bytes s)).
  replace (zlen (subframe_bytes s) + zlen (rest ++ t) - zlen (subframe_bytes s)) with (zlen (rest ++ t)) by lia.
  destruct (64 <=? nr + 1) eqn:E3; bool_to_prop.
  { assert (nr = 63) as -> by lia. by rewrite take_0. }
  assert (forall x l, (acc ++ [x]) ++ l = acc ++ x :: l) as Hacc by (intros; by rewrite <- app_assoc).
  destruct Hrest as [[-> ->]|[Hne ->]].
  - cbn [app map]. rewrite take_nil.
    destruct fuel as [|fuel]; [lia|].
    rewrite amsdu_stop by lia. destruct (_ =? 0); [done|]. destruct (_ <? _); [done|].
    by rewrite amsdu_stop by lia.
  - destruct subs as [|s1 subs]; [done|].
    assert (zlen (amsdu_bytes (s1 :: subs)) > 0).
    { inversion Hsubs as [|? ? [Hs1 _ _] _]; subst. cbn [amsdu_bytes].
      unfold subframe_bytes. destruct subs; rewrite !zlen_app; repr_lens; lia. }
    rewrite (proj2 (Z.eqb_neq _ 0)) by (rewrite !zlen_app; lia).
    rewrite (proj2 (Z.ltb_ge _ _)) by (rewrite !zlen_app; lia).
    transitivity (amsdu_loop ok fuel f (zlen (pre ++ subframe_bytes s ++ s_pad s))
      (zlen (amsdu_bytes (s1 :: subs) ++ t)) (nr + 1) (acc ++ [msdu_pkt (attrib f) (s_body s)])).
    { f_equal; rewrite <- ?app_assoc, ?zlen_app; lia. }
    rewrite IH by (lia || (by rewrite Hm, <- !app_assoc)). cbn [map]. by rewrite Hacc.
Qed.


(** ** Reassembly *)

(** A received fragment with number [i], payload [p] and integrity check value [t]. *)
Definition is_fragment (n : rframe) (i : Z) (p t : list Z) : Prop :=
  exists pre h post, rx_repr n pre (h ++ p ++ t) post /\
    zlen h = hdrlen (attrib n) + iv_len (attrib n) /\ zlen h < 256 /\
    icv_len (attrib n) = zlen t /\ frag_num (attrib n) = i.

(** The fragments [i], [i+1], ... with check values of [k] bytes. *)
Inductive fragments (k : Z) : Z -> list rframe -> list (list Z * list Z) -> Prop :=
| fragments_nil i : fragments k i [] []
| fragments_cons i n q p t l : is_fragment n i p t -> zlen t = k -> fragments k (i + 1) q l ->
    fragments k i (n :: q) ((p, t) :: l).

Lemma defrag_step c f n q pre b t post p tn :
  rx_repr f pre (b ++ t) post -> icv_len (attrib f) = zlen t -> is_fragment n c p tn ->
  (zlen pre + zlen b + zlen (p ++ tn) <= zlen (rx_mem f) ->
   exists f' post', defrag_loop c f (n :: q) = defrag_loop (u8 (c + 1)) f' q /\
     rx_repr f' pre (b ++ p ++ tn) post' /\ icv_len (attrib f') = zlen tn /\
     zlen (rx_mem f') = zlen (rx_mem f)) /\
  (zlen (rx_mem f) < zlen pre + zlen b + zlen (p ++ tn) -> defrag_loop c f (n :: q) = None).
Proof.
  intros Hf Hicv (pre' & h & post' & Hn & Hh & Hh8 & Hti & Hc).
  cbn [defrag_loop]. rewrite Hc, Z.eqb_refl. cbn [negb].
  rewrite (u8_id (hdrlen (attrib n) + iv_len (attrib n))) by (pose proof (zlen_nonneg h); lia).
  destruct (pull_repr n pre' h (p ++ tn) post' _ Hn (eq_sym Hh)) as (n1 & -> & Rn & Han & _). cbn [fst].
  destruct (pull_tail_repr f pre b t post _ Hf Hicv) as (f1 & -> & Rf & Haf & _). cbn [fst].
  assert (Hmem : zlen (rx_mem f1) = zlen (rx_mem f)).
  { rewrite (repr_mem _ _ _ _ Hf), (repr_mem _ _ _ _ Rf), !zlen_app. lia. }
  assert (rd (rx_mem n1) (rx_data n1) (rx_len n1) = Some (p ++ tn)) as ->.
  { apply (rd_repr n1 (pre' ++ h) [] (p ++ tn) [] post'); [by rewrite app_nil_r|rewrite zlen_nil; lia|].
    apply (repr_len _ _ _ _ Rn). }
  cbn [mbind option_bind].
  pose proof (repr_mem _ _ _ _ Rf) as Hm1. pose proof (repr_tail _ _ _ _ Rf) as Ht1. split; intros Hfit.
  - destruct (split_at (t ++ post) (zlen (p ++ tn))) as (y & z & Hyz & Hy & _).
    { rewrite <- Hmem, Hm1, (zlen_app pre), (zlen_app b) in Hfit.
      pose proof (zlen_nonneg (p ++ tn)). lia. }
    rewrite Hm1, Ht1, Hyz.
    replace (pre ++ b ++ y ++ z) with ((pre ++ b) ++ y ++ z) by (by rewrite <- !app_assoc).
    rewrite wr_mid by (rewrite ?zlen_app; unfold zlen in *; lia). cbn [mbind option_bind].
    set (m := (pre ++ b) ++ (p ++ tn) ++ z).
    assert (R2 : rx_repr (set_mem m f1) pre b ((p ++ tn) ++ z)).
    { destruct Rf as [Hm Hd Ht Hl Hs]. rewrite Hyz in Hs.
      constructor; cbn [set_mem rx_mem rx_data rx_tail rx_len]; try done.
      - unfold m. by rewrite <- app_assoc.
      - rewrite !zlen_app in *. lia. }
    destruct (put_repr _ _ _ (p ++ tn) z (rx_len n1) R2) as (f3 & -> & R3 & Ha3 & _);
      [apply (repr_len _ _ _ _ Rn)|]. cbn [fst].
    eexists _, z. split; [done|]. split; [by apply set_attrib_repr|]. split.
    + cbn [set_attrib attrib set_icv_len icv_len]. by rewrite Han.
    + cbn [set_attrib rx_mem]. rewrite (repr_mem _ _ _ _ R3), <- Hmem, Hm1, Hyz, !zlen_app in *. lia.
  - by rewrite wr_None by (rewrite Ht1, Hmem; lia).
Qed.

(** The memory that the reassembled frame takes in the buffer of the first fragment. *)
Definition payloads (l : list (list Z * list Z)) : list Z := concat (map fst l).
Fixpoint last_icv (t : list Z) (l : list (list Z * list Z)) : list Z :=
  match l with [] => t | (_, t') :: l => last_icv t' l end.

Lemma defrag_loop_spec k q l i : fragments k i q l -> 0 <= k -> 0 < i -> i + zlen q <= 256 ->
  forall f pre b t post, rx_repr f pre (b ++ t) post -> icv_len (attrib f) = zlen t -> zlen t = k ->
  (zlen pre + zlen b + zlen (payloads l) + k <= zlen (rx_mem f) ->
   exists f' post', defrag_loop i f q = Some (inr f') /\
     rx_repr f' pre (b ++ payloads l ++ last_icv t l) post' /\
     icv_len (attrib f') = k) /\
  (zlen (rx_mem f) < zlen pre + zlen b + zlen (payloads l) + k -> defrag_loop i f q = None).
Proof.
  intros Hfr Hk. induction Hfr as [i|i n q p tn l Hn Htn Hfr IH]; intros Hi Hlen f pre b t post Hf Hicv Ht.
  - split; intros Hfit.
    + exists f, post. by rewrite <- Ht.
    + rewrite (repr_mem _ _ _ _ Hf), !zlen_app in Hfit. unfold payloads in Hfit. cbn in Hfit.
      pose proof (zlen_nonneg post). change (zlen []) with 0 in Hfit. lia.
  - destruct (defrag_step i f n q pre b t post p tn Hf Hicv Hn) as [Hok Hbad].
    unfold payloads in *. cbn [map concat fst]. rewrite zlen_cons in Hlen. rewrite zlen_app in *.
    pose proof (zlen_nonneg (concat (map fst l))). pose proof (zlen_nonneg q).
    destruct (Z.le_gt_cases (zlen pre + zlen b + (zlen p + zlen tn)) (zlen (rx_mem f))) as [Hle|Hgt].
    + destruct (Hok Hle) as (f1 & post1 & -> & R1 & Hicv1 & Hmem). rewrite app_assoc in R1.
      destruct (Z.eq_dec i 255) as [->|Hne].
      { assert (q = []) as -> by (apply nil_length_inv; unfold zlen in *; lia).
        inversion Hfr; subst. cbn [defrag_loop map concat]. cbn [map concat] in *.
        change (zlen []) with 0. split; intros Hfit; [|lia].
        exists f1, post1. rewrite app_nil_r. cbn [last_icv]. rewrite app_assoc.
        split; [done|]. split; [done|lia]. }
      rewrite u8_id by lia.
      destruct (IH ltac:(lia) ltac:(lia) f1 pre (b ++ p) tn post1 R1 Hicv1 Htn) as [IHok IHbad].
      rewrite zlen_app, Hmem in *. split; intros Hfit.
      * destruct (IHok ltac:(lia)) as (f' & post' & E & R & Hi').
        exists f', post'. split; [done|]. split; [|done].
        cbn [last_icv]. by rewrite <- !app_assoc in *.
      * apply IHbad. lia.
    + split; intros Hfit; [lia|]. apply Hbad. lia.
Qed.

(** C33: Reassembly of a fragmented MSDU.  Given the fragments 0, 1, ... of one frame, each
    with a check value of [k] bytes, [recvframe_defrag] returns the first frame holding
    its header, all the payloads in order and the check value of the last fragment, and
    frees the other frames, exactly when this fits in the buffer of the first fragment;
    otherwise a copy runs past the end of that buffer. *)
Theorem recvframe_defrag_reassembles f rest e k pre h p t post l :
  rx_repr f pre (h ++ p ++ t) post -> icv_len (attrib f) = zlen t -> zlen t = k ->
  frag_num (attrib f) = 0 -> fragments k 1 rest l -> zlen rest < 256 ->
  let total := zlen pre + zlen h + zlen p + zlen (payloads l) + k in
  (total <= zlen (rx_mem f) -> exists f',
     recvframe_defrag (f :: rest) e = Some (Some f', rtw_free_recvframe_queue rest e) /\
     rx_ok f' /\ rx_bytes f' = h ++ p ++ payloads l ++ last_icv t l /\ icv_len (attrib f') = k) /\
  (zlen (rx_mem f) < total -> recvframe_defrag (f :: rest) e = None).
Proof.
  intros Hf Hicv Ht H0 Hfr Hlen total. subst total. rewrite app_assoc in Hf.
  destruct (defrag_loop_spec k rest l 1 Hfr ltac:(pose proof (zlen_nonneg t); lia) ltac:(lia) ltac:(lia)
    f pre (h ++ p) t post Hf Hicv Ht) as [Hok Hbad].
  unfold recvframe_defrag. rewrite H0. cbn [negb Z.eqb]. rewrite zlen_app in Hok, Hbad. split; intros Hfit.
  - destruct (Hok ltac:(lia)) as (f' & post' & -> & R & Hi). cbn [mbind option_bind].
    exists f'. split; [done|]. split; [by eapply rx_repr_ok|].
    by rewrite (rx_bytes_repr _ _ _ _ R), <- app_assoc.
  - rewrite Hbad by lia. done.
Qed.

(** ** Witnesses *)

Definition ex_attrib (fragnum : Z) : rx_pkt_attrib :=
  mk_rxa 24 0 0 0 false 1 0 0 5 fragnum 0 0 [2;0;0;0;0;1] [2;0;0;0;0;2] [2;0;0;0;0;3] [2;0;0;0;0;1] 0 false.
Definition ex_os : os_env := mk_os false true [2;0;0;0;0;1] false (fun _ => false) (fun _ => true) false id.
Definition ex_ap_os (me : list Z) (known : bool) : os_env :=
  mk_os true false me true (fun _ => known) (fun _ => true) false id.
Definition ex_body : list Z := [0xaa; 0xaa; 3; 0; 0; 0; 8; 0; 0x45].
Definition ex_frame (fragnum : Z) (body post : list Z) : rframe :=
  mk_rf fragnum true 0 (ex_attrib fragnum) (replicate 8 0 ++ (replicate 24 1 ++ body ++ []) ++ post) 8
    (32 + zlen body) (24 + zlen body).

Lemma ex_frame_repr i body post : zlen body < 1000 -> zlen post < 1000 ->
  rx_repr (ex_frame i body post) (replicate 8 0) (replicate 24 1 ++ body ++ []) post.
Proof.
  intros Hb Hp. constructor; cbn [ex_frame rx_mem rx_data rx_tail rx_len]; try done;
    rewrite ?zlen_app; change (zlen (replicate 8 0)) with 8; change (zlen (replicate 24 1)) with 24;
    change (zlen []) with 0; lia.
Qed.

Lemma recvframe_ops_ok_witness :
  rx_ok (ex_frame 0 ex_body []) /\ rx_ok (fst (recvframe_pull (ex_frame 0 ex_body []) 24)).
Proof.
  assert (rx_ok (ex_frame 0 ex_body [])) as H by (constructor; vm_compute; lia || (split; done) || done).
  split; [exact H|].
  apply (recvframe_ops_ok recvframe_pull (ex_frame 0 ex_body []) 24);
    [right; left; reflexivity|lia|exact H].
Defined.

Lemma wlanhdr_to_ethhdr_is_msdu_witness :
  exists f', wlanhdr_to_ethhdr false (ex_frame 0 ex_body []) = Some (f', _SUCCESS) /\ rx_ok f' /\
    rx_bytes f' = [2;0;0;0;0;1; 2;0;0;0;0;2; 8;0;0x45].
Proof.
  apply (wlanhdr_to_ethhdr_is_msdu (ex_frame 0 ex_body []) (replicate 8 0) (replicate 24 1) ex_body [] []);
    [apply ex_frame_repr; reflexivity|reflexivity|vm_compute; discriminate|vm_compute; discriminate
    |apply bytes_ok_spec; reflexivity|reflexivity|reflexivity|reflexivity].
Defined.

Lemma amsdu_to_msdu_total_witness :
  exists pkts, amsdu_to_msdu (fun i => i =? 0) ex_os (ex_frame 0 ex_body []) (mk_env [7] 1 [] []) =
    Some (handed ex_os (ex_frame 0 ex_body []) [2;0;0;0;0;1] pkts (mk_env [7] 1 [] []), _SUCCESS) /\ (length pkts <= 64)%nat.
Proof.
  apply (amsdu_to_msdu_total (fun i => i =? 0) ex_os (ex_frame 0 ex_body []) (mk_env [7] 1 [] []));
    [constructor; vm_compute; lia || (split; done) || done|vm_compute; discriminate].
Defined.

Definition ex_subs : list subframe :=
  [mk_sub (replicate 12 9) ex_body [0]; mk_sub (replicate 12 9) [1; 2; 3] [0; 0; 0]].


Lemma recvframe_defrag_reassembles_witness :
  (exists f', recvframe_defrag [ex_frame 0 [1;2] [0;0;0]; ex_frame 1 [3;4;5] []] (mk_env [] 0 [] []) =
      Some (Some f', mk_env [1] 1 [] []) /\ rx_ok f' /\ rx_bytes f' = replicate 24 1 ++ [1;2;3;4;5]) /\
  recvframe_defrag [ex_frame 0 [1;2] [0;0]; ex_frame 1 [3;4;5] []] (mk_env [] 0 [] []) = None.
Proof.
  assert (H : fragments 0 1 [ex_frame 1 [3;4;5] []] [([3;4;5], [])]).
  { apply fragments_cons; [|reflexivity|constructor].
    exists (replicate 8 0), (replicate 24 1), [].
    split; [apply (ex_frame_repr 1 [3;4;5] []); reflexivity|]. repeat split. }
  split.
  - destruct (recvframe_defrag_reassembles (ex_frame 0 [1;2] [0;0;0]) [ex_frame 1 [3;4;5] []]
      (mk_env [] 0 [] []) 0 (replicate 8 0) (replicate 24 1) [1;2] [] [0;0;0] [([3;4;5], [])])
      as [Hok _]; [apply ex_frame_repr; reflexivity|reflexivity|reflexivity|reflexivity|exact H|reflexivity|].
    destruct Hok as (f' & E & Hf & Hb & _); [vm_compute; discriminate|].
    exists f'. split; [exact E|]. split; [exact Hf|exact Hb].
  - apply (recvframe_defrag_reassembles (ex_frame 0 [1;2] [0;0]) [ex_frame 1 [3;4;5] []]
      (mk_env [] 0 [] []) 0 (replicate 8 0) (replicate 24 1) [1;2] [] [0;0] [([3;4;5], [])]);
      [apply ex_frame_repr; reflexivity|reflexivity|reflexivity|reflexivity|exact H|reflexivity|reflexivity].
Defined.
