(* ===== verification/Reorder.v ===== *)
(** * A-MPDU receive reordering (core/rtw_recv.c)

    The duplicate cache [recv_decache], the reordering window of one traffic identifier
    ([check_indicate_seq], [enqueue_reorder_recvframe], [recv_indicatepkts_in_order],
    [recv_indicatepkt_reorder]) and its timer.  Sequence numbers are 12 bits and compared
    around the circle; the abstract window [win] uses unbounded positions, and the
    refinement theorem relates the two. *)

From Stdlib Require Import Sorted.
From stdpp Require Import relations.
From S2P Require Import Prelude RxFrame.

(** ** Data *)

Definition SN_LESS (a b : Z) : bool := negb ((a - b) .& 0x800 =? 0).
Definition SN_EQUAL (a b : Z) : bool := a =? b.
Definition RX_AMPDU_SIZE_INVALID : Z := 0xFF.

(** [struct recv_reorder_ctrl]; [timer] tells whether [reordering_ctrl_timer] is armed. *)
Record recv_reorder_ctrl := mk_reorder {
  enable : bool; indicate_seq : Z; wend_b : Z; wsize_b : Z; ampdu_size : Z;
  pending_recvframe_queue : list rframe; timer : bool
}.

Definition set_seq (i : Z) (c : recv_reorder_ctrl) : recv_reorder_ctrl :=
  mk_reorder (enable c) i (wend_b c) (wsize_b c) (ampdu_size c) (pending_recvframe_queue c) (timer c).
Definition set_pending (q : list rframe) (c : recv_reorder_ctrl) : recv_reorder_ctrl :=
  mk_reorder (enable c) (indicate_seq c) (wend_b c) (wsize_b c) (ampdu_size c) q (timer c).
Definition set_timer (b : bool) (c : recv_reorder_ctrl) : recv_reorder_ctrl :=
  mk_reorder (enable c) (indicate_seq c) (wend_b c) (wsize_b c) (ampdu_size c)
    (pending_recvframe_queue c) b.

(** The state [rtw_alloc_stainfo] gives to the sixteen windows of a station. *)
Definition init_reorder : recv_reorder_ctrl :=
  mk_reorder false 0xffff 0xffff 64 RX_AMPDU_SIZE_INVALID [] false.

(** The counters of [struct debug_priv]. *)
Record debug_priv := mk_dbg {
  dbg_rx_ampdu_drop_count : Z; dbg_rx_ampdu_forced_indicate_count : Z;
  dbg_rx_ampdu_loss_count : Z; dbg_rx_ampdu_window_shift_cnt : Z
}.

(** The adapter's flags, with what the hand-over to the stack reads; and the state the
    reordering code works on. *)
Record drv_flags := mk_drv {
  bDriverStopped : bool; bSurpriseRemoved : bool; mp_state : bool; os : os_env
}.
Definition running (d : drv_flags) : bool := negb (bDriverStopped d) && negb (bSurpriseRemoved d).

Record rx_state := mk_rxs { ctl : recv_reorder_ctrl; dbg : debug_priv; env : rx_env }.

(** ** The duplicate cache: [tid_rxseq] holds the last sequence control of each TID *)

Definition recv_decache (a : rx_pkt_attrib) (tid_rxseq : list Z) : option (list Z * Z) :=
  let tid := priority a in
  let seq_ctrl := u16 (((seq_num a .& 0xffff) .<< 4) .| (frag_num a .& 0xf)) in
  if 15 <? tid then Some (tid_rxseq, _FAIL) else
  c ← tid_rxseq !! Z.to_nat tid;
  if seq_ctrl =? c then Some (tid_rxseq, _FAIL)
  else Some (<[Z.to_nat tid := seq_ctrl]> tid_rxseq, _SUCCESS).

(** ** The window *)

Definition check_indicate_seq (c : recv_reorder_ctrl) (d : debug_priv) (seq : Z)
    : recv_reorder_ctrl * debug_priv * bool :=
  let wsize := wsize_b c in
  let wend := (indicate_seq c + wsize - 1) .& 0xFFF in
  let c := if indicate_seq c =? 0xFFFF then set_seq seq c else c in
  if SN_LESS seq (indicate_seq c) then (c, d, false)
  else if SN_EQUAL seq (indicate_seq c) then
    (set_seq ((indicate_seq c + 1) .& 0xFFF) c, d, true)
  else if SN_LESS wend seq then
    (set_seq (if wsize - 1 <=? seq then u16 (seq + 1 - wsize)
              else u16 (0xFFF - (wsize - (seq + 1)) + 1)) c,
     mk_dbg (dbg_rx_ampdu_drop_count d) (dbg_rx_ampdu_forced_indicate_count d)
       (dbg_rx_ampdu_loss_count d) (u64 (dbg_rx_ampdu_window_shift_cnt d + 1)), true)
  else (c, d, true).

(** The position of the frame in the pending queue; [None] when its number is there. *)
Fixpoint reorder_insert (f : rframe) (q : list rframe) : option (list rframe) :=
  match q with
  | [] => Some [f]
  | n :: q' =>
      if SN_LESS (seq_num (attrib n)) (seq_num (attrib f)) then
        q'' ← reorder_insert f q'; Some (n :: q'')
      else if SN_EQUAL (seq_num (attrib n)) (seq_num (attrib f)) then None
      else Some (f :: q)
  end.

Definition enqueue_reorder_recvframe (c : recv_reorder_ctrl) (f : rframe)
    : recv_reorder_ctrl * bool :=
  match reorder_insert f (pending_recvframe_queue c) with
  | Some q => (set_pending q c, true)
  | None => (c, false)
  end.

Definition recv_indicatepkts_pkt_loss_cnt (d : debug_priv) (prev_seq current_seq : Z) : debug_priv :=
  mk_dbg (dbg_rx_ampdu_drop_count d) (dbg_rx_ampdu_forced_indicate_count d)
    (if current_seq <? prev_seq
     then u64 (dbg_rx_ampdu_loss_count d + (4096 + current_seq - prev_seq))
     else u64 (dbg_rx_ampdu_loss_count d + (current_seq - prev_seq)))
    (dbg_rx_ampdu_window_shift_cnt d).

Section reorder.
Context (skb_alloc_ok : Z -> bool) (drv : drv_flags).

(** A frame taken out of the queue: indicated, de-aggregated, or, when the driver is
    stopped or [amsdu] is neither 0 nor 1, neither indicated nor freed. *)
Definition indicate_frame (f : rframe) (e : rx_env) : option rx_env :=
  if amsdu (attrib f) =? 0 then
    if running drv then '(e, _) ← rtw_recv_indicatepkt (os drv) f e; Some e else Some e
  else if amsdu (attrib f) =? 1 then
    '(e, ret) ← amsdu_to_msdu skb_alloc_ok (os drv) f e;
    Some (if ret =? _SUCCESS then e else rtw_free_recvframe f e)
  else Some e.

(** The loop [while (!rtw_is_list_empty(phead))]; the last component is [bPktInBuf]. *)
Fixpoint indicate_loop (seq : Z) (q : list rframe) (e : rx_env)
    : option (Z * list rframe * rx_env * bool) :=
  match q with
  | [] => Some (seq, [], e, false)
  | f :: q' =>
      if negb (SN_LESS seq (seq_num (attrib f))) then
        let seq := if SN_EQUAL seq (seq_num (attrib f)) then (seq + 1) .& 0xFFF else seq in
        e ← indicate_frame f e;
        indicate_loop seq q' e
      else Some (seq, q, e, true)
  end.

Definition recv_indicatepkts_in_order (bforced : bool) (s : rx_state) : option (rx_state * bool) :=
  let c := ctl s in
  let d := dbg s in
  let d1 := mk_dbg (dbg_rx_ampdu_drop_count d) (u64 (dbg_rx_ampdu_forced_indicate_count d + 1))
              (dbg_rx_ampdu_loss_count d) (dbg_rx_ampdu_window_shift_cnt d) in
  match bforced, pending_recvframe_queue c with
  | true, [] => Some (mk_rxs c d1 (env s), true)
  | _, q =>
      let '(seq, d) :=
        match bforced, q with
        | true, f :: _ =>
            (seq_num (attrib f),
             recv_indicatepkts_pkt_loss_cnt d1 (indicate_seq c) (seq_num (attrib f)))
        | _, _ => (indicate_seq c, d)
        end in
      '(seq, q, e, b) ← indicate_loop seq q (env s);
      Some (mk_rxs (set_pending q (set_seq seq c)) d e, b)
  end.

(** From the label s2 on: the window, the queue, and the timer. *)
Definition reorder_window (f : rframe) (s : rx_state) : option (rx_state * Z) :=
  let '(c, d, ok) := check_indicate_seq (ctl s) (dbg s) (seq_num (attrib f)) in
  if negb ok then
    Some (mk_rxs c (mk_dbg (u64 (dbg_rx_ampdu_drop_count d + 1))
            (dbg_rx_ampdu_forced_indicate_count d) (dbg_rx_ampdu_loss_count d)
            (dbg_rx_ampdu_window_shift_cnt d)) (env s), _FAIL)
  else
    let '(c, ok) := enqueue_reorder_recvframe c f in
    if negb ok then Some (mk_rxs c d (env s), _FAIL)
    else
      '(s, b) ← recv_indicatepkts_in_order false (mk_rxs c d (env s));
      Some (mk_rxs (set_timer b (ctl s)) (dbg s) (env s), _SUCCESS).

Definition recv_indicatepkt_reorder (f : rframe) (s : rx_state) : option (rx_state * Z) :=
  let a := attrib f in
  let c := ctl s in
  if amsdu a =? 0 then
    '(f, ret) ← wlanhdr_to_ethhdr (mp_state drv) f;
    if negb (ret =? _SUCCESS) then Some (s, ret)
    else if negb (qos a =? 1) then
      if running drv then
        '(e, _) ← rtw_recv_indicatepkt (os drv) f (env s);
        Some (mk_rxs c (dbg s) e, _SUCCESS)
      else Some (s, _FAIL)
    else if negb (enable c) then
      '(e, _) ← rtw_recv_indicatepkt (os drv) f (env s);
      Some (mk_rxs (set_seq (u16 ((seq_num a + 1) mod 4096)) c) (dbg s) e, _SUCCESS)
    else reorder_window f s
  else if amsdu a =? 1 then
    if negb (enable c) then
      '(e, ret) ← amsdu_to_msdu skb_alloc_ok (os drv) f (env s);
      Some (mk_rxs (set_seq (u16 ((seq_num a + 1) mod 4096)) c) (dbg s) e, ret)
    else reorder_window f s
  else reorder_window f s.

(** The timer has fired: it is not armed any more when the handler starts. *)
Definition rtw_reordering_ctrl_timeout_handler (s : rx_state) : option rx_state :=
  if bDriverStopped drv || bSurpriseRemoved drv then Some s
  else
    '(s, b) ← recv_indicatepkts_in_order true s;
    Some (mk_rxs (if b : bool then set_timer true (ctl s) else ctl s) (dbg s) (env s)).

Definition timer_fires (s : rx_state) : option rx_state :=
  rtw_reordering_ctrl_timeout_handler (mk_rxs (set_timer false (ctl s)) (dbg s) (env s)).
End reorder.

(** The part of [process_addba_req] and of the DELBA case of [OnAction_back] that changes
    a window. *)
Definition addba_ctrl (accept : bool) (size : Z) (c : recv_reorder_ctrl) : recv_reorder_ctrl :=
  mk_reorder accept 0xffff (wend_b c) (wsize_b c) (if accept then size else ampdu_size c)
    (pending_recvframe_queue c) (timer c).
Definition delba_ctrl (c : recv_reorder_ctrl) : recv_reorder_ctrl :=
  mk_reorder false (indicate_seq c) (wend_b c) (wsize_b c) RX_AMPDU_SIZE_INVALID
    (pending_recvframe_queue c) (timer c).

(** ** Circular comparison *)

Lemma land_pow2 z k : 0 <= k -> z .& 2 ^ k = if Z.testbit z k then 2 ^ k else 0.
Proof.
  intros Hk. apply Z.bits_inj'. intros n Hn. rewrite Z.land_spec, Z.pow2_bits_eqb by done.
  destruct (Z.eqb_spec k n) as [->|Hne].
  - destruct (Z.testbit z n); [by rewrite Z.pow2_bits_eqb, Z.eqb_refl by done|by rewrite Z.bits_0].
  - rewrite andb_false_r. destruct (Z.testbit z k); [|by rewrite Z.bits_0].
    rewrite Z.pow2_bits_eqb by done. symmetry. by apply Z.eqb_neq.
Qed.

Lemma SN_LESS_mod a b : SN_LESS a b = (2048 <=? (a - b) mod 4096).
Proof.
  unfold SN_LESS. change 0x800 with (2 ^ 11) at 1. rewrite land_pow2 by lia.
  pose proof (Z.testbit_spec' (a - b) 11 ltac:(lia)) as H. change (2 ^ 11) with 2048 in *.
  destruct (Z.testbit (a - b) 11); cbn [Z.b2z negb Z.eqb] in *; symmetry;
    [apply Z.leb_le|apply Z.leb_gt]; Z.to_euclidean_division_equations; lia.
Qed.

(** On positions less than half a circle apart the comparison is the order. *)
Lemma SN_LESS_pos x y : -2048 <= x - y < 2048 -> SN_LESS (x mod 4096) (y mod 4096) = (x <? y).
Proof.
  intros H. rewrite SN_LESS_mod, <- Zminus_mod.
  destruct (Z.ltb_spec x y); [apply Z.leb_le|apply Z.leb_gt];
    Z.to_euclidean_division_equations; lia.
Qed.

Lemma SN_EQUAL_pos x y : -4096 < x - y < 4096 -> SN_EQUAL (x mod 4096) (y mod 4096) = (x =? y).
Proof.
  intros H. unfold SN_EQUAL. destruct (Z.eqb_spec x y) as [->|Hne]; [apply Z.eqb_refl|].
  apply Z.eqb_neq. Z.to_euclidean_division_equations. lia.
Qed.

Lemma land_0xFFF x : x .& 0xFFF = x mod 4096.
Proof. by apply (land_mask x 12). Qed.

Lemma next_seq x : (x mod 4096 + 1) .& 0xFFF = (x + 1) mod 4096.
Proof. by rewrite land_0xFFF, Zplus_mod_idemp_l. Qed.

(** ** The abstract window: positions on the unbounded line

    [base] is the next position expected, [buf] the positions received ahead of it. *)
Record win := mk_win { base : Z; buf : list Z }.

Fixpoint win_insert (p : Z) (l : list Z) : list Z :=
  match l with
  | [] => [p]
  | x :: l' => if x <? p then x :: win_insert p l' else p :: l
  end.

(** The positions up to [b], and those that follow without a gap, leave the buffer. *)
Fixpoint win_run (b : Z) (l : list Z) : Z * list Z * list Z :=
  match l with
  | [] => (b, [], [])
  | x :: l' =>
      if x <=? b then
        let '(b', out, rest) := win_run (if b =? x then b + 1 else b) l' in (b', x :: out, rest)
      else (b, [], l)
  end.

(** A frame at position [p]: the new window and the positions delivered, or [None] when
    it is old or already buffered. *)
Definition win_recv (size : Z) (w : win) (p : Z) : option (win * list Z) :=
  if (p <? base w) || bool_decide (p ∈ buf w) then None
  else
    let b := if p =? base w then base w + 1
             else if base w + size - 1 <? p then p + 1 - size else base w in
    let '(b, out, rest) := win_run b (win_insert p (buf w)) in
    Some (mk_win b rest, out).

(** The timer gives up the gap before the first buffered position. *)
Definition win_flush (w : win) : win * list Z :=
  match buf w with
  | [] => (w, [])
  | x :: _ => let '(b, out, rest) := win_run x (buf w) in (mk_win b rest, out)
  end.

(** A window is in order: its buffer increases and lies within [size] of the base. *)
Definition win_ok (size : Z) (w : win) : Prop :=
  StronglySorted Z.lt (buf w) /\ Forall (fun x => base w < x < base w + size) (buf w).

Lemma win_insert_perm p l : Permutation (win_insert p l) (p :: l).
Proof.
  induction l as [|x l IH]; cbn [win_insert]; [done|].
  destruct (x <? p); [|done]. rewrite IH. constructor.
Qed.

Lemma win_insert_sorted p l : p ∉ l -> StronglySorted Z.lt l -> StronglySorted Z.lt (win_insert p l).
Proof.
  intros Hp Hl. induction Hl as [|x l Hl IH Hx]; cbn [win_insert]; [repeat constructor|].
  apply not_elem_of_cons in Hp as [Hne Hp]. destruct (Z.ltb_spec x p).
  - constructor; [by apply IH|]. rewrite win_insert_perm. by constructor.
  - constructor; [by constructor|]. constructor; [lia|].
    eapply Forall_impl; [|exact Hx]. simpl. lia.
Qed.

(** What leaves the window in a run: an increasing list below the new base. *)
Lemma win_run_spec b l b' out rest : win_run b l = (b', out, rest) -> StronglySorted Z.lt l ->
  l = out ++ rest /\ b <= b' /\ Forall (fun x => x < b') out /\
  Forall (fun x => b' < x) rest /\ (b' = b \/ In (b' - 1) out).
Proof.
  revert b b' out rest. induction l as [|x l IH]; intros b b' out rest E Hl; cbn [win_run] in E.
  { injection E as <- <- <-. repeat split; [lia|constructor|constructor|by left]. }
  inversion Hl as [|? ? Hl' Hx]; subst. destruct (Z.leb_spec x b).
  - destruct (win_run _ l) as [[b1 out1] rest1] eqn:E1. injection E as <- <- <-.
    apply IH in E1 as (-> & Hb & Hout & Hrest & Hin); [|done].
    destruct (Z.eqb_spec b x) as [->|Hne].
    + repeat split; [lia| | done|].
      * constructor; [lia|done].
      * right. destruct Hin as [->|Hin]; [left; lia|by right].
    + repeat split; [lia| |done|].
      * constructor; [lia|done].
      * destruct Hin as [->|Hin]; [by left|right; by right].
  - injection E as <- <- <-. repeat split; [lia|constructor| |by left].
    constructor; [done|]. eapply Forall_impl; [|exact Hx]. simpl. lia.
Qed.

(** ** Indicating a list of frames *)

(** The frames the code can indicate: well formed, and an A-MSDU or not. *)
Definition frame_ready (f : rframe) : Prop :=
  rx_ok f /\ 0 <= hdrlen (attrib f) /\ (amsdu (attrib f) = 0 \/ amsdu (attrib f) = 1).

Fixpoint indicate_all (ok : Z -> bool) (drv : drv_flags) (fs : list rframe) (e : rx_env) : option rx_env :=
  match fs with
  | [] => Some e
  | f :: fs => e ← indicate_frame ok drv f e; indicate_all ok drv fs e
  end.

Lemma indicate_frame_run ok drv f e : running drv = true -> frame_ready f ->
  exists e', indicate_frame ok drv f e = Some e' /\
    free_recv_queue e' = relink (rf_id f) (free_recv_queue e).
Proof.
  intros Hr (Hok & Hh & Ha). unfold indicate_frame. rewrite Hr. destruct Ha as [-> | ->]; cbn [Z.eqb].
  - unfold rtw_recv_indicatepkt. destruct (rf_pkt f); [|by eexists].
    destruct Hok as [Hd Ht Hl]. rewrite rd_Some by lia. cbn [mbind option_bind]. rewrite indicate_pkt_shares. by eexists.
  - destruct (amsdu_to_msdu_run ok (os drv) f e Hok Hh) as (pkts & -> & _). by eexists.
Qed.

Lemma indicate_all_run ok drv fs : running drv = true -> Forall frame_ready fs -> forall e,
  exists e', indicate_all ok drv fs e = Some e' /\
    free_recv_queue e' = relinks (map rf_id fs) (free_recv_queue e).
Proof.
  intros Hr Hfs. induction Hfs as [|f fs Hf Hfs IH]; intros e; cbn [indicate_all map].
  { by exists e. }
  destruct (indicate_frame_run ok drv f e Hr Hf) as (e1 & -> & E1). cbn [mbind option_bind].
  destruct (IH e1) as (e' & -> & E). exists e'. by rewrite E, E1.
Qed.

Definition seqs (q : list rframe) : list Z := map (fun f => seq_num (attrib f)) q.
Definition wrap (l : list Z) : list Z := map (fun x => x mod 4096) l.

(** The loop delivers the frames of a run of the abstract window. *)
Lemma indicate_loop_sim ok drv lo hi : running drv = true -> hi - lo <= 2047 ->
  forall q l b b' out rest, Forall frame_ready q -> seqs q = wrap l ->
  Forall (fun x => lo <= x < hi) l -> lo <= b <= hi -> win_run b l = (b', out, rest) ->
  forall e, exists fs q' e', q = fs ++ q' /\ seqs fs = wrap out /\ seqs q' = wrap rest /\
    indicate_all ok drv fs e = Some e' /\
    indicate_loop ok drv (b mod 4096) q e =
      Some (b' mod 4096, q', e', match q' with [] => false | _ => true end).
Proof.
  intros Hr Hw q. induction q as [|f q IH]; intros l b b' out rest Hq Hs Hl Hb E e;
    destruct l as [|x l]; try done; cbn [win_run] in E.
  { injection E as <- <- <-. by exists [], [], e. }
  injection Hs as Hx Hs. inversion Hq as [|? ? Hf Hq']; subst.
  inversion Hl as [|? ? Hxr Hl']; subst. cbn [indicate_loop]. rewrite Hx, SN_LESS_pos by lia.
  rewrite Z.ltb_antisym, negb_involutive. rewrite SN_EQUAL_pos, next_seq by lia.
  destruct (Z.leb_spec x b).
  - destruct (win_run _ l) as [[b1 out1] rest1] eqn:E1. injection E as <- <- <-.
    destruct (indicate_frame_run ok drv f e Hr Hf) as (e1 & He1 & _). rewrite He1. cbn [mbind option_bind].
    destruct (IH l (if b =? x then b + 1 else b) b1 out1 rest1 Hq' Hs Hl' ltac:(destruct (Z.eqb_spec b x); lia) E1 e1)
      as (fs & q' & e' & -> & Hfs & Hq1 & Hall & Hloop).
    exists (f :: fs), q', e'. split; [done|]. split; [by unfold seqs, wrap in *; cbn; f_equal|].
    split; [done|]. split; [cbn [indicate_all]; by rewrite He1|].
    rewrite <- Hloop. f_equal. by destruct (b =? x).
  - injection E as <- <- <-. exists [], (f :: q), e.
    repeat split. unfold seqs, wrap in *. cbn [map]. by f_equal.
Qed.

Lemma reorder_insert_sim f p q l : seq_num (attrib f) = p mod 4096 -> seqs q = wrap l ->
  StronglySorted Z.lt l -> Forall (fun x => -2048 < x - p < 2048) l ->
  if bool_decide (p ∈ l) then reorder_insert f q = None
  else exists q', reorder_insert f q = Some q' /\ seqs q' = wrap (win_insert p l) /\
    Permutation q' (f :: q).
Proof.
  intros Hp. revert q. induction l as [|x l IH]; intros [|n q] Hs Hsort Hl; try done.
  { rewrite bool_decide_false by (by intros ?%elem_of_nil). exists [f]. cbn.
    unfold seqs, wrap. cbn. by rewrite Hp. }
  injection Hs as Hx Hs. inversion Hsort as [|? ? Hsort' Hlt]; subst.
  inversion Hl as [|? ? Hxp Hl']; subst. cbn [reorder_insert win_insert].
  rewrite Hx, Hp, SN_LESS_pos, SN_EQUAL_pos by lia. destruct (Z.ltb_spec x p).
  - specialize (IH q Hs Hsort' Hl'). assert (bool_decide (p ∈ x :: l) = bool_decide (p ∈ l)) as ->.
    { apply bool_decide_ext. rewrite elem_of_cons. split; [intros [?|?]; [lia|done]|by right]. }
    destruct (bool_decide (p ∈ l)); [by rewrite IH|]. destruct IH as (q' & -> & Hq' & Hperm).
    exists (n :: q'). cbn [mbind option_bind]. split; [done|]. split.
    + unfold seqs, wrap in *. cbn [map]. by rewrite Hx, Hq'.
    + rewrite Hperm. constructor.
  - destruct (Z.eqb_spec x p) as [->|Hne]; [by rewrite bool_decide_true by (by left)|].
    rewrite bool_decide_false.
    + exists (f :: n :: q). split; [done|]. split; [|done].
      unfold seqs, wrap in *. cbn [map]. by rewrite Hp, Hx, Hs.
    + rewrite elem_of_cons. intros [->|Hin]; [done|].
      rewrite Forall_forall in Hlt. apply list_elem_of_In, Hlt in Hin. lia.
Qed.

(** ** The window of the driver implements the abstract window *)

(** The position of a sequence number: the one nearest to the base. *)
Definition frame_pos (w : win) (seq : Z) : Z :=
  base w + ((seq - base w + 2048) mod 4096 - 2048).

Record reorder_repr (c : recv_reorder_ctrl) (w : win) : Prop := {
  rr_base : indicate_seq c = base w mod 4096;
  rr_seqs : seqs (pending_recvframe_queue c) = wrap (buf w);
  rr_ok : win_ok (wsize_b c) w;
  rr_size : 1 <= wsize_b c < 256;
  rr_frames : Forall frame_ready (pending_recvframe_queue c)
}.

Lemma frame_pos_near w seq : -2048 <= frame_pos w seq - base w < 2048.
Proof. unfold frame_pos. pose proof (Z.mod_pos_bound (seq - base w + 2048) 4096). lia. Qed.

Lemma frame_pos_mod w seq : 0 <= seq < 4096 -> seq = frame_pos w seq mod 4096.
Proof. intros H. unfold frame_pos. Z.to_euclidean_division_equations. lia. Qed.

(** The new base of [win_recv]. *)
Definition win_base (size : Z) (w : win) (p : Z) : Z :=
  if p =? base w then base w + 1
  else if base w + size - 1 <? p then p + 1 - size else base w.

Lemma set_seq_id c i : indicate_seq c = i -> set_seq i c = c.
Proof. intros <-. by destruct c. Qed.

Lemma check_indicate_seq_sim c d w seq : indicate_seq c = base w mod 4096 ->
  1 <= wsize_b c < 256 -> 0 <= seq < 4096 ->
  let p := frame_pos w seq in
  exists d', check_indicate_seq c d seq =
    if p <? base w then (c, d, false) else (set_seq (win_base (wsize_b c) w p mod 4096) c, d', true).
Proof.
  intros Hi Hsz Hseq p. unfold check_indicate_seq.
  pose proof (frame_pos_near w seq) as Hnear. pose proof (frame_pos_mod w seq Hseq) as Hmod. fold p in Hnear, Hmod.
  pose proof (Z.mod_pos_bound (base w) 4096 ltac:(lia)).
  rewrite (proj2 (Z.eqb_neq (indicate_seq c) 0xFFFF)) by lia.
  assert ((indicate_seq c + wsize_b c - 1) .& 0xFFF = (base w + wsize_b c - 1) mod 4096) as ->.
  { rewrite land_0xFFF, Hi. Z.to_euclidean_division_equations. lia. }
  rewrite Hi. clearbody p. subst seq. rewrite SN_LESS_pos, SN_EQUAL_pos, next_seq by lia.
  destruct (Z.ltb_spec p (base w)); [by exists d|]. unfold win_base.
  destruct (Z.eqb_spec p (base w)); [by eexists|].
  rewrite SN_LESS_pos by lia. destruct (Z.ltb_spec (base w + wsize_b c - 1) p).
  - eexists. do 2 f_equal. f_equal. destruct (Z.leb_spec (wsize_b c - 1) (p mod 4096));
      rewrite u16_id by lia; Z.to_euclidean_division_equations; lia.
  - exists d. by rewrite set_seq_id.
Qed.

(** Bounds for the run after a frame at [p] has been inserted. *)
Lemma win_run_bounds size w p : 1 <= size < 256 -> win_ok size w -> base w <= p < base w + 2048 ->
  exists lo hi, hi - lo <= 2047 /\ lo <= win_base size w p <= hi /\
    Forall (fun x => lo <= x < hi) (win_insert p (buf w)).
Proof.
  intros Hsz [_ Hb] Hp. unfold win_base.
  destruct (Z.eqb_spec p (base w)); [|destruct (Z.ltb_spec (base w + size - 1) p)].
  - exists (base w), (base w + size). repeat split; try lia. rewrite win_insert_perm.
    constructor; [lia|]. eapply Forall_impl; [|exact Hb]. simpl. lia.
  - exists (base w + 1), (p + 1). repeat split; try lia. rewrite win_insert_perm.
    constructor; [lia|]. eapply Forall_impl; [|exact Hb]. simpl. lia.
  - exists (base w), (base w + size). repeat split; try lia. rewrite win_insert_perm.
    constructor; [lia|]. eapply Forall_impl; [|exact Hb]. simpl. lia.
Qed.

Lemma sorted_app_r {A} (R : A -> A -> Prop) a b : StronglySorted R (a ++ b) -> StronglySorted R b.
Proof. induction a as [|x a IH]; simpl; [done|]. intros H. inversion H; subst. by apply IH. Qed.

(** The abstract window stays in order. *)
Lemma win_recv_ok size w p w' out : 1 <= size -> win_ok size w -> base w <= p < base w + 2048 ->
  win_recv size w p = Some (w', out) -> win_ok size w'.
Proof.
  intros Hsz [Hs Hb] Hp E. unfold win_recv in E.
  destruct (_ || _) eqn:E0; [done|]. apply orb_false_elim in E0 as [E0 Hni].
  apply bool_decide_eq_false in Hni. fold (win_base size w p) in E.
  destruct (win_run _ _) as [[b out1] rest] eqn:Er. injection E as <- <-.
  pose proof (win_insert_sorted p (buf w) Hni Hs) as Hs'.
  apply win_run_spec in Er as (Hl & Hbb & _ & Hrest & _); [|done].
  rewrite Hl in Hs'. split; [by eapply sorted_app_r|]. cbn [buf base].
  assert (Hall : Forall (fun x => x < win_base size w p + size) (win_insert p (buf w))).
  { rewrite win_insert_perm. unfold win_base.
    constructor; [destruct (Z.eqb_spec p (base w)); [lia|]; destruct (Z.ltb_spec (base w + size - 1) p); lia|].
    eapply Forall_impl; [|exact Hb]. simpl. intros x Hx.
    destruct (Z.eqb_spec p (base w)); [lia|]; destruct (Z.ltb_spec (base w + size - 1) p); lia. }
  rewrite Hl in Hall. apply Forall_app in Hall as [_ Hall].
  rewrite Forall_forall in *. intros x Hx. specialize (Hall x Hx). specialize (Hrest x Hx). simpl in *. lia.
Qed.

Lemma set_pending_repr c w q b rest : reorder_repr c w -> seqs q = wrap rest ->
  win_ok (wsize_b c) (mk_win b rest) -> Forall frame_ready q -> forall t,
  reorder_repr (set_timer t (set_pending q (set_seq (b mod 4096) c))) (mk_win b rest).
Proof. intros []. by constructor. Qed.

Lemma in_order_eq ok drv c d e : recv_indicatepkts_in_order ok drv false (mk_rxs c d e) =
  '(seq, q, e, b) ← indicate_loop ok drv (indicate_seq c) (pending_recvframe_queue c) e;
  Some (mk_rxs (set_pending q (set_seq seq c)) d e, b).
Proof. unfold recv_indicatepkts_in_order. cbn [ctl dbg env]. by destruct (pending_recvframe_queue c). Qed.

Definition has_pending (q : list rframe) : bool := match q with [] => false | _ => true end.

Lemma reorder_window_sim ok drv f s w :
  running drv = true -> frame_ready f -> 0 <= seq_num (attrib f) < 4096 ->
  reorder_repr (ctl s) w ->
  exists s' r, reorder_window ok drv f s = Some (s', r) /\
    match win_recv (wsize_b (ctl s)) w (frame_pos w (seq_num (attrib f))) with
    | None => r = _FAIL /\ ctl s' = ctl s /\ env s' = env s
    | Some (w', out) =>
        r = _SUCCESS /\ reorder_repr (ctl s') w' /\ wsize_b (ctl s') = wsize_b (ctl s) /\
        (exists fs, seqs fs = wrap out /\ indicate_all ok drv fs (env s) = Some (env s') /\
           Permutation (f :: pending_recvframe_queue (ctl s))
             (fs ++ pending_recvframe_queue (ctl s'))) /\
        timer (ctl s') = has_pending (pending_recvframe_queue (ctl s'))
    end.
Proof.
  intros Hrun Hf Hseq Hw. pose proof Hw as [Hi Hq Hwok Hsz Hfr]. destruct s as [c d e]. cbn [ctl dbg env] in *.
  set (p := frame_pos w (seq_num (attrib f))).
  destruct (check_indicate_seq_sim c d w _ Hi Hsz Hseq) as (d' & Hcheck). fold p in Hcheck.
  pose proof (frame_pos_near w (seq_num (attrib f))) as Hnear. fold p in Hnear.
  pose proof (frame_pos_mod w _ Hseq) as Hmod. fold p in Hmod.
  unfold reorder_window, win_recv. cbn [ctl dbg env]. rewrite Hcheck. fold (win_base (wsize_b c) w p).
  destruct (Z.ltb_spec p (base w)) as [Hold|Hnew]; cbn [orb negb].
  { eexists _, _. by split. }
  unfold enqueue_reorder_recvframe. cbn [set_seq pending_recvframe_queue].
  pose proof Hwok as [Hsort Hrange].
  assert (Hd : Forall (fun x => -2048 < x - p < 2048) (buf w)).
  { eapply Forall_impl; [|exact Hrange]. simpl. lia. }
  pose proof (reorder_insert_sim f p _ _ Hmod Hq Hsort Hd) as Hins.
  destruct (bool_decide (p ∈ buf w)) eqn:Hdup; cbn [orb].
  { rewrite Hins. cbn [negb]. eexists _, _. split; [done|]. split; [done|]. split; [|done].
    cbn [ctl]. apply bool_decide_eq_true in Hdup. rewrite Forall_forall in Hrange.
    apply list_elem_of_In, Hrange in Hdup. unfold win_base.
    rewrite (proj2 (Z.eqb_neq _ _)), (proj2 (Z.ltb_ge _ _)) by lia. by apply set_seq_id. }
  apply bool_decide_eq_false in Hdup.
  destruct Hins as (q' & -> & Hq' & Hperm). cbn [negb].
  destruct (win_run_bounds (wsize_b c) w p Hsz Hwok ltac:(lia)) as (lo & hi & Hlh & Hb & Hall).
  destruct (win_run _ _) as [[b out] rest] eqn:Er.
  assert (Hready : Forall frame_ready q') by (rewrite Hperm; by constructor).
  destruct (indicate_loop_sim ok drv lo hi Hrun Hlh q' _ _ _ _ _ Hready Hq' Hall Hb Er e)
    as (fs & q2 & e' & -> & Hfs & Hq2 & Hind & Hloop).
  rewrite in_order_eq. cbn [set_pending set_seq indicate_seq pending_recvframe_queue]. rewrite Hloop.
  cbn [mbind option_bind]. eexists _, _. split; [done|]. split; [done|]. cbn [ctl env].
  apply Forall_app in Hready as [_ Hready].
  assert (Hok' : win_ok (wsize_b c) (mk_win b rest)).
  { apply (win_recv_ok _ w p _ out); [lia|done|lia|]. unfold win_recv.
    rewrite (proj2 (Z.ltb_ge _ _)), bool_decide_false by done. cbn [orb].
    fold (win_base (wsize_b c) w p). by rewrite Er. }
  split; [|split; [done|split; [|done]]].
  - pose proof (set_pending_repr c w q2 b rest Hw Hq2 Hok' Hready) as HH. apply HH.
  - exists fs. split; [done|]. split; [done|]. by rewrite <- Hperm.
Qed.

(** C28: The reordering window refines the abstract window.  From a state whose window
    represents the abstract window [w], a frame with any sequence number is handled as
    the frame at the nearest position: when the abstract window refuses it (it is old or
    already buffered) the driver returns [_FAIL] and changes neither its window nor what
    it has indicated; otherwise the driver returns [_SUCCESS], its window represents the
    new abstract window, the frames it has indicated are those of the positions the
    abstract window delivers, in that order, no frame is lost or duplicated, and the timer
    is armed exactly when frames stay buffered. *)
Theorem reorder_window_refines ok drv f s w :
  running drv = true -> frame_ready f -> 0 <= seq_num (attrib f) < 4096 ->
  reorder_repr (ctl s) w ->
  exists s' r, reorder_window ok drv f s = Some (s', r) /\
    match win_recv (wsize_b (ctl s)) w (frame_pos w (seq_num (attrib f))) with
    | None => r = _FAIL /\ ctl s' = ctl s /\ env s' = env s
    | Some (w', out) =>
        r = _SUCCESS /\ reorder_repr (ctl s') w' /\ wsize_b (ctl s') = wsize_b (ctl s) /\
        (exists fs, seqs fs = wrap out /\ indicate_all ok drv fs (env s) = Some (env s') /\
           Permutation (f :: pending_recvframe_queue (ctl s))
             (fs ++ pending_recvframe_queue (ctl s'))) /\
        timer (ctl s') = has_pending (pending_recvframe_queue (ctl s'))
    end.
Proof. apply reorder_window_sim. Qed.

(** ** Sessions: frames, timer, agreements *)

(** The loop in general: some frames of the head of the queue are indicated. *)
Lemma indicate_loop_run ok drv : running drv = true -> forall q seq e, Forall frame_ready q ->
  exists fs q' seq' e', q = fs ++ q' /\ indicate_all ok drv fs e = Some e' /\
    indicate_loop ok drv seq q e = Some (seq', q', e', has_pending q') /\
    (forall f r, q = f :: r -> seq = seq_num (attrib f) -> fs <> []).
Proof.
  intros Hr q. induction q as [|f q IH]; intros seq e Hq; cbn [indicate_loop].
  { by exists [], [], seq, e. }
  inversion Hq as [|? ? Hf Hq']; subst. destruct (negb (SN_LESS _ _)) eqn:E.
  - destruct (indicate_frame_run ok drv f e Hr Hf) as (e1 & He1 & _). rewrite He1. cbn [mbind option_bind].
    edestruct (IH (if SN_EQUAL seq (seq_num (attrib f)) then (seq + 1) .& 0xFFF else seq) e1 Hq')
      as (fs & q' & seq' & e' & -> & Hall & -> & _).
    exists (f :: fs), q', seq', e'. split; [done|]. split; [|done]. cbn [indicate_all]. by rewrite He1.
  - exists [], (f :: q), seq, e. repeat split. intros ? ? [= <- <-] ->.
    rewrite SN_LESS_mod, Z.sub_diag in E. done.
Qed.

(** One firing of the timer indicates at least the first pending frame. *)
Lemma timer_fires_run ok drv s : running drv = true ->
  Forall frame_ready (pending_recvframe_queue (ctl s)) -> pending_recvframe_queue (ctl s) <> [] ->
  exists fs s', timer_fires ok drv s = Some s' /\ fs <> [] /\
    pending_recvframe_queue (ctl s) = fs ++ pending_recvframe_queue (ctl s') /\
    indicate_all ok drv fs (env s) = Some (env s') /\
    timer (ctl s') = has_pending (pending_recvframe_queue (ctl s')).
Proof.
  intros Hr Hq Hne. destruct s as [c d e]. cbn [ctl env] in *.
  destruct (pending_recvframe_queue c) as [|f q] eqn:Eq; [done|].
  destruct (indicate_loop_run ok drv Hr (f :: q) (seq_num (attrib f)) e Hq)
    as (fs & q' & seq' & e' & E & Hall & Hloop & Hfs).
  unfold timer_fires, rtw_reordering_ctrl_timeout_handler, recv_indicatepkts_in_order.
  unfold running in Hr. apply andb_true_iff in Hr as [Hr1%negb_true_iff Hr2%negb_true_iff].
  rewrite Hr1, Hr2. cbn [orb ctl env dbg set_timer pending_recvframe_queue]. rewrite Eq, Hloop.
  cbn [mbind option_bind]. exists fs. eexists. split; [done|].
  split; [by eapply Hfs|]. rewrite E.
  destruct q'; cbn [has_pending ctl env set_timer set_pending pending_recvframe_queue timer]; by repeat split.
Qed.

Inductive timer_step (ok : Z -> bool) (drv : drv_flags) : rx_state -> rx_state -> Prop :=
| timer_step_intro s s' : timer (ctl s) = true -> timer_fires ok drv s = Some s' -> timer_step ok drv s s'.

(** C29: No frame waits for ever.  When the driver is running and the timer is armed while
    frames are pending, the timer alone, firing no more often than there are pending
    frames, indicates every one of them, in the order of the queue, whatever their
    sequence numbers; it then is no longer armed. *)
Theorem reorder_timer_drains ok drv s : running drv = true ->
  Forall frame_ready (pending_recvframe_queue (ctl s)) ->
  pending_recvframe_queue (ctl s) <> [] -> timer (ctl s) = true ->
  exists n s', (0 < n <= length (pending_recvframe_queue (ctl s)))%nat /\
    nsteps (timer_step ok drv) n s s' /\ pending_recvframe_queue (ctl s') = [] /\
    timer (ctl s') = false /\
    indicate_all ok drv (pending_recvframe_queue (ctl s)) (env s) = Some (env s').
Proof.
  intros Hr. remember (pending_recvframe_queue (ctl s)) as q eqn:Eq.
  revert s Eq. induction (well_founded_ltof _ (@length rframe) q) as [q _ IH].
  intros s -> Hq Hne Ht.
  destruct (timer_fires_run ok drv s Hr Hq Hne) as (fs & s1 & Hfire & Hfs & E & Hall & Ht1).
  destruct (pending_recvframe_queue (ctl s1)) as [|f1 q1] eqn:E1.
  - exists 1%nat, s1. rewrite app_nil_r in E. rewrite E.
    split; [destruct fs; [done|]; cbn [length]; lia|].
    split; [apply nsteps_once; by constructor|]. by repeat split.
  - destruct (IH (f1 :: q1)) with (s := s1) as (n & s' & Hn & Hsteps & Hp & Ht' & Hall'); try done.
    + unfold ltof. rewrite E, length_app. destruct fs; [done|]. cbn [length]. lia.
    + rewrite E in Hq. by apply Forall_app in Hq as [_ Hq].
    + exists (S n), s'. rewrite E, length_app. split; [destruct fs; [done|]; cbn [length] in *; lia|].
      split; [by apply (nsteps_l _ _ s s1); [constructor|]|]. split; [done|]. split; [done|].
      clear -Hall Hall'. revert Hall. generalize (env s). induction fs as [|g fs IH]; intros e; cbn [app indicate_all].
      * by intros [= ->].
      * destruct (indicate_frame ok drv g e) as [e1|]; cbn [mbind option_bind]; [apply IH|done].
Qed.

Lemma indicate_all_app ok drv a b e e1 e2 : indicate_all ok drv a e = Some e1 ->
  indicate_all ok drv b e1 = Some e2 -> indicate_all ok drv (a ++ b) e = Some e2.
Proof.
  revert e. induction a as [|f a IH]; intros e Ha Hb; cbn [app indicate_all] in *.
  - by injection Ha as ->.
  - destruct (indicate_frame ok drv f e) as [e'|]; [|done]. cbn [mbind option_bind] in *. by apply IH.
Qed.

Lemma sorted_app_l {A} (R : A -> A -> Prop) a b : StronglySorted R (a ++ b) -> StronglySorted R a.
Proof.
  induction a as [|x a IH]; simpl; [constructor|]. intros H. inversion H as [|? ? Hs Hx]; subst.
  constructor; [by apply IH|]. by apply Forall_app in Hx as [Hx _].
Qed.

Lemma sorted_app {A} (R : A -> A -> Prop) a b : StronglySorted R a -> StronglySorted R b ->
  Forall (fun x => Forall (R x) b) a -> StronglySorted R (a ++ b).
Proof.
  induction 1 as [|x a Ha IH Hx]; intros Hb Hab; simpl; [done|].
  inversion Hab; subst. constructor; [by apply IH|]. by apply Forall_app.
Qed.

(** What a step of the abstract window delivers: increasing positions between the bases. *)
Definition win_out (w w' : win) (out : list Z) : Prop :=
  StronglySorted Z.lt out /\ base w <= base w' /\ Forall (fun x => base w <= x < base w') out.

Lemma win_out_nil w : win_out w w [].
Proof. repeat split; [constructor|lia|constructor]. Qed.

Lemma win_out_app w1 w2 w3 o1 o2 : win_out w1 w2 o1 -> win_out w2 w3 o2 -> win_out w1 w3 (o1 ++ o2).
Proof.
  intros (S1 & B1 & F1) (S2 & B2 & F2). split; [|split; [lia|]].
  - apply sorted_app; [done..|]. eapply Forall_impl; [|exact F1]. simpl. intros x Hx.
    eapply Forall_impl; [|exact F2]. simpl. lia.
  - apply Forall_app. split; (eapply Forall_impl; [|eassumption]); simpl; lia.
Qed.

Lemma win_run_out w l b b' out rest : win_run b l = (b', out, rest) -> StronglySorted Z.lt l ->
  base w <= b -> Forall (fun x => base w <= x) l -> win_out w (mk_win b' rest) out.
Proof.
  intros E Hs Hb Hl. apply win_run_spec in E as (-> & Hbb & Hout & _); [|done].
  apply sorted_app_l in Hs. apply Forall_app in Hl as [Hl _].
  split; [done|]. split; [cbn [base]; lia|]. rewrite Forall_forall in *.
  intros x Hx. specialize (Hl x Hx). specialize (Hout x Hx). cbn [base] in *. lia.
Qed.

Lemma win_recv_out size w p w' out : 1 <= size -> win_ok size w ->
  win_recv size w p = Some (w', out) -> win_out w w' out.
Proof.
  intros Hsz [Hs Hb] E. unfold win_recv in E. destruct (_ || _) eqn:E0; [done|].
  apply orb_false_elim in E0 as [E0 Hni]. apply bool_decide_eq_false in Hni. bool_to_prop.
  destruct (win_run _ _) as [[b out1] rest] eqn:Er. injection E as <- <-.
  eapply win_run_out; [done|by apply win_insert_sorted| |].
  - destruct (Z.eqb_spec p (base w)); [lia|]. destruct (Z.ltb_spec (base w + size - 1) p); lia.
  - rewrite win_insert_perm. constructor; [lia|]. eapply Forall_impl; [|exact Hb]. simpl. lia.
Qed.

Lemma win_flush_out size w w' out : win_ok size w -> win_flush w = (w', out) ->
  win_out w w' out /\ win_ok size w'.
Proof.
  intros Hok E. unfold win_flush in E. destruct (buf w) as [|x l] eqn:Eb.
  { injection E as <- <-. split; [apply win_out_nil|done]. }
  destruct Hok as [Hs Hb]. rewrite Eb in *.
  destruct (win_run _ _) as [[b out1] rest] eqn:Er. injection E as <- <-.
  inversion Hb as [|? ? Hx Hl]; subst. split.
  - eapply win_run_out; [done|done|lia|]. eapply Forall_impl; [|exact Hb]. simpl. lia.
  - apply win_run_spec in Er as (E & Hbb & _ & Hrest & _); [|done]. rewrite E in Hs, Hb.
    split; [by eapply sorted_app_r|]. cbn [base buf]. apply Forall_app in Hb as [_ Hb].
    rewrite Forall_forall in *. intros y Hy. specialize (Hb y Hy). specialize (Hrest y Hy). simpl in *. lia.
Qed.

(** The timer flushes the abstract window. *)
Lemma timer_refines ok drv s w : running drv = true -> reorder_repr (ctl s) w ->
  exists s' fs, timer_fires ok drv s = Some s' /\
    reorder_repr (ctl s') (fst (win_flush w)) /\ wsize_b (ctl s') = wsize_b (ctl s) /\
    seqs fs = wrap (snd (win_flush w)) /\ indicate_all ok drv fs (env s) = Some (env s') /\
    pending_recvframe_queue (ctl s) = fs ++ pending_recvframe_queue (ctl s').
Proof.
  intros Hr Hw. destruct s as [c d e]. pose proof Hw as [Hi Hq Hwok Hsz Hfr]. cbn [ctl env] in *.
  assert (bDriverStopped drv || bSurpriseRemoved drv = false) as Hdrv.
  { unfold running in Hr. destruct (bDriverStopped drv), (bSurpriseRemoved drv); done. }
  unfold timer_fires, rtw_reordering_ctrl_timeout_handler, recv_indicatepkts_in_order, win_flush.
  rewrite Hdrv. cbn [ctl env dbg set_timer pending_recvframe_queue].
  destruct (pending_recvframe_queue c) as [|f q] eqn:Eq; destruct (buf w) as [|x l] eqn:Eb; try done;
    cbn [mbind option_bind fst snd ctl env dbg set_timer].
  { eexists _, []. split; [done|]. split; [|done]. destruct w as [b bu]. cbn [buf base] in *. subst bu.
    constructor; cbn [set_timer ctl indicate_seq pending_recvframe_queue wsize_b buf base]; rewrite ?Eq; done. }
  pose proof Hwok as [Hs Hb]. rewrite Eb in Hs, Hb.
  destruct (win_run x (x :: l)) as [[b' out] rest] eqn:Er.
  destruct (indicate_loop_sim ok drv (base w) (base w + wsize_b c) Hr ltac:(lia) (f :: q) (x :: l) x
    b' out rest Hfr Hq) with (e := e) as (fs & q' & e' & E & Hfs & Hq' & Hall & Hloop); try done.
  { eapply Forall_impl; [|exact Hb]. simpl. lia. }
  { inversion Hb; subst. lia. }
  injection Hq as Hx _. rewrite Hx, Hloop. cbn [mbind option_bind fst snd].
  destruct (win_flush_out _ w (mk_win b' rest) out Hwok) as [_ Hok'].
  { unfold win_flush. by rewrite Eb, Er. }
  rewrite E in Hfr. apply Forall_app in Hfr as [_ Hfr].
  eexists _, fs. split; [done|]. cbn [ctl env].
  split; [|split; [by destruct q'|]].
  - destruct q'; by constructor.
  - split; [done|]. split; [done|]. rewrite E. by destruct q'.
Qed.

(** *** Sessions with the sender's positions

    The sender counts the frames of a session: the frame at position [x] has the sequence
    number [x mod 4096].  The window start of the receiver, as a position, is followed by
    its advances. *)
Definition window_start (b : Z) (c : recv_reorder_ctrl) : Z := b + (indicate_seq c - b) mod 4096.

(** Frames received (with their positions, each within 2048 of the window start) and
    timer expiries, from a state with the window start [b]. *)
Inductive session (ok : Z -> bool) (drv : drv_flags)
    : rx_state -> Z -> list (Z * rframe) -> rx_state -> Z -> Prop :=
| session_done s b : session ok drv s b [] s b
| session_frame s b x f s1 r rcv s' b' :
    frame_ready f -> seq_num (attrib f) = x mod 4096 -> -2048 <= x - b < 2048 ->
    reorder_window ok drv f s = Some (s1, r) ->
    session ok drv s1 (window_start b (ctl s1)) rcv s' b' -> session ok drv s b ((x, f) :: rcv) s' b'
| session_timer s b s1 rcv s' b' :
    timer_fires ok drv s = Some s1 ->
    session ok drv s1 (window_start b (ctl s1)) rcv s' b' -> session ok drv s b rcv s' b'.

(** The buffered frames with their positions. *)
Definition labelled (c : recv_reorder_ctrl) (w : win) : list (Z * rframe) :=
  zip (buf w) (pending_recvframe_queue c).
(** The receiver has no use for (another) frame of this position: it lies before the
    window start, or is buffered. *)
Definition settled (w : win) (x : Z) : Prop := x < base w \/ x ∈ buf w.

Lemma frame_pos_unique w x : -2048 <= x - base w < 2048 -> frame_pos w (x mod 4096) = x.
Proof. unfold frame_pos. intros H. Z.to_euclidean_division_equations. lia. Qed.

Lemma window_start_repr c w w' : reorder_repr c w' -> base w <= base w' < base w + 4096 ->
  window_start (base w) c = base w'.
Proof. intros [Hi _ _ _ _] H. unfold window_start. rewrite Hi. Z.to_euclidean_division_equations. lia. Qed.

(** Within 4096 positions the sequence number tells the position. *)
Lemma zip_labels b out fs : seqs fs = wrap out -> Forall (fun x => b <= x < b + 4096) out ->
  zip out fs = map (fun f => (b + (seq_num (attrib f) - b) mod 4096, f)) fs.
Proof.
  revert out. induction fs as [|f fs IH]; intros [|x out] E H; try done. injection E as Hx E.
  inversion H as [|? ? Hx1 H1]; subst. cbn [zip zip_with map]. f_equal; [|by apply IH].
  f_equal. rewrite Hx. clear -Hx1. Z.to_euclidean_division_equations. lia.
Qed.

Lemma zip_perm b (l l' : list Z) q q' : seqs q = wrap l -> seqs q' = wrap l' ->
  Forall (fun x => b <= x < b + 4096) l -> Permutation l l' -> Permutation q q' ->
  Permutation (zip l q) (zip l' q').
Proof.
  intros Hq Hq' Hl Hp Hpq. rewrite (zip_labels b l q), (zip_labels b l' q') by (done || by rewrite <- Hp).
  by rewrite Hpq.
Qed.

Lemma seqs_length q l : seqs q = wrap l -> length q = length l.
Proof. intros H. apply (f_equal length) in H. unfold seqs, wrap in H. by rewrite !length_map in H. Qed.

Lemma zip_app_seqs l l' q q' : seqs q = wrap l -> zip (l ++ l') (q ++ q') = zip l q ++ zip l' q'.
Proof. intros H. apply zip_with_app. symmetry. by apply seqs_length. Qed.

(** What the abstract window takes in it delivers or keeps, within 2048 of its start. *)
Lemma win_recv_keeps size w p w' out : 1 <= size < 256 -> win_ok size w -> p < base w + 2048 ->
  win_recv size w p = Some (w', out) ->
  Permutation (p :: buf w) (out ++ buf w') /\ base w' <= base w + 2048 /\
  Forall (fun x => base w <= x < base w + 4096) (p :: buf w).
Proof.
  intros Hsz [Hs Hb] Hp E. unfold win_recv in E.
  destruct (_ || _) eqn:E0; [done|]. apply orb_false_elim in E0 as [E0 Hni].
  apply bool_decide_eq_false in Hni. bool_to_prop. fold (win_base size w p) in E.
  assert (Hr : Forall (fun x => base w <= x < base w + 2048) (p :: buf w)).
  { constructor; [lia|]. eapply Forall_impl; [|exact Hb]. simpl. lia. }
  destruct (win_run _ _) as [[b out1] rest] eqn:Er. injection E as <- <-.
  apply win_run_spec in Er as (Hl & _ & _ & _ & Hin); [|by apply win_insert_sorted]. cbn [base buf].
  rewrite <- Hl, win_insert_perm. split; [done|]. split.
  - destruct Hin as [-> |Hin].
    + unfold win_base. destruct (Z.eqb_spec p (base w)); [lia|]. destruct (Z.ltb_spec (base w + size - 1) p); lia.
    + rewrite <- (win_insert_perm p (buf w)), Hl in Hr. apply Forall_app in Hr as [Hr _].
      rewrite Forall_forall in Hr. specialize (Hr _ Hin). simpl in Hr. lia.
  - eapply Forall_impl; [|exact Hr]. simpl. lia.
Qed.

Lemma win_flush_keeps size w w' out : 1 <= size < 256 -> win_ok size w -> win_flush w = (w', out) ->
  buf w = out ++ buf w' /\ base w' <= base w + 2048 /\ Forall (fun x => base w <= x < base w + 4096) (buf w).
Proof.
  intros Hsz [Hs Hb] E. unfold win_flush in E.
  assert (Hr : Forall (fun x => base w <= x < base w + 4096) (buf w))
    by (eapply Forall_impl; [|exact Hb]; simpl; lia).
  destruct (buf w) as [|x l] eqn:Eb; [injection E as <- <-; rewrite Eb; split; [done|split; [lia|done]]|].
  destruct (win_run _ _) as [[b out1] rest] eqn:Er. injection E as <- <-. cbn [base buf].
  apply win_run_spec in Er as (Hl & _ & _ & _ & Hin); [|done]. split; [done|]. split; [|done].
  destruct Hin as [-> |Hin]; [inversion Hb; subst; lia|].
  rewrite Hl in Hb. apply Forall_app in Hb as [Hb _]. rewrite Forall_forall in Hb.
  specialize (Hb _ Hin). simpl in Hb. lia.
Qed.

(** One step: what it delivers, keeps and drops. *)
Record step_result ok drv (s s' : rx_state) (w w' : win) (rcv out dropped : list (Z * rframe)) : Prop := {
  sr_repr : reorder_repr (ctl s') w';
  sr_out : win_out w w' (map fst out);
  sr_near : base w' < base w + 4096;
  sr_env : indicate_all ok drv (map snd out) (env s) = Some (env s');
  sr_kept : Permutation (labelled (ctl s) w ++ rcv) (out ++ labelled (ctl s') w' ++ dropped);
  sr_dropped : Forall (fun xf => settled w' (fst xf)) dropped;
  sr_settled : forall x, settled w x -> settled w' x
}.

Lemma frame_step ok drv s s' r w x f : running drv = true -> reorder_repr (ctl s) w ->
  frame_ready f -> seq_num (attrib f) = x mod 4096 -> -2048 <= x - base w < 2048 ->
  reorder_window ok drv f s = Some (s', r) ->
  exists w' out dropped, step_result ok drv s s' w w' [(x, f)] out dropped.
Proof.
  intros Hr Hw Hf Hx Hnear E. pose proof Hw as [_ Hq Hok Hsz _].
  assert (Hseq : 0 <= seq_num (attrib f) < 4096) by (rewrite Hx; apply Z.mod_pos_bound; lia).
  destruct (reorder_window_sim ok drv f s w Hr Hf Hseq Hw) as (s1 & r1 & E1 & Hcase).
  rewrite E in E1. injection E1 as <- <-. rewrite Hx, frame_pos_unique in Hcase by done.
  destruct (win_recv _ w x) as [[w' out]|] eqn:Ew.
  - destruct Hcase as (_ & Hw' & _ & (fs & Hfs & Hall & Hperm) & _).
    pose proof (rr_seqs _ _ Hw') as Hq'.
    destruct (win_recv_keeps _ w x w' out Hsz Hok ltac:(lia) Ew) as (Hk & Hb & Hrange).
    pose proof (win_recv_out (wsize_b (ctl s)) _ _ _ _ ltac:(lia) Hok Ew) as Hout.
    exists w', (zip out fs), []. pose proof (seqs_length _ _ Hfs) as Hlen.
    constructor; rewrite ?fst_zip, ?snd_zip by lia; try done; [lia| |].
    + rewrite app_nil_r. unfold labelled. rewrite <- (zip_app_seqs out _ fs) by done.
      rewrite Permutation_app_comm.
      apply (zip_perm (base w) (x :: buf w) (out ++ buf w') (f :: pending_recvframe_queue (ctl s))); try done;
        unfold seqs, wrap in *; cbn [map]; by rewrite ?map_app, ?Hx, ?Hfs, ?Hq, ?Hq'.
    + intros y [Hy|Hy]; [left; destruct Hout as (_ & ? & _); lia|].
      assert (Hy1 : y ∈ out ++ buf w') by (rewrite <- Hk; by right). apply elem_of_app in Hy1 as [Hy1|Hy1]; [left|by right].
      destruct Hout as (_ & _ & Ho). rewrite Forall_forall in Ho. apply list_elem_of_In, Ho in Hy1. lia.
  - destruct Hcase as (_ & Hc & He). exists w, [], [(x, f)].
    constructor; unfold labelled; rewrite ?Hc, ?He; try done; [apply win_out_nil|lia|].
    constructor; [cbn [fst]|constructor]. unfold win_recv in Ew. destruct (_ || _) eqn:E0; [|by destruct (win_run _ _) as [[? ?] ?]].
    apply orb_true_iff in E0 as [E0|E0]; [left; bool_to_prop; simpl; lia|right; by apply bool_decide_eq_true in E0].
Qed.

Lemma timer_step_result ok drv s s' w : running drv = true -> reorder_repr (ctl s) w ->
  timer_fires ok drv s = Some s' -> exists w' out, step_result ok drv s s' w w' [] out [].
Proof.
  intros Hr Hw E. pose proof Hw as [_ Hq Hok Hsz _].
  destruct (timer_refines ok drv s w Hr Hw) as (s1 & fs & E1 & Hw' & _ & Hfs & Hall & Hpend).
  rewrite E in E1. injection E1 as <-. destruct (win_flush w) as [w' out] eqn:Ew. cbn [fst snd] in *.
  pose proof (rr_seqs _ _ Hw') as Hq'. pose proof (seqs_length _ _ Hfs) as Hlen.
  destruct (win_flush_keeps _ _ _ _ Hsz Hok Ew) as (Hk & Hb & Hrange).
  destruct (win_flush_out _ _ _ _ Hok Ew) as [Hout _].
  exists w', (zip out fs). constructor; rewrite ?fst_zip, ?snd_zip by lia; try done; [lia| |].
  - rewrite !app_nil_r. unfold labelled. by rewrite Hk, Hpend, zip_app_seqs.
  - intros y [Hy|Hy]; [left; destruct Hout as (_ & ? & _); lia|].
    rewrite Hk in Hy. apply elem_of_app in Hy as [Hy|Hy]; [left|by right].
    destruct Hout as (_ & _ & Ho). rewrite Forall_forall in Ho. apply list_elem_of_In, Ho in Hy. lia.
Qed.

(** The results of two runs, one after the other. *)
Lemma step_result_app ok drv s s1 s2 w w1 w2 rcv rcv' out out' d d' :
  step_result ok drv s s1 w w1 rcv out d ->
  reorder_repr (ctl s2) w2 /\ win_out w1 w2 (map fst out') /\
  indicate_all ok drv (map snd out') (env s1) = Some (env s2) /\
  Permutation (labelled (ctl s1) w1 ++ rcv') (out' ++ labelled (ctl s2) w2 ++ d') /\
  Forall (fun xf => settled w2 (fst xf)) d' /\ (forall x, settled w1 x -> settled w2 x) ->
  reorder_repr (ctl s2) w2 /\ win_out w w2 (map fst (out ++ out')) /\
  indicate_all ok drv (map snd (out ++ out')) (env s) = Some (env s2) /\
  Permutation (labelled (ctl s) w ++ rcv ++ rcv') ((out ++ out') ++ labelled (ctl s2) w2 ++ d ++ d') /\
  Forall (fun xf => settled w2 (fst xf)) (d ++ d') /\ (forall x, settled w x -> settled w2 x).
Proof.
  intros [_ Ho _ He Hk Hd Hs] (Hw2 & Ho' & He' & Hk' & Hd' & Hs'). rewrite !map_app.
  split; [done|]. split; [by eapply win_out_app|]. split; [by eapply indicate_all_app|]. split.
  - rewrite (app_assoc (labelled (ctl s) w)), Hk, <- !app_assoc.
    rewrite (Permutation_app_comm d rcv'), (app_assoc (labelled (ctl s1) w1)), Hk', <- !app_assoc.
    by rewrite (Permutation_app_comm d' d).
  - split; [|auto]. apply Forall_app. split; [|done]. eapply Forall_impl; [|exact Hd]. simpl. auto.
Qed.

Lemma session_run ok drv s b rcv s' b' : running drv = true -> session ok drv s b rcv s' b' ->
  forall w, reorder_repr (ctl s) w -> base w = b -> exists w' out dropped, base w' = b' /\
  reorder_repr (ctl s') w' /\ win_out w w' (map fst out) /\
  indicate_all ok drv (map snd out) (env s) = Some (env s') /\
  Permutation (labelled (ctl s) w ++ rcv) (out ++ labelled (ctl s') w' ++ dropped) /\
  Forall (fun xf => settled w' (fst xf)) dropped /\ (forall x, settled w x -> settled w' x).
Proof.
  intros Hr. induction 1 as [s b|s b x f s1 r rcv s' b' Hf Hx Hn E Hses IH|s b s1 rcv s' b' E Hses IH]; intros w Hw Hb.
  - exists w, [], []. rewrite app_nil_r. split; [done|]. split; [done|]. split; [apply win_out_nil|]. done.
  - subst b. destruct (frame_step ok drv s s1 r w x f Hr Hw Hf Hx Hn E) as (w1 & o1 & d1 & H1).
    pose proof H1 as [Hw1 (_ & Hb1 & _) Hnear _ _ _ _].
    destruct (IH w1 Hw1) as (w2 & o2 & d2 & Hb2 & H2); [symmetry; apply window_start_repr; done || lia|].
    exists w2, (o1 ++ o2), (d1 ++ d2). split; [done|].
    exact (step_result_app _ _ _ _ _ _ _ _ [(x, f)] _ _ _ _ _ H1 H2).
  - subst b. destruct (timer_step_result ok drv s s1 w Hr Hw E) as (w1 & o1 & H1).
    pose proof H1 as [Hw1 (_ & Hb1 & _) Hnear _ _ _ _].
    destruct (IH w1 Hw1) as (w2 & o2 & d2 & Hb2 & H2); [symmetry; apply window_start_repr; done || lia|].
    exists w2, (o1 ++ o2), d2. split; [done|].
    exact (step_result_app _ _ _ _ _ _ _ _ [] _ _ _ [] _ H1 H2).
Qed.

(** C27: In-order delivery.  Let the sender number its frames by unbounded positions, of
    which a frame carries the last 12 bits.  Over any sequence of received frames (in any
    order, repeated, with any losses; each within 2048 positions of the window start at its
    arrival, the most that 12 bits can tell) and timer expiries within a block-ack session,
    what the driver hands to the upper layer are frames that were received (or already
    buffered), with their positions strictly increasing: none twice, none out of the
    sender's order, across any number of wrap-arounds.  All positions handed over lie
    between the window starts before and after.  Every received frame is handed over,
    still buffered, or dropped, and a frame is dropped only for a position that the window
    start has passed or that is buffered. *)
Theorem reorder_in_order ok drv s b rcv s' b' w : running drv = true ->
  reorder_repr (ctl s) w -> base w = b -> session ok drv s b rcv s' b' ->
  exists w' out dropped,
    reorder_repr (ctl s') w' /\ base w' = b' /\
    indicate_all ok drv (map snd out) (env s) = Some (env s') /\
    StronglySorted Z.lt (map fst out) /\ Forall (fun x => b <= x < b') (map fst out) /\
    Permutation (labelled (ctl s) w ++ rcv) (out ++ labelled (ctl s') w' ++ dropped) /\
    Forall (fun xf => settled w' (fst xf)) dropped.
Proof.
  intros Hr Hw Hb Hses.
  destruct (session_run ok drv s b rcv s' b' Hr Hses w Hw Hb)
    as (w' & out & dropped & Hb' & Hw' & (Hs & _ & Ho) & He & Hk & Hd & _).
  exists w', out, dropped. subst b b'. done.
Qed.

(** ** The window of a station over the life of its agreements *)

(** A received frame: well formed, and its attributes are those [validate_recv_frame]
    extracts of a header. *)
Record rx_frame_ok (f : rframe) : Prop := {
  rf_ok : rx_ok f;
  rf_hdrlen : 0 <= hdrlen (attrib f);
  rf_icv_len : 0 <= icv_len (attrib f);
  rf_seq : 0 <= seq_num (attrib f) < 4096;
  rf_amsdu : amsdu (attrib f) = 0 \/ amsdu (attrib f) = 1
}.

Lemma rx_frame_ready f : rx_frame_ok f -> frame_ready f.
Proof. intros []. by split; [|split]. Qed.

(** The states of a window from the allocation of its station on.  An agreement is
    renewed, and frames are received without one, only while no frame is pending. *)
Inductive window_reach (ok : Z -> bool) (drv : drv_flags) : rx_state -> Prop :=
| reach_init d e : window_reach ok drv (mk_rxs init_reorder d e)
| reach_addba s accept size : window_reach ok drv s -> pending_recvframe_queue (ctl s) = [] ->
    window_reach ok drv (mk_rxs (addba_ctrl accept size (ctl s)) (dbg s) (env s))
| reach_delba s : window_reach ok drv s -> window_reach ok drv (mk_rxs (delba_ctrl (ctl s)) (dbg s) (env s))
| reach_frame s f s' r : window_reach ok drv s -> rx_frame_ok f ->
    enable (ctl s) = true \/ pending_recvframe_queue (ctl s) = [] ->
    recv_indicatepkt_reorder ok drv f s = Some (s', r) -> window_reach ok drv s'
| reach_timer s s' : window_reach ok drv s -> timer (ctl s) = true ->
    timer_fires ok drv s = Some s' -> window_reach ok drv s'.

(** The window has not started, or represents an abstract window. *)
Definition window_started (c : recv_reorder_ctrl) : Prop :=
  indicate_seq c = 0xffff /\ pending_recvframe_queue c = [] \/ exists w, reorder_repr c w.

Record window_inv (c : recv_reorder_ctrl) : Prop := {
  wi_size : wsize_b c = 64;
  wi_started : window_started c;
  wi_timer : has_pending (pending_recvframe_queue c) = true -> timer c = true
}.

(** The first frame of an agreement starts the window at its own number. *)
Lemma reorder_window_first ok drv f s : 0 <= seq_num (attrib f) < 4096 ->
  indicate_seq (ctl s) = 0xffff ->
  reorder_window ok drv f s =
    reorder_window ok drv f (mk_rxs (set_seq (seq_num (attrib f)) (ctl s)) (dbg s) (env s)).
Proof.
  intros Hseq Hi. unfold reorder_window. cbn [ctl dbg env].
  assert (check_indicate_seq (ctl s) (dbg s) (seq_num (attrib f)) =
    check_indicate_seq (set_seq (seq_num (attrib f)) (ctl s)) (dbg s) (seq_num (attrib f))) as ->; [|done].
  unfold check_indicate_seq. rewrite Hi. cbn [set_seq indicate_seq]. change (0xFFFF =? 0xFFFF) with true.
  cbv iota. rewrite (proj2 (Z.eqb_neq _ 0xFFFF)) by lia. cbn [set_seq indicate_seq].
  unfold SN_EQUAL. rewrite SN_LESS_mod, Z.sub_diag, Z.eqb_refl. done.
Qed.

Lemma repr_start c i : wsize_b c = 64 -> pending_recvframe_queue c = [] -> 0 <= i < 4096 ->
  reorder_repr (set_seq i c) (mk_win i []).
Proof.
  intros Hs Hq Hi. constructor; cbn [set_seq indicate_seq pending_recvframe_queue wsize_b base buf];
    rewrite ?Hs, ?Hq;
    [by rewrite Z.mod_small|done|by repeat constructor|lia|constructor].
Qed.

Lemma window_inv_frame ok drv f s s' r : running drv = true -> window_inv (ctl s) ->
  rx_frame_ok f -> reorder_window ok drv f s = Some (s', r) -> window_inv (ctl s').
Proof.
  intros Hr [Hsz Hst Ht] Hf E. pose proof (rf_seq _ Hf) as Hseq. apply rx_frame_ready in Hf.
  assert (exists s1 w, reorder_repr (ctl s1) w /\ reorder_window ok drv f s1 = Some (s', r) /\
    wsize_b (ctl s1) = 64 /\ (has_pending (pending_recvframe_queue (ctl s1)) = true -> timer (ctl s1) = true))
    as (s1 & w & Hw & E1 & Hsz1 & Ht1).
  { destruct Hst as [[Hi Hq]|[w Hw]]; [|by exists s, w].
    rewrite (reorder_window_first _ _ _ _ Hseq Hi) in E.
    eexists _, _. split; [|split; [exact E|by split]]. cbn [ctl]. by apply repr_start. }
  destruct (reorder_window_sim ok drv f s1 w Hr Hf Hseq Hw) as (s2 & r2 & E2 & Hcase).
  rewrite E1 in E2. injection E2 as <- <-. destruct (win_recv _ _ _) as [[w' out]|].
  - destruct Hcase as (_ & Hw' & Hsz' & _ & Htm). constructor; [lia|right; by exists w'|by rewrite Htm].
  - destruct Hcase as (_ & -> & _). constructor; [done|right; by exists w|done].
Qed.

Lemma window_inv_timer ok drv s s' : running drv = true -> window_inv (ctl s) ->
  timer_fires ok drv s = Some s' -> window_inv (ctl s').
Proof.
  intros Hr [Hsz Hst Ht] E.
  assert (Htm : has_pending (pending_recvframe_queue (ctl s')) = true -> timer (ctl s') = true).
  { destruct (pending_recvframe_queue (ctl s)) as [|f q] eqn:Eq.
    - destruct s as [c d e]. cbn [ctl] in *.
      unfold timer_fires, rtw_reordering_ctrl_timeout_handler, recv_indicatepkts_in_order in E.
      destruct (bDriverStopped drv || bSurpriseRemoved drv); cbn [ctl env dbg set_timer pending_recvframe_queue] in E;
        rewrite ?Eq in E; injection E as <-; cbn; by rewrite Eq.
    - assert (Forall frame_ready (pending_recvframe_queue (ctl s))) as Hfr.
      { destruct Hst as [[_ Hq]|[w Hw]]; [congruence|by destruct Hw]. }
      destruct (timer_fires_run ok drv s Hr Hfr) as (fs & s1 & E1 & _ & _ & _ & Ht1); [congruence|].
      rewrite E in E1. injection E1 as <-. by rewrite Ht1. }
  destruct Hst as [[Hi Hq]|[w Hw]].
  - destruct s as [c d e]. cbn [ctl] in *.
    unfold timer_fires, rtw_reordering_ctrl_timeout_handler, recv_indicatepkts_in_order in E.
    destruct (bDriverStopped drv || bSurpriseRemoved drv); cbn [ctl env dbg set_timer pending_recvframe_queue] in E;
      rewrite ?Hq in E; injection E as <-; cbn in *; (constructor; cbn; [done|by left|done]).
  - destruct (timer_refines ok drv s w Hr Hw) as (s1 & fs & E1 & Hw' & Hsz' & _).
    rewrite E in E1. injection E1 as <-. constructor; [lia|right; by eexists|done].
Qed.

Lemma rx_frame_ok_ethhdr f f' : rx_frame_ok f -> wlanhdr_to_ethhdr false f = Some (f', _SUCCESS) ->
  rx_frame_ok f' /\ seq_num (attrib f') = seq_num (attrib f).
Proof.
  intros [] E. destruct (wlanhdr_to_ethhdr_ready f f') as (H & _ & t & Ha); [done..|].
  rewrite Ha. split; [|done]. constructor; by rewrite ?Ha.
Qed.

(** Without an agreement every frame moves the window start after itself. *)
Lemma window_inv_set_seq c i : window_inv c -> pending_recvframe_queue c = [] -> 0 <= i < 4096 ->
  window_inv (set_seq i c).
Proof.
  intros [Hsz _ Ht] Hq Hi. constructor; [done| |done].
  right. exists (mk_win i []). by apply repr_start.
Qed.

Lemma next_seq_range i : 0 <= u16 ((i + 1) mod 4096) < 4096.
Proof. pose proof (Z.mod_pos_bound (i + 1) 4096). rewrite u16_id by lia. lia. Qed.

#[global] Strategy 1000 [amsdu_to_msdu amsdu_loop wlanhdr_to_ethhdr reorder_window rtw_recv_indicatepkt].

Lemma window_inv_step ok drv f s s' r : running drv = true -> mp_state drv = false ->
  window_inv (ctl s) -> rx_frame_ok f ->
  enable (ctl s) = true \/ pending_recvframe_queue (ctl s) = [] ->
  recv_indicatepkt_reorder ok drv f s = Some (s', r) -> window_inv (ctl s').
Proof.
  intros Hr Hmp Hinv Hf Hen E. unfold recv_indicatepkt_reorder in E. rewrite Hmp in E.
  assert (Hdis : forall e, enable (ctl s) = false ->
    window_inv (ctl (mk_rxs (set_seq (u16 ((seq_num (attrib f) + 1) mod 4096)) (ctl s)) (dbg s) e))).
  { intros e He. destruct Hen as [|Hq]; [congruence|]. cbn [ctl].
    apply window_inv_set_seq; [done|done|apply next_seq_range]. }
  destruct (rf_amsdu _ Hf) as [Ha|Ha]; rewrite Ha in E; cbn [Z.eqb] in E.
  - apply bind_Some in E as ([f1 ret] & E1 & E).
    destruct (Z.eqb_spec ret _SUCCESS) as [->|]; cbn [negb] in E; [|by injection E as <- <-].
    destruct (rx_frame_ok_ethhdr f f1 Hf E1) as [Hf1 Hs1].
    destruct (qos (attrib f) =? 1); cbn [negb] in E.
    + destruct (enable (ctl s)) eqn:He; cbn [negb] in E.
      * exact (window_inv_frame ok drv f1 s s' r Hr Hinv Hf1 E).
      * apply bind_Some in E as ([e ?] & _ & E). injection E as <- <-. by apply Hdis.
    + rewrite Hr in E. apply bind_Some in E as ([e ?] & _ & E). by injection E as <- <-.
  - destruct (enable (ctl s)) eqn:He; cbn [negb] in E.
    + exact (window_inv_frame ok drv f s s' r Hr Hinv Hf E).
    + apply bind_Some in E as ([e ?] & _ & E). injection E as <- <-. by apply Hdis.
Qed.

(** An increasing list of integers between two bounds is short. *)
Lemma sorted_short l lo hi : StronglySorted Z.lt l -> Forall (fun x => lo <= x < hi) l ->
  zlen l <= Z.max 0 (hi - lo).
Proof.
  revert lo. induction l as [|x l IH]; intros lo Hs Hl; [rewrite zlen_nil; lia|].
  inversion Hs as [|? ? Hs' Hx]; subst. inversion Hl as [|? ? Hx0 Hl']; subst.
  rewrite zlen_cons. specialize (IH (x + 1) Hs').
  assert (Forall (fun y => x + 1 <= y < hi) l) as H.
  { rewrite Forall_forall in *. intros y Hy. specialize (Hx y Hy). specialize (Hl' y Hy). simpl in *. lia. }
  specialize (IH H). lia.
Qed.

(** The offsets of the pending frames from the window start. *)
Definition offsets (c : recv_reorder_ctrl) : list Z :=
  map (fun s => (s - indicate_seq c) mod 4096) (seqs (pending_recvframe_queue c)).

Lemma offsets_repr c w : reorder_repr c w -> offsets c = map (fun x => x - base w) (buf w).
Proof.
  intros [Hi Hq [_ Hr] Hsz _]. unfold offsets. rewrite Hq, Hi. unfold wrap. rewrite map_map.
  apply map_ext_in. intros x Hx. rewrite Forall_forall in Hr. specialize (Hr x Hx).
  rewrite <- Zminus_mod. apply Z.mod_small. lia.
Qed.

Lemma sorted_shift l b : StronglySorted Z.lt l -> StronglySorted Z.lt (map (fun x => x - b) l).
Proof.
  induction 1 as [|x l Hl IH Hx]; simpl; constructor; [done|].
  apply Forall_map. eapply Forall_impl; [|exact Hx]. simpl. lia.
Qed.

(** The reordering buffer.  In every state reached from the allocation of a station
    by agreements, teardowns, received frames and timer expiries, the pending frames are
    in the order of their distance from the window start, which lies strictly between 0
    and the window size of 64: so no number is buffered twice, and never more than 63
    frames are; every one is well formed; and the timer is armed while frames are
    pending. *)
Theorem reorder_window_invariant ok drv s : running drv = true -> mp_state drv = false ->
  window_reach ok drv s ->
  StronglySorted Z.lt (offsets (ctl s)) /\ Forall (fun o => 0 < o < 64) (offsets (ctl s)) /\
  (length (pending_recvframe_queue (ctl s)) <= 63)%nat /\
  Forall frame_ready (pending_recvframe_queue (ctl s)) /\
  (pending_recvframe_queue (ctl s) <> [] -> timer (ctl s) = true).
Proof.
  intros Hr Hmp H. assert (window_inv (ctl s)) as [Hsz Hst Ht].
  { induction H as [d e|s acc size _ IH Hq|s _ IH|s f s' r _ IH Hf Hen E|s s' _ IH _ E].
    - constructor; cbn; [reflexivity|left; by split|discriminate].
    - destruct IH as [Hsz _ Ht]. constructor; cbn; [exact Hsz|left; by split|exact Ht].
    - destruct IH as [Hsz Hst Ht]. constructor; [done| |done].
      destruct Hst as [Hst|[w []]]; [by left|right]. exists w. by constructor.
    - by eapply window_inv_step.
    - by eapply window_inv_timer. }
  assert (Htm : pending_recvframe_queue (ctl s) <> [] -> timer (ctl s) = true).
  { intros Hne. apply Ht. by destruct (pending_recvframe_queue (ctl s)). }
  destruct Hst as [[Hi Hq]|[w Hw]].
  - unfold offsets, seqs. rewrite Hq. cbn [map length]. repeat split; [constructor..|lia|constructor|congruence].
  - pose proof Hw as [_ Hseqs [Hsort Hrng] _ Hfr]. rewrite (offsets_repr _ _ Hw). rewrite Hsz in Hrng.
    split; [by apply sorted_shift|]. split.
    { apply Forall_map. eapply Forall_impl; [|exact Hrng]. simpl. lia. }
    split; [|done]. pose proof (sorted_short (buf w) (base w + 1) (base w + 64) Hsort) as Hlen.
    assert (length (pending_recvframe_queue (ctl s)) = length (buf w)) as ->.
    { apply (f_equal length) in Hseqs. unfold seqs, wrap in Hseqs. by rewrite !length_map in Hseqs. }
    unfold zlen in Hlen. cut (Z.of_nat (length (buf w)) <= Z.max 0 (base w + 64 - (base w + 1))); [lia|].
    apply Hlen. eapply Forall_impl; [|exact Hrng]. simpl. lia.
Qed.

(** ** The duplicate cache *)

(** The duplicate cache.  For a frame of TID 0 to 15 with a 12-bit sequence number and
    a 4-bit fragment number, [recv_decache] refuses it exactly when the last frame
    accepted on its TID carried the same two numbers, and otherwise accepts it and records
    them for that TID only. *)
Theorem recv_decache_last a cache : length cache = 16%nat -> 0 <= priority a <= 15 ->
  0 <= seq_num a < 4096 -> 0 <= frag_num a < 16 ->
  recv_decache a cache =
    (let sc := seq_num a * 16 + frag_num a in
     if bool_decide (cache !! Z.to_nat (priority a) = Some sc) then Some (cache, _FAIL)
     else Some (<[Z.to_nat (priority a) := sc]> cache, _SUCCESS)).
Proof.
  intros Hc Hp Hs Hf. unfold recv_decache. rewrite (proj2 (Z.ltb_ge 15 _)) by lia.
  rewrite (land_mask (seq_num a) 16), (land_mask (frag_num a) 4) by lia.
  rewrite !Z.mod_small by lia. rewrite Z.lor_comm, lor_shiftl_add by lia.
  rewrite u16_id by lia. destruct (lookup_lt_is_Some_2 cache (Z.to_nat (priority a)) ltac:(lia)) as [c Hlk].
  rewrite Hlk. cbn [mbind option_bind]. replace (frag_num a + seq_num a * 2 ^ 4) with (seq_num a * 16 + frag_num a) by lia.
  cbv zeta. destruct (Z.eqb_spec (seq_num a * 16 + frag_num a) c) as [->|Hne].
  - by rewrite bool_decide_true.
  - rewrite bool_decide_false; [done|]. congruence.
Qed.

(** ** A renewed agreement with pending frames *)

Definition mpdu (seq : Z) : rframe :=
  mk_rf seq true 0 (mk_rxa 24 0 0 0 false 1 0 0 seq 0 0 0 [2;0;0;0;0;1] [2;0;0;0;0;2] [2;0;0;0;0;3] [2;0;0;0;0;1] 0 false)
    (replicate 24 1 ++ [0xaa; 0xaa; 3; 0; 0; 0; 8; 0; seq mod 256]) 0 33 33.
Definition up : drv_flags := mk_drv false false false ex_os.
Definition st0 : rx_state := mk_rxs (addba_ctrl true 16 init_reorder) (mk_dbg 0 0 0 0) (mk_env [] 0 [] []).

Fixpoint receive_all (fs : list rframe) (s : rx_state) : option (rx_state * list Z) :=
  match fs with
  | [] => Some (s, [])
  | f :: fs =>
      '(s, r) ← recv_indicatepkt_reorder (fun _ => true) up f s;
      '(s, rs) ← receive_all fs s;
      Some (s, r :: rs)
  end.

(** [process_addba_req] resets the window start but leaves the pending frames of the
    previous agreement.  With frame 10 pending, a new agreement that starts at 3000 works
    until the timer expires: the timer indicates the old frame 10, after frame 3000, and
    puts the window back to 11, so that frame 3001, the next in sequence, is dropped. *)
Theorem addba_keeps_pending_frames :
  exists s1 s2 s3 s4,
    receive_all [mpdu 8; mpdu 10] st0 = Some (s1, [_SUCCESS; _SUCCESS]) /\
    receive_all [mpdu 3000] (mk_rxs (addba_ctrl true 16 (ctl s1)) (dbg s1) (env s1)) = Some (s2, [_SUCCESS]) /\
    timer_fires (fun _ => true) up s2 = Some s3 /\
    free_recv_queue (env s3) = [8; 3000; 10] /\ indicate_seq (ctl s3) = 11 /\
    receive_all [mpdu 3001] s3 = Some (s4, [_FAIL]).
Proof.
  eexists _, _, _, _. split; [vm_compute; reflexivity|]. split; [vm_compute; reflexivity|].
  split; [vm_compute; reflexivity|]. split; [vm_compute; reflexivity|].
  split; vm_compute; reflexivity.
Qed.

(** ** Witnesses *)

Lemma mpdu_ok seq : 0 <= seq < 4096 -> rx_frame_ok (mpdu seq).
Proof.
  intros H. constructor; [constructor| | | |]; cbn [mpdu attrib hdrlen icv_len seq_num amsdu rx_data rx_tail rx_len rx_mem].
  2: change (zlen _) with 33. all: lia.
Qed.

Definition s4095 : rx_state :=
  mk_rxs (mk_reorder true 4095 0xffff 64 16 [mpdu 1] true) (mk_dbg 0 0 0 0) (mk_env [] 0 [] []).

Lemma s4095_repr : reorder_repr (ctl s4095) (mk_win 4095 [4097]).
Proof.
  constructor; cbn [s4095 ctl indicate_seq pending_recvframe_queue wsize_b base buf]; try done; try lia.
  - split; [repeat constructor|constructor; [simpl; lia|constructor]].
  - constructor; [|constructor]. apply rx_frame_ready, mpdu_ok. lia.
Qed.

Lemma reorder_window_refines_witness :
  exists s' r, reorder_window (fun _ => true) up (mpdu 0) s4095 = Some (s', r) /\ r = _SUCCESS.
Proof.
  destruct (reorder_window_refines (fun _ => true) up (mpdu 0) s4095 (mk_win 4095 [4097])) as (s' & r & E & H).
  - reflexivity.
  - apply rx_frame_ready, mpdu_ok. lia.
  - simpl. lia.
  - exact s4095_repr.
  - exists s', r. split; [exact E|]. destruct (win_recv _ _ _) as [[w' out]|] eqn:Ew.
    + exact (proj1 H).
    + vm_compute in Ew. discriminate Ew.
Defined.

Lemma reorder_timer_drains_witness :
  exists n s', (0 < n <= 1)%nat /\ nsteps (timer_step (fun _ => true) up) n s4095 s' /\
    pending_recvframe_queue (ctl s') = [] /\ timer (ctl s') = false /\
    indicate_all (fun _ => true) up [mpdu 1] (mk_env [] 0 [] []) = Some (env s').
Proof.
  apply (reorder_timer_drains (fun _ => true) up s4095); [reflexivity| |discriminate|reflexivity].
  exact (rr_frames _ _ s4095_repr).
Defined.

(** Frame 4095 arrives late, twice, with 4097 buffered; then the timer gives up 4096. *)
Lemma reorder_in_order_witness :
  exists s' b', session (fun _ => true) up s4095 4095 [(4095, mpdu 4095); (4095, mpdu 4095)] s' b' /\
    exists w' out dropped, reorder_repr (ctl s') w' /\ base w' = b' /\
      indicate_all (fun _ => true) up (map snd out) (mk_env [] 0 [] []) = Some (env s') /\
      StronglySorted Z.lt (map fst out) /\ Forall (fun x => 4095 <= x < b') (map fst out) /\
      Permutation ([(4097, mpdu 1)] ++ [(4095, mpdu 4095); (4095, mpdu 4095)])
        (out ++ labelled (ctl s') w' ++ dropped) /\
      Forall (fun xf => settled w' (fst xf)) dropped.
Proof.
  assert (exists s' b', session (fun _ => true) up s4095 4095 [(4095, mpdu 4095); (4095, mpdu 4095)] s' b')
    as (s' & b' & H).
  { eexists _, _.
    eapply session_frame; [apply rx_frame_ready, mpdu_ok; lia|reflexivity|lia|vm_compute; reflexivity|].
    eapply session_frame; [apply rx_frame_ready, mpdu_ok; lia|reflexivity|by vm_compute|vm_compute; reflexivity|].
    eapply session_timer; [vm_compute; reflexivity|apply session_done]. }
  exists s', b'. split; [exact H|].
  exact (reorder_in_order (fun _ => true) up s4095 4095 _ s' b' (mk_win 4095 [4097]) eq_refl s4095_repr eq_refl H).
Defined.

Lemma reorder_window_invariant_witness :
  exists s, window_reach (fun _ => true) up s /\ length (pending_recvframe_queue (ctl s)) = 1%nat /\
    StronglySorted Z.lt (offsets (ctl s)).
Proof.
  assert (window_reach (fun _ => true) up (mk_rxs (addba_ctrl true 16 init_reorder) (mk_dbg 0 0 0 0) (mk_env [] 0 [] []))) as H0.
  { apply (reach_addba _ _ (mk_rxs init_reorder (mk_dbg 0 0 0 0) (mk_env [] 0 [] [])) true 16);
      [apply reach_init|reflexivity]. }
  assert (exists s, window_reach (fun _ => true) up s /\ length (pending_recvframe_queue (ctl s)) = 1%nat)
    as (s & Hs & Hl).
  { eexists. split; [eapply (reach_frame _ _ _ (mpdu 7)); [eapply (reach_frame _ _ _ (mpdu 5)); [exact H0|..]|..]|].
    - apply mpdu_ok. lia.
    - left. reflexivity.
    - vm_compute. reflexivity.
    - apply mpdu_ok. lia.
    - left. reflexivity.
    - vm_compute. reflexivity.
    - reflexivity. }
  exists s. split; [exact Hs|]. split; [exact Hl|].
  exact (proj1 (reorder_window_invariant (fun _ => true) up s eq_refl eq_refl Hs)).
Defined.

Lemma recv_decache_last_witness :
  recv_decache (attrib (mpdu 5)) (replicate 16 0xffff) =
    Some (<[0%nat := 80]> (replicate 16 0xffff), _SUCCESS).
Proof.
  apply (recv_decache_last (attrib (mpdu 5)) (replicate 16 0xffff)); [reflexivity|simpl; lia..].
Defined.
