(* ===== verification/WifiHdr.v ===== *)
(** * The 802.11 header (include/wifi.h)

    The macros and inline functions that read the frame control field, the addresses, the
    sequence control and QoS fields of a received frame.  A header is the list of its
    bytes; [le16_to_cpu] reads two bytes, low byte first. *)

From S2P Require Import Prelude SecFrames.

Definition BIT (n : Z) : Z := 1 .<< n.

Definition le16_at (p : list Z) (off : Z) : Z := ld0 p off .| (ld0 p (off + 1) .<< 8).
Definition fc_bit (n : Z) (p : list Z) : bool := negb (le16_at p 0 .& BIT n =? 0).

(** ** Frame control *)

Definition WIFI_MGT_TYPE : Z := 0.
Definition WIFI_CTRL_TYPE : Z := 4.
Definition WIFI_DATA_TYPE : Z := 8.
Definition WIFI_QOS_DATA_TYPE : Z := 0x88.
Definition WIFI_PSPOLL : Z := 0xa4.
Definition WIFI_DATA_NULL : Z := 0x48.
Definition WIFI_DEAUTH : Z := 0xc0.
Definition WIFI_DISASSOC : Z := 0xa0.
Definition WIFI_ACTION : Z := 0xd0.

Definition GetToDs (p : list Z) : bool := fc_bit 8 p.
Definition GetFrDs (p : list Z) : bool := fc_bit 9 p.
Definition GetMFrag (p : list Z) : bool := fc_bit 10 p.
Definition GetRetry (p : list Z) : bool := fc_bit 11 p.
Definition GetPwrMgt (p : list Z) : bool := fc_bit 12 p.
Definition GetMData (p : list Z) : bool := fc_bit 13 p.
Definition GetPrivacy (p : list Z) : bool := fc_bit 14 p.
Definition GetOrder (p : list Z) : bool := fc_bit 15 p.
Definition get_tofr_ds (p : list Z) : Z := (Z.b2z (GetToDs p) .<< 1) .| Z.b2z (GetFrDs p).
Definition GetFrameType (p : list Z) : Z := le16_at p 0 .& (BIT 3 .| BIT 2).
Definition GetFrameSubType (p : list Z) : Z :=
  le16_at p 0 .& (BIT 7 .| BIT 6 .| BIT 5 .| BIT 4 .| BIT 3 .| BIT 2).

(** ** The other fields *)

Definition GetAid (p : list Z) : Z := le16_at p 2 .& 0x3fff.
Definition GetSequence (p : list Z) : Z := le16_at p 22 .>> 4.
Definition GetFragNum (p : list Z) : Z := le16_at p 22 .& 0x0f.
Definition GetPriority (p : list Z) : Z := le16_at p 0 .& 0xf.
Definition GetAckpolicy (p : list Z) : Z := (le16_at p 0 .>> 5) .& 0x3.
Definition GetAMsdu (p : list Z) : Z := (le16_at p 0 .>> 7) .& 0x1.

Definition addr_at (off : nat) (p : list Z) : list Z := take 6 (drop off p).
Definition GetAddr1Ptr (p : list Z) : list Z := addr_at 4 p.
Definition GetAddr2Ptr (p : list Z) : list Z := addr_at 10 p.
Definition GetAddr3Ptr (p : list Z) : list Z := addr_at 16 p.
Definition GetAddr4Ptr (p : list Z) : list Z := addr_at 24 p.

Definition get_da (p : list Z) : list Z :=
  let to_fr_ds := get_tofr_ds p in
  if to_fr_ds =? 0 then GetAddr1Ptr p
  else if to_fr_ds =? 1 then GetAddr1Ptr p
  else if to_fr_ds =? 2 then GetAddr3Ptr p
  else GetAddr3Ptr p.

Definition get_sa (p : list Z) : list Z :=
  let to_fr_ds := get_tofr_ds p in
  if to_fr_ds =? 0 then GetAddr2Ptr p
  else if to_fr_ds =? 1 then GetAddr3Ptr p
  else if to_fr_ds =? 2 then GetAddr2Ptr p
  else GetAddr4Ptr p.

(** NULL in none of the four cases. *)
Definition get_hdr_bssid (p : list Z) : option (list Z) :=
  let to_fr_ds := get_tofr_ds p in
  if to_fr_ds =? 0 then Some (GetAddr3Ptr p)
  else if to_fr_ds =? 1 then Some (GetAddr2Ptr p)
  else if to_fr_ds =? 2 then Some (GetAddr1Ptr p)
  else if to_fr_ds =? 3 then Some (GetAddr1Ptr p)
  else None.

(** ** Facts *)

Lemma get_tofr_ds_cases p :
  get_tofr_ds p = if GetToDs p then (if GetFrDs p then 3 else 2) else (if GetFrDs p then 1 else 0).
Proof. unfold get_tofr_ds. by destruct (GetToDs p), (GetFrDs p). Qed.

Lemma get_hdr_bssid_total p : exists b, get_hdr_bssid p = Some b.
Proof.
  unfold get_hdr_bssid. rewrite get_tofr_ds_cases.
  destruct (GetToDs p), (GetFrDs p); eexists; reflexivity.
Qed.
