(* ===== verification/MacId.v ===== *)
(** * Hardware station identifiers (core/rtw_wlan_util.c)

    The bitmap of used MAC ids, [rtw_alloc_macid] and [rtw_release_macid].  With
    [MACID_NUM_SW_LIMIT] 32 a map is one 32-bit word. *)

From S2P Require Import Prelude.

Definition MACID_NUM_SW_LIMIT : Z := 32.
Definition IFACE_ID_MAX : Z := 4.
Definition bc_addr : list Z := [0xff; 0xff; 0xff; 0xff; 0xff; 0xff].

(** [struct macid_ctl_t]: each map is its word [m0]. *)
Record macid_ctl_t := mk_macid { num : Z; used : Z; bmc : Z; if_g : list Z; ch_g : list Z }.

Definition rtw_macid_is_set (map id : Z) : bool := if id <? 32 then Z.testbit map id else false.
Definition rtw_macid_map_set (map id : Z) : Z := if id <? 32 then map .| (1 .<< id) else map.
Definition rtw_macid_map_clr (map id : Z) : Z := if id <? 32 then Z.ldiff map (1 .<< id) else map.

Definition rtw_macid_is_used (c : macid_ctl_t) (id : Z) : bool := rtw_macid_is_set (used c) id.

(** The loop [for (i = last_id; i < num; i++)], with [last_id] 0. *)
Definition first_unused (c : macid_ctl_t) : Z :=
  match find (fun i => negb (rtw_macid_is_used c i)) (zseq 0 (Z.to_nat (num c))) with
  | Some i => i
  | None => num c
  end.

(** The new table and the station's [mac_id]; [myid] is the adapter's own address. *)
Definition rtw_alloc_macid (myid : list Z) (iface_id : Z) (hwaddr : list Z) (c : macid_ctl_t)
    : macid_ctl_t * Z :=
  if bool_decide (hwaddr = myid) then (c, num c) else
  let i := first_unused c in
  if i <? num c then
    (mk_macid (num c) (rtw_macid_map_set (used c) i)
       (if bool_decide (hwaddr = bc_addr) then rtw_macid_map_set (bmc c) i else bmc c)
       (alter (fun m => rtw_macid_map_set m i) (Z.to_nat iface_id) (if_g c)) (ch_g c), i)
  else (c, num c).

Definition rtw_release_macid (myid : list Z) (hwaddr : list Z) (mac_id : Z) (c : macid_ctl_t)
    : macid_ctl_t * Z :=
  if bool_decide (hwaddr = myid) then (c, mac_id) else
  (if mac_id <? num c then
     mk_macid (num c) (rtw_macid_map_clr (used c) mac_id) (rtw_macid_map_clr (bmc c) mac_id)
       (map (fun m => rtw_macid_map_clr m mac_id) (if_g c))
       (map (fun m => rtw_macid_map_clr m mac_id) (ch_g c))
   else c, num c).

(** ** The maps as sets *)

Lemma macid_set_spec m i j : 0 <= i < 32 -> 0 <= j < 32 ->
  rtw_macid_is_set (rtw_macid_map_set m i) j = (i =? j) || rtw_macid_is_set m j.
Proof.
  intros Hi Hj. unfold rtw_macid_is_set, rtw_macid_map_set.
  rewrite !(proj2 (Z.ltb_lt _ 32)) by lia.
  rewrite Z.lor_spec, Z.shiftl_mul_pow2, Z.mul_1_l, Z.pow2_bits_eqb by lia. apply orb_comm.
Qed.

Lemma macid_clr_spec m i j : 0 <= i < 32 -> 0 <= j < 32 ->
  rtw_macid_is_set (rtw_macid_map_clr m i) j = negb (i =? j) && rtw_macid_is_set m j.
Proof.
  intros Hi Hj. unfold rtw_macid_is_set, rtw_macid_map_clr.
  rewrite !(proj2 (Z.ltb_lt _ 32)) by lia.
  rewrite Z.ldiff_spec, Z.shiftl_mul_pow2, Z.mul_1_l, Z.pow2_bits_eqb by lia. apply andb_comm.
Qed.

Lemma first_unused_spec c : 0 <= num c ->
  (first_unused c = num c /\ forall i, 0 <= i < num c -> rtw_macid_is_used c i = true) \/
  (0 <= first_unused c < num c /\ rtw_macid_is_used c (first_unused c) = false).
Proof.
  intros Hn. unfold first_unused. destruct (find _ _) as [i|] eqn:E.
  - right. apply find_some in E as [Hin Hi]. unfold zseq in Hin.
    apply in_map_iff in Hin as (k & <- & Hk). rewrite in_seq in Hk.
    split; [lia|]. by apply negb_true_iff.
  - left. split; [done|]. intros i Hi. pose proof (find_none _ _ E i) as H.
    apply negb_false_iff, H. unfold zseq. apply in_map_iff. exists (Z.to_nat i).
    rewrite in_seq. lia.
Qed.

(** What [rtw_alloc_macid] gives: no id when all are used, or an unused one, now used. *)
Lemma rtw_alloc_macid_spec myid iface hwaddr c c' i : 0 <= num c <= 32 -> hwaddr <> myid ->
  rtw_alloc_macid myid iface hwaddr c = (c', i) ->
  num c' = num c /\
  ((i = num c /\ c' = c /\ forall j, 0 <= j < num c -> rtw_macid_is_used c j = true) \/
   (0 <= i < num c /\ rtw_macid_is_used c i = false /\
    forall j, 0 <= j < 32 -> rtw_macid_is_used c' j = (i =? j) || rtw_macid_is_used c j)).
Proof.
  intros Hn Hne E. unfold rtw_alloc_macid in E. rewrite bool_decide_false in E by done.
  destruct (first_unused_spec c) as [[Hf Hall]|[Hf Hnot]]; [lia| |].
  - rewrite Hf, Z.ltb_irrefl in E. injection E as <- <-. split; [done|]. by left.
  - rewrite (proj2 (Z.ltb_lt _ _)) in E by lia. injection E as <- <-. split; [done|]. right.
    split; [done|]. split; [done|]. intros j Hj. unfold rtw_macid_is_used. cbn [used].
    apply macid_set_spec; lia.
Qed.

Lemma rtw_release_macid_spec myid hwaddr i c : 0 <= i < num c -> num c <= 32 -> hwaddr <> myid ->
  num (fst (rtw_release_macid myid hwaddr i c)) = num c /\
  forall j, 0 <= j < 32 ->
    rtw_macid_is_used (fst (rtw_release_macid myid hwaddr i c)) j = negb (i =? j) && rtw_macid_is_used c j.
Proof.
  intros Hi Hn Hne. unfold rtw_release_macid. rewrite bool_decide_false by done.
  rewrite (proj2 (Z.ltb_lt _ _)) by lia. split; [done|]. intros j Hj.
  unfold rtw_macid_is_used. cbn [used fst]. apply macid_clr_spec; lia.
Qed.
