(* ===== verification/StaMgt.v ===== *)
(** * The station table (core/rtw_sta_mgt.c)

    [sta_priv]: the pool of 32 [struct sta_info], the free queue, the 32 hash lists, and
    the operations that allocate, find and free stations, with what freeing a station does
    to its receive windows, transmit queues and MAC id.  A station is its offset in the
    pool ([rtw_stainfo_offset]).  [hash_lock] counts the acquisitions of [sta_hash_lock]
    minus its releases.  Not modelled: the HAL notification [rtw_hal_set_odm_var], waking
    the OS queues, and fields of [sta_info] that no operation here reads. *)

From S2P Require Import Prelude RxFrame Reorder MacId SecFrames.

(** ** Data *)

Definition NUM_STA : Z := 32.
Definition NUM_ACL : Z := 16.
Definition _FW_LINKED : Z := 1.

(** [wifi_mac_hash]. *)
Definition wifi_mac_hash (mac : list Z) : Z :=
  let x := ld0 mac 0 in
  let x := u32 (x .<< 2) .^ ld0 mac 1 in
  let x := u32 (x .<< 2) .^ ld0 mac 2 in
  let x := u32 (x .<< 2) .^ ld0 mac 3 in
  let x := u32 (x .<< 2) .^ ld0 mac 4 in
  let x := u32 (x .<< 2) .^ ld0 mac 5 in
  let x := x .^ (x .>> 8) in
  x .& (NUM_STA - 1).

(** The fields of [struct pkt_attrib] that the queues read and change; [xa_psta] is the
    station [psta] (its place in the table, or NULL). *)
Record xattr := mk_xattr {
  xa_ra : list Z; xa_psta : option nat; xa_priority : Z; xa_ether_type : Z; xa_dhcp_pkt : bool;
  xa_mdata : bool; xa_eosp : bool; xa_triggered : bool; xa_qsel : Z
}.

(** [struct xmit_frame]: its place in the pool, [ext_tag] and its attributes. *)
Record xmit_frame := mk_xf { xf_id : Z; ext_tag : bool; xattrib : xattr }.

(** [struct tx_servq]; its link [tx_pending] is the station's place in [sta_queues]. *)
Record tx_servq := mk_servq { qcnt : Z; sta_pending : list xmit_frame }.

(** The power-save fields cleared when a station is freed. *)
Record sta_ps := mk_ps {
  expire_to : Z; sleepq_ac_len : Z; qos_info : Z; max_sp_len : Z; uapsd_bk : Z; uapsd_be : Z;
  uapsd_vi : Z; uapsd_vo : Z; has_legacy_ac : Z
}.

(** [struct sta_info]: the transmit queues are vo, vi, be, bk. *)
Record sta_info := mk_sta {
  hwaddr : list Z; state : Z; aid : Z; mac_id : Z; ieee8021x_blocked : bool;
  dot118021x_UncstKey : list Z; dot11tkiprxmickey : list Z;
  sleep_q : list xmit_frame; sleepq_len : Z; servqs : list tx_servq;
  defrag_q : list rframe; tid_rxseq : list Z; recvreorder_ctrl : list recv_reorder_ctrl;
  addba_retry_timer : bool; RxMgmtFrameSeqNum : Z; ps : sta_ps
}.

Definition set_mac_id (i : Z) (s : sta_info) : sta_info :=
  mk_sta (hwaddr s) (state s) (aid s) i (ieee8021x_blocked s) (dot118021x_UncstKey s)
    (dot11tkiprxmickey s) (sleep_q s) (sleepq_len s) (servqs s) (defrag_q s) (tid_rxseq s)
    (recvreorder_ctrl s) (addba_retry_timer s) (RxMgmtFrameSeqNum s) (ps s).

(** [struct wlan_acl_pool]: the mode and the queue of its nodes (address, [valid]). *)
Record wlan_acl_pool := mk_acl { acl_mode : Z; acl_node_q : list (list Z * bool) }.

Record sta_priv := mk_sp {
  stas : list sta_info; free_sta_queue : list nat; sta_hash : list (list nat);
  asoc_sta_count : Z; hash_lock : Z; auth_list : list nat; auth_list_cnt : Z;
  sta_aid : list (option nat); sta_dz_bitmap : Z; tim_bitmap : Z; acl_list : wlan_acl_pool
}.

(** [struct xmit_priv]: the free queues, their counters, and for each of the four hardware
    queues (vo, vi, be, bk) [hwxmits[i].accnt] and the stations linked in [sta_queue]. *)
Record xmit_priv := mk_xmit {
  free_xmit_queue : list Z; free_xmitframe_cnt : Z; free_xframe_ext_queue : list Z;
  free_xframe_ext_cnt : Z; accnt : list Z; sta_queues : list (list nat); tx_drop : Z
}.

(** The parts of the adapter the operations change. *)
Record adapter := mk_adapter { stapriv : sta_priv; macid : macid_ctl_t; recvpriv : rx_env; xmitpriv : xmit_priv }.

Definition set_table (sts : list sta_info) (fr : list nat) (h : list (list nat)) (n : Z) (sp : sta_priv) : sta_priv :=
  mk_sp sts fr h n (hash_lock sp) (auth_list sp) (auth_list_cnt sp) (sta_aid sp)
    (sta_dz_bitmap sp) (tim_bitmap sp) (acl_list sp).
Definition set_lock (n : Z) (sp : sta_priv) : sta_priv :=
  mk_sp (stas sp) (free_sta_queue sp) (sta_hash sp) (asoc_sta_count sp) n (auth_list sp)
    (auth_list_cnt sp) (sta_aid sp) (sta_dz_bitmap sp) (tim_bitmap sp) (acl_list sp).
Definition set_stapriv (sp : sta_priv) (a : adapter) : adapter :=
  mk_adapter sp (macid a) (recvpriv a) (xmitpriv a).

Definition lock_hash (sp : sta_priv) : sta_priv := set_lock (hash_lock sp + 1) sp.
Definition unlock_hash (sp : sta_priv) : sta_priv := set_lock (hash_lock sp - 1) sp.

(** [_rtw_init_stainfo]: everything cleared. *)
Definition init_servq : tx_servq := mk_servq 0 [].
Definition init_ps : sta_ps := mk_ps 0 0 0 0 0 0 0 0 0.
Definition _rtw_init_stainfo : sta_info :=
  mk_sta (replicate 6 0) 0 0 0 false (replicate 16 0) (replicate 16 0) [] 0 (replicate 4 init_servq)
    [] (replicate 16 0) (replicate 16 (mk_reorder false 0 0 0 0 [] false)) false 0 init_ps.

Definition _rtw_init_sta_priv (sp : sta_priv) : sta_priv :=
  mk_sp (replicate 32 _rtw_init_stainfo) (seq 0 32) (replicate 32 []) 0 0 [] 0 (sta_aid sp) 0 0
    (acl_list sp).

(** ** Lists of stations *)

(** Appending to the hash list of an index, and unlinking a station wherever it is. *)
Definition hash_insert (i : Z) (o : nat) (h : list (list nat)) : list (list nat) :=
  alter (fun l => l ++ [o]) (Z.to_nat i) h.
Definition hash_delete (o : nat) (h : list (list nat)) : list (list nat) :=
  map (filter (fun x => x <> o)) h.

(** ** Allocation *)

Definition set_addr_windows (addr : list Z) : sta_info :=
  mk_sta addr 0 0 0 false (replicate 16 0) (replicate 16 0) [] 0 (replicate 4 init_servq) []
    (replicate 16 0xffff) (replicate 16 init_reorder) false 0xffff init_ps.

Section table.
(** The adapter's own address and interface. *)
Context (myid : list Z) (iface_id : Z).

Definition rtw_alloc_stainfo (addr : list Z) (a : adapter) : adapter * option nat :=
  let sp := lock_hash (stapriv a) in
  match free_sta_queue sp with
  | [] => (set_stapriv (unlock_hash (unlock_hash sp)) a, None)
  | o :: fr =>
      let index := wifi_mac_hash addr in
      if NUM_STA <=? index then
        (set_stapriv (unlock_hash (set_table (stas sp) fr (sta_hash sp) (asoc_sta_count sp) sp)) a, None)
      else
        let psta := set_addr_windows addr in
        let '(mc, i) := rtw_alloc_macid myid iface_id addr (macid a) in
        let sp := set_table (<[o := set_mac_id i psta]> (stas sp)) fr (hash_insert index o (sta_hash sp))
                    (asoc_sta_count sp + 1) sp in
        (mk_adapter (unlock_hash sp) mc (recvpriv a) (xmitpriv a), Some o)
  end.

(** ** Freeing *)

Definition rtw_free_xmitframe (x : xmit_priv) (f : xmit_frame) : xmit_priv :=
  if ext_tag f then
    mk_xmit (free_xmit_queue x) (free_xmitframe_cnt x) (relink (xf_id f) (free_xframe_ext_queue x))
      (u32 (free_xframe_ext_cnt x + 1)) (accnt x) (sta_queues x) (tx_drop x)
  else
    mk_xmit (relink (xf_id f) (free_xmit_queue x)) (u32 (free_xmitframe_cnt x + 1)) (free_xframe_ext_queue x)
      (free_xframe_ext_cnt x) (accnt x) (sta_queues x) (tx_drop x).

Definition rtw_free_xmitframe_queue (x : xmit_priv) (q : list xmit_frame) : xmit_priv :=
  fold_left rtw_free_xmitframe q x.

(** One of the four transmit queues of station [o]: its frames are freed, it is unlinked
    from the hardware queue, whose count is reduced. *)
Definition free_servq (o i : nat) (q : tx_servq) (x : xmit_priv) : xmit_priv :=
  let x := rtw_free_xmitframe_queue x (sta_pending q) in
  mk_xmit (free_xmit_queue x) (free_xmitframe_cnt x) (free_xframe_ext_queue x) (free_xframe_ext_cnt x)
    (alter (fun n => n - qcnt q) i (accnt x)) (alter (filter (fun p => p <> o)) i (sta_queues x)) (tx_drop x).

Fixpoint free_servqs (o i : nat) (qs : list tx_servq) (x : xmit_priv) : xmit_priv :=
  match qs with
  | [] => x
  | q :: qs => free_servqs o (S i) qs (free_servq o i q x)
  end.

(** One of the sixteen windows: its timer is cancelled and its frames are freed. *)
Definition free_windows (cs : list recv_reorder_ctrl) (e : rx_env) : rx_env :=
  fold_left (fun e c => fold_left (fun e f => rtw_free_recvframe f e) (pending_recvframe_queue c) e) cs e.

Definition clear_sta (s : sta_info) (i : Z) (aid' : Z) : sta_info :=
  mk_sta (hwaddr s) (Z.ldiff (state s) _FW_LINKED) aid' i (ieee8021x_blocked s) (dot118021x_UncstKey s)
    (dot11tkiprxmickey s) [] 0 (map (fun _ => init_servq) (servqs s)) (defrag_q s)
    (tid_rxseq s) (map (fun c => set_timer false (set_pending [] c)) (recvreorder_ctrl s)) false
    (RxMgmtFrameSeqNum s) init_ps.

Definition rtw_free_stainfo (o : nat) (a : adapter) : adapter :=
  let sp := stapriv a in
  match stas sp !! o with
  | None => a
  | Some psta =>
      let x := free_servqs o 0 (servqs psta) (rtw_free_xmitframe_queue (xmitpriv a) (sleep_q psta)) in
      let e := free_windows (recvreorder_ctrl psta) (recvpriv a) in
      let '(mc, i) := rtw_release_macid myid (hwaddr psta) (mac_id psta) (macid a) in
      let linked := bool_decide (o ∈ auth_list sp) in
      let owns := (0 <? aid psta) && bool_decide (sta_aid sp !! Z.to_nat (aid psta - 1) = Some (Some o)) in
      mk_adapter
        (mk_sp (<[o := clear_sta psta i (if owns then 0 else aid psta)]> (stas sp))
           (free_sta_queue sp ++ [o]) (hash_delete o (sta_hash sp)) (asoc_sta_count sp - 1) (hash_lock sp)
           (if linked then filter (fun x => x <> o) (auth_list sp) else auth_list sp)
           (if linked then u8 (auth_list_cnt sp - 1) else auth_list_cnt sp)
           (if owns then <[Z.to_nat (aid psta - 1) := None]> (sta_aid sp) else sta_aid sp)
           (u16 (Z.ldiff (sta_dz_bitmap sp) (1 .<< aid psta))) (u16 (Z.ldiff (tim_bitmap sp) (1 .<< aid psta)))
           (acl_list sp))
        mc e x
  end.

(** ** Lookup *)

Definition sta_addr (sp : sta_priv) (o : nat) : list Z :=
  match stas sp !! o with Some s => hwaddr s | None => [] end.

Definition rtw_get_stainfo (sp : sta_priv) (addr : list Z) : option nat :=
  let addr := if IS_MCAST addr then bc_addr else addr in
  bucket ← sta_hash sp !! Z.to_nat (wifi_mac_hash addr);
  find (fun o => bool_decide (sta_addr sp o = addr)) bucket.

Definition rtw_get_bcmc_stainfo (sp : sta_priv) : option nat := rtw_get_stainfo sp bc_addr.

(** The local [res] is set to [_FAIL] when the allocation fails, but is not returned. *)
Definition rtw_init_bcmc_stainfo (a : adapter) : adapter * Z :=
  let '(a, _) := rtw_alloc_stainfo bc_addr a in (a, _SUCCESS).

(** The stations collected by the first loop, in the order of the hash lists, are
    unlinked; then each is freed. *)
Definition rtw_free_all_stainfo (a : adapter) : adapter :=
  let sp := stapriv a in
  let pbcmc := rtw_get_bcmc_stainfo sp in
  if asoc_sta_count sp =? 1 then a else
  let free_sta_list := filter (fun o => pbcmc <> Some o) (concat (sta_hash sp)) in
  let sp := set_table (stas sp) (free_sta_queue sp)
              (map (filter (fun o => pbcmc = Some o)) (sta_hash sp)) (asoc_sta_count sp) sp in
  fold_left (fun a o => rtw_free_stainfo o a) free_sta_list (set_stapriv sp a).
End table.

(** [rtw_access_ctrl]: the access list of an access point. *)
Definition rtw_access_ctrl (sp : sta_priv) (mac_addr : list Z) : bool :=
  let pacl := acl_list sp in
  let mtch := existsb (fun n => bool_decide (fst n = mac_addr) && snd n) (acl_node_q pacl) in
  if acl_mode pacl =? 1 then negb mtch
  else if acl_mode pacl =? 2 then mtch
  else true.

(** The table answers the key queries of the frame ciphers. *)
#[export] Instance sta_priv_lookup : StaLookup sta_priv := fun sp addr =>
  o ← rtw_get_stainfo sp addr; s ← stas sp !! o; Some (dot118021x_UncstKey s).

(** ** The table's invariant *)

Record table_inv (sp : sta_priv) : Prop := {
  ti_stas : length (stas sp) = 32%nat;
  ti_hash : length (sta_hash sp) = 32%nat;
  ti_pool : Permutation (free_sta_queue sp ++ concat (sta_hash sp)) (seq 0 32);
  ti_bucket : forall i l o, sta_hash sp !! i = Some l -> o ∈ l ->
    Z.to_nat (wifi_mac_hash (sta_addr sp o)) = i;
  ti_count : asoc_sta_count sp = zlen (concat (sta_hash sp));
  ti_lock : hash_lock sp = 0
}.

Lemma wifi_mac_hash_range mac : 0 <= wifi_mac_hash mac < 32.
Proof. unfold wifi_mac_hash. apply (land_range_r 5). unfold NUM_STA. lia. Qed.

Lemma hash_insert_concat i o h : 0 <= i < zlen h ->
  Permutation (concat (hash_insert i o h)) (o :: concat h).
Proof.
  unfold hash_insert, zlen. intros Hi. revert Hi. generalize (Z.to_nat i) as n, (Z2Nat.id i) as H.
  intros n H Hi. rewrite <- H in Hi by lia. clear H.
  assert (n < length h)%nat as Hn by lia. clear Hi. revert n Hn.
  induction h as [|l h IH]; intros n Hn; [simpl in Hn; lia|]. destruct n as [|n].
  - simpl. rewrite <- app_assoc. simpl. by rewrite <- Permutation_middle.
  - change (alter (fun l => l ++ [o]) (S n) (l :: h)) with (l :: alter (fun l => l ++ [o]) n h).
    cbn [concat]. rewrite IH by (simpl in Hn; lia). by rewrite Permutation_middle.
Qed.

Lemma hash_delete_concat o h : concat (hash_delete o h) = filter (fun x => x <> o) (concat h).
Proof.
  unfold hash_delete. induction h as [|l h IH]; simpl; [done|]. by rewrite list.filter_app, IH.
Qed.

Lemma table_nodup sp : table_inv sp -> NoDup (free_sta_queue sp ++ concat (sta_hash sp)).
Proof. intros [_ _ Hp _ _ _]. rewrite Hp. apply NoDup_ListNoDup, List.seq_NoDup. Qed.

Lemma table_member sp o : table_inv sp -> o ∈ free_sta_queue sp \/ o ∈ concat (sta_hash sp) <-> (o < 32)%nat.
Proof.
  intros [_ _ Hp _ _ _]. rewrite <- elem_of_app, Hp, list_elem_of_In, in_seq. lia.
Qed.

Lemma init_inv sp : table_inv (_rtw_init_sta_priv sp).
Proof.
  constructor; cbn; try reflexivity. intros i l o Hl Ho. exfalso.
  change ([[]; []; []; []; []; []; []; []; []; []; []; []; []; []; []; []; []; []; []; []; []; []; []; []; []; []; []; []; []; []; []; []])
    with (replicate 32 (@nil nat)) in Hl.
  apply lookup_replicate in Hl as [-> _]. by apply elem_of_nil in Ho.
Qed.

(** Looking an entry up after an entry is replaced. *)
Lemma sta_addr_insert sp o o' s : length (stas sp) = 32%nat -> (o < 32)%nat ->
  forall fr h n k au ac ai dz tb acl,
  sta_addr (mk_sp (<[o := s]> (stas sp)) fr h n k au ac ai dz tb acl) o' =
    if decide (o = o') then hwaddr s else sta_addr sp o'.
Proof.
  intros Hl Ho *. unfold sta_addr. cbn [stas]. destruct (decide (o = o')) as [->|Hne].
  - by rewrite list_lookup_insert_eq by lia.
  - by rewrite list_lookup_insert_ne by done.
Qed.

Section table_proofs.
Context (myid : list Z) (iface_id : Z).
Abbreviation alloc := (rtw_alloc_stainfo myid iface_id).
Abbreviation free := (rtw_free_stainfo myid).

(** The result of an allocation from a table with a free station. *)
Lemma alloc_eq addr a o fr : free_sta_queue (stapriv a) = o :: fr ->
  exists i mc, rtw_alloc_macid myid iface_id addr (macid a) = (mc, i) /\
  alloc addr a =
    (mk_adapter (set_lock (hash_lock (stapriv a) + 1 - 1)
       (set_table (<[o := set_mac_id i (set_addr_windows addr)]> (stas (stapriv a))) fr
          (hash_insert (wifi_mac_hash addr) o (sta_hash (stapriv a)))
          (asoc_sta_count (stapriv a) + 1) (stapriv a))) mc (recvpriv a) (xmitpriv a), Some o).
Proof.
  intros Hfr. unfold rtw_alloc_stainfo, lock_hash, unlock_hash, set_table, set_lock.
  cbn [free_sta_queue]. rewrite Hfr.
  pose proof (wifi_mac_hash_range addr). rewrite (proj2 (Z.leb_gt NUM_STA _)) by (unfold NUM_STA; lia).
  destruct (rtw_alloc_macid _ _ _ _) as [mc i]. exists i, mc. by split.
Qed.

Lemma alloc_inv addr a : table_inv (stapriv a) -> free_sta_queue (stapriv a) <> [] ->
  table_inv (stapriv (fst (alloc addr a))).
Proof.
  intros Hinv Hne. destruct (free_sta_queue (stapriv a)) as [|o fr] eqn:Hfr; [done|].
  destruct (alloc_eq addr a o fr Hfr) as (i & mc & _ & ->). cbn [fst stapriv].
  pose proof (table_nodup _ Hinv) as Hnd. rewrite Hfr in Hnd. cbn [app] in Hnd.
  apply list.NoDup_cons in Hnd as [Ho Hnd]. rewrite not_elem_of_app in Ho. destruct Ho as [_ Ho].
  assert (o < 32)%nat as Ho32. { apply (table_member _ o Hinv). left. rewrite Hfr. by left. }
  destruct Hinv as [Hs Hh Hp Hb Hc Hl]. pose proof (wifi_mac_hash_range addr) as Hr.
  assert (0 <= wifi_mac_hash addr < zlen (sta_hash (stapriv a))) as Hz by (unfold zlen; lia).
  constructor; cbn [set_lock set_table stas free_sta_queue sta_hash asoc_sta_count hash_lock]; try lia.
  - by rewrite length_insert.
  - unfold hash_insert. by rewrite length_alter.
  - rewrite hash_insert_concat by done. rewrite <- Permutation_middle, <- Hp, Hfr. done.
  - intros j l o' Hl' Ho'. unfold set_lock, set_table.
    cbn [stas free_sta_queue sta_hash asoc_sta_count hash_lock auth_list auth_list_cnt sta_aid sta_dz_bitmap
      tim_bitmap acl_list] in *.
    rewrite sta_addr_insert by done. unfold hash_insert in Hl'.
    assert (Hsame : forall l, sta_hash (stapriv a) !! j = Some l -> o' ∈ l ->
      Z.to_nat (wifi_mac_hash (if decide (o = o') then addr else sta_addr (stapriv a) o')) = j).
    { intros l0 Hl0 Ho0. destruct (decide (o = o')) as [->|]; [|by eapply Hb].
      destruct Ho. apply list_elem_of_In, in_concat. exists l0. split; [|by apply list_elem_of_In].
      apply list_elem_of_In. by eapply list_elem_of_lookup_2. }
    destruct (decide (j = Z.to_nat (wifi_mac_hash addr))) as [->|Hne'].
    + rewrite list_lookup_alter_eq in Hl'.
      destruct (sta_hash (stapriv a) !! _) as [l0|] eqn:Hl0; [|done]. injection Hl' as <-.
      apply elem_of_app in Ho' as [Ho'|Ho']; [by eapply Hsame|].
      apply list_elem_of_singleton in Ho' as ->. by rewrite decide_True.
    + rewrite list_lookup_alter_ne in Hl' by done. by eapply Hsame.
  - rewrite Hc. unfold zlen. rewrite (Permutation_length (hash_insert_concat _ o _ Hz)).
    cbn [length]. lia.
Qed.

(** The table after a station is freed; the rest of the adapter is not looked at. *)
Lemma free_table o a s : stas (stapriv a) !! o = Some s ->
  exists s', hwaddr s' = hwaddr s /\
  stas (stapriv (free o a)) = <[o := s']> (stas (stapriv a)) /\
  free_sta_queue (stapriv (free o a)) = free_sta_queue (stapriv a) ++ [o] /\
  sta_hash (stapriv (free o a)) = hash_delete o (sta_hash (stapriv a)) /\
  asoc_sta_count (stapriv (free o a)) = asoc_sta_count (stapriv a) - 1 /\
  hash_lock (stapriv (free o a)) = hash_lock (stapriv a).
Proof.
  intros Hs. unfold rtw_free_stainfo. rewrite Hs. destruct (rtw_release_macid _ _ _ _) as [mc i].
  eexists (clear_sta s i _). by repeat split.
Qed.

Lemma free_addr o a o' : sta_addr (stapriv (free o a)) o' = sta_addr (stapriv a) o'.
Proof.
  destruct (stas (stapriv a) !! o) as [s|] eqn:Hs; [|unfold rtw_free_stainfo; by rewrite Hs].
  destruct (free_table o a s Hs) as (s' & Ha & E & _). unfold sta_addr. rewrite E.
  destruct (decide (o = o')) as [->|Hne]; [|by rewrite list_lookup_insert_ne].
  rewrite list_lookup_insert_eq by (by eapply lookup_lt_Some). by rewrite Hs.
Qed.

Lemma hash_delete_lookup o h j l : hash_delete o h !! j = Some l ->
  exists l0, h !! j = Some l0 /\ l = filter (fun x => x <> o) l0.
Proof. unfold hash_delete. rewrite list_lookup_fmap, fmap_Some. intros (l0 & H & ->). by exists l0. Qed.

Lemma free_inv o a : table_inv (stapriv a) -> o ∈ concat (sta_hash (stapriv a)) ->
  table_inv (stapriv (free o a)).
Proof.
  intros Hinv Ho. assert (o < 32)%nat as Ho32 by (apply (table_member _ o Hinv); by right).
  pose proof (table_nodup _ Hinv) as Hnd. apply list.NoDup_app in Hnd as (_ & _ & Hnd).
  destruct Hinv as [Hs Hh Hp Hb Hc Hl].
  destruct (lookup_lt_is_Some_2 (stas (stapriv a)) o ltac:(lia)) as [s Hso].
  pose proof (fun o' => free_addr o a o') as Haddr.
  destruct (free_table o a s Hso) as (s' & _ & E1 & E2 & E3 & E4 & E5).
  assert (Hperm : Permutation (o :: concat (sta_hash (stapriv (free o a)))) (concat (sta_hash (stapriv a)))).
  { rewrite E3, hash_delete_concat. by apply filter_remove. }
  constructor.
  - by rewrite E1, length_insert.
  - rewrite E3. unfold hash_delete. by rewrite length_map.
  - rewrite E2, <- app_assoc. cbn [app]. by rewrite Hperm.
  - intros j l o' Hl' Ho'. rewrite Haddr. rewrite E3 in Hl'.
    apply hash_delete_lookup in Hl' as (l0 & Hl0 & ->). apply list_elem_of_filter in Ho' as [_ Ho'].
    by eapply Hb.
  - rewrite E4, Hc. unfold zlen. rewrite <- (Permutation_length Hperm). cbn [length]. lia.
  - by rewrite E5.
Qed.

(** Freeing stations that are already unlinked. *)
Lemma free_list L : forall a, length (stas (stapriv a)) = 32%nat -> Forall (fun o => (o < 32)%nat) L ->
  Forall (fun o => o ∉ concat (sta_hash (stapriv a))) L ->
  let a' := fold_left (fun a o => free o a) L a in
  length (stas (stapriv a')) = 32%nat /\ free_sta_queue (stapriv a') = free_sta_queue (stapriv a) ++ L /\
  sta_hash (stapriv a') = sta_hash (stapriv a) /\
  asoc_sta_count (stapriv a') = asoc_sta_count (stapriv a) - zlen L /\
  hash_lock (stapriv a') = hash_lock (stapriv a) /\
  forall o', sta_addr (stapriv a') o' = sta_addr (stapriv a) o'.
Proof.
  induction L as [|o L IH]; intros a Hs Hlt Hni; cbn [fold_left].
  { rewrite app_nil_r, zlen_nil. repeat split; try done. lia. }
  inversion Hlt as [|? ? Ho HL]; subst. inversion Hni as [|? ? Hno HnL]; subst.
  destruct (lookup_lt_is_Some_2 (stas (stapriv a)) o ltac:(lia)) as [s Hso].
  destruct (free_table o a s Hso) as (s' & _ & E1 & E2 & E3 & E4 & E5).
  assert (E3' : sta_hash (stapriv (free o a)) = sta_hash (stapriv a)).
  { rewrite E3. unfold hash_delete. clear -Hno. induction (sta_hash (stapriv a)) as [|l h IH]; [done|].
    cbn [concat map] in *. rewrite not_elem_of_app in Hno. destruct Hno as [Hl Hh].
    by rewrite filter_absent, IH. }
  cbv zeta in IH |- *. destruct (IH (free o a)) as (F1 & F2 & F3 & F4 & F5 & F6);
    [by rewrite E1, length_insert|done|by rewrite E3'|].
  rewrite F2, F3, F4, F5, E2, E3', E4, E5, zlen_cons, <- app_assoc.
  repeat split; try done; [lia|]. intros o'. by rewrite F6, free_addr.
Qed.

Lemma concat_filter_map (P : nat -> Prop) `{!forall x, Decision (P x)} h :
  concat (map (filter P) h) = filter P (concat h).
Proof. induction h as [|l h IH]; simpl; [done|]. by rewrite list.filter_app, IH. Qed.

Abbreviation free_all := (rtw_free_all_stainfo myid).

Lemma free_all_inv a : table_inv (stapriv a) -> table_inv (stapriv (free_all a)) /\
  (asoc_sta_count (stapriv a) <> 1 ->
   concat (sta_hash (stapriv (free_all a))) =
     filter (fun o => rtw_get_bcmc_stainfo (stapriv a) = Some o) (concat (sta_hash (stapriv a)))).
Proof.
  intros Hinv. unfold rtw_free_all_stainfo. destruct (Z.eqb_spec (asoc_sta_count (stapriv a)) 1) as [|Hne]; [done|].
  set (b := rtw_get_bcmc_stainfo (stapriv a)). set (h := sta_hash (stapriv a)).
  set (L := filter (fun o => b <> Some o) (concat h)).
  set (a0 := set_stapriv _ a).
  pose proof (fun o => proj1 (table_member _ o Hinv)) as Hmem. destruct Hinv as [Hs Hh Hp Hb Hc Hl].
  assert (HLin : forall o, o ∈ L -> b <> Some o /\ o ∈ concat h).
  { intros o Ho. unfold L in Ho. by apply list_elem_of_filter in Ho. }
  destruct (free_list L a0) as (F1 & F2 & F3 & F4 & F5 & F6); [done| | |].
  { apply Forall_forall. intros o Ho. apply Hmem. right. apply HLin. by apply list_elem_of_In. }
  { apply Forall_forall. intros o Ho. apply list_elem_of_In, HLin in Ho as [Ho _].
    unfold a0, set_stapriv, set_table. cbn [stapriv sta_hash]. rewrite concat_filter_map.
    intros [? _]%list_elem_of_filter. done. }
  change (free_sta_queue (stapriv a0)) with (free_sta_queue (stapriv a)) in F2.
  change (sta_hash (stapriv a0)) with (map (filter (fun o => b = Some o)) h) in F3.
  change (asoc_sta_count (stapriv a0)) with (asoc_sta_count (stapriv a)) in F4.
  change (hash_lock (stapriv a0)) with (hash_lock (stapriv a)) in F5.
  assert (Hcat : Permutation (filter (fun o => b = Some o) (concat h) ++ L) (concat h))
    by (unfold L; apply filter_app_complement).
  split; [constructor|intros _]; rewrite ?F2, ?F3, ?F4, ?F5; fold h; rewrite ?concat_filter_map; try done.
  - unfold h. by rewrite length_map.
  - rewrite <- app_assoc, (Permutation_app_comm L), Hcat. done.
  - intros i l o Hl' Ho. rewrite F6.
    change (sta_addr (stapriv a0) o) with (sta_addr (stapriv a) o). change (map (filter (fun o => b = Some o)) h) with
      (filter (fun o => b = Some o) <$> h) in Hl'.
    rewrite list_lookup_fmap, fmap_Some in Hl'. destruct Hl' as (l0 & Hl0 & ->).
    apply list_elem_of_filter in Ho as [_ Ho]. by eapply Hb.
  - rewrite Hc. unfold zlen. fold h. rewrite <- (Permutation_length Hcat), length_app. lia.
Qed.

(** ** Lookup *)

Definition lookup_addr (addr : list Z) : list Z := if IS_MCAST addr then bc_addr else addr.

Lemma get_sound sp addr o : rtw_get_stainfo sp addr = Some o ->
  o ∈ concat (sta_hash sp) /\ sta_addr sp o = lookup_addr addr.
Proof.
  unfold rtw_get_stainfo. fold (lookup_addr addr). intros (l & Hl & E)%bind_Some.
  apply find_some in E as [Hin E%bool_decide_eq_true]. split; [|done].
  apply list_elem_of_In, in_concat. exists l. split; [|done].
  apply list_elem_of_In. by eapply list_elem_of_lookup_2.
Qed.

Lemma get_complete sp addr o : table_inv sp -> o ∈ concat (sta_hash sp) ->
  sta_addr sp o = lookup_addr addr -> exists o', rtw_get_stainfo sp addr = Some o'.
Proof.
  intros [_ Hh _ Hb _ _] Ho Ha. unfold rtw_get_stainfo. fold (lookup_addr addr).
  apply list_elem_of_In, in_concat in Ho as (l & Hl & Ho). apply list_elem_of_In in Hl, Ho.
  apply list_elem_of_lookup_1 in Hl as [i Hl]. pose proof (Hb i l o Hl Ho) as Hi. rewrite Ha in Hi.
  rewrite Hi, Hl. cbn [mbind option_bind]. destruct (find _ l) as [o'|] eqn:E; [by exists o'|].
  apply list_elem_of_In in Ho. pose proof (find_none _ _ E o Ho) as H. cbv beta in H. by rewrite bool_decide_true in H.
Qed.

(** No two stations in the table have the same address. *)
Definition sta_unique (sp : sta_priv) : Prop :=
  forall o1 o2, o1 ∈ concat (sta_hash sp) -> o2 ∈ concat (sta_hash sp) ->
    sta_addr sp o1 = sta_addr sp o2 -> o1 = o2.

Lemma get_iff sp addr o : table_inv sp -> sta_unique sp ->
  rtw_get_stainfo sp addr = Some o <-> o ∈ concat (sta_hash sp) /\ sta_addr sp o = lookup_addr addr.
Proof.
  intros Hinv Hu. split; [apply get_sound|]. intros [Ho Ha].
  destruct (get_complete sp addr o Hinv Ho Ha) as [o' E]. rewrite E. f_equal.
  apply get_sound in E as [Ho' Ha']. apply Hu; congruence.
Qed.

Lemma get_ext sp sp' addr : table_inv sp -> sta_unique sp -> table_inv sp' -> sta_unique sp' ->
  (forall o, o ∈ concat (sta_hash sp') /\ sta_addr sp' o = lookup_addr addr <->
             o ∈ concat (sta_hash sp) /\ sta_addr sp o = lookup_addr addr) ->
  rtw_get_stainfo sp' addr = rtw_get_stainfo sp addr.
Proof.
  intros H1 H2 H3 H4 Hiff. destruct (rtw_get_stainfo sp addr) as [o|] eqn:E.
  - by apply get_iff, Hiff, get_iff in E.
  - destruct (rtw_get_stainfo sp' addr) as [o|] eqn:E'; [|done].
    apply get_iff, Hiff, get_iff in E'; [congruence|done..].
Qed.

(** The members and addresses after an allocation and after a release. *)
Lemma alloc_members addr a o fr : table_inv (stapriv a) -> free_sta_queue (stapriv a) = o :: fr ->
  let sp' := stapriv (fst (alloc addr a)) in
  snd (alloc addr a) = Some o /\ (o ∉ concat (sta_hash (stapriv a))) /\
  (forall o', o' ∈ concat (sta_hash sp') <-> o' = o \/ o' ∈ concat (sta_hash (stapriv a))) /\
  sta_addr sp' o = addr /\ (forall o', o' <> o -> sta_addr sp' o' = sta_addr (stapriv a) o').
Proof.
  intros Hinv Hfr. destruct (alloc_eq addr a o fr Hfr) as (i & mc & _ & ->). cbn [fst snd stapriv].
  pose proof (table_nodup _ Hinv) as Hnd. rewrite Hfr in Hnd. cbn [app] in Hnd.
  apply list.NoDup_cons in Hnd as [Ho _]. rewrite not_elem_of_app in Ho. destruct Ho as [_ Ho].
  assert (o < 32)%nat as Ho32. { apply (table_member _ o Hinv). left. rewrite Hfr. by left. }
  pose proof (wifi_mac_hash_range addr). destruct Hinv as [Hs Hh _ _ _ _].
  split; [done|]. split; [done|]. split; [|split].
  - intros o'. unfold set_lock, set_table. cbn [sta_hash].
    rewrite hash_insert_concat by (unfold zlen; lia). apply elem_of_cons.
  - unfold set_lock, set_table. cbn [stas free_sta_queue sta_hash asoc_sta_count hash_lock auth_list
      auth_list_cnt sta_aid sta_dz_bitmap tim_bitmap acl_list].
    by rewrite sta_addr_insert, decide_True by done.
  - intros o' Hne. unfold set_lock, set_table. cbn [stas free_sta_queue sta_hash asoc_sta_count hash_lock
      auth_list auth_list_cnt sta_aid sta_dz_bitmap tim_bitmap acl_list].
    by rewrite sta_addr_insert, decide_False by done.
Qed.

Lemma free_members o a : table_inv (stapriv a) -> (o < 32)%nat ->
  forall o', o' ∈ concat (sta_hash (stapriv (free o a))) <-> o' <> o /\ o' ∈ concat (sta_hash (stapriv a)).
Proof.
  intros [Hs _ _ _ _ _] Ho o'. destruct (lookup_lt_is_Some_2 (stas (stapriv a)) o ltac:(lia)) as [s Hso].
  destruct (free_table o a s Hso) as (s' & _ & _ & _ & E3 & _).
  rewrite E3, hash_delete_concat, list_elem_of_filter. done.
Qed.
End table_proofs.

(** Allocation, lookup and release of stations.  In a consistent table with a free
    entry and no station of the (unicast or broadcast) address, [rtw_alloc_stainfo] gives an
    entry that was not in use, the table stays consistent, and [rtw_get_stainfo] then
    finds this entry for the address and what it found before for every other address;
    after [rtw_free_stainfo] every lookup is as before the allocation. *)
Theorem stainfo_alloc_get_free myid iface_id addr a :
  table_inv (stapriv a) -> sta_unique (stapriv a) -> free_sta_queue (stapriv a) <> [] ->
  lookup_addr addr = addr -> rtw_get_stainfo (stapriv a) addr = None ->
  exists o a', rtw_alloc_stainfo myid iface_id addr a = (a', Some o) /\
    (o ∉ concat (sta_hash (stapriv a))) /\
    table_inv (stapriv a') /\ sta_unique (stapriv a') /\
    rtw_get_stainfo (stapriv a') addr = Some o /\
    (forall addr', lookup_addr addr' <> addr ->
       rtw_get_stainfo (stapriv a') addr' = rtw_get_stainfo (stapriv a) addr') /\
    (forall addr', rtw_get_stainfo (stapriv (rtw_free_stainfo myid o a')) addr' =
       rtw_get_stainfo (stapriv a) addr').
Proof.
  intros Hinv Hu Hne Hua Hnone. destruct (free_sta_queue (stapriv a)) as [|o fr] eqn:Hfr; [done|].
  pose proof (alloc_inv myid iface_id addr a Hinv ltac:(congruence)) as Hinv'.
  destruct (alloc_members myid iface_id addr a o fr Hinv Hfr) as (Ho & Hni & Hmem & Hao & Hoth).
  destruct (rtw_alloc_stainfo myid iface_id addr a) as [a' oo]. cbn [fst snd] in *. subst oo.
  assert (Hnot : forall o', o' ∈ concat (sta_hash (stapriv a)) -> sta_addr (stapriv a) o' <> addr).
  { intros o' Ho' Ha. rewrite <- Hua in Ha. destruct (get_complete _ addr o' Hinv Ho' Ha). congruence. }
  assert (Hu' : sta_unique (stapriv a')).
  { intros o1 o2 H1 H2 E. apply Hmem in H1, H2. destruct (decide (o1 = o)) as [->|N1], (decide (o2 = o)) as [->|N2]; [done| | |].
    - destruct H2 as [|H2]; [done|]. rewrite Hao, Hoth in E by done. by apply Hnot in H2.
    - destruct H1 as [|H1]; [done|]. rewrite Hao, Hoth in E by done. by apply Hnot in H1.
    - destruct H1 as [|H1], H2 as [|H2]; try done. rewrite !Hoth in E by done. by apply Hu. }
  assert (Ho32 : (o < 32)%nat).
  { apply (table_member _ o Hinv'). right. apply Hmem. by left. }
  pose proof (free_inv myid o a' Hinv' ltac:(apply Hmem; by left)) as Hinv2.
  pose proof (free_members myid o a' Hinv' Ho32) as Hmem2.
  pose proof (free_addr myid o a') as Hadd2.
  assert (Hu2 : sta_unique (stapriv (rtw_free_stainfo myid o a'))).
  { intros o1 o2 [_ H1]%Hmem2 [_ H2]%Hmem2. rewrite !Hadd2. by apply Hu'. }
  exists o, a'. split; [done|]. split; [done|]. split; [done|]. split; [done|]. split; [|split].
  - apply get_iff; [done..|]. rewrite Hao, Hua. split; [apply Hmem; by left|done].
  - intros addr' Hne'. apply get_ext; [done..|]. intros o'. rewrite Hmem. split.
    + intros [[->|Ho'] Ha']; [congruence|]. rewrite Hoth in Ha' by congruence. done.
    + intros [Ho' Ha']. rewrite Hoth by congruence. split; [by right|done].
  - intros addr'. apply get_ext; [done..|]. intros o'. rewrite Hmem2, Hadd2, Hmem. split.
    + intros [[Hneo [->|Ho']] Ha']; [done|]. rewrite Hoth in Ha' by done. done.
    + intros [Ho' Ha']. assert (o' <> o) by congruence. rewrite Hoth by done.
      split; [split; [done|by right]|done].
Qed.

(** ** MAC ids *)

Definition sta_mac_id (sp : sta_priv) (o : nat) : Z :=
  match stas sp !! o with Some s => mac_id s | None => 0 end.

(** The stations [M] hold different ids, marked used; [num] stands for no id. *)
Record macid_inv (myid : list Z) (M : list nat) (a : adapter) : Prop := {
  mi_num : 0 <= num (macid a) <= 32;
  mi_range : forall o, o ∈ M -> 0 <= sta_mac_id (stapriv a) o <= num (macid a);
  mi_used : forall o, o ∈ M -> sta_mac_id (stapriv a) o < num (macid a) ->
    sta_addr (stapriv a) o <> myid /\ rtw_macid_is_used (macid a) (sta_mac_id (stapriv a) o) = true;
  mi_distinct : forall o1 o2, o1 ∈ M -> o2 ∈ M -> sta_mac_id (stapriv a) o1 < num (macid a) ->
    sta_mac_id (stapriv a) o1 = sta_mac_id (stapriv a) o2 -> o1 = o2
}.

Lemma macid_inv_sub myid M M' a : (forall o, o ∈ M' -> o ∈ M) -> macid_inv myid M a -> macid_inv myid M' a.
Proof. intros H [H1 H2 H3 H4]. constructor; eauto. Qed.

Lemma alloc_macid_inv myid iface addr a o fr : table_inv (stapriv a) ->
  free_sta_queue (stapriv a) = o :: fr -> macid_inv myid (concat (sta_hash (stapriv a))) a ->
  macid_inv myid (concat (sta_hash (stapriv (fst (rtw_alloc_stainfo myid iface addr a)))))
    (fst (rtw_alloc_stainfo myid iface addr a)).
Proof.
  intros Hinv Hfr [Hn Hr Hu Hd].
  destruct (alloc_members myid iface addr a o fr Hinv Hfr) as (_ & Hni & Hmem & Hao & Hoth).
  destruct (alloc_eq myid iface addr a o fr Hfr) as (i & mc & Emc & E). rewrite E in *.
  cbn [fst snd stapriv macid] in *. set (sp' := set_lock _ _) in *.
  assert (Ho32 : (o < length (stas (stapriv a)))%nat).
  { rewrite (ti_stas _ Hinv). apply (table_member _ o Hinv). left. rewrite Hfr. by left. }
  assert (Mo : sta_mac_id sp' o = i).
  { unfold sta_mac_id, sp', set_lock, set_table. cbn [stas]. by rewrite list_lookup_insert_eq. }
  assert (Mx : forall x, x <> o -> sta_mac_id sp' x = sta_mac_id (stapriv a) x).
  { intros x Hx. unfold sta_mac_id, sp', set_lock, set_table. cbn [stas]. by rewrite list_lookup_insert_ne. }
  assert (Hmc : num mc = num (macid a) /\ 0 <= i <= num (macid a) /\
    (forall j, 0 <= j < 32 -> rtw_macid_is_used (macid a) j = true -> rtw_macid_is_used mc j = true) /\
    (i < num (macid a) -> addr <> myid /\ rtw_macid_is_used (macid a) i = false /\ rtw_macid_is_used mc i = true)).
  { destruct (decide (addr = myid)) as [->|Hne].
    - unfold rtw_alloc_macid in Emc. rewrite bool_decide_true in Emc by done. injection Emc as <- <-.
      repeat split; try done; lia.
    - destruct (rtw_alloc_macid_spec _ _ _ _ _ _ Hn Hne Emc) as (En & [(-> & -> & _)|(Hi & Hf & Hj)]).
      + repeat split; try done; lia.
      + split; [done|]. split; [lia|]. split.
        * intros j Hj0 Hj1. rewrite Hj, Hj1 by done. apply orb_true_r.
        * intros _. split; [done|]. split; [done|]. by rewrite Hj, Z.eqb_refl by lia. }
  destruct Hmc as (En & Hi & Hkeep & Hnew). clear E Emc.
  constructor; cbn [macid stapriv]; rewrite ?En.
  - done.
  - intros x Hx. apply Hmem in Hx. destruct (decide (x = o)) as [->|Hxo]; [by rewrite Mo|].
    destruct Hx as [|Hx]; [done|]. rewrite Mx by done. by apply Hr.
  - intros x Hx Hlt. apply Hmem in Hx. destruct (decide (x = o)) as [->|Hxo].
    + rewrite Mo, Hao in *. destruct (Hnew Hlt) as (H1 & _ & H3). done.
    + destruct Hx as [|Hx]; [done|]. rewrite Mx, Hoth in * by done. destruct (Hu x Hx Hlt) as [H1 H2].
      split; [done|]. apply Hkeep; [|done]. pose proof (Hr x Hx). lia.
  - intros x y Hx Hy Hlt Exy. apply Hmem in Hx, Hy.
    destruct (decide (x = o)) as [->|Hxo], (decide (y = o)) as [->|Hyo]; [done| | |].
    + destruct Hy as [|Hy]; [done|]. rewrite Mo in *. rewrite Mx in Exy by done.
      destruct (Hnew Hlt) as (_ & Hf & _). destruct (Hu y Hy) as [_ Ht]; [lia|]. congruence.
    + destruct Hx as [|Hx]; [done|]. rewrite Mo in *. rewrite Mx in * by done.
      destruct (Hnew ltac:(lia)) as (_ & Hf & _). destruct (Hu x Hx) as [_ Ht]; [lia|]. congruence.
    + destruct Hx as [|Hx], Hy as [|Hy]; try done. rewrite !Mx in * by done. by apply Hd.
Qed.

Lemma free_macid_inv myid o a M : (o < length (stas (stapriv a)))%nat -> o ∈ M ->
  macid_inv myid M a -> macid_inv myid (filter (fun x => x <> o) M) (rtw_free_stainfo myid o a).
Proof.
  intros Ho HoM [Hn Hr Hu Hd]. destruct (lookup_lt_is_Some_2 _ _ Ho) as [s Hs].
  pose proof (free_addr myid o a) as Haddr.
  assert (Hmc : num (macid (rtw_free_stainfo myid o a)) = num (macid a) /\
    forall j, 0 <= j < 32 -> (sta_mac_id (stapriv a) o = j -> sta_mac_id (stapriv a) o = num (macid a)) ->
      rtw_macid_is_used (macid a) j = true -> rtw_macid_is_used (macid (rtw_free_stainfo myid o a)) j = true).
  { unfold rtw_free_stainfo. rewrite Hs.
    assert (sta_mac_id (stapriv a) o = mac_id s) as Em by (unfold sta_mac_id; by rewrite Hs).
    assert (sta_addr (stapriv a) o = hwaddr s) as Ea by (unfold sta_addr; by rewrite Hs).
    destruct (rtw_release_macid myid (hwaddr s) (mac_id s) (macid a)) as [mc i] eqn:E. cbn [macid].
    change mc with (fst (mc, i)). rewrite <- E, Em. clear E mc i.
    pose proof (Hr o HoM) as Hro. rewrite Em in Hro.
    destruct (decide (mac_id s < num (macid a))) as [Hlt|Hge].
    - destruct (Hu o HoM ltac:(lia)) as [Hne _]. rewrite Ea in Hne.
      destruct (rtw_release_macid_spec myid (hwaddr s) (mac_id s) (macid a)) as [E1 E2]; [lia|lia|done|].
      split; [done|]. intros j Hj Hneq Hused. rewrite E2, Hused by done.
      destruct (Z.eqb_spec (mac_id s) j) as [Ej|]; [specialize (Hneq Ej); lia|done].
    - unfold rtw_release_macid. rewrite (proj2 (Z.ltb_ge (mac_id s) _)) by lia.
      destruct (bool_decide _); cbn [fst]; done. }
  destruct Hmc as [En Hkeep].
  assert (Mx : forall x, x <> o -> sta_mac_id (stapriv (rtw_free_stainfo myid o a)) x = sta_mac_id (stapriv a) x).
  { intros x Hx. destruct (free_table myid o a s Hs) as (s' & _ & E1 & _). unfold sta_mac_id.
    rewrite E1. by rewrite list_lookup_insert_ne. }
  constructor; rewrite ?En.
  - done.
  - intros x [Hx HxM]%list_elem_of_filter. rewrite Mx by done. by apply Hr.
  - intros x [Hx HxM]%list_elem_of_filter Hlt. rewrite Mx, Haddr in * by done.
    destruct (Hu x HxM Hlt) as [H1 H2]. split; [done|]. apply Hkeep; [pose proof (Hr x HxM); lia| |done].
    intros Eq. destruct Hx. symmetry. apply Hd; [done..|lia|done].
  - intros x y [Hx HxM]%list_elem_of_filter [Hy HyM]%list_elem_of_filter. rewrite !Mx by done. by apply Hd.
Qed.

Lemma free_list_macid myid L : forall M a, length (stas (stapriv a)) = 32%nat ->
  NoDup L -> (forall o, o ∈ L -> o ∈ M /\ (o < 32)%nat) -> macid_inv myid M a ->
  macid_inv myid (filter (fun o => o ∉ L) M) (fold_left (fun a o => rtw_free_stainfo myid o a) L a).
Proof.
  induction L as [|o L IH]; intros M a Hs Hnd HL Hm; cbn [fold_left].
  { apply (macid_inv_sub _ M); [|done]. by intros o [_ H]%list_elem_of_filter. }
  apply list.NoDup_cons in Hnd as [Ho Hnd]. destruct (HL o) as [HoM Ho32]; [by left|].
  apply (macid_inv_sub _ (filter (fun x => x ∉ L) (filter (fun x => x <> o) M))).
  { intros x [Hx HxM]%list_elem_of_filter. apply not_elem_of_cons in Hx as [Hxo Hx].
    by apply list_elem_of_filter; split; [|apply list_elem_of_filter]. }
  apply IH; [|done| |apply free_macid_inv; [lia|done|done]].
  - destruct (lookup_lt_is_Some_2 (stas (stapriv a)) o ltac:(lia)) as [s Hso].
    destruct (free_table myid o a s Hso) as (s' & _ & E1 & _). by rewrite E1, length_insert.
  - intros x Hx. destruct (HL x) as [HxM Hx32]; [by right|]. split; [|done].
    apply list_elem_of_filter. split; [|done]. by intros ->.
Qed.

(** The tables reached from the initial one by the operations; an allocation is made only
    from a table that is not full. *)
Inductive table_reach (myid : list Z) (iface_id : Z) : adapter -> Prop :=
| tr_init a sp : stapriv a = _rtw_init_sta_priv sp -> 0 <= num (macid a) <= MACID_NUM_SW_LIMIT ->
    table_reach myid iface_id a
| tr_alloc addr a : table_reach myid iface_id a -> free_sta_queue (stapriv a) <> [] ->
    table_reach myid iface_id (fst (rtw_alloc_stainfo myid iface_id addr a))
| tr_free o a : table_reach myid iface_id a -> o ∈ concat (sta_hash (stapriv a)) ->
    table_reach myid iface_id (rtw_free_stainfo myid o a)
| tr_free_all a : table_reach myid iface_id a -> table_reach myid iface_id (rtw_free_all_stainfo myid a).

Lemma free_all_macid_inv myid a : table_inv (stapriv a) ->
  macid_inv myid (concat (sta_hash (stapriv a))) a ->
  macid_inv myid (concat (sta_hash (stapriv (rtw_free_all_stainfo myid a)))) (rtw_free_all_stainfo myid a).
Proof.
  intros Hinv Hm. destruct (free_all_inv myid a Hinv) as [_ Hcat]. revert Hcat.
  unfold rtw_free_all_stainfo. destruct (Z.eqb_spec (asoc_sta_count (stapriv a)) 1) as [|Hne]; [done|].
  intros Hcat. rewrite Hcat by done. set (a0 := set_stapriv _ a).
  set (b := rtw_get_bcmc_stainfo (stapriv a)). set (M := concat (sta_hash (stapriv a))) in *.
  pose proof (table_nodup _ Hinv) as Hnd. apply list.NoDup_app in Hnd as (_ & _ & Hnd).
  apply (macid_inv_sub _ (filter (fun o => o ∉ filter (fun o => b <> Some o) M) M)).
  { intros o [Ho HoM]%list_elem_of_filter. apply list_elem_of_filter. split; [|done].
    intros [H _]%list_elem_of_filter. done. }
  apply free_list_macid.
  - exact (ti_stas _ Hinv).
  - by apply list.NoDup_filter.
  - intros o [_ Ho]%list_elem_of_filter. split; [done|]. apply (table_member _ o Hinv). by right.
  - destruct Hm as [H1 H2 H3 H4]. by constructor.
Qed.

(** C30: The station table.  In every table reached by allocations (while an entry is
    free), releases and [rtw_free_all_stainfo], each of the 32 entries is either in the
    free queue or in exactly one hash list, the list of its address; [asoc_sta_count] is
    the number of entries in the hash lists, the lock is not held, and two stations in
    the table never share a hardware MAC id. *)
Theorem station_table_invariant myid iface_id a : table_reach myid iface_id a ->
  table_inv (stapriv a) /\
  (forall o1 o2, o1 ∈ concat (sta_hash (stapriv a)) -> o2 ∈ concat (sta_hash (stapriv a)) ->
     o1 <> o2 -> sta_mac_id (stapriv a) o1 < num (macid a) ->
     sta_mac_id (stapriv a) o1 <> sta_mac_id (stapriv a) o2).
Proof.
  intros H. assert (table_inv (stapriv a) /\ macid_inv myid (concat (sta_hash (stapriv a))) a) as [H1 [_ _ _ Hd]].
  { induction H as [a sp E Hn|addr a _ [H1 H2] Hne|o a _ [H1 H2] Ho|a _ [H1 H2]].
    - rewrite E. split; [apply init_inv|]. change (concat (sta_hash (_rtw_init_sta_priv sp))) with (@nil nat).
      constructor; [done|intros o Hin|intros o Hin|intros o o' Hin]; by apply elem_of_nil in Hin.
    - split; [by apply alloc_inv|]. destruct (free_sta_queue (stapriv a)) as [|o fr] eqn:Hfr; [done|].
      by eapply alloc_macid_inv.
    - split; [by apply free_inv|]. assert (Ho32 : (o < 32)%nat) by (apply (table_member _ o H1); by right).
      eapply macid_inv_sub; [|apply free_macid_inv; [rewrite (ti_stas _ H1); done|exact Ho|exact H2]].
      intros x Hx. apply (free_members myid o a H1 Ho32) in Hx. by apply list_elem_of_filter.
    - split; [by apply free_all_inv|by apply free_all_macid_inv]. }
  split; [done|]. intros o1 o2 Ho1 Ho2 Hne Hlt E. apply Hne. by apply Hd.
Qed.

(** ** Edge cases *)

(** When no entry is free, [rtw_alloc_stainfo] returns NULL but releases
    [sta_hash_lock] twice after acquiring it once, and [rtw_init_bcmc_stainfo], whose
    allocation failed, still reports [_SUCCESS]. *)
Theorem alloc_stainfo_full myid iface_id addr a : free_sta_queue (stapriv a) = [] ->
  rtw_alloc_stainfo myid iface_id addr a =
    (set_stapriv (set_lock (hash_lock (stapriv a) - 1) (stapriv a)) a, None) /\
  snd (rtw_init_bcmc_stainfo myid iface_id a) = _SUCCESS.
Proof.
  intros Hfr. unfold rtw_init_bcmc_stainfo.
  assert (forall addr, rtw_alloc_stainfo myid iface_id addr a =
    (set_stapriv (set_lock (hash_lock (stapriv a) - 1) (stapriv a)) a, None)) as E.
  { intros addr'. unfold rtw_alloc_stainfo, lock_hash, unlock_hash, set_lock. cbn [free_sta_queue].
    rewrite Hfr. cbn. do 2 f_equal. f_equal. lia. }
  split; [apply E|]. by rewrite E.
Qed.

Lemma free_frames_ids q e : free_recv_queue (fold_left (fun e f => rtw_free_recvframe f e) q e) =
  relinks (map rf_id q) (free_recv_queue e).
Proof. revert e. induction q as [|f q IH]; intros e; [done|]. apply IH. Qed.

Lemma free_windows_ids cs e : free_recv_queue (free_windows cs e) =
  relinks (concat (map (fun c => map rf_id (pending_recvframe_queue c)) cs)) (free_recv_queue e).
Proof.
  unfold free_windows. revert e. induction cs as [|c cs IH]; intros e; cbn [fold_left map concat]; [done|].
  by rewrite IH, free_frames_ids, relinks_app.
Qed.

(** Releasing a station gives the frames of its sixteen receive windows back to the
    pool, in order, empties the windows and stops their timers; the fragments waiting in
    its [defrag_q] are not given back, and the next allocation of the entry forgets them. *)
Theorem free_stainfo_frames myid iface_id o a s addr :
  stas (stapriv a) !! o = Some s ->
  let a' := rtw_free_stainfo myid o a in
  free_recv_queue (recvpriv a') =
    relinks (concat (map (fun c => map rf_id (pending_recvframe_queue c)) (recvreorder_ctrl s)))
      (free_recv_queue (recvpriv a)) /\
  (exists s', stas (stapriv a') !! o = Some s' /\ defrag_q s' = defrag_q s /\
     Forall (fun c => pending_recvframe_queue c = [] /\ timer c = false) (recvreorder_ctrl s')) /\
  (forall a2, rtw_alloc_stainfo myid iface_id addr a' = (a2, Some o) ->
     recvpriv a2 = recvpriv a' /\
     exists s2, stas (stapriv a2) !! o = Some s2 /\ defrag_q s2 = []).
Proof.
  intros Hs a'. pose proof (lookup_lt_Some _ _ _ Hs) as Hlt.
  assert (Ea : exists i n, stas (stapriv a') = <[o := clear_sta s i n]> (stas (stapriv a)) /\
    recvpriv a' = free_windows (recvreorder_ctrl s) (recvpriv a)).
  { unfold a', rtw_free_stainfo. rewrite Hs. destruct (rtw_release_macid _ _ _ _) as [mc i]. by eexists _, _. }
  destruct Ea as (i & n & E1 & E2). split; [by rewrite E2, free_windows_ids|]. split.
  - exists (clear_sta s i n). split; [rewrite E1; by apply list_lookup_insert_eq|]. split; [done|].
    cbn [clear_sta recvreorder_ctrl]. apply Forall_map, Forall_forall. by intros.
  - intros a2 E. destruct (free_sta_queue (stapriv a')) as [|o' fr] eqn:Hfr.
    { unfold rtw_alloc_stainfo, lock_hash, set_lock in E. cbn [free_sta_queue] in E. by rewrite Hfr in E. }
    destruct (alloc_eq myid iface_id addr a' o' fr Hfr) as (j & mc & _ & E').
    rewrite E in E'. injection E' as -> ->. split; [done|]. cbn [stapriv].
    unfold set_lock, set_table. cbn [stas]. eexists.
    split; [apply list_lookup_insert_eq; by rewrite E1, length_insert|done].
Qed.

(** ** Witnesses *)

Definition ex_sp : sta_priv := _rtw_init_sta_priv (mk_sp [] [] [] 0 0 [] 0 (replicate 32 None) 0 0 (mk_acl 0 [])).
Definition ex_adapter : adapter :=
  mk_adapter ex_sp (mk_macid 32 0 0 [0; 0; 0; 0] [0; 0]) (mk_env [] 0 [] []) (mk_xmit [] 0 [] 0 [0; 0; 0; 0] (replicate 4 []) 0).
Definition ex_me : list Z := [2; 0; 0; 0; 0; 1].
Definition ex_peer : list Z := [2; 0; 0; 0; 0; 9].

Lemma stainfo_alloc_get_free_witness :
  exists o a', rtw_alloc_stainfo ex_me 0 ex_peer ex_adapter = (a', Some o) /\
    rtw_get_stainfo (stapriv a') ex_peer = Some o.
Proof.
  destruct (stainfo_alloc_get_free ex_me 0 ex_peer ex_adapter) as (o & a' & E & _ & _ & _ & G & _).
  - apply init_inv.
  - intros o1 o2 H1. change (concat (sta_hash (stapriv ex_adapter))) with (@nil nat) in H1.
    destruct (proj1 (elem_of_nil o1) H1).
  - discriminate.
  - reflexivity.
  - reflexivity.
  - exists o, a'. split; [exact E|exact G].
Defined.

Lemma station_table_invariant_witness :
  table_inv (stapriv (fst (rtw_alloc_stainfo ex_me 0 ex_peer ex_adapter))).
Proof.
  apply (station_table_invariant ex_me 0 (fst (rtw_alloc_stainfo ex_me 0 ex_peer ex_adapter))).
  apply tr_alloc; [|discriminate]. eapply tr_init; [reflexivity|vm_compute; split; discriminate].
Defined.

Definition ex_full : adapter :=
  set_stapriv (set_table (stas ex_sp) [] (seq 0 32 :: replicate 31 []) 32 ex_sp) ex_adapter.

Lemma alloc_stainfo_full_witness :
  snd (rtw_alloc_stainfo ex_me 0 ex_peer ex_full) = None /\
  hash_lock (stapriv (fst (rtw_alloc_stainfo ex_me 0 ex_peer ex_full))) = -1.
Proof.
  destruct (alloc_stainfo_full ex_me 0 ex_peer ex_full eq_refl) as [E _]. rewrite E. split; reflexivity.
Defined.

Definition ex_sta : sta_info :=
  mk_sta ex_peer 1 0 32 false [] [] [] 0 (replicate 4 init_servq) [mpdu 3] (replicate 16 0)
    (mk_reorder true 0 0xffff 64 16 [mpdu 5; mpdu 6] true :: replicate 15 init_reorder) false 0 init_ps.

Lemma free_stainfo_frames_witness :
  free_recv_queue (recvpriv (rtw_free_stainfo ex_me 0
    (set_stapriv (set_table (<[0%nat := ex_sta]> (stas ex_sp)) [] (sta_hash ex_sp) 1 ex_sp) ex_adapter))) = [5; 6].
Proof.
  exact (proj1 (free_stainfo_frames ex_me 0 0
    (set_stapriv (set_table (<[0%nat := ex_sta]> (stas ex_sp)) [] (sta_hash ex_sp) 1 ex_sp) ex_adapter)
    ex_sta ex_peer eq_refl)).
Defined.
