(* ===== verification/TxQueue.v ===== *)
(** * The transmit queues (core/rtw_xmit.c)

    [rtw_xmit_classifier] puts a frame on the queue of its station and access category
    and links the station in the hardware queue; [rtw_dequeue_xframe] takes the next frame.
    With [rtl8812au_hal_xmitframe_enqueue] of hal/rtl8812a/usb/rtl8812au_xmit.c, which
    frees a frame that is refused.  Waking the transmit tasklet is not modelled. *)

From S2P Require Import Prelude RxFrame Reorder MacId StaMgt.

(** ** Changing one queue of one station *)

Definition set_servqs (qs : list tx_servq) (s : sta_info) : sta_info :=
  mk_sta (hwaddr s) (state s) (aid s) (mac_id s) (ieee8021x_blocked s) (dot118021x_UncstKey s)
    (dot11tkiprxmickey s) (sleep_q s) (sleepq_len s) qs (defrag_q s) (tid_rxseq s)
    (recvreorder_ctrl s) (addba_retry_timer s) (RxMgmtFrameSeqNum s) (ps s).
Definition set_xmitpriv (x : xmit_priv) (a : adapter) : adapter :=
  mk_adapter (stapriv a) (macid a) (recvpriv a) x.
Definition set_stas (sts : list sta_info) (sp : sta_priv) : sta_priv :=
  set_table sts (free_sta_queue sp) (sta_hash sp) (asoc_sta_count sp) sp.
Definition upd_sta (o : nat) (g : sta_info -> sta_info) (a : adapter) : adapter :=
  set_stapriv (set_stas (alter g o (stas (stapriv a))) (stapriv a)) a.
Definition upd_servq (o i : nat) (g : tx_servq -> tx_servq) (a : adapter) : adapter :=
  upd_sta o (fun s => set_servqs (alter g i (servqs s)) s) a.

Definition set_queues (n : list Z) (h : list (list nat)) (x : xmit_priv) : xmit_priv :=
  mk_xmit (free_xmit_queue x) (free_xmitframe_cnt x) (free_xframe_ext_queue x) (free_xframe_ext_cnt x)
    n h (tx_drop x).
Definition upd_accnt (i : nat) (d : Z) (x : xmit_priv) : xmit_priv :=
  set_queues (alter (fun n => n + d) i (accnt x)) (sta_queues x) x.
Definition link (o i : nat) (x : xmit_priv) : xmit_priv :=
  set_queues (accnt x) (alter (fun l => l ++ [o]) i (sta_queues x)) x.
Definition unlink (o i : nat) (x : xmit_priv) : xmit_priv :=
  set_queues (accnt x) (alter (filter (fun p => p <> o)) i (sta_queues x)) x.
Definition linked (o i : nat) (x : xmit_priv) : bool :=
  match sta_queues x !! i with Some l => bool_decide (o ∈ l) | None => false end.

(** ** Enqueueing *)

(** [rtw_get_sta_pending]: the access category of a priority (0 vo, 1 vi, 2 be, 3 bk). *)
Definition rtw_get_sta_pending (up : Z) : nat :=
  if (up =? 1) || (up =? 2) then 3%nat
  else if (up =? 4) || (up =? 5) then 1%nat
  else if (up =? 6) || (up =? 7) then 0%nat
  else 2%nat.

Definition rtw_xmit_classifier (f : xmit_frame) (a : adapter) : adapter * Z :=
  let psta := rtw_get_stainfo (stapriv a) (xa_ra (xattrib f)) in
  if negb (bool_decide (xa_psta (xattrib f) = psta)) then (a, _FAIL) else
  match psta with
  | None => (a, _FAIL)
  | Some o =>
      match stas (stapriv a) !! o with
      | None => (a, _FAIL)
      | Some s =>
          if state s .& _FW_LINKED =? 0 then (a, _FAIL) else
          let ac := rtw_get_sta_pending (xa_priority (xattrib f)) in
          let x := if linked o ac (xmitpriv a) then xmitpriv a else link o ac (xmitpriv a) in
          (upd_servq o ac (fun q => mk_servq (qcnt q + 1) (sta_pending q ++ [f]))
             (set_xmitpriv (upd_accnt ac 1 x) a), _SUCCESS)
      end
  end.

Definition rtw_xmitframe_enqueue (f : xmit_frame) (a : adapter) : adapter * Z :=
  let '(a, r) := rtw_xmit_classifier f a in
  if r =? _FAIL then (a, _FAIL) else (a, _SUCCESS).

Definition count_tx_drop (x : xmit_priv) : xmit_priv :=
  mk_xmit (free_xmit_queue x) (free_xmitframe_cnt x) (free_xframe_ext_queue x) (free_xframe_ext_cnt x)
    (accnt x) (sta_queues x) (u64 (tx_drop x + 1)).

(** [rtw_hal_xmitframe_enqueue] of the USB driver. *)
Definition rtl8812au_hal_xmitframe_enqueue (f : xmit_frame) (a : adapter) : adapter * Z :=
  let '(a, err) := rtw_xmitframe_enqueue f a in
  if negb (err =? _SUCCESS)
  then (set_xmitpriv (count_tx_drop (rtw_free_xmitframe (xmitpriv a) f)) a, err)
  else (a, err).

(** ** Dequeueing *)

Definition servq_of (a : adapter) (o i : nat) : option tx_servq :=
  s ← stas (stapriv a) !! o; servqs s !! i.

(** [dequeue_one_xmitframe]: the first frame of a station's queue. *)
Definition dequeue_one_xmitframe (q : tx_servq) : option (xmit_frame * tx_servq) :=
  match sta_pending q with
  | [] => None
  | f :: fs => Some (f, mk_servq (qcnt q - 1) fs)
  end.

(** The stations of one hardware queue, in the order they were linked. *)
Fixpoint dequeue_sta (i : nat) (os : list nat) (a : adapter) : option (adapter * xmit_frame) :=
  match os with
  | [] => None
  | o :: os =>
      match q ← servq_of a o i; dequeue_one_xmitframe q with
      | Some (f, q) =>
          let x := upd_accnt i (-1) (xmitpriv a) in
          let x := match sta_pending q with [] => unlink o i x | _ => x end in
          Some (upd_servq o i (fun _ => q) (set_xmitpriv x a), f)
      | None => dequeue_sta i os a
      end
  end.

(** [rtw_dequeue_xframe]: [inx] is the order of the four hardware queues, 0 to 3 or
    [wmm_para_seq]. *)
Fixpoint rtw_dequeue_xframe (inx : list nat) (a : adapter) : option (adapter * xmit_frame) :=
  match inx with
  | [] => None
  | i :: inx =>
      match os ← sta_queues (xmitpriv a) !! i; dequeue_sta i os a with
      | Some r => Some r
      | None => rtw_dequeue_xframe inx a
      end
  end.

(** ** The invariant of the queues *)

Definition pending_of (a : adapter) (o i : nat) : list xmit_frame :=
  match servq_of a o i with Some q => sta_pending q | None => [] end.
Definition queued (s : sta_info) (i : nat) : Z :=
  match servqs s !! i with Some q => zlen (sta_pending q) | None => 0 end.
Fixpoint zsum {A} (g : A -> Z) (l : list A) : Z :=
  match l with [] => 0 | x :: l => g x + zsum g l end.

(** The queue a frame belongs to. *)
Definition ac_of (f : xmit_frame) : nat := rtw_get_sta_pending (xa_priority (xattrib f)).
Definition home (o i : nat) (f : xmit_frame) : Prop := xa_psta (xattrib f) = Some o /\ ac_of f = i.
#[export] Instance home_dec o i f : Decision (home o i f).
Proof. unfold home. apply _. Defined.

(** The counters count, the hardware queues link the stations with pending frames and only
    these, each once, a free station has no pending frame, and a frame is on the queue of its
    station and access category. *)
Record tx_inv (a : adapter) : Prop := {
  tx_len : Forall (fun s => length (servqs s) = 4%nat) (stas (stapriv a));
  tx_qcnt : forall o i q, servq_of a o i = Some q -> qcnt q = zlen (sta_pending q);
  tx_accnt_len : length (accnt (xmitpriv a)) = 4%nat;
  tx_queues_len : length (sta_queues (xmitpriv a)) = 4%nat;
  tx_accnt : forall i n, accnt (xmitpriv a) !! i = Some n -> n = zsum (fun s => queued s i) (stas (stapriv a));
  tx_nodup : forall i l, sta_queues (xmitpriv a) !! i = Some l -> NoDup l;
  tx_linked : forall i l o, sta_queues (xmitpriv a) !! i = Some l -> o ∈ l <-> pending_of a o i <> [];
  tx_free : forall o i, o ∈ free_sta_queue (stapriv a) -> pending_of a o i = [];
  tx_home : forall o i f, f ∈ pending_of a o i -> home o i f
}.

Lemma zsum_alter {A} (g : A -> Z) (u : A -> A) o l s : l !! o = Some s ->
  zsum g (alter u o l) = zsum g l + (g (u s) - g s).
Proof.
  revert o. induction l as [|x l IH]; intros [|o] H; try done.
  - injection H as ->. change (alter u 0%nat (s :: l)) with (u s :: l). cbn [zsum]. lia.
  - change (alter u (S o) (x :: l)) with (x :: alter u o l). cbn [zsum]. rewrite (IH o H). lia.
Qed.

Lemma servq_upd a o i g o' j : servq_of (upd_servq o i g a) o' j =
  if decide (o' = o /\ j = i) then g <$> servq_of a o i else servq_of a o' j.
Proof.
  unfold servq_of, upd_servq, upd_sta. change (stas (stapriv (set_stapriv ?sp a))) with (stas sp).
  change (stas (set_stas ?l ?sp)) with l. destruct (decide (o' = o)) as [->|Hne].
  - rewrite list_lookup_alter_eq. destruct (stas (stapriv a) !! o) as [s|]; cbn [fmap option_fmap option_map mbind option_bind];
      [|by destruct (decide _)].
    change (servqs (set_servqs ?qs s)) with qs. destruct (decide (j = i)) as [->|Hj].
    + rewrite list_lookup_alter_eq, decide_True by done. done.
    + rewrite list_lookup_alter_ne, decide_False by (done || by intros [_ ?]). done.
  - rewrite list_lookup_alter_ne, decide_False by (done || by intros [? _]). done.
Qed.

Lemma pending_upd a o i q q' o' j : servq_of a o i = Some q ->
  pending_of (upd_servq o i (fun _ => q') a) o' j =
  if decide (o' = o /\ j = i) then sta_pending q' else pending_of a o' j.
Proof.
  intros Hq. unfold pending_of. rewrite servq_upd, Hq. by destruct (decide _).
Qed.

(** One queue changes, and the counters and links with it. *)
Lemma tx_change a o i q q' x : tx_inv a -> servq_of a o i = Some q -> qcnt q' = zlen (sta_pending q') ->
  accnt x = alter (fun n => n + (zlen (sta_pending q') - zlen (sta_pending q))) i (accnt (xmitpriv a)) ->
  length (sta_queues x) = 4%nat ->
  (forall j l, sta_queues x !! j = Some l -> NoDup l /\ exists l0, sta_queues (xmitpriv a) !! j = Some l0 /\
     forall p, p ∈ l <-> if decide (p = o /\ j = i) then sta_pending q' <> [] else p ∈ l0) ->
  (o ∈ free_sta_queue (stapriv a) -> sta_pending q' = []) ->
  (forall f, f ∈ sta_pending q' -> home o i f) ->
  tx_inv (upd_servq o i (fun _ => q') (set_xmitpriv x a)).
Proof.
  intros [Hlen Hcnt Hal Hql Hacc Hnd Hlk Hfr Hho] Hq Hq' Hx Hxl Hxq Hf Hh.
  assert (Hqx : servq_of (set_xmitpriv x a) o i = Some q) by exact Hq.
  pose proof Hq as Hs. apply bind_Some in Hs as (s & Hs & Hsq).
  constructor.
  - cbn [upd_servq upd_sta set_stapriv stapriv set_stas set_table stas set_xmitpriv].
    apply Forall_alter; [done|]. intros s' _ H. change (servqs (set_servqs ?qs s')) with qs. by rewrite length_alter.
  - intros o' j q1 H. rewrite servq_upd, Hqx in H. destruct (decide _); [by injection H as <-|by apply (Hcnt o' j)].
  - change (xmitpriv (upd_servq _ _ _ _)) with x. by rewrite Hx, length_alter.
  - exact Hxl.
  - change (xmitpriv (upd_servq _ _ _ _)) with x. intros j n H. rewrite Hx in H.
    cbn [upd_servq upd_sta set_stapriv stapriv set_stas set_table stas set_xmitpriv].
    rewrite (zsum_alter _ _ _ _ s) by done. unfold queued at 2 3.
    change (servqs (set_servqs ?qs s)) with qs. destruct (decide (j = i)) as [->|Hj].
    + rewrite list_lookup_alter_eq in H. apply fmap_Some in H as (n0 & H & ->).
      rewrite list_lookup_alter_eq, Hsq. cbn [fmap option_fmap option_map]. rewrite (Hacc _ _ H). lia.
    + rewrite list_lookup_alter_ne in H by done. rewrite list_lookup_alter_ne by done. rewrite (Hacc _ _ H). lia.
  - change (xmitpriv (upd_servq _ _ _ _)) with x. intros j l H. by apply (Hxq j l).
  - change (xmitpriv (upd_servq _ _ _ _)) with x. intros j l p H. destruct (Hxq j l H) as (_ & l0 & H0 & Hp).
    rewrite Hp, (pending_upd _ _ _ q) by done. destruct (decide _); [done|]. by apply Hlk.
  - intros p j H. rewrite (pending_upd _ _ _ q) by done. destruct (decide _) as [[-> ->]|]; [by apply Hf|by apply Hfr].
  - intros p j f H. rewrite (pending_upd _ _ _ q) in H by done.
    destruct (decide _) as [[-> ->]|]; [by apply Hh|by apply Hho].
Qed.

(** ** Enqueueing and dequeueing keep it *)

(** The station that [rtw_xmit_classifier] accepts a frame for. *)
Definition tx_dest (a : adapter) (f : xmit_frame) : option nat :=
  match rtw_get_stainfo (stapriv a) (xa_ra (xattrib f)) with
  | Some o => if bool_decide (xa_psta (xattrib f) = Some o)
                 && (match stas (stapriv a) !! o with
                     | Some s => negb (state s .& _FW_LINKED =? 0) | None => false end)
              then Some o else None
  | None => None
  end.

Lemma ac_of_lt f : (ac_of f < 4)%nat.
Proof. unfold ac_of, rtw_get_sta_pending. repeat case_match; lia. Qed.

Lemma classifier_spec f a : rtw_xmit_classifier f a =
  match tx_dest a f with
  | None => (a, _FAIL)
  | Some o =>
      (upd_servq o (ac_of f) (fun q => mk_servq (qcnt q + 1) (sta_pending q ++ [f]))
         (set_xmitpriv (upd_accnt (ac_of f) 1
            (if linked o (ac_of f) (xmitpriv a) then xmitpriv a else link o (ac_of f) (xmitpriv a))) a), _SUCCESS)
  end.
Proof.
  unfold rtw_xmit_classifier, tx_dest. destruct (rtw_get_stainfo _ _) as [o|]; [|by case_match].
  destruct (bool_decide _); [|done]. cbn [negb andb]. destruct (stas _ !! o) as [s|]; [|done].
  by destruct (_ =? 0).
Qed.

Lemma tx_dest_Some a f o : tx_dest a f = Some o -> table_inv (stapriv a) ->
  (o ∉ free_sta_queue (stapriv a)) /\ exists s, stas (stapriv a) !! o = Some s.
Proof.
  unfold tx_dest. intros H Ht. destruct (rtw_get_stainfo _ _) as [p|] eqn:E; [|done].
  destruct (_ && _) eqn:Eb; [|done]. injection H as ->. apply get_sound in E as [Hin _].
  apply andb_true_iff in Eb as [_ Eb]. destruct (stas _ !! o) as [s|]; [|done].
  split; [|by exists s]. intros Hf. pose proof (table_nodup _ Ht) as Hn.
  apply list.NoDup_app in Hn as (_ & Hn & _). by apply (Hn o).
Qed.

Lemma tx_dest_psta a f o : tx_dest a f = Some o -> xa_psta (xattrib f) = Some o.
Proof.
  unfold tx_dest. case_match; [|done]. destruct (bool_decide_reflect (xa_psta (xattrib f) = Some n)) as [He|]; [|done].
  cbn [andb]. case_match; [|done]. congruence.
Qed.

Lemma servq_total a o i s : tx_inv a -> stas (stapriv a) !! o = Some s -> (i < 4)%nat ->
  exists q, servq_of a o i = Some q.
Proof.
  intros Ha Hs Hi. unfold servq_of. rewrite Hs. cbn [mbind option_bind]. apply lookup_lt_is_Some.
  pose proof (proj1 (Forall_lookup _ _) (tx_len _ Ha) _ _ Hs). simpl in *. lia.
Qed.

Lemma upd_servq_const o i g q a : servq_of a o i = Some q -> upd_servq o i g a = upd_servq o i (fun _ => g q) a.
Proof.
  intros Hq. unfold servq_of in Hq. apply bind_Some in Hq as (s & Hs & Hq). unfold upd_servq, upd_sta.
  match goal with |- set_stapriv (set_stas ?l _) _ = set_stapriv (set_stas ?l' _) _ => enough (l = l') as -> by done end.
  apply list_alter_ext; [|done]. intros s' Hs'. rewrite Hs in Hs'. injection Hs' as <-. f_equal.
  apply list_alter_ext; [|done]. intros q' Hq'. rewrite Hq in Hq'. by injection Hq' as <-.
Qed.

Lemma linked_spec o i x l : sta_queues x !! i = Some l -> linked o i x = bool_decide (o ∈ l).
Proof. intros H. unfold linked. by rewrite H. Qed.

Lemma classifier_inv f a : tx_inv a -> table_inv (stapriv a) -> tx_inv (rtw_xmit_classifier f a).1.
Proof.
  intros Ha Ht. rewrite classifier_spec. destruct (tx_dest a f) as [o|] eqn:Ed; [|done]. cbn [fst].
  destruct (tx_dest_Some _ _ _ Ed Ht) as [Hnf [s Hs]]. pose proof (ac_of_lt f) as Hac.
  destruct (servq_total a o (ac_of f) s Ha Hs Hac) as [q Hq].
  rewrite (upd_servq_const _ _ _ q) by exact Hq.
  destruct (lookup_lt_is_Some_2 (sta_queues (xmitpriv a)) (ac_of f)) as [l Hl]; [by rewrite (tx_queues_len _ Ha)|].
  rewrite (linked_spec _ _ _ l Hl).
  eapply (tx_change a o (ac_of f) q); [done|done|..].
  - cbn [qcnt sta_pending]. rewrite (tx_qcnt _ Ha _ _ _ Hq), zlen_app. done.
  - cbn [sta_pending]. rewrite zlen_app. replace (zlen (sta_pending q) + zlen [f] - zlen (sta_pending q)) with 1
      by (unfold zlen; cbn [length]; lia). by destruct (bool_decide _).
  - destruct (bool_decide _); cbn; rewrite ?length_alter; apply (tx_queues_len _ Ha).
  - intros j l' Hj. cbn [sta_pending].
    assert (Hne : sta_pending q ++ [f] <> []) by (by destruct (sta_pending q)).
    destruct (bool_decide_reflect (o ∈ l)) as [Hin|Hin]; cbn in Hj.
    + split; [by apply (tx_nodup _ Ha j)|]. exists l'. split; [done|]. intros p.
      destruct (decide _) as [[-> ->]|]; [|done]. rewrite Hl in Hj. injection Hj as <-. by split.
    + destruct (decide (j = ac_of f)) as [->|Hji].
      * rewrite list_lookup_alter_eq, Hl in Hj. injection Hj as <-. split.
        { apply list.NoDup_app. split; [by apply (tx_nodup _ Ha _ _ Hl)|]. split; [|apply NoDup_singleton].
          intros p Hp ->%list_elem_of_singleton. done. }
        exists l. split; [done|]. intros p. rewrite elem_of_app, list_elem_of_singleton.
        destruct (decide _) as [[-> _]|Hd]; [split; [done|by right]|]. split; [intros [?| ->]; [done|by destruct Hd]|by left].
      * rewrite list_lookup_alter_ne in Hj by done. split; [by apply (tx_nodup _ Ha j)|]. exists l'. split; [done|].
        intros p. by rewrite decide_False by (by intros [_ ?]).
  - by intros Hin%Hnf.
  - cbn [sta_pending]. intros g [Hg| ->%list_elem_of_singleton]%elem_of_app.
    + apply (tx_home _ Ha). unfold pending_of. by rewrite Hq.
    + split; [by apply (tx_dest_psta a)|done].
Qed.

(** The first frame of a station with pending frames. *)
Lemma dequeue_one_spec a o i q : servq_of a o i = Some q ->
  dequeue_one_xmitframe q = match pending_of a o i with [] => None | f :: fs => Some (f, mk_servq (qcnt q - 1) fs) end.
Proof. intros Hq. unfold pending_of, dequeue_one_xmitframe. by rewrite Hq. Qed.

(** A hardware queue with a linked station gives the first frame of the first station. *)
Lemma dequeue_sta_cons a i o os : tx_inv a -> sta_queues (xmitpriv a) !! i = Some (o :: os) ->
  exists q f fs, servq_of a o i = Some q /\ pending_of a o i = f :: fs /\
  dequeue_sta i (o :: os) a =
    Some (upd_servq o i (fun _ => mk_servq (qcnt q - 1) fs)
            (set_xmitpriv (match fs with [] => unlink o i (upd_accnt i (-1) (xmitpriv a))
                           | _ => upd_accnt i (-1) (xmitpriv a) end) a), f).
Proof.
  intros Ha Hl. assert (Hp : pending_of a o i <> []) by (apply (tx_linked _ Ha _ _ _ Hl); by left).
  unfold pending_of in Hp. destruct (servq_of a o i) as [q|] eqn:Hq; [|done].
  destruct (sta_pending q) as [|f fs] eqn:Hf; [done|]. exists q, f, fs. split; [done|].
  split; [unfold pending_of; by rewrite Hq|]. cbn [dequeue_sta]. rewrite Hq. cbn [mbind option_bind].
  unfold dequeue_one_xmitframe. by rewrite Hf.
Qed.

Lemma dequeue_sta_inv a i o os q f fs : tx_inv a -> sta_queues (xmitpriv a) !! i = Some (o :: os) ->
  servq_of a o i = Some q -> pending_of a o i = f :: fs ->
  tx_inv (upd_servq o i (fun _ => mk_servq (qcnt q - 1) fs)
            (set_xmitpriv (match fs with [] => unlink o i (upd_accnt i (-1) (xmitpriv a))
                           | _ => upd_accnt i (-1) (xmitpriv a) end) a)).
Proof.
  intros Ha Hl Hq Hp. assert (Hqf : sta_pending q = f :: fs) by (unfold pending_of in Hp; by rewrite Hq in Hp).
  assert (Hnd : NoDup (o :: os)) by apply (tx_nodup _ Ha _ _ Hl).
  eapply (tx_change a o i q); [done|done|..]; cbn [qcnt sta_pending].
  - rewrite (tx_qcnt _ Ha _ _ _ Hq), Hqf, !zlen_cons. lia.
  - rewrite Hqf, zlen_cons. replace (zlen fs - (1 + zlen fs)) with (-1) by lia. by destruct fs.
  - destruct fs; cbn [unlink upd_accnt set_queues sta_queues]; rewrite ?length_alter; apply (tx_queues_len _ Ha).
  - intros j l Hj.
    assert (Hsame : sta_queues (xmitpriv a) !! j = Some l -> (j = i -> fs <> []) ->
      NoDup l /\ exists l0, sta_queues (xmitpriv a) !! j = Some l0 /\
        forall p, p ∈ l <-> if decide (p = o /\ j = i) then fs <> [] else p ∈ l0).
    { intros Hl' Hfs. split; [by apply (tx_nodup _ Ha j)|]. exists l. split; [done|]. intros p.
      destruct (decide _) as [[-> ->]|]; [|done]. rewrite Hl in Hl'. injection Hl' as <-.
      split; [intros _; by apply Hfs|by left]. }
    destruct fs as [|f' fs]; cbn [unlink upd_accnt set_queues sta_queues] in Hj; [|by apply Hsame].
    destruct (decide (j = i)) as [->|Hji]; [|rewrite list_lookup_alter_ne in Hj by done; by apply Hsame].
    rewrite list_lookup_alter_eq, Hl in Hj. injection Hj as <-. split; [by apply list.NoDup_filter|].
    exists (o :: os). split; [done|]. intros p. rewrite list_elem_of_filter.
    destruct (decide _) as [[-> _]|Hd]; [split; [by intros [? _]|done]|].
    split; [by intros [_ ?]|]. intros Hp'. split; [|done]. intros ->. by apply Hd.
  - intros Hf. by rewrite (tx_free _ Ha _ _ Hf) in Hp.
  - intros g Hg. apply (tx_home _ Ha). rewrite Hp. by right.
Qed.

(** What taking a frame does: the first frame of the station linked first leaves its queue. *)
Definition dequeued (o i : nat) (f : xmit_frame) (a a' : adapter) : Prop :=
  (exists os, sta_queues (xmitpriv a) !! i = Some (o :: os)) /\
  pending_of a o i = f :: pending_of a' o i /\
  (forall p j, ~ (p = o /\ j = i) -> pending_of a' p j = pending_of a p j) /\
  free_xmit_queue (xmitpriv a') = free_xmit_queue (xmitpriv a) /\
  free_xframe_ext_queue (xmitpriv a') = free_xframe_ext_queue (xmitpriv a).

Lemma dequeue_sta_run a i os : tx_inv a -> sta_queues (xmitpriv a) !! i = Some os ->
  match dequeue_sta i os a with
  | None => os = []
  | Some (a', f) => exists o, dequeued o i f a a' /\ tx_inv a'
  end.
Proof.
  intros Ha Hl. destruct os as [|o os]; [done|].
  destruct (dequeue_sta_cons a i o os Ha Hl) as (q & f & fs & Hq & Hp & ->).
  exists o. split; [|by apply (dequeue_sta_inv a i o os q f fs)].
  split_and!; [by exists os| | |by destruct fs|by destruct fs].
  - rewrite (pending_upd _ _ _ q) by exact Hq. by rewrite decide_True.
  - intros p j Hne. rewrite (pending_upd _ _ _ q) by exact Hq. by rewrite decide_False.
Qed.

Lemma dequeue_run inx a : tx_inv a -> Forall (fun i => i < 4)%nat inx ->
  match rtw_dequeue_xframe inx a with
  | None => forall i o, i ∈ inx -> pending_of a o i = []
  | Some (a', f) => exists pre i post o, inx = pre ++ i :: post /\
      (forall j p, j ∈ pre -> pending_of a p j = []) /\ dequeued o i f a a' /\ tx_inv a'
  end.
Proof.
  intros Ha. induction inx as [|i inx IH]; intros Hinx; [by intros i o H%elem_of_nil|].
  apply Forall_cons_1 in Hinx as [Hi Hinx]. specialize (IH Hinx). cbn [rtw_dequeue_xframe].
  destruct (lookup_lt_is_Some_2 (sta_queues (xmitpriv a)) i) as [os Hos]; [by rewrite (tx_queues_len _ Ha)|].
  rewrite Hos. cbn [mbind option_bind]. pose proof (dequeue_sta_run a i os Ha Hos) as Hd.
  destruct (dequeue_sta i os a) as [[a' f]|].
  - destruct Hd as (o & Hd & Ha'). exists [], i, inx, o. split_and!; [done| |done|done]. by intros j p H%elem_of_nil.
  - subst os. assert (Hempty : forall p, pending_of a p i = []).
    { intros p. destruct (pending_of a p i) eqn:E; [done|].
      assert (Hn : pending_of a p i <> []) by (by rewrite E). apply (tx_linked _ Ha _ _ _ Hos) in Hn. by apply elem_of_nil in Hn. }
    destruct (rtw_dequeue_xframe inx a) as [[a' f]|].
    + destruct IH as (pre & j & post & o & -> & Hpre & H). exists (i :: pre), j, post, o. split; [done|].
      split; [|done]. intros j' p [->|Hj]%elem_of_cons; [apply Hempty|by apply Hpre].
    + intros j o [->|Hj]%elem_of_cons; [apply Hempty|by apply IH].
Qed.

(** ** Sequences of operations *)

(** The network layer hands a frame over, or the transmit tasklet takes one. *)
Inductive tx_op := TxPut (f : xmit_frame) | TxGet (inx : list nat).

(** The adapter after one operation, the frames it accepted and the frames it took. *)
Definition tx_step (op : tx_op) (a : adapter) : adapter * list xmit_frame * list xmit_frame :=
  match op with
  | TxPut f => let '(a', r) := rtl8812au_hal_xmitframe_enqueue f a in (a', if r =? _SUCCESS then [f] else [], [])
  | TxGet inx => match rtw_dequeue_xframe inx a with Some (a', f) => (a', [], [f]) | None => (a, [], []) end
  end.

Fixpoint tx_run (ops : list tx_op) (a : adapter) : adapter * list xmit_frame * list xmit_frame :=
  match ops with
  | [] => (a, [], [])
  | op :: ops =>
      let '(a, acc, sent) := tx_step op a in
      let '(a, acc', sent') := tx_run ops a in (a, acc ++ acc', sent ++ sent')
  end.

Definition op_wf (op : tx_op) : Prop :=
  match op with TxPut _ => True | TxGet inx => Forall (fun i => i < 4)%nat inx end.

(** What the operations keep: the queues and the station table. *)
Definition tx_wf (a : adapter) : Prop := tx_inv a /\ table_inv (stapriv a).

Lemma upd_servq_table o i g a : table_inv (stapriv a) -> table_inv (stapriv (upd_servq o i g a)).
Proof.
  intros [H1 H2 H3 H4 H5 H6]. constructor; try done.
  - cbn [upd_servq upd_sta set_stapriv stapriv set_stas set_table stas]. by rewrite length_alter.
  - intros j l p Hl Hp. rewrite <- (H4 j l p Hl Hp). do 2 f_equal. unfold sta_addr.
    cbn [upd_servq upd_sta set_stapriv stapriv set_stas set_table stas]. rewrite list_lookup_alter.
    case_decide; [subst|done]. by destruct (stas (stapriv a) !! p).
Qed.

Lemma tx_inv_same a x : tx_inv a -> accnt x = accnt (xmitpriv a) -> sta_queues x = sta_queues (xmitpriv a) ->
  tx_inv (set_xmitpriv x a).
Proof.
  intros [H1 H2 H3 H4 H5 H6 H7 H8 H9] Ha Hq.
  constructor; cbn [set_xmitpriv stapriv xmitpriv]; rewrite ?Ha, ?Hq; done.
Qed.

Lemma free_xmit_same x f : accnt (rtw_free_xmitframe x f) = accnt x /\ sta_queues (rtw_free_xmitframe x f) = sta_queues x.
Proof. unfold rtw_free_xmitframe. by destruct (ext_tag f). Qed.

(** A frame put: it goes to the end of its queue, or it is refused. *)
Lemma put_spec f a : rtl8812au_hal_xmitframe_enqueue f a =
  match tx_dest a f with
  | Some _ => ((rtw_xmit_classifier f a).1, _SUCCESS)
  | None => (set_xmitpriv (count_tx_drop (rtw_free_xmitframe (xmitpriv a) f)) a, _FAIL)
  end.
Proof.
  unfold rtl8812au_hal_xmitframe_enqueue, rtw_xmitframe_enqueue. rewrite classifier_spec. by destruct (tx_dest a f).
Qed.

Lemma classifier_pending f a o : tx_inv a -> tx_dest a f = Some o -> table_inv (stapriv a) -> forall p j,
  pending_of (rtw_xmit_classifier f a).1 p j = pending_of a p j ++ (if decide (home p j f) then [f] else []).
Proof.
  intros Ha Hd Ht p j. destruct (tx_dest_Some _ _ _ Hd Ht) as [_ [s Hs]].
  destruct (servq_total a o (ac_of f) s Ha Hs (ac_of_lt f)) as [q Hq].
  rewrite classifier_spec, Hd. cbn [fst]. rewrite (upd_servq_const _ _ _ q) by exact Hq.
  rewrite (pending_upd _ _ _ q) by exact Hq. cbn [sta_pending]. pose proof (tx_dest_psta _ _ _ Hd) as Hps.
  destruct (decide (p = o /\ j = ac_of f)) as [[-> ->]|Hne].
  - rewrite decide_True by done. unfold pending_of. by rewrite Hq.
  - rewrite decide_False, app_nil_r; [done|]. intros [H1 H2]. rewrite Hps in H1. injection H1 as ->. by apply Hne.
Qed.

(** What one operation, and then a sequence, does to every queue. *)
Definition fifo (a a' : adapter) (acc sent : list xmit_frame) : Prop :=
  forall o i, filter (home o i) sent ++ pending_of a' o i = pending_of a o i ++ filter (home o i) acc.

Lemma put_table f a : table_inv (stapriv a) -> table_inv (stapriv (rtw_xmit_classifier f a).1).
Proof.
  intros Ht. rewrite classifier_spec. destruct (tx_dest a f); [|done]. cbn [fst]. by apply upd_servq_table.
Qed.

Lemma dequeue_table inx a a' f : rtw_dequeue_xframe inx a = Some (a', f) -> table_inv (stapriv a) ->
  table_inv (stapriv a').
Proof.
  intros H Ht. revert H. induction inx as [|i inx IH]; [done|]. cbn [rtw_dequeue_xframe].
  destruct (sta_queues (xmitpriv a) !! i) as [os|]; [|done]. cbn [mbind option_bind].
  destruct (dequeue_sta i os a) as [r|] eqn:E; [|done]. intros [= ->]. revert E. clear IH.
  induction os as [|o os IH]; [done|]. cbn [dequeue_sta].
  destruct (q ← _; _) as [[g q]|]; [|done]. intros [= <- _]. by apply upd_servq_table.
Qed.

Lemma tx_step_run op a : tx_wf a -> op_wf op ->
  let '(a', acc, sent) := tx_step op a in tx_wf a' /\ fifo a a' acc sent.
Proof.
  intros [Ha Ht] Hop. destruct op as [f|inx]; cbn [tx_step].
  - rewrite put_spec. destruct (tx_dest a f) as [o|] eqn:Hd.
    + split; [split; [by apply classifier_inv|by apply put_table]|]. intros p j.
      rewrite (classifier_pending f a o) by done. cbn [Z.eqb filter list_filter app]. f_equal.
    + split; [split; [|done]|].
      * apply tx_inv_same; [done|..]; cbn [count_tx_drop accnt sta_queues]; apply free_xmit_same.
      * intros p j. by rewrite app_nil_r.
  - cbn [op_wf] in Hop. pose proof (dequeue_run inx a Ha Hop) as H.
    destruct (rtw_dequeue_xframe inx a) as [[a' f]|] eqn:E; [|split; [done|]; intros p j; by rewrite app_nil_r].
    destruct H as (pre & i & post & o & _ & _ & (_ & Hp & Ho & _) & Ha').
    split; [split; [done|by eapply dequeue_table]|]. intros p j. rewrite app_nil_r.
    assert (Hf : home o i f) by (apply (tx_home _ Ha); rewrite Hp; by left).
    destruct (decide (p = o /\ j = i)) as [[-> ->]|Hne].
    + rewrite filter_cons_True by done. by rewrite Hp.
    + rewrite (Ho _ _ Hne), filter_cons_False; [done|]. intros [H1 H2]. destruct Hf as [H3 H4].
      apply Hne. split; congruence.
Qed.

Lemma fifo_run ops a : tx_inv a -> table_inv (stapriv a) -> Forall op_wf ops ->
  let '(a', acc, sent) := tx_run ops a in tx_inv a' /\ table_inv (stapriv a') /\ fifo a a' acc sent.
Proof.
  intros Ha Ht Hops. revert a Ha Ht. induction ops as [|op ops IH]; intros a Ha Ht; cbn [tx_run].
  - split_and!; [done|done|]. intros o i. by rewrite app_nil_r.
  - apply Forall_cons_1 in Hops as [Hop Hops]. pose proof (tx_step_run op a (conj Ha Ht) Hop) as H1.
    destruct (tx_step op a) as [[a1 acc1] sent1]. destruct H1 as [[Ha1 Ht1] H1]. specialize (IH Hops a1 Ha1 Ht1).
    destruct (tx_run ops a1) as [[a2 acc2] sent2]. destruct IH as (Ha2 & Ht2 & H2). split_and!; [done|done|].
    intros o i. rewrite !list.filter_app, <- app_assoc, H2, !app_assoc. f_equal. apply H1.
Qed.

(** C31: Whatever frames are handed over and taken, in any order, every queue of every
    station is a queue: the frames taken from it, in the order they were taken, and then
    those still pending are those that were pending and then those accepted, in the order
    they were accepted; no frame is lost, duplicated or overtaken within its station and
    access category.  The counters [qcnt] and [accnt] and the links of the hardware queues
    stay exact. *)
Theorem tx_fifo ops a : tx_inv a -> table_inv (stapriv a) -> Forall op_wf ops ->
  let '(a', acc, sent) := tx_run ops a in
  tx_inv a' /\ table_inv (stapriv a') /\
  forall o i, filter (home o i) sent ++ pending_of a' o i = pending_of a o i ++ filter (home o i) acc.
Proof. apply fifo_run. Qed.

(** Taking a frame goes through the access categories in the order given (voice first,
    or the WMM parameter order): it takes the first frame of the station that was linked
    first in the first category that has one, and no frame only if all are empty. *)
Theorem tx_dequeue_priority inx a : tx_inv a -> Forall (fun i => i < 4)%nat inx ->
  match rtw_dequeue_xframe inx a with
  | None => forall i o, i ∈ inx -> pending_of a o i = []
  | Some (a', f) => exists pre i post o, inx = pre ++ i :: post /\
      (forall j p, j ∈ pre -> pending_of a p j = []) /\ dequeued o i f a a'
  end.
Proof.
  intros Ha Hi. pose proof (dequeue_run inx a Ha Hi) as H. destruct (rtw_dequeue_xframe inx a) as [[a' f]|]; [|done].
  destruct H as (pre & i & post & o & ? & ? & ? & _). by exists pre, i, post, o.
Qed.

(** An adapter without pending frames. *)
Lemma tx_idle a : Forall (fun s => servqs s = replicate 4 init_servq) (stas (stapriv a)) ->
  accnt (xmitpriv a) = replicate 4 0 -> sta_queues (xmitpriv a) = replicate 4 [] -> tx_inv a.
Proof.
  intros Hs Hc Hq.
  assert (Hq0 : forall o i q, servq_of a o i = Some q -> q = init_servq).
  { intros o i q H. apply bind_Some in H as (s & H1 & H2). rewrite (proj1 (Forall_lookup _ _) Hs _ _ H1) in H2.
    by apply lookup_replicate in H2 as [-> _]. }
  assert (Hp : forall o i, pending_of a o i = []).
  { intros o i. unfold pending_of. destruct (servq_of a o i) as [q|] eqn:E; [|done]. by rewrite (Hq0 _ _ _ E). }
  constructor.
  - apply (List.Forall_impl _ (fun s H => f_equal length H) Hs).
  - intros o i q H. by rewrite (Hq0 _ _ _ H).
  - by rewrite Hc.
  - by rewrite Hq.
  - intros i n H. rewrite Hc in H. apply lookup_replicate in H as [-> _].
    induction Hs as [|s l H Hs IH]; cbn [zsum]; [done|]. rewrite <- IH. unfold queued. rewrite H.
    destruct (replicate 4 init_servq !! i) eqn:E; [|done]. by apply lookup_replicate in E as [-> _].
  - intros i l H. rewrite Hq in H. apply lookup_replicate in H as [-> _]. apply NoDup_nil_2.
  - intros i l o H. rewrite Hq in H. apply lookup_replicate in H as [-> _]. rewrite Hp, elem_of_nil. by split.
  - intros o i _. apply Hp.
  - intros o i f. by rewrite Hp, elem_of_nil.
Qed.

(** ** Witnesses *)

Definition ex_link (s : sta_info) : sta_info :=
  mk_sta (hwaddr s) 1 1 (mac_id s) (ieee8021x_blocked s) (dot118021x_UncstKey s)
    (dot11tkiprxmickey s) (sleep_q s) (sleepq_len s) (servqs s) (defrag_q s) (tid_rxseq s)
    (recvreorder_ctrl s) (addba_retry_timer s) (RxMgmtFrameSeqNum s) (ps s).
(** One linked station, no pending frame. *)
Definition ex_tx : adapter := upd_sta 0 ex_link (fst (rtw_alloc_stainfo ex_me 0 ex_peer ex_adapter)).
Definition ex_frame (i prio : Z) : xmit_frame :=
  mk_xf i false (mk_xattr ex_peer (Some 0%nat) prio 0x800 false false false false 0).

Lemma ex_tx_inv : tx_inv ex_tx.
Proof.
  apply tx_idle; [|reflexivity|reflexivity].
  assert (E : map servqs (stas (stapriv ex_tx)) = replicate 32 (replicate 4 init_servq)) by (vm_compute; reflexivity).
  apply (proj1 (Forall_map servqs (fun q => q = replicate 4 init_servq) _)). rewrite E. by apply Forall_replicate.
Qed.

Lemma ex_tx_table : table_inv (stapriv ex_tx).
Proof.
  assert (H : table_inv (stapriv (fst (rtw_alloc_stainfo ex_me 0 ex_peer ex_adapter)))).
  { apply alloc_inv; [apply init_inv|discriminate]. }
  destruct H as [H1 H2 H3 H4 H5 H6]. constructor; try done.
  intros i l o Hl Ho. rewrite <- (H4 i l o Hl Ho). f_equal. f_equal. unfold sta_addr, ex_tx, upd_sta.
  cbn [set_stapriv stapriv set_stas set_table stas]. rewrite list_lookup_alter. case_decide; [subst|done].
  by destruct (stas _ !! _).
Qed.

Definition ex_ops : list tx_op :=
  [TxPut (ex_frame 5 0); TxPut (ex_frame 6 6); TxPut (ex_frame 7 0); TxGet [0; 1; 2; 3]%nat; TxGet [0; 1; 2; 3]%nat].

Lemma ex_ops_wf : Forall op_wf ex_ops.
Proof. repeat first [constructor | lia]. Qed.

Lemma tx_fifo_witness :
  filter (home 0 2) [ex_frame 6 6; ex_frame 5 0] ++ pending_of (fst (fst (tx_run ex_ops ex_tx))) 0 2 =
  filter (home 0 2) [ex_frame 5 0; ex_frame 6 6; ex_frame 7 0].
Proof.
  pose proof (tx_fifo ex_ops ex_tx ex_tx_inv ex_tx_table ex_ops_wf) as H.
  assert (E : (snd (fst (tx_run ex_ops ex_tx)), snd (tx_run ex_ops ex_tx)) =
    ([ex_frame 5 0; ex_frame 6 6; ex_frame 7 0], [ex_frame 6 6; ex_frame 5 0])) by (vm_compute; reflexivity).
  destruct (tx_run ex_ops ex_tx) as [[a' acc] sent]. cbn [fst snd] in E |- *. injection E as -> ->.
  destruct H as (_ & _ & H). exact (H 0%nat 2%nat).
Defined.

Lemma ex_loaded_inv : tx_inv (fst (fst (tx_run (take 3 ex_ops) ex_tx))).
Proof.
  assert (Hops : Forall op_wf (take 3 ex_ops)) by apply Forall_take, ex_ops_wf.
  pose proof (fifo_run (take 3 ex_ops) ex_tx ex_tx_inv ex_tx_table Hops) as H.
  destruct (tx_run (take 3 ex_ops) ex_tx) as [[a' acc] sent]. apply H.
Qed.

Lemma tx_dequeue_priority_witness : exists a' o i,
  rtw_dequeue_xframe [0; 1; 2; 3]%nat (fst (fst (tx_run (take 3 ex_ops) ex_tx))) = Some (a', ex_frame 6 6) /\
  dequeued o i (ex_frame 6 6) (fst (fst (tx_run (take 3 ex_ops) ex_tx))) a'.
Proof.
  assert (Hi : Forall (fun i => i < 4)%nat [0; 1; 2; 3]%nat) by (repeat first [constructor | lia]).
  pose proof (tx_dequeue_priority [0; 1; 2; 3]%nat _ ex_loaded_inv Hi) as H.
  assert (Ed : snd <$> rtw_dequeue_xframe [0; 1; 2; 3]%nat (fst (fst (tx_run (take 3 ex_ops) ex_tx))) = Some (ex_frame 6 6))
    by (vm_compute; reflexivity).
  revert H Ed. generalize (fst (fst (tx_run (take 3 ex_ops) ex_tx))). intros a H Ed.
  destruct (rtw_dequeue_xframe [0; 1; 2; 3]%nat a) as [[a' f]|]; [|discriminate].
  cbn in Ed. injection Ed as ->. destruct H as (pre & i & post & o & _ & _ & H). by exists a', o, i.
Defined.
