(* ===== verification/PowerSave.v ===== *)
(** * Buffering for sleeping stations (core/rtw_xmit.c, core/rtw_recv.c)

    An access point keeps the frames of a station in power save on its [sleep_q] and sets
    the station's bit in [tim_bitmap].  Modelled: buffering, putting a station to sleep,
    waking it, the PS-poll and U-APSD releases, and the release of group frames after a
    beacon.  Beacon updates, commands and null frames are the events of the log.
    Not modelled: the [CONFIG_TDLS] code, which this driver's Makefile leaves out, and
    the 10 ms wait of [chk_bmc_sleepq_hdl]. *)

From S2P Require Import Prelude SecFrames WifiHdr RxFrame Reorder MacId StaMgt TxQueue.

(** ** State *)

Definition WIFI_SLEEP_STATE : Z := 4.
Definition WIFI_AP_STATE : Z := 16.
Definition WIFI_STA_ALIVE_CHK_STATE : Z := 0x400.
Definition QSLT_HIGH : Z := 0x11.

(** What the access point asks of the rest of the driver. *)
Inductive ps_event :=
  | UpdateBeacon
  | ChkBmcSleepq
  | ChkHiQueue
  | IssueNulldata (da : list Z)
  | IssueQosNulldata (da : list Z) (tid : Z).

Record psw := mk_psw { ad : adapter; evs : list ps_event }.

Definition on_ad (g : adapter -> adapter) (w : psw) : psw := mk_psw (g (ad w)) (evs w).
Definition emit (e : ps_event) (w : psw) : psw := mk_psw (ad w) (evs w ++ [e]).

Definition set_sleep (q : list xmit_frame) (n : Z) (s : sta_info) : sta_info :=
  mk_sta (hwaddr s) (state s) (aid s) (mac_id s) (ieee8021x_blocked s) (dot118021x_UncstKey s)
    (dot11tkiprxmickey s) q n (servqs s) (defrag_q s) (tid_rxseq s)
    (recvreorder_ctrl s) (addba_retry_timer s) (RxMgmtFrameSeqNum s) (ps s).
Definition set_state (st : Z) (s : sta_info) : sta_info :=
  mk_sta (hwaddr s) st (aid s) (mac_id s) (ieee8021x_blocked s) (dot118021x_UncstKey s)
    (dot11tkiprxmickey s) (sleep_q s) (sleepq_len s) (servqs s) (defrag_q s) (tid_rxseq s)
    (recvreorder_ctrl s) (addba_retry_timer s) (RxMgmtFrameSeqNum s) (ps s).
Definition set_ps (p : sta_ps) (s : sta_info) : sta_info :=
  mk_sta (hwaddr s) (state s) (aid s) (mac_id s) (ieee8021x_blocked s) (dot118021x_UncstKey s)
    (dot11tkiprxmickey s) (sleep_q s) (sleepq_len s) (servqs s) (defrag_q s) (tid_rxseq s)
    (recvreorder_ctrl s) (addba_retry_timer s) (RxMgmtFrameSeqNum s) p.
Definition set_ac_len (n : Z) (p : sta_ps) : sta_ps :=
  mk_ps (expire_to p) n (qos_info p) (max_sp_len p) (uapsd_bk p) (uapsd_be p) (uapsd_vi p) (uapsd_vo p) (has_legacy_ac p).
Definition set_expire (n : Z) (p : sta_ps) : sta_ps :=
  mk_ps n (sleepq_ac_len p) (qos_info p) (max_sp_len p) (uapsd_bk p) (uapsd_be p) (uapsd_vi p) (uapsd_vo p) (has_legacy_ac p).

Definition set_bitmaps (dz tim : Z) (sp : sta_priv) : sta_priv :=
  mk_sp (stas sp) (free_sta_queue sp) (sta_hash sp) (asoc_sta_count sp) (hash_lock sp) (auth_list sp)
    (auth_list_cnt sp) (sta_aid sp) dz tim (acl_list sp).
(** The bitmaps are [u16]. *)
Definition upd_dz (g : Z -> Z) (a : adapter) : adapter :=
  set_stapriv (set_bitmaps (u16 (g (sta_dz_bitmap (stapriv a)))) (tim_bitmap (stapriv a)) (stapriv a)) a.
Definition upd_tim (g : Z -> Z) (a : adapter) : adapter :=
  set_stapriv (set_bitmaps (sta_dz_bitmap (stapriv a)) (u16 (g (tim_bitmap (stapriv a)))) (stapriv a)) a.
Definition set_bit (n x : Z) : Z := x .| BIT n.
Definition clear_bit (n x : Z) : Z := Z.ldiff x (BIT n).
Definition has_bit (n x : Z) : bool := negb (x .& BIT n =? 0).

Definition set_attr (g : xattr -> xattr) (f : xmit_frame) : xmit_frame := mk_xf (xf_id f) (ext_tag f) (g (xattrib f)).
Definition set_triggered (b : bool) (x : xattr) : xattr :=
  mk_xattr (xa_ra x) (xa_psta x) (xa_priority x) (xa_ether_type x) (xa_dhcp_pkt x) (xa_mdata x) (xa_eosp x) b (xa_qsel x).
Definition set_mdata (b : bool) (x : xattr) : xattr :=
  mk_xattr (xa_ra x) (xa_psta x) (xa_priority x) (xa_ether_type x) (xa_dhcp_pkt x) b (xa_eosp x) (xa_triggered x) (xa_qsel x).
Definition set_eosp (b : bool) (x : xattr) : xattr :=
  mk_xattr (xa_ra x) (xa_psta x) (xa_priority x) (xa_ether_type x) (xa_dhcp_pkt x) (xa_mdata x) b (xa_triggered x) (xa_qsel x).
Definition set_qsel (q : Z) (x : xattr) : xattr :=
  mk_xattr (xa_ra x) (xa_psta x) (xa_priority x) (xa_ether_type x) (xa_dhcp_pkt x) (xa_mdata x) (xa_eosp x) (xa_triggered x) q.

(** The U-APSD setting of a priority; bit 0 delivery enabled, bit 1 trigger enabled. *)
Definition uapsd (p : sta_ps) (up : Z) : Z :=
  if (up =? 1) || (up =? 2) then uapsd_bk p
  else if (up =? 4) || (up =? 5) then uapsd_vi p
  else if (up =? 6) || (up =? 7) then uapsd_vo p
  else uapsd_be p.

Section power_save.
(** [mlmepriv.fw_state], [interface_type] is not [RTW_PCIE], [registrypriv.hiq_filter] and
    [stapriv.expire_to]. *)
Context (fw_state : Z) (not_pcie : bool) (hiq_filter ap_expire_to : Z).

Definition xmitframe_hiq_filter (f : xmit_frame) : bool :=
  let x := xattrib f in
  if not_pcie then
    if hiq_filter =? 1 then (xa_ether_type x =? 0x0806) || (xa_ether_type x =? 0x888e) || xa_dhcp_pkt x
    else hiq_filter =? 0
  else false.

(** ** Buffering *)

Definition buffer_frame (o : nat) (f : xmit_frame) (a : adapter) : adapter :=
  upd_sta o (fun s => set_sleep (sleep_q s ++ [f]) (u32 (sleepq_len s + 1)) s) a.

(** The result is the frame, whose attributes may have changed, and whether it was buffered. *)
Definition xmitframe_enqueue_for_sleeping_sta (f : xmit_frame) (w : psw) : psw * xmit_frame * bool :=
  let x := xattrib f in
  let bmcst := IS_MCAST (xa_ra x) in
  if fw_state .& WIFI_AP_STATE =? 0 then (w, f, false) else
  let psta := rtw_get_stainfo (stapriv (ad w)) (xa_ra x) in
  if negb (bool_decide (xa_psta x = psta)) then (w, f, false) else
  match psta with
  | None => (w, f, false)
  | Some o =>
    match stas (stapriv (ad w)) !! o with
    | None => (w, f, false)
    | Some s =>
      if state s .& _FW_LINKED =? 0 then (w, f, false) else
      if xa_triggered x then
        (w, if bmcst && xmitframe_hiq_filter f then set_attr (set_qsel QSLT_HIGH) f else f, false)
      else if bmcst then
        if negb (sta_dz_bitmap (stapriv (ad w)) =? 0) then
          let update_tim := negb (has_bit 0 (tim_bitmap (stapriv (ad w)))) in
          let w := on_ad (fun a => upd_dz (set_bit 0) (upd_tim (set_bit 0) (buffer_frame o f a))) w in
          (emit (if update_tim then UpdateBeacon else ChkBmcSleepq) w, f, true)
        else (w, f, false)
      else if negb (state s .& WIFI_SLEEP_STATE =? 0) then
        if has_bit (aid s) (sta_dz_bitmap (stapriv (ad w))) then
          let w := on_ad (buffer_frame o f) w in
          let wmmps_ac := has_bit 0 (uapsd (ps s) (xa_priority x)) in
          let w := if wmmps_ac
                   then on_ad (upd_sta o (fun s => set_ps (set_ac_len (u32 (sleepq_ac_len (ps s) + 1)) (ps s)) s)) w
                   else w in
          let legacy := negb (has_legacy_ac (ps s) =? 0) in
          if (legacy && negb wmmps_ac) || (negb legacy && wmmps_ac) then
            let update_tim := negb (has_bit (aid s) (tim_bitmap (stapriv (ad w)))) in
            let w := on_ad (upd_tim (set_bit (aid s))) w in
            (if update_tim then emit UpdateBeacon w else w, f, true)
          else (w, f, true)
        else (w, f, false)
      else (w, f, false)
    end
  end.

(** One queue of pending frames moves to the sleep queue; the result includes the frames
    that stay.  [psta] is the station whose counters are adjusted. *)
Fixpoint dequeue_frames (psta : nat) (fs : list xmit_frame) (w : psw) : psw * list xmit_frame :=
  match fs with
  | [] => (w, [])
  | f :: fs =>
      let f := set_attr (set_triggered false) f in
      let '(w, f, ret) := xmitframe_enqueue_for_sleeping_sta f w in
      if ret : bool then
        let ac := rtw_get_sta_pending (xa_priority (xattrib f)) in
        let w := on_ad (fun a => set_xmitpriv (upd_accnt ac (-1) (xmitpriv a))
                          (upd_servq psta ac (fun q => mk_servq (qcnt q - 1) (sta_pending q)) a)) w in
        dequeue_frames psta fs w
      else
        let '(w, kept) := dequeue_frames psta fs w in (w, f :: kept)
  end.

(** The frames that were buffered have left queue [i] of the station. *)
Definition dequeue_xmitframes_to_sleeping_queue (psta i : nat) (w : psw) : psw :=
  let '(w, kept) := dequeue_frames psta (pending_of (ad w) psta i) w in
  on_ad (upd_servq psta i (fun q => mk_servq (qcnt q) kept)) w.

Definition unlink_queue (o i : nat) : psw -> psw :=
  on_ad (fun a => set_xmitpriv (unlink o i (xmitpriv a)) a).

Definition sta_aid_of (o : nat) (a : adapter) : Z :=
  match stas (stapriv a) !! o with Some s => aid s | None => 0 end.

(** With a NULL [psta_bmc] the code goes through the pointer; here that is [None]. *)
Definition stop_sta_xmit (o : nat) (w : psw) : option psw :=
  let psta_bmc := rtw_get_bcmc_stainfo (stapriv (ad w)) in
  let w := on_ad (fun a => upd_dz (set_bit (sta_aid_of o a))
                             (upd_sta o (fun s => set_state (state s .| WIFI_SLEEP_STATE) s) a)) w in
  let w := unlink_queue o 0 (dequeue_xmitframes_to_sleeping_queue o 0 w) in
  let w := unlink_queue o 1 (dequeue_xmitframes_to_sleeping_queue o 1 w) in
  let w := unlink_queue o 2 (dequeue_xmitframes_to_sleeping_queue o 2 w) in
  let w := unlink_queue o 3 (dequeue_xmitframes_to_sleeping_queue o 3 w) in
  b ← psta_bmc;
  Some (unlink_queue b 2 (dequeue_xmitframes_to_sleeping_queue b 2 w)).

(** ** Release *)

(** [rtw_hal_xmitframe_enqueue]. *)
Definition hal_enqueue (f : xmit_frame) : psw -> psw :=
  on_ad (fun a => fst (rtl8812au_hal_xmitframe_enqueue f a)).

(** The frame at the head of a sleep queue leaves it. *)
Definition unsleep (o : nat) : psw -> psw :=
  on_ad (upd_sta o (fun s => set_sleep (tail (sleep_q s)) (u32 (sleepq_len s - 1)) s)).
Definition sleeping_len (o : nat) (w : psw) : Z :=
  match stas (stapriv (ad w)) !! o with Some s => sleepq_len s | None => 0 end.
Definition sleeping_ac_len (o : nat) (w : psw) : Z :=
  match stas (stapriv (ad w)) !! o with Some s => sleepq_ac_len (ps s) | None => 0 end.
Definition dec_ac_len (o : nat) : psw -> psw :=
  on_ad (upd_sta o (fun s => set_ps (set_ac_len (u32 (sleepq_ac_len (ps s) - 1)) (ps s)) s)).

(** The loop of [wakeup_sta_to_xmit] over the frames of the station, [p] its settings. *)
Fixpoint wakeup_frames (o : nat) (p : sta_ps) (fs : list xmit_frame) (w : psw) : psw :=
  match fs with
  | [] => w
  | f :: fs =>
      let w := unsleep o w in
      let wmmps_ac := has_bit 1 (uapsd p (xa_priority (xattrib f))) in
      let f := set_attr (set_mdata (0 <? sleeping_len o w)) f in
      let '(w, f) :=
        if wmmps_ac then
          let w := dec_ac_len o w in
          let more := 0 <? sleeping_ac_len o w in
          (w, set_attr (fun x => set_eosp (negb more) (set_mdata more x)) f)
        else (w, f) in
      wakeup_frames o p fs (hal_enqueue (set_attr (set_triggered true) f) w)
  end.

(** The loops over the group frames; [hiq] is set in [chk_bmc_sleepq_hdl], which may
    choose the high queue. *)
Fixpoint release_bmc_frames (hiq : bool) (b : nat) (fs : list xmit_frame) (w : psw) : psw :=
  match fs with
  | [] => w
  | f :: fs =>
      let w := unsleep b w in
      let f := set_attr (fun x => set_triggered true (set_mdata (0 <? sleeping_len b w) x)) f in
      let f := if hiq && xmitframe_hiq_filter f then set_attr (set_qsel QSLT_HIGH) f else f in
      release_bmc_frames hiq b fs (hal_enqueue f w)
  end.

Definition sleeping_of (o : nat) (a : adapter) : list xmit_frame :=
  match stas (stapriv a) !! o with Some s => sleep_q s | None => [] end.

(** The station is awake: its bits are cleared. *)
Definition wake_state (o : nat) (s : sta_info) (a : adapter) : adapter :=
  let a := upd_tim (clear_bit (aid s)) a in
  let a := upd_sta o (fun s => if negb (state s .& WIFI_SLEEP_STATE =? 0)
                               then set_state (state s .^ WIFI_SLEEP_STATE) s else s) a in
  let a := upd_sta o (fun s => if negb (state s .& WIFI_STA_ALIVE_CHK_STATE =? 0)
                               then set_state (state s .^ WIFI_STA_ALIVE_CHK_STATE) (set_ps (set_expire ap_expire_to (ps s)) s)
                               else s) a in
  upd_dz (clear_bit (aid s)) a.

Definition wakeup_sta_to_xmit (o : nat) (w : psw) : psw :=
  match stas (stapriv (ad w)) !! o with
  | None => w
  | Some s =>
      let psta_bmc := rtw_get_bcmc_stainfo (stapriv (ad w)) in
      let w := wakeup_frames o (ps s) (sleep_q s) w in
      let '(w, mask0) :=
        if sleeping_len o w =? 0
        then (on_ad (wake_state o s) w, has_bit (aid s) (tim_bitmap (stapriv (ad w))))
        else (w, false) in
      match psta_bmc with
      | None => if mask0 : bool then emit UpdateBeacon w else w
      | Some b =>
          let '(w, mask1) :=
            if sta_dz_bitmap (stapriv (ad w)) .& 0xfffe =? 0 then
              let w := release_bmc_frames false b (sleeping_of b (ad w)) w in
              if sleeping_len b w =? 0
              then (on_ad (fun a => upd_dz (clear_bit 0) (upd_tim (clear_bit 0) a)) w,
                    has_bit 0 (tim_bitmap (stapriv (ad w))))
              else (w, false)
            else (w, false) in
          if mask0 || mask1 then emit UpdateBeacon w else w
      end
  end.

(** [xmit_delivery_enabled_frames]: the frames of trigger-enabled categories leave the
    sleep queue; [kept] are the frames passed over. *)
Fixpoint deliver_frames (o : nat) (s : sta_info) (kept fs : list xmit_frame) (w : psw) : psw :=
  match fs with
  | [] => w
  | f :: fs =>
      if has_bit 1 (uapsd (ps s) (xa_priority (xattrib f))) then
        let w := on_ad (upd_sta o (fun s => set_sleep (kept ++ fs) (u32 (sleepq_len s - 1)) s)) w in
        let w := dec_ac_len o w in
        let more := 0 <? sleeping_ac_len o w in
        let f := set_attr (fun x => set_triggered true (set_eosp (negb more) (set_mdata more x))) f in
        let w := hal_enqueue f w in
        let w := if (sleeping_ac_len o w =? 0) && (has_legacy_ac (ps s) =? 0)
                 then emit UpdateBeacon (on_ad (upd_tim (clear_bit (aid s))) w)
                 else w in
        deliver_frames o s kept fs w
      else deliver_frames o s (kept ++ [f]) fs w
  end.

Definition xmit_delivery_enabled_frames (o : nat) (w : psw) : psw :=
  match stas (stapriv (ad w)) !! o with
  | None => w
  | Some s => deliver_frames o s [] (sleep_q s) w
  end.

(** The part of [validate_recv_ctrl_frame] for a PS-poll that passed its checks. *)
Definition ps_poll (o : nat) (s : sta_info) (w : psw) : psw :=
  let w := if negb (state s .& WIFI_STA_ALIVE_CHK_STATE =? 0)
           then on_ad (upd_sta o (fun s => set_state (state s .^ WIFI_STA_ALIVE_CHK_STATE)
                                             (set_ps (set_expire ap_expire_to (ps s)) s))) w
           else w in
  if negb (state s .& WIFI_SLEEP_STATE =? 0) && has_bit (aid s) (sta_dz_bitmap (stapriv (ad w))) then
    match sleep_q s with
    | f :: _ =>
        let w := unsleep o w in
        let f := set_attr (fun x => set_triggered true (set_mdata (0 <? sleeping_len o w) x)) f in
        let w := hal_enqueue f w in
        if sleeping_len o w =? 0
        then emit UpdateBeacon (on_ad (upd_tim (clear_bit (aid s))) w)
        else w
    | [] =>
        if has_bit (aid s) (tim_bitmap (stapriv (ad w))) then
          let w := if sleepq_len s =? 0
                   then emit (IssueNulldata (hwaddr s)) w
                   else on_ad (upd_sta o (fun s => set_sleep (sleep_q s) 0 s)) w in
          emit UpdateBeacon (on_ad (upd_tim (clear_bit (aid s))) w)
        else w
    end
  else w.

(** [validate_recv_ctrl_frame] always returns [_FAIL]; the receive statistics are left
    out. [myid] is the adapter's address, [priority] the frame's. *)
Definition validate_recv_ctrl_frame (myid pframe : list Z) (priority : Z) (w : psw) : psw * Z :=
  if negb (GetFrameType pframe =? WIFI_CTRL_TYPE) then (w, _FAIL) else
  if negb (bool_decide (GetAddr1Ptr pframe = myid)) then (w, _FAIL) else
  match rtw_get_stainfo (stapriv (ad w)) (GetAddr2Ptr pframe) with
  | None => (w, _FAIL)
  | Some o =>
      match stas (stapriv (ad w)) !! o with
      | None => (w, _FAIL)
      | Some s =>
          if GetFrameSubType pframe =? WIFI_PSPOLL then
            if negb (aid s =? GetAid pframe) then (w, _FAIL) else
            if has_bit 0 (uapsd (ps s) priority) then (w, _FAIL) else
            (ps_poll o s w, _FAIL)
          else (w, _FAIL)
      end
  end.

(** ** Received data frames *)

(** Where [stop_sta_xmit] would go through a NULL pointer, [None]. *)
Definition process_pwrbit_data (src ptr : list Z) (w : psw) : option psw :=
  let pwrbit := GetPwrMgt ptr in
  match rtw_get_stainfo (stapriv (ad w)) src with
  | None => Some w
  | Some o =>
      match stas (stapriv (ad w)) !! o with
      | None => Some w
      | Some s =>
          if pwrbit then
            if state s .& WIFI_SLEEP_STATE =? 0 then stop_sta_xmit o w else Some w
          else if negb (state s .& WIFI_SLEEP_STATE =? 0) then Some (wakeup_sta_to_xmit o w)
          else Some w
      end
  end.

(** [qos_option] is the station's. *)
Definition process_wmmps_data (src : list Z) (priority : Z) (qos_option : nat -> bool) (w : psw) : psw :=
  match rtw_get_stainfo (stapriv (ad w)) src with
  | None => w
  | Some o =>
      match stas (stapriv (ad w)) !! o with
      | None => w
      | Some s =>
          if negb (qos_option o) then w else
          if qos_info (ps s) .& 0xf =? 0 then w else
          if negb (state s .& WIFI_SLEEP_STATE =? 0) then
            if has_bit 1 (uapsd (ps s) priority) then
              if 0 <? sleepq_ac_len (ps s) then xmit_delivery_enabled_frames o w
              else emit (IssueQosNulldata (hwaddr s) priority) w
            else w
          else w
      end
  end.

(** ** Group frames after a beacon *)

Definition chk_bmc_sleepq_hdl (w : psw) : psw :=
  match rtw_get_bcmc_stainfo (stapriv (ad w)) with
  | None => w
  | Some b =>
      if has_bit 0 (tim_bitmap (stapriv (ad w))) && (0 <? sleeping_len b w) then
        let w := release_bmc_frames true b (sleeping_of b (ad w)) w in
        if not_pcie then emit ChkHiQueue w else w
      else w
  end.

(** [empty] is what the hardware register says after the wait. *)
Definition rtw_chk_hi_queue_hdl (empty : bool) (w : psw) : psw :=
  match rtw_get_bcmc_stainfo (stapriv (ad w)) with
  | None => w
  | Some b =>
      if sleeping_len b w =? 0 then
        if empty then
          let update_tim := has_bit 0 (tim_bitmap (stapriv (ad w))) in
          let w := on_ad (fun a => upd_dz (clear_bit 0) (upd_tim (clear_bit 0) a)) w in
          if update_tim then emit UpdateBeacon w else w
        else emit ChkHiQueue w
      else w
  end.
End power_save.

(** ** Bits of the bitmaps *)

Lemma has_bit_testbit n x : 0 <= n -> has_bit n x = Z.testbit x n.
Proof.
  intros Hn. unfold has_bit, BIT. rewrite Z.shiftl_1_l. destruct (Z.testbit x n) eqn:E.
  - apply negb_true_iff, Z.eqb_neq. intros H. apply (f_equal (fun z => Z.testbit z n)) in H.
    by rewrite Z.land_spec, Z.bits_0, Z.pow2_bits_true, E in H by done.
  - apply negb_false_iff, Z.eqb_eq, Z.bits_inj'. intros i Hi. rewrite Z.land_spec, Z.bits_0.
    destruct (Z.eq_dec i n) as [->|Hne]; [by rewrite E|]. by rewrite Z.pow2_bits_false, andb_false_r by done.
Qed.

Lemma u16_testbit x i : 0 <= i -> Z.testbit (u16 x) i = (i <? 16) && Z.testbit x i.
Proof.
  intros Hi. unfold u16. destruct (Z.ltb_spec i 16); [by rewrite Z.mod_pow2_bits_low by lia|].
  by rewrite Z.mod_pow2_bits_high by lia.
Qed.

Lemma has_set_bit n m x : 0 <= n -> 0 <= m ->
  has_bit n (u16 (set_bit m x)) = (n <? 16) && ((n =? m) || has_bit n x).
Proof.
  intros Hn Hm. rewrite !has_bit_testbit, u16_testbit by done. f_equal. unfold set_bit, BIT.
  rewrite Z.lor_spec, Z.shiftl_1_l, Z.pow2_bits_eqb, orb_comm by done. f_equal. apply Z.eqb_sym.
Qed.

Lemma has_clear_bit n m x : 0 <= n -> 0 <= m ->
  has_bit n (u16 (clear_bit m x)) = (n <? 16) && (negb (n =? m) && has_bit n x).
Proof.
  intros Hn Hm. rewrite !has_bit_testbit, u16_testbit by done. f_equal. unfold clear_bit, BIT.
  rewrite Z.ldiff_spec, Z.shiftl_1_l, Z.pow2_bits_eqb, andb_comm by done. f_equal. f_equal. apply Z.eqb_sym.
Qed.

Lemma has_bit_nonzero n x : 0 <= n -> has_bit n x = true -> (x =? 0) = false.
Proof. intros Hn H. apply Z.eqb_neq. intros ->. rewrite has_bit_testbit, Z.bits_0 in H by done. done. Qed.

(** The flags of [state] are single bits. *)
Lemma land_flag st n : 0 <= n -> (st .& 2 ^ n =? 0) = negb (Z.testbit st n).
Proof.
  intros Hn. rewrite <- has_bit_testbit by done. unfold has_bit, BIT. rewrite Z.shiftl_1_l. by rewrite negb_involutive.
Qed.

Lemma linked_flag st : (st .& _FW_LINKED =? 0) = negb (Z.testbit st 0).
Proof. apply (land_flag st 0). lia. Qed.
Lemma sleep_flag st : (st .& WIFI_SLEEP_STATE =? 0) = negb (Z.testbit st 2).
Proof. apply (land_flag st 2). lia. Qed.
Lemma alive_flag st : (st .& WIFI_STA_ALIVE_CHK_STATE =? 0) = negb (Z.testbit st 10).
Proof. apply (land_flag st 10). lia. Qed.

(** ** What the queues see of an adapter *)

Definition tx_view (a : adapter) : list (list tx_servq) * list nat * list Z * list (list nat) :=
  (map servqs (stas (stapriv a)), free_sta_queue (stapriv a), accnt (xmitpriv a), sta_queues (xmitpriv a)).
Definition addr_view (a : adapter) : list (list Z) * list (list nat) :=
  (map hwaddr (stas (stapriv a)), sta_hash (stapriv a)).

Lemma servq_of_view a o i : servq_of a o i = (qs ← (tx_view a).1.1.1 !! o; qs !! i).
Proof. unfold servq_of, tx_view. cbn [fst]. rewrite list_lookup_fmap. by destruct (stas (stapriv a) !! o). Qed.

Lemma pending_view a a' o i : tx_view a = tx_view a' -> pending_of a o i = pending_of a' o i.
Proof. intros H. unfold pending_of. by rewrite !servq_of_view, H. Qed.

Lemma zsum_map {A B} (g : B -> Z) (f : A -> B) l : zsum (fun x => g (f x)) l = zsum g (map f l).
Proof. induction l as [|x l IH]; [done|]. cbn [zsum map]. by rewrite IH. Qed.

Lemma tx_inv_view a a' : tx_view a = tx_view a' -> tx_inv a -> tx_inv a'.
Proof.
  intros E [H1 H2 H3 H4 H5 H6 H7 H8 H9]. pose proof E as E0.
  assert (Hs : forall o i, servq_of a' o i = servq_of a o i) by (intros; by rewrite !servq_of_view, E).
  assert (Hp : forall o i, pending_of a' o i = pending_of a o i) by (intros; symmetry; by apply pending_view).
  unfold tx_view in E0. injection E0 as Es Ef Ea Eq.
  constructor; rewrite <- ?Ea, <- ?Eq, <- ?Ef; try done.
  - apply (proj1 (Forall_map servqs (fun l => length l = 4%nat) _)). rewrite <- Es. by apply Forall_map.
  - intros o i q. rewrite Hs. apply H2.
  - intros i n H. rewrite (H5 i n H).
    pose (g (qs : list tx_servq) := match qs !! i with Some q => zlen (sta_pending q) | None => 0 end).
    etrans; [apply (zsum_map g servqs)|]. rewrite Es. symmetry. apply (zsum_map g servqs).
  - intros i l o H. rewrite Hp. by apply H7.
  - intros o i H. rewrite Hp. by apply H8.
  - intros o i f. rewrite Hp. apply H9.
Qed.

Lemma sta_addr_view a o : sta_addr (stapriv a) o = default [] ((addr_view a).1 !! o).
Proof. unfold sta_addr, addr_view. cbn [fst]. rewrite list_lookup_fmap. by destruct (stas (stapriv a) !! o). Qed.

Lemma get_view a a' ra : addr_view a = addr_view a' -> rtw_get_stainfo (stapriv a) ra = rtw_get_stainfo (stapriv a') ra.
Proof.
  intros E. pose proof E as E0. unfold addr_view in E0. injection E0 as Es Eh.
  unfold rtw_get_stainfo. rewrite Eh. destruct (sta_hash (stapriv a') !! _) as [l|]; [|done]. cbn [mbind option_bind].
  induction l as [|o l IH]; [done|]. cbn [find]. by rewrite !sta_addr_view, E, IH.
Qed.

Lemma table_inv_view a a' : addr_view a' = addr_view a -> length (stas (stapriv a')) = length (stas (stapriv a)) ->
  free_sta_queue (stapriv a') = free_sta_queue (stapriv a) -> asoc_sta_count (stapriv a') = asoc_sta_count (stapriv a) ->
  hash_lock (stapriv a') = hash_lock (stapriv a) -> table_inv (stapriv a) -> table_inv (stapriv a').
Proof.
  intros E El Ef Ec Ek [H1 H2 H3 H4 H5 H6]. pose proof E as E0. unfold addr_view in E0. injection E0 as Es Eh.
  constructor; rewrite ?Eh, ?Ef, ?Ec, ?Ek, ?El; try done.
  intros i l o Hl Ho. rewrite <- (H4 i l o Hl Ho). by rewrite !sta_addr_view, E.
Qed.

(** ** Buffering a frame *)

(** The station and the adapter when a frame has been buffered; [b] when it counts for
    [sleepq_ac_len]. *)
Definition sleep_in (b : bool) (f : xmit_frame) (s : sta_info) : sta_info :=
  let s := set_sleep (sleep_q s ++ [f]) (u32 (sleepq_len s + 1)) s in
  if b then set_ps (set_ac_len (u32 (sleepq_ac_len (ps s) + 1)) (ps s)) s else s.
Definition with_sta (o : nat) (g : sta_info -> sta_info) (dz tim : Z) (a : adapter) : adapter :=
  set_stapriv (set_bitmaps dz tim (set_stas (alter g o (stas (stapriv a))) (stapriv a))) a.

(** The group station is the one with the broadcast address. *)
Definition is_bmc (s : sta_info) : bool := bool_decide (hwaddr s = bc_addr).
(** A station whose frames are buffered. *)
Definition ready (s : sta_info) (a : adapter) : Prop :=
  Z.testbit (state s) 0 = true /\
  if is_bmc s then sta_dz_bitmap (stapriv a) <> 0
  else Z.testbit (state s) 2 = true /\ has_bit (aid s) (sta_dz_bitmap (stapriv a)) = true.
(** A frame that the table still directs to station [o]. *)
Definition directed (o : nat) (a : adapter) (f : xmit_frame) : Prop :=
  rtw_get_stainfo (stapriv a) (xa_ra (xattrib f)) = Some o /\ xa_psta (xattrib f) = Some o.

Lemma directed_bmc o a f s : directed o a f -> stas (stapriv a) !! o = Some s ->
  IS_MCAST (xa_ra (xattrib f)) = is_bmc s.
Proof.
  intros [Hg _] Hs. apply get_sound in Hg as [_ Ha]. unfold sta_addr in Ha. rewrite Hs in Ha. unfold is_bmc. rewrite Ha.
  unfold lookup_addr. destruct (IS_MCAST (xa_ra (xattrib f))) eqn:E; [done|]. symmetry. apply bool_decide_eq_false.
  intros H. by rewrite H in E.
Qed.

Lemma upd_sta_with o g a : upd_sta o g a = with_sta o g (sta_dz_bitmap (stapriv a)) (tim_bitmap (stapriv a)) a.
Proof. done. Qed.

Lemma alter_alter {A} (g h : A -> A) o (l : list A) : alter g o (alter h o l) = alter (fun x => g (h x)) o l.
Proof.
  apply list_eq. intros i. destruct (decide (o = i)) as [->|Hne]; [|by rewrite !list_lookup_alter_ne].
  rewrite !list_lookup_alter_eq. by destruct (l !! i).
Qed.

Lemma with_sta_twice o g h dz tim dz' tim' a :
  with_sta o g dz tim (with_sta o h dz' tim' a) = with_sta o (fun s => g (h s)) dz tim a.
Proof.
  unfold with_sta. cbn [set_stapriv stapriv set_bitmaps set_stas set_table stas free_sta_queue sta_hash asoc_sta_count
    hash_lock auth_list auth_list_cnt sta_aid acl_list]. by rewrite alter_alter.
Qed.

(** A frame with [triggered] cleared; the frames pending for a station. *)
Abbreviation untrig := (set_attr (set_triggered false)).
Abbreviation waiting a o := (pending_of a o 0 ++ pending_of a o 1 ++ pending_of a o 2 ++ pending_of a o 3).

Section buffering.
Context (fw_state : Z) (not_pcie : bool) (hiq_filter ap_expire_to : Z).
Hypothesis ap_mode : (fw_state .& WIFI_AP_STATE =? 0) = false.
Abbreviation enq := (xmitframe_enqueue_for_sleeping_sta fw_state not_pcie hiq_filter).

Definition counts (s : sta_info) (f : xmit_frame) : bool :=
  negb (is_bmc s) && has_bit 0 (uapsd (ps s) (xa_priority (xattrib f))).

(** The bit of the station in [tim_bitmap], and the frames that set it. *)
Definition slot (s : sta_info) : Z := if is_bmc s then 0 else aid s.
Definition signals (s : sta_info) (f : xmit_frame) : bool :=
  is_bmc s || negb (xorb (has_legacy_ac (ps s) =? 0) (counts s f)).

(** A frame for a station that is ready is buffered. *)
Lemma enq_ready o s f w : directed o (ad w) f -> stas (stapriv (ad w)) !! o = Some s -> ready s (ad w) ->
  xa_triggered (xattrib f) = false ->
  exists tim dz ev, enq f w = (mk_psw (with_sta o (sleep_in (counts s f) f) dz tim (ad w)) ev, f, true) /\
    dz = (if is_bmc s then u16 (set_bit 0 (sta_dz_bitmap (stapriv (ad w)))) else sta_dz_bitmap (stapriv (ad w))) /\
    tim = (if signals s f then u16 (set_bit (slot s) (tim_bitmap (stapriv (ad w)))) else tim_bitmap (stapriv (ad w))).
Proof.
  intros Hd Hs [Hl Hr] Ht. pose proof (directed_bmc _ _ _ _ Hd Hs) as Hm. destruct Hd as [Hg Hp].
  unfold xmitframe_enqueue_for_sleeping_sta. rewrite ap_mode, Hg, Hp, bool_decide_true, Hs by done. cbn [negb].
  rewrite linked_flag, Hl, Ht, Hm. cbn [negb]. unfold signals, slot, counts. destruct (is_bmc s).
  - rewrite (proj2 (Z.eqb_neq _ _) Hr). cbn [negb andb]. do 3 eexists. split; [|by split]. done.
  - destruct Hr as [Hsl Hdz]. rewrite sleep_flag, Hsl, Hdz. cbn [negb andb].
    destruct w as [a ev]. cbn [ad] in *.
    assert (E1 : on_ad (upd_sta o (fun s => set_ps (set_ac_len (u32 (sleepq_ac_len (ps s) + 1)) (ps s)) s))
       (on_ad (buffer_frame o f) (mk_psw a ev)) =
       mk_psw (with_sta o (sleep_in true f) (sta_dz_bitmap (stapriv a)) (tim_bitmap (stapriv a)) a) ev).
    { unfold on_ad, buffer_frame. cbn [ad evs]. f_equal. rewrite !upd_sta_with, with_sta_twice. done. }
    assert (E0 : on_ad (buffer_frame o f) (mk_psw a ev) =
       mk_psw (with_sta o (sleep_in false f) (sta_dz_bitmap (stapriv a)) (tim_bitmap (stapriv a)) a) ev) by done.
    destruct (has_bit 0 (uapsd (ps s) (xa_priority (xattrib f)))); [rewrite E1|rewrite E0]; cbn [on_ad emit ad evs];
      destruct (has_legacy_ac (ps s) =? 0); cbn [negb andb orb xorb];
      try case_match; do 3 eexists; by split.
Qed.

(** ** Moving a queue *)

(** The station when the frames [fs] of its queue [i] have been buffered. *)
Definition take_in (c : xmit_frame -> bool) (fs : list xmit_frame) (s : sta_info) : sta_info :=
  fold_left (fun s f => sleep_in (c f) f s) fs s.
Definition moved (c : xmit_frame -> bool) (i : nat) (fs : list xmit_frame) (s : sta_info) : sta_info :=
  set_servqs (alter (fun q => mk_servq (qcnt q - zlen fs) (sta_pending q)) i (servqs s)) (take_in c fs s).

Lemma take_in_servqs c qs fs s : take_in c fs (set_servqs qs s) = set_servqs qs (take_in c fs s).
Proof.
  revert s. induction fs as [|f fs IH]; intros s; [done|]. cbn [take_in fold_left].
  change (take_in c fs (sleep_in (c f) f (set_servqs qs s)) = set_servqs qs (take_in c fs (sleep_in (c f) f s))).
  rewrite <- IH. f_equal. unfold sleep_in. by destruct (c f).
Qed.

Lemma set_servqs_id s : set_servqs (servqs s) s = s.
Proof. by destruct s. Qed.

Lemma alter_same {A} (g : A -> A) (i : nat) (l : list A) : (forall x, l !! i = Some x -> g x = x) -> alter g i l = l.
Proof.
  intros H. apply list_eq. intros j. destruct (decide (i = j)) as [<-|Hne]; [|by rewrite list_lookup_alter_ne].
  rewrite list_lookup_alter_eq. destruct (l !! i) eqn:E; [|done]. cbn. by rewrite H.
Qed.

Lemma moved_nil c i s : moved c i [] s = s.
Proof.
  unfold moved. rewrite alter_same; [apply set_servqs_id|]. intros [n l] _. cbn. f_equal. unfold zlen. cbn. lia.
Qed.

Lemma moved_cons c i f fs s : moved c i (f :: fs) s =
  moved c i fs (set_servqs (alter (fun q => mk_servq (qcnt q - 1) (sta_pending q)) i (servqs s)) (sleep_in (c f) f s)).
Proof.
  unfold moved at 2. cbn [set_servqs servqs]. rewrite take_in_servqs, alter_alter. unfold moved.
  change (take_in c (f :: fs) s) with (take_in c fs (sleep_in (c f) f s)).
  change (set_servqs ?x (set_servqs ?y ?z)) with (set_servqs x z).
  f_equal. apply list_alter_ext; [|done]. intros q _. cbn [qcnt sta_pending]. f_equal. rewrite zlen_cons. lia.
Qed.

Lemma with_sta_ext o g h dz tim a : (forall s, stas (stapriv a) !! o = Some s -> g s = h s) ->
  with_sta o g dz tim a = with_sta o h dz tim a.
Proof. intros H. unfold with_sta. f_equal. f_equal. f_equal. by apply list_alter_ext. Qed.

Lemma with_sta_id o g a : (forall s, stas (stapriv a) !! o = Some s -> g s = s) ->
  with_sta o g (sta_dz_bitmap (stapriv a)) (tim_bitmap (stapriv a)) a = a.
Proof. intros H. unfold with_sta. rewrite alter_same by done. by destruct a as [[] ? ? ?]. Qed.

Lemma upd_accnt_twice i m n x : upd_accnt i m (upd_accnt i n x) = upd_accnt i (n + m) x.
Proof.
  unfold upd_accnt. cbn [set_queues accnt sta_queues]. rewrite alter_alter. unfold set_queues. cbn. f_equal.
  apply list_alter_ext; [|done]. intros. lia.
Qed.

Lemma upd_accnt_0 i x : upd_accnt i 0 x = x.
Proof. unfold upd_accnt. rewrite alter_same by (intros; lia). by destruct x. Qed.

(** With its frames directed to it, all frames of a ready station are moved. *)
Definition move_result (o i : nat) (s : sta_info) (fs : list xmit_frame) (w : psw) (w' : psw) : Prop :=
  exists dz tim ev, w' = mk_psw (set_xmitpriv (upd_accnt i (- zlen fs) (xmitpriv (ad w)))
                                   (with_sta o (moved (counts s) i (map untrig fs)) dz tim (ad w))) ev /\
  (is_bmc s = false -> dz = sta_dz_bitmap (stapriv (ad w))) /\
  (forall n, 1 <= n < 16 -> has_bit n dz = has_bit n (sta_dz_bitmap (stapriv (ad w)))) /\
  (forall n, 0 <= n < 16 -> has_bit n tim = has_bit n (tim_bitmap (stapriv (ad w))) || ((n =? slot s) && existsb (signals s) fs)).

Lemma dequeue_frames_run o i fs : forall w s, stas (stapriv (ad w)) !! o = Some s -> ready s (ad w) -> 0 <= slot s ->
  Forall (fun f => directed o (ad w) f /\ ac_of f = i) fs ->
  exists w', dequeue_frames fw_state not_pcie hiq_filter o fs w = (w', []) /\ move_result o i s fs w w'.
Proof.
  induction fs as [|f fs IH]; intros w s Hs Hr Hslot Hfs.
  - exists w. split; [done|]. exists (sta_dz_bitmap (stapriv (ad w))), (tim_bitmap (stapriv (ad w))), (evs w).
    split_and!; [|done|done|intros; cbn [existsb]; by rewrite andb_false_r, orb_false_r].
    cbn [map]. rewrite with_sta_id by (intros; apply moved_nil). cbn [zlen length]. change (- zlen (@nil xmit_frame)) with 0.
    rewrite upd_accnt_0. destruct w as [a ev]. cbn [ad evs]. by destruct a.
  - apply Forall_cons_1 in Hfs as [[Hd Hac] Hfs]. cbn [dequeue_frames].
    destruct (enq_ready o s (untrig f) w Hd Hs Hr eq_refl) as (tim & dz & ev & E & Hdz & Htim). rewrite E. cbn [fst].
    change (rtw_get_sta_pending (xa_priority (xattrib (untrig f)))) with (ac_of f). rewrite Hac.
    set (w1 := on_ad _ _). set (g := fun s => set_servqs (alter (fun q => mk_servq (qcnt q - 1) (sta_pending q)) i (servqs s))
      (sleep_in (counts s (untrig f)) (untrig f) s)).
    assert (Ew : w1 = mk_psw (set_xmitpriv (upd_accnt i (-1) (xmitpriv (ad w))) (with_sta o g dz tim (ad w))) ev).
    { unfold w1, on_ad. cbn [ad evs]. f_equal. unfold upd_servq. rewrite upd_sta_with, with_sta_twice.
      change (sta_dz_bitmap (stapriv (with_sta _ _ dz tim _))) with dz.
      change (tim_bitmap (stapriv (with_sta _ _ dz tim _))) with tim.
      change (xmitpriv (with_sta _ _ dz tim _)) with (xmitpriv (ad w)).
      f_equal. apply with_sta_ext. intros s' Hs'. rewrite Hs in Hs'. injection Hs' as <-. unfold g. f_equal.
      unfold sleep_in. by destruct (counts s (untrig f)). }
    destruct (IH w1 (g s)) as (w' & E' & dz' & tim' & ev' & Hw' & H1 & H2 & H3).
    + rewrite Ew. cbn [ad set_xmitpriv stapriv with_sta set_stapriv set_bitmaps set_stas set_table stas].
      rewrite list_lookup_alter_eq, Hs. done.
    + rewrite Ew. cbn [ad]. destruct Hr as [Hl Hr].
      assert (Hk : is_bmc (g s) = is_bmc s /\ state (g s) = state s /\ aid (g s) = aid s)
        by (unfold g, sleep_in; destruct (counts s (untrig f)); done).
      destruct Hk as (K1 & K2 & K3). unfold ready. rewrite K1, K2, K3. split; [done|].
      change (sta_dz_bitmap _) with dz. destruct (is_bmc s).
      * subst dz. intros H0. assert (Hb : has_bit 0 (u16 (set_bit 0 (sta_dz_bitmap (stapriv (ad w))))) = true)
          by (rewrite has_set_bit by done; done). by rewrite H0 in Hb.
      * by rewrite Hdz.
    + revert Hslot. unfold slot, g, sleep_in. by destruct (counts s (untrig f)).
    + revert Hfs. apply List.Forall_impl. intros f' [[Hg Hp] Hi]. split; [split; [|done]|done]. rewrite <- Hg. apply get_view.
      rewrite Ew. unfold addr_view. cbn [ad set_xmitpriv stapriv with_sta set_stapriv set_bitmaps set_stas set_table stas sta_hash].
      f_equal. apply list_eq. intros j. rewrite !list_lookup_fmap. destruct (decide (o = j)) as [<-|Hne];
        [|by rewrite list_lookup_alter_ne]. rewrite list_lookup_alter_eq, Hs. cbn. unfold g, sleep_in.
      by destruct (counts s (untrig f)).
    + exists w'. split; [by rewrite E'|]. exists dz', tim', ev'.
      assert (Hk : counts (g s) = counts s /\ is_bmc (g s) = is_bmc s /\ slot (g s) = slot s /\ signals (g s) = signals s)
        by (unfold g, sleep_in; destruct (counts s (untrig f)); done).
      destruct Hk as (K1 & K2 & K3 & K4). rewrite K1 in Hw'. rewrite K2 in H1. rewrite K3, K4 in H3.
      rewrite Ew in Hw', H1, H2, H3. cbn [ad] in Hw'.
      change (sta_dz_bitmap _) with dz in H1. change (sta_dz_bitmap (stapriv (ad (mk_psw _ ev)))) with dz in H2.
      change (tim_bitmap (stapriv (ad (mk_psw _ ev)))) with tim in H3. split_and!.
      * rewrite Hw'. f_equal. cbn [set_xmitpriv xmitpriv]. rewrite upd_accnt_twice.
        replace (-1 + - zlen fs) with (- zlen (f :: fs)) by (rewrite zlen_cons; lia).
        change (set_xmitpriv ?x (with_sta o ?h dz' tim' (set_xmitpriv ?y ?b))) with (set_xmitpriv x (with_sta o h dz' tim' b)).
        f_equal. rewrite with_sta_twice. apply with_sta_ext. intros s' Hs'. rewrite Hs in Hs'. injection Hs' as <-.
        unfold g. symmetry. apply (moved_cons (counts s) i (untrig f) (map untrig fs) s).
      * intros Hb. rewrite H1 by done. by rewrite Hdz, Hb.
      * intros n Hn. rewrite H2 by done. rewrite Hdz. destruct (is_bmc s); [|done].
        rewrite has_set_bit by lia. by rewrite (proj2 (Z.ltb_lt n 16)), (proj2 (Z.eqb_neq n 0)) by lia.
      * intros n Hn. rewrite H3 by done. rewrite Htim. cbn [existsb].
        change (signals s (untrig f)) with (signals s f). destruct (signals s f); [|done].
        rewrite has_set_bit, (proj2 (Z.ltb_lt n 16)) by lia. cbn [andb orb].
        destruct (n =? slot s), (has_bit n (tim_bitmap (stapriv (ad w)))), (existsb (signals s) fs); done.
Qed.

(** The station but for its queues and [sleepq_ac_len]. *)
Definition same_kind (s s' : sta_info) : Prop :=
  hwaddr s' = hwaddr s /\ state s' = state s /\ aid s' = aid s /\ exists n, ps s' = set_ac_len n (ps s).

Lemma same_kind_trans s1 s2 s3 : same_kind s1 s2 -> same_kind s2 s3 -> same_kind s1 s3.
Proof.
  intros (A1 & A2 & A3 & n & A4) (B1 & B2 & B3 & m & B4). split_and!; try congruence. exists m. by rewrite B4, A4.
Qed.

Lemma same_kind_fn s s' : same_kind s s' ->
  is_bmc s' = is_bmc s /\ slot s' = slot s /\ counts s' = counts s /\ signals s' = signals s.
Proof.
  intros (A1 & A2 & A3 & n & A4). unfold signals, counts, slot, is_bmc. rewrite A1, A3, A4. done.
Qed.

Lemma take_in_spec c fs : forall s, same_kind s (take_in c fs s) /\ servqs (take_in c fs s) = servqs s /\
  sleep_q (take_in c fs s) = sleep_q s ++ fs /\ u32 (sleepq_len (take_in c fs s)) = u32 (sleepq_len s + zlen fs) /\
  (is_u32 (sleepq_len s) -> is_u32 (sleepq_len (take_in c fs s))).
Proof.
  induction fs as [|f fs IH]; intros s; cbn [take_in fold_left].
  - rewrite app_nil_r. split_and!; [|done|done|f_equal; unfold zlen; cbn; lia|done].
    split_and!; [done|done|done|]. exists (sleepq_ac_len (ps s)). by destruct (ps s).
  - destruct (IH (sleep_in (c f) f s)) as (H1 & H2 & H3 & H4 & H5).
    assert (El : sleepq_len (sleep_in (c f) f s) = u32 (sleepq_len s + 1)) by (unfold sleep_in; by destruct (c f)). change (fold_left _ fs ?x) with (take_in c fs x).
    rewrite H2, H3, H4. split_and!.
    + eapply same_kind_trans; [|exact H1]. unfold sleep_in. destruct (c f); split_and!; try done; [by eexists|].
      exists (sleepq_ac_len (ps s)). by destruct s as [? ? ? ? ? ? ? ? ? ? ? ? ? ? ? []].
    + unfold sleep_in. by destruct (c f).
    + assert (E : sleep_q (sleep_in (c f) f s) = sleep_q s ++ [f]) by (unfold sleep_in; by destruct (c f)).
      by rewrite E, <- app_assoc.
    + rewrite El, zlen_cons. unfold u32. rewrite Zplus_mod_idemp_l. f_equal. lia.
    + intros _. apply H5. rewrite El. unfold u32. apply Z.mod_pos_bound. lia.
Qed.

(** What moving the queues [acs] of station [o] (which was [s]) does to the adapter. *)
Record slept (o : nat) (acs : list nat) (s : sta_info) (a a' : adapter) : Prop := {
  sl_inv : tx_inv a';
  sl_pend : forall p j, pending_of a' p j = if decide (p = o /\ j ∈ acs) then [] else pending_of a p j;
  sl_addr : addr_view a' = addr_view a;
  sl_other : forall p, p <> o -> stas (stapriv a') !! p = stas (stapriv a) !! p;
  sl_sta : exists s', stas (stapriv a') !! o = Some s' /\ same_kind s s' /\
    sleep_q s' = sleep_q s ++ map untrig (concat (map (pending_of a o) acs)) /\
    u32 (sleepq_len s') = u32 (sleepq_len s + zlen (concat (map (pending_of a o) acs))) /\
    (is_u32 (sleepq_len s) -> is_u32 (sleepq_len s'));
  sl_dz : is_bmc s = false -> sta_dz_bitmap (stapriv a') = sta_dz_bitmap (stapriv a);
  sl_dz' : forall n, 1 <= n < 16 -> has_bit n (sta_dz_bitmap (stapriv a')) = has_bit n (sta_dz_bitmap (stapriv a));
  sl_tim : forall n, 0 <= n < 16 -> has_bit n (tim_bitmap (stapriv a')) =
    has_bit n (tim_bitmap (stapriv a)) || ((n =? slot s) && existsb (signals s) (concat (map (pending_of a o) acs)));
  sl_table : table_inv (stapriv a) -> table_inv (stapriv a');
  sl_rest : macid a' = macid a /\ recvpriv a' = recvpriv a /\ free_sta_queue (stapriv a') = free_sta_queue (stapriv a) /\
    free_xmit_queue (xmitpriv a') = free_xmit_queue (xmitpriv a) /\
    free_xframe_ext_queue (xmitpriv a') = free_xframe_ext_queue (xmitpriv a)
}.

Lemma map_servqs_alter g q o (l : list sta_info) : (forall s, l !! o = Some s -> servqs (g s) = q (servqs s)) ->
  map servqs (alter g o l) = alter q o (map servqs l).
Proof.
  intros H. apply list_eq. intros j. rewrite list_lookup_fmap. destruct (decide (o = j)) as [<-|Hne].
  - rewrite !list_lookup_alter_eq, list_lookup_fmap. destruct (l !! o) eqn:E; [|done]. cbn. by rewrite H.
  - by rewrite !list_lookup_alter_ne, list_lookup_fmap by done.
Qed.

Lemma map_hwaddr_alter g o (l : list sta_info) : (forall s, l !! o = Some s -> hwaddr (g s) = hwaddr s) ->
  map hwaddr (alter g o l) = map hwaddr l.
Proof.
  intros H. apply list_eq. intros j. rewrite !list_lookup_fmap. destruct (decide (o = j)) as [<-|Hne].
  - rewrite list_lookup_alter_eq. destruct (l !! o) eqn:E; [|done]. cbn. by rewrite H.
  - by rewrite list_lookup_alter_ne by done.
Qed.

(** The adapter after one queue was moved and unlinked. *)
Definition moved_adapter (o i : nat) (c : xmit_frame -> bool) (fs : list xmit_frame) (dz tim : Z) (a : adapter) : adapter :=
  set_xmitpriv (unlink o i (upd_accnt i (- zlen fs) (xmitpriv a)))
    (with_sta o (fun s => set_servqs (alter (fun q => mk_servq (qcnt q - zlen fs) []) i (servqs s))
                            (take_in c (map untrig fs) s)) dz tim a).

Lemma moved_queue_eq o i s w : stas (stapriv (ad w)) !! o = Some s -> ready s (ad w) -> 0 <= slot s -> tx_inv (ad w) ->
  Forall (directed o (ad w)) (pending_of (ad w) o i) ->
  exists dz tim, ad (unlink_queue o i (dequeue_xmitframes_to_sleeping_queue fw_state not_pcie hiq_filter o i w)) =
      moved_adapter o i (counts s) (pending_of (ad w) o i) dz tim (ad w) /\
  (is_bmc s = false -> dz = sta_dz_bitmap (stapriv (ad w))) /\
  (forall n, 1 <= n < 16 -> has_bit n dz = has_bit n (sta_dz_bitmap (stapriv (ad w)))) /\
  (forall n, 0 <= n < 16 -> has_bit n tim = has_bit n (tim_bitmap (stapriv (ad w))) ||
     ((n =? slot s) && existsb (signals s) (pending_of (ad w) o i))).
Proof.
  intros Hs Hr Hslot Ha Hd. unfold dequeue_xmitframes_to_sleeping_queue.
  assert (Hd' : Forall (fun f => directed o (ad w) f /\ ac_of f = i) (pending_of (ad w) o i)).
  { apply Forall_forall. intros f Hf. split; [by apply (proj1 (Forall_forall _ _) Hd)|]. by apply (tx_home _ Ha o i f), list_elem_of_In. }
  destruct (dequeue_frames_run o i _ w s Hs Hr Hslot Hd') as (w' & -> & dz & tim & ev & -> & H1 & H2 & H3).
  exists dz, tim. split; [|done]. unfold unlink_queue, on_ad, moved_adapter. cbn [ad].
  unfold upd_servq. rewrite upd_sta_with.
  set (fs := pending_of (ad w) o i).
  change (with_sta o ?h ?d ?t (set_xmitpriv ?x ?b)) with (set_xmitpriv x (with_sta o h d t b)).
  rewrite with_sta_twice. change (set_xmitpriv ?x (set_xmitpriv ?y ?b)) with (set_xmitpriv x b). f_equal.
  apply with_sta_ext. intros s' _. unfold moved. change (servqs (set_servqs ?q ?r)) with q.
  change (set_servqs ?x (set_servqs ?y ?z)) with (set_servqs x z). rewrite alter_alter. f_equal.
  apply list_alter_ext; [|done]. intros q _. cbn [qcnt]. f_equal. unfold zlen. by rewrite length_map.
Qed.

Lemma moved_tx_inv o i s c dz tim a : stas (stapriv a) !! o = Some s -> tx_inv a -> (i < 4)%nat ->
  tx_inv (moved_adapter o i c (pending_of a o i) dz tim a).
Proof.
  intros Hs Ha Hi. destruct (servq_total a o i s Ha Hs Hi) as [q Hq].
  assert (Hp : pending_of a o i = sta_pending q) by (unfold pending_of; by rewrite Hq).
  apply (tx_inv_view (upd_servq o i (fun _ => mk_servq 0 [])
    (set_xmitpriv (unlink o i (upd_accnt i (- zlen (pending_of a o i)) (xmitpriv a))) a))).
  - unfold tx_view, moved_adapter. cbn [set_xmitpriv stapriv xmitpriv with_sta set_stapriv set_bitmaps set_stas set_table stas
      free_sta_queue upd_servq upd_sta]. do 3 f_equal.
    rewrite (map_servqs_alter _ (fun qs => alter (fun _ => mk_servq 0 []) i qs)) by done.
    rewrite (map_servqs_alter _ (fun qs => alter (fun q => mk_servq (qcnt q - zlen (pending_of a o i)) []) i qs)) by done.
    apply list_alter_ext; [|done]. intros qs Hqs. rewrite list_lookup_fmap, Hs in Hqs. injection Hqs as <-.
    apply list_alter_ext; [|done]. intros q' Hq'. unfold servq_of in Hq. rewrite Hs in Hq. cbn in Hq.
    rewrite Hq' in Hq. injection Hq as ->. rewrite Hp.
    rewrite (tx_qcnt _ Ha o i q); [f_equal; lia|]. unfold servq_of. by rewrite Hs.
  - destruct (lookup_lt_is_Some_2 (sta_queues (xmitpriv a)) i) as [l Hl]; [by rewrite (tx_queues_len _ Ha)|].
    eapply (tx_change a o i q); cbn [qcnt sta_pending]; try done.
    + rewrite Hp. cbn [unlink upd_accnt set_queues accnt]. apply list_alter_ext; [|done]. intros n _. unfold zlen. cbn. lia.
    + cbn [unlink upd_accnt set_queues sta_queues]. rewrite length_alter. apply (tx_queues_len _ Ha).
    + intros j l' Hj. cbn [unlink upd_accnt set_queues sta_queues] in Hj. destruct (decide (j = i)) as [->|Hji].
      * rewrite list_lookup_alter_eq, Hl in Hj. injection Hj as <-.
        split; [apply list.NoDup_filter, (tx_nodup _ Ha _ _ Hl)|]. exists l. split; [done|]. intros p.
        rewrite list_elem_of_filter. destruct (decide (p = o /\ i = i)) as [[-> _]|Hd]; [split; [by intros [? _]|done]|].
        split; [by intros [_ ?]|]. intros Hp'. split; [|done]. intros ->. by apply Hd.
      * rewrite list_lookup_alter_ne in Hj by done. split; [by apply (tx_nodup _ Ha j)|]. exists l'. split; [done|].
        intros p. by rewrite decide_False by (by intros [_ ?]).
    + by intros f Hf%elem_of_nil.
Qed.

Lemma moved_slept o i s dz tim a : stas (stapriv a) !! o = Some s -> tx_inv a -> (i < 4)%nat ->
  (is_bmc s = false -> dz = sta_dz_bitmap (stapriv a)) ->
  (forall n, 1 <= n < 16 -> has_bit n dz = has_bit n (sta_dz_bitmap (stapriv a))) ->
  (forall n, 0 <= n < 16 -> has_bit n tim = has_bit n (tim_bitmap (stapriv a)) ||
     ((n =? slot s) && existsb (signals s) (pending_of a o i))) ->
  slept o [i] s a (moved_adapter o i (counts s) (pending_of a o i) dz tim a).
Proof.
  intros Hs Ha Hi H1 H2 H3. destruct (take_in_spec (counts s) (map untrig (pending_of a o i)) s) as (T1 & T2 & T3 & T4 & T5).
  assert (Hsta : stas (stapriv (moved_adapter o i (counts s) (pending_of a o i) dz tim a)) =
    alter (fun s' => set_servqs (alter (fun q => mk_servq (qcnt q - zlen (pending_of a o i)) []) i (servqs s'))
                            (take_in (counts s) (map untrig (pending_of a o i)) s')) o (stas (stapriv a))) by done.
  constructor; try done.
  - by apply (moved_tx_inv o i s).
  - intros p j. unfold pending_of at 1, servq_of. rewrite Hsta. destruct (decide (p = o)) as [->|Hp].
    + rewrite list_lookup_alter_eq, Hs. cbn [fmap option_fmap option_map mbind option_bind].
      change (servqs (set_servqs ?q ?r)) with q. unfold pending_of, servq_of. rewrite Hs. cbn [mbind option_bind].
      destruct (decide (j = i)) as [->|Hj].
      * rewrite list_lookup_alter_eq, decide_True by (split; [done|by left]). by destruct (servqs s !! i).
      * rewrite list_lookup_alter_ne, decide_False; [done| |done]. intros [_ ?%list_elem_of_singleton]. done.
    + rewrite list_lookup_alter_ne, decide_False by (done || by intros [? _]). done.
  - unfold addr_view. rewrite Hsta. f_equal. apply map_hwaddr_alter. intros s' Hs'. rewrite Hs in Hs'. injection Hs' as <-.
    apply T1.
  - intros p Hp. rewrite Hsta. by rewrite list_lookup_alter_ne.
  - eexists. split; [rewrite Hsta, list_lookup_alter_eq, Hs; done|]. cbn [map concat]. rewrite app_nil_r.
    split_and!; [exact T1|exact T3| |exact T5]. etrans; [exact T4|]. do 2 f_equal. unfold zlen. by rewrite length_map.
  - intros n Hn. cbn [map concat]. rewrite app_nil_r. by apply H3.
  - apply table_inv_view; try done; [|by rewrite Hsta, length_alter]. unfold addr_view. rewrite Hsta. f_equal.
    apply map_hwaddr_alter. intros s' Hs'. rewrite Hs in Hs'. injection Hs' as <-. apply T1.
Qed.

(** Several queues, one after the other. *)
Lemma slept_trans o i acs s s1 a a1 a2 : NoDup (i :: acs) -> stas (stapriv a) !! o = Some s ->
  stas (stapriv a1) !! o = Some s1 -> slept o [i] s a a1 -> slept o acs s1 a1 a2 -> slept o (i :: acs) s a a2.
Proof.
  intros [Hi _]%list.NoDup_cons Hs Hs1 A B.
  destruct (sl_sta _ _ _ _ _ A) as (s1' & Hs1' & K1 & Q1 & L1 & U1). rewrite Hs1 in Hs1'. injection Hs1' as <-.
  destruct (sl_sta _ _ _ _ _ B) as (s2 & Hs2 & K2 & Q2 & L2 & U2).
  destruct (same_kind_fn _ _ K1) as (F1 & F2 & F3 & F4).
  assert (Hc : concat (map (pending_of a1 o) acs) = concat (map (pending_of a o) acs)).
  { f_equal. apply map_ext_in. intros j Hj. rewrite (sl_pend _ _ _ _ _ A), decide_False; [done|].
    intros [_ ->%list_elem_of_singleton]. by apply Hi, list_elem_of_In. }
  cbn [map concat] in Q1, L1. rewrite app_nil_r in Q1, L1.
  constructor.
  - apply (sl_inv _ _ _ _ _ B).
  - intros p j. rewrite (sl_pend _ _ _ _ _ B), (sl_pend _ _ _ _ _ A).
    destruct (decide (p = o)) as [->|Hp].
    + destruct (decide (j = i)) as [->|Hj].
      * rewrite (decide_True _ _ (conj eq_refl (list_elem_of_here i acs))).
        rewrite (decide_True (P := o = o /\ i ∈ [i])) by (split; [done|by left]). by destruct (decide _).
      * rewrite (decide_False (P := o = o /\ j ∈ [i])) by (intros [_ ?%list_elem_of_singleton]; done).
        destruct (decide (j ∈ acs)) as [Hin|Hin].
        -- rewrite !decide_True; [done|split; [done|by right]|done].
        -- rewrite !decide_False; [done|intros [_ [?|?]%elem_of_cons]; done|by intros [_ ?]].
    + by rewrite !decide_False by (by intros [? _]).
  - by rewrite (sl_addr _ _ _ _ _ B), (sl_addr _ _ _ _ _ A).
  - intros p Hp. by rewrite (sl_other _ _ _ _ _ B), (sl_other _ _ _ _ _ A) by done.
  - exists s2. rewrite Hc in Q2, L2. split_and!; [done|by eapply same_kind_trans|..|tauto]; cbn [map concat].
    + by rewrite Q2, Q1, map_app, app_assoc.
    + rewrite L2, zlen_app. revert L1. generalize (sleepq_len s1), (sleepq_len s), (zlen (pending_of a o i)),
        (zlen (concat (map (pending_of a o) acs))). unfold u32. intros x y m n E. rewrite Z.add_assoc.
      rewrite <- (Zplus_mod_idemp_l x), E. by rewrite Zplus_mod_idemp_l.
  - intros Hb. rewrite (sl_dz _ _ _ _ _ B), (sl_dz _ _ _ _ _ A) by congruence. done.
  - intros n Hn. by rewrite (sl_dz' _ _ _ _ _ B), (sl_dz' _ _ _ _ _ A) by done.
  - intros n Hn. rewrite (sl_tim _ _ _ _ _ B), (sl_tim _ _ _ _ _ A) by done. rewrite F2, F4, Hc. cbn [map concat].
    rewrite app_nil_r, existsb_app. destruct (n =? slot s), (has_bit n (tim_bitmap (stapriv a))); cbn [andb orb]; done.
  - intros Ht. by apply (sl_table _ _ _ _ _ B), (sl_table _ _ _ _ _ A).
  - destruct (sl_rest _ _ _ _ _ A) as (R1 & R2 & R3 & R4 & R5), (sl_rest _ _ _ _ _ B) as (S1 & S2 & S3 & S4 & S5).
    split_and!; congruence.
Qed.

Lemma same_kind_refl s : same_kind s s.
Proof. split_and!; try done. exists (sleepq_ac_len (ps s)). by destruct (ps s). Qed.

Lemma slept_nil o s a : stas (stapriv a) !! o = Some s -> tx_inv a -> slept o [] s a a.
Proof.
  intros Hs Ha. constructor; try done.
  - intros p j. rewrite decide_False; [done|]. by intros [_ ?%elem_of_nil].
  - exists s. cbn [map concat]. rewrite app_nil_r. split_and!; [done|apply same_kind_refl|done| |done]. f_equal. unfold zlen. cbn. lia.
  - intros n Hn. cbn [map concat existsb]. by rewrite andb_false_r, orb_false_r.
Qed.

Lemma directed_view o a a' f : addr_view a' = addr_view a -> directed o a f -> directed o a' f.
Proof. intros E [H1 H2]. split; [|done]. rewrite <- H1. by apply get_view. Qed.

Abbreviation sleep_queue o i w :=
  (unlink_queue o i (dequeue_xmitframes_to_sleeping_queue fw_state not_pcie hiq_filter o i w)).

Lemma sleep_queue_run o i s w : stas (stapriv (ad w)) !! o = Some s -> ready s (ad w) -> 0 <= slot s -> tx_inv (ad w) ->
  (i < 4)%nat -> Forall (directed o (ad w)) (pending_of (ad w) o i) -> slept o [i] s (ad w) (ad (sleep_queue o i w)).
Proof.
  intros Hs Hr Hslot Ha Hi Hd. destruct (moved_queue_eq o i s w) as (dz & tim & -> & H1 & H2 & H3); try done.
  by apply moved_slept.
Qed.

Lemma sleep_queues_run o acs : forall s w, NoDup acs -> Forall (fun i => i < 4)%nat acs -> is_bmc s = false -> 0 <= aid s ->
  stas (stapriv (ad w)) !! o = Some s -> ready s (ad w) -> tx_inv (ad w) ->
  (forall i, Forall (directed o (ad w)) (pending_of (ad w) o i)) ->
  slept o acs s (ad w) (ad (fold_left (fun w i => sleep_queue o i w) acs w)).
Proof.
  induction acs as [|i acs IH]; intros s w Hn Hi Hb Haid Hs Hr Ha Hd; [by apply slept_nil|]. cbn [fold_left].
  apply Forall_cons_1 in Hi as [Hi Hacs].
  assert (Hslot : 0 <= slot s) by (unfold slot; by rewrite Hb).
  pose proof (sleep_queue_run o i s w Hs Hr Hslot Ha Hi (Hd i)) as A.
  set (w1 := sleep_queue o i w) in *. destruct (sl_sta _ _ _ _ _ A) as (s1 & Hs1 & K1 & _).
  pose proof K1 as (E1 & E2 & E3 & _). destruct (same_kind_fn _ _ K1) as (F1 & _).
  apply (slept_trans o i acs s s1 (ad w) (ad w1)); try done.
  apply IH; try done; try congruence.
  - by apply list.NoDup_cons in Hn as [_ Hn].
  - destruct Hr as [Hl Hr]. unfold ready. rewrite E2, E3, F1, Hb. rewrite Hb in Hr. by rewrite (sl_dz _ _ _ _ _ A Hb).
  - apply (sl_inv _ _ _ _ _ A).
  - intros j. rewrite (sl_pend _ _ _ _ _ A). destruct (decide _); [by apply Forall_nil|].
    eapply List.Forall_impl; [|apply (Hd j)]. intros f. apply directed_view, (sl_addr _ _ _ _ _ A).
Qed.

(** ** Putting a station to sleep *)

(** The station as [stop_sta_xmit] marks it. *)
Definition doze (o : nat) (s : sta_info) (a : adapter) : adapter :=
  with_sta o (set_state (state s .| WIFI_SLEEP_STATE)) (u16 (set_bit (aid s) (sta_dz_bitmap (stapriv a)))) (tim_bitmap (stapriv a)) a.

Lemma stop_eq o b s w : stas (stapriv (ad w)) !! o = Some s -> rtw_get_bcmc_stainfo (stapriv (ad w)) = Some b ->
  stop_sta_xmit fw_state not_pcie hiq_filter o w =
  Some (sleep_queue b 2 (fold_left (fun w i => sleep_queue o i w) [0; 1; 2; 3]%nat (mk_psw (doze o s (ad w)) (evs w)))).
Proof.
  intros Hs Hb. unfold stop_sta_xmit. rewrite Hb. cbn [mbind option_bind].
  assert (E : on_ad (fun a => upd_dz (set_bit (sta_aid_of o a)) (upd_sta o (fun s => set_state (state s .| WIFI_SLEEP_STATE) s) a)) w =
    mk_psw (doze o s (ad w)) (evs w)); [|by rewrite E].
  unfold on_ad, doze. f_equal. unfold sta_aid_of. rewrite Hs. rewrite upd_sta_with. unfold upd_dz.
  change (set_stapriv (set_bitmaps ?d (tim_bitmap (stapriv ?x)) (stapriv ?x)) ?x) with
    (with_sta o (fun s => set_state (state s .| WIFI_SLEEP_STATE) s) d (tim_bitmap (stapriv (ad w))) (ad w)).
  apply with_sta_ext. intros s' Hs'. rewrite Hs in Hs'. by injection Hs' as <-.
Qed.

Lemma doze_views o s a : tx_view (doze o s a) = tx_view a /\ addr_view (doze o s a) = addr_view a.
Proof.
  unfold tx_view, addr_view, doze. cbn [with_sta set_stapriv stapriv xmitpriv set_bitmaps set_stas set_table stas
    free_sta_queue sta_hash].
  rewrite (map_servqs_alter _ (fun qs => qs)) by done. rewrite map_hwaddr_alter by done. by rewrite alter_same.
Qed.

Lemma doze_table o s a : table_inv (stapriv a) -> table_inv (stapriv (doze o s a)).
Proof. intros Ht. apply (table_inv_view a); try done; [apply doze_views|]. cbn. by rewrite length_alter. Qed.

Lemma doze_ready o s a : Z.testbit (state s) 0 = true -> is_bmc s = false -> 1 <= aid s < 16 ->
  ready (set_state (state s .| WIFI_SLEEP_STATE) s) (doze o s a).
Proof.
  intros Hl Hb Haid. unfold ready. change (is_bmc (set_state _ s)) with (is_bmc s). rewrite Hb. cbn [state set_state aid].
  rewrite !Z.lor_spec, Hl. split; [done|]. split; [by rewrite orb_true_r|].
  change (sta_dz_bitmap _) with (u16 (set_bit (aid s) (sta_dz_bitmap (stapriv a)))).
  rewrite has_set_bit by lia. by rewrite (proj2 (Z.ltb_lt _ _)), Z.eqb_refl by lia.
Qed.

Lemma bcmc_is_bmc b a sb : rtw_get_bcmc_stainfo (stapriv a) = Some b -> stas (stapriv a) !! b = Some sb -> is_bmc sb = true.
Proof.
  intros [_ Ha]%get_sound Hs. unfold sta_addr in Ha. rewrite Hs in Ha. unfold is_bmc. by apply bool_decide_eq_true.
Qed.

(** The two stations, the two steps, and the adapter in between. *)
Lemma stop_run o b s sb w : tx_inv (ad w) -> stas (stapriv (ad w)) !! o = Some s -> Z.testbit (state s) 0 = true ->
  is_bmc s = false -> 1 <= aid s < 16 ->
  rtw_get_bcmc_stainfo (stapriv (ad w)) = Some b -> stas (stapriv (ad w)) !! b = Some sb -> Z.testbit (state sb) 0 = true ->
  (forall i, Forall (directed o (ad w)) (pending_of (ad w) o i)) -> Forall (directed b (ad w)) (pending_of (ad w) b 2) ->
  exists w' a1, stop_sta_xmit fw_state not_pcie hiq_filter o w = Some w' /\ o <> b /\
    slept o [0; 1; 2; 3]%nat (set_state (state s .| WIFI_SLEEP_STATE) s) (doze o s (ad w)) a1 /\ slept b [2]%nat sb a1 (ad w') /\
    has_bit (aid s) (sta_dz_bitmap (stapriv a1)) = true.
Proof.
  intros Ha Hs Hl Hbm Haid Hb Hsb Hlb Hd Hdb. rewrite (stop_eq o b s w) by done.
  pose proof (bcmc_is_bmc _ _ _ Hb Hsb) as Hbb. assert (Hob : o <> b) by (intros ->; congruence).
  destruct (doze_views o s (ad w)) as [V1 V2]. set (w0 := mk_psw (doze o s (ad w)) (evs w)).
  set (s0 := set_state (state s .| WIFI_SLEEP_STATE) s).
  assert (Hs0 : stas (stapriv (ad w0)) !! o = Some s0) by (cbn; rewrite list_lookup_alter_eq, Hs; done).
  pose proof (doze_ready o s (ad w) Hl Hbm Haid) as Hr0.
  assert (Hn : NoDup [0; 1; 2; 3]%nat) by (apply (bool_decide_unpack _); vm_compute; exact I).
  assert (H4 : Forall (fun i => i < 4)%nat [0; 1; 2; 3]%nat) by (repeat first [constructor | lia]).
  assert (Haid0 : 0 <= aid s0) by (cbn; lia).
  assert (Ha0 : tx_inv (ad w0)) by (by apply (tx_inv_view (ad w))).
  assert (Hd0 : forall i, Forall (directed o (ad w0)) (pending_of (ad w0) o i)).
  { intros i. rewrite (pending_view (ad w0) (ad w) o i V1). eapply List.Forall_impl; [|apply (Hd i)]. intros f. by apply directed_view. }
  pose proof (sleep_queues_run o [0; 1; 2; 3]%nat s0 w0 Hn H4 Hbm Haid0 Hs0 Hr0 Ha0 Hd0) as A.
  set (w1 := fold_left _ _ w0) in *.
  assert (Hdz : has_bit (aid s) (sta_dz_bitmap (stapriv (ad w1))) = true).
  { rewrite (sl_dz' _ _ _ _ _ A) by lia. destruct Hr0 as [_ Hr0].
    assert (Hb0 : is_bmc (set_state (state s .| WIFI_SLEEP_STATE) s) = false) by exact Hbm. rewrite Hb0 in Hr0. apply Hr0. }
  assert (Hsb1 : stas (stapriv (ad w1)) !! b = Some sb).
  { rewrite (sl_other _ _ _ _ _ A) by congruence. cbn. by rewrite list_lookup_alter_ne. }
  exists (sleep_queue b 2 w1), (ad w1). split; [done|]. split; [done|]. split; [done|]. split; [|done].
  apply sleep_queue_run; [done| | |apply (sl_inv _ _ _ _ _ A)|lia|].
  - split; [done|]. rewrite Hbb. apply has_bit_nonzero in Hdz; [|lia]. by apply Z.eqb_neq.
  - unfold slot. by rewrite Hbb.
  - rewrite (sl_pend _ _ _ _ _ A), decide_False by (by intros [? _]). rewrite (pending_view (ad w0) (ad w) b 2 V1).
    eapply List.Forall_impl; [|exact Hdb]. intros f Hf. eapply directed_view; [apply (sl_addr _ _ _ _ _ A)|]. by eapply directed_view.
Qed.

Lemma pending_high a o i : tx_inv a -> (4 <= i)%nat -> pending_of a o i = [].
Proof.
  intros Ha Hi. unfold pending_of, servq_of. destruct (stas (stapriv a) !! o) as [s|] eqn:Hs; [|done]. cbn [mbind option_bind].
  rewrite (lookup_ge_None_2 (servqs s) i); [done|]. pose proof (proj1 (Forall_lookup _ _) (tx_len _ Ha) _ _ Hs). cbv beta in *. lia.
Qed.

Lemma all_pending a o : tx_inv a -> forall i, pending_of a o i = if decide (i ∈ [0; 1; 2; 3]%nat) then pending_of a o i else [].
Proof.
  intros Ha i. destruct (decide _) as [|Hi]; [done|]. apply pending_high; [done|].
  destruct i as [|[|[|[|i]]]]; try lia; exfalso; apply Hi; rewrite !elem_of_cons; tauto.
Qed.

(** When a linked station with an AID from 1 to 15 enters power save, every frame
    pending for it moves to its sleep queue, voice, video, best effort and background in
    this order and each category in its order, and the best-effort group frames move to
    the group station's sleep queue; no frame is lost or left behind, no other queue or
    station changes, the queue counters and links stay exact, the station is marked asleep,
    and its TIM bit is set when one of the frames asks for it. *)
Theorem stop_sta_xmit_buffers o b s sb w : tx_inv (ad w) -> stas (stapriv (ad w)) !! o = Some s ->
  Z.testbit (state s) 0 = true -> is_bmc s = false -> 1 <= aid s < 16 ->
  rtw_get_bcmc_stainfo (stapriv (ad w)) = Some b -> stas (stapriv (ad w)) !! b = Some sb -> Z.testbit (state sb) 0 = true ->
  (forall i, Forall (directed o (ad w)) (pending_of (ad w) o i)) -> Forall (directed b (ad w)) (pending_of (ad w) b 2) ->
  exists w' s', stop_sta_xmit fw_state not_pcie hiq_filter o w = Some w' /\ tx_inv (ad w') /\
    (forall i, pending_of (ad w') o i = []) /\ pending_of (ad w') b 2 = [] /\
    (forall p i, p <> o -> ~ (p = b /\ i = 2%nat) -> pending_of (ad w') p i = pending_of (ad w) p i) /\
    sleeping_of o (ad w') = sleeping_of o (ad w) ++ map untrig (waiting (ad w) o) /\
    sleeping_of b (ad w') = sleeping_of b (ad w) ++ map untrig (pending_of (ad w) b 2) /\
    (forall p, p <> o -> p <> b -> stas (stapriv (ad w')) !! p = stas (stapriv (ad w)) !! p) /\
    stas (stapriv (ad w')) !! o = Some s' /\ same_kind (set_state (state s .| WIFI_SLEEP_STATE) s) s' /\
    u32 (sleepq_len s') = u32 (sleepq_len s + zlen (waiting (ad w) o)) /\
    has_bit (aid s) (sta_dz_bitmap (stapriv (ad w'))) = true /\
    has_bit (aid s) (tim_bitmap (stapriv (ad w'))) =
      has_bit (aid s) (tim_bitmap (stapriv (ad w))) || existsb (signals s) (waiting (ad w) o).
Proof.
  intros Ha Hs Hl Hbm Haid Hb Hsb Hlb Hd Hdb.
  destruct (stop_run o b s sb w) as (w' & a1 & -> & Hob & A & B & Hdz); try done.
  destruct (doze_views o s (ad w)) as [V1 _]. pose proof (fun p i => pending_view _ _ p i V1) as Hp.
  pose proof (bcmc_is_bmc _ _ _ Hb Hsb) as Hbb.
  destruct (sl_sta _ _ _ _ _ A) as (s' & Hs' & K & Q & L & _), (sl_sta _ _ _ _ _ B) as (sb' & Hsb' & _ & Qb & _).
  cbn [map concat] in Q, L, Qb. rewrite !Hp, app_nil_r in Q, L. rewrite app_nil_r in Qb.
  assert (Hp1 : forall p i, p <> o -> pending_of a1 p i = pending_of (ad w) p i).
  { intros p i Hpo. by rewrite (sl_pend _ _ _ _ _ A), decide_False, Hp by (by intros [? _]). }
  exists w', s'. split_and!; try done.
  - apply (sl_inv _ _ _ _ _ B).
  - intros i. rewrite (sl_pend _ _ _ _ _ B), decide_False, (sl_pend _ _ _ _ _ A), Hp by (intros [? _]; by apply Hob).
    rewrite (all_pending (ad w)) by done. destruct (decide (i ∈ _)); [by rewrite decide_True|by destruct (decide _)].
  - rewrite (sl_pend _ _ _ _ _ B), decide_True; [done|]. split; [done|by left].
  - intros p i Hpo Hpb. rewrite (sl_pend _ _ _ _ _ B), decide_False; [by apply Hp1|].
    intros [? ?%list_elem_of_singleton]. by apply Hpb.
  - unfold sleeping_of at 1. rewrite (sl_other _ _ _ _ _ B), Hs', Q by done. unfold sleeping_of. by rewrite Hs.
  - unfold sleeping_of at 1. rewrite Hsb', Qb, Hp1 by done. unfold sleeping_of. by rewrite Hsb.
  - intros p Hpo Hpb. rewrite (sl_other _ _ _ _ _ B), (sl_other _ _ _ _ _ A) by done. cbn. by rewrite list_lookup_alter_ne.
  - by rewrite (sl_other _ _ _ _ _ B).
  - by rewrite (sl_dz' _ _ _ _ _ B) by lia.
  - rewrite (sl_tim _ _ _ _ _ B), (sl_tim _ _ _ _ _ A) by lia.
    assert (E1 : slot sb = 0) by (unfold slot; by rewrite Hbb).
    assert (E2 : slot (set_state (state s .| WIFI_SLEEP_STATE) s) = aid s)
      by (unfold slot; change (is_bmc (set_state _ s)) with (is_bmc s); by rewrite Hbm).
    rewrite E1, E2, (proj2 (Z.eqb_neq (aid s) 0)), andb_false_l, orb_false_r, Z.eqb_refl by lia. cbn [andb map concat]. rewrite !Hp, app_nil_r. done.
Qed.
End buffering.

(** ** Releasing frames *)

(** The adapter after the frames [out] of station [o] went to the transmit queues. *)
Record released (o : nat) (out : list xmit_frame) (a a' : adapter) : Prop := {
  rl_inv : tx_inv a' /\ table_inv (stapriv a');
  rl_pend : forall p j, pending_of a' p j =
    pending_of a p j ++ (if decide (p = o) then filter (fun f => ac_of f = j) out else []);
  rl_addr : addr_view a' = addr_view a;
  rl_other : forall p, p <> o -> stas (stapriv a') !! p = stas (stapriv a) !! p;
  rl_bits : sta_dz_bitmap (stapriv a') = sta_dz_bitmap (stapriv a) /\ tim_bitmap (stapriv a') = tim_bitmap (stapriv a);
  rl_rest : macid a' = macid a /\ recvpriv a' = recvpriv a /\ free_sta_queue (stapriv a') = free_sta_queue (stapriv a) /\
    free_xmit_queue (xmitpriv a') = free_xmit_queue (xmitpriv a) /\
    free_xframe_ext_queue (xmitpriv a') = free_xframe_ext_queue (xmitpriv a)
}.

Lemma released_trans o out1 out2 a a1 a2 : released o out1 a a1 -> released o out2 a1 a2 -> released o (out1 ++ out2) a a2.
Proof.
  intros [I1 P1 A1 O1 B1 R1] [I2 P2 A2 O2 B2 R2]. constructor; try done; try congruence.
  - intros p j. rewrite P2, P1, <- app_assoc. f_equal. destruct (decide _); [by rewrite list.filter_app|done].
  - intros p Hp. rewrite O2 by done. by apply O1.
  - destruct B1, B2. split; congruence.
  - destruct R1 as (?&?&?&?&?), R2 as (?&?&?&?&?). split_and!; congruence.
Qed.

(** A change of a station that its queues and the table do not see. *)
Lemma upd_sta_tx o g a : (forall s, servqs (g s) = servqs s /\ hwaddr (g s) = hwaddr s) ->
  tx_view (upd_sta o g a) = tx_view a /\ addr_view (upd_sta o g a) = addr_view a.
Proof.
  intros H. unfold tx_view, addr_view. cbn [upd_sta set_stapriv stapriv xmitpriv set_stas set_table stas
    free_sta_queue sta_hash].
  rewrite (map_servqs_alter _ (fun qs => qs)) by (intros s _; apply H).
  rewrite map_hwaddr_alter by (intros s _; apply H). by rewrite alter_same.
Qed.

(** A frame directed to a linked station is accepted. *)
Lemma directed_dest o a f s : directed o a f -> stas (stapriv a) !! o = Some s -> Z.testbit (state s) 0 = true ->
  tx_dest a f = Some o.
Proof.
  intros [Hg Hp] Hs Hl. unfold tx_dest. rewrite Hg, Hp, bool_decide_true, Hs, linked_flag, Hl by done. done.
Qed.

(** What accepting the frame leaves alone. *)
Lemma classifier_stas f a o : tx_dest a f = Some o ->
  stas (stapriv (rtw_xmit_classifier f a).1) =
    alter (fun s => set_servqs (alter (fun q => mk_servq (qcnt q + 1) (sta_pending q ++ [f])) (ac_of f) (servqs s)) s) o
      (stas (stapriv a)).
Proof. intros Hd. by rewrite classifier_spec, Hd. Qed.

(** One frame: the station changes by [g], and the frame [f] is handed over. *)
Lemma release_step o g f s a : tx_inv a -> table_inv (stapriv a) -> stas (stapriv a) !! o = Some s ->
  (forall s, servqs (g s) = servqs s /\ hwaddr (g s) = hwaddr s) -> Z.testbit (state (g s)) 0 = true -> directed o a f ->
  let a' := fst (rtl8812au_hal_xmitframe_enqueue f (upd_sta o g a)) in
  released o [f] a a' /\ exists qs, stas (stapriv a') !! o = Some (set_servqs qs (g s)).
Proof.
  intros Ha Ht Hs Hg Hl Hd a'. destruct (upd_sta_tx o g a Hg) as [V1 V2]. set (a1 := upd_sta o g a) in *.
  assert (Hs1 : stas (stapriv a1) !! o = Some (g s)) by (unfold a1; cbn; rewrite list_lookup_alter_eq, Hs; done).
  assert (Ha1 : tx_inv a1) by (by apply (tx_inv_view a)).
  assert (Ht1 : table_inv (stapriv a1)).
  { apply (table_inv_view a); try done. unfold a1. cbn. by rewrite length_alter. }
  assert (Hd1 : tx_dest a1 f = Some o) by (apply (directed_dest _ _ _ (g s)); [by eapply directed_view|done|done]).
  assert (E : a' = (rtw_xmit_classifier f a1).1) by (unfold a'; by rewrite put_spec, Hd1).
  pose proof (classifier_stas f a1 o Hd1) as Hst. rewrite <- E in Hst. split.
  - constructor.
    + rewrite E. split; [by apply classifier_inv|by apply put_table].
    + intros p j. rewrite E, (classifier_pending f a1 o), (pending_view a1 a) by done. f_equal.
      pose proof (tx_dest_psta _ _ _ Hd1) as Hps. destruct (decide (p = o)) as [->|Hp].
      * unfold filter. cbn [list_filter]. unfold home. destruct (decide (ac_of f = j)); [by rewrite decide_True|].
        by rewrite decide_False by (by intros [_ ?]).
      * rewrite decide_False; [done|]. intros [H1 _]. congruence.
    + unfold addr_view. rewrite Hst. rewrite map_hwaddr_alter by done.
      replace (sta_hash (stapriv a')) with (sta_hash (stapriv a1)) by (rewrite E, classifier_spec, Hd1; done).
      exact V2.
    + intros p Hp. rewrite Hst, list_lookup_alter_ne by done. unfold a1. cbn. by rewrite list_lookup_alter_ne.
    + rewrite E, classifier_spec, Hd1. done.
    + rewrite E, classifier_spec, Hd1. cbn [fst]. by destruct (linked _ _ _).
  - eexists. by rewrite Hst, list_lookup_alter_eq, Hs1.
Qed.

(** The frames that [wakeup_sta_to_xmit] sends, [n] and [m] the counters before. *)
Fixpoint wake_out (p : sta_ps) (n m : Z) (fs : list xmit_frame) : list xmit_frame :=
  match fs with
  | [] => []
  | f :: fs =>
      let n := u32 (n - 1) in
      let f' := set_attr (set_mdata (0 <? n)) f in
      if has_bit 1 (uapsd p (xa_priority (xattrib f))) then
        let m := u32 (m - 1) in
        set_attr (fun x => set_triggered true (set_eosp (negb (0 <? m)) (set_mdata (0 <? m) x))) f' :: wake_out p n m fs
      else set_attr (set_triggered true) f' :: wake_out p n m fs
  end.

(** The counter [sleepq_ac_len] after the loop. *)
Definition ac_left (p : sta_ps) (m : Z) (fs : list xmit_frame) : Z :=
  fold_left (fun m f => if has_bit 1 (uapsd p (xa_priority (xattrib f))) then u32 (m - 1) else m) fs m.

Definition asleep_with (s s' : sta_info) (fs : list xmit_frame) (n m : Z) : Prop :=
  same_kind s s' /\ sleep_q s' = fs /\ sleepq_len s' = n /\ sleepq_ac_len (ps s') = m.

Lemma same_kind_ac s s' m : same_kind s s' -> same_kind s (set_ps (set_ac_len m (ps s')) s').
Proof.
  intros (A1 & A2 & A3 & n & A4). split_and!; try done. exists m. cbn [set_ps ps]. by rewrite A4.
Qed.

Lemma same_kind_servqs s s' qs : same_kind s s' -> same_kind s (set_servqs qs s').
Proof. done. Qed.

Lemma sleeping_upd o g w s : stas (stapriv (ad w)) !! o = Some s ->
  sleeping_len o (on_ad (upd_sta o g) w) = sleepq_len (g s) /\
  sleeping_ac_len o (on_ad (upd_sta o g) w) = sleepq_ac_len (ps (g s)).
Proof.
  intros Hs. unfold sleeping_len, sleeping_ac_len. cbn [on_ad ad upd_sta set_stapriv stapriv set_stas set_table stas].
  by rewrite list_lookup_alter_eq, Hs.
Qed.

Lemma on_ad_twice g h w : on_ad g (on_ad h w) = on_ad (fun a => g (h a)) w.
Proof. done. Qed.

Lemma upd_sta_twice o g h a : upd_sta o g (upd_sta o h a) = upd_sta o (fun s => g (h s)) a.
Proof. rewrite !upd_sta_with. apply with_sta_twice. Qed.

Lemma wakeup_frames_run o p s fs : forall w s1, tx_inv (ad w) -> table_inv (stapriv (ad w)) ->
  stas (stapriv (ad w)) !! o = Some s1 -> asleep_with s s1 fs (sleepq_len s1) (sleepq_ac_len (ps s1)) ->
  Z.testbit (state s) 0 = true -> Forall (directed o (ad w)) fs ->
  released o (wake_out p (sleepq_len s1) (sleepq_ac_len (ps s1)) fs) (ad w) (ad (wakeup_frames o p fs w)) /\
  exists s', stas (stapriv (ad (wakeup_frames o p fs w))) !! o = Some s' /\
    asleep_with s s' [] (fold_left (fun n _ => u32 (n - 1)) fs (sleepq_len s1)) (ac_left p (sleepq_ac_len (ps s1)) fs).
Proof.
  induction fs as [|f fs IH]; intros w s1 Ha Ht Hs1 HA Hl Hd.
  - cbn [wakeup_frames wake_out]. split; [|by exists s1].
    constructor; try done. intros q j. by destruct (decide _); rewrite app_nil_r.
  - apply Forall_cons_1 in Hd as [Hdf Hd]. destruct HA as (K & Q & _ & _).
    set (g0 := fun s => set_sleep (tail (sleep_q s)) (u32 (sleepq_len s - 1)) s).
    set (trig := has_bit 1 (uapsd p (xa_priority (xattrib f)))).
    set (g := if trig then fun s => set_ps (set_ac_len (u32 (sleepq_ac_len (ps s) - 1)) (ps s)) (g0 s) else g0).
    set (f' := if trig then set_attr (fun x => set_triggered true (set_eosp (negb (0 <? u32 (sleepq_ac_len (ps s1) - 1)))
                 (set_mdata (0 <? u32 (sleepq_ac_len (ps s1) - 1)) x))) (set_attr (set_mdata (0 <? u32 (sleepq_len s1 - 1))) f)
               else set_attr (set_triggered true) (set_attr (set_mdata (0 <? u32 (sleepq_len s1 - 1))) f)).
    set (w1 := hal_enqueue f' (on_ad (upd_sta o g) w)).
    assert (Ew : wakeup_frames o p (f :: fs) w = wakeup_frames o p fs w1).
    { cbn [wakeup_frames]. unfold w1, f', g. destruct (sleeping_upd o g0 w s1 Hs1) as [L1 _].
      change (unsleep o w) with (on_ad (upd_sta o g0) w). rewrite L1. change (sleepq_len (g0 s1)) with (u32 (sleepq_len s1 - 1)).
      fold trig. destruct trig; [|done].
      assert (Ed : dec_ac_len o (on_ad (upd_sta o g0) w) = on_ad (upd_sta o (fun s =>
        set_ps (set_ac_len (u32 (sleepq_ac_len (ps s) - 1)) (ps s)) (g0 s))) w).
      { unfold dec_ac_len. rewrite on_ad_twice. unfold on_ad. f_equal. apply upd_sta_twice. }
      rewrite Ed. edestruct (sleeping_upd o) as [_ L2]; [exact Hs1|]. rewrite L2. done. }
    rewrite Ew.
    assert (Hdf' : directed o (ad w) f') by (unfold f'; by destruct trig).
    assert (Hg : forall s, servqs (g s) = servqs s /\ hwaddr (g s) = hwaddr s) by (unfold g; by destruct trig).
    assert (Hlg : Z.testbit (state (g s1)) 0 = true).
    { destruct K as (_ & K & _). replace (state (g s1)) with (state s1) by (unfold g; by destruct trig). by rewrite K. }
    destruct (release_step o g f' s1 (ad w) Ha Ht Hs1 Hg Hlg Hdf') as [R (qs & Hs2)].
    change (fst (rtl8812au_hal_xmitframe_enqueue f' (upd_sta o g (ad w)))) with (ad w1) in R, Hs2.
    set (s2 := set_servqs qs (g s1)) in *.
    assert (H2 : asleep_with s s2 fs (u32 (sleepq_len s1 - 1)) (if trig then u32 (sleepq_ac_len (ps s1) - 1) else sleepq_ac_len (ps s1))).
    { unfold s2, g. destruct trig; split_and!; try done; try (cbn; by rewrite Q).
      apply same_kind_servqs. exact (same_kind_ac s s1 _ K). }
    destruct H2 as (K2 & Q2 & L2 & M2). destruct (IH w1 s2) as [R' Hs'].
    + apply (rl_inv _ _ _ _ R).
    + apply (rl_inv _ _ _ _ R).
    + done.
    + done.
    + done.
    + eapply List.Forall_impl; [|exact Hd]. intros f0. apply directed_view, (rl_addr _ _ _ _ R).
    + rewrite L2, M2 in R', Hs'. split.
      * pose proof (released_trans _ _ _ _ _ _ R R') as T. cbn [wake_out]. fold trig. unfold f' in T. destruct trig; exact T.
      * cbn [fold_left]. unfold ac_left. cbn [fold_left]. fold trig. exact Hs'.
Qed.

(** The group frames that are sent. *)
Section bmc.
Context (not_pcie : bool) (hiq_filter : Z).

Fixpoint bmc_out (hiq : bool) (n : Z) (fs : list xmit_frame) : list xmit_frame :=
  match fs with
  | [] => []
  | f :: fs =>
      let n := u32 (n - 1) in
      let f := set_attr (fun x => set_triggered true (set_mdata (0 <? n) x)) f in
      (if hiq && xmitframe_hiq_filter not_pcie hiq_filter f then set_attr (set_qsel QSLT_HIGH) f else f) :: bmc_out hiq n fs
  end.

Lemma release_bmc_run hiq b s fs : forall w s1, tx_inv (ad w) -> table_inv (stapriv (ad w)) ->
  stas (stapriv (ad w)) !! b = Some s1 -> asleep_with s s1 fs (sleepq_len s1) (sleepq_ac_len (ps s1)) ->
  Z.testbit (state s) 0 = true -> Forall (directed b (ad w)) fs ->
  released b (bmc_out hiq (sleepq_len s1) fs) (ad w) (ad (release_bmc_frames not_pcie hiq_filter hiq b fs w)) /\
  exists s', stas (stapriv (ad (release_bmc_frames not_pcie hiq_filter hiq b fs w))) !! b = Some s' /\
    asleep_with s s' [] (fold_left (fun n _ => u32 (n - 1)) fs (sleepq_len s1)) (sleepq_ac_len (ps s1)).
Proof.
  induction fs as [|f fs IH]; intros w s1 Ha Ht Hs1 HA Hl Hd.
  - cbn [release_bmc_frames bmc_out]. split; [|by exists s1].
    constructor; try done. intros q j. by destruct (decide _); rewrite app_nil_r.
  - apply Forall_cons_1 in Hd as [Hdf Hd]. destruct HA as (K & Q & _ & _).
    set (g := fun s => set_sleep (tail (sleep_q s)) (u32 (sleepq_len s - 1)) s).
    set (f0 := set_attr (fun x => set_triggered true (set_mdata (0 <? u32 (sleepq_len s1 - 1)) x)) f).
    set (f' := if hiq && xmitframe_hiq_filter not_pcie hiq_filter f0 then set_attr (set_qsel QSLT_HIGH) f0 else f0).
    set (w1 := hal_enqueue f' (on_ad (upd_sta b g) w)).
    assert (Ew : release_bmc_frames not_pcie hiq_filter hiq b (f :: fs) w = release_bmc_frames not_pcie hiq_filter hiq b fs w1).
    { cbn [release_bmc_frames]. unfold w1, f', f0. destruct (sleeping_upd b g w s1 Hs1) as [L1 _].
      change (unsleep b w) with (on_ad (upd_sta b g) w). by rewrite L1. }
    rewrite Ew.
    assert (Hdf' : directed b (ad w) f') by (unfold f', f0; by destruct (hiq && _)).
    assert (Hlg : Z.testbit (state (g s1)) 0 = true).
    { destruct K as (_ & K & _). change (state (g s1)) with (state s1). by rewrite K. }
    destruct (release_step b g f' s1 (ad w) Ha Ht Hs1 (fun _ => conj eq_refl eq_refl) Hlg Hdf') as [R (qs & Hs2)].
    change (fst (rtl8812au_hal_xmitframe_enqueue f' (upd_sta b g (ad w)))) with (ad w1) in R, Hs2.
    set (s2 := set_servqs qs (g s1)) in *.
    assert (H2 : asleep_with s s2 fs (u32 (sleepq_len s1 - 1)) (sleepq_ac_len (ps s1))).
    { unfold s2. split_and!; try done. cbn. by rewrite Q. }
    destruct H2 as (K2 & Q2 & L2 & M2). destruct (IH w1 s2) as [R' Hs']; [apply (rl_inv _ _ _ _ R)..|done|done|done| |].
    + eapply List.Forall_impl; [|exact Hd]. intros f1. apply directed_view, (rl_addr _ _ _ _ R).
    + rewrite L2, M2 in Hs'. rewrite L2 in R'. split; [|exact Hs'].
      exact (released_trans _ _ _ _ _ _ R R').
Qed.
End bmc.

(** ** Counters and bits *)

Definition len_ok (s : sta_info) : Prop := sleepq_len s = zlen (sleep_q s) /\ zlen (sleep_q s) < 2 ^ 32.

Lemma countdown (fs : list xmit_frame) : zlen fs < 2 ^ 32 -> fold_left (fun n _ => u32 (n - 1)) fs (zlen fs) = 0.
Proof.
  induction fs as [|f fs IH]; intros H; [done|]. rewrite zlen_cons in H. cbn [fold_left].
  replace (u32 (zlen (f :: fs) - 1)) with (zlen fs); [apply IH; lia|]. rewrite zlen_cons. unfold u32.
  rewrite Z.mod_small; unfold zlen in *; lia.
Qed.

Lemma lor_sleep_bit st : Z.testbit (st .| WIFI_SLEEP_STATE) 2 = true.
Proof. rewrite Z.lor_spec. by rewrite orb_true_r. Qed.

Lemma flip_flag st n i : 0 <= n -> 0 <= i ->
  Z.testbit (if negb (st .& 2 ^ n =? 0) then st .^ 2 ^ n else st) i = negb (i =? n) && Z.testbit st i.
Proof.
  intros Hn Hi. rewrite land_flag, negb_involutive by done. destruct (Z.testbit st n) eqn:E.
  - rewrite Z.lxor_spec, Z.pow2_bits_eqb, (Z.eqb_sym n i) by done.
    destruct (Z.eqb_spec i n) as [->|]; [by rewrite E|]. by rewrite xorb_false_r.
  - destruct (Z.eqb_spec i n) as [->|]; [by rewrite E|done].
Qed.

(** The station that is awake. *)
Definition wake_sta (ap_expire_to : Z) (s : sta_info) : sta_info :=
  let s := if negb (state s .& WIFI_SLEEP_STATE =? 0) then set_state (state s .^ WIFI_SLEEP_STATE) s else s in
  if negb (state s .& WIFI_STA_ALIVE_CHK_STATE =? 0)
  then set_state (state s .^ WIFI_STA_ALIVE_CHK_STATE) (set_ps (set_expire ap_expire_to (ps s)) s) else s.

Lemma wake_state_eq e o s a : wake_state e o s a =
  with_sta o (wake_sta e) (u16 (clear_bit (aid s) (sta_dz_bitmap (stapriv a)))) (u16 (clear_bit (aid s) (tim_bitmap (stapriv a)))) a.
Proof.
  unfold wake_state. rewrite upd_sta_twice. unfold upd_dz, upd_tim. rewrite upd_sta_with. reflexivity.
Qed.

Lemma wake_sta_spec e s : servqs (wake_sta e s) = servqs s /\ hwaddr (wake_sta e s) = hwaddr s /\ aid (wake_sta e s) = aid s /\
  sleep_q (wake_sta e s) = sleep_q s /\ sleepq_len (wake_sta e s) = sleepq_len s /\
  Z.testbit (state (wake_sta e s)) 2 = false /\ Z.testbit (state (wake_sta e s)) 0 = Z.testbit (state s) 0.
Proof.
  unfold wake_sta. set (s1 := if negb (state s .& WIFI_SLEEP_STATE =? 0) then _ else s).
  assert (H1 : forall i, 0 <= i -> Z.testbit (state s1) i = negb (i =? 2) && Z.testbit (state s) i).
  { intros i Hi. etrans; [|apply (flip_flag (state s) 2 i); lia]. unfold s1. by destruct (negb (state s .& WIFI_SLEEP_STATE =? 0)) eqn:E;
      (change (2 ^ 2) with WIFI_SLEEP_STATE; rewrite E). }
  set (s2 := if negb (state s1 .& WIFI_STA_ALIVE_CHK_STATE =? 0) then _ else s1).
  assert (H2 : forall i, 0 <= i -> Z.testbit (state s2) i = negb (i =? 10) && Z.testbit (state s1) i).
  { intros i Hi. etrans; [|apply (flip_flag (state s1) 10 i); lia]. unfold s2. by destruct (negb (state s1 .& WIFI_STA_ALIVE_CHK_STATE =? 0)) eqn:E;
      (change (2 ^ 10) with WIFI_STA_ALIVE_CHK_STATE; rewrite E). }
  rewrite !H2, !H1 by lia. split_and!; try done; unfold s2, s1; repeat case_match; done.
Qed.

(** ** Waking a station *)

Lemma with_sta_views o g dz tim a : (forall s, servqs (g s) = servqs s /\ hwaddr (g s) = hwaddr s) ->
  tx_view (with_sta o g dz tim a) = tx_view a /\ addr_view (with_sta o g dz tim a) = addr_view a.
Proof. intros H. exact (upd_sta_tx o g a H). Qed.

(** The adapter when the first loop is over and the station is marked awake. *)
Record woken (o : nat) (s : sta_info) (a a' : adapter) : Prop := {
  wk_inv : tx_inv a' /\ table_inv (stapriv a');
  wk_pend : forall p j, pending_of a' p j = pending_of a p j ++
    (if decide (p = o) then filter (fun f => ac_of f = j) (wake_out (ps s) (sleepq_len s) (sleepq_ac_len (ps s)) (sleep_q s)) else []);
  wk_addr : addr_view a' = addr_view a;
  wk_other : forall p, p <> o -> stas (stapriv a') !! p = stas (stapriv a) !! p;
  wk_sta : exists s', stas (stapriv a') !! o = Some s' /\ sleep_q s' = [] /\ sleepq_len s' = 0 /\
    Z.testbit (state s') 2 = false /\ Z.testbit (state s') 0 = true;
  wk_bits : sta_dz_bitmap (stapriv a') = u16 (clear_bit (aid s) (sta_dz_bitmap (stapriv a))) /\
    tim_bitmap (stapriv a') = u16 (clear_bit (aid s) (tim_bitmap (stapriv a)))
}.

Lemma wake_run e o s w : tx_inv (ad w) -> table_inv (stapriv (ad w)) -> stas (stapriv (ad w)) !! o = Some s ->
  Z.testbit (state s) 0 = true -> len_ok s -> Forall (directed o (ad w)) (sleep_q s) ->
  let w1 := wakeup_frames o (ps s) (sleep_q s) w in
  sleeping_len o w1 = 0 /\ woken o s (ad w) (wake_state e o s (ad w1)).
Proof.
  intros Ha Ht Hs Hl [L1 L2] Hd w1.
  destruct (wakeup_frames_run o (ps s) s (sleep_q s) w s Ha Ht Hs) as [R (s1 & Hs1 & K & Q & L & _)]; try done.
  { split_and!; [apply same_kind_refl|done..]. }
  fold w1 in R, Hs1. rewrite L1, countdown in L by done. split; [unfold sleeping_len; by rewrite Hs1|].
  rewrite wake_state_eq. destruct (rl_bits _ _ _ _ R) as [B1 B2]. rewrite B1, B2.
  assert (Hv : forall s, servqs (wake_sta e s) = servqs s /\ hwaddr (wake_sta e s) = hwaddr s) by (intros x; split; apply wake_sta_spec).
  destruct (with_sta_views o (wake_sta e) (u16 (clear_bit (aid s) (sta_dz_bitmap (stapriv (ad w)))))
              (u16 (clear_bit (aid s) (tim_bitmap (stapriv (ad w))))) (ad w1) Hv) as [V1 V2].
  destruct (wake_sta_spec e s1) as (_ & _ & _ & S1 & S2 & S3 & S4). destruct K as (_ & K & _).
  constructor.
  - split; [by apply (tx_inv_view (ad w1)), (rl_inv _ _ _ _ R)|]. apply (table_inv_view (ad w1)); try done; [|apply (rl_inv _ _ _ _ R)].
    cbn. by rewrite length_alter.
  - intros p j. rewrite (pending_view _ _ p j V1). apply (rl_pend _ _ _ _ R).
  - rewrite V2. apply (rl_addr _ _ _ _ R).
  - intros p Hp. cbn. rewrite list_lookup_alter_ne by done. by apply (rl_other _ _ _ _ R).
  - exists (wake_sta e s1). split; [cbn; by rewrite list_lookup_alter_eq, Hs1|]. split_and!; congruence.
  - done.
Qed.

Lemma bcmc_view a a' : addr_view a' = addr_view a -> rtw_get_bcmc_stainfo (stapriv a') = rtw_get_bcmc_stainfo (stapriv a).
Proof. apply get_view. Qed.

Section waking.
Context (not_pcie : bool) (hiq_filter ap_expire_to : Z).

Lemma emit_ad (b : bool) e w : ad (if b then emit e w else w) = ad w.
Proof. by destruct b. Qed.

(** The group frames that follow when no station is asleep any more. *)
Definition last_awake (s : sta_info) (a : adapter) : bool :=
  u16 (clear_bit (aid s) (sta_dz_bitmap (stapriv a))) .& 0xfffe =? 0.

Lemma wakeup_eq o b s w : stas (stapriv (ad w)) !! o = Some s -> rtw_get_bcmc_stainfo (stapriv (ad w)) = Some b ->
  sleeping_len o (wakeup_frames o (ps s) (sleep_q s) w) = 0 ->
  sta_dz_bitmap (stapriv (ad (wakeup_frames o (ps s) (sleep_q s) w))) = sta_dz_bitmap (stapriv (ad w)) ->
  let w2 := on_ad (wake_state ap_expire_to o s) (wakeup_frames o (ps s) (sleep_q s) w) in
  let w3 := release_bmc_frames not_pcie hiq_filter false b (sleeping_of b (ad w2)) w2 in
  ad (wakeup_sta_to_xmit not_pcie hiq_filter ap_expire_to o w) =
    if last_awake s (ad w) then
      if sleeping_len b w3 =? 0 then upd_dz (clear_bit 0) (upd_tim (clear_bit 0) (ad w3)) else ad w3
    else ad w2.
Proof.
  intros Hs Hb Hn Hdz w2 w3. unfold wakeup_sta_to_xmit. rewrite Hs, Hb, Hn. cbn [Z.eqb].
  fold w2. unfold last_awake.
  replace (u16 (clear_bit (aid s) (sta_dz_bitmap (stapriv (ad w))))) with (sta_dz_bitmap (stapriv (ad w2))).
  2: { unfold w2. cbn [on_ad ad]. rewrite wake_state_eq. cbn. by rewrite Hdz. }
  destruct (_ .& _ =? 0); [|by rewrite emit_ad]. fold w3. destruct (sleeping_len b w3 =? 0); by rewrite emit_ad.
Qed.

(** The adapter at the end: the group frames were released and their bits cleared, or not. *)
Lemma wakeup_run o b s sb w : tx_inv (ad w) -> table_inv (stapriv (ad w)) ->
  stas (stapriv (ad w)) !! o = Some s -> Z.testbit (state s) 0 = true -> len_ok s ->
  Forall (directed o (ad w)) (sleep_q s) -> o <> b ->
  rtw_get_bcmc_stainfo (stapriv (ad w)) = Some b -> stas (stapriv (ad w)) !! b = Some sb -> Z.testbit (state sb) 0 = true ->
  len_ok sb -> Forall (directed b (ad w)) (sleep_q sb) ->
  let a' := ad (wakeup_sta_to_xmit not_pcie hiq_filter ap_expire_to o w) in
  exists a2, woken o s (ad w) a2 /\
  if last_awake s (ad w) then
    exists a3 sb', released b (bmc_out not_pcie hiq_filter false (sleepq_len sb) (sleep_q sb)) a2 a3 /\
      stas (stapriv a3) !! b = Some sb' /\ sleep_q sb' = [] /\ a' = upd_dz (clear_bit 0) (upd_tim (clear_bit 0) a3)
  else a' = a2.
Proof.
  intros Ha Ht Hs Hl Hlen Hd Hob Hb Hsb Hlb [L1 L2] Hdb a'.
  destruct (wake_run ap_expire_to o s w Ha Ht Hs Hl Hlen Hd) as [Hn W]. set (w1 := wakeup_frames o (ps s) (sleep_q s) w) in *.
  exists (wake_state ap_expire_to o s (ad w1)). split; [done|].
  assert (Hdz : sta_dz_bitmap (stapriv (ad w1)) = sta_dz_bitmap (stapriv (ad w))).
  { destruct (wakeup_frames_run o (ps s) s (sleep_q s) w s Ha Ht Hs) as [R _]; try done.
    - split_and!; [apply same_kind_refl|done..].
    - apply (rl_bits _ _ _ _ R). }
  pose proof (wakeup_eq o b s w Hs Hb Hn Hdz) as E. fold w1 in E. cbv zeta in E. fold a' in E.
  set (w2 := on_ad (wake_state ap_expire_to o s) w1) in *. change (ad w2) with (wake_state ap_expire_to o s (ad w1)) in E.
  destruct (last_awake s (ad w)); [|done].
  assert (Hsb2 : stas (stapriv (ad w2)) !! b = Some sb) by (etrans; [apply (wk_other _ _ _ _ W); congruence|done]).
  destruct (release_bmc_run not_pcie hiq_filter false b sb (sleep_q sb) w2 sb) as [R (sb' & Hsb' & _ & Q & L & _)]; try done.
  - apply (wk_inv _ _ _ _ W).
  - apply (wk_inv _ _ _ _ W).
  - split_and!; [apply same_kind_refl|done..].
  - eapply List.Forall_impl; [|exact Hdb]. intros f. apply directed_view. apply (wk_addr _ _ _ _ W).
  - assert (Hsl : sleeping_of b (wake_state ap_expire_to o s (ad w1)) = sleep_q sb)
      by (unfold sleeping_of; change (wake_state ap_expire_to o s (ad w1)) with (ad w2); by rewrite Hsb2).
    rewrite Hsl in E. set (w3 := release_bmc_frames not_pcie hiq_filter false b (sleep_q sb) w2) in *.
    exists (ad w3), sb'. split_and!; [exact R|done|done|].
    assert (Hn3 : sleeping_len b w3 = 0) by (unfold sleeping_len; rewrite Hsb', L, L1; by apply countdown).
    by rewrite Hn3 in E.
Qed.

Lemma last_awake_zero x : u16 (clear_bit 0 x) = 0 <-> u16 x .& 0xfffe = 0.
Proof.
  assert (E : u16 (clear_bit 0 x) = u16 x .& 0xfffe); [|by rewrite E].
  apply Z.bits_inj'. intros i Hi. rewrite u16_testbit, Z.land_spec, u16_testbit by done.
  unfold clear_bit, BIT. rewrite Z.ldiff_spec, Z.shiftl_1_l, Z.pow2_bits_eqb by lia.
  change 0xfffe with (Z.ldiff (Z.ones 16) (2 ^ 0)). rewrite Z.ldiff_spec, Z.pow2_bits_eqb, Z.testbit_ones by lia.
  rewrite (proj2 (Z.leb_le 0 i)) by done. destruct (i <? 16), (0 =? i), (Z.testbit x i); done.
Qed.

(** What the frames say of those behind them.  A frame of a category delivered on a trigger
    (U-APSD) has More Data when another such frame follows, and ends the service period when
    none does, whatever else follows; any other frame has More Data when any frame follows. *)
Definition on_trigger (p : sta_ps) (f : xmit_frame) : bool := has_bit 1 (uapsd p (xa_priority (xattrib f))).
Fixpoint woken_frames (p : sta_ps) (fs : list xmit_frame) : list xmit_frame :=
  match fs with
  | [] => []
  | f :: fs =>
      let more := if on_trigger p f then existsb (on_trigger p) fs else negb (bool_decide (fs = [])) in
      set_attr (fun x => set_triggered true (set_mdata more (if on_trigger p f then set_eosp (negb more) x else x))) f
      :: woken_frames p fs
  end.

Lemma existsb_count {A} (q : A -> bool) (l : list A) : (0 <? zlen (List.filter q l)) = existsb q l.
Proof.
  induction l as [|x l IH]; [done|]. cbn [List.filter existsb]. destruct (q x); cbn [orb]; [|done].
  rewrite zlen_cons. pose proof (zlen_nonneg (List.filter q l)). by apply Z.ltb_lt; lia.
Qed.

Lemma wake_out_woken p fs : zlen fs < 2 ^ 32 ->
  wake_out p (zlen fs) (zlen (List.filter (on_trigger p) fs)) fs = woken_frames p fs.
Proof.
  induction fs as [|f fs IH]; intros Hl; [done|]. rewrite zlen_cons in Hl. specialize (IH ltac:(lia)).
  pose proof (zlen_nonneg fs). cbn [wake_out woken_frames List.filter]. fold (on_trigger p f). rewrite zlen_cons.
  assert (Hm : (0 <? zlen fs) = negb (bool_decide (fs = []))).
  { destruct fs as [|f' fs']; [done|]. rewrite zlen_cons in *. pose proof (zlen_nonneg fs').
    rewrite bool_decide_eq_false_2 by done. by apply Z.ltb_lt; lia. }
  destruct (on_trigger p f).
  - pose proof (zlen_nonneg (List.filter (on_trigger p) fs)).
    pose proof (filter_length_le (on_trigger p) fs). rewrite zlen_cons, !Z.add_simpl_l, !u32_id by (unfold zlen in *; lia).
    rewrite existsb_count. by f_equal.
  - rewrite Z.add_simpl_l, u32_id, Hm by lia. by f_equal.
Qed.

(** C32: When a station wakes that is associated, with buffered frames that are all its own and
    counted by [sleepq_len], and the table has its group station, linked as well, its frames go to its transmit queues in the order they were buffered, with the flags that
    [wake_out] computes from the counters of its queue; when [sleepq_ac_len] counts the U-APSD
    frames, these are: More Data on a U-APSD frame exactly when another U-APSD frame follows, and
    the end of the service period when none does, even when other frames follow; More Data on
    any other frame exactly when some frame follows.  None is refused, its sleep queue is empty,
    it is no longer marked asleep, and its power-save and TIM bits are clear.  When the bitmap
    of sleeping stations then is zero but for the bit of the group, the buffered group frames
    follow and the bits of the group are cleared; otherwise they stay.  The bitmap has 16 bits:
    stations with association ids above 15 do not count as sleeping. *)
Theorem wakeup_sta_to_xmit_releases o b s sb w : tx_inv (ad w) -> table_inv (stapriv (ad w)) ->
  stas (stapriv (ad w)) !! o = Some s -> Z.testbit (state s) 0 = true -> len_ok s -> 0 <= aid s -> is_bmc s = false ->
  Forall (directed o (ad w)) (sleep_q s) ->
  rtw_get_bcmc_stainfo (stapriv (ad w)) = Some b -> stas (stapriv (ad w)) !! b = Some sb -> Z.testbit (state sb) 0 = true ->
  len_ok sb -> Forall (directed b (ad w)) (sleep_q sb) ->
  let a' := ad (wakeup_sta_to_xmit not_pcie hiq_filter ap_expire_to o w) in
  tx_inv a' /\ table_inv (stapriv a') /\
  (forall j, pending_of a' o j = pending_of (ad w) o j ++
     filter (fun f => ac_of f = j) (wake_out (ps s) (sleepq_len s) (sleepq_ac_len (ps s)) (sleep_q s))) /\
  (sleepq_ac_len (ps s) = zlen (List.filter (on_trigger (ps s)) (sleep_q s)) ->
     wake_out (ps s) (sleepq_len s) (sleepq_ac_len (ps s)) (sleep_q s) = woken_frames (ps s) (sleep_q s)) /\
  (exists s', stas (stapriv a') !! o = Some s' /\ sleep_q s' = [] /\ sleepq_len s' = 0 /\ Z.testbit (state s') 2 = false) /\
  has_bit (aid s) (sta_dz_bitmap (stapriv a')) = false /\ has_bit (aid s) (tim_bitmap (stapriv a')) = false /\
  (forall j, pending_of a' b j = pending_of (ad w) b j ++
     (if last_awake s (ad w)
      then filter (fun f => ac_of f = j) (bmc_out not_pcie hiq_filter false (sleepq_len sb) (sleep_q sb)) else [])) /\
  sleeping_of b a' = (if last_awake s (ad w) then [] else sleep_q sb) /\
  (if last_awake s (ad w) then sta_dz_bitmap (stapriv a') = 0 /\ has_bit 0 (tim_bitmap (stapriv a')) = false else True) /\
  (forall p, p <> o -> p <> b -> stas (stapriv a') !! p = stas (stapriv (ad w)) !! p).
Proof.
  intros Ha Ht Hs Hl Hlen Haid Hbm Hd Hb Hsb Hlb Hlenb Hdb a'.
  assert (Hout : sleepq_ac_len (ps s) = zlen (List.filter (on_trigger (ps s)) (sleep_q s)) ->
     wake_out (ps s) (sleepq_len s) (sleepq_ac_len (ps s)) (sleep_q s) = woken_frames (ps s) (sleep_q s)).
  { destruct Hlen as [-> L2]. intros ->. by apply wake_out_woken. }
  assert (Hob : o <> b) by (intros ->; pose proof (bcmc_is_bmc _ _ _ Hb Hsb); congruence).
  destruct (wakeup_run o b s sb w) as (a2 & W & H); try done. fold a' in H.
  destruct (wk_bits _ _ _ _ W) as [B1 B2], (wk_sta _ _ _ _ W) as (s' & Hs' & Q1 & Q2 & Q3 & _).
  assert (Hsb2 : stas (stapriv a2) !! b = Some sb) by (by rewrite (wk_other _ _ _ _ W)).
  pose proof (wk_pend _ _ _ _ W) as Hp. destruct (last_awake s (ad w)) eqn:El.
  - destruct H as (a3 & sb' & R & Hsb' & Qb & ->). destruct (rl_bits _ _ _ _ R) as [C1 C2].
    assert (V : tx_view (upd_dz (clear_bit 0) (upd_tim (clear_bit 0) a3)) = tx_view a3) by done.
    assert (Hd0 : sta_dz_bitmap (stapriv (upd_dz (clear_bit 0) (upd_tim (clear_bit 0) a3))) = 0).
    { cbn. rewrite C1, B1. apply last_awake_zero, Z.eqb_eq. unfold last_awake in El. unfold u16 in *. by rewrite Zmod_mod. }
    split_and!; try done.
    + by apply (tx_inv_view a3), (rl_inv _ _ _ _ R).
    + by apply (table_inv_view a3), (rl_inv _ _ _ _ R).
    + intros j. rewrite (pending_view _ _ o j V), (rl_pend _ _ _ _ R), decide_False, app_nil_r, Hp, decide_True by done. done.
    + exists s'. split_and!; try done. etrans; [|exact Hs']. by apply (rl_other _ _ _ _ R).
    + rewrite Hd0. by rewrite has_bit_testbit, Z.bits_0 by lia.
    + cbn. rewrite C2, B2, has_clear_bit, has_clear_bit by lia. by rewrite Z.eqb_refl, !andb_false_r.
    + intros j. rewrite (pending_view _ _ b j V), (rl_pend _ _ _ _ R), decide_True, Hp, decide_False, app_nil_r by (done || congruence). done.
    + unfold sleeping_of. change (stas (stapriv (upd_dz _ _))) with (stas (stapriv a3)). by rewrite Hsb'.
    + cbn. rewrite has_clear_bit by lia. by rewrite andb_false_r.
    + intros p Hpo Hpb. etrans; [by apply (rl_other _ _ _ _ R)|]. by apply (wk_other _ _ _ _ W).
  - subst a2. split_and!; try done; try apply (wk_inv _ _ _ _ W).
    + intros j. by rewrite Hp, decide_True by done.
    + by exists s'.
    + rewrite B1, has_clear_bit, Z.eqb_refl by lia. by rewrite andb_false_r.
    + rewrite B2, has_clear_bit, Z.eqb_refl by lia. by rewrite andb_false_r.
    + intros j. by rewrite Hp, decide_False by congruence.
    + unfold sleeping_of. by rewrite Hsb2.
    + intros p Hpo Hpb. by apply (wk_other _ _ _ _ W).
Qed.

(** The PS-poll of a sleeping station, after the checks. *)
Lemma ps_poll_run o s f fs w : tx_inv (ad w) -> table_inv (stapriv (ad w)) -> stas (stapriv (ad w)) !! o = Some s ->
  Z.testbit (state s) 0 = true -> Z.testbit (state s) 2 = true -> has_bit (aid s) (sta_dz_bitmap (stapriv (ad w))) = true ->
  0 <= aid s -> len_ok s -> sleep_q s = f :: fs -> directed o (ad w) f ->
  let f' := set_attr (fun x => set_triggered true (set_mdata (0 <? zlen fs) x)) f in
  exists a1 s', released o [f'] (ad w) a1 /\ stas (stapriv a1) !! o = Some s' /\ sleep_q s' = fs /\ sleepq_len s' = zlen fs /\
    ad (ps_poll ap_expire_to o s w) = if zlen fs =? 0 then upd_tim (clear_bit (aid s)) a1 else a1.
Proof.
  intros Ha Ht Hs Hl Hsl Hdz Haid [L1 L2] Hq Hd f'.
  rewrite Hq, zlen_cons in L1, L2. assert (Hn : u32 (sleepq_len s - 1) = zlen fs) by (rewrite L1; unfold u32; rewrite Z.mod_small; unfold zlen in *; lia).
  set (h := fun s => if negb (state s .& WIFI_STA_ALIVE_CHK_STATE =? 0)
    then set_state (state s .^ WIFI_STA_ALIVE_CHK_STATE) (set_ps (set_expire ap_expire_to (ps s)) s) else s).
  set (k := fun s => set_sleep (tail (sleep_q s)) (u32 (sleepq_len s - 1)) s).
  set (g := fun s => k (h s)).
  assert (Hg : forall x, servqs (g x) = servqs x /\ hwaddr (g x) = hwaddr x) by (intros x; unfold g, k, h; by case_match).
  assert (Hst : forall i, 0 <= i -> Z.testbit (state (h s)) i = negb (i =? 10) && Z.testbit (state s) i).
  { intros i Hi. etrans; [|apply (flip_flag (state s) 10 i); lia]. change (2 ^ 10) with WIFI_STA_ALIVE_CHK_STATE.
    unfold h. by destruct (negb _). }
  assert (Hlg : Z.testbit (state (g s)) 0 = true) by (change (state (g s)) with (state (h s)); rewrite Hst by lia; done).
  destruct (release_step o g f' s (ad w) Ha Ht Hs Hg Hlg Hd) as [R (qs & Hs')].
  exists (fst (rtl8812au_hal_xmitframe_enqueue f' (upd_sta o g (ad w)))), (set_servqs qs (g s)).
  assert (Hhs : sleep_q (h s) = sleep_q s /\ sleepq_len (h s) = sleepq_len s) by (unfold h; by case_match). destruct Hhs as [H1 H2].
  split_and!; [done|done| | |].
  - change (tail (sleep_q (h s)) = fs). by rewrite H1, Hq.
  - change (u32 (sleepq_len (h s) - 1) = zlen fs). by rewrite H2.
  - unfold ps_poll. rewrite sleep_flag, Hsl. cbn [negb]. rewrite Hq.
    set (w1 := if negb (state s .& WIFI_STA_ALIVE_CHK_STATE =? 0) then _ else w).
    assert (Ew : unsleep o w1 = on_ad (upd_sta o g) w).
    { unfold w1, unsleep. destruct (negb (state s .& WIFI_STA_ALIVE_CHK_STATE =? 0)) eqn:Eal.
      - rewrite on_ad_twice. unfold on_ad. f_equal. rewrite upd_sta_twice, !upd_sta_with. apply with_sta_ext.
        intros x Hx. rewrite Hs in Hx. injection Hx as <-. unfold g, k, h. by rewrite Eal.
      - unfold on_ad. f_equal. rewrite !upd_sta_with. apply with_sta_ext.
        intros x Hx. rewrite Hs in Hx. injection Hx as <-. unfold g, k, h. by rewrite Eal. }
    assert (Hw1 : sta_dz_bitmap (stapriv (ad w1)) = sta_dz_bitmap (stapriv (ad w))) by (unfold w1; by case_match).
    rewrite Hw1, Hdz. cbn [andb]. rewrite Ew. destruct (sleeping_upd o g w s Hs) as [E1 _]. rewrite E1.
    change (sleepq_len (g s)) with (u32 (sleepq_len (h s) - 1)). rewrite H2, Hn. fold f'.
    set (w2 := hal_enqueue f' _).
    assert (E2 : sleeping_len o w2 = zlen fs).
    { unfold sleeping_len, w2. cbn [hal_enqueue on_ad ad]. rewrite Hs'. change (u32 (sleepq_len (h s) - 1) = zlen fs). by rewrite H2. }
    rewrite E2. by destruct (zlen fs =? 0).
Qed.

(** A PS-poll from a sleeping station that has buffered frames releases exactly one of
    them, the oldest, with More Data set when others remain; the others stay in order, and
    the station's TIM bit is cleared exactly when none remains. *)
Theorem ps_poll_releases_one myid pframe priority o s f fs w : tx_inv (ad w) -> table_inv (stapriv (ad w)) ->
  GetFrameType pframe = WIFI_CTRL_TYPE -> GetFrameSubType pframe = WIFI_PSPOLL -> GetAddr1Ptr pframe = myid ->
  rtw_get_stainfo (stapriv (ad w)) (GetAddr2Ptr pframe) = Some o -> stas (stapriv (ad w)) !! o = Some s ->
  aid s = GetAid pframe -> 0 <= aid s < 16 -> has_bit 0 (uapsd (ps s) priority) = false ->
  Z.testbit (state s) 0 = true -> Z.testbit (state s) 2 = true -> has_bit (aid s) (sta_dz_bitmap (stapriv (ad w))) = true ->
  len_ok s -> sleep_q s = f :: fs -> directed o (ad w) f ->
  let f' := set_attr (fun x => set_triggered true (set_mdata (0 <? zlen fs) x)) f in
  let a' := ad (fst (validate_recv_ctrl_frame ap_expire_to myid pframe priority w)) in
  tx_inv a' /\ (forall p j, pending_of a' p j = pending_of (ad w) p j ++ (if decide (p = o /\ j = ac_of f) then [f'] else [])) /\
  (exists s', stas (stapriv a') !! o = Some s' /\ sleep_q s' = fs /\ len_ok s') /\
  (forall p, p <> o -> stas (stapriv a') !! p = stas (stapriv (ad w)) !! p) /\
  sta_dz_bitmap (stapriv a') = sta_dz_bitmap (stapriv (ad w)) /\
  (forall n, 0 <= n < 16 -> has_bit n (tim_bitmap (stapriv a')) =
     negb ((n =? aid s) && (zlen fs =? 0)) && has_bit n (tim_bitmap (stapriv (ad w)))).
Proof.
  intros Ha Ht Hty Hsub Ha1 Hg Hs Haid Hr Hu Hl Hsl Hdz Hlen Hq Hd f' a'.
  assert (E : a' = ad (ps_poll ap_expire_to o s w)).
  { unfold a', validate_recv_ctrl_frame. rewrite Hty, Hsub, bool_decide_true by done. cbn [Z.eqb negb].
    rewrite Hg, Hs. cbn [negb]. rewrite <- Haid, !Z.eqb_refl, Hu. reflexivity. }
  destruct (ps_poll_run o s f fs w) as (a1 & s' & R & Hs' & Q & L & Ep); try done; [lia|]. rewrite Ep in E.
  assert (V : tx_view a' = tx_view a1 /\ stas (stapriv a') = stas (stapriv a1) /\
    sta_dz_bitmap (stapriv a') = sta_dz_bitmap (stapriv a1)) by (rewrite E; by destruct (zlen fs =? 0)).
  destruct V as (V1 & V2 & V3). destruct (rl_bits _ _ _ _ R) as [B1 B2]. destruct Hlen as [_ Hlen].
  rewrite Hq, zlen_cons in Hlen. split_and!.
  - by apply (tx_inv_view a1), (rl_inv _ _ _ _ R).
  - intros p j. rewrite (pending_view _ _ p j V1), (rl_pend _ _ _ _ R). f_equal. destruct (decide (p = o)) as [->|Hp].
    + unfold filter. cbn [list_filter]. change (ac_of (set_attr _ f)) with (ac_of f).
      destruct (decide (ac_of f = j)) as [<-|Hj]; [by rewrite decide_True|].
      rewrite decide_False; [done|]. intros [_ ->]. done.
    + rewrite decide_False; [done|]. by intros [? _].
  - exists s'. rewrite V2. split_and!; [done|done|]. split; [congruence|]. rewrite Q. lia.
  - intros p Hp. rewrite V2. by apply (rl_other _ _ _ _ R).
  - congruence.
  - intros n Hn. rewrite E. destruct (zlen fs =? 0).
    + cbn. rewrite has_clear_bit, B2 by lia. rewrite (proj2 (Z.ltb_lt n 16)) by lia. by rewrite andb_true_r.
    + by rewrite andb_false_r, B2.
Qed.
End waking.

(** ** Sleeping and waking *)

(** Frames that differ only in attributes the queues do not look at. *)
Lemma filter_ids_cons j f g (fs gs : list xmit_frame) : ac_of f = ac_of g -> xf_id f = xf_id g ->
  map xf_id (filter (fun f => ac_of f = j) fs) = map xf_id (filter (fun f => ac_of f = j) gs) ->
  map xf_id (filter (fun f => ac_of f = j) (f :: fs)) = map xf_id (filter (fun f => ac_of f = j) (g :: gs)).
Proof.
  intros Hac Hid IH. destruct (decide (ac_of g = j)) as [Hj|Hj].
  - rewrite !filter_cons_True by congruence. cbn [map]. by rewrite IH, Hid.
  - rewrite !filter_cons_False by congruence. done.
Qed.

Lemma wake_out_ids p j fs : forall n m,
  map xf_id (filter (fun f => ac_of f = j) (wake_out p n m fs)) = map xf_id (filter (fun f => ac_of f = j) fs).
Proof.
  induction fs as [|f fs IH]; intros n m; [done|]. cbn [wake_out].
  destruct (has_bit 1 _); by apply filter_ids_cons.
Qed.

Lemma untrig_ids j fs : map xf_id (filter (fun f => ac_of f = j) (map untrig fs)) = map xf_id (filter (fun f => ac_of f = j) fs).
Proof. induction fs as [|f fs IH]; [done|]. cbn [map]. by apply filter_ids_cons. Qed.

Lemma waiting_ac a o j : tx_inv a -> filter (fun f => ac_of f = j) (waiting a o) = pending_of a o j.
Proof.
  intros Ha.
  assert (H : forall i, filter (fun f => ac_of f = j) (pending_of a o i) = if decide (i = j) then pending_of a o j else []).
  { intros i. pose proof (tx_home _ Ha o i) as Hh. destruct (decide (i = j)) as [->|Hne].
    - revert Hh. generalize (pending_of a o j) as l. induction l as [|f l IH]; intros Hh; [done|].
      rewrite filter_cons_True by (apply (Hh f); by left). f_equal. apply IH. intros g Hg. apply Hh. by right.
    - revert Hh. generalize (pending_of a o i) as l. induction l as [|f l IH]; intros Hh; [done|].
      rewrite filter_cons_False by (destruct (Hh f) as [_ ->]; [by left|done]). apply IH. intros g Hg. apply Hh. by right. }
  rewrite !list.filter_app, !H. destruct j as [|[|[|[|j]]]]; cbn [decide]; try (cbn; by rewrite ?app_nil_r).
  rewrite (pending_high a o (S (S (S (S j))))) by (done || lia). by repeat destruct (decide _).
Qed.

Lemma directed_untrig o a l : Forall (directed o a) l -> Forall (directed o a) (map untrig l).
Proof. intros H. apply Forall_map. eapply List.Forall_impl; [|exact H]. by intros f. Qed.

Lemma len_ok_app s s' fs : len_ok s -> (is_u32 (sleepq_len s) -> is_u32 (sleepq_len s')) ->
  sleep_q s' = sleep_q s ++ map untrig fs -> u32 (sleepq_len s') = u32 (sleepq_len s + zlen fs) ->
  zlen (sleep_q s) + zlen fs < 2 ^ 32 -> len_ok s'.
Proof.
  intros [L1 L2] U Q L H. assert (El : zlen (sleep_q s') = zlen (sleep_q s) + zlen fs).
  { rewrite Q, zlen_app. f_equal. unfold zlen. by rewrite length_map. }
  assert (Hu : is_u32 (sleepq_len s')) by (apply U; rewrite L1; unfold zlen in *; lia).
  split; [|by rewrite El]. rewrite El, <- L1. unfold u32 in L. rewrite !Z.mod_small in L; [done| |done].
  rewrite L1. unfold zlen in *. lia.
Qed.

(** A station that goes to sleep and wakes again loses nothing: each of its queues
    then holds the same frames in the same order as before, and every counter and link is
    exact. *)
Theorem sleep_wake_order fw_state not_pcie hiq_filter ap_expire_to o b s sb w :
  (fw_state .& WIFI_AP_STATE =? 0) = false -> tx_inv (ad w) -> table_inv (stapriv (ad w)) ->
  stas (stapriv (ad w)) !! o = Some s -> Z.testbit (state s) 0 = true -> is_bmc s = false -> 1 <= aid s < 16 ->
  sleep_q s = [] -> len_ok s -> zlen (waiting (ad w) o) < 2 ^ 32 ->
  rtw_get_bcmc_stainfo (stapriv (ad w)) = Some b -> stas (stapriv (ad w)) !! b = Some sb -> Z.testbit (state sb) 0 = true ->
  len_ok sb -> zlen (sleep_q sb) + zlen (pending_of (ad w) b 2) < 2 ^ 32 -> Forall (directed b (ad w)) (sleep_q sb) ->
  (forall i, Forall (directed o (ad w)) (pending_of (ad w) o i)) -> Forall (directed b (ad w)) (pending_of (ad w) b 2) ->
  exists w1, stop_sta_xmit fw_state not_pcie hiq_filter o w = Some w1 /\
    let a2 := ad (wakeup_sta_to_xmit not_pcie hiq_filter ap_expire_to o w1) in
    tx_inv a2 /\ forall j, map xf_id (pending_of a2 o j) = map xf_id (pending_of (ad w) o j).
Proof.
  intros Hap Ha Ht Hs Hl Hbm Haid Hq Hlen Hsz Hb Hsb Hlb Hlenb Hszb Hdsb Hd Hdb.
  destruct (stop_run fw_state not_pcie hiq_filter Hap o b s sb w) as (w1 & a1 & E & Hob & A & B & _); try done.
  exists w1. split; [done|]. destruct (doze_views o s (ad w)) as [V1 V2]. pose proof (fun p i => pending_view _ _ p i V1) as Hp.
  destruct (sl_sta _ _ _ _ _ A) as (s' & Hs' & K & Q & L & U), (sl_sta _ _ _ _ _ B) as (sb' & Hsb' & Kb & Qb & Lb & Ub).
  cbn [map concat] in Q, L, Qb, Lb. rewrite !Hp, app_nil_r in Q, L. rewrite app_nil_r in Qb, Lb.
  rewrite (sl_pend _ _ _ _ _ A), decide_False, Hp in Qb by (intros [? _]; congruence).
  rewrite (sl_pend _ _ _ _ _ A), decide_False, Hp in Lb by (intros [? _]; congruence).
  change (sleep_q (set_state _ s)) with (sleep_q s) in Q. change (sleepq_len (set_state _ s)) with (sleepq_len s) in L, U.
  assert (V : addr_view (ad w1) = addr_view (ad w)) by (by rewrite (sl_addr _ _ _ _ _ B), (sl_addr _ _ _ _ _ A), V2).
  assert (Hdw : forall p l, Forall (directed p (ad w)) l -> Forall (directed p (ad w1)) l).
  { intros p l. apply List.Forall_impl. intros f. by apply directed_view. }
  destruct K as (K1 & K2 & K3 & _), Kb as (_ & Kb & _).
  assert (Hs1 : stas (stapriv (ad w1)) !! o = Some s') by (by rewrite (sl_other _ _ _ _ _ B)).
  destruct (wakeup_run not_pcie hiq_filter ap_expire_to o b s' sb' w1) as (a2 & W & H); try done.
  - apply (sl_inv _ _ _ _ _ B).
  - by apply (sl_table _ _ _ _ _ B), (sl_table _ _ _ _ _ A), doze_table.
  - rewrite K2. cbn [state set_state]. by rewrite Z.lor_spec, Hl.
  - apply (len_ok_app s s' (waiting (ad w) o)); try done. by rewrite Hq.
  - rewrite Q, Hq. apply Hdw, directed_untrig. rewrite !Forall_app. split_and!; apply Hd.
  - by rewrite (bcmc_view _ _ V).
  - by rewrite Kb.
  - by apply (len_ok_app sb sb' (pending_of (ad w) b 2)).
  - rewrite Qb. apply Hdw, Forall_app. split; [done|by apply directed_untrig].
  - assert (E2 : tx_inv (ad (wakeup_sta_to_xmit not_pcie hiq_filter ap_expire_to o w1)) /\
      forall j, pending_of (ad (wakeup_sta_to_xmit not_pcie hiq_filter ap_expire_to o w1)) o j = pending_of a2 o j).
    { destruct (last_awake s' (ad w1)); [|rewrite H; split; [apply (wk_inv _ _ _ _ W)|done]].
      destruct H as (a3 & sb2 & R & _ & _ & ->). split; [by apply (tx_inv_view a3), (rl_inv _ _ _ _ R)|]. intros j.
      transitivity (pending_of a3 o j); [by apply pending_view|]. by rewrite (rl_pend _ _ _ _ R), decide_False, app_nil_r. }
    destruct E2 as [E2 E3]. split; [done|]. intros j. rewrite E3, (wk_pend _ _ _ _ W), decide_True by done.
    rewrite (sl_pend _ _ _ _ _ B), decide_False, (sl_pend _ _ _ _ _ A), Hp by (intros [? _]; congruence).
    rewrite map_app, wake_out_ids, Q, Hq. cbn [app]. rewrite untrig_ids.
    rewrite waiting_ac by done. destruct (decide _) as [|Hn]; [done|]. rewrite (pending_high (ad w) o j); [done|done|].
    destruct j as [|[|[|[|j]]]]; try lia; exfalso; apply Hn; (split; [done|rewrite !elem_of_cons; tauto]).
Qed.

(** ** Stations with an AID above 15

    The bitmaps have 16 bits, the table 32 stations, and an AID can be 1 to 32. *)

Section high_aid.
Context (fw_state : Z) (not_pcie : bool) (hiq_filter : Z).
Abbreviation sleep_queue o i w :=
  (unlink_queue o i (dequeue_xmitframes_to_sleeping_queue fw_state not_pcie hiq_filter o i w)).

Lemma enq_refused o s f w : directed o (ad w) f -> stas (stapriv (ad w)) !! o = Some s -> is_bmc s = false ->
  has_bit (aid s) (sta_dz_bitmap (stapriv (ad w))) = false -> xa_triggered (xattrib f) = false ->
  xmitframe_enqueue_for_sleeping_sta fw_state not_pcie hiq_filter f w = (w, f, false).
Proof.
  intros Hd Hs Hb Hdz Ht. pose proof (directed_bmc _ _ _ _ Hd Hs) as Hm. rewrite Hb in Hm. destruct Hd as [Hg Hp].
  unfold xmitframe_enqueue_for_sleeping_sta. rewrite Hg, Hp, bool_decide_true, Hs, Ht, Hm, Hdz by done. cbn [negb andb].
  by repeat case_match.
Qed.

Lemma dequeue_frames_kept o s fs w : Forall (directed o (ad w)) fs -> stas (stapriv (ad w)) !! o = Some s -> is_bmc s = false ->
  has_bit (aid s) (sta_dz_bitmap (stapriv (ad w))) = false ->
  dequeue_frames fw_state not_pcie hiq_filter o fs w = (w, map untrig fs).
Proof.
  intros Hd Hs Hb Hdz. induction Hd as [|f fs Hf Hd IH]; [done|]. cbn [dequeue_frames map].
  by rewrite (enq_refused o s) , IH by done.
Qed.

(** What the queues [acs] of such a station become. *)
Record stuck (o : nat) (acs : list nat) (a a' : adapter) : Prop := {
  st_pend : forall i, pending_of a' o i = if decide (i ∈ acs) then map untrig (pending_of a o i) else pending_of a o i;
  st_other : forall p i, p <> o -> pending_of a' p i = pending_of a p i;
  st_sta : forall s, stas (stapriv a) !! o = Some s ->
    exists s', stas (stapriv a') !! o = Some s' /\ hwaddr s' = hwaddr s /\ aid s' = aid s /\ state s' = state s;
  st_addr : addr_view a' = addr_view a;
  st_bits : sta_dz_bitmap (stapriv a') = sta_dz_bitmap (stapriv a);
  st_links : forall i l, sta_queues (xmitpriv a') !! i = Some l ->
    exists l0, sta_queues (xmitpriv a) !! i = Some l0 /\ forall p, p ∈ l -> p ∈ l0 /\ ~ (p = o /\ i ∈ acs)
}.

(** A queue whose frames are replaced, and which is unlinked. *)
Lemma stuck_one o i fs' a : fs' = map untrig (pending_of a o i) ->
  stuck o [i] a (set_xmitpriv (unlink o i (xmitpriv a)) (upd_servq o i (fun q => mk_servq (qcnt q) fs') a)).
Proof.
  intros ->. constructor.
  - intros j. unfold pending_of at 1. change (servq_of (set_xmitpriv ?x ?b) o j) with (servq_of b o j). rewrite servq_upd.
    destruct (decide (j ∈ [i])) as [->%list_elem_of_singleton|Hj].
    + rewrite decide_True by done. unfold pending_of. by destruct (servq_of a o i).
    + rewrite decide_False; [done|]. intros [_ ->]. apply Hj. by left.
  - intros p j Hp. unfold pending_of at 1. change (servq_of (set_xmitpriv ?x ?b) p j) with (servq_of b p j). rewrite servq_upd.
    by rewrite decide_False by (by intros [? _]).
  - intros s Hs. eexists. cbn. rewrite list_lookup_alter_eq, Hs. done.
  - unfold addr_view. cbn [set_xmitpriv stapriv upd_servq upd_sta set_stapriv set_stas set_table stas sta_hash].
    by rewrite map_hwaddr_alter.
  - done.
  - cbn [set_xmitpriv xmitpriv unlink set_queues sta_queues]. intros j l Hl. destruct (decide (j = i)) as [->|Hj].
    + rewrite list_lookup_alter_eq in Hl. apply fmap_Some in Hl as (l0 & Hl0 & ->). exists l0. split; [done|].
      intros p [Hp Hin]%list_elem_of_filter. split; [done|]. by intros [-> _].
    + rewrite list_lookup_alter_ne in Hl by done. exists l. split; [done|]. intros p Hp. split; [done|].
      by intros [_ ?%list_elem_of_singleton].
Qed.

Lemma stuck_trans o i acs a a1 a2 : (i ∉ acs) -> stuck o [i] a a1 -> stuck o acs a1 a2 -> stuck o (i :: acs) a a2.
Proof.
  intros Hi [P1 O1 S1 A1 B1 L1] [P2 O2 S2 A2 B2 L2]. constructor; try congruence.
  - intros j. rewrite P2, P1. destruct (decide (j ∈ acs)) as [Hj|Hj].
    + rewrite (decide_False (P := j ∈ [i])) by (intros ->%list_elem_of_singleton; done).
      by rewrite decide_True by (by right).
    + destruct (decide (j ∈ [i])) as [Hj1|Hj1], (decide (j ∈ i :: acs)) as [Hj2|Hj2]; try done.
      * apply list_elem_of_singleton in Hj1 as ->. exfalso. apply Hj2. by left.
      * apply elem_of_cons in Hj2 as [->|Hj2]; [|done]. exfalso. apply Hj1. by left.
  - intros p j Hp. by rewrite O2, O1.
  - intros s Hs. destruct (S1 s Hs) as (s1 & Hs1 & E1 & E2 & E3), (S2 s1 Hs1) as (s2 & Hs2 & F1 & F2 & F3).
    exists s2. split_and!; congruence.
  - intros j l Hl. destruct (L2 j l Hl) as (l1 & Hl1 & H1), (L1 j l1 Hl1) as (l0 & Hl0 & H0). exists l0. split; [done|].
    intros p Hp. destruct (H1 p Hp) as [Hp1 Hn1], (H0 p Hp1) as [Hp0 Hn0]. split; [done|].
    intros [-> [->|Hj]%elem_of_cons]; [apply Hn0; split; [done|by left]|by apply Hn1].
Qed.

Lemma stuck_queues o acs : forall s w, NoDup acs -> stas (stapriv (ad w)) !! o = Some s -> is_bmc s = false ->
  has_bit (aid s) (sta_dz_bitmap (stapriv (ad w))) = false -> (forall i, Forall (directed o (ad w)) (pending_of (ad w) o i)) ->
  stuck o acs (ad w) (ad (fold_left (fun w i => sleep_queue o i w) acs w)).
Proof.
  induction acs as [|i acs IH]; intros s w Hn Hs Hb Hdz Hd.
  - constructor; try done.
    + intros s' Hs'. by exists s'.
    + intros i l Hl. exists l. split; [done|]. intros p Hp. split; [done|]. by intros [_ ?%elem_of_nil].
  - apply list.NoDup_cons in Hn as [Hi Hn]. cbn [fold_left].
    assert (A : stuck o [i] (ad w) (ad (sleep_queue o i w))).
    { unfold dequeue_xmitframes_to_sleeping_queue. rewrite (dequeue_frames_kept o s) by done.
      exact (stuck_one o i _ (ad w) eq_refl). }
    set (w1 := sleep_queue o i w) in *. destruct (st_sta _ _ _ _ A s Hs) as (s1 & Hs1 & E1 & E2 & _).
    apply (stuck_trans o i acs (ad w) (ad w1)); [done|done|]. apply (IH s1); try done.
    + unfold is_bmc in *. by rewrite E1.
    + by rewrite E2, (st_bits _ _ _ _ A).
    + intros j. rewrite (st_pend _ _ _ _ A). eapply List.Forall_impl; [intros f; apply directed_view, (st_addr _ _ _ _ A)|].
      destruct (decide _); [apply directed_untrig, Hd|apply Hd].
Qed.

(** A station with an AID above 15 that enters power save is marked asleep, but the
    16-bit map cannot record it: none of its pending frames is buffered, and its queues
    are unlinked from the hardware queues with the frames still in them, where
    [rtw_dequeue_xframe] does not find them. *)
Theorem stop_sta_xmit_high_aid o b s w : tx_inv (ad w) -> stas (stapriv (ad w)) !! o = Some s ->
  is_bmc s = false -> 16 <= aid s -> is_u16 (sta_dz_bitmap (stapriv (ad w))) ->
  rtw_get_bcmc_stainfo (stapriv (ad w)) = Some b -> o <> b -> pending_of (ad w) b 2 = [] ->
  (forall i, Forall (directed o (ad w)) (pending_of (ad w) o i)) ->
  exists w' s', stop_sta_xmit fw_state not_pcie hiq_filter o w = Some w' /\
    stas (stapriv (ad w')) !! o = Some s' /\ Z.testbit (state s') 2 = true /\
    sta_dz_bitmap (stapriv (ad w')) = sta_dz_bitmap (stapriv (ad w)) /\
    (forall i, pending_of (ad w') o i = map untrig (pending_of (ad w) o i)) /\
    (forall i l, (i < 4)%nat -> sta_queues (xmitpriv (ad w')) !! i = Some l -> o ∉ l).
Proof.
  intros Ha Hs Hbm Haid Hu Hb Hob Hpb Hd. rewrite (stop_eq fw_state not_pcie hiq_filter o b s w) by done.
  destruct (doze_views o s (ad w)) as [V1 V2].
  set (w0 := mk_psw (doze o s (ad w)) (evs w)). set (s0 := set_state (state s .| WIFI_SLEEP_STATE) s).
  assert (Hs0 : stas (stapriv (ad w0)) !! o = Some s0) by (cbn; rewrite list_lookup_alter_eq, Hs; done).
  assert (Edz : u16 (set_bit (aid s) (sta_dz_bitmap (stapriv (ad w)))) = sta_dz_bitmap (stapriv (ad w))).
  { assert (Eu : u16 (sta_dz_bitmap (stapriv (ad w))) = sta_dz_bitmap (stapriv (ad w))) by (unfold u16; by rewrite Z.mod_small).
    rewrite <- Eu at 2. apply Z.bits_inj'. intros i Hi. rewrite !u16_testbit by done. destruct (Z.ltb_spec i 16); [|done].
    unfold set_bit, BIT. rewrite Z.lor_spec, Z.shiftl_1_l, Z.pow2_bits_false, orb_false_r by lia. done. }
  assert (Hdz : has_bit (aid s0) (sta_dz_bitmap (stapriv (ad w0))) = false).
  { change (sta_dz_bitmap _) with (u16 (set_bit (aid s) (sta_dz_bitmap (stapriv (ad w))))). change (aid s0) with (aid s).
    rewrite has_set_bit by lia. by rewrite (proj2 (Z.ltb_ge (aid s) 16)) by lia. }
  assert (Hn : NoDup [0; 1; 2; 3]%nat) by (apply (bool_decide_unpack _); vm_compute; exact I).
  assert (Hd0 : forall i, Forall (directed o (ad w0)) (pending_of (ad w0) o i)).
  { intros i. rewrite (pending_view (ad w0) (ad w) o i V1). eapply List.Forall_impl; [|apply (Hd i)]. intros f. by apply directed_view. }
  pose proof (stuck_queues o [0; 1; 2; 3]%nat s0 w0 Hn Hs0 Hbm Hdz Hd0) as A. set (w1 := fold_left _ _ w0) in *.
  assert (Hpb1 : pending_of (ad w1) b 2 = []) by (rewrite (st_other _ _ _ _ A), (pending_view (ad w0) (ad w) b 2 V1) by congruence; done).
  assert (B : stuck b [2]%nat (ad w1) (ad (sleep_queue b 2 w1))).
  { unfold dequeue_xmitframes_to_sleeping_queue. rewrite Hpb1. cbn [dequeue_frames].
    apply (stuck_one b 2 [] (ad w1)). by rewrite Hpb1. }
  destruct (st_sta _ _ _ _ A s0 Hs0) as (s1 & Hs1 & _ & _ & E).
  exists (sleep_queue b 2 w1), s1. split; [done|]. split_and!.
  - assert (Hsame : stas (stapriv (ad (sleep_queue b 2 w1))) !! o = stas (stapriv (ad w1)) !! o); [|by rewrite Hsame].
    unfold dequeue_xmitframes_to_sleeping_queue. rewrite Hpb1. cbn [dequeue_frames]. cbn. by rewrite list_lookup_alter_ne.
  - rewrite E. apply lor_sleep_bit.
  - rewrite (st_bits _ _ _ _ B), (st_bits _ _ _ _ A). exact Edz.
  - intros i. rewrite (st_other _ _ _ _ B), (st_pend _ _ _ _ A), (pending_view (ad w0) (ad w) o i V1) by done.
    destruct (decide _) as [|Hi]; [done|]. rewrite (pending_high (ad w) o i); [done|done|].
    destruct i as [|[|[|[|i]]]]; try lia; exfalso; apply Hi; rewrite !elem_of_cons; tauto.
  - intros i l Hi Hl Hin. destruct (st_links _ _ _ _ B i l Hl) as (l1 & Hl1 & H1). destruct (H1 o Hin) as [Hin1 _].
    destruct (st_links _ _ _ _ A i l1 Hl1) as (l0 & _ & H0). destruct (H0 o Hin1) as [_ H]. apply H. split; [done|].
    destruct i as [|[|[|[|i]]]]; try lia; rewrite !elem_of_cons; tauto.
Qed.
End high_aid.

(** ** Witnesses *)

Definition directedb (o : nat) (a : adapter) (f : xmit_frame) : bool :=
  bool_decide (rtw_get_stainfo (stapriv a) (xa_ra (xattrib f)) = Some o) && bool_decide (xa_psta (xattrib f) = Some o).

Lemma directedb_spec o a l : forallb (directedb o a) l = true -> Forall (directed o a) l.
Proof.
  intros H. apply Forall_forall. intros f Hf. rewrite forallb_forall in H. specialize (H f Hf).
  apply andb_true_iff in H as [H1 H2]. by apply bool_decide_eq_true in H1, H2.
Qed.

Lemma directed_all o a : tx_inv a -> forallb (directedb o a) (waiting a o) = true ->
  forall i, Forall (directed o a) (pending_of a o i).
Proof.
  intros Ha H i. apply directedb_spec in H. rewrite !Forall_app in H. destruct H as (H0 & H1 & H2 & H3).
  destruct i as [|[|[|[|i]]]]; try done. rewrite pending_high by (done || lia). constructor.
Qed.

(** A station with AID [n] and the group station, both linked; two best-effort frames and
    a voice frame for the station, one group frame. *)
Definition ex_link_aid (n : Z) (s : sta_info) : sta_info :=
  mk_sta (hwaddr s) 1 n (mac_id s) (ieee8021x_blocked s) (dot118021x_UncstKey s)
    (dot11tkiprxmickey s) (sleep_q s) (sleepq_len s) (servqs s) (defrag_q s) (tid_rxseq s)
    (recvreorder_ctrl s) (addba_retry_timer s) (RxMgmtFrameSeqNum s) (mk_ps 0 0 0 0 0 0 0 0 1).
Definition ex_two : adapter :=
  fst (rtw_alloc_stainfo ex_me 0 bc_addr (fst (rtw_alloc_stainfo ex_me 0 ex_peer ex_adapter))).
Definition ex_ap0 (n : Z) : adapter := upd_sta 1 (ex_link_aid 0) (upd_sta 0 (ex_link_aid n) ex_two).
Definition ex_group (i : Z) : xmit_frame := mk_xf i false (mk_xattr bc_addr (Some 1%nat) 0 0x800 false false false false 0).
Definition ex_puts : list tx_op := [TxPut (ex_frame 5 0); TxPut (ex_frame 6 6); TxPut (ex_frame 7 0)].
Definition ex_ap (n : Z) : adapter := fst (fst (tx_run ex_puts (ex_ap0 n))).
Definition ex_w (n : Z) : psw := mk_psw (ex_ap n) [].

Lemma ex_two_table : table_inv (stapriv ex_two).
Proof. apply alloc_inv; [apply alloc_inv; [apply init_inv|discriminate]|discriminate]. Qed.

Lemma ex_ap0_wf n : tx_inv (ex_ap0 n) /\ table_inv (stapriv (ex_ap0 n)).
Proof.
  assert (Hv : forall o m a, tx_view (upd_sta o (ex_link_aid m) a) = tx_view a /\ addr_view (upd_sta o (ex_link_aid m) a) = addr_view a)
    by (intros o m a; by apply upd_sta_tx).
  assert (Hi : tx_inv ex_two).
  { apply tx_idle; [|reflexivity|reflexivity].
    assert (E : map servqs (stas (stapriv ex_two)) = replicate 32 (replicate 4 init_servq)) by (vm_compute; reflexivity).
    apply (proj1 (Forall_map servqs (fun q => q = replicate 4 init_servq) _)). rewrite E. by apply Forall_replicate. }
  split.
  - apply (tx_inv_view (upd_sta 0 (ex_link_aid n) ex_two)); [symmetry; apply Hv|].
    apply (tx_inv_view ex_two); [symmetry; apply Hv|done].
  - apply (table_inv_view (upd_sta 0 (ex_link_aid n) ex_two)); [apply Hv|reflexivity..|].
    apply (table_inv_view ex_two); [apply Hv|reflexivity..|apply ex_two_table].
Qed.

Lemma ex_ap_wf n : tx_inv (ex_ap n) /\ table_inv (stapriv (ex_ap n)).
Proof.
  destruct (ex_ap0_wf n) as [Ha Ht]. assert (Hops : Forall op_wf ex_puts) by (repeat first [constructor | lia]).
  pose proof (fifo_run ex_puts (ex_ap0 n) Ha Ht Hops) as H. unfold ex_ap. destruct (tx_run ex_puts (ex_ap0 n)) as [[a' acc] sent].
  split; apply H.
Qed.

Definition ex_s (n : Z) (o : nat) (w : psw) : sta_info := default _rtw_init_stainfo (stas (stapriv (ad w)) !! o).

Lemma stop_sta_xmit_buffers_witness : exists w',
  stop_sta_xmit 0x10 true 0 0 (ex_w 1) = Some w' /\
  sleeping_of 0 (ad w') = map (set_attr (set_triggered false)) [ex_frame 6 6; ex_frame 5 0; ex_frame 7 0] /\
  has_bit 1 (tim_bitmap (stapriv (ad w'))) = true.
Proof.
  destruct (stop_sta_xmit_buffers 0x10 true 0 eq_refl 0 1 (ex_s 1 0 (ex_w 1)) (ex_s 1 1 (ex_w 1)) (ex_w 1))
    as (w' & s' & E & _ & _ & _ & _ & Q & _ & _ & _ & _ & _ & _ & T).
  - apply ex_ap_wf.
  - vm_compute; reflexivity.
  - vm_compute; reflexivity.
  - vm_compute; reflexivity.
  - vm_compute; split; discriminate || reflexivity.
  - vm_compute; reflexivity.
  - vm_compute; reflexivity.
  - vm_compute; reflexivity.
  - apply directed_all; [apply ex_ap_wf|vm_compute; reflexivity].
  - apply directedb_spec. vm_compute; reflexivity.
  - exists w'. split; [exact E|]. split.
    + rewrite Q. vm_compute; reflexivity.
    + transitivity (has_bit (aid (ex_s 1 0 (ex_w 1))) (tim_bitmap (stapriv (ad w')))); [reflexivity|].
      rewrite T. vm_compute; reflexivity.
Defined.

Lemma stop_sta_xmit_high_aid_witness : exists w',
  stop_sta_xmit 0x10 true 0 0 (ex_w 16) = Some w' /\
  pending_of (ad w') 0 0 = [set_attr (set_triggered false) (ex_frame 6 6)] /\
  (forall i l, (i < 4)%nat -> sta_queues (xmitpriv (ad w')) !! i = Some l -> 0%nat ∉ l).
Proof.
  destruct (stop_sta_xmit_high_aid 0x10 true 0 0 1 (ex_s 16 0 (ex_w 16)) (ex_w 16))
    as (w' & s' & E & _ & _ & _ & P & L).
  - apply ex_ap_wf.
  - vm_compute; reflexivity.
  - vm_compute; reflexivity.
  - vm_compute; discriminate.
  - vm_compute; split; discriminate || reflexivity.
  - vm_compute; reflexivity.
  - discriminate.
  - vm_compute; reflexivity.
  - apply directed_all; [apply ex_ap_wf|vm_compute; reflexivity].
  - exists w'. split; [exact E|]. split; [|exact L]. rewrite P. vm_compute; reflexivity.
Defined.

(** The same, asleep. *)
Definition ex_asleep : psw := default (ex_w 1) (stop_sta_xmit 0x10 true 0 0 (ex_w 1)).

Lemma ex_asleep_wf : tx_inv (ad ex_asleep) /\ table_inv (stapriv (ad ex_asleep)).
Proof.
  destruct (ex_ap_wf 1) as [Ha Ht].
  destruct (stop_run 0x10 true 0 eq_refl 0 1 (ex_s 1 0 (ex_w 1)) (ex_s 1 1 (ex_w 1)) (ex_w 1)) as (w' & a1 & E & _ & A & B & _).
  - exact Ha.
  - vm_compute; reflexivity.
  - vm_compute; reflexivity.
  - vm_compute; reflexivity.
  - vm_compute; split; discriminate || reflexivity.
  - vm_compute; reflexivity.
  - vm_compute; reflexivity.
  - vm_compute; reflexivity.
  - apply directed_all; [exact Ha|vm_compute; reflexivity].
  - apply directedb_spec. vm_compute; reflexivity.
  - assert (Ew : ex_asleep = w') by (unfold ex_asleep; by rewrite E). rewrite Ew. split; [apply (sl_inv _ _ _ _ _ B)|].
    apply (sl_table _ _ _ _ _ B), (sl_table _ _ _ _ _ A), doze_table. exact Ht.
Qed.

Lemma wakeup_sta_to_xmit_releases_witness :
  let a' := ad (wakeup_sta_to_xmit true 0 30 0 ex_asleep) in
  map (fun f => (xf_id f, xa_mdata (xattrib f))) (pending_of a' 0 2) = [(5, true); (7, false)] /\
  map (fun f => (xf_id f, xa_mdata (xattrib f))) (pending_of a' 0 0) = [(6, true)] /\
  has_bit 1 (tim_bitmap (stapriv a')) = false.
Proof.
  intros a'. destruct (wakeup_sta_to_xmit_releases true 0 30 0 1 (ex_s 1 0 ex_asleep) (ex_s 1 1 ex_asleep) ex_asleep)
    as (_ & _ & P & W & _ & _ & T & _).
  - apply ex_asleep_wf.
  - apply ex_asleep_wf.
  - vm_compute; reflexivity.
  - vm_compute; reflexivity.
  - vm_compute; split; reflexivity.
  - vm_compute; discriminate.
  - vm_compute; reflexivity.
  - apply directedb_spec. vm_compute; reflexivity.
  - vm_compute; reflexivity.
  - vm_compute; reflexivity.
  - vm_compute; reflexivity.
  - vm_compute; split; reflexivity.
  - apply directedb_spec. vm_compute; reflexivity.
  - fold a' in P, T. rewrite !P, W by (vm_compute; reflexivity). split_and!; [vm_compute; reflexivity|vm_compute; reflexivity|exact T].
Defined.

(** Two voice frames, delivered on a trigger, before a best-effort one: the second voice frame
    ends the service period and has no More Data. *)
Example trigger_flags :
  map (fun f => (xa_mdata (xattrib f), xa_eosp (xattrib f)))
    (woken_frames (mk_ps 0 0 0 0 0 0 0 2 1) [ex_frame 1 6; ex_frame 2 7; ex_frame 3 0])
  = [(true, false); (false, true); (false, false)].
Proof. vm_compute. reflexivity. Qed.

(** A PS-poll from the station, AID 1. *)
Definition ex_pspoll : list Z := [0xa4; 0; 1; 0xc0] ++ ex_me ++ ex_peer.

Lemma ps_poll_releases_one_witness :
  let a' := ad (fst (validate_recv_ctrl_frame 30 ex_me ex_pspoll 0 ex_asleep)) in
  map (fun f => (xf_id f, xa_mdata (xattrib f))) (pending_of a' 0 0) = [(6, true)] /\
  has_bit 1 (tim_bitmap (stapriv a')) = true.
Proof.
  intros a'. pose proof (ps_poll_releases_one 30 ex_me ex_pspoll 0 0 (ex_s 1 0 ex_asleep)
    (set_attr (set_triggered false) (ex_frame 6 6)) (map (set_attr (set_triggered false)) [ex_frame 5 0; ex_frame 7 0]) ex_asleep) as H.
  destruct H as (_ & P & _ & _ & _ & T).
  - apply ex_asleep_wf.
  - apply ex_asleep_wf.
  - vm_compute; reflexivity.
  - vm_compute; reflexivity.
  - vm_compute; reflexivity.
  - vm_compute; reflexivity.
  - vm_compute; reflexivity.
  - vm_compute; reflexivity.
  - vm_compute; split; discriminate || reflexivity.
  - vm_compute; reflexivity.
  - vm_compute; reflexivity.
  - vm_compute; reflexivity.
  - vm_compute; reflexivity.
  - vm_compute; split; reflexivity.
  - vm_compute; reflexivity.
  - split; vm_compute; reflexivity.
  - assert (H1 : 0 <= 1 < 16) by (split; [discriminate|reflexivity]). specialize (T 1 H1). specialize (P 0%nat 0%nat). clear H1.
    split; [etrans; [exact (f_equal (map (fun f => (xf_id f, xa_mdata (xattrib f)))) P)|vm_compute; reflexivity]|].
    etrans; [exact T|vm_compute; reflexivity].
Defined.

Lemma sleep_wake_order_witness : exists w1, stop_sta_xmit 0x10 true 0 0 (ex_w 1) = Some w1 /\
  map xf_id (pending_of (ad (wakeup_sta_to_xmit true 0 30 0 w1)) 0 2) = [5; 7].
Proof.
  destruct (sleep_wake_order 0x10 true 0 30 0 1 (ex_s 1 0 (ex_w 1)) (ex_s 1 1 (ex_w 1)) (ex_w 1)) as (w1 & E & _ & P).
  - reflexivity.
  - apply ex_ap_wf.
  - apply ex_ap_wf.
  - vm_compute; reflexivity.
  - vm_compute; reflexivity.
  - vm_compute; reflexivity.
  - vm_compute; split; discriminate || reflexivity.
  - vm_compute; reflexivity.
  - vm_compute; split; reflexivity.
  - vm_compute; reflexivity.
  - vm_compute; reflexivity.
  - vm_compute; reflexivity.
  - vm_compute; reflexivity.
  - vm_compute; split; reflexivity.
  - vm_compute; reflexivity.
  - apply directedb_spec. vm_compute; reflexivity.
  - apply directed_all; [apply ex_ap_wf|vm_compute; reflexivity].
  - apply directedb_spec. vm_compute; reflexivity.
  - exists w1. split; [exact E|]. rewrite P. vm_compute; reflexivity.
Defined.
