(* ===== verification/RecvPath.v ===== *)
(** * The receive path of a data frame (core/rtw_recv.c)

    [recv_func_posthandle]: decryption, reassembly and its TKIP MIC check, the 802.1X port,
    and the hand-over to reordering or to the network stack, on the station table, the
    pool of frames and the security state; with [rtw_handle_tkip_mic_err] of
    os_dep/linux/recv_linux.c and the ADDBA and DELBA handlers that open and close a
    reordering window.  Notifications to user space and statistics are not modelled. *)

From stdpp Require Import gmultiset.
From S2P Require Import Prelude Crc32 Michael Ccmp SecFrames RxFrame Reorder MacId StaMgt.

(** ** State *)

Definition LLC_HEADER_SIZE : Z := 6.
Definition eapol_type : Z := 0x888e.
Definition WIFI_DATA_TYPE : Z := 0x08.

(** The fields of [struct security_priv] of the MIC check, and [key_index] of
    [mlmext_info]. *)
Record mic_priv := mk_mic {
  dot118021XGrprxmickey : list (list Z); bcheck_grpkey : bool; last_mic_err_time : Z;
  btkip_countermeasure : bool; btkip_countermeasure_time : Z; mlme_key_index : Z
}.

Definition set_check_grpkey (m : mic_priv) : mic_priv :=
  mk_mic (dot118021XGrprxmickey m) true (last_mic_err_time m) (btkip_countermeasure m)
    (btkip_countermeasure_time m) (mlme_key_index m).

(** Everything the receive path reads and changes. *)
Record rx_world := mk_rw {
  rw_ad : adapter; rw_dbg : debug_priv; rw_mic : mic_priv; rw_sec : security_priv;
  rw_glob : sec_globals; rx_drop : Z
}.

Definition set_ad (a : adapter) (w : rx_world) : rx_world :=
  mk_rw a (rw_dbg w) (rw_mic w) (rw_sec w) (rw_glob w) (rx_drop w).
Definition set_mic (m : mic_priv) (w : rx_world) : rx_world :=
  mk_rw (rw_ad w) (rw_dbg w) m (rw_sec w) (rw_glob w) (rx_drop w).
Definition count_drop (w : rx_world) : rx_world :=
  mk_rw (rw_ad w) (rw_dbg w) (rw_mic w) (rw_sec w) (rw_glob w) (u64 (rx_drop w + 1)).
Definition set_env (e : rx_env) (a : adapter) : adapter :=
  mk_adapter (stapriv a) (macid a) e (xmitpriv a).
Definition free_frame (f : rframe) (w : rx_world) : rx_world :=
  set_ad (set_env (rtw_free_recvframe f (recvpriv (rw_ad w))) (rw_ad w)) w.

Definition upd_stas (sts : list sta_info) (a : adapter) : adapter :=
  set_stapriv (set_table sts (free_sta_queue (stapriv a)) (sta_hash (stapriv a))
                 (asoc_sta_count (stapriv a)) (stapriv a)) a.
Definition set_defrag_q (q : list rframe) (s : sta_info) : sta_info :=
  mk_sta (hwaddr s) (state s) (aid s) (mac_id s) (ieee8021x_blocked s) (dot118021x_UncstKey s)
    (dot11tkiprxmickey s) (sleep_q s) (sleepq_len s) (servqs s) q (tid_rxseq s)
    (recvreorder_ctrl s) (addba_retry_timer s) (RxMgmtFrameSeqNum s) (ps s).
Definition set_windows (cs : list recv_reorder_ctrl) (s : sta_info) : sta_info :=
  mk_sta (hwaddr s) (state s) (aid s) (mac_id s) (ieee8021x_blocked s) (dot118021x_UncstKey s)
    (dot11tkiprxmickey s) (sleep_q s) (sleepq_len s) (servqs s) (defrag_q s) (tid_rxseq s)
    cs (addba_retry_timer s) (RxMgmtFrameSeqNum s) (ps s).

(** ** The TKIP MIC of a whole frame *)

(** The lookups of [rtw_os_recv_indicate_pkt] are those of the station table. *)
Definition present (psta : option nat) : bool := match psta with Some _ => true | None => false end.
Definition os_at (sp : sta_priv) (o : os_env) : os_env :=
  mk_os (os_ap o) (os_station o) (os_myid o) (present (rtw_get_bcmc_stainfo sp))
    (fun addr => present (rtw_get_stainfo sp addr)) (os_clone o) (os_br_port o) (nat25_handle_frame o).
Definition drv_at (sp : sta_priv) (drv : drv_flags) : drv_flags :=
  mk_drv (bDriverStopped drv) (bSurpriseRemoved drv) (mp_state drv) (os_at sp (os drv)).

Section chkmic.
(** [60 * HZ] and [rtw_get_current_time()] in jiffies. *)
Context (HZ now : Z).

Definition rtw_handle_tkip_mic_err (m : mic_priv) : mic_priv :=
  if last_mic_err_time m =? 0 then
    mk_mic (dot118021XGrprxmickey m) (bcheck_grpkey m) now (btkip_countermeasure m)
      (btkip_countermeasure_time m) (mlme_key_index m)
  else if u32 (now - last_mic_err_time m) <? 60 * HZ then
    mk_mic (dot118021XGrprxmickey m) (bcheck_grpkey m) 0 true now (mlme_key_index m)
  else
    mk_mic (dot118021XGrprxmickey m) (bcheck_grpkey m) now (btkip_countermeasure m)
      (btkip_countermeasure_time m) (mlme_key_index m).

(** The key of the group or of the station. *)
Definition mic_key (m : mic_priv) (s : sta_info) (a : rx_pkt_attrib) : option (list Z) :=
  if IS_MCAST (ra a) then dot118021XGrprxmickey m !! Z.to_nat (key_index a)
  else Some (dot11tkiprxmickey s).

Definition recvframe_chkmic (sp : sta_priv) (sec : security_priv) (m : mic_priv) (f : rframe)
    : option (rframe * mic_priv * Z) :=
  let a := attrib f in
  if encrypt a =? _TKIP_ then
    match rtw_get_stainfo sp (ta a) with
    | None => Some (fst (recvframe_pull_tail f 8), m, _SUCCESS)
    | Some o =>
        s ← stas sp !! o;
        mickey ← mic_key m s a;
        if IS_MCAST (ra a) && negb (binstallGrpkey sec) then Some (f, m, _FAIL)
        else
          let datalen := u32 (rx_len f - hdrlen a - iv_len a - icv_len a - 8) in
          let payload := rx_data f + hdrlen a + iv_len a in
          data ← rd (rx_mem f) payload datalen;
          miccode ← rtw_seccalctkipmic mickey (drop (Z.to_nat (rx_data f)) (rx_mem f)) data (priority a);
          pframemic ← rd (rx_mem f) (payload + datalen) 8;
          let '(m, res) :=
            if bool_decide (miccode = pframemic) then
              (if negb (bcheck_grpkey m) && IS_MCAST (ra a) then set_check_grpkey m else m, _SUCCESS)
            else
              let brpt_micerror := negb (IS_MCAST (ra a) && negb (key_index a =? mlme_key_index m)) in
              (if bdecrypted a && brpt_micerror then rtw_handle_tkip_mic_err m else m, _FAIL) in
          Some (fst (recvframe_pull_tail f 8), m, res)
    end
  else Some (f, m, _SUCCESS).

(** ** Reassembly *)

(** The station whose [defrag_q] holds the fragments of a transmitter. *)
Definition defrag_station (sp : sta_priv) (f : rframe) : option (option nat) :=
  match rtw_get_stainfo sp (ta (attrib f)) with
  | Some o => Some (Some o)
  | None =>
      fc ← frame_ctl (drop (Z.to_nat (rx_data f)) (rx_mem f));
      if GetFrameType fc =? WIFI_DATA_TYPE then Some None
      else o ← rtw_get_bcmc_stainfo sp; Some (Some o)
  end.

(** The queueing part: the station table, the pool, and the frame to go on with. *)
Definition defrag_enqueue (f : rframe) (pdefrag : option nat) (a : adapter)
    : option (adapter * option rframe) :=
  let ismfrag := mfrag (attrib f) in
  let fragnum := frag_num (attrib f) in
  if (ismfrag =? 0) && (fragnum =? 0) then Some (a, Some f) else
  match pdefrag with
  | None =>
      if (ismfrag =? 1) || (ismfrag =? 0)
      then Some (set_env (rtw_free_recvframe f (recvpriv a)) a, None) else Some (a, None)
  | Some o =>
      s ← stas (stapriv a) !! o;
      if ismfrag =? 1 then
        let '(q, e) :=
          if fragnum =? 0 then ([], rtw_free_recvframe_queue (defrag_q s) (recvpriv a))
          else (defrag_q s, recvpriv a) in
        Some (set_env e (upd_stas (<[o := set_defrag_q (q ++ [f]) s]> (stas (stapriv a))) a), None)
      else if ismfrag =? 0 then
        '(r, e) ← recvframe_defrag (defrag_q s ++ [f]) (recvpriv a);
        Some (set_env e (upd_stas (<[o := set_defrag_q [] s]> (stas (stapriv a))) a), r)
      else Some (a, None)
  end.

Definition recvframe_chk_defrag (f : rframe) (w : rx_world) : option (rx_world * option rframe) :=
  pdefrag ← defrag_station (stapriv (rw_ad w)) f;
  '(a, r) ← defrag_enqueue f pdefrag (rw_ad w);
  let w := set_ad a w in
  match r with
  | None => Some (w, None)
  | Some f =>
      if privacy (attrib f) then
        '(f, m, res) ← recvframe_chkmic (stapriv a) (rw_sec w) (rw_mic w) f;
        if res =? _FAIL then Some (free_frame f (set_mic m w), None) else Some (set_mic m w, Some f)
      else Some (w, Some f)
  end.

(** ** The 802.1X port: while it is blocked only EAPOL frames pass *)

Definition portctrl (auth_alg : Z) (f : rframe) (w : rx_world) : option (rx_world * option rframe) :=
  let blocked := match rtw_get_stainfo (stapriv (rw_ad w)) (ta (attrib f)) with
                 | Some o => match stas (stapriv (rw_ad w)) !! o with
                             | Some s => ieee8021x_blocked s
                             | None => false end
                 | None => false end in
  if (auth_alg =? 2) && blocked then
    t ← rd (rx_mem f) (rx_data f + hdrlen (attrib f) + iv_len (attrib f) + LLC_HEADER_SIZE) 2;
    if be_val t =? eapol_type then Some (w, Some f) else Some (free_frame f w, None)
  else Some (w, Some f).

(** ** Hand-over to the upper layer *)

Context (skb_alloc_ok : Z -> bool) (drv : drv_flags) (ht_option : bool).

(** [recv_indicatepkt_reorder] on the window of the frame's station and priority. *)
Definition reorder_at (f : rframe) (w : rx_world) : option (rx_world * Z) :=
  let a := rw_ad w in
  s ← stas (stapriv a) !! rf_psta f;
  c ← recvreorder_ctrl s !! Z.to_nat (priority (attrib f));
  '(st, r) ← recv_indicatepkt_reorder skb_alloc_ok (drv_at (stapriv a) drv) f (mk_rxs c (rw_dbg w) (recvpriv a));
  let s := set_windows (<[Z.to_nat (priority (attrib f)) := ctl st]> (recvreorder_ctrl s)) s in
  Some (mk_rw (set_env (env st) (upd_stas (<[rf_psta f := s]> (stas (stapriv a))) a)) (dbg st)
          (rw_mic w) (rw_sec w) (rw_glob w) (rx_drop w), r).

Definition process_recv_indicatepkts (f : rframe) (w : rx_world) : option (rx_world * Z) :=
  if ht_option then
    '(w, r) ← reorder_at f w;
    Some (w, if negb (r =? _SUCCESS) && running drv then _FAIL else _SUCCESS)
  else
    '(f, ret) ← wlanhdr_to_ethhdr (mp_state drv) f;
    if negb (ret =? _SUCCESS) then Some (w, ret)
    else if running drv then
      '(e, _) ← rtw_recv_indicatepkt (os_at (stapriv (rw_ad w)) (os drv)) f (recvpriv (rw_ad w));
      Some (set_ad (set_env e (rw_ad w)) w, _SUCCESS)
    else Some (w, _FAIL).

(** ** Decryption of a receive frame *)

Definition set_crypto (k : Z) (b : bool) (a : rx_pkt_attrib) : rx_pkt_attrib :=
  mk_rxa (hdrlen a) (iv_len a) (icv_len a) (encrypt a) (privacy a) (qos a) (priority a) (amsdu a)
    (seq_num a) (frag_num a) (mfrag a) (eth_type a) (dst a) (src a) (ta a) (ra a) k b.

(** The frame as the ciphers see it: the memory from [rx_data] on. *)
Definition cipher_view (f : rframe) : recv_frame :=
  let a := attrib f in
  mk_recv (encrypt a) (hdrlen a) (iv_len a) (key_index a) (bdecrypted a) (ra a) (ta a)
    (drop (Z.to_nat (rx_data f)) (rx_mem f)) (rx_len f).
Definition of_cipher_view (f : rframe) (g : recv_frame) : rframe :=
  set_attrib (set_crypto (ra_key_index g) (ra_bdecrypted g) (attrib f))
    (set_mem (take (Z.to_nat (rx_data f)) (rx_mem f) ++ SecFrames.rx_data g) f).

(** ** The whole path *)

Context (CONFIG_IEEE80211W : bool) (auth_alg : Z).

Definition recv_func_posthandle (f : rframe) (w : rx_world) : option (rx_world * Z) :=
  '(r, g, sec) ← decryptor CONFIG_IEEE80211W (rw_sec w) (stapriv (rw_ad w)) (cipher_view f) (rw_glob w);
  let w := mk_rw (rw_ad w) (rw_dbg w) (rw_mic w) sec g (rx_drop w) in
  match r with
  | None => Some (count_drop (free_frame f w), _FAIL)
  | Some v =>
      '(w, r) ← recvframe_chk_defrag (of_cipher_view f v) w;
      match r with
      | None => Some (count_drop w, _SUCCESS)
      | Some prframe =>
          '(w, r) ← portctrl auth_alg prframe w;
          match r with
          | None => Some (count_drop w, _FAIL)
          | Some prframe =>
              '(w, ret) ← process_recv_indicatepkts prframe w;
              if negb (ret =? _SUCCESS) then Some (count_drop (free_frame f w), ret)
              else Some (w, ret)
          end
      end
  end.
End chkmic.

(** ** Block-ack agreements *)

Definition upd_window (o : nat) (tid : Z) (g : recv_reorder_ctrl -> recv_reorder_ctrl) (a : adapter) : adapter :=
  match stas (stapriv a) !! o with
  | None => a
  | Some s => upd_stas (<[o := set_windows (alter g (Z.to_nat tid) (recvreorder_ctrl s)) s]> (stas (stapriv a))) a
  end.

(** [process_addba_req]: the agreement for the TID of the parameter set; [accept] and
    [size] are [rtw_rx_ampdu_is_accept] and [rtw_rx_ampdu_size].  The status of the
    response is 0, or 37 when the request is rejected. *)
Definition process_addba_req (accept : bool) (size : Z) (BA_para_set : Z) (addr : list Z) (a : adapter)
    : adapter * option Z :=
  match rtw_get_stainfo (stapriv a) addr with
  | None => (a, None)
  | Some o =>
      let tid := (BA_para_set .>> 2) .& 0x0f in
      (upd_window o tid (addba_ctrl accept size) a, Some (if accept then 0 else 37))
  end.

(** ** Where the frames are

    A frame of the pool is free, in a reordering window, or in a reassembly queue:
    [accounted] is the multiset of the places of these frames. *)

Definition ms (l : list Z) : gmultiset Z := list_to_set_disj l.
Definition frames (q : list rframe) : gmultiset Z := ms (map rf_id q).
Fixpoint msum {A} (g : A -> gmultiset Z) (l : list A) : gmultiset Z :=
  match l with [] => ∅ | x :: l => g x ⊎ msum g l end.
Definition pool (e : rx_env) : gmultiset Z := ms (free_recv_queue e).
Definition win_frames (c : recv_reorder_ctrl) : gmultiset Z := frames (pending_recvframe_queue c).
Definition sta_frames (s : sta_info) : gmultiset Z :=
  frames (defrag_q s) ⊎ msum win_frames (recvreorder_ctrl s).
Definition accounted (a : adapter) : gmultiset Z :=
  pool (recvpriv a) ⊎ msum sta_frames (stas (stapriv a)).

(** The A-MSDU attribute of every waiting frame is a bit. *)
Definition amsdu_bit (f : rframe) : Prop := amsdu (attrib f) = 0 \/ amsdu (attrib f) = 1.
Definition sta_bits (s : sta_info) : Prop :=
  Forall amsdu_bit (defrag_q s) /\ Forall (fun c => Forall amsdu_bit (pending_recvframe_queue c)) (recvreorder_ctrl s).
Definition bits (a : adapter) : Prop := Forall sta_bits (stas (stapriv a)).

Lemma ms_app l k : ms (l ++ k) = ms l ⊎ ms k.
Proof. apply list_to_set_disj_app. Qed.

Lemma frames_cons f q : frames (f :: q) = {[+ rf_id f +]} ⊎ frames q.
Proof. done. Qed.

Lemma frames_app q q' : frames (q ++ q') = frames q ⊎ frames q'.
Proof. unfold frames. by rewrite map_app, ms_app. Qed.

Lemma msum_insert {A} (g : A -> gmultiset Z) l i x y : l !! i = Some x ->
  g x ⊎ msum g (<[i:=y]> l) = g y ⊎ msum g l.
Proof.
  revert i. induction l as [|z l IH]; intros [|i] H; try done.
  - injection H as ->. change (g x ⊎ (g y ⊎ msum g l) = g y ⊎ (g x ⊎ msum g l)). multiset_solver.
  - specialize (IH i H). change (g x ⊎ (g z ⊎ msum g (<[i:=y]> l)) = g y ⊎ (g z ⊎ msum g l)).
    multiset_solver.
Qed.

(** No frame is in two places. *)
Definition uniq (X : gmultiset Z) : Prop := forall x, (multiplicity x X <= 1)%nat.

Lemma uniq_sub X Y : uniq X -> Y ⊆ X -> uniq Y.
Proof. intros H HY x. specialize (H x). specialize (HY x). lia. Qed.

Ltac uniq := eapply uniq_sub; [eassumption|multiset_solver].

Lemma uniq_ms l : NoDup l -> uniq (ms l).
Proof.
  induction 1 as [|i l Hi Hl IH]; intros x.
  - change (ms []) with (∅ : gmultiset Z). rewrite multiplicity_empty. lia.
  - unfold ms. rewrite list_to_set_disj_cons, multiplicity_disj_union, multiplicity_singleton. fold (ms l).
    specialize (IH x). case_decide as Hx; [|lia]. subst x. rewrite (proj1 (not_elem_of_multiplicity i (ms l))); [lia|].
    unfold ms. by rewrite elem_of_list_to_set_disj.
Qed.

Lemma uniq_fresh x X : uniq ({[+ x +]} ⊎ X) -> x ∉ X.
Proof.
  intros H. specialize (H x). rewrite multiplicity_disj_union, multiplicity_singleton in H.
  rewrite decide_True in H by done. rewrite elem_of_multiplicity. lia.
Qed.

Lemma pool_free f e : uniq ({[+ rf_id f +]} ⊎ pool e) ->
  pool (rtw_free_recvframe f e) = {[+ rf_id f +]} ⊎ pool e.
Proof.
  intros Hu. apply uniq_fresh in Hu. unfold pool, rtw_free_recvframe in *. cbn [free_recv_queue].
  rewrite relink_fresh by (by unfold ms in Hu; rewrite elem_of_list_to_set_disj in Hu). rewrite ms_app.
  unfold ms at 2. rewrite list_to_set_disj_cons, list_to_set_disj_nil. multiset_solver.
Qed.

(** Freeing a frame that is free already only moves it in the free queue. *)
Lemma pool_free_again f e : uniq (pool e) -> rf_id f ∈ pool e -> pool (rtw_free_recvframe f e) = pool e.
Proof.
  unfold pool, rtw_free_recvframe, ms, relink. cbn [free_recv_queue]. intros Hu Hf.
  apply elem_of_list_to_set_disj in Hf. apply list_elem_of_split in Hf as (l1 & l2 & E). rewrite E in *.
  assert (forall l : list Z, rf_id f ∉ l -> filter (fun x : Z => x <> rf_id f) l = l) as Hfil.
  { intros l Hl. induction l as [|x l IH]; [done|]. apply not_elem_of_cons in Hl as [Hx Hl].
    rewrite filter_cons_True by done. f_equal. by apply IH. }
  assert (rf_id f ∉ l1 ++ l2) as Hn.
  { rewrite <- Permutation_middle in Hu. rewrite list_to_set_disj_cons in Hu. apply uniq_fresh in Hu.
    by rewrite elem_of_list_to_set_disj in Hu. }
  rewrite list.filter_app, filter_cons_False by (intros H; by apply H).
  apply not_elem_of_app in Hn as [H1 H2]. rewrite !Hfil by done.
  rewrite !list_to_set_disj_app, list_to_set_disj_cons, list_to_set_disj_nil. multiset_solver.
Qed.

Lemma msum_lookup {A} (g : A -> gmultiset Z) l i x : l !! i = Some x -> g x ⊆ msum g l.
Proof.
  revert i. induction l as [|z l IH]; intros [|i] H; try done; cbn [msum].
  - injection H as ->. multiset_solver.
  - specialize (IH i H). multiset_solver.
Qed.

Lemma pool_free_queue q : forall e, uniq (frames q ⊎ pool e) ->
  pool (rtw_free_recvframe_queue q e) = frames q ⊎ pool e.
Proof.
  unfold rtw_free_recvframe_queue. induction q as [|f q IH]; intros e Hu; cbn [fold_left].
  - change (frames []) with (∅ : gmultiset Z). multiset_solver.
  - rewrite frames_cons in *. rewrite IH; rewrite pool_free; [multiset_solver|uniq|uniq|uniq].
Qed.

Lemma pool_indicatepkt o f e e' r : uniq ({[+ rf_id f +]} ⊎ pool e) ->
  rtw_recv_indicatepkt o f e = Some (e', r) -> pool e' = {[+ rf_id f +]} ⊎ pool e.
Proof.
  intros Hu. unfold rtw_recv_indicatepkt. destruct (rf_pkt f).
  - intros (p & _ & [= <- <-])%bind_Some. rewrite indicate_pkt_shares. by apply (pool_free f (mk_env _ _ _ _)).
  - intros [= <- <-]. by apply pool_free.
Qed.

Lemma pull_id f n : rf_id (recvframe_pull f n).1 = rf_id f /\ attrib (recvframe_pull f n).1 = attrib f /\
  rf_pkt (recvframe_pull f n).1 = rf_pkt f.
Proof. unfold recvframe_pull. by case_match. Qed.

Lemma pull_tail_id f n : rf_id (recvframe_pull_tail f n).1 = rf_id f /\ attrib (recvframe_pull_tail f n).1 = attrib f /\
  rf_pkt (recvframe_pull_tail f n).1 = rf_pkt f.
Proof. unfold recvframe_pull_tail. by case_match. Qed.

Lemma put_id f n : rf_id (recvframe_put f n).1 = rf_id f /\ attrib (recvframe_put f n).1 = attrib f /\
  rf_pkt (recvframe_put f n).1 = rf_pkt f.
Proof. unfold recvframe_put. by case_match. Qed.

Lemma pool_amsdu ok o f e e' r : uniq ({[+ rf_id f +]} ⊎ pool e) -> amsdu_to_msdu ok o f e = Some (e', r) ->
  pool e' = {[+ rf_id f +]} ⊎ pool e /\ r = _SUCCESS.
Proof.
  intros Hu. unfold amsdu_to_msdu. set (f1 := fst (recvframe_pull f _)). set (f2 := if 0 <? _ then _ else f1).
  assert (rf_id f2 = rf_id f) as Hid.
  { subst f2 f1. case_match; by rewrite ?(proj1 (pull_id _ _)). }
  clearbody f2. intros (subs & _ & [= <- <-])%bind_Some. split; [|done].
  rewrite fold_indicate. by rewrite pool_free; rewrite Hid.
Qed.

Lemma wlanhdr_keeps mp f f' r : wlanhdr_to_ethhdr mp f = Some (f', r) ->
  rf_id f' = rf_id f /\ (exists t, attrib f' = set_eth_type t (attrib f)) /\ rf_pkt f' = rf_pkt f.
Proof.
  unfold wlanhdr_to_ethhdr. set (f1 := if encrypt (attrib f) =? 0 then f else _).
  assert (rf_id f1 = rf_id f /\ rf_pkt f1 = rf_pkt f) as [Hid Hpk].
  { subst f1. case_match; [done|]. destruct (pull_tail_id f (icv_len (attrib f))) as (-> & _ & ->). done. }
  clearbody f1. intros (snap & _ & E)%bind_Some. cbv zeta in E. apply bind_Some in E as (t & _ & E).
  set (f2 := set_attrib _ f1) in E.
  assert (rf_id f2 = rf_id f /\ (exists t, attrib f2 = set_eth_type t (attrib f)) /\ rf_pkt f2 = rf_pkt f) as H2
    by (split_and!; [done|by eexists|done]). clearbody f2.
  apply bind_Some in E as ([f3 ptr] & Eb & E).
  assert (rf_id f3 = rf_id f2 /\ attrib f3 = attrib f2 /\ rf_pkt f3 = rf_pkt f2) as (H3 & H3' & H3'').
  { destruct mp.
    - apply bind_Some in Eb as (m & _ & Eb).
      pose proof (pull_id (set_mem m f2) (hdrlen (attrib f) + iv_len (attrib f) + (if snap then SNAP_SIZE else 0) - 14 + 2 - 24)) as Hp.
      destruct (recvframe_pull _ _) as [f4 okp]. destruct okp; cbn [negb] in Eb.
      + apply bind_Some in Eb as (s & _ & Eb). apply bind_Some in Eb as (m' & _ & [= <- <-]). exact Hp.
      + injection Eb as <- <-. exact Hp.
    - match type of Eb with context [recvframe_pull f2 ?n] => pose proof (pull_id f2 n) as Hp end.
      destruct (recvframe_pull _ _) as [f4 okp]. injection Eb as <- <-. exact Hp. }
  rewrite <- H3', <- H3, <- H3'' in H2. clear H3 H3' H3'' Eb.
  destruct ptr as [ptr|]; [|by injection E as <- <-].
  apply bind_Some in E as (m1 & _ & E). apply bind_Some in E as (m2 & _ & E).
  apply bind_Some in E as (m3 & _ & E). by injection E as <- <-.
Qed.

Lemma wlanhdr_id mp f f' r : wlanhdr_to_ethhdr mp f = Some (f', r) ->
  rf_id f' = rf_id f /\ amsdu (attrib f') = amsdu (attrib f) /\ rf_pkt f' = rf_pkt f.
Proof. intros E. apply wlanhdr_keeps in E as (? & (t & ->) & ?). done. Qed.

Section conserve.
Context (ok : Z -> bool) (drv : drv_flags) (Hrun : running drv = true).

Lemma indicate_frame_pool f e e' : uniq ({[+ rf_id f +]} ⊎ pool e) -> amsdu_bit f -> indicate_frame ok drv f e = Some e' ->
  pool e' = {[+ rf_id f +]} ⊎ pool e.
Proof.
  intros Hu Hf. unfold indicate_frame. rewrite Hrun. destruct Hf as [-> | ->]; cbn [Z.eqb].
  - intros ([e1 r] & E & [= <-])%bind_Some. by eapply pool_indicatepkt.
  - intros ([e1 r] & E & E')%bind_Some. apply pool_amsdu in E as [E ->]; [|done]. by injection E' as <-.
Qed.

Lemma indicate_loop_frames q : forall seq e seq' q' e' b, uniq (pool e ⊎ frames q) -> Forall amsdu_bit q ->
  indicate_loop ok drv seq q e = Some (seq', q', e', b) ->
  Forall amsdu_bit q' /\ pool e' ⊎ frames q' = pool e ⊎ frames q.
Proof.
  induction q as [|f q IH]; intros seq e seq' q' e' b Hu Hq E; cbn [indicate_loop] in E.
  { by injection E as <- <- <- <-. }
  inversion Hq as [|? ? Hf Hq']; subst. destruct (negb _); [|by injection E as <- <- <- <-].
  rewrite frames_cons in *. apply bind_Some in E as (e1 & E1 & E).
  apply indicate_frame_pool in E1; [|uniq|done]. apply IH in E as [Hb ->]; [|rewrite E1; uniq|done].
  split; [done|]. rewrite E1. multiset_solver.
Qed.

Lemma reorder_insert_frames f q : forall q', amsdu_bit f -> Forall amsdu_bit q ->
  reorder_insert f q = Some q' -> Forall amsdu_bit q' /\ frames q' = {[+ rf_id f +]} ⊎ frames q.
Proof.
  induction q as [|n q IH]; intros q' Hf Hq E; cbn [reorder_insert] in E.
  { injection E as <-. split; [by constructor|done]. }
  inversion Hq as [|? ? Hn Hq']; subst. destruct (SN_LESS _ _).
  - apply bind_Some in E as (q1 & E & [= <-]). destruct (IH q1 Hf Hq' E) as [Hb E1].
    split; [by constructor|]. rewrite !frames_cons, E1. multiset_solver.
  - destruct (SN_EQUAL _ _); [done|]. injection E as <-. split; [by constructor|done].
Qed.

(** The frames of a window and of the pool. *)
Definition wf (s : rx_state) : gmultiset Z := pool (env s) ⊎ win_frames (ctl s).
Definition win_bits (s : rx_state) : Prop := Forall amsdu_bit (pending_recvframe_queue (ctl s)).

Lemma reorder_window_frames f s s' r : uniq ({[+ rf_id f +]} ⊎ wf s) -> amsdu_bit f -> win_bits s ->
  reorder_window ok drv f s = Some (s', r) ->
  win_bits s' /\ wf s' = (if r =? _SUCCESS then {[+ rf_id f +]} else ∅) ⊎ wf s.
Proof.
  unfold win_bits, wf, win_frames. intros Hu Hf Hq. unfold reorder_window.
  destruct (check_indicate_seq _ _ _) as [[c d] b] eqn:Ec.
  assert (pending_recvframe_queue c = pending_recvframe_queue (ctl s)) as Hc.
  { unfold check_indicate_seq in Ec. repeat case_match; by injection Ec as <- <- <-. }
  rewrite <- Hc in *. destruct b; cbn [negb].
  2: { intros [= <- <-]. cbn [ctl env]. split; [done|]. change (_FAIL =? _SUCCESS) with false. multiset_solver. }
  unfold enqueue_reorder_recvframe. destruct (reorder_insert f _) as [q1|] eqn:Ei; cbn [negb].
  2: { intros [= <- <-]. cbn [ctl env]. split; [done|]. change (_FAIL =? _SUCCESS) with false. multiset_solver. }
  apply reorder_insert_frames in Ei as [Hb1 E1]; [|done..].
  rewrite in_order_eq. cbn [set_pending pending_recvframe_queue indicate_seq].
  intros ([s2 b2] & E2 & [= <- <-])%bind_Some. apply bind_Some in E2 as ([[[seq q2] e2] b3] & El & [= <- <-]).
  apply indicate_loop_frames in El as [Hb2 El]; [|rewrite E1; uniq|done]. split; [done|].
  change (_SUCCESS =? _SUCCESS) with true. cbn [ctl env set_timer set_pending pending_recvframe_queue].
  rewrite El, E1. multiset_solver.
Qed.

Lemma recv_indicatepkt_reorder_frames f s s' r : uniq ({[+ rf_id f +]} ⊎ wf s) -> amsdu_bit f -> win_bits s ->
  recv_indicatepkt_reorder ok drv f s = Some (s', r) ->
  win_bits s' /\ wf s' = (if r =? _SUCCESS then {[+ rf_id f +]} else ∅) ⊎ wf s.
Proof.
  intros Hu Hf Hs. unfold recv_indicatepkt_reorder. destruct (amsdu (attrib f) =? 0).
  - intros ([f1 ret] & Ew & E)%bind_Some. apply wlanhdr_id in Ew as (Hid & Ha & _).
    assert (amsdu_bit f1) as Hf1 by (unfold amsdu_bit in *; by rewrite Ha). rewrite <- Hid in *.
    destruct (ret =? _SUCCESS) eqn:Er; cbn [negb] in E.
    2: { injection E as <- <-. split; [done|]. rewrite Er. multiset_solver. }
    destruct (qos (attrib f) =? 1); cbn [negb] in E.
    + destruct (enable (ctl s)); cbn [negb] in E; [by apply reorder_window_frames|].
      apply bind_Some in E as ([e1 r1] & E1 & [= <- <-]). apply pool_indicatepkt in E1; [|unfold wf in Hu; uniq].
      split; [done|]. unfold wf. cbn [env ctl]. rewrite E1. change (win_frames (set_seq _ _)) with (win_frames (ctl s)).
      change (_SUCCESS =? _SUCCESS) with true. multiset_solver.
    + rewrite Hrun in E. apply bind_Some in E as ([e1 r1] & E1 & [= <- <-]). apply pool_indicatepkt in E1; [|unfold wf in Hu; uniq].
      split; [done|]. unfold wf. cbn [env ctl]. rewrite E1. change (_SUCCESS =? _SUCCESS) with true. multiset_solver.
  - destruct (amsdu (attrib f) =? 1); [|by apply reorder_window_frames].
    destruct (enable (ctl s)); cbn [negb]; [by apply reorder_window_frames|].
    intros ([e1 r1] & E1 & [= <- <-])%bind_Some. apply pool_amsdu in E1 as [E1 ->]; [|unfold wf in Hu; uniq].
    split; [done|]. unfold wf. cbn [env ctl]. rewrite E1. change (win_frames (set_seq _ _)) with (win_frames (ctl s)).
    change (_SUCCESS =? _SUCCESS) with true. multiset_solver.
Qed.

(** A frame that the window refuses changes neither the pool nor the packets indicated. *)
Lemma reorder_fail_env f s s' r : recv_indicatepkt_reorder ok drv f s = Some (s', r) -> r <> _SUCCESS ->
  env s' = env s.
Proof.
  assert (Hwin : forall g, reorder_window ok drv g s = Some (s', r) -> r <> _SUCCESS -> env s' = env s).
  { intros g E Hr. unfold reorder_window in E. destruct (check_indicate_seq _ _ _) as [[c d] b].
    destruct b; cbn [negb] in E; [|by injection E as <- <-].
    destruct (enqueue_reorder_recvframe c g) as [c' b]. destruct b; cbn [negb] in E; [|by injection E as <- <-].
    apply bind_Some in E as ([s1 b1] & _ & E). by injection E as <- <-. }
  intros E Hr. unfold recv_indicatepkt_reorder in E. destruct (amsdu (attrib f) =? 0).
  - apply bind_Some in E as ([g ret] & _ & E). destruct (negb (ret =? _SUCCESS)); [by injection E as <- <-|].
    destruct (negb (qos (attrib f) =? 1)).
    + rewrite Hrun in E. apply bind_Some in E as ([e1 r1] & _ & E). by injection E as <- <-.
    + destruct (negb (enable (ctl s))); [|by eapply Hwin].
      apply bind_Some in E as ([e1 r1] & _ & E). by injection E as <- <-.
  - destruct (amsdu (attrib f) =? 1); [|by eapply Hwin]. destruct (negb (enable (ctl s))); [|by eapply Hwin].
    apply bind_Some in E as ([e1 r1] & E1 & E). injection E as <- <-.
    by apply amsdu_result in E1.
Qed.
End conserve.

(** The accounts after a change of one station and of the pool. *)
Lemma accounted_update a o s s' e : stas (stapriv a) !! o = Some s ->
  pool (recvpriv a) ⊎ sta_frames s ⊎ accounted (set_env e (upd_stas (<[o := s']> (stas (stapriv a))) a)) =
  pool e ⊎ sta_frames s' ⊎ accounted a.
Proof.
  intros Hs. unfold accounted.
  change (recvpriv (set_env e _)) with e.
  change (stas (stapriv (set_env e (upd_stas ?sts a)))) with sts.
  pose proof (msum_insert sta_frames _ _ _ s' Hs). multiset_solver.
Qed.

Lemma bits_update a o s' e : bits a -> sta_bits s' ->
  bits (set_env e (upd_stas (<[o := s']> (stas (stapriv a))) a)).
Proof. intros Ha Hs. by apply Forall_insert. Qed.

Lemma free_accounted f w : uniq ({[+ rf_id f +]} ⊎ accounted (rw_ad w)) ->
  accounted (rw_ad (free_frame f w)) = {[+ rf_id f +]} ⊎ accounted (rw_ad w).
Proof.
  unfold accounted, free_frame. cbn [rw_ad set_ad set_env recvpriv stapriv]. intros Hu.
  rewrite pool_free by uniq. multiset_solver.
Qed.

Lemma reorder_at_frames ok drv f w w' r : running drv = true ->
  uniq ({[+ rf_id f +]} ⊎ accounted (rw_ad w)) -> amsdu_bit f -> bits (rw_ad w) ->
  reorder_at ok drv f w = Some (w', r) -> bits (rw_ad w') /\
  accounted (rw_ad w') = (if r =? _SUCCESS then {[+ rf_id f +]} else ∅) ⊎ accounted (rw_ad w).
Proof.
  intros Hrun Hu Hf Hb. unfold reorder_at. intros (s & Hs & E)%bind_Some.
  apply bind_Some in E as (c & Hc & E). apply bind_Some in E as ([st r1] & Er & [= <- <-]).
  pose proof (proj1 (Forall_lookup _ _) Hb _ _ Hs) as [Hdq Hws].
  assert (win_bits (mk_rxs c (rw_dbg w) (recvpriv (rw_ad w)))) as Hwb
    by exact (proj1 (Forall_lookup _ _) Hws _ _ Hc).
  pose proof (msum_lookup sta_frames _ _ _ Hs) as Hsub. pose proof (msum_lookup win_frames _ _ _ Hc) as Hcub.
  apply recv_indicatepkt_reorder_frames in Er as [Hb' E]; [|done| |done..].
  2: { unfold wf, accounted, sta_frames in *. cbn [env ctl]. uniq. }
  cbn [rw_ad].
  split.
  - apply bits_update; [done|]. split; [done|]. by apply Forall_insert.
  - match goal with |- accounted (set_env _ (upd_stas (<[_ := ?s']> _) _)) = _ =>
      pose proof (accounted_update (rw_ad w) _ s s' (env st) Hs) as Ha end.
    unfold sta_frames in Ha. cbn [set_windows defrag_q recvreorder_ctrl] in Ha.
    pose proof (msum_insert win_frames _ _ _ (ctl st) Hc) as Hm.
    unfold wf in E. cbn [env ctl] in E. revert Ha Hm E.
    set (A := accounted (set_env _ _)). clearbody A. multiset_solver.
Qed.

Lemma process_frames ok drv ht f w w' r : running drv = true ->
  uniq ({[+ rf_id f +]} ⊎ accounted (rw_ad w)) -> amsdu_bit f -> bits (rw_ad w) ->
  process_recv_indicatepkts ok drv ht f w = Some (w', r) -> bits (rw_ad w') /\
  accounted (rw_ad w') = (if r =? _SUCCESS then {[+ rf_id f +]} else ∅) ⊎ accounted (rw_ad w).
Proof.
  intros Hrun Hu Hf Hb. unfold process_recv_indicatepkts. rewrite Hrun. destruct ht.
  - intros ([w1 r1] & E & [= <- <-])%bind_Some. apply reorder_at_frames in E as [Hb' E]; [|done..].
    split; [done|]. rewrite E. by destruct (r1 =? _SUCCESS).
  - intros ([f1 ret] & Ew & E)%bind_Some. apply wlanhdr_id in Ew as (Hid & _). rewrite <- Hid in *.
    destruct (ret =? _SUCCESS) eqn:Er; cbn [negb] in E.
    2: { injection E as <- <-. rewrite Er. split; [done|]. multiset_solver. }
    apply bind_Some in E as ([e1 r1] & E1 & [= <- <-]). apply pool_indicatepkt in E1; [|unfold accounted in Hu; uniq].
    split; [done|]. change (_SUCCESS =? _SUCCESS) with true. unfold accounted.
    cbn [rw_ad set_ad set_env recvpriv stapriv]. rewrite E1. multiset_solver.
Qed.

Lemma chkmic_id HZ now sp sec m f f' m' r : recvframe_chkmic HZ now sp sec m f = Some (f', m', r) ->
  rf_id f' = rf_id f /\ attrib f' = attrib f.
Proof.
  unfold recvframe_chkmic. destruct (_ =? _TKIP_); [|by intros [= <- <- <-]].
  destruct (rtw_get_stainfo _ _);
    [|intros [= <- <- <-]; by destruct (pull_tail_id f 8) as (-> & -> & _)].
  intros (s & _ & E)%bind_Some. apply bind_Some in E as (k & _ & E). destruct (_ && _); [by injection E as <- <- <-|].
  cbv zeta in E. apply bind_Some in E as (data & _ & E). apply bind_Some in E as (mic & _ & E).
  apply bind_Some in E as (pm & _ & E). destruct (if bool_decide _ then _ else _) as [m1 res].
  injection E as <- <- <-. by destruct (pull_tail_id f 8) as (-> & -> & _).
Qed.

Lemma defrag_loop_id q : forall n f f', defrag_loop n f q = Some (inr f') ->
  rf_id f' = rf_id f /\ amsdu (attrib f') = amsdu (attrib f).
Proof.
  induction q as [|x q IH]; intros n f f' E; cbn [defrag_loop] in E; [by injection E as <-|].
  destruct (negb _); [done|]. cbv zeta in E. apply bind_Some in E as (p & _ & E).
  apply bind_Some in E as (m & _ & E). apply IH in E as [-> ->]. cbn [set_attrib set_icv_len rf_id attrib amsdu].
  match goal with |- context [recvframe_put ?g ?k] => destruct (put_id g k) as (-> & -> & _) end.
  cbn [set_mem rf_id attrib]. match goal with |- context [recvframe_pull_tail ?g ?k] => by destruct (pull_tail_id g k) as (-> & -> & _) end.
Qed.

Lemma recvframe_defrag_frames q e r e' : uniq (frames q ⊎ pool e) -> Forall amsdu_bit q ->
  recvframe_defrag q e = Some (r, e') ->
  match r with
  | None => pool e' = frames q ⊎ pool e
  | Some p => amsdu_bit p /\ exists f rest, q = f :: rest /\ frag_num (attrib f) = 0 /\
      rf_id p = rf_id f /\ pool e' = frames rest ⊎ pool e
  end.
Proof.
  intros Hu Hq E. destruct q as [|f q]; [done|]. inversion Hq as [|? ? Hf Hq']; subst. cbn [recvframe_defrag] in E.
  rewrite frames_cons in *. destruct (negb (0 =? frag_num (attrib f))) eqn:E0.
  { injection E as <- <-. rewrite pool_free_queue; rewrite pool_free; [multiset_solver|uniq..]. }
  apply negb_false_iff, Z.eqb_eq in E0. apply bind_Some in E as ([f1|f1] & El & [= <- <-]).
  - rewrite pool_free_queue; rewrite pool_free; [multiset_solver|uniq..].
  - apply defrag_loop_id in El as [Hid Ha]. split; [unfold amsdu_bit in *; by rewrite Ha|].
    exists f, q. rewrite pool_free_queue by uniq. by split_and!.
Qed.

(** After [f] is queued: it is accounted for when there is no result; otherwise the result
    is [f], or [f] is the last fragment, free already, and the result is the first one. *)
Lemma defrag_enqueue_frames f pd a a' r : uniq ({[+ rf_id f +]} ⊎ accounted a) -> amsdu_bit f ->
  mfrag (attrib f) = 0 \/ mfrag (attrib f) = 1 ->
  bits a -> defrag_enqueue f pd a = Some (a', r) ->
  bits a' /\
  match r with
  | None => accounted a' = {[+ rf_id f +]} ⊎ accounted a
  | Some p => amsdu_bit p /\ {[+ rf_id p +]} ⊎ accounted a' = {[+ rf_id f +]} ⊎ accounted a /\
      (mfrag (attrib f) = 0 /\ frag_num (attrib f) <> 0 /\ rf_id f ∈ pool (recvpriv a') \/ p = f)
  end.
Proof.
  intros Hu Hf Hm Hb. unfold defrag_enqueue. destruct (_ && _) eqn:E0.
  { intros [= <- <-]. split; [done|]. split; [done|]. split; [multiset_solver|by right]. }
  assert (Hfree : accounted (set_env (rtw_free_recvframe f (recvpriv a)) a) = {[+ rf_id f +]} ⊎ accounted a).
  { unfold accounted in *. cbn [set_env recvpriv stapriv]. rewrite pool_free by uniq. multiset_solver. }
  destruct pd as [o|]; [|by destruct Hm as [-> | ->]; intros [= <- <-]].
  intros (s & Hs & E)%bind_Some. pose proof (proj1 (Forall_lookup _ _) Hb _ _ Hs) as [Hdq Hws].
  assert (Forall amsdu_bit (defrag_q s ++ [f])) as Hq by (apply Forall_app; by split; [|constructor]).
  pose proof (msum_lookup sta_frames _ _ _ Hs) as Hsub.
  assert (uniq (frames (defrag_q s ++ [f]) ⊎ pool (recvpriv a))) as Hu'.
  { rewrite frames_app. change (frames [f]) with ({[+ rf_id f +]} ⊎ (∅ : gmultiset Z)).
    unfold accounted in Hu. unfold sta_frames at 1 in Hsub. uniq. }
  destruct Hm as [Hm|Hm]; rewrite Hm in *; cbn [Z.eqb] in E.
  - apply bind_Some in E as ([r1 e1] & E1 & [= <- <-]). apply recvframe_defrag_frames in E1; [|done..].
    rewrite frames_app in E1. split; [apply bits_update; [done|]; by split; [constructor|]|].
    pose proof (accounted_update a o s (set_defrag_q [] s) e1 Hs) as Ha.
    unfold sta_frames in Ha. cbn [set_defrag_q defrag_q recvreorder_ctrl] in Ha.
    change (frames []) with (∅ : gmultiset Z) in Ha.
    change (frames [f]) with ({[+ rf_id f +]} ⊎ (∅ : gmultiset Z)) in E1.
    cbn [andb Z.eqb] in E0. revert Ha. set (A := accounted (set_env _ _)).
    cbn [set_env recvpriv].
    clearbody A. intros Ha. destruct r1 as [p|]; [|multiset_solver].
    destruct E1 as (Hp & f0 & rest & Eq & Hf0 & Hid & E1). split; [done|].
    destruct (defrag_q s) as [|f1 q1]; [injection Eq as <- <-; lia|]. injection Eq as <- <-.
    rewrite frames_app in E1. change (frames [f]) with ({[+ rf_id f +]} ⊎ (∅ : gmultiset Z)) in E1.
    rewrite frames_cons in Ha. rewrite Hid. split; [multiset_solver|]. left. split; [done|]. split; [lia|].
    rewrite E1. multiset_solver.
  - destruct (if frag_num (attrib f) =? 0 then _ else _) as [q e1] eqn:Eq. injection E as <- <-.
    assert (Forall amsdu_bit q /\ pool e1 ⊎ frames q = pool (recvpriv a) ⊎ frames (defrag_q s)) as [Hqb Hqe].
    { clear E0. rewrite frames_app in Hu'.
      destruct (frag_num (attrib f) =? 0); injection Eq as <- <-; [|done]. split; [constructor|].
      rewrite pool_free_queue by uniq. change (frames []) with (∅ : gmultiset Z). multiset_solver. }
    split; [apply bits_update; [done|]; split; [|done]; apply Forall_app; by split; [|constructor]|].
    pose proof (accounted_update a o s (set_defrag_q (q ++ [f]) s) e1 Hs) as Ha.
    unfold sta_frames in Ha. cbn [set_defrag_q defrag_q recvreorder_ctrl] in Ha.
    rewrite frames_app in Ha. change (frames [f]) with ({[+ rf_id f +]} ⊎ (∅ : gmultiset Z)) in Ha.
    revert Ha. set (A := accounted (set_env _ _)). clearbody A. multiset_solver.
Qed.

Lemma chk_defrag_frames HZ now f w w' r : uniq ({[+ rf_id f +]} ⊎ accounted (rw_ad w)) -> amsdu_bit f ->
  mfrag (attrib f) = 0 \/ mfrag (attrib f) = 1 ->
  bits (rw_ad w) -> recvframe_chk_defrag HZ now f w = Some (w', r) ->
  bits (rw_ad w') /\
  match r with
  | None => accounted (rw_ad w') = {[+ rf_id f +]} ⊎ accounted (rw_ad w)
  | Some p => amsdu_bit p /\
      {[+ rf_id p +]} ⊎ accounted (rw_ad w') = {[+ rf_id f +]} ⊎ accounted (rw_ad w) /\
      (mfrag (attrib f) = 0 /\ frag_num (attrib f) <> 0 /\ rf_id f ∈ pool (recvpriv (rw_ad w')) \/
       rf_id p = rf_id f)
  end.
Proof.
  intros Hu Hf Hm Hb. unfold recvframe_chk_defrag. intros (pd & _ & E)%bind_Some.
  apply bind_Some in E as ([a r1] & E1 & E). apply defrag_enqueue_frames in E1 as [Hb1 E1]; [|done..].
  destruct r1 as [p|]; [|by injection E as <- <-]. destruct E1 as (Hp & Ep & Hcase).
  assert (Hc : mfrag (attrib f) = 0 /\ frag_num (attrib f) <> 0 /\ rf_id f ∈ pool (recvpriv a) \/ rf_id p = rf_id f)
    by (destruct Hcase as [?| ->]; [by left|by right]).
  destruct (privacy (attrib p)); [|by injection E as <- <-].
  apply bind_Some in E as ([[p1 m] res] & Ec & E). apply chkmic_id in Ec as [Hid Ha].
  rewrite <- Hid in *. destruct (res =? _FAIL); injection E as <- <-.
  - split; [done|]. rewrite free_accounted; [exact Ep|]. change (uniq ({[+ rf_id p1 +]} ⊎ accounted a)).
    by rewrite Ep.
  - split; [done|]. split; [unfold amsdu_bit in *; by rewrite Ha|done].
Qed.

(** A frame that is refused leaves the pool alone. *)
Lemma process_fail ok drv ht f w w' r : running drv = true ->
  process_recv_indicatepkts ok drv ht f w = Some (w', r) -> r <> _SUCCESS ->
  recvpriv (rw_ad w') = recvpriv (rw_ad w).
Proof.
  intros Hrun E Hr. unfold process_recv_indicatepkts in E. rewrite Hrun in E. destruct ht.
  - apply bind_Some in E as ([w1 r1] & E & [= <- <-]).
    destruct (Z.eqb_spec r1 _SUCCESS) as [|Hr1]; [done|]. clear Hr. unfold reorder_at in E.
    apply bind_Some in E as (s & _ & E). apply bind_Some in E as (c & _ & E).
    apply bind_Some in E as ([st r2] & E & [= <- <-]). cbn [rw_ad set_env recvpriv].
    eapply reorder_fail_env in E; done.
  - apply bind_Some in E as ([f1 ret] & _ & E). destruct (negb (ret =? _SUCCESS)); [by injection E as <- <-|].
    by apply bind_Some in E as ([e1 r1] & _ & [= <- <-]).
Qed.

Lemma posthandle_run HZ now ok drv ht cw auth f w w' r :
  running drv = true -> amsdu_bit f -> mfrag (attrib f) = 0 \/ mfrag (attrib f) = 1 -> bits (rw_ad w) ->
  uniq ({[+ rf_id f +]} ⊎ accounted (rw_ad w)) ->
  recv_func_posthandle HZ now ok drv ht cw auth f w = Some (w', r) ->
  bits (rw_ad w') /\
  (accounted (rw_ad w') = {[+ rf_id f +]} ⊎ accounted (rw_ad w) \/
   (mfrag (attrib f) = 0 /\ frag_num (attrib f) <> 0 /\ r <> _SUCCESS /\
    exists p, {[+ p +]} ⊎ accounted (rw_ad w') = {[+ rf_id f +]} ⊎ accounted (rw_ad w))).
Proof.
  intros Hrun Hf Hm Hb Hu. unfold recv_func_posthandle. intros ([[v g] sec] & _ & E)%bind_Some.
  set (w0 := mk_rw _ _ _ sec g _) in E. assert (Hw : rw_ad w = rw_ad w0) by done.
  clearbody w0. rewrite Hw in *. clear Hw w.
  destruct v as [v|].
  2: { injection E as <- <-. split; [done|left; by apply free_accounted]. }
  apply bind_Some in E as ([w1 p] & E1 & E). apply chk_defrag_frames in E1 as [Hb1 E1]; [|done..].
  change (rf_id (of_cipher_view f v)) with (rf_id f) in E1.
  change (mfrag (attrib (of_cipher_view f v))) with (mfrag (attrib f)) in E1.
  change (frag_num (attrib (of_cipher_view f v))) with (frag_num (attrib f)) in E1.
  destruct p as [p|]; [|injection E as <- <-; by split; [|left]].
  destruct E1 as (Hp & E1 & Hcase). apply bind_Some in E as ([w2 p2] & E2 & E).
  rewrite <- E1 in Hu |- *.
  assert (p2 = Some p /\ w2 = w1 \/ p2 = None /\ w2 = free_frame p w1) as [[-> ->]|[-> ->]].
  { unfold portctrl in E2. destruct (_ && _); [|injection E2 as <- <-; by left].
    apply bind_Some in E2 as (t & _ & E2). destruct (_ =? _); injection E2 as <- <-; [by left|by right]. }
  2: { injection E as <- <-. split; [done|]. left. by apply free_accounted. }
  apply bind_Some in E as ([w3 r3] & E3 & E). pose proof E3 as Hfail.
  apply process_frames in E3 as [Hb3 E3]; [|done..].
  destruct (Z.eqb_spec r3 _SUCCESS) as [Er|Er]; cbn [negb] in E; injection E as <- <-; [by split; [|left]|].
  split; [done|]. change (rw_ad (count_drop (free_frame f w3))) with (rw_ad (free_frame f w3)).
  apply process_fail in Hfail; [|done..]. assert (accounted (rw_ad w3) = accounted (rw_ad w1)) as E3' by multiset_solver.
  destruct Hcase as [(Hm0 & Hn & Hin)|Hid].
  - right. do 3 (split; [done|]). exists (rf_id p). f_equal. rewrite <- E3'. unfold accounted.
    unfold free_frame. cbn [rw_ad set_ad set_env recvpriv stapriv].
    rewrite pool_free_again; [done| |by rewrite Hfail]. rewrite Hfail. unfold accounted in Hu. uniq.
  - left. rewrite Hid in *. rewrite free_accounted by (by rewrite E3'). by rewrite E3'.
Qed.

(** ** Delivery *)

Definition body_type (body : list Z) : Z := be_val (take 2 (drop 6 body)).

(** What the 802.1X port lets through for a station. *)
Definition port_open (auth_alg : Z) (s : sta_info) (body : list Z) : bool :=
  negb ((auth_alg =? 2) && ieee8021x_blocked s) || (body_type body =? eapol_type).

(** The transmitter is in the table, and the frame passes its window at once: no HT, or
    no block-ack agreement for its priority. *)
Record ready_for (ht : bool) (f : rframe) (w : rx_world) (o : nat) (s : sta_info) : Prop := {
  rdy_known : rtw_get_stainfo (stapriv (rw_ad w)) (ta (attrib f)) = Some o;
  rdy_sta : stas (stapriv (rw_ad w)) !! o = Some s;
  rdy_whole : mfrag (attrib f) = 0 /\ frag_num (attrib f) = 0 /\ amsdu (attrib f) = 0;
  rdy_pkt : rf_pkt f = true;
  rdy_window : ht = true -> exists s' c, stas (stapriv (rw_ad w)) !! rf_psta f = Some s' /\
    recvreorder_ctrl s' !! Z.to_nat (priority (attrib f)) = Some c /\
    (qos (attrib f) <> 1 \/ enable c = false);
  rdy_addrs : zlen (dst (attrib f)) = 6 /\ zlen (src (attrib f)) = 6
}.

(** A data frame: MAC header and IV, an LLC body, and a trailer. *)
Record data_frame (f : rframe) (pre h body t post : list Z) : Prop := {
  df_repr : rx_repr f pre (h ++ body ++ t) post;
  df_hdr : zlen h = hdrlen (attrib f) + iv_len (attrib f);
  df_hdr14 : 14 <= zlen h;
  df_body : 8 <= zlen body;
  df_bytes : bytes_ok body;
  df_trailer : zlen t = if encrypt (attrib f) =? 0 then 0 else icv_len (attrib f)
}.

(** The frame's buffer is free, and its packets, for the destination [d], have gone to
    the stack or the air; without packets the frame is dropped. *)
Definition handled (o : os_env) (f : rframe) (d : list Z) (pkts : list (list Z)) (e e' : rx_env) : Prop :=
  free_recv_queue e' = relink (rf_id f) (free_recv_queue e) /\
  indicated e' = indicated e ++ concat (map (to_stack o d) pkts) /\
  forwarded e' = forwarded e ++ concat (map (to_air o d) pkts).

Lemma handled_none o f d e e' : free_recv_queue e' = relink (rf_id f) (free_recv_queue e) ->
  indicated e' = indicated e -> forwarded e' = forwarded e -> handled o f d [] e e'.
Proof. intros H1 H2 H3. unfold handled. cbn. by rewrite !app_nil_r. Qed.

(** The same lookups give the same receivers. *)
Lemma handled_table sp sp' o f d pkts e e' : (forall x, rtw_get_stainfo sp' x = rtw_get_stainfo sp x) ->
  handled (os_at sp' o) f d pkts e e' -> handled (os_at sp o) f d pkts e e'.
Proof.
  intros H. assert (Hr : receiver_of (os_at sp' o) d = receiver_of (os_at sp o) d).
  { unfold receiver_of, rtw_get_bcmc_stainfo. cbn. unfold rtw_get_bcmc_stainfo. by rewrite !H. }
  unfold handled. assert (map (to_stack (os_at sp' o) d) pkts = map (to_stack (os_at sp o) d) pkts) as ->.
  { apply map_ext. intros p. unfold to_stack. by rewrite Hr. }
  assert (map (to_air (os_at sp' o) d) pkts = map (to_air (os_at sp o) d) pkts) as ->; [|done].
  apply map_ext. intros p. unfold to_air. by rewrite Hr.
Qed.

Lemma indicate_run o f e : rx_ok f -> rf_pkt f = true ->
  exists e', rtw_recv_indicatepkt o f e = Some (e', _SUCCESS) /\ handled o f (dst (attrib f)) [rx_bytes f] e e'.
Proof.
  intros [Hd Ht Hl] Hp. unfold rtw_recv_indicatepkt. rewrite Hp, rd_Some by lia.
  cbn [mbind option_bind]. eexists. split; [done|]. rewrite indicate_pkt_shares. unfold handled.
  cbn [map concat]. rewrite !app_nil_r. unfold rx_bytes. by rewrite Hl.
Qed.

Lemma process_run ok drv ht f w o s pre h body t post :
  running drv = true -> mp_state drv = false -> ready_for ht f w o s -> data_frame f pre h body t post ->
  exists w', process_recv_indicatepkts ok drv ht f w = Some (w', _SUCCESS) /\
    handled (os_at (stapriv (rw_ad w)) (os drv)) f (dst (attrib f)) [msdu_pkt (attrib f) body]
      (recvpriv (rw_ad w)) (recvpriv (rw_ad w')) /\ rw_mic w' = rw_mic w.
Proof.
  intros Hrun Hmp [_ _ (_ & _ & Ha) Hp Hw [Hd Hs]] [Hr Hh H14 Hb Hbo Ht].
  destruct (wlanhdr_to_ethhdr_run f pre h body t post) as (f' & Ef & Hok & Hbytes); try done.
  rewrite <- Hbytes. pose proof Ef as Hid. apply wlanhdr_keeps in Hid as (Hid & (ty & Hat) & Hp').
  rewrite Hp in Hp'.
  destruct (indicate_run (os_at (stapriv (rw_ad w)) (os drv)) f' (recvpriv (rw_ad w)) Hok Hp') as (e' & Ee & Hh').
  unfold handled in *. rewrite Hid, Hat in Hh'. unfold process_recv_indicatepkts, reorder_at, recv_indicatepkt_reorder.
  destruct ht.
  - destruct (Hw eq_refl) as (s' & c & -> & Hc & Hq). cbn [mbind option_bind]. rewrite Hc. cbn [mbind option_bind].
    change (mp_state (drv_at _ drv)) with (mp_state drv). change (running (drv_at _ drv)) with (running drv).
    change (os (drv_at ?sp drv)) with (os_at sp (os drv)). rewrite Ha, Hmp, Ef, Hrun. cbn [mbind option_bind Z.eqb]. change (negb (_SUCCESS =? _SUCCESS)) with false.
    cbv iota. cbn [env ctl dbg]. rewrite Ee. destruct (Z.eqb_spec (qos (attrib f)) 1) as [E|E]; cbn [negb].
    + destruct Hq as [Hq| ->]; [done|]. cbn [negb mbind option_bind]. eexists. split; [done|]. by split.
    + cbn [mbind option_bind]. eexists. split; [done|]. by split.
  - rewrite Hmp, Ef, Hrun. cbn [mbind option_bind]. change (negb (_SUCCESS =? _SUCCESS)) with false.
    cbv iota. rewrite Ee. cbn [mbind option_bind]. eexists. split; [done|]. by split.
Qed.

Lemma portctrl_run auth f w o s pre h body t post :
  rtw_get_stainfo (stapriv (rw_ad w)) (ta (attrib f)) = Some o -> stas (stapriv (rw_ad w)) !! o = Some s ->
  data_frame f pre h body t post ->
  portctrl auth f w = Some (if port_open auth s body then (w, Some f) else (free_frame f w, None)).
Proof.
  intros Ho Hs [Hr Hh _ Hb _ _]. unfold portctrl, port_open. rewrite Ho, Hs.
  destruct (_ && _); [|done]. cbn [negb orb].
  destruct (split_at body 6) as (x & y & -> & Hx & Hy); [lia|].
  destruct (split_at y 2) as (u & v & -> & Hu & Hv); [lia|].
  replace (h ++ (x ++ u ++ v) ++ t) with ((h ++ x) ++ u ++ (v ++ t)) in Hr by by rewrite <- !app_assoc.
  unfold LLC_HEADER_SIZE.
  rewrite (rd_repr f pre (h ++ x) u (v ++ t) post) by (done || rewrite ?zlen_app; lia).
  cbn [mbind option_bind]. unfold body_type.
  replace (take 2 (drop 6 (x ++ u ++ v))) with u; [by destruct (_ =? _)|].
  rewrite drop_app_length' by (unfold zlen in *; lia). rewrite take_app_length' by (unfold zlen in *; lia). done.
Qed.

(** From the decrypted frame on: [f2] has passed the MIC check, and the port decides. *)
Lemma posthandle_checked HZ now ok drv ht cw auth f v g sec w o s f2 m' pre h body t post :
  let f1 := of_cipher_view f v in
  running drv = true -> mp_state drv = false ->
  decryptor cw (rw_sec w) (stapriv (rw_ad w)) (cipher_view f) (rw_glob w) = Some (Some v, g, sec) ->
  (if privacy (attrib f) then recvframe_chkmic HZ now (stapriv (rw_ad w)) sec (rw_mic w) f1
   else Some (f1, rw_mic w, _SUCCESS)) = Some (f2, m', _SUCCESS) ->
  ready_for ht f w o s -> rf_id f2 = rf_id f -> rf_pkt f2 = rf_pkt f -> rf_psta f2 = rf_psta f ->
  attrib f2 = attrib f1 -> data_frame f2 pre h body t post ->
  exists w', recv_func_posthandle HZ now ok drv ht cw auth f w =
      Some (w', if port_open auth s body then _SUCCESS else _FAIL) /\
    handled (os_at (stapriv (rw_ad w)) (os drv)) f (dst (attrib f)) (if port_open auth s body then [msdu_pkt (attrib f) body] else [])
      (recvpriv (rw_ad w)) (recvpriv (rw_ad w')) /\ rw_mic w' = m'.
Proof.
  intros f1 Hrun Hmp Hdec Hmic Hrdy Hid Hpk Hps Hat Hdf.
  unfold recv_func_posthandle. rewrite Hdec. cbn [mbind option_bind]. fold f1.
  set (w0 := mk_rw _ _ _ sec g _). set (w1 := set_mic m' w0).
  assert (ready_for ht f2 w1 o s) as Hr1.
  { destruct Hrdy. constructor; rewrite ?Hat, ?Hpk, ?Hps; done. }
  destruct Hrdy as [Ho Hs (Hm & Hn & _) _ _ _].
  assert (recvframe_chk_defrag HZ now f1 w0 = Some (w1, Some f2)) as ->.
  { unfold recvframe_chk_defrag, defrag_station. change (ta (attrib f1)) with (ta (attrib f)).
    change (stapriv (rw_ad w0)) with (stapriv (rw_ad w)). rewrite Ho. cbn [mbind option_bind].
    unfold defrag_enqueue. change (mfrag (attrib f1)) with (mfrag (attrib f)).
    change (frag_num (attrib f1)) with (frag_num (attrib f)). rewrite Hm, Hn. cbn [andb Z.eqb mbind option_bind].
    change (privacy (attrib f1)) with (privacy (attrib f)). destruct (privacy (attrib f)).
    - change (rw_mic (set_ad (rw_ad w0) w0)) with (rw_mic w). change (rw_sec (set_ad (rw_ad w0) w0)) with sec.
      change (stapriv (rw_ad w0)) with (stapriv (rw_ad w)). by rewrite Hmic.
    - by injection Hmic as <- <-. }
  assert (rtw_get_stainfo (stapriv (rw_ad w1)) (ta (attrib f2)) = Some o) as Ho1 by apply Hr1.
  cbn [mbind option_bind]. rewrite (portctrl_run auth f2 w1 o s pre h body t post) by done.
  destruct (port_open auth s body).
  - cbn [mbind option_bind]. destruct (process_run ok drv ht f2 w1 o s pre h body t post) as (w' & -> & Hh & Hm'); [done..|].
    cbn [mbind option_bind]. change (negb (_SUCCESS =? _SUCCESS)) with false. cbv iota. exists w'. split; [done|].
    split; [|done]. unfold handled in *. rewrite Hid, Hat in Hh. exact Hh.
  - cbn [mbind option_bind]. eexists. split; [done|]. split; [|done]. by apply handled_none; cbn; rewrite ?Hid.
Qed.

(** A frame whose MIC is wrong is dropped; the result is the initial [_SUCCESS]. *)
Lemma posthandle_mic_fail HZ now ok drv ht cw auth f v g sec w o s f2 m' o' d :
  decryptor cw (rw_sec w) (stapriv (rw_ad w)) (cipher_view f) (rw_glob w) = Some (Some v, g, sec) ->
  ready_for ht f w o s -> privacy (attrib f) = true ->
  recvframe_chkmic HZ now (stapriv (rw_ad w)) sec (rw_mic w) (of_cipher_view f v) = Some (f2, m', _FAIL) ->
  rf_id f2 = rf_id f ->
  exists w', recv_func_posthandle HZ now ok drv ht cw auth f w = Some (w', _SUCCESS) /\
    handled o' f d [] (recvpriv (rw_ad w)) (recvpriv (rw_ad w')) /\ rw_mic w' = m'.
Proof.
  intros Hdec [Ho _ (Hm & Hn & _) _ _ _] Hpriv Hmic Hid. set (f1 := of_cipher_view f v) in *.
  unfold recv_func_posthandle. rewrite Hdec. cbn [mbind option_bind]. fold f1.
  unfold recvframe_chk_defrag, defrag_station. change (ta (attrib f1)) with (ta (attrib f)).
  cbn [rw_ad]. rewrite Ho. cbn [mbind option_bind]. unfold defrag_enqueue.
  change (mfrag (attrib f1)) with (mfrag (attrib f)). change (frag_num (attrib f1)) with (frag_num (attrib f)).
  rewrite Hm, Hn. cbn [andb Z.eqb mbind option_bind]. change (privacy (attrib f1)) with (privacy (attrib f)).
  rewrite Hpriv. cbn [set_ad rw_mic rw_sec]. rewrite Hmic. cbn [mbind option_bind].
  change (_FAIL =? _FAIL) with true. cbv iota. cbn [mbind option_bind]. eexists. split; [done|]. split; [|done].
  apply handled_none; cbn; by rewrite ?Hid.
Qed.

(** Without TKIP there is no MIC to check. *)
Lemma posthandle_clear HZ now ok drv ht cw auth f v g sec w o s pre h body t post :
  running drv = true -> mp_state drv = false ->
  decryptor cw (rw_sec w) (stapriv (rw_ad w)) (cipher_view f) (rw_glob w) = Some (Some v, g, sec) ->
  encrypt (attrib f) <> _TKIP_ ->
  ready_for ht f w o s -> data_frame (of_cipher_view f v) pre h body t post ->
  exists w', recv_func_posthandle HZ now ok drv ht cw auth f w =
      Some (w', if port_open auth s body then _SUCCESS else _FAIL) /\
    handled (os_at (stapriv (rw_ad w)) (os drv)) f (dst (attrib f)) (if port_open auth s body then [msdu_pkt (attrib f) body] else [])
      (recvpriv (rw_ad w)) (recvpriv (rw_ad w')).
Proof.
  intros Hrun Hmp Hdec Henc Hrdy Hdf.
  destruct (posthandle_checked HZ now ok drv ht cw auth f v g sec w o s (of_cipher_view f v) (rw_mic w)
    pre h body t post) as (w' & ? & ? & _); try done; [|by exists w'].
  unfold recvframe_chkmic. change (encrypt (attrib (of_cipher_view f v))) with (encrypt (attrib f)).
  rewrite (proj2 (Z.eqb_neq _ _) Henc). by destruct (privacy (attrib f)).
Qed.

Lemma posthandle_port_run HZ now ok drv ht cw auth f w o s pre h body post :
  running drv = true -> mp_state drv = false -> encrypt (attrib f) = 0 ->
  ready_for ht f w o s -> data_frame f pre h body [] post ->
  exists w', recv_func_posthandle HZ now ok drv ht cw auth f w =
      Some (w', if port_open auth s body then _SUCCESS else _FAIL) /\
    handled (os_at (stapriv (rw_ad w)) (os drv)) f (dst (attrib f)) (if port_open auth s body then [msdu_pkt (attrib f) body] else [])
      (recvpriv (rw_ad w)) (recvpriv (rw_ad w')).
Proof.
  intros Hrun Hmp Henc Hr Hd.
  assert (Hdec : decryptor cw (rw_sec w) (stapriv (rw_ad w)) (cipher_view f) (rw_glob w) =
    Some (Some (set_bdecrypted true (cipher_view f)), rw_glob w, rw_sec w)).
  { assert (ra_encrypt (cipher_view f) = 0) as E by done.
    unfold decryptor, extract_key_index. rewrite E. cbn [Z.ltb Z.compare mbind option_bind].
    rewrite E. cbn [Z.ltb Z.compare andb]. by rewrite andb_false_r. }
  eapply posthandle_clear; try done; [by rewrite Henc|].
  destruct Hd as [[Hm Hdt Htl Hl Hz] Hh H14 Hb Hbo Ht]. constructor; try done.
  assert (rx_mem (of_cipher_view f (set_bdecrypted true (cipher_view f))) = rx_mem f) as Hmem.
  { cbn. apply take_drop. }
  constructor; [by rewrite Hmem|done..].
Qed.

(** A whole data frame that is not encrypted, from a known station: the receive path
    returns a result, the frame is back in the pool, and exactly one Ethernet packet, the
    one of [msdu_pkt], is handed over, unless the 802.1X port of the station is blocked
    and the frame is not EAPOL; then nothing is. *)
Theorem posthandle_port HZ now ok drv ht cw auth f w o s pre h body post :
  running drv = true -> mp_state drv = false -> encrypt (attrib f) = 0 ->
  ready_for ht f w o s -> data_frame f pre h body [] post ->
  exists w', recv_func_posthandle HZ now ok drv ht cw auth f w =
      Some (w', if port_open auth s body then _SUCCESS else _FAIL) /\
    handled (os_at (stapriv (rw_ad w)) (os drv)) f (dst (attrib f)) (if port_open auth s body then [msdu_pkt (attrib f) body] else [])
      (recvpriv (rw_ad w)) (recvpriv (rw_ad w')).
Proof. apply posthandle_port_run. Qed.

Lemma posthandle_ccmp_run HZ now ok drv ht cw auth f w o s pre h c x post key :
  running drv = true -> mp_state drv = false ->
  encrypt (attrib f) = _AES_ -> bdecrypted (attrib f) = false -> icv_len (attrib f) = 8 ->
  ready_for ht f w o s ->
  let sec := rw_sec w in
  let k := (ld0 h (hdrlen (attrib f) + 3) .>> 6) .& 0x3 in
  let hl := hdrlen (attrib f) in
  rx_key sec (stapriv (rw_ad w)) (SecFrames.set_key_index k (cipher_view f)) = Some key ->
  (IS_MCAST (ra (attrib f)) = true -> dot118021XGrpKeyid sec = k) ->
  ccmp_hdr hl h -> cl_hdrlen (ccmp_classify (hdr_fc h) hl) = hl ->
  zlen h = hl + iv_len (attrib f) -> zlen x = 8 -> rx_repr f pre (h ++ c ++ x) post ->
  zlen (g_message (rw_glob w)) = MAX_MSG_SIZE -> zlen h + zlen c + 8 <= MAX_MSG_SIZE ->
  let cl := ccmp_classify (hdr_fc h) hl in
  let pn := hdr_pn h (cl_hdrlen cl) in
  let p := xor_list c (ccmp_key_stream cw cl h pn key (S (length c / 16))) in
  8 <= zlen c -> 14 <= zlen h -> bytes_ok p ->
  let mic_ok := bool_decide (x = xor_list (ccmp_mac cw cl h pn key p) (ccmp_mask cw cl h pn key)) in
  exists w', recv_func_posthandle HZ now ok drv ht cw auth f w =
      Some (w', if mic_ok && port_open auth s p then _SUCCESS else _FAIL) /\
    handled (os_at (stapriv (rw_ad w)) (os drv)) f (dst (attrib f)) (if mic_ok && port_open auth s p then [msdu_pkt (attrib f) p] else [])
      (recvpriv (rw_ad w)) (recvpriv (rw_ad w')).
Proof.
  intros Hrun Hmp Henc Hbd Hicv Hr sec k hl Hk Hid Hch Hcl Hh Hx Hf Hmsg Hfit cl pn p Hc H14 Hp mic_ok.
  destruct (Hf) as [Hm Hdt Htl Hlen Hz]. set (v := cipher_view f) in *.
  assert (Hdrop : SecFrames.rx_data v = h ++ (c ++ x) ++ post).
  { cbn. rewrite Hm, Hdt, zlen_to_nat, drop_app_length. by rewrite <- !app_assoc. }
  assert (Hkey : unicast_key (stapriv (rw_ad w)) (ra_ta v) <> None).
  { unfold unicast_key, sta_priv_lookup. cbn. destruct Hr as [Ho Hs _ _ _ _]. rewrite Ho. cbn [mbind option_bind].
    by rewrite Hs. }
  destruct (decryptor_ccmp_run cw sec (stapriv (rw_ad w)) v (rw_glob w) h c x post key) as (g & E); try done.
  { constructor; [exact Hdrop|cbn; rewrite Hlen, !zlen_app; lia|exact Hh|].
    change (0 <= hl). apply ch_len in Hch. rewrite Hcl in Hch. lia. }
  change (ra_hdrlen v) with hl in E. cbv zeta in E. fold cl pn in E. fold p mic_ok in E. destruct mic_ok.
  2: { unfold recv_func_posthandle. fold v sec. rewrite E. cbn [mbind option_bind andb]. eexists. split; [done|].
       by apply handled_none. }
  cbn [andb]. eapply (posthandle_clear _ _ _ _ _ _ _ f _ _ _ w o s pre h p x post); try done.
  { by rewrite Henc. }
  assert (zlen p = zlen c) as Hpl by apply xor_ks_length.
  assert (Hmem : rx_mem (of_cipher_view f (set_bdecrypted true (set_rx_data (h ++ p ++ x ++ post)
    (SecFrames.set_key_index k v)))) = pre ++ (h ++ p ++ x) ++ post).
  { cbn. rewrite Hm, Hdt, zlen_to_nat, take_app_length. by rewrite <- !app_assoc. }
  constructor; try done.
  - constructor; [exact Hmem|exact Hdt| | |]; cbn [of_cipher_view set_attrib set_mem rx_tail rx_len];
      rewrite ?Htl, ?Hlen, ?zlen_app, ?Hpl; try lia. rewrite !zlen_app in Hz. lia.
  - lia.
  - change (encrypt (attrib (of_cipher_view f _))) with (encrypt (attrib f)).
    change (icv_len (attrib (of_cipher_view f _))) with (icv_len (attrib f)). by rewrite Henc, Hicv.
Qed.

(** C2: A whole CCMP frame for software decryption, of at most 2048 bytes, neither a
    fragment nor an A-MSDU, from a known station that has no enabled block-ack window for
    the priority of the frame (or without HT; with a window the frame may be buffered,
    which is C28): exactly when its MIC verifies and the port is open (or the decrypted
    frame is EAPOL) the Ethernet packet of the decrypted body is handed over; in every case
    the path returns a result and the frame is back in the pool.  Handed over means
    [handled]: the packet goes to the stack, and at an access point a packet for another
    station of its table only to the transmit path, a group packet to both (with [to_stack]
    and [to_air] of the lookups in the table). *)
Theorem posthandle_ccmp HZ now ok drv ht cw auth f w o s pre h c x post key :
  running drv = true -> mp_state drv = false ->
  encrypt (attrib f) = _AES_ -> bdecrypted (attrib f) = false -> icv_len (attrib f) = 8 ->
  ready_for ht f w o s ->
  let sec := rw_sec w in
  let k := (ld0 h (hdrlen (attrib f) + 3) .>> 6) .& 0x3 in
  let hl := hdrlen (attrib f) in
  rx_key sec (stapriv (rw_ad w)) (SecFrames.set_key_index k (cipher_view f)) = Some key ->
  (IS_MCAST (ra (attrib f)) = true -> dot118021XGrpKeyid sec = k) ->
  ccmp_hdr hl h -> cl_hdrlen (ccmp_classify (hdr_fc h) hl) = hl ->
  zlen h = hl + iv_len (attrib f) -> zlen x = 8 -> rx_repr f pre (h ++ c ++ x) post ->
  zlen (g_message (rw_glob w)) = MAX_MSG_SIZE -> zlen h + zlen c + 8 <= MAX_MSG_SIZE ->
  let cl := ccmp_classify (hdr_fc h) hl in
  let pn := hdr_pn h (cl_hdrlen cl) in
  let p := xor_list c (ccmp_key_stream cw cl h pn key (S (length c / 16))) in
  8 <= zlen c -> 14 <= zlen h -> bytes_ok p ->
  let mic_ok := bool_decide (x = xor_list (ccmp_mac cw cl h pn key p) (ccmp_mask cw cl h pn key)) in
  exists w', recv_func_posthandle HZ now ok drv ht cw auth f w =
      Some (w', if mic_ok && port_open auth s p then _SUCCESS else _FAIL) /\
    handled (os_at (stapriv (rw_ad w)) (os drv)) f (dst (attrib f)) (if mic_ok && port_open auth s p then [msdu_pkt (attrib f) p] else [])
      (recvpriv (rw_ad w)) (recvpriv (rw_ad w')).
Proof. apply posthandle_ccmp_run. Qed.

(** ** TKIP *)

Lemma decryptor_tkip_run cw sec sp v g h p t key :
  let k := (ld0 h (ra_hdrlen v + 3) .>> 6) .& 0x3 in
  let v1 := SecFrames.set_key_index k v in
  ra_encrypt v = _TKIP_ -> ra_bdecrypted v = false -> unicast_key sp (ra_ta v) <> None ->
  rx_key sec sp v1 = Some key -> crc_ready (g_crc g) -> bytes_ok p -> 8 <= ra_iv_len v ->
  zlen p < 2 ^ 31 -> rx_frame v h (tkip_seal key (ra_ta v) (ra_hdrlen v) h p) t ->
  decryptor cw sec (sp : sta_priv) v g =
    Some (Some (set_bdecrypted true (set_rx_data (h ++ p ++ icv p ++ t) v1)),
      mk_glob (mk_crc32_globals 1 crc_table_spec) (g_message g),
      TKIP_SW_DEC_CNT_INC (set_hw_decrypted false sec) (ra_ra v)).
Proof.
  intros k v1 Henc Hb Hu Hk Hg Hp Hiv Hlp Hrx. pose proof Hrx as [Hd Hl Hh H0].
  unfold decryptor, extract_key_index. rewrite Henc. change (0 <? _TKIP_) with true. cbv iota.
  rewrite Hd, ld_app_l, ld_Some by lia. cbn [mbind option_bind]. fold k.
  rewrite (proj2 (Z.ltb_ge WEP_KEYS k)).
  2: { pose proof (land_range_r 2 (ld0 h (ra_hdrlen v + 3) .>> 6) 3 ltac:(lia)). unfold k, WEP_KEYS. lia. }
  fold v1. change (ra_encrypt v1) with (ra_encrypt v). change (ra_bdecrypted v1) with (ra_bdecrypted v).
  rewrite Henc, Hb. change ((0 <? _TKIP_) && (negb false || sw_decrypt sec)) with true. cbv iota.
  unfold sw_decrypt_frame. change (ra_encrypt v1) with (ra_encrypt v). rewrite Henc.
  change ((_TKIP_ =? _WEP40_) || (_TKIP_ =? _WEP104_)) with false. rewrite Z.eqb_refl. cbv iota.
  rewrite (tkip_decrypt_sealed (set_hw_decrypted false sec) sp v1 (g_crc g) h p t key); try done.
Qed.

(** The MIC computed over the header does not depend on what follows the header. *)
Lemma seccalctkipmic_app key h r data pri mic : rtw_seccalctkipmic key h data pri = Some mic ->
  rtw_seccalctkipmic key (h ++ r) data pri = Some mic.
Proof.
  assert (Hrd : forall off n b, rd h off n = Some b -> rd (h ++ r) off n = Some b).
  { intros off n b E. rewrite <- E. unfold rd in E. destruct (_ && _) eqn:Eb; [|done]. bool_to_prop.
    apply rd_app_l; lia. }
  unfold rtw_seccalctkipmic. intros (fc1 & E & H)%bind_Some.
  assert (ld (h ++ r) 1 = Some fc1) as ->.
  { rewrite <- E. unfold ld in E. destruct (_ && _) eqn:Eb; [|done]. bool_to_prop. apply ld_app_l. lia. }
  cbn [mbind option_bind].
  destruct (negb _); apply bind_Some in H as (da & Eda & H); rewrite (Hrd _ _ _ Eda); cbn [mbind option_bind];
    destruct (negb _); apply bind_Some in H as (sa & Esa & H); rewrite (Hrd _ _ _ Esa); exact H.
Qed.

(** The security state after a MIC check of a decrypted frame. *)
Definition after_mic (HZ now : Z) (good : bool) (a : rx_pkt_attrib) (m : mic_priv) : mic_priv :=
  if good then if IS_MCAST (ra a) && negb (bcheck_grpkey m) then set_check_grpkey m else m
  else if IS_MCAST (ra a) && negb (key_index a =? mlme_key_index m) then m
  else rtw_handle_tkip_mic_err HZ now m.

Lemma chkmic_run HZ now sp sec m f o s pre h body x t post mickey mic :
  let a := attrib f in
  encrypt a = _TKIP_ -> bdecrypted a = true -> rtw_get_stainfo sp (ta a) = Some o -> stas sp !! o = Some s ->
  (IS_MCAST (ra a) = true -> binstallGrpkey sec = true) -> mic_key m s a = Some mickey ->
  rx_repr f pre (h ++ body ++ x ++ t) post -> zlen h = hdrlen a + iv_len a -> zlen x = 8 -> zlen t = icv_len a ->
  rtw_seccalctkipmic mickey h body (priority a) = Some mic ->
  let good := bool_decide (mic = x) in
  exists f2 u v, recvframe_chkmic HZ now sp sec m f =
      Some (f2, after_mic HZ now good a m, if good then _SUCCESS else _FAIL) /\
    x ++ t = u ++ v /\ zlen u = icv_len a /\
    rx_repr f2 pre (h ++ body ++ u) (v ++ post) /\ attrib f2 = a /\ rf_id f2 = rf_id f /\
    rf_pkt f2 = rf_pkt f /\ rf_psta f2 = rf_psta f.
Proof.
  intros a Henc Hdec Ho Hs Hgrp Hkey Hf Hh Hx Ht Hmic good. unfold recvframe_chkmic. cbv zeta. fold a.
  rewrite Henc, Z.eqb_refl, Ho, Hs. cbn [mbind option_bind]. rewrite Hkey. cbn [mbind option_bind].
  assert (IS_MCAST (ra a) && negb (binstallGrpkey sec) = false) as ->.
  { destruct (IS_MCAST (ra a)); [|done]. by rewrite Hgrp. }
  pose proof Hf as [Hm Hd Htl Hl Hz]. pose proof (zlen_nonneg h). pose proof (zlen_nonneg body).
  pose proof (zlen_nonneg t). pose proof (zlen_nonneg pre). pose proof (zlen_nonneg post).
  rewrite !zlen_app in Hl. rewrite !zlen_app in Hz.
  assert (u32 (rx_len f - hdrlen a - iv_len a - icv_len a - 8) = zlen body) as ->.
  { rewrite u32_id; lia. }
  rewrite (rd_repr f pre h body (x ++ t) post (rx_data f + hdrlen a + iv_len a) (zlen body)); [|done|lia|lia].
  cbn [mbind option_bind].
  assert (drop (Z.to_nat (rx_data f)) (rx_mem f) = h ++ (body ++ x ++ t) ++ post) as ->.
  { rewrite Hm, Hd, zlen_to_nat, drop_app_length. by rewrite <- !app_assoc. }
  rewrite (seccalctkipmic_app _ _ _ _ _ _ Hmic). cbn [mbind option_bind].
  rewrite (rd_repr f pre (h ++ body) x t post); [|by rewrite <- app_assoc|rewrite zlen_app; lia|lia].
  cbn [mbind option_bind]. fold good.
  destruct (split_at (x ++ t) (zlen t)) as (u & v & Huv & Hu & Hv); [rewrite zlen_app; lia|].
  rewrite zlen_app in Hv. assert (rx_repr f pre ((h ++ body ++ u) ++ v) post) as Hf'.
  { rewrite <- !app_assoc, <- Huv. exact Hf. }
  destruct (pull_tail_repr f pre (h ++ body ++ u) v post 8 Hf') as (f2 & E & Hf2 & Ha2 & Hid2); [lia|].
  destruct (pull_tail_id f 8) as (_ & _ & Hpk). assert (rf_psta (recvframe_pull_tail f 8).1 = rf_psta f) as Hps.
  { unfold recvframe_pull_tail. by case_match. }
  rewrite E in *. cbn [fst] in *. unfold after_mic. rewrite Hdec.
  exists f2, u, v. destruct good.
  - rewrite (andb_comm (negb _)). split_and!; done || lia.
  - cbn [andb]. split_and!; [by destruct (_ && _)|done || lia..].
Qed.

(** A whole TKIP frame from a known station, sealed by the sender over a body and a
    MIC: the path decrypts it, and the Ethernet packet of the body is handed over exactly
    when the MIC is the Michael MIC of the frame and the port is open (or the body is
    EAPOL).  On a wrong MIC the frame is dropped, and the failure is recorded: the second
    one within 60 seconds turns the countermeasures on.  In every case the frame is back in
    the pool. *)
Theorem posthandle_tkip HZ now ok drv ht cw auth f w o s pre h body x post key mickey mic :
  let a := attrib f in
  let k := (ld0 h (hdrlen a + 3) .>> 6) .& 0x3 in
  let a' := set_crypto k true a in
  let sec := rw_sec w in
  running drv = true -> mp_state drv = false ->
  encrypt a = _TKIP_ -> bdecrypted a = false -> privacy a = true -> icv_len a = 4 -> 8 <= iv_len a ->
  0 <= hdrlen a -> ready_for ht f w o s ->
  rx_key sec (stapriv (rw_ad w)) (SecFrames.set_key_index k (cipher_view f)) = Some key ->
  mic_key (rw_mic w) s a' = Some mickey -> (IS_MCAST (ra a) = true -> binstallGrpkey sec = true) ->
  crc_ready (g_crc (rw_glob w)) -> bytes_ok (body ++ x) -> zlen x = 8 -> 8 <= zlen body -> 14 <= zlen h ->
  zlen h = hdrlen a + iv_len a -> rx_repr f pre (h ++ tkip_seal key (ta a) (hdrlen a) h (body ++ x)) post ->
  rtw_seccalctkipmic mickey h body (priority a) = Some mic ->
  let good := bool_decide (mic = x) in
  exists w', recv_func_posthandle HZ now ok drv ht cw auth f w =
      Some (w', if good && negb (port_open auth s body) then _FAIL else _SUCCESS) /\
    handled (os_at (stapriv (rw_ad w)) (os drv)) f (dst a) (if good && port_open auth s body then [msdu_pkt a body] else [])
      (recvpriv (rw_ad w)) (recvpriv (rw_ad w')) /\
    rw_mic w' = after_mic HZ now good a' (rw_mic w).
Proof.
  intros a k a' sec Hrun Hmp Henc Hbd Hpriv Hicv Hiv Hhl Hr Hkey Hmk Hgrp Hcrc Hbytes Hx Hbody H14 Hh Hf Hmic good.
  pose proof Hf as [Hm Hd Htl Hl Hz]. set (c := tkip_seal key (ta a) (hdrlen a) h (body ++ x)) in *.
  assert (Hc : zlen c = zlen body + 8 + 4).
  { unfold c, tkip_seal. rewrite rc4_length, !zlen_app, icv_length. lia. }
  set (v := cipher_view f).
  assert (Hdrop : SecFrames.rx_data v = h ++ c ++ post).
  { cbn. rewrite Hm, Hd, zlen_to_nat, drop_app_length. by rewrite <- !app_assoc. }
  pose proof Hr as [Ho Hs (Hmf & Hfn & _) _ _ _].
  assert (Hu : unicast_key (stapriv (rw_ad w)) (ra_ta v) <> None).
  { unfold unicast_key, sta_priv_lookup. cbn. rewrite Ho. cbn [mbind option_bind]. by rewrite Hs. }
  rewrite !zlen_app in Hz. pose proof (zlen_nonneg pre). pose proof (zlen_nonneg post).
  pose proof (decryptor_tkip_run cw sec (stapriv (rw_ad w)) v (rw_glob w) h (body ++ x) post key) as E.
  change (ra_hdrlen v) with (hdrlen a) in E. fold k in E. cbv zeta in E.
  assert (zlen (body ++ x) < 2 ^ 31) as Hsmall by (rewrite zlen_app; lia).
  assert (rx_frame v h c post) as Hrx by (constructor; [exact Hdrop|cbn; rewrite Hl, zlen_app; lia|exact Hh|exact Hhl]).
  specialize (E Henc Hbd Hu Hkey Hcrc Hbytes Hiv Hsmall Hrx).
  match type of E with _ = Some (Some ?v', ?g', ?sec') => set (v1 := v') in *; set (g1 := g') in *; set (sec1 := sec') in * end.
  set (f1 := of_cipher_view f v1).
  assert (Hf1 : rx_repr f1 pre (h ++ body ++ x ++ icv (body ++ x)) post).
  { assert (rx_mem f1 = pre ++ (h ++ body ++ x ++ icv (body ++ x)) ++ post) as Hm1.
    { cbn. rewrite Hm, Hd, zlen_to_nat, take_app_length. by rewrite <- !app_assoc. }
    constructor; [exact Hm1|exact Hd| | |]; cbn [f1 of_cipher_view set_attrib set_mem rx_tail rx_len];
      rewrite ?Htl, ?Hl, ?zlen_app, ?icv_length; lia. }
  destruct (chkmic_run HZ now (stapriv (rw_ad w)) sec1 (rw_mic w) f1 o s pre h body x (icv (body ++ x)) post mickey mic)
    as (f2 & u & z & E2 & Huz & Hu4 & Hf2 & Ha2 & Hid2 & Hpk2 & Hps2); try done.
  fold good in E2.
  destruct good.
  - cbn [andb]. eapply (posthandle_checked HZ now ok drv ht cw auth f v1 g1 sec1 w o s f2 _ pre h body u (z ++ post)) in E;
      try done.
    + destruct E as (w' & -> & Hw). exists w'. split; [by destruct (port_open auth s body)|exact Hw].
    + change (privacy (attrib f)) with (privacy a). rewrite Hpriv. exact E2.
    + apply bytes_ok_app in Hbytes as [Hb _].
      constructor; rewrite ?Ha2; try done. change (encrypt (attrib f1)) with (encrypt a). by rewrite Henc.
  - apply (posthandle_mic_fail HZ now ok drv ht cw auth f v1 g1 sec1 w o s f2 _ _ _ E Hr Hpriv E2 Hid2).
Qed.

(** C3: The path accounts for every frame of the pool: when no frame is in two places,
    the frame it was given is afterwards free, or waits in a reordering window or a
    reassembly queue, and every other frame is in one place too.  The one exception is a last
    fragment whose reassembled frame is refused by [process_recv_indicatepkts]: then the
    fragment, freed by [recvframe_defrag] already, is freed again, and the reassembled
    frame [p] is lost. *)
Theorem posthandle_frames HZ now ok drv ht cw auth f w w' r :
  running drv = true -> amsdu_bit f -> mfrag (attrib f) = 0 \/ mfrag (attrib f) = 1 -> bits (rw_ad w) ->
  uniq ({[+ rf_id f +]} ⊎ accounted (rw_ad w)) ->
  recv_func_posthandle HZ now ok drv ht cw auth f w = Some (w', r) ->
  bits (rw_ad w') /\
  (accounted (rw_ad w') = {[+ rf_id f +]} ⊎ accounted (rw_ad w) \/
   (mfrag (attrib f) = 0 /\ frag_num (attrib f) <> 0 /\ r <> _SUCCESS /\
    exists p, {[+ p +]} ⊎ accounted (rw_ad w') = {[+ rf_id f +]} ⊎ accounted (rw_ad w))).
Proof. apply posthandle_run. Qed.

(** ** Witnesses *)

Definition ex_body : list Z := [0xaa; 0xaa; 0x03; 0; 0; 0; 0x08; 0; 1; 2; 3; 4].
Definition ex_fattr (alg iv icvl seq fr mf : Z) : rx_pkt_attrib :=
  mk_rxa 26 iv icvl alg (negb (alg =? 0)) 1 0 0 seq fr mf 0 [2; 0; 0; 0; 0; 1] ex_peer ex_peer ex_me 0 false.
Definition ex_frame (id : Z) (a : rx_pkt_attrib) (b : list Z) : rframe :=
  mk_rf id true 0 a ([0; 0] ++ b ++ replicate 64 0) 2 (2 + zlen b) (zlen b).

(** One station with a key, its window [c], and the fragments [q] received from it. *)
Definition ex_rsta (c : recv_reorder_ctrl) (q : list rframe) : sta_info :=
  mk_sta ex_peer 1 0 2 true (zseq 5 16) (zseq 1 8) [] 0 (replicate 4 init_servq) q (replicate 16 0)
    (c :: replicate 15 init_reorder) false 0 init_ps.
Definition ex_world (c : recv_reorder_ctrl) (q : list rframe) : rx_world :=
  mk_rw
    (set_stapriv (set_table (<[0%nat := ex_rsta c q]> (stas ex_sp)) (seq 1 31)
       (hash_insert (wifi_mac_hash ex_peer) 0 (replicate 32 [])) 1 ex_sp) ex_adapter)
    (mk_dbg 0 0 0 0) (mk_mic [] false 0 false 0 0) (ex_sec true)
    (mk_glob crc32_globals0 (replicate 2048 0)) 0.

Definition ex_drv : drv_flags := mk_drv false false false ex_os.
Definition ex_window (seq : Z) : recv_reorder_ctrl := mk_reorder true seq 0xffff 64 64 [] false.

Lemma ex_ready c q f : ta (attrib f) = ex_peer -> mfrag (attrib f) = 0 -> frag_num (attrib f) = 0 ->
  amsdu (attrib f) = 0 -> rf_pkt f = true -> zlen (dst (attrib f)) = 6 -> zlen (src (attrib f)) = 6 ->
  ready_for false f (ex_world c q) 0 (ex_rsta c q).
Proof. intros Ht ? ? ? ? ? ?. constructor; rewrite ?Ht; done. Qed.

Lemma ex_bits c q : Forall amsdu_bit q -> Forall amsdu_bit (pending_recvframe_queue c) -> bits (rw_ad (ex_world c q)).
Proof.
  intros Hq Hc. apply (Forall_insert sta_bits (stas ex_sp) 0 (ex_rsta c q)).
  - change (stas ex_sp) with (replicate 32 _rtw_init_stainfo). apply Forall_replicate.
    split; [constructor|]. by repeat constructor.
  - split; [exact Hq|]. constructor; [exact Hc|]. by repeat constructor.
Qed.

Definition ex_plain : rframe := ex_frame 7 (ex_fattr 0 0 0 5 0 0) (take 26 example_hdr ++ ex_body).

(** The port of the station is blocked, and the frame is an IP packet: it is dropped. *)
Lemma posthandle_port_witness :
  exists w', recv_func_posthandle 100 0 (fun _ => true) ex_drv false false 2 ex_plain
      (ex_world init_reorder []) = Some (w', _FAIL) /\
    handled (os_at (stapriv (rw_ad (ex_world init_reorder []))) ex_os) ex_plain (dst (attrib ex_plain)) [] (recvpriv (rw_ad (ex_world init_reorder []))) (recvpriv (rw_ad w')).
Proof.
  apply (posthandle_port 100 0 (fun _ => true) ex_drv false false 2 ex_plain (ex_world init_reorder []) 0
    (ex_rsta init_reorder []) [0; 0] (take 26 example_hdr) ex_body (replicate 64 0)); [reflexivity..| |].
  - apply ex_ready; reflexivity.
  - constructor; [constructor; reflexivity|reflexivity|vm_compute; discriminate|vm_compute; discriminate| |reflexivity].
    apply bytes_ok_spec. reflexivity.
Defined.

(** A reassembled frame that the window refuses: place 3 was freed twice, which the counter
    shows, and place 4 is lost. *)
Definition ex_last : rframe := ex_frame 3 (ex_fattr 0 0 0 50 1 0) (take 26 example_hdr ++ ex_body).
Definition ex_first : rframe := ex_frame 4 (ex_fattr 0 0 0 50 0 1) (take 26 example_hdr ++ ex_body).

Lemma posthandle_frames_witness :
  match recv_func_posthandle 100 0 (fun _ => true) ex_drv true false 0 ex_last
      (ex_world (ex_window 100) [ex_first]) with
  | Some (w', r) => r = _FAIL /\ free_recv_queue (recvpriv (rw_ad w')) = [3] /\
      free_recvframe_cnt (recvpriv (rw_ad w')) = 2 /\ bits (rw_ad w')
  | None => False
  end.
Proof.
  set (w := ex_world (ex_window 100) [ex_first]).
  destruct (recv_func_posthandle 100 0 (fun _ => true) ex_drv true false 0 ex_last w) as [[w' r]|] eqn:E.
  2: { exfalso. vm_compute in E. discriminate E. }
  split_and!; [vm_compute in E; injection E as _ <-; reflexivity|
    vm_compute in E; injection E as <- _; reflexivity..|].
  eapply (posthandle_frames 100 0 (fun _ => true) ex_drv true false 0 ex_last w w' r); [reflexivity|by left|by left| | |exact E].
  - apply ex_bits; repeat constructor.
  - assert ({[+ rf_id ex_last +]} ⊎ accounted (rw_ad w) = ms [3; 4]) as -> by (vm_compute; reflexivity).
    apply uniq_ms. apply (bool_decide_unpack (NoDup [3; 4])). vm_compute. done.
Defined.

(** A CCMP frame with an all-zero MIC. *)
Definition ex_ccmp : rframe :=
  ex_frame 7 (ex_fattr _AES_ 8 8 5 0 0) (example_hdr ++ ex_body ++ replicate 8 0).

Lemma posthandle_ccmp_witness :
  let h := example_hdr in
  let x := replicate 8 0 in
  let key := zseq 5 16 in
  let cl := ccmp_classify (hdr_fc h) 26 in
  let pn := hdr_pn h (cl_hdrlen cl) in
  let p := xor_list ex_body (ccmp_key_stream false cl h pn key 1) in
  let mic_ok := bool_decide (x = xor_list (ccmp_mac false cl h pn key p) (ccmp_mask false cl h pn key)) in
  exists w', recv_func_posthandle 100 0 (fun _ => true) ex_drv false false 0 ex_ccmp (ex_world init_reorder []) =
      Some (w', if mic_ok && port_open 0 (ex_rsta init_reorder []) p then _SUCCESS else _FAIL) /\
    handled (os_at (stapriv (rw_ad (ex_world init_reorder []))) ex_os) ex_ccmp [2; 0; 0; 0; 0; 1] (if mic_ok && port_open 0 (ex_rsta init_reorder []) p then [msdu_pkt (attrib ex_ccmp) p] else [])
      (recvpriv (rw_ad (ex_world init_reorder []))) (recvpriv (rw_ad w')).
Proof.
  apply (posthandle_ccmp 100 0 (fun _ => true) ex_drv false false 0 ex_ccmp (ex_world init_reorder []) 0
    (ex_rsta init_reorder []) [0; 0] example_hdr ex_body (replicate 8 0) (replicate 64 0) (zseq 5 16)).
  all: try reflexivity; try discriminate.
  - apply ex_ready; reflexivity.
  - exact example_header.
  - constructor; reflexivity.
  - apply bytes_ok_spec. vm_compute. reflexivity.
Defined.

(** A TKIP frame with the right MIC; the port is not used. *)
Definition ex_mic : list Z :=
  Eval vm_compute in match rtw_seccalctkipmic (zseq 1 8) example_hdr ex_body 0 with Some m => m | None => [] end.
Definition ex_tkip : rframe :=
  ex_frame 7 (ex_fattr _TKIP_ 8 4 5 0 0)
    (example_hdr ++ tkip_seal (zseq 5 16) ex_peer 26 example_hdr (ex_body ++ ex_mic)).

Lemma posthandle_tkip_witness :
  exists w', recv_func_posthandle 100 0 (fun _ => true) ex_drv false false 0 ex_tkip (ex_world init_reorder []) =
      Some (w', _SUCCESS) /\
    handled (os_at (stapriv (rw_ad (ex_world init_reorder []))) ex_os) ex_tkip [2; 0; 0; 0; 0; 1] [msdu_pkt (attrib ex_tkip) ex_body]
      (recvpriv (rw_ad (ex_world init_reorder []))) (recvpriv (rw_ad w')).
Proof.
  destruct (posthandle_tkip 100 0 (fun _ => true) ex_drv false false 0 ex_tkip (ex_world init_reorder []) 0
    (ex_rsta init_reorder []) [0; 0] example_hdr ex_body ex_mic (replicate 64 0) (zseq 5 16) (zseq 1 8) ex_mic)
    as (w' & E & H & _).
  1-6: reflexivity.
  - vm_compute. discriminate.
  - vm_compute. discriminate.
  - apply ex_ready; reflexivity.
  - reflexivity.
  - reflexivity.
  - discriminate.
  - apply ex_crc_ready.
  - apply bytes_ok_spec. reflexivity.
  - reflexivity.
  - vm_compute. discriminate.
  - vm_compute. discriminate.
  - reflexivity.
  - constructor; vm_compute; reflexivity.
  - vm_compute. reflexivity.
  - exists w'. split; [exact E|exact H].
Defined.
