(* ===== verification/Ie.v ===== *)
(** * Information elements (src/core/rtw_ieee80211.c)

    The builders, searches and parsers of the information elements of management
    frames.  A pointer into a frame is an offset into the list of bytes of the
    buffer it points to; a pointer that may be NULL is an [option].  A run ends in
    [Done] with the results, in [OutOfBounds] when it touches memory outside a
    buffer, or in [NoFuel] when a loop has not ended after the iterations it was
    given.  Debug output (RT_TRACE, DBG_871X) is not modelled. *)

From stdpp Require Import functions.
From S2P Require Import Prelude.

(** ** Runs *)

Inductive res (A : Type) : Type :=
  | Done (a : A)
  | OutOfBounds
  | NoFuel.
Arguments Done {A} a.
Arguments OutOfBounds {A}.
Arguments NoFuel {A}.

#[export] Instance res_ret : MRet res := @Done.
#[export] Instance res_bind : MBind res := fun A B f r =>
  match r with Done a => f a | OutOfBounds => OutOfBounds | NoFuel => NoFuel end.

(** A checked access as a run. *)
Definition lift {A} (o : option A) : res A :=
  match o with Some a => Done a | None => OutOfBounds end.

(** The byte at [p]; [n] bytes from [p]; [_rtw_memcmp] with a constant. *)
Definition ldr (m : bytes) (p : Z) : res Z := lift (ld m p).
Definition rdr (m : bytes) (p n : Z) : res bytes := lift (rd m p n).
Definition wrr (m : bytes) (p : Z) (bs : bytes) : res bytes := lift (wr m p bs).
Definition _rtw_memcmp (m : bytes) (p : Z) (l : bytes) : res bool :=
  b ← rdr m p (zlen l); Done (bool_decide (b = l)).

(** A copy of [n] bytes to the start of an output buffer that may be NULL. *)
Definition copy_out (dst : option bytes) (m : bytes) (p n : Z) : res (option bytes) :=
  match dst with
  | None => Done None
  | Some d => b ← rdr m p n; d' ← wrr d 0 b; Done (Some d')
  end.

Definition RTW_GET_BE16 (m : bytes) (p : Z) : res Z :=
  a ← ldr m p; b ← ldr m (p + 1); Done ((a .<< 8) .| b).
Definition RTW_GET_LE16 (m : bytes) (p : Z) : res Z :=
  a ← ldr m p; b ← ldr m (p + 1); Done ((b .<< 8) .| a).

(** ** Constants *)
Definition _SSID_IE_ : Z := 0.
Definition _SUPPORTEDRATES_IE_ : Z := 1.
Definition _TIM_IE_ : Z := 5.
Definition _WPA_IE_ID_ : Z := 221.
Definition _WPA2_IE_ID_ : Z := 48.
Definition _WAPI_IE_ : Z := 68.
Definition _VENDOR_SPECIFIC_IE_ : Z := 221.
Definition _FIXED_IE_LENGTH_ : Z := 12.
Definition _BEACON_IE_OFFSET_ : Z := 12.
Definition MAX_IE_SZ : Z := 768.
Definition WPA_SELECTOR_LEN : Z := 4.
Definition RSN_SELECTOR_LEN : Z := 4.

(** ** Building elements *)

(** rtw_set_fixed_ie: the buffer, the new write position and [*frlen]. *)
Definition rtw_set_fixed_ie (m : bytes) (pbuf len : Z) (source : bytes) (frlen : Z)
    : res (bytes * Z * Z) :=
  s ← rdr source 0 len; m ← wrr m pbuf s; Done (m, pbuf + len, u32 (frlen + len)).

Definition rtw_set_ie (m : bytes) (pbuf index len : Z) (source : bytes) (frlen : Z)
    : res (bytes * Z * Z) :=
  m ← wrr m pbuf [u8 index];
  m ← wrr m (pbuf + 1) [u8 len];
  m ← (if 0 <? len then s ← rdr source 0 len; wrr m (pbuf + 2) s else Done m);
  Done (m, pbuf + len + 2, u32 (frlen + (len + 2))).

Definition rtw_set_ie_ch_switch (m : bytes) (buf ch_switch_mode new_ch ch_switch_cnt buf_len : Z) :=
  rtw_set_ie m buf 37 3 [ch_switch_mode; new_ch; ch_switch_cnt] buf_len.

Definition rtw_set_ie_secondary_ch_offset (m : bytes) (buf secondary_ch_offset buf_len : Z) :=
  rtw_set_ie m buf 62 1 [secondary_ch_offset] buf_len.

(** 0x118 does not fit the byte of the element id. *)
Definition rtw_set_ie_mesh_ch_switch_parm (m : bytes) (buf ttl flags reason precedence buf_len : Z) :=
  rtw_set_ie m buf 280 6
    [ttl; flags; u8 reason; u16 reason .>> 8; u8 precedence; u16 precedence .>> 8] buf_len.

Definition SCN : Z := 0.
Definition SCA : Z := 1.
Definition SCB : Z := 3.
Definition HAL_PRIME_CHNL_OFFSET_DONT_CARE : Z := 0.
Definition HAL_PRIME_CHNL_OFFSET_LOWER : Z := 1.
Definition HAL_PRIME_CHNL_OFFSET_UPPER : Z := 2.

Definition secondary_ch_offset_to_hal_ch_offset (ch_offset : Z) : Z :=
  if ch_offset =? SCN then HAL_PRIME_CHNL_OFFSET_DONT_CARE
  else if ch_offset =? SCA then HAL_PRIME_CHNL_OFFSET_UPPER
  else if ch_offset =? SCB then HAL_PRIME_CHNL_OFFSET_LOWER
  else HAL_PRIME_CHNL_OFFSET_DONT_CARE.

Definition hal_ch_offset_to_secondary_ch_offset (ch_offset : Z) : Z :=
  if ch_offset =? HAL_PRIME_CHNL_OFFSET_DONT_CARE then SCN
  else if ch_offset =? HAL_PRIME_CHNL_OFFSET_LOWER then SCB
  else if ch_offset =? HAL_PRIME_CHNL_OFFSET_UPPER then SCA
  else SCN.

(** ** Searching *)

(** The loop of rtw_get_ie; every iteration but the last advances [i] by two or
    more, so [limit] iterations are enough. *)
Fixpoint get_ie_loop (fuel : nat) (m : bytes) (index limit p i : Z) : res (option Z * Z) :=
  match fuel with
  | O => NoFuel
  | S fuel =>
    x ← ldr m p;
    if x =? index then len ← ldr m (p + 1); Done (Some p, len)
    else
      tmp ← ldr m (p + 1);
      let p := p + (tmp + 2) in
      let i := i + (tmp + 2) in
      if limit <=? i then Done (None, 0) else get_ie_loop fuel m index limit p i
  end.

(** The result and [*len]. *)
Definition rtw_get_ie (m : bytes) (pbuf index len limit : Z) : res (option Z * Z) :=
  if limit <? 1 then Done (None, len)
  else get_ie_loop (Z.to_nat limit) m index limit pbuf 0.

(** The loop of rtw_get_ie_ex: the result, the copy of the element and [*ielen].
    [oui] is NULL or the [oui_len] bytes to match. *)
Fixpoint get_ie_ex_loop (fuel : nat) (m : bytes) (in_ie in_len eid : Z) (oui : option bytes)
    (ie : option bytes) (cnt : Z) : res (option Z * option bytes * Z) :=
  if cnt <? in_len then
    match fuel with
    | O => NoFuel
    | S fuel =>
      x ← ldr m (in_ie + cnt);
      hit ← (if eid =? x
             then match oui with
                  | None => Done true
                  | Some o => _rtw_memcmp m (in_ie + cnt + 2) o
                  end
             else Done false);
      len ← ldr m (in_ie + cnt + 1);
      if (hit : bool) then
        ie ← copy_out ie m (in_ie + cnt) (len + 2);
        Done (Some (in_ie + cnt), ie, len + 2)
      else get_ie_ex_loop fuel m in_ie in_len eid oui ie (u32 (cnt + (len + 2)))
    end
  else Done (None, ie, 0).

Definition rtw_get_ie_ex (m : bytes) (in_ie in_len eid : Z) (oui ie : option bytes)
    : res (option Z * option bytes * Z) :=
  if in_len <=? 0 then Done (None, ie, 0)
  else get_ie_ex_loop (Z.to_nat in_len) m in_ie in_len eid oui ie 0.

(** The loop of rtw_ies_remove_ie: [ret], the buffer and [*ies_len].  [buf] holds
    MAX_IE_SZ bytes; every iteration but the last shortens [search_len]. *)
Fixpoint ies_remove_loop (fuel : nat) (m : bytes) (ret ies_len start search_len eid : Z)
    (oui : option bytes) : res (Z * bytes * Z) :=
  match fuel with
  | O => NoFuel
  | S fuel =>
    '(target_ie, _, target_ielen) ← rtw_get_ie_ex m start search_len eid oui None;
    match target_ie with
    | Some target_ie =>
      if target_ielen =? 0 then Done (ret, m, ies_len)
      else
        let remain_ies := target_ie + target_ielen in
        let remain_len := u32 (search_len - (remain_ies - start)) in
        remain ← rdr m remain_ies remain_len;
        if MAX_IE_SZ <? remain_len then OutOfBounds
        else
          m ← wrr m target_ie remain;
          ies_remove_loop fuel m _SUCCESS (u32 (ies_len - target_ielen))
            target_ie remain_len eid oui
    | None => Done (ret, m, ies_len)
    end
  end.

Definition rtw_ies_remove_ie (m : bytes) (ies ies_len offset eid : Z) (oui : option bytes)
    : res (Z * bytes * Z) :=
  if ies_len <=? offset then Done (_FAIL, m, ies_len)
  else ies_remove_loop (S (Z.to_nat (ies_len - offset))) m _FAIL ies_len
         (ies + offset) (ies_len - offset) eid oui.

Definition wpa_oui_type : bytes := [0x00; 0x50; 0xf2; 0x01].

(** The loop of rtw_get_wpa_ie: the element and [*wpa_ie_len]. *)
Fixpoint get_wpa_ie_loop (fuel : nat) (m : bytes) (pie limit pbuf len limit_new : Z)
    : res (option Z * Z) :=
  match fuel with
  | O => NoFuel
  | S fuel =>
    '(found, len) ← rtw_get_ie m pbuf _WPA_IE_ID_ len limit_new;
    match found with
    | Some pbuf =>
      oui ← _rtw_memcmp m (pbuf + 2) wpa_oui_type;
      ok ← (if (oui : bool) then val16 ← RTW_GET_LE16 m (pbuf + 6); Done (val16 =? 1)
            else Done false);
      if (ok : bool) then wpa_ie_len ← ldr m (pbuf + 1); Done (Some pbuf, wpa_ie_len)
      else
        let limit_new := limit - (pbuf - pie) - 2 - len in
        if limit_new <=? 0 then Done (None, 0)
        else get_wpa_ie_loop fuel m pie limit (pbuf + (2 + len)) len limit_new
    | None => Done (None, 0)
    end
  end.

(** [len] is not initialised, and only read after rtw_get_ie has set it. *)
Definition rtw_get_wpa_ie (m : bytes) (pie limit : Z) : res (option Z * Z) :=
  get_wpa_ie_loop (S (Z.to_nat limit)) m pie limit pie 0 limit.

Definition rtw_get_wpa2_ie (m : bytes) (pie rsn_ie_len limit : Z) : res (option Z * Z) :=
  rtw_get_ie m pie _WPA2_IE_ID_ rsn_ie_len limit.

(** ** Elements

    The standard's view: an element is an id and a body of at most 255 bytes, and
    a frame carries their encodings one after the other. *)

Abbreviation elem := (Z * list Z)%type.
Definition elem_ok (e : elem) : Prop := is_u8 e.1 /\ bytes_ok e.2 /\ zlen e.2 <= 255.
Definition encode1 (e : elem) : bytes := e.1 :: zlen e.2 :: e.2.
Definition encode (els : list elem) : bytes := concat (map encode1 els).

(** The first element that satisfies a test, with the elements before it. *)
Fixpoint find_by (P : elem -> bool) (els : list elem) : option (list elem * elem) :=
  match els with
  | [] => None
  | e :: els =>
    if P e then Some ([], e)
    else '(before, hit) ← find_by P els; Some (e :: before, hit)
  end.
Definition find_ie (index : Z) : list elem -> option (list elem * elem) :=
  find_by (fun e => e.1 =? index).

(** The element matches the id and the OUI of a search. *)
Definition matches (eid : Z) (oui : option bytes) (e : elem) : bool :=
  (eid =? e.1) && match oui with None => true | Some o => bool_decide (take (length o) e.2 = o) end.

(** Elements with the id are long enough for the OUI, so that the comparison
    stays in the element. *)
Definition oui_fits (eid : Z) (oui : option bytes) (e : elem) : Prop :=
  match oui with None => True | Some o => e.1 = eid -> zlen o <= zlen e.2 end.

(** ** Lemmas on runs and encodings *)

Lemma encode_app a b : encode (a ++ b) = encode a ++ encode b.
Proof. unfold encode. by rewrite map_app, concat_app. Qed.
Lemma encode_cons e els : encode (e :: els) = encode1 e ++ encode els.
Proof. done. Qed.
Lemma zlen_encode1 e : zlen (encode1 e) = zlen e.2 + 2.
Proof. unfold encode1. rewrite !zlen_cons. lia. Qed.
Lemma zlen_encode_cons e els : zlen (encode (e :: els)) = zlen e.2 + 2 + zlen (encode els).
Proof. by rewrite encode_cons, zlen_app, zlen_encode1. Qed.

Lemma done_bind {A B} (a : A) (f : A -> res B) : (Done a ≫= f) = f a.
Proof. done. Qed.
Lemma res_bind_Done {A B} (r : res A) (f : A -> res B) b :
  (r ≫= f) = Done b -> exists a, r = Done a /\ f a = Done b.
Proof. destruct r; intros H; try discriminate. eauto. Qed.

Lemma ldr_mid (a c : bytes) b p : p = zlen a -> ldr (a ++ b :: c) p = Done b.
Proof. intros ->. unfold ldr. by rewrite ld_mid. Qed.
Lemma rdr_mid (a b c : bytes) p n : p = zlen a -> n = zlen b -> rdr (a ++ b ++ c) p n = Done b.
Proof. intros. unfold rdr. by rewrite (rd_mid a b c). Qed.
Lemma rdr_all (b : bytes) n : n = zlen b -> rdr b 0 n = Done b.
Proof. intros ->. rewrite <- (app_nil_r b) at 1. by apply (rdr_mid [] b []). Qed.
Lemma wrr_mid (a b c bs : bytes) p :
  p = zlen a -> length bs = length b -> wrr (a ++ b ++ c) p bs = Done (a ++ bs ++ c).
Proof. intros. unfold wrr. by rewrite (wr_mid a b c). Qed.

(** The id, the length and the body of the element at [zlen a]. *)
Lemma ld_id a e c p : p = zlen a -> ldr (a ++ encode1 e ++ c) p = Done e.1.
Proof. intros. by apply ldr_mid. Qed.
Lemma ld_len a e c p : p = zlen a + 1 -> ldr (a ++ encode1 e ++ c) p = Done (zlen e.2).
Proof.
  intros ->. unfold encode1.
  change (a ++ (?x :: ?y :: ?b) ++ c) with (a ++ [x] ++ y :: b ++ c).
  rewrite app_assoc. apply ldr_mid. by rewrite zlen_app.
Qed.
Lemma rd_body a e c p n : p = zlen a + 2 -> 0 <= n <= zlen e.2 ->
  rdr (a ++ encode1 e ++ c) p n = Done (take (Z.to_nat n) e.2).
Proof.
  intros -> Hn. unfold encode1.
  rewrite <- (take_drop (Z.to_nat n) e.2) at 2.
  change ((?x :: ?y :: ?b) ++ c) with ([x; y] ++ b ++ c).
  rewrite <- (app_assoc (take _ _)), (app_assoc a).
  apply rdr_mid; [by rewrite zlen_app|]. unfold zlen in *. rewrite length_take. lia.
Qed.

Lemma memcmp_body a e c p o : p = zlen a + 2 -> zlen o <= zlen e.2 ->
  _rtw_memcmp (a ++ encode1 e ++ c) p o = Done (bool_decide (take (length o) e.2 = o)).
Proof.
  intros Hp Ho. unfold _rtw_memcmp. pose proof (zlen_nonneg o).
  rewrite (rd_body a) by (done || lia). by rewrite done_bind, zlen_to_nat.
Qed.

(** A byte of the body. *)
Lemma ld_body a e c p k : p = zlen a + 2 + k -> 0 <= k < zlen e.2 ->
  ldr (a ++ encode1 e ++ c) p = Done (ld0 e.2 k).
Proof.
  intros -> Hk. pose proof (zlen_nonneg a). pose proof (zlen_nonneg c).
  unfold ldr. rewrite ld_Some by (rewrite !zlen_app, zlen_encode1; lia). cbn [lift]. f_equal.
  rewrite (ld0_app_r a _ _ (2 + k)), ld0_app_l by (rewrite ?zlen_encode1; lia).
  unfold encode1. by rewrite (ld0_app_r [e.1; zlen e.2] e.2 _ k) by (done || lia).
Qed.

(** The two bytes of a 16-bit field. *)
Lemma get_le16_ok m p lo hi : ldr m p = Done lo -> ldr m (p + 1) = Done hi ->
  is_u8 lo -> is_u8 hi -> RTW_GET_LE16 m p = Done (lo + hi * 256).
Proof.
  intros H1 H2 ??. unfold RTW_GET_LE16. rewrite H1, done_bind, H2, done_bind.
  by rewrite Z.lor_comm, lor_shiftl_add by lia.
Qed.
Lemma get_be16_ok m p lo hi : ldr m p = Done hi -> ldr m (p + 1) = Done lo ->
  is_u8 lo -> is_u8 hi -> RTW_GET_BE16 m p = Done (lo + hi * 256).
Proof.
  intros H1 H2 ??. unfold RTW_GET_BE16. rewrite H1, done_bind, H2, done_bind.
  by rewrite Z.lor_comm, lor_shiftl_add by lia.
Qed.

(** Reads within the buffer are done. *)
Lemma ld0_u8 m p : bytes_ok m -> is_u8 (ld0 m p).
Proof. apply bytes_ok_nth. Qed.
Lemma ldr_ok m p : 0 <= p < zlen m -> ldr m p = Done (ld0 m p).
Proof. intros. unfold ldr. by rewrite ld_Some. Qed.
Lemma rdr_ok m p n : 0 <= p -> 0 <= n -> p + n <= zlen m ->
  rdr m p n = Done (take (Z.to_nat n) (drop (Z.to_nat p) m)).
Proof. intros. unfold rdr. by rewrite rd_Some. Qed.
Lemma memcmp_ok m p l : 0 <= p -> p + zlen l <= zlen m ->
  _rtw_memcmp m p l = Done (bool_decide (take (length l) (drop (Z.to_nat p) m) = l)).
Proof.
  intros. pose proof (zlen_nonneg l). unfold _rtw_memcmp.
  by rewrite rdr_ok, done_bind, zlen_to_nat by lia.
Qed.

Lemma find_by_Some P els before hit : find_by P els = Some (before, hit) ->
  exists after, els = before ++ hit :: after /\ P hit = true /\ Forall (fun e => P e = false) before.
Proof.
  revert before. induction els as [|e els IH]; intros before; simpl; [done|].
  destruct (P e) eqn:He.
  - intros [= <- <-]. by exists els.
  - destruct (find_by P els) as [[b h]|]; simpl; [|done]. intros [= <- <-].
    destruct (IH b eq_refl) as (after & -> & Hh & Hb). exists after. by repeat constructor.
Qed.
Lemma find_by_None P els : find_by P els = None -> Forall (fun e => P e = false) els.
Proof.
  induction els as [|e els IH]; simpl; [by constructor|].
  destruct (P e) eqn:He; [done|].
  destruct (find_by P els) as [[b h]|]; simpl; [done|]. intros _. constructor; auto.
Qed.
Lemma find_ie_Some index els before hit : find_ie index els = Some (before, hit) ->
  exists after, els = before ++ hit :: after /\ hit.1 = index /\ Forall (fun e => e.1 <> index) before.
Proof.
  intros (after & -> & Hh & Hb)%find_by_Some. exists after. apply Z.eqb_eq in Hh.
  repeat split; [done|]. eapply List.Forall_impl; [|exact Hb]. intros e. apply Z.eqb_neq.
Qed.
Lemma find_ie_None index els : find_ie index els = None -> Forall (fun e => e.1 <> index) els.
Proof.
  intros H%find_by_None. eapply List.Forall_impl; [|exact H]. intros e. apply Z.eqb_neq.
Qed.

Lemma find_by_first P before hit after :
  Forall (fun e => P e = false) before -> P hit = true ->
  find_by P (before ++ hit :: after) = Some (before, hit).
Proof.
  induction 1 as [|e before He _ IH]; intros Hh; cbn [app find_by]; [by rewrite Hh|].
  by rewrite He, IH.
Qed.

Lemma find_by_none P els : Forall (fun e => P e = false) els -> find_by P els = None.
Proof. induction 1 as [|e els He _ IH]; [done|]. cbn [find_by]. by rewrite He, IH. Qed.
Lemma find_ie_none index els : Forall (fun e => e.1 <> index) els -> find_ie index els = None.
Proof.
  intros H. apply find_by_none. eapply List.Forall_impl; [|exact H]. intros e. apply Z.eqb_neq.
Qed.
Lemma find_ie_first index before hit after :
  Forall (fun e => e.1 <> index) before -> hit.1 = index ->
  find_ie index (before ++ hit :: after) = Some (before, hit).
Proof.
  intros Hb Hh. apply find_by_first; [|by apply Z.eqb_eq].
  eapply List.Forall_impl; [|exact Hb]. intros e. apply Z.eqb_neq.
Qed.

(** ** Building *)

Lemma rtw_set_ie_run a old c index len source frlen :
  is_u8 index -> len = zlen source -> len <= 255 -> zlen old = len + 2 ->
  is_u32 (frlen + len + 2) ->
  rtw_set_ie (a ++ old ++ c) (zlen a) index len source frlen
  = Done (a ++ encode1 (index, source) ++ c, zlen a + len + 2, frlen + len + 2).
Proof.
  intros Hi Hl Hl' Ho Hf. pose proof (zlen_nonneg source). unfold rtw_set_ie.
  rewrite (u8_id index), (u8_id len) by lia.
  destruct old as [|o1 [|o2 old]]; rewrite ?zlen_cons, ?zlen_nil in Ho; try lia.
  rewrite (wrr_mid a [o1] ((o2 :: old) ++ c)) by done. rewrite done_bind.
  rewrite (app_assoc a [index]).
  rewrite (wrr_mid (a ++ [index]) [o2] (old ++ c)) by (rewrite ?zlen_app; done).
  rewrite done_bind, <- app_assoc.
  assert (Hw : (if 0 <? len
     then rdr source 0 len ≫= wrr (a ++ [index] ++ [len] ++ old ++ c) (zlen a + 2)
     else Done (a ++ [index] ++ [len] ++ old ++ c)) = Done (a ++ encode1 (index, source) ++ c)).
  { unfold encode1. simpl fst. simpl snd. rewrite <- Hl.
    destruct (Z.ltb_spec 0 len) as [Hp|Hp].
    - rewrite rdr_all, done_bind by done.
      rewrite (app_assoc [index]), (app_assoc a ([index] ++ [len])).
      rewrite wrr_mid; [|by rewrite zlen_app|unfold zlen in *; lia].
      by rewrite <- app_assoc.
    - destruct source; [|rewrite zlen_cons in Hl; pose proof (zlen_nonneg source); lia].
      destruct old; [done|]. rewrite zlen_cons in Ho. pose proof (zlen_nonneg old). lia. }
  match goal with |- (?x ≫= _) = _ =>
    replace x with (Done (a ++ encode1 (index, source) ++ c)) by (symmetry; exact Hw) end.
  rewrite done_bind. repeat f_equal. rewrite u32_id by lia. lia.
Qed.

(** ** rtw_get_ie *)

(** The search skips the elements before the first with the id. *)
Lemma get_ie_loop_skip els : forall fuel m a c index limit p i,
  Forall (fun e => e.1 <> index) els -> m = a ++ encode els ++ c -> p = zlen a ->
  i + zlen (encode els) < limit -> 
  get_ie_loop (length els + fuel) m index limit p i
  = get_ie_loop fuel m index limit (p + zlen (encode els)) (i + zlen (encode els)).
Proof.
  induction els as [|e els IH]; intros fuel m a c index limit p i Hne Hm Hp Hl.
  { cbn. by rewrite !Z.add_0_r. }
  apply list.Forall_cons in Hne as [He Hne].
  rewrite zlen_encode_cons in *. pose proof (zlen_nonneg (encode els)). pose proof (zlen_nonneg e.2).
  rewrite encode_cons, <- app_assoc in Hm.
  cbn [length Nat.add get_ie_loop].
  subst m. rewrite (ld_id a _ _ p), done_bind by done.
  rewrite (proj2 (Z.eqb_neq _ _)) by done.
  rewrite (ld_len a), done_bind by lia.
  cbv zeta. rewrite (proj2 (Z.leb_gt _ _)) by lia.
  rewrite (IH fuel _ (a ++ encode1 e) c).
  - f_equal; lia.
  - done.
  - by rewrite <- app_assoc.
  - rewrite zlen_app, zlen_encode1. lia.
  - lia.
Qed.

Lemma length_encode els : (2 * length els <= length (encode els))%nat.
Proof.
  induction els as [|e els IH]; [done|]. rewrite encode_cons, length_app. cbn [length encode1]. simpl. lia.
Qed.

Lemma get_ie_hit els e c a index limit len :
  Forall (fun e => e.1 <> index) els -> e.1 = index ->
  zlen (encode (els ++ [e])) <= limit ->
  rtw_get_ie (a ++ encode (els ++ [e]) ++ c) (zlen a) index len limit
  = Done (Some (zlen a + zlen (encode els)), zlen e.2).
Proof.
  intros Hne He Hl. unfold rtw_get_ie. rewrite encode_app in *. rewrite zlen_app in Hl.
  rewrite encode_cons, app_nil_r, zlen_encode1 in *.
  pose proof (zlen_nonneg (encode els)). pose proof (zlen_nonneg e.2).
  rewrite (proj2 (Z.ltb_ge _ _)) by lia.
  pose proof (length_encode els) as Hle.
  replace (Z.to_nat limit) with (length els + S (Z.to_nat limit - length els - 1))%nat
    by (unfold zlen in *; lia).
  rewrite <- app_assoc.
  rewrite (get_ie_loop_skip els _ _ a (encode1 e ++ c)) by (done || lia).
  cbn [get_ie_loop]. rewrite (app_assoc a).
  rewrite (ld_id (a ++ encode els) _ _ (zlen a + zlen (encode els))), done_bind by (rewrite zlen_app; done).
  rewrite (proj2 (Z.eqb_eq _ _)) by done.
  rewrite (ld_len (a ++ encode els)), done_bind by (rewrite zlen_app; done). done.
Qed.

Lemma get_ie_miss els c a index len :
  Forall (fun e => e.1 <> index) els -> els <> [] ->
  rtw_get_ie (a ++ encode els ++ c) (zlen a) index len (zlen (encode els)) = Done (None, 0).
Proof.
  intros Hne Hn. destruct els as [|e els _] using rev_ind; [done|].
  apply list.Forall_app in Hne as [Hne He]. apply list.Forall_cons in He as [He _].
  unfold rtw_get_ie. rewrite encode_app, zlen_app, encode_cons, app_nil_r, zlen_encode1.
  pose proof (zlen_nonneg (encode els)). pose proof (zlen_nonneg e.2).
  rewrite (proj2 (Z.ltb_ge _ _)) by lia.
  pose proof (length_encode els) as Hle.
  set (limit := zlen (encode els) + (zlen e.2 + 2)).
  replace (Z.to_nat limit) with (length els + S (Z.to_nat limit - length els - 1))%nat
    by (unfold zlen in *; lia).
  rewrite <- app_assoc.
  rewrite (get_ie_loop_skip els _ _ a (encode1 e ++ c)) by (done || lia).
  cbn [get_ie_loop]. rewrite (app_assoc a).
  rewrite (ld_id (a ++ encode els) _ _ (zlen a + zlen (encode els))), done_bind by (rewrite zlen_app; done).
  rewrite (proj2 (Z.eqb_neq _ _)) by done.
  rewrite (ld_len (a ++ encode els)), done_bind by (rewrite zlen_app; done).
  cbv zeta. by rewrite (proj2 (Z.leb_le _ _)) by lia.
Qed.

(** The search finds the first element with the id, or none. *)
Lemma get_ie_run a els c index len : els <> [] ->
  rtw_get_ie (a ++ encode els ++ c) (zlen a) index len (zlen (encode els))
  = Done (match find_ie index els with
          | Some (before, hit) => (Some (zlen a + zlen (encode before)), zlen hit.2)
          | None => (None, 0)
          end).
Proof.
  intros Hn. destruct (find_ie index els) as [[before hit]|] eqn:Hf.
  - apply find_ie_Some in Hf as (after & -> & Hh & Hb).
    replace (before ++ hit :: after) with ((before ++ [hit]) ++ after) by by rewrite <- app_assoc.
    rewrite encode_app, <- app_assoc, zlen_app. apply get_ie_hit; [done..|].
    pose proof (zlen_nonneg (encode after)). lia.
  - apply get_ie_miss; [by apply find_ie_None|done].
Qed.

(** The search stays one byte past [limit] at most, and ends. *)
Lemma get_ie_loop_safe m index limit pbuf : forall fuel p i,
  bytes_ok m -> 0 <= pbuf -> 0 <= i -> i < limit -> p = pbuf + i ->
  pbuf + limit + 1 <= zlen m -> (Z.to_nat (limit - i) <= fuel)%nat ->
  exists r, get_ie_loop fuel m index limit p i = Done r /\
    match r.1 with
    | Some q => pbuf <= q < pbuf + limit /\ ld m q = Some index /\ ld m (q + 1) = Some r.2
    | None => r.2 = 0
    end.
Proof.
  induction fuel as [|fuel IH]; intros p i Hb Hpb Hi Hl Hp Hm Hf; [lia|].
  cbn [get_ie_loop]. rewrite (ldr_ok m p), done_bind by lia.
  destruct (Z.eqb_spec (ld0 m p) index) as [He|He].
  - rewrite ldr_ok, done_bind by lia. eexists. split; [done|]. cbn.
    rewrite !ld_Some by lia. rewrite He. repeat split; lia || done.
  - rewrite ldr_ok, done_bind by lia. cbv zeta. pose proof (ld0_u8 m (p + 1) Hb).
    destruct (Z.leb_spec limit (i + (ld0 m (p + 1) + 2))).
    + by exists (None, 0).
    + apply IH; lia || done.
Qed.

(** ** rtw_get_ie_ex and rtw_ies_remove_ie *)

(** The id and OUI test of the loop, on an element. *)
Lemma ex_test a e c eid oui p :
  p = zlen a -> oui_fits eid oui e ->
  (if eid =? e.1
   then match oui with
        | None => Done true
        | Some o => _rtw_memcmp (a ++ encode1 e ++ c) (p + 2) o
        end
   else Done false) = Done (matches eid oui e).
Proof.
  intros -> Hf. unfold matches. destruct (Z.eqb_spec eid e.1) as [He|He]; [|done].
  destruct oui as [o|]; [|done]. by rewrite (memcmp_body a) by (done || by apply Hf).
Qed.

Lemma get_ie_ex_loop_run eid oui : forall els fuel a0 a c in_len cnt,
  Forall (oui_fits eid oui) els -> (length els <= fuel)%nat ->
  cnt = zlen a -> in_len = cnt + zlen (encode els) -> in_len < 2 ^ 32 ->
  get_ie_ex_loop fuel (a0 ++ a ++ encode els ++ c) (zlen a0) in_len eid oui None cnt
  = Done (match find_by (matches eid oui) els with
          | Some (before, hit) => (Some (zlen a0 + cnt + zlen (encode before)), None, zlen hit.2 + 2)
          | None => (None, None, 0)
          end).
Proof.
  induction els as [|e els IH]; intros fuel a0 a c in_len cnt Hf Hfu Hc Hl Hr.
  { change (zlen (encode [])) with 0 in Hl.
    destruct fuel; cbn [get_ie_ex_loop]; by rewrite (proj2 (Z.ltb_ge _ _)) by lia. }
  destruct fuel as [|fuel]; [cbn in Hfu; lia|].
  apply list.Forall_cons in Hf as [Hfe Hf].
  rewrite zlen_encode_cons in Hl. pose proof (zlen_nonneg (encode els)). pose proof (zlen_nonneg e.2).
  pose proof (zlen_nonneg a).
  rewrite encode_cons, <- app_assoc, (app_assoc a0).
  cbn [get_ie_ex_loop find_by]. rewrite (proj2 (Z.ltb_lt _ _)) by lia.
  rewrite (ld_id (a0 ++ a) _ _ (zlen a0 + cnt)), done_bind by (rewrite zlen_app; lia).
  rewrite (ex_test (a0 ++ a)), done_bind by (rewrite ?zlen_app; lia || done).
  rewrite (ld_len (a0 ++ a)), done_bind by (rewrite zlen_app; lia).
  destruct (matches eid oui e) eqn:Hm.
  - cbn. by rewrite !Z.add_0_r.
  - rewrite u32_id by lia. rewrite <- app_assoc, (app_assoc a).
    rewrite (IH fuel a0 (a ++ encode1 e) c) by
      (rewrite ?zlen_app, ?zlen_encode1; done || lia || (cbn in Hfu; lia)).
    destruct (find_by (matches eid oui) els) as [[b h]|]; cbn [mbind option_bind]; [|done].
    rewrite zlen_encode_cons. do 4 f_equal. lia.
Qed.

Lemma get_ie_ex_run eid oui els a c :
  Forall (oui_fits eid oui) els -> zlen (encode els) < 2 ^ 32 ->
  rtw_get_ie_ex (a ++ encode els ++ c) (zlen a) (zlen (encode els)) eid oui None
  = Done (match find_by (matches eid oui) els with
          | Some (before, hit) => (Some (zlen a + zlen (encode before)), None, zlen hit.2 + 2)
          | None => (None, None, 0)
          end).
Proof.
  intros Hf Hr. unfold rtw_get_ie_ex. pose proof (zlen_nonneg (encode els)).
  destruct els as [|e els]; [done|].
  assert (0 < zlen (encode (e :: els))).
  { rewrite zlen_encode_cons. pose proof (zlen_nonneg e.2). pose proof (zlen_nonneg (encode els)). lia. }
  rewrite (proj2 (Z.leb_gt _ _)) by done.
  pose proof (length_encode (e :: els)).
  pose proof (get_ie_ex_loop_run eid oui (e :: els) (Z.to_nat (zlen (encode (e :: els)))) a [] c
    (zlen (encode (e :: els))) 0) as Hrun.
  cbn [app] in Hrun. rewrite Hrun by (done || unfold zlen in *; lia).
  by rewrite Z.add_0_r.
Qed.

(** The elements a removal keeps. *)
Definition kept (eid : Z) (oui : option bytes) : list elem -> list elem :=
  filter (fun e => matches eid oui e = false).

(** Moving the end [y] of a segment over its start [x] leaves a tail as long as [x]. *)
Lemma shift_tail (x y : bytes) : exists u v, x ++ y = u ++ v /\ length u = length y /\ length v = length x.
Proof.
  exists (take (length y) (x ++ y)), (drop (length y) (x ++ y)).
  rewrite take_drop, length_take, length_drop, length_app. repeat split; lia.
Qed.

Lemma kept_none eid oui els : Forall (fun e => matches eid oui e = false) els -> kept eid oui els = els.
Proof.
  induction 1 as [|e els He _ IH]; [done|]. unfold kept in *. rewrite filter_cons_True by done. by rewrite IH.
Qed.
Lemma kept_split eid oui before hit after :
  Forall (fun e => matches eid oui e = false) before -> matches eid oui hit = true ->
  kept eid oui (before ++ hit :: after) = before ++ kept eid oui after.
Proof.
  intros Hb Hh. unfold kept. rewrite list.filter_app, filter_cons_False by (by rewrite Hh).
  f_equal. by apply kept_none.
Qed.

Lemma ies_remove_loop_run eid oui : forall n els fuel a c ret ies_len,
  (length els <= n)%nat -> (n < fuel)%nat ->
  Forall (oui_fits eid oui) els -> zlen (encode els) <= MAX_IE_SZ ->
  zlen (encode els) <= ies_len < 2 ^ 32 ->
  exists tail,
    ies_remove_loop fuel (a ++ encode els ++ c) ret ies_len (zlen a) (zlen (encode els)) eid oui
    = Done (if forallb (fun e => negb (matches eid oui e)) els then ret else _SUCCESS,
            a ++ encode (kept eid oui els) ++ tail ++ c,
            ies_len - (zlen (encode els) - zlen (encode (kept eid oui els)))) /\
    zlen tail = zlen (encode els) - zlen (encode (kept eid oui els)).
Proof.
  unfold MAX_IE_SZ. induction n as [|n IH]; intros els fuel a c ret ies_len Hn Hfu Hf Hs Hi;
    (destruct fuel as [|fuel]; [lia|]); cbn [ies_remove_loop];
    rewrite get_ie_ex_run by (done || lia); rewrite done_bind;
    destruct (find_by (matches eid oui) els) as [[before hit]|] eqn:Hfind.
  1: { apply find_by_Some in Hfind as (after & -> & _). rewrite length_app in Hn. cbn in Hn. lia. }
  2: { apply find_by_Some in Hfind as (after & -> & Hh & Hb).
    apply list.Forall_app in Hf as [Hf1 [_ Hf2]%list.Forall_cons].
    rewrite length_app in Hn. cbn [length] in Hn.
    rewrite encode_app, encode_cons, !zlen_app, zlen_encode1 in *.
    pose proof (zlen_nonneg (encode before)). pose proof (zlen_nonneg hit.2).
    pose proof (zlen_nonneg (encode after)).
    rewrite (proj2 (Z.eqb_neq _ _)) by lia. cbv zeta.
    replace (u32 (_ - _)) with (zlen (encode after)) by (rewrite u32_id by lia; lia).
    replace (a ++ (encode before ++ encode1 hit ++ encode after) ++ c)
      with ((a ++ encode before ++ encode1 hit) ++ encode after ++ c) by by rewrite <- !app_assoc.
    rewrite rdr_mid, done_bind by (rewrite ?zlen_app, ?zlen_encode1; lia).
    unfold MAX_IE_SZ. rewrite (proj2 (Z.ltb_ge _ _)) by lia.
    destruct (shift_tail (encode1 hit) (encode after)) as (u & v & Huv & Hu & Hv).
    replace ((a ++ encode before ++ encode1 hit) ++ encode after ++ c)
      with ((a ++ encode before) ++ u ++ v ++ c)
      by (rewrite <- !app_assoc; f_equal; f_equal; rewrite !app_assoc; by rewrite Huv).
    rewrite wrr_mid, done_bind by (rewrite ?zlen_app; lia).
    rewrite u32_id by lia.
    replace (zlen a + zlen (encode before)) with (zlen (a ++ encode before)) by by rewrite zlen_app.
    destruct (IH after fuel (a ++ encode before) (v ++ c) _SUCCESS (ies_len - (zlen hit.2 + 2)))
      as (tail & Hrun & Ht); [lia..|done|lia|lia|].
    exists (tail ++ v). rewrite Hrun, kept_split by done. split.
    - rewrite forallb_app. cbn [forallb]. rewrite Hh, andb_false_r.
      rewrite encode_app, zlen_app, <- !app_assoc.
      destruct (forallb _ after); do 2 f_equal; lia.
    - rewrite encode_app, !zlen_app. pose proof (zlen_encode1 hit). unfold zlen in *. lia. }
  all: apply find_by_None in Hfind; exists [];
    rewrite kept_none by done;
    replace (forallb _ els) with true by
      (symmetry; apply forallb_forall; intros e He; rewrite Forall_forall in Hfind;
       by rewrite (Hfind e He));
    split; [|rewrite zlen_nil; lia]; cbn [app]; do 2 f_equal; lia.
Qed.

(** ** rtw_get_wpa_ie *)

(** A WPA element: vendor specific, Microsoft OUI and type 1, version 1. *)
Definition is_wpa (e : elem) : bool :=
  (e.1 =? 221) && bool_decide (take 6 e.2 = [0x00; 0x50; 0xf2; 0x01; 0x01; 0x00]).

(** Vendor elements long enough for the OUI, the type and the version. *)
Definition wpa_fits (e : elem) : Prop := e.1 = 221 -> 6 <= zlen e.2.

(** The tests of the loop on a vendor element. *)
Lemma wpa_test {B} (k : bool -> res B) a e c p :
  p = zlen a -> bytes_ok e.2 -> 6 <= zlen e.2 -> e.1 = 221 ->
  (oui ← _rtw_memcmp (a ++ encode1 e ++ c) (p + 2) wpa_oui_type;
   ok ← (if (oui : bool)
         then val16 ← RTW_GET_LE16 (a ++ encode1 e ++ c) (p + 6); Done (val16 =? 1)
         else Done false);
   k ok) = k (is_wpa e).
Proof.
  intros -> Hb Hl He. set (r := Done (is_wpa e) ≫= k). change (k (is_wpa e)) with r. subst r.
  rewrite (memcmp_body a) by (done || (change (zlen wpa_oui_type) with 4; lia)). rewrite done_bind.
  rewrite (get_le16_ok _ _ (ld0 e.2 4) (ld0 e.2 5));
    [|apply ld_body; lia|apply ld_body; lia|by apply ld0_u8..].
  rewrite done_bind. f_equal.
  unfold is_wpa. rewrite (proj2 (Z.eqb_eq e.1 221)) by done. cbn [andb].
  destruct e as [eid body]. cbn [fst snd] in *.
  pose proof (ld0_u8 body 4 Hb). pose proof (ld0_u8 body 5 Hb).
  do 6 (destruct body as [|? body]; [unfold zlen in Hl; cbn [length] in Hl; lia|]).
  unfold ld0 in *. change (Z.to_nat 4) with 4%nat in *. change (Z.to_nat 5) with 5%nat in *.
  cbn [nth take length wpa_oui_type] in *. rewrite take_0.
  case_bool_decide as H4; case_bool_decide as H6; try (injection H4 as -> -> -> ->);
    try (injection H6 as -> -> -> -> -> ->); try (injection H6 as -> ->); try done; f_equal.
  apply Z.eqb_neq. intros Hv. apply H6. repeat f_equal; lia.
Qed.

Lemma get_wpa_ie_loop_run : forall n els fuel a b c limit len,
  (length els <= n)%nat -> (n <= fuel)%nat -> els <> [] ->
  Forall elem_ok els -> Forall wpa_fits els -> limit = zlen b + zlen (encode els) ->
  get_wpa_ie_loop (S fuel) (a ++ b ++ encode els ++ c) (zlen a) limit (zlen a + zlen b) len
    (zlen (encode els))
  = Done (match find_by is_wpa els with
          | Some (before, hit) => (Some (zlen a + zlen b + zlen (encode before)), zlen hit.2)
          | None => (None, 0)
          end).
Proof.
  induction n as [|n IH]; intros els fuel a b c limit len Hn Hfu Hne Hok Hf Hl;
    [by destruct els; [done|cbn in Hn; lia]|].
  cbn [get_wpa_ie_loop]. rewrite (app_assoc a).
  replace (zlen a + zlen b) with (zlen (a ++ b)) by apply zlen_app.
  rewrite get_ie_run, done_bind by done. unfold _WPA_IE_ID_.
  destruct (find_ie 221 els) as [[before hit]|] eqn:Hfind.
  - apply find_ie_Some in Hfind as (after & -> & Hh & Hb).
    apply list.Forall_app in Hok as [Hok1 [Hoh Hok2]%list.Forall_cons].
    apply list.Forall_app in Hf as [Hf1 [Hfh Hf2]%list.Forall_cons].
    destruct Hoh as (_ & Hbh & _). specialize (Hfh Hh).
    assert (Hskip : find_by is_wpa (before ++ hit :: after)
      = if is_wpa hit then Some (before, hit)
        else '(b', h) ← find_by is_wpa after; Some (before ++ hit :: b', h)).
    { clear -Hb. induction Hb as [|e before He _ IHb].
      - cbn [app find_by]. destruct (is_wpa hit); [done|].
        by destruct (find_by is_wpa after) as [[??]|].
      - cbn [app find_by]. unfold is_wpa at 1. rewrite (proj2 (Z.eqb_neq _ _)) by done.
        cbn [andb]. rewrite IHb. destruct (is_wpa hit); [done|].
        by destruct (find_by is_wpa after) as [[??]|]. }
    rewrite Hskip. rewrite encode_app, encode_cons, <- !app_assoc.
    rewrite (app_assoc b), (app_assoc a).
    assert (Hp : zlen (a ++ b) + zlen (encode before) = zlen (a ++ b ++ encode before))
      by (rewrite !zlen_app; lia).
    rewrite Hp, wpa_test by done.
    destruct (is_wpa hit) eqn:Hw.
    + by rewrite ld_len, done_bind, Hp by done.
    + cbv zeta. rewrite encode_app, encode_cons, !zlen_app, zlen_encode1 in Hl.
      replace (limit - (zlen (a ++ b ++ encode before) - zlen a) - 2 - zlen hit.2)
        with (zlen (encode after)) by (rewrite Hl, !zlen_app; lia).
      destruct after as [|e after].
      { by rewrite (proj2 (Z.leb_le _ _)) by (change (zlen (encode [])) with 0; lia). }
      rewrite (proj2 (Z.leb_gt _ _)) by
        (rewrite zlen_encode_cons; pose proof (zlen_nonneg e.2); pose proof (zlen_nonneg (encode after)); lia).
      destruct fuel as [|fuel]; [lia|].
      rewrite length_app in Hn. cbn [length] in Hn.
      pose proof (IH (e :: after) fuel a (b ++ encode before ++ encode1 hit) c limit (zlen hit.2)) as Hrun.
      replace ((a ++ b ++ encode before) ++ encode1 hit ++ encode (e :: after) ++ c)
        with (a ++ (b ++ encode before ++ encode1 hit) ++ encode (e :: after) ++ c)
        by by rewrite <- !app_assoc.
      replace (zlen (a ++ b ++ encode before) + (2 + zlen hit.2))
        with (zlen a + zlen (b ++ encode before ++ encode1 hit))
        by (rewrite !zlen_app, zlen_encode1; lia).
      rewrite Hrun; [|cbn in Hn |- *; lia|lia|done..|rewrite !zlen_app, zlen_encode1 in *; lia].
      destruct (find_by is_wpa (e :: after)) as [[b' h]|]; cbn [mbind option_bind]; [|done].
      rewrite encode_app, encode_cons, !zlen_app. do 3 f_equal. rewrite zlen_encode1. lia.
  - apply find_ie_None in Hfind.
    replace (find_by is_wpa els) with (@None (list elem * elem)); [done|].
    symmetry. clear -Hfind. induction Hfind as [|e els He _ IHe]; [done|]. cbn [find_by].
    unfold is_wpa at 1. rewrite (proj2 (Z.eqb_neq _ _)) by done. cbn [andb]. by rewrite IHe.
Qed.

(** ** Properties *)

(** Appending an element with rtw_set_ie after the elements [els] of a frame
    writes exactly its encoding and advances the frame length, and a search of
    the longer frame then finds, for every id, the first element with that id
    among [els] and the new one, at its offset and with the length of its body. *)
Theorem set_ie_get_ie a els old c index source :
  is_u8 index -> zlen source <= 255 -> zlen old = zlen source + 2 ->
  zlen (encode els) + zlen source + 2 < 2 ^ 32 ->
  exists m' frlen',
    rtw_set_ie (a ++ encode els ++ old ++ c) (zlen a + zlen (encode els)) index (zlen source) source
      (zlen (encode els)) = Done (m', zlen a + frlen', frlen') /\
    zlen m' = zlen (a ++ encode els ++ old ++ c) /\
    rd m' (zlen a + frlen' - zlen source) (zlen source) = Some source /\
    forall eid len, rtw_get_ie m' (zlen a) eid len frlen'
      = Done (match find_ie eid (els ++ [(index, source)]) with
              | Some (before, hit) => (Some (zlen a + zlen (encode before)), zlen hit.2)
              | None => (None, 0)
              end).
Proof.
  intros Hi Hs Ho Hf. pose proof (zlen_nonneg (encode els)). pose proof (zlen_nonneg source).
  exists (a ++ encode (els ++ [(index, source)]) ++ c), (zlen (encode (els ++ [(index, source)]))).
  rewrite (app_assoc a), <- (zlen_app a), rtw_set_ie_run by (done || lia).
  rewrite encode_app, encode_cons, app_nil_r, !zlen_app, zlen_encode1. cbn [snd].
  repeat split.
  - rewrite <- !app_assoc. do 2 f_equal; [f_equal|]; lia.
  - lia.
  - unfold encode1. cbn [fst snd].
    rewrite <- app_assoc. change ((?x :: ?y :: ?b) ++ c) with ([x; y] ++ b ++ c).
    rewrite (app_assoc (encode els)), (app_assoc a). apply rd_mid; [|done].
    rewrite !zlen_app. change (zlen [index; zlen source]) with 2. lia.
  - intros eid len. rewrite <- get_ie_run with (c := c) (len := len) by (by destruct els).
    rewrite encode_app, encode_cons, app_nil_r, zlen_app, zlen_encode1. done.
Qed.

Lemma set_ie_get_ie_witness : exists m' frlen',
  rtw_set_ie ([7; 7] ++ encode [(0, [65; 80]); (1, [130])] ++ [0; 0; 0; 0] ++ [9])
    (2 + 7) 3 2 [6; 6] 7 = Done (m', 2 + frlen', frlen') /\ zlen m' = 14.
Proof.
  destruct (set_ie_get_ie [7; 7] [(0, [65; 80]); (1, [130])] [0; 0; 0; 0] [9] 3 [6; 6])
    as (m' & fr & H1 & H2 & _); [lia|vm_compute; discriminate|reflexivity|vm_compute; reflexivity|].
  exists m', fr. split; [exact H1|rewrite H2; reflexivity].
Defined.

(** The search ends on every buffer of bytes and never reads further than one
    byte past its limit; what it returns is the offset, below the limit, of a byte
    that holds the id, with the byte after it as the length.  (The element it
    returns may still be longer than what the limit leaves.) *)
Theorem rtw_get_ie_safe m pbuf index len limit :
  bytes_ok m -> 0 <= pbuf -> pbuf + limit + 1 <= zlen m ->
  exists r, rtw_get_ie m pbuf index len limit = Done r /\
    match r.1 with
    | Some q => pbuf <= q < pbuf + limit /\ ld m q = Some index /\ ld m (q + 1) = Some r.2
    | None => r.2 = if limit <? 1 then len else 0
    end.
Proof.
  intros Hb Hp Hm. unfold rtw_get_ie. destruct (Z.ltb_spec limit 1) as [Hl|Hl].
  - by exists (None, len).
  - apply get_ie_loop_safe; done || lia.
Qed.

Lemma rtw_get_ie_safe_witness :
  exists r, rtw_get_ie [0; 3; 65; 80; 33; 48; 9; 1] 0 48 5 7 = Done r /\
    match r.1 with
    | Some q => 0 <= q < 7 /\ ld [0; 3; 65; 80; 33; 48; 9; 1] q = Some 48 /\
                ld [0; 3; 65; 80; 33; 48; 9; 1] (q + 1) = Some r.2
    | None => r.2 = if 7 <? 1 then 5 else 0
    end.
Proof.
  apply (rtw_get_ie_safe [0; 3; 65; 80; 33; 48; 9; 1] 0 48 5 7);
    [by apply bytes_ok_spec|lia|vm_compute; discriminate].
Defined.

(** The byte past the limit is read: a frame that is cut after an element id is
    searched beyond its end. *)
Lemma get_ie_overread : rtw_get_ie [1; 1; 130; 0] 0 48 0 4 = OutOfBounds.
Proof. reflexivity. Qed.

(** Removing the elements with an id (and an OUI) leaves the encodings of the
    others in their order, the bytes around the elements unchanged and the length
    shortened by what was removed; the result says whether anything was.  The
    elements must fit the buffer of MAX_IE_SZ bytes the function copies through. *)
Theorem rtw_ies_remove_ie_filters a els c eid oui :
  Forall (oui_fits eid oui) els -> zlen (encode els) <= MAX_IE_SZ ->
  zlen a + zlen (encode els) < 2 ^ 32 ->
  exists tail,
    rtw_ies_remove_ie (a ++ encode els ++ c) 0 (zlen a + zlen (encode els)) (zlen a) eid oui
    = Done (if forallb (fun e => negb (matches eid oui e)) els then _FAIL else _SUCCESS,
            a ++ encode (kept eid oui els) ++ tail ++ c,
            zlen a + zlen (encode (kept eid oui els))) /\
    zlen tail = zlen (encode els) - zlen (encode (kept eid oui els)).
Proof.
  intros Hf Hs Hr. unfold rtw_ies_remove_ie.
  pose proof (zlen_nonneg a). pose proof (zlen_nonneg (encode els)).
  destruct (Z.leb_spec (zlen a + zlen (encode els)) (zlen a)) as [Hl|Hl].
  - destruct els as [|e els].
    + exists []. split; [|done]. cbn. rewrite Z.add_0_r. done.
    + rewrite zlen_encode_cons in *. pose proof (zlen_nonneg e.2). pose proof (zlen_nonneg (encode els)). lia.
  - replace (zlen a + zlen (encode els) - zlen a) with (zlen (encode els)) by lia.
    destruct (ies_remove_loop_run eid oui (length els) els (S (Z.to_nat (zlen (encode els)))) a c
      _FAIL (zlen a + zlen (encode els))) as (tail & Hrun & Ht); [done| |done|done|lia|].
    { pose proof (length_encode els). unfold zlen. lia. }
    exists tail. rewrite Z.add_0_l, Hrun. split; [|done]. do 2 f_equal. lia.
Qed.

Lemma rtw_ies_remove_ie_filters_witness : exists tail,
  rtw_ies_remove_ie ([1; 2] ++ encode [(0, [65]); (221, [80; 111; 154; 9; 1]); (3, [6])] ++ [5]) 0
    (2 + 13) 2 221 (Some [80; 111; 154; 9])
  = Done (_SUCCESS, [1; 2] ++ encode [(0, [65]); (3, [6])] ++ tail ++ [5], 2 + 6) /\ zlen tail = 7.
Proof.
  apply (rtw_ies_remove_ie_filters [1; 2] [(0, [65]); (221, [80; 111; 154; 9; 1]); (3, [6])] [5] 221
    (Some [80; 111; 154; 9]));
    [repeat constructor; vm_compute; discriminate|vm_compute; discriminate|vm_compute; reflexivity].
Defined.

(** rtw_get_wpa_ie returns the first vendor element with the OUI 00:50:f2, type 1
    and version 1, skipping other vendor elements, and NULL when there is none. *)
Theorem rtw_get_wpa_ie_finds a els c :
  els <> [] -> Forall elem_ok els -> Forall wpa_fits els ->
  rtw_get_wpa_ie (a ++ encode els ++ c) (zlen a) (zlen (encode els))
  = Done (match find_by is_wpa els with
          | Some (before, hit) => (Some (zlen a + zlen (encode before)), zlen hit.2)
          | None => (None, 0)
          end).
Proof.
  intros Hn Hok Hf. unfold rtw_get_wpa_ie.
  pose proof (get_wpa_ie_loop_run (length els) els (Z.to_nat (zlen (encode els))) a [] c
    (zlen (encode els)) 0) as Hrun.
  change (zlen (@nil Z)) with 0 in Hrun. rewrite Z.add_0_r in Hrun. cbn [app] in Hrun.
  pose proof (length_encode els). apply Hrun; try done. unfold zlen. lia.
Qed.

Lemma rtw_get_wpa_ie_finds_witness :
  rtw_get_wpa_ie ([9] ++ encode [(221, [0; 80; 242; 2; 1; 0]); (1, [130]); (221, [0; 80; 242; 1; 1; 0; 7])] ++ [])
    1 20
  = Done (Some (1 + 11), 7).
Proof.
  apply (rtw_get_wpa_ie_finds [9] [(221, [0; 80; 242; 2; 1; 0]); (1, [130]); (221, [0; 80; 242; 1; 1; 0; 7])] []);
    [discriminate| |].
  - repeat constructor; vm_compute; discriminate.
  - repeat constructor; vm_compute; discriminate.
Defined.
