(* ===== verification/IeWpa.v ===== *)
(** * Security elements (src/core/rtw_ieee80211.c)

    The WPA and RSN parsers, the search for the security elements of a scanned
    network, and the classification of its protection (rtw_get_bcn_info). *)

From S2P Require Import Prelude Ie.

(** ** Cipher suites *)
Definition WPA_CIPHER_NONE : Z := 1.
Definition WPA_CIPHER_WEP40 : Z := 2.
Definition WPA_CIPHER_WEP104 : Z := 4.
Definition WPA_CIPHER_TKIP : Z := 8.
Definition WPA_CIPHER_CCMP : Z := 16.

Definition WPA_CIPHER_SUITE_NONE : bytes := [0x00; 0x50; 0xf2; 0].
Definition WPA_CIPHER_SUITE_WEP40 : bytes := [0x00; 0x50; 0xf2; 1].
Definition WPA_CIPHER_SUITE_TKIP : bytes := [0x00; 0x50; 0xf2; 2].
Definition WPA_CIPHER_SUITE_CCMP : bytes := [0x00; 0x50; 0xf2; 4].
Definition WPA_CIPHER_SUITE_WEP104 : bytes := [0x00; 0x50; 0xf2; 5].
Definition RSN_CIPHER_SUITE_NONE : bytes := [0x00; 0x0f; 0xac; 0].
Definition RSN_CIPHER_SUITE_WEP40 : bytes := [0x00; 0x0f; 0xac; 1].
Definition RSN_CIPHER_SUITE_TKIP : bytes := [0x00; 0x0f; 0xac; 2].
Definition RSN_CIPHER_SUITE_CCMP : bytes := [0x00; 0x0f; 0xac; 4].
Definition RSN_CIPHER_SUITE_WEP104 : bytes := [0x00; 0x0f; 0xac; 5].
Definition RTW_WPA_OUI_TYPE : bytes := [0x00; 0x50; 0xf2; 1].

Definition wpa_cipher (s : bytes) : Z :=
  if bool_decide (s = WPA_CIPHER_SUITE_NONE) then WPA_CIPHER_NONE
  else if bool_decide (s = WPA_CIPHER_SUITE_WEP40) then WPA_CIPHER_WEP40
  else if bool_decide (s = WPA_CIPHER_SUITE_TKIP) then WPA_CIPHER_TKIP
  else if bool_decide (s = WPA_CIPHER_SUITE_CCMP) then WPA_CIPHER_CCMP
  else if bool_decide (s = WPA_CIPHER_SUITE_WEP104) then WPA_CIPHER_WEP104
  else 0.

Definition rsn_cipher (s : bytes) : Z :=
  if bool_decide (s = RSN_CIPHER_SUITE_NONE) then WPA_CIPHER_NONE
  else if bool_decide (s = RSN_CIPHER_SUITE_WEP40) then WPA_CIPHER_WEP40
  else if bool_decide (s = RSN_CIPHER_SUITE_TKIP) then WPA_CIPHER_TKIP
  else if bool_decide (s = RSN_CIPHER_SUITE_CCMP) then WPA_CIPHER_CCMP
  else if bool_decide (s = RSN_CIPHER_SUITE_WEP104) then WPA_CIPHER_WEP104
  else 0.

Definition rtw_get_wpa_cipher_suite (m : bytes) (s : Z) : res Z :=
  b ← rdr m s WPA_SELECTOR_LEN; Done (wpa_cipher b).
Definition rtw_get_wpa2_cipher_suite (m : bytes) (s : Z) : res Z :=
  b ← rdr m s RSN_SELECTOR_LEN; Done (rsn_cipher b).

(** ** rtw_parse_wpa_ie and rtw_parse_wpa2_ie *)

(** What the parsers write through their pointers, [is_8021x] being NULL or not. *)
Record ciphers := Ciphers {
  group_cipher : Z;
  pairwise_cipher : Z;
  is_8021x : option Z;
}.

Section parse.
(** The two functions are the same code after their headers, for their own
    suites: from the group cipher at [pos] on. *)
Variable cipher_suite : bytes -> Z -> res Z.
Variable SUITE_1X : bytes.

Fixpoint pairwise_loop (count : nat) (m : bytes) (pos left pairwise : Z) : res (Z * Z * Z) :=
  match count with
  | O => Done (pos, left, pairwise)
  | S count =>
    c ← cipher_suite m pos;
    pairwise_loop count m (pos + 4) (left - 4) (pairwise .| c)
  end.

(** The first key management suite. *)
Definition parse_akm (m : bytes) (pos left : Z) (o : ciphers) : res (Z * ciphers) :=
  match is_8021x o with
  | Some _ =>
    if 6 <=? left then
      same ← _rtw_memcmp m (pos + 2) SUITE_1X;
      Done (_SUCCESS, if (same : bool)
                      then Ciphers (group_cipher o) (pairwise_cipher o) (Some 1) else o)
    else Done (_SUCCESS, o)
  | None => Done (_SUCCESS, o)
  end.

(** The pairwise ciphers. *)
Definition parse_pairwise (m : bytes) (pos left : Z) (o : ciphers) : res (Z * ciphers) :=
  if 2 <=? left then
    count ← RTW_GET_LE16 m pos;
    let pos := pos + 2 in
    let left := left - 2 in
    if (count =? 0) || (left <? count * 4) then Done (_FAIL, o)
    else
      '(pos, left, pairwise) ← pairwise_loop (Z.to_nat count) m pos left (pairwise_cipher o);
      parse_akm m pos left (Ciphers (group_cipher o) pairwise (is_8021x o))
  else if left =? 1 then Done (_FAIL, o)
  else parse_akm m pos left o.

Definition parse_suites (m : bytes) (pos left : Z) (o : ciphers) : res (Z * ciphers) :=
  if 4 <=? left then
    g ← cipher_suite m pos;
    parse_pairwise m (pos + 4) (left - 4) (Ciphers g (pairwise_cipher o) (is_8021x o))
  else if 0 <? left then Done (_FAIL, o)
  else parse_pairwise m pos left o.
End parse.

Definition WPA_SUITE_1X : bytes := [0x00; 0x50; 0xf2; 1].
Definition RSN_SUITE_1X : bytes := [0x00; 0x0f; 0xac; 1].

Definition rtw_parse_wpa_ie (m : bytes) (wpa_ie wpa_ie_len : Z) (o : ciphers) : res (Z * ciphers) :=
  if wpa_ie_len <=? 0 then Done (_FAIL, o)
  else
    id ← ldr m wpa_ie;
    if negb (id =? _WPA_IE_ID_) then Done (_FAIL, o)
    else
      len ← ldr m (wpa_ie + 1);
      if negb (len =? u8 (wpa_ie_len - 2)) then Done (_FAIL, o)
      else
        same ← _rtw_memcmp m (wpa_ie + 2) RTW_WPA_OUI_TYPE;
        if negb same then Done (_FAIL, o)
        else parse_suites rtw_get_wpa_cipher_suite WPA_SUITE_1X m (wpa_ie + 8) (wpa_ie_len - 8) o.

Definition rtw_parse_wpa2_ie (m : bytes) (rsn_ie rsn_ie_len : Z) (o : ciphers) : res (Z * ciphers) :=
  if rsn_ie_len <=? 0 then Done (_FAIL, o)
  else
    id ← ldr m rsn_ie;
    if negb (id =? _WPA2_IE_ID_) then Done (_FAIL, o)
    else
      len ← ldr m (rsn_ie + 1);
      if negb (len =? u8 (rsn_ie_len - 2)) then Done (_FAIL, o)
      else parse_suites rtw_get_wpa2_cipher_suite RSN_SUITE_1X m (rsn_ie + 4) (rsn_ie_len - 4) o.

(** ** rtw_get_wapi_ie and rtw_get_sec_ie *)

(** The debug dump of an element of [n] bytes, [for (i = 0; i < n; i = i + 8)]
    with an index of type u8: its loop control. *)
Fixpoint dump_loop (fuel : nat) (n i : Z) : res unit :=
  if i <? n then
    match fuel with
    | O => NoFuel
    | S fuel => dump_loop fuel n (u8 (i + 8))
    end
  else Done tt.

(** The copy of the element at [p] of [n] bytes to a caller's buffer, with the
    dump that follows it. *)
Definition copy_dump (dst : option bytes) (m : bytes) (p n : Z) : res (option bytes) :=
  match dst with
  | None => Done None
  | Some _ => d ← copy_out dst m p n; dump_loop 32 n 0;; Done d
  end.

Definition wapi_oui1 : bytes := [0x0; 0x14; 0x72; 0x01].
Definition wapi_oui2 : bytes := [0x0; 0x14; 0x72; 0x02].

Fixpoint get_wapi_ie_loop (fuel : nat) (m : bytes) (in_len cnt : Z)
    (wapi_ie : option bytes) (wapi_len : Z) : res (option bytes * Z) :=
  if cnt <? in_len then
    match fuel with
    | O => NoFuel
    | S fuel =>
      authmode ← ldr m cnt;
      hit ← (if authmode =? _WAPI_IE_
             then b1 ← _rtw_memcmp m (cnt + 6) wapi_oui1;
                  if (b1 : bool) then Done true else _rtw_memcmp m (cnt + 6) wapi_oui2
             else Done false);
      len ← ldr m (cnt + 1);
      if (hit : bool) then
        wapi_ie ← copy_dump wapi_ie m cnt (len + 2);
        get_wapi_ie_loop fuel m in_len (u32 (cnt + (len + 2))) wapi_ie (len + 2)
      else get_wapi_ie_loop fuel m in_len (u32 (cnt + (len + 2))) wapi_ie wapi_len
    end
  else Done (wapi_ie, wapi_len).

(** The returned length, the copy and [*wapi_len]; [wapi_len] is not NULL. *)
Definition rtw_get_wapi_ie (m : bytes) (in_len : Z) (wapi_ie : option bytes)
    : res (Z * option bytes * Z) :=
  if in_len <=? 0 then Done (0, wapi_ie, 0)
  else '(ie, len) ← get_wapi_ie_loop (Z.to_nat in_len) m in_len 12 wapi_ie 0;
       Done (len, ie, len).

(** What rtw_get_sec_ie writes: the copies of the elements and their lengths. *)
Record sec_ies := SecIes {
  rsn_ie : option bytes;
  rsn_len : Z;
  wpa_ie : option bytes;
  wpa_len : Z;
}.

Definition wpa_oui : bytes := [0x0; 0x50; 0xf2; 0x01].

Fixpoint get_sec_ie_loop (fuel : nat) (m : bytes) (in_len cnt : Z) (o : sec_ies) : res sec_ies :=
  if cnt <? in_len then
    match fuel with
    | O => NoFuel
    | S fuel =>
      authmode ← ldr m cnt;
      wpa ← (if authmode =? _WPA_IE_ID_ then _rtw_memcmp m (cnt + 2) wpa_oui else Done false);
      len ← ldr m (cnt + 1);
      let next := u32 (cnt + (len + 2)) in
      if (wpa : bool) then
        ie ← copy_dump (wpa_ie o) m cnt (len + 2);
        get_sec_ie_loop fuel m in_len next (SecIes (rsn_ie o) (rsn_len o) ie (len + 2))
      else if authmode =? _WPA2_IE_ID_ then
        ie ← copy_dump (rsn_ie o) m cnt (len + 2);
        get_sec_ie_loop fuel m in_len next (SecIes ie (len + 2) (wpa_ie o) (wpa_len o))
      else get_sec_ie_loop fuel m in_len next o
    end
  else Done o.

Definition rtw_get_sec_ie (m : bytes) (in_len : Z) (o : sec_ies) : res (Z * sec_ies) :=
  o ← get_sec_ie_loop (Z.to_nat in_len) m in_len 12 o; Done (rsn_len o + wpa_len o, o).

(** ** rtw_get_cipher_info and rtw_get_bcn_info *)

Definition ENCRYP_PROTOCOL_OPENSYS : Z := 0.
Definition ENCRYP_PROTOCOL_WEP : Z := 1.
Definition ENCRYP_PROTOCOL_WPA : Z := 2.
Definition ENCRYP_PROTOCOL_WPA2 : Z := 3.
Definition WLAN_CAPABILITY_PRIVACY : Z := 16.
Definition _HT_CAPABILITY_IE_ : Z := 45.
Definition _HT_ADD_INFO_IE_ : Z := 61.

(** WLAN_BCN_INFO, with the ciphers in one field. *)
Record bcn_info := BcnInfo {
  encryp_protocol : Z;
  bcn_group : Z;
  bcn_pairwise : Z;
  bcn_8021x : Z;
  ht_cap_info : Z;
  ht_info_infos_0 : Z;
}.

(** The fields of struct wlan_network these functions use. *)
Record wlan_network := WlanNetwork {
  IEs : bytes;
  IELength : Z;
  Privacy : Z;
  BcnInfo_of : bcn_info;
}.

Definition set_ciphers (b : bcn_info) (o : ciphers) : bcn_info :=
  BcnInfo (encryp_protocol b) (group_cipher o) (pairwise_cipher o)
    (default 0 (is_8021x o)) (ht_cap_info b) (ht_info_infos_0 b).
Definition set_protocol (b : bcn_info) (p : Z) : bcn_info :=
  BcnInfo p (bcn_group b) (bcn_pairwise b) (bcn_8021x b) (ht_cap_info b) (ht_info_infos_0 b).
Definition set_ht (b : bcn_info) (cap infos : Z) : bcn_info :=
  BcnInfo (encryp_protocol b) (bcn_group b) (bcn_pairwise b) (bcn_8021x b) cap infos.

(** The return code and the updated BcnInfo. *)
Definition rtw_get_cipher_info (n : wlan_network) : res (Z * bcn_info) :=
  let o := Ciphers 0 0 (Some 0) in
  let store r := let '(ret, o) := (r : Z * ciphers) in
    if ret =? _SUCCESS then (_SUCCESS, set_ciphers (BcnInfo_of n) o) else (_FAIL, BcnInfo_of n) in
  let rsn wpa_ielen :=
    '(pbuf, wpa_ielen) ← rtw_get_wpa2_ie (IEs n) 12 wpa_ielen (IELength n - 12);
    match pbuf with
    | Some pbuf =>
      if 0 <? wpa_ielen then r ← rtw_parse_wpa2_ie (IEs n) pbuf (wpa_ielen + 2) o; Done (store r)
      else Done (_FAIL, BcnInfo_of n)
    | None => Done (_FAIL, BcnInfo_of n)
    end in
  '(pbuf, wpa_ielen) ← rtw_get_wpa_ie (IEs n) 12 (IELength n - 12);
  match pbuf with
  | Some pbuf =>
    if 0 <? wpa_ielen then r ← rtw_parse_wpa_ie (IEs n) pbuf (wpa_ielen + 2) o; Done (store r)
    else rsn wpa_ielen
  | None => rsn wpa_ielen
  end.

Definition set_bcn (n : wlan_network) (b : bcn_info) : wlan_network :=
  WlanNetwork (IEs n) (IELength n) (Privacy n) b.
Definition set_privacy (n : wlan_network) : wlan_network :=
  WlanNetwork (IEs n) (IELength n) 1 (BcnInfo_of n).

Definition rtw_get_bcn_info (n : wlan_network) : res wlan_network :=
  cap ← RTW_GET_LE16 (IEs n) 10;
  let bencrypt := negb (cap .& WLAN_CAPABILITY_PRIVACY =? 0) in
  let n := if bencrypt then set_privacy n
           else set_bcn n (set_protocol (BcnInfo_of n) ENCRYP_PROTOCOL_OPENSYS) in
  '(_, s) ← rtw_get_sec_ie (IEs n) (IELength n) (SecIes None 0 None 0);
  let n :=
    if 0 <? rsn_len s then set_bcn n (set_protocol (BcnInfo_of n) ENCRYP_PROTOCOL_WPA2)
    else if 0 <? wpa_len s then set_bcn n (set_protocol (BcnInfo_of n) ENCRYP_PROTOCOL_WPA)
    else if bencrypt then set_bcn n (set_protocol (BcnInfo_of n) ENCRYP_PROTOCOL_WEP)
    else n in
  '(_, b) ← rtw_get_cipher_info n;
  '(p, len) ← rtw_get_ie (IEs n) _FIXED_IE_LENGTH_ _HT_CAPABILITY_IE_ 0
                (IELength n - _FIXED_IE_LENGTH_);
  cap_info ← match p with
             | Some p => if 0 <? len then RTW_GET_LE16 (IEs n) (p + 2) else Done 0
             | None => Done 0
             end;
  '(p, len) ← rtw_get_ie (IEs n) _FIXED_IE_LENGTH_ _HT_ADD_INFO_IE_ len
                (IELength n - _FIXED_IE_LENGTH_);
  infos_0 ← match p with
            | Some p => if 0 <? len then ldr (IEs n) (p + 3) else Done 0
            | None => Done 0
            end;
  Done (set_bcn n (set_ht b cap_info infos_0)).

(** ** Lemmas: reading back a well-formed element *)

Lemma rdr4 a s c p : p = zlen a -> zlen s = 4 -> rdr (a ++ s ++ c) p 4 = Done s.
Proof. intros. by apply rdr_mid. Qed.

Section parse_run.
Variable cipher : bytes -> Z.
Variable cipher_suite : bytes -> Z -> res Z.
Variable SUITE_1X : bytes.
Hypothesis suite_eq : forall m p, cipher_suite m p = (b ← rdr m p 4; Done (cipher b)).
Hypothesis suite_1x_len : zlen SUITE_1X = 4.

(** The ciphers of a list of selectors, in one mask. *)
Definition cipher_mask (ps : list bytes) (d : Z) : Z :=
  fold_left (fun acc s => acc .| cipher s) ps d.

Lemma pairwise_loop_run : forall ps a c left d,
  Forall (fun s => zlen s = 4) ps ->
  pairwise_loop cipher_suite (length ps) (a ++ concat ps ++ c) (zlen a) left d
  = Done (zlen a + 4 * zlen ps, left - 4 * zlen ps, cipher_mask ps d).
Proof.
  induction ps as [|s ps IH]; intros a c left d Hs; cbn [length pairwise_loop concat].
  { change (zlen (@nil bytes)) with 0. rewrite Z.mul_0_r, Z.add_0_r, Z.sub_0_r. done. }
  apply list.Forall_cons in Hs as [Hs Hps].
  rewrite suite_eq, <- app_assoc, rdr4, done_bind, done_bind by done.
  rewrite app_assoc. replace (zlen a + 4) with (zlen (a ++ s)) by (rewrite zlen_app; lia).
  rewrite IH, zlen_app, zlen_cons by done. unfold cipher_mask. cbn [fold_left].
  do 3 f_equal; lia.
Qed.

Lemma zlen_concat4 (ps : list bytes) : Forall (fun s => zlen s = 4) ps -> zlen (concat ps) = 4 * zlen ps.
Proof.
  induction 1 as [|s ps Hs _ IH]; [done|]. cbn [concat]. rewrite zlen_app, zlen_cons. lia.
Qed.

(** The element from the group cipher on: the group selector, the counted
    pairwise selectors, then the counted key management selectors [akms]
    (and whatever follows them). *)
Definition le16 (n : Z) : bytes := [n mod 256; n / 256].
Definition suites_body (g : bytes) (ps akms : list bytes) (caps : bytes) : bytes :=
  g ++ le16 (zlen ps) ++ concat ps ++ le16 (zlen akms) ++ concat akms ++ caps.

Definition suites_ok (g : bytes) (ps akms : list bytes) : Prop :=
  zlen g = 4 /\ Forall (fun s => zlen s = 4) ps /\ Forall (fun s => zlen s = 4) akms /\
  0 < zlen ps < 2 ^ 16 /\ 0 < zlen akms < 2 ^ 16.

Definition read_suites (g : bytes) (ps akms : list bytes) (o : ciphers) : ciphers :=
  Ciphers (cipher g) (cipher_mask ps (pairwise_cipher o))
    (match is_8021x o, head akms with
     | Some x, Some akm => Some (if bool_decide (akm = SUITE_1X) then 1 else x)
     | x, _ => x
     end).

Lemma le16_read a n c p : p = zlen a -> 0 <= n < 2 ^ 16 -> RTW_GET_LE16 (a ++ le16 n ++ c) p = Done n.
Proof.
  intros -> Hn. unfold le16.
  assert (0 <= n mod 256 < 256) by (apply Z.mod_pos_bound; lia).
  assert (0 <= n / 256 < 256) by (split; [apply Z.div_pos; lia|apply Z.div_lt_upper_bound; lia]).
  rewrite (get_le16_ok _ _ (n mod 256) (n / 256)); [|by apply ldr_mid| |lia..].
  - f_equal. pose proof (Z.div_mod n 256). lia.
  - change (a ++ [?x; ?y] ++ c) with (a ++ [x] ++ y :: c). rewrite app_assoc.
    apply ldr_mid. by rewrite zlen_app.
Qed.

Lemma parse_suites_run a g ps akms caps c o :
  suites_ok g ps akms ->
  parse_suites cipher_suite SUITE_1X (a ++ suites_body g ps akms caps ++ c) (zlen a)
    (zlen (suites_body g ps akms caps)) o
  = Done (_SUCCESS, read_suites g ps akms o).
Proof.
  intros (Hg & Hps & Hakms & Hnp & Hna).
  assert (Hlen : zlen (suites_body g ps akms caps)
    = 8 + 4 * zlen ps + 4 * zlen akms + zlen caps).
  { unfold suites_body. rewrite !zlen_app, !zlen_concat4 by done.
    change (zlen (le16 _)) with 2. lia. }
  pose proof (zlen_nonneg caps).
  unfold parse_suites, parse_pairwise, parse_akm. rewrite Hlen. unfold suites_body. rewrite <- !app_assoc.
  rewrite (proj2 (Z.leb_le 4 _)) by lia. rewrite suite_eq, rdr4, !done_bind by done.
  rewrite (proj2 (Z.leb_le 2 _)) by lia.
  rewrite (app_assoc a). rewrite le16_read, done_bind by (rewrite ?zlen_app; lia). cbv zeta.
  rewrite (proj2 (Z.eqb_neq (zlen ps) 0)), (proj2 (Z.ltb_ge _ _)) by lia. cbn [orb].
  rewrite zlen_to_nat, (app_assoc (a ++ g)).
  replace (zlen a + 4 + 2) with (zlen ((a ++ g) ++ le16 (zlen ps)))
    by (rewrite !zlen_app; change (zlen (le16 _)) with 2; lia).
  rewrite pairwise_loop_run, done_bind by done.
  unfold read_suites. cbn [is_8021x group_cipher pairwise_cipher].
  destruct (is_8021x o) as [x|]; [|done].
  rewrite (proj2 (Z.leb_le 6 _)) by lia.
  destruct akms as [|akm akms]; [change (zlen (@nil bytes)) with 0 in Hna; lia|].
  apply list.Forall_cons in Hakms as [Ha Hakms]. cbn [concat head].
  rewrite <- (app_assoc akm), (app_assoc (concat ps) _ (akm ++ _)), (app_assoc (_ ++ le16 _)).
  unfold _rtw_memcmp. rewrite suite_1x_len.
  rewrite rdr4, !done_bind by (rewrite ?zlen_app, ?zlen_concat4 by done; change (zlen (le16 _)) with 2; lia || done).
  by case_bool_decide.
Qed.
End parse_run.

(** ** Lemmas: safety on any buffer *)

Lemma pairwise_loop_safe cipher_suite m :
  (forall p, 0 <= p -> p + 4 <= zlen m -> exists c, cipher_suite m p = Done c) ->
  forall n pos left d, 0 <= pos -> Z.of_nat n * 4 <= left -> pos + left <= zlen m ->
  exists d', pairwise_loop cipher_suite n m pos left d
    = Done (pos + 4 * Z.of_nat n, left - 4 * Z.of_nat n, d').
Proof.
  intros Hc. induction n as [|n IH]; intros pos left d Hp Hl Hm; cbn [pairwise_loop].
  - exists d. do 3 f_equal; lia.
  - destruct (Hc pos) as [c Hcc]; [lia..|]. rewrite Hcc, done_bind.
    destruct (IH (pos + 4) (left - 4) (d .| c)) as [d' ->]; [lia..|].
    exists d'. do 3 f_equal; lia.
Qed.

Lemma parse_akm_safe SUITE_1X m pos left o :
  zlen SUITE_1X = 4 -> 0 <= pos -> pos + left <= zlen m ->
  exists r, parse_akm SUITE_1X m pos left o = Done r.
Proof.
  intros H1x Hp Hm. unfold parse_akm. destruct (is_8021x o); [|eauto].
  destruct (Z.leb_spec 6 left); [|eauto]. rewrite memcmp_ok, done_bind by lia. eauto.
Qed.

Lemma parse_suites_safe cipher_suite SUITE_1X m pos left o :
  (forall p, 0 <= p -> p + 4 <= zlen m -> exists c, cipher_suite m p = Done c) ->
  zlen SUITE_1X = 4 -> bytes_ok m -> 0 <= pos -> pos + left <= zlen m ->
  exists r, parse_suites cipher_suite SUITE_1X m pos left o = Done r.
Proof.
  intros Hc H1x Hb Hp Hm.
  assert (Hstage2 : forall pos left o, 0 <= pos -> pos + left <= zlen m ->
    exists r, parse_pairwise cipher_suite SUITE_1X m pos left o = Done r).
  { clear pos left o Hp Hm. intros pos left o Hp Hm. unfold parse_pairwise.
    destruct (Z.leb_spec 2 left); [|destruct (left =? 1); [eauto|by apply parse_akm_safe]].
    pose proof (ld0_u8 m pos Hb). pose proof (ld0_u8 m (pos + 1) Hb).
    rewrite (get_le16_ok _ _ (ld0 m pos) (ld0 m (pos + 1))), done_bind
      by (rewrite ?ldr_ok by lia; done).
    cbv zeta. destruct (Z.eqb_spec (ld0 m pos + ld0 m (pos + 1) * 256) 0); cbn [orb]; [eauto|].
    destruct (Z.ltb_spec (left - 2) ((ld0 m pos + ld0 m (pos + 1) * 256) * 4)); [eauto|].
    destruct (pairwise_loop_safe cipher_suite m Hc
      (Z.to_nat (ld0 m pos + ld0 m (pos + 1) * 256)) (pos + 2) (left - 2) (pairwise_cipher o))
      as [d' ->]; [lia..|].
    rewrite done_bind. apply parse_akm_safe; lia. }
  unfold parse_suites. destruct (Z.leb_spec 4 left).
  - destruct (Hc pos) as [g ->]; [lia..|]. rewrite done_bind. apply Hstage2; lia.
  - destruct (0 <? left); [eauto|]. by apply Hstage2.
Qed.

Lemma wpa_suite_safe m p : 0 <= p -> p + 4 <= zlen m -> exists c, rtw_get_wpa_cipher_suite m p = Done c.
Proof. intros. unfold rtw_get_wpa_cipher_suite, WPA_SELECTOR_LEN. rewrite rdr_ok by lia. eauto. Qed.
Lemma rsn_suite_safe m p : 0 <= p -> p + 4 <= zlen m -> exists c, rtw_get_wpa2_cipher_suite m p = Done c.
Proof. intros. unfold rtw_get_wpa2_cipher_suite, RSN_SELECTOR_LEN. rewrite rdr_ok by lia. eauto. Qed.

Lemma parse_wpa_safe m p len o :
  bytes_ok m -> 0 <= p -> p + Z.max 6 len <= zlen m -> exists r, rtw_parse_wpa_ie m p len o = Done r.
Proof.
  intros Hb Hp Hm. unfold rtw_parse_wpa_ie. destruct (len <=? 0); [eauto|].
  rewrite (ldr_ok m p), done_bind by lia. destruct (negb _); [eauto|].
  rewrite (ldr_ok m (p + 1)), done_bind by lia. destruct (negb _); [eauto|].
  rewrite memcmp_ok, done_bind by (change (zlen RTW_WPA_OUI_TYPE) with 4; lia).
  destruct (negb _); [eauto|].
  apply parse_suites_safe; try done || lia. intros. by apply wpa_suite_safe.
Qed.

Lemma parse_rsn_safe m p len o :
  bytes_ok m -> 0 <= p -> p + Z.max 6 len <= zlen m -> exists r, rtw_parse_wpa2_ie m p len o = Done r.
Proof.
  intros Hb Hp Hm. unfold rtw_parse_wpa2_ie. destruct (len <=? 0); [eauto|].
  rewrite (ldr_ok m p), done_bind by lia. destruct (negb _); [eauto|].
  rewrite (ldr_ok m (p + 1)), done_bind by lia. destruct (negb _); [eauto|].
  apply parse_suites_safe; try done || lia. intros. by apply rsn_suite_safe.
Qed.

(** ** Lemmas: the dump loop *)

(** The index runs over the multiples of 8 below 256 and wraps to 0. *)
Lemma dump_loop_hangs n : 248 < n -> forall fuel k, 0 <= k < 32 -> dump_loop fuel n (8 * k) = NoFuel.
Proof.
  intros Hn. induction fuel as [|fuel IH]; intros k Hk; cbn [dump_loop];
    rewrite (proj2 (Z.ltb_lt _ _)) by lia; [done|].
  destruct (Z.eq_dec k 31) as [->|Hk'].
  - apply (IH 0). lia.
  - unfold u8. rewrite Z.mod_small by lia.
    replace (8 * k + 8) with (8 * (k + 1)) by lia. apply IH. lia.
Qed.

Lemma dump_loop_ends n : n <= 248 -> forall fuel k, 0 <= k <= 31 -> 31 - k <= Z.of_nat fuel ->
  dump_loop fuel n (8 * k) = Done tt.
Proof.
  intros Hn. induction fuel as [|fuel IH]; intros k Hk Hf; cbn [dump_loop].
  - by rewrite (proj2 (Z.ltb_ge _ _)) by lia.
  - destruct (Z.ltb_spec (8 * k) n) as [Hl|Hl]; [|done].
    unfold u8. rewrite Z.mod_small by lia.
    replace (8 * k + 8) with (8 * (k + 1)) by lia. apply IH; lia.
Qed.

(** ** Lemmas: the security elements of a frame *)

(** The test of the loop for a WPA element, which does not look at the version. *)
Definition is_wpa_any (e : elem) : bool :=
  (e.1 =? 221) && bool_decide (take 4 e.2 = wpa_oui).
Definition is_rsn (e : elem) : bool := e.1 =? 48.

(** The length of the last element that satisfies a test. *)
Definition last_len (P : elem -> bool) (els : list elem) (d : Z) : Z :=
  fold_left (fun acc e => if P e then zlen e.2 + 2 else acc) els d.

Definition vendor_fits (n : Z) (e : elem) : Prop := e.1 = 221 -> n <= zlen e.2.

Lemma get_sec_ie_loop_run : forall els fuel a c in_len o,
  rsn_ie o = None -> wpa_ie o = None ->
  Forall (vendor_fits 4) els -> (length els <= fuel)%nat ->
  in_len = zlen a + zlen (encode els) -> in_len < 2 ^ 32 ->
  get_sec_ie_loop fuel (a ++ encode els ++ c) in_len (zlen a) o
  = Done (SecIes None (last_len is_rsn els (rsn_len o)) None (last_len is_wpa_any els (wpa_len o))).
Proof.
  induction els as [|e els IH]; intros fuel a c in_len o Hr Hw Hf Hfu Hl Hb.
  { change (zlen (encode [])) with 0 in Hl. destruct o. cbn in Hr, Hw. subst.
    destruct fuel; cbn [get_sec_ie_loop]; by rewrite (proj2 (Z.ltb_ge _ _)) by lia. }
  destruct fuel as [|fuel]; [cbn in Hfu; lia|]. cbn [length] in Hfu.
  apply list.Forall_cons in Hf as [Hfe Hf].
  rewrite zlen_encode_cons in Hl. pose proof (zlen_nonneg (encode els)). pose proof (zlen_nonneg e.2).
  pose proof (zlen_nonneg a).
  cbn [get_sec_ie_loop]. rewrite (proj2 (Z.ltb_lt _ _)) by lia.
  rewrite encode_cons, <- app_assoc, (ld_id a _ _ (zlen a)), done_bind by done.
  assert (Hwpa : (if e.1 =? _WPA_IE_ID_
    then _rtw_memcmp (a ++ encode1 e ++ encode els ++ c) (zlen a + 2) wpa_oui else Done false)
    = Done (is_wpa_any e)).
  { unfold is_wpa_any, _WPA_IE_ID_. destruct (Z.eqb_spec e.1 221) as [He|He]; [|done].
    rewrite (memcmp_body a) by (done || apply Hfe, He). done. }
  rewrite Hwpa, done_bind, (ld_len a), done_bind, u32_id by (done || lia). cbv zeta.
  replace (zlen a + (zlen e.2 + 2)) with (zlen (a ++ encode1 e)) by (rewrite zlen_app, zlen_encode1; lia).
  rewrite app_assoc. rewrite Hw, Hr. unfold copy_dump. rewrite !done_bind.
  assert (Hx : is_wpa_any e = true -> is_rsn e = false).
  { unfold is_wpa_any, is_rsn. intros [->%Z.eqb_eq _]%andb_prop. done. }
  unfold last_len. cbn [fold_left]. fold (is_rsn e). change (e.1 =? _WPA2_IE_ID_) with (is_rsn e).
  destruct (is_wpa_any e) eqn:Hw'; [rewrite Hx by done|destruct (is_rsn e)];
    rewrite IH; try done || lia; rewrite zlen_app, zlen_encode1; lia.
Qed.

Lemma last_len_pos P els d : 0 <= d -> 0 <= last_len P els d.
Proof.
  revert d. induction els as [|e els IH]; intros d Hd; [done|]. unfold last_len in *. cbn [fold_left].
  apply IH. pose proof (zlen_nonneg e.2). destruct (P e); lia.
Qed.
Lemma last_len_existsb P els d : 0 <= d -> (0 <? last_len P els d) = existsb P els || (0 <? d).
Proof.
  revert d. induction els as [|e els IH]; intros d Hd; [done|]. unfold last_len in *. cbn [fold_left existsb].
  pose proof (zlen_nonneg e.2). rewrite IH by (destruct (P e); lia).
  destruct (P e); cbn [orb]; [|done].
  rewrite (proj2 (Z.ltb_lt 0 _)) by lia. by rewrite orb_true_r.
Qed.

(** ** Lemmas: rtw_get_bcn_info *)

Lemma bytes_ok_encode els : Forall elem_ok els -> bytes_ok (encode els).
Proof.
  induction 1 as [|e els (He & Hb & Hl) _ IH]; [constructor|].
  rewrite encode_cons. apply bytes_ok_app_2; [|done]. unfold encode1.
  repeat apply bytes_ok_cons; [done| |done]. pose proof (zlen_nonneg e.2). lia.
Qed.

Lemma find_by_room P els before hit : find_by P els = Some (before, hit) ->
  zlen (encode before) + zlen hit.2 + 2 <= zlen (encode els).
Proof.
  intros (after & -> & _)%find_by_Some. rewrite encode_app, encode_cons, !zlen_app, zlen_encode1.
  pose proof (zlen_nonneg (encode after)). lia.
Qed.

Section bcn.
(** A scanned network: fixed fields [a], elements [els], the rest of the IEs array. *)
Variables (a : bytes) (els : list elem) (c : bytes).
Hypothesis Ha : zlen a = 12.
Hypothesis Hbytes : bytes_ok (a ++ encode els ++ c).
Hypothesis Hok : Forall elem_ok els.
Hypothesis Hne : els <> [].
Hypothesis Hfits : Forall (vendor_fits 6) els.
Hypothesis Hroom : 6 <= zlen c.
Hypothesis Hsize : zlen (encode els) < 2 ^ 31.

Let m := a ++ encode els ++ c.

Lemma bcn_get_ie index len :
  rtw_get_ie m 12 index len (zlen (encode els))
  = Done (match find_ie index els with
          | Some (before, hit) => (Some (12 + zlen (encode before)), zlen hit.2)
          | None => (None, 0)
          end).
Proof. rewrite <- Ha. by apply get_ie_run. Qed.

Lemma cipher_info_run n : IEs n = m -> IELength n = 12 + zlen (encode els) ->
  exists ret b, rtw_get_cipher_info n = Done (ret, b) /\
    encryp_protocol b = encryp_protocol (BcnInfo_of n).
Proof.
  intros Hm Hl. unfold rtw_get_cipher_info, rtw_get_wpa2_ie. rewrite Hm, Hl.
  replace (12 + zlen (encode els) - 12) with (zlen (encode els)) by lia.
  assert (Hzm : zlen m = 12 + zlen (encode els) + zlen c) by (unfold m; rewrite !zlen_app; lia).
  pose proof (zlen_nonneg (encode els)).
  assert (Hwpa : rtw_get_wpa_ie m 12 (zlen (encode els)) = Done (match find_by is_wpa els with
        | Some (before, hit) => (Some (12 + zlen (encode before)), zlen hit.2)
        | None => (None, 0) end)).
  { unfold rtw_get_wpa_ie, m.
    pose proof (get_wpa_ie_loop_run (length els) els (Z.to_nat (zlen (encode els))) a [] c
      (zlen (encode els)) 0) as Hrun.
    change (zlen (@nil Z)) with 0 in Hrun. rewrite Z.add_0_r, Ha in Hrun. cbn [app] in Hrun.
    pose proof (length_encode els). apply Hrun; try done; unfold zlen; lia. }
  assert (Hstore : forall r : Z * ciphers, exists ret b,
    (let '(ret, o) := r in
     if ret =? _SUCCESS then (_SUCCESS, set_ciphers (BcnInfo_of n) o) else (_FAIL, BcnInfo_of n))
    = (ret, b) /\ encryp_protocol b = encryp_protocol (BcnInfo_of n)).
  { intros [ret o]. destruct (ret =? _SUCCESS); eauto. }
  assert (Hrsn : forall len o, exists ret b,
    ('(pbuf, wpa_ielen) ← rtw_get_ie m 12 _WPA2_IE_ID_ len (zlen (encode els));
     match pbuf with
     | Some pbuf =>
       if 0 <? wpa_ielen
       then r ← rtw_parse_wpa2_ie m pbuf (wpa_ielen + 2) o;
            Done (let '(ret, o) := r in
              if ret =? _SUCCESS then (_SUCCESS, set_ciphers (BcnInfo_of n) o)
              else (_FAIL, BcnInfo_of n))
       else Done (_FAIL, BcnInfo_of n)
     | None => Done (_FAIL, BcnInfo_of n)
     end) = Done (ret, b) /\ encryp_protocol b = encryp_protocol (BcnInfo_of n)).
  { intros len o. rewrite bcn_get_ie, done_bind.
    destruct (find_ie _ els) as [[before hit]|] eqn:Hf; [|eauto].
    apply find_by_room in Hf. pose proof (zlen_nonneg (encode before)). pose proof (zlen_nonneg hit.2).
    destruct (0 <? zlen hit.2); [|eauto].
    destruct (parse_rsn_safe m (12 + zlen (encode before)) (zlen hit.2 + 2) o) as [r ->]; [done|lia|lia|].
    rewrite done_bind. destruct (Hstore r) as (ret & b & -> & Hb). eauto. }
  rewrite Hwpa, done_bind.
  destruct (find_by is_wpa els) as [[before hit]|] eqn:Hf; [|by apply Hrsn].
  apply find_by_room in Hf. pose proof (zlen_nonneg (encode before)). pose proof (zlen_nonneg hit.2).
  destruct (0 <? zlen hit.2); [|by apply Hrsn].
  destruct (parse_wpa_safe m (12 + zlen (encode before)) (zlen hit.2 + 2) (Ciphers 0 0 (Some 0)))
    as [r ->]; [done|lia|lia|].
  rewrite done_bind. destruct (Hstore r) as (ret & b & -> & Hb). eauto.
Qed.

(** A lookup of one field of an HT element is in bounds. *)
Lemma bcn_ht_field index len k (f : bytes -> Z -> res Z) :
  2 <= k <= 3 ->
  (forall p, 0 <= p -> p + 2 <= zlen m -> exists v, f m p = Done v) ->
  exists p l v, rtw_get_ie m 12 index len (zlen (encode els)) = Done (p, l) /\
    match p with
    | Some p => if 0 <? l then f m (p + k) else Done 0
    | None => Done 0
    end = Done v.
Proof.
  intros Hk Hf. rewrite bcn_get_ie.
  assert (Hzm : zlen m = 12 + zlen (encode els) + zlen c) by (unfold m; rewrite !zlen_app; lia).
  destruct (find_ie index els) as [[before hit]|] eqn:Hfind; [|by eexists _, _, _].
  apply find_by_room in Hfind. pose proof (zlen_nonneg (encode before)). pose proof (zlen_nonneg hit.2).
  destruct (0 <? zlen hit.2) eqn:Hpos.
  - destruct (Hf (12 + zlen (encode before) + k)) as [v Hv]; [lia..|].
    eexists _, _, v. split; [done|]. by rewrite Hpos.
  - eexists _, _, 0. split; [done|]. by rewrite Hpos.
Qed.

Definition protocol_spec (privacy : bool) : Z :=
  if existsb is_rsn els then ENCRYP_PROTOCOL_WPA2
  else if existsb is_wpa_any els then ENCRYP_PROTOCOL_WPA
  else if privacy then ENCRYP_PROTOCOL_WEP
  else ENCRYP_PROTOCOL_OPENSYS.

Lemma bcn_info_run privacy0 b0 :
  let privacy := negb ((ld0 a 10 + ld0 a 11 * 256) .& WLAN_CAPABILITY_PRIVACY =? 0) in
  exists b, rtw_get_bcn_info (WlanNetwork m (12 + zlen (encode els)) privacy0 b0)
    = Done (WlanNetwork m (12 + zlen (encode els)) (if privacy then 1 else privacy0) b) /\
    encryp_protocol b = protocol_spec privacy.
Proof.
  intros privacy. unfold rtw_get_bcn_info. cbn [IEs].
  assert (Hzm : zlen m = 12 + zlen (encode els) + zlen c) by (unfold m; rewrite !zlen_app; lia).
  pose proof (zlen_nonneg (encode els)).
  assert (Hld : forall i, 0 <= i < 12 -> ldr m i = Done (ld0 a i)).
  { intros i Hi. rewrite ldr_ok by lia. unfold m. by rewrite ld0_app_l by lia. }
  destruct (proj1 (bytes_ok_app _ _) Hbytes) as [Hba _].
  rewrite (get_le16_ok _ _ (ld0 a 10) (ld0 a 11)), done_bind
    by (try apply ld0_u8; try apply Hld; done || lia).
  fold privacy. cbv zeta.
  set (n1 := if privacy then _ else _).
  assert (Hn1 : IEs n1 = m /\ IELength n1 = 12 + zlen (encode els) /\
    Privacy n1 = (if privacy then 1 else privacy0) /\
    (privacy = false -> encryp_protocol (BcnInfo_of n1) = ENCRYP_PROTOCOL_OPENSYS)).
  { subst n1. by destruct privacy. }
  destruct Hn1 as (Hm1 & Hl1 & Hp1 & Hopen). rewrite Hm1, Hl1.
  assert (Hsec : rtw_get_sec_ie m (12 + zlen (encode els)) (SecIes None 0 None 0)
    = Done (last_len is_rsn els 0 + last_len is_wpa_any els 0,
            SecIes None (last_len is_rsn els 0) None (last_len is_wpa_any els 0))).
  { unfold rtw_get_sec_ie, m. rewrite <- Ha.
    pose proof (length_encode els). rewrite get_sec_ie_loop_run; try done; [|unfold zlen in *; lia..].
    eapply List.Forall_impl; [|exact Hfits]. intros e He1 He2. specialize (He1 He2). lia. }
  rewrite Hsec, done_bind. cbn [rsn_len wpa_len].
  rewrite !last_len_existsb, !orb_false_r by done.
  set (n2 := if existsb is_rsn els then _ else _).
  assert (Hn2 : IEs n2 = m /\ IELength n2 = 12 + zlen (encode els) /\
    Privacy n2 = (if privacy then 1 else privacy0) /\
    encryp_protocol (BcnInfo_of n2) = protocol_spec privacy).
  { subst n2. unfold protocol_spec.
    destruct (existsb is_rsn els), (existsb is_wpa_any els), privacy;
      repeat split; try done; by apply Hopen. }
  destruct Hn2 as (Hm2 & Hl2 & Hp2 & Hprot).
  destruct (cipher_info_run n2 Hm2 Hl2) as (ret & b & -> & Hb). rewrite done_bind, Hm2, Hl2.
  unfold _FIXED_IE_LENGTH_.
  replace (12 + zlen (encode els) - 12) with (zlen (encode els)) by lia.
  destruct (bcn_ht_field _HT_CAPABILITY_IE_ 0 2 RTW_GET_LE16) as (p1 & l1 & v1 & -> & Hv1); [lia| |].
  { intros p Hp Hp2'. rewrite (get_le16_ok _ _ (ld0 m p) (ld0 m (p + 1)))
      by (rewrite ?ldr_ok by lia; done || by apply ld0_u8). eauto. }
  rewrite done_bind, Hv1, done_bind.
  destruct (bcn_ht_field _HT_ADD_INFO_IE_ l1 3 ldr) as (p2 & l2 & v2 & -> & Hv2); [lia| |].
  { intros p Hp Hp2'. rewrite ldr_ok by lia. eauto. }
  rewrite done_bind, Hv2, done_bind.
  exists (set_ht b v1 v2). split; [|by rewrite <- Hprot, <- Hb].
  unfold set_bcn. by rewrite Hm2, Hl2, Hp2.
Qed.
End bcn.

(** ** Properties *)

(** Rtw_get_bcn_info classifies every scanned network: WPA2 when it carries an RSN
    element, otherwise WPA when it carries a WPA element, otherwise WEP or open by
    the privacy bit of its capabilities.  It does so whatever the contents of the
    elements (it never reads outside the IEs array, which extends six bytes past
    the elements, and always returns), leaves the elements as they are, and sets
    Privacy when the bit is set. *)
Theorem rtw_get_bcn_info_protocol a els c privacy0 b0 :
  zlen a = 12 -> bytes_ok (a ++ encode els ++ c) -> Forall elem_ok els -> els <> [] ->
  Forall (vendor_fits 6) els -> 6 <= zlen c -> zlen (encode els) < 2 ^ 31 ->
  let privacy := negb ((ld0 a 10 + ld0 a 11 * 256) .& WLAN_CAPABILITY_PRIVACY =? 0) in
  exists b, rtw_get_bcn_info (WlanNetwork (a ++ encode els ++ c) (12 + zlen (encode els)) privacy0 b0)
    = Done (WlanNetwork (a ++ encode els ++ c) (12 + zlen (encode els))
              (if privacy then 1 else privacy0) b) /\
    encryp_protocol b = protocol_spec els privacy.
Proof. intros. by apply bcn_info_run. Qed.

Lemma rtw_get_bcn_info_protocol_witness : exists b,
  rtw_get_bcn_info (WlanNetwork ([0;0;0;0;0;0;0;0;100;0;17;4] ++ encode [(0, [65]); (48, [1; 0; 0; 15; 172; 4])]
      ++ [0;0;0;0;0;0]) (12 + 11) 0 (BcnInfo 0 0 0 0 0 0))
  = Done (WlanNetwork ([0;0;0;0;0;0;0;0;100;0;17;4] ++ encode [(0, [65]); (48, [1; 0; 0; 15; 172; 4])]
      ++ [0;0;0;0;0;0]) (12 + 11) 1 b) /\ encryp_protocol b = ENCRYP_PROTOCOL_WPA2.
Proof.
  apply (rtw_get_bcn_info_protocol [0;0;0;0;0;0;0;0;100;0;17;4] [(0, [65]); (48, [1; 0; 0; 15; 172; 4])]
    [0;0;0;0;0;0] 0 (BcnInfo 0 0 0 0 0 0)).
  - reflexivity.
  - by apply bytes_ok_spec.
  - repeat constructor; vm_compute; discriminate.
  - discriminate.
  - repeat constructor; intros [=].
  - vm_compute. discriminate.
  - vm_compute. reflexivity.
Defined.

(** C36: Round trip of the security elements: a WPA or RSN element made of its version,
    a group selector, counted pairwise selectors and counted key management
    selectors is parsed back to the cipher of the group selector, the union of the
    ciphers of the pairwise selectors, and 802.1X exactly when the first key
    management selector is 802.1X. *)
Theorem security_ie_roundtrip a g ps akms caps c o :
  suites_ok g ps akms ->
  let body := suites_body g ps akms caps in
  let wpa := [0x00; 0x50; 0xf2; 1; 1; 0] ++ body in
  let rsn := [1; 0] ++ body in
  zlen wpa <= 255 ->
  rtw_parse_wpa_ie (a ++ encode1 (221, wpa) ++ c) (zlen a) (zlen wpa + 2) o
    = Done (_SUCCESS, read_suites wpa_cipher WPA_SUITE_1X g ps akms o) /\
  rtw_parse_wpa2_ie (a ++ encode1 (48, rsn) ++ c) (zlen a) (zlen rsn + 2) o
    = Done (_SUCCESS, read_suites rsn_cipher RSN_SUITE_1X g ps akms o).
Proof.
  intros Hs body wpa rsn Hl. pose proof (zlen_nonneg body).
  assert (Hw : zlen wpa = 6 + zlen body) by (subst wpa; by rewrite zlen_app).
  assert (Hr : zlen rsn = 2 + zlen body) by (subst rsn; by rewrite zlen_app).
  split.
  - unfold rtw_parse_wpa_ie. rewrite (proj2 (Z.leb_gt _ _)) by lia.
    rewrite (ld_id a _ _ (zlen a)), done_bind by done. cbn [fst].
    rewrite (proj2 (Z.eqb_eq 221 _WPA_IE_ID_)) by done. cbn [negb].
    rewrite (ld_len a), done_bind by done. cbn [snd].
    rewrite u8_id, (proj2 (Z.eqb_eq (zlen wpa) _)) by lia. cbn [negb].
    rewrite (memcmp_body a) by (done || (cbn [snd]; change (zlen RTW_WPA_OUI_TYPE) with 4; lia)).
    rewrite done_bind. cbn [snd]. rewrite bool_decide_eq_true_2 by done. cbn [negb].
    unfold encode1. cbn [fst snd].
    replace (a ++ (221 :: zlen wpa :: wpa) ++ c)
      with ((a ++ [221; zlen wpa; 0x00; 0x50; 0xf2; 1; 1; 0]) ++ body ++ c)
      by (subst wpa; rewrite <- app_assoc; done).
    replace (zlen a + 8) with (zlen (a ++ [221; zlen wpa; 0x00; 0x50; 0xf2; 1; 1; 0]))
      by (rewrite zlen_app; done).
    replace (zlen wpa + 2 - 8) with (zlen body) by lia.
    by apply parse_suites_run.
  - unfold rtw_parse_wpa2_ie. rewrite (proj2 (Z.leb_gt _ _)) by lia.
    rewrite (ld_id a _ _ (zlen a)), done_bind by done. cbn [fst].
    rewrite (proj2 (Z.eqb_eq 48 _WPA2_IE_ID_)) by done. cbn [negb].
    rewrite (ld_len a), done_bind by done. cbn [snd].
    rewrite u8_id, (proj2 (Z.eqb_eq (zlen rsn) _)) by lia. cbn [negb].
    unfold encode1. cbn [fst snd].
    replace (a ++ (48 :: zlen rsn :: rsn) ++ c)
      with ((a ++ [48; zlen rsn; 1; 0]) ++ body ++ c) by (subst rsn; rewrite <- app_assoc; done).
    replace (zlen a + 4) with (zlen (a ++ [48; zlen rsn; 1; 0])) by (rewrite zlen_app; done).
    replace (zlen rsn + 2 - 4) with (zlen body) by lia.
    by apply parse_suites_run.
Qed.

Lemma security_ie_roundtrip_witness :
  rtw_parse_wpa2_ie ([7] ++ encode1 (48, [1; 0] ++ suites_body [0; 15; 172; 2]
      [[0; 15; 172; 4]; [0; 15; 172; 2]] [[0; 15; 172; 1]] [0; 0]) ++ [9]) 1 26 (Ciphers 0 0 (Some 0))
  = Done (_SUCCESS, Ciphers WPA_CIPHER_TKIP (WPA_CIPHER_CCMP .| WPA_CIPHER_TKIP) (Some 1)).
Proof.
  apply (security_ie_roundtrip [7] [0; 15; 172; 2] [[0; 15; 172; 4]; [0; 15; 172; 2]] [[0; 15; 172; 1]]
    [0; 0] [9] (Ciphers 0 0 (Some 0))); [|vm_compute; discriminate].
  split; [reflexivity|]. split; [repeat constructor|]. split; [repeat constructor|].
  split; vm_compute; split; reflexivity.
Defined.

(** C37: The parsers are safe on every buffer of bytes: given an element that a frame
    of [max 6 len] bytes can hold, whatever its contents and its declared length,
    they return, having read nothing outside the buffer. *)
Theorem security_ie_parsers_safe m p len o :
  bytes_ok m -> 0 <= p -> p + Z.max 6 len <= zlen m ->
  (exists r, rtw_parse_wpa_ie m p len o = Done r) /\
  (exists r, rtw_parse_wpa2_ie m p len o = Done r).
Proof. intros. split; [by apply parse_wpa_safe|by apply parse_rsn_safe]. Qed.

Lemma security_ie_parsers_safe_witness :
  (exists r, rtw_parse_wpa_ie [48; 2; 1; 0; 9; 9] 0 4 (Ciphers 0 0 None) = Done r) /\
  (exists r, rtw_parse_wpa2_ie [48; 2; 1; 0; 9; 9] 0 4 (Ciphers 0 0 None) = Done r).
Proof.
  apply (security_ie_parsers_safe [48; 2; 1; 0; 9; 9] 0 4 (Ciphers 0 0 None));
    [by apply bytes_ok_spec|lia|vm_compute; discriminate].
Defined.

(** The dump of a copied security element ends exactly for elements of at most
    248 bytes: its index is one byte wide and steps by eight, so that for a longer
    element it wraps to 0 before it reaches the length, and no number of
    iterations is enough. *)
Theorem dump_loop_ends_iff n :
  (exists fuel, dump_loop fuel n 0 = Done tt) <-> n <= 248.
Proof.
  split.
  - intros [fuel Hd]. destruct (Z.le_gt_cases n 248) as [Hn|Hn]; [done|].
    pose proof (dump_loop_hangs n Hn fuel 0) as Hh. rewrite Z.mul_0_r in Hh.
    rewrite Hh in Hd by lia. done.
  - intros Hn. exists 32%nat. apply (dump_loop_ends n Hn 32 0); lia.
Qed.

(** So rtw_get_sec_ie does not return for a network whose RSN element has a body
    of 247 to 255 bytes, when it is given a buffer to copy the element to. *)
Lemma rtw_get_sec_ie_hangs a body c rsn wpa rl wl :
  zlen a = 12 -> 247 <= zlen body <= 255 -> 257 <= zlen rsn ->
  rtw_get_sec_ie (a ++ encode1 (48, body) ++ c) (12 + zlen (encode1 (48, body)))
    (SecIes (Some rsn) rl wpa wl) = NoFuel.
Proof.
  intros Ha Hb Hr. unfold rtw_get_sec_ie. rewrite zlen_encode1. cbn [snd].
  destruct (Z.to_nat (12 + (zlen body + 2))) as [|fuel] eqn:Hf; [lia|]. cbn [get_sec_ie_loop].
  rewrite (proj2 (Z.ltb_lt 12 _)) by lia. rewrite <- Ha.
  rewrite (ld_id a _ _ (zlen a)), done_bind by done. cbn [fst].
  change (48 =? _WPA_IE_ID_) with false. change (48 =? _WPA2_IE_ID_) with true. cbv iota.
  rewrite done_bind, (ld_len a), done_bind by done. cbn [snd rsn_ie]. cbv zeta.
  assert (Hrd : rdr (a ++ encode1 (48, body) ++ c) (zlen a) (zlen body + 2) = Done (encode1 (48, body))).
  { apply rdr_mid; [done|]. by rewrite zlen_encode1. }
  unfold copy_dump, copy_out. rewrite Hrd, done_bind.
  destruct (split_at rsn (zlen (encode1 (48, body)))) as (r1 & r2 & -> & Hr1 & _).
  { rewrite zlen_encode1. cbn [snd]. lia. }
  unfold wrr. rewrite wr_prefix by (unfold zlen in *; lia). cbn [lift]. rewrite done_bind, done_bind.
  pose proof (dump_loop_hangs (zlen body + 2) ltac:(lia) 32 0) as Hh. rewrite Z.mul_0_r in Hh.
  rewrite Hh by lia. done.
Qed.
