(* ===== verification/IeElems.v ===== *)
(** * Parsing all elements of a frame (src/core/rtw_ieee80211.c)

    [rtw_ieee802_11_parse_elems] walks over the elements of a management frame and
    records, for every kind it knows, where the body starts and how long it is.  The
    structure it fills is a function from the kinds to these pairs. *)

From stdpp Require Import functions.
From S2P Require Import Prelude Ie.

(** The fields of struct rtw_ieee802_11_elems, each a pointer and its length. *)
Inductive elem_kind :=
  | ssid | supp_rates | fh_params | ds_params | cf_params | tim | ibss_params | challenge
  | erp_info | ext_supp_rates | wpa_ie_elem | rsn_ie_elem | wme | wme_tspec | wps_ie | power_cap
  | supp_channels | mdie | ftie | timeout_int | ht_capabilities | ht_operation
  | vendor_ht_cap | vht_capabilities | vht_operation | vht_op_mode_notify.

#[export] Instance elem_kind_eq : EqDecision elem_kind.
Proof. solve_decision. Defined.

(** [None] is the NULL pointer of a cleared structure. *)
Definition rtw_ieee802_11_elems : Type := elem_kind -> option (Z * Z).
Definition no_elems : rtw_ieee802_11_elems := fun _ => None.

Inductive ParseRes := ParseOK | ParseUnknown | ParseFailed.

Definition OUI_MICROSOFT : Z := 0x0050f2.
Definition OUI_BROADCOM : Z := 0x00904c.
Definition WME_OUI_TYPE : Z := 2.
Definition VENDOR_HT_CAPAB_OUI_TYPE : Z := 0x33.

Definition RTW_GET_BE24 (m : bytes) (p : Z) : res Z :=
  a ← ldr m p; b ← ldr m (p + 1); c ← ldr m (p + 2);
  Done ((a .<< 16) .| (b .<< 8) .| c).

(** The return value 0 or -1, and the structure. *)
Definition rtw_ieee802_11_parse_vendor_specific (m : bytes) (pos elen : Z)
    (elems : rtw_ieee802_11_elems) : res (Z * rtw_ieee802_11_elems) :=
  if elen <? 4 then Done (-1, elems)
  else
    oui ← RTW_GET_BE24 m pos;
    if oui =? OUI_MICROSOFT then
      t ← ldr m (pos + 3);
      if t =? 1 then Done (0, <[wpa_ie_elem := Some (pos, elen)]> elems)
      else if t =? WME_OUI_TYPE then
        if elen <? 5 then Done (-1, elems)
        else
          st ← ldr m (pos + 4);
          if (st =? 0) || (st =? 1) then Done (0, <[wme := Some (pos, elen)]> elems)
          else if st =? 2 then Done (0, <[wme_tspec := Some (pos, elen)]> elems)
          else Done (-1, elems)
      else if t =? 4 then Done (0, <[wps_ie := Some (pos, elen)]> elems)
      else Done (-1, elems)
    else if oui =? OUI_BROADCOM then
      t ← ldr m (pos + 3);
      if t =? VENDOR_HT_CAPAB_OUI_TYPE then Done (0, <[vendor_ht_cap := Some (pos, elen)]> elems)
      else Done (-1, elems)
    else Done (-1, elems).

(** The cases of the switch that store the body of the element. *)
Definition kind_of (id : Z) : option elem_kind :=
  if id =? 0 then Some ssid
  else if id =? 1 then Some supp_rates
  else if id =? 2 then Some fh_params
  else if id =? 3 then Some ds_params
  else if id =? 4 then Some cf_params
  else if id =? 5 then Some tim
  else if id =? 6 then Some ibss_params
  else if id =? 16 then Some challenge
  else if id =? 42 then Some erp_info
  else if id =? 50 then Some ext_supp_rates
  else if id =? 48 then Some rsn_ie_elem
  else if id =? 33 then Some power_cap
  else if id =? 36 then Some supp_channels
  else if id =? 54 then Some mdie
  else if id =? 55 then Some ftie
  else if id =? 56 then Some timeout_int
  else if id =? 45 then Some ht_capabilities
  else if id =? 61 then Some ht_operation
  else if id =? 191 then Some vht_capabilities
  else if id =? 192 then Some vht_operation
  else if id =? 199 then Some vht_op_mode_notify
  else None.
Definition WLAN_EID_VENDOR_SPECIFIC : Z := 221.

(** The switch: the structure and [unknown]. *)
Definition parse_elem (m : bytes) (pos id elen unknown : Z) (elems : rtw_ieee802_11_elems)
    : res (Z * rtw_ieee802_11_elems) :=
  match kind_of id with
  | Some k => Done (unknown, <[k := Some (pos, elen)]> elems)
  | None =>
    if id =? WLAN_EID_VENDOR_SPECIFIC then
      '(r, elems) ← rtw_ieee802_11_parse_vendor_specific m pos elen elems;
      Done (if r =? 0 then unknown else unknown + 1, elems)
    else Done (unknown + 1, elems)
  end.

(** Every iteration takes two bytes or more from [left]. *)
Fixpoint parse_elems_loop (fuel : nat) (m : bytes) (pos left unknown : Z)
    (elems : rtw_ieee802_11_elems) : res (ParseRes * rtw_ieee802_11_elems) :=
  if 2 <=? left then
    match fuel with
    | O => NoFuel
    | S fuel =>
      id ← ldr m pos;
      elen ← ldr m (pos + 1);
      let pos := pos + 2 in
      let left := left - 2 in
      if left <? elen then Done (ParseFailed, elems)
      else
        '(unknown, elems) ← parse_elem m pos id elen unknown elems;
        parse_elems_loop fuel m (pos + elen) (left - elen) unknown elems
    end
  else Done (if negb (left =? 0) then ParseFailed
             else if negb (unknown =? 0) then ParseUnknown else ParseOK, elems).

Definition rtw_ieee802_11_parse_elems (m : bytes) (start len : Z)
    : res (ParseRes * rtw_ieee802_11_elems) :=
  parse_elems_loop (Z.to_nat len) m start len 0 no_elems.

(** ** Reference *)

(** The kind of an element, the vendor specific ones by their OUI and type. *)
Fixpoint starts (l b : bytes) : bool :=
  match l, b with
  | [], _ => true
  | x :: l, y :: b => (y =? x) && starts l b
  | _, [] => false
  end.
Definition vendor_kind (b : bytes) : option elem_kind :=
  if starts [0x00; 0x50; 0xf2; 1] b then Some wpa_ie_elem
  else if starts [0x00; 0x50; 0xf2; 2; 0] b || starts [0x00; 0x50; 0xf2; 2; 1] b then Some wme
  else if starts [0x00; 0x50; 0xf2; 2; 2] b then Some wme_tspec
  else if starts [0x00; 0x50; 0xf2; 4] b then Some wps_ie
  else if starts [0x00; 0x90; 0x4c; 0x33] b then Some vendor_ht_cap
  else None.
Definition kind (e : elem) : option elem_kind :=
  if e.1 =? 221 then vendor_kind e.2 else kind_of e.1.

(** The last element of kind [k], with the offset of its body from [p]. *)
Fixpoint last_of (k : elem_kind) (p : Z) (els : list elem) (d : option (Z * Z)) : option (Z * Z) :=
  match els with
  | [] => d
  | e :: els =>
    last_of k (p + 2 + zlen e.2) els
      (if decide (kind e = Some k) then Some (p + 2, zlen e.2) else d)
  end.

(** ** Lemmas *)

Lemma elems_insert k v (elems : rtw_ieee802_11_elems) : <[k := v]> elems k = v.
Proof. apply (fn_lookup_insert elems). Qed.
Lemma elems_insert_ne k k' v (elems : rtw_ieee802_11_elems) : k <> k' -> <[k := v]> elems k' = elems k'.
Proof. apply (fn_lookup_insert_ne elems). Qed.

Lemma be24_body a e c p : p = zlen a + 2 -> bytes_ok e.2 -> 3 <= zlen e.2 ->
  RTW_GET_BE24 (a ++ encode1 e ++ c) p = Done (ld0 e.2 0 * 2 ^ 16 + ld0 e.2 1 * 2 ^ 8 + ld0 e.2 2).
Proof.
  intros -> Hb Hl. unfold RTW_GET_BE24.
  rewrite (ld_body a e c (zlen a + 2) 0), (ld_body a e c (zlen a + 2 + 1) 1),
    (ld_body a e c (zlen a + 2 + 2) 2), !done_bind by lia.
  pose proof (ld0_u8 e.2 0 Hb). pose proof (ld0_u8 e.2 1 Hb). pose proof (ld0_u8 e.2 2 Hb).
  f_equal. rewrite Z.lor_comm, (Z.lor_comm (_ .<< 16)), Z.lor_assoc.
  rewrite (lor_shiftl_add (ld0 e.2 2) (ld0 e.2 1) 8) by lia.
  rewrite lor_shiftl_add by lia. lia.
Qed.

(** Three bytes are an OUI when each is the byte of the OUI. *)
Lemma oui_eqb b0 b1 b2 x0 x1 x2 : is_u8 b0 -> is_u8 b1 -> is_u8 b2 -> is_u8 x0 -> is_u8 x1 -> is_u8 x2 ->
  (b0 * 2 ^ 16 + b1 * 2 ^ 8 + b2 =? x0 * 2 ^ 16 + x1 * 2 ^ 8 + x2)
  = (b0 =? x0) && ((b1 =? x1) && (b2 =? x2)).
Proof.
  intros. destruct (Z.eqb_spec b0 x0), (Z.eqb_spec b1 x1), (Z.eqb_spec b2 x2); cbn [andb];
    (apply Z.eqb_eq; lia) || (apply Z.eqb_neq; lia).
Qed.

Lemma vendor_specific_run a e c elems p : p = zlen a + 2 -> bytes_ok e.2 ->
  rtw_ieee802_11_parse_vendor_specific (a ++ encode1 e ++ c) p (zlen e.2) elems
  = Done (match vendor_kind e.2 with
          | Some k => (0, <[k := Some (p, zlen e.2)]> elems)
          | None => (-1, elems)
          end).
Proof.
  intros -> Hb. unfold rtw_ieee802_11_parse_vendor_specific.
  assert (Hs : forall l, zlen e.2 < zlen l -> starts l e.2 = false).
  { induction e.2 as [|y b IH]; intros [|x l] Hl; try done;
      try (exfalso; unfold zlen in Hl; cbn [length] in Hl; lia).
    - cbn [starts]. rewrite !zlen_cons in Hl. apply list.Forall_cons in Hb as [_ Hb].
      rewrite (IH Hb) by lia. apply andb_false_r. }
  unfold vendor_kind. destruct (Z.ltb_spec (zlen e.2) 4) as [H4|H4].
  { by rewrite !Hs by (unfold zlen in *; cbn [length]; lia). }
  rewrite (be24_body a), done_bind by (done || lia).
  change OUI_MICROSOFT with (0x00 * 2 ^ 16 + 0x50 * 2 ^ 8 + 0xf2).
  change OUI_BROADCOM with (0x00 * 2 ^ 16 + 0x90 * 2 ^ 8 + 0x4c).
  rewrite !oui_eqb by (apply ld0_u8, Hb || lia).
  rewrite !(ld_body a e c (zlen a + 2 + 3) 3), !done_bind by lia.
  assert (Hst : (zlen e.2 <? 5) = false -> ldr (a ++ encode1 e ++ c) (zlen a + 2 + 4) = Done (ld0 e.2 4)).
  { intros H5%Z.ltb_ge. apply ld_body; lia. }
  remember (zlen e.2) as n eqn:Hn. destruct e as [id b]. cbn [fst snd] in *.
  do 4 (destruct b as [|? b]; [unfold zlen in *; cbn [length] in *; lia|]).
  unfold ld0 in *. change (Z.to_nat 0) with 0%nat. change (Z.to_nat 1) with 1%nat.
  change (Z.to_nat 2) with 2%nat. change (Z.to_nat 3) with 3%nat.
  change (Z.to_nat 4) with 4%nat in Hst. cbn [nth] in *. cbn [starts].
  unfold WME_OUI_TYPE, VENDOR_HT_CAPAB_OUI_TYPE.
  destruct (Z.eqb_spec z 0) as [->|]; cbn [andb orb]; [|done].
  destruct (Z.eqb_spec z0 0x50) as [->|]; cbn [andb orb].
  - destruct (Z.eqb_spec z1 0xf2) as [->|]; cbn [andb orb]; [|done].
    change (80 =? 144) with false. cbn [andb].
    destruct (Z.eqb_spec z2 1) as [->|]; cbn [andb orb]; [done|].
    destruct (Z.eqb_spec z2 2) as [->|]; cbn [andb orb].
    + destruct b as [|z3 b]; [by rewrite (proj2 (Z.ltb_lt n 5)) by (subst n; unfold zlen; cbn; lia)|].
      rewrite (proj2 (Z.ltb_ge n 5)) by (subst n; rewrite !zlen_cons; pose proof (zlen_nonneg b); lia).
      rewrite Hst, done_bind by (apply Z.ltb_ge; subst n; rewrite !zlen_cons; pose proof (zlen_nonneg b); lia).
      cbn [nth]. rewrite !andb_true_r.
      destruct (z3 =? 0); [done|]. destruct (z3 =? 1); [done|]. by destruct (z3 =? 2).
    + by destruct (z2 =? 4).
  - destruct (z0 =? 0x90); cbn [andb]; [|done].
    destruct (z1 =? 0x4c); cbn [andb]; [|done]. by destruct (z2 =? 0x33).
Qed.

Lemma parse_elem_run a e c unknown elems p : p = zlen a + 2 -> bytes_ok e.2 ->
  parse_elem (a ++ encode1 e ++ c) p e.1 (zlen e.2) unknown elems
  = Done (match kind e with
          | Some k => (unknown, <[k := Some (p, zlen e.2)]> elems)
          | None => (unknown + 1, elems)
          end).
Proof.
  intros Hp Hb. unfold parse_elem, kind, WLAN_EID_VENDOR_SPECIFIC.
  destruct (Z.eqb_spec e.1 221) as [He|He].
  - rewrite He. change (kind_of 221) with (@None elem_kind). cbv iota.
    rewrite vendor_specific_run, done_bind by done. by destruct (vendor_kind e.2).
  - by destruct (kind_of e.1).
Qed.

(** The number of elements of no known kind. *)
Definition unknowns (els : list elem) : Z := zlen (filter (fun e => kind e = None) els).

Lemma parse_elems_loop_run : forall els fuel a c unknown elems left,
  Forall elem_ok els -> (length els <= fuel)%nat -> left = zlen (encode els) -> 0 <= unknown ->
  exists elems',
    parse_elems_loop fuel (a ++ encode els ++ c) (zlen a) left unknown elems
    = Done (if unknown + unknowns els =? 0 then ParseOK else ParseUnknown, elems') /\
    forall k, elems' k = last_of k (zlen a) els (elems k).
Proof.
  induction els as [|e els IH]; intros fuel a c unknown elems left Hok Hfu -> Hu.
  { exists elems. split; [|done]. change (zlen (encode [])) with 0. change (unknowns []) with 0.
    rewrite Z.add_0_r. destruct fuel; cbn; by destruct (unknown =? 0). }
  destruct fuel as [|fuel]; [cbn in Hfu; lia|]. cbn [length] in Hfu.
  apply list.Forall_cons in Hok as [(He & Hb & Hl) Hok].
  pose proof (zlen_nonneg (encode els)). pose proof (zlen_nonneg e.2).
  rewrite zlen_encode_cons, encode_cons, <- app_assoc. cbn [parse_elems_loop].
  rewrite (proj2 (Z.leb_le _ _)) by lia.
  rewrite (ld_id a _ _ (zlen a)), done_bind, (ld_len a), done_bind by done. cbv zeta.
  rewrite (proj2 (Z.ltb_ge _ _)) by lia.
  rewrite parse_elem_run, done_bind by done.
  replace (zlen a + 2 + zlen e.2) with (zlen (a ++ encode1 e)) by (rewrite zlen_app, zlen_encode1; lia).
  replace (zlen e.2 + 2 + zlen (encode els) - 2 - zlen e.2) with (zlen (encode els)) by lia.
  rewrite app_assoc. unfold unknowns. rewrite filter_cons.
  destruct (kind e) as [k|] eqn:Hk.
  - destruct (IH fuel (a ++ encode1 e) c unknown (<[k := Some (zlen a + 2, zlen e.2)]> elems)
      (zlen (encode els))) as (elems' & -> & Hlast); [done|lia|done|lia|].
    exists elems'. rewrite decide_False by done. split; [done|].
    intros k'. rewrite Hlast. cbn [last_of]. rewrite zlen_app, zlen_encode1, Hk.
    replace (zlen a + (zlen e.2 + 2)) with (zlen a + 2 + zlen e.2) by lia. f_equal.
    destruct (decide (Some k = Some k')) as [[= <-]|Hne]; [apply elems_insert|].
    apply elems_insert_ne. congruence.
  - destruct (IH fuel (a ++ encode1 e) c (unknown + 1) elems
      (zlen (encode els))) as (elems' & -> & Hlast); [done|lia|done|lia|].
    exists elems'. rewrite decide_True by done. split.
    + rewrite zlen_cons. unfold unknowns. by rewrite Z.add_assoc.
    + intros k'. rewrite Hlast. cbn [last_of]. rewrite zlen_app, zlen_encode1, Hk.
      replace (zlen a + (zlen e.2 + 2)) with (zlen a + 2 + zlen e.2) by lia. done.
Qed.

(** A field that is set lies within the bytes parsed. *)
Definition within (lo hi : Z) (elems : rtw_ieee802_11_elems) : Prop :=
  forall k p n, elems k = Some (p, n) -> lo <= p /\ 0 <= n /\ p + n <= hi.

Lemma within_insert lo hi elems k p n :
  within lo hi elems -> lo <= p -> 0 <= n -> p + n <= hi -> within lo hi (<[k := Some (p, n)]> elems).
Proof.
  intros Hw ??? k' p' n'. destruct (decide (k = k')) as [->|].
  - rewrite elems_insert. by intros [= <- <-].
  - rewrite elems_insert_ne by done. apply Hw.
Qed.

Lemma vendor_specific_safe m pos elen elems lo hi :
  within lo hi elems -> lo <= pos -> 0 <= lo -> 0 <= elen -> pos + elen <= hi -> hi <= zlen m ->
  exists r elems', rtw_ieee802_11_parse_vendor_specific m pos elen elems = Done (r, elems') /\
    within lo hi elems'.
Proof.
  intros Hw ?????. unfold rtw_ieee802_11_parse_vendor_specific, RTW_GET_BE24.
  destruct (Z.ltb_spec elen 4); [eauto|].
  rewrite !(ldr_ok m pos), !(ldr_ok m (pos + 1)), !(ldr_ok m (pos + 2)), !done_bind by lia.
  destruct (Z.ltb_spec elen 5); repeat first
    [ rewrite done_bind | rewrite ldr_ok by lia
    | match goal with |- exists _ _, (if ?b then _ else _) = _ /\ _ => destruct b end
    | eexists _, _; split; [reflexivity|]; (done || (apply within_insert; [done|lia..])) ].
Qed.

Lemma parse_elems_loop_safe m lo hi : bytes_ok m -> hi <= zlen m -> 0 <= lo ->
  forall fuel pos left unknown elems,
  within lo hi elems -> lo <= pos -> 0 <= left -> pos + left = hi -> (Z.to_nat left <= fuel)%nat ->
  exists r elems', parse_elems_loop fuel m pos left unknown elems = Done (r, elems') /\
    within lo hi elems'.
Proof.
  intros Hb Hhi Hlo. induction fuel as [|fuel IH]; intros pos left unknown elems Hw Hp Hl He Hf;
    cbn [parse_elems_loop]; destruct (Z.leb_spec 2 left); try lia; [eauto| |eauto].
  rewrite (ldr_ok m pos), done_bind, (ldr_ok m (pos + 1)), done_bind by lia. cbv zeta.
  pose proof (ld0_u8 m (pos + 1) Hb).
  destruct (Z.ltb_spec (left - 2) (ld0 m (pos + 1))); [eauto|].
  assert (Hpe : exists u elems', parse_elem m (pos + 2) (ld0 m pos) (ld0 m (pos + 1)) unknown elems
    = Done (u, elems') /\ within lo hi elems').
  { unfold parse_elem. destruct (kind_of _) as [k|].
    - eexists _, _. split; [reflexivity|]. apply within_insert; done || lia.
    - destruct (_ =? _); [|eauto].
      destruct (vendor_specific_safe m (pos + 2) (ld0 m (pos + 1)) elems lo hi)
        as (r & elems' & -> & Hw'); [done|lia..|]. rewrite done_bind. eauto. }
  destruct Hpe as (u & elems' & -> & Hw'). rewrite done_bind.
  apply IH; done || lia.
Qed.

(** ** Properties *)

(** On well-formed elements the parser fails for none and records, for each kind,
    the last element of that kind: where its body starts and how long it is.  The
    result is ParseOK exactly when every element is of a known kind.  (The searches
    of Ie return the first element instead, so the two disagree on a frame that
    repeats an element.) *)
Theorem parse_elems_last a els c :
  Forall elem_ok els ->
  exists elems,
    rtw_ieee802_11_parse_elems (a ++ encode els ++ c) (zlen a) (zlen (encode els))
    = Done (if unknowns els =? 0 then ParseOK else ParseUnknown, elems) /\
    forall k, elems k = last_of k (zlen a) els None.
Proof.
  intros Hok. pose proof (length_encode els).
  apply (parse_elems_loop_run els (Z.to_nat (zlen (encode els))) a c 0 no_elems);
    [done|unfold zlen; lia|done|done].
Qed.

Lemma parse_elems_last_witness : exists elems,
  rtw_ieee802_11_parse_elems ([9] ++ encode [(0, [65]); (221, [0; 80; 242; 1; 1]); (7, []); (0, [66; 67])] ++ [])
    1 16 = Done (ParseUnknown, elems) /\
  forall k, elems k = last_of k 1 [(0, [65]); (221, [0; 80; 242; 1; 1]); (7, []); (0, [66; 67])] None.
Proof.
  apply (parse_elems_last [9] [(0, [65]); (221, [0; 80; 242; 1; 1]); (7, []); (0, [66; 67])] []).
  repeat constructor; vm_compute; discriminate.
Defined.

(** Whatever bytes a frame holds, the parser returns, reads nothing outside the
    [len] bytes it is given, and every field it sets lies within them. *)
Theorem parse_elems_safe m start len :
  bytes_ok m -> 0 <= start -> 0 <= len -> start + len <= zlen m ->
  exists r elems, rtw_ieee802_11_parse_elems m start len = Done (r, elems) /\
    forall k p n, elems k = Some (p, n) -> start <= p /\ 0 <= n /\ p + n <= start + len.
Proof.
  intros Hb Hs Hl Hm. apply (parse_elems_loop_safe m start (start + len) Hb Hm Hs); done || lia.
Qed.

Lemma parse_elems_safe_witness :
  exists r elems, rtw_ieee802_11_parse_elems [221; 9; 0; 80; 242] 0 5 = Done (r, elems) /\
    forall k p n, elems k = Some (p, n) -> 0 <= p /\ 0 <= n /\ p + n <= 0 + 5.
Proof.
  apply (parse_elems_safe [221; 9; 0; 80; 242] 0 5);
    [by apply bytes_ok_spec|lia|lia|vm_compute; discriminate].
Defined.

(** The two ways of looking up an element disagree when it is repeated. *)
Lemma parsers_disagree :
  let m := encode [(0, [65]); (0, [66])] in
  rtw_get_ie m 0 0 0 6 = Done (Some 0, 1) /\
  exists elems, rtw_ieee802_11_parse_elems m 0 6 = Done (ParseOK, elems) /\
    elems ssid = Some (5, 1).
Proof. split; [reflexivity|]. eexists. split; reflexivity. Qed.
