(* ===== verification/IeAttr.v ===== *)
(** * WPS, P2P and Wi-Fi Display attributes (src/core/rtw_ieee80211.c)

    Vendor specific elements carry attributes of their own.  Modelled: finding these
    elements, finding, writing and removing their attributes, and merging the P2P
    elements of a frame.  The attribute searches take their fuel as an argument,
    because they need not end: the length of an attribute with its header is computed
    in 16 bits and can be 0. *)

From S2P Require Import Prelude Ie.

Definition _PROBERSP_IE_OFFSET_ : Z := 12.
Definition _PROBEREQ_IE_OFFSET_ : Z := 0.

Definition wps_oui : bytes := [0x00; 0x50; 0xF2; 0x04].
Definition p2p_oui : bytes := [0x50; 0x6F; 0x9A; 0x09].
Definition wfd_oui : bytes := [0x50; 0x6F; 0x9A; 0x0A].

(** ** Finding the elements *)

(** [match] and [*wps_ielen]. *)
Definition rtw_is_wps_ie (m : bytes) (ie_ptr wps_ielen : Z) : res (bool * Z) :=
  eid ← ldr m ie_ptr;
  hit ← (if eid =? _WPA_IE_ID_ then _rtw_memcmp m (ie_ptr + 2) wps_oui else Done false);
  if (hit : bool) then len ← ldr m (ie_ptr + 1); Done (true, len + 2)
  else Done (false, wps_ielen).

Fixpoint get_wps_ie_loop (fuel : nat) (m : bytes) (in_ie in_len : Z) (wps_ie : option bytes) (cnt : Z)
    : res (option Z * option bytes * Z) :=
  if cnt <? in_len then
    match fuel with
    | O => NoFuel
    | S fuel =>
      eid ← ldr m (in_ie + cnt);
      hit ← (if eid =? _WPA_IE_ID_ then _rtw_memcmp m (in_ie + cnt + 2) wps_oui else Done false);
      len ← ldr m (in_ie + cnt + 1);
      if (hit : bool) then
        wps_ie ← copy_out wps_ie m (in_ie + cnt) (len + 2);
        Done (Some (in_ie + cnt), wps_ie, len + 2)
      else get_wps_ie_loop fuel m in_ie in_len wps_ie (u32 (cnt + (len + 2)))
    end
  else Done (None, wps_ie, 0).

Definition rtw_get_wps_ie (m : bytes) (in_ie in_len : Z) (wps_ie : option bytes)
    : res (option Z * option bytes * Z) :=
  if in_len <=? 0 then Done (None, wps_ie, 0)
  else get_wps_ie_loop (Z.to_nat in_len) m in_ie in_len wps_ie 0.

Definition rtw_get_wps_ie_from_scan_queue (m : bytes) (in_ie in_len : Z) (wps_ie : option bytes)
    (wps_ielen frame_type : Z) : res (option Z * option bytes * Z) :=
  if (frame_type =? 1) || (frame_type =? 3) then
    rtw_get_wps_ie m (in_ie + _PROBERSP_IE_OFFSET_) (u32 (in_len - _PROBERSP_IE_OFFSET_)) wps_ie
  else if frame_type =? 2 then
    rtw_get_wps_ie m (in_ie + _PROBEREQ_IE_OFFSET_) (u32 (in_len - _PROBEREQ_IE_OFFSET_)) wps_ie
  else Done (None, wps_ie, wps_ielen).

(** [in_len] is an int; the comparison with the unsigned [cnt] converts it. *)
Fixpoint get_p2p_ie_loop (fuel : nat) (m : bytes) (in_ie in_len : Z) (p2p_ie : option bytes) (cnt : Z)
    : res (option Z * option bytes * Z) :=
  if cnt <? u32 in_len then
    match fuel with
    | O => NoFuel
    | S fuel =>
      eid ← ldr m (in_ie + cnt);
      if (in_len <? 0) || (MAX_IE_SZ <? cnt) then Done (None, p2p_ie, 0)
      else
        hit ← (if eid =? _VENDOR_SPECIFIC_IE_ then _rtw_memcmp m (in_ie + cnt + 2) p2p_oui
               else Done false);
        len ← ldr m (in_ie + cnt + 1);
        if (hit : bool) then
          p2p_ie ← copy_out p2p_ie m (in_ie + cnt) (len + 2);
          Done (Some (in_ie + cnt), p2p_ie, len + 2)
        else get_p2p_ie_loop fuel m in_ie in_len p2p_ie (u32 (cnt + (len + 2)))
    end
  else Done (None, p2p_ie, 0).

(** The guard on [cnt] bounds the iterations by MAX_IE_SZ / 2 + 2. *)
Definition rtw_get_p2p_ie (m : bytes) (in_ie in_len : Z) (p2p_ie : option bytes)
    : res (option Z * option bytes * Z) :=
  get_p2p_ie_loop (S (S (Z.to_nat MAX_IE_SZ))) m in_ie in_len p2p_ie 0.

Definition rtw_get_p2p_ie_from_scan_queue (m : bytes) (in_ie in_len : Z) (p2p_ie : option bytes)
    (p2p_ielen frame_type : Z) : res (option Z * option bytes * Z) :=
  if (frame_type =? 1) || (frame_type =? 3) then
    rtw_get_p2p_ie m (in_ie + _PROBERSP_IE_OFFSET_) (in_len - _PROBERSP_IE_OFFSET_) p2p_ie
  else if frame_type =? 2 then
    rtw_get_p2p_ie m (in_ie + _PROBEREQ_IE_OFFSET_) (in_len - _PROBEREQ_IE_OFFSET_) p2p_ie
  else Done (None, p2p_ie, p2p_ielen).

(** The return value is the offset behind the element, or 0. *)
Fixpoint get_wfd_ie_loop (fuel : nat) (m : bytes) (in_ie in_len : Z) (wfd_ie : option bytes)
    (wfd_ielen cnt : Z) : res (Z * option bytes * Z) :=
  if cnt <? in_len then
    match fuel with
    | O => NoFuel
    | S fuel =>
      eid ← ldr m (in_ie + cnt);
      hit ← (if eid =? _VENDOR_SPECIFIC_IE_ then _rtw_memcmp m (in_ie + cnt + 2) wfd_oui
             else Done false);
      len ← ldr m (in_ie + cnt + 1);
      if (hit : bool) then
        wfd_ie ← copy_out wfd_ie m (in_ie + cnt) (len + 2);
        Done (s32 (u32 (cnt + (len + 2))), wfd_ie, len + 2)
      else get_wfd_ie_loop fuel m in_ie in_len wfd_ie wfd_ielen (u32 (cnt + (len + 2)))
    end
  else Done (0, wfd_ie, wfd_ielen).

Definition rtw_get_wfd_ie (m : bytes) (in_ie in_len : Z) (wfd_ie : option bytes) (wfd_ielen : Z)
    : res (Z * option bytes * Z) :=
  if in_len <? 0 then Done (0, wfd_ie, wfd_ielen)
  else get_wfd_ie_loop (Z.to_nat in_len) m in_ie in_len wfd_ie wfd_ielen 0.

(** ** Finding attributes *)

Section attr.
(** An attribute format: the length of its header, and its id and length fields. *)
Variable hdr : Z.
Variables read_id read_len : bytes -> Z -> res Z.

(** The loop of rtw_get_wps_attr and rtw_get_p2p_attr: the attribute, the copy and
    [*len_attr]. *)
Fixpoint attr_loop (fuel : nat) (m : bytes) (ie ielen target attr_ptr : Z) (buf_attr : option bytes)
    : res (option Z * option bytes * Z) :=
  if attr_ptr - ie <? ielen then
    match fuel with
    | O => NoFuel
    | S fuel =>
      attr_id ← read_id m attr_ptr;
      attr_data_len ← read_len m attr_ptr;
      let attr_len := u16 (attr_data_len + hdr) in
      if attr_id =? target then
        buf_attr ← copy_out buf_attr m attr_ptr attr_len;
        Done (Some attr_ptr, buf_attr, attr_len)
      else attr_loop fuel m ie ielen target (attr_ptr + attr_len) buf_attr
    end
  else Done (None, buf_attr, 0).

Definition get_attr (oui : bytes) (fuel : nat) (m : bytes) (ie ielen target : Z)
    (buf_attr : option bytes) : res (option Z * option bytes * Z) :=
  eid ← ldr m ie;
  if negb (eid =? _VENDOR_SPECIFIC_IE_) then Done (None, buf_attr, 0)
  else
    same ← _rtw_memcmp m (ie + 2) oui;
    if negb same then Done (None, buf_attr, 0)
    else attr_loop fuel m ie ielen target (ie + 6) buf_attr.

(** The content, its copy and [*len_content]. *)
Definition get_attr_content (oui : bytes) (fuel : nat) (m : bytes) (ie ielen target : Z)
    (buf_content : option bytes) : res (option Z * option bytes * Z) :=
  '(attr_ptr, _, attr_len) ← get_attr oui fuel m ie ielen target None;
  match attr_ptr with
  | Some attr_ptr =>
    if attr_len =? 0 then Done (None, buf_content, 0)
    else
      buf_content ← copy_out buf_content m (attr_ptr + hdr) (u32 (attr_len - hdr));
      Done (Some (attr_ptr + hdr), buf_content, u32 (attr_len - hdr))
  | None => Done (None, buf_content, 0)
  end.
End attr.

Definition wps_id (m : bytes) (p : Z) : res Z := RTW_GET_BE16 m p.
Definition wps_len (m : bytes) (p : Z) : res Z := RTW_GET_BE16 m (p + 2).
Definition rtw_get_wps_attr := get_attr 4 wps_id wps_len wps_oui.
Definition rtw_get_wps_attr_content := get_attr_content 4 wps_id wps_len wps_oui.

Definition p2p_id (m : bytes) (p : Z) : res Z := ldr m p.
Definition p2p_len (m : bytes) (p : Z) : res Z := RTW_GET_LE16 m (p + 1).
Definition rtw_get_p2p_attr := get_attr 3 p2p_id p2p_len p2p_oui.
Definition rtw_get_p2p_attr_content := get_attr_content 3 p2p_id p2p_len p2p_oui.

Fixpoint wfd_attr_loop (fuel : nat) (m : bytes) (wfd_ie wfd_ielen target cnt : Z)
    (attr_content : option bytes) (attr_contentlen : Z) : res (bool * option bytes * Z) :=
  if cnt <? wfd_ielen then
    match fuel with
    | O => NoFuel
    | S fuel =>
      attrlen ← RTW_GET_BE16 m (wfd_ie + cnt + 1);
      attr_id ← ldr m (wfd_ie + cnt);
      if attr_id =? target then
        attr_content ← copy_out attr_content m (wfd_ie + cnt + 3) attrlen;
        Done (true, attr_content, attrlen)
      else wfd_attr_loop fuel m wfd_ie wfd_ielen target (u32 (cnt + (attrlen + 3)))
             attr_content attr_contentlen
    end
  else Done (false, attr_content, attr_contentlen).

Definition rtw_get_wfd_attr_content (m : bytes) (wfd_ie wfd_ielen target : Z)
    (attr_content : option bytes) (attr_contentlen : Z) : res (bool * option bytes * Z) :=
  eid ← ldr m wfd_ie;
  if negb (eid =? _VENDOR_SPECIFIC_IE_) then Done (false, attr_content, attr_contentlen)
  else
    same ← _rtw_memcmp m (wfd_ie + 2) wfd_oui;
    if negb same then Done (false, attr_content, attr_contentlen)
    else wfd_attr_loop (Z.to_nat wfd_ielen) m wfd_ie wfd_ielen target 6 attr_content attr_contentlen.

(** ** Writing and removing attributes *)

(** The buffer and the length written; [pdata_attr] is NULL or [attr_len] bytes. *)
Definition rtw_set_p2p_attr_content (m : bytes) (pbuf attr_id attr_len : Z)
    (pdata_attr : option bytes) : res (bytes * Z) :=
  m ← wrr m pbuf [u8 attr_id];
  m ← wrr m (pbuf + 1) [u16 attr_len .& 0xff; u16 attr_len .>> 8];
  m ← match pdata_attr with
      | Some d => d ← rdr d 0 attr_len; wrr m (pbuf + 3) d
      | None => Done m
      end;
  Done (m, attr_len + 3).

(** The buffer and [ielen].  [loops] bounds the removals and [fuel] each search. *)
Fixpoint p2p_attr_remove_loop (loops fuel : nat) (m : bytes) (ie ielen attr_id : Z) : res (bytes * Z) :=
  match loops with
  | O => NoFuel
  | S loops =>
    '(target_attr, _, target_attr_len) ← rtw_get_p2p_attr fuel m ie ielen attr_id None;
    match target_attr with
    | Some target_attr =>
      if target_attr_len =? 0 then Done (m, ielen)
      else
        let next_attr := target_attr + target_attr_len in
        let remain_len := u32 (ielen - (next_attr - ie)) in
        m ← wrr m target_attr (replicate (Z.to_nat target_attr_len) 0);
        remain ← rdr m next_attr remain_len;
        m ← wrr m target_attr remain;
        m ← wrr m (target_attr + remain_len) (replicate (Z.to_nat target_attr_len) 0);
        len ← ldr m (ie + 1);
        m ← wrr m (ie + 1) [u8 (len - target_attr_len)];
        p2p_attr_remove_loop loops fuel m ie (u32 (ielen - target_attr_len)) attr_id
    | None => Done (m, ielen)
    end
  end.

Definition rtw_p2p_attr_remove (fuel : nat) (m : bytes) (ie ielen_ori attr_id : Z) : res (bytes * Z) :=
  p2p_attr_remove_loop fuel fuel m ie ielen_ori attr_id.

(** [IEs] and [IELength] of the BSS description. *)
Definition rtw_WLAN_BSSID_EX_remove_p2p_attr (fuel : nat) (IEs : bytes) (IELength attr_id : Z)
    : res (bytes * Z) :=
  '(p2p_ie, _, p2p_ielen_ori) ←
    rtw_get_p2p_ie IEs _FIXED_IE_LENGTH_ (s32 (IELength - _FIXED_IE_LENGTH_)) None;
  match p2p_ie with
  | Some p2p_ie =>
    '(IEs, p2p_ielen) ← rtw_p2p_attr_remove fuel IEs p2p_ie p2p_ielen_ori attr_id;
    if negb (p2p_ielen =? p2p_ielen_ori) then
      let next_ie_ori := p2p_ie + p2p_ielen_ori in
      let next_ie := p2p_ie + p2p_ielen in
      let remain_len := u32 (IELength - next_ie_ori) in
      remain ← rdr IEs next_ie_ori remain_len;
      IEs ← wrr IEs next_ie remain;
      IEs ← wrr IEs (next_ie + remain_len)
              (replicate (Z.to_nat (u32 (p2p_ielen_ori - p2p_ielen))) 0);
      Done (IEs, u32 (IELength - (p2p_ielen_ori - p2p_ielen)))
    else Done (IEs, IELength)
  | None => Done (IEs, IELength)
  end.

(** ** Merging P2P elements *)

Fixpoint merged_len_loop (fuel : nat) (m : bytes) (in_ie in_len i len : Z) : res Z :=
  if i <? in_len then
    match fuel with
    | O => NoFuel
    | S fuel =>
      id ← ldr m (in_ie + i);
      hit ← (if id =? _VENDOR_SPECIFIC_IE_ then _rtw_memcmp m (in_ie + i + 2) p2p_oui else Done false);
      l ← ldr m (in_ie + i + 1);
      merged_len_loop fuel m in_ie in_len (i + (l + 2)) (if (hit : bool) then len + (l - 4) else len)
    end
  else Done len.

Definition rtw_get_p2p_merged_ies_len (m : bytes) (in_ie in_len : Z) : res Z :=
  len ← merged_len_loop (Z.to_nat in_len) m in_ie in_len 0 0; Done (u32 (len + 4)).

(** The output buffer and [len], one byte wide. *)
Fixpoint merge_loop (fuel : nat) (m : bytes) (in_ie in_len i : Z) (out : bytes) (merge_ie len : Z)
    : res (bytes * Z) :=
  if i <? in_len then
    match fuel with
    | O => NoFuel
    | S fuel =>
      id ← ldr m (in_ie + i);
      hit ← (if id =? _VENDOR_SPECIFIC_IE_ then _rtw_memcmp m (in_ie + i + 2) p2p_oui else Done false);
      l ← ldr m (in_ie + i + 1);
      if (hit : bool) then
        d ← rdr m (in_ie + i + 2 + 4) (u32 (l - 4));
        out ← wrr out merge_ie d;
        merge_loop fuel m in_ie in_len (i + (l + 2)) out (merge_ie + (l - 4)) (u8 (len + (l - 4)))
      else merge_loop fuel m in_ie in_len (i + (l + 2)) out merge_ie len
    end
  else Done (out, len).

(** The merged element in [merge_ie] and the return value. *)
Definition rtw_p2p_merge_ies (m : bytes) (in_ie in_len : Z) (merge_ie : option bytes)
    : res (option bytes * Z) :=
  match merge_ie with
  | Some out =>
    out ← wrr out 0 [0xDD; 0x00; 0x50; 0x6f; 0x9a; 0x09];
    '(out, len) ← merge_loop (Z.to_nat in_len) m in_ie in_len 0 out 6 0;
    Done (Some out, len + 4)
  | None => Done (None, 0)
  end.

(** ** Attributes

    An attribute is an id and a body; [head] writes its header of [hdr] bytes. *)

Section attrs.
Variable hdr : Z.
Variables read_id read_len : bytes -> Z -> res Z.
Variable head : elem -> bytes.
Variable attr_ok : elem -> Prop.
Hypothesis hdr_pos : 2 < hdr.
Hypothesis head_len : forall e, zlen (head e) = hdr.
Hypothesis ok_len : forall e, attr_ok e -> zlen e.2 + hdr < 2 ^ 16.
Hypothesis read_id_ok : forall a e c, attr_ok e -> read_id (a ++ head e ++ c) (zlen a) = Done e.1.
Hypothesis read_len_ok : forall a e c, attr_ok e -> read_len (a ++ head e ++ c) (zlen a) = Done (zlen e.2).

Definition enc_attr (e : elem) : bytes := head e ++ e.2.
Definition enc_attrs (es : list elem) : bytes := concat (map enc_attr es).

Lemma enc_attrs_app es es' : enc_attrs (es ++ es') = enc_attrs es ++ enc_attrs es'.
Proof. unfold enc_attrs. by rewrite map_app, concat_app. Qed.
Lemma enc_attrs_cons e es : enc_attrs (e :: es) = enc_attr e ++ enc_attrs es.
Proof. done. Qed.
Lemma zlen_enc_attr e : zlen (enc_attr e) = hdr + zlen e.2.
Proof. unfold enc_attr. by rewrite zlen_app, head_len. Qed.
Lemma length_enc_attrs es : zlen es <= zlen (enc_attrs es).
Proof.
  induction es as [|e es IH]; [done|]. rewrite enc_attrs_cons, zlen_app, zlen_enc_attr, zlen_cons.
  pose proof (zlen_nonneg e.2). lia.
Qed.

(** The search skips the attributes before the first with the id. *)
Lemma attr_loop_run target : forall es fuel a c ie ielen p,
  Forall attr_ok es -> (length es <= fuel)%nat -> p = zlen a ->
  ielen = p - ie + zlen (enc_attrs es) ->
  attr_loop hdr read_id read_len fuel (a ++ enc_attrs es ++ c) ie ielen target p None
  = Done (match find_by (fun e => e.1 =? target) es with
          | Some (before, hit) => (Some (p + zlen (enc_attrs before)), None, zlen hit.2 + hdr)
          | None => (None, None, 0)
          end).
Proof.
  induction es as [|e es IH]; intros fuel a c ie ielen p Hok Hf Hp Hl.
  { change (zlen (enc_attrs [])) with 0 in Hl.
    destruct fuel; cbn [attr_loop]; by rewrite (proj2 (Z.ltb_ge _ _)) by lia. }
  apply list.Forall_cons in Hok as [He Hok]. pose proof (ok_len e He).
  rewrite enc_attrs_cons, zlen_app, zlen_enc_attr in Hl.
  pose proof (zlen_nonneg e.2). pose proof (zlen_nonneg (enc_attrs es)).
  destruct fuel as [|fuel]; [cbn in Hf; lia|]. cbn [length] in Hf.
  cbn [attr_loop]. rewrite (proj2 (Z.ltb_lt _ _)) by lia.
  rewrite enc_attrs_cons. unfold enc_attr. rewrite <- !app_assoc.
  subst p. rewrite read_id_ok, done_bind, read_len_ok, done_bind by done. cbv zeta.
  rewrite u16_id by lia. cbn [find_by].
  destruct (e.1 =? target).
  { cbn. by rewrite Z.add_0_r. }
  replace (a ++ head e ++ e.2 ++ enc_attrs es ++ c) with ((a ++ enc_attr e) ++ enc_attrs es ++ c)
    by (unfold enc_attr; by rewrite <- !app_assoc).
  rewrite IH; [|done|lia|rewrite zlen_app, zlen_enc_attr; lia|lia].
  destruct (find_by _ es) as [[b h]|]; cbn [mbind option_bind]; [|done].
  rewrite enc_attrs_cons, zlen_app, zlen_enc_attr. do 4 f_equal. lia.
Qed.

(** The element: its id and length, the OUI and the attributes. *)
Definition attr_ie (oui : bytes) (n : Z) (es : list elem) : bytes := [221; n] ++ oui ++ enc_attrs es.

Lemma get_attr_run oui fuel a c n ielen target es :
  zlen oui = 4 -> Forall attr_ok es -> (length es <= fuel)%nat ->
  ielen = 6 + zlen (enc_attrs es) ->
  get_attr hdr read_id read_len oui fuel (a ++ attr_ie oui n es ++ c) (zlen a) ielen target None
  = Done (match find_by (fun e => e.1 =? target) es with
          | Some (before, hit) => (Some (zlen a + 6 + zlen (enc_attrs before)), None, zlen hit.2 + hdr)
          | None => (None, None, 0)
          end).
Proof.
  intros Ho Hok Hf ->. unfold get_attr, attr_ie. rewrite <- !app_assoc.
  rewrite (ldr_mid a (n :: oui ++ enc_attrs es ++ c) 221) by done. rewrite done_bind.
  change (221 =? _VENDOR_SPECIFIC_IE_) with true. cbn [negb].
  unfold _rtw_memcmp. rewrite (app_assoc a [221; n]).
  rewrite rdr_mid, !done_bind by (rewrite ?zlen_app; done).
  rewrite bool_decide_eq_true_2 by done. cbn [negb].
  rewrite app_assoc. apply attr_loop_run; [done|done|rewrite !zlen_app; change (zlen [221; n]) with 2; lia|lia].
Qed.

Lemma find_by_sub P es b h : find_by P es = Some (b, h) -> zlen (enc_attrs b) + hdr + zlen h.2 <= zlen (enc_attrs es).
Proof.
  intros (after & -> & _)%find_by_Some. rewrite enc_attrs_app, enc_attrs_cons, !zlen_app, zlen_enc_attr.
  pose proof (zlen_nonneg (enc_attrs after)). lia.
Qed.

(** ** Searches that end and searches that do not *)

(** An attribute whose length field is [2^16 - hdr] has total length 0: the search
    stays on it. *)
Lemma attr_loop_hangs m ie ielen target p id :
  read_id m p = Done id -> id <> target -> read_len m p = Done (2 ^ 16 - hdr) -> p - ie < ielen ->
  forall fuel, attr_loop hdr read_id read_len fuel m ie ielen target p None = NoFuel.
Proof.
  intros Hid Hne Hlen Hp. induction fuel as [|fuel IH]; cbn [attr_loop];
    rewrite (proj2 (Z.ltb_lt _ _)) by lia; [done|].
  rewrite Hid, done_bind, Hlen, done_bind, (proj2 (Z.eqb_neq _ _)) by done. cbv zeta.
  replace (2 ^ 16 - hdr + hdr) with (2 ^ 16) by lia. change (u16 (2 ^ 16)) with 0.
  by rewrite Z.add_0_r.
Qed.

(** Otherwise every step advances, and the search ends. *)
Lemma attr_loop_ends m ie ielen target :
  (forall p, read_len m p <> NoFuel) -> (forall p, read_id m p <> NoFuel) ->
  (forall p n, read_len m p = Done n -> 0 <= n < 2 ^ 16 /\ n <> 2 ^ 16 - hdr) ->
  hdr <= 4 ->
  forall fuel p, (Z.to_nat (ielen - (p - ie)) <= fuel)%nat ->
  attr_loop hdr read_id read_len fuel m ie ielen target p None <> NoFuel.
Proof.
  intros Hln Hin Hlen Hh. induction fuel as [|fuel IH]; intros p Hf; cbn [attr_loop];
    destruct (Z.ltb_spec (p - ie) ielen) as [Hp|Hp]; try done; [lia|].
  destruct (read_id m p) as [id| |] eqn:Hid; [|done|by apply Hin in Hid].
  rewrite done_bind. destruct (read_len m p) as [n| |] eqn:Hn; [|done|by apply Hln in Hn].
  rewrite done_bind. cbv zeta. destruct (id =? target); [done|].
  apply IH. destruct (Hlen p n Hn) as [Hr Hne].
  assert (0 < u16 (n + hdr)); [|lia].
  unfold u16. destruct (Z.lt_ge_cases (n + hdr) (2 ^ 16)).
  - rewrite Z.mod_small by lia. lia.
  - replace (n + hdr) with (n + hdr - 2 ^ 16 + 1 * 2 ^ 16) by lia.
    rewrite Z.mod_add, Z.mod_small by lia. lia.
Qed.
End attrs.

(** ** The two formats *)

Definition be16 (n : Z) : bytes := [n / 256; n mod 256].
Definition le16 (n : Z) : bytes := [n mod 256; n / 256].

Definition wps_head (e : elem) : bytes := be16 e.1 ++ be16 (zlen e.2).
Definition p2p_head (e : elem) : bytes := e.1 :: le16 (zlen e.2).
Definition wps_ok (e : elem) : Prop := is_u16 e.1 /\ zlen e.2 + 4 < 2 ^ 16.
Definition p2p_ok (e : elem) : Prop := is_u8 e.1 /\ zlen e.2 + 3 < 2 ^ 16.

Lemma divmod16 n : 0 <= n < 2 ^ 16 -> is_u8 (n / 256) /\ is_u8 (n mod 256) /\ n mod 256 + n / 256 * 256 = n.
Proof.
  intros Hn. pose proof (Z.div_mod n 256). pose proof (Z.mod_pos_bound n 256).
  assert (0 <= n / 256 < 256) by (split; [apply Z.div_pos; lia|apply Z.div_lt_upper_bound; lia]).
  repeat split; lia.
Qed.

Lemma be16_read a n c p : p = zlen a -> 0 <= n < 2 ^ 16 -> RTW_GET_BE16 (a ++ be16 n ++ c) p = Done n.
Proof.
  intros -> Hn. destruct (divmod16 n Hn) as (? & ? & Heq). unfold be16.
  rewrite (get_be16_ok _ _ (n mod 256) (n / 256)); [by rewrite Heq|by apply ldr_mid| |done..].
  change (a ++ [?x; ?y] ++ c) with (a ++ [x] ++ y :: c). rewrite app_assoc.
  apply ldr_mid. by rewrite zlen_app.
Qed.
Lemma le16_halves_read a n c p : p = zlen a -> 0 <= n < 2 ^ 16 -> RTW_GET_LE16 (a ++ le16 n ++ c) p = Done n.
Proof.
  intros -> Hn. destruct (divmod16 n Hn) as (? & ? & Heq). unfold le16.
  rewrite (get_le16_ok _ _ (n mod 256) (n / 256)); [by rewrite Heq|by apply ldr_mid| |done..].
  change (a ++ [?x; ?y] ++ c) with (a ++ [x] ++ y :: c). rewrite app_assoc.
  apply ldr_mid. by rewrite zlen_app.
Qed.

Lemma wps_head_len e : zlen (wps_head e) = 4.
Proof. done. Qed.
Lemma wps_id_ok a e c : wps_ok e -> wps_id (a ++ wps_head e ++ c) (zlen a) = Done e.1.
Proof. intros [He _]. unfold wps_id, wps_head. rewrite <- app_assoc. by apply be16_read. Qed.
Lemma wps_len_ok a e c : wps_ok e -> wps_len (a ++ wps_head e ++ c) (zlen a) = Done (zlen e.2).
Proof.
  intros [_ Hl]. unfold wps_len, wps_head. rewrite <- app_assoc, app_assoc. pose proof (zlen_nonneg e.2).
  apply be16_read; [by rewrite zlen_app|lia].
Qed.

Lemma p2p_head_len e : zlen (p2p_head e) = 3.
Proof. done. Qed.
Lemma p2p_id_ok a e c : p2p_ok e -> p2p_id (a ++ p2p_head e ++ c) (zlen a) = Done e.1.
Proof. intros _. by apply ldr_mid. Qed.
Lemma p2p_len_ok a e c : p2p_ok e -> p2p_len (a ++ p2p_head e ++ c) (zlen a) = Done (zlen e.2).
Proof.
  intros [_ Hl]. unfold p2p_len, p2p_head. pose proof (zlen_nonneg e.2).
  change (a ++ (e.1 :: ?t) ++ c) with (a ++ [e.1] ++ t ++ c). rewrite app_assoc.
  apply le16_halves_read; [by rewrite zlen_app|lia].
Qed.

Abbreviation wps_attrs := (enc_attrs wps_head).
Abbreviation p2p_attrs := (enc_attrs p2p_head).

Lemma p2p_get_attr_run fuel a c n ielen target es :
  Forall p2p_ok es -> (length es <= fuel)%nat -> ielen = 6 + zlen (p2p_attrs es) ->
  rtw_get_p2p_attr fuel (a ++ attr_ie p2p_head p2p_oui n es ++ c) (zlen a) ielen target None
  = Done (match find_by (fun e => e.1 =? target) es with
          | Some (before, hit) => (Some (zlen a + 6 + zlen (p2p_attrs before)), None, zlen hit.2 + 3)
          | None => (None, None, 0)
          end).
Proof.
  intros. unfold rtw_get_p2p_attr. apply (get_attr_run 3 p2p_id p2p_len p2p_head p2p_ok); try done.
  - by intros e [_ He].
  - apply p2p_id_ok.
  - apply p2p_len_ok.
Qed.

Lemma wps_get_attr_run fuel a c n ielen target es :
  Forall wps_ok es -> (length es <= fuel)%nat -> ielen = 6 + zlen (wps_attrs es) ->
  rtw_get_wps_attr fuel (a ++ attr_ie wps_head wps_oui n es ++ c) (zlen a) ielen target None
  = Done (match find_by (fun e => e.1 =? target) es with
          | Some (before, hit) => (Some (zlen a + 6 + zlen (wps_attrs before)), None, zlen hit.2 + 4)
          | None => (None, None, 0)
          end).
Proof.
  intros. unfold rtw_get_wps_attr. apply (get_attr_run 4 wps_id wps_len wps_head wps_ok); try done.
  - by intros e [_ He].
  - apply wps_id_ok.
  - apply wps_len_ok.
Qed.

(** ** Removing attributes *)

Definition without (target : Z) : list elem -> list elem := filter (fun e => e.1 <> target).
Definition zeros (n : Z) : bytes := replicate (Z.to_nat n) 0.

Lemma zlen_zeros n : 0 <= n -> zlen (zeros n) = n.
Proof. intros. unfold zeros, zlen. rewrite length_replicate. lia. Qed.
Lemma zeros_add a b : 0 <= a -> 0 <= b -> zeros (a + b) = zeros a ++ zeros b.
Proof. intros. unfold zeros. by rewrite Z2Nat.inj_add, replicate_add by done. Qed.

Lemma without_le target es : zlen (p2p_attrs (without target es)) <= zlen (p2p_attrs es).
Proof.
  induction es as [|e es IH]; [done|]. unfold without in *. rewrite filter_cons.
  pose proof (zlen_nonneg (enc_attr p2p_head e)).
  destruct (decide _); rewrite !enc_attrs_cons, !zlen_app; lia.
Qed.

(** The end [z] of a segment is moved over its start [y] and the rest is cleared. *)
Lemma move_over x y z (c : bytes) p n :
  p = zlen x -> n = zlen y ->
  (remain ← rdr (x ++ y ++ z ++ c) (p + n) (zlen z);
   m ← wrr (x ++ y ++ z ++ c) p remain;
   wrr m (p + zlen z) (zeros n))
  = Done (x ++ z ++ zeros n ++ c).
Proof.
  intros -> ->. pose proof (zlen_nonneg y). pose proof (zlen_zeros (zlen y) ltac:(done)) as Hz.
  rewrite (app_assoc x), rdr_mid, done_bind by (rewrite ?zlen_app; lia).
  destruct (shift_tail y z) as (u & v & Huv & Hu & Hv).
  replace ((x ++ y) ++ z ++ c) with (x ++ u ++ v ++ c)
    by (rewrite <- app_assoc; f_equal; rewrite !app_assoc; by rewrite Huv).
  rewrite wrr_mid, done_bind by (done || lia).
  rewrite (app_assoc x), wrr_mid by (rewrite ?zlen_app; unfold zlen in *; lia).
  by rewrite <- app_assoc.
Qed.

Lemma move_clear x y z (c : bytes) p n :
  p = zlen x -> n = zlen y ->
  (m ← wrr (x ++ y ++ z ++ c) p (zeros n);
   remain ← rdr m (p + n) (zlen z);
   m ← wrr m p remain;
   wrr m (p + zlen z) (zeros n))
  = Done (x ++ z ++ zeros n ++ c).
Proof.
  intros Hp Hn. pose proof (zlen_nonneg y). pose proof (zlen_zeros n ltac:(lia)) as Hz.
  rewrite wrr_mid, done_bind by (done || unfold zlen in *; lia).
  by apply move_over.
Qed.

Lemma p2p_attr_remove_loop_run target : forall k es loops fuel a n c ielen,
  (length es <= k)%nat -> (k < loops)%nat -> (k <= fuel)%nat -> Forall p2p_ok es ->
  ielen = 6 + zlen (p2p_attrs es) -> n = 4 + zlen (p2p_attrs es) -> n <= 255 ->
  p2p_attr_remove_loop loops fuel (a ++ attr_ie p2p_head p2p_oui n es ++ c) (zlen a) ielen target
  = Done (a ++ attr_ie p2p_head p2p_oui (4 + zlen (p2p_attrs (without target es))) (without target es)
            ++ zeros (zlen (p2p_attrs es) - zlen (p2p_attrs (without target es))) ++ c,
          6 + zlen (p2p_attrs (without target es))).
Proof.
  induction k as [|k IH]; intros es loops fuel a n c ielen Hk Hlo Hfu Hok Hie Hn Hn255;
    (destruct loops as [|loops]; [lia|]); cbn [p2p_attr_remove_loop];
    rewrite p2p_get_attr_run, done_bind by (done || lia);
    destruct (find_by (fun e => e.1 =? target) es) as [[before hit]|] eqn:Hfind.
  1: { apply find_by_Some in Hfind as (after & -> & _). rewrite length_app in Hk. cbn in Hk. lia. }
  2: { apply find_by_Some in Hfind as (after & -> & Hh & Hb). apply Z.eqb_eq in Hh.
    apply list.Forall_app in Hok as [Hok1 [Hokh Hok2]%list.Forall_cons].
    rewrite length_app in Hk. cbn [length] in Hk.
    set (l := 3 + zlen hit.2).
    assert (Hl : zlen (enc_attr p2p_head hit) = l) by (by apply zlen_enc_attr, p2p_head_len).
    rewrite enc_attrs_app, enc_attrs_cons, !zlen_app, Hl in *.
    replace (zlen hit.2 + 3) with l by lia.
    pose proof (zlen_nonneg hit.2). pose proof (zlen_nonneg (p2p_attrs before)).
    pose proof (zlen_nonneg (p2p_attrs after)).
    rewrite (proj2 (Z.eqb_neq l 0)) by lia. cbv zeta.
    replace (u32 (ielen - (_ - _))) with (zlen (p2p_attrs after)) by (rewrite u32_id by lia; lia).
    set (x := a ++ [221; n] ++ p2p_oui ++ p2p_attrs before).
    assert (Hx : zlen a + 6 + zlen (p2p_attrs before) = zlen x).
    { subst x. rewrite !zlen_app. change (zlen [221; n]) with 2. change (zlen p2p_oui) with 4. lia. }
    replace (a ++ attr_ie p2p_head p2p_oui n (before ++ hit :: after) ++ c)
      with (x ++ enc_attr p2p_head hit ++ p2p_attrs after ++ c)
      by (subst x; unfold attr_ie; rewrite enc_attrs_app, enc_attrs_cons, <- !app_assoc; done).
    rewrite Hx. fold (zeros l).
    pose proof (move_clear x (enc_attr p2p_head hit) (p2p_attrs after) c (zlen x) l eq_refl (eq_sym Hl))
      as Hmove.
    apply res_bind_Done in Hmove as (m1 & -> & Hmove). rewrite done_bind.
    apply res_bind_Done in Hmove as (r1 & -> & Hmove). rewrite done_bind.
    apply res_bind_Done in Hmove as (m2 & -> & Hmove). rewrite done_bind.
    rewrite Hmove, done_bind. subst x.
    replace ((a ++ [221; n] ++ p2p_oui ++ p2p_attrs before) ++ p2p_attrs after ++ zeros l ++ c)
      with ((a ++ [221]) ++ [n] ++ p2p_oui ++ p2p_attrs (before ++ after) ++ zeros l ++ c)
      by (rewrite enc_attrs_app, <- !app_assoc; done).
    change ([n] ++ ?t) with (n :: t).
    rewrite (ldr_mid (a ++ [221])), done_bind by (rewrite zlen_app; done).
    change (n :: ?t) with ([n] ++ t).
    rewrite (wrr_mid (a ++ [221]) [n]), done_bind by (rewrite ?zlen_app; done).
    rewrite u8_id, u32_id by lia.
    pose proof (IH (before ++ after) loops fuel a (n - l) (zeros l ++ c) (ielen - l)) as Hrun.
    replace ((a ++ [221]) ++ [n - l] ++ p2p_oui ++ p2p_attrs (before ++ after) ++ zeros l ++ c)
      with (a ++ attr_ie p2p_head p2p_oui (n - l) (before ++ after) ++ zeros l ++ c)
      by (unfold attr_ie; rewrite <- !app_assoc; done).
    rewrite enc_attrs_app, zlen_app in Hrun. rewrite length_app in Hrun.
    rewrite Hrun; [|lia|lia|lia|by apply list.Forall_app|lia..].
    assert (Hw : without target (before ++ hit :: after) = without target (before ++ after)).
    { unfold without. rewrite !list.filter_app, filter_cons_False by auto. done. }
    rewrite Hw. pose proof (without_le target (before ++ after)) as Hle.
    rewrite enc_attrs_app, zlen_app in Hle.
    set (kl := zlen (p2p_attrs (without target (before ++ after)))) in *.
    replace (zlen (p2p_attrs before) + (l + zlen (p2p_attrs after)) - kl)
      with (zlen (p2p_attrs before) + zlen (p2p_attrs after) - kl + l) by lia.
    rewrite zeros_add by lia. rewrite <- !app_assoc. do 2 f_equal. }
  all: apply find_by_None in Hfind;
    assert (Hw : without target es = es) by
      (clear -Hfind; induction Hfind as [|e es He _ IHe]; [done|]; unfold without in *;
       rewrite filter_cons_True by (by apply Z.eqb_neq); by rewrite IHe);
    rewrite Hw, Z.sub_diag, <- Hn, <- Hie; done.
Qed.

(** ** Finding the P2P element *)

Definition is_p2p (e : elem) : bool := matches 221 (Some p2p_oui) e.
Definition p2p_fits (e : elem) : Prop := e.1 = 221 -> 4 <= zlen e.2.

Lemma get_p2p_ie_loop_run : forall els fuel a0 a c in_len cnt,
  Forall p2p_fits els -> (length els < fuel)%nat ->
  cnt = zlen a -> in_len = cnt + zlen (encode els) -> in_len < 2 ^ 31 ->
  in_len <= MAX_IE_SZ ->
  get_p2p_ie_loop fuel (a0 ++ a ++ encode els ++ c) (zlen a0) in_len None cnt
  = Done (match find_by is_p2p els with
          | Some (before, hit) => (Some (zlen a0 + cnt + zlen (encode before)), None, zlen hit.2 + 2)
          | None => (None, None, 0)
          end).
Proof.
  induction els as [|e els IH]; intros fuel a0 a c in_len cnt Hf Hfu Hc Hl Hr Hmax;
    pose proof (zlen_nonneg a).
  { change (zlen (encode [])) with 0 in Hl.
    destruct fuel; cbn [get_p2p_ie_loop]; by rewrite u32_id, (proj2 (Z.ltb_ge _ _)) by lia. }
  destruct fuel as [|fuel]; [cbn in Hfu; lia|].
  apply list.Forall_cons in Hf as [Hfe Hf].
  rewrite zlen_encode_cons in Hl. pose proof (zlen_nonneg (encode els)). pose proof (zlen_nonneg e.2).
  rewrite encode_cons, <- app_assoc, (app_assoc a0).
  cbn [get_p2p_ie_loop find_by]. rewrite (u32_id in_len), (proj2 (Z.ltb_lt cnt _)) by lia.
  rewrite (ld_id (a0 ++ a) _ _ (zlen a0 + cnt)), done_bind by (rewrite zlen_app; lia).
  rewrite (proj2 (Z.ltb_ge in_len 0)), (proj2 (Z.ltb_ge MAX_IE_SZ cnt)) by lia. cbn [orb].
  pose proof (ex_test (a0 ++ a) e (encode els ++ c) 221 (Some p2p_oui) (zlen a0 + cnt)) as Hex.
  rewrite Z.eqb_sym. change _VENDOR_SPECIFIC_IE_ with 221. rewrite Hex, done_bind
    by (rewrite ?zlen_app; lia || done). clear Hex.
  rewrite (ld_len (a0 ++ a)), done_bind by (rewrite zlen_app; lia).
  fold (is_p2p e). destruct (is_p2p e) eqn:Hm.
  - cbn. by rewrite !Z.add_0_r.
  - rewrite u32_id by lia. rewrite <- app_assoc, (app_assoc a).
    rewrite (IH fuel a0 (a ++ encode1 e) c) by
      (rewrite ?zlen_app, ?zlen_encode1; done || lia || (cbn in Hfu; lia)).
    destruct (find_by is_p2p els) as [[b h]|]; cbn [mbind option_bind]; [|done].
    rewrite zlen_encode_cons. do 4 f_equal. lia.
Qed.

Lemma get_p2p_ie_run a els c :
  Forall p2p_fits els -> zlen (encode els) <= MAX_IE_SZ ->
  rtw_get_p2p_ie (a ++ encode els ++ c) (zlen a) (zlen (encode els)) None
  = Done (match find_by is_p2p els with
          | Some (before, hit) => (Some (zlen a + zlen (encode before)), None, zlen hit.2 + 2)
          | None => (None, None, 0)
          end).
Proof.
  intros Hf Hmax. unfold rtw_get_p2p_ie, MAX_IE_SZ in *. pose proof (length_encode els).
  pose proof (get_p2p_ie_loop_run els (S (S (Z.to_nat 768))) a [] c (zlen (encode els)) 0) as Hget.
  cbn [app] in Hget. unfold MAX_IE_SZ in Hget. unfold zlen in *. rewrite Hget by (done || lia).
  by rewrite Z.add_0_r.
Qed.

Lemma encode1_p2p attrs : encode1 (221, p2p_oui ++ p2p_attrs attrs)
  = attr_ie p2p_head p2p_oui (4 + zlen (p2p_attrs attrs)) attrs.
Proof. unfold encode1, attr_ie. cbn [fst snd]. by rewrite zlen_app. Qed.

Lemma is_p2p_oui rest : is_p2p (221, p2p_oui ++ rest) = true.
Proof. reflexivity. Qed.

(** ** Properties *)

(** Removing a P2P attribute from the description of a BSS removes it from the
    first P2P element, every time it occurs there, shortens that element and the
    description accordingly, keeps every other element, and clears the bytes that
    were freed at the end. *)
Theorem remove_p2p_attr_bss fixed before attrs after c target fuel :
  zlen fixed = 12 ->
  Forall p2p_fits before -> Forall p2p_fits after -> Forall (fun e => is_p2p e = false) before ->
  Forall p2p_ok attrs -> zlen (p2p_attrs attrs) <= 251 -> (length attrs < fuel)%nat ->
  let els es := before ++ (221, p2p_oui ++ p2p_attrs es) :: after in
  zlen (encode (els attrs)) <= MAX_IE_SZ ->
  rtw_WLAN_BSSID_EX_remove_p2p_attr fuel (fixed ++ encode (els attrs) ++ c)
    (12 + zlen (encode (els attrs))) target
  = Done (fixed ++ encode (els (without target attrs))
            ++ zeros (zlen (encode (els attrs)) - zlen (encode (els (without target attrs)))) ++ c,
          12 + zlen (encode (els (without target attrs)))).
Proof.
  intros Hfix Hfb Hfa Hnb Hok H251 Hfu els Hmax. unfold MAX_IE_SZ in Hmax.
  set (kept := without target attrs).
  assert (Hels : forall es, encode (els es)
    = encode before ++ attr_ie p2p_head p2p_oui (4 + zlen (p2p_attrs es)) es ++ encode after).
  { intros es. unfold els. by rewrite encode_app, encode_cons, encode1_p2p. }
  assert (Hzel : forall es, zlen (encode (els es))
    = zlen (encode before) + (6 + zlen (p2p_attrs es)) + zlen (encode after)).
  { intros es. rewrite Hels. unfold attr_ie. rewrite !zlen_app. change (zlen [221; _]) with 2.
    change (zlen p2p_oui) with 4. lia. }
  pose proof (zlen_nonneg (encode before)). pose proof (zlen_nonneg (encode after)).
  pose proof (zlen_nonneg (p2p_attrs kept)). pose proof (without_le target attrs) as Hle. fold kept in Hle.
  unfold rtw_WLAN_BSSID_EX_remove_p2p_attr, _FIXED_IE_LENGTH_.
  replace (12 + zlen (encode (els attrs)) - 12) with (zlen (encode (els attrs))) by lia.
  pose proof (zlen_nonneg (encode (els attrs))).
  rewrite s32_id by lia.
  pose proof (Hzel attrs) as Hza.
  pose proof (get_p2p_ie_run fixed (els attrs) c) as Hget. rewrite Hfix in Hget. rewrite Hget.
  2: { apply list.Forall_app. split; [done|]. constructor; [|done]. intros _. cbn [snd].
       rewrite zlen_app. pose proof (zlen_nonneg (p2p_attrs attrs)). change (zlen p2p_oui) with 4. lia. }
  2: { unfold MAX_IE_SZ. lia. }
  change (find_by is_p2p (els attrs))
    with (find_by is_p2p (before ++ (221, p2p_oui ++ p2p_attrs attrs) :: after)).
  rewrite find_by_first, done_bind by (done || apply is_p2p_oui). cbn [snd].
  rewrite zlen_app. change (zlen p2p_oui) with 4.
  unfold rtw_p2p_attr_remove. fold kept. rewrite !Hzel, !Hels, <- !app_assoc, (app_assoc fixed).
  assert (Hfix2 : zlen (fixed ++ encode before) = 12 + zlen (encode before)) by (rewrite zlen_app; lia).
  rewrite <- Hfix2.
  rewrite (p2p_attr_remove_loop_run target (length attrs)) by (done || lia).
  rewrite done_bind. fold kept.
  set (r := zlen (p2p_attrs attrs) - zlen (p2p_attrs kept)).
  replace (4 + zlen (p2p_attrs attrs) + 2) with (6 + zlen (p2p_attrs attrs)) by lia.
  replace (zlen (encode before) + (6 + zlen (p2p_attrs attrs)) + zlen (encode after)
    - (zlen (encode before) + (6 + zlen (p2p_attrs kept)) + zlen (encode after))) with r by lia.
  destruct (Z.eqb_spec (6 + zlen (p2p_attrs kept)) (6 + zlen (p2p_attrs attrs))) as [He|He]; cbn [negb].
  { replace r with 0 by lia. rewrite <- !app_assoc. change (zeros 0) with (@nil Z). cbn [app].
    do 2 f_equal. lia. }
  cbv zeta. set (x := fixed ++ encode before ++ attr_ie p2p_head p2p_oui (4 + zlen (p2p_attrs kept)) kept).
  assert (Hx : zlen x = zlen (fixed ++ encode before) + (6 + zlen (p2p_attrs kept))).
  { subst x. unfold attr_ie. rewrite !zlen_app. change (zlen [221; _]) with 2.
    change (zlen p2p_oui) with 4. lia. }
  replace (u32 (12 + _ - (zlen (fixed ++ _) + _))) with (zlen (encode after))
    by (rewrite u32_id; lia).
  replace (u32 (6 + _ - _)) with r by (rewrite u32_id; lia).
  fold (zeros r). rewrite <- Hx.
  replace (zlen (fixed ++ encode before) + (6 + zlen (p2p_attrs attrs))) with (zlen x + r) by lia.
  replace ((fixed ++ encode before) ++ attr_ie p2p_head p2p_oui (4 + zlen (p2p_attrs kept)) kept
    ++ zeros r ++ encode after ++ c) with (x ++ zeros r ++ encode after ++ c)
    by (subst x; by rewrite <- !app_assoc).
  pose proof (move_over x (zeros r) (encode after) c (zlen x) r eq_refl
    (eq_sym (zlen_zeros r ltac:(lia)))) as Hmove.
  apply res_bind_Done in Hmove as (rm & -> & Hmove). rewrite done_bind.
  apply res_bind_Done in Hmove as (m2 & -> & Hmove). rewrite done_bind.
  rewrite Hmove, done_bind. subst x. rewrite <- !app_assoc.
  rewrite u32_id by lia. repeat f_equal; lia.
Qed.

Lemma remove_p2p_attr_bss_witness :
  rtw_WLAN_BSSID_EX_remove_p2p_attr 3
    ([0;0;0;0;0;0;0;0;0;0;0;0] ++ encode [(0, [65]); (221, p2p_oui ++ p2p_attrs [(2, [7; 7]); (4, [])]); (1, [130])]
       ++ []) (12 + 20) 2
  = Done ([0;0;0;0;0;0;0;0;0;0;0;0] ++ encode [(0, [65]); (221, p2p_oui ++ p2p_attrs [(4, [])]); (1, [130])]
       ++ zeros 5 ++ [], 12 + 15).
Proof.
  apply (remove_p2p_attr_bss [0;0;0;0;0;0;0;0;0;0;0;0] [(0, [65])] [(2, [7; 7]); (4, [])] [(1, [130])] [] 2 3).
  - reflexivity.
  - repeat constructor; intros [=].
  - repeat constructor; intros [=].
  - repeat constructor.
  - repeat constructor; vm_compute; discriminate.
  - vm_compute. discriminate.
  - vm_compute. lia.
  - vm_compute. discriminate.
Defined.

(** A copy to an output buffer is done when the buffer is long enough. *)
Lemma copy_out_run a b c d p n : p = zlen a -> n = zlen b ->
  copy_out (Some d) (a ++ b ++ c) p n
  = if zlen b <=? zlen d then Done (Some (b ++ drop (length b) d)) else OutOfBounds.
Proof.
  intros -> ->. unfold copy_out. rewrite rdr_mid, done_bind by done. unfold wrr, wr.
  rewrite Z.add_0_l. cbn [Z.to_nat take drop app Nat.add]. change (0 <=? 0) with true. cbn [andb].
  by destruct (zlen b <=? zlen d).
Qed.

Lemma get_attr_content_run hdr read_id read_len head ok oui fuel a c n ielen target es d :
  2 < hdr -> (forall e, zlen (head e) = hdr) -> (forall e, ok e -> zlen e.2 + hdr < 2 ^ 16) ->
  (forall a e c, ok e -> read_id (a ++ head e ++ c) (zlen a) = Done e.1) ->
  (forall a e c, ok e -> read_len (a ++ head e ++ c) (zlen a) = Done (zlen e.2)) ->
  zlen oui = 4 -> Forall ok es -> (length es <= fuel)%nat -> ielen = 6 + zlen (enc_attrs head es) ->
  get_attr_content hdr read_id read_len oui fuel (a ++ attr_ie head oui n es ++ c) (zlen a) ielen
    target (Some d)
  = match find_by (fun e => e.1 =? target) es with
    | Some (before, hit) =>
      if zlen hit.2 <=? zlen d
      then Done (Some (zlen a + 6 + zlen (enc_attrs head before) + hdr),
                 Some (hit.2 ++ drop (length hit.2) d), zlen hit.2)
      else OutOfBounds
    | None => Done (None, Some d, 0)
    end.
Proof.
  intros Hh Hhead Hokl Hid Hlen Ho Hok Hf Hie. unfold get_attr_content.
  rewrite (get_attr_run hdr read_id read_len head ok), done_bind by done.
  destruct (find_by _ es) as [[before hit]|] eqn:Hfind; [|done].
  apply find_by_Some in Hfind as (after & -> & _).
  apply list.Forall_app in Hok as [_ [Hokh _]%list.Forall_cons]. pose proof (Hokl hit Hokh).
  pose proof (zlen_nonneg hit.2).
  rewrite (proj2 (Z.eqb_neq _ _)) by lia.
  replace (zlen hit.2 + hdr - hdr) with (zlen hit.2) by lia. rewrite u32_id by lia.
  replace (a ++ attr_ie head oui n (before ++ hit :: after) ++ c)
    with ((a ++ [221; n] ++ oui ++ enc_attrs head before ++ head hit) ++ hit.2
            ++ enc_attrs head after ++ c)
    by (unfold attr_ie; rewrite enc_attrs_app, enc_attrs_cons; unfold enc_attr;
        by rewrite <- !app_assoc).
  rewrite copy_out_run; [|rewrite !zlen_app, Hhead, Ho; change (zlen [221; n]) with 2; lia|done].
  by destruct (zlen hit.2 <=? zlen d).
Qed.

(** The content of a WPS or P2P attribute: the first attribute with the id is found
    and its content copied to the start of the caller's buffer, exactly when the
    buffer is long enough for it; the length of the attribute is not checked against
    the buffer, and a longer attribute is copied past its end. *)
Theorem attr_content_first fuel a c n target es d :
  (length es <= fuel)%nat ->
  let outcome hdr attrs := match find_by (fun e => e.1 =? target) es with
    | Some (before, hit) =>
      if zlen hit.2 <=? zlen d
      then Done (Some (zlen a + 6 + zlen (attrs before : bytes) + hdr),
                 Some (hit.2 ++ drop (length hit.2) d), zlen hit.2)
      else OutOfBounds
    | None => Done (None, Some d, 0)
    end in
  (Forall wps_ok es ->
   rtw_get_wps_attr_content fuel (a ++ attr_ie wps_head wps_oui n es ++ c) (zlen a)
     (6 + zlen (wps_attrs es)) target (Some d) = outcome 4 wps_attrs) /\
  (Forall p2p_ok es ->
   rtw_get_p2p_attr_content fuel (a ++ attr_ie p2p_head p2p_oui n es ++ c) (zlen a)
     (6 + zlen (p2p_attrs es)) target (Some d) = outcome 3 p2p_attrs).
Proof.
  intros Hf outcome. split; intros Hok.
  - apply (get_attr_content_run 4 wps_id wps_len wps_head wps_ok); try done.
    + by intros e [_ He].
    + apply wps_id_ok.
    + apply wps_len_ok.
  - apply (get_attr_content_run 3 p2p_id p2p_len p2p_head p2p_ok); try done.
    + by intros e [_ He].
    + apply p2p_id_ok.
    + apply p2p_len_ok.
Qed.

Lemma attr_content_first_witness :
  rtw_get_p2p_attr_content 2 ([5] ++ attr_ie p2p_head p2p_oui 12 [(2, [7; 7]); (15, [1; 2; 3])] ++ []) 1
    17 15 (Some [0; 0; 0; 9]) = Done (Some 15, Some [1; 2; 3; 9], 3) /\
  rtw_get_p2p_attr_content 2 ([5] ++ attr_ie p2p_head p2p_oui 12 [(2, [7; 7]); (15, [1; 2; 3])] ++ []) 1
    17 15 (Some [0]) = OutOfBounds.
Proof.
  assert (Hok : Forall p2p_ok [(2, [7; 7]); (15, [1; 2; 3])])
    by (repeat constructor; vm_compute; discriminate).
  split.
  - exact (proj2 (attr_content_first 2 [5] [] 12 15 [(2, [7; 7]); (15, [1; 2; 3])] [0; 0; 0; 9]
      (le_n _)) Hok).
  - exact (proj2 (attr_content_first 2 [5] [] 12 15 [(2, [7; 7]); (15, [1; 2; 3])] [0] (le_n _)) Hok).
Defined.

(** A byte of a segment. *)
Lemma ld_seg a h c p k x : p = zlen a + k -> 0 <= k < zlen h -> nth (Z.to_nat k) h 0 = x ->
  ldr (a ++ h ++ c) p = Done x.
Proof.
  intros -> Hk <-. pose proof (zlen_nonneg a). pose proof (zlen_nonneg c).
  rewrite ldr_ok by (rewrite !zlen_app; lia).
  by rewrite (ld0_app_r a _ _ k), ld0_app_l by (done || lia).
Qed.

Lemma get_attr_hangs hdr read_id read_len oui a n h c ielen target id :
  zlen oui = 4 -> id <> target -> 6 < ielen ->
  (let m := a ++ ([221; n] ++ oui ++ h) ++ c in
   read_id m (zlen a + 6) = Done id /\ read_len m (zlen a + 6) = Done (2 ^ 16 - hdr)) ->
  forall fuel, get_attr hdr read_id read_len oui fuel (a ++ ([221; n] ++ oui ++ h) ++ c) (zlen a)
    ielen target None = NoFuel.
Proof.
  intros Ho Hne Hl [Hid Hlen] fuel. unfold get_attr.
  rewrite (ld_seg a _ c (zlen a) 0 221), done_bind
    by (try done; try lia; rewrite !zlen_app; change (zlen [221; n]) with 2; pose proof (zlen_nonneg h); lia).
  change (221 =? _VENDOR_SPECIFIC_IE_) with true. cbn [negb].
  assert (Hm : _rtw_memcmp (a ++ ([221; n] ++ oui ++ h) ++ c) (zlen a + 2) oui = Done true).
  { unfold _rtw_memcmp. rewrite <- !app_assoc, app_assoc, rdr_mid, done_bind by (rewrite ?zlen_app; done).
    by rewrite bool_decide_eq_true_2. }
  rewrite Hm, done_bind. cbn [negb].
  apply (attr_loop_hangs hdr read_id read_len _ (zlen a) ielen target (zlen a + 6) id); done || lia.
Qed.

(** A search never ends on a frame with a WPS attribute of declared length 0xfffc,
    or a P2P attribute of declared length 0xfffd, other than the one searched for:
    the length with the header is 0 in 16 bits, and the loop stays on the attribute
    for any number of iterations. *)
Theorem attr_search_hangs a id c target n ielen :
  is_u8 id -> 6 < ielen ->
  (id <> target ->
   forall fuel, rtw_get_wps_attr fuel (a ++ [221; n; 0x00; 0x50; 0xF2; 0x04; 0; id; 0xff; 0xfc] ++ c)
     (zlen a) ielen target None = NoFuel) /\
  (id <> target ->
   forall fuel, rtw_get_p2p_attr fuel (a ++ [221; n; 0x50; 0x6F; 0x9A; 0x09; id; 0xfd; 0xff] ++ c)
     (zlen a) ielen target None = NoFuel).
Proof.
  intros Hid Hl. split; intros Hne fuel.
  - apply (get_attr_hangs 4 wps_id wps_len wps_oui a n [0; id; 0xff; 0xfc] c ielen target id);
      [done|done|lia|]. split.
    + unfold wps_id. rewrite (get_be16_ok _ _ id 0); [f_equal; lia|by apply (ld_seg _ _ _ _ 6)| |done|lia].
      by apply (ld_seg _ _ _ _ 7); try lia.
    + unfold wps_len. rewrite (get_be16_ok _ _ 0xfc 0xff); [done| | |lia..].
      * by apply (ld_seg _ _ _ _ 8); try lia.
      * by apply (ld_seg _ _ _ _ 9); try lia.
  - apply (get_attr_hangs 3 p2p_id p2p_len p2p_oui a n [id; 0xfd; 0xff] c ielen target id);
      [done|done|lia|]. split.
    + by apply (ld_seg _ _ _ _ 6).
    + unfold p2p_len. rewrite (get_le16_ok _ _ 0xfd 0xff); [done| | |lia..].
      * by apply (ld_seg _ _ _ _ 7); try lia.
      * by apply (ld_seg _ _ _ _ 8); try lia.
Qed.

Lemma attr_search_hangs_witness :
  (forall fuel, rtw_get_wps_attr fuel ([] ++ [221; 8; 0x00; 0x50; 0xF2; 0x04; 0; 1; 0xff; 0xfc] ++ []) 0 10 0x44 None
     = NoFuel) /\
  (forall fuel, rtw_get_p2p_attr fuel ([] ++ [221; 7; 0x50; 0x6F; 0x9A; 0x09; 1; 0xfd; 0xff] ++ []) 0 9 0x44 None
     = NoFuel).
Proof.
  split.
  - apply (proj1 (attr_search_hangs [] 1 [] 0x44 8 10 ltac:(lia) ltac:(lia))). discriminate.
  - apply (proj2 (attr_search_hangs [] 1 [] 0x44 7 9 ltac:(lia) ltac:(lia))). discriminate.
Defined.

(** Every other search ends: when no length field makes the total length wrap to 0,
    [ielen] iterations are enough, whatever else the frame holds. *)
Lemma wps_attr_ends m ie ielen target fuel :
  (forall p n, wps_len m p = Done n -> 0 <= n < 2 ^ 16 /\ n <> 0xfffc) ->
  (Z.to_nat ielen <= fuel)%nat ->
  rtw_get_wps_attr fuel m ie ielen target None <> NoFuel.
Proof.
  intros Hlen Hf. unfold rtw_get_wps_attr, get_attr.
  assert (Hbe : forall p, RTW_GET_BE16 m p <> NoFuel).
  { intros p. unfold RTW_GET_BE16, ldr, lift. by destruct (ld m p), (ld m (p + 1)). }
  assert (Hl : ldr m ie <> NoFuel) by (unfold ldr, lift; by destruct (ld m ie)).
  destruct (ldr m ie); [|done|done]. rewrite done_bind. destruct (negb _); [done|].
  unfold _rtw_memcmp, rdr. destruct (rd m _ _); [|done]. cbn [lift]. rewrite !done_bind.
  destruct (negb _); [done|].
  apply attr_loop_ends; try done || lia.
  all: intros p; apply Hbe.
Qed.

(** Writing a P2P attribute behind the attributes of an element and searching the
    longer element for it returns its content, when no attribute before it has the
    same id. *)
Theorem set_get_p2p_attr a es old c n id d buf fuel :
  Forall p2p_ok es -> p2p_ok (id, d) -> Forall (fun e => e.1 <> id) es ->
  zlen old = zlen d + 3 -> zlen d <= zlen buf -> (length es < fuel)%nat ->
  exists m, rtw_set_p2p_attr_content (a ++ attr_ie p2p_head p2p_oui n es ++ old ++ c)
      (zlen a + 6 + zlen (p2p_attrs es)) id (zlen d) (Some d) = Done (m, zlen d + 3) /\
    rtw_get_p2p_attr_content fuel m (zlen a) (6 + zlen (p2p_attrs es) + (zlen d + 3)) id (Some buf)
    = Done (Some (zlen a + 6 + zlen (p2p_attrs es) + 3), Some (d ++ drop (length d) buf), zlen d).
Proof.
  intros Hes [Hid Hd] Hne Ho Hb Hf. cbn [fst snd] in Hid, Hd. pose proof (zlen_nonneg d).
  set (x := a ++ [221; n] ++ p2p_oui ++ p2p_attrs es).
  assert (Hx : zlen a + 6 + zlen (p2p_attrs es) = zlen x).
  { subst x. rewrite !zlen_app. change (zlen [221; n]) with 2. change (zlen p2p_oui) with 4. lia. }
  exists (x ++ enc_attr p2p_head (id, d) ++ c). split.
  - rewrite Hx. replace (a ++ attr_ie p2p_head p2p_oui n es ++ old ++ c) with (x ++ old ++ c)
      by (subst x; unfold attr_ie; by rewrite <- !app_assoc).
    clear Hx. clearbody x. unfold rtw_set_p2p_attr_content. rewrite u8_id, u16_id by lia.
    destruct old as [|o1 [|o2 [|o3 old]]]; rewrite ?zlen_cons, ?zlen_nil in Ho; try lia.
    change ((o1 :: o2 :: o3 :: old) ++ c) with ([o1] ++ [o2; o3] ++ old ++ c).
    rewrite wrr_mid, done_bind by done. rewrite (app_assoc x).
    rewrite wrr_mid, done_bind by (rewrite ?zlen_app; done).
    rewrite rdr_all, done_bind by done. rewrite (app_assoc (x ++ [id])).
    rewrite wrr_mid, done_bind by (rewrite ?zlen_app; unfold zlen in *; cbn [length]; lia || done).
    do 2 f_equal. unfold enc_attr, p2p_head, le16. cbn [fst snd]. rewrite <- !app_assoc. cbn [app].
    change 0xff with (Z.ones 8). rewrite Z.land_ones, Z.shiftr_div_pow2 by lia. done.
  - replace (x ++ enc_attr p2p_head (id, d) ++ c)
      with (a ++ attr_ie p2p_head p2p_oui n (es ++ [(id, d)]) ++ c)
      by (subst x; unfold attr_ie; rewrite enc_attrs_app, enc_attrs_cons, app_nil_r, <- !app_assoc; done).
    assert (Hok : Forall p2p_ok (es ++ [(id, d)])) by (apply list.Forall_app; split; [done|constructor; [by split|constructor]]).
    unfold rtw_get_p2p_attr_content.
    rewrite (get_attr_content_run 3 p2p_id p2p_len p2p_head p2p_ok); try done.
    + rewrite find_by_first; [|clear -Hne; induction Hne; constructor; [by apply Z.eqb_neq|done]|cbn; lia].
      cbn [snd]. by rewrite (proj2 (Z.leb_le _ _)).
    + by intros e [_ He].
    + apply p2p_id_ok.
    + apply p2p_len_ok.
    + rewrite length_app. cbn. lia.
    + rewrite enc_attrs_app, enc_attrs_cons, app_nil_r, zlen_app.
      change (zlen (enc_attr p2p_head (id, d))) with (zlen (p2p_head (id, d) ++ d)).
      rewrite zlen_app. change (zlen (p2p_head (id, d))) with 3. lia.
Qed.

Lemma set_get_p2p_attr_witness : exists m,
  rtw_set_p2p_attr_content ([5] ++ attr_ie p2p_head p2p_oui 9 [(2, [7; 7])] ++ [0; 0; 0; 0; 0] ++ [])
    (1 + 6 + 5) 6 2 (Some [8; 9]) = Done (m, 2 + 3) /\
  rtw_get_p2p_attr_content 2 m 1 (6 + 5 + (2 + 3)) 6 (Some [1; 1; 1])
  = Done (Some (1 + 6 + 5 + 3), Some [8; 9; 1], 2).
Proof.
  apply (set_get_p2p_attr [5] [(2, [7; 7])] [0; 0; 0; 0; 0] [] 9 6 [8; 9] [1; 1; 1] 2).
  - repeat constructor; vm_compute; discriminate.
  - split; [cbn; lia|vm_compute; reflexivity].
  - repeat constructor. discriminate.
  - reflexivity.
  - vm_compute. discriminate.
  - cbn. lia.
Defined.

(** ** Merging: the length is one byte *)

(** The length that rtw_p2p_merge_ies returns is taken modulo 256, while the buffer
    is allocated for, and filled with, the full contents. *)
Lemma merge_len_wraps :
  let e := (221, p2p_oui ++ replicate 200 7) : elem in
  let m := encode [e; e] in
  rtw_get_p2p_merged_ies_len m 0 (zlen m) = Done 404 /\
  exists out, rtw_p2p_merge_ies m 0 (zlen m) (Some (replicate 406 0)) = Done (Some out, 148).
Proof. split; [by vm_compute|]. eexists. vm_compute. reflexivity. Qed.

(** A P2P element shorter than its OUI makes the merge copy [2^32 - k] bytes. *)
Lemma merge_short_element out :
  6 <= zlen out -> zlen out < 2 ^ 31 ->
  rtw_p2p_merge_ies [221; 0; 0x50; 0x6f; 0x9a; 0x09] 0 2 (Some out) = OutOfBounds.
Proof.
  intros H1 H2. unfold rtw_p2p_merge_ies, wrr.
  destruct (split_at out 6) as (a & b & -> & Ha & _); [pose proof (zlen_nonneg out); lia|].
  rewrite wr_prefix by (unfold zlen in Ha; cbn [length]; lia). reflexivity.
Qed.
