(* ===== verification/BeaconIe.v ===== *)
(** * The elements of the beacon of an access point (src/core/rtw_ap.c)

    The beacon is kept as the fixed fields and elements of the BSS description
    ([pie], of [IELength] bytes used).  Modelled: inserting, replacing and removing an
    element, and [update_BCNTIM], which writes the traffic indication map from
    [tim_bitmap].  [alloc_ok] is the outcome of the allocation of the backup buffer. *)

From S2P Require Import Prelude Ie.

(** The saved remainder: [pbackup_remainder_ie], NULL when there is nothing to save
    or no memory. *)
Definition backup (alloc_ok : bool) (pie : bytes) (premainder_ie remainder_ielen : Z)
    : res (option bytes) :=
  if (0 <? remainder_ielen) && alloc_ok
  then r ← rdr pie premainder_ie remainder_ielen; Done (Some r)
  else Done None.

Definition restore (pie : bytes) (dst_ie : Z) (pbackup_remainder_ie : option bytes) : res bytes :=
  match pbackup_remainder_ie with
  | Some r => wrr pie dst_ie r
  | None => Done pie
  end.

(** ** update_BCNTIM *)

Definition low_bits (tim_bitmap : Z) : bool := negb (tim_bitmap .& 0x00fe =? 0).
Definition high_bits (tim_bitmap : Z) : bool := negb (tim_bitmap .& 0xff00 =? 0).

(** The bytes written from [*dst_ie++=_TIM_IE_] on. *)
Definition tim_element (tim_bitmap : Z) : bytes :=
  let tim_ielen := if high_bits tim_bitmap && low_bits tim_bitmap then 5 else 4 in
  [_TIM_IE_; tim_ielen; 0; 1; if negb (tim_bitmap .& 1 =? 0) then 1 else 0] ++
  (if tim_ielen =? 4 then
     [if low_bits tim_bitmap then u8 tim_bitmap
      else if high_bits tim_bitmap then u8 (tim_bitmap .>> 8)
      else u8 tim_bitmap]
   else [u8 tim_bitmap; u8 (tim_bitmap .>> 8)]).

(** Where the element goes when the beacon has none: behind the SSID, the rates and
    the DS parameter element. *)
Definition tim_offset (pie : bytes) (IELength : Z) : res Z :=
  let limit := s32 (IELength - _BEACON_IE_OFFSET_) in
  '(p, tmp_len) ← rtw_get_ie pie _BEACON_IE_OFFSET_ _SSID_IE_ 0 limit;
  let offset := match p with Some _ => _FIXED_IE_LENGTH_ + (tmp_len + 2) | None => _FIXED_IE_LENGTH_ end in
  '(p, tmp_len) ← rtw_get_ie pie _BEACON_IE_OFFSET_ _SUPPORTEDRATES_IE_ tmp_len limit;
  let offset := match p with Some _ => offset + (tmp_len + 2) | None => offset end in
  Done (offset + 3).

(** [pie] and [IELength] of the BSS description. *)
Definition update_BCNTIM (alloc_ok : bool) (pie : bytes) (IELength tim_bitmap : Z) : res (bytes * Z) :=
  '(p, tim_ielen) ← rtw_get_ie pie _FIXED_IE_LENGTH_ _TIM_IE_ 0 (s32 (IELength - _FIXED_IE_LENGTH_));
  let present := match p with Some _ => 0 <? tim_ielen | None => false end in
  '(dst_ie, premainder_ie, remainder_ielen) ←
    (if present then
       let p := default 0 p in
       Done (p, p + (tim_ielen + 2), u32 (IELength - p - (tim_ielen + 2)))
     else offset ← tim_offset pie IELength; Done (offset, offset, u32 (IELength - offset)));
  b ← backup alloc_ok pie premainder_ie remainder_ielen;
  pie ← wrr pie dst_ie (tim_element tim_bitmap);
  let dst_ie := dst_ie + zlen (tim_element tim_bitmap) in
  pie ← restore pie dst_ie b;
  Done (pie, u32 (dst_ie + remainder_ielen)).

(** ** rtw_add_bcn_ie and rtw_remove_bcn_ie *)

(** The loop: [p], [ielen] and [bmatch]. *)
Fixpoint add_bcn_loop (fuel : nat) (pie : bytes) (IELength index i : Z) (p : option Z) (ielen : Z)
    : res (option Z * Z * bool) :=
  if i <? IELength then
    match fuel with
    | O => NoFuel
    | S fuel =>
      id ← ldr pie i;
      if index <? id then Done (p, ielen, false)
      else if id =? index then len ← ldr pie (i + 1); Done (Some i, len, true)
      else len ← ldr pie (i + 1); add_bcn_loop fuel pie IELength index (i + (len + 2)) (Some i) len
    end
  else Done (p, ielen, false).

Definition rtw_add_bcn_ie (alloc_ok : bool) (pie : bytes) (IELength index : Z) (data : bytes) (len : Z)
    : res (bytes * Z) :=
  '(p, ielen, bmatch) ← add_bcn_loop (Z.to_nat IELength) pie IELength index 12 None 0;
  match p with
  | Some p =>
    if 0 <? ielen then
      let ielen := ielen + 2 in
      let remainder_ielen := u32 (IELength - p - ielen) in
      let dst_ie := if (bmatch : bool) then p else p + ielen in
      b ← backup alloc_ok pie (p + ielen) remainder_ielen;
      pie ← wrr pie dst_ie [index; len];
      d ← rdr data 0 len;
      pie ← wrr pie (dst_ie + 2) d;
      pie ← restore pie (dst_ie + 2 + len) b;
      Done (pie, u32 (dst_ie + 2 + len + remainder_ielen))
    else Done (pie, IELength)
  | None => Done (pie, IELength)
  end.

Definition rtw_remove_bcn_ie (alloc_ok : bool) (pie : bytes) (IELength index : Z) : res (bytes * Z) :=
  '(p, ielen) ← rtw_get_ie pie _FIXED_IE_LENGTH_ index 0 (s32 (IELength - _FIXED_IE_LENGTH_));
  match p with
  | Some p =>
    if 0 <? ielen then
      let remainder_ielen := u32 (IELength - p - (ielen + 2)) in
      b ← backup alloc_ok pie (p + (ielen + 2)) remainder_ielen;
      pie ← restore pie p b;
      Done (pie, u32 (p + remainder_ielen))
    else Done (pie, IELength)
  | None => Done (pie, IELength)
  end.

(** ** The traffic indication map of the standard

    Octet 2 of the body is the bitmap control: the group bit and, above it, half the
    index of the first octet of the bitmap that is sent. *)

Definition tim_group (body : bytes) : bool := Z.testbit (ld0 body 2) 0.
Definition tim_traffic (body : bytes) (aid : Z) : bool :=
  let i := aid / 8 - 2 * (ld0 body 2 .>> 1) in
  (0 <=? i) && (i <? zlen body - 3) && Z.testbit (ld0 body (3 + i)) (aid mod 8).

(** ** Lemmas *)

Lemma land_zero_testbit x m i : 0 <= i -> Z.testbit m i = true -> x .& m = 0 -> Z.testbit x i = false.
Proof.
  intros Hi Hm H0. assert (H : Z.testbit (x .& m) i = false) by (rewrite H0; apply Z.bits_0).
  rewrite Z.land_spec, Hm, andb_true_r in H. done.
Qed.

Lemma u8_testbit x i : 0 <= i < 8 -> Z.testbit (u8 x) i = Z.testbit x i.
Proof. intros Hi. unfold u8. by rewrite Z.mod_pow2_bits_low by lia. Qed.

Lemma high_testbit x i : 8 <= i < 16 -> high_bits x = false -> Z.testbit x i = false.
Proof.
  intros Hi Hh. unfold high_bits in Hh. apply negb_false_iff, Z.eqb_eq in Hh.
  eapply land_zero_testbit; [lia| |exact Hh].
  assert (i = 8 \/ i = 9 \/ i = 10 \/ i = 11 \/ i = 12 \/ i = 13 \/ i = 14 \/ i = 15) by lia.
  by repeat match goal with H : _ \/ _ |- _ => destruct H as [->|H] | H : i = _ |- _ => subst end.
Qed.
Lemma low_testbit x i : 1 <= i < 8 -> low_bits x = false -> Z.testbit x i = false.
Proof.
  intros Hi Hh. unfold low_bits in Hh. apply negb_false_iff, Z.eqb_eq in Hh.
  eapply land_zero_testbit; [lia| |exact Hh].
  assert (i = 1 \/ i = 2 \/ i = 3 \/ i = 4 \/ i = 5 \/ i = 6 \/ i = 7) by lia.
  by repeat match goal with H : _ \/ _ |- _ => destruct H as [->|H] | H : i = _ |- _ => subst end.
Qed.

(** The element as an id and a body. *)
Definition tim_elem (tim_bitmap : Z) : elem := (_TIM_IE_, drop 2 (tim_element tim_bitmap)).
Lemma tim_encode b : encode1 (tim_elem b) = tim_element b.
Proof. unfold tim_elem, tim_element, encode1. by destruct (high_bits b && low_bits b). Qed.

Lemma tim_elem_ok b : elem_ok (tim_elem b).
Proof.
  unfold elem_ok, tim_elem, tim_element, _TIM_IE_. cbn [fst snd]. split; [lia|].
  assert (Hc : forall c : bool, is_u8 (if c then 1 else 0)) by (intros []; lia).
  destruct (high_bits b && low_bits b); cbn [Z.eqb Pos.eqb app drop]; split;
    try (vm_compute; discriminate);
    repeat first [ apply bytes_ok_nil
                 | apply bytes_ok_cons; [first [lia | apply Hc | apply u8_range
                                               | repeat case_match; apply u8_range]|] ].
Qed.

(** With offset 0 the first octet of the bitmap is for the ids 0 to 7. *)
Lemma tim_traffic_0 (c : bool) pvb aid : 0 <= aid ->
  tim_traffic (0 :: 1 :: (if c then 1 else 0) :: pvb) aid
  = (aid / 8 <? zlen pvb) && Z.testbit (ld0 pvb (aid / 8)) (aid mod 8).
Proof.
  intros Ha. unfold tim_traffic. assert (0 <= aid / 8) by (apply Z.div_pos; lia).
  replace (ld0 (0 :: 1 :: (if c then 1 else 0) :: pvb) 2) with (if c then 1 else 0) by done.
  replace (aid / 8 - 2 * ((if c then 1 else 0) .>> 1)) with (aid / 8) by (destruct c; [change (1 .>> 1) with 0|change (0 .>> 1) with 0]; lia).
  rewrite (proj2 (Z.leb_le 0 _)) by done. cbn [andb]. f_equal.
  - rewrite !zlen_cons. f_equal. lia.
  - f_equal. change (0 :: 1 :: ?x :: pvb) with ([0; 1; x] ++ pvb).
    by rewrite (ld0_app_r [0; 1; _] pvb _ (aid / 8)).
Qed.

(** The traffic of the association ids, on every branch. *)
Lemma tim_element_traffic b aid : 1 <= aid <= 15 ->
  tim_traffic (tim_elem b).2 aid
  = if high_bits b && negb (low_bits b)
    then (aid <? 8) && Z.testbit b (aid + 8)
    else Z.testbit b aid.
Proof.
  intros Ha. unfold tim_elem, tim_element. cbn [snd].
  assert (Hdiv : aid / 8 = if aid <? 8 then 0 else 1).
  { destruct (Z.ltb_spec aid 8); [apply Z.div_small; lia|].
    symmetry. apply Z.div_unique with (aid - 8); lia. }
  assert (Hmod : aid mod 8 = if aid <? 8 then aid else aid - 8).
  { rewrite Z.mod_eq, Hdiv by lia. destruct (aid <? 8); lia. }
  destruct (high_bits b) eqn:Hh, (low_bits b) eqn:Hl; cbn [andb negb]; cbv zeta iota;
    cbn [Z.eqb Pos.eqb app drop]; rewrite tim_traffic_0, Hdiv, Hmod by lia;
    destruct (Z.ltb_spec aid 8); unfold zlen; cbn [length andb]; ld0_eval; cbn [nth];
    try change (Z.of_nat 1) with 1; try change (Z.of_nat 2) with 2; cbn [Z.ltb Z.compare Pos.compare Pos.compare_cont andb];
    rewrite ?u8_testbit, ?Z.shiftr_spec by lia; try done.
  - by replace (aid - 8 + 8) with aid by lia.
  - symmetry. by apply high_testbit; [lia|].
  - symmetry. by apply high_testbit; [lia|].
Qed.

(** Replacing [old], before the remainder [rem], by [new]. *)
Lemma splice_run x old rem c new : zlen new <= zlen old + zlen c ->
  zlen x + zlen old + zlen rem < 2 ^ 32 ->
  exists tail,
    (b ← backup true (x ++ old ++ rem ++ c) (zlen x + zlen old) (zlen rem);
     pie ← wrr (x ++ old ++ rem ++ c) (zlen x) new;
     restore pie (zlen x + zlen new) b) = Done (x ++ new ++ rem ++ tail) /\
    zlen tail = zlen old + zlen c - zlen new.
Proof.
  intros Hn Hs. pose proof (zlen_nonneg rem). pose proof (zlen_nonneg new).
  pose proof (zlen_nonneg old). pose proof (zlen_nonneg c).
  destruct (split_at (old ++ rem ++ c) (zlen new)) as (o & m1 & Ho & Hol & Hm1).
  { rewrite !zlen_app. lia. }
  destruct (split_at m1 (zlen rem)) as (o2 & tail & -> & Ho2 & Htail).
  { rewrite Hm1, !zlen_app. lia. }
  exists tail. rewrite !zlen_app in Hm1. split; [|lia].
  unfold backup. rewrite andb_true_r.
  assert (Hrest : forall b, (if 0 <? zlen rem then b = Some rem else b = None) ->
    restore (x ++ new ++ o2 ++ tail) (zlen x + zlen new) b = Done (x ++ new ++ rem ++ tail)).
  { intros b Hb. destruct (Z.ltb_spec 0 (zlen rem)); rewrite Hb; cbn [restore].
    - rewrite app_assoc, wrr_mid by (rewrite ?zlen_app; unfold zlen in *; lia). by rewrite <- app_assoc.
    - destruct rem, o2; try done; unfold zlen in *; cbn [length] in *; lia. }
  assert (Hw : wrr (x ++ old ++ rem ++ c) (zlen x) new = Done (x ++ new ++ o2 ++ tail)).
  { rewrite Ho. apply wrr_mid; [done|unfold zlen in *; lia]. }
  destruct (0 <? zlen rem) eqn:Hp.
  - rewrite (app_assoc x), rdr_mid, !done_bind by (rewrite ?zlen_app; done).
    rewrite <- app_assoc, Hw, done_bind. by apply Hrest.
  - rewrite done_bind, Hw, done_bind. by apply Hrest.
Qed.

(** The first element with an id in a beacon. *)
Lemma beacon_get_ie fixed els c index len : zlen fixed = 12 -> els <> [] ->
  rtw_get_ie (fixed ++ encode els ++ c) 12 index len (zlen (encode els))
  = Done (match find_ie index els with
          | Some (before, hit) => (Some (12 + zlen (encode before)), zlen hit.2)
          | None => (None, 0)
          end).
Proof. intros Hf Hn. rewrite <- Hf. by apply get_ie_run. Qed.

(** The beacon after a change: [els'] in place of [els], the used length of [els'],
    the rest of the array unknown but of the same total size. *)
Definition beacon_becomes (fixed : bytes) (els els' : list elem) (c : bytes) (r : res (bytes * Z)) : Prop :=
  exists tail, r = Done (fixed ++ encode els' ++ tail, 12 + zlen (encode els')) /\
    zlen (encode els') + zlen tail = zlen (encode els) + zlen c.

Section beacon.
Variables (fixed c : bytes) (els : list elem).
Hypothesis Hfixed : zlen fixed = 12.
Hypothesis Hsize : 12 + zlen (encode els) < 2 ^ 31.

(** Splicing one element for another, or for nothing. *)
Lemma splice_elem before (old new : list elem) after k :
  els = before ++ old ++ after -> 12 + zlen (encode (before ++ new ++ after)) < 2 ^ 32 ->
  zlen (encode new) <= zlen (encode old) + zlen c ->
  k = 12 + zlen (encode before) ->
  exists tail,
    (b ← backup true (fixed ++ encode els ++ c) (k + zlen (encode old)) (zlen (encode after));
     pie ← wrr (fixed ++ encode els ++ c) k (encode new);
     restore pie (k + zlen (encode new)) b)
    = Done (fixed ++ encode (before ++ new ++ after) ++ tail) /\
    zlen (encode (before ++ new ++ after)) + zlen tail = zlen (encode els) + zlen c.
Proof.
  intros -> Hnew Hroom ->. rewrite !encode_app, !zlen_app in *.
  destruct (splice_run (fixed ++ encode before) (encode old) (encode after) c (encode new))
    as (tail & Hrun & Ht); [done|rewrite zlen_app; lia|].
  exists tail. rewrite zlen_app, Hfixed in Hrun. split; [|lia].
  rewrite <- !app_assoc in *. done.
Qed.

(** An element [old] of the beacon is replaced by [new]. *)
Lemma update_present before b after tim_bitmap :
  els = before ++ (_TIM_IE_, b) :: after -> Forall (fun e => e.1 <> _TIM_IE_) before -> b <> [] ->
  5 <= zlen b + zlen c ->
  beacon_becomes fixed els (before ++ tim_elem tim_bitmap :: after) c
    (update_BCNTIM true (fixed ++ encode els ++ c) (12 + zlen (encode els)) tim_bitmap).
Proof.
  intros Hels Hb Hne Hroom. pose proof (zlen_nonneg (encode els)).
  unfold update_BCNTIM, _FIXED_IE_LENGTH_.
  replace (12 + zlen (encode els) - 12) with (zlen (encode els)) by lia. rewrite s32_id by lia.
  rewrite beacon_get_ie by (done || by rewrite Hels; destruct before).
  replace (find_ie _TIM_IE_ els) with (Some (before, ((_TIM_IE_, b) : elem)))
    by (rewrite Hels; symmetry; by apply find_ie_first).
  rewrite done_bind. cbn [snd]. change (default 0 (Some ?x)) with x.
  assert (Hb0 : 0 < zlen b) by (destruct b; [done|rewrite zlen_cons; pose proof (zlen_nonneg b); lia]).
  rewrite (proj2 (Z.ltb_lt 0 (zlen b))) by done. rewrite done_bind.
  pose proof (zlen_nonneg (encode before)). pose proof (zlen_nonneg (encode after)).
  assert (Hz : zlen (encode els) = zlen (encode before) + (zlen b + 2) + zlen (encode after)).
  { rewrite Hels, encode_app, encode_cons, !zlen_app, zlen_encode1. cbn [snd]. lia. }
  replace (u32 (12 + zlen (encode els) - _ - _)) with (zlen (encode after)) by (rewrite u32_id; lia).
  pose proof (zlen_nonneg (tim_element tim_bitmap)).
  assert (Htz : zlen (tim_element tim_bitmap) <= 7)
    by (unfold tim_element; destruct (high_bits tim_bitmap && low_bits tim_bitmap); vm_compute; discriminate).
  assert (Hnew : zlen (encode (before ++ [tim_elem tim_bitmap] ++ after))
    = zlen (encode before) + zlen (tim_element tim_bitmap) + zlen (encode after)).
  { rewrite !encode_app, !zlen_app. cbn [encode]. rewrite encode_cons, app_nil_r, tim_encode. lia. }
  destruct (splice_elem before [(_TIM_IE_, b)] [tim_elem tim_bitmap] after (12 + zlen (encode before)))
    as (tail & Hrun & Ht); try done.
  { rewrite Hnew. lia. }
  { rewrite !encode_cons, !app_nil_r, tim_encode, zlen_encode1. cbn [snd]. lia. }
  rewrite !encode_cons, !app_nil_r, tim_encode, zlen_encode1 in Hrun. cbn [snd] in Hrun.
  apply res_bind_Done in Hrun as (bk & -> & Hrun). rewrite done_bind.
  apply res_bind_Done in Hrun as (pie & -> & Hrun). rewrite done_bind. cbv zeta.
  rewrite Hrun, done_bind. exists tail. split; [|exact Ht].
  do 2 f_equal. cbn [app] in Hnew. rewrite Hnew, u32_id by lia. lia.
Qed.

(** The place of a new map. *)
Lemma tim_offset_run ssid rates ds after :
  els = [(0, ssid); (1, rates); (3, ds)] ++ after ->
  tim_offset (fixed ++ encode els ++ c) (12 + zlen (encode els))
  = Done (12 + (zlen ssid + 2) + (zlen rates + 2) + 3).
Proof.
  intros Hels. pose proof (zlen_nonneg (encode els)).
  unfold tim_offset, _BEACON_IE_OFFSET_, _FIXED_IE_LENGTH_. cbv zeta.
  replace (12 + zlen (encode els) - 12) with (zlen (encode els)) by lia. rewrite s32_id by lia.
  rewrite !beacon_get_ie, !done_bind by (done || by rewrite Hels).
  rewrite Hels. cbn [app find_ie find_by fst]. cbn -[zlen encode]. rewrite beacon_get_ie by done.
  reflexivity.
Qed.

Lemma update_absent ssid rates d after tim_bitmap :
  els = [(0, ssid); (1, rates); (3, [d])] ++ after -> Forall (fun e => e.1 <> _TIM_IE_) after ->
  7 <= zlen c ->
  beacon_becomes fixed els ([(0, ssid); (1, rates); (3, [d])] ++ tim_elem tim_bitmap :: after) c
    (update_BCNTIM true (fixed ++ encode els ++ c) (12 + zlen (encode els)) tim_bitmap).
Proof.
  intros Hels Hb Hroom. pose proof (zlen_nonneg (encode els)).
  set (before := [(0, ssid); (1, rates); (3, [d])]) in *.
  assert (Hbz : zlen (encode before) = (zlen ssid + 2) + (zlen rates + 2) + 3).
  { subst before. rewrite !zlen_encode_cons. cbn [snd]. change (zlen (encode [])) with 0.
    change (zlen [d]) with 1. lia. }
  unfold update_BCNTIM, _FIXED_IE_LENGTH_.
  replace (12 + zlen (encode els) - 12) with (zlen (encode els)) by lia. rewrite s32_id by lia.
  rewrite beacon_get_ie by (done || by rewrite Hels).
  replace (find_ie _TIM_IE_ els) with (@None (list elem * elem)).
  2: { symmetry. apply find_ie_none. rewrite Hels. subst before. by repeat constructor. }
  rewrite done_bind, (tim_offset_run ssid rates [d] after Hels), done_bind, done_bind.
  pose proof (zlen_nonneg ssid). pose proof (zlen_nonneg rates). pose proof (zlen_nonneg (encode after)).
  assert (Hz : zlen (encode els) = zlen (encode before) + zlen (encode after)).
  { by rewrite Hels, encode_app, zlen_app. }
  replace (12 + (zlen ssid + 2) + (zlen rates + 2) + 3) with (12 + zlen (encode before)) by lia.
  replace (u32 (12 + zlen (encode els) - _)) with (zlen (encode after)) by (rewrite u32_id; lia).
  pose proof (zlen_nonneg (tim_element tim_bitmap)).
  assert (Htz : zlen (tim_element tim_bitmap) <= 7)
    by (unfold tim_element; destruct (high_bits tim_bitmap && low_bits tim_bitmap); vm_compute; discriminate).
  assert (Hnew : zlen (encode (before ++ [tim_elem tim_bitmap] ++ after))
    = zlen (encode before) + zlen (tim_element tim_bitmap) + zlen (encode after)).
  { rewrite !encode_app, !zlen_app, encode_cons, app_nil_r, tim_encode. lia. }
  destruct (splice_elem before [] [tim_elem tim_bitmap] after (12 + zlen (encode before)))
    as (tail & Hrun & Ht); try done.
  { rewrite Hnew. lia. }
  { rewrite encode_cons, app_nil_r, tim_encode. change (zlen (encode [])) with 0. lia. }
  rewrite encode_cons, app_nil_r, tim_encode in Hrun. change (zlen (encode [])) with 0 in Hrun.
  rewrite Z.add_0_r in Hrun.
  apply res_bind_Done in Hrun as (bk & -> & Hrun). rewrite done_bind.
  apply res_bind_Done in Hrun as (pie & -> & Hrun). rewrite done_bind. cbv zeta.
  rewrite Hrun, done_bind. exists tail. split; [|exact Ht].
  do 2 f_equal. cbn [app] in Hnew. unfold before in Hnew at 1. cbn [app] in Hnew.
  subst before. cbn [app] in *. rewrite Hnew, u32_id by lia. lia.
Qed.

(** Removing an element. *)
Lemma remove_run before hit after :
  els = before ++ hit :: after -> Forall (fun e => e.1 <> hit.1) before -> hit.2 <> [] ->
  beacon_becomes fixed els (before ++ after) c
    (rtw_remove_bcn_ie true (fixed ++ encode els ++ c) (12 + zlen (encode els)) hit.1).
Proof.
  intros Hels Hb Hne. pose proof (zlen_nonneg (encode els)).
  unfold rtw_remove_bcn_ie, _FIXED_IE_LENGTH_.
  replace (12 + zlen (encode els) - 12) with (zlen (encode els)) by lia. rewrite s32_id by lia.
  rewrite beacon_get_ie by (done || by rewrite Hels; destruct before).
  replace (find_ie hit.1 els) with (Some (before, hit))
    by (rewrite Hels; symmetry; by apply find_ie_first).
  rewrite done_bind.
  assert (Hb0 : 0 < zlen hit.2)
    by (destruct hit.2; [done|rewrite zlen_cons; pose proof (zlen_nonneg l); lia]).
  rewrite (proj2 (Z.ltb_lt 0 (zlen hit.2))) by done.
  pose proof (zlen_nonneg (encode before)). pose proof (zlen_nonneg (encode after)). pose proof (zlen_nonneg c).
  assert (Hz : zlen (encode els) = zlen (encode before) + (zlen hit.2 + 2) + zlen (encode after)).
  { rewrite Hels, encode_app, encode_cons, !zlen_app, zlen_encode1. lia. }
  replace (u32 (12 + zlen (encode els) - _ - _)) with (zlen (encode after)) by (rewrite u32_id; lia).
  destruct (splice_elem before [hit] [] after (12 + zlen (encode before)))
    as (tail & Hrun & Ht); try done.
  { cbn [app]. rewrite encode_app, zlen_app. lia. }
  { change (zlen (encode [])) with 0. pose proof (zlen_nonneg (encode [hit])). lia. }
  change (encode []) with (@nil Z) in Hrun. rewrite zlen_nil, Z.add_0_r in Hrun.
  rewrite encode_cons, app_nil_r, zlen_encode1 in Hrun.
  apply res_bind_Done in Hrun as (bk & Hbk & Hrun). cbv zeta. rewrite Hbk, done_bind.
  apply res_bind_Done in Hrun as (pie & Hpie & Hrun).
  assert (pie = fixed ++ encode els ++ c) as ->.
  { unfold wrr, wr in Hpie. destruct (_ && _); [|done]. cbn [lift] in Hpie. injection Hpie as <-.
    cbn [app length]. by rewrite Nat.add_0_r, take_drop. }
  rewrite Hrun, done_bind. exists tail. cbn [app] in *. split; [|exact Ht].
  do 2 f_equal. rewrite encode_app, zlen_app, u32_id by lia. lia.
Qed.
End beacon.

(** ** Where an element is added *)

(** The loop passes the elements with smaller ids and remembers the last. *)
Lemma add_bcn_skip index : forall before fuel a prev rest c IELength p l,
  Forall (fun e => e.1 < index) (before ++ [prev]) ->
  zlen a + zlen (encode (before ++ [prev])) <= IELength ->
  add_bcn_loop (length before + S fuel) (a ++ encode (before ++ [prev]) ++ rest ++ c) IELength index (zlen a) p l
  = add_bcn_loop fuel (a ++ encode (before ++ [prev]) ++ rest ++ c) IELength index
      (zlen a + zlen (encode (before ++ [prev]))) (Some (zlen a + zlen (encode before))) (zlen prev.2).
Proof.
  induction before as [|e before IH]; intros fuel a prev rest c IELength p l Hlt Hie.
  - apply list.Forall_cons in Hlt as [Hp _]. cbn [app length Nat.add] in *.
    rewrite encode_cons, app_nil_r, zlen_encode1 in *. pose proof (zlen_nonneg prev.2).
    cbn [add_bcn_loop]. rewrite (proj2 (Z.ltb_lt _ _)) by lia.
    rewrite (ld_id a _ _ (zlen a)), done_bind by done.
    rewrite (proj2 (Z.ltb_ge _ _)), (proj2 (Z.eqb_neq _ _)) by lia.
    rewrite (ld_len a), done_bind by done. change (zlen (encode [])) with 0. by rewrite Z.add_0_r.
  - cbn [app] in Hlt, Hie. apply list.Forall_cons in Hlt as [He Hlt]. cbn [app length Nat.add].
    rewrite zlen_encode_cons in Hie. pose proof (zlen_nonneg e.2).
    pose proof (zlen_nonneg (encode (before ++ [prev]))).
    rewrite encode_cons, <- !app_assoc. cbn [add_bcn_loop].
    rewrite (proj2 (Z.ltb_lt _ _)) by lia.
    rewrite (ld_id a _ _ (zlen a)), done_bind by done.
    rewrite (proj2 (Z.ltb_ge _ _)), (proj2 (Z.eqb_neq _ _)) by lia.
    rewrite (ld_len a), done_bind by done.
    replace (zlen a + (zlen e.2 + 2)) with (zlen (a ++ encode1 e)) by (rewrite zlen_app, zlen_encode1; lia).
    rewrite (app_assoc a). rewrite IH by (rewrite ?zlen_app, ?zlen_encode1; done || lia).
    rewrite zlen_encode_cons. change (zlen (encode1 e ++ encode (before ++ [prev])))
      with (zlen (encode (e :: before ++ [prev]))).
    rewrite zlen_encode_cons, zlen_app, zlen_encode1. f_equal; [lia|f_equal; lia].
Qed.

(** Where the loop stops. *)
Lemma add_bcn_stop index fixed before prev after c :
  zlen fixed = 12 -> Forall (fun e => e.1 < index) (before ++ [prev]) ->
  (match after with [] => True | e :: _ => index <= e.1 end) ->
  let els := before ++ [prev] ++ after in
  add_bcn_loop (Z.to_nat (12 + zlen (encode els))) (fixed ++ encode els ++ c) (12 + zlen (encode els))
    index 12 None 0
  = Done (match after with
          | e :: _ => if e.1 =? index
                      then (Some (12 + zlen (encode (before ++ [prev]))), zlen e.2, true)
                      else (Some (12 + zlen (encode before)), zlen prev.2, false)
          | [] => (Some (12 + zlen (encode before)), zlen prev.2, false)
          end).
Proof.
  intros Hf Hlt Haft els. set (n := zlen (encode els)).
  assert (Hn : n = zlen (encode (before ++ [prev])) + zlen (encode after)).
  { subst n els. by rewrite app_assoc, encode_app, zlen_app. }
  pose proof (length_encode (before ++ [prev])) as Hlen. rewrite length_app in Hlen. cbn [length] in Hlen.
  pose proof (zlen_nonneg (encode after)).
  replace (Z.to_nat (12 + n)) with (length before + S (Z.to_nat (12 + n) - length before - 1))%nat
    by (unfold zlen in *; lia).
  replace (encode els ++ c) with (encode (before ++ [prev]) ++ encode after ++ c)
    by (subst els; by rewrite (app_assoc before), (encode_app (before ++ [prev])), <- app_assoc).
  pose proof (add_bcn_skip index before (Z.to_nat (12 + n) - length before - 1) fixed prev (encode after) c
    (12 + n) None 0 Hlt) as Hskip.
  rewrite Hf in Hskip. rewrite Hskip by lia.
  destruct (Z.to_nat (12 + n) - length before - 1)%nat as [|fuel] eqn:Hfu;
    [unfold zlen in *; lia|].
  cbn [add_bcn_loop]. destruct after as [|e after].
  { change (zlen (encode [])) with 0 in Hn. by rewrite (proj2 (Z.ltb_ge _ _)) by lia. }
  rewrite encode_cons, zlen_app, zlen_encode1 in Hn. pose proof (zlen_nonneg e.2).
  pose proof (zlen_nonneg (encode after)).
  rewrite (proj2 (Z.ltb_lt _ _)) by lia.
  rewrite encode_cons, <- app_assoc, (app_assoc fixed).
  rewrite (ld_id (fixed ++ encode (before ++ [prev])) _ _ (12 + zlen (encode (before ++ [prev])))),
    done_bind by (rewrite zlen_app; lia).
  destruct (Z.eqb_spec e.1 index) as [He|He].
  - rewrite (proj2 (Z.ltb_ge _ _)) by lia.
    rewrite (ld_len (fixed ++ encode (before ++ [prev]))), done_bind by (rewrite zlen_app; lia). done.
  - by rewrite (proj2 (Z.ltb_lt _ _)) by lia.
Qed.

(** The two stores of the id and the length, then of the data, are one splice. *)
Lemma add_splice index fixed pre olds news rest c data k :
  zlen fixed = 12 ->
  let els := pre ++ olds ++ rest in
  12 + zlen (encode els) < 2 ^ 31 -> zlen data <= 255 -> zlen data + 2 <= zlen c ->
  encode news = [index; zlen data] ++ data -> k = 12 + zlen (encode pre) ->
  beacon_becomes fixed els (pre ++ news ++ rest) c
    (b ← backup true (fixed ++ encode els ++ c) (k + zlen (encode olds)) (zlen (encode rest));
     pie ← wrr (fixed ++ encode els ++ c) k [index; zlen data];
     d ← rdr data 0 (zlen data);
     pie ← wrr pie (k + 2) d;
     pie ← restore pie (k + 2 + zlen data) b;
     Done (pie, u32 (k + 2 + zlen data + zlen (encode rest)))).
Proof.
  intros Hf els Hsize Hdata Hroom Hn ->. pose proof (zlen_nonneg data).
  assert (He : els = pre ++ olds ++ rest) by done. clearbody els.
  assert (Hz : zlen (encode els) = zlen (encode pre) + zlen (encode olds) + zlen (encode rest)).
  { by rewrite He, !encode_app, !zlen_app, Z.add_assoc. }
  assert (Hnz : zlen (encode (pre ++ news ++ rest))
    = zlen (encode pre) + (2 + zlen data) + zlen (encode rest)).
  { rewrite !(encode_app pre), (encode_app news), !zlen_app, Hn, zlen_app.
    change (zlen [index; zlen data]) with 2. lia. }
  pose proof (zlen_nonneg (encode pre)). pose proof (zlen_nonneg (encode rest)).
  pose proof (zlen_nonneg (encode olds)).
  destruct (splice_elem fixed c els Hf Hsize pre olds news rest
    (12 + zlen (encode pre))) as (tail & Hrun & Ht); [done|lia| |done|].
  { rewrite Hn, zlen_app. change (zlen [index; zlen data]) with 2. lia. }
  apply res_bind_Done in Hrun as (bk & -> & Hrun). rewrite done_bind.
  rewrite Hn in Hrun. apply res_bind_Done in Hrun as (pie & Hw & Hrun).
  assert (Hww : (pie ← wrr (fixed ++ encode els ++ c) (12 + zlen (encode pre)) [index; zlen data];
    wrr pie (12 + zlen (encode pre) + 2) data) = Done pie).
  { unfold wrr in *. destruct (wr _ _ ([index; zlen data] ++ data)) as [pie'|] eqn:Hwr; [|done].
    cbn [lift] in Hw. injection Hw as ->.
    apply wr_inv in Hwr as (x & y & z & Hx & -> & Hxz & Hyl).
    rewrite Hx, <- Hxz. rewrite length_app in Hyl. cbn [length] in Hyl.
    destruct y as [|y1 [|y2 y]]; cbn [length] in Hyl; try lia.
    change ((y1 :: y2 :: y) ++ z) with ([y1; y2] ++ y ++ z).
    rewrite (wr_mid x [y1; y2]) by done. cbn [lift]. rewrite done_bind, (app_assoc x).
    rewrite (wr_mid _ y) by (rewrite ?zlen_app; done || lia). cbn [lift]. by rewrite <- !app_assoc. }
  apply res_bind_Done in Hww as (pie1 & -> & Hww). rewrite done_bind, rdr_all, done_bind by done.
  rewrite Hww, done_bind. rewrite zlen_app in Hrun. change (zlen [index; zlen data]) with 2 in Hrun.
  rewrite Z.add_assoc in Hrun. rewrite Hrun, done_bind.
  exists tail. split; [|exact Ht]. do 2 f_equal. rewrite Hnz, u32_id by lia. lia.
Qed.

Lemma add_bcn_run alloc index fixed before prev after c data :
  zlen fixed = 12 -> Forall (fun e => e.1 < index) (before ++ [prev]) ->
  let els := before ++ [prev] ++ after in
  12 + zlen (encode els) < 2 ^ 31 -> zlen data <= 255 -> zlen data + 2 <= zlen c ->
  (match after with [] => True | e :: _ => index < e.1 end -> prev.2 <> [] -> alloc = true ->
   beacon_becomes fixed els (before ++ [prev] ++ (index, data) :: after) c
     (rtw_add_bcn_ie alloc (fixed ++ encode els ++ c) (12 + zlen (encode els)) index data (zlen data))) /\
  (match after with [] => True | e :: _ => index < e.1 end -> prev.2 = [] ->
   rtw_add_bcn_ie alloc (fixed ++ encode els ++ c) (12 + zlen (encode els)) index data (zlen data)
   = Done (fixed ++ encode els ++ c, 12 + zlen (encode els))) /\
  (forall old rest, after = (index, old) :: rest -> old <> [] -> alloc = true ->
   beacon_becomes fixed els (before ++ [prev] ++ (index, data) :: rest) c
     (rtw_add_bcn_ie alloc (fixed ++ encode els ++ c) (12 + zlen (encode els)) index data (zlen data))).
Proof.
  intros Hf Hlt els Hsize Hdata Hroom. pose proof (zlen_nonneg (encode els)) as Hels0.
  pose proof (zlen_nonneg data).
  assert (Hsplice : forall olds news rest k,
    els = (before ++ [prev]) ++ olds ++ rest -> encode news = [index; zlen data] ++ data ->
    k = 12 + zlen (encode (before ++ [prev])) ->
    beacon_becomes fixed els ((before ++ [prev]) ++ news ++ rest) c
      (b ← backup true (fixed ++ encode els ++ c) (k + zlen (encode olds)) (zlen (encode rest));
       pie ← wrr (fixed ++ encode els ++ c) k [index; zlen data];
       d ← rdr data 0 (zlen data);
       pie ← wrr pie (k + 2) d;
       pie ← restore pie (k + 2 + zlen data) b;
       Done (pie, u32 (k + 2 + zlen data + zlen (encode rest))))).
  { intros olds news rest k He Hn Hk. rewrite He. apply add_splice; try done. by rewrite <- He. }
  assert (Hidx : encode [(index, data)] = [index; zlen data] ++ data).
  { rewrite encode_cons, app_nil_r. done. }
  pose proof (zlen_nonneg (encode before)). pose proof (zlen_nonneg prev.2).
  pose proof (zlen_nonneg (encode after)).
  assert (Hz : zlen (encode els) = zlen (encode before) + (zlen prev.2 + 2) + zlen (encode after)).
  { subst els. rewrite !encode_app, !zlen_app, encode_cons, app_nil_r, zlen_encode1. lia. }
  assert (Hbp : zlen (encode (before ++ [prev])) = zlen (encode before) + (zlen prev.2 + 2)).
  { rewrite encode_app, zlen_app, encode_cons, app_nil_r, zlen_encode1. lia. }
  assert (Hnone : match after with [] => True | e :: _ => index < e.1 end ->
    add_bcn_loop (Z.to_nat (12 + zlen (encode els))) (fixed ++ encode els ++ c) (12 + zlen (encode els))
      index 12 None 0 = Done (Some (12 + zlen (encode before)), zlen prev.2, false)).
  { intros Haft. pose proof (add_bcn_stop index fixed before prev after c Hf Hlt) as Hstop.
    cbv zeta in Hstop. fold els in Hstop. rewrite Hstop by (destruct after; [done|lia]).
    destruct after as [|e after']; [done|]. by rewrite (proj2 (Z.eqb_neq _ _)) by lia. }
  unfold rtw_add_bcn_ie. split; [|split].
  - intros Haft Hp ->. rewrite Hnone, done_bind by done.
    assert (Hp0 : 0 < zlen prev.2)
      by (destruct prev.2; [done|rewrite zlen_cons; pose proof (zlen_nonneg l); lia]).
    rewrite (proj2 (Z.ltb_lt _ _)) by done. cbv zeta.
    replace (u32 (12 + zlen (encode els) - _ - _)) with (zlen (encode after)) by (rewrite u32_id; lia).
    pose proof (Hsplice [] [(index, data)] after (12 + zlen (encode (before ++ [prev])))) as Hs.
    change (zlen (encode [])) with 0 in Hs. rewrite Z.add_0_r, Hbp in Hs.
    replace (12 + zlen (encode before) + (zlen prev.2 + 2))
      with (12 + (zlen (encode before) + (zlen prev.2 + 2))) by lia.
    rewrite (app_assoc before). apply Hs; [by subst els; rewrite <- app_assoc|done|done].
  - intros Haft Hp. rewrite Hnone, done_bind by done. rewrite Hp. done.
  - intros old rest -> Ho ->.
    assert (Ho0 : 0 < zlen old)
      by (destruct old; [done|rewrite zlen_cons; pose proof (zlen_nonneg old); lia]).
    pose proof (add_bcn_stop index fixed before prev ((index, old) :: rest) c Hf Hlt) as Hstop.
    cbv zeta in Hstop. fold els in Hstop. rewrite Hstop by (cbn; lia). cbn [fst snd].
    rewrite Z.eqb_refl, done_bind.
    rewrite (proj2 (Z.ltb_lt _ _)) by done. cbv zeta.
    rewrite encode_cons, zlen_app, zlen_encode1 in Hz. cbn [snd] in Hz. pose proof (zlen_nonneg (encode rest)).
    replace (u32 (12 + zlen (encode els) - _ - _)) with (zlen (encode rest)) by (rewrite u32_id; lia).
    pose proof (Hsplice [(index, old)] [(index, data)] rest (12 + zlen (encode (before ++ [prev])))) as Hs.
    rewrite (encode_cons (index, old)), app_nil_r, zlen_encode1 in Hs. cbn [snd] in Hs.
    rewrite (app_assoc before). apply Hs; [by subst els; rewrite <- app_assoc|done|done].
Qed.

(** ** Properties *)

(** Update_BCNTIM rewrites the beacon element by element: the traffic indication map
    is replaced where it is, or inserted behind the SSID, rates and DS parameter
    elements when there is none; every other element stays, in its order, and
    IELength is the length of the new elements. *)
Theorem update_BCNTIM_writes fixed els c tim_bitmap :
  zlen fixed = 12 -> 12 + zlen (encode els) < 2 ^ 31 -> 7 <= zlen c ->
  let updated els' := beacon_becomes fixed els els' c
    (update_BCNTIM true (fixed ++ encode els ++ c) (12 + zlen (encode els)) tim_bitmap) in
  (forall before b after, els = before ++ (_TIM_IE_, b) :: after ->
     Forall (fun e => e.1 <> _TIM_IE_) before -> b <> [] ->
     updated (before ++ tim_elem tim_bitmap :: after)) /\
  (forall ssid rates d after, els = [(0, ssid); (1, rates); (3, [d])] ++ after ->
     Forall (fun e => e.1 <> _TIM_IE_) after ->
     updated ([(0, ssid); (1, rates); (3, [d])] ++ tim_elem tim_bitmap :: after)).
Proof.
  intros Hf Hs Hc updated. split.
  - intros before b after He Hb Hne. apply (update_present _ _ _ Hf Hs before b after); try done.
    pose proof (zlen_nonneg b). lia.
  - intros ssid rates d after He Ha. by apply update_absent.
Qed.

Lemma update_BCNTIM_writes_witness :
  beacon_becomes [0;0;0;0;0;0;0;0;0;0;0;0] [(0, [65]); (5, [0; 1; 0; 0]); (48, [1; 0])]
    [(0, [65]); tim_elem 0x0102; (48, [1; 0])] [0;0;0;0;0;0;0]
    (update_BCNTIM true ([0;0;0;0;0;0;0;0;0;0;0;0] ++ encode [(0, [65]); (5, [0; 1; 0; 0]); (48, [1; 0])]
       ++ [0;0;0;0;0;0;0]) (12 + 13) 0x0102).
Proof.
  apply (proj1 (update_BCNTIM_writes [0;0;0;0;0;0;0;0;0;0;0;0] [(0, [65]); (5, [0; 1; 0; 0]); (48, [1; 0])]
    [0;0;0;0;0;0;0] 0x0102 eq_refl ltac:(vm_compute; reflexivity) ltac:(vm_compute; discriminate))
    [(0, [65])] [0; 1; 0; 0] [(48, [1; 0])] eq_refl).
  - repeat constructor. discriminate.
  - discriminate.
Defined.

(** What the map tells the stations: read as the standard says, it announces
    traffic to association id [aid] exactly when its bit of [tim_bitmap] is set,
    unless only ids from 8 on have traffic.  Then their octet is sent as the one of
    the ids 0 to 7: the stations 8 to 15 learn nothing and stay asleep, and a station
    with id [aid] below 8 wakes up for the frames of station [aid + 8]. *)
Theorem tim_signals tim_bitmap aid :
  1 <= aid <= 15 ->
  tim_traffic (tim_elem tim_bitmap).2 aid
  = if high_bits tim_bitmap && negb (low_bits tim_bitmap)
    then (aid <? 8) && Z.testbit tim_bitmap (aid + 8)
    else Z.testbit tim_bitmap aid.
Proof. apply tim_element_traffic. Qed.

(** Station 9 sleeps through its frames, and station 1 is told they are its own. *)
Lemma tim_signals_witness :
  tim_traffic (tim_elem 0x0200).2 9 = false /\ tim_traffic (tim_elem 0x0200).2 1 = true /\
  tim_traffic (tim_elem 0x0202).2 9 = true.
Proof.
  split; [|split].
  - exact (tim_signals 0x0200 9 ltac:(lia)).
  - exact (tim_signals 0x0200 1 ltac:(lia)).
  - exact (tim_signals 0x0202 9 ltac:(lia)).
Defined.

(** Adding an element to a beacon whose elements before its place have smaller ids:
    it is inserted behind them, or replaces the element that has the id, and all
    others stay.  But when the element before its place is empty (a hidden SSID, for
    instance) nothing is added. *)
Theorem rtw_add_bcn_ie_spec index fixed before prev after c data :
  zlen fixed = 12 -> Forall (fun e => e.1 < index) (before ++ [prev]) ->
  let els := before ++ [prev] ++ after in
  12 + zlen (encode els) < 2 ^ 31 -> zlen data <= 255 -> zlen data + 2 <= zlen c ->
  let added := rtw_add_bcn_ie true (fixed ++ encode els ++ c) (12 + zlen (encode els)) index data
                 (zlen data) in
  (match after with [] => True | e :: _ => index < e.1 end -> prev.2 <> [] ->
   beacon_becomes fixed els (before ++ [prev] ++ (index, data) :: after) c added) /\
  (match after with [] => True | e :: _ => index < e.1 end -> prev.2 = [] ->
   added = Done (fixed ++ encode els ++ c, 12 + zlen (encode els))) /\
  (forall old rest, after = (index, old) :: rest -> old <> [] ->
   beacon_becomes fixed els (before ++ [prev] ++ (index, data) :: rest) c added).
Proof.
  intros Hf Hlt els Hs Hd Hr added.
  destruct (add_bcn_run true index fixed before prev after c data Hf Hlt Hs Hd Hr) as (H1 & H2 & H3).
  split; [|split]; eauto.
Qed.

Lemma rtw_add_bcn_ie_spec_witness :
  beacon_becomes [0;0;0;0;0;0;0;0;0;0;0;0] [(0, [65]); (48, [1; 0])] [(0, [65]); (42, [4]); (48, [1; 0])]
    [0;0;0]
    (rtw_add_bcn_ie true ([0;0;0;0;0;0;0;0;0;0;0;0] ++ encode [(0, [65]); (48, [1; 0])] ++ [0;0;0]) (12 + 7)
       42 [4] 1).
Proof.
  apply (proj1 (rtw_add_bcn_ie_spec 42 [0;0;0;0;0;0;0;0;0;0;0;0] [] (0, [65]) [(48, [1; 0])] [0;0;0] [4]
    eq_refl ltac:(repeat constructor) ltac:(vm_compute; reflexivity)
    ltac:(vm_compute; discriminate) ltac:(vm_compute; discriminate))).
  - reflexivity.
  - discriminate.
Defined.

(** Removing an element that is not empty takes exactly the first one with the id. *)
Theorem rtw_remove_bcn_ie_spec fixed before hit after c :
  let els := before ++ hit :: after in
  zlen fixed = 12 -> 12 + zlen (encode els) < 2 ^ 31 ->
  Forall (fun e => e.1 <> hit.1) before -> hit.2 <> [] ->
  beacon_becomes fixed els (before ++ after) c
    (rtw_remove_bcn_ie true (fixed ++ encode els ++ c) (12 + zlen (encode els)) hit.1).
Proof. intros els Hf Hs Hb Hne. by apply (remove_run fixed c els Hf Hs before hit after). Qed.

Lemma rtw_remove_bcn_ie_spec_witness :
  beacon_becomes [0;0;0;0;0;0;0;0;0;0;0;0] [(0, [65]); (42, [4]); (48, [1; 0])] [(0, [65]); (48, [1; 0])] []
    (rtw_remove_bcn_ie true ([0;0;0;0;0;0;0;0;0;0;0;0] ++ encode [(0, [65]); (42, [4]); (48, [1; 0])] ++ [])
       (12 + 10) 42).
Proof.
  apply (rtw_remove_bcn_ie_spec [0;0;0;0;0;0;0;0;0;0;0;0] [(0, [65])] (42, [4]) [(48, [1; 0])] []).
  - reflexivity.
  - vm_compute. reflexivity.
  - repeat constructor. discriminate.
  - discriminate.
Defined.
