(* ===== verification/Bip.v ===== *)
(** * Protection of management frames, IEEE 802.11w (core/rtw_security.c, core/rtw_xmit.c)

    [rtw_BIP_verify] checks the management MIC element of a group-addressed
    deauthentication or disassociation; [rtw_mgmt_xmitframe_coalesce] appends that element
    to such frames and encrypts unicast ones with CCMP.  A frame is the memory from its
    first byte on; the runs are those of Ie, so a theorem that a run is [Done] says that
    every access was inside a buffer. *)

From S2P Require Import Prelude Aes Ccmp Omac SecFrames WifiHdr Ie.

(** ** Data *)

Definition BIP_AAD_SIZE : Z := 20.
Definition WLAN_HDR_A3_LEN : Z := 24.
Definition _MME_IE_ : Z := 76.
Definition _MME_IE_LENGTH_ : Z := 18.
Definition RTW_RX_HANDLED : Z := 2.
Definition _RETRY_ : Z := BIT 11.
Definition _PWRMGT_ : Z := BIT 12.
Definition _MORE_DATA_ : Z := BIT 13.
Definition _PRIVACY_ : Z := BIT 14.

(** The fields of [security_priv] and [mlme_ext_priv] of the broadcast integrity protocol. *)
Record bip_priv := mk_bip {
  dot11wBIPKeyid : Z; dot11wBIPKey : list bytes; binstallBIPkey : bool;
  mgnt_80211w_IPN : Z; mgnt_80211w_IPN_rx : Z
}.

Definition set_IPN (n : Z) (s : bip_priv) : bip_priv :=
  mk_bip (dot11wBIPKeyid s) (dot11wBIPKey s) (binstallBIPkey s) n (mgnt_80211w_IPN_rx s).
Definition set_IPN_rx (n : Z) (s : bip_priv) : bip_priv :=
  mk_bip (dot11wBIPKeyid s) (dot11wBIPKey s) (binstallBIPkey s) (mgnt_80211w_IPN s) n.

(** Little-endian integers. *)
Definition le_val (b : bytes) : Z := be_val (rev b).
Definition le_bytes (n : nat) (x : Z) : bytes := rev (be_bytes n x).

(** [*(unsigned short * )p &= ~cpu_to_le16(bits)] and [|=]. *)
Definition put_fc (m : bytes) (p v : Z) : res bytes := wrr m p [u8 v; u8 (v .>> 8)].
Definition clear_fc (bits : Z) (m : bytes) (p : Z) : res bytes :=
  v ← RTW_GET_LE16 m p; put_fc m p (Z.ldiff v bits).
Definition set_fc (bits : Z) (m : bytes) (p : Z) : res bytes :=
  v ← RTW_GET_LE16 m p; put_fc m p (v .| bits).
Definition ClearRetry := clear_fc _RETRY_.
Definition ClearPwrMgt := clear_fc _PWRMGT_.
Definition ClearMData := clear_fc _MORE_DATA_.
Definition SetPrivacy := set_fc _PRIVACY_.

(** ** The additional data: frame control without the mutable bits, and three addresses *)

Definition construct_aad (BIP_AAD pframe : bytes) (hdr : Z) : res bytes :=
  fc ← rdr pframe hdr 2;
  BIP_AAD ← wrr BIP_AAD 0 fc;
  BIP_AAD ← ClearRetry BIP_AAD 0;
  BIP_AAD ← ClearPwrMgt BIP_AAD 0;
  BIP_AAD ← ClearMData BIP_AAD 0;
  addrs ← rdr pframe (hdr + 4) 18;
  wrr BIP_AAD 2 addrs.

(** ** Receive *)

(** The return value and the state.  [beyond] is what [omac1_aes_128] finds behind the
    variable that holds the address of its data (see Omac). *)
Definition rtw_BIP_verify (alloc_ok : bool) (beyond pframe : bytes) (pkt_len : Z) (s : bip_priv)
    : res (Z * bip_priv) :=
  let ori_len := u32 (pkt_len - WLAN_HDR_A3_LEN + BIP_AAD_SIZE) in
  if negb alloc_ok then Done (_FAIL, s) else
  let BIP_AAD := replicate (Z.to_nat ori_len) 0 in
  body ← rdr pframe WLAN_HDR_A3_LEN (pkt_len - WLAN_HDR_A3_LEN);
  BIP_AAD ← wrr BIP_AAD BIP_AAD_SIZE body;
  '(p, len) ← rtw_get_ie BIP_AAD BIP_AAD_SIZE _MME_IE_ 0 (pkt_len - WLAN_HDR_A3_LEN);
  match p with
  | Some p =>
      ipn ← rdr BIP_AAD (p + 4) 6;
      let temp_ipn := le_val ipn in
      if temp_ipn <=? mgnt_80211w_IPN_rx s then Done (_FAIL, s) else
      keyid ← RTW_GET_LE16 BIP_AAD (p + 2);
      if negb (keyid =? dot11wBIPKeyid s) then Done (_FAIL, s) else
      BIP_AAD ← wrr BIP_AAD (p + 2 + len - 8) (replicate 8 0);
      BIP_AAD ← construct_aad BIP_AAD pframe 0;
      key ← lift (dot11wBIPKey s !! Z.to_nat (dot11wBIPKeyid s));
      mic ← lift (omac1_aes_128 key BIP_AAD beyond);
      got ← rdr pframe (pkt_len - 8) 8;
      if bool_decide (take 8 mic = got) then Done (_SUCCESS, set_IPN_rx temp_ipn s)
      else Done (_FAIL, s)
  | None => Done (RTW_RX_HANDLED, s)
  end.

(** ** Transmit, group-addressed *)

(** The branch [if(bmcst)]: the frame is at [mem_start] of the transmit buffer [m].  The
    return value, the buffer, [pktlen] and the state; [BIP_AAD] has room for
    [BIP_AAD_SIZE] and the frame before the element is appended. *)
Definition bip_coalesce (beyond m : bytes) (mem_start pktlen : Z) (s : bip_priv)
    : res (Z * bytes * Z * bip_priv) :=
  let ori_len := u32 (BIP_AAD_SIZE + pktlen) in
  hdr ← rdr m mem_start 2;
  let subtype := GetFrameSubType hdr in
  if negb (subtype =? WIFI_DEAUTH) && negb (subtype =? WIFI_DISASSOC) then Done (_FAIL, m, pktlen, s) else
  let MGMT_body := mem_start + WLAN_HDR_A3_LEN in
  let MME := u8 (dot11wBIPKeyid s) :: 0 :: le_bytes 6 (mgnt_80211w_IPN s) ++ replicate 10 0 in
  let s := set_IPN (u64 (mgnt_80211w_IPN s + 1)) s in
  '(m, pframe, pktlen) ← rtw_set_ie m (mem_start + pktlen) _MME_IE_ 16 MME pktlen;
  let frame_body_len := pktlen - WLAN_HDR_A3_LEN in
  let BIP_AAD := replicate (Z.to_nat ori_len) 0 in
  BIP_AAD ← construct_aad BIP_AAD m mem_start;
  body ← rdr m MGMT_body frame_body_len;
  BIP_AAD ← wrr BIP_AAD BIP_AAD_SIZE body;
  key ← lift (dot11wBIPKey s !! Z.to_nat (dot11wBIPKeyid s));
  data ← rdr BIP_AAD 0 (BIP_AAD_SIZE + frame_body_len);
  mic ← lift (omac1_aes_128 key data beyond);
  m ← wrr m (pframe - 8) (take 8 mic);
  Done (_SUCCESS, m, pktlen, s).

(** ** Transmit, unicast *)

Definition TXDESC_OFFSET : Z := TXDESC_SIZE + PACKET_OFFSET_SZ.
Definition WIFI_REASSOCREQ : Z := 0x20.
Definition RTW_WLAN_CATEGORY_PUBLIC : Z := 4.
Definition RTW_WLAN_CATEGORY_HT : Z := 7.
Definition RTW_WLAN_CATEGORY_UNPROTECTED_WNM : Z := 11.
Definition RTW_WLAN_CATEGORY_SELF_PROTECTED : Z := 15.
Definition RTW_WLAN_CATEGORY_P2P : Z := 0x7f.

(** The five categories that are not robust. *)
Definition not_robust (category : Z) : bool :=
  (category =? RTW_WLAN_CATEGORY_PUBLIC) || (category =? RTW_WLAN_CATEGORY_HT)
  || (category =? RTW_WLAN_CATEGORY_UNPROTECTED_WNM) || (category =? RTW_WLAN_CATEGORY_SELF_PROTECTED)
  || (category =? RTW_WLAN_CATEGORY_P2P).

(** The header of CCMP, and the next packet number. *)
Definition AES_IV (pn keyidx : Z) : bytes * Z :=
  ([u8 pn; u8 (pn .>> 8); 0; BIT 5 .| ((keyidx .& 0x3) .<< 6);
    u8 (pn .>> 16); u8 (pn .>> 24); u8 (pn .>> 32); u8 (pn .>> 40)],
   if pn =? 0xffffffffffff then 0 else u64 (pn + 1)).

Definition set_tx (iv icv last_txcmdsz : Z) (key : bytes) (a : pkt_attrib) : pkt_attrib :=
  mk_pkt_attrib (pa_encrypt a) (pa_hdrlen a) iv icv (pa_nr_frags a) last_txcmdsz (pa_ra a) (pa_ta a) key
    (pa_frag_len a) (pa_pkt_offset a) (pa_buf_base a).

(** The transmit frame: its buffer, [pktlen] and attributes. *)
Record mgmt_tx := mk_mtx { mt_buf : bytes; pktlen : Z; mt_attrib : pkt_attrib }.

(** The station of the receiver: its state, pairwise key and [dot11wtxpn]. *)
Record mgmt_sta := mk_msta { ms_state : Z; ms_key : bytes; dot11wtxpn : Z }.

Section transmit.
Context (CONFIG_IEEE80211W : bool).

(** The branch [else] of [if(bmcst)]; [psta] is what [pattrib->psta] or the lookup of the
    receiver gives, [icv] is [pattrib->icv]. *)
Definition unicast_coalesce (psta : option mgmt_sta) (bswenc : bool) (icv : bytes) (f : mgmt_tx)
    (sec : security_priv) : res (Z * mgmt_tx * option mgmt_sta * security_priv) :=
  let m := mt_buf f in
  let a := mt_attrib f in
  let len := pktlen f in
  hdr ← rdr m TXDESC_OFFSET 2;
  let subtype := GetFrameSubType hdr in
  if negb ((subtype =? WIFI_DEAUTH) || (subtype =? WIFI_DISASSOC) || (subtype =? WIFI_REASSOCREQ)
           || (subtype =? WIFI_ACTION)) then Done (_SUCCESS, f, psta, sec) else
  match psta with
  | None => Done (_FAIL, f, psta, sec)
  | Some st =>
      if ms_state st .& 1 =? 0 then Done (_FAIL, f, psta, sec) else
      skip ← (if subtype =? WIFI_ACTION
              then category ← ldr m (TXDESC_OFFSET + WLAN_HDR_A3_LEN); Done (not_robust category)
              else Done false);
      if skip : bool then Done (_FAIL, f, psta, sec) else
      let key := if 0 <? pa_encrypt a then ms_key st else pa_UncstKey a in
      tmp_buf ← rdr m TXDESC_OFFSET len;
      if negb (pa_encrypt a =? _AES_)
      then Done (_FAIL, mk_mtx m len (set_tx 8 8 (pa_last_txcmdsz a) key a), psta, sec) else
      let '(iv, pn) := AES_IV (dot11wtxpn st) 0 in
      let st := mk_msta (ms_state st) (ms_key st) pn in
      let pframe := TXDESC_OFFSET + pa_hdrlen a in
      m ← wrr m pframe iv;
      let pframe := pframe + 8 in
      body ← rdr tmp_buf (pa_hdrlen a) (len - pa_hdrlen a);
      m ← wrr m pframe body;
      let pframe := pframe + (len - pa_hdrlen a) in
      let len := len + 8 in
      m ← (if bswenc : bool then x ← rdr icv 0 8; wrr m pframe x else Done m);
      let len := len + 8 in
      let a := set_tx 8 8 len key a in
      m ← SetPrivacy m TXDESC_OFFSET;
      if bswenc then
        '(m, sec, _) ← lift (rtw_aes_encrypt CONFIG_IEEE80211W sec a m);
        Done (_SUCCESS, mk_mtx m len a, Some st, sec)
      else Done (_SUCCESS, mk_mtx m len a, Some st, sec)
  end.

(** [linked]: a station that is associated; the result of a failed allocation is [_FAIL]. *)
Definition rtw_mgmt_xmitframe_coalesce (alloc_ok linked : bool) (beyond : bytes)
    (psta : option mgmt_sta) (bswenc : bool) (icv : bytes) (f : mgmt_tx) (sec : security_priv)
    (s : bip_priv) : res (Z * mgmt_tx * option mgmt_sta * security_priv * bip_priv) :=
  if negb alloc_ok then Done (_FAIL, f, psta, sec, s) else
  if negb linked then Done (_SUCCESS, f, psta, sec, s) else
  if negb (binstallBIPkey s) then Done (_SUCCESS, f, psta, sec, s) else
  if IS_MCAST (pa_ra (mt_attrib f)) then
    '(r, m, len, s) ← bip_coalesce beyond (mt_buf f) TXDESC_OFFSET (pktlen f) s;
    let a := mt_attrib f in
    let a := if r =? _SUCCESS then set_tx (pa_iv_len a) (pa_icv_len a) len (pa_UncstKey a) a else a in
    Done (r, mk_mtx m len a, psta, sec, s)
  else
    '(r, f, psta, sec) ← unicast_coalesce psta bswenc icv f sec;
    Done (r, f, psta, sec, s).
End transmit.

(** ** Lemmas: the additional data *)

Lemma le_val_bytes n x : 0 <= x < 256 ^ Z.of_nat n -> le_val (le_bytes n x) = x.
Proof. intros. unfold le_val, le_bytes. by rewrite rev_involutive, be_val_bytes. Qed.
Lemma zlen_le_bytes n x : zlen (le_bytes n x) = Z.of_nat n.
Proof. unfold le_bytes, zlen. by rewrite length_rev, be_bytes_length. Qed.
Lemma le_bytes_ok n x : bytes_ok (le_bytes n x).
Proof. unfold le_bytes, bytes_ok. apply List.Forall_rev. apply be_bytes_ok. Qed.

Lemma u8_high_bits b i : is_u8 b -> 8 <= i -> Z.testbit b i = false.
Proof.
  intros Hb Hi. apply (Z.testbit_false b i ltac:(lia)). rewrite Z.div_small; [done|].
  assert (2 ^ 8 <= 2 ^ i) by (apply Z.pow_le_mono_r; lia). lia.
Qed.

(** Clearing a bit of the high byte of the frame control field. *)
Lemma ldiff_high k b0 b1 : 8 <= k -> is_u8 b0 ->
  Z.ldiff (b0 .| (b1 .<< 8)) (BIT k) = b0 .| (Z.ldiff b1 (BIT (k - 8)) .<< 8).
Proof.
  intros Hk H0. apply Z.bits_inj'. intros i Hi. unfold BIT. rewrite !Z.shiftl_1_l.
  rewrite Z.ldiff_spec, !Z.lor_spec, !Z.shiftl_spec, Z.pow2_bits_eqb by lia.
  destruct (Z.lt_ge_cases i 8).
  - rewrite !(Z.testbit_neg_r _ (i - 8)), (proj2 (Z.eqb_neq k i)) by lia. by rewrite !orb_false_r, andb_true_r.
  - rewrite (u8_high_bits b0) by (done || lia). cbn [orb].
    rewrite Z.ldiff_spec, Z.pow2_bits_eqb by lia. do 2 f_equal.
    destruct (Z.eqb_spec k i), (Z.eqb_spec (k - 8) (i - 8)); lia || done.
Qed.

Lemma ldiff_u8 b k : is_u8 b -> is_u8 (Z.ldiff b k).
Proof.
  intros Hb. assert (0 <= Z.ldiff b k) by (apply Z.ldiff_nonneg; lia). split; [done|].
  assert (E : Z.ldiff b k = Z.ldiff b k mod 2 ^ 8).
  { apply Z.bits_inj'. intros i Hi. destruct (Z.lt_ge_cases i 8).
    - by rewrite Z.mod_pow2_bits_low by lia.
    - by rewrite Z.mod_pow2_bits_high, Z.ldiff_spec, u8_high_bits by (done || lia). }
  rewrite E. change (2 ^ 8) with 256. apply Z.mod_pos_bound. lia.
Qed.

Lemma clear_fc_high k b0 b1 (t : bytes) : 8 <= k -> is_u8 b0 -> is_u8 b1 ->
  clear_fc (BIT k) (b0 :: b1 :: t) 0 = Done (b0 :: Z.ldiff b1 (BIT (k - 8)) :: t).
Proof.
  intros Hk H0 H1. unfold clear_fc, RTW_GET_LE16. pose proof (zlen_nonneg t).
  rewrite !ldr_ok by (rewrite !zlen_cons; lia). rewrite !done_bind.
  change (ld0 (b0 :: b1 :: t) 0) with b0. change (ld0 (b0 :: b1 :: t) (0 + 1)) with b1.
  rewrite Z.lor_comm, ldiff_high by done. pose proof (ldiff_u8 b1 (BIT (k - 8)) H1).
  unfold put_fc. change (b0 :: b1 :: t) with ([] ++ [b0; b1] ++ t).
  rewrite (wrr_mid [] [b0; b1] t) by done. cbn [app]. rewrite lor_shiftl_add by lia.
  unfold u8. rewrite Z.shiftr_div_pow2 by lia. change (2 ^ 8) with 256.
  rewrite Z.mod_add, (Z.mod_small b0), Z.div_add, (Z.div_small b0), Z.add_0_l, Z.mod_small by lia.
  done.
Qed.

(** The additional data of a header. *)
Definition aad (h : bytes) : bytes :=
  ld0 h 0 :: ld0 h 1 .& 0xC7 :: take 18 (drop 4 h).

Lemma zlen_aad h : zlen h = 24 -> zlen (aad h) = 20.
Proof.
  intros Hh. unfold aad. rewrite !zlen_cons. unfold zlen in *. rewrite length_take, length_drop. lia.
Qed.
Lemma aad_ok h : bytes_ok h -> bytes_ok (aad h).
Proof.
  intros H. unfold aad. apply bytes_ok_cons; [by apply ld0_u8|]. apply bytes_ok_cons.
  - apply (land_range_r 8); lia.
  - by apply bytes_ok_take, bytes_ok_drop.
Qed.

Lemma mask_fc b : is_u8 b -> Z.ldiff (Z.ldiff (Z.ldiff b (BIT 3)) (BIT 4)) (BIT 5) = b .& 0xC7.
Proof.
  intros Hb. apply Z.eqb_eq.
  exact (forall_byte (fun b => Z.ldiff (Z.ldiff (Z.ldiff b (BIT 3)) (BIT 4)) (BIT 5) =? b .& 0xC7) eq_refl b Hb).
Qed.

Lemma aad_run old rest pre h post p : zlen old = 20 -> zlen h = 24 -> bytes_ok h -> p = zlen pre ->
  construct_aad (old ++ rest) (pre ++ h ++ post) p = Done (aad h ++ rest).
Proof.
  intros Ho Hh Hok ->. unfold construct_aad, ClearRetry, ClearPwrMgt, ClearMData.
  destruct h as [|b0 [|b1 h]]; [discriminate Hh..|]. pose proof (zlen_nonneg h).
  change ((b0 :: b1 :: h) ++ post) with ([b0; b1] ++ h ++ post).
  rewrite (rdr_mid pre [b0; b1] _ (zlen pre) 2), done_bind by done.
  destruct old as [|x0 [|x1 old]]; [discriminate Ho..|].
  change ((x0 :: x1 :: old) ++ rest) with ([] ++ [x0; x1] ++ old ++ rest).
  rewrite wrr_mid, done_bind by done. cbn [app].
  apply list.Forall_cons in Hok as [? [? _]%list.Forall_cons].
  unfold _RETRY_, _PWRMGT_, _MORE_DATA_.
  rewrite !clear_fc_high, done_bind, clear_fc_high, done_bind, clear_fc_high, done_bind by (auto using ldiff_u8; lia).
  change (11 - 8) with 3. change (12 - 8) with 4. change (13 - 8) with 5. rewrite mask_fc by done.
  destruct h as [|b2 [|b3 h]]; [discriminate Hh..|].
  assert (Hl : zlen h = 20) by (rewrite !zlen_cons in Hh; lia).
  assert (H18 : zlen (take 18 h) = 18) by (unfold zlen in *; rewrite length_take; lia).
  replace (pre ++ b0 :: b1 :: (b2 :: b3 :: h) ++ post)
    with ((pre ++ [b0; b1; b2; b3]) ++ take 18 h ++ drop 18 h ++ post)
    by (rewrite <- !app_assoc; cbn [app]; by rewrite (app_assoc (take 18 h)), take_drop).
  rewrite (rdr_mid (pre ++ [b0; b1; b2; b3]) (take 18 h)), done_bind by (rewrite ?zlen_app; done).
  change (?x :: ?y :: old ++ rest) with ([x; y] ++ old ++ rest).
  rewrite (wrr_mid [_; _] old rest) by (done || (rewrite !zlen_cons in Ho; unfold zlen in *; lia)).
  done.
Qed.

(** ** Reference: a protected frame *)

(** The management MIC element: key id, packet number, and the MIC. *)
Definition mme (kid ipn mic : bytes) : elem := (_MME_IE_, kid ++ ipn ++ mic).

(** AES-CMAC over the additional data and the body with a zero MIC, cut to 64 bits. *)
Definition bip_mic (key h : bytes) (before : list elem) (kid ipn : bytes) : bytes :=
  take 8 (cmac_spec key (aad h ++ encode (before ++ [mme kid ipn (replicate 8 0)]))).

(** The fields in front of the element have no other element with its id (of a
    deauthentication the two bytes of the reason code read as an empty element). *)
Record protected (h : bytes) (before : list elem) (kid ipn mic : bytes) : Prop := {
  pr_hdr : zlen h = 24;
  pr_hdr_ok : bytes_ok h;
  pr_before : Forall (fun e => elem_ok e /\ e.1 <> _MME_IE_) before;
  pr_kid : zlen kid = 2 /\ bytes_ok kid;
  pr_ipn : zlen ipn = 6 /\ bytes_ok ipn;
  pr_mic : zlen mic = 8;
  pr_small : zlen (encode before) < 2 ^ 16
}.

Lemma mme_len kid ipn mic : zlen kid = 2 -> zlen ipn = 6 -> zlen mic = 8 -> zlen (mme kid ipn mic).2 = 16.
Proof. intros. cbn [mme snd]. rewrite !zlen_app. lia. Qed.

Lemma encode_mme before kid ipn mic : zlen kid = 2 -> zlen ipn = 6 -> zlen mic = 8 ->
  encode (before ++ [mme kid ipn mic]) = encode before ++ [_MME_IE_; 16] ++ kid ++ ipn ++ mic.
Proof.
  intros. rewrite encode_app. f_equal. unfold encode. cbn [map concat]. rewrite app_nil_r.
  unfold encode1. by rewrite mme_len.
Qed.

Lemma encode_ok els : Forall elem_ok els -> bytes_ok (encode els).
Proof.
  induction 1 as [|e els (H1 & H2 & H3) _ IH]; [constructor|]. rewrite encode_cons.
  apply bytes_ok_app_2; [|done]. pose proof (zlen_nonneg e.2).
  unfold encode1. apply bytes_ok_cons; [done|]. apply bytes_ok_cons; [lia|done].
Qed.

Lemma omac1_run key data beyond : block_ok key -> bytes_ok data -> data <> [] ->
  omac1_aes_128 key data beyond = Some (cmac_spec key data).
Proof.
  intros Hkey Hok Hne. unfold omac1_aes_128.
  rewrite (omac1_vector_spec key data [] beyond Hkey); [cbn [concat]; by rewrite app_nil_r| |].
  - by apply list.Forall_singleton.
  - right. by apply list.Forall_singleton.
Qed.

Lemma le16_pair (kid : bytes) : zlen kid = 2 -> exists x y, kid = [x; y].
Proof.
  intros H. destruct kid as [|x [|y [|z kid]]]; try discriminate H; [eauto|].
  rewrite !zlen_cons in H. pose proof (zlen_nonneg kid). lia.
Qed.

Lemma get_le16_mid a kid c p : p = zlen a -> zlen kid = 2 -> bytes_ok kid ->
  RTW_GET_LE16 (a ++ kid ++ c) p = Done (le_val kid).
Proof.
  intros -> Hl Hok. apply le16_pair in Hl as (x & y & ->).
  apply list.Forall_cons in Hok as [Hx [Hy _]%list.Forall_cons].
  rewrite (get_le16_ok _ _ x y); [change (le_val [x; y]) with ((0 * 256 + y) * 256 + x); f_equal; lia| | |done..].
  - by apply ldr_mid.
  - change (a ++ [x; y] ++ c) with (a ++ [x] ++ y :: c). rewrite app_assoc.
    apply ldr_mid. by rewrite zlen_app.
Qed.

Lemma rdr_mid3 (a b c d : bytes) p n : p = zlen a + zlen b -> n = zlen c ->
  rdr (a ++ b ++ c ++ d) p n = Done c.
Proof. intros. rewrite app_assoc. apply rdr_mid; [by rewrite zlen_app|done]. Qed.

Lemma rdr_head (b c : bytes) n : n = zlen b -> rdr (b ++ c) 0 n = Done b.
Proof. intros. by apply (rdr_mid [] b c). Qed.

Lemma protected_ok h before kid ipn : bytes_ok h -> Forall (fun e => elem_ok e /\ e.1 <> _MME_IE_) before ->
  zlen kid = 2 -> bytes_ok kid -> zlen ipn = 6 -> bytes_ok ipn ->
  bytes_ok (aad h ++ encode (before ++ [mme kid ipn (replicate 8 0)])).
Proof.
  intros Hh Hb Hk Hkok Hi Hiok. apply bytes_ok_app_2; [by apply aad_ok|]. rewrite encode_mme by done.
  apply bytes_ok_app_2; [apply encode_ok; eapply List.Forall_impl; [|exact Hb]; by intros ? [? _]|].
  apply bytes_ok_app_2; [by apply bytes_ok_spec|].
  apply bytes_ok_app_2; [done|]. apply bytes_ok_app_2; [done|by apply bytes_ok_spec].
Qed.

Lemma bip_mic_len key h before kid ipn : block_ok key -> 
  bytes_ok (aad h ++ encode (before ++ [mme kid ipn (replicate 8 0)])) -> zlen (bip_mic key h before kid ipn) = 8.
Proof.
  intros Hk Hok. unfold bip_mic, zlen. rewrite length_take, (proj1 (cmac_spec_ok _ _ Hk Hok)). done.
Qed.

Section verify.
Context (beyond : bytes) (s : bip_priv) (key : bytes).
Hypothesis key_found : dot11wBIPKey s !! Z.to_nat (dot11wBIPKeyid s) = Some key.
Hypothesis key_ok : block_ok key.

Definition verdict (h : bytes) (before : list elem) (kid ipn mic : bytes) : Z * bip_priv :=
  if (mgnt_80211w_IPN_rx s <? le_val ipn) && (le_val kid =? dot11wBIPKeyid s)
     && bool_decide (mic = bip_mic key h before kid ipn)
  then (_SUCCESS, set_IPN_rx (le_val ipn) s) else (_FAIL, s).

Lemma bip_verify_run h before kid ipn mic post : protected h before kid ipn mic ->
  rtw_BIP_verify true beyond (h ++ encode (before ++ [mme kid ipn mic]) ++ post)
    (24 + zlen (encode (before ++ [mme kid ipn mic]))) s = Done (verdict h before kid ipn mic).
Proof.
  intros [Hh Hhok Hb [Hk Hkok] [Hi Hiok] Hm Hs].
  unfold rtw_BIP_verify. cbn [negb]. unfold WLAN_HDR_A3_LEN, BIP_AAD_SIZE.
  set (body := encode (before ++ [mme kid ipn mic])).
  assert (Hbl : zlen body = zlen (encode before) + 18).
  { unfold body. rewrite encode_mme, !zlen_app by done. change (zlen [_MME_IE_; 16]) with 2. lia. }
  pose proof (zlen_nonneg (encode before)).
  replace (24 + zlen body - 24) with (zlen body) by lia. rewrite u32_id by lia.
  rewrite (rdr_mid h body post 24 (zlen body)), done_bind by done.
  replace (replicate (Z.to_nat (zlen body + 20)) 0) with (replicate 20 0 ++ replicate (length body) 0 ++ [])
    by (rewrite app_nil_r, <- replicate_add; f_equal; unfold zlen in *; lia).
  rewrite (wrr_mid (replicate 20 0)), done_bind, app_nil_r by (done || by rewrite length_replicate).
  pose proof (get_ie_hit before (mme kid ipn mic) [] (replicate 20 0) _MME_IE_ (zlen body) 0) as Hg.
  rewrite app_nil_r, mme_len in Hg by done. fold body in Hg.
  change (zlen (replicate 20 0)) with 20 in Hg.
  rewrite Hg, done_bind; [|eapply List.Forall_impl; [|exact Hb]; by intros ? [_ ?]|done|lia].
  set (z := replicate 20 0). set (pre := encode before) in *.
  set (a := z ++ pre ++ [_MME_IE_; 16]).
  assert (Ha : zlen a = 22 + zlen pre)
    by (unfold a; rewrite !zlen_app; change (zlen z) with 20; change (zlen [_; _]) with 2; lia).
  assert (Eb : body = (pre ++ [_MME_IE_; 16] ++ kid ++ ipn) ++ mic)
    by (unfold body; rewrite encode_mme by done; by rewrite <- !app_assoc).
  assert (Ez : forall t, z ++ (pre ++ [_MME_IE_; 16] ++ kid ++ ipn) ++ t = a ++ kid ++ ipn ++ t)
    by (intros; unfold a; by rewrite <- !app_assoc).
  rewrite Eb, !Ez.
  rewrite (rdr_mid3 a kid ipn mic _ 6), done_bind by lia.
  unfold verdict. rewrite Z.leb_antisym. destruct (mgnt_80211w_IPN_rx s <? le_val ipn); [|done].
  cbn [negb andb].
  rewrite (get_le16_mid a kid), done_bind by (done || lia).
  destruct (le_val kid =? dot11wBIPKeyid s); [|done]. cbn [negb andb].
  replace (a ++ kid ++ ipn ++ mic) with ((a ++ kid ++ ipn) ++ mic ++ [])
    by (by rewrite app_nil_r, <- !app_assoc).
  rewrite wrr_mid, done_bind, app_nil_r, <- !app_assoc
    by (unfold zlen in *; rewrite ?length_app, ?length_replicate; lia).
  rewrite <- Ez, (aad_run z _ [] h (pre ++ [_MME_IE_; 16] ++ kid ++ ipn ++ mic ++ post) 0 eq_refl Hh Hhok eq_refl), done_bind.
  rewrite key_found. cbn [lift]. rewrite done_bind.
  assert (Em : (pre ++ [_MME_IE_; 16] ++ kid ++ ipn) ++ replicate 8 0 = encode (before ++ [mme kid ipn (replicate 8 0)]))
    by (rewrite encode_mme by done; by rewrite <- !app_assoc).
  rewrite Em, omac1_run; [|done| |done].
  - cbn [lift]. rewrite done_bind.
    replace (h ++ pre ++ [_MME_IE_; 16] ++ kid ++ ipn ++ mic ++ post)
      with ((h ++ pre ++ [_MME_IE_; 16] ++ kid ++ ipn) ++ mic ++ post) by (by rewrite <- !app_assoc).
    rewrite rdr_mid, done_bind by (rewrite ?zlen_app; lia).
    rewrite (bool_decide_ext (take 8 _ = mic) (mic = bip_mic key h before kid ipn))
      by (unfold bip_mic; split; congruence).
    by destruct (bool_decide _).
  - by apply protected_ok.
Qed.
End verify.

(** ** Transmission *)

Lemma rtw_set_ie_prefix m p index len source extra frlen : len = zlen source ->
  rtw_set_ie m p index len (source ++ extra) frlen = rtw_set_ie m p index len source frlen.
Proof.
  intros ->. unfold rtw_set_ie.
  replace (rdr (source ++ extra) 0 (zlen source)) with (rdr source 0 (zlen source)); [done|].
  rewrite rdr_all by done. symmetry. by apply (rdr_mid [] source extra).
Qed.

Lemma subtype_take2 h : 2 <= zlen h -> GetFrameSubType (take 2 h) = GetFrameSubType h.
Proof.
  intros Hh. destruct h as [|x [|y h]]; [| |done]; exfalso.
  - rewrite zlen_nil in Hh. lia.
  - rewrite zlen_cons, zlen_nil in Hh. lia.
Qed.

Definition mme_kid (s : bip_priv) : bytes := [u8 (dot11wBIPKeyid s); 0].
Definition mme_ipn (s : bip_priv) : bytes := le_bytes 6 (mgnt_80211w_IPN s).

Lemma bip_coalesce_run beyond s key pre h before room post :
  dot11wBIPKey s !! Z.to_nat (dot11wBIPKeyid s) = Some key -> block_ok key ->
  protected h before (mme_kid s) (mme_ipn s) (replicate 8 0) ->
  GetFrameSubType h = WIFI_DEAUTH \/ GetFrameSubType h = WIFI_DISASSOC -> zlen room = 18 ->
  let mic := bip_mic key h before (mme_kid s) (mme_ipn s) in
  bip_coalesce beyond (pre ++ h ++ encode before ++ room ++ post) (zlen pre) (24 + zlen (encode before)) s
  = Done (_SUCCESS, pre ++ h ++ encode (before ++ [mme (mme_kid s) (mme_ipn s) mic]) ++ post,
          24 + zlen (encode before) + 18, set_IPN (u64 (mgnt_80211w_IPN s + 1)) s).
Proof.
  intros Hkey Hko [Hh Hhok Hb [Hk Hkok] [Hi Hiok] _ Hs] Hsub Hr mic.
  set (kid := mme_kid s) in *. set (ipn := mme_ipn s) in *. set (b := encode before) in *.
  pose proof (zlen_nonneg b). unfold bip_coalesce, BIP_AAD_SIZE, WLAN_HDR_A3_LEN.
  assert (E2 : rdr (pre ++ h ++ b ++ room ++ post) (zlen pre) 2 = Done (take 2 h)).
  { rewrite <- (take_drop 2 h) at 1. rewrite <- (app_assoc (take 2 h)).
    apply rdr_mid; [done|]. unfold zlen in *. rewrite length_take. lia. }
  rewrite E2, done_bind, subtype_take2 by lia. clear E2.
  replace (negb (GetFrameSubType h =? WIFI_DEAUTH) && negb (GetFrameSubType h =? WIFI_DISASSOC)) with false
    by (destruct Hsub as [->| ->]; done).
  cbv zeta. rewrite u32_id by lia.
  change (u8 (dot11wBIPKeyid s) :: 0 :: le_bytes 6 (mgnt_80211w_IPN s) ++ replicate 10 0)
    with (kid ++ ipn ++ replicate 8 0 ++ [0; 0]).
  replace (kid ++ ipn ++ replicate 8 0 ++ [0; 0]) with ((mme kid ipn (replicate 8 0)).2 ++ [0; 0])
    by (cbn [mme snd]; by rewrite <- !app_assoc).
  rewrite rtw_set_ie_prefix by (by rewrite mme_len).
  replace (pre ++ h ++ b ++ room ++ post) with ((pre ++ h ++ b) ++ room ++ post) by (by rewrite <- !app_assoc).
  replace (zlen pre + (24 + zlen b)) with (zlen (pre ++ h ++ b)) by (rewrite !zlen_app; lia).
  rewrite rtw_set_ie_run, done_bind by (rewrite ?mme_len by done; done || lia).
  replace (encode1 (_MME_IE_, (mme kid ipn (replicate 8 0)).2)) with (encode [mme kid ipn (replicate 8 0)])
    by (unfold encode; cbn [map concat]; by rewrite app_nil_r).
  set (B := encode (before ++ [mme kid ipn (replicate 8 0)])) in *.
  assert (HB : B = b ++ encode [mme kid ipn (replicate 8 0)]) by apply encode_app.
  assert (HBl : zlen B = zlen b + 18).
  { unfold B. rewrite encode_mme, !zlen_app by done. fold b. change (zlen [_MME_IE_; 16]) with 2. change (zlen (replicate 8 0)) with 8. lia. }
  assert (HBok : bytes_ok (aad h ++ B)).
  { by apply protected_ok. }
  replace ((pre ++ h ++ b) ++ encode [mme kid ipn (replicate 8 0)] ++ post) with (pre ++ h ++ B ++ post)
    by (rewrite HB; by rewrite <- !app_assoc).
  replace (replicate (Z.to_nat (20 + (24 + zlen b))) 0)
    with (replicate 20 0 ++ replicate (length B) 0 ++ replicate 6 0)
    by (rewrite <- !replicate_add; f_equal; unfold zlen in *; lia).
  rewrite aad_run, done_bind by done.
  replace (24 + zlen b + 16 + 2 - 24) with (zlen B) by lia.
  rewrite (rdr_mid3 pre h B post _ (zlen B)), done_bind by lia.
  pose proof (zlen_aad h Hh).
  rewrite (wrr_mid (aad h) (replicate (length B) 0)), done_bind by (done || by rewrite length_replicate).
  change (dot11wBIPKeyid (set_IPN _ s)) with (dot11wBIPKeyid s).
  change (dot11wBIPKey (set_IPN _ s)) with (dot11wBIPKey s). rewrite Hkey. cbn [lift]. rewrite done_bind.
  rewrite (app_assoc (aad h)), rdr_head, done_bind by (rewrite ?zlen_app; done || lia).
  rewrite omac1_run; [|done..].
  cbn [lift]. rewrite done_bind.
  assert (Hb2 : forall t, pre ++ h ++ (b ++ [_MME_IE_; 16] ++ kid ++ ipn ++ t) ++ post
                = (pre ++ h ++ b ++ [_MME_IE_; 16] ++ kid ++ ipn) ++ t ++ post)
    by (intros; by rewrite <- !app_assoc).
  change (take 8 (cmac_spec key (aad h ++ B))) with mic.
  assert (Hmic : zlen mic = 8) by (by apply bip_mic_len).
  unfold B. rewrite !encode_mme, !Hb2 by done.
  rewrite wrr_mid, done_bind;
    [|rewrite !zlen_app; change (zlen [_MME_IE_; 16]) with 2; lia|unfold zlen in *; rewrite length_replicate; lia].
  fold b. replace (24 + zlen b + 16 + 2) with (24 + zlen b + 18) by lia. done.
Qed.

(** ** Properties *)

(** C35: [rtw_BIP_verify] accepts a protected group frame exactly when its packet number is
    above the last one accepted, the key id is the current one, and the MIC is AES-CMAC
    under the group integrity key of the addresses, the frame control field without its
    retry, power management and more-data bits, and the body with a zero MIC; only then
    the packet number of the receiver advances. *)
Theorem bip_verify_accepts_iff beyond s key h before kid ipn mic post :
  dot11wBIPKey s !! Z.to_nat (dot11wBIPKeyid s) = Some key -> block_ok key ->
  protected h before kid ipn mic ->
  rtw_BIP_verify true beyond (h ++ encode (before ++ [mme kid ipn mic]) ++ post)
    (24 + zlen (encode (before ++ [mme kid ipn mic]))) s
  = Done (if (mgnt_80211w_IPN_rx s <? le_val ipn) && (le_val kid =? dot11wBIPKeyid s)
             && bool_decide (mic = bip_mic key h before kid ipn)
          then (_SUCCESS, set_IPN_rx (le_val ipn) s) else (_FAIL, s)).
Proof. intros. by apply bip_verify_run. Qed.

Definition ex_bip (n m : Z) : bip_priv :=
  mk_bip 4 (replicate 6 (zseq 0 16)) true n m.
Definition ex_deauth : bytes := [0xc0; 0x08; 0; 0] ++ replicate 6 0xff ++ zseq 1 6 ++ zseq 1 6 ++ [0x10; 0].

Lemma ex_protected mic : zlen mic = 8 ->
  protected ex_deauth [(7, [])] (mme_kid (ex_bip 9 3)) (mme_ipn (ex_bip 9 3)) mic.
Proof.
  intros Hm. constructor; try done.
  - by apply bytes_ok_spec.
  - constructor; [|done]. split; [|done]. split; [cbn; lia|]. split; [constructor|done].
  - by split; [|apply bytes_ok_spec].
  - by split; [|apply bytes_ok_spec].
Qed.

Lemma ex_key_ok : block_ok (zseq 0 16).
Proof. by split; [|apply bytes_ok_spec]. Qed.

Lemma bip_verify_accepts_iff_witness :
  let s := ex_bip 9 3 in let mic := replicate 8 0 in
  rtw_BIP_verify true [] (ex_deauth ++ encode ([(7, [])] ++ [mme (mme_kid s) (mme_ipn s) mic]) ++ [])
    (24 + zlen (encode ([(7, [])] ++ [mme (mme_kid s) (mme_ipn s) mic]))) s
  = Done (if (3 <? le_val (mme_ipn s)) && (le_val (mme_kid s) =? 4)
             && bool_decide (mic = bip_mic (zseq 0 16) ex_deauth [(7, [])] (mme_kid s) (mme_ipn s))
          then (_SUCCESS, set_IPN_rx (le_val (mme_ipn s)) s) else (_FAIL, s)).
Proof.
  apply (bip_verify_accepts_iff [] (ex_bip 9 3) (zseq 0 16)); [reflexivity|apply ex_key_ok|].
  by apply ex_protected.
Defined.

(** What [rtw_mgmt_xmitframe_coalesce] makes of a group-addressed deauthentication or
    disassociation, a receiver with the same key that has seen lower packet numbers only
    accepts, also when retransmission changed the bits and the sequence number that the
    additional data leaves out; and it rejects every repetition of the frame. *)
Theorem bip_round_trip beyond beyond' s r key pre h before room post :
  dot11wBIPKey s !! Z.to_nat (dot11wBIPKeyid s) = Some key -> block_ok key ->
  is_u8 (dot11wBIPKeyid s) -> 0 <= mgnt_80211w_IPN s < 2 ^ 48 ->
  protected h before (mme_kid s) (mme_ipn s) (replicate 8 0) ->
  GetFrameSubType h = WIFI_DEAUTH \/ GetFrameSubType h = WIFI_DISASSOC -> zlen room = 18 ->
  dot11wBIPKeyid r = dot11wBIPKeyid s -> dot11wBIPKey r = dot11wBIPKey s ->
  mgnt_80211w_IPN_rx r < mgnt_80211w_IPN s ->
  let r' := set_IPN_rx (mgnt_80211w_IPN s) r in
  exists body, let n := 24 + zlen body in
    bip_coalesce beyond (pre ++ h ++ encode before ++ room ++ post) (zlen pre) (24 + zlen (encode before)) s
      = Done (_SUCCESS, pre ++ h ++ body ++ post, n, set_IPN (u64 (mgnt_80211w_IPN s + 1)) s) /\
    forall h' t, zlen h' = 24 -> bytes_ok h' -> aad h' = aad h ->
      rtw_BIP_verify true beyond' (h' ++ body ++ t) n r = Done (_SUCCESS, r') /\
      rtw_BIP_verify true beyond' (h' ++ body ++ t) n r' = Done (_FAIL, r').
Proof.
  intros Hkey Hko Hid Hn Hp Hsub Hr Eid Ek Hlt r'.
  pose proof (bip_coalesce_run beyond s key pre h before room post Hkey Hko Hp Hsub Hr) as Ht. cbv zeta in Ht.
  destruct Hp as [Hh Hhok Hb Hk Hi _ Hs].
  set (mic := bip_mic key h before (mme_kid s) (mme_ipn s)) in *.
  assert (Hm : zlen mic = 8) by (apply bip_mic_len; [done|apply protected_ok; tauto]).
  exists (encode (before ++ [mme (mme_kid s) (mme_ipn s) mic])). cbv zeta. split.
  { rewrite Ht. do 3 f_equal. rewrite encode_mme, !zlen_app, Hm by tauto.
    rewrite (proj1 Hk), (proj1 Hi). change (zlen [_MME_IE_; 16]) with 2. lia. }
  intros h' t Hh' Hok' Ea.
  assert (Hp' : protected h' before (mme_kid s) (mme_ipn s) mic) by (by constructor).
  assert (Em : mic = bip_mic key h' before (mme_kid s) (mme_ipn s)) by (unfold mic, bip_mic; by rewrite Ea).
  assert (Ek2 : le_val (mme_kid s) = dot11wBIPKeyid s).
  { unfold mme_kid. rewrite u8_id by done. unfold le_val. cbn [rev app be_val fold_left]. lia. }
  assert (En : le_val (mme_ipn s) = mgnt_80211w_IPN s) by (apply le_val_bytes; exact Hn).
  assert (Hkr : dot11wBIPKey r !! Z.to_nat (dot11wBIPKeyid r) = Some key) by (rewrite Eid, Ek; exact Hkey).
  rewrite (bip_verify_run beyond' r key Hkr Hko _ _ _ _ _ t Hp').
  rewrite (bip_verify_run beyond' r' key Hkr Hko _ _ _ _ _ t Hp').
  unfold verdict. change (dot11wBIPKeyid r') with (dot11wBIPKeyid r). rewrite Ek2, En, Eid. split.
  - rewrite (proj2 (Z.ltb_lt _ _)), Z.eqb_refl, bool_decide_eq_true_2 by done. done.
  - change (mgnt_80211w_IPN_rx r') with (mgnt_80211w_IPN s). by rewrite Z.ltb_irrefl.
Qed.

Lemma bip_round_trip_witness :
  let s := ex_bip 9 3 in
  exists body, let n := 24 + zlen body in
    bip_coalesce [] ([] ++ ex_deauth ++ encode [(7, [])] ++ replicate 18 0 ++ []) (zlen (@nil Z)) (24 + zlen (encode [(7, [])])) s
      = Done (_SUCCESS, [] ++ ex_deauth ++ body ++ [], n, set_IPN 10 s) /\
    forall h' t, zlen h' = 24 -> bytes_ok h' -> aad h' = aad ex_deauth ->
      rtw_BIP_verify true [1] (h' ++ body ++ t) n s = Done (_SUCCESS, set_IPN_rx 9 s) /\
      rtw_BIP_verify true [1] (h' ++ body ++ t) n (set_IPN_rx 9 s) = Done (_FAIL, set_IPN_rx 9 s).
Proof.
  apply (bip_round_trip [] [1] (ex_bip 9 3) (ex_bip 9 3) (zseq 0 16) [] ex_deauth [(7, [])] (replicate 18 0) []);
    try reflexivity; try (cbn; lia).
  - apply ex_key_ok.
  - by apply ex_protected.
  - by left.
Defined.

(** An element whose length byte passes the end of the frame is not refused: with a
    packet number that is new and the right key id, both sent in the clear,
    [rtw_BIP_verify] clears eight bytes behind the buffer it allocated. *)
Theorem bip_verify_overflow beyond s h before kid ipn rest n :
  zlen h = 24 -> Forall (fun e => e.1 <> _MME_IE_) before -> zlen kid = 2 -> bytes_ok kid -> zlen ipn = 6 ->
  mgnt_80211w_IPN_rx s < le_val ipn -> le_val kid = dot11wBIPKeyid s ->
  zlen (encode before) + zlen rest < 2 ^ 16 -> 8 + zlen rest < n ->
  let f := h ++ encode before ++ [_MME_IE_; n] ++ kid ++ ipn ++ rest in
  rtw_BIP_verify true beyond f (zlen f) s = OutOfBounds.
Proof.
  intros Hh Hb Hk Hkok Hi Hipn Hkid Hs Hn f. set (b := encode before) in *.
  set (body := b ++ [_MME_IE_; n] ++ kid ++ ipn ++ rest).
  pose proof (zlen_nonneg b). pose proof (zlen_nonneg rest).
  assert (Hbl : zlen body = zlen b + 10 + zlen rest)
    by (unfold body; rewrite !zlen_app, Hk, Hi; change (zlen [_; _]) with 2; lia).
  assert (Hf : f = h ++ body ++ []) by (unfold f, body; by rewrite app_nil_r).
  assert (Hfl : zlen f = 24 + zlen body) by (rewrite Hf, app_nil_r, zlen_app; lia).
  unfold rtw_BIP_verify. cbn [negb]. unfold WLAN_HDR_A3_LEN, BIP_AAD_SIZE. rewrite Hfl.
  replace (24 + zlen body - 24) with (zlen body) by lia. rewrite u32_id by lia.
  rewrite Hf, (rdr_mid h body [] 24 (zlen body)), done_bind by done.
  replace (replicate (Z.to_nat (zlen body + 20)) 0) with (replicate 20 0 ++ replicate (length body) 0 ++ [])
    by (rewrite app_nil_r, <- replicate_add; f_equal; unfold zlen in *; lia).
  rewrite (wrr_mid (replicate 20 0)), done_bind, app_nil_r by (done || by rewrite length_replicate).
  set (z := replicate 20 0). set (a := z ++ b).
  assert (Ha : zlen a = 20 + zlen b) by (unfold a; rewrite zlen_app; done).
  assert (Ez : z ++ body = a ++ _MME_IE_ :: n :: kid ++ ipn ++ rest) by (unfold body, a; by rewrite <- app_assoc).
  assert (Hg : rtw_get_ie (z ++ body) 20 _MME_IE_ 0 (zlen body) = Done (Some (20 + zlen b), n)).
  { unfold rtw_get_ie. rewrite (proj2 (Z.ltb_ge _ _)) by lia.
    pose proof (length_encode before) as Hle. fold b in Hle.
    replace (Z.to_nat (zlen body)) with (length before + S (Z.to_nat (zlen body) - length before - 1))%nat
      by (unfold zlen in *; lia).
    rewrite (get_ie_loop_skip before _ _ z ([_MME_IE_; n] ++ kid ++ ipn ++ rest)) by (done || (fold b; lia)).
    cbn [get_ie_loop]. fold b. rewrite Ez, (ldr_mid a _ _MME_IE_ (20 + zlen b)), done_bind by lia.
    rewrite Z.eqb_refl.
    replace (a ++ _MME_IE_ :: n :: kid ++ ipn ++ rest) with ((a ++ [_MME_IE_]) ++ n :: kid ++ ipn ++ rest)
      by (by rewrite <- app_assoc).
    by rewrite ldr_mid, done_bind by (rewrite zlen_app; change (zlen [_]) with 1; lia). }
  rewrite Hg, done_bind, Ez.
  replace (a ++ _MME_IE_ :: n :: kid ++ ipn ++ rest) with ((a ++ [_MME_IE_; n]) ++ kid ++ ipn ++ rest)
    by (by rewrite <- app_assoc).
  assert (Ha2 : zlen (a ++ [_MME_IE_; n]) = 22 + zlen b) by (rewrite zlen_app; change (zlen [_; _]) with 2; lia).
  rewrite (rdr_mid3 _ kid ipn rest _ 6), done_bind by lia.
  rewrite (proj2 (Z.leb_gt _ _)) by lia.
  rewrite (get_le16_mid _ kid), done_bind, Hkid, Z.eqb_refl by (done || lia). cbn [negb].
  unfold wrr. rewrite wr_None; [done|]. rewrite !zlen_app, Hk, Hi in *. change (zlen (replicate 8 0)) with 8. lia.
Qed.

Lemma bip_verify_overflow_witness :
  let f := ex_deauth ++ encode [(7, [])] ++ [_MME_IE_; 255] ++ [4; 0] ++ [0; 0; 0; 0; 0; 1] ++ replicate 8 0 in
  rtw_BIP_verify true [] f (zlen f) (ex_bip 9 3) = OutOfBounds.
Proof.
  apply (bip_verify_overflow [] (ex_bip 9 3) ex_deauth [(7, [])] [4; 0] [0; 0; 0; 0; 0; 1] (replicate 8 0) 255);
    try reflexivity.
  - by constructor.
  - by apply bytes_ok_spec.
Defined.
