(* ===== verification/RxEntry.v ===== *)
(** * Entry of a received frame (core/rtw_recv.c)

    [recv_func] and what it calls before [recv_func_posthandle] (RecvPath): the check of
    the header by frame type ([validate_recv_frame]), the rules of the three directions of
    data frames ([sta2sta_data_frame], [ap2sta_data_frame], [sta2ap_data_frame]), duplicate
    detection, protection of management frames ([validate_80211w_mgmt]), and the queue of
    frames that wait for the pairwise key.  Control frames and power management bits go to
    PowerSave.  What the rest of the driver is asked to do (a deauthentication to send, a
    management frame to dispatch) is logged.  TDLS, WAPI and P2P code is off in the build;
    receive statistics are left out. *)

From stdpp Require Import gmultiset.
From S2P Require Import Prelude Crc32 Ccmp SecFrames WifiHdr RxFrame Reorder MacId StaMgt.
From S2P Require Import TxQueue PowerSave RecvPath Ie Bip.

(** ** State *)

Definition WIFI_STATION_STATE : Z := 8.
Definition WIFI_ADHOC_STATE : Z := 0x20.
Definition WIFI_ADHOC_MASTER_STATE : Z := 0x40.
Definition WIFI_UNDER_LINKING : Z := 0x80.
Definition WIFI_MP_STATE : Z := 0x10000.
Definition WIFI_MONITOR_STATE : Z := 0x80000000.
Definition _FW_UNDER_LINKING : Z := WIFI_UNDER_LINKING.
Definition WLAN_REASON_CLASS3_FRAME_FROM_NONASSOC_STA : Z := 7.
Definition NR_RECVFRAME : Z := 256.
Definition _SMS4_ : Z := 6.
Definition dot11AuthAlgrthm_Open : Z := 0.
Definition dot11AuthAlgrthm_Shared : Z := 1.
Definition dot11AuthAlgrthm_8021X : Z := 2.
Definition dot11AuthAlgrthm_Auto : Z := 3.
Definition dot11AuthAlgrthm_WAPI : Z := 4.

(** What the receive path asks of the rest of the driver. *)
Inductive mlme_event :=
  | IssueDeauth (da : bytes) (reason : Z)
  | IssueSAQuery
  | MgtDispatch (frame : bytes)
  | MpRecvFrame (id : Z)
  | MonitorFrame (id : Z).

(** The state of the connection the receive path reads: [mlme_priv], the adapter's
    address, [security_priv], the registry; [dot118021XPrivacy] and [qos_option] are those
    of a station. *)
Record rx_config := mk_cfg {
  fw_state : Z; myid : bytes; mybssid : bytes;
  dot11AuthAlgrthm : Z; dot11PrivacyAlgrthm : Z; dot118021XGrpPrivacy : Z;
  dot118021XPrivacy : nat -> Z; qos_option : nat -> bool;
  bRTWSmbCfg : bool; mp_mode : bool; wpapsk : bool
}.

(** The parts of the receive path's world, the log of PowerSave, and the rest. *)
Record entry := mk_entry {
  world : rx_world; ps_log : list ps_event; mlme_log : list mlme_event; bip : bip_priv;
  bIsAnyNonBEPkts : bool; send_issue_deauth_time : Z; uc_swdec_pending_queue : list rframe
}.

Definition set_world (w : rx_world) (e : entry) : entry :=
  mk_entry w (ps_log e) (mlme_log e) (bip e) (bIsAnyNonBEPkts e) (send_issue_deauth_time e)
    (uc_swdec_pending_queue e).
Definition log_mlme (x : mlme_event) (e : entry) : entry :=
  mk_entry (world e) (ps_log e) (mlme_log e ++ [x]) (bip e) (bIsAnyNonBEPkts e)
    (send_issue_deauth_time e) (uc_swdec_pending_queue e).
Definition set_bip (b : bip_priv) (e : entry) : entry :=
  mk_entry (world e) (ps_log e) (mlme_log e) b (bIsAnyNonBEPkts e) (send_issue_deauth_time e)
    (uc_swdec_pending_queue e).
Definition set_nonbe (b : bool) (e : entry) : entry :=
  mk_entry (world e) (ps_log e) (mlme_log e) (bip e) b (send_issue_deauth_time e)
    (uc_swdec_pending_queue e).
Definition set_deauth_time (t : Z) (e : entry) : entry :=
  mk_entry (world e) (ps_log e) (mlme_log e) (bip e) (bIsAnyNonBEPkts e) t (uc_swdec_pending_queue e).
Definition set_waiting (q : list rframe) (e : entry) : entry :=
  mk_entry (world e) (ps_log e) (mlme_log e) (bip e) (bIsAnyNonBEPkts e) (send_issue_deauth_time e) q.

Definition table (e : entry) : sta_priv := stapriv (rw_ad (world e)).

(** An operation of PowerSave on the adapter and its log. *)
Definition to_psw (e : entry) : psw := mk_psw (rw_ad (world e)) (ps_log e).
Definition of_psw (w : psw) (e : entry) : entry :=
  mk_entry (set_ad (ad w) (world e)) (evs w) (mlme_log e) (bip e) (bIsAnyNonBEPkts e)
    (send_issue_deauth_time e) (uc_swdec_pending_queue e).

(** The fields of [rx_pkt_attrib] used only up to [recv_func_posthandle], with the frame. *)
Record hdr_attrib := mk_ha { pkt_len : Z; to_fr_ds : Z; order : bool; bssid : bytes }.
Record precv := mk_precv { fr : rframe; ha : hdr_attrib }.

Definition ptr (p : precv) : bytes := drop (Z.to_nat (RxFrame.rx_data (fr p))) (rx_mem (fr p)).
Definition pattr (p : precv) : rx_pkt_attrib := attrib (fr p).
Definition set_pattr (a : rx_pkt_attrib) (p : precv) : precv := mk_precv (set_attrib a (fr p)) (ha p).

(** The addresses of a frame. *)
Definition set_addrs (d s r t : bytes) (a : rx_pkt_attrib) : rx_pkt_attrib :=
  mk_rxa (hdrlen a) (iv_len a) (icv_len a) (encrypt a) (privacy a) (qos a) (priority a)
    (amsdu a) (seq_num a) (frag_num a) (mfrag a) (eth_type a) d s t r (key_index a) (bdecrypted a).
Definition set_bssid (b : bytes) (p : precv) : precv :=
  mk_precv (fr p) (mk_ha (pkt_len (ha p)) (to_fr_ds (ha p)) (order (ha p)) b).
Definition zero_addr : bytes := replicate 6 0.
Definition same (a b : bytes) : bool := bool_decide (a = b).

(** The addresses are taken from their places in the header. *)
Definition mp_addrs (p : precv) : precv :=
  let h := ptr p in
  set_bssid (GetAddr3Ptr h)
    (set_pattr (set_addrs (GetAddr1Ptr h) (GetAddr2Ptr h) (GetAddr1Ptr h) (GetAddr2Ptr h) (pattr p)) p).

Section rx_entry.
(** The configuration; the parameters of PowerSave and RecvPath; whether [rtw_zmalloc]
    of a size succeeds; what follows the address of the data in [omac1_aes_128]; and
    [rtw_get_passing_time_ms], which depends on the clock. *)
Context (c : rx_config) (not_pcie : bool) (hiq_filter ap_expire_to : Z).
Context (HZ now : Z) (skb_alloc_ok : Z -> bool) (drv : drv_flags) (ht : bool) (CONFIG_IEEE80211W : bool).
Context (zmalloc_ok : Z -> bool) (beyond : bytes) (passing_time_ms : Z -> Z).

Definition check_fwstate (s : Z) : bool := negb (fw_state c .& s =? 0).

(** ** The three directions of data frames: the frame, [*psta] and the return value *)

(** [check BSSID] of the ad hoc and the station mode. *)
Definition foreign_bssid (p : precv) : bool :=
  same (bssid (ha p)) zero_addr || same (mybssid c) zero_addr || negb (same (bssid (ha p)) (mybssid c)).

(** The lookup at the end of [sta2sta_data_frame]. *)
Definition sta2sta_lookup (bmcast : bool) (sta_addr : option bytes) (ret : Z) (e : entry) (p : precv)
    : precv * option nat * Z :=
  let psta := if bmcast then rtw_get_bcmc_stainfo (table e)
              else a ← sta_addr; rtw_get_stainfo (table e) a in
  (p, psta, match psta with None => _FAIL | Some _ => ret end).

Definition sta2sta_data_frame (e : entry) (p : precv) : precv * option nat * Z :=
  let a := pattr p in
  let bmcast := IS_MCAST (dst a) in
  if check_fwstate WIFI_ADHOC_STATE || check_fwstate WIFI_ADHOC_MASTER_STATE then
    if same (myid c) (src a) then (p, None, _FAIL) else
    if negb (same (myid c) (dst a)) && negb bmcast then (p, None, _FAIL) else
    if foreign_bssid p then (p, None, _FAIL) else
    sta2sta_lookup bmcast (Some (src a)) _SUCCESS e p
  else if check_fwstate WIFI_STATION_STATE then
    if negb (same (bssid (ha p)) (src a)) then (p, None, _FAIL) else
    sta2sta_lookup bmcast (Some (bssid (ha p))) _SUCCESS e p
  else if check_fwstate WIFI_AP_STATE then
    if bmcast then
      if negb (IS_MCAST (bssid (ha p))) then (p, None, _FAIL) else
      sta2sta_lookup bmcast None _SUCCESS e p
    else
      if negb (same (bssid (ha p)) (dst a)) then (p, None, _FAIL) else
      sta2sta_lookup bmcast (Some (src a)) _SUCCESS e p
  else if check_fwstate WIFI_MP_STATE then
    sta2sta_lookup bmcast (Some (mybssid c)) _SUCCESS e (mp_addrs p)
  else sta2sta_lookup bmcast None _FAIL e p.

(** The branch of [WIFI_MP_STATE] shared by the two other directions. *)
Definition mp_data_frame (e : entry) (p : precv) : entry * precv * option nat * Z :=
  let p := mp_addrs p in
  let p := if bRTWSmbCfg c then p else set_bssid (mybssid c) p in
  let psta := rtw_get_stainfo (table e) (bssid (ha p)) in
  (e, p, psta, match psta with None => _FAIL | Some _ => _SUCCESS end).

Definition no_data (p : precv) : bool := negb (GetFrameSubType (ptr p) .& BIT 6 =? 0).

Definition ap2sta_data_frame (e : entry) (p : precv) : entry * precv * option nat * Z :=
  let a := pattr p in
  let bmcast := IS_MCAST (dst a) in
  if check_fwstate WIFI_STATION_STATE && (check_fwstate _FW_LINKED || check_fwstate _FW_UNDER_LINKING) then
    if same (myid c) (src a) then (e, p, None, _FAIL) else
    if negb (same (myid c) (dst a)) && negb bmcast then (e, p, None, _FAIL) else
    if foreign_bssid p then
      (if bmcast then e
       else log_mlme (IssueDeauth (bssid (ha p)) WLAN_REASON_CLASS3_FRAME_FROM_NONASSOC_STA) e,
       p, None, _FAIL)
    else
      let psta := if bmcast then rtw_get_bcmc_stainfo (table e)
                  else rtw_get_stainfo (table e) (bssid (ha p)) in
      match psta with
      | None => (e, p, None, _FAIL)
      | Some _ => (e, p, psta, if no_data p then RTW_RX_HANDLED else _SUCCESS)
      end
  else if check_fwstate WIFI_MP_STATE && check_fwstate _FW_LINKED then mp_data_frame e p
  else if check_fwstate WIFI_AP_STATE then (e, p, None, RTW_RX_HANDLED)
  else
    if same (myid c) (dst a) && negb bmcast then
      match rtw_get_stainfo (table e) (bssid (ha p)) with
      | None =>
          if (10000 <? passing_time_ms (send_issue_deauth_time e)) || (send_issue_deauth_time e =? 0)
          then (log_mlme (IssueDeauth (bssid (ha p)) WLAN_REASON_CLASS3_FRAME_FROM_NONASSOC_STA)
                  (set_deauth_time now e), p, None, _FAIL)
          else (e, p, None, _FAIL)
      | psta => (e, p, psta, _FAIL)
      end
    else (e, p, None, _FAIL).

(** Where [stop_sta_xmit] would go through a NULL pointer, [None]. *)
Definition sta2ap_data_frame (e : entry) (p : precv) : option (entry * precv * option nat * Z) :=
  let a := pattr p in
  if check_fwstate WIFI_AP_STATE then
    if negb (same (bssid (ha p)) (mybssid c)) then Some (e, p, None, _FAIL) else
    match rtw_get_stainfo (table e) (src a) with
    | None =>
        Some (log_mlme (IssueDeauth (src a) WLAN_REASON_CLASS3_FRAME_FROM_NONASSOC_STA) e, p, None,
              RTW_RX_HANDLED)
    | psta =>
        w ← process_pwrbit_data (fw_state c) not_pcie hiq_filter ap_expire_to (src a) (ptr p) (to_psw e);
        let w := if GetFrameSubType (ptr p) .& WIFI_QOS_DATA_TYPE =? WIFI_QOS_DATA_TYPE
                 then process_wmmps_data (src a) (priority a) (qos_option c) w else w in
        Some (of_psw w e, p, psta, if no_data p then RTW_RX_HANDLED else _SUCCESS)
    end
  else if check_fwstate WIFI_MP_STATE && check_fwstate _FW_LINKED then Some (mp_data_frame e p)
  else if negb (same (ra a) (myid c)) then Some (e, p, None, RTW_RX_HANDLED)
  else Some (log_mlme (IssueDeauth (src a) WLAN_REASON_CLASS3_FRAME_FROM_NONASSOC_STA) e, p, None,
             RTW_RX_HANDLED).

(** ** [validate_recv_data_frame] *)

(** The cipher of a frame; an unknown [dot11AuthAlgrthm] leaves it alone. *)
Definition GET_ENCRY_ALGO (psta : nat) (encry_algo : Z) (bmcst : bool) : Z :=
  let alg := dot11AuthAlgrthm c in
  if (alg =? dot11AuthAlgrthm_Open) || (alg =? dot11AuthAlgrthm_Shared) || (alg =? dot11AuthAlgrthm_Auto)
  then u8 (dot11PrivacyAlgrthm c)
  else if alg =? dot11AuthAlgrthm_8021X
  then (if bmcst then u8 (dot118021XGrpPrivacy c) else u8 (dot118021XPrivacy c psta))
  else if alg =? dot11AuthAlgrthm_WAPI then u8 (dot11PrivacyAlgrthm c)
  else encry_algo.

(** [(iv_len, icv_len)]. *)
Definition SET_ICE_IV_LEN (encrypt : Z) : Z * Z :=
  if (encrypt =? _WEP40_) || (encrypt =? _WEP104_) then (4, 4)
  else if encrypt =? _TKIP_ then (8, 4)
  else if encrypt =? _AES_ then (8, 8)
  else if encrypt =? _SMS4_ then (18, 16)
  else (0, 0).

Definition set_cipher (enc iv icv : Z) (a : rx_pkt_attrib) : rx_pkt_attrib :=
  mk_rxa (hdrlen a) iv icv enc (privacy a) (qos a) (priority a)
    (amsdu a) (seq_num a) (frag_num a) (mfrag a) (eth_type a) (dst a) (src a) (ta a) (ra a)
    (key_index a) (bdecrypted a).
Definition set_qos (hl pri am : Z) (a : rx_pkt_attrib) : rx_pkt_attrib :=
  mk_rxa hl (iv_len a) (icv_len a) (encrypt a) (privacy a) (qos a) pri
    am (seq_num a) (frag_num a) (mfrag a) (eth_type a) (dst a) (src a) (ta a) (ra a)
    (key_index a) (bdecrypted a).
Definition set_psta (o : nat) (f : rframe) : rframe :=
  mk_rf (rf_id f) (rf_pkt f) o (attrib f) (rx_mem f) (RxFrame.rx_data f) (rx_tail f) (RxFrame.rx_len f).
Definition set_tid_rxseq (l : list Z) (s : sta_info) : sta_info :=
  mk_sta (hwaddr s) (state s) (aid s) (mac_id s) (ieee8021x_blocked s) (dot118021x_UncstKey s)
    (dot11tkiprxmickey s) (sleep_q s) (sleepq_len s) (servqs s) (defrag_q s) l
    (recvreorder_ctrl s) (addba_retry_timer s) (RxMgmtFrameSeqNum s) (ps s).

(** The QoS control field; [preorder_ctrl] follows from [rf_psta] and [priority]. *)
Definition parse_qos (e : entry) (p : precv) : option (entry * precv) :=
  let ds := to_fr_ds (ha p) in
  let more := if order (ha p) then 4 else 0 in
  if qos (pattr p) =? 1 then
    qc ← rd (rx_mem (fr p)) (RxFrame.rx_data (fr p) + 24) 2;
    let pri := GetPriority qc in
    let a := set_qos ((if ds =? 3 then 32 else 26) + more) pri (GetAMsdu qc) (pattr p) in
    Some (set_nonbe (negb (pri =? 0) && negb (pri =? 3)) e, set_pattr a p)
  else Some (e, set_pattr (set_qos ((if ds =? 3 then 30 else 24) + more) 0 0 (pattr p)) p).

(** [recv_decache] on the cache of the station. *)
Definition decache (o : nat) (e : entry) (p : precv) : option (entry * Z) :=
  s ← stas (table e) !! o;
  '(l, r) ← recv_decache (pattr p) (tid_rxseq s);
  let a := rw_ad (world e) in
  Some (set_world (set_ad (upd_stas (<[o := set_tid_rxseq l s]> (stas (stapriv a))) a) (world e)) e, r).

Definition set_encryption (o : nat) (a : rx_pkt_attrib) : rx_pkt_attrib :=
  if privacy a then
    let enc := GET_ENCRY_ALGO o (encrypt a) (IS_MCAST (ra a)) in
    let '(iv, icv) := SET_ICE_IV_LEN enc in set_cipher enc iv icv a
  else set_cipher 0 0 0 a.

(** The part behind the directions: the frame has its station. *)
Definition accept_data_frame (o : nat) (e : entry) (p : precv) : option (entry * precv * Z) :=
  let p := mk_precv (set_psta o (fr p)) (ha p) in
  '(e, p) ← parse_qos e p;
  '(e, r) ← decache o e p;
  if r =? _FAIL then Some (e, p, _FAIL)
  else Some (e, set_pattr (set_encryption o (pattr p)) p, _SUCCESS).

(** The switch on the direction bits. *)
Definition data_direction (e : entry) (p : precv) (pbssid : bytes)
    : option (entry * precv * option nat * Z) :=
  let h := ptr p in
  let pda := get_da h in
  let psa := get_sa h in
  let addrs r t := set_bssid pbssid (set_pattr (set_addrs pda psa r t (pattr p)) p) in
  let ds := to_fr_ds (ha p) in
  if ds =? 0 then
    let '(p, psta, ret) := sta2sta_data_frame e (addrs pda psa) in Some (e, p, psta, ret)
  else if ds =? 1 then Some (ap2sta_data_frame e (addrs pda pbssid))
  else if ds =? 2 then sta2ap_data_frame e (addrs pbssid psa)
  else Some (e, addrs (GetAddr1Ptr h) (GetAddr2Ptr h), None, _FAIL).

Definition validate_recv_data_frame (e : entry) (p : precv) : option (entry * precv * Z) :=
  match get_hdr_bssid (ptr p) with
  | None => Some (e, p, _FAIL)
  | Some pbssid =>
      '(e, p, psta, ret) ← data_direction e p pbssid;
      if (ret =? _FAIL) || (ret =? RTW_RX_HANDLED) then Some (e, p, ret) else
      match psta with
      | None => Some (e, p, _FAIL)
      | Some o => accept_data_frame o e p
      end
  end.

(** ** Management frames *)

Definition res_opt {A} (r : res A) : option A := match r with Done a => Some a | _ => None end.

(** The attributes of a protected unicast management frame. *)
Definition mgmt_attr (h : bytes) (a : rx_pkt_attrib) : rx_pkt_attrib :=
  let '(iv, icv) := SET_ICE_IV_LEN _AES_ in
  mk_rxa WLAN_HDR_A3_LEN iv icv _AES_ (privacy a) (qos a) (priority a)
    (amsdu a) (seq_num a) (frag_num a) (mfrag a) (eth_type a) (dst a) (src a) (GetAddr2Ptr h)
    (GetAddr1Ptr h) (key_index a) false.

Definition set_crypt_state (sec : security_priv) (g : sec_globals) (e : entry) : entry :=
  let w := world e in set_world (mk_rw (rw_ad w) (rw_dbg w) (rw_mic w) sec g (rx_drop w)) e.

(** The body is decrypted and moved over the IV; the frame keeps its length, only
    [pkt_len] shrinks.  A frame that does not decrypt is freed by [decryptor], its socket
    buffer too, and the body is moved all the same: an access to freed memory, [None],
    unless the frame has no socket buffer. *)
Definition decrypt_mgmt (e : entry) (p : precv) : option (entry * precv * Z) :=
  let p := set_pattr (mgmt_attr (ptr p) (pattr p)) p in
  let a := pattr p in
  let data_len := u32 (pkt_len (ha p) - hdrlen a - iv_len a - icv_len a) in
  if negb (zmalloc_ok data_len) then Some (e, p, _FAIL) else
  '(r, g, sec) ← decryptor CONFIG_IEEE80211W (rw_sec (world e)) (table e) (cipher_view (fr p)) (rw_glob (world e));
  let e := set_crypt_state sec g e in
  let x := mk_ha (u16 (pkt_len (ha p) - iv_len a - icv_len a)) (to_fr_ds (ha p)) (order (ha p)) (bssid (ha p)) in
  match r with
  | None => if rf_pkt (fr p) then None
            else Some (set_world (free_frame (fr p) (world e)) e, mk_precv (fr p) x, _FAIL)
  | Some v =>
      let f := of_cipher_view (fr p) v in
      mgmt_DATA ← rd (rx_mem f) (RxFrame.rx_data f + hdrlen a + iv_len a) data_len;
      m ← wr (rx_mem f) (RxFrame.rx_data f + hdrlen a) mgmt_DATA;
      Some (e, mk_precv (set_mem m f) x, _SUCCESS)
  end.

Definition validate_80211w_mgmt (e : entry) (p : precv) : option (entry * precv * Z) :=
  let h := ptr p in
  let subtype := GetFrameSubType h in
  let leaving := (subtype =? WIFI_DEAUTH) || (subtype =? WIFI_DISASSOC) in
  if check_fwstate WIFI_STATION_STATE && check_fwstate _FW_LINKED && binstallBIPkey (bip e) then
    if privacy (pattr p) && negb (IS_MCAST (GetAddr1Ptr h)) && (leaving || (subtype =? WIFI_ACTION))
    then decrypt_mgmt e p
    else if IS_MCAST (GetAddr1Ptr h) && leaving then
      '(r, b) ← res_opt (rtw_BIP_verify (zmalloc_ok (u32 (pkt_len (ha p) - WLAN_HDR_A3_LEN + BIP_AAD_SIZE)))
                          beyond h (pkt_len (ha p)) (bip e));
      Some (set_bip b e, p, if r =? _SUCCESS then _SUCCESS else _FAIL)
    else if subtype =? WIFI_ACTION then
      category ← ld h WLAN_HDR_A3_LEN;
      Some (e, p, if not_robust category then _SUCCESS else _FAIL)
    else if leaving then
      r ← rd h WLAN_HDR_A3_LEN 2;
      let reason := le16_at r 0 in
      Some (if (reason =? 6) || (reason =? 7) then log_mlme IssueSAQuery e else e, p, _FAIL)
    else Some (e, p, _SUCCESS)
  else Some (e, p, _SUCCESS).

(** The frame may wait for its fragments; [mgt_dispatcher] gets a whole one. *)
Definition validate_recv_mgnt_frame (e : entry) (p : precv) : option (entry * Z) :=
  '(w, r) ← recvframe_chk_defrag HZ now (fr p) (world e);
  let e := set_world w e in
  match r with
  | None => Some (e, _SUCCESS)
  | Some f => Some (log_mlme (MgtDispatch (rx_bytes f)) e, _SUCCESS)
  end.

(** ** [validate_recv_frame]: only data frames can give [_SUCCESS] *)

(** The fields read from the header of any frame. *)
Definition parse_header (p : precv) : precv :=
  let h := ptr p in
  let a := pattr p in
  mk_precv
    (set_attrib (mk_rxa (hdrlen a) (iv_len a) (icv_len a) (encrypt a) (GetPrivacy h) (qos a) (priority a)
       (amsdu a) (GetSequence h) (GetFragNum h) (Z.b2z (GetMFrag h)) (eth_type a) (dst a) (src a) (ta a) (ra a)
       (key_index a) (bdecrypted a)) (fr p))
    (mk_ha (pkt_len (ha p)) (get_tofr_ds h) (GetOrder h) (bssid (ha p))).
Definition set_qos_bit (q : Z) (p : precv) : precv :=
  let a := pattr p in
  set_pattr (mk_rxa (hdrlen a) (iv_len a) (icv_len a) (encrypt a) (privacy a) q (priority a)
    (amsdu a) (seq_num a) (frag_num a) (mfrag a) (eth_type a) (dst a) (src a) (ta a) (ra a)
    (key_index a) (bdecrypted a)) p.

Definition drop_one (e : entry) : entry := set_world (count_drop (world e)) e.

(** Every frame is read up to its sequence control field, and a data frame of two access
    points up to its fourth address. *)
Definition validate_recv_frame (e : entry) (p : precv) : option (entry * precv * Z) :=
  _ ← rd (rx_mem (fr p)) (RxFrame.rx_data (fr p)) 24;
  let h := ptr p in
  if negb (ld0 h 0 .& 0x3 =? 0) then Some (e, p, _FAIL) else
  let type := GetFrameType h in
  let subtype := GetFrameSubType h in
  let p := parse_header p in
  if type =? WIFI_MGT_TYPE then
    '(e, p, r) ← (if CONFIG_IEEE80211W then validate_80211w_mgmt e p else Some (e, p, _SUCCESS));
    if r =? _FAIL then Some (e, p, _FAIL) else
    '(e, _) ← validate_recv_mgnt_frame e p;
    Some (e, p, _FAIL)
  else if type =? WIFI_CTRL_TYPE then
    let '(w, _) := validate_recv_ctrl_frame ap_expire_to (myid c) h (priority (pattr p)) (to_psw e) in
    Some (of_psw w e, p, _FAIL)
  else if type =? WIFI_DATA_TYPE then
    _ ← rd (rx_mem (fr p)) (RxFrame.rx_data (fr p)) (if to_fr_ds (ha p) =? 3 then 30 else 24);
    let p := set_qos_bit (if negb (subtype .& BIT 7 =? 0) then 1 else 0) p in
    '(e, p, r) ← validate_recv_data_frame e p;
    Some (if r =? _FAIL then drop_one e else e, p, r)
  else Some (e, p, _FAIL).

(** ** [recv_func] *)

(** [rtw_free_recvframe] also takes the frame out of the list it is in, which may be the
    reassembly queue of a station. *)
Definition unlink_defrag (f : rframe) (s : sta_info) : sta_info :=
  set_defrag_q (filter (fun x => rf_id x <> rf_id f) (defrag_q s)) s.
Definition free_recvframe (f : rframe) (w : rx_world) : rx_world :=
  free_frame f (set_ad (upd_stas (map (unlink_defrag f) (stas (stapriv (rw_ad w)))) (rw_ad w)) w).

Definition recv_func_prehandle (e : entry) (p : precv) : option (entry * precv * Z) :=
  if mp_mode c || bRTWSmbCfg c then Some (log_mlme (MpRecvFrame (rf_id (fr p))) e, p, _FAIL) else
  '(e, p, ret) ← validate_recv_frame e p;
  if negb (ret =? _SUCCESS) then Some (set_world (free_recvframe (fr p) (world e)) e, p, ret)
  else Some (e, p, _SUCCESS).

(** What the rest of the path reads of the state of the link and of the address. *)
Definition drv_link : drv_flags :=
  let o := os drv in
  mk_drv (bDriverStopped drv) (bSurpriseRemoved drv) (check_fwstate WIFI_MP_STATE)
    (mk_os (check_fwstate WIFI_AP_STATE) (check_fwstate (WIFI_STATION_STATE .| WIFI_ADHOC_STATE)) (myid c)
      (os_bcmc o) (os_stainfo o) (os_clone o) (os_br_port o) (nat25_handle_frame o)).

Definition posthandle (f : rframe) (e : entry) : option (entry * Z) :=
  '(w, r) ← recv_func_posthandle HZ now skb_alloc_ok drv_link ht CONFIG_IEEE80211W (dot11AuthAlgrthm c) f (world e);
  Some (set_world w e, r).

(** The loop over [uc_swdec_pending_queue]. *)
Fixpoint drain_pending (q : list rframe) (e : entry) : option entry :=
  match q with
  | [] => Some (set_waiting [] e)
  | f :: q => '(e, _) ← posthandle f (set_waiting q e); drain_pending q e
  end.

(** The frame has to wait for the pairwise key. *)
Definition must_wait (e : entry) (a : rx_pkt_attrib) : bool :=
  let sec := rw_sec (world e) in
  check_fwstate WIFI_STATION_STATE && negb (IS_MCAST (ra a)) && (0 <? encrypt a)
  && (negb (bdecrypted a) || sw_decrypt sec) && wpapsk c && negb (busetkipkey sec).

Definition recv_func (e : entry) (p : precv) : option (entry * Z) :=
  if check_fwstate WIFI_MONITOR_STATE then Some (log_mlme (MonitorFrame (rf_id (fr p))) e, _SUCCESS) else
  e ← (if check_fwstate WIFI_STATION_STATE && busetkipkey (rw_sec (world e))
       then drain_pending (uc_swdec_pending_queue e) e else Some e);
  '(e, p, ret) ← recv_func_prehandle e p;
  if ret =? _SUCCESS then
    if must_wait e (pattr p) then
      let q := uc_swdec_pending_queue e ++ [fr p] in
      if free_recvframe_cnt (recvpriv (rw_ad (world e))) <? NR_RECVFRAME / 4 then
        match q with
        | f :: q => posthandle f (set_waiting q e)
        | [] => Some (e, ret)
        end
      else Some (set_waiting q e, ret)
    else posthandle (fr p) e
  else Some (e, ret).
End rx_entry.

(** ** What power save leaves alone

    The receive side of the adapter: the pool, the hash lists, and of each station its
    address, keys, fragments, windows and duplicate cache. *)

Definition sta_view (s : sta_info) :=
  (hwaddr s, (defrag_q s, recvreorder_ctrl s, tid_rxseq s),
   (ieee8021x_blocked s, dot118021x_UncstKey s, dot11tkiprxmickey s)).
Definition rx_view (a : adapter) :=
  (recvpriv a, sta_hash (stapriv a), map sta_view (stas (stapriv a))).

Lemma map_alter_same {A B} (v : A -> B) (g : A -> A) i l : (forall x, v (g x) = v x) ->
  map v (alter g i l) = map v l.
Proof.
  intros Hg. revert i. induction l as [|x l IH]; intros [|i]; try done; cbn; [by rewrite Hg|].
  f_equal. apply IH.
Qed.

Lemma view_upd_sta o g a : (forall s, sta_view (g s) = sta_view s) -> rx_view (upd_sta o g a) = rx_view a.
Proof. intros Hg. unfold rx_view, upd_sta. cbn. by rewrite map_alter_same. Qed.
Lemma view_upd_servq o i g a : rx_view (upd_servq o i g a) = rx_view a.
Proof. by apply view_upd_sta. Qed.
Lemma view_set_xmitpriv x a : rx_view (set_xmitpriv x a) = rx_view a.
Proof. done. Qed.
Lemma view_upd_dz g a : rx_view (upd_dz g a) = rx_view a.
Proof. done. Qed.
Lemma view_upd_tim g a : rx_view (upd_tim g a) = rx_view a.
Proof. done. Qed.
Lemma ad_emit x w : ad (emit x w) = ad w.
Proof. done. Qed.
Lemma ad_on_ad g w : ad (on_ad g w) = g (ad w).
Proof. done. Qed.
Create Rewrite HintDb rxv.
#[export] Hint Rewrite ad_emit ad_on_ad view_upd_servq view_set_xmitpriv view_upd_dz view_upd_tim : rxv.
#[export] Hint Rewrite view_upd_sta using (intros; cbn; repeat case_match; done) : rxv.

Lemma view_buffer o f a : rx_view (buffer_frame o f a) = rx_view a.
Proof. by apply view_upd_sta. Qed.
#[export] Hint Rewrite view_buffer : rxv.

Lemma view_hal_enqueue f w : rx_view (ad (hal_enqueue f w)) = rx_view (ad w).
Proof.
  unfold hal_enqueue. rewrite ad_on_ad. unfold rtl8812au_hal_xmitframe_enqueue, rtw_xmitframe_enqueue, rtw_xmit_classifier.
  repeat case_match; simplify_eq; cbn [fst]; by autorewrite with rxv.
Qed.
Lemma view_unsleep o w : rx_view (ad (unsleep o w)) = rx_view (ad w).
Proof. unfold unsleep. by autorewrite with rxv. Qed.
Lemma view_dec o w : rx_view (ad (dec_ac_len o w)) = rx_view (ad w).
Proof. unfold dec_ac_len. by autorewrite with rxv. Qed.
#[export] Hint Rewrite view_hal_enqueue view_unsleep view_dec : rxv.

Section power_save_view.
Context (fw_state : Z) (not_pcie : bool) (hiq_filter ap_expire_to : Z).

Lemma view_enqueue f w w' f' b :
  xmitframe_enqueue_for_sleeping_sta fw_state not_pcie hiq_filter f w = (w', f', b) -> rx_view (ad w') = rx_view (ad w).
Proof.
  unfold xmitframe_enqueue_for_sleeping_sta. intros E.
  repeat case_match; simplify_eq; by autorewrite with rxv.
Qed.

Lemma view_dequeue_frames psta fs : forall w w' kept,
  dequeue_frames fw_state not_pcie hiq_filter psta fs w = (w', kept) -> rx_view (ad w') = rx_view (ad w).
Proof.
  induction fs as [|f fs IH]; intros w w' kept E; cbn [dequeue_frames] in E; [by simplify_eq|].
  destruct (xmitframe_enqueue_for_sleeping_sta _ _ _ _ w) as [[w1 f1] ret] eqn:E1.
  apply view_enqueue in E1. destruct ret.
  - apply IH in E. rewrite E. by autorewrite with rxv.
  - destruct (dequeue_frames _ _ _ _ _ w1) as [w2 k2] eqn:E2. apply IH in E2. injection E as <- <-. by rewrite E2.
Qed.

Lemma view_to_sleeping o i w :
  rx_view (ad (dequeue_xmitframes_to_sleeping_queue fw_state not_pcie hiq_filter o i w)) = rx_view (ad w).
Proof.
  unfold dequeue_xmitframes_to_sleeping_queue. destruct (dequeue_frames _ _ _ _ _ _) as [w1 k] eqn:E.
  apply view_dequeue_frames in E. by autorewrite with rxv.
Qed.
Lemma view_unlink o i w : rx_view (ad (unlink_queue o i w)) = rx_view (ad w).
Proof. unfold unlink_queue. by autorewrite with rxv. Qed.

Lemma view_stop o w w' : stop_sta_xmit fw_state not_pcie hiq_filter o w = Some w' -> rx_view (ad w') = rx_view (ad w).
Proof.
  unfold stop_sta_xmit. destruct (rtw_get_bcmc_stainfo _); [|done]. cbn [mbind option_bind]. intros [= <-].
  rewrite !view_unlink, !view_to_sleeping, !view_unlink, !view_to_sleeping, !view_unlink, !view_to_sleeping,
    !view_unlink, !view_to_sleeping, !view_unlink, !view_to_sleeping. by autorewrite with rxv.
Qed.

Lemma view_wakeup_frames o p fs : forall w, rx_view (ad (wakeup_frames o p fs w)) = rx_view (ad w).
Proof.
  induction fs as [|f fs IH]; intros w; cbn [wakeup_frames]; [done|].
  destruct (has_bit 1 _); rewrite IH; by autorewrite with rxv.
Qed.
Lemma view_release hiq b fs : forall w, rx_view (ad (release_bmc_frames not_pcie hiq_filter hiq b fs w)) = rx_view (ad w).
Proof. induction fs as [|f fs IH]; intros w; cbn [release_bmc_frames]; [done|]. rewrite IH. by autorewrite with rxv. Qed.
Lemma view_wake_state o s a : rx_view (wake_state ap_expire_to o s a) = rx_view a.
Proof. unfold wake_state. by autorewrite with rxv. Qed.

Lemma view_wakeup o w : rx_view (ad (wakeup_sta_to_xmit not_pcie hiq_filter ap_expire_to o w)) = rx_view (ad w).
Proof.
  unfold wakeup_sta_to_xmit. destruct (_ !! _) as [s|]; [|done].
  set (w1 := wakeup_frames _ _ _ _). assert (H1 : rx_view (ad w1) = rx_view (ad w)) by apply view_wakeup_frames.
  rewrite <- H1. clearbody w1. clear H1.
  destruct (_ =? 0); destruct (rtw_get_bcmc_stainfo _) as [b|]; try (destruct (_ =? 0); [destruct (_ =? 0)|]);
    repeat case_match; autorewrite with rxv; rewrite ?view_release, ?ad_on_ad, ?view_wake_state; try done;
    autorewrite with rxv; rewrite ?view_release, ?ad_on_ad, ?view_wake_state; done.
Qed.

Lemma view_deliver o s fs : forall kept w, rx_view (ad (deliver_frames o s kept fs w)) = rx_view (ad w).
Proof.
  induction fs as [|f fs IH]; intros kept w; cbn [deliver_frames]; [done|].
  repeat case_match; rewrite IH; by autorewrite with rxv.
Qed.

Lemma view_ps_poll o s w : rx_view (ad (ps_poll ap_expire_to o s w)) = rx_view (ad w).
Proof. unfold ps_poll. repeat case_match; by autorewrite with rxv. Qed.

Lemma view_ctrl me h pri w w' r : validate_recv_ctrl_frame ap_expire_to me h pri w = (w', r) ->
  rx_view (ad w') = rx_view (ad w).
Proof.
  unfold validate_recv_ctrl_frame. intros E. repeat case_match; simplify_eq; rewrite ?view_ps_poll; done.
Qed.

Lemma view_pwrbit s h w w' : process_pwrbit_data fw_state not_pcie hiq_filter ap_expire_to s h w = Some w' ->
  rx_view (ad w') = rx_view (ad w).
Proof.
  unfold process_pwrbit_data. intros E. repeat case_match; simplify_eq; rewrite ?view_wakeup; try done.
  by eapply view_stop.
Qed.

Lemma view_wmmps s pri q w : rx_view (ad (process_wmmps_data s pri q w)) = rx_view (ad w).
Proof.
  unfold process_wmmps_data, xmit_delivery_enabled_frames.
  repeat case_match; rewrite ?view_deliver, ?ad_emit; done.
Qed.
End power_save_view.

(** ** Reference: the station a data frame is accepted from, and its attributes *)

(** Access point, station, or member of an ad hoc network; associated or not. *)
Definition is_ap (c : rx_config) : Prop :=
  check_fwstate c WIFI_AP_STATE = true /\ check_fwstate c WIFI_STATION_STATE = false.
Definition is_sta (c : rx_config) : Prop :=
  check_fwstate c WIFI_STATION_STATE = true /\ check_fwstate c WIFI_AP_STATE = false.
Definition ad_hoc (c : rx_config) : bool :=
  check_fwstate c WIFI_ADHOC_STATE || check_fwstate c WIFI_ADHOC_MASTER_STATE.
Definition is_adhoc (c : rx_config) : Prop :=
  check_fwstate c WIFI_STATION_STATE = false /\ check_fwstate c WIFI_AP_STATE = false.
(** One of the three modes, and not the manufacturing test mode. *)
Definition normal_mode (c : rx_config) : Prop :=
  check_fwstate c WIFI_MP_STATE = false /\
  (if ad_hoc c then is_adhoc c else is_ap c \/ is_sta c).

Definition null_frame (h : bytes) : bool := negb (GetFrameSubType h .& BIT 6 =? 0).

(** An access point takes what is sent to its BSS, and frames of the BSS itself without
    the distribution system; a station takes what its access point sends to it, through the
    distribution system only when it is associated or associating; a member of an ad hoc
    network takes what another member sends to it or to the group. *)
Definition sender (c : rx_config) (sp : sta_priv) (h : bytes) : option nat :=
  let a1 := GetAddr1Ptr h in let a2 := GetAddr2Ptr h in let a3 := GetAddr3Ptr h in
  let ds := get_tofr_ds h in
  let group := IS_MCAST a1 in
  if ad_hoc c then
    if (ds =? 0) && negb (same (myid c) a2) && (same (myid c) a1 || group)
       && same a3 (mybssid c) && negb (same a3 zero_addr)
    then (if group then rtw_get_bcmc_stainfo sp else rtw_get_stainfo sp a2) else None
  else if check_fwstate c WIFI_AP_STATE then
    if ds =? 0 then
      if group then (if IS_MCAST a3 then rtw_get_bcmc_stainfo sp else None)
      else if same a3 a1 then rtw_get_stainfo sp a2 else None
    else if ds =? 2 then
      if same a1 (mybssid c) && negb (null_frame h) then rtw_get_stainfo sp a2 else None
    else None
  else
    if ds =? 0 then
      if same a3 a2 then (if group then rtw_get_bcmc_stainfo sp else rtw_get_stainfo sp a3) else None
    else if (ds =? 1) && (check_fwstate c _FW_LINKED || check_fwstate c _FW_UNDER_LINKING) then
      if negb (same (myid c) a3) && (same (myid c) a1 || group) && same a2 (mybssid c)
         && negb (same a2 zero_addr) && negb (null_frame h)
      then (if group then rtw_get_bcmc_stainfo sp else rtw_get_stainfo sp a2) else None
    else None.

Definition is_qos (h : bytes) : bool := negb (GetFrameSubType h .& BIT 7 =? 0).
Definition qos_ctrl (h : bytes) : bytes := take 2 (drop 24 h).
Definition frame_tid (h : bytes) : Z := if is_qos h then GetPriority (qos_ctrl h) else 0.

(** The cipher comes from the configuration, and only when the protected bit is set. *)
Definition data_attrib (c : rx_config) (o : nat) (h : bytes) (a : rx_pkt_attrib) : rx_pkt_attrib :=
  let enc := if GetPrivacy h then GET_ENCRY_ALGO c o (encrypt a) (IS_MCAST (GetAddr1Ptr h)) else 0 in
  let '(iv, icv) := if GetPrivacy h then SET_ICE_IV_LEN enc else (0, 0) in
  mk_rxa ((if is_qos h then 26 else 24) + (if GetOrder h then 4 else 0)) iv icv enc (GetPrivacy h)
    (Z.b2z (is_qos h)) (frame_tid h) (if is_qos h then GetAMsdu (qos_ctrl h) else 0)
    (GetSequence h) (GetFragNum h) (Z.b2z (GetMFrag h)) (eth_type a) (get_da h) (get_sa h)
    (GetAddr2Ptr h) (GetAddr1Ptr h) (key_index a) (bdecrypted a).

(** ** Lemmas: the directions *)

Lemma view_lookup a b o s : rx_view a = rx_view b -> stas (stapriv a) !! o = Some s ->
  exists s', stas (stapriv b) !! o = Some s' /\ sta_view s' = sta_view s.
Proof.
  unfold rx_view. intros H0 Hs. injection H0 as _ _ H. assert (Hm : (sta_view <$> stas (stapriv b)) !! o = Some (sta_view s)).
  { change (sta_view <$> stas (stapriv b)) with (map sta_view (stas (stapriv b))). rewrite <- H.
    change (map sta_view (stas (stapriv a))) with (sta_view <$> stas (stapriv a)). by rewrite list_lookup_fmap, Hs. }
  rewrite list_lookup_fmap in Hm. destruct (stas (stapriv b) !! o) as [s'|]; [|done].
  exists s'. split; [done|]. by apply (inj Some) in Hm.
Qed.

Lemma foreign_spec c p : foreign_bssid c p =
  negb (same (bssid (ha p)) (mybssid c) && negb (same (bssid (ha p)) zero_addr)).
Proof.
  unfold foreign_bssid, same. repeat case_bool_decide; try done; congruence.
Qed.

Lemma ptr_addressed b d x r t p : ptr (set_bssid b (set_pattr (set_addrs d x r t (pattr p)) p)) = ptr p.
Proof. done. Qed.

(** Every branch of the two sides, with the contradictory ones closed. *)
Ltac route :=
  repeat match goal with
  | |- context [same ?a ?b] => destruct (same a b)
  | |- context [IS_MCAST ?a] => destruct (IS_MCAST a)
  | |- context [GetFrameSubType ?h .& BIT 6 =? 0] => destruct (GetFrameSubType h .& BIT 6 =? 0)
  end; cbn in *; repeat case_match; simplify_eq; try tauto; cbn in *; try tauto; try congruence.

Section directions.
Context (c : rx_config) (not_pcie : bool) (hiq_filter ap_expire_to now : Z) (passing : Z -> Z).
Hypothesis mode : normal_mode c.
#[local] Abbreviation direction := (data_direction c not_pcie hiq_filter ap_expire_to now passing).

Definition addressed (h bss : bytes) (p : precv) : precv :=
  set_bssid bss (set_pattr (set_addrs (get_da h) (get_sa h) (GetAddr1Ptr h) (GetAddr2Ptr h) (pattr p)) p).

Lemma direction_spec e p bss e' p' psta r : to_fr_ds (ha p) = get_tofr_ds (ptr p) ->
  get_hdr_bssid (ptr p) = Some bss -> direction e p bss = Some (e', p', psta, r) ->
  match sender c (table e) (ptr p) with
  | Some o => r = _SUCCESS /\ psta = Some o /\ rx_view (rw_ad (world e')) = rx_view (rw_ad (world e)) /\
      p' = addressed (ptr p) bss p
  | None => (r =? _FAIL) || (r =? RTW_RX_HANDLED) = true \/ psta = None
  end.
Proof.
  destruct mode as (Hmp & Hmode). unfold ad_hoc in Hmode.
  unfold data_direction, get_hdr_bssid, sender, ad_hoc, addressed, get_da, get_sa. intros -> Hb E.
  set (h := ptr p) in *.
  assert (Hds : get_tofr_ds h = 0 \/ get_tofr_ds h = 1 \/ get_tofr_ds h = 2 \/ get_tofr_ds h = 3)
    by (rewrite get_tofr_ds_cases; destruct (GetToDs h), (GetFrDs h); tauto).
  destruct Hds as [D|[D|[D|D]]]; rewrite D in *; cbn [Z.eqb] in *; injection Hb as <-.
  - unfold sta2sta_data_frame, sta2sta_lookup in E. cbv zeta in E. rewrite ?foreign_spec in E.
    destruct (check_fwstate c WIFI_ADHOC_STATE || check_fwstate c WIFI_ADHOC_MASTER_STATE) eqn:Had.
    + destruct Hmode as [Hst1 Hap]. cbn in E |- *; fold h in E. route.
    + destruct Hmode as [[Hap Hst1]|[Hst1 Hap]]; rewrite Hap, ?Hst1 in *; cbn in E |- *; fold h in E. all: route.
  - unfold ap2sta_data_frame, mp_data_frame, no_data in E. rewrite Hmp in E. cbv zeta in E.
    destruct (check_fwstate c WIFI_ADHOC_STATE || check_fwstate c WIFI_ADHOC_MASTER_STATE) eqn:Had.
    + destruct Hmode as [Hst1 Hap]. rewrite Hst1, Hap in E. cbn in E |- *. repeat case_match; simplify_eq; by left.
    + destruct Hmode as [[Hap Hst1]|[Hst1 Hap]]; rewrite Hap, Hst1 in *; rewrite ?foreign_spec in E.
      * cbn in E |- *. simplify_eq. by left.
      * destruct (check_fwstate c _FW_LINKED || check_fwstate c _FW_UNDER_LINKING) eqn:Hlk; cbn in E |- *; fold h in E.
        -- rewrite ?ptr_addressed in E; fold h in E; unfold null_frame. route.
        -- repeat case_match; simplify_eq; by left.
  - unfold sta2ap_data_frame, mp_data_frame, no_data in E. rewrite Hmp in E.
    destruct (check_fwstate c WIFI_ADHOC_STATE || check_fwstate c WIFI_ADHOC_MASTER_STATE) eqn:Had.
    + destruct Hmode as [Hst1 Hap]. rewrite Hap in E. cbn in E |- *. repeat case_match; simplify_eq; by left.
    + destruct Hmode as [[Hap Hst1]|[Hst1 Hap]]; rewrite Hap in *; cbn in E |- *; fold h in E.
      all: rewrite ?ptr_addressed in E; fold h in E; unfold null_frame.
      all: route.
      all: apply bind_Some in E as (w & Ew & E); apply view_pwrbit in Ew; injection E as <- <- <- <-; try by left.
      all: repeat split; cbn [of_psw world set_ad rw_ad]; rewrite ?view_wmmps; exact Ew.
  - cbn in E |- *. destruct (_ || _); [route|]. destruct (check_fwstate c WIFI_AP_STATE); route.
Qed.

Lemma direction_runs e p bss : rtw_get_bcmc_stainfo (table e) <> None -> exists q, direction e p bss = Some q.
Proof.
  intros Hb. unfold data_direction. cbv zeta. destruct (_ =? 0); [destruct (sta2sta_data_frame _ _ _) as [[??]?]; eauto|].
  destruct (_ =? 1); [eauto|]. destruct (_ =? 2); [|eauto]. unfold sta2ap_data_frame, process_pwrbit_data, stop_sta_xmit.
  cbn [to_psw ad]. fold (table e). destruct (rtw_get_bcmc_stainfo (table e)) as [b|]; [|done].
  repeat case_match; cbn [mbind option_bind]; eauto.
Qed.
End directions.

(** ** Lemmas: the accepted frame *)

(** Every station's duplicate cache has an entry for each TID. *)
Definition caches_ok (sp : sta_priv) : Prop := Forall (fun s => length (tid_rxseq s) = 16%nat) (stas sp).

Lemma get_stainfo_in sp a o : table_inv sp -> rtw_get_stainfo sp a = Some o -> exists s, stas sp !! o = Some s.
Proof.
  intros Hi Hg. apply get_sound in Hg as [Hin _].
  assert (Ho : o ∈ seq 0 32) by (rewrite <- (ti_pool _ Hi); apply elem_of_app; by right).
  apply elem_of_seq in Ho. apply lookup_lt_is_Some_2. rewrite (ti_stas _ Hi). lia.
Qed.

Lemma sender_in c sp h o : table_inv sp -> sender c sp h = Some o -> exists s, stas sp !! o = Some s.
Proof.
  intros Hi. unfold sender, rtw_get_bcmc_stainfo. intros H. repeat case_match; try done; by eapply get_stainfo_in.
Qed.

Lemma sender_direct c sp h o : sender c sp h = Some o -> (get_tofr_ds h =? 3) = false.
Proof.
  unfold sender. destruct (Z.eqb_spec (get_tofr_ds h) 3) as [->|]; [|done].
  destruct (ad_hoc c); [done|]. by destruct (check_fwstate _ _).
Qed.

Lemma seq_ctrl_id x : 0 <= x < 65536 -> u16 ((((x .>> 4) .& 0xffff) .<< 4) .| ((x .& 0x0f) .& 0xf)) = x.
Proof.
  intros Hx. rewrite (land_mask _ 16), !(land_mask _ 4), Z.shiftr_div_pow2 by lia.
  rewrite (Z.mod_small (x / 2 ^ 4)) by (split; [apply Z.div_pos|apply Z.div_lt_upper_bound]; lia).
  rewrite Z.mod_mod by lia. pose proof (Z.mod_pos_bound x (2 ^ 4) ltac:(lia)). pose proof (Z.div_mod x (2 ^ 4) ltac:(lia)).
  rewrite Z.lor_comm, (lor_shiftl_add (x mod 2 ^ 4)) by lia. rewrite u16_id; lia.
Qed.

Lemma le16_at_range h off : bytes_ok h -> 0 <= le16_at h off < 65536.
Proof.
  intros Hh. unfold le16_at. assert (H0 : is_u8 (ld0 h off)) by by apply bytes_ok_nth.
  assert (H1 : is_u8 (ld0 h (off + 1))) by by apply bytes_ok_nth.
  rewrite lor_shiftl_add by lia. lia.
Qed.

(** The frame behind the switch: what the QoS field, the duplicate cache and the cipher
    selection make of it. *)
Section accepted.
Context (c : rx_config) (e : entry) (p : precv) (h : bytes) (o : nat) (s : sta_info).
Hypothesis Hsta : stas (table e) !! o = Some s.
Hypothesis Hcache : length (tid_rxseq s) = 16%nat.
Hypothesis Hat : 0 <= RxFrame.rx_data (fr p).
Hypothesis Hptr : ptr p = h.
Hypothesis Hlen : (if is_qos h then 26 else 24) <= zlen h.
Hypothesis Hok : bytes_ok h.
Hypothesis Hds : to_fr_ds (ha p) <> 3.
Hypothesis Hord : order (ha p) = GetOrder h.
Hypothesis Hqos : qos (pattr p) = Z.b2z (is_qos h).
Hypothesis Hseq : seq_num (pattr p) = GetSequence h.
Hypothesis Hfrag : frag_num (pattr p) = GetFragNum h.

Lemma parse_qos_spec : exists b, parse_qos e p = Some (set_nonbe b e,
  set_pattr (set_qos ((if is_qos h then 26 else 24) + (if GetOrder h then 4 else 0)) (frame_tid h)
               (if is_qos h then GetAMsdu (qos_ctrl h) else 0) (pattr p)) p).
Proof using Hat Hptr Hlen Hds Hord Hqos.
  clear Hsta Hcache. unfold parse_qos, frame_tid. rewrite Hqos, Hord, (proj2 (Z.eqb_neq _ 3)) by done.
  destruct (is_qos h); cbn [Z.b2z Z.eqb Pos.eqb].
  - assert (Hm : zlen h = zlen (rx_mem (fr p)) - RxFrame.rx_data (fr p)).
    { rewrite <- Hptr. unfold ptr, zlen in *. rewrite length_drop. rewrite <- Hptr in Hlen. unfold ptr in Hlen. rewrite length_drop in Hlen. lia. }
    rewrite rd_Some by lia. cbn [mbind option_bind]. eexists.
    replace (take (Z.to_nat 2) _) with (qos_ctrl h); [done|].
    unfold qos_ctrl. rewrite <- Hptr. unfold ptr. rewrite drop_drop. f_equal. f_equal. lia.
  - exists (bIsAnyNonBEPkts e). by destruct e.
Qed.

Lemma seq_ctrl_spec : u16 (((GetSequence h .& 0xffff) .<< 4) .| (GetFragNum h .& 0xf)) = le16_at h 22.
Proof using Hok. clear -Hok. apply seq_ctrl_id. by apply le16_at_range. Qed.

Lemma frame_tid_range : 0 <= frame_tid h <= 15.
Proof using. clear. unfold frame_tid, GetPriority. destruct (is_qos h); [|lia]. rewrite (land_mask _ 4) by lia.
  pose proof (Z.mod_pos_bound (le16_at (qos_ctrl h) 0) (2 ^ 4)). lia. Qed.
End accepted.

(** The duplicate cache of the station after the frame. *)
Definition remember (h : bytes) (s : sta_info) : sta_info :=
  set_tid_rxseq (<[Z.to_nat (frame_tid h) := le16_at h 22]> (tid_rxseq s)) s.
Definition duplicate (h : bytes) (s : sta_info) : bool :=
  bool_decide (tid_rxseq s !! Z.to_nat (frame_tid h) = Some (le16_at h 22)).

Lemma alter_insert {A} (l : list A) o g x : l !! o = Some x -> alter g o l = <[o := g x]> l.
Proof. revert o. induction l as [|y l IH]; intros [|o] H; try done; cbn; [by simplify_eq/=|]. f_equal. by apply IH. Qed.

Lemma decache_spec e p h o s : stas (table e) !! o = Some s -> length (tid_rxseq s) = 16%nat -> bytes_ok h ->
  priority (pattr p) = frame_tid h -> seq_num (pattr p) = GetSequence h -> frag_num (pattr p) = GetFragNum h ->
  exists e', decache o e p = Some (e', if duplicate h s then _FAIL else _SUCCESS) /\
    rw_ad (world e') = (if duplicate h s then rw_ad (world e) else upd_sta o (remember h) (rw_ad (world e))).
Proof.
  intros Hs Hl Hh Hp Hq Hf. pose proof (frame_tid_range h) as Ht. unfold decache, recv_decache, duplicate.
  rewrite Hs, Hp, Hq, Hf, (seq_ctrl_spec h Hh), (proj2 (Z.ltb_ge 15 _)) by lia. cbn [mbind option_bind].
  destruct (lookup_lt_is_Some_2 (tid_rxseq s) (Z.to_nat (frame_tid h)) ltac:(lia)) as [x Hx].
  rewrite Hx. cbn [mbind option_bind]. destruct (Z.eqb_spec (le16_at h 22) x) as [->|Hne].
  - rewrite bool_decide_true by done. eexists. split; [done|]. cbn [set_world world set_ad rw_ad].
    replace (set_tid_rxseq (tid_rxseq s) s) with s by by destruct s. rewrite list_insert_id by done.
    by destruct (rw_ad (world e)) as [[] ???].
  - rewrite bool_decide_false by congruence. eexists. split; [done|]. cbn [set_world world set_ad rw_ad].
    unfold upd_stas, upd_sta. by rewrite (alter_insert _ _ _ _ Hs).
Qed.

Lemma view_remember h s s' : sta_view s' = sta_view s -> sta_view (remember h s') = sta_view (remember h s).
Proof. destruct s, s'. unfold sta_view. cbn. by intros [= -> -> -> -> -> -> ->]. Qed.
Lemma view_duplicate h s s' : sta_view s' = sta_view s -> duplicate h s' = duplicate h s.
Proof. unfold sta_view, duplicate. by intros [= _ _ _ -> _ _ _]. Qed.

Lemma view_upd_remember o h a b : rx_view a = rx_view b ->
  rx_view (upd_sta o (remember h) a) = rx_view (upd_sta o (remember h) b).
Proof.
  unfold rx_view. intros H0. injection H0 as Hr Hh Hm. unfold upd_sta. cbn. rewrite Hr, Hh. f_equal.
  revert Hm. generalize (stas (stapriv a)) (stas (stapriv b)). clear. intros l. revert o.
  induction l as [|x l IH]; intros o [|y k] Hm; try done. cbn [map] in Hm. apply (inj2 cons) in Hm as [Hx Hm].
  destruct o; cbn [alter list_alter map]; [by rewrite Hm, (view_remember h y x)|].
  by rewrite Hx, (IH _ _ Hm).
Qed.

(** The header is there, the table is the table of StaMgt with the entry of the group
    address, and the frame is a data frame of protocol version 0. *)
Record data_ready (e : entry) (p : precv) (h : bytes) : Prop := {
  dr_ptr : ptr p = h; dr_at : 0 <= RxFrame.rx_data (fr p); dr_bytes : bytes_ok h;
  dr_len : (if get_tofr_ds h =? 3 then 30 else if is_qos h then 26 else 24) <= zlen h;
  dr_version : ld0 h 0 .& 0x3 = 0; dr_type : GetFrameType h = WIFI_DATA_TYPE;
  dr_table : table_inv (table e); dr_caches : caches_ok (table e); dr_bmc : rtw_get_bcmc_stainfo (table e) <> None
}.

Section data_frames.
Context (c : rx_config) (not_pcie : bool) (hiq_filter ap_expire_to HZ now : Z) (ieee80211w : bool).
Context (zmalloc_ok : Z -> bool) (beyond : bytes) (passing : Z -> Z).
Hypothesis mode : normal_mode c.
#[local] Abbreviation validate :=
  (validate_recv_frame c not_pcie hiq_filter ap_expire_to HZ now ieee80211w zmalloc_ok beyond passing).
#[local] Abbreviation validate_data := (validate_recv_data_frame c not_pcie hiq_filter ap_expire_to now passing).

(** What validation leaves of a data frame and of the state. *)
Definition validated (e : entry) (p : precv) (h : bytes) (e' : entry) (p' : precv) (r : Z) : Prop :=
  match sender c (table e) h with
  | None => r <> _SUCCESS
  | Some o => exists s, stas (table e) !! o = Some s /\
      if duplicate h s
      then r = _FAIL /\ rx_view (rw_ad (world e')) = rx_view (rw_ad (world e))
      else r = _SUCCESS /\ fr p' = set_attrib (data_attrib c o h (pattr p)) (set_psta o (fr p)) /\
           rx_view (rw_ad (world e')) = rx_view (upd_sta o (remember h) (rw_ad (world e)))
  end.

Lemma accept_spec e p h o s : stas (table e) !! o = Some s -> length (tid_rxseq s) = 16%nat ->
  0 <= RxFrame.rx_data (fr p) -> ptr p = h -> (if is_qos h then 26 else 24) <= zlen h -> bytes_ok h ->
  to_fr_ds (ha p) <> 3 -> order (ha p) = GetOrder h -> qos (pattr p) = Z.b2z (is_qos h) ->
  seq_num (pattr p) = GetSequence h -> frag_num (pattr p) = GetFragNum h ->
  exists e' p', accept_data_frame c o e p = Some (e', p', if duplicate h s then _FAIL else _SUCCESS) /\
    rw_ad (world e') = (if duplicate h s then rw_ad (world e) else upd_sta o (remember h) (rw_ad (world e))) /\
    (duplicate h s = false -> fr p' = set_attrib (set_encryption c o
       (set_qos ((if is_qos h then 26 else 24) + (if GetOrder h then 4 else 0)) (frame_tid h)
          (if is_qos h then GetAMsdu (qos_ctrl h) else 0) (pattr p))) (set_psta o (fr p))).
Proof.
  intros Hs Hl Hat Hp Hlen Hok Hds Hord Hq Hsq Hf. unfold accept_data_frame.
  set (p0 := mk_precv (set_psta o (fr p)) (ha p)).
  destruct (parse_qos_spec e p0 h Hat Hp Hlen Hds Hord Hq) as [b ->]. cbn [mbind option_bind].
  set (p1 := set_pattr _ p0).
  destruct (decache_spec (set_nonbe b e) p1 h o s Hs Hl Hok eq_refl Hsq Hf) as (e' & -> & He). cbn [mbind option_bind].
  destruct (duplicate h s); eexists _, _; (split; [reflexivity|]); by split.
Qed.
(** The attributes read from the header, before the direction. *)
Definition parsed (p : precv) (h : bytes) : precv := set_qos_bit (Z.b2z (is_qos h)) (parse_header p).

Lemma attrib_spec o p h bss : ptr p = h ->
  set_encryption c o (set_qos ((if is_qos h then 26 else 24) + (if GetOrder h then 4 else 0)) (frame_tid h)
    (if is_qos h then GetAMsdu (qos_ctrl h) else 0) (pattr (addressed h bss (parsed p h)))) =
  data_attrib c o h (pattr p).
Proof.
  intros <-. unfold set_encryption, data_attrib. cbn [privacy pattr addressed]. change (privacy _) with (GetPrivacy (ptr p)).
  assert (Hpr : privacy (pattr (addressed (ptr p) bss (parsed p (ptr p)))) = GetPrivacy (ptr p)) by reflexivity.
  destruct (GetPrivacy (ptr p)) eqn:E; [destruct (SET_ICE_IV_LEN _) eqn:Ei|];
    unfold set_cipher, set_qos in *; cbn [privacy] in *; cbn -[GetPrivacy SET_ICE_IV_LEN GET_ENCRY_ALGO] in *;
    rewrite ?E, ?Ei; reflexivity.
Qed.

Lemma validate_data_spec e p h : data_ready e p h -> exists e' p' r,
  validate_data e (parsed p h) = Some (e', p', r) /\ validated e p h e' p' r.
Proof using mode.
  intros [Hp Hat Hb Hlen _ _ Htab Hc Hbmc]. unfold validate_recv_data_frame.
  assert (Hp1 : ptr (parsed p h) = h) by exact Hp. rewrite Hp1.
  assert (Hds : to_fr_ds (ha (parsed p h)) = get_tofr_ds h) by (rewrite <- Hp; reflexivity).
  destruct (get_hdr_bssid_total h) as [bss Hbss]. rewrite Hbss.
  destruct (direction_runs c not_pcie hiq_filter ap_expire_to now passing e (parsed p h) bss Hbmc)
    as [[[[e1 p1] psta] r] Hd]. rewrite Hd. cbn [mbind option_bind].
  apply direction_spec in Hd; [|done|by rewrite Hp1|by rewrite Hp1]. rewrite Hp1 in Hd.
  unfold validated. destruct (sender c (table e) h) as [o|] eqn:Hs.
  - destruct Hd as (-> & -> & Hv & ->). cbn [Z.eqb Pos.eqb orb _SUCCESS _FAIL RTW_RX_HANDLED].
    destruct (sender_in _ _ _ _ Htab Hs) as [s Hlk].
    destruct (view_lookup _ _ _ _ (eq_sym Hv) Hlk) as (s1 & Hlk1 & Hs1).
    apply sender_direct in Hs. rewrite Hs in Hlen. apply Z.eqb_neq in Hs.
    assert (Hl1 : length (tid_rxseq s1) = 16%nat).
    { replace (tid_rxseq s1) with (tid_rxseq s) by (unfold sta_view in Hs1; congruence).
      by apply (Forall_lookup_1 _ _ _ _ Hc Hlk). }
    set (p2 := addressed h bss (parsed p h)).
    assert (Hds2 : to_fr_ds (ha p2) <> 3) by (cbn; by rewrite Hp).
    destruct (accept_spec e1 p2 h o s1 Hlk1 Hl1 Hat Hp Hlen Hb Hds2) as (e2 & p3 & Ha & He & Hf);
      [first [reflexivity | rewrite <- Hp; reflexivity]..|].
    rewrite Ha. eexists _, _, _. split; [done|]. exists s. split; [done|].
    rewrite (view_duplicate h s s1 Hs1) in *. destruct (duplicate h s); [by rewrite He|].
    rewrite He. split; [done|]. split; [|by apply view_upd_remember]. 
    rewrite (Hf eq_refl). unfold p2. by rewrite attrib_spec.
  - destruct Hd as [Hr| ->].
    + rewrite Hr. eexists _, _, _. split; [done|]. intros ->. done.
    + destruct (_ || _) eqn:E; eexists _, _, _; (split; [done|]); [|done]. intros ->. done.
Qed.
Lemma validate_run e p h : data_ready e p h ->
  exists e' p' r, validate e p = Some (e', p', r) /\ validated e p h e' p' r.
Proof using mode.
  intros Hr. destruct (validate_data_spec e p h Hr) as (e' & p' & r & Hv & Hval).
  destruct Hr as [Hp Hat Hb Hlen Hver Hty Htab Hc Hbmc].
  assert (Hl : zlen h = zlen (rx_mem (fr p)) - RxFrame.rx_data (fr p)).
  { assert (H0 : 24 <= zlen h) by (revert Hlen; destruct (_ =? 3); [|destruct (is_qos h)]; lia). clear Hlen.
    subst h. unfold ptr, zlen in *. rewrite length_drop in *. lia. }
  unfold validate_recv_frame. rewrite (rd_Some _ _ 24) by (revert Hlen; destruct (_ =? 3); [|destruct (is_qos h)]; lia). cbn [mbind option_bind].
  rewrite Hp, Hver, Hty. cbn [Z.eqb negb WIFI_DATA_TYPE WIFI_MGT_TYPE WIFI_CTRL_TYPE Pos.eqb].
  change (to_fr_ds (ha (parse_header p))) with (get_tofr_ds (ptr p)). rewrite Hp.
  change (rx_mem (fr (parse_header p))) with (rx_mem (fr p)). change (RxFrame.rx_data (fr (parse_header p))) with (RxFrame.rx_data (fr p)).
  rewrite rd_Some by (revert Hlen; destruct (_ =? 3); [|destruct (is_qos h)]; lia). cbn [mbind option_bind].
  change (set_qos_bit _ (parse_header p)) with (parsed p h). rewrite Hv. cbn [mbind option_bind].
  eexists _, _, _. split; [done|]. unfold validated in *. by destruct (r =? _FAIL).
Qed.

(** C4: Validation of a data frame, on an access point, a station or a member of an ad hoc
    network, associated or not (every mode but the manufacturing test mode): whatever the
    directions and the addresses, the frame is taken exactly when [sender] finds its station and the
    station's cache for the frame's TID does not hold its sequence control field.  It then
    belongs to that station, has the attributes [data_attrib] reads from its header, and
    the cache holds it; a duplicate changes nothing that reception uses.  The power
    management and delivery that the header asks for on an access point leave the receive
    side alone. *)
Theorem validate_recv_frame_data e p h : data_ready e p h ->
  exists e' p' r, validate e p = Some (e', p', r) /\
    match sender c (table e) h with
    | None => r <> _SUCCESS
    | Some o => exists s, stas (table e) !! o = Some s /\
        if duplicate h s
        then r = _FAIL /\ rx_view (rw_ad (world e')) = rx_view (rw_ad (world e))
        else r = _SUCCESS /\ fr p' = set_attrib (data_attrib c o h (pattr p)) (set_psta o (fr p)) /\
             rx_view (rw_ad (world e')) = rx_view (upd_sta o (remember h) (rw_ad (world e)))
    end.
Proof using mode. exact (validate_run e p h). Qed.
End data_frames.

(** ** Protected management frames *)

Definition is_dispatch (x : mlme_event) : bool := match x with MgtDispatch _ => true | _ => false end.
(** The management frames handed on so far. *)
Definition dispatched (e : entry) : list mlme_event := filter is_dispatch (mlme_log e).

Definition leaving (h : bytes) : bool :=
  (GetFrameSubType h =? WIFI_DEAUTH) || (GetFrameSubType h =? WIFI_DISASSOC).
Definition robust_action (h : bytes) : bool :=
  (GetFrameSubType h =? WIFI_ACTION) && negb (not_robust (ld0 h WLAN_HDR_A3_LEN)).

Section protected_management.
Context (c : rx_config) (not_pcie : bool) (hiq_filter ap_expire_to HZ now : Z).
Context (zmalloc_ok : Z -> bool) (beyond : bytes) (passing : Z -> Z).
#[local] Abbreviation validate :=
  (validate_recv_frame c not_pcie hiq_filter ap_expire_to HZ now true zmalloc_ok beyond passing).

(** The frame as CCMP sees it, and the two ways a frame is authenticated. *)
Definition ccmp_frame (p : precv) : recv_frame :=
  cipher_view (set_attrib (mgmt_attr (ptr p) (pattr (parse_header p))) (fr p)).
Definition decrypts (e : entry) (p : precv) : Prop :=
  exists v g sec, decryptor true (rw_sec (world e)) (table e) (ccmp_frame p) (rw_glob (world e)) = Some (Some v, g, sec).
Definition carries_mic (e e' : entry) (p : precv) : Prop :=
  exists ok, rtw_BIP_verify ok beyond (ptr p) (pkt_len (ha p)) (bip e) = Done (_SUCCESS, bip e').

Lemma view_log_mlme x e : is_dispatch x = false -> dispatched (log_mlme x e) = dispatched e.
Proof. intros Hx. unfold dispatched. cbn [mlme_log log_mlme]. rewrite list.filter_app, filter_cons_False by (rewrite Hx; intros []). by rewrite filter_nil, app_nil_r. Qed.

(** [validate_80211w_mgmt] dispatches nothing, and lets a robust frame pass only when it
    is authenticated. *)
Lemma w80211_spec e p e' p' r :
  check_fwstate c WIFI_STATION_STATE && check_fwstate c _FW_LINKED && binstallBIPkey (bip e) = true ->
  leaving (ptr p) || robust_action (ptr p) = true ->
  validate_80211w_mgmt c true zmalloc_ok beyond e (parse_header p) = Some (e', p', r) ->
  dispatched e' = dispatched e /\
  (r <> _FAIL ->
   if GetPrivacy (ptr p) && negb (IS_MCAST (GetAddr1Ptr (ptr p))) then decrypts e p
   else IS_MCAST (GetAddr1Ptr (ptr p)) && leaving (ptr p) = true /\ carries_mic e e' p).
Proof.
  intros Hon Hrob. unfold validate_80211w_mgmt. rewrite Hon. change (ptr (parse_header p)) with (ptr p).
  change (privacy (pattr (parse_header p))) with (GetPrivacy (ptr p)). fold (leaving (ptr p)).
  unfold robust_action in Hrob. change (pkt_len (ha (parse_header p))) with (pkt_len (ha p)).
  assert (Hact : leaving (ptr p) || (GetFrameSubType (ptr p) =? WIFI_ACTION) = true)
    by (destruct (leaving _), (_ =? WIFI_ACTION); done).
  rewrite Hact, andb_true_r. destruct (GetPrivacy (ptr p) && _).
  - unfold decrypt_mgmt. cbv zeta. destruct (zmalloc_ok _); [|intros E; injection E as <- <- <-; by split]. cbn [negb].
    intros ([[v g] sec] & Hd & E)%bind_Some. destruct v as [v|].
    + apply bind_Some in E as (d & _ & E). apply bind_Some in E as (m & _ & [= <- <- <-]).
      split; [done|]. intros _. by exists v, g, sec.
    + destruct (rf_pkt _); [done|]. injection E as <- <- <-. by split.
  - destruct (IS_MCAST _ && _) eqn:Hg.
    + destruct (rtw_BIP_verify _ _ _ _ _) as [[r0 b]| |] eqn:Hb; try done. cbn [res_opt mbind option_bind].
      intros [= <- <- <-]. split; [done|]. destruct (Z.eqb_spec r0 _SUCCESS) as [->|]; [|done].
      intros _. split; [done|]. by eexists.
    + destruct (GetFrameSubType (ptr p) =? WIFI_ACTION) eqn:Ha.
      * intros (cat & Hc & [= <- <- <-])%bind_Some. split; [done|].
        assert (leaving (ptr p) = false) as Hlv by (unfold leaving; apply Z.eqb_eq in Ha; by rewrite Ha).
        rewrite Hlv in Hrob. cbn in Hrob. unfold ld in Hc. match type of Hc with (if ?b then _ else _) = _ => destruct b end; [|done]. injection Hc as <-.
        unfold ld0 in Hrob. by destruct (not_robust _).
      * rewrite orb_false_r in Hact. rewrite Hact. intros (b & _ & [= <- <- <-])%bind_Some.
        split; [|done]. destruct (_ =? 6), (_ =? 7); try done; by apply view_log_mlme.
Qed.

Lemma pmf_run e p e' p' r : ld0 (ptr p) 0 .& 0x3 = 0 -> GetFrameType (ptr p) = WIFI_MGT_TYPE ->
  check_fwstate c WIFI_STATION_STATE && check_fwstate c _FW_LINKED && binstallBIPkey (bip e) = true ->
  leaving (ptr p) || robust_action (ptr p) = true -> validate e p = Some (e', p', r) ->
  dispatched e' = dispatched e \/
  (if GetPrivacy (ptr p) && negb (IS_MCAST (GetAddr1Ptr (ptr p))) then decrypts e p
   else IS_MCAST (GetAddr1Ptr (ptr p)) && leaving (ptr p) = true /\ carries_mic e e' p).
Proof.
  intros Hver Hty Hon Hrob Hv. unfold validate_recv_frame in Hv. apply bind_Some in Hv as (_ & _ & Hv).
  rewrite Hver, Hty in Hv. cbn [Z.eqb negb WIFI_MGT_TYPE Pos.eqb] in Hv.
  apply bind_Some in Hv as ([[e1 p1] r1] & H1 & Hv). destruct (w80211_spec _ _ _ _ _ Hon Hrob H1) as [Hd Ha].
  destruct (Z.eqb_spec r1 _FAIL) as [->|Hr]; [injection Hv as <- _ _; by left|].
  apply bind_Some in Hv as ([e2 r2] & H2 & [= <- _ _]). right. specialize (Ha Hr).
  destruct (GetPrivacy (ptr p) && negb _); [exact Ha|]. destruct Ha as [Hg [ok Hm]]. split; [done|]. exists ok. rewrite Hm. f_equal. f_equal.
  unfold validate_recv_mgnt_frame in H2. apply bind_Some in H2 as ([w f] & _ & H2).
  destruct f; by injection H2 as <- _.
Qed.
End protected_management.

(** C5: Protected management frames: on an associated station with a group integrity key,
    a deauthentication, a disassociation or a robust action frame is handed to the
    management handlers only when it is a unicast frame with the protected bit that
    [decryptor] accepts under CCMP, or a group-addressed deauthentication or
    disassociation whose management MIC [rtw_BIP_verify] accepts.  Every other such frame
    leaves the log of dispatched frames as it was. *)
Theorem pmf_gate c not_pcie hiq_filter ap_expire_to HZ now zmalloc_ok beyond passing e p e' p' r :
  ld0 (ptr p) 0 .& 0x3 = 0 -> GetFrameType (ptr p) = WIFI_MGT_TYPE ->
  check_fwstate c WIFI_STATION_STATE && check_fwstate c _FW_LINKED && binstallBIPkey (bip e) = true ->
  leaving (ptr p) || robust_action (ptr p) = true ->
  validate_recv_frame c not_pcie hiq_filter ap_expire_to HZ now true zmalloc_ok beyond passing e p = Some (e', p', r) ->
  dispatched e' = dispatched e \/
  (if GetPrivacy (ptr p) && negb (IS_MCAST (GetAddr1Ptr (ptr p))) then decrypts e p
   else IS_MCAST (GetAddr1Ptr (ptr p)) && leaving (ptr p) = true /\ carries_mic beyond e e' p).
Proof. apply pmf_run. Qed.

(** A unicast deauthentication, disassociation or action frame with the protected bit
    whose CCMP check fails: [decryptor] frees the frame and its socket buffer, and
    [validate_80211w_mgmt] then copies the body within the freed buffer.  Any station can
    send such a frame. *)
Theorem forged_management_use_after_free c not_pcie hiq_filter ap_expire_to HZ now zmalloc_ok beyond passing e p g sec :
  ld0 (ptr p) 0 .& 0x3 = 0 -> GetFrameType (ptr p) = WIFI_MGT_TYPE ->
  check_fwstate c WIFI_STATION_STATE && check_fwstate c _FW_LINKED && binstallBIPkey (bip e) = true ->
  leaving (ptr p) || (GetFrameSubType (ptr p) =? WIFI_ACTION) = true ->
  GetPrivacy (ptr p) && negb (IS_MCAST (GetAddr1Ptr (ptr p))) = true ->
  (forall n, zmalloc_ok n = true) -> rf_pkt (fr p) = true ->
  decryptor true (rw_sec (world e)) (table e) (ccmp_frame p) (rw_glob (world e)) = Some (None, g, sec) ->
  validate_recv_frame c not_pcie hiq_filter ap_expire_to HZ now true zmalloc_ok beyond passing e p = None.
Proof.
  intros Hver Hty Hon Hrob Hprot Hz Hpkt Hdec. unfold validate_recv_frame.
  destruct (rd _ _ 24); [|done]. cbn [mbind option_bind].
  rewrite Hver, Hty. cbn [Z.eqb negb WIFI_MGT_TYPE Pos.eqb].
  unfold validate_80211w_mgmt. rewrite Hon. change (ptr (parse_header p)) with (ptr p).
  change (privacy (pattr (parse_header p))) with (GetPrivacy (ptr p)). fold (leaving (ptr p)). rewrite Hrob, Hprot. cbn [andb].
  unfold decrypt_mgmt. cbv zeta. rewrite Hz. cbn [negb]. change (cipher_view _) with (ccmp_frame p). rewrite Hdec.
  cbn [mbind option_bind]. change (rf_pkt _) with (rf_pkt (fr p)). by rewrite Hpkt.
Qed.

(** ** The way of an unprotected data frame *)

Lemma get_stainfo_same sp sp' x : sta_hash sp' = sta_hash sp -> map hwaddr (stas sp') = map hwaddr (stas sp) ->
  rtw_get_stainfo sp' x = rtw_get_stainfo sp x.
Proof.
  intros Hh Hm. unfold rtw_get_stainfo. rewrite Hh. destruct (_ !! _) as [l|]; [|done]. cbn [mbind option_bind].
  assert (Ha : forall o, sta_addr sp' o = sta_addr sp o).
  { intros o. unfold sta_addr. assert (H : (hwaddr <$> stas sp') !! o = (hwaddr <$> stas sp) !! o)
      by exact (f_equal (fun l => l !! o) Hm). rewrite !list_lookup_fmap in H.
    destruct (stas sp' !! o), (stas sp !! o); cbn in H; congruence. }
  induction l as [|o l IH]; [done|]. cbn [find]. rewrite Ha, IH. done.
Qed.

Lemma view_get_stainfo a b x : rx_view a = rx_view b -> rtw_get_stainfo (stapriv a) x = rtw_get_stainfo (stapriv b) x.
Proof.
  intros Hv. unfold rx_view in Hv. apply get_stainfo_same; [congruence|].
  assert (H : map sta_view (stas (stapriv a)) = map sta_view (stas (stapriv b))) by congruence.
  apply (f_equal (map (fun v => fst (fst v)))) in H. rewrite !map_map in H. exact H.
Qed.

Lemma remember_get_stainfo o h a x : rtw_get_stainfo (stapriv (upd_sta o (remember h) a)) x = rtw_get_stainfo (stapriv a) x.
Proof. apply get_stainfo_same; [done|]. cbn. by rewrite map_alter_same. Qed.

Section cleartext.
Context (c : rx_config) (not_pcie : bool) (hiq_filter ap_expire_to HZ now : Z) (ok : Z -> bool).
Context (drv : drv_flags) (ht ieee80211w : bool) (zmalloc_ok : Z -> bool) (beyond : bytes) (passing : Z -> Z).
#[local] Abbreviation receive :=
  (recv_func c not_pcie hiq_filter ap_expire_to HZ now ok drv ht ieee80211w zmalloc_ok beyond passing).

(** A data frame without fragments and subframes, from a station [o] that is known, and
    past its window at once. *)
Record whole_frame (e : entry) (p : precv) (h : bytes) (o : nat) (s : sta_info) : Prop := {
  wf_ready : data_ready e p h;
  wf_known : rtw_get_stainfo (table e) (GetAddr2Ptr h) = Some o;
  wf_sta : stas (table e) !! o = Some s;
  wf_whole : GetMFrag h = false /\ GetFragNum h = 0 /\ (is_qos h = true -> GetAMsdu (qos_ctrl h) = 0);
  wf_window : ht = true -> is_qos h = true -> exists k,
    recvreorder_ctrl s !! Z.to_nat (frame_tid h) = Some k /\ enable k = false;
  wf_windows : length (recvreorder_ctrl s) = 16%nat;
  wf_pkt : rf_pkt (fr p) = true
}.

(** Such a frame without the protected bit that is new to the station's duplicate cache. *)
Record clear_frame (e : entry) (p : precv) (h pre hd body post : bytes) (o : nat) (s : sta_info) : Prop := {
  cf_frame : whole_frame e p h o s;
  cf_sender : sender c (table e) h = Some o;
  cf_new : duplicate h s = false;
  cf_clear : GetPrivacy h = false;
  cf_repr : rx_repr (fr p) pre (hd ++ body) post;
  cf_hdr : zlen hd = (if is_qos h then 26 else 24) + (if GetOrder h then 4 else 0);
  cf_body : 8 <= zlen body /\ bytes_ok body;
  cf_queue : uc_swdec_pending_queue e = []
}.

Lemma drain_nothing e : uc_swdec_pending_queue e = [] ->
  drain_pending c HZ now ok drv ht ieee80211w (uc_swdec_pending_queue e) e = Some e.
Proof. intros Hq. rewrite Hq. cbn. f_equal. destruct e. cbn in Hq. by rewrite Hq. Qed.

(** What [data_attrib] reads from the header whatever the cipher. *)
Lemma data_attrib_fields o h a : let b := data_attrib c o h a in
  ta b = GetAddr2Ptr h /\ mfrag b = Z.b2z (GetMFrag h) /\ frag_num b = GetFragNum h /\
  amsdu b = (if is_qos h then GetAMsdu (qos_ctrl h) else 0) /\ priority b = frame_tid h /\
  qos b = Z.b2z (is_qos h) /\ dst b = get_da h /\ src b = get_sa h.
Proof using Type. unfold data_attrib. by destruct (if GetPrivacy h then _ else (0, 0)). Qed.

Lemma whole_ready e p h o s e' p' : whole_frame e p h o s ->
  fr p' = set_attrib (data_attrib c o h (pattr p)) (set_psta o (fr p)) ->
  rx_view (rw_ad (world e')) = rx_view (upd_sta o (remember h) (rw_ad (world e))) ->
  exists s', ready_for ht (fr p') (world e') o s' /\ ieee8021x_blocked s' = ieee8021x_blocked s /\
    dot118021x_UncstKey s' = dot118021x_UncstKey s.
Proof using Type.
  intros [Hr Hk Hs (Hmf & Hfn & Ham) Hw Hl Hp] Hf Hv.
  assert (Hs1 : stas (stapriv (upd_sta o (remember h) (rw_ad (world e)))) !! o = Some (remember h s)).
  { cbn. rewrite (alter_insert _ _ _ _ Hs). apply list_lookup_insert_eq. by eapply lookup_lt_Some. }
  destruct (view_lookup _ _ _ _ (eq_sym Hv) Hs1) as (s' & Hs' & Hsv).
  assert (Hb : ieee8021x_blocked s' = ieee8021x_blocked s) by (unfold sta_view in Hsv; cbn in Hsv; congruence).
  assert (Hkey : dot118021x_UncstKey s' = dot118021x_UncstKey s) by (unfold sta_view in Hsv; cbn in Hsv; congruence).
  assert (Hrc : recvreorder_ctrl s' = recvreorder_ctrl s) by (unfold sta_view in Hsv; cbn in Hsv; congruence).
  exists s'. split; [|done]. rewrite Hf.
  destruct (data_attrib_fields o h (pattr p)) as (Hta & H1 & H2 & H3 & H4 & H5 & H6 & H7).
  destruct Hr as [Hptr Hat Hb1 Hlen _ _ _ _ _]. pose proof (frame_tid_range h) as Ht.
  constructor; cbn [attrib set_attrib rf_psta set_psta rf_pkt]; rewrite ?Hta, ?H1, ?H2, ?H3, ?H4, ?H5, ?H6, ?H7; try done.
  - rewrite (view_get_stainfo _ _ _ Hv), remember_get_stainfo. exact Hk.
  - rewrite Hmf, Hfn. destruct (is_qos h); [by rewrite Ham|done].
  - intros Hht. exists s'. rewrite Hrc. destruct (is_qos h) eqn:Hq.
    + destruct (Hw Hht eq_refl) as (k & Hk1 & Hk2). exists k. auto.
    + destruct (lookup_lt_is_Some_2 (recvreorder_ctrl s) (Z.to_nat (frame_tid h)) ltac:(lia)) as [k Hk1]. exists k. auto.
  - assert (H24 : if get_tofr_ds h =? 3 then 30 <= zlen h else 24 <= zlen h)
      by (revert Hlen; destruct (_ =? 3); [done|]; destruct (is_qos h); lia).
    unfold get_da, get_sa, GetAddr1Ptr, GetAddr2Ptr, GetAddr3Ptr, GetAddr4Ptr, addr_at.
    unfold zlen in *. rewrite get_tofr_ds_cases in *.
    destruct (GetToDs h), (GetFrDs h); cbn in H24 |- *; rewrite !length_take, !length_drop; lia.
Qed.

(** Keys and cipher state. *)
Definition crypt (e : entry) := (rw_sec (world e), rw_glob (world e)).

Lemma direction_crypt e p bss e' p' psta r :
  data_direction c not_pcie hiq_filter ap_expire_to now passing e p bss = Some (e', p', psta, r) -> crypt e' = crypt e.
Proof using Type.
  unfold data_direction. cbv zeta. intros E. destruct (_ =? 0); [|destruct (_ =? 1); [|destruct (_ =? 2)]].
  - by destruct (sta2sta_data_frame _ _ _) as [[??]?]; simplify_eq.
  - unfold ap2sta_data_frame, mp_data_frame in E. repeat case_match; by simplify_eq.
  - unfold sta2ap_data_frame, mp_data_frame in E.
    destruct (check_fwstate c WIFI_AP_STATE); [|repeat case_match; by simplify_eq].
    destruct (negb _); [by simplify_eq|]. destruct (rtw_get_stainfo _ _); [|by simplify_eq].
    by apply bind_Some in E as (w & Ew & [= <- <- _ _]).
  - by simplify_eq.
Qed.

Lemma validate_crypt e p e' p' r : GetFrameType (ptr p) = WIFI_DATA_TYPE ->
  validate_recv_frame c not_pcie hiq_filter ap_expire_to HZ now ieee80211w zmalloc_ok beyond passing e p = Some (e', p', r) ->
  crypt e' = crypt e.
Proof using Type.
  unfold validate_recv_frame. intros Hty (h0 & _ & E)%bind_Some. destruct (negb _); [by injection E as <- _ _|].
  rewrite Hty in E. cbn [Z.eqb WIFI_DATA_TYPE WIFI_MGT_TYPE WIFI_CTRL_TYPE Pos.eqb] in E.
  apply bind_Some in E as (h1 & _ & E). apply bind_Some in E as ([[e1 p1] r1] & Ev & E).
  assert (H1 : crypt e1 = crypt e); [|injection E as <- _ _; by destruct (r1 =? _FAIL)].
  clear E. unfold validate_recv_data_frame in Ev. destruct (get_hdr_bssid _); [|by injection Ev as <- _ _].
  apply bind_Some in Ev as ([[[e2 p2] psta] r2] & E1 & E). apply direction_crypt in E1. rewrite <- E1.
  destruct (_ || _); [by injection E as <- _ _|]. destruct psta as [o|]; [|by injection E as <- _ _].
  unfold accept_data_frame in E. apply bind_Some in E as ([e3 p3] & E2 & E). apply bind_Some in E as ([e4 r4] & E3 & E).
  transitivity (crypt e3).
  - unfold decache in E3. apply bind_Some in E3 as (s & _ & E3). apply bind_Some in E3 as ([l0 r5] & _ & [= <- _]).
    by destruct (r4 =? _FAIL); injection E as <- _ _.
  - unfold parse_qos in E2. destruct (_ =? 1); [|by injection E2 as <- _]. by apply bind_Some in E2 as (qc & _ & [= <- _]).
Qed.

(** [recv_func] up to [recv_func_posthandle], for a frame that does not have to wait. *)
Lemma recv_func_validated e p h o s : normal_mode c ->
  check_fwstate c WIFI_MONITOR_STATE = false -> mp_mode c || bRTWSmbCfg c = false ->
  whole_frame e p h o s -> sender c (table e) h = Some o -> duplicate h s = false -> uc_swdec_pending_queue e = [] ->
  must_wait c e (data_attrib c o h (pattr p)) = false ->
  exists e1 p1, fr p1 = set_attrib (data_attrib c o h (pattr p)) (set_psta o (fr p)) /\
    rx_view (rw_ad (world e1)) = rx_view (upd_sta o (remember h) (rw_ad (world e))) /\ crypt e1 = crypt e /\
    receive e p = posthandle c HZ now ok drv ht ieee80211w (fr p1) e1.
Proof using Type.
  intros Hinf Hmon Hmp Hwf Hsd Hdup Hq Hmw. pose proof Hwf as [Hr _ Hs _ _ _ _]. unfold recv_func. rewrite Hmon.
  assert (Hdr : (if check_fwstate c WIFI_STATION_STATE && busetkipkey (rw_sec (world e))
    then drain_pending c HZ now ok drv ht ieee80211w (uc_swdec_pending_queue e) e else Some e) = Some e)
    by (destruct (_ && _); [by apply drain_nothing|done]).
  rewrite Hdr. cbn [mbind option_bind]. unfold recv_func_prehandle. rewrite Hmp.
  destruct (validate_run c not_pcie hiq_filter ap_expire_to HZ now ieee80211w zmalloc_ok beyond passing Hinf e p h Hr)
    as (e1 & p1 & r & E & Hval). rewrite E. unfold validated in Hval. rewrite Hsd, Hs in Hval.
  destruct Hval as (s0 & [= <-] & Hval). rewrite Hdup in Hval. destruct Hval as (-> & Hf & Hv).
  apply validate_crypt in E; [|rewrite (dr_ptr _ _ _ Hr); apply Hr].
  exists e1, p1. do 3 (split; [done|]). cbn [mbind option_bind]. cbn [Z.eqb _SUCCESS Pos.eqb negb mbind option_bind].
  replace (must_wait c e1 (pattr p1)) with false; [done|]. rewrite <- Hmw. unfold must_wait.
  unfold crypt in E. injection E as -> _.
  assert (Hpa : pattr p1 = data_attrib c o h (pattr p)) by (unfold pattr at 1; by rewrite Hf). by rewrite Hpa.
Qed.

(** What [recv_func] did with the packets of a frame for the destination [d]: [handled]
    with the lookups in the station table of before. *)
Definition delivered (e : entry) (p : precv) (d : bytes) (pkts : list bytes) (e' : entry) : Prop :=
  handled (os_at (table e) (os (drv_link c drv))) (fr p) d pkts
    (recvpriv (rw_ad (world e))) (recvpriv (rw_ad (world e'))).

(** The table that [recv_func_posthandle] gets has the stations of the table before. *)
Lemma delivered_view e e1 e' p p1 d o h pkts : rx_view (rw_ad (world e1)) = rx_view (upd_sta o (remember h) (rw_ad (world e))) ->
  rf_id (fr p1) = rf_id (fr p) ->
  handled (os_at (table e1) (os (drv_link c drv))) (fr p1) d pkts
    (recvpriv (rw_ad (world e1))) (recvpriv (rw_ad (world e'))) -> delivered e p d pkts e'.
Proof using Type.
  intros Hv Hid Hh. unfold delivered.
  apply (handled_table (table e) (table e1)) in Hh.
  - unfold handled in *. rewrite Hid in Hh.
    replace (recvpriv (rw_ad (world e))) with (recvpriv (rw_ad (world e1))) by (unfold rx_view in Hv; cbn in Hv; congruence).
    exact Hh.
  - intros x. unfold table. by rewrite (view_get_stainfo _ _ _ Hv), remember_get_stainfo.
Qed.

(** C7: A data frame without the protected bit goes through the whole receive path
    whatever cipher the station's link uses: no hypothesis bounds the configured ciphers.
    The one check left is the 802.1X port.  For a frame ([clear_frame]) that is not a
    fragment, not an A-MSDU and no duplicate, of a known station that has no enabled
    block-ack window for the frame's priority (or without HT), with no frame waiting for
    the pairwise key: when the port of the station is open, or the frame is EAPOL, the
    Ethernet packet of its body is handed over, unencrypted as it came.  On a station
    or in an ad hoc network that is to the network stack; at an access point a packet for
    the access point itself, or for an unknown address, goes to the stack, one for another
    station of the table to the transmit path and not to the stack, one for the group to the
    transmit path and, when it can be cloned, to the stack. *)
Theorem recv_func_cleartext e p h pre hd body post o s : normal_mode c ->
  check_fwstate c WIFI_MONITOR_STATE = false -> mp_mode c || bRTWSmbCfg c = false ->
  running drv = true -> clear_frame e p h pre hd body post o s ->
  let opened := port_open (dot11AuthAlgrthm c) s body in
  exists e', receive e p = Some (e', if opened then _SUCCESS else _FAIL) /\
    delivered e p (get_da h) (if opened then [msdu_pkt (data_attrib c o h (pattr p)) body] else []) e'.
Proof.
  intros Hinf Hmon Hmp Hrun [Hwf Hsd Hdup Hc Hrep Hhd [Hb8 Hbo] Hq] opened. pose proof (proj1 Hinf) as Hmps.
  assert (He0 : encrypt (data_attrib c o h (pattr p)) = 0) by (unfold data_attrib; by rewrite Hc).
  destruct (recv_func_validated e p h o s Hinf Hmon Hmp Hwf Hsd Hdup Hq) as (e1 & p1 & Hf & Hv & _ & ->).
  { unfold must_wait. rewrite He0. cbn [Z.ltb Z.compare]. by rewrite !andb_false_r. }
  destruct (whole_ready _ _ _ _ _ _ _ Hwf Hf Hv) as (s' & Hrdy & Hbl & _).
  destruct (posthandle_port_run HZ now ok (drv_link c drv) ht ieee80211w (dot11AuthAlgrthm c) (fr p1) (world e1) o s' pre hd body post)
    as (w' & Hp & Hh); try done; [by rewrite Hf| |].
  { destruct Hrep as [Hm Hd Ht Hl Hz]. unfold data_attrib in Hf. rewrite Hc in Hf.
    constructor; rewrite ?Hf; cbn; rewrite ?Hhd, ?Z.add_0_r, ?app_nil_r; try done.
    destruct (is_qos h), (GetOrder h); lia. }
  unfold posthandle. rewrite Hp. cbn [mbind option_bind]. eexists. split.
  - unfold opened, port_open. rewrite Hbl. reflexivity.
  - replace (port_open (dot11AuthAlgrthm c) s' body) with opened in Hh by (unfold opened, port_open; by rewrite Hbl).
    eapply delivered_view; [exact Hv|by rewrite Hf|].
    destruct (data_attrib_fields o h (pattr p)) as (_ & _ & _ & _ & _ & _ & Hda & _).
    rewrite <- Hda. rewrite Hf in Hh |- *. exact Hh.
Qed.
End cleartext.

(** ** Where the frames are *)

(** The queues of the stations, which [accounted] counts. *)
Definition queues (s : sta_info) := (defrag_q s, recvreorder_ctrl s).
Definition qview (a : adapter) := (recvpriv a, map queues (stas (stapriv a))).

Lemma rx_view_qview a b : rx_view a = rx_view b -> qview a = qview b.
Proof.
  unfold rx_view, qview. intros H. assert (Hr : recvpriv a = recvpriv b) by congruence.
  assert (Hm : map sta_view (stas (stapriv a)) = map sta_view (stas (stapriv b))) by congruence.
  apply (f_equal (map (fun v => fst (snd (fst v))))) in Hm. rewrite !map_map in Hm.
  rewrite Hr. f_equal. exact Hm.
Qed.

Lemma msum_map {A B} (v : A -> B) (g : B -> gmultiset Z) l : msum (fun x => g (v x)) l = msum g (map v l).
Proof. induction l as [|x l IH]; [done|]. cbn. by rewrite IH. Qed.

Lemma qview_accounted a b : qview a = qview b -> accounted a = accounted b.
Proof.
  unfold qview, accounted. intros H. assert (Hr : recvpriv a = recvpriv b) by congruence.
  assert (Hm : map queues (stas (stapriv a)) = map queues (stas (stapriv b))) by congruence. rewrite Hr. f_equal.
  pose (g := fun q : list rframe * list recv_reorder_ctrl => frames (fst q) ⊎ msum win_frames (snd q)).
  transitivity (msum g (map queues (stas (stapriv a)))); [|rewrite Hm; symmetry]; exact (msum_map queues g _).
Qed.

Lemma qview_bits a b : qview a = qview b -> bits a -> bits b.
Proof.
  unfold qview, bits. intros H. assert (Hm : map queues (stas (stapriv a)) = map queues (stas (stapriv b))) by congruence.
  revert Hm. generalize (stas (stapriv a)) (stas (stapriv b)). induction l as [|x l IH]; intros [|y k] Hm; try done.
  cbn [map] in Hm. apply (inj2 cons) in Hm as [Hx Hm]. rewrite !list.Forall_cons. intros [H1 H2]. split; [|by eapply IH].
  unfold sta_bits, queues in *. injection Hx as <- <-. done.
Qed.

Lemma mult_cons x f q : multiplicity x (frames (f :: q)) = ((if decide (x = rf_id f) then 1 else 0) + multiplicity x (frames q))%nat.
Proof. rewrite frames_cons, multiplicity_disj_union, multiplicity_singleton. done. Qed.

Lemma mult_filter x i q : multiplicity x (frames (filter (fun f => rf_id f <> i) q)) =
  if decide (x = i) then 0%nat else multiplicity x (frames q).
Proof.
  induction q as [|f q IH]; [by case_decide|]. rewrite filter_cons, mult_cons.
  destruct (decide (rf_id f <> i)) as [Hn|Hn]; rewrite ?mult_cons, IH; repeat case_decide; try done; subst; lia.
Qed.

Lemma mult_pool x f e : multiplicity x (pool (rtw_free_recvframe f e)) =
  if decide (x = rf_id f) then 1%nat else multiplicity x (pool e).
Proof.
  unfold pool, rtw_free_recvframe, relink. cbn [free_recv_queue]. rewrite ms_app, multiplicity_disj_union.
  change (ms [rf_id f]) with ({[+ rf_id f +]} ⊎ ∅ : gmultiset Z). rewrite multiplicity_disj_union, multiplicity_singleton, multiplicity_empty.
  assert (H : forall l : list Z, multiplicity x (ms (filter (fun y => y <> rf_id f) l)) =
    if decide (x = rf_id f) then 0%nat else multiplicity x (ms l)).
  { unfold ms. induction l as [|y l IH]; [by case_decide|]. rewrite filter_cons.
    destruct (decide (y <> rf_id f)); rewrite ?list_to_set_disj_cons, ?multiplicity_disj_union, ?multiplicity_singleton, IH;
      repeat case_decide; try done; subst; try lia; congruence. }
  rewrite H. case_decide; lia.
Qed.

(** The frames in the windows of the stations. *)
Definition windows (a : adapter) : list (list recv_reorder_ctrl) := map recvreorder_ctrl (stas (stapriv a)).
Definition in_windows (a : adapter) : gmultiset Z := msum (msum win_frames) (windows a).

Lemma in_windows_accounted a : in_windows a ⊆ accounted a.
Proof.
  unfold in_windows, windows, accounted. rewrite <- (msum_map recvreorder_ctrl (msum win_frames)).
  transitivity (msum sta_frames (stas (stapriv a))); [|multiset_solver].
  induction (stas (stapriv a)) as [|s l IH]; cbn; [done|]. unfold sta_frames at 1. multiset_solver.
Qed.

Lemma map_insert_same {A B} (v : A -> B) l o x y : l !! o = Some x -> v y = v x -> map v (<[o:=y]> l) = map v l.
Proof.
  intros Hl Hv. revert o Hl. induction l as [|z l IH]; intros [|o] Hl; try done; cbn; [|by rewrite IH].
  injection Hl as ->. by rewrite Hv.
Qed.

Lemma defrag_windows f pd a a' r : defrag_enqueue f pd a = Some (a', r) -> windows a' = windows a.
Proof.
  assert (Hset : forall e o s q, stas (stapriv a) !! o = Some s ->
    windows (set_env e (upd_stas (<[o := set_defrag_q q s]> (stas (stapriv a))) a)) = windows a).
  { intros e o s q Hs. unfold windows. cbn. by apply (map_insert_same _ _ _ s). }
  unfold defrag_enqueue. destruct (_ && _); [by intros [= <- <-]|]. destruct pd as [o|].
  - intros (s & Hs & E)%bind_Some. destruct (mfrag (attrib f) =? 1).
    + destruct (if _ : bool then _ else _) as [q e]. injection E as <- <-. by apply Hset.
    + destruct (_ =? 0); [|by injection E as <- <-]. apply bind_Some in E as ([r1 e] & _ & [= <- <-]). by apply Hset.
  - destruct (_ || _); by intros [= <- <-].
Qed.

Lemma chk_defrag_windows HZ now f w w' r : recvframe_chk_defrag HZ now f w = Some (w', r) ->
  windows (rw_ad w') = windows (rw_ad w).
Proof.
  unfold recvframe_chk_defrag. intros (pd & _ & E)%bind_Some. apply bind_Some in E as ([a r1] & E1 & E).
  apply defrag_windows in E1. destruct r1 as [p|]; [|by injection E as <- <-].
  destruct (privacy _); [|by injection E as <- <-]. apply bind_Some in E as ([[p1 m] res] & _ & E).
  destruct (res =? _FAIL); by injection E as <- <-.
Qed.

Lemma mult_free x f l : multiplicity x (msum sta_frames (map (unlink_defrag f) l)) =
  (if decide (x = rf_id f) then multiplicity x (msum (msum win_frames) (map recvreorder_ctrl l))
   else multiplicity x (msum sta_frames l)).
Proof.
  induction l as [|s l IH]; [by case_decide|]. cbn [map msum]. rewrite !multiplicity_disj_union, IH.
  unfold sta_frames. cbn [unlink_defrag set_defrag_q defrag_q recvreorder_ctrl].
  rewrite !multiplicity_disj_union, mult_filter. case_decide; lia.
Qed.

(** Freeing a frame that is in no window leaves every frame in at most one place. *)
Lemma free_recvframe_sub f w X : accounted (rw_ad w) ⊆ X -> rf_id f ∈ X -> rf_id f ∉ in_windows (rw_ad w) ->
  accounted (rw_ad (free_recvframe f w)) ⊆ X.
Proof.
  intros Hs Hf Hw x. specialize (Hs x). unfold accounted in *. unfold free_recvframe, free_frame.
  cbn [rw_ad set_ad set_env upd_stas set_stapriv stapriv recvpriv set_table stas].
  rewrite multiplicity_disj_union, mult_pool, mult_free in *.
  assert (multiplicity (rf_id f) (in_windows (rw_ad w)) = 0%nat) as Hw0
    by (rewrite elem_of_multiplicity in Hw; lia). unfold in_windows, windows in Hw0.
  destruct (decide (x = rf_id f)) as [->|_]; [|exact Hs].
  rewrite Hw0. rewrite elem_of_multiplicity in Hf. exact Hf.
Qed.

Lemma free_recvframe_bits f w : bits (rw_ad w) -> bits (rw_ad (free_recvframe f w)).
Proof.
  unfold bits, free_recvframe, free_frame. cbn. intros H. apply Forall_map. eapply list.Forall_impl; [exact H|].
  intros s [H1 H2]. split; [|exact H2]. cbn. rewrite list.Forall_forall in *.
  intros x [_ Hx]%list_elem_of_filter. by apply H1.
Qed.

(** What a step that moves no frame keeps. *)
Record still (e e' : entry) : Prop := {
  st_queues : qview (rw_ad (world e')) = qview (rw_ad (world e));
  st_waiting : uc_swdec_pending_queue e' = uc_swdec_pending_queue e
}.
Lemma still_refl e : still e e.
Proof. done. Qed.
Lemma still_trans a b d : still a b -> still b d -> still a d.
Proof. intros [H1 H2] [H3 H4]. constructor; congruence. Qed.

Definition mfrag_bit (f : rframe) : Prop := mfrag (attrib f) = 0 \/ mfrag (attrib f) = 1.
(** The frame object and the attributes [accounted] and [bits] rest on. *)
Record same_frame (f f' : rframe) : Prop := {
  sf_id : rf_id f' = rf_id f;
  sf_mfrag : mfrag (attrib f') = mfrag (attrib f) \/ mfrag_bit f';
  sf_amsdu : amsdu (attrib f') = amsdu (attrib f) \/ amsdu_bit f'
}.

Lemma amsdu_of_qc qc : GetAMsdu qc = 0 \/ GetAMsdu qc = 1.
Proof. unfold GetAMsdu. rewrite (land_mask _ 1) by lia. pose proof (Z.mod_pos_bound (le16_at qc 0 .>> 7) (2 ^ 1)). lia. Qed.

Section frames_kept.
Context (c : rx_config) (not_pcie : bool) (hiq_filter ap_expire_to HZ now : Z) (ok : Z -> bool).
Context (drv : drv_flags) (ht ieee80211w : bool) (zmalloc_ok : Z -> bool) (beyond : bytes) (passing : Z -> Z).

Lemma direction_still e p bss e' p' psta r :
  data_direction c not_pcie hiq_filter ap_expire_to now passing e p bss = Some (e', p', psta, r) ->
  still e e' /\ same_frame (fr p) (fr p').
Proof.
  unfold data_direction. cbv zeta. intros E. destruct (_ =? 0); [|destruct (_ =? 1); [|destruct (_ =? 2)]].
  - unfold sta2sta_data_frame, sta2sta_lookup in E. repeat case_match; simplify_eq; split; try done; constructor; by try left.
  - unfold ap2sta_data_frame, mp_data_frame in E. repeat case_match; simplify_eq; split; try done; constructor; by try left.
  - unfold sta2ap_data_frame, mp_data_frame in E.
    destruct (check_fwstate c WIFI_AP_STATE); [|repeat case_match; simplify_eq; split; try done; constructor; by try left].
    destruct (negb _); [simplify_eq; split; try done; constructor; by try left|].
    destruct (rtw_get_stainfo _ _); [|simplify_eq; split; try done; constructor; by try left].
    apply bind_Some in E as (w & Ew & [= <- <- _ _]). apply view_pwrbit in Ew.
    split; [|constructor; by try left]. constructor; [|done]. apply rx_view_qview. cbn [of_psw world set_ad rw_ad].
    destruct (_ =? _); rewrite ?view_wmmps; exact Ew.
  - simplify_eq; split; try done; constructor; by try left.
Qed.
Lemma same_trans f g k : same_frame f g -> same_frame g k -> same_frame f k.
Proof.
  intros [H1 H2 H3] [H4 H5 H6]. constructor; [congruence| |]; unfold amsdu_bit, mfrag_bit in *.
  - destruct H5 as [E|H]; [|by right]. rewrite E. destruct H2; auto.
  - destruct H6 as [E|H]; [|by right]. rewrite E. destruct H3; auto.
Qed.

Lemma parse_qos_still e p e' p' : parse_qos e p = Some (e', p') -> still e e' /\ same_frame (fr p) (fr p').
Proof.
  unfold parse_qos. destruct (qos _ =? 1).
  - intros (qc & _ & [= <- <-])%bind_Some. split; [done|]. constructor; [done|by left|]. right. apply amsdu_of_qc.
  - intros [= <- <-]. split; [done|]. constructor; [done|by left|]. right. by left.
Qed.

Lemma decache_still o e p e' r : decache o e p = Some (e', r) -> still e e'.
Proof.
  unfold decache. intros (s & Hs & E)%bind_Some. apply bind_Some in E as ([l r1] & _ & [= <- _]).
  constructor; [|done]. unfold qview. cbn. f_equal. by apply (map_insert_same _ _ _ s).
Qed.

Lemma set_encryption_same o p : same_frame (fr p) (fr (set_pattr (set_encryption c o (pattr p)) p)).
Proof.
  unfold set_encryption. destruct (privacy _); [destruct (SET_ICE_IV_LEN _)|]; constructor; by try left.
Qed.

Lemma validate_data_still e p e' p' r :
  validate_recv_data_frame c not_pcie hiq_filter ap_expire_to now passing e p = Some (e', p', r) ->
  still e e' /\ same_frame (fr p) (fr p').
Proof.
  unfold validate_recv_data_frame. destruct (get_hdr_bssid _); [|intros [= <- <- _]; split; [done|]; constructor; by try left].
  intros ([[[e1 p1] psta] r1] & E1 & E)%bind_Some. apply direction_still in E1 as [S1 F1].
  destruct (_ || _); [by injection E as <- <- _|]. destruct psta as [o|]; [|by injection E as <- <- _].
  unfold accept_data_frame in E. apply bind_Some in E as ([e2 p2] & E2 & E). apply bind_Some in E as ([e3 r3] & E3 & E).
  apply parse_qos_still in E2 as [S2 F2]. apply decache_still in E3.
  assert (S : still e e3) by (eapply still_trans; [exact S1|]; by eapply still_trans).
  assert (F : same_frame (fr p) (fr p2)) by (eapply same_trans; [exact F1|]; destruct F2; by constructor).
  destruct (r3 =? _FAIL); injection E as <- <- _; (split; [exact S|]); [exact F|].
  eapply same_trans; [exact F|apply set_encryption_same].
Qed.

(** What validation can do with the frames, for a given one: nothing, or keep it for
    reassembly, free it, or lose it for another that was waiting. *)
Record frame_ok (e : entry) (f : rframe) : Prop := {
  fo_uniq : uniq ({[+ rf_id f +]} ⊎ frames (uc_swdec_pending_queue e) ⊎ accounted (rw_ad (world e)));
  fo_bits : bits (rw_ad (world e));
  fo_amsdu : amsdu_bit f;
  fo_mfrag : mfrag_bit f
}.

Lemma w80211_still e p e' p' r :
  validate_80211w_mgmt c ieee80211w zmalloc_ok beyond e p = Some (e', p', r) ->
  same_frame (fr p) (fr p') /\ uc_swdec_pending_queue e' = uc_swdec_pending_queue e /\
  (still e e' \/ r = _FAIL /\ rw_ad (world e') = set_env (rtw_free_recvframe (fr p) (recvpriv (rw_ad (world e)))) (rw_ad (world e))).
Proof.
  assert (Hid : same_frame (fr p) (fr p)) by (constructor; by try left).
  unfold validate_80211w_mgmt. cbv zeta. destruct (_ && binstallBIPkey _); [|by intros [= <- <- _]; auto using still_refl].
  destruct (_ && _ && _).
  - unfold decrypt_mgmt. cbv zeta. destruct (zmalloc_ok _); cbn [negb].
    2: { intros [= <- <- _]. split_and!; [constructor; by try left|done|by left]. }
    intros ([[v g] sec] & Hd & E)%bind_Some. destruct v as [v|].
    + apply bind_Some in E as (d & _ & E). apply bind_Some in E as (m & _ & [= <- <- _]).
      split_and!; [constructor; by try left|done|by left].
    + destruct (rf_pkt _); [done|]. injection E as <- <- <-. split_and!; [constructor; by try left|done|by right].
  - destruct (_ && _).
    + intros ([r0 b] & _ & [= <- <- _])%bind_Some. split_and!; [done|done|by left].
    + destruct (_ =? WIFI_ACTION).
      * intros (cat & _ & [= <- <- _])%bind_Some. split_and!; [done|done|by left].
      * destruct (_ || _); [|intros [= <- <- _]; split_and!; [done|done|by left]].
        intros (b & _ & [= <- <- _])%bind_Some. destruct (_ || _); split_and!; try done; by left.
Qed.

Lemma amsdu_same f g : same_frame f g -> amsdu_bit f -> amsdu_bit g.
Proof. intros [_ _ [E|H]] Hf; [|done]. unfold amsdu_bit. by rewrite E. Qed.
Lemma mfrag_same f g : same_frame f g -> mfrag_bit f -> mfrag_bit g.
Proof. intros [_ [E|H] _] Hf; [|done]. unfold mfrag_bit. by rewrite E. Qed.

(** Where the frames are after a step that was given the frame [i]. *)
Definition places (e : entry) : gmultiset Z := frames (uc_swdec_pending_queue e) ⊎ accounted (rw_ad (world e)).

(** [recv_func_prehandle]: either the frame goes on and nothing has moved, or it is in its
    place (or was freed) and no frame is in two places. *)
Lemma mgnt_frames e p e' r : frame_ok e (fr p) ->
  validate_recv_mgnt_frame HZ now e p = Some (e', r) ->
  bits (rw_ad (world e')) /\ uc_swdec_pending_queue e' = uc_swdec_pending_queue e /\
  accounted (rw_ad (world e')) ⊆ {[+ rf_id (fr p) +]} ⊎ accounted (rw_ad (world e)) /\
  in_windows (rw_ad (world e')) = in_windows (rw_ad (world e)).
Proof.
  intros [Hu Hb Ha Hm]. unfold validate_recv_mgnt_frame. intros ([w d] & Ed & E)%bind_Some.
  pose proof (chk_defrag_windows _ _ _ _ _ _ Ed) as Hw. apply chk_defrag_frames in Ed as [Hb' Hd]; [|uniq|done..].
  assert (world e' = w /\ uc_swdec_pending_queue e' = uc_swdec_pending_queue e) as [-> ->]
    by (destruct d; by injection E as <- _).
  split_and!; [done|done| |by unfold in_windows; rewrite Hw].
  destruct d as [q|]; [destruct Hd as (_ & Hd & _)|]; rewrite <- Hd; multiset_solver.
Qed.
(** The frame [i] may be freed from here without ending up in two places. *)
Record settled (e : entry) (i : Z) (e' : entry) : Prop := {
  se_bits : bits (rw_ad (world e'));
  se_waiting : uc_swdec_pending_queue e' = uc_swdec_pending_queue e;
  se_acc : accounted (rw_ad (world e')) ⊆ {[+ i +]} ⊎ accounted (rw_ad (world e));
  se_win : i ∉ in_windows (rw_ad (world e'))
}.

Lemma not_in_windows e f : frame_ok e f -> rf_id f ∉ in_windows (rw_ad (world e)).
Proof.
  intros [Hu _ _ _] Hin. pose proof (in_windows_accounted (rw_ad (world e))) as Hs.
  assert (rf_id f ∈ accounted (rw_ad (world e))) by multiset_solver.
  apply (uniq_fresh (rf_id f) (accounted (rw_ad (world e)))); [uniq|done].
Qed.

Lemma qview_in_windows a b : qview a = qview b -> in_windows a = in_windows b.
Proof.
  unfold qview, in_windows, windows. intros H. f_equal.
  assert (Hm : map queues (stas (stapriv a)) = map queues (stas (stapriv b))) by congruence.
  apply (f_equal (map snd)) in Hm. rewrite !map_map in Hm. exact Hm.
Qed.

Lemma still_ok e e' f f' : still e e' -> same_frame f f' -> frame_ok e f -> frame_ok e' f'.
Proof.
  intros [Hq Hw] Hs [Hu Hb Ha Hm]. pose proof (amsdu_same _ _ Hs Ha). pose proof (mfrag_same _ _ Hs Hm).
  destruct Hs as [Hi _ _]. constructor; rewrite ?Hi, ?Hw, ?(qview_accounted _ _ Hq); try done. by eapply qview_bits.
Qed.

Lemma still_settled e e' f : still e e' -> frame_ok e f -> settled e (rf_id f) e'.
Proof.
  intros Hs Hok. assert (Hid : same_frame f f) by (constructor; by try left).
  pose proof (still_ok _ _ _ _ Hs Hid Hok) as Hok'. destruct Hs as [Hq Hw]. pose proof Hok' as [_ Hb _ _].
  constructor; [done|done| |by apply not_in_windows]. rewrite (qview_accounted _ _ Hq). multiset_solver.
Qed.

Lemma freed_settled e f e1 : frame_ok e f -> uc_swdec_pending_queue e1 = uc_swdec_pending_queue e ->
  rw_ad (world e1) = set_env (rtw_free_recvframe f (recvpriv (rw_ad (world e)))) (rw_ad (world e)) ->
  settled e (rf_id f) e1.
Proof.
  intros Hok Hq Ha. pose proof Hok as [Hu Hb _ _]. constructor; rewrite ?Ha; try done.
  - unfold accounted. cbn [set_env recvpriv stapriv]. unfold accounted in Hu. rewrite pool_free by uniq. multiset_solver.
  - exact (not_in_windows _ _ Hok).
Qed.

Lemma validate_frames e p e' p' r : frame_ok e (fr p) ->
  validate_recv_frame c not_pcie hiq_filter ap_expire_to HZ now ieee80211w zmalloc_ok beyond passing e p = Some (e', p', r) ->
  rf_id (fr p') = rf_id (fr p) /\ settled e (rf_id (fr p)) e' /\ (r = _SUCCESS -> still e e' /\ same_frame (fr p) (fr p')).
Proof.
  intros Hok. unfold validate_recv_frame. intros (b & _ & E)%bind_Some.
  assert (Hst : settled e (rf_id (fr p)) e) by (apply still_settled; done).
  assert (Hh : same_frame (fr p) (fr (parse_header p))).
  { constructor; [done| |by left]. right. unfold mfrag_bit. cbn. destruct (GetMFrag _); auto. }
  destruct (negb _); [by injection E as <- <- <-|].
  destruct (_ =? WIFI_MGT_TYPE).
  - apply bind_Some in E as ([[e1 p1] r1] & E1 & E).
    assert (H1 : same_frame (fr p) (fr p1) /\ (still e e1 \/ r1 = _FAIL /\ settled e (rf_id (fr p)) e1)).
    { match type of E1 with (if _ then ?V else ?W) = ?R =>
        assert (V = R \/ W = R) as [Ew|Ew] by (destruct ieee80211w; [by left|by right]) end.
      2: { injection Ew as <- <- <-. split; [done|by left]. }
      apply w80211_still in Ew as (F & Hq & H1). split; [by eapply same_trans|].
      destruct H1 as [H1|[-> H1]]; [by left|right]. split; [done|]. by apply freed_settled. }
    destruct H1 as [F1 H1].
    destruct (Z.eqb_spec r1 _FAIL) as [->|Hr].
    + injection E as <- <- <-. split_and!; [apply F1| |done]. destruct H1 as [H1|[_ H1]]; [by apply still_settled|done].
    + destruct H1 as [H1|[H1 _]]; [|done]. apply bind_Some in E as ([e2 r2] & E2 & [= <- <- <-]).
      split_and!; [apply F1| |done]. pose proof (still_ok _ _ _ _ H1 F1 Hok) as Hok1.
      apply mgnt_frames in E2 as (Hb & Hq & Ha & Hw); [|done]. pose proof (not_in_windows _ _ Hok1) as Hn.
      rewrite (sf_id _ _ F1) in *. constructor; [done| | |by rewrite Hw].
      * rewrite Hq. apply H1.
      * by rewrite <- (qview_accounted _ _ (st_queues _ _ H1)).
  - destruct (_ =? WIFI_CTRL_TYPE).
    + destruct (validate_recv_ctrl_frame _ _ _ _ _) as [w r1] eqn:Ew. injection E as <- <- <-.
      apply view_ctrl in Ew. split_and!; [done| |done]. apply still_settled; [|done].
      constructor; [|done]. by apply rx_view_qview.
    + destruct (_ =? WIFI_DATA_TYPE); [|by injection E as <- <- <-].
      apply bind_Some in E as (b2 & _ & E). apply bind_Some in E as ([[e1 p1] r1] & E1 & [= <- <- <-]).
      apply validate_data_still in E1 as [S1 F1].
      assert (S : still e (if r1 =? _FAIL then drop_one e1 else e1)) by (destruct S1; by destruct (r1 =? _FAIL)).
      assert (F : same_frame (fr p) (fr p1)) by (eapply same_trans; [exact Hh|]; destruct F1; by constructor).
      split_and!; [apply F|by apply still_settled|done].
Qed.
Lemma prehandle_frames e p e' p' r : frame_ok e (fr p) ->
  recv_func_prehandle c not_pcie hiq_filter ap_expire_to HZ now ieee80211w zmalloc_ok beyond passing e p = Some (e', p', r) ->
  bits (rw_ad (world e')) /\ uc_swdec_pending_queue e' = uc_swdec_pending_queue e /\
  accounted (rw_ad (world e')) ⊆ {[+ rf_id (fr p) +]} ⊎ accounted (rw_ad (world e)) /\
  (r = _SUCCESS -> still e e' /\ same_frame (fr p) (fr p')).
Proof.
  intros Hok. unfold recv_func_prehandle. destruct (_ || _).
  - intros [= <- <- <-]. split_and!; [apply Hok|done|apply gmultiset_disj_union_subseteq_r|done]. 
  - intros ([[e1 p1] r1] & E1 & E)%bind_Some. apply validate_frames in E1 as (Hi & Hs & Hsucc); [|done].
    destruct Hs as [Hb Hq Ha Hw]. destruct (Z.eqb_spec r1 _SUCCESS) as [->|Hr]; cbn [negb] in E.
    + injection E as <- <- <-. by split_and!.
    + injection E as <- <- <-. split_and!; [by apply free_recvframe_bits|done| |done].
      cbn [world set_world]. apply free_recvframe_sub; [exact Ha|rewrite Hi|rewrite Hi; exact Hw].
      apply gmultiset_elem_of_disj_union. left. by apply gmultiset_elem_of_singleton.
Qed.

Lemma posthandle_sub f e e' r : running drv = true -> frame_ok e f ->
  posthandle c HZ now ok drv ht ieee80211w f e = Some (e', r) ->
  bits (rw_ad (world e')) /\ uc_swdec_pending_queue e' = uc_swdec_pending_queue e /\
  accounted (rw_ad (world e')) ⊆ {[+ rf_id f +]} ⊎ accounted (rw_ad (world e)).
Proof.
  intros Hrun [Hu Hb Ha Hm]. unfold posthandle. intros ([w r1] & E & [= <- _])%bind_Some.
  apply posthandle_run in E as [Hb' Hacc]; [|done..|uniq]. split_and!; [done|done|]. cbn [world set_world].
  destruct Hacc as [->|(_ & _ & _ & p & <-)]; [done|multiset_solver].
Qed.

Lemma sub_shift (x : Z) (Q A B : gmultiset Z) : B ⊆ {[+ x +]} ⊎ A -> Q ⊎ B ⊆ {[+ x +]} ⊎ Q ⊎ A.
Proof. multiset_solver. Qed.

(** The frames that wait for the pairwise key have the attributes of received frames. *)
Definition waiting_ok (q : list rframe) : Prop := Forall amsdu_bit q /\ Forall mfrag_bit q.

Lemma drain_frames q : forall e e', running drv = true -> uc_swdec_pending_queue e = q -> waiting_ok q ->
  bits (rw_ad (world e)) -> uniq (places e) -> drain_pending c HZ now ok drv ht ieee80211w q e = Some e' ->
  bits (rw_ad (world e')) /\ uc_swdec_pending_queue e' = [] /\ places e' ⊆ places e.
Proof.
  induction q as [|f q IH]; intros e e' Hrun Hq [Hwa Hwm] Hb Hu E; cbn [drain_pending] in E.
  - injection E as <-. split_and!; [done|done|]. unfold places. cbn. rewrite Hq. done.
  - apply bind_Some in E as ([e1 r1] & E1 & E). inversion Hwa as [|?? Hf1 Hwa']. inversion Hwm as [|?? Hf2 Hwm']. subst.
    unfold places in Hu |- *. rewrite Hq in *. rewrite frames_cons in *.
    apply posthandle_sub in E1 as (Hb1 & Hq1 & Ha1); [|done|constructor; [cbn; uniq|done..]]. cbn in Hq1, Ha1.
    destruct (IH e1 e') as (Hb2 & Hq2 & Hp2); try done.
    { unfold places. rewrite Hq1. eapply uniq_sub; [exact Hu|]. by apply sub_shift. }
    split_and!; [done|done|]. unfold places in Hp2. rewrite Hq1 in Hp2. etransitivity; [exact Hp2|]. by apply sub_shift.
Qed.

Lemma drain_step e e0 f : running drv = true -> frame_ok e f -> waiting_ok (uc_swdec_pending_queue e) ->
  (if check_fwstate c WIFI_STATION_STATE && busetkipkey (rw_sec (world e))
   then drain_pending c HZ now ok drv ht ieee80211w (uc_swdec_pending_queue e) e else Some e) = Some e0 ->
  frame_ok e0 f /\ waiting_ok (uc_swdec_pending_queue e0) /\ places e0 ⊆ places e.
Proof.
  intros Hrun [Hu Hb Ha Hm] Hw. destruct (_ && _); [|by intros [= <-]]. intros E.
  assert (Hue : uniq (places e)) by (unfold places; uniq).
  destruct (drain_frames _ e e0 Hrun eq_refl Hw Hb Hue E) as (Hb0 & Hq0 & Hp0).
  split_and!; [|by rewrite Hq0|done]. constructor; try done. rewrite <- (assoc_L (⊎)).
  eapply uniq_sub; [exact Hu|]. rewrite <- (assoc_L (⊎)). by apply gmultiset_disj_union_mono_l.
Qed.

Lemma still_places e e' : still e e' -> places e' = places e.
Proof. intros [Hq Hw]. unfold places. by rewrite Hw, (qview_accounted _ _ Hq). Qed.

(** The frame joins the queue, and with enough free frames the first one goes on. *)
Lemma waited e f e' r : running drv = true -> frame_ok e f -> waiting_ok (uc_swdec_pending_queue e) ->
  (if free_recvframe_cnt (recvpriv (rw_ad (world e))) <? NR_RECVFRAME / 4 then
     match uc_swdec_pending_queue e ++ [f] with
     | g :: q => posthandle c HZ now ok drv ht ieee80211w g (set_waiting q e)
     | [] => Some (e, _SUCCESS)
     end
   else Some (set_waiting (uc_swdec_pending_queue e ++ [f]) e, _SUCCESS)) = Some (e', r) ->
  places e' ⊆ {[+ rf_id f +]} ⊎ places e /\ bits (rw_ad (world e')).
Proof.
  intros Hrun [Hu Hb Ha Hm] [Hwa Hwm] E.
  assert (Hq : frames (uc_swdec_pending_queue e ++ [f]) ⊎ accounted (rw_ad (world e)) = {[+ rf_id f +]} ⊎ places e).
  { unfold places. rewrite frames_app, frames_cons. change (frames []) with (∅ : gmultiset Z). multiset_solver. }
  destruct (_ <? _).
  2: { injection E as <- _. split; [|done]. unfold places at 1. cbn [uc_swdec_pending_queue set_waiting world]. by rewrite Hq. }
  assert (Hqa : Forall amsdu_bit (uc_swdec_pending_queue e ++ [f])) by (apply Forall_app_2; [done|by constructor]).
  assert (Hqm : Forall mfrag_bit (uc_swdec_pending_queue e ++ [f])) by (apply Forall_app_2; [done|by constructor]).
  destruct (uc_swdec_pending_queue e ++ [f]) as [|g q] eqn:El; [by apply app_eq_nil in El as [_ ?]|].
  inversion Hqa as [|?? Hg1 _]. inversion Hqm as [|?? Hg2 _]. subst. rewrite frames_cons in Hq.
  apply posthandle_sub in E as (Hb2 & Hq2 & Ha2); [|done|].
  - split; [|done]. rewrite <- Hq. unfold places. rewrite Hq2. cbn [set_waiting uc_swdec_pending_queue] in *. by apply sub_shift.
  - constructor; [cbn [set_waiting uc_swdec_pending_queue world]; rewrite Hq|done..].
    unfold places. by rewrite (assoc_L (⊎)).
Qed.

(** C6: Frame buffers over the whole of [recv_func], whatever the frame holds and whatever
    branch it takes: if the frame given, the frames that wait for the pairwise key and those
    of the pool, the reassembly queues and the reordering windows are all different, then
    afterwards no frame is in two of these places, and none that was not there has
    appeared.  (Frames can get lost: see RecvPath and the reassembly of management frames.) *)
Theorem recv_func_frames e p e' r : running drv = true -> frame_ok e (fr p) ->
  waiting_ok (uc_swdec_pending_queue e) ->
  recv_func c not_pcie hiq_filter ap_expire_to HZ now ok drv ht ieee80211w zmalloc_ok beyond passing e p = Some (e', r) ->
  places e' ⊆ {[+ rf_id (fr p) +]} ⊎ places e /\ uniq (places e') /\ bits (rw_ad (world e')).
Proof.
  intros Hrun Hok Hwq E.
  assert (H : places e' ⊆ {[+ rf_id (fr p) +]} ⊎ places e /\ bits (rw_ad (world e'))); [|destruct H as [H Hb];
    split_and!; [done| |done]; eapply uniq_sub; [|exact H]; pose proof (fo_uniq _ _ Hok); unfold places; by rewrite (assoc_L _)].
  unfold recv_func in E. destruct (check_fwstate c WIFI_MONITOR_STATE).
  { injection E as <- _. split; [apply gmultiset_disj_union_subseteq_r|apply Hok]. }
  apply bind_Some in E as (e0 & E0 & E). destruct (drain_step e e0 (fr p) Hrun Hok Hwq E0) as (Hok0 & Hw0 & Hp0).
  assert (Hfin : places e' ⊆ {[+ rf_id (fr p) +]} ⊎ places e0 /\ bits (rw_ad (world e')));
    [|destruct Hfin as [H Hb]; split; [|done]; etransitivity; [exact H|]; by apply gmultiset_disj_union_mono_l].
  apply bind_Some in E as ([[e1 p1] ret] & E1 & E).
  destruct (prehandle_frames _ _ _ _ _ Hok0 E1) as (Hb & Hq & Ha & Hsucc).
  destruct (Z.eqb_spec ret _SUCCESS) as [->|Hr].
  - destruct (Hsucc eq_refl) as [S1 F1]. pose proof (still_ok _ _ _ _ S1 F1 Hok0) as Hok1.
    rewrite <- (sf_id _ _ F1), <- (still_places _ _ S1). rewrite <- Hq in Hw0.
    destruct (must_wait c e1 (pattr p1)); [by eapply waited|].
    apply posthandle_sub in E as (Hb2 & Hq2 & Ha2); [|done..]. split; [|done].
    unfold places. rewrite Hq2, (assoc_L _). by apply sub_shift.
  - injection E as <- _. split; [|done]. unfold places. rewrite Hq, (assoc_L _). by apply sub_shift.
Qed.
End frames_kept.

(** ** Witnesses *)

(** An access point with a station and the group entry, and a station of the same BSS; both
    links use CCMP under 802.1X. *)
Definition ex_cfg (mode : Z) : rx_config :=
  mk_cfg (mode .| 1) ex_me (if mode =? WIFI_AP_STATE then ex_me else ex_peer) dot11AuthAlgrthm_8021X _AES_ _AES_
    (fun _ => _AES_) (fun _ => false) false false true.
Definition ex_entry : entry :=
  mk_entry (mk_rw (ex_ap0 1) (mk_dbg 0 0 0 0) (mk_mic [] false 0 false 0 0) (ex_sec true)
    (mk_glob crc32_globals0 (replicate 2048 0)) 0) [] [] (ex_bip 9 3) false 0 [].
Definition ex_precv (b : bytes) : precv :=
  mk_precv (RecvPath.ex_frame 7 (RecvPath.ex_fattr 0 0 0 0 0 0) b) (mk_ha (zlen b) 0 false []).

(** A QoS data frame of the station to the distribution system, in clear. *)
Definition ex_up : bytes :=
  [0x88; 0x01; 0; 0] ++ ex_me ++ ex_peer ++ [2; 0; 0; 0; 0; 5] ++ [0x30; 0x12] ++ [0; 0].
Definition ex_data : precv := ex_precv (ex_up ++ ex_body).

Lemma ex_data_ready : data_ready ex_entry ex_data (ptr ex_data).
Proof.
  constructor; try reflexivity; try (vm_compute; discriminate).
  - apply bytes_ok_spec. vm_compute. reflexivity.
  - apply (ex_ap0_wf 1).
  - assert (E : map (fun s => length (tid_rxseq s)) (stas (table ex_entry)) = replicate 32 16%nat) by (vm_compute; reflexivity).
    apply (proj1 (Forall_map (fun s => length (tid_rxseq s)) (fun n => n = 16%nat) _)). rewrite E. by apply Forall_replicate.
Qed.

Lemma ex_mode : normal_mode (ex_cfg WIFI_AP_STATE).
Proof. split; [done|]. by left. Qed.

Lemma validate_recv_frame_data_witness :
  exists e' p' r, validate_recv_frame (ex_cfg WIFI_AP_STATE) false 0 0 100 0 true (fun _ => true) [] (fun _ => 0)
      ex_entry ex_data = Some (e', p', r) /\
    r = _SUCCESS /\ fr p' = set_attrib (data_attrib (ex_cfg WIFI_AP_STATE) 0 (ptr ex_data) (pattr ex_data)) (set_psta 0 (fr ex_data)).
Proof.
  destruct (validate_recv_frame_data (ex_cfg WIFI_AP_STATE) false 0 0 100 0 true (fun _ => true) [] (fun _ => 0)
    ex_mode ex_entry ex_data (ptr ex_data) ex_data_ready) as (e' & p' & r & E & H).
  exists e', p', r. split; [exact E|]. clear E.
  assert (Hs : sender (ex_cfg WIFI_AP_STATE) (table ex_entry) (ptr ex_data) = Some 0%nat) by (vm_compute; reflexivity).
  rewrite Hs in H. destruct H as (s & Hlk & H).
  assert (Hd : duplicate (ptr ex_data) s = false) by (vm_compute in Hlk; injection Hlk as <-; vm_compute; reflexivity).
  rewrite Hd in H. destruct H as (Hr & Hf & _). split; [exact Hr|exact Hf].
Defined.

(** The port is open: the IP packet in clear is handed over although the link uses CCMP;
    no station has its destination, so it goes to the stack. *)
Lemma recv_func_cleartext_witness :
  dot118021XPrivacy (ex_cfg WIFI_AP_STATE) 0%nat = _AES_ /\
  exists e', recv_func (ex_cfg WIFI_AP_STATE) false 0 0 100 0 (fun _ => true) ex_drv true true (fun _ => true) []
      (fun _ => 0) ex_entry ex_data = Some (e', _SUCCESS) /\
    indicated (recvpriv (rw_ad (world e'))) = [[2; 0; 0; 0; 0; 5] ++ ex_peer ++ drop 6 ex_body] /\
    forwarded (recvpriv (rw_ad (world e'))) = [].
Proof.
  split; [reflexivity|].
  assert (Hs : exists s, stas (table ex_entry) !! 0%nat = Some s /\ duplicate (ptr ex_data) s = false /\
    recvreorder_ctrl s !! 0%nat = Some init_reorder /\ length (recvreorder_ctrl s) = 16%nat /\ ieee8021x_blocked s = false)
    by (eexists; split_and!; vm_compute; reflexivity).
  destruct Hs as (s & Hlk & Hd & Hw & Hl & Hb).
  destruct (recv_func_cleartext (ex_cfg WIFI_AP_STATE) false 0 0 100 0 (fun _ => true) ex_drv true true (fun _ => true) []
    (fun _ => 0) ex_entry ex_data (ptr ex_data) [0; 0] ex_up ex_body (replicate 64 0) 0 s) as (e' & E & H).
  - exact ex_mode.
  - reflexivity.
  - reflexivity.
  - reflexivity.
  - constructor; try reflexivity; try assumption.
    + constructor; try reflexivity; try assumption; try exact ex_data_ready; [vm_compute; done|].
      intros _ _. exists init_reorder. split; [exact Hw|reflexivity].
    + constructor; reflexivity.
    + split; [vm_compute; discriminate|]. apply bytes_ok_spec. reflexivity.
  - exists e'. unfold port_open in E, H. rewrite Hb in E, H. destruct H as (_ & Hi & Hfw).
    split; [exact E|]. rewrite Hi, Hfw. split; vm_compute; reflexivity.
Defined.

(** A deauthentication from the access point without protection: nothing is dispatched. *)
Definition ex_leave (fc1 : Z) : bytes := [0xc0; fc1; 0; 0] ++ ex_me ++ ex_peer ++ ex_peer ++ [0x30; 0x12].
Definition ex_bare : precv := ex_precv (ex_leave 0 ++ [3; 0]).

Lemma pmf_gate_witness :
  match validate_recv_frame (ex_cfg WIFI_STATION_STATE) false 0 0 100 0 true (fun _ => true) [] (fun _ => 0) ex_entry ex_bare with
  | Some (e', _, r) => r = _FAIL /\ (dispatched e' = dispatched ex_entry \/
      IS_MCAST (GetAddr1Ptr (ptr ex_bare)) && leaving (ptr ex_bare) = true /\ carries_mic [] ex_entry e' ex_bare)
  | None => False
  end.
Proof.
  destruct (validate_recv_frame _ _ _ _ _ _ _ _ _ _ _ _) as [[[e' p'] r]|] eqn:E.
  2: { exfalso. vm_compute in E. discriminate E. }
  split; [vm_compute in E; by injection E as _ _ <-|].
  exact (pmf_gate (ex_cfg WIFI_STATION_STATE) false 0 0 100 0 (fun _ => true) [] (fun _ => 0) ex_entry ex_bare e' p' r
    eq_refl eq_refl eq_refl eq_refl E).
Defined.

(** The same frame with the protected bit and a zero MIC. *)
Definition ex_forged : precv := ex_precv (ex_leave 0x40 ++ [1; 0; 0; 0x20; 0; 0; 0; 0] ++ [3; 0] ++ replicate 8 0).

Lemma forged_management_use_after_free_witness :
  validate_recv_frame (ex_cfg WIFI_STATION_STATE) false 0 0 100 0 true (fun _ => true) [] (fun _ => 0) ex_entry ex_forged = None.
Proof.
  destruct (decryptor true (rw_sec (world ex_entry)) (table ex_entry) (ccmp_frame ex_forged) (rw_glob (world ex_entry)))
    as [[[[v|] g] sec]|] eqn:E.
  1, 3: exfalso; vm_compute in E; discriminate E.
  apply (forged_management_use_after_free (ex_cfg WIFI_STATION_STATE) false 0 0 100 0 (fun _ => true) [] (fun _ => 0)
    ex_entry ex_forged g sec); try reflexivity. exact E.
Defined.

(** The first fragment of a deauthentication, on the access point: it joins the reassembly
    queue, and the free at the end takes it out of there again. *)
Definition ex_part : precv :=
  ex_precv ([0xc0; 0x04; 0; 0] ++ ex_me ++ ex_peer ++ ex_me ++ [0x30; 0x12] ++ [3; 0]).

Definition no_frames (q : list rframe) : bool := match q with [] => true | _ => false end.

Lemma recv_func_frames_witness :
  match recv_func (ex_cfg WIFI_AP_STATE) false 0 0 100 0 (fun _ => true) ex_drv true true (fun _ => true) [] (fun _ => 0)
      ex_entry ex_part with
  | Some (e', _) => free_recv_queue (recvpriv (rw_ad (world e'))) = [7] /\ uniq (places e')
  | None => False
  end.
Proof.
  destruct (recv_func _ _ _ _ _ _ _ _ _ _ _ _ _ _ _) as [[e' r]|] eqn:E.
  2: { exfalso. vm_compute in E. discriminate E. }
  split; [vm_compute in E; by injection E as <- _|].
  apply (recv_func_frames (ex_cfg WIFI_AP_STATE) false 0 0 100 0 (fun _ => true) ex_drv true true (fun _ => true) []
    (fun _ => 0) ex_entry ex_part e' r); [reflexivity| |by split; constructor|exact E].
  constructor.
  - assert ({[+ rf_id (fr ex_part) +]} ⊎ frames (uc_swdec_pending_queue ex_entry) ⊎ accounted (rw_ad (world ex_entry)) = ms [7]) as ->
      by (vm_compute; reflexivity).
    apply uniq_ms. apply (bool_decide_unpack (NoDup [7])). vm_compute. done.
  - assert (E1 : forallb (fun s => no_frames (defrag_q s) && forallb (fun k => no_frames (pending_recvframe_queue k))
      (recvreorder_ctrl s)) (stas (table ex_entry)) = true) by (vm_compute; reflexivity).
    apply Forall_forall. intros s Hs. rewrite forallb_forall in E1. specialize (E1 s Hs).
    apply andb_true_iff in E1 as [E1 E2]. split; [by destruct (defrag_q s)|].
    apply Forall_forall. intros k Hk. rewrite forallb_forall in E2. specialize (E2 k Hk). by destruct (pending_recvframe_queue k).
  - by left.
  - by left.
Defined.
