(* ===== verification/TxAttrib.v ===== *)
(** * Attributes of a packet to transmit (core/rtw_xmit.c, os_dep/linux/xmit_linux.c)

    [update_attrib] and what it calls: the addresses, the station of the receiver, the
    cipher with its packet number ([update_attrib_sec_info]), the radio parameters
    ([update_attrib_phy_info]) and the priority ([set_qos], [qos_acm]).  The requests to
    the power-save and scan code are logged.  TDLS, WAPI, checksum offload and the
    concurrent mode are off in the build. *)

From S2P Require Import Prelude SecFrames WifiHdr RxFrame Reorder MacId StaMgt.
From S2P Require Import TxQueue PowerSave Bip RxEntry.

(** ** Packet files *)

(** [struct pkt_file]; addresses are offsets in the data of the packet. *)
Record pkt_file := mk_pf { pf_pkt : bytes; cur_addr : Z; buf_start : Z; pf_pkt_len : Z; buf_len : Z }.

Definition _rtw_open_pktfile (pkt : bytes) : pkt_file := mk_pf pkt 0 0 (zlen pkt) (zlen pkt).

Definition rtw_remainder_len (pf : pkt_file) : Z := u32 (buf_len pf - (cur_addr pf - buf_start pf)).

(** The bytes [skb_copy_bits] copies, their number, and the file. *)
Definition _rtw_pktfile_read (pf : pkt_file) (rlen : Z) : bytes * Z * pkt_file :=
  let len := rtw_remainder_len pf in
  let len := if len <? u32 rlen then len else u32 rlen in
  (take (Z.to_nat len) (drop (Z.to_nat (buf_len pf - pf_pkt_len pf)) (pf_pkt pf)), len,
   mk_pf (pf_pkt pf) (cur_addr pf + len) (buf_start pf) (pf_pkt_len pf - len) (buf_len pf)).

Definition rtw_endofpktfile (pf : pkt_file) : bool := pf_pkt_len pf =? 0.

(** ** Data *)

Definition ETH_HLEN : Z := 14.
Definition ETH_P_IP : Z := 0x0800.
Definition ETH_P_EAPOL : Z := 0x888e.
Definition WLAN_HDR_A3_QOS_LEN : Z := 26.

(** What the transmit path asks of the rest of the driver. *)
Inductive tx_event :=
  | ScanDeny (ms : Z)
  | LpsLeave
  | LpsSpecialPacket.

(** [struct pkt_attrib] by the function that fills each part: the Ethernet header, the
    cipher, the radio, the 802.11 header and the station, the fragments. *)
Record eth_attrib := mk_eth {
  ether_type : Z; dst : bytes; src : bytes; ra : bytes; ta : bytes; pktlen : Z;
  dhcp_pkt : bool; icmp_pkt : bool
}.
Record sec_attrib := mk_seca {
  encrypt : Z; iv_len : Z; icv_len : Z; iv : bytes; icv : bytes; key_idx : Z; bswenc : bool;
  at_mac_id : Z; UncstKey : bytes; tkiptxmickey : bytes
}.
Record phy_attrib := mk_phy {
  rtsen : Z; cts2self : Z; mdata : Z; eosp : Z; triggered : Z; ampdu_spacing : Z; qos_en : bool;
  raid : Z; bwmode : Z; sgi : Z; ldpc : Z; stbc : Z; ht_en : bool; ch_offset : Z; ampdu_en : bool;
  retry_ctrl : Z
}.
Record hdr_fields := mk_hdr {
  pkt_hdrlen : Z; hdrlen : Z; subtype : Z; priority : Z; pctrl : Z; ack_policy : Z;
  hw_ssn_sel : Z; seqnum : Z; psta : option nat
}.
Record frag_attrib := mk_fraga { nr_frags : Z; last_txcmdsz : Z; vcs_mode : Z }.
Record tx_attrib := mk_txa {
  at_eth : eth_attrib; at_sec : sec_attrib; at_phy : phy_attrib; at_hdr : hdr_fields;
  at_frag : frag_attrib
}.

(** [rtw_init_xmitframe] clears the attributes. *)
Definition init_attrib : tx_attrib :=
  mk_txa (mk_eth 0 (replicate 6 0) (replicate 6 0) (replicate 6 0) (replicate 6 0) 0 false false)
    (mk_seca 0 0 0 (replicate 18 0) (replicate 16 0) 0 false 0 (replicate 16 0) (replicate 16 0))
    (mk_phy 0 0 0 0 0 0 false 0 0 0 0 0 false 0 false 0) (mk_hdr 0 0 0 0 0 0 0 0 None) (mk_fraga 0 0 0).

(** The fields of [struct sta_info] that only the transmit path uses; a station's place in
    a list of them is its place in the table of StaMgt. *)
Record sta_tx := mk_stx {
  dot11txpn : Z; dot11tkiptxmickey : bytes; txseq_tid : list Z; BA_starting_seqctrl : list Z;
  st_rtsen : Z; st_cts2self : Z; st_raid : Z; bw_mode : Z; st_ldpc : Z; st_stbc : Z;
  vht_option : bool; sgi_20m : Z; sgi_40m : Z; sgi_80m : Z; ht_option : bool; st_ch_offset : Z;
  rx_ampdu_min_spacing : Z; ampdu_enable : bool; agg_enable_bitmap : Z
}.

Definition set_dot11txpn (pn : Z) (x : sta_tx) : sta_tx :=
  mk_stx pn (dot11tkiptxmickey x) (txseq_tid x) (BA_starting_seqctrl x) (st_rtsen x) (st_cts2self x)
    (st_raid x) (bw_mode x) (st_ldpc x) (st_stbc x) (vht_option x) (sgi_20m x) (sgi_40m x) (sgi_80m x)
    (ht_option x) (st_ch_offset x) (rx_ampdu_min_spacing x) (ampdu_enable x) (agg_enable_bitmap x).

(** The settings the transmit path reads: [qospriv], [mlme_ext_priv], [xmit_priv],
    [security_priv] and the registry. *)
Record tx_config := mk_txc {
  pqos_option : bool; acm_mask : Z; sw_encrypt : bool; cur_bwmode : Z; driver_ampdu_spacing : Z;
  hw_ssn_seq_no : Z; frag_len : Z; dot118021XGrptxmickey : list bytes;
  cur_wireless_mode : Z; wifi_spec : bool; rts_thresh : Z; assoc_AP_vendor : Z; HT_protection : Z;
  driver_vcs_en : Z; driver_vcs_type : Z; is_8812 : bool
}.

(** ** Initialisation vectors: the bytes written, and the next packet number *)

Definition WEP_IV (pn keyidx : Z) : bytes * Z :=
  ([u8 pn; u8 (pn .>> 8); u8 (pn .>> 16); (keyidx .& 0x3) .<< 6],
   if pn =? 0xffffff then 0 else u64 (pn + 1)).

Definition TKIP_IV (pn keyidx : Z) : bytes * Z :=
  ([u8 (pn .>> 8); (u8 (pn .>> 8) .| 0x20) .& 0x7f; u8 pn; BIT 5 .| ((keyidx .& 0x3) .<< 6);
    u8 (pn .>> 16); u8 (pn .>> 24); u8 (pn .>> 32); u8 (pn .>> 40)],
   if pn =? 0xffffffffffff then 0 else u64 (pn + 1)).

(** A vector written at the start of [iv[18]]. *)
Definition put_iv (v old : bytes) : bytes := v ++ drop (length v) old.

Section attributes.
(** The configuration, [security_priv], and what [etherhdr], [tmp] and [ip_hdr] hold on the
    stack before a packet that is too short is read into them. *)
Context (c : rx_config) (t : tx_config) (sec : security_priv).
Context (stack_eth stack_tmp stack_ip : bytes).
#[local] Abbreviation check_fwstate := (check_fwstate c).

Definition onto (stack data : bytes) : bytes := data ++ drop (length data) stack.

(** ** Radio *)

Definition query_ra_short_GI (x : sta_tx) : Z :=
  if bw_mode x =? 2 then (if vht_option x then sgi_80m x else 0)
  else if bw_mode x =? 1 then sgi_40m x
  else sgi_20m x.

Definition update_attrib_phy_info (o : nat) (x : sta_tx) : phy_attrib :=
  mk_phy (st_rtsen x) (st_cts2self x) 0 0 0
    (if negb (driver_ampdu_spacing t =? 0xff) then driver_ampdu_spacing t else rx_ampdu_min_spacing x)
    (qos_option c o) (st_raid x) (if cur_bwmode t <? bw_mode x then cur_bwmode t else bw_mode x)
    (query_ra_short_GI x) (st_ldpc x) (st_stbc x) (ht_option x) (st_ch_offset x) false 0.

(** ** Cipher *)

(** [key_idx] by the authentication algorithm. *)
Definition select_key_idx (bmcast : bool) : Z :=
  let alg := dot11AuthAlgrthm c in
  if (alg =? dot11AuthAlgrthm_Open) || (alg =? dot11AuthAlgrthm_Shared) || (alg =? dot11AuthAlgrthm_Auto)
  then u8 (dot11PrivacyKeyIndex sec)
  else if alg =? dot11AuthAlgrthm_8021X then (if bmcast then u8 (dot118021XGrpKeyid sec) else 0)
  else 0.

(** The first part: the cipher and [key_idx], or the packet is dropped. *)
Definition select_cipher (o : nat) (s : sta_info) (e : eth_attrib) (a : sec_attrib) : option (Z * Z) :=
  if ieee8021x_blocked s then
    if negb (ether_type e =? ETH_P_EAPOL) && negb (check_fwstate WIFI_MP_STATE) then None
    else Some (0, key_idx a)
  else
    let bmcast := IS_MCAST (ra e) in
    let enc := GET_ENCRY_ALGO c o (encrypt a) bmcast in
    let enc := if ((enc =? _WEP40_) || (enc =? _WEP104_)) && (ether_type e =? ETH_P_EAPOL)
               then _NO_PRIVACY_ else enc in
    Some (enc, select_key_idx bmcast).

(** The second part: lengths, vector and the station's next packet number; [None] is the
    drop under TKIP without its key. *)
Definition cipher_iv (enc kidx : Z) (bmcast : bool) (old : bytes) (x : sta_tx)
    : Z * Z * option (bytes * sta_tx) :=
  let with_iv (p : bytes * Z) := Some (put_iv p.1 old, set_dot11txpn p.2 x) in
  let k := if bmcast then kidx else 0 in
  if (enc =? _WEP40_) || (enc =? _WEP104_) then (4, 4, with_iv (WEP_IV (dot11txpn x) kidx))
  else if enc =? _TKIP_ then (8, 4, if busetkipkey sec then with_iv (TKIP_IV (dot11txpn x) k) else None)
  else if enc =? _AES_ then (8, 8, with_iv (AES_IV (dot11txpn x) k))
  else (0, 0, Some (old, x)).

Definition update_attrib_sec_info (o : nat) (s : sta_info) (x : sta_tx) (e : eth_attrib) (a : sec_attrib)
    : sec_attrib * sta_tx * Z :=
  let zero := replicate 16 0 in
  match select_cipher o s e a with
  | None => (mk_seca 0 (iv_len a) (icv_len a) (iv a) (icv a) (key_idx a) (bswenc a) (mac_id s) zero zero,
             x, _FAIL)
  | Some (enc, kidx) =>
      match cipher_iv enc kidx (IS_MCAST (ra e)) (iv a) x with
      | (ivl, icvl, None) =>
          (mk_seca enc ivl icvl (iv a) (icv a) kidx (bswenc a) (mac_id s) zero zero, x, _FAIL)
      | (ivl, icvl, Some (v, x')) =>
          (mk_seca enc ivl icvl v (icv a) kidx
             (negb (enc =? 0) && (sw_encrypt t || negb (hw_decrypted sec))) (mac_id s)
             (if 0 <? enc then dot118021x_UncstKey s else zero)
             (if enc =? _TKIP_ then dot11tkiptxmickey x else zero), x', _SUCCESS)
      end
  end.

(** ** Priority *)

Definition qos_acm (mask pri : Z) : Z :=
  if (pri =? 0) || (pri =? 3) then (if negb (mask .& BIT 1 =? 0) then 1 else pri)
  else if (pri =? 4) || (pri =? 5) then (if negb (mask .& BIT 2 =? 0) then 0 else pri)
  else if (pri =? 6) || (pri =? 7) then (if negb (mask .& BIT 3 =? 0) then 5 else pri)
  else pri.

(** [(priority, hdrlen, subtype)]; byte 1 of the IP header is the type of service. *)
Definition set_qos (pf : pkt_file) (etype : Z) : Z * Z * Z :=
  let pf := _rtw_open_pktfile (pf_pkt pf) in
  let '(_, _, pf) := _rtw_pktfile_read pf ETH_HLEN in
  let UserPriority :=
    if etype =? 0x0800 then
      let '(b, _, _) := _rtw_pktfile_read pf 20 in ld0 (onto stack_ip b) 1 .>> 5
    else 0 in
  (u8 UserPriority, WLAN_HDR_A3_QOS_LEN, WIFI_QOS_DATA_TYPE).

(** ** [update_attrib] *)

(** The receiver and transmitter addresses. *)
Definition link_addrs (d : bytes) (e : eth_attrib) : bytes * bytes :=
  if check_fwstate WIFI_ADHOC_STATE || check_fwstate WIFI_ADHOC_MASTER_STATE then (d, myid c)
  else if check_fwstate WIFI_STATION_STATE then (mybssid c, myid c)
  else if check_fwstate WIFI_AP_STATE then (d, mybssid c)
  else (ra e, ta e).

(** The first [ETH_HLEN] bytes, and the flags read behind them. *)
Definition read_eth (pkt : bytes) (e : eth_attrib) : eth_attrib * pkt_file :=
  let '(b, _, pf) := _rtw_pktfile_read (_rtw_open_pktfile pkt) ETH_HLEN in
  let h := onto stack_eth b in
  let etype := be_val (take 2 (drop 12 h)) in
  let '(r, tr) := link_addrs (take 6 h) e in
  let len := pf_pkt_len pf in
  if etype =? ETH_P_IP then
    let '(b, _, pf) := _rtw_pktfile_read pf 24 in
    let tmp := onto stack_tmp b in
    let bootp := ((ld0 tmp 21 =? 68) && (ld0 tmp 23 =? 67)) || ((ld0 tmp 21 =? 67) && (ld0 tmp 23 =? 68)) in
    (mk_eth etype (take 6 h) (take 6 (drop 6 h)) r tr len ((282 <? pf_pkt_len pf) && bootp)
       (ld0 tmp 9 =? 1), pf)
  else (mk_eth etype (take 6 h) (take 6 (drop 6 h)) r tr len (dhcp_pkt e) (icmp_pkt e), pf).

Definition eth_events (e : eth_attrib) : list tx_event :=
  (if (ether_type e =? ETH_P_EAPOL) || dhcp_pkt e then [ScanDeny 3000] else [])
  ++ (if icmp_pkt e then [LpsLeave] else if dhcp_pkt e then [LpsSpecialPacket] else []).

(** The station, if the packet may go to it. *)
Definition attrib_station (sp : sta_priv) (r : bytes) : option nat :=
  let bmcast := IS_MCAST r in
  o ← (if bmcast then rtw_get_bcmc_stainfo sp else rtw_get_stainfo sp r);
  s ← stas sp !! o;
  if negb bmcast && check_fwstate WIFI_AP_STATE && (state s .& _FW_LINKED =? 0) then None
  else if state s .& _FW_LINKED =? 0 then None else Some o.

Definition qos_fields (pf : pkt_file) (etype : Z) (qen : bool) : Z * Z * Z :=
  let plain := (0, WLAN_HDR_A3_LEN, WIFI_DATA_TYPE) in
  if check_fwstate (WIFI_AP_STATE .| WIFI_ADHOC_STATE .| WIFI_ADHOC_MASTER_STATE) then
    (if qen then set_qos pf etype else plain)
  else if pqos_option t then
    let '(pri, hl, st) := set_qos pf etype in
    (if negb (acm_mask t =? 0) then qos_acm (acm_mask t) pri else pri, hl, st)
  else plain.

(** The attributes, the stations, the events and the result.  [None]: [xs] has no entry
    for a station of the table. *)
Definition update_attrib (sp : sta_priv) (xs : list sta_tx) (pkt : bytes) (a : tx_attrib)
    : option (tx_attrib * list sta_tx * list tx_event * Z) :=
  let '(e, pf) := read_eth pkt (at_eth a) in
  let log := eth_events e in
  match attrib_station sp (ra e) with
  | None => Some (mk_txa e (at_sec a) (at_phy a) (at_hdr a) (at_frag a), xs, log, _FAIL)
  | Some o =>
      s ← stas sp !! o;
      x ← xs !! o;
      let '(sa, x', r) := update_attrib_sec_info o s x e (at_sec a) in
      let xs := <[o := x']> xs in
      if r =? _FAIL then Some (mk_txa e sa (at_phy a) (at_hdr a) (at_frag a), xs, log, _FAIL) else
      let ph := update_attrib_phy_info o x' in
      let '(pri, hl, st) := qos_fields pf (ether_type e) (qos_en ph) in
      Some (mk_txa e sa ph
              (mk_hdr ETH_HLEN hl st pri 0 0 (hw_ssn_seq_no t) (seqnum (at_hdr a)) (Some o))
              (at_frag a), xs, log, _SUCCESS)
  end.
End attributes.

(** ** Lemmas: packet numbers *)

(** The header of CCMP determines the packet number. *)
Lemma AES_IV_inj n m k l : 0 <= n < 2 ^ 48 -> 0 <= m < 2 ^ 48 -> (AES_IV n k).1 = (AES_IV m l).1 -> n = m.
Proof.
  intros Hn Hm. unfold AES_IV. cbn [fst]. intros [= E0 E1 _ E2 E3 E4 E5].
  unfold u8 in *. rewrite !Z.shiftr_div_pow2 in * by lia.
  change (2 ^ 8) with 256 in *. change (2 ^ 16) with 65536 in *. change (2 ^ 24) with 16777216 in *.
  change (2 ^ 32) with 4294967296 in *. change (2 ^ 40) with 1099511627776 in *.
  change (2 ^ 48) with 281474976710656 in *. Z.to_euclidean_division_equations. lia.
Qed.

(** The counter runs through 48 bits. *)
Lemma AES_IV_next n k : 0 <= n < 2 ^ 48 -> (AES_IV n k).2 = (n + 1) mod 2 ^ 48.
Proof.
  intros Hn. unfold AES_IV. cbn [snd]. destruct (Z.eqb_spec n 0xffffffffffff) as [->|Hne]; [done|].
  unfold u64. rewrite !Z.mod_small by lia. done.
Qed.

Lemma take_put_iv v old n : length v = n -> take n (put_iv v old) = v.
Proof. intros <-. apply take_app_length. Qed.

(** ** Lemmas: the cipher of a packet *)

(** What the station's port and keys let through. *)
Definition admitted (c : rx_config) (sec : security_priv) (o : nat) (s : sta_info) (e : eth_attrib) : Prop :=
  if ieee8021x_blocked s then ether_type e = ETH_P_EAPOL \/ check_fwstate c WIFI_MP_STATE = true
  else let enc := GET_ENCRY_ALGO c o 0 (IS_MCAST (ra e)) in enc = _TKIP_ -> busetkipkey sec = true.

(** WPA2 with CCMP for every station and for the group. *)
Record wpa2 (c : rx_config) : Prop := {
  w2_auth : dot11AuthAlgrthm c = dot11AuthAlgrthm_8021X;
  w2_group : dot118021XGrpPrivacy c = _AES_;
  w2_pairwise : forall o, dot118021XPrivacy c o = _AES_
}.

(** The cipher part of an accepted packet under WPA2: in the clear for a blocked port,
    else under the station's key with the station's next packet number. *)
Definition protected (sec : security_priv) (s : sta_info) (x x' : sta_tx) (e : eth_attrib) (f : sec_attrib) : Prop :=
  if ieee8021x_blocked s then encrypt f = 0 /\ x' = x
  else encrypt f = _AES_ /\ iv_len f = 8 /\ icv_len f = 8 /\ UncstKey f = dot118021x_UncstKey s /\
    take 8 (iv f) = (AES_IV (dot11txpn x) (if IS_MCAST (ra e) then u8 (dot118021XGrpKeyid sec) else 0)).1 /\
    x' = set_dot11txpn (AES_IV (dot11txpn x) 0).2 x.

Section cipher.
Context (c : rx_config) (t : tx_config) (sec : security_priv).
#[local] Abbreviation sec_info := (update_attrib_sec_info c t sec).

Lemma sec_info_result o s x e a : encrypt a = 0 ->
  let r := (sec_info o s x e a).2 in (r = _SUCCESS <-> admitted c sec o s e) /\ (r = _SUCCESS \/ r = _FAIL).
Proof using Type.
  intros Ha. unfold update_attrib_sec_info, select_cipher, admitted. cbv zeta. rewrite Ha.
  destruct (ieee8021x_blocked s).
  - destruct (Z.eqb_spec (ether_type e) ETH_P_EAPOL) as [E|E]; [cbn; tauto|].
    destruct (check_fwstate c WIFI_MP_STATE); cbn; [tauto|]. split; [|tauto]. split; [done|]. by intros [?|?].
  - generalize (GET_ENCRY_ALGO c o 0 (IS_MCAST (ra e))). intros enc.
    destruct (((enc =? _WEP40_) || (enc =? _WEP104_)) && (ether_type e =? ETH_P_EAPOL)) eqn:Ew.
    + cbn. split; [|tauto]. split; [|done]. intros _ ->. done.
    + unfold cipher_iv. destruct (Z.eqb_spec enc _TKIP_) as [->|Ht].
      * cbn. destruct (busetkipkey sec); cbn; [tauto|]. split; [|tauto]. split; [done|]. intros H. by specialize (H eq_refl).
      * destruct (_ || _); [cbn; tauto|]. destruct (_ =? _AES_); cbn; tauto.
Qed.

Lemma sec_info_fail o s x e a fa x' : sec_info o s x e a = (fa, x', _FAIL) -> x' = x.
Proof using Type. unfold update_attrib_sec_info. intros H. repeat case_match; by simplify_eq. Qed.

Lemma sec_info_wpa2 o s x e a fa x' : wpa2 c ->
  sec_info o s x e a = (fa, x', _SUCCESS) ->
  (if ieee8021x_blocked s then ether_type e = ETH_P_EAPOL \/ check_fwstate c WIFI_MP_STATE = true else True) /\
  protected sec s x x' e fa.
Proof using Type.
  intros [H1 H2 H3]. unfold update_attrib_sec_info, select_cipher, protected, GET_ENCRY_ALGO, select_key_idx.
  rewrite H1, H2, H3. cbn. destruct (ieee8021x_blocked s).
  - destruct (Z.eqb_spec (ether_type e) ETH_P_EAPOL) as [E|E]; cbn;
      [|destruct (RxEntry.check_fwstate c WIFI_MP_STATE) eqn:Em; cbn]; intros [= <- <-]; auto.
  - destruct (IS_MCAST (ra e)); cbn; intros [= <- <-]; cbn; repeat split; by apply take_put_iv.
Qed.
End cipher.

(** ** Properties *)

Section properties.
Context (c : rx_config) (t : tx_config) (sec : security_priv) (stack_eth stack_tmp stack_ip : bytes).
#[local] Abbreviation attributes := (update_attrib c t sec stack_eth stack_tmp stack_ip).
#[local] Abbreviation eth pkt a := (read_eth c stack_eth stack_tmp pkt (at_eth a)).1.

(** The run of [update_attrib] behind the station lookup. *)
Lemma attributes_run sp xs pkt a : length xs = length (stas sp) -> encrypt (at_sec a) = 0 ->
  exists a' xs' log r, attributes sp xs pkt a = Some (a', xs', log, r) /\ at_eth a' = eth pkt a /\
    match attrib_station c sp (ra (eth pkt a)) with
    | None => r = _FAIL /\ xs' = xs
    | Some o => exists s x x' fa r0, stas sp !! o = Some s /\ xs !! o = Some x /\ xs' = <[o := x']> xs /\
        update_attrib_sec_info c t sec o s x (eth pkt a) (at_sec a) = (fa, x', r0) /\ r = r0 /\
        (r0 = _SUCCESS \/ r0 = _FAIL) /\
        at_sec a' = fa /\ (r = _SUCCESS -> psta (at_hdr a') = Some o)
    end.
Proof using Type.
  intros Hl Ha. unfold update_attrib. destruct (read_eth _ _ _ pkt (at_eth a)) as [e pf]. cbn [fst].
  destruct (attrib_station c sp (ra e)) as [o|] eqn:Es; [|eexists _, _, _, _; done].
  assert (exists s, stas sp !! o = Some s) as [s Hs].
  { unfold attrib_station in Es. apply bind_Some in Es as (o' & _ & Es). apply bind_Some in Es as (s & Hs & Es).
    repeat case_match; simplify_eq; eauto. }
  destruct (lookup_lt_is_Some_2 xs o) as [x Hx]; [apply lookup_lt_Some in Hs; lia|].
  rewrite Hs, Hx. cbn [mbind option_bind].
  pose proof (sec_info_result c t sec o s x e (at_sec a) Ha) as [_ Hr].
  destruct (update_attrib_sec_info c t sec o s x e (at_sec a)) as [[fa x'] r] eqn:E. cbn [snd] in Hr.
  destruct (r =? _FAIL) eqn:Ef; bool_to_prop.
  - subst r. eexists _, _, _, _. split; [done|]. split; [done|]. exists s, x, x', fa, _FAIL. repeat split; try done; by right.
  - destruct (qos_fields _ _ _ _ _ _) as [[pri hl] st]. eexists _, _, _, _. split; [done|]. split; [done|].
    exists s, x, x', fa, r. repeat split; try done. by destruct Hr.
Qed.

(** The receiver [r] of a packet is the station [s] at [o]: the entry of the broadcast
    address for every group address, else the station with this address; and it is
    linked. *)
Record linked_receiver (sp : sta_priv) (r : bytes) (o : nat) (s : sta_info) : Prop := {
  lr_known : rtw_get_stainfo sp (if IS_MCAST r then bc_addr else r) = Some o;
  lr_sta : stas sp !! o = Some s;
  lr_linked : state s .& _FW_LINKED <> 0
}.

Lemma station_linked sp r : match attrib_station c sp r with
  | Some o => exists s, linked_receiver sp r o s
  | None => forall o s, ~ linked_receiver sp r o s
  end.
Proof using Type.
  unfold attrib_station, rtw_get_bcmc_stainfo. cbv zeta.
  replace (if IS_MCAST r then rtw_get_stainfo sp bc_addr else rtw_get_stainfo sp r)
    with (rtw_get_stainfo sp (if IS_MCAST r then bc_addr else r)) by by destruct (IS_MCAST r).
  destruct (rtw_get_stainfo sp _) as [o|] eqn:Eo; cbn [mbind option_bind].
  - destruct (stas sp !! o) as [s|] eqn:Es; cbn [mbind option_bind].
    + destruct (Z.eqb_spec (state s .& _FW_LINKED) 0) as [E|E].
      * rewrite andb_true_r. destruct (negb _ && _); intros o' s' [H1 H2 H3]; congruence.
      * rewrite andb_false_r. by exists s.
    + intros o' s' [H1 H2 H3]. congruence.
  - intros o' s' [H1 H2 H3]. congruence.
Qed.

(** C8: Which packets leave under WPA2, and how: [update_attrib] accepts a packet exactly when
    its receiver is a station of the table (for a group address the broadcast entry) that is
    linked, and either its 802.1X port is open or the packet is EAPOL (or the driver is in
    its test mode).  An accepted packet leaves in clear
    only when the port is closed; every other one, whatever its type, is given to CCMP with
    the station's key and the station's next packet number, and the counter advances.  A
    packet that is refused changes no counter. *)
Theorem update_attrib_admits sp xs pkt a : length xs = length (stas sp) -> encrypt (at_sec a) = 0 -> wpa2 c ->
  exists a' xs' log r, attributes sp xs pkt a = Some (a', xs', log, r) /\
    let e := at_eth a' in
    (r = _SUCCESS <-> exists o s, linked_receiver sp (ra e) o s /\ admitted c sec o s e) /\
    (r = _SUCCESS -> exists o s x x', linked_receiver sp (ra e) o s /\ xs !! o = Some x /\
       psta (at_hdr a') = Some o /\ xs' = <[o := x']> xs /\
       (ieee8021x_blocked s = true -> ether_type e = ETH_P_EAPOL \/ check_fwstate c WIFI_MP_STATE = true) /\
       protected sec s x x' e (at_sec a')) /\
    (r <> _SUCCESS -> xs' = xs).
Proof using Type.
  intros Hl Ha Hw. destruct (attributes_run sp xs pkt a Hl Ha) as (a' & xs' & log & r & E & He & H).
  exists a', xs', log, r. split; [done|]. cbv zeta. rewrite He.
  pose proof (station_linked sp (ra (eth pkt a))) as Hst.
  destruct (attrib_station c sp (ra (eth pkt a))) as [o|].
  - destruct H as (s & x & x' & fa & r0 & Hs & Hx & -> & Hsec & -> & Hr0 & <- & Hp).
    destruct Hst as (s0 & [Hk Hs0 Hlk]). assert (s0 = s) as -> by congruence.
    pose proof (sec_info_result c t sec o s x (eth pkt a) (at_sec a) Ha) as [Hr _]. rewrite Hsec in Hr. cbn [snd] in Hr.
    split; [|split].
    + rewrite Hr. split; [intros; by exists o, s|]. intros (o' & s' & [Hk' Hs' _] & ?).
      assert (o' = o) as -> by congruence. by assert (s' = s) as -> by congruence.
    + intros ->. exists o, s, x, x'. destruct (sec_info_wpa2 _ _ _ _ _ _ _ _ _ _ Hw Hsec) as [H1 H2].
      split; [done|]. repeat split; try done; [by apply Hp|]. intros Hb. by rewrite Hb in H1.
    + intros Hf. destruct Hr0 as [-> | ->]; [done|]. apply sec_info_fail in Hsec as ->. by apply list_insert_id.
  - destruct H as [-> ->]. split; [|done]. split; [done|]. intros (o & s & Hl' & _). by apply Hst in Hl'.
Qed.

(** The packets of a list one after the other, each with cleared attributes: the stations
    and the CCMP vectors of the accepted ones that are to be encrypted. *)
Fixpoint attrib_ivs (sp : sta_priv) (xs : list sta_tx) (pkts : list bytes) : option (list (nat * bytes)) :=
  match pkts with
  | [] => Some []
  | pkt :: pkts =>
      '(a, xs, _, r) ← attributes sp xs pkt init_attrib;
      l ← attrib_ivs sp xs pkts;
      Some (match psta (at_hdr a) with
            | Some o => if (r =? _SUCCESS) && (encrypt (at_sec a) =? _AES_)
                        then (o, take 8 (iv (at_sec a))) :: l else l
            | None => l
            end)
  end.

Definition pns_ok (xs : list sta_tx) : Prop := Forall (fun x => 0 <= dot11txpn x < 2 ^ 48) xs.

(** A vector handed out from [xs] within [n] packets. *)
Definition from_counter (xs : list sta_tx) (n : Z) (v : nat * bytes) : Prop :=
  exists x i k, xs !! v.1 = Some x /\ 0 <= i < n /\ v.2 = (AES_IV ((dot11txpn x + i) mod 2 ^ 48) k).1.

(** A station's entry after a packet is the old one, or its counter has moved by one. *)
Lemma counter_step xs o x x' n l : xs !! o = Some x -> dot11txpn x' = (dot11txpn x + 1) mod 2 ^ 48 \/ x' = x ->
  Forall (from_counter (<[o := x']> xs) n) l -> Forall (from_counter xs (n + 1)) l.
Proof using Type.
  intros Hx Hx' Hl. eapply Forall_impl; [|exact Hl]. intros [o' v] (y & i & k & Hy & Hi & Hv). cbn [fst snd] in *.
  destruct (decide (o' = o)) as [->|Hne].
  - rewrite list_lookup_insert_eq in Hy by (by eapply lookup_lt_Some). injection Hy as <-. destruct Hx' as [Hx'|Hx'].
    + exists x, (i + 1), k. repeat split; try lia; [done|]. cbn [snd]. rewrite Hv, Hx', Zplus_mod_idemp_l. do 2 f_equal.
      f_equal. lia.
    + subst x'. exists x, i, k. repeat split; try lia; done.
  - rewrite list_lookup_insert_ne in Hy by done. exists y, i, k. repeat split; try lia; done.
Qed.

Lemma counter_fresh xs o x k n l : xs !! o = Some x -> 0 <= dot11txpn x < 2 ^ 48 -> n < 2 ^ 48 ->
  Forall (from_counter (<[o := set_dot11txpn ((dot11txpn x + 1) mod 2 ^ 48) x]> xs) n) l ->
  (o, (AES_IV (dot11txpn x) k).1) ∉ l.
Proof using Type.
  intros Hx Hp Hn Hl Hin. apply list.Forall_forall with (x := (o, (AES_IV (dot11txpn x) k).1)) in Hl; [|done]. destruct Hl as (y & i & k' & Hy & Hi & Hv).
  cbn [fst snd] in *. rewrite list_lookup_insert_eq in Hy by (by eapply lookup_lt_Some). injection Hy as <-.
  apply AES_IV_inj in Hv; [|done|apply Z.mod_pos_bound; lia]. cbn [dot11txpn set_dot11txpn] in Hv.
  rewrite Zplus_mod_idemp_l in Hv. change (2 ^ 48) with 281474976710656 in *.
  Z.to_euclidean_division_equations. lia.
Qed.

Lemma ivs_run sp : wpa2 c -> forall pkts xs, length xs = length (stas sp) -> pns_ok xs -> zlen pkts <= 2 ^ 48 ->
  exists l, attrib_ivs sp xs pkts = Some l /\ NoDup l /\ Forall (from_counter xs (zlen pkts)) l.
Proof using Type.
  intros Hw. induction pkts as [|pkt pkts IH]; intros xs Hl Hp Hn; [exists []; repeat constructor|].
  rewrite zlen_cons in Hn. cbn [attrib_ivs].
  destruct (attributes_run sp xs pkt init_attrib Hl eq_refl) as (a' & xs' & log & r & -> & _ & H). cbn [mbind option_bind].
  destruct (attrib_station c sp _) as [o|].
  2: { destruct H as [-> ->]. destruct (IH xs Hl Hp ltac:(lia)) as (l & -> & Hd & Hf). exists l. cbn [mbind option_bind].
       replace (_FAIL =? _SUCCESS) with false by done. split; [by destruct (psta _)|]. split; [done|].
       eapply Forall_impl; [|exact Hf]. intros v (x & i & k & ? & ? & ?). exists x, i, k. rewrite zlen_cons. repeat split; try done; lia. }
  destruct H as (s & x & x' & fa & r0 & Hs & Hx & -> & Hsec & -> & Hr0 & <- & Hps).
  assert (Hpx : 0 <= dot11txpn x < 2 ^ 48) by exact (Forall_lookup_1 _ _ _ _ Hp Hx).
  assert (Hstep : x' = x \/ x' = set_dot11txpn ((dot11txpn x + 1) mod 2 ^ 48) x).
  { destruct Hr0 as [-> | ->].
    - apply sec_info_wpa2 in Hsec as [_ Hpr]; [|done]. unfold protected in Hpr. destruct (ieee8021x_blocked s); [by left; apply Hpr|].
      right. destruct Hpr as (_ & _ & _ & _ & _ & ->). by rewrite AES_IV_next.
    - left. by apply sec_info_fail in Hsec. }
  destruct (IH (<[o := x']> xs)) as (l & -> & Hd & Hf); [by rewrite length_insert| |lia|].
  { apply Forall_insert; [done|]. destruct Hstep as [-> | ->]; [done|]. apply Z.mod_pos_bound. lia. }
  cbn [mbind option_bind].
  assert (Hf' : Forall (from_counter xs (zlen (pkt :: pkts))) l).
  { rewrite zlen_cons, Z.add_comm. apply (counter_step xs o x x'); [done| |done]. destruct Hstep as [-> | ->]; [by right|by left]. }
  destruct ((r0 =? _SUCCESS) && (encrypt (at_sec a') =? _AES_)) eqn:Eb.
  2: { exists l. by destruct (psta _). }
  bool_to_prop. subst r0. rewrite (Hps eq_refl). eexists. split; [reflexivity|].
  apply sec_info_wpa2 in Hsec as [_ Hpr]; [|done]. unfold protected in Hpr.
  destruct (ieee8021x_blocked s); [destruct Hpr; unfold _AES_ in *; lia|]. destruct Hpr as (_ & _ & _ & _ & Hiv & Hx').
  rewrite Hiv. split; constructor; try done.
  - apply (counter_fresh xs o x _ (zlen pkts)); [done|done|lia|]. rewrite <- (AES_IV_next _ 0), <- Hx' by done. exact Hf.
  - eexists x, 0, _. rewrite zlen_cons. pose proof (zlen_nonneg pkts). repeat split; [done|lia|lia|].
    cbn [snd]. rewrite Z.add_0_r, Z.mod_small by done. reflexivity.
Qed.

(** C9: No CCMP nonce is used twice: over any sequence of at most 2^48 packets handed to
    [update_attrib] under WPA2, of any content and to any stations, the pairs of station and
    CCMP header of the accepted ones are pairwise different, also across the wrap-around of
    the 48-bit counter. *)
Theorem packet_numbers_distinct sp xs pkts : wpa2 c -> length xs = length (stas sp) -> pns_ok xs ->
  zlen pkts <= 2 ^ 48 ->
  exists l, attrib_ivs sp xs pkts = Some l /\ NoDup l.
Proof using Type. intros Hw Hl Hp Hn. destruct (ivs_run sp Hw pkts xs Hl Hp Hn) as (l & ? & ? & _). by exists l. Qed.
End properties.

(** ** Witnesses *)

(** A station at [ex_peer] of the BSS of [ex_me], with QoS. *)
Definition ex_sta_cfg : rx_config :=
  mk_cfg (WIFI_STATION_STATE .| 1) ex_peer ex_me dot11AuthAlgrthm_8021X _AES_ _AES_ (fun _ => _AES_) (fun _ => true)
    false false true.
Definition ex_txc : tx_config :=
  mk_txc true 0 true 0 0xff 0 2346 (replicate 4 (replicate 16 0)) 8 false 2347 0 0 0 0 false.
Definition ex_link_table : sta_priv :=
  stapriv (upd_sta 0 (ex_link_aid 0) (fst (rtw_alloc_stainfo ex_peer 0 ex_me ex_adapter))).
Definition ex_peer_sta : sta_info := default _rtw_init_stainfo (stas ex_link_table !! 0%nat).
Definition ex_stx (pn : Z) : sta_tx :=
  mk_stx pn (replicate 16 0) (replicate 16 7) (replicate 16 0) 0 0 0 0 0 0 false 0 0 0 true 0 0 false 0.
Definition ex_stxs (pn : Z) : list sta_tx := replicate 32 (ex_stx pn).
Definition ex_dst : bytes := [2; 0; 0; 0; 0; 5].
Definition ex_payload : bytes := [0x45; 0xa0] ++ zseq 3 38.
Definition ex_pkt : bytes := ex_dst ++ ex_peer ++ be_bytes 2 0x0800 ++ ex_payload.


Lemma ex_wpa2 : wpa2 ex_sta_cfg.
Proof. by constructor. Qed.

(** An IP packet to the access point's network leaves under CCMP with the next packet
    number, and with the priority of its type of service. *)
Lemma update_attrib_admits_witness : exists a xs' log,
  update_attrib ex_sta_cfg ex_txc (ex_sec true) [] [] [] ex_link_table (ex_stxs 0x010203040506) ex_pkt init_attrib =
    Some (a, xs', log, _SUCCESS) /\
  priority (at_hdr a) = 5 /\
  exists s x x', linked_receiver ex_link_table (ra (at_eth a)) 0 s /\ stas ex_link_table !! 0%nat = Some s /\ ex_stxs 0x010203040506 !! 0%nat = Some x /\
    protected (ex_sec true) s x x' (at_eth a) (at_sec a).
Proof.
  destruct (update_attrib_admits ex_sta_cfg ex_txc (ex_sec true) [] [] [] ex_link_table (ex_stxs 0x010203040506) ex_pkt init_attrib)
    as (a & xs' & log & r & E & Hiff & Hsucc & _); [vm_compute; reflexivity|reflexivity|exact ex_wpa2|].
  assert (Hx : r = _SUCCESS /\ rtw_get_stainfo ex_link_table (if IS_MCAST (ra (at_eth a)) then bc_addr else ra (at_eth a)) = Some 0%nat
    /\ priority (at_hdr a) = 5)
    by (vm_compute in E; injection E as <- _ _ <-; split_and!; vm_compute; reflexivity).
  destruct Hx as (-> & Ha & Hp). exists a, xs', log. split; [exact E|]. split; [exact Hp|].
  destruct (Hsucc eq_refl) as (o & s & x & x' & Hlr & Hxs & _ & _ & _ & Hpr).
  pose proof (lr_known _ _ _ _ Hlr) as Ho. rewrite Ha in Ho. injection Ho as <-.
  exists s, x, x'. split; [exact Hlr|]. split; [exact (lr_sta _ _ _ _ Hlr)|]. by split.
Defined.

(** The counter wraps between the second packet and the third. *)
Lemma packet_numbers_distinct_witness : exists l,
  attrib_ivs ex_sta_cfg ex_txc (ex_sec true) [] [] [] ex_link_table (ex_stxs 0xfffffffffffe) [ex_pkt; ex_pkt; ex_pkt] = Some l /\
  length l = 3%nat /\ NoDup l.
Proof.
  destruct (packet_numbers_distinct ex_sta_cfg ex_txc (ex_sec true) [] [] [] ex_link_table (ex_stxs 0xfffffffffffe)
    [ex_pkt; ex_pkt; ex_pkt] ex_wpa2) as (l & E & Hd); [vm_compute; reflexivity|by apply Forall_replicate|done|].
  exists l. split; [exact E|]. split; [|exact Hd]. vm_compute in E. by injection E as <-.
Defined.
