(* ===== verification/XmitFrame.v ===== *)
(** * From a packet to frames in the transmit buffer (core/rtw_xmit.c)

    [rtw_xmitframe_coalesce] and what it calls: the 802.11 header ([rtw_make_wlanhdr]), the
    loop that cuts the packet into fragments, the TKIP MIC ([xmitframe_addmic]), software
    encryption ([xmitframe_swencrypt], SecFrames) and the choice of the protection frames
    ([update_attrib_vcs_info]).  The attributes are those of TxAttrib; the runs are those
    of Ie: [OutOfBounds] is an access outside the transmit buffer. *)

From S2P Require Import Prelude Crc32 Michael Ccmp SecFrames WifiHdr RxFrame Reorder MacId StaMgt.
From S2P Require Import TxQueue PowerSave Ie Bip RxEntry TxAttrib.

(** ** Data *)

Definition WLANHDR_OFFSET : Z := 64.
Definition NONE_VCS : Z := 0.
Definition RTS_CTS : Z := 1.
Definition CTS_TO_SELF : Z := 2.
Definition WIRELESS_11_24N : Z := BIT 3.
Definition HT_IOT_PEER_ATHEROS : Z := 5.
Definition MAX_FRAG_THRESHOLD : Z := 2346.

(** [struct xmit_frame]: attributes, [buf_addr] with the memory behind it and its address,
    [pkt_offset]. *)
Record tx_frame := mk_txf { attrib : tx_attrib; buf_addr : option bytes; buf_base : Z; pkt_offset : Z }.

(** The stations, [security_priv] and the checksum tables. *)
Record tx_state := mk_txs { tx_table : sta_priv; tx_stas : list sta_tx; tx_sec : security_priv; tx_crc : crc32_globals }.

Definition set_buf (m : bytes) (f : tx_frame) : tx_frame := mk_txf (attrib f) (Some m) (buf_base f) (pkt_offset f).
Definition set_attrib (a : tx_attrib) (f : tx_frame) : tx_frame := mk_txf a (buf_addr f) (buf_base f) (pkt_offset f).
Definition set_frag (g : frag_attrib) (a : tx_attrib) : tx_attrib :=
  mk_txa (at_eth a) (at_sec a) (at_phy a) (at_hdr a) g.
Definition set_ampdu_en (b : bool) (a : tx_attrib) : tx_attrib :=
  let p := at_phy a in
  mk_txa (at_eth a) (at_sec a)
    (mk_phy (rtsen p) (cts2self p) (mdata p) (eosp p) (triggered p) (ampdu_spacing p) (qos_en p) (raid p)
       (bwmode p) (sgi p) (ldpc p) (stbc p) (ht_en p) (ch_offset p) b (retry_ctrl p))
    (at_hdr a) (at_frag a).
Definition set_seqnum (n : Z) (a : tx_attrib) : tx_attrib :=
  let h := at_hdr a in
  mk_txa (at_eth a) (at_sec a) (at_phy a)
    (mk_hdr (pkt_hdrlen h) (hdrlen h) (subtype h) (priority h) (pctrl h) (ack_policy h) (hw_ssn_sel h) n (psta h))
    (at_frag a).
Definition set_seqs (tid ba : list Z) (x : sta_tx) : sta_tx :=
  mk_stx (dot11txpn x) (dot11tkiptxmickey x) tid ba (st_rtsen x) (st_cts2self x)
    (st_raid x) (bw_mode x) (st_ldpc x) (st_stbc x) (vht_option x) (sgi_20m x) (sgi_40m x) (sgi_80m x)
    (ht_option x) (st_ch_offset x) (rx_ampdu_min_spacing x) (ampdu_enable x) (agg_enable_bitmap x).

Definition hw_offset (f : tx_frame) : Z := u8 (TXDESC_SIZE + pkt_offset f * PACKET_OFFSET_SZ).

(** ** Fields of the header (wifi.h) *)

Definition SetToDs := set_fc (BIT 8).
Definition SetFrDs := set_fc (BIT 9).
Definition SetMFrag := set_fc (BIT 10).
Definition ClearMFrag := clear_fc (BIT 10).
Definition SetMData := set_fc (BIT 13).
Definition SetFrameSubType (type : Z) (m : bytes) (p : Z) : res bytes :=
  m ← clear_fc 0xfc m p; set_fc type m p.
Definition SetSeqNum (num : Z) (m : bytes) (p : Z) : res bytes :=
  m ← clear_fc 0xfff0 m (p + 22); set_fc (0xfff0 .& u16 (num .<< 4)) m (p + 22).
Definition SetPriority (tid : Z) := set_fc (tid .& 0xf).
Definition SetEOSP (e : Z) := set_fc ((e .& 1) .<< 4).
Definition SetAckpolicy (ack : Z) := set_fc ((ack .& 3) .<< 5).

Definition copy_addrs (a1 a2 a3 m : bytes) (p : Z) : res bytes :=
  m ← wrr m (p + 4) a1; m ← wrr m (p + 10) a2; wrr m (p + 16) a3.

Section transmit.
(** The configuration; whether [CONFIG_IEEE80211W] is on. *)
Context (c : rx_config) (t : tx_config) (CONFIG_IEEE80211W : bool).
#[local] Abbreviation check_fwstate := (check_fwstate c).

(** ** [rtw_make_wlanhdr] *)

(** The direction bits and the addresses; [qos_option], or the state forbids to transmit. *)
Definition link_header (a : tx_attrib) (m : bytes) (p : Z) : res (bytes * option bool) :=
  let e := at_eth a in
  if check_fwstate WIFI_STATION_STATE then
    m ← SetToDs m p; m ← copy_addrs (mybssid c) (ta e) (dst e) m p; Done (m, Some (pqos_option t))
  else if check_fwstate WIFI_AP_STATE then
    m ← SetFrDs m p; m ← copy_addrs (dst e) (mybssid c) (src e) m p; Done (m, Some (qos_en (at_phy a)))
  else if check_fwstate WIFI_ADHOC_STATE || check_fwstate WIFI_ADHOC_MASTER_STATE then
    m ← copy_addrs (dst e) (ta e) (mybssid c) m p; Done (m, Some (qos_en (at_phy a)))
  else Done (m, None).

Definition qos_control (a : tx_attrib) (m : bytes) (qc : Z) : res bytes :=
  let pri := priority (at_hdr a) in
  m ← (if negb (pri =? 0) then SetPriority pri m qc else Done m);
  m ← SetEOSP (eosp (at_phy a)) m qc;
  SetAckpolicy (ack_policy (at_hdr a)) m qc.

(** The start of the block-ack window is compared modulo 4096. *)
Definition SN_LESS (a b : Z) : bool := negb ((a - b) .& 0x800 =? 0).

(** The A-MPDU decision: [ampdu_en] and the station's [BA_starting_seqctrl]. *)
Definition check_ampdu (x : sta_tx) (a : tx_attrib) (num : Z) : option (bool * list Z) :=
  let pri := priority (at_hdr a) in
  let ba := BA_starting_seqctrl x in
  let en := if ht_en (at_phy a) && ampdu_enable x && negb (agg_enable_bitmap x .& BIT pri =? 0)
            then true else ampdu_en (at_phy a) in
  if en then
    let i := Z.to_nat (pri .& 0x0f) in
    tx_seq ← ba !! i;
    Some (if SN_LESS num tx_seq then (false, ba)
          else if num =? tx_seq then (true, <[i := (tx_seq + 1) .& 0xfff]> ba)
          else (true, <[i := (num + 1) .& 0xfff]> ba))
  else Some (false, ba).

(** The sequence number and what depends on it; [None] for the station is a failure. *)
Definition number_frame (s : tx_state) (a : tx_attrib) (m : bytes) (p : Z)
    : res (bytes * tx_attrib * list sta_tx * Z) :=
  let fail := Done (m, a, tx_stas s, _FAIL) in
  let got := rtw_get_stainfo (tx_table s) (ra (at_eth a)) in
  if negb (bool_decide (psta (at_hdr a) = got)) then fail else
  match got with
  | None => fail
  | Some o =>
      st ← lift (stas (tx_table s) !! o);
      if state st .& _FW_LINKED =? 0 then fail else
      x ← lift (tx_stas s !! o);
      let i := Z.to_nat (priority (at_hdr a)) in
      n ← lift (txseq_tid x !! i);
      let num := u16 (n + 1) .& 0xFFF in
      m ← SetSeqNum num m p;
      '(en, ba) ← lift (check_ampdu x a num);
      Done (m, set_ampdu_en en (set_seqnum num a), <[o := set_seqs (<[i := num]> (txseq_tid x)) ba x]> (tx_stas s),
            _SUCCESS)
  end.

(** The header at [p] in the buffer: buffer, attributes, stations, result. *)
Definition rtw_make_wlanhdr (s : tx_state) (a : tx_attrib) (m : bytes) (p : Z)
    : res (bytes * tx_attrib * list sta_tx * Z) :=
  m ← wrr m p (replicate (Z.to_nat WLANHDR_OFFSET) 0);
  m ← SetFrameSubType (subtype (at_hdr a)) m p;
  if negb (subtype (at_hdr a) .& WIFI_DATA_TYPE =? 0) then
    '(m, q) ← link_header a m p;
    match q with
    | None => Done (m, a, tx_stas s, _FAIL)
    | Some qos =>
        m ← (if negb (mdata (at_phy a) =? 0) then SetMData m p else Done m);
        m ← (if negb (encrypt (at_sec a) =? 0) then SetPrivacy m p else Done m);
        m ← (if qos : bool then qos_control a m (p + hdrlen (at_hdr a) - 2) else Done m);
        number_frame s a m p
    end
  else Done (m, a, tx_stas s, _SUCCESS).

(** ** The fragments *)

Definition SNAP_SIZE : Z := 6.
Definition RFC1042_OUI : bytes := [0; 0; 0].
Definition P802_1H_OUI : bytes := [0; 0; 0xf8].

Definition rtw_put_snap (m : bytes) (p h_proto : Z) : res (bytes * Z) :=
  m ← wrr m p [0xaa; 0xaa; 0x03];
  m ← wrr m (p + 3) (if (h_proto =? 0x8137) || (h_proto =? 0x80f3) then P802_1H_OUI else RFC1042_OUI);
  m ← wrr m (p + SNAP_SIZE) (be_bytes 2 h_proto);
  Done (m, SNAP_SIZE + 2).

(** The steps of a fragment, each at [pframe]: the IV, the LLC header of the first
    fragment, and the room for the check value. *)
Definition copy_iv (a : tx_attrib) (m : bytes) (pframe mpdu_len : Z) : res (bytes * Z * Z) :=
  let sa := at_sec a in
  if negb (iv_len sa =? 0) then
    v ← rdr (iv sa) 0 (iv_len sa);
    m ← wrr m pframe v; Done (m, pframe + iv_len sa, mpdu_len - iv_len sa)
  else Done (m, pframe, mpdu_len).

Definition copy_llc (a : tx_attrib) (frg_inx : Z) (m : bytes) (pframe mpdu_len : Z) : res (bytes * Z * Z * Z) :=
  if frg_inx =? 0 then
    '(m, llc_sz) ← rtw_put_snap m pframe (ether_type (at_eth a));
    Done (m, pframe + llc_sz, mpdu_len - llc_sz, llc_sz)
  else Done (m, pframe, mpdu_len, 0).

Definition sw_icv (a : tx_attrib) : bool := (0 <? icv_len (at_sec a)) && bswenc (at_sec a).
Definition copy_icv (a : tx_attrib) (m : bytes) (pframe : Z) : res (bytes * Z) :=
  let sa := at_sec a in
  if sw_icv a then
    v ← rdr (icv sa) 0 (icv_len sa); m ← wrr m pframe v; Done (m, pframe + icv_len sa)
  else Done (m, pframe).

(** One fragment at [mem_start].  The buffer, the rest of the packet, the end of the
    fragment, [llc_sz] and [mem_sz]. *)
Definition put_fragment (a : tx_attrib) (frg_len : Z) (bmcst : bool) (frg_inx mem_start : Z)
    (m : bytes) (pf : pkt_file) : res (bytes * pkt_file * Z * Z * Z) :=
  m ← SetMFrag m mem_start;
  '(m, pframe, mpdu_len) ← copy_iv a m (mem_start + hdrlen (at_hdr a)) (frg_len - hdrlen (at_hdr a));
  '(m, pframe, mpdu_len, llc_sz) ← copy_llc a frg_inx m pframe mpdu_len;
  let mpdu_len := if sw_icv a then mpdu_len - icv_len (at_sec a) else mpdu_len in
  let '(b, mem_sz, pf) := _rtw_pktfile_read pf (if bmcst then pktlen (at_eth a) else mpdu_len) in
  m ← wrr m pframe b;
  let pframe := pframe + mem_sz in
  '(m, pframe) ← copy_icv a m pframe;
  Done (m, pf, pframe, llc_sz, mem_sz).

(** The loop; [hw] is [hw_hdr_offset], [base] the address of the buffer. *)
Fixpoint coalesce_loop (fuel : nat) (a : tx_attrib) (base hw frg_len : Z) (bmcst : bool)
    (frg_inx mem_start : Z) (m : bytes) (pf : pkt_file) : res (bytes * frag_attrib) :=
  match fuel with
  | O => NoFuel
  | S fuel =>
      '(m, pf, pframe, llc_sz, mem_sz) ← put_fragment a frg_len bmcst frg_inx mem_start m pf;
      let frg_inx := frg_inx + 1 in
      if bmcst || rtw_endofpktfile pf then
        let n := u8 frg_inx in
        m ← ClearMFrag m mem_start;
        Done (m, mk_fraga n (u32 (hdrlen (at_hdr a) + iv_len (at_sec a) + (if n =? 1 then llc_sz else 0)
                                  + (if bswenc (at_sec a) then icv_len (at_sec a) else 0) + mem_sz))
                   (vcs_mode (at_frag a)))
      else
        let mem_start := RND4 (base + pframe) - base + hw in
        h ← rdr m hw (hdrlen (at_hdr a));
        m ← wrr m mem_start h;
        coalesce_loop fuel a base hw frg_len bmcst frg_inx mem_start m pf
  end.

(** ** [xmitframe_addmic] *)

(** The addresses of the MIC header, by the direction bits. *)
Definition mic_addrs (m : bytes) (pframe : Z) (d : mic_data) : res mic_data :=
  fc ← ldr m (pframe + 1);
  let to_ds := negb (fc .& 1 =? 0) in
  let from_ds := negb (fc .& 2 =? 0) in
  da ← rdr m (pframe + (if to_ds then 16 else 4)) 6;
  sa ← rdr m (pframe + (if from_ds then (if to_ds then 24 else 16) else 10)) 6;
  Done (rtw_secmicappend (rtw_secmicappend d da) sa).

(** One turn of the loop over the fragments; [payload] is an offset in the buffer. *)
Definition mic_fragment (a : tx_attrib) (base : Z) (m : bytes) (curfragnum : Z) (s : mic_data * Z)
    : res (mic_data * Z) :=
  let '(d, payload) := s in
  let over := hdrlen (at_hdr a) + iv_len (at_sec a) in
  let icvl := if bswenc (at_sec a) then icv_len (at_sec a) else 0 in
  let payload := RND4 (base + payload) - base + over in
  let last := curfragnum + 1 =? nr_frags (at_frag a) in
  let length := (if last then last_txcmdsz (at_frag a) else frag_len t) - over - icvl in
  b ← rdr m payload (u32 length);
  Done (rtw_secmicappend d b, payload + length + (if last then 0 else icv_len (at_sec a))).

Fixpoint mic_loop (n : nat) (a : tx_attrib) (base : Z) (m : bytes) (i : Z) (s : mic_data * Z)
    : res (mic_data * Z) :=
  match n with
  | O => Done s
  | S n => s ← mic_fragment a base m i s; mic_loop n a base m (i + 1) s
  end.

(** The key of the MIC, [None] when it is not set. *)
Definition mic_key (sec : security_priv) (a : tx_attrib) : res (option bytes) :=
  k ← (if IS_MCAST (ra (at_eth a))
       then lift (dot118021XGrptxmickey t !! Z.to_nat (dot118021XGrpKeyid sec))
       else Done (tkiptxmickey (at_sec a)));
  Done (if bool_decide (k = replicate 16 0) then None else Some k).

(** The buffer, [last_txcmdsz] and the result. *)
Definition xmitframe_addmic (sec : security_priv) (hw base : Z) (a : tx_attrib) (m : bytes)
    : res (bytes * tx_attrib * Z) :=
  if encrypt (at_sec a) =? _TKIP_ then
    k ← mic_key sec a;
    match k with
    | None => Done (m, a, _FAIL)
    | Some key =>
        d ← mic_addrs m hw (rtw_secmicsetkey key);
        let pri := if qos_en (at_phy a) then u8 (priority (at_hdr a)) else 0 in
        let d := rtw_secmicappend d [pri; 0; 0; 0] in
        let g := at_frag a in
        '(d, payload) ← mic_loop (Z.to_nat (nr_frags g)) a base m 0 (d, hw);
        '(mic, _) ← lift (rtw_secgetmic d);
        m ← wrr m payload mic;
        Done (m, set_frag (mk_fraga (nr_frags g) (u32 (last_txcmdsz g + 8)) (vcs_mode g)) a, _SUCCESS)
    end
  else Done (m, a, _SUCCESS).

(** ** [xmitframe_swencrypt] *)

(** The attributes as SecFrames has them. *)
Definition cipher_attrib (a : tx_attrib) (pkt_offset base : Z) : pkt_attrib :=
  mk_pkt_attrib (encrypt (at_sec a)) (hdrlen (at_hdr a)) (iv_len (at_sec a)) (icv_len (at_sec a))
    (nr_frags (at_frag a)) (last_txcmdsz (at_frag a)) (ra (at_eth a)) (ta (at_eth a)) (UncstKey (at_sec a))
    (frag_len t) pkt_offset base.

Definition xmitframe_swencrypt (s : tx_state) (a : tx_attrib) (pkt_offset base : Z) (m : bytes)
    : option (bytes * tx_state) :=
  let sec := tx_sec s in
  let pa := cipher_attrib a pkt_offset base in
  if bswenc (at_sec a) then
    let enc := encrypt (at_sec a) in
    if (enc =? _WEP40_) || (enc =? _WEP104_) then
      '(m, g, sec) ← rtw_wep_encrypt sec pa (m, tx_crc s);
      Some (m, mk_txs (tx_table s) (tx_stas s) sec g)
    else if enc =? _TKIP_ then
      '(m, g, sec, _) ← rtw_tkip_encrypt sec pa (m, tx_crc s);
      Some (m, mk_txs (tx_table s) (tx_stas s) sec g)
    else if enc =? _AES_ then
      '(m, sec, _) ← rtw_aes_encrypt CONFIG_IEEE80211W sec pa m;
      Some (m, mk_txs (tx_table s) (tx_stas s) sec (tx_crc s))
    else Some (m, s)
  else Some (m, s).

(** ** Protection frames and sizes *)

Definition update_attrib_vcs_info (a : tx_attrib) : tx_attrib :=
  let p := at_phy a in
  let g := at_frag a in
  let sz := if negb (nr_frags g =? 1) then frag_len t else last_txcmdsz g in
  let erp := if negb (rtsen p =? 0) then RTS_CTS else if negb (cts2self p =? 0) then CTS_TO_SELF else NONE_VCS in
  let bw := negb (cur_bwmode t =? 0) in
  let op := HT_protection t in
  let mode :=
    if (cur_wireless_mode t <? WIRELESS_11_24N) || wifi_spec t then
      (if rts_thresh t <? sz then RTS_CTS else erp)
    else if (assoc_AP_vendor t =? HT_IOT_PEER_ATHEROS) && ampdu_en p && (dot11PrivacyAlgrthm c =? _AES_)
    then CTS_TO_SELF
    else if negb (rtsen p =? 0) || negb (cts2self p =? 0) then erp
    else if ht_en p && ((bw && ((op =? 2) || (op =? 3))) || (negb bw && (op =? 3))) then RTS_CTS
    else if rts_thresh t <? sz then RTS_CTS
    else if ampdu_en p && negb (is_8812 t) then RTS_CTS
    else NONE_VCS in
  set_frag (mk_fraga (nr_frags g) (last_txcmdsz g)
              (if driver_vcs_en t =? 1 then driver_vcs_type t else mode)) a.

Definition rtw_calculate_wlan_pkt_size_by_attribue (a : tx_attrib) : Z :=
  let sa := at_sec a in
  u32 (hdrlen (at_hdr a) + iv_len sa + (SNAP_SIZE + 2) + pktlen (at_eth a)
       + (if encrypt sa =? _TKIP_ then 8 else 0) + (if bswenc sa then icv_len sa else 0)).

(** ** [rtw_xmitframe_coalesce] *)

(** The rounds allowed: a fragment takes a byte of the packet. *)
Definition coalesce_fuel (pkt : bytes) : nat := S (length pkt).

Definition rtw_xmitframe_coalesce (s : tx_state) (pkt : bytes) (f : tx_frame) : res (tx_frame * tx_state * Z) :=
  match buf_addr f with
  | None => Done (f, s, _FAIL)
  | Some m =>
      let bmcst := IS_MCAST (ra (at_eth (attrib f))) in
      let hw := hw_offset f in
      let base := buf_base f in
      '(m, a, xs, r) ← rtw_make_wlanhdr s (attrib f) m hw;
      let s := mk_txs (tx_table s) xs (tx_sec s) (tx_crc s) in
      if r =? _FAIL then Done (set_attrib a (set_buf m f), s, _FAIL) else
      let '(_, _, pf) := _rtw_pktfile_read (_rtw_open_pktfile pkt) (pkt_hdrlen (at_hdr a)) in
      '(m, g) ← coalesce_loop (coalesce_fuel pkt) a base hw (frag_len t - 4) bmcst 0 hw m pf;
      let a := set_frag g a in
      '(m, a, r) ← xmitframe_addmic (tx_sec s) hw base a m;
      if r =? _FAIL then Done (set_attrib a (set_buf m f), s, _FAIL) else
      '(m, s) ← lift (xmitframe_swencrypt s a (pkt_offset f) base m);
      let a := if bmcst then set_frag (mk_fraga (nr_frags (at_frag a)) (last_txcmdsz (at_frag a)) NONE_VCS) a
               else update_attrib_vcs_info a in
      Done (set_attrib a (set_buf m f), s, _SUCCESS)
  end.
End transmit.

(** ** Lemmas: fields in the buffer *)

Lemma u8_lor a b : u8 (a .| b) = u8 a .| u8 b.
Proof. unfold u8. rewrite <- !Z.land_ones by lia. apply Z.land_lor_distr_l. Qed.
Lemma u8_ldiff a b : u8 (Z.ldiff a b) = Z.ldiff (u8 a) b.
Proof.
  unfold u8. rewrite <- !Z.land_ones by lia. apply Z.bits_inj'. intros i Hi.
  rewrite Z.land_spec, !Z.ldiff_spec, Z.land_spec. destruct (Z.testbit a i), (Z.testbit b i), (Z.testbit _ i); done.
Qed.

Lemma le16_low b0 b1 : is_u8 b0 -> u8 ((b1 .<< 8) .| b0) = b0.
Proof.
  intros H0. rewrite u8_lor, (u8_id b0) by done. unfold u8. rewrite Z.shiftl_mul_pow2, Z.mod_mul by lia. done.
Qed.
Lemma le16_high b0 b1 : is_u8 b0 -> ((b1 .<< 8) .| b0) .>> 8 = b1.
Proof.
  intros H0. rewrite Z.shiftr_lor, Z.shiftr_shiftl_l, Z.shiftl_0_r by lia.
  rewrite (Z.shiftr_div_pow2 b0), Z.div_small by lia. apply Z.lor_0_r.
Qed.

(** Bytes [k] and [k + 1] of a block of the buffer. *)
Definition fc_at (f : Z -> Z -> Z) (v : Z) (h : bytes) (k : nat) : bytes :=
  take k h ++ [f (nth k h 0) v; f (nth (S k) h 0) (v .>> 8)] ++ drop (S (S k)) h.

(** A write within a block. *)
Lemma wrr_local (pre h post bs : bytes) k p : p = zlen pre + Z.of_nat k -> (k + length bs <= length h)%nat ->
  wrr (pre ++ h ++ post) p bs = Done (pre ++ (take k h ++ bs ++ drop (k + length bs) h) ++ post).
Proof.
  intros -> Hk. assert (E : pre ++ h ++ post = (pre ++ take k h) ++ take (length bs) (drop k h) ++ (drop (k + length bs) h ++ post)).
  { rewrite <- !app_assoc. f_equal. rewrite <- (take_drop k h) at 1. rewrite <- app_assoc. f_equal.
    rewrite <- (take_drop (length bs) (drop k h)) at 1. rewrite <- app_assoc, drop_drop. done. }
  rewrite E, wrr_mid; [by rewrite <- !app_assoc| |rewrite length_take, length_drop; lia].
  rewrite zlen_app. unfold zlen. rewrite length_take. lia.
Qed.

Lemma ldr_local (pre h post : bytes) k p : p = zlen pre + Z.of_nat k -> (k < length h)%nat ->
  ldr (pre ++ h ++ post) p = Done (nth k h 0).
Proof.
  intros -> Hk. rewrite ldr_ok by (rewrite !zlen_app; unfold zlen; lia). f_equal.
  rewrite (ld0_app_r _ _ _ (Z.of_nat k)), ld0_app_l by (unfold zlen; lia). unfold ld0. by rewrite Nat2Z.id.
Qed.

Lemma put_fc_local (pre h post : bytes) k p w : p = zlen pre + Z.of_nat k -> (k + 2 <= length h)%nat ->
  put_fc (pre ++ h ++ post) p w =
  Done (pre ++ (take k h ++ [u8 w; u8 (w .>> 8)] ++ drop (S (S k)) h) ++ post).
Proof.
  intros -> Hk. unfold put_fc. rewrite (wrr_local pre h post [u8 w; u8 (w .>> 8)] k) by done.
  cbn [length]. by replace (k + 2)%nat with (S (S k)) by lia.
Qed.

Lemma get_le16_local (pre h post : bytes) k p : p = zlen pre + Z.of_nat k -> (k + 2 <= length h)%nat ->
  RTW_GET_LE16 (pre ++ h ++ post) p = Done ((nth (S k) h 0 .<< 8) .| nth k h 0).
Proof.
  intros -> Hk. unfold RTW_GET_LE16.
  rewrite (ldr_local pre h post k (zlen pre + Z.of_nat k)), done_bind by lia.
  by rewrite (ldr_local pre h post (S k)) by lia.
Qed.

Lemma set_fc_local v (pre h post : bytes) k p : p = zlen pre + Z.of_nat k -> (k + 2 <= length h)%nat ->
  bytes_ok h -> 0 <= v ->
  set_fc v (pre ++ h ++ post) p = Done (pre ++ fc_at (fun b w => b .| u8 w) v h k ++ post).
Proof.
  intros -> Hk Hh Hv. unfold set_fc. rewrite (get_le16_local pre h post k), done_bind by done.
  rewrite (put_fc_local pre h post k) by done. unfold fc_at. do 3 f_equal. f_equal.
  assert (is_u8 (nth k h 0)) by by apply bytes_ok_nth. assert (is_u8 (nth (S k) h 0)) by by apply bytes_ok_nth.
  rewrite u8_lor, le16_low, Z.shiftr_lor, u8_lor, le16_high, (u8_id (nth (S k) h 0)) by done. done.
Qed.

Lemma clear_fc_local v (pre h post : bytes) k p : p = zlen pre + Z.of_nat k -> (k + 2 <= length h)%nat ->
  bytes_ok h ->
  clear_fc v (pre ++ h ++ post) p = Done (pre ++ fc_at Z.ldiff v h k ++ post).
Proof.
  intros -> Hk Hh. unfold clear_fc. rewrite (get_le16_local pre h post k), done_bind by done.
  rewrite (put_fc_local pre h post k) by done. unfold fc_at. do 3 f_equal. f_equal.
  assert (is_u8 (nth k h 0)) by by apply bytes_ok_nth. assert (is_u8 (nth (S k) h 0)) by by apply bytes_ok_nth.
  rewrite u8_ldiff, le16_low, Z.shiftr_ldiff, u8_ldiff, le16_high, (u8_id (nth (S k) h 0)) by done. done.
Qed.

(** The more-fragments bit of a header. *)
Definition set_more (b : bool) (h : bytes) : bytes :=
  match h with
  | x0 :: x1 :: r => x0 :: (if b then x1 .| 4 else Z.ldiff x1 4) :: r
  | _ => h
  end.

Lemma zlen_set_more b h : zlen (set_more b h) = zlen h.
Proof. by destruct h as [|? [|? ?]]. Qed.
Lemma set_more_ok b h : bytes_ok h -> bytes_ok (set_more b h).
Proof.
  intros Hh. destruct h as [|x0 [|x1 r]]; try done. apply list.Forall_cons in Hh as [H0 [H1 Hr]%list.Forall_cons].
  apply bytes_ok_cons; [done|]. apply bytes_ok_cons; [|done]. destruct b; [apply (lor_range 8); lia|by apply ldiff_u8].
Qed.
Lemma set_more_again b b' h : bytes_ok h -> set_more b (set_more b' h) = set_more b h.
Proof.
  destruct h as [|x0 [|x1 r]]; try done. intros _. cbn. do 2 f_equal. apply Z.bits_inj'. intros i Hi.
  destruct b, b'; rewrite ?Z.lor_spec, ?Z.ldiff_spec, ?Z.lor_spec; destruct (Z.testbit x1 i), (Z.testbit 4 i); done.
Qed.

Lemma SetMFrag_at (pre h post : bytes) p : p = zlen pre -> 2 <= zlen h -> bytes_ok h ->
  SetMFrag (pre ++ h ++ post) p = Done (pre ++ set_more true h ++ post).
Proof.
  intros -> Hl Hh. unfold SetMFrag. destruct h as [|x0 [|x1 r]]; [unfold zlen in Hl; cbn in Hl; lia..|].
  rewrite (set_fc_local _ pre (x0 :: x1 :: r) post 0) by (done || cbn; lia).
  unfold fc_at. cbn [take app nth drop set_more]. change (u8 (BIT 10 .>> 8)) with 4.
  change (u8 (BIT 10)) with 0. by rewrite Z.lor_0_r.
Qed.

Lemma ClearMFrag_at (pre h post : bytes) p : p = zlen pre -> 2 <= zlen h -> bytes_ok h ->
  ClearMFrag (pre ++ h ++ post) p = Done (pre ++ set_more false h ++ post).
Proof.
  intros -> Hl Hh. unfold ClearMFrag. destruct h as [|x0 [|x1 r]]; [unfold zlen in Hl; cbn in Hl; lia..|].
  rewrite (clear_fc_local _ pre (x0 :: x1 :: r) post 0) by (done || cbn; lia).
  unfold fc_at. cbn [take app nth drop set_more]. change (BIT 10 .>> 8) with 4.
  do 3 f_equal. apply (fun H => proj1 (Z.eqb_eq _ _) (forall_byte (fun x => Z.ldiff x (BIT 10) =? x) H x0 ltac:(by inversion Hh))).
  by vm_compute.
Qed.

(** ** Lemmas: the loop over the fragments *)

Lemma take_taken {A} n (l : list A) : take (length (take n l)) l = take n l.
Proof. rewrite <- (take_drop n l) at 2. apply take_app_length. Qed.

(** The packet file after [k] bytes. *)
Definition pf_at (pkt : bytes) (k : Z) : pkt_file := mk_pf pkt k 0 (zlen pkt - k) (zlen pkt).

Lemma pktfile_read pkt k n : 0 <= k <= zlen pkt -> zlen pkt < 2 ^ 32 -> 0 <= n < 2 ^ 32 ->
  let b := take (Z.to_nat n) (drop (Z.to_nat k) pkt) in
  _rtw_pktfile_read (pf_at pkt k) n = (b, zlen b, pf_at pkt (k + zlen b)).
Proof.
  intros Hk Hp Hn b. assert (Hb : zlen b = Z.min n (zlen pkt - k)).
  { unfold b, zlen in *. rewrite length_take, length_drop. lia. }
  unfold _rtw_pktfile_read, rtw_remainder_len, pf_at. cbn [buf_len cur_addr buf_start pf_pkt_len pf_pkt].
  rewrite Z.sub_0_r, !u32_id by lia.
  assert (E : (if zlen pkt - k <? n then zlen pkt - k else n) = zlen b).
  { destruct (Z.ltb_spec (zlen pkt - k) n); lia. }
  rewrite E. replace (zlen pkt - (zlen pkt - k)) with k by lia. unfold pf_at.
  replace (zlen pkt - (k + zlen b)) with (zlen pkt - k - zlen b) by lia.
  f_equal. f_equal. rewrite zlen_to_nat. unfold b. apply take_taken.
Qed.

(** A write at the start of the free part of the buffer. *)
Lemma wrr_next (pre room bs : bytes) p : p = zlen pre -> zlen bs <= zlen room ->
  wrr (pre ++ room) p bs = Done ((pre ++ bs) ++ drop (length bs) room).
Proof.
  intros -> Hb. rewrite <- (take_drop (length bs) room) at 1.
  rewrite wrr_mid; [by rewrite <- app_assoc|done|]. unfold zlen in *. rewrite length_take. lia.
Qed.

Section layout.
Context (a : tx_attrib) (base hw L : Z) (bmcst : bool) (pkt : bytes).
#[local] Abbreviation sa := (at_sec a).
#[local] Abbreviation HL := (hdrlen (at_hdr a)).

(** What every fragment carries around its part of the packet. *)
Definition iv_bytes : bytes := take (Z.to_nat (iv_len sa)) (iv sa).
Definition icv_room : bytes := if sw_icv a then take (Z.to_nat (icv_len sa)) (icv sa) else [].
Definition llc (first : bool) : bytes :=
  if first then
    [0xaa; 0xaa; 0x03] ++ (if (ether_type (at_eth a) =? 0x8137) || (ether_type (at_eth a) =? 0x80f3)
                           then P802_1H_OUI else RFC1042_OUI) ++ be_bytes 2 (ether_type (at_eth a))
  else [].
Definition cap (first : bool) : Z := L - HL - iv_len sa - zlen (llc first) - zlen icv_room.
Definition frame_of (more first : bool) (h data : bytes) : bytes :=
  set_more more h ++ iv_bytes ++ llc first ++ data ++ icv_room.

(** The lengths of the attributes fit the arrays. *)
Record lengths_ok : Prop := {
  lo_hdr : 2 <= HL; lo_iv : 0 <= iv_len sa <= zlen (iv sa); lo_icv : 0 <= icv_len sa <= zlen (icv sa)
}.
Hypothesis Hlen : lengths_ok.

Lemma zlen_iv_bytes : zlen iv_bytes = iv_len sa.
Proof using Hlen. destruct Hlen. unfold iv_bytes, zlen in *. rewrite length_take. lia. Qed.
Lemma zlen_llc first : zlen (llc first) = if first then 8 else 0.
Proof using Type. unfold llc. destruct first; [|done]. by destruct (_ || _). Qed.
Lemma zlen_icv_room : zlen icv_room = if sw_icv a then icv_len sa else 0.
Proof using Hlen.
  destruct Hlen. unfold icv_room. destruct (sw_icv a); [|done]. unfold zlen in *. rewrite length_take. lia.
Qed.
Lemma zlen_frame more first h data :
  zlen (frame_of more first h data) = zlen h + iv_len sa + zlen (llc first) + zlen data + zlen icv_room.
Proof using Hlen. unfold frame_of. rewrite !zlen_app, zlen_set_more, zlen_iv_bytes. lia. Qed.

Lemma rdr_start (l : bytes) n : 0 <= n <= zlen l -> rdr l 0 n = Done (take (Z.to_nat n) l).
Proof using Type. intros. by rewrite rdr_ok by lia. Qed.

Lemma copy_iv_run pre room n : zlen iv_bytes <= zlen room ->
  copy_iv a (pre ++ room) (zlen pre) n =
  Done ((pre ++ iv_bytes) ++ drop (length iv_bytes) room, zlen (pre ++ iv_bytes), n - iv_len sa).
Proof using Hlen.
  intros Hr. pose proof zlen_iv_bytes as Hiv. unfold copy_iv. cbv zeta. rewrite zlen_app, Hiv.
  destruct (Z.eqb_spec (iv_len sa) 0) as [E|E]; cbn [negb].
  - assert (iv_bytes = []) as -> by (apply nil_length_inv; unfold zlen in Hiv; lia).
    by rewrite E, Z.add_0_r, Z.sub_0_r, app_nil_r.
  - rewrite rdr_start, done_bind by apply Hlen. fold iv_bytes. by rewrite wrr_next, done_bind.
Qed.

Lemma copy_llc_run (first : bool) frg_inx pre room n : (frg_inx =? 0) = first -> zlen (llc first) <= zlen room ->
  copy_llc a frg_inx (pre ++ room) (zlen pre) n =
  Done ((pre ++ llc first) ++ drop (length (llc first)) room, zlen (pre ++ llc first), n - zlen (llc first), zlen (llc first)).
Proof using Type.
  intros Hf Hr. unfold copy_llc. rewrite Hf, zlen_app. rewrite zlen_llc in *. destruct first.
  2: { cbn. by rewrite Z.add_0_r, Z.sub_0_r, app_nil_r. }
  unfold rtw_put_snap. rewrite wrr_next, done_bind by (done || (unfold zlen in *; cbn; lia)).
  set (oui := if _ || _ then P802_1H_OUI else RFC1042_OUI).
  assert (Ho : length oui = 3%nat) by (unfold oui; by destruct (_ || _)).
  rewrite wrr_next, done_bind by (rewrite ?zlen_app; unfold zlen in *; rewrite ?length_drop; cbn; lia).
  unfold SNAP_SIZE. rewrite wrr_next, done_bind by (rewrite ?zlen_app; unfold zlen in *; rewrite ?length_drop; cbn; lia).
  cbn [mbind res_bind]. rewrite !drop_drop, <- !app_assoc. unfold llc. fold oui.
  by rewrite !length_app, be_bytes_length, Ho, <- !app_assoc.
Qed.

Lemma copy_icv_run pre room : zlen icv_room <= zlen room ->
  copy_icv a (pre ++ room) (zlen pre) =
  Done ((pre ++ icv_room) ++ drop (length icv_room) room, zlen (pre ++ icv_room)).
Proof using Hlen.
  intros Hr. pose proof zlen_icv_room as Hi. unfold copy_icv. cbv zeta. rewrite zlen_app, Hi. unfold icv_room in *.
  destruct (sw_icv a); [|by rewrite Z.add_0_r, app_nil_r].
  rewrite rdr_start, done_bind by apply Hlen. by rewrite wrr_next, done_bind.
Qed.

(** The number of bytes asked of the packet file. *)
Definition read_len (first : bool) : Z := if bmcst then pktlen (at_eth a) else cap first.

Lemma put_fragment_run (first : bool) frg_inx pre h room k : (frg_inx =? 0) = first ->
  zlen h = HL -> bytes_ok h -> 0 <= k <= zlen pkt -> zlen pkt < 2 ^ 32 -> 0 <= read_len first < 2 ^ 32 ->
  let data := take (Z.to_nat (read_len first)) (drop (Z.to_nat k) pkt) in
  let body := iv_bytes ++ llc first ++ data ++ icv_room in
  zlen body <= zlen room ->
  put_fragment a L bmcst frg_inx (zlen pre) (pre ++ h ++ room) (pf_at pkt k) =
  Done ((pre ++ set_more true h ++ body) ++ drop (length body) room, pf_at pkt (k + zlen data),
        zlen (pre ++ set_more true h ++ body), zlen (llc first), zlen data).
Proof using Hlen.
  intros Hf Hh Hhb Hk Hp Hr data body Hroom. pose proof zlen_icv_room as Hicv.
  unfold body in *. rewrite !zlen_app in Hroom.
  pose proof (zlen_nonneg data). pose proof (zlen_nonneg icv_room). pose proof (zlen_nonneg (llc first)).
  pose proof (zlen_nonneg iv_bytes).
  unfold put_fragment. rewrite SetMFrag_at, done_bind by (done || (destruct Hlen; lia)).
  rewrite (app_assoc pre). replace (zlen pre + HL) with (zlen (pre ++ set_more true h)) by (rewrite zlen_app, zlen_set_more; lia).
  rewrite copy_iv_run, done_bind by lia. cbv beta iota.
  assert (Hd : forall (l : bytes) n, zlen (drop n l) = Z.max 0 (zlen l - Z.of_nat n)) by (intros; unfold zlen; rewrite length_drop; lia).
  rewrite (copy_llc_run first), done_bind by (done || (rewrite Hd; unfold zlen in *; lia)). cbv beta iota.
  replace (if bmcst then pktlen (at_eth a) else _) with (read_len first).
  2: { unfold read_len, cap. rewrite Hicv. destruct bmcst, (sw_icv a); lia. }
  rewrite pktfile_read by done. fold data. cbv beta iota.
  rewrite wrr_next, done_bind by (done || (rewrite !Hd; unfold zlen in *; lia)).
  rewrite <- zlen_app, copy_icv_run, done_bind by (rewrite !Hd; unfold zlen in *; lia). cbv beta iota.
  by rewrite !drop_drop, <- !app_assoc, !length_app.
Qed.

(** The fragments of what is left of the packet, and their places: each header is
    [hw_hdr_offset] bytes behind the next multiple of 4. *)
Fixpoint frames_of (n : nat) (first : bool) (h data : bytes) : list bytes :=
  match n with
  | O => []
  | S n =>
      let part := take (Z.to_nat (read_len first)) data in
      if bmcst || (zlen data <=? read_len first) then [frame_of false first h part]
      else frame_of true first h part :: frames_of n false h (drop (Z.to_nat (read_len first)) data)
  end.

Inductive laid : Z -> list bytes -> bytes -> Prop :=
  | laid_last p fr post : laid p [fr] (fr ++ post)
  | laid_more p fr gap frs tl :
      p + zlen fr + zlen gap = RND4 (base + (p + zlen fr)) - base + hw ->
      laid (p + zlen fr + zlen gap) frs tl -> laid p (fr :: frs) (fr ++ gap ++ tl).

Lemma frames_pos n h data : (0 < n)%nat -> 1 <= zlen (frames_of n false h data).
Proof using Type.
  intros Hn. destruct n as [|n]; [lia|]. cbn [frames_of]. destruct (_ || _); [done|]. rewrite zlen_cons.
  pose proof (zlen_nonneg (frames_of n false h (drop (Z.to_nat (read_len false)) data))). lia.
Qed.

Lemma frames_of_set_more n first b h data : bytes_ok h ->
  frames_of n first (set_more b h) data = frames_of n first h data.
Proof using Type.
  intros Hh. revert first data. induction n as [|n IH]; intros first data; [done|]. cbn [frames_of].
  unfold frame_of. rewrite !set_more_again by done. by rewrite IH.
Qed.

Lemma RND4_bounds x : x <= RND4 x < x + 4.
Proof using Type.
  unfold RND4. rewrite (land_mask x 2 3), Z.shiftr_div_pow2, Z.shiftl_mul_pow2 by lia.
  change (2 ^ 2) with 4. pose proof (Z.div_mod x 4 ltac:(lia)). pose proof (Z.mod_pos_bound x 4 ltac:(lia)).
  destruct (Z.eqb_spec (x mod 4) 0); lia.
Qed.

(** A room of [B] bytes holds any fragment. *)
Context (B : Z).
Hypothesis Hroom : forall first, HL + iv_len sa + zlen (llc first) + read_len first + zlen icv_room <= B.
Hypothesis Hread : forall first, 0 <= read_len first < 2 ^ 32 /\ (bmcst = false -> 1 <= read_len first).
Hypothesis Hpkt : zlen pkt < 2 ^ 32.
Hypothesis Hhw : 0 <= hw.

(** The turn of the loop on a fragment that is not the last. *)
Lemma next_header pre h k frame room : zlen h = HL -> bytes_ok h ->
  zlen frame + hw + 3 + HL <= zlen frame + zlen room ->
  rd (pre ++ frame) hw HL = Some (set_more true h) ->
  let start := RND4 (base + zlen (pre ++ frame)) - base + hw in
  let m := (pre ++ frame) ++ room in
  exists gap room', zlen gap = start - zlen (pre ++ frame) /\ 0 <= zlen gap <= hw + 3 /\
    rdr m hw HL = Done (set_more true h) /\
    wrr m start (set_more true h) = Done ((pre ++ frame ++ gap) ++ set_more true h ++ room') /\
    k + zlen gap + HL + zlen room' = k + zlen room.
Proof using Hhw.
  intros Hh Hb Hr Hrd start m. pose proof (RND4_bounds (base + zlen (pre ++ frame))) as Hs. pose proof (zlen_nonneg h).
  assert (Hst : 0 <= start - zlen (pre ++ frame) <= hw + 3) by (unfold start; lia). clearbody start. clear Hs.
  destruct (split_at room (start - zlen (pre ++ frame))) as (gap & r & -> & Hg & Hlr); [lia|].
  destruct (split_at r HL) as (hr & room' & -> & Hhr & Hlr'); [lia|].
  exists gap, room'. split; [done|]. split; [lia|]. split; [|split; [|rewrite !zlen_app; lia]].
  - unfold m, rdr. destruct (rd_inv _ _ _ _ Hrd) as (x & y & E & Hx & Hy). rewrite E, <- !app_assoc.
    by rewrite (rd_mid x).
  - unfold m. rewrite (app_assoc (pre ++ frame)). rewrite wrr_mid.
    + by rewrite <- !app_assoc.
    + rewrite (zlen_app _ gap). lia.
    + rewrite <- !zlen_to_nat. by rewrite zlen_set_more, Hh, Hhr.
Qed.

(** The terms of [last_txcmdsz]. *)
Lemma last_size (first : bool) frg_inx : (frg_inx =? 0) = first ->
  (if u8 (frg_inx + 1) =? 1 then zlen (llc first) else 0) + (if bswenc sa then icv_len sa else 0) =
  zlen (llc first) + zlen icv_room.
Proof using Hlen.
  intros Hf. rewrite zlen_icv_room, zlen_llc. unfold sw_icv. destruct Hlen as [_ _ Hi].
  assert (E : (if (0 <? icv_len sa) && bswenc sa then icv_len sa else 0) = if bswenc sa then icv_len sa else 0).
  { destruct (bswenc sa), (0 <? icv_len sa) eqn:Ei; bool_to_prop; cbn; lia. }
  rewrite E. destruct first; [apply Z.eqb_eq in Hf; subst; reflexivity|]. by destruct (_ =? 1).
Qed.

Lemma coalesce_run n : forall first frg_inx pre h room k, (frg_inx =? 0) = first -> 0 <= frg_inx ->
  zlen h = HL -> bytes_ok h -> 0 <= k <= zlen pkt ->
  rd (pre ++ set_more true h) hw HL = Some (set_more true h) ->
  let data := drop (Z.to_nat k) pkt in
  (length data < n)%nat ->
  let frs := frames_of n first h data in
  zlen frs * (B + hw + 3) <= zlen h + zlen room ->
  exists tl, coalesce_loop n a base hw L bmcst frg_inx (zlen pre) (pre ++ h ++ room) (pf_at pkt k) =
      Done (pre ++ tl, mk_fraga (u8 (frg_inx + zlen frs)) (u32 (zlen (List.last frs []))) (vcs_mode (at_frag a))) /\
    laid (zlen pre) frs tl /\ zlen tl = zlen h + zlen room.
Proof using Hlen Hroom Hread Hpkt Hhw.
  induction n as [|n IH]; intros first frg_inx pre h room k Hf Hi Hh Hb Hk Hrd data Hn frs Hfit; [lia|].
  pose proof (Hread first) as [Hrl Hrl1]. pose proof (Hroom first) as Hrm.
  set (part := take (Z.to_nat (read_len first)) data) in *.
  assert (Hdl : zlen data = zlen pkt - k) by (unfold data, zlen in *; rewrite length_drop; lia).
  assert (Hpl : zlen part = Z.min (read_len first) (zlen data)) by (unfold part, zlen in *; rewrite length_take; lia).
  assert (Hpos : 1 <= zlen frs).
  { unfold frs. cbn [frames_of]. destruct (_ || _); [done|]. rewrite zlen_cons. pose proof (zlen_nonneg (frames_of n false h (drop (Z.to_nat (read_len first)) data))). lia. }
  pose proof zlen_iv_bytes as Hiv. pose proof (zlen_nonneg part). pose proof (zlen_nonneg icv_room). pose proof (zlen_nonneg (llc first)).
  destruct (Hlen) as [H2 H3 _].
  set (body := iv_bytes ++ llc first ++ part ++ icv_room).
  assert (Hbody : zlen body = iv_len sa + zlen (llc first) + zlen part + zlen icv_room) by (unfold body; rewrite !zlen_app; lia).
  cbn [coalesce_loop]. rewrite (put_fragment_run first), done_bind by (done || (fold data part body; nia)).
  fold data part body. cbv beta iota zeta.
  set (fr := frame_of true first h part). change (set_more true h ++ body) with fr.
  assert (Hend : rtw_endofpktfile (pf_at pkt (k + zlen part)) = (zlen data <=? read_len first)).
  { unfold rtw_endofpktfile, pf_at. cbn [pf_pkt_len]. destruct (Z.leb_spec (zlen data) (read_len first)), (Z.eqb_spec (zlen pkt - (k + zlen part)) 0); lia || done. }
  rewrite Hend. subst frs. cbn [frames_of] in Hfit, Hpos |- *. fold part in Hfit, Hpos |- *. destruct (bmcst || (zlen data <=? read_len first)) eqn:El.
  - exists (frame_of false first h part ++ drop (length body) room). split; [|split; [apply laid_last|]].
    + replace ((pre ++ fr) ++ drop (length body) room) with (pre ++ set_more true h ++ (body ++ drop (length body) room))
        by (unfold fr, frame_of; fold body; by rewrite <- !app_assoc).
      rewrite ClearMFrag_at, done_bind, set_more_again by (done || by apply set_more_ok || (rewrite zlen_set_more; lia)).
      cbn [List.last]. rewrite zlen_frame, Hh. unfold frame_of. fold body. rewrite <- !app_assoc.
      change (zlen [set_more false h ++ body]) with 1. do 4 f_equal.
      pose proof (last_size first frg_inx Hf). lia.
    + unfold frame_of. fold body. rewrite !zlen_app, zlen_set_more.
      assert (zlen (drop (length body) room) = zlen room - zlen body) by (unfold zlen in *; rewrite length_drop; nia). lia.
  - apply orb_false_iff in El as [Hbm El]. bool_to_prop. specialize (Hrl1 Hbm).
    assert (Hfr : zlen fr = HL + zlen body) by (unfold fr, frame_of; fold body; rewrite zlen_app, zlen_set_more; lia).
    assert (Hdr : zlen (drop (length body) room) = zlen room - zlen body) by (unfold zlen in *; rewrite length_drop; nia).
    rewrite zlen_cons in Hfit, Hpos. set (frs := frames_of n false h (drop (Z.to_nat (read_len first)) data)) in *.
    pose proof (frames_pos n h (drop (Z.to_nat (read_len first)) data)) as Hp1. fold frs in Hp1.
    assert (Hn1 : (0 < n)%nat) by (destruct n; [unfold zlen in *; lia|lia]). specialize (Hp1 Hn1).
    pose proof (Hroom false) as Hrm2. pose proof (zlen_nonneg (llc false)). pose proof (Hread false) as [? _].
    destruct (next_header pre h 0 fr (drop (length body) room) Hh Hb) as (gap & room' & Hg & Hg0 & -> & Hw & Hrest).
    { rewrite Hdr. nia. }
    { unfold fr, frame_of. rewrite app_assoc. destruct (rd_inv _ _ _ _ Hrd) as (x & y & E & Hx & Hy).
      rewrite E, <- !app_assoc. by rewrite (rd_mid x). }
    rewrite done_bind, Hw, done_bind.
    replace (RND4 (base + zlen (pre ++ fr)) - base + hw) with (zlen (pre ++ fr ++ gap)) by (rewrite app_assoc, (zlen_app (pre ++ fr)); lia).
    assert (Hd' : drop (Z.to_nat (k + zlen part)) pkt = drop (Z.to_nat (read_len first)) data).
    { unfold data. rewrite drop_drop. f_equal. lia. }
    destruct (IH false (frg_inx + 1) (pre ++ fr ++ gap) (set_more true h) room' (k + zlen part)) as (tl & E & Hl & Ht);
      rewrite ?zlen_set_more, ?Hd', ?frames_of_set_more, ?set_more_again by done; try lia; [by apply set_more_ok| | | |].
    { rewrite <- app_assoc. destruct (rd_inv _ _ _ _ Hrd) as (x & y & Er & Hx & Hy).
      unfold fr, frame_of. rewrite !app_assoc, Er, <- !app_assoc. by rewrite (rd_mid x). }
    { rewrite length_drop. unfold zlen in *. lia. }
    { fold frs. nia. }
    rewrite Hd', frames_of_set_more in E, Hl by done. fold frs in E, Hl.
    exists (fr ++ gap ++ tl). rewrite E. split; [|split].
    + rewrite zlen_cons, <- !app_assoc. replace (frg_inx + 1 + zlen frs) with (frg_inx + (1 + zlen frs)) by lia.
      destruct frs; [rewrite zlen_nil in Hp1; lia|done].
    + apply laid_more; [rewrite zlen_app in Hg; lia|]. rewrite !zlen_app in Hl. by rewrite Z.add_assoc in Hl.
    + rewrite !zlen_app, Ht, zlen_set_more. lia.
Qed.
End layout.

(** ** Lemmas: the header *)

Lemma two_ok b0 b1 : is_u8 b0 -> is_u8 b1 -> bytes_ok [b0; b1].
Proof. intros. apply bytes_ok_cons; [done|]. apply bytes_ok_cons; [done|]. apply bytes_ok_nil. Qed.

Lemma set_fc_mid v (x y : bytes) b0 b1 p : p = zlen x -> is_u8 b0 -> is_u8 b1 -> 0 <= v ->
  set_fc v (x ++ b0 :: b1 :: y) p = Done (x ++ b0 .| u8 v :: b1 .| u8 (v .>> 8) :: y).
Proof.
  intros -> H0 H1 Hv. change (b0 :: b1 :: y) with ([b0; b1] ++ y).
  rewrite (set_fc_local v x [b0; b1] y 0); [done|lia|cbn; lia|by apply two_ok|done].
Qed.
Lemma clear_fc_mid v (x y : bytes) b0 b1 p : p = zlen x -> is_u8 b0 -> is_u8 b1 ->
  clear_fc v (x ++ b0 :: b1 :: y) p = Done (x ++ Z.ldiff b0 v :: Z.ldiff b1 (v .>> 8) :: y).
Proof.
  intros -> H0 H1. change (b0 :: b1 :: y) with ([b0; b1] ++ y).
  rewrite (clear_fc_local v x [b0; b1] y 0); [done|lia|cbn; lia|by apply two_ok].
Qed.

(** A conditional update is an update with 0. *)
Lemma set_fc_if (b : bool) v (x y : bytes) b0 b1 p : p = zlen x -> is_u8 b0 -> is_u8 b1 -> 0 <= v ->
  (if b then set_fc v (x ++ b0 :: b1 :: y) p else Done (x ++ b0 :: b1 :: y)) =
  Done (x ++ b0 .| u8 (if b then v else 0) :: b1 .| u8 ((if b then v else 0) .>> 8) :: y).
Proof.
  intros Hp H0 H1 Hv. destruct b; [by apply set_fc_mid|]. rewrite Z.shiftr_0_l.
  change (u8 0) with 0. by rewrite !Z.lor_0_r.
Qed.

(** The header area in the buffer: frame control, addresses, sequence control, QoS control. *)
Definition area (f0 f1 : Z) (A : bytes) (s0 s1 q0 q1 : Z) (y : bytes) : bytes :=
  f0 :: f1 :: [0; 0] ++ A ++ s0 :: s1 :: q0 :: q1 :: replicate 38 0 ++ y.

(** Direction bits and addresses by the mode, and whether there is a QoS control field. *)
Definition link_spec (c : rx_config) (t : tx_config) (a : tx_attrib) : option (Z * bytes * bool) :=
  let e := at_eth a in
  if check_fwstate c WIFI_STATION_STATE then Some (1, mybssid c ++ ta e ++ dst e, pqos_option t)
  else if check_fwstate c WIFI_AP_STATE then Some (2, dst e ++ mybssid c ++ src e, qos_en (at_phy a))
  else if check_fwstate c WIFI_ADHOC_STATE || check_fwstate c WIFI_ADHOC_MASTER_STATE
  then Some (0, dst e ++ ta e ++ mybssid c, qos_en (at_phy a))
  else None.

Definition qos_byte (a : tx_attrib) : Z :=
  (priority (at_hdr a) .& 0xf) .| ((eosp (at_phy a) .& 1) .<< 4) .| ((ack_policy (at_hdr a) .& 3) .<< 5).
Definition fc1 (a : tx_attrib) (ds : Z) : Z :=
  ds .| (if mdata (at_phy a) =? 0 then 0 else 0x20) .| (if encrypt (at_sec a) =? 0 then 0 else 0x40).

(** The frame header with sequence number [num]. *)
Definition header (a : tx_attrib) (ds : Z) (A : bytes) (q : bool) (num : Z) : bytes :=
  subtype (at_hdr a) :: fc1 a ds :: [0; 0] ++ A ++ [u8 (num .<< 4); num .>> 4]
  ++ (if q then [qos_byte a; 0] else []).

Record addrs_ok (c : rx_config) (e : eth_attrib) : Prop := {
  ao_bssid : zlen (mybssid c) = 6 /\ bytes_ok (mybssid c); ao_dst : zlen (dst e) = 6 /\ bytes_ok (dst e);
  ao_src : zlen (src e) = 6 /\ bytes_ok (src e); ao_ta : zlen (ta e) = 6 /\ bytes_ok (ta e)
}.

Section header.
Context (c : rx_config) (t : tx_config) (a : tx_attrib) (pre y : bytes).
Hypothesis Hok : addrs_ok c (at_eth a).

Lemma link_header_run f0 f1 A s0 s1 q0 q1 ds A' q : is_u8 f0 -> is_u8 f1 -> zlen A = 18 ->
  link_spec c t a = Some (ds, A', q) ->
  link_header c t a (pre ++ area f0 f1 A s0 s1 q0 q1 y) (zlen pre) =
    Done (pre ++ area f0 (f1 .| ds) A' s0 s1 q0 q1 y, Some q) /\ zlen A' = 18 /\ bytes_ok A' /\ 0 <= ds <= 2.
Proof using Hok.
  intros H0 H1 HA. destruct Hok as [[Hb Hbo] [Hd Hdo] [Hs Hso] [Ht Hto]].
  assert (Hcopy : forall g0 g1 x1 x2 x3, zlen x1 = 6 -> zlen x2 = 6 -> zlen x3 = 6 ->
    copy_addrs x1 x2 x3 (pre ++ area g0 g1 A s0 s1 q0 q1 y) (zlen pre) = Done (pre ++ area g0 g1 (x1 ++ x2 ++ x3) s0 s1 q0 q1 y)).
  { intros g0 g1 x1 x2 x3 E1 E2 E3. unfold copy_addrs, area.
    destruct (split_at A 6) as (A1 & A23 & -> & HA1 & HA23); [lia|].
    destruct (split_at A23 6) as (A2 & A3 & -> & HA2 & HA3); [lia|]. unfold zlen in *.
    set (tl := s0 :: _). change (g0 :: g1 :: [0; 0] ++ ?l) with ([g0; g1; 0; 0] ++ l).
    rewrite <- !app_assoc. rewrite (app_assoc pre). rewrite (wrr_mid _ A1), done_bind by (unfold zlen; rewrite ?length_app; cbn [length]; lia).
    rewrite (app_assoc _ x1), (wrr_mid _ A2), done_bind by (unfold zlen; rewrite ?length_app; cbn [length]; lia).
    rewrite (app_assoc _ x2), (wrr_mid _ A3) by (unfold zlen; rewrite ?length_app; cbn [length]; lia).
    by rewrite <- !app_assoc. }
  unfold link_spec, link_header. destruct (RxEntry.check_fwstate c WIFI_STATION_STATE).
  { intros [= <- <- <-]. unfold SetToDs, area. rewrite set_fc_mid, done_bind by done.
    change (u8 (BIT 8)) with 0. change (u8 (BIT 8 .>> 8)) with 1. rewrite Z.lor_0_r.
    fold (area f0 (f1 .| 1) A s0 s1 q0 q1 y). rewrite Hcopy, done_bind by done.
    split; [done|]. rewrite !zlen_app. repeat split; [lia| |lia|lia]. repeat apply bytes_ok_app_2; done. }
  destruct (RxEntry.check_fwstate c WIFI_AP_STATE).
  { intros [= <- <- <-]. unfold SetFrDs, area. rewrite set_fc_mid, done_bind by done.
    change (u8 (BIT 9)) with 0. change (u8 (BIT 9 .>> 8)) with 2. rewrite Z.lor_0_r.
    fold (area f0 (f1 .| 2) A s0 s1 q0 q1 y). rewrite Hcopy, done_bind by done.
    split; [done|]. rewrite !zlen_app. repeat split; [lia| |lia|lia]. repeat apply bytes_ok_app_2; done. }
  destruct (_ || _); [|done]. intros [= <- <- <-]. rewrite Z.lor_0_r, Hcopy, done_bind by done.
  split; [done|]. rewrite !zlen_app. repeat split; [lia| |lia|lia]. repeat apply bytes_ok_app_2; done.
Qed.

Lemma SetFrameSubType_run type : 0 <= type -> u8 type = type -> type .>> 8 = 0 ->
  SetFrameSubType type (pre ++ replicate 64 0 ++ y) (zlen pre) = Done (pre ++ area type 0 (replicate 18 0) 0 0 0 0 y).
Proof using Type.
  intros H0 H1 H2. unfold SetFrameSubType. change (replicate 64 0) with (0 :: 0 :: replicate 62 0). cbn [app].
  rewrite clear_fc_mid, done_bind by (done || lia). rewrite !Z.ldiff_0_l.
  rewrite set_fc_mid by (done || lia). rewrite !Z.lor_0_l, H1, H2. done.
Qed.

Lemma seq_field num : 0 <= num < 4096 -> let v := 0xfff0 .& u16 (num .<< 4) in
  0 <= v /\ u8 v = u8 (num .<< 4) /\ u8 (v .>> 8) = num .>> 4.
Proof using Type.
  intros Hn v. assert (E : v = num .<< 4).
  { unfold v. rewrite u16_id by (rewrite Z.shiftl_mul_pow2; lia).
    change 0xfff0 with (0xfff .<< 4). rewrite <- Z.shiftl_land, Z.land_comm, (land_mask num 12), Z.mod_small by lia. done. }
  rewrite E. rewrite Z.shiftr_shiftl_r by lia. split; [apply Z.shiftl_nonneg; lia|]. split; [done|].
  apply u8_id. rewrite Z.shiftr_div_pow2 by lia. change (2 ^ (8 - 4)) with 16.
  split; [apply Z.div_pos; lia|apply Z.div_lt_upper_bound; lia].
Qed.

Lemma SetSeqNum_run f0 f1 A q0 q1 num : zlen A = 18 -> 0 <= num < 4096 ->
  SetSeqNum num (pre ++ area f0 f1 A 0 0 q0 q1 y) (zlen pre) = Done (pre ++ area f0 f1 A (u8 (num .<< 4)) (num .>> 4) q0 q1 y).
Proof using Type.
  intros HA Hn. unfold SetSeqNum, area. destruct (seq_field num Hn) as (Hv & E0 & E1).
  change (f0 :: f1 :: [0; 0] ++ ?l) with ([f0; f1; 0; 0] ++ l). rewrite !app_assoc.
  rewrite clear_fc_mid, done_bind by (rewrite ?zlen_app, ?HA; done || (change (zlen [f0; f1; 0; 0]) with 4; lia)).
  rewrite !Z.ldiff_0_l, set_fc_mid by (rewrite ?zlen_app, ?HA; done || (change (zlen [f0; f1; 0; 0]) with 4; lia)).
  by rewrite !Z.lor_0_l, E0, E1.
Qed.

Lemma field_low v : 0 <= v < 256 -> u8 v = v /\ u8 (v .>> 8) = 0.
Proof using Type. intros Hv. rewrite Z.shiftr_div_pow2, Z.div_small by lia. split; [by apply u8_id|done]. Qed.

Lemma qos_control_run f0 f1 A s0 s1 p : zlen A = 18 -> p = zlen pre + 24 ->
  qos_control a (pre ++ area f0 f1 A s0 s1 0 0 y) p = Done (pre ++ area f0 f1 A s0 s1 (qos_byte a) 0 y).
Proof using Type.
  intros HA ->. unfold qos_control, SetPriority, SetEOSP, SetAckpolicy, area, qos_byte.
  set (pri := priority (at_hdr a) .& 0xf). set (e := (eosp (at_phy a) .& 1) .<< 4). set (k := (ack_policy (at_hdr a) .& 3) .<< 5).
  pose proof (land_range_r 4 (priority (at_hdr a)) 0xf ltac:(lia)) as Hp. fold pri in Hp.
  assert (He : 0 <= e < 32) by (unfold e; rewrite Z.shiftl_mul_pow2 by lia; pose proof (land_range_r 1 (eosp (at_phy a)) 1 ltac:(lia)); lia).
  assert (Hk : 0 <= k < 128) by (unfold k; rewrite Z.shiftl_mul_pow2 by lia; pose proof (land_range_r 2 (ack_policy (at_hdr a)) 3 ltac:(lia)); lia).
  change (f0 :: f1 :: [0; 0] ++ ?l) with ([f0; f1; 0; 0] ++ l).
  change (s0 :: s1 :: ?l) with ([s0; s1] ++ l). rewrite !app_assoc.
  assert (Hz : zlen pre + 24 = zlen (((pre ++ [f0; f1; 0; 0]) ++ A) ++ [s0; s1])) by (rewrite !zlen_app, HA; change (zlen [f0; f1; 0; 0]) with 4; change (zlen [s0; s1]) with 2; lia).
  assert (E : (if negb (priority (at_hdr a) =? 0) then pri else 0) = pri).
  { destruct (Z.eqb_spec (priority (at_hdr a)) 0) as [E|]; [|done]. unfold pri. by rewrite E. }
  rewrite set_fc_if, done_bind by (done || lia). rewrite E.
  destruct (field_low pri) as [-> ->]; [lia|]. rewrite Z.lor_0_l, Z.lor_0_l.
  rewrite set_fc_mid, done_bind by (done || lia). destruct (field_low e) as [-> ->]; [lia|]. rewrite Z.lor_0_l.
  assert (0 <= pri .| e < 2 ^ 8) by (apply lor_range; lia).
  rewrite set_fc_mid by (done || lia). destruct (field_low k) as [-> ->]; [lia|]. by rewrite Z.lor_0_l.
Qed.

(** The next sequence number of the packet's priority. *)
Definition next_seq (n : Z) : Z := u16 (n + 1) .& 0xFFF.

Lemma make_wlanhdr_run s room o st x n en ba ds A q : zlen room = 64 ->
  subtype (at_hdr a) = WIFI_DATA_TYPE \/ subtype (at_hdr a) = WIFI_QOS_DATA_TYPE ->
  link_spec c t a = Some (ds, A, q) -> (q = true -> hdrlen (at_hdr a) = 26) ->
  psta (at_hdr a) = Some o -> rtw_get_stainfo (tx_table s) (ra (at_eth a)) = Some o ->
  stas (tx_table s) !! o = Some st -> state st .& _FW_LINKED <> 0 -> tx_stas s !! o = Some x ->
  txseq_tid x !! Z.to_nat (priority (at_hdr a)) = Some n -> check_ampdu x a (next_seq n) = Some (en, ba) ->
  rtw_make_wlanhdr c t s a (pre ++ room ++ y) (zlen pre) =
    Done (pre ++ header a ds A q (next_seq n) ++ replicate (if q then 38 else 40) 0 ++ y,
          set_ampdu_en en (set_seqnum (next_seq n) a),
          <[o := set_seqs (<[Z.to_nat (priority (at_hdr a)) := next_seq n]> (txseq_tid x)) ba x]> (tx_stas s), _SUCCESS)
  /\ zlen A = 18 /\ bytes_ok A /\ 0 <= ds <= 2.
Proof using Hok.
  intros Hroom Hst Hl Hq Hps Hg Hs Hlk Hx Hn Ha. unfold rtw_make_wlanhdr. unfold zlen in Hroom.
  rewrite wrr_mid, done_bind by (done || rewrite length_replicate; change (Z.to_nat WLANHDR_OFFSET) with 64%nat; lia).
  change (Z.to_nat WLANHDR_OFFSET) with 64%nat.
  assert (Hsub : 0 <= subtype (at_hdr a) < 256 /\ u8 (subtype (at_hdr a)) = subtype (at_hdr a) /\ subtype (at_hdr a) .>> 8 = 0 /\
    subtype (at_hdr a) .& WIFI_DATA_TYPE = 8) by (destruct Hst as [-> | ->]; done). destruct Hsub as (Hs0 & Hs1 & Hs2 & Hs3).
  rewrite SetFrameSubType_run, done_bind by (done || lia). rewrite Hs3. cbn [Z.eqb negb].
  destruct (link_header_run (subtype (at_hdr a)) 0 (replicate 18 0) 0 0 0 0 ds A q) as (-> & HA & HAo & Hds); [lia|done|done|done|].
  split; [|done]. rewrite done_bind. cbv beta iota. rewrite Z.lor_0_l. unfold SetMData, SetPrivacy, area.
  rewrite set_fc_if, done_bind by (done || lia).
  set (md := if negb (mdata (at_phy a) =? 0) then BIT 13 else 0).
  assert (Hmd : u8 md = 0 /\ u8 (md .>> 8) = if mdata (at_phy a) =? 0 then 0 else 0x20) by (unfold md; by destruct (_ =? 0)).
  destruct Hmd as [-> ->]. rewrite Z.lor_0_r.
  rewrite set_fc_if, done_bind by (try lia; try done; destruct (_ =? 0); apply (lor_range 8); lia).
  set (pv := if negb (encrypt (at_sec a) =? 0) then _PRIVACY_ else 0).
  assert (Hpv : u8 pv = 0 /\ u8 (pv .>> 8) = if encrypt (at_sec a) =? 0 then 0 else 0x40) by (unfold pv; destruct (encrypt (at_sec a) =? 0); split; reflexivity).
  destruct Hpv as [-> ->]. rewrite Z.lor_0_r. fold (fc1 a ds). fold (area (subtype (at_hdr a)) (fc1 a ds) A 0 0 0 0 y).
  assert (Hqr : (if q then qos_control a (pre ++ area (subtype (at_hdr a)) (fc1 a ds) A 0 0 0 0 y) (zlen pre + hdrlen (at_hdr a) - 2)
     else Done (pre ++ area (subtype (at_hdr a)) (fc1 a ds) A 0 0 0 0 y)) =
     Done (pre ++ area (subtype (at_hdr a)) (fc1 a ds) A 0 0 (if q then qos_byte a else 0) 0 y)).
  { destruct q; [|done]. apply qos_control_run; [done|]. rewrite Hq by done. lia. }
  rewrite Hqr, done_bind. unfold number_frame. rewrite Hps, Hg, bool_decide_true, Hs by done. cbn [negb lift mbind res_bind].
  rewrite (proj2 (Z.eqb_neq _ _) Hlk), Hx. cbn [lift mbind res_bind]. rewrite Hn. cbn [lift mbind res_bind]. fold (next_seq n).
  assert (Hns : 0 <= next_seq n < 4096) by (apply (land_range_r 12); lia).
  rewrite SetSeqNum_run, done_bind by done. rewrite Ha. cbn [lift mbind res_bind]. do 2 f_equal. f_equal. f_equal.
  unfold area, header. destruct q; cbn [app]; rewrite <- ?app_assoc; done.
Qed.
End header.

(** ** Lemmas: the frames of a packet *)

Section frames.
Context (a : tx_attrib) (base hw L : Z).
Hypothesis Hlen : lengths_ok a.

(** The frames that carry the parts of a packet: all but the last with the more-fragments
    bit, the first with the LLC header. *)
Fixpoint frames_with (first : bool) (h : bytes) (parts : list bytes) : list bytes :=
  match parts with
  | [] => []
  | [p] => [frame_of a false first h p]
  | p :: ps => frame_of a true first h p :: frames_with false h ps
  end.

Lemma frames_of_parts n : forall first h data, (length data < n)%nat -> zlen h = hdrlen (at_hdr a) ->
  (forall b, 1 <= cap a L b) ->
  let frs := frames_of a L false n first h data in
  exists parts, concat parts = data /\ frs = frames_with first h parts /\ Forall (fun fr => zlen fr <= L) frs /\
    zlen frs <= 1 + (zlen data + (if first then 8 else 0)) / cap a L false /\
    (zlen data <= cap a L first -> parts = [data]).
Proof using Hlen.
  induction n as [|n IH]; intros first h data Hn Hh Hc frs; [lia|]. unfold frs. cbn [frames_of]. cbv zeta.
  unfold read_len. cbn [orb]. pose proof (Hc first) as Hcf. pose proof (Hc false) as Hc0.
  set (part := take (Z.to_nat (cap a L first)) data).
  assert (Hpl : zlen part = Z.min (cap a L first) (zlen data)) by (unfold part, zlen in *; rewrite length_take; lia).
  assert (Hfr : forall b, zlen (frame_of a b first h part) <= L).
  { intros b. rewrite zlen_frame by done. unfold cap in *. lia. }
  destruct (Z.leb_spec (zlen data) (cap a L first)) as [Hle|Hgt].
  - assert (part = data) as Epd by (unfold part; apply take_ge; unfold zlen in *; lia).
    exists [part]. split; [|split; [done|split; [by repeat constructor|split; [|by rewrite Epd]]]].
    + cbn. by rewrite app_nil_r.
    + change (zlen [_]) with 1. pose proof (zlen_nonneg data).
      pose proof (Z.div_pos (zlen data + (if first then 8 else 0)) (cap a L false)). destruct first; lia.
  - set (rest := drop (Z.to_nat (cap a L first)) data).
    assert (Hrl : zlen rest = zlen data - cap a L first) by (unfold rest, zlen in *; rewrite length_drop; lia).
    destruct (IH false h rest) as (parts & Hcat & E & Hall & Hcount & _); [unfold zlen in *; lia|done|done|].
    exists (part :: parts). split; [cbn; rewrite Hcat; apply take_drop|].
    split; [|split; [constructor; [apply Hfr|exact Hall]|split; [|lia]]].
    + rewrite E. destruct parts; [|done]. cbn in Hcat. rewrite <- Hcat, zlen_nil in Hrl. lia.
    + rewrite zlen_cons. rewrite Z.add_0_r in Hcount.
      assert (Hq : (zlen data + (if first then 8 else 0)) / cap a L false = zlen rest / cap a L false + 1).
      { rewrite <- Z.div_add by lia. f_equal. rewrite Hrl. unfold cap. rewrite !zlen_llc. destruct first; lia. }
      rewrite Hq. lia.
Qed.
End frames.

(** ** Properties *)

Definition MAX_XMITBUF_SZ : Z := 20480.
Definition MIN_FRAG_THRESHOLD : Z := 256.
(** The longest Ethernet packet. *)
Definition ETH_FRAME_LEN : Z := 1514.

(** Everything [rtw_make_wlanhdr] needs: the link, the station of the receiver with its
    sequence counter [n], and what the A-MPDU check answers. *)
Record tx_ready (c : rx_config) (t : tx_config) (s : tx_state) (a : tx_attrib) (o : nat) (x : sta_tx)
    (n : Z) (en : bool) (ba : list Z) (ds : Z) (A : bytes) (q : bool) : Prop := {
  tr_lengths : lengths_ok a; tr_addrs : addrs_ok c (at_eth a);
  tr_subtype : subtype (at_hdr a) = if q then WIFI_QOS_DATA_TYPE else WIFI_DATA_TYPE;
  tr_link : link_spec c t a = Some (ds, A, q); tr_hdrlen : hdrlen (at_hdr a) = if q then 26 else 24;
  tr_psta : psta (at_hdr a) = Some o; tr_known : rtw_get_stainfo (tx_table s) (ra (at_eth a)) = Some o;
  tr_linked : exists st, stas (tx_table s) !! o = Some st /\ state st .& _FW_LINKED <> 0;
  tr_sta : tx_stas s !! o = Some x; tr_seq : txseq_tid x !! Z.to_nat (priority (at_hdr a)) = Some n;
  tr_ampdu : check_ampdu x a (next_seq n) = Some (en, ba);
  tr_pkt_hdrlen : pkt_hdrlen (at_hdr a) = 14
}.

Lemma zlen_header a ds A q num : zlen A = 18 -> zlen (header a ds A q num) = if q then 26 else 24.
Proof. intros HA. unfold header. rewrite !zlen_cons, !zlen_app, HA. by destruct q. Qed.

Lemma header_ok a ds A q num : subtype (at_hdr a) = WIFI_DATA_TYPE \/ subtype (at_hdr a) = WIFI_QOS_DATA_TYPE ->
  0 <= ds <= 2 -> bytes_ok A -> 0 <= num < 4096 -> bytes_ok (header a ds A q num).
Proof.
  intros Hs Hds HA Hn. unfold header. apply bytes_ok_cons; [destruct Hs as [-> | ->]; done|].
  apply bytes_ok_cons.
  { unfold fc1. apply (lor_range 8); [lia|apply (lor_range 8); [lia|lia|]|]; destruct (_ =? 0); lia. }
  apply (bytes_ok_app_2 [0; 0]); [by apply two_ok|]. apply bytes_ok_app_2; [done|]. apply bytes_ok_app_2.
  - apply two_ok; [apply u8_range|]. rewrite Z.shiftr_div_pow2 by lia.
    change (2 ^ 4) with 16. split; [apply Z.div_pos; lia|apply Z.div_lt_upper_bound; lia].
  - destruct q; [|apply bytes_ok_nil]. apply two_ok; [|done]. unfold qos_byte.
    pose proof (land_range_r 4 (priority (at_hdr a)) 0xf ltac:(lia)). pose proof (land_range_r 1 (eosp (at_phy a)) 1 ltac:(lia)).
    pose proof (land_range_r 2 (ack_policy (at_hdr a)) 3 ltac:(lia)).
    apply (lor_range 8); [lia|apply (lor_range 8); [lia|lia|]|]; rewrite Z.shiftl_mul_pow2; lia.
Qed.

Lemma link_addr_length c t s a o x n en ba ds A q : tx_ready c t s a o x n en ba ds A q -> zlen A = 18 /\ 0 <= ds <= 2.
Proof.
  intros [_ Hao _ Hlk _ _ _ _ _ _ _ _]. revert Hlk. unfold link_spec. destruct Hao as [[Hb _] [Hd _] [Hs _] [Hta _]].
  repeat case_match; intros [= <- <- _]; rewrite !zlen_app; lia.
Qed.

Section coalesce.
Context (c : rx_config) (t : tx_config) (w : bool).

(** The attributes after [rtw_make_wlanhdr]. *)
Definition numbered (en : bool) (n : Z) (a : tx_attrib) : tx_attrib := set_ampdu_en en (set_seqnum (next_seq n) a).
Definition sequenced (s : tx_state) (a : tx_attrib) (o : nat) (x : sta_tx) (n : Z) (ba : list Z) : list sta_tx :=
  <[o := set_seqs (<[Z.to_nat (priority (at_hdr a)) := next_seq n]> (txseq_tid x)) ba x]> (tx_stas s).

(** The most fragments a packet of [len] bytes is cut into, and the room they need. *)
Definition most_frags (a : tx_attrib) (len : Z) : Z := 1 + (len - 14 + 8) / cap a (frag_len t - 4) false.
Definition room_for (f : tx_frame) (len : Z) : Z :=
  hw_offset f + Z.max WLANHDR_OFFSET (most_frags (attrib f) len * (frag_len t - 4 + hw_offset f + 3)).

Lemma fragments_run s f m pkt o x n en ba ds A q : let a := attrib f in let hw := hw_offset f in
  tx_ready c t s a o x n en ba ds A q -> 14 <= zlen pkt < 2 ^ 32 -> (forall b, 1 <= cap a (frag_len t - 4) b < 2 ^ 32) ->
  room_for f (zlen pkt) <= zlen m ->
  exists m1 parts tl,
    rtw_make_wlanhdr c t s a m hw = Done (m1, numbered en n a, sequenced s a o x n ba, _SUCCESS) /\
    concat parts = drop 14 pkt /\
    let frs := frames_with a true (header a ds A q (next_seq n)) parts in
    coalesce_loop (coalesce_fuel pkt) (numbered en n a) (buf_base f) hw (frag_len t - 4) false 0 hw m1 (pf_at pkt 14) =
      Done (take (Z.to_nat hw) m ++ tl, mk_fraga (u8 (zlen frs)) (u32 (zlen (List.last frs []))) (vcs_mode (at_frag a))) /\
    laid (buf_base f) hw hw frs tl /\ zlen tl = zlen m - hw /\
    Forall (fun fr => zlen fr <= frag_len t - 4) frs /\
    (zlen pkt - 14 <= cap a (frag_len t - 4) true -> parts = [drop 14 pkt]).
Proof using Type.
  intros a hw [Hlen Hao Hst0 Hlk Hhl Hps Hkn (st & Hs & Hld) Hx Hn Hba Hph] Hpkt Hcap Hroom.
  assert (Hst : subtype (at_hdr a) = WIFI_DATA_TYPE \/ subtype (at_hdr a) = WIFI_QOS_DATA_TYPE) by (rewrite Hst0; destruct q; tauto).
  assert (Hhw : 0 <= hw) by apply u8_range. unfold room_for, WLANHDR_OFFSET in Hroom. fold hw a in Hroom.
  set (L := frag_len t - 4) in *.
  destruct (split_at m hw) as (pre & r & -> & Hpre & Hr); [lia|].
  destruct (split_at r 64) as (room & y & -> & Hrm & Hy); [lia|].
  destruct (make_wlanhdr_run c t a pre y Hao s room o st x n en ba ds A q) as (E & HA & HAo & Hds); try done.
  { intros ->. done. }
  set (h := header a ds A q (next_seq n)) in *.
  assert (Hh : zlen h = hdrlen (at_hdr a)) by (rewrite Hhl; by apply zlen_header).
  assert (Hb : bytes_ok h) by (apply header_ok; try done; apply (land_range_r 12); lia).
  rewrite Hpre in E. destruct (frames_of_parts a L Hlen (coalesce_fuel pkt) true h (drop 14 pkt)) as (parts & Hcat & Efr & Hall & Hcnt & Hone).
  { unfold coalesce_fuel. rewrite length_drop. lia. } { done. } { intros b. apply Hcap. }
  set (z := replicate (if q then 38 else 40) 0 ++ y) in *.
  assert (Hz : zlen z = 64 - zlen h + zlen y) by (unfold z; rewrite Hh, Hhl, zlen_app; destruct q; unfold zlen; cbn [length replicate]; lia).
  assert (Hd14 : zlen (drop 14 pkt) = zlen pkt - 14) by (unfold zlen in *; rewrite length_drop; lia).
  assert (Hlen' : lengths_ok (numbered en n a)) by (destruct Hlen; by constructor).
  destruct (coalesce_run (numbered en n a) (buf_base f) hw L false pkt Hlen' L) with (n := coalesce_fuel pkt) (first := true)
    (frg_inx := 0) (pre := pre) (h := h) (room := z) (k := 14) as (tl & Ec & Hl & Ht); try done.
  { intros b. unfold read_len, cap. lia. } { intros b. change (read_len (numbered en n a) L false b) with (cap a L b).
    specialize (Hcap b). split; [lia|intros _; lia]. }
  { lia. } { lia. } { rewrite <- (app_nil_r (set_more true h)) at 1. apply rd_mid; [done|]. by rewrite zlen_set_more. }
  { unfold coalesce_fuel. rewrite length_drop. lia. }
  { change (frames_of (numbered en n a) L) with (frames_of a L). change (Z.to_nat 14) with 14%nat. rewrite Efr, Hd14 in *.
    unfold most_frags in Hroom. fold L in Hroom. set (mf := 1 + _ / _) in *. rewrite !zlen_app in Hroom.
    assert (HL : 0 <= L + hw + 3).
    { specialize (Hcap false). unfold cap in Hcap. destruct Hlen. pose proof (zlen_nonneg (icv_room a)).
      pose proof (zlen_nonneg (llc a false)). lia. }
    pose proof (Z.mul_le_mono_nonneg_r _ _ _ HL Hcnt). lia. }
  change (frames_of (numbered en n a) L) with (frames_of a L) in *. change (Z.to_nat 14) with 14%nat in *.
  rewrite Efr, Hpre in Ec, Hl. rewrite Efr in Hall.
  exists (pre ++ h ++ z), parts, tl. split; [exact E|]. split; [exact Hcat|].
  replace (take (Z.to_nat hw) (pre ++ room ++ y)) with pre by (rewrite take_app_length'; [done|unfold zlen in Hpre; lia]).
  split; [exact Ec|]. split; [done|]. split; [rewrite Ht, !zlen_app; lia|].
  split; [done|]. by rewrite <- Hd14.
Qed.

(** The buffer has room for the fragments: by the formula, or because it is one of the
    driver's buffers, the packet is not longer than an Ethernet packet and the
    fragmentation threshold is in its range. *)
Definition buffer_fits (f : tx_frame) (m pkt : bytes) : Prop :=
  room_for f (zlen pkt) <= zlen m \/
  (zlen m = MAX_XMITBUF_SZ /\ zlen pkt <= ETH_FRAME_LEN /\ MIN_FRAG_THRESHOLD <= frag_len t <= MAX_FRAG_THRESHOLD /\
   iv_len (at_sec (attrib f)) <= 18 /\ icv_len (at_sec (attrib f)) <= 16).

Lemma buffer_room s f m pkt o x n en ba ds A q : tx_ready c t s (attrib f) o x n en ba ds A q -> 14 <= zlen pkt ->
  buffer_fits f m pkt -> room_for f (zlen pkt) <= zlen m.
Proof using Type.
  intros [Hlen _ _ _ Hhl _ _ _ _ _ _ _] H14 [Hr|(-> & Hp & Hf & Hiv & Hicv)]; [done|].
  unfold room_for, most_frags, MAX_XMITBUF_SZ, ETH_FRAME_LEN, MIN_FRAG_THRESHOLD, MAX_FRAG_THRESHOLD, WLANHDR_OFFSET in *.
  assert (Hhw : 0 <= hw_offset f < 256) by apply u8_range.
  assert (Hc : frag_len t - 4 - 60 <= cap (attrib f) (frag_len t - 4) false).
  { unfold cap. rewrite zlen_llc. assert (zlen (icv_room (attrib f)) <= 16).
    { rewrite zlen_icv_room by done. destruct (sw_icv _); lia. }
    rewrite Hhl. destruct q; lia. }
  set (k := cap _ _ false) in *. set (d := (zlen pkt - 14 + 8) / k).
  assert (Hd : 0 <= d /\ d * k <= 1508).
  { unfold d. split; [apply Z.div_pos; lia|]. pose proof (Z.mul_div_le (zlen pkt - 14 + 8) k ltac:(lia)). lia. }
  assert (Hm : (1 + d) * (frag_len t - 4 + hw_offset f + 3) <= 3 * 1508 + 2601) by nia. lia.
Qed.

(** A unicast packet that the driver neither encrypts itself nor protects with a TKIP MIC,
    for a receiver that is a linked station of the table; and a buffer with room for its
    fragments. *)
Record hw_send (s : tx_state) (f : tx_frame) (m pkt : bytes) (o : nat) (x : sta_tx) (n : Z) (en : bool) (ba : list Z)
    (ds : Z) (A : bytes) (q : bool) : Prop := {
  hs_buf : buf_addr f = Some m; hs_unicast : IS_MCAST (ra (at_eth (attrib f))) = false;
  hs_cipher : encrypt (at_sec (attrib f)) <> _TKIP_ /\ bswenc (at_sec (attrib f)) = false;
  hs_ready : tx_ready c t s (attrib f) o x n en ba ds A q;
  hs_len : 14 <= zlen pkt < 2 ^ 32; hs_cap : forall b, 1 <= cap (attrib f) (frag_len t - 4) b < 2 ^ 32;
  hs_room : buffer_fits f m pkt
}.

Lemma coalesce_fragments_run s f m pkt o x n en ba ds A q : let a := attrib f in let hw := hw_offset f in
  hw_send s f m pkt o x n en ba ds A q ->
  exists f' s' parts tl,
    rtw_xmitframe_coalesce c t w s pkt f = Done (f', s', _SUCCESS) /\ concat parts = drop 14 pkt /\
    let frs := frames_with a true (header a ds A q (next_seq n)) parts in
    buf_addr f' = Some (take (Z.to_nat hw) m ++ tl) /\ laid (buf_base f) hw hw frs tl /\ zlen tl = zlen m - hw /\
    Forall (fun fr => zlen fr <= frag_len t - 4) frs /\
    nr_frags (at_frag (attrib f')) = u8 (zlen frs) /\ last_txcmdsz (at_frag (attrib f')) = u32 (zlen (List.last frs [])) /\
    s' = mk_txs (tx_table s) (sequenced s a o x n ba) (tx_sec s) (tx_crc s).
Proof using Type.
  intros a hw [Hbuf Hmc [Henc Hsw] Hr Hpkt Hcap Hroom]. apply (buffer_room _ _ _ _ _ _ _ _ _ _ _ _ Hr (proj1 Hpkt)) in Hroom.
  fold a in Hmc, Henc, Hsw, Hr, Hcap.
  destruct (fragments_run s f m pkt o x n en ba ds A q Hr Hpkt Hcap Hroom)
    as (m1 & parts & tl & E1 & Hcat & E2 & Hl & Ht & Hall & _). fold a hw in E1, E2.
  unfold rtw_xmitframe_coalesce. rewrite Hbuf. fold a hw. rewrite E1, done_bind. cbv beta iota zeta.
  change (_SUCCESS =? _FAIL) with false. cbv iota. rewrite Hmc. change (pkt_hdrlen (at_hdr (numbered en n a))) with (pkt_hdrlen (at_hdr a)).
  rewrite (tr_pkt_hdrlen _ _ _ _ _ _ _ _ _ _ _ _ Hr). change (_rtw_open_pktfile pkt) with (mk_pf pkt 0 0 (zlen pkt) (zlen pkt)).
  replace (mk_pf pkt 0 0 (zlen pkt) (zlen pkt)) with (pf_at pkt 0) by (unfold pf_at; by rewrite Z.sub_0_r).
  rewrite pktfile_read by lia. assert (H14 : zlen (take (Z.to_nat 14) (drop (Z.to_nat 0) pkt)) = 14).
  { unfold zlen in *. rewrite length_take, length_drop. lia. }
  rewrite H14. change (0 + 14) with 14. rewrite E2, done_bind. cbv beta iota.
  unfold xmitframe_addmic. cbn [at_sec set_frag numbered set_ampdu_en set_seqnum].
  rewrite (proj2 (Z.eqb_neq _ _) Henc), done_bind. cbv beta iota. change (_SUCCESS =? _FAIL) with false. cbv iota.
  unfold xmitframe_swencrypt. cbn [at_sec set_frag numbered set_ampdu_en set_seqnum]. rewrite Hsw.
  cbn [lift mbind res_bind]. eexists _, _, parts, tl. split; [done|]. split; [done|]. done.
Qed.

(** C10: The transmit buffer after [rtw_xmitframe_coalesce] of a unicast packet of any
    length that the driver leaves to the hardware to encrypt, by a cipher other than TKIP, or
    sends in clear ([hw_send]: the receiver is the packet's station, in the table and linked;
    a fragment has room for at least a byte of the packet).  When the buffer has room for the
    fragments, which the function itself does not check (a buffer of the driver's own size
    has, for a packet of at most 1514 bytes and a threshold of 256 to 2346), the loop ends,
    all accesses are within the buffer, and it holds fragments at most [frag_len - 4] bytes
    long whose parts, concatenated, are the payload of the packet; each consists of the one
    header with its more-fragments bit, the vector, the LLC header in the first, and the
    part; each starts [hw_hdr_offset] bytes behind the next multiple of four.  The count and
    the size of the last are recorded, and only the sender's sequence numbers have changed. *)
Theorem coalesce_fragments s f m pkt o x n en ba ds A q : let a := attrib f in let hw := hw_offset f in
  hw_send s f m pkt o x n en ba ds A q ->
  exists f' s' parts tl,
    rtw_xmitframe_coalesce c t w s pkt f = Done (f', s', _SUCCESS) /\ concat parts = drop 14 pkt /\
    let frs := frames_with a true (header a ds A q (next_seq n)) parts in
    buf_addr f' = Some (take (Z.to_nat hw) m ++ tl) /\ laid (buf_base f) hw hw frs tl /\ zlen tl = zlen m - hw /\
    Forall (fun fr => zlen fr <= frag_len t - 4) frs /\
    nr_frags (at_frag (attrib f')) = u8 (zlen frs) /\ last_txcmdsz (at_frag (attrib f')) = u32 (zlen (List.last frs [])) /\
    s' = mk_txs (tx_table s) (sequenced s a o x n ba) (tx_sec s) (tx_crc s).
Proof using Type. apply coalesce_fragments_run. Qed.

End coalesce.

Lemma elem_frames a first h parts fr : fr ∈ frames_with a first h parts ->
  exists more fst data, fr = frame_of a more fst h data.
Proof.
  revert first. induction parts as [|p ps IH]; intros first Hin; [by apply not_elem_of_nil in Hin|].
  cbn [frames_with] in Hin. destruct ps as [|p' ps].
  - apply elem_of_cons in Hin as [->|Hin]; [|by apply not_elem_of_nil in Hin]. by eexists false, first, p.
  - apply elem_of_cons in Hin as [->|Hin]; [by eexists true, first, p|]. by eapply IH.
Qed.

Lemma ld0_header a ds A q num k : zlen A = 18 -> (k = 0 \/ k = 1) ->
  ld0 (header a ds A q num) (22 + k) = if k =? 0 then u8 (num .<< 4) else num .>> 4.
Proof.
  intros HA Hk. unfold header. change (?x :: ?y :: [0; 0] ++ ?l) with ([x; y; 0; 0] ++ l).
  rewrite (ld0_app_r _ _ _ (18 + k)) by (unfold zlen; cbn [length]; lia).
  rewrite (ld0_app_r A _ _ k) by lia. by destruct Hk as [-> | ->].
Qed.

Lemma seq_ctrl_header a ds A q num : zlen A = 18 -> 0 <= num < 4096 -> le16_at (header a ds A q num) 22 = 16 * num.
Proof.
  intros HA Hn. unfold le16_at. pose proof (ld0_header a ds A q num 0 HA ltac:(lia)) as H0.
  pose proof (ld0_header a ds A q num 1 HA ltac:(lia)) as H1. change (22 + 0) with 22 in H0.
  change (0 =? 0) with true in H0. change (1 =? 0) with false in H1. cbv iota in H0, H1.
  rewrite H0, H1. rewrite lor_shiftl_add by (try apply u8_range; lia). unfold u8. rewrite Z.shiftl_mul_pow2, Z.shiftr_div_pow2 by lia.
  change (2 ^ 4) with 16. change (2 ^ 8) with 256. Z.to_euclidean_division_equations. lia.
Qed.

(** Every fragment carries the numbers of the one header and the one vector. *)
Lemma frame_numbers a ds A (q : bool) num parts fr : zlen A = 18 -> 0 <= num < 4096 -> lengths_ok a ->
  hdrlen (at_hdr a) = (if q then 26 else 24) -> fr ∈ frames_with a true (header a ds A q num) parts ->
  GetFragNum fr = 0 /\ GetSequence fr = num /\
  rd fr (hdrlen (at_hdr a)) (iv_len (at_sec a)) = Some (take (Z.to_nat (iv_len (at_sec a))) (iv (at_sec a))).
Proof.
  intros HA Hn Hl Hhl Hin. destruct (elem_frames _ _ _ _ _ Hin) as (more & fst & data & ->).
  pose proof (zlen_header a ds A q num HA) as Hh. set (h := header a ds A q num) in *.
  assert (Hc : le16_at (frame_of a more fst h data) 22 = 16 * num).
  { rewrite <- (seq_ctrl_header a ds A q num HA Hn). fold h. unfold le16_at, frame_of.
    rewrite !ld0_app_l by (rewrite zlen_set_more, Hh; destruct q; lia). by destruct h as [|? [|? ?]]. }
  unfold GetFragNum, GetSequence. rewrite Hc, (land_mask _ 4), Z.shiftr_div_pow2 by lia. change (2 ^ 4) with 16.
  split; [Z.to_euclidean_division_equations; lia|]. split; [Z.to_euclidean_division_equations; lia|].
  unfold frame_of. apply rd_mid; [by rewrite zlen_set_more, Hh|]. exact (eq_sym (zlen_iv_bytes a Hl)).
Qed.

Section share.
Context (c : rx_config) (t : tx_config) (w : bool).

(** A packet that does not fit is cut. *)
Lemma two_frames a L first h parts data : lengths_ok a -> concat parts = data -> zlen h = hdrlen (at_hdr a) ->
  Forall (fun fr => zlen fr <= L) (frames_with a first h parts) -> cap a L first < zlen data -> 1 <= cap a L first ->
  2 <= zlen (frames_with a first h parts).
Proof using Type.
  intros Hl Hc Hh Hall Hd H1. destruct parts as [|p [|p' ps]]; cbn [frames_with] in *.
  - cbn in Hc. subst data. rewrite zlen_nil in Hd. lia.
  - cbn in Hc. rewrite app_nil_r in Hc. subst p. apply list.Forall_cons in Hall as [Hz _]. rewrite zlen_frame in Hz by done.
    unfold cap in Hd. lia.
  - rewrite zlen_cons. assert (Hp : forall l : list bytes, 1 <= zlen (frames_with a false h (p' :: l))).
    { intros l. cbn [frames_with]. destruct l; rewrite zlen_cons;
        [pose proof (zlen_nonneg (@nil bytes)); lia|pose proof (zlen_nonneg (frames_with a false h (l :: l0))); lia]. }
    specialize (Hp ps). cbn [frames_with] in Hp. lia.
Qed.

(** Fragments cannot be told apart.  A packet that does not fit one fragment is sent as
    at least two frames that all have fragment number 0, the same sequence number and the
    same packet number: the header is copied for every fragment and nothing counts up.  The
    receiver of RxFrame reassembles only fragments numbered from 0 in order, and CCMP uses
    one nonce for all of them. *)
Theorem fragments_share_numbers s f m pkt o x n en ba ds A q : let a := attrib f in let hw := hw_offset f in
  hw_send c t s f m pkt o x n en ba ds A q -> cap a (frag_len t - 4) true < zlen pkt - 14 ->
  exists f' s' frs tl,
    rtw_xmitframe_coalesce c t w s pkt f = Done (f', s', _SUCCESS) /\ buf_addr f' = Some (take (Z.to_nat hw) m ++ tl) /\
    laid (buf_base f) hw hw frs tl /\ 2 <= zlen frs /\
    Forall (fun fr => GetFragNum fr = 0 /\ GetSequence fr = next_seq n /\
      rd fr (hdrlen (at_hdr a)) (iv_len (at_sec a)) = Some (take (Z.to_nat (iv_len (at_sec a))) (iv (at_sec a)))) frs.
Proof using Type.
  intros a hw Hs Hbig. destruct (coalesce_fragments_run c t w s f m pkt o x n en ba ds A q Hs)
    as (f' & s' & parts & tl & E & Hcat & Hb & Hl & _ & Hall & _). fold a hw in Hb, Hl, Hall.
  destruct (Hs) as [_ _ _ Hr Hpl Hcap _]. fold a in Hr, Hcap.
  destruct (link_addr_length _ _ _ _ _ _ _ _ _ _ _ _ Hr) as [HA Hds].
  pose proof (tr_hdrlen _ _ _ _ _ _ _ _ _ _ _ _ Hr) as Hhl. pose proof (tr_lengths _ _ _ _ _ _ _ _ _ _ _ _ Hr) as Hlo.
  eexists f', s', _, tl. split; [exact E|]. split; [exact Hb|]. split; [exact Hl|]. split.
  - apply (two_frames _ (frag_len t - 4) _ _ _ (drop 14 pkt)); try done; [by rewrite zlen_header, Hhl| |apply Hcap].
    unfold zlen in *. rewrite length_drop. lia.
  - apply list.Forall_forall. intros fr Hin. eapply frame_numbers; try done. apply (land_range_r 12). lia.
Qed.
End share.

(** ** Lemmas: one fragment under CCMP in software *)

Lemma set_more_header a ds A q num : 0 <= ds <= 2 -> set_more false (header a ds A q num) = header a ds A q num.
Proof.
  intros Hds. unfold header, set_more. f_equal. f_equal. unfold fc1.
  assert (E : ds = 0 \/ ds = 1 \/ ds = 2) by lia. destruct E as [-> | [-> | ->]]; by destruct (_ =? 0), (_ =? 0).
Qed.

Lemma ccmp_header_class a ds A (q : bool) num v : zlen A = 18 -> zlen v = 8 -> 0 <= ds <= 2 -> encrypt (at_sec a) <> 0 ->
  subtype (at_hdr a) = (if q then WIFI_QOS_DATA_TYPE else WIFI_DATA_TYPE) ->
  let h := header a ds A q num ++ v in let hl := if q then 26 else 24 in
  ccmp_hdr hl h /\ cl_hdrlen (ccmp_classify (hdr_fc h) hl) = hl.
Proof.
  intros HA Hv Hds He Hs h hl. assert (Hl : zlen h = hl + 8) by (unfold h; rewrite zlen_app, zlen_header; done || lia).
  assert (Hfc : hdr_fc h = subtype (at_hdr a) .| (fc1 a ds .<< 8)) by done.
  assert (Hcl : ccmp_classify (hdr_fc h) hl = mk_class 8 q false hl).
  { rewrite Hfc, Hs. unfold fc1. rewrite (proj2 (Z.eqb_neq _ _) He).
    assert (E : ds = 0 \/ ds = 1 \/ ds = 2) by lia.
    destruct E as [-> | [-> | ->]]; unfold hl; by destruct q, (mdata (at_phy a) =? 0). }
  unfold ccmp_hdr. rewrite Hcl. split; [|done]. constructor; [exact Hcl| |by rewrite Hl]. unfold class_ok. cbn. unfold hl. by destruct q.
Qed.

Section sw_ccmp.
Context (c : rx_config) (t : tx_config) (w : bool).

(** The attributes select software CCMP for a unicast packet that fits one fragment. *)
Record ccmp_ready (f : tx_frame) (pkt : bytes) : Prop := {
  cr_unicast : IS_MCAST (ra (at_eth (attrib f))) = false;
  cr_cipher : encrypt (at_sec (attrib f)) = _AES_ /\ iv_len (at_sec (attrib f)) = 8 /\
    icv_len (at_sec (attrib f)) = 8 /\ bswenc (at_sec (attrib f)) = true;
  cr_bytes : bytes_ok pkt; cr_len : 14 <= zlen pkt < 2 ^ 31;
  cr_fits : zlen pkt - 14 <= cap (attrib f) (frag_len t - 4) true;
  cr_cap : forall b, 1 <= cap (attrib f) (frag_len t - 4) b < 2 ^ 32
}.

(** The frame: MAC header and CCMP header, then the sealed LLC header and payload. *)
Definition ccmp_hd (a : tx_attrib) (ds : Z) (A : bytes) (q : bool) (n : Z) : bytes :=
  header a ds A q (next_seq n) ++ iv_bytes a.
Definition ccmp_body (a : tx_attrib) (pkt : bytes) : bytes := llc a true ++ drop 14 pkt.

Lemma llc_ok a first : bytes_ok (llc a first).
Proof.
  unfold llc. destruct first; [|apply bytes_ok_nil]. apply bytes_ok_app_2; [by apply bytes_ok_spec|].
  apply bytes_ok_app_2; [|apply be_bytes_ok]. destruct (_ || _); by apply bytes_ok_spec.
Qed.

(** [rtw_aes_encrypt] on a buffer with one fragment. *)
Lemma encrypt_one sec a po base pre hd body x post : encrypt (at_sec a) = _AES_ -> icv_len (at_sec a) = 8 ->
  IS_MCAST (ra (at_eth a)) = false -> nr_frags (at_frag a) = 1 ->
  zlen pre = u8 (TXDESC_SIZE + po * PACKET_OFFSET_SZ) -> zlen hd = hdrlen (at_hdr a) + iv_len (at_sec a) ->
  0 <= hdrlen (at_hdr a) -> ccmp_hdr (hdrlen (at_hdr a)) hd -> zlen x = 8 -> zlen body < 2 ^ 31 -> bytes_ok body ->
  last_txcmdsz (at_frag a) = zlen hd + zlen body + 8 ->
  rtw_aes_encrypt w sec (cipher_attrib t a po base) (pre ++ (hd ++ body ++ x) ++ post) =
  Some (pre ++ (hd ++ ccmp_seal w (UncstKey (at_sec a)) (hdrlen (at_hdr a)) hd body) ++ post,
        AES_SW_ENC_CNT_INC sec (ra (at_eth a)), _SUCCESS).
Proof using Type.
  intros Henc Hicv Hmc Hnr Hpre Hhd H0 Hcc Hx Hb31 Hbo Hsz. set (pa := cipher_attrib t a po base).
  destruct (encrypt_frags_spec (ccmp_hdr (hdrlen (at_hdr a))) pa eq (aes_frag w (UncstKey (at_sec a)) pa)
    (ccmp_seal w (UncstKey (at_sec a)) (hdrlen (at_hdr a))) [mk_frag hd body x []] pre post
    (pre ++ layout [mk_frag hd body x []] ++ post)) as (m' & E & Em); try done.
  - by apply (aes_body w (UncstKey (at_sec a)) pa).
  - intros h p. rewrite ccmp_seal_length. change (pa_icv_len pa) with (icv_len (at_sec a)). lia.
  - cbn [frags_ok f_hdr f_payload f_icv f_pad]. unfold frag_length.
    change (pa_nr_frags pa) with (nr_frags (at_frag a)). change (pa_last_txcmdsz pa) with (last_txcmdsz (at_frag a)).
    change (pa_hdrlen pa) with (hdrlen (at_hdr a)). change (pa_iv_len pa) with (iv_len (at_sec a)).
    change (pa_icv_len pa) with (icv_len (at_sec a)). rewrite Hnr, Hsz. change (0 + 1 =? 1) with true. cbv iota.
    split; [done|]. split; [lia|]. split; [lia|]. do 3 (split; [done|]). by split.
  - subst m'. unfold rtw_aes_encrypt. change (pa_encrypt pa) with (encrypt (at_sec a)). rewrite Henc, Z.eqb_refl.
    unfold tx_key. change (pa_ra pa) with (ra (at_eth a)). rewrite Hmc. cbn [mbind option_bind].
    change (pa_UncstKey pa) with (UncstKey (at_sec a)).
    unfold layout in E. cbn [map concat f_hdr f_payload f_icv f_pad] in E. rewrite !app_nil_r in E. rewrite E.
    cbn [mbind option_bind]. unfold sealed. cbn [map concat f_hdr f_payload f_icv f_pad]. by rewrite !app_nil_r.
Qed.

Lemma laid_one base hw p fr tl : laid base hw p [fr] tl -> exists post, tl = fr ++ post.
Proof using Type.
  intros Hl. inversion Hl as [? ? post|? ? ? ? ? ? Hn]; subst; [by exists post|]. inversion Hn.
Qed.

(** What is sent: one frame, of the length [rtw_calculate_wlan_pkt_size_by_attribue] gives. *)
Lemma coalesce_ccmp_run s f m pkt o x n en ba ds A q : let a := attrib f in let hw := hw_offset f in
  buf_addr f = Some m -> tx_ready c t s a o x n en ba ds A q -> ccmp_ready f pkt -> pktlen (at_eth a) = zlen pkt - 14 ->
  room_for t f (zlen pkt) <= zlen m ->
  let hd := ccmp_hd a ds A q n in
  let fr := hd ++ ccmp_seal w (UncstKey (at_sec a)) (hdrlen (at_hdr a)) hd (ccmp_body a pkt) in
  exists f' post, rtw_xmitframe_coalesce c t w s pkt f =
      Done (f', mk_txs (tx_table s) (sequenced s a o x n ba) (AES_SW_ENC_CNT_INC (tx_sec s) (ra (at_eth a))) (tx_crc s), _SUCCESS) /\
    buf_addr f' = Some (take (Z.to_nat hw) m ++ fr ++ post) /\
    nr_frags (at_frag (attrib f')) = 1 /\ last_txcmdsz (at_frag (attrib f')) = zlen fr /\
    zlen fr = rtw_calculate_wlan_pkt_size_by_attribue a.
Proof using Type.
  intros a hw Hbuf Hr [Hmc (Henc & Hiv & Hicv & Hsw) Hbo Hpkt Hfit Hcap] Hpl Hroom hd fr. fold a in Hmc, Henc, Hiv, Hicv, Hsw, Hfit, Hcap.
  destruct (fragments_run c t s f m pkt o x n en ba ds A q Hr ltac:(lia) Hcap Hroom)
    as (m1 & parts & tl & E1 & _ & E2 & Hl & Ht & _ & Hone). fold a hw in E1, E2, Hone. rewrite (Hone Hfit) in *. clear Hone Hfit.
  cbn [frames_with List.last] in *. set (fr0 := frame_of a false true (header a ds A q (next_seq n)) (drop 14 pkt)) in *.
  change (u8 (zlen [fr0])) with 1 in *. destruct (laid_one _ _ _ _ _ Hl) as [post ->]. clear Hl.
  destruct (Hr) as [Hlen _ Hst Hlk Hhl _ _ _ _ _ _ Hph].
  destruct (link_addr_length _ _ _ _ _ _ _ _ _ _ _ _ Hr) as [HA Hds].
  assert (Hivb : zlen (iv_bytes a) = 8) by (rewrite zlen_iv_bytes; done).
  assert (Hhd : zlen hd = hdrlen (at_hdr a) + iv_len (at_sec a)).
  { unfold hd, ccmp_hd. rewrite zlen_app, zlen_header, Hivb, Hhl, Hiv by done. by destruct q. }
  assert (Hd14 : zlen (drop 14 pkt) = zlen pkt - 14) by (unfold zlen in *; rewrite length_drop; lia).
  assert (Hbl : zlen (ccmp_body a pkt) = 8 + (zlen pkt - 14)) by (unfold ccmp_body; by rewrite zlen_app, zlen_llc, Hd14).
  assert (Hicr : zlen (icv_room a) = 8).
  { rewrite zlen_icv_room by done. unfold sw_icv. by rewrite Hicv, Hsw. }
  assert (Hfr0 : fr0 = hd ++ ccmp_body a pkt ++ icv_room a).
  { unfold fr0, frame_of, hd, ccmp_hd, ccmp_body. rewrite set_more_header by done. by rewrite <- !app_assoc. }
  assert (Hsz : zlen fr0 = zlen hd + zlen (ccmp_body a pkt) + 8) by (rewrite Hfr0, !zlen_app; lia).
  assert (Hfrl : zlen fr = zlen fr0) by (unfold fr; rewrite zlen_app, ccmp_seal_length; lia).
  assert (H31 : zlen fr0 < 2 ^ 32) by (rewrite Hsz, Hhd, Hbl, Hhl; destruct q; lia).
  unfold rtw_xmitframe_coalesce. rewrite Hbuf. fold a hw. rewrite E1, done_bind. cbv beta iota zeta.
  change (_SUCCESS =? _FAIL) with false. cbv iota. rewrite Hmc. change (pkt_hdrlen (at_hdr (numbered en n a))) with (pkt_hdrlen (at_hdr a)).
  rewrite Hph. change (_rtw_open_pktfile pkt) with (mk_pf pkt 0 0 (zlen pkt) (zlen pkt)).
  replace (mk_pf pkt 0 0 (zlen pkt) (zlen pkt)) with (pf_at pkt 0) by (unfold pf_at; by rewrite Z.sub_0_r).
  rewrite pktfile_read by lia. assert (H14 : zlen (take (Z.to_nat 14) (drop (Z.to_nat 0) pkt)) = 14).
  { unfold zlen in *. rewrite length_take, length_drop. lia. }
  rewrite H14. change (0 + 14) with 14. rewrite E2, done_bind. cbv beta iota.
  unfold xmitframe_addmic. cbn [at_sec set_frag numbered set_ampdu_en set_seqnum]. rewrite Henc.
  change (_AES_ =? _TKIP_) with false. cbv iota. rewrite done_bind. cbv beta iota. change (_SUCCESS =? _FAIL) with false. cbv iota.
  unfold xmitframe_swencrypt. cbn [at_sec set_frag numbered set_ampdu_en set_seqnum]. rewrite Hsw, Henc.
  change ((_AES_ =? _WEP40_) || (_AES_ =? _WEP104_)) with false. change (_AES_ =? _TKIP_) with false. change (_AES_ =? _AES_) with true. cbv iota.
  rewrite u32_id by (pose proof (zlen_nonneg fr0); lia). cbn [tx_sec tx_stas tx_table tx_crc].
  change (frame_of (attrib f) false true (header (attrib f) ds A q (next_seq n)) (drop 14 pkt)) with fr0. rewrite Hfr0.
  set (a2 := set_frag (mk_fraga 1 _ _) _). rewrite (encrypt_one (tx_sec s) a2 (pkt_offset f) (buf_base f)); try done.
  - cbn [mbind option_bind lift res_bind]. eexists _, post. split; [done|]. split; [done|]. split; [done|]. cbn [attrib set_attrib set_buf].
    split; [change (zlen (hd ++ ccmp_body a pkt ++ icv_room a) = zlen fr); by rewrite <- Hfr0, Hfrl|]. rewrite Hfrl. unfold rtw_calculate_wlan_pkt_size_by_attribue.
    cbv zeta. rewrite Henc, Hsw, Hicv, Hpl, Hiv. change (_AES_ =? _TKIP_) with false. cbv iota. unfold SNAP_SIZE.
    rewrite u32_id by (rewrite Hhl; destruct q; lia). rewrite Hsz, Hhd, Hbl, Hiv. lia.
  - unfold zlen. rewrite length_take. unfold room_for in Hroom. fold hw in Hroom.
    assert (0 <= hw) by apply u8_range. unfold zlen, WLANHDR_OFFSET in *. change (TXDESC_SIZE + _) with (TXDESC_SIZE + pkt_offset f * PACKET_OFFSET_SZ).
    fold (hw_offset f). fold hw. lia.
  - change (0 <= hdrlen (at_hdr a)). rewrite Hhl. by destruct q.
  - change (ccmp_hdr (hdrlen (at_hdr a)) hd). rewrite Hhl. unfold hd, ccmp_hd. apply ccmp_header_class; try done. by rewrite Henc.
  - rewrite Hbl. lia.
  - unfold ccmp_body. apply bytes_ok_app_2; [apply llc_ok|by apply bytes_ok_drop].
  - change (zlen (hd ++ ccmp_body a pkt ++ icv_room a) = zlen hd + zlen (ccmp_body a pkt) + 8). rewrite !zlen_app. lia.
Qed.
End sw_ccmp.

(** ** Witnesses *)

(** The station of TxAttrib with hardware encryption and a low threshold, and a packet of
    614 bytes. *)
Definition ex_hw_sec : security_priv :=
  mk_sec 0 (replicate 4 (zseq 1 16)) [16; 16; 16; 16] 1 (replicate 4 (zseq 1 16)) true true false true
    ex_cnt ex_cnt ex_cnt ex_cnt ex_cnt ex_cnt.
Definition ex_hw_txc : tx_config :=
  mk_txc true 0 false 0 0xff 0 256 (replicate 4 (replicate 16 0)) 8 false 2347 0 0 0 0 false.
Definition ex_long : bytes := ex_dst ++ ex_peer ++ be_bytes 2 0x0800 ++ replicate 600 7.
Definition ex_hw_attrib : tx_attrib :=
  match update_attrib ex_sta_cfg ex_hw_txc ex_hw_sec [] [] [] ex_link_table (ex_stxs 5) ex_long init_attrib with
  | Some (a, _, _, _) => a
  | None => init_attrib
  end.
Definition ex_hw_frame : tx_frame := mk_txf ex_hw_attrib (Some (replicate 4096 0)) 0 1.
Definition ex_hw_state : tx_state := mk_txs ex_link_table (ex_stxs 6) ex_hw_sec crc32_globals0.

Lemma ex_hw_send : hw_send ex_sta_cfg ex_hw_txc ex_hw_state ex_hw_frame (replicate 4096 0) ex_long 0 (ex_stx 6) 7 false (replicate 16 0)
  1 (ex_me ++ ex_peer ++ ex_dst) true.
Proof.
  constructor.
  - reflexivity.
  - vm_compute. reflexivity.
  - split; [vm_compute; discriminate|vm_compute; reflexivity].
  - constructor.
    + constructor; [|split|split]; vm_compute; discriminate.
    + constructor; (split; [vm_compute; reflexivity|by apply bytes_ok_spec]).
    + vm_compute. reflexivity.
    + vm_compute. reflexivity.
    + vm_compute. reflexivity.
    + vm_compute. reflexivity.
    + vm_compute. reflexivity.
    + exists ex_peer_sta. split; [vm_compute; reflexivity|vm_compute; discriminate].
    + reflexivity.
    + vm_compute. reflexivity.
    + vm_compute. reflexivity.
    + vm_compute. reflexivity.
  - split; [vm_compute; discriminate|vm_compute; reflexivity].
  - intros []; (split; [vm_compute; discriminate|vm_compute; reflexivity]).
  - left. vm_compute. discriminate.
Qed.

(** Three fragments. *)
Lemma coalesce_fragments_witness : exists f' s' parts,
  rtw_xmitframe_coalesce ex_sta_cfg ex_hw_txc true ex_hw_state ex_long ex_hw_frame = Done (f', s', _SUCCESS) /\
  concat parts = replicate 600 7 /\ nr_frags (at_frag (attrib f')) = 3.
Proof.
  destruct (coalesce_fragments ex_sta_cfg ex_hw_txc true _ _ _ _ _ _ _ _ _ _ _ _ ex_hw_send)
    as (f' & s' & parts & tl & E & Hc & _ & _ & _ & _ & Hn & _).
  exists f', s', parts. split; [exact E|]. split; [exact Hc|].
  vm_compute in E. injection E as <- _. reflexivity.
Defined.

Lemma fragments_share_numbers_witness : exists f' s' frs tl,
  rtw_xmitframe_coalesce ex_sta_cfg ex_hw_txc true ex_hw_state ex_long ex_hw_frame = Done (f', s', _SUCCESS) /\
  buf_addr f' = Some (replicate 48 0 ++ tl) /\ laid 0 48 48 frs tl /\ 2 <= zlen frs /\
  Forall (fun fr => GetFragNum fr = 0 /\ GetSequence fr = 8 /\ rd fr 26 8 = Some [5; 0; 0; 0x20; 0; 0; 0; 0]) frs.
Proof.
  destruct (fragments_share_numbers ex_sta_cfg ex_hw_txc true _ _ _ _ _ _ _ _ _ _ _ _ ex_hw_send)
    as (f' & s' & frs & tl & E & Hb & Hl & H2 & Hf); [vm_compute; reflexivity|].
  exists f', s', frs, tl. split; [exact E|]. split; [exact Hb|]. split; [exact Hl|]. split; [exact H2|exact Hf].
Defined.
