(* ===== verification/EndToEnd.v ===== *)
(** * From a station to its access point

    The transmit path (TxAttrib, XmitFrame) and the receive path (RxEntry, RecvPath)
    composed: an Ethernet packet that a station hands to [update_attrib] and
    [rtw_xmitframe_coalesce] under WPA2 with CCMP in software is the packet that
    [recv_func] of the access point hands to its network stack, or sends on to another
    station. *)

From S2P Require Import Prelude Crc32 Aes Ccmp SecFrames WifiHdr RxFrame Reorder MacId StaMgt.
From S2P Require Import TxQueue PowerSave RecvPath Ie Bip RxEntry TxAttrib XmitFrame.

(** ** A CCMP frame through [recv_func] *)

Section receive.
Context (c : rx_config) (not_pcie : bool) (hiq_filter ap_expire_to HZ now : Z) (ok : Z -> bool).
Context (drv : drv_flags) (ht ieee80211w : bool) (zmalloc_ok : Z -> bool) (beyond : bytes) (passing : Z -> Z).
#[local] Abbreviation receive :=
  (recv_func c not_pcie hiq_filter ap_expire_to HZ now ok drv ht ieee80211w zmalloc_ok beyond passing).

(** A whole frame of station [o], sealed under the station's key: MAC header and CCMP
    header [hd], LLC body [body]. *)
Record ccmp_frame_in (e : entry) (p : precv) (h pre hd body post : bytes) (o : nat) (s : sta_info) : Prop := {
  ci_frame : whole_frame ht e p h o s;
  ci_sender : sender c (table e) h = Some o;
  ci_new : duplicate h s = false;
  ci_queue : uc_swdec_pending_queue e = [];
  ci_cipher : GetPrivacy h = true /\ GET_ENCRY_ALGO c o (RxFrame.encrypt (pattr p)) false = _AES_;
  ci_unicast : IS_MCAST (GetAddr1Ptr h) = false;
  ci_order : GetOrder h = false;
  ci_sw : bdecrypted (pattr p) = false;
  ci_nowait : must_wait c e (data_attrib c o h (pattr p)) = false;
  ci_hdr : let hl := if is_qos h then 26 else 24 in
    zlen hd = hl + 8 /\ ccmp_hdr hl hd /\ cl_hdrlen (ccmp_classify (hdr_fc hd) hl) = hl;
  ci_repr : rx_repr (fr p) pre (hd ++ ccmp_seal ieee80211w (dot118021x_UncstKey s) (if is_qos h then 26 else 24) hd body) post;
  ci_message : zlen (g_message (rw_glob (world e))) = MAX_MSG_SIZE /\ zlen hd + zlen body + 8 <= MAX_MSG_SIZE;
  ci_body : 8 <= zlen body /\ bytes_ok body
}.

Lemma recv_func_ccmp_run e p h pre hd body post o s : normal_mode c ->
  check_fwstate c WIFI_MONITOR_STATE = false -> mp_mode c || bRTWSmbCfg c = false ->
  running drv = true -> ccmp_frame_in e p h pre hd body post o s ->
  let opened := port_open (dot11AuthAlgrthm c) s body in
  exists e', receive e p = Some (e', if opened then _SUCCESS else _FAIL) /\
    delivered c drv e p (get_da h) (if opened then [msdu_pkt (data_attrib c o h (pattr p)) body] else []) e'.
Proof using Type.
  intros Hinf Hmon Hmp Hrun [Hwf Hsd Hdup Hq [Hpr Henc] Huni Hord Hbd Hmw Hhd Hrep [Hmsg Hfit] [Hb8 Hbo]] opened.
  destruct (recv_func_validated c not_pcie hiq_filter ap_expire_to HZ now ok drv ht ieee80211w zmalloc_ok beyond passing
    e p h o s Hinf Hmon Hmp Hwf Hsd Hdup Hq Hmw) as (e1 & p1 & Hf & Hv & Hcr & ->).
  destruct (whole_ready c ht _ _ _ _ _ _ _ Hwf Hf Hv) as (s' & Hrdy & Hbl & Hkey).
  set (hl := if is_qos h then 26 else 24) in *. cbv zeta in Hhd. destruct Hhd as (Hhl & Hch & Hcl).
  set (key := dot118021x_UncstKey s) in *.
  assert (Hat : data_attrib c o h (pattr p) = mk_rxa hl 8 8 _AES_ true (Z.b2z (is_qos h)) (frame_tid h)
      (if is_qos h then GetAMsdu (qos_ctrl h) else 0) (GetSequence h) (GetFragNum h) (Z.b2z (GetMFrag h)) (eth_type (pattr p))
      (get_da h) (get_sa h) (GetAddr2Ptr h) (GetAddr1Ptr h) (key_index (pattr p)) false).
  { unfold data_attrib. rewrite Hpr, Huni, Henc, Hord, Hbd. unfold hl. by destruct (is_qos h). }
  assert (Hatt : RxFrame.attrib (fr p1) = data_attrib c o h (pattr p)) by by rewrite Hf.
  set (cl := ccmp_classify (hdr_fc hd) hl) in *. set (pn := hdr_pn hd (cl_hdrlen cl)).
  set (ks := ccmp_key_stream ieee80211w cl hd pn key (S (length body / 16))).
  assert (Hinv : xor_list (xor_list body ks) (ccmp_key_stream ieee80211w cl hd pn key (S (length (xor_list body ks) / 16))) = body).
  { unfold ks. pose proof (xor_ks_involutive ieee80211w key cl hd body) as E. cbv zeta in E. exact E. }
  assert (Hcl1 : zlen (xor_list body ks) = zlen body) by apply xor_ks_length.
  pose proof (proj1 Hinf) as Hmps.
  destruct (posthandle_ccmp_run HZ now ok (drv_link c drv) ht ieee80211w (dot11AuthAlgrthm c) (fr p1) (world e1) o s' pre hd
    (xor_list body ks) (xor_list (ccmp_mac ieee80211w cl hd pn key body) (ccmp_mask ieee80211w cl hd pn key)) post key)
    as (w' & Hp & Hh); try done; rewrite ?Hatt, ?Hat; try done.
  - unfold rx_key. destruct Hrdy as [Hk1 Hs1 _ _ _ _]. rewrite Hatt, Hat in Hk1.
    change (ra_ra (set_key_index _ (cipher_view (fr p1)))) with (RxFrame.ra (RxFrame.attrib (fr p1))).
    change (ra_ta (set_key_index _ (cipher_view (fr p1)))) with (RxFrame.ta (RxFrame.attrib (fr p1))).
    rewrite Hatt, Hat. cbn [RxFrame.ra RxFrame.ta] in *. rewrite Huni. unfold unicast_key, sta_priv_lookup.
    rewrite Hk1. cbn [mbind option_bind]. rewrite Hs1. cbn [mbind option_bind]. by rewrite Hkey.
  - cbn [RxFrame.ra]. by rewrite Huni.
  - pose proof (mac_length ieee80211w key cl hd body) as H1. pose proof (mask_length ieee80211w key cl hd) as H2.
    fold pn in H1, H2. unfold zlen in *. rewrite xor_list_length. lia.
  - unfold ccmp_seal in Hrep. fold cl in Hrep. fold pn in Hrep. fold ks in Hrep. destruct Hrep. rewrite Hf. by constructor.
  - unfold crypt in Hcr. injection Hcr as _ ->. exact Hmsg.
  - lia.
  - lia.
  - rewrite Hhl. unfold hl. destruct (is_qos h); lia.
  - cbn [RxFrame.hdrlen]. fold cl pn. by rewrite Hinv.
  - rewrite Hatt, Hat in Hp, Hh. cbn [RxFrame.hdrlen] in Hp, Hh. fold cl in Hp, Hh. fold pn in Hp, Hh. rewrite Hinv in Hp, Hh.
    rewrite bool_decide_true in Hp, Hh by done. cbn [andb] in Hp, Hh.
    assert (Hop : port_open (dot11AuthAlgrthm c) s' body = opened) by (unfold opened, port_open; by rewrite Hbl).
    rewrite Hop in Hp, Hh. unfold posthandle. rewrite Hp. cbn [mbind option_bind]. eexists. split; [done|].
    eapply delivered_view; [exact Hv|by rewrite Hf|exact Hh].
Qed.
End receive.

(** ** The header as the receiver reads it *)

Lemma six (l : bytes) : zlen l = 6 -> exists a b c d e f, l = [a; b; c; d; e; f].
Proof.
  unfold zlen. intros H. destruct l as [|a [|b [|c [|d [|e [|f [|]]]]]]]; cbn in H; try lia. by eexists _, _, _, _, _, _.
Qed.

Lemma qos_byte_range a : 0 <= qos_byte a < 2 ^ 7.
Proof.
  unfold qos_byte. pose proof (land_range_r 4 (priority (at_hdr a)) 0xf ltac:(lia)).
  pose proof (land_range_r 1 (eosp (at_phy a)) 1 ltac:(lia)). pose proof (land_range_r 2 (ack_policy (at_hdr a)) 3 ltac:(lia)).
  apply (lor_range 7); [lia|apply (lor_range 7); [lia|lia|]|]; rewrite Z.shiftl_mul_pow2; lia.
Qed.

Section header.
Context (a : tx_attrib) (A1 A2 A3 : bytes) (q : bool) (num : Z) (rest : bytes).
Hypothesis H1 : zlen A1 = 6.
Hypothesis H2 : zlen A2 = 6.
Hypothesis H3 : zlen A3 = 6.
Hypothesis Hnum : 0 <= num < 4096.
Hypothesis Hsub : subtype (at_hdr a) = if q then WIFI_QOS_DATA_TYPE else WIFI_DATA_TYPE.
Hypothesis Hmd : mdata (at_phy a) = 0.
Hypothesis Henc : encrypt (at_sec a) = _AES_.
#[local] Abbreviation h := (header a 1 (A1 ++ A2 ++ A3) q num ++ rest).

Lemma header_bits : ld0 h 0 .& 0x3 = 0 /\ GetFrameType h = WIFI_DATA_TYPE /\ get_tofr_ds h = 2 /\ GetToDs h = true /\
  GetFrDs h = false /\ GetPrivacy h = true /\ GetMFrag h = false /\ GetOrder h = false /\ is_qos h = q /\ null_frame h = false.
Proof using Hsub Hmd Henc. unfold header, fc1. rewrite Hsub, Hmd, Henc. by destruct q. Qed.

Lemma header_addrs : GetAddr1Ptr h = A1 /\ GetAddr2Ptr h = A2 /\ GetAddr3Ptr h = A3.
Proof using H1 H2 H3.
  destruct (six _ H1) as (?&?&?&?&?&?&->), (six _ H2) as (?&?&?&?&?&?&->), (six _ H3) as (?&?&?&?&?&?&->). done.
Qed.

Lemma header_frag : GetFragNum h = 0.
Proof using H1 H2 H3 Hnum Hsub.
  assert (HA : zlen (A1 ++ A2 ++ A3) = 18) by (rewrite !zlen_app; lia).
  unfold GetFragNum. replace (le16_at h 22) with (16 * num).
  - rewrite (land_mask _ 4) by lia. change (2 ^ 4) with 16. Z.to_euclidean_division_equations; lia.
  - rewrite <- (seq_ctrl_header a 1 (A1 ++ A2 ++ A3) q num HA Hnum). unfold le16_at.
    by rewrite !ld0_app_l by (rewrite zlen_header by done; destruct q; lia).
Qed.

Lemma header_qos : is_qos h = true -> GetAMsdu (qos_ctrl h) = 0.
Proof using H1 H2 H3 Hsub Hmd Henc.
  destruct header_bits as (_ & _ & _ & _ & _ & _ & _ & _ & -> & _). intros ->.
  assert (E : qos_ctrl (header a 1 (A1 ++ A2 ++ A3) true num ++ rest) = [qos_byte a; 0]).
  { destruct (six _ H1) as (?&?&?&?&?&?&->), (six _ H2) as (?&?&?&?&?&?&->), (six _ H3) as (?&?&?&?&?&?&->). done. }
  rewrite E. change (GetAMsdu [qos_byte a; 0]) with (((qos_byte a .| (0 .<< 8)) .>> 7) .& 0x1).
  pose proof (qos_byte_range a). by rewrite Z.shiftl_0_l, Z.lor_0_r, Z.shiftr_div_pow2, Z.div_small by lia.
Qed.

Lemma header_da_sa : get_da h = A3 /\ get_sa h = A2.
Proof using H1 H2 H3 Hsub Hmd Henc.
  destruct header_bits as (_ & _ & Hds & _). destruct header_addrs as (E1 & E2 & E3).
  unfold get_da, get_sa. rewrite Hds, E2, E3. done.
Qed.
End header.

(** ** The attributes of a packet on a station *)

(** An Ethernet packet. *)
Definition eth_packet (d s : bytes) (ty : Z) (payload : bytes) : bytes := d ++ s ++ be_bytes 2 ty ++ payload.

(** A station of a WPA2 network with its access point [o] in the table, authorised, and
    software encryption. *)
Record station (c : rx_config) (t : tx_config) (sec : security_priv) (sp : sta_priv) (xs : list sta_tx)
    (o : nat) (st : sta_info) (x : sta_tx) : Prop := {
  sn_mode : check_fwstate c WIFI_STATION_STATE = true /\ check_fwstate c WIFI_AP_STATE = false /\
    check_fwstate c WIFI_ADHOC_STATE = false /\ check_fwstate c WIFI_ADHOC_MASTER_STATE = false;
  sn_wpa2 : wpa2 c;
  sn_me : zlen (myid c) = 6 /\ bytes_ok (myid c);
  sn_bssid : zlen (mybssid c) = 6 /\ bytes_ok (mybssid c) /\ IS_MCAST (mybssid c) = false;
  sn_ap : rtw_get_stainfo sp (mybssid c) = Some o /\ stas sp !! o = Some st /\ state st .& _FW_LINKED <> 0 /\
    ieee8021x_blocked st = false;
  sn_tx : xs !! o = Some x /\ length (txseq_tid x) = 16%nat /\ length (BA_starting_seqctrl x) = 16%nat;
  sn_sw : sw_encrypt t || negb (hw_decrypted sec) = true
}.

Lemma no_infra_bits c : check_fwstate c WIFI_AP_STATE = false -> check_fwstate c WIFI_ADHOC_STATE = false ->
  check_fwstate c WIFI_ADHOC_MASTER_STATE = false ->
  check_fwstate c (WIFI_AP_STATE .| WIFI_ADHOC_STATE .| WIFI_ADHOC_MASTER_STATE) = false.
Proof.
  unfold check_fwstate. intros H1 H2 H3. apply negb_false_iff, Z.eqb_eq in H1, H2, H3.
  apply negb_false_iff, Z.eqb_eq. by rewrite !Z.land_lor_distr_r, H1, H2, H3.
Qed.

Section attributes.
Context (c : rx_config) (t : tx_config) (sec : security_priv) (se stk si : bytes).

(** The priority is one of the eight user priorities. *)
Lemma qos_acm_range mask pri : 0 <= pri < 8 -> 0 <= qos_acm mask pri < 8.
Proof using Type. intros H. unfold qos_acm. repeat case_match; lia. Qed.

Lemma set_qos_range pf etype : bytes_ok (pf_pkt pf) -> bytes_ok si ->
  exists pri, set_qos si pf etype = (pri, 26, WIFI_QOS_DATA_TYPE) /\ 0 <= pri < 8.
Proof using Type.
  intros Hp Hs. unfold set_qos. destruct (_rtw_pktfile_read (_rtw_open_pktfile (pf_pkt pf)) ETH_HLEN) as [[b0 l0] pf1] eqn:E.
  assert (Hp1 : pf_pkt pf1 = pf_pkt pf) by (unfold _rtw_pktfile_read in E; by injection E as _ _ <-).
  destruct (etype =? 0x0800); [|by exists 0].
  destruct (_rtw_pktfile_read pf1 20) as [[b l] pf2] eqn:E2.
  assert (Hb : bytes_ok b).
  { unfold _rtw_pktfile_read in E2. injection E2 as <- _ _. rewrite Hp1. by apply bytes_ok_take, bytes_ok_drop. }
  assert (H8 : is_u8 (ld0 (onto si b) 1)) by (apply ld0_u8; apply bytes_ok_app_2; [done|by apply bytes_ok_drop]).
  assert (Hr : 0 <= ld0 (onto si b) 1 .>> 5 < 8).
  { rewrite Z.shiftr_div_pow2 by lia. change (2 ^ 5) with 32.
    split; [apply Z.div_pos; lia|apply Z.div_lt_upper_bound; lia]. }
  exists (ld0 (onto si b) 1 .>> 5). by rewrite u8_id by lia.
Qed.

(** The first fourteen bytes. *)
Lemma read_eth_station d s ty payload e : zlen d = 6 -> zlen s = 6 -> 0 <= ty < 65536 ->
  zlen (eth_packet d s ty payload) < 2 ^ 31 ->
  check_fwstate c WIFI_STATION_STATE = true -> check_fwstate c WIFI_ADHOC_STATE = false ->
  check_fwstate c WIFI_ADHOC_MASTER_STATE = false ->
  exists dhcp icmp pf, read_eth c se stk (eth_packet d s ty payload) e =
    (mk_eth ty d s (mybssid c) (myid c) (zlen payload) dhcp icmp, pf) /\ pf_pkt pf = eth_packet d s ty payload.
Proof using Type.
  intros Hd Hs Hty Hl M1 M2 M3. set (pkt := eth_packet d s ty payload) in *.
  assert (Hpl : zlen pkt = 14 + zlen payload).
  { unfold pkt, eth_packet. rewrite !zlen_app, Hd, Hs. change (zlen (be_bytes 2 ty)) with 2. lia. }
  pose proof (zlen_nonneg payload).
  assert (Hb : take 14 pkt = d ++ s ++ be_bytes 2 ty).
  { unfold pkt, eth_packet. rewrite !app_assoc. apply take_app_length'. rewrite !length_app. unfold zlen in Hd, Hs. cbn. lia. }
  unfold read_eth. change (_rtw_open_pktfile pkt) with (mk_pf pkt 0 0 (zlen pkt) (zlen pkt)).
  replace (mk_pf pkt 0 0 (zlen pkt) (zlen pkt)) with (pf_at pkt 0) by (unfold pf_at; by rewrite Z.sub_0_r).
  rewrite pktfile_read by (unfold ETH_HLEN; lia). change (Z.to_nat ETH_HLEN) with 14%nat. change (drop (Z.to_nat 0) pkt) with pkt.
  rewrite Hb. unfold onto. set (stk' := drop _ se). set (pf1 := pf_at pkt _).
  assert (Hpf : pf_pkt_len pf1 = zlen payload).
  { unfold pf1, pf_at. cbn [pf_pkt_len]. rewrite !zlen_app, Hd, Hs. change (zlen (be_bytes 2 ty)) with 2. lia. }
  unfold zlen in Hd, Hs.
  assert (E1 : take 6 ((d ++ s ++ be_bytes 2 ty) ++ stk') = d) by (rewrite <- !app_assoc; apply take_app_length'; lia).
  assert (E2 : take 6 (drop 6 ((d ++ s ++ be_bytes 2 ty) ++ stk')) = s).
  { rewrite <- !app_assoc, drop_app_length' by lia. apply take_app_length'. lia. }
  assert (E3 : be_val (take 2 (drop 12 ((d ++ s ++ be_bytes 2 ty) ++ stk'))) = ty).
  { rewrite <- !app_assoc, (app_assoc d), drop_app_length' by (rewrite length_app; lia).
    rewrite take_app_length' by done. apply be_val_bytes. lia. }
  rewrite E1, E2, E3, Hpf. unfold link_addrs. rewrite M1, M2, M3. cbn [orb].
  destruct (ty =? ETH_P_IP); [|by eexists _, _, _].
  destruct (_rtw_pktfile_read pf1 24) as [[b l] pf2] eqn:E. eexists _, _, _. split; [done|].
  unfold _rtw_pktfile_read in E. by injection E as _ _ <-.
Qed.

(** What [update_attrib] makes of the packet. *)
Lemma station_attributes sp xs o st x d ty payload : station c t sec sp xs o st x ->
  zlen d = 6 -> 0 <= ty < 65536 -> bytes_ok (eth_packet d (myid c) ty payload) -> bytes_ok si ->
  zlen (eth_packet d (myid c) ty payload) < 2 ^ 31 ->
  exists a log pri, let q := pqos_option t in
    update_attrib c t sec se stk si sp xs (eth_packet d (myid c) ty payload) init_attrib =
      Some (a, <[o := set_dot11txpn (AES_IV (dot11txpn x) 0).2 x]> xs, log, _SUCCESS) /\
    (exists dhcp icmp, at_eth a = mk_eth ty d (myid c) (mybssid c) (myid c) (zlen payload) dhcp icmp) /\
    at_sec a = mk_seca _AES_ 8 8 (put_iv (AES_IV (dot11txpn x) 0).1 (replicate 18 0)) (replicate 16 0) 0 true
      (StaMgt.mac_id st) (dot118021x_UncstKey st) (replicate 16 0) /\
    mdata (at_phy a) = 0 /\
    at_hdr a = mk_hdr 14 (if q then 26 else 24) (if q then WIFI_QOS_DATA_TYPE else WIFI_DATA_TYPE) pri 0 0
      (hw_ssn_seq_no t) 0 (Some o) /\ 0 <= pri < 8 /\ ampdu_en (at_phy a) = false.
Proof using Type.
  intros [(M1 & M0 & M2 & M3) [W1 W2 W3] [Hme _] (Hbs & _ & Hmc) (Hap & Hst & Hlk & Hbl) (Hx & _ & _) Hsw] Hd Hty Hbo Hsi Hl.
  destruct (read_eth_station d (myid c) ty payload (at_eth init_attrib) Hd Hme Hty Hl M1 M2 M3) as (dhcp & icmp & pf & Er & Hpf).
  assert (Hq : exists pri, (forall qen, qos_fields c t si pf ty qen =
    (pri, if pqos_option t then 26 else 24, if pqos_option t then WIFI_QOS_DATA_TYPE else WIFI_DATA_TYPE)) /\ 0 <= pri < 8).
  { unfold qos_fields. rewrite no_infra_bits by done. destruct (pqos_option t); [|by exists 0].
    destruct (set_qos_range pf ty) as (pri & E & Hp); [by rewrite Hpf|done|]. rewrite E.
    eexists. split; [done|]. destruct (negb (acm_mask t =? 0)); [by apply qos_acm_range|done]. }
  destruct Hq as (pri & Hq & Hpri).
  unfold update_attrib. rewrite Er. unfold attrib_station. cbn [TxAttrib.ra ether_type]. rewrite Hmc, Hap. cbn [mbind option_bind]. rewrite Hst.
  cbn [mbind option_bind negb andb]. rewrite M0, (proj2 (Z.eqb_neq _ _) Hlk). cbn [andb]. rewrite Hst. cbn [mbind option_bind]. rewrite Hx. cbn [mbind option_bind].
  unfold update_attrib_sec_info, select_cipher, GET_ENCRY_ALGO, select_key_idx. cbn [TxAttrib.ra ether_type]. rewrite Hbl, Hmc, W1, W3.
  cbn. rewrite Hsw, Hq. cbn. eexists _, _, pri. split; [done|]. cbn. split; [by eexists _, _|]. done.
Qed.
End attributes.

(** ** The station sends *)


(** What the packet is, and the fragmentation threshold. *)
Record packet_ok (t : tx_config) (d : bytes) (ty : Z) (payload me : bytes) : Prop := {
  pk_dst : zlen d = 6; pk_type : 0 <= ty < 65536; pk_bytes : bytes_ok (eth_packet d me ty payload);
  pk_len : zlen (eth_packet d me ty payload) <= ETH_FRAME_LEN;
  pk_whole : zlen (eth_packet d me ty payload) + 40 <= frag_len t;
  pk_threshold : MIN_FRAG_THRESHOLD <= frag_len t <= MAX_FRAG_THRESHOLD
}.

(** The attributes that [station_attributes] gives. *)
Record sent_attrib (c : rx_config) (t : tx_config) (a : tx_attrib) (o : nat) (st : sta_info) (d : bytes) (ty : Z)
    (payload : bytes) : Prop := {
  sa_dst : dst (at_eth a) = d; sa_src : src (at_eth a) = myid c; sa_ra : ra (at_eth a) = mybssid c;
  sa_ta : ta (at_eth a) = myid c; sa_type : ether_type (at_eth a) = ty; sa_len : pktlen (at_eth a) = zlen payload;
  sa_cipher : encrypt (at_sec a) = _AES_ /\ iv_len (at_sec a) = 8 /\ icv_len (at_sec a) = 8 /\ bswenc (at_sec a) = true;
  sa_iv : zlen (iv (at_sec a)) = 18 /\ zlen (icv (at_sec a)) = 16; sa_key : UncstKey (at_sec a) = dot118021x_UncstKey st;
  sa_mdata : mdata (at_phy a) = 0; sa_ampdu : ampdu_en (at_phy a) = false;
  sa_hdrlen : hdrlen (at_hdr a) = if pqos_option t then 26 else 24;
  sa_sub : subtype (at_hdr a) = if pqos_option t then WIFI_QOS_DATA_TYPE else WIFI_DATA_TYPE;
  sa_pri : 0 <= priority (at_hdr a) < 8; sa_psta : psta (at_hdr a) = Some o; sa_hdr14 : pkt_hdrlen (at_hdr a) = 14
}.

Lemma check_ampdu_total x a num : length (BA_starting_seqctrl x) = 16%nat ->
  exists en ba, check_ampdu x a num = Some (en, ba).
Proof.
  intros Hl. unfold check_ampdu. cbv zeta. set (i := Z.to_nat (priority (at_hdr a) .& 0x0f)).
  assert (Hi : (i < 16)%nat) by (pose proof (land_range_r 4 (priority (at_hdr a)) 0x0f ltac:(lia)); unfold i; lia).
  destruct (lookup_lt_is_Some_2 (BA_starting_seqctrl x) i) as [v ->]; [lia|]. cbn [mbind option_bind].
  repeat case_match; by eexists _, _.
Qed.

Section sends.
Context (c : rx_config) (t : tx_config) (sec : security_priv) (w : bool) (se stk si : bytes).

Lemma station_sent_attrib sp xs o st x d ty payload : station c t sec sp xs o st x ->
  packet_ok t d ty payload (myid c) -> bytes_ok si ->
  exists a log, update_attrib c t sec se stk si sp xs (eth_packet d (myid c) ty payload) init_attrib =
      Some (a, <[o := set_dot11txpn (AES_IV (dot11txpn x) 0).2 x]> xs, log, _SUCCESS) /\
    sent_attrib c t a o st d ty payload.
Proof using Type.
  intros Hst [Hd Hty Hbo Hlen _ _] Hsi. unfold ETH_FRAME_LEN in Hlen.
  destruct (station_attributes c t sec se stk si sp xs o st x d ty payload Hst Hd Hty Hbo Hsi ltac:(lia))
    as (a & log & pri & E & (dhcp & icmp & He) & Hs & Hm & Hh & Hp & Ha).
  exists a, log. split; [exact E|]. by constructor; rewrite ?He, ?Hs, ?Hh.
Qed.

Lemma station_tx_ready sp xs x' o st x d ty payload a g : station c t sec sp xs o st x ->
  packet_ok t d ty payload (myid c) -> sent_attrib c t a o st d ty payload ->
  txseq_tid x' = txseq_tid x -> BA_starting_seqctrl x' = BA_starting_seqctrl x ->
  exists n en ba, tx_ready c t (mk_txs sp (<[o := x']> xs) sec g) a o x' n en ba 1 (mybssid c ++ myid c ++ d) (pqos_option t).
Proof using Type.
  intros [(M1 & M0 & M2 & M3) _ [Hme Hmo] (Hbs & Hbo & _) (Hap & Hst & Hlk & _) (Hx & Hl1 & Hl2) _] [Hd _ Hpo _ _ _]
    [S1 S2 S3 S4 S5 S6 (S7 & S8 & S9 & _) [S10 S11] _ _ _ S12 S13 S14 S15 S16] E1 E2.
  destruct (lookup_lt_is_Some_2 (txseq_tid x') (Z.to_nat (priority (at_hdr a)))) as [n Hn]; [rewrite E1; lia|].
  destruct (check_ampdu_total x' a (next_seq n)) as (en & ba & Hba); [by rewrite E2|].
  assert (Hdo : bytes_ok d) by (apply bytes_ok_app in Hpo; apply Hpo).
  exists n, en, ba. constructor; try done.
  - constructor; rewrite ?S12, ?S8, ?S9, ?S10, ?S11; [destruct (pqos_option t)|..]; lia.
  - constructor; by rewrite ?S1, ?S2, ?S4.
  - unfold link_spec. by rewrite M1, S1, S4.
  - by rewrite S3.
  - by exists st.
  - cbn. apply list_lookup_insert_eq. by eapply lookup_lt_Some.
Qed.

Lemma station_room a f d ty payload : packet_ok t d ty payload (myid c) -> zlen (myid c) = 6 -> hdrlen (at_hdr a) = (if pqos_option t then 26 else 24) ->
  encrypt (at_sec a) = _AES_ /\ iv_len (at_sec a) = 8 /\ icv_len (at_sec a) = 8 /\ bswenc (at_sec a) = true ->
  zlen (icv (at_sec a)) = 16 -> zlen (iv (at_sec a)) = 18 ->
  let pkt := eth_packet d (myid c) ty payload in
  zlen pkt = 14 + zlen payload /\ zlen pkt - 14 <= cap a (frag_len t - 4) true /\
  (forall b, 1 <= cap a (frag_len t - 4) b < 2 ^ 32) /\ room_for t (set_attrib a f) (zlen pkt) <= MAX_XMITBUF_SZ.
Proof using Type.
  intros [Hd _ _ Hlen Hwh Hth] Hme Hhl (_ & Hiv & Hicv & Hsw) Hic Hi pkt. fold pkt in Hlen, Hwh. unfold MIN_FRAG_THRESHOLD in Hth.
  assert (Hpl : zlen pkt = 14 + zlen payload).
  { unfold pkt, eth_packet. rewrite !zlen_app, Hd, Hme. change (zlen (be_bytes 2 ty)) with 2. lia. }
  pose proof (zlen_nonneg payload).
  assert (Hlo : lengths_ok a) by (constructor; rewrite ?Hhl, ?Hiv, ?Hicv, ?Hi, ?Hic; [destruct (pqos_option t)|..]; lia).
  assert (Hcap : forall b, cap a (frag_len t - 4) b = frag_len t - 4 - hdrlen (at_hdr a) - 16 - (if b : bool then 8 else 0)).
  { intros b. unfold cap. rewrite zlen_llc, zlen_icv_room by done. unfold sw_icv. rewrite Hsw, Hicv, Hiv. cbn. lia. }
  unfold MAX_FRAG_THRESHOLD, MAX_XMITBUF_SZ, ETH_FRAME_LEN in *.
  assert (Hhr : hdrlen (at_hdr a) = 24 \/ hdrlen (at_hdr a) = 26) by (rewrite Hhl; destruct (pqos_option t); tauto).
  split; [done|]. split; [rewrite Hcap; lia|]. split; [intros b; rewrite Hcap; destruct b; lia|].
  unfold room_for, most_frags, WLANHDR_OFFSET. change (attrib (set_attrib a f)) with a. rewrite Hcap.
  set (hw := hw_offset (set_attrib a f)). assert (0 <= hw < 256) by apply u8_range. set (k := frag_len t - 4 - hdrlen (at_hdr a) - 16 - 0).
  assert (Hq : 0 <= (zlen pkt - 14 + 8) / k <= 1).
  { split; [apply Z.div_pos; lia|]. apply Z.div_le_upper_bound; unfold k; lia. }
  nia.
Qed.

(** The frame in the transmit buffer. *)
Definition on_air (a : tx_attrib) (key : bytes) (n : Z) (pkt : bytes) : bytes :=
  let hd := ccmp_hd a 1 (mybssid c ++ myid c ++ dst (at_eth a)) (pqos_option t) n in
  hd ++ ccmp_seal w key (if pqos_option t then 26 else 24) hd (ccmp_body a pkt).

Lemma station_sends sp xs o st x d ty payload g f m : station c t sec sp xs o st x ->
  packet_ok t d ty payload (myid c) -> bytes_ok si -> buf_addr f = Some m -> zlen m = MAX_XMITBUF_SZ ->
  let pkt := eth_packet d (myid c) ty payload in
  exists a xs' log n f' s' post,
    update_attrib c t sec se stk si sp xs pkt init_attrib = Some (a, xs', log, _SUCCESS) /\
    rtw_xmitframe_coalesce c t w (mk_txs sp xs' sec g) pkt (set_attrib a f) = Done (f', s', _SUCCESS) /\
    sent_attrib c t a o st d ty payload /\
    let air := on_air a (dot118021x_UncstKey st) n pkt in
    buf_addr f' = Some (take (Z.to_nat (hw_offset f)) m ++ air ++ post) /\
    nr_frags (at_frag (attrib f')) = 1 /\ last_txcmdsz (at_frag (attrib f')) = zlen air.
Proof using Type.
  intros Hst Hpk Hsi Hbuf Hm pkt. destruct (station_sent_attrib sp xs o st x d ty payload Hst Hpk Hsi) as (a & log & Eu & Hsa).
  destruct (station_tx_ready sp xs (set_dot11txpn (AES_IV (dot11txpn x) 0).2 x) o st x d ty payload a g Hst Hpk Hsa eq_refl eq_refl)
    as (n & en & ba & Hr).
  destruct (sn_me _ _ _ _ _ _ _ _ Hst) as [Hme _]. destruct (sn_bssid _ _ _ _ _ _ _ _ Hst) as (_ & _ & Hmc).
  destruct (Hsa) as [S1 S2 S3 S4 S5 S6 S7 [S10 S11] S17 S18 S19 S12 S13 S14 S15 S16].
  destruct (station_room a f d ty payload Hpk Hme S12 S7 S11 S10) as (Hpl & Hfit & Hcap & Hroom).
  pose proof (zlen_nonneg payload). pose proof (pk_len _ _ _ _ _ Hpk) as Hmax. unfold ETH_FRAME_LEN in Hmax.
  destruct (coalesce_ccmp_run c t w (mk_txs sp (<[o := set_dot11txpn (AES_IV (dot11txpn x) 0).2 x]> xs) sec g) (set_attrib a f) m pkt o
    (set_dot11txpn (AES_IV (dot11txpn x) 0).2 x) n en ba 1 (mybssid c ++ myid c ++ d) (pqos_option t))
    as (f' & post & Ec & Hb & Hn & Hl & _); [done|exact Hr| | |unfold pkt; lia|].
  { constructor; cbn [XmitFrame.attrib XmitFrame.set_attrib]; rewrite ?S3; try done; [apply (pk_bytes _ _ _ _ _ Hpk)|unfold pkt; lia]. }
  { cbn [XmitFrame.attrib set_attrib]. rewrite S6. unfold pkt. lia. }
  eexists a, _, log, n, f', _, post. split; [exact Eu|]. split; [exact Ec|]. split; [done|]. cbv zeta.
  change (attrib (set_attrib a f)) with a in Hb, Hl. rewrite S17, S12 in Hb, Hl. rewrite <- S1 in Hb, Hl. by split.
Qed.
End sends.

(** ** The access point receives *)

(** The LLC header is one that the receiver removes, whatever the type. *)
Lemma llc_snap a rest : 0 <= ether_type (at_eth a) < 65536 -> is_snap (llc a true ++ rest) = true /\
  drop 6 (llc a true ++ rest) = be_bytes 2 (ether_type (at_eth a)) ++ rest.
Proof.
  set (ty := ether_type (at_eth a)). intros Hty.
  assert (E : RxFrame.RTW_GET_BE16 (be_bytes 2 ty ++ rest) = ty).
  { rewrite <- (be_val_bytes 2 ty) at 2 by lia. unfold RxFrame.RTW_GET_BE16.
    destruct (be_bytes 2 ty) as [|x [|y [|]]] eqn:Eb; try (apply (f_equal length) in Eb; rewrite be_bytes_length in Eb; done).
    pose proof (be_bytes_ok 2 ty) as Hb. rewrite Eb in Hb. apply list.Forall_cons in Hb as [Hx [Hy _]%list.Forall_cons].
    cbn [app]. change (u16 ((x .<< 8) .| y) = be_val [x; y]). rewrite Z.lor_comm, lor_shiftl_add by lia. change (be_val [x; y]) with ((0 * 256 + x) * 256 + y). rewrite u16_id; lia. }
  unfold llc, is_snap. fold ty.
  destruct ((ty =? 0x8137) || (ty =? 0x80f3)) eqn:Et.
  - split; [|done]. rewrite orb_comm. done.
  - split; [|done]. change (drop 6 (_ ++ rest)) with (be_bytes 2 ty ++ rest). rewrite E.
    apply orb_false_iff in Et as [Ei Ea]. change ETH_P_AARP with 0x80f3. change ETH_P_IPX with 0x8137.
    by rewrite Ei, Ea.
Qed.

Section receives.
Context (c : rx_config) (not_pcie : bool) (hiq_filter ap_expire_to HZ now : Z) (ok : Z -> bool).
Context (drv : drv_flags) (ht ieee80211w : bool) (zmalloc_ok : Z -> bool) (beyond : bytes) (passing : Z -> Z).

(** An access point of the BSS [bss] with station [o] at the address [me] authorised and
    without block ack. *)
Record access_point (e : entry) (bss me : bytes) (o : nat) (s : sta_info) : Prop := {
  ap_mode : is_ap c /\ check_fwstate c WIFI_ADHOC_STATE = false /\ check_fwstate c WIFI_ADHOC_MASTER_STATE = false /\
    check_fwstate c WIFI_MP_STATE = false /\ check_fwstate c WIFI_MONITOR_STATE = false;
  ap_mp : mp_mode c || bRTWSmbCfg c = false;
  ap_driver : running drv = true;
  ap_wpa2 : wpa2 c;
  ap_bss : mybssid c = bss;
  ap_table : table_inv (table e) /\ caches_ok (table e) /\ rtw_get_bcmc_stainfo (table e) <> None;
  ap_sta : rtw_get_stainfo (table e) me = Some o /\ stas (table e) !! o = Some s /\ ieee8021x_blocked s = false;
  ap_windows : length (recvreorder_ctrl s) = 16%nat /\ (ht = true -> Forall (fun k => enable k = false) (recvreorder_ctrl s));
  ap_queue : uc_swdec_pending_queue e = [];
  ap_message : zlen (g_message (rw_glob (world e))) = MAX_MSG_SIZE
}.

(** Where the access point lets a packet for [d] go, between the states [e] and [e']: its
    own stack, another station of its table, or both for the group. *)
Definition arrives (e e' : entry) (d pkt : bytes) : Prop :=
  let r := recvpriv (rw_ad (world e)) in
  let r' := recvpriv (rw_ad (world e')) in
  (d = myid c -> indicated r' = indicated r ++ [pkt] /\ forwarded r' = forwarded r) /\
  (d <> myid c -> IS_MCAST d = false ->
     (rtw_get_stainfo (table e) d <> None -> indicated r' = indicated r /\ forwarded r' = forwarded r ++ [pkt]) /\
     (rtw_get_stainfo (table e) d = None -> indicated r' = indicated r ++ [pkt] /\ forwarded r' = forwarded r)) /\
  (d <> myid c -> IS_MCAST d = true ->
     indicated r' = indicated r ++ (if os_clone (os drv) pkt then [pkt] else []) /\
     forwarded r' = forwarded r ++ [pkt]).

Lemma ap_not_station : normal_mode c -> check_fwstate c WIFI_AP_STATE = true ->
  check_fwstate c (WIFI_STATION_STATE .| WIFI_ADHOC_STATE) = false.
Proof using Type.
  intros [_ Hm] Hap. assert (H : check_fwstate c WIFI_STATION_STATE = false /\ check_fwstate c WIFI_ADHOC_STATE = false).
  { unfold ad_hoc in Hm. destruct (check_fwstate c WIFI_ADHOC_STATE); cbn [orb] in Hm.
    - destruct Hm as [_ Hm]. congruence.
    - split; [|done]. destruct (check_fwstate c WIFI_ADHOC_MASTER_STATE); [by destruct Hm|].
      destruct Hm as [[_ Hm]|[_ Hm]]; congruence. }
  destruct H as [H1 H2]. unfold check_fwstate in *. apply negb_false_iff, Z.eqb_eq in H1, H2.
  apply negb_false_iff, Z.eqb_eq. by rewrite Z.land_lor_distr_r, H1, H2.
Qed.

Lemma delivered_arrives e p d pkt e' : normal_mode c -> check_fwstate c WIFI_AP_STATE = true ->
  rtw_get_bcmc_stainfo (table e) <> None -> delivered c drv e p d [pkt] e' -> arrives e e' d pkt.
Proof using Type.
  intros Hm Hap Hbc (_ & Hi & Hf). pose proof (ap_not_station Hm Hap) as Hst. unfold arrives. cbv zeta.
  rewrite Hi, Hf. cbn [map concat]. rewrite !app_nil_r. unfold to_stack, to_air, receiver_of, bridged.
  cbn [os_at os_ap os_station os_myid os_bcmc os_stainfo os_clone os_br_port drv_link os].
  rewrite Hap, Hst, andb_false_r. cbn [negb orb].
  destruct (rtw_get_bcmc_stainfo (table e)); [|done]. cbn [present].
  split_and!.
  - intros ->. rewrite bool_decide_true by done. by rewrite app_nil_r.
  - intros Hd Hu. rewrite bool_decide_false, Hu by done.
    split; [|intros ->; by rewrite app_nil_r].
    destruct (rtw_get_stainfo (table e) d); [|done]. cbn [present]. by rewrite app_nil_r.
  - intros Hd Hg. by rewrite bool_decide_false, Hg by done.
Qed.

(** The frame as the receiver gets it, not decrypted by the hardware. *)
Record received (p : precv) (pre air post : bytes) : Prop := {
  rv_repr : rx_repr (fr p) pre air post; rv_bytes : bytes_ok (rx_mem (fr p)); rv_pkt : rf_pkt (fr p) = true;
  rv_sw : bdecrypted (pattr p) = false
}.

Lemma received_ptr p pre air post : received p pre air post -> ptr p = air ++ post /\ bytes_ok (air ++ post) /\ 0 <= RxFrame.rx_data (fr p).
Proof using Type.
  intros [[Hm Hd _ _ _] Hb _ _]. unfold ptr. rewrite Hd, Hm in *. rewrite zlen_to_nat, drop_app_length.
  apply bytes_ok_app in Hb as [_ Hb]. split; [done|]. split; [done|]. apply zlen_nonneg.
Qed.

(** The frame of a station in the terms of [recv_func_ccmp_run]. *)
Lemma station_frame e p pre post a d ty payload (q : bool) num iv8 me bss o s : access_point e bss me o s ->
  zlen bss = 6 -> IS_MCAST bss = false -> zlen me = 6 -> zlen d = 6 ->
  0 <= num < 4096 -> subtype (at_hdr a) = (if q then WIFI_QOS_DATA_TYPE else WIFI_DATA_TYPE) -> mdata (at_phy a) = 0 ->
  encrypt (at_sec a) = _AES_ -> ether_type (at_eth a) = ty -> zlen iv8 = 8 -> bytes_ok payload -> zlen payload <= ETH_FRAME_LEN - 14 ->
  let hl := if q then 26 else 24 in
  let hd := header a 1 (bss ++ me ++ d) q num ++ iv8 in
  let body := llc a true ++ payload in
  let h := (hd ++ ccmp_seal ieee80211w (dot118021x_UncstKey s) hl hd body) ++ post in
  received p pre (hd ++ ccmp_seal ieee80211w (dot118021x_UncstKey s) hl hd body) post -> duplicate h s = false ->
  ccmp_frame_in c ht ieee80211w e p h pre hd body post o s /\
  forall b, RxFrame.dst (data_attrib c o h b) = d /\ RxFrame.src (data_attrib c o h b) = me.
Proof using Type.
  intros [(Hap & M1 & M2 & M3 & M4) Hmp _ [W1 W2 W3] Hbss (Ht1 & Ht2 & Ht3) (Hkn & Hs & Hbl) [Hw1 Hw2] Hq Hmsg]
    Hbl6 Hmc Hml Hdl Hnum Hsub Hmd Henc Hty Hiv Hbo Hpl hl hd body h Hrv Hdup.
  destruct (received_ptr _ _ _ _ Hrv) as (Hptr & Hhb & Hd0). fold h in Hptr, Hhb. destruct Hrv as [Hrep _ Hpk Hsw].
  set (rest := iv8 ++ ccmp_seal ieee80211w (dot118021x_UncstKey s) hl hd body ++ post).
  assert (Eh : h = header a 1 (bss ++ me ++ d) q num ++ rest) by (unfold h, hd, rest; by rewrite <- !app_assoc).
  destruct (header_bits a bss me d q num rest Hsub Hmd Henc) as (B1 & B2 & B3 & _ & _ & B4 & B5 & B6 & B7 & B8).
  destruct (header_addrs a bss me d q num rest Hbl6 Hml Hdl) as (A1 & A2 & A3).
  pose proof (header_frag a bss me d q num rest Hbl6 Hml Hdl Hnum Hsub) as Hfr.
  pose proof (header_qos a bss me d q num rest Hbl6 Hml Hdl Hsub Hmd Henc) as Hqm.
  destruct (header_da_sa a bss me d q num rest Hbl6 Hml Hdl Hsub Hmd Henc) as (Da & Sa).
  rewrite <- Eh in *. assert (HA : zlen (bss ++ me ++ d) = 18) by (rewrite !zlen_app; lia).
  assert (Hhd : zlen hd = hl + 8) by (unfold hd; rewrite zlen_app, zlen_header by done; lia).
  assert (Hbody : zlen body = 8 + zlen payload) by (unfold body; rewrite zlen_app, zlen_llc; lia).
  assert (Hge : hl <= zlen h) by (unfold h; rewrite !zlen_app; pose proof (zlen_nonneg post);
    pose proof (zlen_nonneg (ccmp_seal ieee80211w (dot118021x_UncstKey s) hl hd body)); lia).
  pose proof (zlen_nonneg payload). unfold ETH_FRAME_LEN in Hpl.
  split.
  2: { intros b. by destruct (data_attrib_fields c o h b) as (_ & _ & _ & _ & _ & _ & -> & ->). }
  destruct Hap as [Hap1 Hap2]. constructor.
  - constructor; rewrite ?A2, ?B5; try done.
    + constructor; rewrite ?B1, ?B3, ?B7; done.
    + intros E _. pose proof (frame_tid_range h) as Htid.
      destruct (lookup_lt_is_Some_2 (recvreorder_ctrl s) (Z.to_nat (frame_tid h))) as [k Hk]; [lia|]. exists k. split; [done|].
      exact (Forall_lookup_1 _ _ _ _ (Hw2 E) Hk).
  - unfold sender. rewrite Hap1, B3, A1, B8, A2, Hbss.
    change (2 =? 0) with false. change (2 =? 2) with true. unfold ad_hoc, same. rewrite M1, M2. by rewrite (bool_decide_true (bss = bss)).
  - done.
  - done.
  - split; [done|]. unfold GET_ENCRY_ALGO. by rewrite W1, W3.
  - by rewrite A1.
  - done.
  - done.
  - unfold must_wait. by rewrite Hap2.
  - rewrite B7. cbv zeta. fold hl. destruct (ccmp_header_class a 1 (bss ++ me ++ d) q num iv8 HA Hiv) as [C1 C2]; [lia|by rewrite Henc|done|].
    by split.
  - by rewrite B7.
  - split; [done|]. rewrite Hhd, Hbody. unfold hl. change MAX_MSG_SIZE with 2048. destruct q; lia.
  - split; [lia|]. unfold body. apply bytes_ok_app_2; [apply llc_ok|done].
Qed.
End receives.

(** ** The path of a packet *)

Section path.
Context (c : rx_config) (t : tx_config) (sec : security_priv) (w : bool) (se stk si : bytes).

(** What the access point hands to its stack. *)
Lemma air_received c2 not_pcie hiq_filter ap_expire_to HZ now ok drv ht zmalloc_ok beyond passing sp xs o st x a d ty payload n e p pre post o2 s2 :
  station c t sec sp xs o st x -> packet_ok t d ty payload (myid c) -> sent_attrib c t a o st d ty payload ->
  let pkt := eth_packet d (myid c) ty payload in
  let air := on_air c t w a (dot118021x_UncstKey st) n pkt in
  access_point c2 drv ht e (mybssid c) (myid c) o2 s2 -> dot118021x_UncstKey s2 = dot118021x_UncstKey st ->
  received p pre air post -> duplicate (air ++ post) s2 = false ->
  exists e', recv_func c2 not_pcie hiq_filter ap_expire_to HZ now ok drv ht w zmalloc_ok beyond passing e p = Some (e', _SUCCESS) /\
    arrives c2 drv e e' d pkt.
Proof using Type.
  intros Hst [Hd Hty Hbo Hlen _ _] [S1 _ _ _ S5 _ (S7 & S8 & S9 & _) [S10 S11] _ S18 _ S12 S13 _ _ _] pkt air Hap Hkey Hrv Hdup.
  destruct (sn_me _ _ _ _ _ _ _ _ Hst) as [Hme _]. destruct (sn_bssid _ _ _ _ _ _ _ _ Hst) as (Hbs & _ & Hmc).
  assert (Hd14 : drop 14 pkt = payload).
  { unfold pkt, eth_packet. rewrite !app_assoc. apply drop_app_length'. rewrite !length_app. unfold zlen in Hd, Hme. cbn. lia. }
  assert (Hpl : zlen pkt = 14 + zlen payload).
  { unfold pkt, eth_packet. rewrite !zlen_app, Hd, Hme. change (zlen (be_bytes 2 ty)) with 2. lia. }
  assert (Hpo : bytes_ok payload) by (rewrite <- Hd14; by apply bytes_ok_drop).
  assert (Hlo : lengths_ok a) by (constructor; rewrite ?S12, ?S8, ?S9, ?S10, ?S11; [destruct (pqos_option t)|..]; lia).
  unfold air, on_air, ccmp_hd, ccmp_body in *. rewrite Hd14, S1, <- Hkey in *.
  destruct (station_frame c2 drv ht w e p pre post a d ty payload (pqos_option t) (next_seq n) (iv_bytes a) (myid c) (mybssid c) o2 s2
    Hap Hbs Hmc Hme Hd) as (Hfr & Has); try done;
    [by apply (land_range_r 12)|by rewrite zlen_iv_bytes|unfold pkt in *; lia|].
  destruct (Hap) as [(Hmode & M1 & M2 & M3 & Hmon) Hmp Hrun _ _ (_ & _ & Hbc) (_ & _ & Hbl) _ _ _].
  assert (Hinf : normal_mode c2) by (split; [done|]; unfold ad_hoc; rewrite M1, M2; by left).
  destruct (recv_func_ccmp_run c2 not_pcie hiq_filter ap_expire_to HZ now ok drv ht w zmalloc_ok beyond passing e p _ _ _ _ _ _ _
    Hinf Hmon Hmp Hrun Hfr) as (e' & Er & Hh).
  unfold port_open in Er, Hh. rewrite Hbl, andb_false_r in Er, Hh. cbn [negb orb] in Er, Hh.
  exists e'. split; [exact Er|]. destruct (llc_snap a payload ltac:(lia)) as [Hsn Hdr].
  rewrite msdu_pkt_snap in Hh by (done || rewrite zlen_app, zlen_llc; pose proof (zlen_nonneg payload); lia).
  destruct (Has (pattr p)) as [E1 E2]. rewrite Hdr, S5, E1, E2 in Hh.
  match type of Hh with delivered _ _ _ _ (get_da ?h) _ _ =>
    destruct (data_attrib_fields c2 o2 h (pattr p)) as (_ & _ & _ & _ & _ & _ & Hda & _) end.
  rewrite E1 in Hda. rewrite <- Hda in Hh.
  exact (delivered_arrives c2 drv e p d pkt e' Hinf (proj1 Hmode) Hbc Hh).
Qed.

(** C1: A packet goes from a station through the access point.  Under WPA2 with CCMP in
    software on both sides, without fragmentation (the packet fits the fragmentation
    threshold, [packet_ok]) and without A-MSDU, [update_attrib] and
    [rtw_xmitframe_coalesce] of an authorised station turn any Ethernet packet of its own
    into one frame in the transmit buffer, without an access outside it.  Whatever access
    point of that BSS has the same key for the station, its port open and no enabled
    block-ack window for it (with HT; frames of a window are C27 and C28), and receives
    these bytes as no duplicate, its [recv_func] gives back exactly the packet the station
    was given, addresses, type and payload ([arrives]): to its own stack when the packet is
    for the access point or for an unknown address, only to its transmit path when it is for
    another station of its table, and to both when it is for the group (to the stack when the
    clone succeeds). *)
Theorem station_to_access_point sp xs o st x d ty payload g f m : station c t sec sp xs o st x ->
  packet_ok t d ty payload (myid c) -> bytes_ok si -> buf_addr f = Some m -> zlen m = MAX_XMITBUF_SZ ->
  let pkt := eth_packet d (myid c) ty payload in
  exists a xs' log f' s' air post,
    update_attrib c t sec se stk si sp xs pkt init_attrib = Some (a, xs', log, _SUCCESS) /\
    rtw_xmitframe_coalesce c t w (mk_txs sp xs' sec g) pkt (set_attrib a f) = Done (f', s', _SUCCESS) /\
    buf_addr f' = Some (take (Z.to_nat (hw_offset f)) m ++ air ++ post) /\
    nr_frags (at_frag (attrib f')) = 1 /\ last_txcmdsz (at_frag (attrib f')) = zlen air /\
    forall c2 not_pcie hiq_filter ap_expire_to HZ now ok drv ht zmalloc_ok beyond passing e p pre tail o2 s2,
      access_point c2 drv ht e (mybssid c) (myid c) o2 s2 -> dot118021x_UncstKey s2 = dot118021x_UncstKey st ->
      received p pre air tail -> duplicate (air ++ tail) s2 = false ->
      exists e', recv_func c2 not_pcie hiq_filter ap_expire_to HZ now ok drv ht w zmalloc_ok beyond passing e p = Some (e', _SUCCESS) /\
        arrives c2 drv e e' d pkt.
Proof using Type.
  intros Hst Hpk Hsi Hbuf Hm pkt.
  destruct (station_sends c t sec w se stk si sp xs o st x d ty payload g f m Hst Hpk Hsi Hbuf Hm)
    as (a & xs' & log & n & f' & s' & post & Eu & Ec & Hsa & Hb & Hn & Hl).
  exists a, xs', log, f', s', (on_air c t w a (dot118021x_UncstKey st) n pkt), post. do 5 (split; [done|]).
  intros. by eapply air_received.
Qed.
End path.

(** ** Witnesses *)

(** The packet of TxAttrib, and the access point of RxEntry. *)
Definition ex_buf : bytes := replicate (Z.to_nat MAX_XMITBUF_SZ) 0.
Definition ex_txf : tx_frame := mk_txf init_attrib (Some ex_buf) 0 1.
(** The frame of the packet, read from the transmit buffer. *)
Definition ex_air : option bytes :=
  '(a, xs, _, _) ← update_attrib ex_sta_cfg ex_txc (ex_sec true) [] [] [] ex_link_table (ex_stxs 0x010203040506) ex_pkt init_attrib;
  match rtw_xmitframe_coalesce ex_sta_cfg ex_txc true (mk_txs ex_link_table xs (ex_sec true) crc32_globals0) ex_pkt (set_attrib a ex_txf) with
  | Done (f, _, _) => b ← buf_addr f;
      Some (take (Z.to_nat (last_txcmdsz (at_frag (attrib f)))) (drop (Z.to_nat (hw_offset ex_txf)) b))
  | _ => None
  end.

Lemma ex_station : station ex_sta_cfg ex_txc (ex_sec true) ex_link_table (ex_stxs 0x010203040506) 0 ex_peer_sta (ex_stx 0x010203040506).
Proof.
  constructor; repeat split; try (vm_compute; reflexivity); try (vm_compute; discriminate); by apply bytes_ok_spec.
Qed.

Lemma ex_packet_ok : packet_ok ex_txc ex_dst 0x0800 ex_payload ex_peer.
Proof.
  constructor; [reflexivity|lia|by apply bytes_ok_spec|by vm_compute|by vm_compute|split; by vm_compute].
Qed.

Lemma ex_access_point s : stas (table ex_entry) !! 0%nat = Some s ->
  access_point (ex_cfg WIFI_AP_STATE) ex_drv true ex_entry ex_me ex_peer 0 s.
Proof.
  intros Hs. assert (E : ieee8021x_blocked s = false /\ recvreorder_ctrl s = replicate 16 init_reorder)
    by (vm_compute in Hs; injection Hs as <-; by vm_compute). destruct E as [E1 E2].
  constructor; rewrite ?E1, ?E2; repeat match goal with |- _ /\ _ => split end; try reflexivity; try done.
  - apply (ex_ap0_wf 1).
  - apply (dr_caches _ _ _ ex_data_ready).
  - intros _. by apply Forall_replicate.
Qed.

(** The IP packet of the station in the stack of the access point. *)
Lemma station_to_access_point_witness : exists air e',
  ex_air = Some air /\
  recv_func (ex_cfg WIFI_AP_STATE) false 0 0 100 0 (fun _ => true) ex_drv true true (fun _ => true) [] (fun _ => 0)
    ex_entry (ex_precv air) = Some (e', _SUCCESS) /\
  indicated (recvpriv (rw_ad (world e'))) = [ex_pkt] /\ forwarded (recvpriv (rw_ad (world e'))) = [].
Proof.
  destruct (station_to_access_point ex_sta_cfg ex_txc (ex_sec true) true [] [] [] ex_link_table (ex_stxs 0x010203040506) 0 _ (ex_stx 0x010203040506)
    ex_dst 0x0800 ex_payload crc32_globals0 ex_txf ex_buf ex_station ex_packet_ok)
    as (a & xs' & log & f' & s' & air & post & Eu & Ec & Hb & _ & Hl & Hrecv);
    [by apply bytes_ok_spec|reflexivity|unfold zlen, ex_buf; rewrite length_replicate; vm_compute; reflexivity|].
  assert (Ha : ex_air = Some air).
  { unfold ex_air. change ex_pkt with (eth_packet ex_dst (myid ex_sta_cfg) 0x0800 ex_payload). rewrite Eu. cbn [mbind option_bind].
    rewrite Ec, Hb. cbn [mbind option_bind]. rewrite Hl, zlen_to_nat.
    rewrite drop_app_length' by (unfold ex_buf; rewrite length_take, length_replicate; vm_compute; reflexivity). by rewrite take_app_length. }
  clear Eu Ec Hb Hl. assert (Hs : exists s, stas (table ex_entry) !! 0%nat = Some s) by (eexists; vm_compute; reflexivity).
  destruct Hs as [s Hs]. destruct (Hrecv (ex_cfg WIFI_AP_STATE) false 0 0 100 0 (fun _ => true) ex_drv true (fun _ => true) [] (fun _ => 0)
    ex_entry (ex_precv air) [0; 0] (replicate 64 0) 0%nat s) as (e' & Er & _ & Hi & _).
  - exact (ex_access_point s Hs).
  - vm_compute in Hs. injection Hs as <-. vm_compute. reflexivity.
  - vm_compute in Ha. injection Ha as <-. constructor; [constructor; reflexivity|by apply bytes_ok_spec|reflexivity..].
  - vm_compute in Hs, Ha. injection Hs as <-. injection Ha as <-. vm_compute. reflexivity.
  - exists air, e'. split; [exact Ha|]. split; [exact Er|].
    destruct Hi as [_ Hi]; [by vm_compute|by vm_compute|]. destruct Hi as [Hi Hf]; [by vm_compute|]. rewrite Hi, Hf. split; reflexivity.
Defined.
