(* ===== verification/BssInfo.v ===== *)
(** * What a beacon tells of its network (src/core/rtw_mlme_ext.c, include/wlan_bssdef.h)

    [WLAN_BSSID_EX], the description of a network, and [collect_bss_info], which fills it
    from a received beacon, probe response or probe request.  A run ends in [OutOfBounds]
    when it touches memory outside the frame, the IEs array, the SSID, the rates or the
    buffer of the listen channel.  Sizes are those of a 64-bit host ([long] is 8 bytes).
    Not modelled: debug output; CONFIG_ANTENNA_DIVERSITY and CONFIG_INTEL_WIDI, which the
    build leaves out. *)

From S2P Require Import Prelude WifiHdr Ie IeAttr.

(** ** Data *)

Record WLAN_PHY_INFO := PhyInfo {
  SignalStrength : Z; SignalQuality : Z; Optimum_antenna : Z; Reserved_0 : Z
}.

Record NDIS_802_11_SSID := NdisSsid { SsidLength : Z; Ssid : bytes }.

Record NDIS_802_11_CONFIGURATION_FH := FHConfiguration {
  FHLength : Z; HopPattern : Z; HopSet : Z; DwellTime : Z
}.
Record NDIS_802_11_CONFIGURATION := Configuration {
  ConfigLength : Z; BeaconPeriod : Z; ATIMWindow : Z; DSConfig : Z;
  FHConfig : NDIS_802_11_CONFIGURATION_FH
}.

(** [Reserved] is an array of two bytes; the first tells the kind of frame: 1 a beacon,
    2 a probe request, 3 a probe response. *)
Record WLAN_BSSID_EX := WlanBssidEx {
  Length : Z; MacAddress : bytes; Reserved : Z * Z; ssid : NDIS_802_11_SSID; Privacy : Z;
  Rssi : Z; NetworkTypeInUse : Z; config : NDIS_802_11_CONFIGURATION; InfrastructureMode : Z;
  SupportedRates : bytes; phy : WLAN_PHY_INFO; IELength : Z; IEs : bytes
}.

Definition NDIS_802_11_LENGTH_SSID : Z := 32.
Definition NDIS_802_11_LENGTH_RATES_EX : Z := 16.

(** Everything zero. *)
Definition zero_bssid : WLAN_BSSID_EX :=
  WlanBssidEx 0 (replicate 6 0) (0, 0) (NdisSsid 0 (replicate 32 0)) 0 0 0
    (Configuration 0 0 0 0 (FHConfiguration 0 0 0 0)) 0 (replicate 16 0) (PhyInfo 0 0 0 0) 0
    (replicate 768 0).
#[export] Instance bssid_inhabited : Inhabited WLAN_BSSID_EX := populate zero_bssid.

(** The size of the packed structure: 124 bytes before the IEs. *)
Definition sizeof_WLAN_BSSID_EX : Z := 4 + 6 + 2 + 36 + 4 + 8 + 4 + 32 + 4 + 16 + 4 + 4 + MAX_IE_SZ.

Definition get_WLAN_BSSID_EX_sz (bss : WLAN_BSSID_EX) : Z :=
  u32 (sizeof_WLAN_BSSID_EX - MAX_IE_SZ + IELength bss).

Definition Ndis802_11IBSS : Z := 0.
Definition Ndis802_11Infrastructure : Z := 1.
Definition Ndis802_11OFDM24 : Z := 3.

Definition WIFI_PROBEREQ : Z := 0x40.
Definition WIFI_PROBERSP : Z := 0x50.
Definition WIFI_BEACON : Z := 0x80.

Definition _DSSET_IE_ : Z := 3.
Definition _EXT_SUPPORTEDRATES_IE_ : Z := 50.
Definition _HT_CAPABILITY_IE_ : Z := 45.
Definition _HT_ADD_INFO_IE_ : Z := 61.
Definition P2P_ATTR_LISTEN_CH : Z := 6.

(** [rtw_get_capability_from_ie] and [rtw_get_beacon_interval_from_ie] point into the
    fixed fields. *)
Definition rtw_get_capability_from_ie (ie : Z) : Z := ie + 8 + 2.
Definition rtw_get_beacon_interval_from_ie (ie : Z) : Z := ie + 8.
Definition rtw_get_capability (IEs : bytes) : res Z := RTW_GET_LE16 IEs (rtw_get_capability_from_ie 0).

(** ** collect_bss_info *)

(** What the function reads of the adapter: [registrypriv.wifi_spec],
    [mlmext_info.bwmode_updated], [mlmeextpriv.cur_channel] and the operating channel. *)
Record bss_env := BssEnv { wifi_spec : Z; bwmode_updated : bool; cur_channel : Z; oper_channel : Z }.

(** What the driver knows of the frame's reception: [RecvSignalPower], [SignalQuality] and
    [SignalStrength]. *)
Record rx_phy := RxPhy { RecvSignalPower : Z; rxSignalQuality : Z; rxSignalStrength : Z }.

(** The counters of the 20/40 MHz coexistence check, of type int. *)
Record coex := Coex { num_FortyMHzIntolerant : Z; num_sta_no_ht : Z }.

(** [Reserved[0]] and [ie_offset]. *)
Definition bss_frame_kind (subtype : Z) : Z * Z :=
  if subtype =? WIFI_BEACON then (1, _BEACON_IE_OFFSET_)
  else if subtype =? WIFI_PROBERSP then (3, _PROBERSP_IE_OFFSET_)
  else if subtype =? WIFI_PROBEREQ then (2, _PROBEREQ_IE_OFFSET_)
  else (0, _FIXED_IE_LENGTH_).

(** The SSID, [None] when the function fails; and [len]. *)
Definition bss_ssid (IEs : bytes) (ie_offset limit len : Z) : res (option NDIS_802_11_SSID * Z) :=
  '(p, len) ← rtw_get_ie IEs ie_offset _SSID_IE_ len limit;
  match p with
  | None => Done (None, len)
  | Some p =>
    n ← ldr IEs (p + 1);
    if negb (n =? 0) then
      if NDIS_802_11_LENGTH_SSID <? len then Done (None, len)
      else
        b ← rdr IEs (p + 2) n;
        s ← wrr (replicate 32 0) 0 b;
        Done (Some (NdisSsid n s), len)
    else Done (Some (NdisSsid 0 (replicate 32 0)), len)
  end.

(** The supported rates followed by the extended ones. *)
Definition bss_rates (IEs : bytes) (ie_offset limit len : Z) : res (option bytes * Z) :=
  '(p, len) ← rtw_get_ie IEs ie_offset _SUPPORTEDRATES_IE_ len limit;
  r ← (match p with
       | None => Done (Some (replicate 16 0, 0))
       | Some p =>
         if NDIS_802_11_LENGTH_RATES_EX <? len then Done None
         else b ← rdr IEs (p + 2) len; r ← wrr (replicate 16 0) 0 b; Done (Some (r, len))
       end);
  match r with
  | None => Done (None, len)
  | Some (rates, i) =>
    '(p, len) ← rtw_get_ie IEs ie_offset _EXT_SUPPORTEDRATES_IE_ len limit;
    match p with
    | None => Done (Some rates, len)
    | Some p =>
      if NDIS_802_11_LENGTH_RATES_EX - i <? len then Done (None, len)
      else b ← rdr IEs (p + 2) len; r ← wrr rates i b; Done (Some r, len)
    end
  end.

(** The channel a probe request's P2P element listens on, of which the code copies the
    attribute into a buffer of five bytes; without the element the current channel. *)
Definition bss_listen_channel (fuel : nat) (e : bss_env) (IEs : bytes) (ielen : Z) : res (option Z) :=
  '(p2p_ie, _, p2p_ielen) ← rtw_get_p2p_ie IEs 0 ielen None;
  match p2p_ie with
  | Some p2p_ie =>
    '(content, listen_ch, _) ← rtw_get_p2p_attr_content fuel IEs p2p_ie p2p_ielen P2P_ATTR_LISTEN_CH
                                 (Some (replicate 5 0));
    match content, listen_ch with
    | Some _, Some listen_ch => ch ← ldr listen_ch 4; Done (Some ch)
    | _, _ => Done None
    end
  | None => Done (Some (cur_channel e))
  end.

(** The channel of a beacon: the DS element's, or else the HT information's, or else the
    one the receiver is tuned to. *)
Definition bss_channel (e : bss_env) (IEs : bytes) (ie_offset limit len : Z) : res (Z * Z) :=
  '(p, len) ← rtw_get_ie IEs ie_offset _DSSET_IE_ len limit;
  match p with
  | Some p => ch ← ldr IEs (p + 2); Done (ch, len)
  | None =>
    '(p, len) ← rtw_get_ie IEs ie_offset _HT_ADD_INFO_IE_ len limit;
    match p with
    | Some p => ch ← ldr IEs (p + 2); Done (ch, len)
    | None => Done (oper_channel e, len)
    end
  end.

Definition bss_coex (e : bss_env) (IEs : bytes) (ie_offset limit len : Z) (cx : coex) : res coex :=
  if (wifi_spec e =? 1) && negb (bwmode_updated e) then
    '(p, len) ← rtw_get_ie IEs ie_offset _HT_CAPABILITY_IE_ len limit;
    match p with
    | Some p =>
      if 0 <? len then
        info ← RTW_GET_LE16 IEs (p + 2);
        Done (if Z.testbit info 14
              then Coex (s32 (num_FortyMHzIntolerant cx + 1)) (num_sta_no_ht cx) else cx)
      else Done (Coex (num_FortyMHzIntolerant cx) (s32 (num_sta_no_ht cx + 1)))
    | None => Done (Coex (num_FortyMHzIntolerant cx) (s32 (num_sta_no_ht cx + 1)))
    end
  else Done cx.

(** The description of the network, [None] when the function returns [_FAIL] (its callers
    then free the description), and the counters.  [pframe] is the frame's memory,
    [packet_len] its length; [fuel] bounds the walk over the P2P attributes. *)
Definition collect_bss_info (fuel : nat) (e : bss_env) (pframe : bytes) (packet_len : Z) (r : rx_phy)
    (cx : coex) : res (option WLAN_BSSID_EX * coex) :=
  let len := u32 (packet_len - 24) in
  if MAX_IE_SZ <? len then Done (None, cx)
  else
    let subtype := GetFrameSubType pframe in
    let '(kind, ie_offset) := bss_frame_kind subtype in
    let ielen := len in
    ies ← rdr pframe 24 ielen;
    IEs ← wrr (replicate 768 0) 0 ies;
    let limit := s32 (ielen - ie_offset) in
    let phy quality := PhyInfo (rxSignalStrength r) quality 0 0 in
    '(sid, len) ← bss_ssid IEs ie_offset limit len;
    match sid with
    | None => Done (None, cx)
    | Some sid =>
      '(rates, len) ← bss_rates IEs ie_offset limit len;
      match rates with
      | None => Done (None, cx)
      | Some rates =>
        let bss mac priv period ch mode quality :=
          WlanBssidEx (sizeof_WLAN_BSSID_EX - MAX_IE_SZ + ielen) mac (kind, 0) sid priv
            (RecvSignalPower r) Ndis802_11OFDM24
            (Configuration 0 period 0 ch (FHConfiguration 0 0 0 0)) mode rates (phy quality) ielen IEs in
        if subtype =? WIFI_PROBEREQ then
          ch ← bss_listen_channel fuel e IEs ielen;
          match ch with
          | None => Done (None, cx)
          | Some ch =>
            Done (Some (bss (GetAddr2Ptr pframe) 1 0 ch Ndis802_11Infrastructure (rxSignalQuality r)), cx)
          end
        else if ielen <? 12 then Done (None, cx)
        else
          '(ch, len) ← bss_channel e IEs ie_offset limit len;
          period ← RTW_GET_LE16 IEs (rtw_get_beacon_interval_from_ie 0);
          val16 ← rtw_get_capability IEs;
          let '(mode, mac) := if Z.testbit val16 0 then (Ndis802_11Infrastructure, GetAddr2Ptr pframe)
                              else (Ndis802_11IBSS, GetAddr3Ptr pframe) in
          cx ← bss_coex e IEs ie_offset limit len cx;
          let quality := if negb (ch =? oper_channel e) then 101 else rxSignalQuality r in
          Done (Some (bss mac (if Z.testbit val16 4 then 1 else 0) period ch mode quality), cx)
      end
    end.

(** ** The standard's reading of a beacon *)

(** The body of the first element with an id, and an array of [n] bytes that starts with
    given ones. *)
Definition body (id : Z) (els : list elem) : option bytes :=
  '(_, hit) ← find_ie id els; Some hit.2.
Definition pad (n : nat) (b : bytes) : bytes := b ++ replicate (n - length b) 0.

(** An SSID element of at most 32 bytes; at most 16 rates in the two elements. *)
Definition beacon_ssid (els : list elem) : option NDIS_802_11_SSID :=
  s ← body _SSID_IE_ els;
  if zlen s <=? 32 then Some (NdisSsid (zlen s) (pad 32 s)) else None.
Definition beacon_rates (els : list elem) : option bytes :=
  let r := default [] (body _SUPPORTEDRATES_IE_ els) in
  let x := default [] (body _EXT_SUPPORTEDRATES_IE_ els) in
  if zlen r + zlen x <=? 16 then Some (pad 16 (r ++ x)) else None.

Definition beacon_channel (e : bss_env) (els : list elem) : Z :=
  match body _DSSET_IE_ els with
  | Some b => ld0 b 0
  | None => match body _HT_ADD_INFO_IE_ els with Some b => ld0 b 0 | None => oper_channel e end
  end.

(** Networks intolerant of 40 MHz, and those without HT. *)
Definition beacon_coex (e : bss_env) (els : list elem) (cx : coex) : coex :=
  if (wifi_spec e =? 1) && negb (bwmode_updated e) then
    match default [] (body _HT_CAPABILITY_IE_ els) with
    | [] => Coex (num_FortyMHzIntolerant cx) (s32 (num_sta_no_ht cx + 1))
    | b => if Z.testbit (le16_at b 0) 14 then Coex (s32 (num_FortyMHzIntolerant cx + 1)) (num_sta_no_ht cx)
           else cx
    end
  else cx.

(** A beacon or probe response: header, twelve fixed bytes, elements. *)
Definition beacon_bss (e : bss_env) (hdr fixed : bytes) (els : list elem) (r : rx_phy) (cx : coex)
    : option WLAN_BSSID_EX * coex :=
  match beacon_ssid els, beacon_rates els with
  | Some sid, Some rates =>
    let cap := le16_at fixed 10 in
    let ch := beacon_channel e els in
    (Some (WlanBssidEx (124 + 12 + zlen (encode els))
             (if Z.testbit cap 0 then GetAddr2Ptr hdr else GetAddr3Ptr hdr)
             ((if GetFrameSubType hdr =? WIFI_BEACON then 1 else 3), 0) sid
             (if Z.testbit cap 4 then 1 else 0) (RecvSignalPower r) Ndis802_11OFDM24
             (Configuration 0 (le16_at fixed 8) 0 ch (FHConfiguration 0 0 0 0))
             (if Z.testbit cap 0 then Ndis802_11Infrastructure else Ndis802_11IBSS) rates
             (PhyInfo (rxSignalStrength r) (if ch =? oper_channel e then rxSignalQuality r else 101) 0 0)
             (12 + zlen (encode els)) (pad 768 (fixed ++ encode els))),
     beacon_coex e els cx)
  | _, _ => (None, cx)
  end.

(** The elements the function reads bytes of are long enough: a channel has one byte, the
    HT capabilities, if present, two. *)
Definition beacon_ok (els : list elem) : Prop :=
  body _DSSET_IE_ els <> Some [] /\ body _HT_ADD_INFO_IE_ els <> Some [] /\
  (forall b, body _HT_CAPABILITY_IE_ els = Some b -> zlen b <> 1).

(** ** The reads of one element *)

Section beacon.
Context (a c : bytes) (els : list elem).
Let m : bytes := a ++ encode els ++ c.

Lemma get_ie_body id len :
  match body id els with
  | Some b => exists a' c', m = a' ++ encode1 (id, b) ++ c' /\
      rtw_get_ie m (zlen a) id len (zlen (encode els)) = Done (Some (zlen a'), zlen b)
  | None => exists len', rtw_get_ie m (zlen a) id len (zlen (encode els)) = Done (None, len')
  end.
Proof.
  unfold body. destruct (decide (els = [])) as [He|Hn].
  { rewrite He. by exists len. }
  pose proof (get_ie_run a els c id len Hn) as Hrun. unfold m.
  destruct (find_ie id els) as [[before hit]|] eqn:Hf; cbn [mbind option_bind].
  - apply find_ie_Some in Hf as (after & Hs & Hh & _). destruct hit as [id' b]. cbn in Hh. subst id'.
    exists (a ++ encode before), (encode after ++ c). split.
    + rewrite Hs, encode_app, encode_cons. by rewrite <- !app_assoc.
    + by rewrite zlen_app.
  - exists 0. exact Hrun.
Qed.

Lemma wr_pad n (b : bytes) : zlen b <= Z.of_nat n -> wrr (replicate n 0) 0 b = Done (pad n b).
Proof.
  intros Hb. unfold pad.
  replace (replicate n 0) with ([] ++ replicate (length b) 0 ++ replicate (n - length b) 0).
  2:{ cbn [app]. rewrite <- replicate_add. f_equal. unfold zlen in Hb. lia. }
  rewrite wrr_mid; [done|done|by rewrite length_replicate].
Qed.

Lemma rdr_body a' id b c' m' : m' = a' ++ encode1 (id, b) ++ c' ->
  rdr m' (zlen a' + 2) (zlen b) = Done b.
Proof.
  intros ->. rewrite (rd_body a') by (simpl; pose proof (zlen_nonneg b); lia).
  cbn [snd]. by rewrite zlen_to_nat, firstn_all.
Qed.

Lemma bss_ssid_run len : exists len',
  bss_ssid m (zlen a) (zlen (encode els)) len = Done (beacon_ssid els, len').
Proof.
  unfold bss_ssid, beacon_ssid. pose proof (get_ie_body _SSID_IE_ len) as H.
  destruct (body _SSID_IE_ els) as [s|]; cbn [mbind option_bind].
  2:{ destruct H as [len' ->]. by exists len'. }
  destruct H as (a' & c' & Hm & ->). rewrite done_bind. exists (zlen s).
  rewrite Hm, ld_len, done_bind by done. cbn [snd]. pose proof (zlen_nonneg s).
  destruct (Z.eqb_spec (zlen s) 0) as [E|E]; cbn [negb].
  - destruct s; [done|]. rewrite zlen_cons in E. pose proof (zlen_nonneg s). lia.
  - unfold NDIS_802_11_LENGTH_SSID.
    destruct (Z.ltb_spec 32 (zlen s)), (Z.leb_spec (zlen s) 32); try lia; [done|].
    rewrite (rdr_body a' _SSID_IE_ s c'), done_bind by done. by rewrite wr_pad, done_bind by lia.
Qed.

Lemma wr_pad_app n (b x : bytes) : zlen b + zlen x <= Z.of_nat n ->
  wrr (pad n b) (zlen b) x = Done (pad n (b ++ x)).
Proof.
  intros Hb. unfold pad. rewrite length_app.
  replace (replicate (n - length b) 0)
    with (replicate (length x) 0 ++ replicate (n - (length b + length x)) 0).
  2:{ rewrite <- replicate_add. f_equal. unfold zlen in Hb. lia. }
  rewrite wrr_mid; [by rewrite <- app_assoc|done|by rewrite length_replicate].
Qed.

Lemma bss_rates_run len : exists len',
  bss_rates m (zlen a) (zlen (encode els)) len = Done (beacon_rates els, len').
Proof.
  unfold bss_rates, beacon_rates, NDIS_802_11_LENGTH_RATES_EX.
  set (r := default [] (body _SUPPORTEDRATES_IE_ els)).
  set (x := default [] (body _EXT_SUPPORTEDRATES_IE_ els)).
  pose proof (zlen_nonneg r). pose proof (zlen_nonneg x).
  assert (H1 : exists p len', rtw_get_ie m (zlen a) _SUPPORTEDRATES_IE_ len (zlen (encode els)) = Done (p, len') /\
     match p with
       | None => Done (Some (replicate 16 0, 0))
       | Some p =>
         if 16 <? len' then Done None
         else b ← rdr m (p + 2) len'; r ← wrr (replicate 16 0) 0 b; Done (Some (r, len'))
     end = Done (if zlen r <=? 16 then Some (pad 16 r, zlen r) else None)).
  { pose proof (get_ie_body _SUPPORTEDRATES_IE_ len) as H1. subst r.
    destruct (body _SUPPORTEDRATES_IE_ els) as [s|]; cbn [default from_option].
    - destruct H1 as (a' & c' & Hm & ->). do 2 eexists. split; [done|]. cbn [default from_option id] in *.
      destruct (Z.ltb_spec 16 (zlen s)), (Z.leb_spec (zlen s) 16); try lia; [done|].
      rewrite (rdr_body a' _SUPPORTEDRATES_IE_ s c'), done_bind by done. by rewrite wr_pad, done_bind by lia.
    - destruct H1 as [len' ->]. by exists None, len'. }
  destruct H1 as (p & len1 & -> & H1). rewrite done_bind. cbv beta iota zeta.
  rewrite H1, done_bind. clear H1.
  destruct (Z.leb_spec (zlen r) 16).
  2:{ exists len1. rewrite (proj2 (Z.leb_gt _ _)) by lia. done. }
  pose proof (get_ie_body _EXT_SUPPORTEDRATES_IE_ len1) as H2. subst x.
  destruct (body _EXT_SUPPORTEDRATES_IE_ els) as [s|]; cbn [default from_option id] in *.
  - destruct H2 as (a' & c' & Hm & ->). rewrite done_bind. exists (zlen s).
    destruct (Z.ltb_spec (16 - zlen r) (zlen s)), (Z.leb_spec (zlen r + zlen s) 16); try lia; [done|].
    rewrite (rdr_body a' _EXT_SUPPORTEDRATES_IE_ s c'), done_bind by done.
    by rewrite wr_pad_app, done_bind by lia.
  - destruct H2 as [len' ->]. rewrite done_bind. exists len'.
    rewrite app_nil_r, zlen_nil. by rewrite (proj2 (Z.leb_le _ _)) by lia.
Qed.

(** The first byte of an element. *)
Lemma ld_first a' id b c' : b <> [] ->
  ldr (a' ++ encode1 (id, b) ++ c') (zlen a' + 2) = Done (ld0 b 0).
Proof.
  intros Hb. apply (ld_body a' (id, b) c' _ 0); cbn [snd]; [lia|].
  destruct b; [done|]. rewrite zlen_cons. pose proof (zlen_nonneg b). lia.
Qed.

Lemma bss_channel_run e len : body _DSSET_IE_ els <> Some [] -> body _HT_ADD_INFO_IE_ els <> Some [] ->
  exists len', bss_channel e m (zlen a) (zlen (encode els)) len = Done (beacon_channel e els, len').
Proof.
  intros Hd Hh. unfold bss_channel, beacon_channel. pose proof (get_ie_body _DSSET_IE_ len) as H1.
  destruct (body _DSSET_IE_ els) as [b|].
  { destruct H1 as (a' & c' & Hm & ->). rewrite done_bind, Hm, ld_first, done_bind by congruence. by eexists. }
  destruct H1 as [len1 ->]. rewrite done_bind. pose proof (get_ie_body _HT_ADD_INFO_IE_ len1) as H2.
  destruct (body _HT_ADD_INFO_IE_ els) as [b|].
  { destruct H2 as (a' & c' & Hm & ->). rewrite done_bind, Hm, ld_first, done_bind by congruence. by eexists. }
  destruct H2 as [len2 ->]. by eexists.
Qed.

Lemma bss_coex_run e len cx : (forall b, body _HT_CAPABILITY_IE_ els = Some b -> zlen b <> 1) ->
  bss_coex e m (zlen a) (zlen (encode els)) len cx = Done (beacon_coex e els cx).
Proof.
  intros Hh. unfold bss_coex, beacon_coex.
  set (on := (wifi_spec e =? 1) && negb (bwmode_updated e)). destruct on; [|done].
  pose proof (get_ie_body _HT_CAPABILITY_IE_ len) as H1.
  destruct (body _HT_CAPABILITY_IE_ els) as [b|]; cbn [default from_option id].
  2:{ by destruct H1 as [len1 ->]. }
  destruct H1 as (a' & c' & Hm & ->). rewrite done_bind. specialize (Hh b eq_refl).
  destruct b as [|x [|y b]]; [done|done|].
  rewrite (proj2 (Z.ltb_lt _ _)) by (rewrite !zlen_cons; pose proof (zlen_nonneg b); lia).
  unfold RTW_GET_LE16. rewrite Hm, ld_first, done_bind by done.
  rewrite (ld_body a' (_HT_CAPABILITY_IE_, x :: y :: b) c' _ 1), done_bind
    by (cbn [snd]; rewrite ?zlen_cons; pose proof (zlen_nonneg b); lia).
  unfold le16_at. cbn [snd]. by rewrite Z.lor_comm.
Qed.
End beacon.

(** ** Facts of the frame *)

Lemma le16_lor m p x y : ldr m p = Done x -> ldr m (p + 1) = Done y ->
  RTW_GET_LE16 m p = Done (x .| (y .<< 8)).
Proof. intros H1 H2. unfold RTW_GET_LE16. by rewrite H1, done_bind, H2, done_bind, Z.lor_comm. Qed.

Lemma le16_fixed (a c : bytes) p : 0 <= p -> p + 2 <= zlen a ->
  RTW_GET_LE16 (a ++ c) p = Done (le16_at a p).
Proof.
  intros. pose proof (zlen_nonneg c).
  rewrite (le16_lor _ _ (ld0 a p) (ld0 a (p + 1))); [done| |].
  all: unfold ldr; rewrite ld_app_l by lia; by rewrite ld_Some by lia.
Qed.

Lemma subtype_app h c : 2 <= zlen h -> GetFrameSubType (h ++ c) = GetFrameSubType h.
Proof. intros. unfold GetFrameSubType, le16_at. by rewrite !ld0_app_l by lia. Qed.
Lemma addr_at_app n h c : (n + 6 <= length h)%nat -> addr_at n (h ++ c) = addr_at n h.
Proof.
  intros. unfold addr_at. rewrite drop_app_le by lia. by rewrite take_app_le by (rewrite length_drop; lia).
Qed.

Lemma beacon_kind t : t = WIFI_BEACON \/ t = WIFI_PROBERSP ->
  bss_frame_kind t = (if t =? WIFI_BEACON then 1 else 3, 12) /\ (t =? WIFI_PROBEREQ) = false.
Proof. by intros [-> | ->]. Qed.

(** The sizes of a description: the SSID and the IEs are in their arrays. *)
Record bss_ok (b : WLAN_BSSID_EX) : Prop := {
  bss_ssid_len : 0 <= SsidLength (ssid b) <= 32;
  bss_ssid_array : zlen (Ssid (ssid b)) = 32;
  bss_ie_len : 0 <= IELength b <= MAX_IE_SZ;
  bss_ie_array : zlen (IEs b) = MAX_IE_SZ
}.

Lemma zlen_pad n b : zlen b <= Z.of_nat n -> zlen (pad n b) = Z.of_nat n.
Proof. intros. unfold pad, zlen in *. rewrite length_app, length_replicate. lia. Qed.

Lemma beacon_bss_ok e hdr fixed els r cx b cx' : zlen fixed = 12 -> 12 + zlen (encode els) <= MAX_IE_SZ ->
  beacon_bss e hdr fixed els r cx = (Some b, cx') -> bss_ok b.
Proof.
  unfold beacon_bss, beacon_ssid, MAX_IE_SZ. intros Hf Hl H. pose proof (zlen_nonneg (encode els)).
  destruct (body _SSID_IE_ els) as [s|]; cbn [mbind option_bind] in H; [|done].
  destruct (Z.leb_spec (zlen s) 32); [|done].
  destruct (beacon_rates els); [|done]. injection H as <- <-. pose proof (zlen_nonneg s).
  split; cbn [ssid IELength IEs SsidLength Ssid]; unfold MAX_IE_SZ; try lia.
  - by apply zlen_pad.
  - apply zlen_pad. rewrite zlen_app. lia.
Qed.

(** The whole run. *)
Lemma collect_beacon fuel e hdr fixed els r cx :
  zlen hdr = 24 -> zlen fixed = 12 -> 12 + zlen (encode els) <= MAX_IE_SZ -> beacon_ok els ->
  GetFrameSubType hdr = WIFI_BEACON \/ GetFrameSubType hdr = WIFI_PROBERSP ->
  collect_bss_info fuel e (hdr ++ fixed ++ encode els) (24 + 12 + zlen (encode els)) r cx
  = Done (beacon_bss e hdr fixed els r cx).
Proof.
  unfold MAX_IE_SZ. intros Hh Hf Hl (Hds & Hinfo & Hcap) Hk. pose proof (zlen_nonneg (encode els)).
  unfold collect_bss_info, MAX_IE_SZ.
  rewrite u32_id by lia. rewrite (proj2 (Z.ltb_ge _ _)) by lia.
  rewrite subtype_app by lia. destruct (beacon_kind _ Hk) as [-> Hq]. rewrite Hq.
  rewrite <- (app_nil_r (encode els)) at 1. rewrite (app_assoc fixed).
  rewrite (rdr_mid hdr (fixed ++ encode els) []), done_bind by (rewrite ?zlen_app; lia).
  rewrite wr_pad, done_bind by (rewrite zlen_app; lia).
  rewrite s32_id by lia. replace (24 + 12 + zlen (encode els) - 24 - 12) with (zlen (encode els)) by lia.
  replace (24 + 12 + zlen (encode els) - 24) with (12 + zlen (encode els)) by lia.
  set (c := replicate (768 - length (fixed ++ encode els)) 0).
  assert (HI : pad 768 (fixed ++ encode els) = fixed ++ encode els ++ c)
    by (unfold pad; by rewrite <- app_assoc).
  rewrite HI, <- Hf. unfold beacon_bss.
  destruct (bss_ssid_run fixed c els (12 + zlen (encode els))) as [l1 H1].
  rewrite Hf in *. rewrite H1, done_bind. destruct (beacon_ssid els) as [sid|]; [|done].
  destruct (bss_rates_run fixed c els l1) as [l2 H2].
  rewrite Hf in *. rewrite H2, done_bind. destruct (beacon_rates els) as [rates|]; [|done].
  rewrite (proj2 (Z.ltb_ge _ 12)) by lia.
  destruct (bss_channel_run fixed c els e l2 Hds Hinfo) as [l3 H3].
  rewrite Hf in *. rewrite H3, done_bind.
  unfold rtw_get_capability, rtw_get_capability_from_ie, rtw_get_beacon_interval_from_ie.
  rewrite (le16_fixed fixed _ 8), done_bind by lia. rewrite (le16_fixed fixed _ 10), done_bind by lia.
  pose proof (bss_coex_run fixed c els e l3 cx Hcap) as H4. rewrite Hf in H4.
  unfold GetAddr2Ptr, GetAddr3Ptr. rewrite !addr_at_app by (unfold zlen in Hh; lia).
  rewrite HI. replace (sizeof_WLAN_BSSID_EX - 768) with 124 by done.
  rewrite Z.add_assoc.
  destruct (Z.testbit (le16_at fixed 10) 0).
  all: rewrite H4, done_bind; do 3 f_equal; destruct (beacon_channel e els =? oper_channel e); done.
Qed.

(** A probe request: header and elements, among them a P2P element with attributes. *)
Section probe_req.
Context (e : bss_env) (hdr : bytes) (before after : list elem) (attrs : list elem) (r : rx_phy).
Let els : list elem := before ++ (221, p2p_oui ++ enc_attrs p2p_head attrs) :: after.

Definition probe_bss (sid : NDIS_802_11_SSID) (rates : bytes) (ch : Z) : WLAN_BSSID_EX :=
  WlanBssidEx (124 + zlen (encode els)) (GetAddr2Ptr hdr) (2, 0) sid 1 (RecvSignalPower r)
    Ndis802_11OFDM24 (Configuration 0 0 0 ch (FHConfiguration 0 0 0 0)) Ndis802_11Infrastructure rates
    (PhyInfo (rxSignalStrength r) (rxSignalQuality r) 0 0) (zlen (encode els)) (pad 768 (encode els)).

(** The attribute is copied when it fits in the five bytes of [listen_ch]; a shorter one
    leaves the rest of them zero. *)
Definition probe_channel : res (option Z) :=
  match find_by (fun a => a.1 =? P2P_ATTR_LISTEN_CH) attrs with
  | Some (_, hit) => if zlen hit.2 <=? 5 then Done (Some (ld0 (pad 5 hit.2) 4)) else OutOfBounds
  | None => Done None
  end.

Hypotheses (Hbefore : Forall (fun a => is_p2p a = false) before)
  (Hbfits : Forall p2p_fits before) (Hafits : Forall p2p_fits after) (Hattrs : Forall p2p_ok attrs)
  (Hlen : zlen (encode els) <= MAX_IE_SZ).

Lemma bss_listen_run fuel c : (length attrs <= fuel)%nat ->
  bss_listen_channel fuel e (encode els ++ c) (zlen (encode els)) = probe_channel.
Proof using Hbefore Hbfits Hafits Hattrs Hlen.
  intros Hf. unfold bss_listen_channel, probe_channel.
  pose proof (get_p2p_ie_run [] els c) as H1. cbn [app] in H1. change (zlen []) with 0 in H1.
  rewrite H1, done_bind; [|apply list.Forall_app; split; [done|]; constructor; [|done]|done].
  2:{ intros _. cbn [snd]. rewrite zlen_app. change (zlen p2p_oui) with 4.
      pose proof (zlen_nonneg (enc_attrs p2p_head attrs)). lia. }
  assert (Hfind : find_by is_p2p els
    = Some (before, (221, p2p_oui ++ enc_attrs p2p_head attrs))) by (by apply find_by_first).
  rewrite Hfind. cbn [snd]. rewrite Z.add_0_l.
  replace (encode els ++ c)
    with (encode before ++ attr_ie p2p_head p2p_oui (4 + zlen (enc_attrs p2p_head attrs)) attrs
            ++ (encode after ++ c)).
  2:{ subst els. rewrite encode_app, encode_cons, encode1_p2p, <- !app_assoc. done. }
  unfold rtw_get_p2p_attr_content.
  rewrite (get_attr_content_run 3 p2p_id p2p_len p2p_head p2p_ok); try done.
  2: by intros ? [_ ?].
  2: apply p2p_id_ok.
  2: apply p2p_len_ok.
  2:{ rewrite zlen_app. change (zlen p2p_oui) with 4. lia. }
  destruct (find_by _ attrs) as [[b hit]|]; [|done]. change (zlen (replicate 5 0)) with 5.
  destruct (Z.leb_spec (zlen hit.2) 5); [|done]. rewrite done_bind.
  assert (Hp : hit.2 ++ drop (length hit.2) (replicate 5 0) = pad 5 hit.2) by (by rewrite drop_replicate).
  rewrite Hp, ldr_ok by (rewrite zlen_pad by lia; lia). by rewrite done_bind.
Qed.

Lemma collect_probe fuel cx : zlen hdr = 24 -> GetFrameSubType hdr = WIFI_PROBEREQ ->
  (length attrs <= fuel)%nat ->
  collect_bss_info fuel e (hdr ++ encode els) (24 + zlen (encode els)) r cx
  = match beacon_ssid els, beacon_rates els with
    | Some sid, Some rates =>
      ch ← probe_channel; Done (option_map (probe_bss sid rates) ch, cx)
    | _, _ => Done (None, cx)
    end.
Proof using Hbefore Hbfits Hafits Hattrs Hlen.
  intros Hh Hk Hf. unfold MAX_IE_SZ in Hlen. pose proof (zlen_nonneg (encode els)).
  unfold collect_bss_info, MAX_IE_SZ.
  rewrite u32_id by lia. rewrite (proj2 (Z.ltb_ge _ _)) by lia.
  rewrite subtype_app, Hk by lia.
  replace (bss_frame_kind WIFI_PROBEREQ) with (2, 0) by reflexivity.
  rewrite <- (app_nil_r (encode els)) at 1.
  rewrite (rdr_mid hdr (encode els) []), done_bind by lia.
  rewrite wr_pad, done_bind by lia. rewrite s32_id by lia.
  replace (24 + zlen (encode els) - 24) with (zlen (encode els)) by lia. rewrite Z.sub_0_r.
  set (c := replicate (768 - length (encode els)) 0).
  assert (HI : pad 768 (encode els) = [] ++ encode els ++ c) by done. rewrite HI.
  destruct (bss_ssid_run [] c els (zlen (encode els))) as [l1 H1].
  change (zlen []) with 0 in *. rewrite H1, done_bind. destruct (beacon_ssid els) as [sid|]; [|done].
  destruct (bss_rates_run [] c els l1) as [l2 H2].
  change (zlen []) with 0 in *. rewrite H2, done_bind. destruct (beacon_rates els) as [rates|]; [|done].
  change (WIFI_PROBEREQ =? WIFI_PROBEREQ) with true. cbn [app].
  rewrite bss_listen_run by done. destruct probe_channel as [[ch|]| |]; [|done..].
  rewrite !done_bind. unfold GetAddr2Ptr at 1. rewrite addr_at_app by (unfold zlen in Hh; lia). done.
Qed.
End probe_req.

(** ** Properties *)

(** C26: A beacon or probe response whose elements fit in the 768 bytes of the IEs array, and
    whose DS, HT information and HT capability elements have the bytes that are read of them
    ([beacon_ok]: one, one and two), is read as the standard reads it: the network is described exactly when the first SSID
    element has at most 32 bytes and the rate elements at most 16 together; its address,
    kind and privacy come from the capabilities, its channel from the DS element, the HT
    information or the receiver, and a network heard from another channel has signal
    quality 101; the coexistence counters count the HT capabilities. *)
Theorem collect_bss_info_reads fuel e hdr fixed els r cx :
  zlen hdr = 24 -> zlen fixed = 12 -> 12 + zlen (encode els) <= MAX_IE_SZ -> beacon_ok els ->
  GetFrameSubType hdr = WIFI_BEACON \/ GetFrameSubType hdr = WIFI_PROBERSP ->
  collect_bss_info fuel e (hdr ++ fixed ++ encode els) (24 + 12 + zlen (encode els)) r cx
  = Done (beacon_bss e hdr fixed els r cx).
Proof. apply collect_beacon. Qed.

Definition ex_hdr (fc : Z) : bytes := [fc; 0; 0; 0] ++ replicate 6 255 ++ [2; 0; 0; 0; 0; 7] ++ [2; 0; 0; 0; 0; 7] ++ [0; 0].
Definition ex_fixed : bytes := [0; 0; 0; 0; 0; 0; 0; 0; 100; 0; 0x11; 0].
Definition ex_els : list elem := [(0, [65; 66]); (1, [130; 132]); (3, [6]); (45, [0; 64])].
Definition ex_env : bss_env := BssEnv 1 false 6 11.

Lemma collect_bss_info_reads_witness :
  collect_bss_info 0 ex_env (ex_hdr 0x80 ++ ex_fixed ++ encode ex_els) (24 + 12 + 15) (RxPhy (-40) 80 90) (Coex 0 0)
  = Done (Some (WlanBssidEx 151 [2; 0; 0; 0; 0; 7] (1, 0) (NdisSsid 2 (pad 32 [65; 66])) 1 (-40) 3
       (Configuration 0 100 0 6 (FHConfiguration 0 0 0 0)) 1 (pad 16 [130; 132]) (PhyInfo 90 101 0 0) 27
       (pad 768 (ex_fixed ++ encode ex_els))), Coex 1 0).
Proof.
  refine (collect_bss_info_reads 0 ex_env (ex_hdr 0x80) ex_fixed ex_els (RxPhy (-40) 80 90) (Coex 0 0) _ _ _ _ _).
  - reflexivity.
  - reflexivity.
  - vm_compute. discriminate.
  - split; [|split]; [vm_compute; discriminate..|]. intros b [= <-]. vm_compute. discriminate.
  - left. reflexivity.
Defined.

(** A probe request with a P2P element is described with the listen channel of its first
    listen channel attribute, exactly when it has one; the attribute is copied into five
    bytes of the stack without a check, so that one with a longer content is written past
    their end. *)
Theorem collect_bss_info_probe_req e hdr before after attrs r fuel cx :
  let els := before ++ (221, p2p_oui ++ enc_attrs p2p_head attrs) :: after in
  Forall (fun a => is_p2p a = false) before -> Forall p2p_fits before -> Forall p2p_fits after ->
  Forall p2p_ok attrs -> zlen (encode els) <= MAX_IE_SZ ->
  zlen hdr = 24 -> GetFrameSubType hdr = WIFI_PROBEREQ -> (length attrs <= fuel)%nat ->
  collect_bss_info fuel e (hdr ++ encode els) (24 + zlen (encode els)) r cx
  = match beacon_ssid els, beacon_rates els with
    | Some sid, Some rates =>
      match find_by (fun a => a.1 =? P2P_ATTR_LISTEN_CH) attrs with
      | Some (_, hit) =>
        if zlen hit.2 <=? 5
        then Done (Some (probe_bss hdr before after attrs r sid rates (ld0 (pad 5 hit.2) 4)), cx)
        else OutOfBounds
      | None => Done (None, cx)
      end
    | _, _ => Done (None, cx)
    end.
Proof.
  intros els ????? Hh Hk Hf. unfold els. rewrite collect_probe by done.
  destruct (beacon_ssid _); [|done]. destruct (beacon_rates _); [|done]. unfold probe_channel.
  destruct (find_by _ attrs) as [[b hit]|]; [|done]. by destruct (zlen hit.2 <=? 5).
Qed.

Lemma collect_bss_info_probe_req_witness :
  let run ch := collect_bss_info 2 ex_env
    (ex_hdr 0x40 ++ encode ([(0, [65]); (1, [130])] ++ (221, p2p_oui ++ enc_attrs p2p_head [(2, [1; 2]); (6, ch)]) :: []))
    (24 + (6 + 14 + zlen ch)) (RxPhy (-40) 80 90) (Coex 0 0) in
  run [88; 88; 4; 81; 11] = Done (Some (probe_bss (ex_hdr 0x40) [(0, [65]); (1, [130])] []
      [(2, [1; 2]); (6, [88; 88; 4; 81; 11])] (RxPhy (-40) 80 90)
      (NdisSsid 1 (pad 32 [65])) (pad 16 [130]) 11), Coex 0 0) /\
  run [88; 88; 4; 81; 11; 1] = OutOfBounds.
Proof.
  assert (H : forall ch, zlen ch < 8 -> Forall p2p_ok [(2, [1; 2]); (6, ch)]).
  { intros ch Hl. repeat constructor; try (vm_compute; discriminate). cbn [snd]. lia. }
  split.
  - refine (collect_bss_info_probe_req ex_env (ex_hdr 0x40) [(0, [65]); (1, [130])] []
      [(2, [1; 2]); (6, [88; 88; 4; 81; 11])] (RxPhy (-40) 80 90) 2 (Coex 0 0) _ _ _ _ _ _ _ _).
    + repeat constructor.
    + repeat constructor; intros [=].
    + constructor.
    + by apply H.
    + vm_compute. discriminate.
    + reflexivity.
    + reflexivity.
    + reflexivity.
  - refine (collect_bss_info_probe_req ex_env (ex_hdr 0x40) [(0, [65]); (1, [130])] []
      [(2, [1; 2]); (6, [88; 88; 4; 81; 11; 1])] (RxPhy (-40) 80 90) 2 (Coex 0 0) _ _ _ _ _ _ _ _).
    + repeat constructor.
    + repeat constructor; intros [=].
    + constructor.
    + by apply H.
    + vm_compute. discriminate.
    + reflexivity.
    + reflexivity.
    + reflexivity.
Defined.
