(* ===== verification/ScanTable.v ===== *)
(** * The table of scanned networks (src/core/rtw_mlme.c)

    The pool of 128 [struct wlan_network]: the free queue, the queue of scanned networks
    and their count; allocation, release, expiry and lookup of entries, and the update of
    the table from a survey event.  An entry is its place in the pool; an entry no
    operation has written is zero, as [rtw_zvmalloc] leaves it.  [jiffies] is the kernel's
    tick counter when an operation runs.  Not modelled: the locks, debug output,
    [rtw_cfg80211_unlink_bss] (the kernel's own table of networks), and the fields
    [list] and [BcnInfo] of an entry. *)

From stdpp Require Import gmap.
From S2P Require Import Prelude WifiHdr Ie IeAttr BssInfo.

(** ** Data *)

Definition MAX_BSS_CNT : nat := 128.
Definition SCANQUEUE_LIFETIME : Z := 20000.

Definition _FW_LINKED : Z := 0x1.
Definition WIFI_ADHOC_STATE : Z := 0x20.
Definition WIFI_ADHOC_MASTER_STATE : Z := 0x40.
Definition _FW_UNDER_LINKING : Z := 0x80.
Definition P2P_STATE_NONE : Z := 0.
Definition P2P_ATTR_GROUP_INFO : Z := 14.
Definition _ERPINFO_IE_ : Z := 42.

Record wlan_network := WlanNetwork {
  network_type : Z; fixed : bool; last_scanned : Z; aid : Z; join_res : Z; network : WLAN_BSSID_EX
}.
#[export] Instance wlan_network_inhabited : Inhabited wlan_network :=
  populate (WlanNetwork 0 false 0 0 0 zero_bssid).

(** The pool [free_bss_buf] and its queues. *)
Record scan_tab := ScanTab {
  nets : gmap nat wlan_network; free_bss_pool : list nat; scanned_queue : list nat; num_of_scanned : Z
}.

Definition set_net (p : nat) (n : wlan_network) (t : scan_tab) : scan_tab :=
  ScanTab (<[p := n]> (nets t)) (free_bss_pool t) (scanned_queue t) (num_of_scanned t).
Definition set_fixed (b : bool) (n : wlan_network) : wlan_network :=
  WlanNetwork (network_type n) b (last_scanned n) (aid n) (join_res n) (network n).
Definition set_network (b : WLAN_BSSID_EX) (n : wlan_network) : wlan_network :=
  WlanNetwork (network_type n) (fixed n) (last_scanned n) (aid n) (join_res n) b.
Definition set_last_scanned (now : Z) (n : wlan_network) : wlan_network :=
  WlanNetwork (network_type n) (fixed n) now (aid n) (join_res n) (network n).

Definition set_phy (strength quality rssi : Z) (b : WLAN_BSSID_EX) : WLAN_BSSID_EX :=
  WlanBssidEx (Length b) (MacAddress b) (Reserved b) (ssid b) (Privacy b) rssi (NetworkTypeInUse b)
    (config b) (InfrastructureMode b) (SupportedRates b)
    (PhyInfo strength quality (Optimum_antenna (phy b)) (Reserved_0 (phy b))) (IELength b) (IEs b).
Definition set_ies (ielen : Z) (ies : bytes) (b : WLAN_BSSID_EX) : WLAN_BSSID_EX :=
  WlanBssidEx (Length b) (MacAddress b) (Reserved b) (ssid b) (Privacy b) (Rssi b) (NetworkTypeInUse b)
    (config b) (InfrastructureMode b) (SupportedRates b) (phy b) ielen ies.
Definition set_length (len : Z) (b : WLAN_BSSID_EX) : WLAN_BSSID_EX :=
  WlanBssidEx len (MacAddress b) (Reserved b) (ssid b) (Privacy b) (Rssi b) (NetworkTypeInUse b)
    (config b) (InfrastructureMode b) (SupportedRates b) (phy b) (IELength b) (IEs b).
Definition set_ssid_length (len : Z) (b : WLAN_BSSID_EX) : WLAN_BSSID_EX :=
  WlanBssidEx (Length b) (MacAddress b) (Reserved b) (NdisSsid len (Ssid (ssid b))) (Privacy b) (Rssi b)
    (NetworkTypeInUse b) (config b) (InfrastructureMode b) (SupportedRates b) (phy b) (IELength b) (IEs b).

(** [_rtw_memcpy(dst, src, get_WLAN_BSSID_EX_sz(src))]: every field before the IEs, and
    the first [IELength] bytes of these ([IELength] is at most [MAX_IE_SZ]). *)
Definition copy_bss (dst src : WLAN_BSSID_EX) : WLAN_BSSID_EX :=
  let n := Z.to_nat (IELength src) in set_ies (IELength src) (take n (IEs src) ++ drop n (IEs dst)) src.

(** The table after [_rtw_init_mlme_priv]. *)
Definition _rtw_init_mlme_priv : scan_tab := ScanTab ∅ (seq 0 MAX_BSS_CNT) [] 0.

(** What the operations read and change of the adapter: the table, [cur_network.network],
    [fw_state], [wdinfo.p2p_state], the connected network's signal ([recvpriv]), the
    protection in use ([xmitpriv.vcs]), its settings, [registrypriv.wifi_spec]. *)
Record adapter := Adapter {
  tab : scan_tab; cur_network : WLAN_BSSID_EX; fw_state : Z; p2p_state : Z; signal_strength : Z;
  signal_qual : Z; vcs : Z; vcs_setting : Z; vcs_type : Z; ad_wifi_spec : Z
}.
Definition set_tab (t : scan_tab) (a : adapter) : adapter :=
  Adapter t (cur_network a) (fw_state a) (p2p_state a) (signal_strength a) (signal_qual a) (vcs a)
    (vcs_setting a) (vcs_type a) (ad_wifi_spec a).
Definition set_current (b : WLAN_BSSID_EX) (a : adapter) : adapter :=
  Adapter (tab a) b (fw_state a) (p2p_state a) (signal_strength a) (signal_qual a) (vcs a)
    (vcs_setting a) (vcs_type a) (ad_wifi_spec a).
Definition set_vcs (v : Z) (a : adapter) : adapter :=
  Adapter (tab a) (cur_network a) (fw_state a) (p2p_state a) (signal_strength a) (signal_qual a) v
    (vcs_setting a) (vcs_type a) (ad_wifi_spec a).

Definition check_fwstate (fw_state state : Z) : bool := negb (fw_state .& state =? 0).
Definition rtw_p2p_chk_state (a : adapter) (state : Z) : bool := p2p_state a =? state.

(** ** Time *)

Definition rtw_get_current_time (jiffies : Z) : Z := u32 jiffies.

Section time.
(** The kernel's tick rate. *)
Context (HZ : Z).
Definition rtw_systime_to_ms (systime : Z) : Z := u32 (systime * 1000) / HZ.
Definition rtw_get_passing_time_ms (jiffies start : Z) : Z :=
  s32 (rtw_systime_to_ms (u32 (jiffies - start))).
End time.

(** ** Entries *)

Definition _rtw_alloc_network (jiffies : Z) (t : scan_tab) : scan_tab * option nat :=
  match free_bss_pool t with
  | [] => (t, None)
  | p :: fr =>
    let n := nets t !!! p in
    (ScanTab (<[p := WlanNetwork 0 false (rtw_get_current_time jiffies) 0 0 (network n)]> (nets t)) fr
       (scanned_queue t) (u32 (num_of_scanned t + 1)), Some p)
  end.

(** [rtw_list_delete] and [rtw_list_insert_tail] on the free queue: the entry leaves the
    queue it is in, whichever it is. *)
Definition move_to_free (p : nat) (t : scan_tab) : scan_tab :=
  ScanTab (nets t) (filter (fun q => q <> p) (free_bss_pool t) ++ [p])
    (filter (fun q => q <> p) (scanned_queue t)) (u32 (num_of_scanned t - 1)).

Definition _rtw_free_network_nolock (p : option nat) (t : scan_tab) : scan_tab :=
  match p with
  | None => t
  | Some p => if fixed (nets t !!! p) then t else move_to_free p t
  end.

Section expiry.
Context (HZ : Z).
Definition _rtw_free_network (fw_state jiffies : Z) (isfreeall : bool) (t : scan_tab) (p : nat) : scan_tab :=
  let lifetime := SCANQUEUE_LIFETIME in
  if fixed (nets t !!! p) then t
  else
    let lifetime := if check_fwstate fw_state WIFI_ADHOC_MASTER_STATE || check_fwstate fw_state WIFI_ADHOC_STATE
                    then 1 else lifetime in
    let delta_time := u32 (rtw_get_passing_time_ms HZ jiffies (last_scanned (nets t !!! p))) in
    if negb isfreeall && (delta_time <? lifetime) then t else move_to_free p t.

(** The next entry is read before the current one is freed. *)
Definition _rtw_free_network_queue (fw_state jiffies : Z) (isfreeall : bool) (t : scan_tab) : scan_tab :=
  fold_left (_rtw_free_network fw_state jiffies isfreeall) (scanned_queue t) t.
End expiry.

Definition free_scanqueue (t : scan_tab) : scan_tab :=
  fold_left (fun t p => move_to_free p t) (scanned_queue t) t.

Definition _rtw_find_network (t : scan_tab) (addr : bytes) : option nat :=
  if bool_decide (addr = replicate 6 0) then None
  else find (fun p => bool_decide (addr = MacAddress (network (nets t !!! p)))) (scanned_queue t).

(** ** Networks *)

Definition is_same_ess (a b : WLAN_BSSID_EX) : bool :=
  (SsidLength (ssid a) =? SsidLength (ssid b)) &&
  bool_decide (take (Z.to_nat (SsidLength (ssid a))) (Ssid (ssid a))
               = take (Z.to_nat (SsidLength (ssid a))) (Ssid (ssid b))).

Definition WLAN_CAPABILITY_BSS : Z := 1 .<< 0.
Definition WLAN_CAPABILITY_IBSS : Z := 1 .<< 1.

Definition is_same_network (src dst : WLAN_BSSID_EX) (feature : Z) : bool :=
  let s_cap := le16_at (IEs src) (rtw_get_capability_from_ie 0) in
  let d_cap := le16_at (IEs dst) (rtw_get_capability_from_ie 0) in
  if (feature =? 1) && bool_decide (MacAddress src = MacAddress dst) then true
  else
    (SsidLength (ssid src) =? SsidLength (ssid dst)) &&
    bool_decide (MacAddress src = MacAddress dst) &&
    bool_decide (take (Z.to_nat (SsidLength (ssid src))) (Ssid (ssid src))
                 = take (Z.to_nat (SsidLength (ssid src))) (Ssid (ssid dst))) &&
    (s_cap .& WLAN_CAPABILITY_IBSS =? d_cap .& WLAN_CAPABILITY_IBSS) &&
    (s_cap .& WLAN_CAPABILITY_BSS =? d_cap .& WLAN_CAPABILITY_BSS).

Definition _rtw_find_same_network (t : scan_tab) (b : WLAN_BSSID_EX) : option nat :=
  find (fun p => is_same_network b (network (nets t !!! p)) 0) (scanned_queue t).

(** The signal of an entry: a fifth of the sample and four fifths of the history; the
    strength and quality of the connected network are the receiver's. *)
Definition update_network (a : adapter) (dst src : WLAN_BSSID_EX) (update_ie : bool) : WLAN_BSSID_EX :=
  let sq_smp := SignalQuality (phy src) in
  let '(ss_final, sq_final, rssi_final) :=
    if check_fwstate (fw_state a) _FW_LINKED && is_same_network (cur_network a) src 0 then
      (signal_strength a, signal_qual a,
       if negb (sq_smp =? 101) then (Rssi src + Rssi dst * 4) ÷ 5 else Rssi dst)
    else if negb (sq_smp =? 101) then
      (u8 ((SignalStrength (phy src) + SignalStrength (phy dst) * 4) / 5),
       u8 ((SignalQuality (phy src) + SignalQuality (phy dst) * 4) / 5),
       (Rssi src + Rssi dst * 4) ÷ 5)
    else (SignalStrength (phy dst), SignalQuality (phy dst), Rssi dst) in
  let dst := if update_ie then copy_bss dst src else dst in
  set_phy ss_final sq_final rssi_final dst.

(** ** Protection (src/core/rtw_xmit.c) *)

Definition DISABLE_VCS : Z := 0.
Definition ENABLE_VCS : Z := 1.
Definition NONE_VCS : Z := 0.
Definition RTS_CTS : Z := 1.
Definition CTS_TO_SELF : Z := 2.

(** [ie] is the offset of the elements in [IEs]. *)
Definition rtw_update_protection (a : adapter) (IEs : bytes) (ie ie_len : Z) : res adapter :=
  if vcs_setting a =? DISABLE_VCS then Done (set_vcs NONE_VCS a)
  else if vcs_setting a =? ENABLE_VCS then Done a
  else
    '(perp, _) ← rtw_get_ie IEs ie _ERPINFO_IE_ 0 (s32 ie_len);
    match perp with
    | None => Done (set_vcs NONE_VCS a)
    | Some perp =>
      erp ← ldr IEs (perp + 2);
      Done (set_vcs (if Z.testbit erp 1
                     then if vcs_type a =? RTS_CTS then RTS_CTS else CTS_TO_SELF
                     else NONE_VCS) a)
    end.

Definition update_current_network (a : adapter) (pnetwork : WLAN_BSSID_EX) : res adapter :=
  if check_fwstate (fw_state a) _FW_LINKED && is_same_network (cur_network a) pnetwork 0 then
    let a := set_current (update_network a (cur_network a) pnetwork true) a in
    rtw_update_protection a (IEs (cur_network a)) _FIXED_IE_LENGTH_ (IELength (cur_network a))
  else Done a.

(** ** The table and a survey event *)

Section update.
(** The kernel's [time_after], on the 64-bit [last_scanned]. *)
Context (time_after : Z -> Z -> bool).

Definition older (t : scan_tab) (oldest : option nat) (p : nat) : option nat :=
  match oldest with
  | None => Some p
  | Some o => if time_after (last_scanned (nets t !!! o)) (last_scanned (nets t !!! p)) then Some p else oldest
  end.

Definition rtw_get_oldest_wlan_network (t : scan_tab) : option nat :=
  fold_left (fun oldest p => if fixed (nets t !!! p) then oldest else older t oldest p) (scanned_queue t) None.

(** The walk over the queue: the entry of the target's network, or the oldest entry. *)
Fixpoint scan_walk (a : adapter) (target : WLAN_BSSID_EX) (l : list nat) (oldest : option nat)
    : nat + option nat :=
  let feature := if negb (rtw_p2p_chk_state a P2P_STATE_NONE) then 1 else 0 in
  match l with
  | [] => inr oldest
  | p :: l =>
    let b := network (nets (tab a) !!! p) in
    if negb (rtw_p2p_chk_state a P2P_STATE_NONE) && bool_decide (MacAddress b = MacAddress target) then inl p
    else if is_same_network b target feature then inl p
    else scan_walk a target l (older (tab a) oldest p)
  end.

(** Quality 101 marks a network heard from another channel. *)
Definition clear_quality (b : WLAN_BSSID_EX) : WLAN_BSSID_EX :=
  if SignalQuality (phy b) =? 101 then set_phy (SignalStrength (phy b)) 0 (Rssi b) b else b.

Definition rtw_update_scanned_network (jiffies : Z) (a : adapter) (target : WLAN_BSSID_EX) : adapter :=
  let t := tab a in
  match scan_walk a target (scanned_queue t) None with
  | inr oldest =>
    if bool_decide (free_bss_pool t = []) then
      match oldest with
      | None => a
      | Some p =>
        let b := clear_quality (copy_bss (network (nets t !!! p)) target) in
        set_tab (set_net p (WlanNetwork 0 false (rtw_get_current_time jiffies) 0 0 b) t) a
      end
    else
      let '(t, p) := _rtw_alloc_network jiffies t in
      match p with
      | None => set_tab t a
      | Some p =>
        let target := set_length (get_WLAN_BSSID_EX_sz target) target in
        let n := nets t !!! p in
        let b := clear_quality (copy_bss (network n) target) in
        let t := set_net p (set_network b (set_last_scanned (rtw_get_current_time jiffies) n)) t in
        set_tab (ScanTab (nets t) (free_bss_pool t) (scanned_queue t ++ [p]) (num_of_scanned t)) a
      end
  | inl p =>
    let n := set_last_scanned (rtw_get_current_time jiffies) (nets t !!! p) in
    let update_ie := true in
    let update_ie := if (IELength target <? IELength (network n)) && (fst (Reserved target) =? 1)
                     then false else update_ie in
    let update_ie := if negb (fst (Reserved target) =? 2) && (fst (Reserved (network n)) <=? fst (Reserved target))
                     then true else false in
    set_tab (set_net p (set_network (update_network a (network n) target update_ie) n) t) a
  end.

(** [fuel] bounds the walk over the attributes of the P2P element. *)
Definition rtw_add_network (fuel : nat) (jiffies : Z) (a : adapter) (pnetwork : WLAN_BSSID_EX) : res adapter :=
  pnetwork ← (if ad_wifi_spec a =? 0
              then '(ies, ielen) ← rtw_WLAN_BSSID_EX_remove_p2p_attr fuel (IEs pnetwork) (IELength pnetwork)
                                     P2P_ATTR_GROUP_INFO;
                   Done (set_ies ielen ies pnetwork)
              else Done pnetwork);
  a ← update_current_network a pnetwork;
  Done (rtw_update_scanned_network jiffies a pnetwork).

(** The first eight bytes of the IEs are the timestamp. *)
Definition copy_timestamp (dst src : WLAN_BSSID_EX) : WLAN_BSSID_EX :=
  set_ies (IELength dst) (take 8 (IEs src) ++ drop 8 (IEs dst)) dst.

(** The rest of the callback. *)
Definition survey_add (fuel : nat) (jiffies : Z) (a : adapter) (pnetwork : WLAN_BSSID_EX) : res adapter :=
  if negb (check_fwstate (fw_state a) _FW_UNDER_LINKING) then
    let pnetwork := if ld0 (Ssid (ssid pnetwork)) 0 =? 0 then set_ssid_length 0 pnetwork else pnetwork in
    rtw_add_network fuel jiffies a pnetwork
  else Done a.

Definition rtw_survey_event_callback (fuel : nat) (jiffies : Z) (a : adapter) (pnetwork : WLAN_BSSID_EX)
    : res adapter :=
  let len := get_WLAN_BSSID_EX_sz pnetwork in
  if sizeof_WLAN_BSSID_EX <? len then Done a
  else if check_fwstate (fw_state a) WIFI_ADHOC_MASTER_STATE
          && bool_decide (MacAddress (cur_network a) = MacAddress pnetwork) then
    let a := set_current (copy_timestamp (cur_network a) pnetwork) a in
    match _rtw_find_network (tab a) (MacAddress pnetwork) with
    | Some p =>
      let n := nets (tab a) !!! p in
      Done (set_tab (set_net p (set_network (copy_timestamp (network n) pnetwork) n) (tab a)) a)
    | None => survey_add fuel jiffies a pnetwork
    end
  else survey_add fuel jiffies a pnetwork.
End update.

(** ** Identity of a network *)

(** What makes two descriptions the same network: with P2P in use the address alone;
    without, also the SSID and the IBSS and BSS capabilities. *)
Definition ident (p2p : bool) (b : WLAN_BSSID_EX) : bytes * option (Z * bytes * Z * Z) :=
  (MacAddress b,
   if p2p then None
   else Some (SsidLength (ssid b), take (Z.to_nat (SsidLength (ssid b))) (Ssid (ssid b)),
              le16_at (IEs b) 10 .& WLAN_CAPABILITY_IBSS, le16_at (IEs b) 10 .& WLAN_CAPABILITY_BSS)).

(** Everything of a description but its signal and the unused part of the IEs. *)
Definition content (b : WLAN_BSSID_EX) :=
  (MacAddress b, Reserved b, ssid b, Privacy b, NetworkTypeInUse b, config b, InfrastructureMode b,
   SupportedRates b, take (Z.to_nat (IELength b)) (IEs b)).

Definition p2p_on (a : adapter) : bool := negb (rtw_p2p_chk_state a P2P_STATE_NONE).

(** A target of a survey event: its arrays and the fixed fields of its IEs. *)
Definition target_ok (b : WLAN_BSSID_EX) : Prop := bss_ok b /\ 12 <= IELength b.

Lemma is_same_network_ident a b : is_same_network a b 0 = bool_decide (ident false a = ident false b).
Proof.
  unfold is_same_network, ident. cbn [Z.eqb andb]. change (rtw_get_capability_from_ie 0) with 10.
  apply eq_iff_eq_true. rewrite !andb_true_iff, !bool_decide_eq_true, !Z.eqb_eq. split.
  - intros [[[[-> ->] Hs] ->] ->]. by rewrite Hs.
  - intros [= Hm Hl Hs -> ->]. rewrite Hl in *. by rewrite Hm, Hs.
Qed.

(** The two tests of the walk are the identity for the mode. *)
Lemma walk_test p2p b target :
  p2p && bool_decide (MacAddress b = MacAddress target)
    || is_same_network b target (if p2p then 1 else 0)
  = bool_decide (ident p2p b = ident p2p target).
Proof.
  destruct p2p; cbn [andb orb]; [|apply is_same_network_ident].
  apply eq_iff_eq_true. unfold is_same_network, ident. change (1 =? 1) with true. cbn [andb].
  rewrite orb_true_iff, !bool_decide_eq_true. split.
  - intros [->|H]; [done|]. destruct (bool_decide (MacAddress b = MacAddress target)) eqn:E.
    + apply bool_decide_eq_true in E. by rewrite E.
    + cbn [andb] in H. by rewrite andb_false_r in H.
  - intros [= ->]. by left.
Qed.

Lemma ident_set_phy p2p s q r b : ident p2p (set_phy s q r b) = ident p2p b.
Proof. done. Qed.
Lemma ident_clear_quality p2p b : ident p2p (clear_quality b) = ident p2p b.
Proof. unfold clear_quality. by destruct (_ =? 101). Qed.
Lemma content_set_phy s q r b : content (set_phy s q r b) = content b.
Proof. done. Qed.
Lemma content_clear_quality b : content (clear_quality b) = content b.
Proof. unfold clear_quality. by destruct (_ =? 101). Qed.

Lemma copied_ies dst src : bss_ok src ->
  take (Z.to_nat (IELength src)) (IEs (copy_bss dst src)) = take (Z.to_nat (IELength src)) (IEs src).
Proof.
  intros [_ _ Hl Ha]. cbn [copy_bss IEs set_ies].
  rewrite take_app_le by (rewrite length_take; unfold zlen in *; lia). by rewrite take_take, Nat.min_id.
Qed.

Lemma content_copy dst src : bss_ok src -> content (copy_bss dst src) = content src.
Proof.
  intros Hs. pose proof (copied_ies dst src Hs) as H. unfold content.
  cbn [copy_bss set_ies MacAddress Reserved ssid Privacy NetworkTypeInUse config InfrastructureMode
         SupportedRates IELength] in *. by rewrite H.
Qed.

Lemma le16_take a b p : 0 <= p -> take (Z.to_nat (p + 2)) a = take (Z.to_nat (p + 2)) b -> le16_at a p = le16_at b p.
Proof.
  intros Hp H. assert (Hb : forall i, 0 <= i < p + 2 -> ld0 a i = ld0 b i).
  { intros i Hi. unfold ld0. rewrite !nth_lookup.
    rewrite <- (lookup_take_lt a (Z.to_nat (p + 2))), H, lookup_take_lt by lia. done. }
  unfold le16_at. by rewrite !Hb by lia.
Qed.

Lemma ident_copy p2p dst src : target_ok src -> ident p2p (copy_bss dst src) = ident p2p src.
Proof.
  intros [Hs Hl]. unfold ident. cbn [copy_bss set_ies MacAddress ssid]. repeat f_equal; destruct p2p; [done|].
  rewrite (le16_take (IEs (copy_bss dst src)) (IEs src) 10); [done|lia|].
  pose proof (copied_ies dst src Hs) as H. change (Z.to_nat (10 + 2)) with 12%nat.
  replace 12%nat with (12 `min` Z.to_nat (IELength src))%nat by lia.
  by rewrite <- !take_take, H.
Qed.

Lemma bss_ok_copy dst src : bss_ok dst -> bss_ok src -> bss_ok (copy_bss dst src).
Proof.
  intros Hd [Hs Hn Hl Ha]. destruct Hd as [_ _ _ Hda].
  split; cbn [copy_bss set_ies ssid IELength IEs]; [done..|].
  unfold zlen in *. rewrite length_app, length_take, length_drop. lia.
Qed.
Lemma bss_ok_set_phy s q r b : bss_ok b -> bss_ok (set_phy s q r b).
Proof. intros []; split; done. Qed.
Lemma bss_ok_clear_quality b : bss_ok b -> bss_ok (clear_quality b).
Proof. unfold clear_quality. destruct (_ =? 101); [apply bss_ok_set_phy|done]. Qed.
Lemma bss_ok_zero : bss_ok zero_bssid.
Proof. split; vm_compute; try done; split; discriminate. Qed.

(** The update of an entry keeps its network, and takes the target's description when the
    information elements are updated. *)
Lemma update_network_shape a dst src ie : exists s q r,
  update_network a dst src ie = set_phy s q r (if ie then copy_bss dst src else dst).
Proof.
  unfold update_network.
  destruct (check_fwstate _ _ && is_same_network _ _ _); [|destruct (negb (SignalQuality (phy src) =? 101))];
    by do 3 eexists.
Qed.

Create Rewrite HintDb scan.
Create HintDb scan discriminated.
#[export] Hint Rewrite ident_set_phy ident_clear_quality content_set_phy content_clear_quality : scan.
#[export] Hint Resolve bss_ok_set_phy bss_ok_clear_quality bss_ok_copy bss_ok_zero : scan.

Lemma update_network_ident p2p a dst src ie : target_ok src -> ident p2p dst = ident p2p src ->
  ident p2p (update_network a dst src ie) = ident p2p src.
Proof.
  intros Hs Hi. destruct (update_network_shape a dst src ie) as (s & q & r & ->).
  autorewrite with scan. destruct ie; [by apply ident_copy|done].
Qed.
Lemma update_network_content a dst src ie : bss_ok src ->
  content (update_network a dst src ie) = if ie then content src else content dst.
Proof.
  intros Hs. destruct (update_network_shape a dst src ie) as (s & q & r & ->).
  autorewrite with scan. destruct ie; [by apply content_copy|done].
Qed.
Lemma update_network_ok a dst src ie : bss_ok dst -> bss_ok src -> bss_ok (update_network a dst src ie).
Proof.
  intros Hd Hs. destruct (update_network_shape a dst src ie) as (s & q & r & ->).
  destruct ie; eauto with scan.
Qed.

(** ** Invariant *)

(** An entry of the table. *)
Definition entry (t : scan_tab) (p : nat) : wlan_network := nets t !!! p.

(** The two queues partition the pool; [num_of_scanned] counts the scanned entries, less the
    [k] releases of entries that were free already; no two scanned entries are the same
    network. *)
Record scan_inv (k : Z) (p2p : bool) (t : scan_tab) : Prop := {
  inv_pool : free_bss_pool t ++ scanned_queue t ≡ₚ seq 0 MAX_BSS_CNT;
  inv_num : num_of_scanned t = u32 (zlen (scanned_queue t) - k);
  inv_unique : forall p q, p ∈ scanned_queue t -> q ∈ scanned_queue t ->
    ident p2p (network (entry t p)) = ident p2p (network (entry t q)) -> p = q;
  inv_time : forall p, is_u32 (last_scanned (entry t p));
  inv_ok : forall p, bss_ok (network (entry t p))
}.
Arguments inv_pool {k p2p t} _.
Arguments inv_num {k p2p t} _.
Arguments inv_unique {k p2p t} _.
Arguments inv_time {k p2p t} _.
Arguments inv_ok {k p2p t} _.

Section facts.
Context {k : Z} {p2p : bool} {t : scan_tab} (Hinv : scan_inv k p2p t).

Lemma inv_nodup : NoDup (free_bss_pool t ++ scanned_queue t).
Proof using Hinv. rewrite (inv_pool Hinv). apply NoDup_seq. Qed.
Lemma inv_nodup_scanned : NoDup (scanned_queue t).
Proof using Hinv. by pose proof inv_nodup as (_ & _ & ?)%list.NoDup_app. Qed.
Lemma inv_disjoint p : p ∈ free_bss_pool t -> p ∉ scanned_queue t.
Proof using Hinv. pose proof inv_nodup as (_ & Hd & _)%list.NoDup_app. apply Hd. Qed.
Lemma inv_length : (length (free_bss_pool t) + length (scanned_queue t) = 128)%nat.
Proof using Hinv. rewrite <- length_app, (inv_pool Hinv). apply length_seq. Qed.
Lemma inv_full : free_bss_pool t = [] <-> length (scanned_queue t) = 128%nat.
Proof using Hinv. pose proof inv_length. destruct (free_bss_pool t); cbn [length] in *; split; intros; try done; lia. Qed.
End facts.

Lemma scan_inv_init p2p : scan_inv 0 p2p _rtw_init_mlme_priv.
Proof.
  assert (He : forall p, entry _rtw_init_mlme_priv p = WlanNetwork 0 false 0 0 0 zero_bssid)
    by (intros p; unfold entry; cbn [_rtw_init_mlme_priv nets]; by rewrite lookup_total_empty).
  split; [done|done| |intros p; by rewrite He|intros p; rewrite He; apply bss_ok_zero].
  intros p q Hp. by apply elem_of_nil in Hp.
Qed.

Lemma entry_set p q n t : entry (set_net p n t) q = if decide (q = p) then n else entry t q.
Proof.
  unfold entry. cbn. destruct (decide (q = p)) as [->|]; [apply lookup_total_insert_eq|by apply lookup_total_insert_ne].
Qed.

(** An entry may be rewritten when it stays the only one of its network. *)
Lemma set_net_inv k p2p t p n : scan_inv k p2p t ->
  is_u32 (last_scanned n) -> bss_ok (network n) ->
  (p ∈ scanned_queue t -> forall q, q ∈ scanned_queue t ->
     ident p2p (network (entry t q)) = ident p2p (network n) -> q = p) ->
  scan_inv k p2p (set_net p n t).
Proof.
  intros [] Ht Hb Hu. split; try done.
  - intros q1 q2 H1 H2. rewrite !entry_set. cbn in H1, H2.
    destruct (decide (q1 = p)) as [->|], (decide (q2 = p)) as [->|]; try done.
    + intros Hi. symmetry. by apply Hu.
    + intros Hi. by apply Hu.
    + by apply inv_unique0.
  - intros q. rewrite entry_set. by destruct (decide (q = p)).
  - intros q. rewrite entry_set. by destruct (decide (q = p)).
Qed.

(** Rewriting an entry without changing its network. *)
Lemma set_net_same k p2p t p n : scan_inv k p2p t ->
  is_u32 (last_scanned n) -> bss_ok (network n) ->
  ident p2p (network n) = ident p2p (network (entry t p)) -> scan_inv k p2p (set_net p n t).
Proof.
  intros Hi Ht Hb Hn. apply set_net_inv; [done..|]. intros Hp q Hq. rewrite Hn. by apply (inv_unique Hi).
Qed.

Lemma u32_add_u32 x y : u32 (u32 x + y) = u32 (x + y).
Proof. unfold u32. apply Zplus_mod_idemp_l. Qed.

Lemma inv_count {k p2p t} : scan_inv k p2p t -> forall n (l : list nat), zlen l = zlen (scanned_queue t) + n ->
  u32 (num_of_scanned t + n) = u32 (zlen l - k).
Proof. intros Hi n l Hl. rewrite (inv_num Hi), u32_add_u32. f_equal. lia. Qed.

Lemma inv_count_0 {p2p t} : scan_inv 0 p2p t -> num_of_scanned t = zlen (scanned_queue t).
Proof. intros Hi. rewrite (inv_num Hi), Z.sub_0_r. pose proof (inv_length Hi). apply u32_id. unfold zlen. lia. Qed.

(** A scanned entry moves to the free queue. *)
Lemma move_to_free_inv k p2p t p : scan_inv k p2p t -> p ∈ scanned_queue t -> scan_inv k p2p (move_to_free p t).
Proof.
  intros Hi Hp. pose proof (inv_nodup_scanned Hi) as Hn.
  assert (Hfree : p ∉ free_bss_pool t) by (intros Hf; by apply (inv_disjoint Hi p Hf)).
  pose proof (filter_remove p _ Hn Hp) as Hperm. symmetry in Hperm.
  assert (Hl : length (scanned_queue t) = S (length (filter (fun q => q <> p) (scanned_queue t))))
    by (by rewrite Hperm at 1).
  split; cbn [move_to_free free_bss_pool scanned_queue num_of_scanned].
  - rewrite filter_absent by done. rewrite <- (inv_pool Hi), <- app_assoc. f_equiv. by rewrite Hperm at 2.
  - apply (inv_count Hi (-1)). unfold zlen. lia.
  - intros q1 q2 [_ H1]%list_elem_of_filter [_ H2]%list_elem_of_filter. by apply (inv_unique Hi).
  - apply (inv_time Hi).
  - apply (inv_ok Hi).
Qed.

(** An entry that is free already is counted once more. *)
Lemma release_free_inv k p2p t p : scan_inv k p2p t -> p ∈ free_bss_pool t -> scan_inv (k + 1) p2p (move_to_free p t).
Proof.
  intros Hi Hp. pose proof (inv_disjoint Hi p Hp) as Hs.
  assert (Hn : NoDup (free_bss_pool t)) by (by pose proof (inv_nodup Hi) as (? & _ & _)%list.NoDup_app).
  split; cbn [move_to_free free_bss_pool scanned_queue num_of_scanned]; rewrite ?(filter_absent _ _ Hs).
  - rewrite <- (inv_pool Hi). f_equiv. rewrite <- (filter_remove p _ Hn Hp) at 2. apply Permutation_app_comm.
  - rewrite (inv_num Hi). unfold Z.sub at 1. rewrite u32_add_u32. f_equal. lia.
  - apply (inv_unique Hi).
  - apply (inv_time Hi).
  - apply (inv_ok Hi).
Qed.

(** Allocation takes the first free entry, which is then in neither queue; appending it to
    the scanned ones restores the invariant. *)
Lemma alloc_append k p2p t jiffies p fr b : scan_inv k p2p t -> free_bss_pool t = p :: fr -> bss_ok b ->
  (forall q, q ∈ scanned_queue t -> ident p2p (network (entry t q)) <> ident p2p b) ->
  let n := WlanNetwork 0 false (rtw_get_current_time jiffies) 0 0 b in
  scan_inv k p2p (ScanTab (<[p := n]> (nets t)) fr (scanned_queue t ++ [p]) (u32 (num_of_scanned t + 1))).
Proof.
  intros Hi Hf Hb Hne n. pose proof (inv_length Hi) as Hlen. rewrite Hf in Hlen. cbn [length] in Hlen.
  assert (Hp : p ∉ scanned_queue t) by (apply (inv_disjoint Hi); rewrite Hf; by left).
  assert (He : forall q, entry (ScanTab (<[p := n]> (nets t)) fr (scanned_queue t ++ [p]) (u32 (num_of_scanned t + 1))) q
      = if decide (q = p) then n else entry t q) by (intros q; apply (entry_set p q n t)).
  split; cbn [free_bss_pool scanned_queue num_of_scanned].
  - rewrite <- (inv_pool Hi), Hf. rewrite (Permutation_app_comm _ [p]). cbn [app].
    by rewrite Permutation_middle.
  - apply (inv_count Hi 1). by rewrite zlen_app.
  - intros q1 q2 H1 H2. rewrite !He. apply elem_of_app in H1, H2.
    rewrite !list_elem_of_singleton in *.
    destruct (decide (q1 = p)) as [->|N1], (decide (q2 = p)) as [->|N2]; try done.
    + intros Heq. destruct H2 as [H2|]; [|done]. by destruct (Hne q2 H2).
    + intros Heq. destruct H1 as [H1|]; [|done]. by destruct (Hne q1 H1).
    + destruct H1 as [H1|]; [|done]. destruct H2 as [H2|]; [|done]. by apply (inv_unique Hi).
  - intros q. rewrite He. destruct (decide (q = p)); [apply u32_range|apply (inv_time Hi)].
  - intros q. rewrite He. destruct (decide (q = p)); [done|apply (inv_ok Hi)].
Qed.

(** ** The walk and the oldest entry *)

(** The time since an entry was scanned, in ticks (which the 32-bit counter tells up to
    multiples of its range). *)
Definition age (jiffies : Z) (t : scan_tab) (p : nat) : Z := u32 (jiffies - last_scanned (entry t p)).

(** [time_after] tells which of two scanned entries is the older one. *)
Definition ages_ordered (time_after : Z -> Z -> bool) (jiffies : Z) (t : scan_tab) : Prop :=
  forall p q, p ∈ scanned_queue t -> q ∈ scanned_queue t ->
    time_after (last_scanned (entry t p)) (last_scanned (entry t q)) = (age jiffies t p <? age jiffies t q).

Section walk.
Context (time_after : Z -> Z -> bool) (jiffies : Z).

(** An entry of the list, and the oldest one where the ages are told right. *)
Definition oldest_of (t : scan_tab) (l : list nat) (o : option nat) : Prop :=
  match o with
  | None => l = []
  | Some p => p ∈ l /\
      (ages_ordered time_after jiffies t -> forall q, q ∈ l -> age jiffies t q <= age jiffies t p)
  end.

Lemma older_spec t l o p : (forall q, q ∈ l ++ [p] -> q ∈ scanned_queue t) ->
  oldest_of t l o -> oldest_of t (l ++ [p]) (older time_after t o p).
Proof using Type.
  intros Hl Ho. assert (Hlast : p ∈ l ++ [p]) by (apply elem_of_app; right; by left).
  unfold older. destruct o as [o|]; cbn [oldest_of] in *.
  - destruct Ho as [Ho Hmax]. assert (Ho' : o ∈ l ++ [p]) by (apply elem_of_app; by left).
    change (nets t !!! ?x) with (entry t x).
    destruct (time_after _ _) eqn:E; cbn [oldest_of]; (split; [done|]); intros Ha;
      rewrite (Ha o p) in E by auto; intros q [Hq| ->%list_elem_of_singleton]%elem_of_app; try lia;
      specialize (Hmax Ha q Hq); lia.
  - subst l. split; [done|]. intros _ q ->%list_elem_of_singleton. lia.
Qed.

(** The walk ends at the entry of the target's network, or has met every entry and found
    the oldest. *)
Lemma scan_walk_spec a target : forall l pre o,
  (forall q, q ∈ pre ++ l -> q ∈ scanned_queue (tab a)) -> oldest_of (tab a) pre o ->
  let same p := ident (p2p_on a) (network (entry (tab a) p)) = ident (p2p_on a) target in
  match scan_walk time_after a target l o with
  | inl p => p ∈ l /\ same p
  | inr o' => (forall q, q ∈ l -> ~ same q) /\ oldest_of (tab a) (pre ++ l) o'
  end.
Proof using Type.
  induction l as [|p l IH]; intros pre o Hl Ho same; cbn [scan_walk].
  { rewrite app_nil_r. split; [intros q Hq; by apply elem_of_nil in Hq|done]. }
  pose proof (walk_test (p2p_on a) (network (entry (tab a) p)) target) as Htest.
  unfold p2p_on in Htest at 1 2.
  change (nets (tab a) !!! p) with (entry (tab a) p).
  destruct (negb (rtw_p2p_chk_state a P2P_STATE_NONE) && bool_decide _).
  { cbn [orb] in Htest. symmetry in Htest. apply bool_decide_eq_true in Htest. split; [by left|done]. }
  cbn [orb] in Htest. rewrite Htest.
  case_bool_decide as Hs; [split; [by left|done]|].
  change (p :: l) with ([p] ++ l) in Hl. rewrite app_assoc in Hl.
  assert (Hp : forall q, q ∈ pre ++ [p] -> q ∈ scanned_queue (tab a)) by (intros q Hq; apply Hl, elem_of_app; by left).
  specialize (IH (pre ++ [p]) (older time_after (tab a) o p) Hl (older_spec _ _ _ _ Hp Ho)). cbv zeta in IH.
  destruct (scan_walk _ _ _ _ _) as [q|o'].
  - destruct IH. split; [by right|done].
  - destruct IH as [Hn Ho']. rewrite <- app_assoc in Ho'. split; [|done].
    intros q [->|Hq]%elem_of_cons; [done|by apply Hn].
Qed.

(** The entry freed when the driver looks for a victim itself: not fixed, and the oldest
    of these. *)
Lemma oldest_not_fixed t :
  oldest_of t (filter (fun p => fixed (entry t p) = false) (scanned_queue t))
    (rtw_get_oldest_wlan_network time_after t).
Proof using Type.
  unfold rtw_get_oldest_wlan_network.
  assert (H : forall l pre o, (forall q, q ∈ pre ++ l -> q ∈ scanned_queue t) ->
    oldest_of t (filter (fun p => fixed (entry t p) = false) pre) o ->
    oldest_of t (filter (fun p => fixed (entry t p) = false) (pre ++ l))
      (fold_left (fun oldest p => if fixed (nets t !!! p) then oldest else older time_after t oldest p) l o)).
  { induction l as [|p l IH]; intros pre o Hl Ho; [by rewrite app_nil_r|]. cbn [fold_left].
    change (p :: l) with ([p] ++ l) in *. rewrite app_assoc in *. apply IH; [done|].
    rewrite list.filter_app. cbn [filter list_filter]. change (nets t !!! p) with (entry t p).
    destruct (fixed (entry t p)) eqn:Hf.
    - rewrite decide_False by done. by rewrite app_nil_r.
    - rewrite decide_True by done. apply older_spec; [|done]. intros q Hq. apply Hl, elem_of_app. left.
      apply elem_of_app in Hq as [[_ Hq]%list_elem_of_filter|Hq]; apply elem_of_app; auto. }
  by apply (H _ []).
Qed.

(** ** The update *)

(** What an update did with entry [p]: it refreshed the network's entry, took a free entry
    for it, or overwrote one, the oldest where the ages are told right. *)
Inductive recorded (p2p : bool) (target : WLAN_BSSID_EX) (t t' : scan_tab) (p : nat) : Prop :=
  | refreshed :
      p ∈ scanned_queue t -> ident p2p (network (entry t p)) = ident p2p target ->
      scanned_queue t' = scanned_queue t -> free_bss_pool t' = free_bss_pool t ->
      fixed (entry t' p) = fixed (entry t p) ->
      content (network (entry t' p))
      = (if negb (fst (Reserved target) =? 2)
            && (fst (Reserved (network (entry t p))) <=? fst (Reserved target))
         then content target else content (network (entry t p))) ->
      recorded p2p target t t' p
  | added :
      (forall q, q ∈ scanned_queue t -> ident p2p (network (entry t q)) <> ident p2p target) ->
      free_bss_pool t = p :: free_bss_pool t' -> scanned_queue t' = scanned_queue t ++ [p] ->
      content (network (entry t' p)) = content target -> recorded p2p target t t' p
  | replaced :
      (forall q, q ∈ scanned_queue t -> ident p2p (network (entry t q)) <> ident p2p target) ->
      length (scanned_queue t) = MAX_BSS_CNT -> p ∈ scanned_queue t ->
      (ages_ordered time_after jiffies t -> forall q, q ∈ scanned_queue t -> age jiffies t q <= age jiffies t p) ->
      scanned_queue t' = scanned_queue t -> free_bss_pool t' = free_bss_pool t ->
      fixed (entry t' p) = false ->
      content (network (entry t' p)) = content target -> recorded p2p target t t' p.

(** The table after an update: the invariant, one entry for the target's network, last
    scanned now, and every other entry as it was. *)
Definition updated (k : Z) (p2p : bool) (target : WLAN_BSSID_EX) (t t' : scan_tab) : Prop :=
  scan_inv k p2p t' /\
  exists p, p ∈ scanned_queue t' /\ ident p2p (network (entry t' p)) = ident p2p target /\
    last_scanned (entry t' p) = u32 jiffies /\
    (forall q, q <> p -> entry t' q = entry t q) /\ recorded p2p target t t' p.

(** Entry [p] is rewritten in place. *)
Lemma rewrite_updated k p2p target t p n : scan_inv k p2p t -> bss_ok (network n) ->
  last_scanned n = u32 jiffies -> p ∈ scanned_queue t ->
  ident p2p (network n) = ident p2p target ->
  (forall q, q ∈ scanned_queue t -> ident p2p (network (entry t q)) = ident p2p target -> q = p) ->
  recorded p2p target t (set_net p n t) p ->
  updated k p2p target t (set_net p n t).
Proof using Type.
  intros Hi Hb Ht Hp Hn Hu Hr. split.
  - apply set_net_inv; [done|rewrite Ht; apply u32_range|done|]. intros _ q Hq. rewrite Hn. by apply Hu.
  - exists p. rewrite entry_set, decide_True by done. repeat split; try done.
    intros q Hq. by rewrite entry_set, decide_False.
Qed.

Lemma add_updated k p2p target t p fr b : scan_inv k p2p t -> free_bss_pool t = p :: fr -> bss_ok b ->
  ident p2p b = ident p2p target -> content b = content target ->
  (forall q, q ∈ scanned_queue t -> ident p2p (network (entry t q)) <> ident p2p target) ->
  updated k p2p target t
    (ScanTab (<[p := WlanNetwork 0 false (rtw_get_current_time jiffies) 0 0 b]> (nets t)) fr
       (scanned_queue t ++ [p]) (u32 (num_of_scanned t + 1))).
Proof using Type.
  intros Hi Hf Hb Hn Hc Hns. split.
  { apply alloc_append; [done..|]. intros q Hq. rewrite Hn. by apply Hns. }
  exists p. unfold entry. cbn [nets scanned_queue]. rewrite lookup_total_insert_eq. cbn [network last_scanned].
  split; [apply elem_of_app; right; by left|]. do 2 (split; [done|]).
  split; [intros q Hq; by rewrite lookup_total_insert_ne|].
  apply added; try done. unfold entry. cbn [nets]. by rewrite lookup_total_insert_eq.
Qed.

Lemma update_run k a target : scan_inv k (p2p_on a) (tab a) -> target_ok target ->
  updated k (p2p_on a) target (tab a) (tab (rtw_update_scanned_network time_after jiffies a target)).
Proof using Type.
  intros Hi Hok. unfold rtw_update_scanned_network.
  pose proof (scan_walk_spec a target (scanned_queue (tab a)) [] None (fun q Hq => Hq) eq_refl) as Hw.
  cbv zeta in Hw. generalize dependent (tab a). intros t Hi Hw.
  destruct Hok as [Hb Hl]. pose proof (inv_ok Hi) as Hoks.
  destruct (scan_walk _ a target _ None) as [p|o].
  - destruct Hw as [Hp Hs]. cbv zeta. cbn [set_tab tab]. apply rewrite_updated; try done.
    + apply update_network_ok; [apply (Hoks p)|done].
    + by apply update_network_ident.
    + intros q Hq Hsq. apply (inv_unique Hi); [done..|congruence].
    + apply refreshed; try done; rewrite entry_set, decide_True by done; [done|].
      cbn [set_network network]. rewrite update_network_content by done.
      cbn [set_last_scanned network]. unfold entry. by destruct (negb _ && _).
  - destruct Hw as [Hns Ho]. rewrite app_nil_l in Ho. case_bool_decide as Hfree.
    + pose proof (proj1 (inv_full Hi) Hfree) as Hfull.
      destruct o as [p|]; cbn [oldest_of] in Ho; [|by rewrite Ho in Hfull].
      destruct Ho as [Hp Hmin]. cbv zeta. cbn [set_tab tab]. apply rewrite_updated; try done.
      * cbn [network]. pose proof (Hoks p). auto with scan.
      * cbn [network]. autorewrite with scan. by apply ident_copy.
      * intros q Hq Hsq. by destruct (Hns q Hq).
      * apply replaced; try done; rewrite entry_set, decide_True by done; [done|].
        cbn [network]. autorewrite with scan. by apply content_copy.
    + unfold _rtw_alloc_network. destruct (free_bss_pool t) as [|p fr] eqn:Hf; [done|].
      cbv zeta. cbn [set_tab tab set_net nets free_bss_pool scanned_queue num_of_scanned].
      rewrite lookup_total_insert_eq, insert_insert_eq.
      assert (Hlen : bss_ok (set_length (get_WLAN_BSSID_EX_sz target) target)) by (by destruct Hb).
      apply add_updated; try done.
      * cbn [network]. pose proof (Hoks p). auto with scan.
      * cbn [network]. autorewrite with scan. by rewrite ident_copy.
      * cbn [network]. autorewrite with scan. by rewrite content_copy.
Qed.
End walk.

(** ** Releasing entries *)

Lemma move_to_free_list l : forall t, NoDup (free_bss_pool t ++ scanned_queue t) -> NoDup l ->
  (forall p, p ∈ l -> p ∈ scanned_queue t) ->
  let t' := fold_left (fun t p => move_to_free p t) l t in
  nets t' = nets t /\ free_bss_pool t' = free_bss_pool t ++ l /\
  scanned_queue t' = filter (fun p => p ∉ l) (scanned_queue t).
Proof.
  induction l as [|p l IH]; intros t Hn Hl Hin; cbn [fold_left].
  { split; [done|]. split; [by rewrite app_nil_r|]. symmetry. apply filter_true. intros x _ H. by apply elem_of_nil in H. }
  apply list.NoDup_cons in Hl as [Hp Hl]. pose proof Hn as (Hf & Hd & Hs)%list.NoDup_app.
  assert (Hps : p ∈ scanned_queue t) by (apply Hin; by left).
  assert (Hpf : p ∉ free_bss_pool t) by (intros H; by apply (Hd p)).
  assert (E : move_to_free p t = ScanTab (nets t) (free_bss_pool t ++ [p])
      (filter (fun q => q <> p) (scanned_queue t)) (u32 (num_of_scanned t - 1)))
    by (unfold move_to_free; by rewrite filter_absent).
  destruct (IH (move_to_free p t)) as (IH1 & IH2 & IH3); [|done| |].
  - rewrite E. cbn [free_bss_pool scanned_queue]. rewrite <- app_assoc.
    by rewrite <- (filter_remove p _ Hs Hps) in Hn.
  - intros q Hq. rewrite E. cbn [scanned_queue]. apply list_elem_of_filter.
    split; [intros ->; done|]. apply Hin. by right.
  - rewrite E in IH1, IH2, IH3 |- *. cbn [free_bss_pool scanned_queue nets] in *.
    split; [done|]. split; [by rewrite IH2, <- app_assoc|]. rewrite IH3, list_filter_filter.
    apply filter_eq. intros q _. rewrite not_elem_of_cons. tauto.
Qed.

Lemma fold_move_inv k p2p l : forall t, scan_inv k p2p t -> NoDup l ->
  (forall p, p ∈ l -> p ∈ scanned_queue t) -> scan_inv k p2p (fold_left (fun t p => move_to_free p t) l t).
Proof.
  induction l as [|p l IH]; intros t Hi Hl Hin; cbn [fold_left]; [done|].
  apply list.NoDup_cons in Hl as [Hp Hl]. apply IH; [|done|].
  - apply move_to_free_inv; [done|]. apply Hin. by left.
  - intros q Hq. cbn [move_to_free scanned_queue]. apply list_elem_of_filter.
    split; [intros ->; done|]. apply Hin. by right.
Qed.

(** [free_scanqueue] empties the table, fixed entries included. *)
Lemma free_scanqueue_run k p2p t : scan_inv k p2p t ->
  scan_inv k p2p (free_scanqueue t) /\ scanned_queue (free_scanqueue t) = [].
Proof.
  intros Hi. pose proof (inv_nodup_scanned Hi) as Hn. unfold free_scanqueue. split; [by apply fold_move_inv|].
  destruct (move_to_free_list (scanned_queue t) t (inv_nodup Hi) Hn) as (_ & _ & ->); [done|].
  rewrite (filter_eq _ (fun _ => False)) by (intros p Hp; tauto). generalize (scanned_queue t).
  by induction l as [|x l IH].
Qed.

Section expiry_facts.
Context (HZ : Z).

(** What [_rtw_free_network] keeps: a fixed entry, and without [isfreeall] one whose age
    in milliseconds is below the lifetime, 1 on an ad hoc network. *)
Definition lifetime (fw_state : Z) : Z :=
  if check_fwstate fw_state WIFI_ADHOC_MASTER_STATE || check_fwstate fw_state WIFI_ADHOC_STATE
  then 1 else SCANQUEUE_LIFETIME.
Definition keeps (fw_state jiffies : Z) (isfreeall : bool) (n : wlan_network) : bool :=
  fixed n || (negb isfreeall &&
              (u32 (rtw_get_passing_time_ms HZ jiffies (last_scanned n)) <? lifetime fw_state)).

Lemma free_network_step fw jiffies all t p :
  _rtw_free_network HZ fw jiffies all t p = if keeps fw jiffies all (entry t p) then t else move_to_free p t.
Proof.
  unfold _rtw_free_network, keeps, entry, lifetime. by destruct (fixed _).
Qed.

(** The queue's walk frees exactly the entries not kept. *)
Lemma free_queue_fold fw jiffies all l : forall t,
  fold_left (_rtw_free_network HZ fw jiffies all) l t
  = fold_left (fun t p => move_to_free p t) (filter (fun p => keeps fw jiffies all (entry t p) = false) l) t.
Proof.
  induction l as [|p l IH]; intros t; cbn [fold_left]; [done|].
  rewrite filter_cons, free_network_step.
  destruct (keeps fw jiffies all (entry t p)) eqn:E.
  - rewrite decide_False by done. apply IH.
  - rewrite decide_True by done. cbn [fold_left]. rewrite IH. done.
Qed.

Lemma s32_u32 x : u32 (s32 x) = u32 x.
Proof. unfold u32, s32. rewrite Zminus_mod_idemp_l. f_equal. lia. Qed.

(** An age whose milliseconds fit in 32 bits is computed right. *)
Lemma age_exact jiffies n : 0 < HZ -> u32 (jiffies - last_scanned n) * 1000 < 2 ^ 32 ->
  u32 (rtw_get_passing_time_ms HZ jiffies (last_scanned n)) = u32 (jiffies - last_scanned n) * 1000 / HZ.
Proof.
  intros HH Hw. unfold rtw_get_passing_time_ms, rtw_systime_to_ms. pose proof (u32_range (jiffies - last_scanned n)) as Hr.
  rewrite s32_u32, (u32_id (_ * 1000)) by lia. apply u32_id.
  split; [apply Z.div_pos; lia|]. apply Z.div_lt_upper_bound; nia.
Qed.
End expiry_facts.

(** ** Reachable tables *)

(** The table from [_rtw_init_mlme_priv] on: survey events, the expiry of entries, the
    release of an entry ([rtw_free_assoc_resources] clears [fixed] first, and may release an
    entry twice), a change of [fixed] (joining), the timestamp of an ad hoc network, and
    emptying the table.  The number counts the releases of entries that were free already. *)
Inductive scan_reach (time_after : Z -> Z -> bool) (HZ : Z) (p2p : bool) : Z -> scan_tab -> Prop :=
  | reach_init : scan_reach time_after HZ p2p 0 _rtw_init_mlme_priv
  | reach_update k a jiffies target :
      scan_reach time_after HZ p2p k (tab a) -> p2p_on a = p2p -> target_ok target ->
      scan_reach time_after HZ p2p k (tab (rtw_update_scanned_network time_after jiffies a target))
  | reach_expire k t fw_state jiffies isfreeall : scan_reach time_after HZ p2p k t ->
      scan_reach time_after HZ p2p k (_rtw_free_network_queue HZ fw_state jiffies isfreeall t)
  | reach_free k t p : scan_reach time_after HZ p2p k t -> (p < MAX_BSS_CNT)%nat ->
      scan_reach time_after HZ p2p (if bool_decide (p ∈ free_bss_pool t) && negb (fixed (entry t p)) then k + 1 else k)
        (_rtw_free_network_nolock (Some p) t)
  | reach_fixed k t p b : scan_reach time_after HZ p2p k t ->
      scan_reach time_after HZ p2p k (set_net p (set_fixed b (entry t p)) t)
  | reach_timestamp k t p b : scan_reach time_after HZ p2p k t -> bss_ok b ->
      scan_reach time_after HZ p2p k
        (set_net p (set_network (copy_timestamp (network (entry t p)) b) (entry t p)) t)
  | reach_flush k t : scan_reach time_after HZ p2p k t -> scan_reach time_after HZ p2p k (free_scanqueue t).

Lemma zlen_timestamp dst src : bss_ok dst -> bss_ok src -> zlen (IEs (copy_timestamp dst src)) = MAX_IE_SZ.
Proof.
  intros [_ _ _ Hd] [_ _ _ Hs]. cbn [copy_timestamp set_ies IEs]. unfold zlen, MAX_IE_SZ in *.
  rewrite length_app, length_take, length_drop. lia.
Qed.

(** The timestamp is outside what identifies a network. *)
Lemma ident_timestamp p2p dst src : bss_ok dst -> bss_ok src ->
  ident p2p (copy_timestamp dst src) = ident p2p dst.
Proof.
  intros [_ _ _ Hd] [_ _ _ Hs]. unfold ident. destruct p2p; [done|].
  assert (H : forall i, 8 <= i < 768 -> ld0 (IEs (copy_timestamp dst src)) i = ld0 (IEs dst) i).
  { intros i Hi. unfold zlen, MAX_IE_SZ in *. unfold ld0. rewrite !nth_lookup.
    cbn [copy_timestamp set_ies IEs]. rewrite lookup_app_r by (rewrite length_take; lia).
    rewrite length_take, lookup_drop. do 2 f_equal. lia. }
  unfold le16_at. rewrite !H by lia. done.
Qed.

Lemma free_queue_inv k p2p HZ fw jiffies all t : scan_inv k p2p t ->
  scan_inv k p2p (_rtw_free_network_queue HZ fw jiffies all t).
Proof.
  intros Hi. unfold _rtw_free_network_queue. rewrite free_queue_fold. apply fold_move_inv; [done| |].
  - apply list.NoDup_filter, (inv_nodup_scanned Hi).
  - by intros p [_ Hp]%list_elem_of_filter.
Qed.

(** Every reachable table satisfies the invariant. *)
Lemma scan_reach_inv time_after HZ p2p k t : scan_reach time_after HZ p2p k t -> scan_inv k p2p t.
Proof.
  induction 1 as [|k a jiffies target _ IH <- Hok|k t fw j all _ IH|k t p _ IH Hp|k t p b _ IH|k t p b _ IH Hb|k t _ IH].
  - apply scan_inv_init.
  - by apply (update_run time_after).
  - by apply free_queue_inv.
  - cbn [_rtw_free_network_nolock]. change (nets t !!! p) with (entry t p).
    destruct (fixed _); [by rewrite andb_false_r|]. rewrite andb_true_r. case_bool_decide as Hf; [by apply release_free_inv|].
    apply move_to_free_inv; [done|].
    assert (p ∈ free_bss_pool t ++ scanned_queue t) as [?|?]%elem_of_app; [|done..].
    rewrite (inv_pool IH). apply elem_of_seq. lia.
  - apply set_net_same; [done|apply (inv_time IH)|apply (inv_ok IH)|done].
  - pose proof (inv_ok IH p) as Hp.
    apply set_net_same; [done|apply (inv_time IH)| |by apply ident_timestamp].
    pose proof (zlen_timestamp _ _ Hp Hb). by destruct Hp.
  - by apply (free_scanqueue_run k p2p t IH).
Qed.

(** ** Telling ages *)

(** The kernel's macro, on machine words of [w] bits: the sign of the difference. *)
Definition ex_time_after (w a b : Z) : bool := 2 ^ (w - 1) <=? (b - a) mod 2 ^ w.

Lemma ages_32 jiffies t : (forall p, p ∈ scanned_queue t -> age jiffies t p < 2 ^ 31) ->
  ages_ordered (ex_time_after 32) jiffies t.
Proof.
  intros Ha p q Hp%Ha Hq%Ha. unfold ex_time_after, age in *.
  pose proof (u32_range (jiffies - last_scanned (entry t p))) as R1. pose proof (u32_range (jiffies - last_scanned (entry t q))) as R2.
  replace ((_ - _) mod 2 ^ 32) with (u32 (u32 (jiffies - last_scanned (entry t p)) - u32 (jiffies - last_scanned (entry t q))))
    by (unfold u32; rewrite <- Zminus_mod; f_equal; lia).
  generalize dependent (u32 (jiffies - last_scanned (entry t p))). intros x Hx Rx.
  generalize dependent (u32 (jiffies - last_scanned (entry t q))). intros y Hy Ry.
  apply eq_iff_eq_true. rewrite Z.leb_le, Z.ltb_lt. unfold u32. destruct (Z.lt_ge_cases x y).
  - rewrite <- (Z_mod_plus_full (x - y) 1), Z.mod_small by lia. lia.
  - rewrite Z.mod_small by lia. lia.
Qed.

Lemma ages_64 jiffies t : (forall p, p ∈ scanned_queue t -> 0 <= last_scanned (entry t p) <= u32 jiffies) ->
  ages_ordered (ex_time_after 64) jiffies t.
Proof.
  intros Ha p q Hp%Ha Hq%Ha. unfold ex_time_after, age. pose proof (u32_range jiffies) as R.
  assert (E : forall x, 0 <= x <= u32 jiffies -> u32 (jiffies - x) = u32 jiffies - x).
  { intros x Hx. rewrite <- (u32_id (u32 jiffies - x)) by lia. symmetry. apply (u32_add_u32 jiffies (- x)). }
  rewrite !E by done. clear Ha E. revert Hp Hq. generalize (last_scanned (entry t p)), (last_scanned (entry t q)).
  intros x y Hx Hy. apply eq_iff_eq_true. rewrite Z.leb_le, Z.ltb_lt. destruct (Z.lt_ge_cases y x).
  - rewrite <- (Z_mod_plus_full (y - x) 1), Z.mod_small by lia. lia.
  - rewrite Z.mod_small by lia. lia.
Qed.

(** ** Properties *)

(** C24: However survey events, expiries, releases, joins and resets follow each other, the
    free and the scanned queue partition the pool of 128 entries, no two scanned entries
    describe the same network (the P2P mode being the same throughout), and
    [num_of_scanned] is the length of the scanned queue less the number of releases, so far,
    of entries that were free already: it is that length as long as no entry is released
    twice, which [rtw_free_assoc_resources] does for the creator of an ad hoc network. *)
Theorem scan_table_invariant time_after HZ p2p twice t :
  scan_reach time_after HZ p2p twice t ->
  free_bss_pool t ++ scanned_queue t ≡ₚ seq 0 MAX_BSS_CNT /\
  num_of_scanned t = u32 (zlen (scanned_queue t) - twice) /\
  (twice = 0 -> num_of_scanned t = zlen (scanned_queue t)) /\
  (forall p q, p ∈ scanned_queue t -> q ∈ scanned_queue t ->
     ident p2p (network (entry t p)) = ident p2p (network (entry t q)) -> p = q).
Proof.
  intros Hi%scan_reach_inv. split; [apply (inv_pool Hi)|]. split; [apply (inv_num Hi)|].
  split; [intros ->; apply (inv_count_0 Hi)|apply (inv_unique Hi)].
Qed.

Definition ex_bss (i : Z) : WLAN_BSSID_EX :=
  set_ies 14 (pad 768 [0; 0; 0; 0; 0; 0; 0; 0; 100; 0; 1; 0; 0; 0])
    (WlanBssidEx 138 [2; 0; 0; 0; 0; i] (1, 0) (NdisSsid 1 (pad 32 [64 + i])) 0 (-50) 3
       (Configuration 0 100 0 6 (FHConfiguration 0 0 0 0)) 1 (pad 16 [130]) (PhyInfo 80 70 0 0) 0 []).
Definition ex_adapter (t : scan_tab) : adapter := Adapter t zero_bssid 0 0 0 0 0 2 1 0.
Definition ex_scan (jiffies i : Z) (t : scan_tab) : scan_tab :=
  tab (rtw_update_scanned_network (ex_time_after 64) jiffies (ex_adapter t) (ex_bss i)).

Lemma ex_target_ok i : target_ok (ex_bss i).
Proof.
  split; [split|]; cbn [ex_bss set_ies ssid SsidLength Ssid IELength IEs]; unfold MAX_IE_SZ; try lia; done.
Qed.

Definition ex_table : scan_tab :=
  _rtw_free_network_queue 1000 0 60000 false (ex_scan 50000 2 (ex_scan 30000 1 _rtw_init_mlme_priv)).

(** The same entry is released twice. *)
Definition ex_twice : scan_tab := _rtw_free_network_nolock (Some 1%nat) (_rtw_free_network_nolock (Some 1%nat) ex_table).

Lemma scan_table_invariant_witness :
  (free_bss_pool ex_table ++ scanned_queue ex_table ≡ₚ seq 0 MAX_BSS_CNT /\ num_of_scanned ex_table = 1) /\
  (free_bss_pool ex_twice ++ scanned_queue ex_twice ≡ₚ seq 0 MAX_BSS_CNT /\ num_of_scanned ex_twice = 2 ^ 32 - 1).
Proof.
  assert (Hr : scan_reach (ex_time_after 64) 1000 false 0 ex_table).
  { apply reach_expire. unfold ex_scan.
    apply reach_update; [|done|apply ex_target_ok]. apply reach_update; [constructor|done|apply ex_target_ok]. }
  assert (Hr2 : scan_reach (ex_time_after 64) 1000 false 1 ex_twice).
  { pose proof (reach_free _ _ _ _ ex_table 1 Hr ltac:(unfold MAX_BSS_CNT; lia)) as H1.
    pose proof (reach_free _ _ _ _ _ 1 H1 ltac:(unfold MAX_BSS_CNT; lia)) as H2.
    refine (eq_ind _ (fun n => scan_reach _ _ _ n _) H2 1 _). vm_compute. reflexivity. }
  destruct (scan_table_invariant (ex_time_after 64) 1000 false 0 ex_table Hr) as (Hp & _ & Hn & _).
  destruct (scan_table_invariant (ex_time_after 64) 1000 false 1 ex_twice Hr2) as (Hp2 & Hn2 & _).
  split; (split; [assumption|]).
  - rewrite Hn by reflexivity. vm_compute. reflexivity.
  - rewrite Hn2. vm_compute. reflexivity.
Defined.

(** A survey event leaves exactly one entry of the target's network, last scanned now, and
    every other entry unchanged.  An entry of the network is refreshed in its place, with
    the target's description unless the target is a probe request or a beacon after a probe
    response; otherwise a free entry is appended with the description; and when all 128
    are in use one is overwritten, even when it is fixed: the one scanned longest ago, where
    [time_after] tells the ages. *)
Theorem update_scanned_network_records time_after jiffies a target k :
  scan_inv k (p2p_on a) (tab a) -> target_ok target ->
  let t' := tab (rtw_update_scanned_network time_after jiffies a target) in
  scan_inv k (p2p_on a) t' /\
  exists p, p ∈ scanned_queue t' /\ ident (p2p_on a) (network (entry t' p)) = ident (p2p_on a) target /\
    last_scanned (entry t' p) = u32 jiffies /\
    (forall q, q <> p -> entry t' q = entry (tab a) q) /\
    recorded time_after jiffies (p2p_on a) target (tab a) t' p.
Proof. intros Hi Hok. exact (update_run time_after jiffies k a target Hi Hok). Qed.

Lemma update_scanned_network_records_witness :
  exists p, p ∈ scanned_queue (ex_scan 7 1 _rtw_init_mlme_priv) /\
    recorded (ex_time_after 64) 7 false (ex_bss 1) _rtw_init_mlme_priv (ex_scan 7 1 _rtw_init_mlme_priv) p.
Proof.
  destruct (update_scanned_network_records (ex_time_after 64) 7 (ex_adapter _rtw_init_mlme_priv) (ex_bss 1) 0
              (scan_inv_init false) (ex_target_ok 1)) as (_ & p & Hp & _ & _ & _ & Hr).
  exists p. split; [exact Hp|exact Hr].
Defined.

(** The expiry of entries frees exactly those that are not fixed and, without
    [isfreeall], have not been seen for the lifetime (20 seconds, or 1 millisecond in an
    ad hoc network), in their order, provided the ages in milliseconds fit in 32 bits. *)
Theorem free_network_queue_expires k p2p HZ fw_state jiffies isfreeall t :
  0 < HZ -> scan_inv k p2p t ->
  (forall p, p ∈ scanned_queue t -> u32 (jiffies - last_scanned (entry t p)) * 1000 < 2 ^ 32) ->
  let t' := _rtw_free_network_queue HZ fw_state jiffies isfreeall t in
  let kept p := fixed (entry t p) = true \/
    (isfreeall = false /\ u32 (jiffies - last_scanned (entry t p)) * 1000 / HZ < lifetime fw_state) in
  scan_inv k p2p t' /\ nets t' = nets t /\
  (forall p, p ∈ scanned_queue t' <-> p ∈ scanned_queue t /\ kept p) /\
  (forall p, p ∈ free_bss_pool t' <-> p ∈ free_bss_pool t \/ (p ∈ scanned_queue t /\ ~ kept p)) /\
  sublist (scanned_queue t') (scanned_queue t).
Proof.
  intros HH Hi Hw t' kept. split; [by apply free_queue_inv|].
  set (gone := filter (fun p => keeps HZ fw_state jiffies isfreeall (entry t p) = false) (scanned_queue t)).
  assert (Hk : forall p, p ∈ scanned_queue t -> keeps HZ fw_state jiffies isfreeall (entry t p) = false <-> ~ kept p).
  { intros p Hp. unfold keeps, kept. rewrite age_exact by auto.
    destruct (fixed (entry t p)), isfreeall; cbn [orb andb negb]; try (split; [done|tauto]); try tauto.
    - split; [|done]. intros _ [?|[? _]]; done.
    - rewrite Z.ltb_ge. split; [|lia]. intros ? [?|[_ ?]]; [done|lia]. }
  assert (Hg : forall p, p ∈ gone <-> p ∈ scanned_queue t /\ ~ kept p).
  { intros p. unfold gone. rewrite list_elem_of_filter. split; intros []; split; try done; by apply Hk. }
  assert (Hdec : forall p, kept p \/ ~ kept p).
  { intros p. unfold kept. destruct (fixed (entry t p)), isfreeall; try tauto.
    - right. intros [?|[? _]]; done.
    - destruct (Z.lt_ge_cases (u32 (jiffies - last_scanned (entry t p)) * 1000 / HZ) (lifetime fw_state)) as [?|Hge];
        [by left; right|right]. intros [?|[_ ?]]; [done|lia]. }
  destruct (move_to_free_list gone t (inv_nodup Hi)) as (H1 & H2 & H3).
  { apply list.NoDup_filter, (inv_nodup_scanned Hi). }
  { by intros p [Hp _]%Hg. }
  unfold t', _rtw_free_network_queue. rewrite free_queue_fold. fold gone.
  split; [done|]. rewrite H2, H3. split; [|split].
  - intros p. rewrite list_elem_of_filter, Hg. destruct (Hdec p); tauto.
  - intros p. by rewrite elem_of_app, Hg.
  - apply sublist_filter.
Qed.

Lemma free_network_queue_expires_witness :
  let t := ex_scan 50000 2 (ex_scan 30000 1 _rtw_init_mlme_priv) in
  scanned_queue t = [0; 1]%nat /\ 1%nat ∈ scanned_queue (_rtw_free_network_queue 1000 0 60000 false t) /\
  ~ (0%nat ∈ scanned_queue (_rtw_free_network_queue 1000 0 60000 false t)).
Proof.
  intros t.
  assert (Hr : scan_reach (ex_time_after 64) 1000 false 0 t).
  { unfold t, ex_scan. apply reach_update; [|done|apply ex_target_ok].
    apply reach_update; [constructor|done|apply ex_target_ok]. }
  assert (Hs : scanned_queue t = [0; 1]%nat) by (vm_compute; reflexivity).
  assert (Hl0 : last_scanned (entry t 0) = 30000) by (vm_compute; reflexivity).
  assert (Hl1 : last_scanned (entry t 1) = 50000) by (vm_compute; reflexivity).
  assert (Hf0 : fixed (entry t 0) = false) by (vm_compute; reflexivity).
  destruct (free_network_queue_expires 0 false 1000 0 60000 false t) as (_ & _ & Hq & _).
  - lia.
  - exact (scan_reach_inv (ex_time_after 64) 1000 false 0 t Hr).
  - rewrite Hs. intros p Hp. apply elem_of_cons in Hp as [->|Hp]; [rewrite Hl0; vm_compute; reflexivity|].
    apply list_elem_of_singleton in Hp as ->. rewrite Hl1. vm_compute. reflexivity.
  - split; [exact Hs|]. split.
    + apply Hq. rewrite Hs, Hl1. split; [right; left|]. right. split; [reflexivity|]. vm_compute. reflexivity.
    + intros [_ [H|[_ H]]]%Hq; [by rewrite Hf0 in H|]. rewrite Hl0 in H. vm_compute in H. discriminate.
Defined.

(** ** The smoothed signal *)

(** One step of a byte towards a sample. *)
Definition smooth (s d : Z) : Z := u8 ((s + d * 4) / 5).

Lemma smooth_step s d : is_u8 s -> is_u8 d ->
  is_u8 (smooth s d) /\
  (s < d -> s <= smooth s d < d) /\
  (d <= s - 5 -> d < smooth s d <= s - 4) /\
  (s - 4 <= d <= s -> s - 4 <= smooth s d <= s).
Proof.
  intros Hs Hd. unfold smooth. pose proof (Z.div_mod (s + d * 4) 5 ltac:(lia)) as E.
  pose proof (Z.mod_pos_bound (s + d * 4) 5 ltac:(lia)) as B. rewrite u8_id by lia. lia.
Qed.

(** As many steps as the distance bring the byte to the sample, or below it by at most 4. *)
Lemma smooth_iter s : is_u8 s -> forall n d, is_u8 d -> Z.abs (d - s) <= Z.of_nat n + 4 ->
  (s < d -> d - s <= Z.of_nat n) ->
  s - 4 <= Nat.iter n (smooth s) d <= s.
Proof.
  intros Hs. induction n as [|n IH]; intros d Hd Hn Hup; [simpl; lia|].
  rewrite Nat.iter_succ_r. destruct (smooth_step s d Hs Hd) as (Hu & H1 & H2 & H3).
  apply IH; [done| |]; destruct (Z.lt_trichotomy s d) as [?|[?|?]]; lia.
Qed.

Lemma update_network_signal a dst src ie :
  check_fwstate (fw_state a) _FW_LINKED && is_same_network (cur_network a) src 0 = false ->
  SignalQuality (phy src) <> 101 ->
  SignalStrength (phy (update_network a dst src ie)) = smooth (SignalStrength (phy src)) (SignalStrength (phy dst)) /\
  SignalQuality (phy (update_network a dst src ie)) = smooth (SignalQuality (phy src)) (SignalQuality (phy dst)).
Proof.
  intros Hc Hq. unfold update_network. rewrite Hc. by rewrite (proj2 (Z.eqb_neq _ _)).
Qed.

(** A network heard again and again with the same signal, on its channel and while it is
    not the connected one: after 255 updates its strength and quality are those of the
    sample, or less by at most 4, which the rounding never makes up. *)
Theorem signal_converges a dst src ie n :
  check_fwstate (fw_state a) _FW_LINKED && is_same_network (cur_network a) src 0 = false ->
  SignalQuality (phy src) <> 101 ->
  is_u8 (SignalStrength (phy src)) -> is_u8 (SignalQuality (phy src)) ->
  is_u8 (SignalStrength (phy dst)) -> is_u8 (SignalQuality (phy dst)) -> (255 <= n)%nat ->
  let b := Nat.iter n (fun b => update_network a b src ie) dst in
  SignalStrength (phy src) - 4 <= SignalStrength (phy b) <= SignalStrength (phy src) /\
  SignalQuality (phy src) - 4 <= SignalQuality (phy b) <= SignalQuality (phy src).
Proof.
  intros Hc Hq Hs1 Hq1 Hs2 Hq2 Hn b.
  assert (H : forall k, let b := Nat.iter k (fun b => update_network a b src ie) dst in
     SignalStrength (phy b) = Nat.iter k (smooth (SignalStrength (phy src))) (SignalStrength (phy dst)) /\
     SignalQuality (phy b) = Nat.iter k (smooth (SignalQuality (phy src))) (SignalQuality (phy dst))).
  { induction k as [|k [IH1 IH2]]; [done|]. cbv zeta in *. rewrite !Nat.iter_succ.
    destruct (update_network_signal a (Nat.iter k (fun b => update_network a b src ie) dst) src ie Hc Hq)
      as [-> ->]. by rewrite IH1, IH2. }
  pose proof (H n) as [E1 E2]. unfold b. rewrite E1, E2. split; apply smooth_iter; lia.
Qed.

Lemma signal_converges_witness :
  let b := Nat.iter 255 (fun b => update_network (ex_adapter _rtw_init_mlme_priv) b (ex_bss 1) true) zero_bssid in
  76 <= SignalStrength (phy b) <= 80 /\ 66 <= SignalQuality (phy b) <= 70.
Proof.
  refine (signal_converges (ex_adapter _rtw_init_mlme_priv) zero_bssid (ex_bss 1) true 255 _ _ _ _ _ _ _).
  - reflexivity.
  - cbn. lia.
  - cbn. lia.
  - cbn. lia.
  - cbn. lia.
  - cbn. lia.
  - lia.
Defined.
