(* ===== verification/ScanJoin.v ===== *)
(** * Scanning and joining (src/core/rtw_mlme.c)

    What the driver does with the table of scanned networks: a beacon heard during a scan
    ends in the table; a network to join or to roam to is chosen from it; leaving a network
    releases its entry together with the stations.  Not modelled: the commands a choice
    leads to ([rtw_disassoc_cmd], [rtw_joinbss_cmd]), the indications to the OS, the timer
    that ends [set_scan_deny], debug counters and the locks. *)

From stdpp Require Import gmap.
From S2P Require Import StaMgt.
From S2P Require Import Prelude WifiHdr Ie IeAttr BssInfo ScanTable.

(** ** Data *)

Definition WIFI_STATION_STATE : Z := 0x8.
Definition WIFI_AP_STATE : Z := 0x10.
Definition WIFI_UNDER_WPS : Z := 0x100.
Definition Ndis802_11EncryptionDisabled : Z := 1.
Definition Ndis802_11AuthModeWPA2PSK : Z := 7.
Definition _RSN_IE_2_ : Z := 48.

(** The fields of [mlme_priv] and [security_priv] the choice reads and changes. *)
Record join_priv := JoinPriv {
  assoc_by_bssid : bool; assoc_bssid : bytes; assoc_ssid : NDIS_802_11_SSID;
  ndisencryptstatus : Z; ndisauthtype : Z; to_roam : Z; roam_network : option nat;
  roam_tgt_addr : bytes; cur_network_scanned : option nat; roam_scanr_exp_ms : Z; roam_rssi_diff_th : Z
}.
Definition set_roam (n : option nat) (tgt : bytes) (j : join_priv) : join_priv :=
  JoinPriv (assoc_by_bssid j) (assoc_bssid j) (assoc_ssid j) (ndisencryptstatus j) (ndisauthtype j)
    (to_roam j) n tgt (cur_network_scanned j) (roam_scanr_exp_ms j) (roam_rssi_diff_th j).

Definition is_zero_mac_addr (addr : bytes) : bool := bool_decide (addr = replicate 6 0).

(** ** The desired network *)

Definition rtw_is_desired_network (a : ScanTable.adapter) (j : join_priv) (b : WLAN_BSSID_EX) : res bool :=
  let desired_encmode := ndisencryptstatus j in
  let privacy := Privacy b in
  if check_fwstate (fw_state a) WIFI_UNDER_WPS then
    '(p, _, _) ← rtw_get_wps_ie (IEs b) _FIXED_IE_LENGTH_ (u32 (IELength b - _FIXED_IE_LENGTH_)) None;
    Done (match p with Some _ => true | None => false end)
  else
    bselected ← (if ad_wifi_spec a =? 1 then
                   let bselected :=
                     if (desired_encmode =? Ndis802_11EncryptionDisabled) && negb (privacy =? 0) then false else true in
                   if ndisauthtype j =? Ndis802_11AuthModeWPA2PSK then
                     '(p, ie_len) ← rtw_get_ie (IEs b) _BEACON_IE_OFFSET_ _RSN_IE_2_ 0
                                      (s32 (IELength b - _BEACON_IE_OFFSET_));
                     Done (match p with Some _ => 0 <? ie_len | None => false end)
                   else Done bselected
                 else Done true);
    let bselected := if negb (desired_encmode =? Ndis802_11EncryptionDisabled) && (privacy =? 0)
                     then false else bselected in
    let bselected := if check_fwstate (fw_state a) WIFI_ADHOC_STATE
                        && negb (InfrastructureMode b =? InfrastructureMode (cur_network a))
                     then false else bselected in
    Done bselected.

Section select.
(** The kernel's tick rate and tick counter. *)
Context (HZ jiffies : Z) (a : ScanTable.adapter).

Definition net_of (p : nat) : WLAN_BSSID_EX := network (nets (tab a) !!! p).
Definition too_old (j : join_priv) (p : nat) : bool :=
  roam_scanr_exp_ms j <=? u32 (rtw_get_passing_time_ms HZ jiffies (u32 (last_scanned (nets (tab a) !!! p)))).

(** ** Joining *)

(** The tests before the comparison of signals. *)
Definition join_tests (j : join_priv) (p : nat) : res bool :=
  let b := net_of p in
  if assoc_by_bssid j && bool_decide (MacAddress b <> assoc_bssid j) then Done false
  else if negb (ld0 (Ssid (assoc_ssid j)) 0 =? 0) && negb (SsidLength (assoc_ssid j) =? 0)
          && (negb (SsidLength (ssid b) =? SsidLength (assoc_ssid j))
              || bool_decide (take (Z.to_nat (SsidLength (assoc_ssid j))) (Ssid (ssid b))
                              <> take (Z.to_nat (SsidLength (assoc_ssid j))) (Ssid (assoc_ssid j))))
       then Done false
  else
    desired ← rtw_is_desired_network a j b;
    if negb desired then Done false
    else if (0 <? to_roam j) && (too_old j p || negb (is_same_ess b (cur_network a))) then Done false
    else Done true.

(** [updated] and the candidate. *)
Definition rtw_check_join_candidate (j : join_priv) (candidate : option nat) (competitor : nat)
    : res (bool * option nat) :=
  ok ← join_tests j competitor;
  if negb ok then Done (false, candidate)
  else
    match candidate with
    | None => Done (true, Some competitor)
    | Some c => if Rssi (net_of c) <? Rssi (net_of competitor) then Done (true, Some competitor)
                else Done (false, candidate)
    end.

Fixpoint join_walk (j : join_priv) (candidate : option nat) (l : list nat) : res (option nat) :=
  match l with
  | [] => Done candidate
  | p :: l => '(_, candidate) ← rtw_check_join_candidate j candidate p; join_walk j candidate l
  end.

(** The first half of [rtw_select_and_join_from_scanned_queue]: the network to roam to, if
    one has been chosen, or the candidate of the walk; [None] is the return of [_FAIL]. *)
Definition select_candidate (j : join_priv) : res (option nat * join_priv) :=
  match roam_network j with
  | Some p => Done (Some p, set_roam None (roam_tgt_addr j) j)
  | None => c ← join_walk j None (scanned_queue (tab a)); Done (c, j)
  end.

(** ** Roaming *)

Definition rtw_check_roaming_candidate (j : join_priv) (cur : nat) (candidate : option nat)
    (competitor : nat) : res (bool * option nat) :=
  let b := net_of competitor in
  if negb (is_same_ess b (cur_network a)) then Done (false, candidate)
  else
    desired ← rtw_is_desired_network a j b;
    if negb desired then Done (false, candidate)
    else if negb (is_zero_mac_addr (roam_tgt_addr j)) then
      if bool_decide (roam_tgt_addr j = MacAddress b) then Done (true, Some competitor)
      else Done (false, candidate)
    else if too_old j competitor then Done (false, candidate)
    else if Rssi b - Rssi (net_of cur) <? roam_rssi_diff_th j then Done (false, candidate)
    else
      match candidate with
      | Some c => if Rssi b <=? Rssi (net_of c) then Done (false, candidate) else Done (true, Some competitor)
      | None => Done (true, Some competitor)
      end.

Fixpoint roam_walk (j : join_priv) (cur : nat) (candidate : option nat) (l : list nat) : res (option nat) :=
  match l with
  | [] => Done candidate
  | p :: l => '(_, candidate) ← rtw_check_roaming_candidate j cur candidate p; roam_walk j cur candidate l
  end.

Definition rtw_select_roaming_candidate (j : join_priv) : res (Z * join_priv) :=
  match cur_network_scanned j with
  | None => Done (_FAIL, j)
  | Some cur =>
    candidate ← roam_walk j cur None (scanned_queue (tab a));
    match candidate with
    | None => Done (_FAIL, j)
    | Some c =>
      let tgt := if bool_decide (MacAddress (net_of c) = roam_tgt_addr j) then replicate 6 0
                 else roam_tgt_addr j in
      Done (_SUCCESS, set_roam (Some c) tgt j)
    end
  end.
End select.

(** ** Leaving a network *)

(** [securitypriv.key_mask] and [mlmepriv.set_scan_deny]. *)
Record leave_priv := LeavePriv { key_mask : Z; set_scan_deny : bool }.

Section leave.
Context (myid : bytes) (iface_id : Z).

(** The stations: in station and access point mode the one of the current network, in ad
    hoc and access point mode all of them, the broadcast one being allocated anew. *)
Definition free_assoc_stations (a : ScanTable.adapter) (st : StaMgt.adapter) : StaMgt.adapter :=
  let st := if check_fwstate (fw_state a) (WIFI_STATION_STATE .| WIFI_AP_STATE) then
              match StaMgt.rtw_get_stainfo (StaMgt.stapriv st) (MacAddress (cur_network a)) with
              | Some o => StaMgt.rtw_free_stainfo myid o st
              | None => st
              end
            else st in
  if check_fwstate (fw_state a) (WIFI_ADHOC_STATE .| WIFI_ADHOC_MASTER_STATE .| WIFI_AP_STATE) then
    let st := StaMgt.rtw_free_all_stainfo myid st in
    let st := match StaMgt.rtw_get_bcmc_stainfo (StaMgt.stapriv st) with
              | Some o => StaMgt.rtw_free_stainfo myid o st
              | None => st
              end in
    fst (StaMgt.rtw_init_bcmc_stainfo myid iface_id st)
  else st.

(** The entry of the current network is released, in an ad hoc network of its own with one
    station once more; [rtw_free_network_nolock] also unlinks the network from the kernel's
    table, for which it reads the entry, so that NULL is [OutOfBounds]. *)
Definition rtw_free_network_nolock (p : option nat) (t : scan_tab) : res scan_tab :=
  match p with
  | None => OutOfBounds
  | Some _ => Done (_rtw_free_network_nolock p t)
  end.

Definition rtw_free_assoc_resources (a : ScanTable.adapter) (st : StaMgt.adapter) (l : leave_priv)
    : res (ScanTable.adapter * StaMgt.adapter * leave_priv) :=
  let st := free_assoc_stations a st in
  let t := tab a in
  let pwlan := _rtw_find_network t (MacAddress (cur_network a)) in
  '(t, deny) ← (match pwlan with
                | Some p =>
                  let t := set_net p (set_fixed false (nets t !!! p)) t in
                  t ← rtw_free_network_nolock (Some p) t;
                  Done (t, set_scan_deny l || negb (rtw_p2p_chk_state a P2P_STATE_NONE))
                | None => Done (t, set_scan_deny l)
                end);
  t ← (if check_fwstate (fw_state a) WIFI_ADHOC_MASTER_STATE
          && (StaMgt.asoc_sta_count (StaMgt.stapriv st) =? 1)
       then rtw_free_network_nolock pwlan t else Done t);
  Done (set_tab t a, st, LeavePriv 0 deny).
End leave.

(** ** The first of the strongest *)

Section best.
Context (ok : nat -> bool) (rssi : nat -> Z).

(** The specification of a choice from a queue: nothing exactly when nothing is eligible;
    otherwise an eligible entry, stronger than every eligible one before it and as strong
    as every one behind it. *)
Definition best (l : list nat) (o : option nat) : Prop :=
  match o with
  | None => forall p, p ∈ l -> ok p = false
  | Some c => exists l1 l2, l = l1 ++ c :: l2 /\ ok c = true /\
      (forall p, p ∈ l1 -> ok p = true -> rssi p < rssi c) /\
      (forall p, p ∈ l2 -> ok p = true -> rssi p <= rssi c)
  end.

Definition better (c : option nat) (p : nat) : option nat :=
  if ok p then
    match c with
    | None => Some p
    | Some c => if rssi c <? rssi p then Some p else Some c
    end
  else c.

Lemma better_best l o p : best l o -> best (l ++ [p]) (better o p).
Proof.
  unfold better. intros Hb. destruct (ok p) eqn:Hp; destruct o as [c|]; cbn [best] in *.
  - destruct Hb as (l1 & l2 & -> & Hc & H1 & H2). destruct (Z.ltb_spec (rssi c) (rssi p)); cbn [best].
    + exists (l1 ++ c :: l2), []. do 2 (split; [done|]). split; [|intros q Hq; by apply elem_of_nil in Hq].
      intros q Hq Hok. apply elem_of_app in Hq as [Hq|[->|Hq]%elem_of_cons]; [|lia|].
      * specialize (H1 q Hq Hok). lia.
      * specialize (H2 q Hq Hok). lia.
    + exists l1, (l2 ++ [p]). split; [by rewrite <- app_assoc|]. do 2 (split; [done|]).
      intros q [Hq| ->%list_elem_of_singleton]%elem_of_app Hok; [by apply H2|lia].
  - exists l, []. do 2 (split; [done|]).
    split; [intros q Hq; by rewrite Hb|intros q Hq; by apply elem_of_nil in Hq].
  - destruct Hb as (l1 & l2 & -> & Hc & H1 & H2). exists l1, (l2 ++ [p]).
    split; [by rewrite <- app_assoc|]. do 2 (split; [done|]).
    intros q [Hq| ->%list_elem_of_singleton]%elem_of_app Hok; [by apply H2|congruence].
  - intros q [Hq| ->%list_elem_of_singleton]%elem_of_app; [by apply Hb|done].
Qed.

Lemma fold_best l : forall pre o, best pre o -> best (pre ++ l) (fold_left better l o).
Proof.
  induction l as [|p l IH]; intros pre o Hb; cbn [fold_left]; [by rewrite app_nil_r|].
  replace (pre ++ p :: l) with ((pre ++ [p]) ++ l) by by rewrite <- app_assoc.
  by apply IH, better_best.
Qed.
End best.

Section choice.
Context (HZ jiffies : Z) (a : ScanTable.adapter) (j : join_priv).

Lemma join_walk_run ok l : (forall p, p ∈ l -> join_tests HZ jiffies a j p = Done (ok p)) ->
  forall c, join_walk HZ jiffies a j c l = Done (fold_left (better ok (fun p => Rssi (net_of a p))) l c).
Proof.
  induction l as [|p l IH]; intros Hok c; cbn [join_walk fold_left]; [done|].
  unfold rtw_check_join_candidate. rewrite Hok, done_bind by by left.
  specialize (IH (fun q Hq => Hok q ltac:(by right))). unfold better at 2.
  destruct (ok p); cbn [negb].
  - destruct c as [c|]; [destruct (_ <? _)|]; rewrite done_bind; apply IH.
  - rewrite done_bind. apply IH.
Qed.

(** An entry to roam to, without a requested address: of the same ESS, desired, seen
    lately, and stronger than the current one by the threshold. *)
Definition roam_tests (cur p : nat) (desired : bool) : bool :=
  is_same_ess (net_of a p) (cur_network a) && desired && negb (too_old HZ jiffies a j p)
  && (roam_rssi_diff_th j <=? Rssi (net_of a p) - Rssi (net_of a cur)).

Lemma roam_walk_run cur desired l : is_zero_mac_addr (roam_tgt_addr j) = true ->
  (forall p, p ∈ l -> rtw_is_desired_network a j (net_of a p) = Done (desired p)) ->
  forall c, roam_walk HZ jiffies a j cur c l
  = Done (fold_left (better (fun p => roam_tests cur p (desired p)) (fun p => Rssi (net_of a p))) l c).
Proof.
  intros Hz. induction l as [|p l IH]; intros Hd c; cbn [roam_walk fold_left]; [done|].
  specialize (IH (fun q Hq => Hd q ltac:(by right))). unfold rtw_check_roaming_candidate, better at 2, roam_tests at 2.
  destruct (is_same_ess (net_of a p) (cur_network a)); cbn [negb andb]; [|rewrite done_bind; apply IH].
  rewrite Hd, done_bind, Hz by by left.
  destruct (desired p); cbn [negb andb]; [|rewrite done_bind; apply IH].
  destruct (too_old HZ jiffies a j p); cbn [negb andb]; [rewrite done_bind; apply IH|].
  destruct (Z.ltb_spec (Rssi (net_of a p) - Rssi (net_of a cur)) (roam_rssi_diff_th j)),
    (Z.leb_spec (roam_rssi_diff_th j) (Rssi (net_of a p) - Rssi (net_of a cur))); try lia.
  - rewrite done_bind. apply IH.
  - destruct c as [c|]; [|rewrite done_bind; apply IH].
    destruct (Z.leb_spec (Rssi (net_of a p)) (Rssi (net_of a c))),
      (Z.ltb_spec (Rssi (net_of a c)) (Rssi (net_of a p))); try lia; rewrite done_bind; apply IH.
Qed.
End choice.

(** ** What is eligible *)

(** WPS and WiFi certification look at the elements of an entry: 12 fixed bytes, and
    elements of which the vendor's have at least the four bytes of an OUI and type. *)
Definition reads_elems (a : ScanTable.adapter) : bool :=
  check_fwstate (fw_state a) WIFI_UNDER_WPS || (ad_wifi_spec a =? 1).
Definition has_elems (b : WLAN_BSSID_EX) (els : list elem) : Prop :=
  exists fixed c, IEs b = fixed ++ encode els ++ c /\ zlen fixed = 12 /\
    IELength b = 12 + zlen (encode els) /\ IELength b <= MAX_IE_SZ /\ Forall p2p_fits els.

Definition is_wps (e : elem) : bool := matches _WPA_IE_ID_ (Some wps_oui) e.

(** The security settings an entry must fit: a WPS element while WPS runs; otherwise privacy if
    encryption is wanted, the own mode if that is ad hoc, and for the certification no privacy
    if no encryption is wanted, or, with WPA2-PSK, instead of that an RSN element. *)
Definition desired (a : ScanTable.adapter) (j : join_priv) (b : WLAN_BSSID_EX) (els : list elem) : bool :=
  let clear := ndisencryptstatus j =? Ndis802_11EncryptionDisabled in
  if check_fwstate (fw_state a) WIFI_UNDER_WPS then existsb is_wps els
  else
    (clear || negb (Privacy b =? 0))
    && (negb (check_fwstate (fw_state a) WIFI_ADHOC_STATE)
        || (InfrastructureMode b =? InfrastructureMode (cur_network a)))
    && (negb (ad_wifi_spec a =? 1) ||
        if ndisauthtype j =? Ndis802_11AuthModeWPA2PSK
        then match find_ie _RSN_IE_2_ els with Some (_, hit) => 0 <? zlen hit.2 | None => false end
        else negb clear || (Privacy b =? 0)).

Lemma wps_loop_run els : forall fuel a0 a c in_len cnt,
  Forall p2p_fits els -> (length els <= fuel)%nat -> cnt = zlen a -> in_len = cnt + zlen (encode els) ->
  in_len < 2 ^ 32 ->
  exists p w n, get_wps_ie_loop fuel (a0 ++ a ++ encode els ++ c) (zlen a0) in_len None cnt = Done (p, w, n) /\
    (match p with Some _ => true | None => false end) = existsb is_wps els.
Proof.
  induction els as [|e els IH]; intros fuel a0 a c in_len cnt Hf Hfu Hc Hl Hr.
  { change (zlen (encode [])) with 0 in Hl.
    destruct fuel; cbn [get_wps_ie_loop]; rewrite (proj2 (Z.ltb_ge _ _)) by lia; by do 3 eexists. }
  destruct fuel as [|fuel]; [cbn in Hfu; lia|]. apply list.Forall_cons in Hf as [He Hf].
  rewrite zlen_encode_cons in Hl. pose proof (zlen_nonneg e.2). pose proof (zlen_nonneg (encode els)). pose proof (zlen_nonneg a).
  rewrite encode_cons, <- app_assoc, (app_assoc a0).
  cbn [get_wps_ie_loop existsb]. rewrite (proj2 (Z.ltb_lt _ _)) by lia.
  rewrite (ld_id (a0 ++ a) _ _ (zlen a0 + cnt)), done_bind by (rewrite zlen_app; lia). rewrite (Z.eqb_sym e.1).
  rewrite (ex_test (a0 ++ a) e (encode els ++ c) _WPA_IE_ID_ (Some wps_oui)), done_bind
    by (rewrite ?zlen_app; lia || intros E; by apply He).
  rewrite (ld_len (a0 ++ a)), done_bind by (rewrite zlen_app; lia).
  unfold is_wps at 1. destruct (matches _ _ e); cbn [orb]; [by do 3 eexists|].
  rewrite u32_id by lia. rewrite <- app_assoc, (app_assoc a).
  apply IH; rewrite ?zlen_app, ?zlen_encode1; try done; try lia. cbn in Hfu. lia.
Qed.

Lemma desired_run a j b els : (reads_elems a = true -> has_elems b els) ->
  rtw_is_desired_network a j b = Done (desired a j b els).
Proof.
  unfold reads_elems, rtw_is_desired_network, desired. intros Hb.
  destruct (check_fwstate (fw_state a) WIFI_UNDER_WPS); cbn [orb] in Hb.
  - destruct Hb as (fixed & c & EI & Hf & EL & Hm & Hfit); [done|]. rewrite EI, EL. unfold MAX_IE_SZ, _FIXED_IE_LENGTH_ in *.
    pose proof (zlen_nonneg (encode els)). replace (12 + zlen (encode els) - 12) with (zlen (encode els)) by lia.
    rewrite u32_id by lia. unfold rtw_get_wps_ie. destruct (Z.leb_spec (zlen (encode els)) 0) as [Hz|Hz].
    + destruct els as [|e els]; [done|]. rewrite zlen_encode_cons in Hz. pose proof (zlen_nonneg e.2). pose proof (zlen_nonneg (encode els)). lia.
    + destruct (wps_loop_run els (Z.to_nat (zlen (encode els))) fixed [] c (zlen (encode els)) 0) as (p & w & n & E & <-);
        [done|pose proof (length_encode els); unfold zlen; lia|done|lia..|].
      cbn [app] in E. rewrite Hf in E. by rewrite E, done_bind.
  - assert (Hrsn : ad_wifi_spec a = 1 ->
      rtw_get_ie (IEs b) _BEACON_IE_OFFSET_ _RSN_IE_2_ 0 (s32 (IELength b - _BEACON_IE_OFFSET_))
      = Done (match find_ie _RSN_IE_2_ els with
              | Some (before, hit) => (Some (12 + zlen (encode before)), zlen hit.2)
              | None => (None, 0)
              end)).
    { intros Hs. destruct Hb as (fixed & c & EI & Hf & EL & Hm & Hfit); [by rewrite Hs|]. rewrite EI, EL. unfold MAX_IE_SZ, _BEACON_IE_OFFSET_ in *.
      pose proof (zlen_nonneg (encode els)). replace (12 + zlen (encode els) - 12) with (zlen (encode els)) by lia.
      rewrite s32_id by lia. destruct els as [|e els]; [done|]. rewrite <- Hf. by apply get_ie_run. }
    destruct (ad_wifi_spec a =? 1) eqn:Es; cbn [negb orb andb].
    + rewrite Hrsn by lia. destruct (ndisauthtype j =? _).
      * rewrite !done_bind. destruct (find_ie _ els) as [[before hit]|];
          destruct (ndisencryptstatus j =? _), (Privacy b =? 0), (check_fwstate _ WIFI_ADHOC_STATE),
            (InfrastructureMode b =? InfrastructureMode (cur_network a)); try done; by destruct (0 <? _).
      * rewrite !done_bind. by destruct (ndisencryptstatus j =? _), (Privacy b =? 0), (check_fwstate _ WIFI_ADHOC_STATE),
          (InfrastructureMode b =? InfrastructureMode (cur_network a)).
    + rewrite done_bind. by destruct (ndisencryptstatus j =? _), (Privacy b =? 0), (check_fwstate _ WIFI_ADHOC_STATE),
        (InfrastructureMode b =? InfrastructureMode (cur_network a)).
Qed.

(** What an entry must be to be joined: the requested address and SSID, desired, and
    when roaming seen lately and of the current ESS. *)
Definition join_ok (HZ jiffies : Z) (a : ScanTable.adapter) (j : join_priv) (els : nat -> list elem) (p : nat) : bool :=
  let b := net_of a p in
  (negb (assoc_by_bssid j) || bool_decide (MacAddress b = assoc_bssid j)) &&
  ((ld0 (Ssid (assoc_ssid j)) 0 =? 0) || (SsidLength (assoc_ssid j) =? 0)
   || ((SsidLength (ssid b) =? SsidLength (assoc_ssid j)) &&
       bool_decide (take (Z.to_nat (SsidLength (assoc_ssid j))) (Ssid (ssid b))
                    = take (Z.to_nat (SsidLength (assoc_ssid j))) (Ssid (assoc_ssid j)))))
  && desired a j b (els p) &&
  ((to_roam j <=? 0) || (negb (too_old HZ jiffies a j p) && is_same_ess b (cur_network a))).

Lemma join_tests_run HZ jiffies a j els p : (reads_elems a = true -> has_elems (net_of a p) (els p)) ->
  join_tests HZ jiffies a j p = Done (join_ok HZ jiffies a j els p).
Proof.
  intros He. unfold join_tests, join_ok. rewrite (desired_run a j _ (els p)), done_bind, !bool_decide_not by done.
  destruct (assoc_by_bssid j), (bool_decide (MacAddress (net_of a p) = assoc_bssid j)),
    (ld0 (Ssid (assoc_ssid j)) 0 =? 0), (SsidLength (assoc_ssid j) =? 0),
    (SsidLength (ssid (net_of a p)) =? SsidLength (assoc_ssid j)), (bool_decide (take _ _ = _)),
    (desired a j (net_of a p) (els p)), (too_old HZ jiffies a j p), (is_same_ess (net_of a p) (cur_network a)),
    (Z.ltb_spec 0 (to_roam j)), (Z.leb_spec (to_roam j) 0); try reflexivity; lia.
Qed.

(** ** Properties *)

(** C25: A network that was chosen to roam to before is joined untested, and forgotten.
    Otherwise the network joined is the strongest of the scanned ones that have the requested
    address and SSID, fit the security settings ([desired]: they differ while WPS runs and for
    the WiFi certification, which read the elements of the entries, assumed well formed
    there) and, when roaming, are recent entries of the current ESS; the first of them in the
    queue when several are as strong; and the choice fails exactly when there is none. *)
Theorem join_candidate_is_best HZ jiffies a j els :
  (reads_elems a = true -> forall p, p ∈ scanned_queue (tab a) -> has_elems (net_of a p) (els p)) ->
  match roam_network j with
  | Some p => select_candidate HZ jiffies a j = Done (Some p, set_roam None (roam_tgt_addr j) j)
  | None => exists c, select_candidate HZ jiffies a j = Done (c, j) /\
      best (join_ok HZ jiffies a j els) (fun p => Rssi (net_of a p)) (scanned_queue (tab a)) c
  end.
Proof.
  intros He. unfold select_candidate. destruct (roam_network j); [done|].
  rewrite (join_walk_run HZ jiffies a j (join_ok HZ jiffies a j els)), done_bind
    by (intros p Hp; apply join_tests_run; auto).
  eexists. split; [done|]. apply (fold_best _ _ _ []). intros p Hp. by apply elem_of_nil in Hp.
Qed.

Definition ex_rssi (i r : Z) : WLAN_BSSID_EX := set_phy 50 60 r (ex_bss i).
Definition ex_heard (l : list (Z * Z)) : scan_tab :=
  fold_left (fun t x => tab (rtw_update_scanned_network (ex_time_after 64) 1000 (ScanTable.ex_adapter t) (ex_rssi x.1 x.2)))
    l _rtw_init_mlme_priv.
Definition ex_here : ScanTable.adapter := ScanTable.ex_adapter (ex_heard [(1, -70); (2, -40); (3, -40)]).
Definition ex_join : join_priv :=
  JoinPriv false [] (NdisSsid 0 (replicate 32 0)) 1 0 0 None (replicate 6 0) (Some 0%nat) 5000 10.

(** The same while WPS runs: only entry 2 has a WPS element. *)
Definition ex_wps_elems (p : nat) : list elem := if decide (p = 2%nat) then [(0, [67]); (221, wps_oui ++ [16; 74])] else [(0, [65])].
Definition ex_wps : ScanTable.adapter :=
  let with_elems p t := set_net p (set_network (set_ies (12 + zlen (encode (ex_wps_elems p)))
    (pad 768 (replicate 12 0 ++ encode (ex_wps_elems p))) (network (entry t p))) (entry t p)) t in
  Adapter (with_elems 2%nat (with_elems 1%nat (with_elems 0%nat (tab ex_here)))) (ex_bss 2) WIFI_UNDER_WPS 0 0 0 0 2 1 0.

Lemma ex_wps_has p : p ∈ [0; 1; 2]%nat -> has_elems (net_of ex_wps p) (ex_wps_elems p).
Proof.
  intros Hp. exists (replicate 12 0), (replicate (768 - length (replicate 12 0 ++ encode (ex_wps_elems p))) 0).
  do 3 (apply elem_of_cons in Hp as [->|Hp]; [split; [vm_compute; reflexivity|]; split; [reflexivity|];
    split; [vm_compute; reflexivity|]; split; [vm_compute; discriminate|repeat constructor; vm_compute; discriminate]|]).
  by apply elem_of_nil in Hp.
Qed.

Lemma join_candidate_is_best_witness :
  (exists c, select_candidate 1000 2000 (set_current (ex_bss 2) ex_here) ex_join = Done (c, ex_join) /\
    best (join_ok 1000 2000 (set_current (ex_bss 2) ex_here) ex_join (fun _ => []))
      (fun p => Rssi (net_of (set_current (ex_bss 2) ex_here) p)) [0; 1; 2]%nat c /\ c = Some 1%nat) /\
  (exists c, select_candidate 1000 2000 ex_wps ex_join = Done (c, ex_join) /\
    best (join_ok 1000 2000 ex_wps ex_join ex_wps_elems) (fun p => Rssi (net_of ex_wps p)) [0; 1; 2]%nat c /\ c = Some 2%nat).
Proof.
  assert (Hq : scanned_queue (tab (set_current (ex_bss 2) ex_here)) = [0; 1; 2]%nat) by (vm_compute; reflexivity).
  assert (Hqw : scanned_queue (tab ex_wps) = [0; 1; 2]%nat) by (vm_compute; reflexivity).
  split.
  - pose proof (join_candidate_is_best 1000 2000 (set_current (ex_bss 2) ex_here) ex_join (fun _ => [])) as H.
    cbv beta iota delta [roam_network ex_join] in H. fold ex_join in H. rewrite Hq in H.
    destruct H as (c & Hc & Hb); [discriminate|]. exists c. split; [exact Hc|]. split; [exact Hb|].
    assert (Hrun : select_candidate 1000 2000 (set_current (ex_bss 2) ex_here) ex_join = Done (Some 1%nat, ex_join))
      by (vm_compute; reflexivity).
    rewrite Hrun in Hc. by injection Hc as <-.
  - pose proof (join_candidate_is_best 1000 2000 ex_wps ex_join ex_wps_elems) as H.
    cbv beta iota delta [roam_network ex_join] in H. fold ex_join in H. rewrite Hqw in H.
    destruct H as (c & Hc & Hb); [intros _; exact ex_wps_has|]. exists c. split; [exact Hc|]. split; [exact Hb|].
    assert (Hrun : select_candidate 1000 2000 ex_wps ex_join = Done (Some 2%nat, ex_join)) by (vm_compute; reflexivity).
    rewrite Hrun in Hc. by injection Hc as <-.
Defined.

(** The network roamed to, when no address is requested, is the strongest of the recent
    scanned ones of the current ESS that fit the security settings and are stronger than
    the current one by the threshold; without one the call fails and chooses nothing. *)
Theorem roaming_candidate_is_best HZ jiffies a j cur els :
  (reads_elems a = true -> forall p, p ∈ scanned_queue (tab a) -> has_elems (net_of a p) (els p)) ->
  is_zero_mac_addr (roam_tgt_addr j) = true -> cur_network_scanned j = Some cur ->
  exists c,
    best (fun p => roam_tests HZ jiffies a j cur p (desired a j (net_of a p) (els p)))
      (fun p => Rssi (net_of a p)) (scanned_queue (tab a)) c /\
    rtw_select_roaming_candidate HZ jiffies a j
    = Done (match c with
            | None => (_FAIL, j)
            | Some c => (_SUCCESS, set_roam (Some c) (replicate 6 0) j)
            end).
Proof.
  intros He Hz Hcur. unfold rtw_select_roaming_candidate. rewrite Hcur.
  rewrite (roam_walk_run HZ jiffies a j cur (fun p => desired a j (net_of a p) (els p))), done_bind
    by (done || intros p Hp; apply desired_run; auto).
  eexists. split; [apply (fold_best _ _ _ [] None); intros p Hp; by apply elem_of_nil in Hp|].
  unfold is_zero_mac_addr in Hz. apply bool_decide_eq_true in Hz. rewrite Hz.
  destruct (fold_left _ _ _); [|done]. by destruct (bool_decide _).
Qed.

Lemma roaming_candidate_is_best_witness :
  let a := set_current (ex_bss 1) (ScanTable.ex_adapter
             (tab (rtw_update_scanned_network (ex_time_after 64) 1000
                (ScanTable.ex_adapter (ex_heard [(1, -70)]))
                (set_phy 50 60 (-40) (set_ies 14 (IEs (ex_bss 1)) (WlanBssidEx 138 [2; 0; 0; 0; 0; 9] (1, 0)
                   (ssid (ex_bss 1)) 0 0 3 (config (ex_bss 1)) 1 (pad 16 [130]) (PhyInfo 0 0 0 0) 0 [])))))) in
  exists c, rtw_select_roaming_candidate 1000 2000 a ex_join
    = Done (match c with None => (_FAIL, ex_join) | Some c => (_SUCCESS, set_roam (Some c) (replicate 6 0) ex_join) end) /\
    rtw_select_roaming_candidate 1000 2000 a ex_join
    = Done (_SUCCESS, set_roam (Some 1%nat) (replicate 6 0) ex_join).
Proof.
  intros a. destruct (roaming_candidate_is_best 1000 2000 a ex_join 0%nat (fun _ => [])) as (c & _ & Hc).
  - discriminate.
  - reflexivity.
  - reflexivity.
  - exists c. split; [exact Hc|]. vm_compute. reflexivity.
Defined.

(** ** Leaving *)

Lemma filter_snoc_same (p : nat) (l : list nat) : p ∉ l -> filter (fun q => q <> p) (l ++ [p]) = l.
Proof.
  intros Hp. rewrite list.filter_app, filter_absent by done. cbn [filter list_filter].
  rewrite decide_False by (intros H; by apply H). by rewrite app_nil_r.
Qed.

(** Releasing an entry that is not fixed, and releasing it again. *)
Lemma release_once k p2p t p : scan_inv k p2p t -> p ∈ scanned_queue t ->
  let n := set_net p (set_fixed false (nets t !!! p)) t in
  _rtw_free_network_nolock (Some p) n
  = ScanTab (nets n) (free_bss_pool t ++ [p]) (filter (fun q => q <> p) (scanned_queue t))
      (u32 (num_of_scanned t - 1)).
Proof.
  intros Hi Hp n. unfold _rtw_free_network_nolock, n. cbn [set_net nets]. rewrite lookup_total_insert_eq.
  cbn [set_fixed fixed]. unfold move_to_free. cbn [set_net free_bss_pool scanned_queue num_of_scanned nets].
  by rewrite filter_absent by (intros Hf; by apply (inv_disjoint Hi p Hf)).
Qed.

Lemma release_again p n fr sc k : p ∉ fr -> fixed (nets n !!! p) = false ->
  _rtw_free_network_nolock (Some p) (ScanTab (nets n) (fr ++ [p]) (filter (fun q => q <> p) sc) k)
  = ScanTab (nets n) (fr ++ [p]) (filter (fun q => q <> p) sc) (u32 (k - 1)).
Proof.
  intros Hf Hn. unfold _rtw_free_network_nolock. cbn [nets]. rewrite Hn. unfold move_to_free.
  cbn [free_bss_pool scanned_queue num_of_scanned nets]. rewrite filter_snoc_same by done.
  rewrite filter_absent; [done|]. by intros [H _]%list_elem_of_filter.
Qed.

(** Leaving a network releases the entry of its address: it moves from the scanned to the
    free queue.  The creator of an ad hoc network that is down to one station releases the
    entry twice, which counts it twice and leaves [num_of_scanned] one below the length of
    the queue; and when it has no entry, the second release reads through NULL. *)
Theorem free_assoc_resources_releases myid iface_id k p2p a st l :
  scan_inv k p2p (tab a) ->
  let st' := free_assoc_stations myid iface_id a st in
  let alone := check_fwstate (fw_state a) WIFI_ADHOC_MASTER_STATE
               && (StaMgt.asoc_sta_count (StaMgt.stapriv st') =? 1) in
  match _rtw_find_network (tab a) (MacAddress (cur_network a)) with
  | Some p => exists a' deny,
      rtw_free_assoc_resources myid iface_id a st l = Done (a', st', LeavePriv 0 deny) /\
      p ∈ scanned_queue (tab a) /\
      scanned_queue (tab a') = filter (fun q => q <> p) (scanned_queue (tab a)) /\
      free_bss_pool (tab a') = free_bss_pool (tab a) ++ [p] /\
      num_of_scanned (tab a') = u32 (zlen (scanned_queue (tab a')) - (if alone then k + 1 else k)) /\
      scan_inv (if alone then k + 1 else k) p2p (tab a')
  | None => rtw_free_assoc_resources myid iface_id a st l
      = if alone then OutOfBounds else Done (a, st', LeavePriv 0 (set_scan_deny l))
  end.
Proof.
  intros Hi st' alone. unfold rtw_free_assoc_resources. fold st'. cbv zeta. fold alone.
  destruct (_rtw_find_network (tab a) (MacAddress (cur_network a))) as [p|] eqn:Hfind.
  2:{ rewrite done_bind. destruct alone; [done|]. rewrite done_bind. by destruct a. }
  assert (Hp : p ∈ scanned_queue (tab a)).
  { unfold _rtw_find_network in Hfind. case_bool_decide; [done|].
    apply find_some in Hfind as [Hp _]. by apply list_elem_of_In. }
  set (t := set_net p (set_fixed false (nets (tab a) !!! p)) (tab a)).
  assert (Ht : scan_inv k p2p t)
    by (apply set_net_same; [done|apply (inv_time Hi)|apply (inv_ok Hi)|done]).
  assert (Hmove : forall t', nets t' = nets t -> _rtw_free_network_nolock (Some p) t' = move_to_free p t').
  { intros t' E. unfold _rtw_free_network_nolock. rewrite E. cbn [t set_net nets]. by rewrite lookup_total_insert_eq. }
  pose proof (move_to_free_inv k p2p t p Ht Hp) as Hinv.
  assert (Hone := release_once k p2p (tab a) p Hi Hp). cbv zeta in Hone. fold t in Hone. rewrite (Hmove t eq_refl) in Hone.
  cbn [rtw_free_network_nolock]. rewrite !done_bind. rewrite (Hmove t eq_refl).
  destruct alone.
  - assert (Hf : p ∈ free_bss_pool (move_to_free p t)) by (apply elem_of_app; right; by left).
    pose proof (release_free_inv k p2p _ p Hinv Hf) as Hinv2. rewrite <- (Hmove (move_to_free p t) eq_refl) in Hinv2.
    eexists _, _. rewrite done_bind. split; [done|]. split; [done|]. cbn [set_tab tab].
    split; [|split; [|split; [apply (inv_num Hinv2)|done]]];
      rewrite Hone, (release_again p t) by (first [by intros Hf'; apply (inv_disjoint Hi p Hf')|by cbn; rewrite lookup_total_insert_eq]); done.
  - eexists _, _. rewrite done_bind. split; [done|]. split; [done|]. cbn [set_tab tab].
    split; [by rewrite Hone|]. split; [by rewrite Hone|]. split; [apply (inv_num Hinv)|done].
Qed.

Definition ex_ibss (t : scan_tab) : ScanTable.adapter :=
  Adapter t (ex_bss 1) (WIFI_ADHOC_MASTER_STATE) 0 0 0 0 2 1 0.

Lemma free_assoc_resources_releases_witness :
  let a := ex_ibss (ex_heard [(1, -70)]) in
  exists a' deny, rtw_free_assoc_resources ex_me 0 a StaMgt.ex_adapter (LeavePriv 3 false)
    = Done (a', free_assoc_stations ex_me 0 a StaMgt.ex_adapter, LeavePriv 0 deny) /\
    scanned_queue (tab a') = [] /\ num_of_scanned (tab a') = u32 (-1).
Proof.
  intros a.
  assert (Hi : scan_inv 0 false (tab a)).
  { apply (scan_reach_inv (ex_time_after 64) 1000). unfold a, ex_heard, ex_ibss. cbn [fold_left tab fst snd].
    apply reach_update; [constructor|done|]. destruct (ex_target_ok 1) as [H1 H2].
    split; [by apply bss_ok_set_phy|done]. }
  pose proof (free_assoc_resources_releases ex_me 0 0 false a StaMgt.ex_adapter (LeavePriv 3 false) Hi) as H.
  cbv zeta in H.
  assert (Hf : _rtw_find_network (tab a) (MacAddress (cur_network a)) = Some 0%nat) by (vm_compute; reflexivity).
  rewrite Hf in H. destruct H as (a' & deny & Hr & _ & Hs & _ & Hn & _).
  exists a', deny. split; [exact Hr|].
  assert (Hs' : scanned_queue (tab a') = []) by (rewrite Hs; vm_compute; reflexivity).
  split; [exact Hs'|]. rewrite Hn, Hs'.
  assert (Hal : check_fwstate (fw_state a) WIFI_ADHOC_MASTER_STATE
    && (StaMgt.asoc_sta_count (StaMgt.stapriv (free_assoc_stations ex_me 0 a StaMgt.ex_adapter)) =? 1) = true)
    by (vm_compute; reflexivity).
  rewrite Hal. reflexivity.
Defined.

(** ** From a beacon to the table *)

(** [report_survey_event] describes the network of a frame, and the event's callback
    records it. *)
Definition survey_frame (time_after : Z -> Z -> bool) (fuel : nat) (e : bss_env) (jiffies : Z)
    (a : ScanTable.adapter) (pframe : bytes) (packet_len : Z) (r : rx_phy) (cx : coex)
    : res (ScanTable.adapter * coex) :=
  '(bss, cx) ← collect_bss_info fuel e pframe packet_len r cx;
  match bss with
  | None => Done (a, cx)
  | Some bss => a ← rtw_survey_event_callback time_after fuel jiffies a bss; Done (a, cx)
  end.

(** A hidden SSID, of zeros, is recorded as an empty one. *)
Definition unhide (b : WLAN_BSSID_EX) : WLAN_BSSID_EX :=
  if ld0 (Ssid (ssid b)) 0 =? 0 then set_ssid_length 0 b else b.

(** Elements without a P2P one are not changed. *)
Lemma remove_p2p_none fuel fixed els c target : zlen fixed = 12 -> 12 + zlen (encode els) <= MAX_IE_SZ ->
  Forall p2p_fits els -> Forall (fun e => is_p2p e = false) els ->
  rtw_WLAN_BSSID_EX_remove_p2p_attr fuel (fixed ++ encode els ++ c) (12 + zlen (encode els)) target
  = Done (fixed ++ encode els ++ c, 12 + zlen (encode els)).
Proof.
  unfold MAX_IE_SZ. intros Hf Hl Hfits Hno. pose proof (zlen_nonneg (encode els)).
  unfold rtw_WLAN_BSSID_EX_remove_p2p_attr, _FIXED_IE_LENGTH_. rewrite s32_id by lia.
  replace (12 + zlen (encode els) - 12) with (zlen (encode els)) by lia.
  pose proof (get_p2p_ie_run fixed els c Hfits) as H1. rewrite Hf in H1.
  rewrite H1, done_bind by (unfold MAX_IE_SZ; lia). by rewrite find_by_none.
Qed.

Lemma beacon_bss_ies e hdr fixed els r cx b cx' : beacon_bss e hdr fixed els r cx = (Some b, cx') ->
  IEs b = pad 768 (fixed ++ encode els) /\ IELength b = 12 + zlen (encode els).
Proof.
  unfold beacon_bss. destruct (beacon_ssid els), (beacon_rates els); intros H; try done.
  by injection H as <- <-.
Qed.

(** A scanning adapter: neither connected nor connecting nor the creator of an ad hoc
    network. *)
Definition scanning (a : ScanTable.adapter) : Prop :=
  check_fwstate (fw_state a) _FW_LINKED = false /\ check_fwstate (fw_state a) _FW_UNDER_LINKING = false /\
  check_fwstate (fw_state a) WIFI_ADHOC_MASTER_STATE = false.

Lemma survey_callback_run time_after fuel jiffies a b els fixed c :
  scanning a -> bss_ok b -> zlen fixed = 12 -> IEs b = fixed ++ encode els ++ c ->
  IELength b = 12 + zlen (encode els) -> Forall p2p_fits els -> Forall (fun e => is_p2p e = false) els ->
  rtw_survey_event_callback time_after fuel jiffies a b
  = Done (rtw_update_scanned_network time_after jiffies a (unhide b)).
Proof.
  intros (Hlk & Hul & Hma) Hb Hf HI Hl Hfits Hno. pose proof (bss_ie_len b Hb) as Hle. unfold MAX_IE_SZ in Hle.
  unfold rtw_survey_event_callback, get_WLAN_BSSID_EX_sz.
  replace (sizeof_WLAN_BSSID_EX - MAX_IE_SZ) with 124 by done.
  rewrite u32_id by lia. rewrite (proj2 (Z.ltb_ge _ _)) by (unfold sizeof_WLAN_BSSID_EX, MAX_IE_SZ; lia).
  rewrite Hma. cbn [andb]. unfold survey_add. rewrite Hul. cbn [negb]. cbv zeta. fold (unhide b).
  assert (Hu : IEs (unhide b) = IEs b /\ IELength (unhide b) = IELength b)
    by (unfold unhide; by destruct (_ =? 0)).
  unfold rtw_add_network. destruct Hu as [-> ->].
  assert (Hrm : (if ad_wifi_spec a =? 0
       then '(ies, ielen) ← rtw_WLAN_BSSID_EX_remove_p2p_attr fuel (IEs b) (IELength b) P2P_ATTR_GROUP_INFO;
            Done (set_ies ielen ies (unhide b))
       else Done (unhide b)) = Done (unhide b)).
  { destruct (ad_wifi_spec a =? 0); [|done]. rewrite HI, Hl, remove_p2p_none, done_bind by (done || unfold MAX_IE_SZ; lia).
    rewrite <- HI, <- Hl. unfold unhide. by destruct b, (_ =? 0). }
  rewrite Hrm, done_bind. unfold update_current_network. rewrite Hlk. done.
Qed.

(** C23: A beacon or probe response that is read as a description (see the reading of beacons:
    12 fixed bytes and elements that fit in the IEs array, vendor's of at least four bytes) and
    carries no P2P element, received while the adapter is neither linked nor linking nor the
    creator of an ad hoc network ([scanning]), leaves the table with
    one entry of that network, last scanned now: a new one, the refreshed one, or, the table
    being full, in place of another.  That is the entry scanned longest ago whenever the
    kernel's [time_after] orders the stamps of the table by their ages: on 32-bit machines if
    no entry is older than 2^31 ticks ([ages_32]), on 64-bit ones, where the stamps keep 32
    bits, as long as the tick counter has not wrapped since an entry was scanned ([ages_64]); after
    it has, the code takes a newer one.  A hidden SSID is recorded as an empty one. *)
Theorem scan_records_beacon time_after fuel e jiffies k a hdr fixed els r cx b cx' :
  scanning a -> scan_inv k (p2p_on a) (tab a) ->
  zlen hdr = 24 -> zlen fixed = 12 -> 12 + zlen (encode els) <= MAX_IE_SZ -> beacon_ok els ->
  Forall p2p_fits els -> Forall (fun e => is_p2p e = false) els ->
  GetFrameSubType hdr = WIFI_BEACON \/ GetFrameSubType hdr = WIFI_PROBERSP ->
  beacon_bss e hdr fixed els r cx = (Some b, cx') ->
  exists a', survey_frame time_after fuel e jiffies a (hdr ++ fixed ++ encode els)
               (24 + 12 + zlen (encode els)) r cx = Done (a', cx') /\
    updated time_after jiffies k (p2p_on a) (unhide b) (tab a) (tab a').
Proof.
  intros Hsc Hi Hh Hf Hl Hok Hfits Hno Hk Hb. unfold survey_frame.
  rewrite collect_beacon, Hb, done_bind by done.
  pose proof (beacon_bss_ok e hdr fixed els r cx b cx' Hf Hl Hb) as Hbok.
  destruct (beacon_bss_ies _ _ _ _ _ _ _ _ Hb) as [HI HL]. unfold pad in HI. rewrite <- app_assoc in HI.
  rewrite (survey_callback_run time_after fuel jiffies a b els fixed _ Hsc Hbok Hf HI HL Hfits Hno), done_bind.
  eexists. split; [done|]. apply update_run; [done|].
  pose proof (zlen_nonneg (encode els)). unfold unhide.
  destruct (_ =? 0); [|split; [done|lia]]. destruct Hbok as [Hs1 Hs2 Hl1 Hl2].
  split; [split; cbn [set_ssid_length ssid SsidLength Ssid IELength IEs]; try done; lia|cbn; lia].
Qed.

(** A full table, scanned in the order of its entries, on a 64-bit machine. *)
Definition ex_nth_bss (i : nat) : WLAN_BSSID_EX :=
  set_ies 14 (pad 768 [0; 0; 0; 0; 0; 0; 0; 0; 100; 0; 1; 0; 0; 0])
    (WlanBssidEx 138 [2; 0; 0; 1; 0; Z.of_nat i] (1, 0) (NdisSsid 1 (pad 32 [64])) 0 (-50) 3
       (Configuration 0 100 0 6 (FHConfiguration 0 0 0 0)) 1 (pad 16 [130]) (PhyInfo 80 70 0 0) 0 []).
Definition ex_full (start : Z) : scan_tab :=
  fold_left (fun t i => tab (rtw_update_scanned_network (ex_time_after 64) (start + Z.of_nat i) (ScanTable.ex_adapter t) (ex_nth_bss i)))
    (seq 0 128) _rtw_init_mlme_priv.

Lemma ex_full_inv start : scan_inv 0 false (ex_full start).
Proof.
  unfold ex_full. generalize (scan_inv_init false). generalize _rtw_init_mlme_priv.
  induction (seq 0 128) as [|i l IH]; intros t Ht; cbn [fold_left]; [done|]. apply IH.
  apply (update_run (ex_time_after 64) (start + Z.of_nat i) 0 (ScanTable.ex_adapter t) (ex_nth_bss i)); [done|].
  split; [split|]; cbn [ex_nth_bss set_ies ssid SsidLength Ssid IELength IEs]; unfold MAX_IE_SZ; try lia; done.
Qed.

(** The beacon of the example, heard with a table. *)
Definition ex_heard_bss : option WLAN_BSSID_EX :=
  fst (beacon_bss ex_env (ex_hdr 0x80) ex_fixed ex_els (RxPhy (-40) 80 90) (Coex 0 0)).

Lemma scan_records_beacon_witness :
  let a := ScanTable.ex_adapter (ex_full 5000) in
  exists a' b p, survey_frame (ex_time_after 64) 0 ex_env 6000 a (ex_hdr 0x80 ++ ex_fixed ++ encode ex_els)
      (24 + 12 + zlen (encode ex_els)) (RxPhy (-40) 80 90) (Coex 0 0) = Done (a', Coex 1 0) /\
    ex_heard_bss = Some b /\ p ∈ scanned_queue (tab a') /\
    recorded (ex_time_after 64) 6000 (p2p_on a) (unhide b) (tab a) (tab a') p /\ p = 0%nat.
Proof.
  intros a.
  assert (exists b, beacon_bss ex_env (ex_hdr 0x80) ex_fixed ex_els (RxPhy (-40) 80 90) (Coex 0 0) = (Some b, Coex 1 0)) as [b Hb]
    by (eexists; vm_compute; reflexivity).
  destruct (scan_records_beacon (ex_time_after 64) 0 ex_env 6000 0 a (ex_hdr 0x80) ex_fixed ex_els (RxPhy (-40) 80 90)
              (Coex 0 0) b (Coex 1 0)) as (a' & Hr & _ & p & Hp & _ & Hl & Hq & Hrec).
  - repeat split.
  - apply ex_full_inv.
  - reflexivity.
  - reflexivity.
  - vm_compute. discriminate.
  - split; [|split]; [vm_compute; discriminate..|]. intros x [= <-]. vm_compute. discriminate.
  - repeat constructor; intros [=].
  - repeat constructor.
  - left. reflexivity.
  - exact Hb.
  - exists a', b, p. split; [exact Hr|]. split; [unfold ex_heard_bss; rewrite Hb; reflexivity|].
    split; [exact Hp|]. split; [exact Hrec|].
    destruct (decide (p = 0%nat)) as [E|N]; [exact E|exfalso].
    assert (H0 : last_scanned (entry (tab a') 0) = 6000).
    { assert (match survey_frame (ex_time_after 64) 0 ex_env 6000 a (ex_hdr 0x80 ++ ex_fixed ++ encode ex_els)
          (24 + 12 + zlen (encode ex_els)) (RxPhy (-40) 80 90) (Coex 0 0) with
        | Done (a', _) => last_scanned (entry (tab a') 0) =? 6000 | _ => false end = true) as H by (vm_compute; reflexivity).
      rewrite Hr in H. by apply Z.eqb_eq. }
    rewrite (Hq 0%nat) in H0 by auto. vm_compute in H0. discriminate.
Defined.

(** After the tick counter has wrapped, a 64-bit machine takes the entry scanned last. *)
Example evicts_newest_after_wrap :
  let t := ex_full (2 ^ 32 - 127) in
  let t' := tab (rtw_update_scanned_network (ex_time_after 64) 1 (ScanTable.ex_adapter t) (ex_bss 1)) in
  last_scanned (entry t 127) = 0 /\ age 1 t 127 = 1 /\ age 1 t 0 = 128 /\
  last_scanned (entry t' 127) = 1 /\ entry t' 0 = entry t 0.
Proof. vm_compute. by split_and!. Qed.
