(* ===== verification/ApCap.v ===== *)
(** * The stations of an access point and its beacon (src/core/rtw_ap.c)

    An access point counts its stations that are not ERP, have no short preamble or slot
    time, no HT, no greenfield, or are 20 MHz only: [bss_cap_update_on_sta_join] and
    [bss_cap_update_on_sta_leave], the HT operation mode, the ERP element of the beacon
    ([update_bcn_erpinfo_ie]) and the protection of each station ([VCS_update]).  Calls of
    [set_tx_beacon_cmd] are counted.  The functions for the fixed fields, the HT, RSN, WPA,
    WMM and P2P elements of the beacon are empty in the code. *)

From stdpp Require Import relations.
From S2P Require Import Prelude Ie IeAttr BeaconIe.

(** ** Data *)

Definition WLAN_STA_SHORT_PREAMBLE : Z := 1 .<< 7.
Definition WLAN_STA_HT : Z := 1 .<< 11.
Definition WLAN_STA_NONERP : Z := 1 .<< 31.
Definition WLAN_CAPABILITY_SHORT_SLOT : Z := 1 .<< 10.
Definition WIRELESS_11B : Z := 1.

Definition _ERPINFO_IE_ : Z := 42.
Definition _HT_CAPABILITY_IE_ : Z := 45.
Definition _HT_ADD_INFO_IE_ : Z := 61.
Definition RTW_ERP_INFO_NON_ERP_PRESENT : Z := 1.
Definition RTW_ERP_INFO_USE_PROTECTION : Z := 2.
Definition RTW_ERP_INFO_BARKER_PREAMBLE_MODE : Z := 4.

Definition IEEE80211_HT_CAP_SUP_WIDTH : Z := 0x0002.
Definition IEEE80211_HT_CAP_GRN_FLD : Z := 0x0010.
Definition OP_MODE_PURE : Z := 0.
Definition OP_MODE_MAY_BE_LEGACY_STAS : Z := 1.
Definition OP_MODE_20MHZ_HT_STA_ASSOCED : Z := 2.
Definition OP_MODE_MIXED : Z := 3.
Definition HT_INFO_OPERATION_MODE_OP_MODE_MASK : Z := 3.
Definition HT_INFO_OPERATION_MODE_NON_GF_DEVS_PRESENT : Z := 4.
Definition HT_INFO_OPERATION_MODE_NON_HT_STA_PRESENT : Z := 16.

(** The capability fields of [struct sta_info]; [ht_capab] is [htpriv.ht_cap.cap_info]. *)
Record sta_caps := StaCaps {
  flags : Z; capability : Z; ht_capab : Z;
  nonerp_set : bool; no_short_slot_time_set : bool; no_short_preamble_set : bool;
  no_ht_gf_set : bool; no_ht_set : bool; ht_20mhz_set : bool
}.

(** The counters of [struct mlme_priv]. *)
Record sta_counts := StaCounts {
  num_sta_non_erp : Z; num_sta_no_short_slot_time : Z; num_sta_no_short_preamble : Z;
  num_sta_ht_no_gf : Z; num_sta_no_ht : Z; num_sta_ht_20mhz : Z
}.

(** The beacon: the elements of the network, [ERP_enable] and [ERP_IE] of
    [struct mlme_ext_info], and the commands to transmit it. *)
Record bss_bcn := BssBcn {
  IEs : bytes; IELength : Z; ERP_enable : bool; ERP_IE : Z; update_bcn : bool;
  tx_beacon_cmds : Z
}.

Record bss := Bss { counts : sta_counts; ht_op_mode : Z; bcn : bss_bcn }.

(** What the operations read and do not change.  [ap_ht_option] and [ap_ht_cap_info] are
    [mlmepriv.htpriv]; [bcn_alloc_ok] is the outcome of allocating a backup buffer. *)
Record ap_env := ApEnv {
  bstart_bss : bool; cur_wireless_mode : Z; ap_ht_option : bool; ap_ht_cap_info : Z;
  olbc_ht : bool; vrtl_carrier_sense : Z; vcs_type : Z; wps_beacon_ie : option bytes;
  bcn_alloc_ok : bool
}.

Definition has (mask x : Z) : bool := negb (x .& mask =? 0).

Definition set_ies (m : bytes) (len : Z) (b : bss_bcn) : bss_bcn :=
  BssBcn m len (ERP_enable b) (ERP_IE b) (update_bcn b) (tx_beacon_cmds b).
Definition set_erp (v : Z) (b : bss_bcn) : bss_bcn :=
  BssBcn (IEs b) (IELength b) true v (update_bcn b) (tx_beacon_cmds b).
Definition set_update_bcn (b : bss_bcn) : bss_bcn :=
  BssBcn (IEs b) (IELength b) (ERP_enable b) (ERP_IE b) true (tx_beacon_cmds b).
Definition set_tx_beacon_cmd (b : bss_bcn) : bss_bcn :=
  BssBcn (IEs b) (IELength b) (ERP_enable b) (ERP_IE b) (update_bcn b) (tx_beacon_cmds b + 1).
Definition with_bcn (x : bss_bcn) (b : bss) : bss := Bss (counts b) (ht_op_mode b) x.

(** ** Elements of the beacon *)

(** [ERP_IE_handler] on the element at [p]: an element of more than one byte is ignored,
    and the body of an empty one leaves [ERP_IE] as it is. *)
Definition ERP_IE_handler (m : bytes) (p : Z) (b : bss_bcn) : res bss_bcn :=
  Length ← ldr m (p + 1);
  if 1 <? Length then Done b
  else if Length =? 0 then Done (set_erp (ERP_IE b) b)
  else v ← ldr m (p + 2); Done (set_erp v b).

Definition erp_bits (c : sta_counts) (v : Z) : Z :=
  let prot := RTW_ERP_INFO_NON_ERP_PRESENT .| RTW_ERP_INFO_USE_PROTECTION in
  let v := if num_sta_non_erp c =? 1 then v .| prot else Z.ldiff v prot in
  if 0 <? num_sta_no_short_preamble c then v .| RTW_ERP_INFO_BARKER_PREAMBLE_MODE
  else Z.ldiff v RTW_ERP_INFO_BARKER_PREAMBLE_MODE.

Definition update_bcn_erpinfo_ie (c : sta_counts) (b : bss_bcn) : res bss_bcn :=
  if negb (ERP_enable b) then Done b
  else
    '(p, len) ← rtw_get_ie (IEs b) _BEACON_IE_OFFSET_ _ERPINFO_IE_ 0 (s32 (IELength b - _BEACON_IE_OFFSET_));
    match p with
    | Some p =>
      if 0 <? len then
        v ← ldr (IEs b) (p + 2);
        m ← wrr (IEs b) (p + 2) [erp_bits c v];
        ERP_IE_handler m p (set_ies m (IELength b) b)
      else Done b
    | None => Done b
    end.

Definition WPS_ATTR_SELECTED_REGISTRAR : Z := 0x1041.

(** The WPS element of the beacon is replaced by the configured one. *)
Definition update_bcn_wps_ie (e : ap_env) (b : bss_bcn) : res bss_bcn :=
  '(pwps_ie, _, wps_ielen) ← rtw_get_wps_ie (IEs b) _FIXED_IE_LENGTH_ (u32 (IELength b - _FIXED_IE_LENGTH_)) None;
  match pwps_ie, wps_beacon_ie e with
  | Some wps_offset, Some src =>
    if wps_ielen =? 0 then Done b
    else
      let premainder_ie := wps_offset + wps_ielen in
      let remainder_ielen := u32 (IELength b - wps_offset - wps_ielen) in
      pbackup ← backup (bcn_alloc_ok e) (IEs b) premainder_ie remainder_ielen;
      wps_ielen ← ldr src 1;
      if wps_offset + wps_ielen + 2 + remainder_ielen <=? MAX_IE_SZ then
        new ← rdr src 0 (wps_ielen + 2);
        m ← wrr (IEs b) wps_offset new;
        m ← restore m (wps_offset + wps_ielen + 2) pbackup;
        Done (set_ies m (wps_offset + (wps_ielen + 2) + remainder_ielen) b)
      else Done b
  | _, _ => Done b
  end.

Definition RTW_WPA_OUI : bytes := [0x00; 0x50; 0xf2; 0x01].
Definition WMM_OUI : bytes := [0x00; 0x50; 0xf2; 0x02].
Definition WPS_OUI : bytes := [0x00; 0x50; 0xf2; 0x04].

Definition update_bcn_vendor_spec_ie (e : ap_env) (oui : bytes) (b : bss_bcn) : res bss_bcn :=
  if bool_decide (oui = RTW_WPA_OUI) || bool_decide (oui = WMM_OUI) then Done b
  else if bool_decide (oui = WPS_OUI) then update_bcn_wps_ie e b
  else Done b.

(** [_update_beacon]: [tim_bitmap] is the one of the station table. *)
Definition _update_beacon (e : ap_env) (tim_bitmap : Z) (ie_id : Z) (oui : bytes) (tx : bool) (b : bss) : res bss :=
  if negb (bstart_bss e) then Done b
  else
    x ← (if ie_id =? _TIM_IE_ then
           '(m, len) ← update_BCNTIM (bcn_alloc_ok e) (IEs (bcn b)) (IELength (bcn b)) tim_bitmap;
           Done (set_ies m len (bcn b))
         else if ie_id =? _ERPINFO_IE_ then update_bcn_erpinfo_ie (counts b) (bcn b)
         else if ie_id =? _VENDOR_SPECIFIC_IE_ then update_bcn_vendor_spec_ie e oui (bcn b)
         else Done (bcn b));
    let x := set_update_bcn x in
    Done (with_bcn (if tx then set_tx_beacon_cmd x else x) b).

(** ** The HT operation mode *)

(** The new mode and the number of changes. *)
Definition rtw_ht_operation_update (e : ap_env) (b : bss) : Z * bss :=
  if ap_ht_option e then (0, b)
  else
    let c := counts b in
    let m := ht_op_mode b in
    let gf := HT_INFO_OPERATION_MODE_NON_GF_DEVS_PRESENT in
    let '(m, n1) :=
      if negb (has gf m) && negb (num_sta_ht_no_gf c =? 0) then (m .| gf, 1)
      else if has gf m && (num_sta_ht_no_gf c =? 0) then (Z.ldiff m gf, 1) else (m, 0) in
    let nh := HT_INFO_OPERATION_MODE_NON_HT_STA_PRESENT in
    let '(m, n2) :=
      if negb (has nh m) && (negb (num_sta_no_ht c =? 0) || olbc_ht e) then (m .| nh, 1)
      else if has nh m && ((num_sta_no_ht c =? 0) && negb (olbc_ht e)) then (Z.ldiff m nh, 1) else (m, 0) in
    let new_op_mode :=
      if negb (num_sta_no_ht c =? 0) || has gf m then OP_MODE_MIXED
      else if has IEEE80211_HT_CAP_SUP_WIDTH (ap_ht_cap_info e) && negb (num_sta_ht_20mhz c =? 0)
      then OP_MODE_20MHZ_HT_STA_ASSOCED
      else if olbc_ht e then OP_MODE_MAY_BE_LEGACY_STAS else OP_MODE_PURE in
    let '(m, n3) :=
      if negb (m .& HT_INFO_OPERATION_MODE_OP_MODE_MASK =? new_op_mode)
      then (Z.ldiff m HT_INFO_OPERATION_MODE_OP_MODE_MASK .| new_op_mode, 1) else (m, 0) in
    (n1 + n2 + n3, Bss c m (bcn b)).

(** ** A station joins *)

(** The four lines each counter has: the station's flag, the counter, and whether the
    counter reached one from below or zero from above. *)
Definition track (want set : bool) (n : Z) : bool * Z * bool :=
  if want then if set then (true, n, false) else (true, n + 1, n + 1 =? 1)
  else if set then (false, n - 1, n - 1 =? 0) else (false, n, false).

Definition set_preamble (v : bool) (n : Z) (p : sta_caps) (b : bss) : sta_caps * bss :=
  let c := counts b in
  (StaCaps (flags p) (capability p) (ht_capab p) (nonerp_set p) (no_short_slot_time_set p) v
     (no_ht_gf_set p) (no_ht_set p) (ht_20mhz_set p),
   Bss (StaCounts (num_sta_non_erp c) (num_sta_no_short_slot_time c) n (num_sta_ht_no_gf c)
          (num_sta_no_ht c) (num_sta_ht_20mhz c)) (ht_op_mode b) (bcn b)).
Definition set_nonerp (v : bool) (n : Z) (p : sta_caps) (b : bss) : sta_caps * bss :=
  let c := counts b in
  (StaCaps (flags p) (capability p) (ht_capab p) v (no_short_slot_time_set p) (no_short_preamble_set p)
     (no_ht_gf_set p) (no_ht_set p) (ht_20mhz_set p),
   Bss (StaCounts n (num_sta_no_short_slot_time c) (num_sta_no_short_preamble c) (num_sta_ht_no_gf c)
          (num_sta_no_ht c) (num_sta_ht_20mhz c)) (ht_op_mode b) (bcn b)).
Definition set_slot (v : bool) (n : Z) (p : sta_caps) (b : bss) : sta_caps * bss :=
  let c := counts b in
  (StaCaps (flags p) (capability p) (ht_capab p) (nonerp_set p) v (no_short_preamble_set p)
     (no_ht_gf_set p) (no_ht_set p) (ht_20mhz_set p),
   Bss (StaCounts (num_sta_non_erp c) n (num_sta_no_short_preamble c) (num_sta_ht_no_gf c)
          (num_sta_no_ht c) (num_sta_ht_20mhz c)) (ht_op_mode b) (bcn b)).
Definition set_ht_flags (gf nh w : bool) (ngf nnh nw : Z) (p : sta_caps) (b : bss) : sta_caps * bss :=
  let c := counts b in
  (StaCaps (flags p) (capability p) (ht_capab p) (nonerp_set p) (no_short_slot_time_set p)
     (no_short_preamble_set p) gf nh w,
   Bss (StaCounts (num_sta_non_erp c) (num_sta_no_short_slot_time c) (num_sta_no_short_preamble c)
          ngf nnh nw) (ht_op_mode b) (bcn b)).

Section join.
Context (e : ap_env) (tim_bitmap : Z).
Abbreviation update_beacon ie_id tx b := (_update_beacon e tim_bitmap ie_id [] tx b).

(** The beacon is updated when [edge] holds; the third result is [beacon_updated]. *)
Definition on_edge (edge : bool) (ie_id : Z) (pb : sta_caps * bss) : res (sta_caps * bss * bool) :=
  if edge then b ← update_beacon ie_id true pb.2; Done (pb.1, b, true) else Done (pb.1, pb.2, false).

Definition join_preamble (p : sta_caps) (b : bss) : res (sta_caps * bss * bool) :=
  let '(v, n, edge) := track (negb (has WLAN_STA_SHORT_PREAMBLE (flags p))) (no_short_preamble_set p)
                         (num_sta_no_short_preamble (counts b)) in
  on_edge ((WIRELESS_11B <? cur_wireless_mode e) && edge) 0xFF (set_preamble v n p b).

Definition join_nonerp (p : sta_caps) (b : bss) : res (sta_caps * bss * bool) :=
  let '(v, n, edge) := track (has WLAN_STA_NONERP (flags p)) (nonerp_set p) (num_sta_non_erp (counts b)) in
  on_edge edge _ERPINFO_IE_ (set_nonerp v n p b).

Definition join_slot (p : sta_caps) (b : bss) : res (sta_caps * bss * bool) :=
  let '(v, n, edge) := track (negb (has WLAN_CAPABILITY_SHORT_SLOT (capability p))) (no_short_slot_time_set p)
                         (num_sta_no_short_slot_time (counts b)) in
  on_edge ((WIRELESS_11B <? cur_wireless_mode e) && edge) 0xFF (set_slot v n p b).

(** The HT flags: of an HT station the last two are set, never cleared. *)
Definition join_ht (p : sta_caps) (b : bss) : sta_caps * bss :=
  let c := counts b in
  if has WLAN_STA_HT (flags p) then
    let '(nh, nnh) := if no_ht_set p then (false, num_sta_no_ht c - 1) else (no_ht_set p, num_sta_no_ht c) in
    let '(gf, ngf) :=
      if negb (has IEEE80211_HT_CAP_GRN_FLD (ht_capab p)) && negb (no_ht_gf_set p)
      then (true, num_sta_ht_no_gf c + 1) else (no_ht_gf_set p, num_sta_ht_no_gf c) in
    let '(w, nw) :=
      if negb (has IEEE80211_HT_CAP_SUP_WIDTH (ht_capab p)) && negb (ht_20mhz_set p)
      then (true, num_sta_ht_20mhz c + 1) else (ht_20mhz_set p, num_sta_ht_20mhz c) in
    set_ht_flags gf nh w ngf nnh nw p b
  else
    let '(nh, nnh) := if no_ht_set p then (true, num_sta_no_ht c) else (true, num_sta_no_ht c + 1) in
    set_ht_flags (no_ht_gf_set p) nh (ht_20mhz_set p) (num_sta_ht_no_gf c) nnh (num_sta_ht_20mhz c) p b.

Definition ht_beacon (b : bss) : res bss :=
  let '(changes, b) := rtw_ht_operation_update e b in
  if 0 <? changes then
    b ← update_beacon _HT_CAPABILITY_IE_ false b; update_beacon _HT_ADD_INFO_IE_ true b
  else Done b.

(** [bss_cap_update_on_sta_join] up to [associated_clients_update]; the last result is
    [beacon_updated]. *)
Definition bss_cap_update_on_sta_join (p : sta_caps) (b : bss) : res (sta_caps * bss * bool) :=
  '(p, b, u1) ← join_preamble p b;
  '(p, b, u2) ← join_nonerp p b;
  '(p, b, u3) ← join_slot p b;
  let '(p, b) := join_ht p b in
  b ← ht_beacon b;
  Done (p, b, u1 || u2 || u3).

(** ** A station leaves *)

Definition untrack (set : bool) (n : Z) : bool * Z * bool := track false set n.

Definition bss_cap_update_on_sta_leave (p : sta_caps) (b : bss) : res (sta_caps * bss * bool) :=
  let '(v, n, edge) := untrack (no_short_preamble_set p) (num_sta_no_short_preamble (counts b)) in
  '(p, b, u1) ← on_edge ((WIRELESS_11B <? cur_wireless_mode e) && edge) 0xFF (set_preamble v n p b);
  let '(v, n, edge) := untrack (nonerp_set p) (num_sta_non_erp (counts b)) in
  '(p, b, u2) ← on_edge edge _ERPINFO_IE_ (set_nonerp v n p b);
  let '(v, n, edge) := untrack (no_short_slot_time_set p) (num_sta_no_short_slot_time (counts b)) in
  '(p, b, u3) ← on_edge ((WIRELESS_11B <? cur_wireless_mode e) && edge) 0xFF (set_slot v n p b);
  let '(gf, ngf, _) := untrack (no_ht_gf_set p) (num_sta_ht_no_gf (counts b)) in
  let '(nh, nnh, _) := untrack (no_ht_set p) (num_sta_no_ht (counts b)) in
  let '(w, nw, _) := untrack (ht_20mhz_set p) (num_sta_ht_20mhz (counts b)) in
  let '(p, b) := set_ht_flags gf nh w ngf nnh nw p b in
  b ← ht_beacon b;
  Done (p, b, u1 || u2 || u3).
End join.

(** [VCS_update]: [rtsen] and [cts2self] of a station. *)
Definition VCS_update (e : ap_env) (b : bss_bcn) : bool * bool :=
  let on := if vcs_type e =? 1 then (true, false) else (false, true) in
  if vrtl_carrier_sense e =? 0 then (false, false)
  else if vrtl_carrier_sense e =? 1 then on
  else if ERP_enable b && has 2 (ERP_IE b) then on else (false, false).

(** [start_ap_mode], of the counters, the mode and the beacon. *)
Definition start_ap_counts : sta_counts := StaCounts 0 0 0 0 0 0.

(** ** The counters *)

(** A counter, with the flag of the stations it counts. *)
Inductive counter := NonErp | NoShortSlot | NoShortPreamble | NoGf | NoHt | Ht20.

Definition flagged (k : counter) (p : sta_caps) : bool :=
  match k with
  | NonErp => nonerp_set p | NoShortSlot => no_short_slot_time_set p
  | NoShortPreamble => no_short_preamble_set p | NoGf => no_ht_gf_set p
  | NoHt => no_ht_set p | Ht20 => ht_20mhz_set p
  end.
Definition counted (k : counter) (c : sta_counts) : Z :=
  match k with
  | NonErp => num_sta_non_erp c | NoShortSlot => num_sta_no_short_slot_time c
  | NoShortPreamble => num_sta_no_short_preamble c | NoGf => num_sta_ht_no_gf c
  | NoHt => num_sta_no_ht c | Ht20 => num_sta_ht_20mhz c
  end.

Definition init_caps : sta_caps := StaCaps 0 0 0 false false false false false false.

(** How many of the stations [U] of a table have a flag. *)
Fixpoint tally (f : sta_caps -> bool) (U : list nat) (l : list sta_caps) : Z :=
  match U with
  | [] => 0
  | o :: U => Z.b2z (f (nth o l init_caps)) + tally f U l
  end.


Lemma tally_perm f U V l : Permutation U V -> tally f U l = tally f V l.
Proof. induction 1; cbn; lia. Qed.

Lemma nth_insert_ne {A} (l : list A) o o' p d : o <> o' -> nth o' (<[o := p]> l) d = nth o' l d.
Proof. intros H. rewrite !nth_lookup, list_lookup_insert_ne by done. done. Qed.

Lemma nth_insert_eq {A} (l : list A) o p d : (o < length l)%nat -> nth o (<[o := p]> l) d = p.
Proof. intros H. by rewrite nth_lookup, list_lookup_insert_eq by done. Qed.

Lemma tally_out f U l o p : o ∉ U -> tally f U (<[o := p]> l) = tally f U l.
Proof.
  induction U as [|x U IH]; cbn; [done|]. intros Ho. apply not_elem_of_cons in Ho as [? Ho].
  by rewrite IH, nth_insert_ne.
Qed.

Lemma tally_in f U l o p : NoDup U -> o ∈ U -> (o < length l)%nat ->
  tally f U (<[o := p]> l) = tally f U l - Z.b2z (f (nth o l init_caps)) + Z.b2z (f p).
Proof.
  intros Hnd Ho Hl. induction Hnd as [|x U Hx Hnd IH]; [by apply elem_of_nil in Ho|]. cbn.
  apply elem_of_cons in Ho as [<-|Ho].
  - rewrite tally_out, nth_insert_eq by done. lia.
  - assert (o <> x) by by intros ->. rewrite nth_insert_ne, IH by done. lia.
Qed.

Lemma tally_ge f U l o : o ∈ U -> Z.b2z (f (nth o l init_caps)) <= tally f U l.
Proof.
  induction U as [|x U IH]; [by intros ?%elem_of_nil|]. cbn.
  assert (0 <= tally f U l). { clear. induction U as [|x U IH]; cbn; [lia|]. destruct (f _); cbn; lia. }
  intros [<-|Ho]%elem_of_cons; [lia|]. specialize (IH Ho). destruct (f (nth x l init_caps)); cbn; lia.
Qed.

Lemma track_spec w s n v n' edge : track w s n = (v, n', edge) ->
  v = w /\ n' - Z.b2z v = n - Z.b2z s /\
  edge = negb (eqb v s) && (n' =? Z.b2z v).
Proof. unfold track. destruct w, s; intros [= <- <- <-]; cbn; repeat split; lia || done. Qed.

(** ** Steps keep the difference between a counter and the station's flag *)

Definition balanced (p p' : sta_caps) (b b' : bss) : Prop :=
  forall k, counted k (counts b') - Z.b2z (flagged k p') = counted k (counts b) - Z.b2z (flagged k p).

Lemma update_beacon_counts e tb id oui tx b b' : _update_beacon e tb id oui tx b = Done b' ->
  counts b' = counts b /\ ht_op_mode b' = ht_op_mode b.
Proof.
  unfold _update_beacon. destruct (bstart_bss e); cbn [negb]; [|by intros [= <-]].
  intros (x & _ & [= <-])%res_bind_Done. done.
Qed.

Lemma on_edge_counts e tb edge id pb p' b' u : on_edge e tb edge id pb = Done (p', b', u) ->
  p' = pb.1 /\ counts b' = counts pb.2 /\ u = edge.
Proof.
  unfold on_edge. destruct edge; [|by intros [= <- <- <-]].
  intros (x & Hx%update_beacon_counts & [= <- <- <-])%res_bind_Done. by destruct Hx as [-> _].
Qed.

Lemma ht_beacon_counts e tb b b' : ht_beacon e tb b = Done b' -> counts b' = counts b.
Proof.
  unfold ht_beacon. destruct (rtw_ht_operation_update e b) as [n b1] eqn:E.
  assert (counts b1 = counts b) as <-.
  { unfold rtw_ht_operation_update in E. repeat case_match; by simplify_eq. }
  destruct (0 <? n); [|by intros [= <-]].
  intros (x & [E1 _]%update_beacon_counts & [E2 _]%update_beacon_counts)%res_bind_Done. congruence.
Qed.

Lemma balanced_trans p p1 p2 b b1 b2 : balanced p p1 b b1 -> balanced p1 p2 b1 b2 -> balanced p p2 b b2.
Proof. intros H1 H2 k. by rewrite H2, H1. Qed.

Lemma on_edge_balanced e tb edge id pb p b p' b' u :
  balanced p pb.1 b pb.2 -> on_edge e tb edge id pb = Done (p', b', u) -> balanced p p' b b'.
Proof. intros H (-> & E & _)%on_edge_counts k. rewrite E. apply H. Qed.

(** The three tracked counters. *)
Ltac balance := intros k; destruct k; cbn; lia.

Lemma join_preamble_balanced e tb p b p' b' u :
  join_preamble e tb p b = Done (p', b', u) -> balanced p p' b b'.
Proof.
  unfold join_preamble. destruct (track _ _ _) as [[v n] g] eqn:E. apply track_spec in E.
  apply on_edge_balanced. balance.
Qed.
Lemma join_nonerp_balanced e tb p b p' b' u :
  join_nonerp e tb p b = Done (p', b', u) -> balanced p p' b b'.
Proof.
  unfold join_nonerp. destruct (track _ _ _) as [[v n] g] eqn:E. apply track_spec in E.
  apply on_edge_balanced. balance.
Qed.
Lemma join_slot_balanced e tb p b p' b' u :
  join_slot e tb p b = Done (p', b', u) -> balanced p p' b b'.
Proof.
  unfold join_slot. destruct (track _ _ _) as [[v n] g] eqn:E. apply track_spec in E.
  apply on_edge_balanced. balance.
Qed.

Lemma join_ht_balanced p b : balanced p (join_ht p b).1 b (join_ht p b).2.
Proof.
  unfold join_ht. destruct (has WLAN_STA_HT _); [destruct (has IEEE80211_HT_CAP_GRN_FLD _), (has IEEE80211_HT_CAP_SUP_WIDTH _)|];
    intros k; destruct k; cbn; destruct (no_ht_gf_set p), (no_ht_set p), (ht_20mhz_set p); cbn; lia.
Qed.

Lemma ht_beacon_balanced e tb p b b' : ht_beacon e tb b = Done b' -> balanced p p b b'.
Proof. intros E%ht_beacon_counts k. by rewrite E. Qed.

Lemma join_balanced e tb p b p' b' u :
  bss_cap_update_on_sta_join e tb p b = Done (p', b', u) -> balanced p p' b b'.
Proof.
  unfold bss_cap_update_on_sta_join.
  intros ([[p1 b1] u1] & H1%join_preamble_balanced & E)%res_bind_Done.
  apply res_bind_Done in E as ([[p2 b2] u2] & H2%join_nonerp_balanced & E).
  apply res_bind_Done in E as ([[p3 b3] u3] & H3%join_slot_balanced & E).
  pose proof (join_ht_balanced p3 b3) as H4. destruct (join_ht p3 b3) as [p4 b4].
  apply res_bind_Done in E as (b5 & H5%(ht_beacon_balanced _ _ p4) & [= <- <- _]).
  eauto using balanced_trans.
Qed.

Lemma leave_balanced e tb p b p' b' u :
  bss_cap_update_on_sta_leave e tb p b = Done (p', b', u) ->
  balanced p p' b b' /\ forall k, flagged k p' = false.
Proof.
  unfold bss_cap_update_on_sta_leave, untrack.
  destruct (track _ _ _) as [[v1 n1] g1] eqn:T1. apply track_spec in T1 as (-> & T1 & _).
  intros ([[p1 b1] u1] & (-> & H1 & _)%on_edge_counts & E)%res_bind_Done.
  destruct (track _ _ _) as [[v2 n2] g2] eqn:T2 in E. apply track_spec in T2 as (-> & T2 & _).
  apply res_bind_Done in E as ([[p2 b2] u2] & (-> & H2 & _)%on_edge_counts & E).
  destruct (track _ _ _) as [[v3 n3] g3] eqn:T3 in E. apply track_spec in T3 as (-> & T3 & _).
  apply res_bind_Done in E as ([[p3 b3] u3] & (-> & H3 & _)%on_edge_counts & E).
  destruct (track _ _ _) as [[v4 n4] g4] eqn:T4 in E. apply track_spec in T4 as (-> & T4 & _).
  destruct (track _ _ _) as [[v5 n5] g5] eqn:T5 in E. apply track_spec in T5 as (-> & T5 & _).
  destruct (track _ _ _) as [[v6 n6] g6] eqn:T6 in E. apply track_spec in T6 as (-> & T6 & _).
  cbn [set_ht_flags] in E. apply res_bind_Done in E as (b5 & H5%ht_beacon_counts & [= <- <- _]).
  cbn in *. split; [|by intros []]. intros k. rewrite H5. destruct k; cbn; rewrite ?H3, ?H2, ?H1 in *; cbn in *; lia.
Qed.

(** ** The ERP element *)

(** The beacon has an ERP element of one byte [v], which [ERP_IE] repeats. *)
Definition erp_beacon (v : Z) (x : bss_bcn) : Prop :=
  exists fixed before after rest, zlen fixed = _BEACON_IE_OFFSET_ /\
    IEs x = fixed ++ encode ((before ++ [(_ERPINFO_IE_, [v])]) ++ after) ++ rest /\
    Forall (fun el => el.1 <> _ERPINFO_IE_) before /\
    IELength x = _BEACON_IE_OFFSET_ + zlen (encode ((before ++ [(_ERPINFO_IE_, [v])]) ++ after)) /\
    IELength x < 2 ^ 31 /\ ERP_enable x = true /\ ERP_IE x = v.

(** Its protection bits say whether a station is not ERP. *)
Definition erp_inv (b : bss) : Prop :=
  exists v, erp_beacon v (bcn b) /\
    Z.testbit v 0 = (0 <? num_sta_non_erp (counts b)) /\
    Z.testbit v 1 = (0 <? num_sta_non_erp (counts b)).

Lemma erp_bits_protection c v i : i = 0 \/ i = 1 ->
  Z.testbit (erp_bits c v) i = (num_sta_non_erp c =? 1).
Proof.
  intros Hi. unfold erp_bits. destruct (num_sta_non_erp c =? 1), (0 <? num_sta_no_short_preamble c);
    destruct Hi as [-> | ->]; rewrite ?Z.lor_spec, ?Z.ldiff_spec, ?Z.lor_spec, ?Z.ldiff_spec;
    by destruct (Z.testbit v _).
Qed.

Lemma update_erp_ok c v x : erp_beacon v x ->
  exists x', update_bcn_erpinfo_ie c x = Done x' /\ erp_beacon (erp_bits c v) x'.
Proof.
  intros (fixed & before & after & rest & Hf & Hm & Hb & Hl & Hs & He & Hv).
  unfold update_bcn_erpinfo_ie. rewrite He. cbn [negb].
  set (w := erp_bits c v). set (el := fun v : Z => (_ERPINFO_IE_, [v])).
  assert (Hz : zlen (encode ((before ++ [el w]) ++ after)) = zlen (encode ((before ++ [el v]) ++ after))).
  { by rewrite !encode_app, !zlen_app, !encode_cons, !zlen_app, !zlen_encode1. }
  pose proof (zlen_nonneg (encode after)). pose proof (zlen_nonneg (encode ((before ++ [el v]) ++ after))).
  change (IELength x = 12 + zlen (encode ((before ++ [el v]) ++ after))) in Hl.
  change (zlen fixed = 12) in Hf.
  assert (E : rtw_get_ie (IEs x) _BEACON_IE_OFFSET_ _ERPINFO_IE_ 0 (s32 (IELength x - _BEACON_IE_OFFSET_))
    = Done (Some (zlen fixed + zlen (encode before)), 1)).
  { rewrite s32_id by (unfold _BEACON_IE_OFFSET_; lia). rewrite Hm, encode_app, <- app_assoc.
    change _BEACON_IE_OFFSET_ with 12. rewrite <- Hf.
    apply (get_ie_hit before (el v)); [done..|]. rewrite Hl, Hf, (encode_app _ after), zlen_app. lia. }
  rewrite E, done_bind. cbn [Z.ltb Z.compare].
  set (q := zlen fixed + zlen (encode before)).
  assert (Hm' : IEs x = (fixed ++ encode before ++ [_ERPINFO_IE_; 1]) ++ [v] ++ (encode after ++ rest)).
  { rewrite Hm, !encode_app, encode_cons. cbn. by rewrite <- !app_assoc. }
  assert (Hq : q + 2 = zlen (fixed ++ encode before ++ [_ERPINFO_IE_; 1])).
  { unfold q. rewrite !zlen_app. change (zlen [_ERPINFO_IE_; 1]) with 2. lia. }
  rewrite Hm'. rewrite (ldr_mid _ (encode after ++ rest) v), done_bind by done. fold w.
  rewrite (wrr_mid _ [v] _ [w]), done_bind by done. unfold ERP_IE_handler.
  assert (Hm2 : (fixed ++ encode before ++ [_ERPINFO_IE_; 1]) ++ [w] ++ encode after ++ rest
    = fixed ++ encode ((before ++ [el w]) ++ after) ++ rest).
  { rewrite !encode_app, encode_cons. cbn. by rewrite <- !app_assoc. }
  assert (L1 : ldr ((fixed ++ encode before ++ [_ERPINFO_IE_; 1]) ++ [w] ++ encode after ++ rest) (q + 1) = Done 1).
  { assert (Hx : (fixed ++ encode before ++ [_ERPINFO_IE_; 1]) ++ [w] ++ encode after ++ rest
      = (fixed ++ encode before ++ [_ERPINFO_IE_]) ++ 1 :: ([w] ++ encode after ++ rest)) by by rewrite <- !app_assoc.
    rewrite Hx. apply ldr_mid. rewrite !zlen_app. unfold q. change (zlen [_ERPINFO_IE_]) with 1. lia. }
  rewrite L1, done_bind. cbn [Z.ltb Z.eqb Z.compare Pos.compare].
  rewrite (ldr_mid _ (encode after ++ rest) w), done_bind by done.
  eexists. split; [done|]. exists fixed, before, after, rest. cbn [IEs IELength ERP_enable ERP_IE set_erp set_ies].
  split; [done|]. split; [exact Hm2|]. split; [done|]. split; [|done].
  change (IELength x = 12 + zlen (encode ((before ++ [el w]) ++ after))). lia.
Qed.

Lemma update_beacon_same e tb id tx b : id <> _TIM_IE_ -> id <> _ERPINFO_IE_ -> id <> _VENDOR_SPECIFIC_IE_ ->
  erp_inv b -> exists b', _update_beacon e tb id [] tx b = Done b' /\ erp_inv b'.
Proof.
  intros H1 H2 H3 (v & Hv & Hb). unfold _update_beacon. destruct (bstart_bss e); cbn [negb].
  - rewrite !(proj2 (Z.eqb_neq _ _)) by done. rewrite done_bind. eexists. split; [done|].
    exists v. split; [|done]. unfold erp_beacon in *. by destruct tx.
  - eexists. split; [done|]. by exists v.
Qed.

Section erp.
Context (e : ap_env) (tb : Z) (Hstart : bstart_bss e = true).

Lemma update_beacon_erp tx b v : erp_beacon v (bcn b) ->
  exists b', _update_beacon e tb _ERPINFO_IE_ [] tx b = Done b' /\
    counts b' = counts b /\ erp_beacon (erp_bits (counts b) v) (bcn b').
Proof.
  intros Hv. unfold _update_beacon. rewrite Hstart. cbn [negb Z.eqb Pos.eqb _TIM_IE_ _ERPINFO_IE_].
  destruct (update_erp_ok (counts b) v (bcn b) Hv) as (x & -> & Hx). rewrite done_bind.
  eexists. split; [done|]. split; [done|]. unfold erp_beacon in *. by destruct tx.
Qed.

(** A run that ends with the element right. *)
Definition erp_ok (r : res (sta_caps * bss * bool)) : Prop :=
  exists p b u, r = Done (p, b, u) /\ erp_inv b.

Lemma erp_inv_ext b b' : erp_inv b -> bcn b' = bcn b -> num_sta_non_erp (counts b') = num_sta_non_erp (counts b) ->
  erp_inv b'.
Proof. intros (v & H) Hx Hn. exists v. by rewrite Hx, Hn. Qed.

Lemma on_edge_same edge pb : erp_inv pb.2 -> erp_ok (on_edge e tb edge 0xFF pb).
Proof.
  intros H. unfold on_edge, erp_ok. destruct edge; [|by eexists _, _, _].
  destruct (update_beacon_same e tb 0xFF true pb.2) as (b' & -> & Hb'); [done..|].
  rewrite done_bind. by eexists _, _, _.
Qed.

Lemma track_nonerp w p b v n edge : erp_inv b -> Z.b2z (nonerp_set p) <= num_sta_non_erp (counts b) ->
  track w (nonerp_set p) (num_sta_non_erp (counts b)) = (v, n, edge) ->
  erp_ok (on_edge e tb edge _ERPINFO_IE_ (set_nonerp v n p b)).
Proof.
  intros (x & Hx & H0 & H1) Hle Ht. pose proof (track_spec _ _ _ _ _ _ Ht) as (-> & Hn & Hedge).
  set (pb := set_nonerp w n p b). assert (num_sta_non_erp (counts pb.2) = n) as Hpn by done.
  unfold on_edge, erp_ok. destruct edge.
  - destruct (update_beacon_erp true pb.2 x) as (b' & -> & Hc & Hb'); [done|]. rewrite done_bind.
    eexists _, _, _. split; [done|]. exists (erp_bits (counts pb.2) x).
    rewrite Hc, !erp_bits_protection, Hpn by auto. split; [done|].
    destruct w, (nonerp_set p); cbn in *; try done; bool_to_prop; lia.
  - eexists _, _, _. split; [done|]. exists x. split; [done|]. rewrite Hpn, H0, H1.
    symmetry in Hedge. destruct w, (nonerp_set p); cbn in *; bool_to_prop; lia.
Qed.

Lemma ht_beacon_same b : erp_inv b -> exists b', ht_beacon e tb b = Done b' /\ erp_inv b'.
Proof.
  intros H. unfold ht_beacon. destruct (rtw_ht_operation_update e b) as [n b1] eqn:E.
  assert (erp_inv b1) as H1.
  { apply (erp_inv_ext b); [done|..]; unfold rtw_ht_operation_update in E; repeat case_match; by simplify_eq. }
  destruct (0 <? n); [|by eexists].
  destruct (update_beacon_same e tb _HT_CAPABILITY_IE_ false b1) as (b2 & -> & H2); [done..|]. rewrite done_bind.
  by apply update_beacon_same.
Qed.

Lemma join_ht_bcn p b : bcn (join_ht p b).2 = bcn b /\
  num_sta_non_erp (counts (join_ht p b).2) = num_sta_non_erp (counts b).
Proof. unfold join_ht. by repeat case_match. Qed.

Lemma join_erp p b : erp_inv b -> Z.b2z (nonerp_set p) <= num_sta_non_erp (counts b) ->
  erp_ok (bss_cap_update_on_sta_join e tb p b).
Proof.
  intros Hb Hle. unfold bss_cap_update_on_sta_join.
  assert (erp_ok (join_preamble e tb p b)) as (p1 & b1 & u1 & E1 & H1).
  { unfold join_preamble. destruct (track _ _ _) as [[v n] g]. apply on_edge_same. by apply (erp_inv_ext b). }
  pose proof (join_preamble_balanced _ _ _ _ _ _ _ E1 NonErp) as B1. cbn in B1.
  rewrite E1, done_bind.
  assert (erp_ok (join_nonerp e tb p1 b1)) as (p2 & b2 & u2 & E2 & H2).
  { unfold join_nonerp. destruct (track _ _ _) as [[v n] g] eqn:T. eapply track_nonerp; [done| |done]. lia. }
  rewrite E2, done_bind.
  assert (erp_ok (join_slot e tb p2 b2)) as (p3 & b3 & u3 & E3 & H3).
  { unfold join_slot. destruct (track _ _ _) as [[v n] g]. apply on_edge_same. by apply (erp_inv_ext b2). }
  rewrite E3, done_bind. destruct (join_ht_bcn p3 b3) as [Hx Hn]. destruct (join_ht p3 b3) as [p4 b4].
  destruct (ht_beacon_same b4) as (b5 & -> & H5); [by apply (erp_inv_ext b3)|].
  rewrite done_bind. by eexists _, _, _.
Qed.

Lemma leave_erp p b : erp_inv b -> Z.b2z (nonerp_set p) <= num_sta_non_erp (counts b) ->
  erp_ok (bss_cap_update_on_sta_leave e tb p b).
Proof.
  intros Hb Hle. unfold bss_cap_update_on_sta_leave, untrack.
  destruct (track _ _ _) as [[v1 n1] g1].
  destruct (on_edge_same ((WIRELESS_11B <? cur_wireless_mode e) && g1) (set_preamble v1 n1 p b))
    as (p1 & b1 & u1 & E1 & H1); [by apply (erp_inv_ext b)|].
  rewrite E1, done_bind. apply on_edge_counts in E1 as (-> & C1 & _).
  destruct (track _ _ (num_sta_non_erp _)) as [[v2 n2] g2] eqn:T.
  destruct (track_nonerp false (set_preamble v1 n1 p b).1 b1 v2 n2 g2 H1 ltac:(by rewrite C1) T) as (p2 & b2 & u2 & E2 & H2).
  rewrite E2, done_bind. clear T. destruct (track _ _ (num_sta_no_short_slot_time _)) as [[v3 n3] g3].
  destruct (on_edge_same ((WIRELESS_11B <? cur_wireless_mode e) && g3) (set_slot v3 n3 p2 b2))
    as (p3 & b3 & u3 & E3 & H3); [by apply (erp_inv_ext b2)|].
  rewrite E3, done_bind. destruct (track _ _ _) as [[v4 n4] g4], (track _ _ _) as [[v5 n5] g5], (track _ _ _) as [[v6 n6] g6].
  destruct (set_ht_flags _ _ _ _ _ _ p3 b3) as [p4 b4] eqn:E4.
  destruct (ht_beacon_same b4) as (b5 & -> & H5); [injection E4 as <- <-; by apply (erp_inv_ext b3)|].
  rewrite done_bind. by eexists _, _, _.
Qed.
End erp.

(** ** Flags and mode after a join *)

Lemma on_edge_mode e tb edge id pb p' b' u : on_edge e tb edge id pb = Done (p', b', u) ->
  p' = pb.1 /\ ht_op_mode b' = ht_op_mode pb.2.
Proof.
  unfold on_edge. destruct edge; [|by intros [= <- <- <-]].
  intros (x & [_ Hx]%update_beacon_counts & [= <- <- <-])%res_bind_Done. done.
Qed.

Lemma ht_beacon_mode e tb b b' : ht_beacon e tb b = Done b' -> ht_op_mode b' = ht_op_mode (rtw_ht_operation_update e b).2.
Proof.
  unfold ht_beacon. destruct (rtw_ht_operation_update e b) as [n b1].
  destruct (0 <? n); [|by intros [= <-]].
  intros (x & [_ E1]%update_beacon_counts & [_ E2]%update_beacon_counts)%res_bind_Done. cbn. congruence.
Qed.

Lemma join_ht_mode p b : ht_op_mode (join_ht p b).2 = ht_op_mode b.
Proof. unfold join_ht. by repeat case_match. Qed.

(** After a station has joined, each of its flags follows its capabilities, except that
    the no-greenfield and 20 MHz flags of an HT station are never cleared; the HT operation
    mode is not touched when the access point has HT. *)
Theorem join_sets_flags e tb p b p' b' u :
  bss_cap_update_on_sta_join e tb p b = Done (p', b', u) ->
  nonerp_set p' = has WLAN_STA_NONERP (flags p) /\
  no_short_preamble_set p' = negb (has WLAN_STA_SHORT_PREAMBLE (flags p)) /\
  no_short_slot_time_set p' = negb (has WLAN_CAPABILITY_SHORT_SLOT (capability p)) /\
  no_ht_set p' = negb (has WLAN_STA_HT (flags p)) /\
  no_ht_gf_set p' = no_ht_gf_set p ||
    has WLAN_STA_HT (flags p) && negb (has IEEE80211_HT_CAP_GRN_FLD (ht_capab p)) /\
  ht_20mhz_set p' = ht_20mhz_set p ||
    has WLAN_STA_HT (flags p) && negb (has IEEE80211_HT_CAP_SUP_WIDTH (ht_capab p)) /\
  (ap_ht_option e = true -> ht_op_mode b' = ht_op_mode b).
Proof.
  unfold bss_cap_update_on_sta_join, join_preamble, join_nonerp, join_slot.
  destruct (track _ _ _) as [[v1 n1] g1] eqn:T1. apply track_spec in T1 as (-> & _ & _).
  intros ([[p1 b1] u1] & (-> & M1)%on_edge_mode & E)%res_bind_Done. cbn in M1.
  destruct (track _ _ _) as [[v2 n2] g2] eqn:T2 in E. apply track_spec in T2 as (-> & _ & _).
  apply res_bind_Done in E as ([[p2 b2] u2] & (-> & M2)%on_edge_mode & E). cbn in M2.
  destruct (track _ _ _) as [[v3 n3] g3] eqn:T3 in E. apply track_spec in T3 as (-> & _ & _).
  apply res_bind_Done in E as ([[p3 b3] u3] & (-> & M3)%on_edge_mode & E). cbn in M3.
  destruct (join_ht _ b3) as [p4 b4] eqn:E4.
  apply res_bind_Done in E as (b5 & M5%ht_beacon_mode & [= <- <- _]).
  assert (ht_op_mode b4 = ht_op_mode b3 /\ (ap_ht_option e = true -> ht_op_mode b5 = ht_op_mode b4)) as [M4 M6].
  { split; [pose proof (f_equal (fun x => ht_op_mode x.2) E4) as M; cbn [snd] in M; by rewrite <- M, join_ht_mode|].
    intros Ht. rewrite M5. unfold rtw_ht_operation_update. by rewrite Ht. }
  split_and!; [..|intros Ht; rewrite M6, M4; congruence];
    unfold join_ht in E4; cbn [flags ht_capab no_ht_set no_ht_gf_set ht_20mhz_set set_slot set_nonerp set_preamble fst] in E4;
    destruct (has WLAN_STA_HT (flags p)), (has IEEE80211_HT_CAP_GRN_FLD (ht_capab p)),
      (has IEEE80211_HT_CAP_SUP_WIDTH (ht_capab p)), (no_ht_set p), (no_ht_gf_set p), (ht_20mhz_set p);
    unfold set_ht_flags in E4; cbn in E4; by simplify_eq.
Qed.

(** ** Stations coming and going *)

(** What association writes before the station joins. *)
Definition renew (f cap ht : Z) (p : sta_caps) : sta_caps :=
  StaCaps f cap ht (nonerp_set p) (no_short_slot_time_set p) (no_short_preamble_set p)
    (no_ht_gf_set p) (no_ht_set p) (ht_20mhz_set p).

Lemma flagged_renew k f cap ht p : flagged k (renew f cap ht p) = flagged k p.
Proof. by destruct k. Qed.

(** The capabilities of an association: [flags], [capability] and [ht_cap.cap_info]. *)
Definition assoc_caps : Type := Z * Z * Z.
Inductive cap_event := Joined (o : nat) (c : assoc_caps) | Left (o : nat).

(** A station associates, for the first time or again, with new capabilities; or leaves. *)
Inductive cap_step (e : ap_env) (tb : Z) : list sta_caps * bss -> cap_event -> list sta_caps * bss -> Prop :=
  | step_join o p l b f cap ht p' b' u :
      l !! o = Some p -> bss_cap_update_on_sta_join e tb (renew f cap ht p) b = Done (p', b', u) ->
      cap_step e tb (l, b) (Joined o (f, cap, ht)) (<[o := p']> l, b')
  | step_leave o p l b p' b' u :
      l !! o = Some p -> bss_cap_update_on_sta_leave e tb p b = Done (p', b', u) ->
      cap_step e tb (l, b) (Left o) (<[o := p']> l, b').

Inductive cap_run (e : ap_env) (tb : Z) (s0 : list sta_caps * bss) : list cap_event -> list sta_caps * bss -> Prop :=
  | cap_run_nil : cap_run e tb s0 [] s0
  | cap_run_snoc evs s ev s' : cap_run e tb s0 evs s -> cap_step e tb s ev s' -> cap_run e tb s0 (evs ++ [ev]) s'.

(** The associations of station [o] since it last left, in order. *)
Definition assocs (evs : list cap_event) (o : nat) : list assoc_caps :=
  fold_left (fun h ev => match ev with
    | Joined o' c => if decide (o' = o) then h ++ [c] else h
    | Left o' => if decide (o' = o) then [] else h
    end) evs [].

Definition presently (f : assoc_caps -> bool) (h : list assoc_caps) : bool :=
  match list.last h with Some c => f c | None => false end.

(** What a counter means, from the capabilities alone: four of them of the present
    association, the last two of any association since the station last left. *)
Definition wanted (k : counter) (h : list assoc_caps) : bool :=
  match k with
  | NonErp => presently (fun '(f, _, _) => has WLAN_STA_NONERP f) h
  | NoShortSlot => presently (fun '(_, cap, _) => negb (has WLAN_CAPABILITY_SHORT_SLOT cap)) h
  | NoShortPreamble => presently (fun '(f, _, _) => negb (has WLAN_STA_SHORT_PREAMBLE f)) h
  | NoHt => presently (fun '(f, _, _) => negb (has WLAN_STA_HT f)) h
  | NoGf => existsb (fun '(f, _, ht) => has WLAN_STA_HT f && negb (has IEEE80211_HT_CAP_GRN_FLD ht)) h
  | Ht20 => existsb (fun '(f, _, ht) => has WLAN_STA_HT f && negb (has IEEE80211_HT_CAP_SUP_WIDTH ht)) h
  end.

(** The stations of a table of [n] that a counter is about. *)
Definition members (k : counter) (n : nat) (evs : list cap_event) : list nat :=
  filter (fun o => wanted k (assocs evs o) = true) (seq 0 n).

Lemma assocs_snoc evs ev o : assocs (evs ++ [ev]) o = match ev with
  | Joined o' c => if decide (o' = o) then assocs evs o ++ [c] else assocs evs o
  | Left o' => if decide (o' = o) then [] else assocs evs o
  end.
Proof. unfold assocs. by rewrite fold_left_app. Qed.

Lemma wanted_snoc k h f cap ht : wanted k (h ++ [(f, cap, ht)]) = match k with
  | NonErp => has WLAN_STA_NONERP f
  | NoShortSlot => negb (has WLAN_CAPABILITY_SHORT_SLOT cap)
  | NoShortPreamble => negb (has WLAN_STA_SHORT_PREAMBLE f)
  | NoHt => negb (has WLAN_STA_HT f)
  | NoGf => wanted NoGf h || has WLAN_STA_HT f && negb (has IEEE80211_HT_CAP_GRN_FLD ht)
  | Ht20 => wanted Ht20 h || has WLAN_STA_HT f && negb (has IEEE80211_HT_CAP_SUP_WIDTH ht)
  end.
Proof. destruct k; cbn [wanted]; unfold presently; rewrite ?list.last_snoc, ?existsb_app; cbn [existsb]; by rewrite ?orb_false_r. Qed.

Lemma tally_count f g l U : (forall o, o ∈ U -> f (nth o l init_caps) = g o) ->
  tally f U l = zlen (filter (fun o => g o = true) U).
Proof.
  induction U as [|o U IH]; intros H; [done|]. cbn [tally]. rewrite IH by (intros x Hx; apply H; by right).
  rewrite (H o) by by left. rewrite filter_cons. destruct (g o); [rewrite decide_True by done|rewrite decide_False by done]; rewrite ?zlen_cons; cbn [Z.b2z]; lia.
Qed.

Record cap_inv (n : nat) (evs : list cap_event) (s : list sta_caps * bss) : Prop := {
  ci_len : length s.1 = n;
  ci_num : forall k, counted k (counts s.2) = tally (flagged k) (seq 0 n) s.1;
  ci_erp : erp_inv s.2;
  ci_flags : forall o p k, s.1 !! o = Some p -> flagged k p = wanted k (assocs evs o)
}.

Lemma cap_inv_own n evs l b o p : cap_inv n evs (l, b) -> l !! o = Some p ->
  Z.b2z (nonerp_set p) <= num_sta_non_erp (counts b).
Proof.
  intros [Hl Hn _ _] Ho. specialize (Hn NonErp). cbn in *. rewrite Hn.
  pose proof (lookup_lt_Some _ _ _ Ho) as Hlt.
  assert (nth o l init_caps = p) as <- by by rewrite nth_lookup, Ho.
  apply (tally_ge nonerp_set). apply list_elem_of_In, in_seq. lia.
Qed.

Lemma cap_inv_update n evs ev l b o p p' b' : cap_inv n evs (l, b) -> l !! o = Some p -> balanced p p' b b' ->
  erp_inv b' -> (forall k, flagged k p' = wanted k (assocs (evs ++ [ev]) o)) ->
  (forall o', o' <> o -> assocs (evs ++ [ev]) o' = assocs evs o') -> cap_inv n (evs ++ [ev]) (<[o := p']> l, b').
Proof.
  intros [Hl Hn _ Hf] Ho Hb He Hp Hne. cbn in *. pose proof (lookup_lt_Some _ _ _ Ho) as Hlt.
  constructor; cbn; [by rewrite length_insert| |done|].
  - intros k. rewrite tally_in; [|apply NoDup_ListNoDup, List.seq_NoDup|apply list_elem_of_In, in_seq; lia|done].
    assert (nth o l init_caps = p) as -> by by rewrite nth_lookup, Ho.
    rewrite <- Hn. specialize (Hb k). lia.
  - intros o' q k Hq. destruct (decide (o' = o)) as [->|Hne'].
    + rewrite list_lookup_insert_eq in Hq by done. injection Hq as <-. apply Hp.
    + rewrite list_lookup_insert_ne in Hq by done. rewrite Hne by done. by apply Hf.
Qed.

Lemma cap_step_inv e tb n evs s ev s' : bstart_bss e = true -> cap_step e tb s ev s' ->
  cap_inv n evs s -> cap_inv n (evs ++ [ev]) s'.
Proof.
  intros Hs Hstep Hinv. destruct Hstep as [o p l b f cap ht p' b' u Ho E|o p l b p' b' u Ho E];
    pose proof (cap_inv_own _ _ _ _ _ _ Hinv Ho) as Hown; eapply cap_inv_update; try done.
  - intros k. rewrite <- (flagged_renew k f cap ht p). by eapply join_balanced.
  - destruct (join_erp e tb Hs (renew f cap ht p) b (ci_erp _ _ _ Hinv) Hown) as (? & ? & ? & E' & ?). congruence.
  - intros k. rewrite assocs_snoc, decide_True, wanted_snoc by done.
    pose proof (ci_flags _ _ _ Hinv o p k Ho) as Hold.
    apply join_sets_flags in E as (F1 & F2 & F3 & F4 & F5 & F6 & _).
    destruct k; cbn [flagged] in *; cbn [renew flags capability ht_capab no_ht_gf_set ht_20mhz_set] in *; by rewrite <- ?Hold.
  - intros o' Hne. by rewrite assocs_snoc, decide_False.
  - by eapply leave_balanced.
  - destruct (leave_erp e tb Hs p b (ci_erp _ _ _ Hinv) Hown) as (? & ? & ? & E' & ?). congruence.
  - intros k. apply leave_balanced in E as [_ Hk]. rewrite assocs_snoc, decide_True, Hk by done. by destruct k.
  - intros o' Hne. by rewrite assocs_snoc, decide_False.
Qed.

Lemma cap_run_inv e tb n b0 evs s : bstart_bss e = true -> counts b0 = start_ap_counts -> erp_inv b0 ->
  cap_run e tb (replicate n init_caps, b0) evs s -> cap_inv n evs s.
Proof.
  intros Hs Hc He. induction 1 as [|evs s ev s' _ IH Hstep]; [|by eapply cap_step_inv].
  assert (Hw : forall k, wanted k [] = false) by by intros [].
  constructor; cbn; [by rewrite length_replicate| |done|].
  - intros k. rewrite Hc, (tally_count _ (fun _ => false)).
    + assert (filter (fun _ : nat => false = true) (seq 0 n) = []) as -> by by induction (seq 0 n). by destruct k.
    + intros o _. assert (nth o (replicate n init_caps) init_caps = init_caps) as ->; [|by destruct k].
      rewrite nth_lookup. destruct (replicate n init_caps !! o) eqn:E; [|done]. by apply lookup_replicate in E as [-> _].
  - intros o p k [-> _]%lookup_replicate. rewrite Hw. by destruct k.
Qed.


(** Without HT at the access point, the mode's bits say what the counters say. *)
Theorem ht_operation_update_spec e b : ap_ht_option e = false -> 0 <= ht_op_mode b < 32 ->
  let c := counts b in let m := ht_op_mode (rtw_ht_operation_update e b).2 in
  has HT_INFO_OPERATION_MODE_NON_GF_DEVS_PRESENT m = negb (num_sta_ht_no_gf c =? 0) /\
  has HT_INFO_OPERATION_MODE_NON_HT_STA_PRESENT m = negb (num_sta_no_ht c =? 0) || olbc_ht e /\
  m .& HT_INFO_OPERATION_MODE_OP_MODE_MASK =
    (if negb (num_sta_no_ht c =? 0) || negb (num_sta_ht_no_gf c =? 0) then OP_MODE_MIXED
     else if has IEEE80211_HT_CAP_SUP_WIDTH (ap_ht_cap_info e) && negb (num_sta_ht_20mhz c =? 0)
     then OP_MODE_20MHZ_HT_STA_ASSOCED
     else if olbc_ht e then OP_MODE_MAY_BE_LEGACY_STAS else OP_MODE_PURE).
Proof.
  intros He Hm. unfold rtw_ht_operation_update. rewrite He. cbv zeta.
  destruct b as [c m x]. cbn [counts ht_op_mode] in *.
  generalize (num_sta_no_ht c =? 0) (num_sta_ht_no_gf c =? 0) (olbc_ht e)
    (has IEEE80211_HT_CAP_SUP_WIDTH (ap_ht_cap_info e) && negb (num_sta_ht_20mhz c =? 0)).
  intros z1 z2 z3 z4.
  assert (exists n, (n < 32)%nat /\ m = Z.of_nat n) as (n & Hn & ->) by (exists (Z.to_nat m); lia).
  do 32 (destruct n as [|n]; [destruct z1, z2, z3, z4; vm_compute; by split_and!|]). lia.
Qed.

(** ** Examples *)

Definition ex_env : ap_env := ApEnv true 3 false 0 false 2 1 None true.
Definition ex_ies (v : Z) : bytes := replicate 12 0 ++ encode [(0, [65; 66]); (42, [v])].
Definition ex_bss (c : sta_counts) (m v : Z) (tx : Z) : bss :=
  Bss c m (BssBcn (ex_ies v) 19 true v (0 <? tx) tx).
(** An 802.11b station with a long preamble, before and after it joins. *)
Definition ex_b_flags : Z := WLAN_STA_NONERP.
Definition ex_b_caps : sta_caps := StaCaps ex_b_flags 0x400 0 true false true false true false.

Lemma ex_erp : erp_inv (ex_bss start_ap_counts 0 0 0).
Proof.
  exists 0. split; [|done]. exists (replicate 12 0), [(0, [65; 66])], [], [].
  split_and!; try done. repeat constructor; done.
Qed.

(** The 802.11b station joins, and associates again as an ERP station with short preamble
    and slot time: the beacon asks for protection in between and not any more afterwards. *)
Definition ex_g_caps : sta_caps := StaCaps WLAN_STA_SHORT_PREAMBLE 0x400 0 false false false false true false.

(** The same station joining when the access point has HT: the mode stays 0. *)
Definition ex_ht_env : ap_env := ApEnv true 3 true 2 false 2 1 None true.
Lemma join_sets_flags_witness : exists p b,
  bss_cap_update_on_sta_join ex_ht_env 0 (renew ex_b_flags 0x400 0 init_caps) (ex_bss start_ap_counts 0 0 0)
    = Done (p, b, true) /\ nonerp_set p = true /\ num_sta_no_ht (counts b) = 1 /\ ht_op_mode b = 0.
Proof.
  set (r := bss_cap_update_on_sta_join ex_ht_env 0 (renew ex_b_flags 0x400 0 init_caps) (ex_bss start_ap_counts 0 0 0)).
  exists ex_b_caps, (ex_bss (StaCounts 1 0 1 0 1 0) 0 7 2).
  assert (r = Done (ex_b_caps, ex_bss (StaCounts 1 0 1 0 1 0) 0 7 2, true)) as E by (vm_compute; reflexivity).
  split; [exact E|].
  destruct (join_sets_flags ex_ht_env 0 _ _ _ _ _ E) as (H & _ & _ & _ & _ & _ & Hm).
  split; [exact H|]. split; [reflexivity|]. exact (Hm eq_refl).
Defined.

(** A station that has no short preamble but is ERP does not set the Barker preamble bit:
    the counter is one and the element of the beacon is unchanged. *)
Example barker_not_updated :
  bss_cap_update_on_sta_join ex_env 0 (renew 0 0x400 0 init_caps) (ex_bss start_ap_counts 0 0 0) =
  Done (StaCaps 0 0x400 0 false false true false true false,
        ex_bss (StaCounts 0 0 1 0 1 0) 19 0 2, true).
Proof. vm_compute. reflexivity. Qed.
