(* ===== verification/ApAuth.v ===== *)
(** * Stations of an access point: authentication and departure

    [OnAuth], [OnDeAuth], [OnDisassoc] of src/core/rtw_mlme_ext.c; [ap_free_sta],
    [expire_timeout_chk], [rtw_sta_flush], [associated_clients_update] and
    [start_ap_mode] of src/core/rtw_ap.c, on the station table (StaMgt), the queues of
    sleeping stations (PowerSave) and the counters and beacon (ApCap).  Frames sent and
    commands are the events of a log.  Not modelled: switching the channel for keep-alive
    frames, beamforming, the P2P timers. *)

From stdpp Require Import relations.
From S2P Require Import Prelude Ie Crc32 RxFrame Reorder MacId StaMgt TxQueue PowerSave SecFrames ApCap.

(** ** Data *)

Definition WIFI_FW_AP_STATE : Z := 3.
Definition WIFI_FW_AUTH_NULL : Z := 0x100.
Definition WIFI_FW_AUTH_STATE : Z := 0x200.
Definition WIFI_FW_AUTH_SUCCESS : Z := 0x400.
Definition WIFI_FW_ASSOC_STATE : Z := 0x2000.
Definition WIFI_FW_ASSOC_SUCCESS : Z := 0x4000.

Definition dot11AuthAlgrthm_8021X : Z := 2.

Definition _STATS_SUCCESSFUL_ : Z := 0.
Definition _STATS_NO_SUPP_ALG_ : Z := 13.
Definition _STATS_OUT_OF_AUTH_SEQ_ : Z := 14.
Definition _STATS_CHALLENGE_FAIL_ : Z := 15.
Definition _STATS_UNABLE_HANDLE_STA_ : Z := 17.

Definition WLAN_REASON_PREV_AUTH_NOT_VALID : Z := 2.
Definition WLAN_REASON_DEAUTH_LEAVING : Z := 3.
Definition WLAN_REASON_CLASS2_FRAME_FROM_NONAUTH_STA : Z := 6.

Definition WLAN_HDR_A3_LEN : Z := 24.
Definition _AUTH_IE_OFFSET_ : Z := 6.
Definition _CHLGETXT_IE_ : Z := 16.
Definition _PRIVACY_ : Z := 0x4000.
Definition NR_XMITFRAME : Z := 256.

(** The fields of [struct sta_info] that association writes, the capabilities apart. *)
Record sta_assoc := StaAssoc {
  bssrateset : bytes; bssratelen : Z;
  dot8021xalg : Z; wpa_psk : Z; wpa_group_cipher : Z; wpa2_group_cipher : Z;
  wpa_pairwise_cipher : Z; wpa2_pairwise_cipher : Z; wpa_ie : bytes;
  qos_option : bool; ht_cap : bytes; vht_cap : bytes; vht_op_mode_notify : Z;
  is_p2p_device : bool; p2p_status_code : Z; ht_option : bool; vht_option : bool;
  passoc_req : option bytes
}.

(** The rest of [struct sta_info] that the access point uses: authentication, keep-alive,
    protection ([rtsen], [cts2self]) and aggregation. *)
Record sta_mlme := StaMlme {
  auth_seq : Z; authalg : Z; chg_txt : bytes; keep_alive_trycnt : Z;
  rtsen : bool; cts2self : bool; agg_enable_bitmap : Z; candidate_tid_bitmap : Z;
  caps : sta_caps; assoc : sta_assoc
}.

(** What [_rtw_init_stainfo] leaves: all zero. *)
Definition init_assoc : sta_assoc :=
  StaAssoc (replicate 16 0) 0 0 0 0 0 0 0 (replicate 32 0) false (replicate 26 0) (replicate 12 0) 0
    false 0 false false None.
Definition init_mlme : sta_mlme := StaMlme 0 0 (replicate 128 0) 0 false false 0 0 init_caps init_assoc.

Inductive ap_event :=
  | IssueAuth (addr : bytes) (alg seq status : Z) (challenge : option bytes)
  | IssueAsocRsp (addr : bytes) (status aid : Z) (reassoc : bool)
  | IssueDeauth (addr : bytes) (reason : Z)
  | SendDelba (initiator : bool) (addr : bytes)
  | ClearStaKey (addr : bytes)
  | DelStaEvent (addr : bytes) (reason : Z)
  | AddStaEvent (addr : bytes) (aid : Z)
  | IssueNull (addr : bytes)
  | ReceiveDisconnect (addr : bytes) (reason : Z).

(** The access point.  [aw] is the station table with the transmit queues; [mlme] has an
    entry for each entry of its pool. *)
Record ap := Ap {
  aw : psw; mlme : list sta_mlme; asoc_list : list nat; asoc_list_cnt : Z;
  abss : bss; asec : security_priv; acrc : crc32_globals; alog : list ap_event
}.

(** What the handlers read: the BSS settings, [mlmeinfo.state], [fw_state] has
    [WIFI_AP_STATE], the security settings, the times to expire, [wifi_spec],
    [active_keep_alive_check], the own address and BSSID and the interface. *)
Record ap_cfg := ApCfg {
  cenv : ap_env; mlme_state : Z; is_ap : bool;
  dot11AuthAlgrthm : Z; dot11PrivacyAlgrthm : Z;
  cauth_to : Z; cassoc_to : Z; cexpire_to : Z; cwifi_spec : bool; cactive_keep_alive : bool;
  cmyid : bytes; cbssid : bytes; ciface : Z; cnot_pcie : bool; chiq_filter : Z
}.

Definition aad (a : ap) : adapter := ad (aw a).
Definition table (a : ap) : sta_priv := stapriv (aad a).

Definition set_aw (w : psw) (a : ap) : ap :=
  Ap w (mlme a) (asoc_list a) (asoc_list_cnt a) (abss a) (asec a) (acrc a) (alog a).
Definition on_aad (g : adapter -> adapter) (a : ap) : ap := set_aw (on_ad g (aw a)) a.
Definition set_mlme (l : list sta_mlme) (a : ap) : ap :=
  Ap (aw a) l (asoc_list a) (asoc_list_cnt a) (abss a) (asec a) (acrc a) (alog a).
Definition upd_mlme (o : nat) (g : sta_mlme -> sta_mlme) (a : ap) : ap := set_mlme (alter g o (mlme a)) a.
Definition set_asoc (l : list nat) (n : Z) (a : ap) : ap :=
  Ap (aw a) (mlme a) l n (abss a) (asec a) (acrc a) (alog a).
Definition set_bss (b : bss) (a : ap) : ap :=
  Ap (aw a) (mlme a) (asoc_list a) (asoc_list_cnt a) b (asec a) (acrc a) (alog a).
Definition set_sec (s : security_priv) (g : crc32_globals) (a : ap) : ap :=
  Ap (aw a) (mlme a) (asoc_list a) (asoc_list_cnt a) (abss a) s g (alog a).
Definition say (e : ap_event) (a : ap) : ap :=
  Ap (aw a) (mlme a) (asoc_list a) (asoc_list_cnt a) (abss a) (asec a) (acrc a) (alog a ++ [e]).

Definition set_auth_list (l : list nat) (n : Z) (sp : sta_priv) : sta_priv :=
  mk_sp (stas sp) (free_sta_queue sp) (sta_hash sp) (asoc_sta_count sp) (hash_lock sp) l n
    (sta_aid sp) (sta_dz_bitmap sp) (tim_bitmap sp) (acl_list sp).
Definition upd_table (g : sta_priv -> sta_priv) : ap -> ap := on_aad (fun ad => set_stapriv (g (stapriv ad)) ad).

Definition sta_of (a : ap) (o : nat) : sta_info := nth o (stas (table a)) _rtw_init_stainfo.
Definition mlme_of (a : ap) (o : nat) : sta_mlme := nth o (mlme a) init_mlme.
Definition addr_of (a : ap) (o : nat) : bytes := hwaddr (sta_of a o).

Definition upd_state (o : nat) (g : Z -> Z) : ap -> ap := on_aad (upd_sta o (fun s => set_state (g (state s)) s)).
Definition upd_expire (o : nat) (g : Z -> Z) : ap -> ap :=
  on_aad (upd_sta o (fun s => set_ps (set_expire (g (expire_to (ps s))) (ps s)) s)).
Definition set_auth (seq alg : Z) (chg : bytes) (m : sta_mlme) : sta_mlme :=
  StaMlme seq alg chg (keep_alive_trycnt m) (rtsen m) (cts2self m) (agg_enable_bitmap m)
    (candidate_tid_bitmap m) (caps m) (assoc m).
Definition set_auth_seq (seq : Z) (m : sta_mlme) : sta_mlme := set_auth seq (authalg m) (chg_txt m) m.
Definition set_trycnt (n : Z) (m : sta_mlme) : sta_mlme :=
  StaMlme (auth_seq m) (authalg m) (chg_txt m) n (rtsen m) (cts2self m) (agg_enable_bitmap m)
    (candidate_tid_bitmap m) (caps m) (assoc m).
Definition set_vcs (v : bool * bool) (m : sta_mlme) : sta_mlme :=
  StaMlme (auth_seq m) (authalg m) (chg_txt m) (keep_alive_trycnt m) v.1 v.2 (agg_enable_bitmap m)
    (candidate_tid_bitmap m) (caps m) (assoc m).
Definition reset_agg (m : sta_mlme) : sta_mlme :=
  StaMlme (auth_seq m) (authalg m) (chg_txt m) (keep_alive_trycnt m) (rtsen m) (cts2self m) 0 0 (caps m) (assoc m).
Definition set_caps (p : sta_caps) (m : sta_mlme) : sta_mlme :=
  StaMlme (auth_seq m) (authalg m) (chg_txt m) (keep_alive_trycnt m) (rtsen m) (cts2self m)
    (agg_enable_bitmap m) (candidate_tid_bitmap m) p (assoc m).

(** Unlinking a station from [asoc_list] and [auth_list], and linking it at the tail. *)
Definition unlink_asoc (o : nat) (a : ap) : ap :=
  if decide (o ∈ asoc_list a) then set_asoc (filter (fun x => x <> o) (asoc_list a)) (u8 (asoc_list_cnt a - 1)) a
  else a.
Definition link_asoc (o : nat) (a : ap) : ap := set_asoc (asoc_list a ++ [o]) (u8 (asoc_list_cnt a + 1)) a.
Definition link_auth (o : nat) (a : ap) : ap :=
  if decide (o ∈ auth_list (table a)) then a
  else upd_table (fun sp => set_auth_list (auth_list sp ++ [o]) (u8 (auth_list_cnt sp + 1)) sp) a.
Definition unlink_auth (o : nat) (a : ap) : ap :=
  if decide (o ∈ auth_list (table a))
  then upd_table (fun sp => set_auth_list (filter (fun x => x <> o) (auth_list sp)) (u8 (auth_list_cnt sp - 1)) sp) a
  else a.

Section ap.
Context (c : ap_cfg).

Definition free_sta (o : nat) : ap -> ap := on_aad (rtw_free_stainfo (cmyid c) o).

(** [rtw_alloc_stainfo], whose [_rtw_init_stainfo] also clears the entry of [mlme]. *)
Definition alloc_sta (addr : bytes) (a : ap) : ap * option nat :=
  let '(d, r) := rtw_alloc_stainfo (cmyid c) (ciface c) addr (aad a) in
  let a := on_aad (fun _ => d) a in
  (match r with Some o => set_mlme (<[o := init_mlme]> (mlme a)) a | None => a end, r).

(** [associated_clients_update]. *)
Definition associated_clients_update (updated : bool) (a : ap) : ap :=
  if updated
  then fold_left (fun a o => upd_mlme o (set_vcs (VCS_update (cenv c) (bcn (abss a)))) a) (asoc_list a) a
  else a.

(** [ap_free_sta]; the result is [beacon_updated]. *)
Definition ap_free_sta (o : nat) (active : bool) (reason : Z) (a : ap) : res (ap * bool) :=
  let addr := addr_of a o in
  let a := if active then say (IssueDeauth addr reason) (say (SendDelba true addr) (say (SendDelba false addr) a)) else a in
  let a := say (ClearStaKey addr) (upd_mlme o reset_agg a) in
  let a := say (DelStaEvent addr reason) (upd_state o (fun st => Z.ldiff st _FW_LINKED) a) in
  '(p, b, updated) ← bss_cap_update_on_sta_leave (cenv c) (tim_bitmap (table a)) (caps (mlme_of a o)) (abss a);
  Done (free_sta o (set_bss b (upd_mlme o (set_caps p) a)), updated).

(** A station that is in [asoc_list] leaves it and is freed. *)
Definition expel (o : nat) (active : bool) (reason : Z) (a : ap) : res (ap * bool) :=
  if decide (o ∈ asoc_list a) then ap_free_sta o active reason (unlink_asoc o a) else Done (a, false).

(** ** OnAuth *)

(** The frame [issue_auth] builds from the station's fields. *)
Definition issue_auth (addr : bytes) (m : sta_mlme) (st status : Z) : ap_event :=
  let alg := if status =? _STATS_SUCCESSFUL_ then u16 (authalg m) else 0 in
  IssueAuth addr alg (u16 (auth_seq m)) status
    (if (auth_seq m =? 2) && has WIFI_FW_AUTH_STATE st && negb (alg =? 0) then Some (chg_txt m) else None).

(** [auth_fail]: the station, if there is one, is freed; the reply is built from a
    cleared station. *)
Definition auth_fail (pstat : option nat) (sa : bytes) (status : Z) (a : ap) : ap * Z :=
  let a := match pstat with Some o => free_sta o a | None => a end in
  (say (issue_auth sa (set_auth_seq 2 init_mlme) 0 status) a, _FAIL).

(** Decryption of an encrypted frame: the frame, and the offset of its body. *)
Definition auth_decrypt (f : recv_frame) (a : ap) : res (recv_frame * Z * ap) :=
  fc ← RTW_GET_LE16 (rx_data f) 0;
  if has _PRIVACY_ fc then
    iv3 ← ldr (rx_data f) (WLAN_HDR_A3_LEN + 3);
    let f := mk_recv _WEP40_ WLAN_HDR_A3_LEN 4 ((iv3 .>> 6) .& 3) (ra_bdecrypted f) (ra_ra f) (ra_ta f) (rx_data f) (rx_len f) in
    '(f, g, s) ← lift (rtw_wep_decrypt (asec a) f (acrc a));
    Done (f, 4, set_sec s g a)
  else Done (f, 0, a).

(** The station of the frame: found, and no longer associated, or a new one.  It is in
    [auth_list] afterwards. *)
Definition auth_station (sa : bytes) (a : ap) : ap * option nat :=
  let '(a, pstat) :=
    match rtw_get_stainfo (table a) sa with
    | Some o => (unlink_asoc o a, Some o)
    | None =>
        let '(a, r) := alloc_sta sa a in
        match r with
        | Some o => (upd_mlme o (set_auth_seq 0) (upd_state o (fun _ => WIFI_FW_AUTH_NULL) a), Some o)
        | None => (a, None)
        end
    end in
  match pstat with
  | Some o =>
      let a := link_auth o a in
      (if auth_seq (mlme_of a o) =? 0 then upd_expire o (fun _ => cauth_to c) a else a, Some o)
  | None => (a, None)
  end.

Definition authenticated_state (st : Z) : Z := Z.ldiff st WIFI_FW_AUTH_NULL .| WIFI_FW_AUTH_SUCCESS.

(** One message of the authentication; the status when it is refused. *)
Definition auth_message (m : bytes) (len : Z) (o : nat) (auth_mode algorithm seq : Z) (a : ap) : res (ap * Z) :=
  if negb (auth_seq (mlme_of a o) + 1 =? seq) then Done (a, _STATS_OUT_OF_AUTH_SEQ_)
  else if (algorithm =? 0) && ((auth_mode =? 0) || (auth_mode =? 2) || (auth_mode =? 3)) then
    if seq =? 1 then
      let a := upd_expire o (fun _ => cassoc_to c) (upd_state o authenticated_state a) in
      Done (upd_mlme o (fun m => set_auth (auth_seq m) algorithm (chg_txt m) m) a, _STATS_SUCCESSFUL_)
    else Done (a, _STATS_OUT_OF_AUTH_SEQ_)
  else if seq =? 1 then
    let a := upd_state o (fun st => Z.ldiff st WIFI_FW_AUTH_NULL .| WIFI_FW_AUTH_STATE) a in
    Done (upd_mlme o (set_auth 2 algorithm (replicate 128 78)) a, _STATS_SUCCESSFUL_)
  else if seq =? 3 then
    '(p, ie_len) ← rtw_get_ie m (WLAN_HDR_A3_LEN + 4 + _AUTH_IE_OFFSET_) _CHLGETXT_IE_ 0
                     (s32 (len - WLAN_HDR_A3_LEN - _AUTH_IE_OFFSET_ - 4));
    match p with
    | Some p =>
      if ie_len =? 0 then Done (a, _STATS_CHALLENGE_FAIL_)
      else
        same ← _rtw_memcmp m (p + 2) (chg_txt (mlme_of a o));
        if (same : bool) then
          let a := upd_state o (fun st => Z.ldiff st WIFI_FW_AUTH_STATE .| WIFI_FW_AUTH_SUCCESS) a in
          Done (upd_expire o (fun _ => cassoc_to c) a, _STATS_SUCCESSFUL_)
        else Done (a, _STATS_CHALLENGE_FAIL_)
    | None => Done (a, _STATS_CHALLENGE_FAIL_)
    end
  else Done (a, _STATS_OUT_OF_AUTH_SEQ_).

Definition auth_reply (o : nat) (seq : Z) (a : ap) : ap :=
  let a := upd_mlme o (set_auth_seq (u32 (seq + 1))) a in
  let a := say (issue_auth (addr_of a o) (mlme_of a o) (state (sta_of a o)) _STATS_SUCCESSFUL_) a in
  if has WIFI_FW_AUTH_SUCCESS (state (sta_of a o)) then upd_mlme o (set_auth_seq 0) a else a.

(** [auth_mode]: 802.1X without WEP is open. *)
Definition auth_mode : Z :=
  if (dot11AuthAlgrthm c =? 2) && negb (dot11PrivacyAlgrthm c =? _WEP40_) && negb (dot11PrivacyAlgrthm c =? _WEP104_)
  then 0 else dot11AuthAlgrthm c.

Definition OnAuth (f : recv_frame) (a : ap) : res (ap * Z) :=
  if negb (mlme_state c .& 3 =? WIFI_FW_AP_STATE) then Done (a, _FAIL)
  else
    sa ← rdr (rx_data f) 10 6;
    '(f, offset, a) ← auth_decrypt f a;
    algorithm ← RTW_GET_LE16 (rx_data f) (WLAN_HDR_A3_LEN + offset);
    seq ← RTW_GET_LE16 (rx_data f) (WLAN_HDR_A3_LEN + offset + 2);
    if ((0 <? algorithm) && (auth_mode =? 0)) || ((algorithm =? 0) && (auth_mode =? 1)) then
      Done (auth_fail None sa _STATS_NO_SUPP_ALG_ a)
    else if negb (rtw_access_ctrl (table a) sa) then Done (auth_fail None sa _STATS_UNABLE_HANDLE_STA_ a)
    else
      let '(a, pstat) := auth_station sa a in
      match pstat with
      | None => Done (auth_fail None sa _STATS_UNABLE_HANDLE_STA_ a)
      | Some o =>
          '(a, status) ← auth_message (rx_data f) (rx_len f) o auth_mode algorithm seq a;
          if status =? _STATS_SUCCESSFUL_ then Done (auth_reply o seq a, _SUCCESS)
          else Done (auth_fail (Some o) sa status a)
      end.

(** ** OnDeAuth and OnDisassoc *)

(** The part they share at an access point. *)
Definition sta_left (sa : bytes) (reason : Z) (a : ap) : res ap :=
  match rtw_get_stainfo (table a) sa with
  | Some o =>
      '(a, updated) ← expel o false reason a;
      Done (associated_clients_update updated a)
  | None => Done a
  end.

Definition OnDeAuth (f : recv_frame) (a : ap) : res (ap * Z) :=
  a3 ← rdr (rx_data f) 16 6;
  if negb (bool_decide (a3 = cbssid c)) then Done (a, _SUCCESS)
  else
    reason ← RTW_GET_LE16 (rx_data f) WLAN_HDR_A3_LEN;
    if is_ap c then
      sa ← rdr (rx_data f) 10 6;
      a ← sta_left sa reason a; Done (a, _SUCCESS)
    else
      let ignore := has (WIFI_FW_AUTH_STATE .| WIFI_FW_ASSOC_STATE) (mlme_state c) &&
        ((reason =? WLAN_REASON_CLASS2_FRAME_FROM_NONAUTH_STA) || (reason =? WLAN_REASON_PREV_AUTH_NOT_VALID)) in
      Done (if ignore then a else say (ReceiveDisconnect a3 reason) a, _SUCCESS).

Definition OnDisassoc (f : recv_frame) (a : ap) : res (ap * Z) :=
  a3 ← rdr (rx_data f) 16 6;
  if negb (bool_decide (a3 = cbssid c)) then Done (a, _SUCCESS)
  else
    reason ← RTW_GET_LE16 (rx_data f) WLAN_HDR_A3_LEN;
    if is_ap c then
      sa ← rdr (rx_data f) 10 6;
      a ← sta_left sa reason a; Done (a, _SUCCESS)
    else Done (say (ReceiveDisconnect a3 reason) a, _SUCCESS).

(** ** Expiry *)

(** One station of [auth_list]: at zero it is unlinked and freed. *)
Definition expire_auth (o : nat) (a : ap) : ap :=
  if 0 <? expire_to (ps (sta_of a o)) then
    let a := upd_expire o (fun n => n - 1) a in
    if expire_to (ps (sta_of a o)) =? 0 then free_sta o (unlink_auth o a) else a
  else a.

(** What [expire_timeout_chk] learns of a station: whether it has sent since the last
    check, and whether it acknowledges a null frame. *)
Context (alive acks : nat -> bool).

(** One station of [asoc_list].  The second result is [updated], the third tells that the
    station is to be asked for an acknowledgement. *)
Definition expire_asoc (o : nat) (updated : bool) (a : ap) : res (ap * bool * bool) :=
  let a := if alive o || (expire_to (ps (sta_of a o)) =? 0)
           then upd_mlme o (set_trycnt 0) (upd_expire o (fun _ => cexpire_to c) a)
           else upd_expire o (fun n => n - 1) a in
  if expire_to (ps (sta_of a o)) =? 0 then
    if cwifi_spec c then Done (upd_expire o (fun _ => cexpire_to c) a, updated, false)
    else
      let st := state (sta_of a o) in
      let asleep := has WIFI_SLEEP_STATE st && negb (has WIFI_STA_ALIVE_CHK_STATE st) in
      a ← (if asleep then
             let a := upd_expire o (fun _ => cexpire_to c) a in
             let a := upd_state o (fun st => st .| WIFI_STA_ALIVE_CHK_STATE) a in
             let a := on_aad (upd_tim (set_bit (aid (sta_of a o)))) a in
             b ← _update_beacon (cenv c) (tim_bitmap (table a)) _TIM_IE_ [] true (abss a);
             Done (set_bss b a)
           else Done a);
      if asleep && negb (cactive_keep_alive c) then Done (a, updated, false)
      else if cactive_keep_alive c then Done (a, updated, true)
      else
        '(a, u) ← expel o false WLAN_REASON_DEAUTH_LEAVING a; Done (a, u, false)
  else
    let share := NR_XMITFRAME / asoc_list_cnt a in
    if (share <? sleepq_len (sta_of a o)) && (free_xmitframe_cnt (xmitpriv (aad a)) <? share / 2)
    then Done (set_aw (wakeup_sta_to_xmit (cnot_pcie c) (chiq_filter c) (cexpire_to c) o (aw a)) a, updated, false)
    else Done (a, updated, false).

(** The stations to ask are collected in [chk_alive_list]. *)
Fixpoint expire_asocs (os : list nat) (chk : list nat) (updated : bool) (a : ap) : res (ap * list nat * bool) :=
  match os with
  | [] => Done (a, chk, updated)
  | o :: os =>
      '(a, updated, ask) ← expire_asoc o updated a;
      expire_asocs os (if ask : bool then chk ++ [o] else chk) updated a
  end.

(** Asking one of them. *)
Definition keep_alive (o : nat) (updated : bool) (a : ap) : res (ap * bool) :=
  if state (sta_of a o) .& _FW_LINKED =? 0 then Done (a, updated)
  else
    let a := say (IssueNull (addr_of a o)) a in
    let a := upd_mlme o (fun m => set_trycnt (u8 (keep_alive_trycnt m + 1)) m) a in
    if acks o then Done (upd_mlme o (set_trycnt 0) (upd_expire o (fun _ => cexpire_to c) a), updated)
    else if keep_alive_trycnt (mlme_of a o) <=? 3 then Done (upd_expire o (fun _ => 1) a, updated)
    else
      let a := upd_mlme o (set_trycnt 0) a in
      if decide (o ∈ asoc_list a) then expel o false WLAN_REASON_DEAUTH_LEAVING a else Done (a, updated).

Fixpoint keep_alives (os : list nat) (updated : bool) (a : ap) : res (ap * bool) :=
  match os with
  | [] => Done (a, updated)
  | o :: os => '(a, updated) ← keep_alive o updated a; keep_alives os updated a
  end.

Definition expire_timeout_chk (a : ap) : res ap :=
  let a := fold_left (fun a o => expire_auth o a) (auth_list (table a)) a in
  '(a, chk, updated) ← expire_asocs (asoc_list a) [] false a;
  '(a, updated) ← keep_alives chk updated a;
  Done (associated_clients_update updated a).

(** ** Flushing and starting *)

Fixpoint flush_loop (os : list nat) (a : ap) : res ap :=
  match os with
  | [] => Done a
  | o :: os => '(a, _) ← expel o true WLAN_REASON_DEAUTH_LEAVING a; flush_loop os a
  end.

Definition rtw_sta_flush (a : ap) : res ap :=
  if negb (mlme_state c .& 3 =? WIFI_FW_AP_STATE) then Done a
  else
    a ← flush_loop (asoc_list a) a;
    Done (associated_clients_update true (say (IssueDeauth bc_addr WLAN_REASON_DEAUTH_LEAVING) a)).

(** [start_ap_mode]: the counters, the mode, the association ids and the access list. *)
Definition start_ap_mode (a : ap) : ap :=
  let b := abss a in
  let x := bcn b in
  let a := set_bss (Bss start_ap_counts 0 (BssBcn (IEs x) (IELength x) (ERP_enable x) (ERP_IE x) false (tx_beacon_cmds x))) a in
  upd_table (fun sp => mk_sp (stas sp) (free_sta_queue sp) (sta_hash sp) (asoc_sta_count sp) (hash_lock sp)
    (auth_list sp) (auth_list_cnt sp) (replicate 32 None) (sta_dz_bitmap sp) (tim_bitmap sp) (mk_acl 0 [])) a.
End ap.
