(* ===== verification/ApAssoc.v ===== *)
(** * Stations of an access point: association (src/core/rtw_mlme_ext.c, src/core/rtw_ap.c)

    [OnAssocReq] on a received (re)association request: the checks in the order of the
    code, each a stage that changes the station and may end with a status; then the
    association id, the lists, [bss_cap_update_on_sta_join] and [sta_info_update].  The
    elements are found by the searches and parsers of Ie, IeElems, IeWpa and IeAttr.  The
    local arrays of 16, 128 and 10 bytes and [bssrateset] are buffers that are written with
    checks.  Not modelled: [process_assoc_req_p2p_ie], a parameter; of
    [update_sta_info_apmode], the HT and VHT rates, widths and coding. *)

From S2P Require Import Prelude Ie IeWpa IeElems IeAttr Crc32 RxFrame Reorder MacId StaMgt TxQueue PowerSave SecFrames ApCap ApAuth.

(** ** Data *)

Definition WIFI_ASSOCREQ : Z := 0.
Definition _ASOCREQ_IE_OFFSET_ : Z := 4.
Definition _REASOCREQ_IE_OFFSET_ : Z := 10.
Definition IEEE80211_3ADDR_LEN : Z := 24.
Definition _EXT_SUPPORTEDRATES_IE_ : Z := 50.

Definition _STATS_FAILURE_ : Z := 1.
Definition _STATS_CAP_FAIL_ : Z := 10.
Definition WLAN_STATUS_AP_UNABLE_TO_HANDLE_NEW_STA : Z := 17.
Definition WLAN_STATUS_INVALID_IE : Z := 40.
Definition WLAN_STATUS_GROUP_CIPHER_NOT_VALID : Z := 41.
Definition WLAN_STATUS_PAIRWISE_CIPHER_NOT_VALID : Z := 42.
Definition _RSON_CLS2_ : Z := 6.

Definition WLAN_STA_WME : Z := 1 .<< 9.
Definition WLAN_STA_WPS : Z := 1 .<< 12.
Definition WLAN_STA_MAYBE_WPS : Z := 1 .<< 13.
Definition WLAN_STA_VHT : Z := 1 .<< 14.
Definition WLAN_CAPABILITY_SHORT_PREAMBLE : Z := 1 .<< 5.
Definition CHANNEL_WIDTH_80 : Z := 2.
Definition sizeof_ht_cap : Z := 26.
Definition WMM_IE : bytes := [0x00; 0x50; 0xf2; 0x02; 0x00; 0x01].
Definition WFD_ATTR_DEVICE_INFO : Z := 0.

(** What [OnAssocReq] reads besides [ap_cfg]: the SSID ([cur->Ssid]), the security
    settings, whether QoS and VHT are on, [max_num_sta], the P2P role, and the outcome of the
    allocation of [passoc_req]. *)
Record assoc_cfg := AssocCfg {
  cur_ssid : bytes; ap_wpa_psk : Z; ap_wpa_group : Z; ap_wpa2_group : Z; ap_wpa_pairwise : Z;
  ap_wpa2_pairwise : Z; ap_qos_option : bool; ap_vht_option : bool; max_num_sta : Z;
  p2p_role_go : bool; passoc_alloc_ok : bool
}.

(** A station: its entry of the table and the rest of it. *)
Record station := Station { info : sta_info; rest : sta_mlme }.

Definition set_sta_ps (p : sta_ps) (s : station) : station := Station (set_ps p (info s)) (rest s).
Definition set_assoc (x : sta_assoc) (s : station) : station :=
  let m := rest s in
  Station (info s) (StaMlme (auth_seq m) (authalg m) (chg_txt m) (keep_alive_trycnt m) (rtsen m) (cts2self m)
    (agg_enable_bitmap m) (candidate_tid_bitmap m) (caps m) x).
Definition asc (s : station) : sta_assoc := assoc (rest s).
Definition set_sta_caps (p : sta_caps) (s : station) : station := Station (info s) (set_caps p (rest s)).
Definition sta_flags (s : station) : Z := flags (caps (rest s)).
Definition set_flags (f : Z) (s : station) : station :=
  let p := caps (rest s) in set_sta_caps (renew f (capability p) (ht_capab p) p) s.
Definition set_capability (v : Z) (s : station) : station :=
  let p := caps (rest s) in set_sta_caps (renew (flags p) v (ht_capab p) p) s.

Definition set_rates (r : bytes) (n : Z) (x : sta_assoc) : sta_assoc :=
  StaAssoc r n (dot8021xalg x) (wpa_psk x) (wpa_group_cipher x) (wpa2_group_cipher x) (wpa_pairwise_cipher x)
    (wpa2_pairwise_cipher x) (wpa_ie x) (qos_option x) (ht_cap x) (vht_cap x) (vht_op_mode_notify x)
    (is_p2p_device x) (p2p_status_code x) (ht_option x) (vht_option x) (passoc_req x).
Definition set_security (alg psk g g2 p p2 : Z) (ie : bytes) (x : sta_assoc) : sta_assoc :=
  StaAssoc (bssrateset x) (bssratelen x) alg psk g g2 p p2 ie (qos_option x) (ht_cap x) (vht_cap x)
    (vht_op_mode_notify x) (is_p2p_device x) (p2p_status_code x) (ht_option x) (vht_option x) (passoc_req x).
Definition set_wpa_ie (ie : bytes) (x : sta_assoc) : sta_assoc :=
  set_security (dot8021xalg x) (wpa_psk x) (wpa_group_cipher x) (wpa2_group_cipher x) (wpa_pairwise_cipher x)
    (wpa2_pairwise_cipher x) ie x.
Definition set_options (qos ht vht : bool) (x : sta_assoc) : sta_assoc :=
  StaAssoc (bssrateset x) (bssratelen x) (dot8021xalg x) (wpa_psk x) (wpa_group_cipher x) (wpa2_group_cipher x)
    (wpa_pairwise_cipher x) (wpa2_pairwise_cipher x) (wpa_ie x) qos (ht_cap x) (vht_cap x)
    (vht_op_mode_notify x) (is_p2p_device x) (p2p_status_code x) ht vht (passoc_req x).
Definition set_qos_option (b : bool) (x : sta_assoc) : sta_assoc := set_options b (ht_option x) (vht_option x) x.
Definition set_ht_cap (h : bytes) (x : sta_assoc) : sta_assoc :=
  StaAssoc (bssrateset x) (bssratelen x) (dot8021xalg x) (wpa_psk x) (wpa_group_cipher x) (wpa2_group_cipher x)
    (wpa_pairwise_cipher x) (wpa2_pairwise_cipher x) (wpa_ie x) (qos_option x) h (vht_cap x)
    (vht_op_mode_notify x) (is_p2p_device x) (p2p_status_code x) (ht_option x) (vht_option x) (passoc_req x).
Definition set_vht (h : bytes) (n : Z) (opt : bool) (x : sta_assoc) : sta_assoc :=
  StaAssoc (bssrateset x) (bssratelen x) (dot8021xalg x) (wpa_psk x) (wpa_group_cipher x) (wpa2_group_cipher x)
    (wpa_pairwise_cipher x) (wpa2_pairwise_cipher x) (wpa_ie x) (qos_option x) (ht_cap x) h n
    (is_p2p_device x) (p2p_status_code x) (ht_option x) opt (passoc_req x).
Definition set_p2p (b : bool) (code : Z) (x : sta_assoc) : sta_assoc :=
  StaAssoc (bssrateset x) (bssratelen x) (dot8021xalg x) (wpa_psk x) (wpa_group_cipher x) (wpa2_group_cipher x)
    (wpa_pairwise_cipher x) (wpa2_pairwise_cipher x) (wpa_ie x) (qos_option x) (ht_cap x) (vht_cap x)
    (vht_op_mode_notify x) b code (ht_option x) (vht_option x) (passoc_req x).
Definition set_passoc_req (f : option bytes) (x : sta_assoc) : sta_assoc :=
  StaAssoc (bssrateset x) (bssratelen x) (dot8021xalg x) (wpa_psk x) (wpa_group_cipher x) (wpa2_group_cipher x)
    (wpa_pairwise_cipher x) (wpa2_pairwise_cipher x) (wpa_ie x) (qos_option x) (ht_cap x) (vht_cap x)
    (vht_op_mode_notify x) (is_p2p_device x) (p2p_status_code x) (ht_option x) (vht_option x) f.

(** ** Stages *)

(** A stage changes the station and gives a status; the next one runs when it is
    [_STATS_SUCCESSFUL_]. *)
Definition stage : Type := station -> res (station * Z).
Definition pass (s : station) : res (station * Z) := Done (s, _STATS_SUCCESSFUL_).
Definition refuse (status : Z) (s : station) : res (station * Z) := Done (s, status).
Definition then_ (m k : stage) : stage := fun s =>
  '(s, status) ← m s; if status =? _STATS_SUCCESSFUL_ then k s else Done (s, status).
Infix "▷" := then_ (at level 60, right associativity).

(** [UpdateBrateTblForSoftAP]: the CCK rates become basic rates. *)
Definition basic_rate (r : Z) : Z :=
  let v := r .& 0x7f in
  if (v =? 2) || (v =? 4) || (v =? 11) || (v =? 22) then r .| 0x80 else r.
Definition UpdateBrateTblForSoftAP (bssrateset : bytes) (bssratelen : Z) : bytes :=
  map basic_rate (take (Z.to_nat bssratelen) bssrateset) ++ drop (Z.to_nat bssratelen) bssrateset.

Section assoc.
Context (c : ap_cfg) (ac : assoc_cfg).
(** [process_assoc_req_p2p_ie], and the fuel for the attributes of the own WPS element. *)
Context (process_assoc_req_p2p_ie : bytes -> Z -> Z) (attr_fuel : nat).

Section stages.
(** The frame, its length, and where the elements begin and how many bytes they have. *)
Context (m : bytes) (pkt_len : Z) (ies left : Z).

Definition check_ssid : stage := fun s =>
  '(p, ie_len) ← rtw_get_ie m ies _SSID_IE_ 0 left;
  match p with
  | None => refuse _STATS_FAILURE_ s
  | Some p =>
    if ie_len =? 0 then refuse _STATS_FAILURE_ s
    else
      same ← _rtw_memcmp m (p + 2) (cur_ssid ac);
      if negb same || negb (ie_len =? zlen (cur_ssid ac)) then refuse _STATS_FAILURE_ s else pass s
  end.

Definition check_rates : stage := fun s =>
  '(p, ie_len) ← rtw_get_ie m ies _SUPPORTEDRATES_IE_ 0 left;
  match p with
  | None => refuse _STATS_FAILURE_ s
  | Some p =>
    r ← rdr m (p + 2) ie_len;
    supportRate ← wrr (replicate 16 0) 0 r;
    let supportRateNum := ie_len in
    '(p, ie_len) ← rtw_get_ie m ies _EXT_SUPPORTEDRATES_IE_ ie_len left;
    '(supportRate, supportRateNum) ←
      match p with
      | Some p =>
        if supportRateNum <=? 16 then
          r ← rdr m (p + 2) ie_len;
          b ← wrr supportRate supportRateNum r; Done (b, supportRateNum + ie_len)
        else Done (supportRate, supportRateNum)
      | None => Done (supportRate, supportRateNum)
      end;
    new ← rdr supportRate 0 supportRateNum;
    set ← wrr (bssrateset (asc s)) 0 new;
    pass (set_assoc (set_rates (UpdateBrateTblForSoftAP set supportRateNum) supportRateNum (asc s)) s)
  end.

Definition not_valid (g p : Z) : Z :=
  if p =? 0 then WLAN_STATUS_PAIRWISE_CIPHER_NOT_VALID
  else if g =? 0 then WLAN_STATUS_GROUP_CIPHER_NOT_VALID else _STATS_SUCCESSFUL_.

(** The RSN and the WPA element, when the access point looks at them, and the one it uses:
    its body and length. *)
Definition rsn_selected (elems : rtw_ieee802_11_elems) : option (Z * Z) :=
  if has 2 (ap_wpa_psk ac) then elems rsn_ie_elem else None.
Definition wpa_selected (elems : rtw_ieee802_11_elems) : option (Z * Z) :=
  if has 1 (ap_wpa_psk ac) then elems wpa_ie_elem else None.
Definition wpa_element (elems : rtw_ieee802_11_elems) : option (Z * Z) :=
  match rsn_selected elems with Some x => Some x | None => wpa_selected elems end.

Definition check_security (elems : rtw_ieee802_11_elems) : stage := fun s =>
  let cleared := set_security 0 0 0 0 0 0 (replicate 32 0) (asc s) in
  match rsn_selected elems with
  | Some (ie, len) =>
    '(r, o) ← rtw_parse_wpa2_ie m (ie - 2) (len + 2) (Ciphers 0 0 None);
    if r =? _SUCCESS then
      let g := group_cipher o .& ap_wpa2_group ac in
      let p := pairwise_cipher o .& ap_wpa2_pairwise ac in
      refuse (not_valid g p) (set_assoc (set_security 1 2 0 g 0 p (replicate 32 0) cleared) s)
    else refuse WLAN_STATUS_INVALID_IE (set_assoc cleared s)
  | None =>
    match wpa_selected elems with
    | Some (ie, len) =>
      '(r, o) ← rtw_parse_wpa_ie m (ie - 2) (len + 2) (Ciphers 0 0 None);
      if r =? _SUCCESS then
        let g := group_cipher o .& ap_wpa_group ac in
        let p := pairwise_cipher o .& ap_wpa_pairwise ac in
        refuse (not_valid g p) (set_assoc (set_security 1 1 g 0 p 0 (replicate 32 0) cleared) s)
      else refuse WLAN_STATUS_INVALID_IE (set_assoc cleared s)
    | None => pass (set_assoc cleared s)
    end
  end.

(** Wi-Fi Protected Setup.  [selected_registrar] is one byte. *)
Definition check_wps (elems : rtw_ieee802_11_elems) : stage := fun s =>
  let wps := bool_decide (elems wps_ie <> None) in
  let f := Z.ldiff (sta_flags s) (WLAN_STA_WPS .| WLAN_STA_MAYBE_WPS) in
  match wpa_element elems with
  | None =>
    let s := set_flags (f .| (if wps then WLAN_STA_WPS else WLAN_STA_MAYBE_WPS)) s in
    if 0 <? ap_wpa_psk ac then
      match wps_beacon_ie (cenv c) with
      | Some b =>
        '(_, content, _) ← rtw_get_wps_attr_content attr_fuel b 0 (zlen b) WPS_ATTR_SELECTED_REGISTRAR (Some [0]);
        if ld0 (default [] content) 0 =? 0 then refuse _STATS_UNABLE_HANDLE_STA_ s else pass s
      | None => pass s
      end
    else pass s
  | Some (ie, len) =>
    if ap_wpa_psk ac =? 0 then refuse WLAN_STATUS_INVALID_IE (set_flags f s)
    else if wps then pass (set_flags (f .| WLAN_STA_WPS) s)
    else
      let copy_len := if 32 <? len + 2 then 32 else len + 2 in
      b ← rdr m (ie - 2) copy_len;
      w ← wrr (wpa_ie (asc s)) 0 b;
      pass (set_assoc (set_wpa_ie w (asc s)) (set_flags f s))
  end.

(** The WMM element: the loop searches with the same limit from wherever it is. *)
Definition wmm_settings (qos : Z) (p : sta_ps) : sta_ps :=
  let legacy := if qos .& 0xf =? 0xf then 0 else 1 in
  let bits i := if Z.testbit qos i then 3 else 0 in
  if qos .& 0xf =? 0
  then mk_ps (expire_to p) (sleepq_ac_len p) qos ((qos .>> 5) .& 3) (uapsd_bk p) (uapsd_be p) (uapsd_vi p) (uapsd_vo p) legacy
  else mk_ps (expire_to p) (sleepq_ac_len p) qos ((qos .>> 5) .& 3) (bits 2) (bits 3) (bits 1) (bits 0) legacy.

Fixpoint wmm_loop (fuel : nat) (p : Z) (s : station) : res station :=
  match fuel with
  | O => NoFuel
  | S fuel =>
    '(q, ie_len) ← rtw_get_ie m p _VENDOR_SPECIFIC_IE_ 0 left;
    match q with
    | Some q =>
      same ← _rtw_memcmp m (q + 2) WMM_IE;
      if (same : bool) then
        qos ← ldr m (q + 8);
        let s := set_assoc (set_qos_option true (asc s)) (set_flags (sta_flags s .| WLAN_STA_WME) s) in
        Done (set_sta_ps (wmm_settings qos (ps (info s))) s)
      else wmm_loop fuel (q + ie_len + 2) s
    | None => Done s
    end
  end.

Definition check_wmm : stage := fun s =>
  let s := set_assoc (set_qos_option false (asc s)) (set_flags (Z.ldiff (sta_flags s) WLAN_STA_WME) s) in
  let p := ps (info s) in
  let s := set_sta_ps (mk_ps (expire_to p) (sleepq_ac_len p) 0 (max_sp_len p) 0 0 0 0 1) s in
  if ap_qos_option ac then s ← wmm_loop (S (length m)) ies s; pass s else pass s.

(** The HT and VHT capabilities. *)
Definition ht_cap_info (h : bytes) : Z := ld0 h 0 .| (ld0 h 1 .<< 8).
Definition store_ht_cap (h : bytes) (f : Z) (s : station) : station :=
  let p := caps (rest s) in set_assoc (set_ht_cap h (asc s)) (set_sta_caps (renew f (capability p) (ht_cap_info h) p) s).

Definition check_ht (elems : rtw_ieee802_11_elems) : stage := fun s =>
  s ← match elems ht_capabilities with
      | Some (p, len) =>
        if sizeof_ht_cap <=? len then
          h ← rdr m p sizeof_ht_cap;
          Done (store_ht_cap h (sta_flags s .| WLAN_STA_HT .| WLAN_STA_WME) s)
        else Done (store_ht_cap (replicate 26 0) (Z.ldiff (sta_flags s) WLAN_STA_HT) s)
      | None => Done (store_ht_cap (replicate 26 0) (Z.ldiff (sta_flags s) WLAN_STA_HT) s)
      end;
  if negb (ap_ht_option (cenv c)) && has WLAN_STA_HT (sta_flags s) then refuse _STATS_FAILURE_ s else pass s.

Definition check_vht (elems : rtw_ieee802_11_elems) : stage := fun s =>
  let no_vht := set_flags (Z.ldiff (sta_flags s) WLAN_STA_VHT) (set_assoc (set_vht (replicate 12 0) 0 false (asc s)) s) in
  s ← match elems vht_capabilities with
      | Some (p, len) =>
        if len =? 12 then
          h ← rdr m p 12;
          n ← match elems IeElems.vht_op_mode_notify with
              | Some (q, 1) => ldr m q
              | _ => Done CHANNEL_WIDTH_80
              end;
          Done (set_flags (sta_flags s .| WLAN_STA_VHT) (set_assoc (set_vht h n false (asc s)) s))
        else Done no_vht
      | None => Done no_vht
      end;
  if negb (ap_vht_option ac) && has WLAN_STA_VHT (sta_flags s) then refuse _STATS_FAILURE_ s else pass s.

(** A station is not ERP when none of its rates is above 11 Mbit/s. *)
Definition set_erp_flags : stage := fun s =>
  let ofdm := existsb (fun r => 22 <? r .& 0x7f) (take (Z.to_nat (bssratelen (asc s))) (bssrateset (asc s))) in
  let f := if ofdm then Z.ldiff (sta_flags s) WLAN_STA_NONERP else sta_flags s .| WLAN_STA_NONERP in
  let f := if has WLAN_CAPABILITY_SHORT_PREAMBLE (capability (caps (rest s)))
           then f .| WLAN_STA_SHORT_PREAMBLE else Z.ldiff f WLAN_STA_SHORT_PREAMBLE in
  pass (set_flags f s).

(** Wi-Fi Direct: a group owner looks at the P2P and Wi-Fi Display elements, the latter
    copied to an array of 128 bytes and an attribute of it to one of 10. *)
Definition check_p2p : stage := fun s =>
  let s := set_assoc (set_p2p false (p2p_status_code (asc s)) (asc s)) s in
  if p2p_role_go ac then
    '(p, _, _) ← rtw_get_p2p_ie m ies left None;
    let code := match p with Some _ => u8 (process_assoc_req_p2p_ie m pkt_len) | None => 0 end in
    let s := match p with Some _ => set_assoc (set_p2p true (p2p_status_code (asc s)) (asc s)) s | None => s end in
    if 0 <? code then refuse _STATS_CAP_FAIL_ (set_assoc (set_p2p true code (asc s)) s)
    else
      '(found, wfd_ie, wfd_ielen) ← rtw_get_wfd_ie m ies left (Some (replicate 128 0)) 0;
      if negb (found =? 0) then
        _ ← rtw_get_wfd_attr_content (default [] wfd_ie) 0 wfd_ielen WFD_ATTR_DEVICE_INFO (Some (replicate 10 0)) 0;
        pass (set_assoc (set_p2p (is_p2p_device (asc s)) code (asc s)) s)
      else pass (set_assoc (set_p2p (is_p2p_device (asc s)) code (asc s)) s)
  else pass (set_assoc (set_p2p false 0 (asc s)) s).

(** All of them. *)
Definition assoc_checks (capab_info : Z) : stage := fun s =>
  let s := set_capability capab_info s in
  '(r, elems) ← rtw_ieee802_11_parse_elems m ies left;
  match r, elems ssid with
  | ParseFailed, _ | _, None => refuse _STATS_FAILURE_ s
  | _, Some _ =>
    (check_ssid ▷ check_rates ▷ check_security elems ▷ check_wps elems ▷ check_wmm ▷ check_ht elems ▷
     check_vht elems ▷ set_erp_flags ▷ check_p2p) s
  end.
End stages.

(** ** The association id *)

(** The index of the first free slot, plus one; [NUM_STA + 1] when there is none. *)
Definition first_aid (sta_aid : list (option nat)) : Z :=
  match list_find (fun x => x = None) (take 32 sta_aid) with
  | Some (i, _) => Z.of_nat i + 1
  | None => NUM_STA + 1
  end.

Definition set_aid (n : Z) (s : sta_info) : sta_info :=
  mk_sta (hwaddr s) (state s) n (mac_id s) (ieee8021x_blocked s) (dot118021x_UncstKey s)
    (dot11tkiprxmickey s) (sleep_q s) (sleepq_len s) (servqs s) (defrag_q s) (tid_rxseq s)
    (recvreorder_ctrl s) (addba_retry_timer s) (RxMgmtFrameSeqNum s) (ps s).
Definition set_blocked (b : bool) (s : sta_info) : sta_info :=
  mk_sta (hwaddr s) (state s) (aid s) (mac_id s) b (dot118021x_UncstKey s)
    (dot11tkiprxmickey s) (sleep_q s) (sleepq_len s) (servqs s) (defrag_q s) (tid_rxseq s)
    (recvreorder_ctrl s) (addba_retry_timer s) (RxMgmtFrameSeqNum s) (ps s).
Definition set_slots (l : list (option nat)) (sp : sta_priv) : sta_priv :=
  mk_sp (stas sp) (free_sta_queue sp) (sta_hash sp) (asoc_sta_count sp) (hash_lock sp) (auth_list sp)
    (auth_list_cnt sp) l (sta_dz_bitmap sp) (tim_bitmap sp) (acl_list sp).

(** The station keeps the id it has, or gets the first free one. *)
Definition assign_aid (o : nat) (a : ap) : ap * Z :=
  if 0 <? aid (sta_of a o) then (a, _STATS_SUCCESSFUL_)
  else
    let n := first_aid (sta_aid (table a)) in
    if max_num_sta ac <? n then (on_aad (upd_sta o (set_aid 0)) a, WLAN_STATUS_AP_UNABLE_TO_HANDLE_NEW_STA)
    else
      (upd_table (fun sp => set_slots (<[Z.to_nat (n - 1) := Some o]> (sta_aid sp)) sp) (on_aad (upd_sta o (set_aid n)) a),
       _STATS_SUCCESSFUL_).

(** ** A station has associated *)

(** [sta_info_update] with the parts of [update_sta_info_apmode] that are modelled. *)
Definition sta_info_update (o : nat) (a : ap) : ap :=
  let x := assoc (mlme_of a o) in
  let f := flags (caps (mlme_of a o)) in
  let ht := has WLAN_STA_HT f in
  let qos := (has WLAN_STA_WME f && ap_qos_option ac) || ht in
  let ht_opt := ht && ap_ht_option (cenv c) in
  let vht_opt := has WLAN_STA_VHT f && ap_vht_option ac in
  let a := upd_mlme o (fun m => rest (set_assoc (set_options (qos || ht_opt) ht_opt vht_opt x) (Station (sta_of a o) m))) a in
  let a := on_aad (upd_sta o (set_blocked (dot11AuthAlgrthm c =? dot11AuthAlgrthm_8021X))) a in
  let a := upd_mlme o (set_vcs (VCS_update (cenv c) (bcn (abss a)))) a in
  let addr := addr_of a o in
  let a := say (SendDelba true addr) (say (SendDelba false addr) a) in
  upd_state o (fun st => st .| _FW_LINKED) (upd_mlme o reset_agg a).

(** From the new state of the station to the end. *)
Definition assoc_accept (o : nat) (reassoc : bool) (frame : bytes) (a : ap) : res ap :=
  let a := upd_state o (fun st => Z.ldiff st WIFI_FW_ASSOC_STATE .| WIFI_FW_ASSOC_SUCCESS) a in
  let a := unlink_auth o a in
  let a := if decide (o ∈ asoc_list a) then a else link_asoc o (upd_expire o (fun _ => cexpire_to c) a) in
  '(p, b, updated) ← bss_cap_update_on_sta_join (cenv c) (tim_bitmap (table a)) (caps (mlme_of a o)) (abss a);
  let a := associated_clients_update c updated (set_bss b (upd_mlme o (set_caps p) a)) in
  let a := sta_info_update o a in
  let a := say (IssueAsocRsp (addr_of a o) _STATS_SUCCESSFUL_ (aid (sta_of a o)) reassoc) a in
  let a := upd_mlme o (fun m => rest (set_assoc (set_passoc_req (if passoc_alloc_ok ac then Some frame else None)
                                                  (assoc m)) (Station (sta_of a o) m))) a in
  Done (say (AddStaEvent (addr_of a o) (aid (sta_of a o))) a).

(** [OnAssocReqFail]. *)
Definition assoc_fail (o : nat) (reassoc : bool) (status : Z) (a : ap) : ap * Z :=
  let a := on_aad (upd_sta o (set_aid 0)) a in
  (say (IssueAsocRsp (addr_of a o) status 0 reassoc) a, _FAIL).

Definition store (o : nat) (s : station) (a : ap) : ap :=
  upd_mlme o (fun _ => rest s) (on_aad (upd_sta o (fun _ => info s)) a).

Definition OnAssocReq (f : recv_frame) (a : ap) : res (ap * Z) :=
  let m := rx_data f in
  if negb (mlme_state c .& 3 =? WIFI_FW_AP_STATE) then Done (a, _FAIL)
  else
    fc ← RTW_GET_LE16 m 0;
    let reassoc := negb (fc .& 0xfc =? WIFI_ASSOCREQ) in
    let ie_offset := if reassoc then _REASOCREQ_IE_OFFSET_ else _ASOCREQ_IE_OFFSET_ in
    if rx_len f <? IEEE80211_3ADDR_LEN + ie_offset then Done (a, _FAIL)
    else
      sa ← rdr m 10 6;
      match rtw_get_stainfo (table a) sa with
      | None => Done (say (IssueDeauth sa _RSON_CLS2_) a, _FAIL)
      | Some o =>
        capab_info ← RTW_GET_LE16 m WLAN_HDR_A3_LEN;
        let st := state (sta_of a o) in
        if negb (has WIFI_FW_AUTH_SUCCESS st) && negb (has WIFI_FW_ASSOC_SUCCESS st) then
          Done (say (IssueDeauth sa _RSON_CLS2_) a, _FAIL)
        else
          let bit := if has WIFI_FW_AUTH_SUCCESS st then WIFI_FW_AUTH_SUCCESS else WIFI_FW_ASSOC_SUCCESS in
          let s := Station (set_state (Z.ldiff st bit .| WIFI_FW_ASSOC_STATE) (sta_of a o)) (mlme_of a o) in
          '(s, status) ← assoc_checks m (rx_len f) (IEEE80211_3ADDR_LEN + ie_offset)
                           (rx_len f - (IEEE80211_3ADDR_LEN + ie_offset)) capab_info s;
          let a := store o s a in
          if negb (status =? _STATS_SUCCESSFUL_) then Done (assoc_fail o reassoc status a)
          else
            let '(a, status) := assign_aid o a in
            if negb (status =? _STATS_SUCCESSFUL_) then Done (assoc_fail o reassoc status a)
            else
              frame ← rdr m 0 (rx_len f);
              a ← assoc_accept o reassoc frame a;
              Done (a, _SUCCESS)
      end.
End assoc.
