(* ===== verification/ApInv.v ===== *)
(** * The invariant of an access point's stations

    What every state reached by the handlers of ApAuth and ApAssoc satisfies: the lists of
    authenticating and associated stations, the association ids, the counters, and that a
    station that counts as authenticated was sent the last message of an authentication. *)

From stdpp Require Import relations.
From S2P Require Import Prelude Ie Crc32 RxFrame Reorder MacId StaMgt TxQueue PowerSave SecFrames ApCap ApAuth ApAssoc.

(** ** The invariant *)

Definition used (a : ap) : list nat := concat (sta_hash (table a)).

(** The station's state has [WIFI_FW_AUTH_SUCCESS], [WIFI_FW_ASSOC_STATE] or
    [WIFI_FW_ASSOC_SUCCESS]. *)
Definition MARKS : Z := 0x6400.
Definition marked (a : ap) (o : nat) : Prop := has MARKS (state (sta_of a o)) = true.

(** The last message of an open or of a shared key authentication was sent to an address. *)
Definition admitted (addr : bytes) (l : list ap_event) : Prop :=
  exists alg seq, IssueAuth addr alg seq _STATS_SUCCESSFUL_ None ∈ l /\ ((alg = 0 /\ seq = 2) \/ seq = 4).
Definition known (a : ap) (o : nat) : Prop := admitted (addr_of a o) (alog a).

Definition caps_of (a : ap) : list sta_caps := map caps (mlme a).
(** How far a counter is above the number of stations it counts. *)
Definition excess (k : counter) (a : ap) : Z :=
  counted k (counts (abss a)) - tally (flagged k) (used a) (caps_of a).

(** [X] is a station whose admission is about to be logged. *)
Record ap_inv_but (X : option nat) (a : ap) : Prop := {
  ai_table : table_inv (set_lock 0 (table a));
  ai_mlme : length (mlme a) = 32%nat;
  ai_slots : length (sta_aid (table a)) = 32%nat;
  ai_lists : NoDup (auth_list (table a) ++ asoc_list a);
  ai_used : forall o, o ∈ auth_list (table a) \/ o ∈ asoc_list a -> o ∈ used a;
  ai_auth_cnt : auth_list_cnt (table a) = zlen (auth_list (table a));
  ai_asoc_cnt : asoc_list_cnt a = zlen (asoc_list a);
  ai_aid : forall o, o ∈ used a -> 0 < aid (sta_of a o) ->
    aid (sta_of a o) <= 32 /\ sta_aid (table a) !! Z.to_nat (aid (sta_of a o) - 1) = Some (Some o);
  ai_known : forall o, o ∈ used a -> Some o <> X -> marked a o \/ o ∈ asoc_list a -> known a o;
  ai_counts : forall k, 0 <= excess k a
}.
Abbreviation ap_inv := (ap_inv_but None).

(** ** Steps that keep it *)

(** What a step on the tables leaves alone when it adds, frees, lists and marks no station. *)
Definition entry (d : adapter) (o : nat) : sta_info := nth o (stas (stapriv d)) _rtw_init_stainfo.
Definition no_new_mark (s s' : sta_info) : Prop := has MARKS (state s') = true -> has MARKS (state s) = true.

Record calm (d d' : adapter) : Prop := {
  cl_lists : free_sta_queue (stapriv d') = free_sta_queue (stapriv d) /\ sta_hash (stapriv d') = sta_hash (stapriv d) /\
    asoc_sta_count (stapriv d') = asoc_sta_count (stapriv d);
  cl_auth : auth_list (stapriv d') = auth_list (stapriv d) /\ auth_list_cnt (stapriv d') = auth_list_cnt (stapriv d);
  cl_slots : sta_aid (stapriv d') = sta_aid (stapriv d);
  cl_len : length (stas (stapriv d')) = length (stas (stapriv d));
  cl_entry : forall o, hwaddr (entry d' o) = hwaddr (entry d o) /\ aid (entry d' o) = aid (entry d o) /\
    no_new_mark (entry d o) (entry d' o)
}.

#[export] Instance calm_refl : Reflexive calm.
Proof. intros d. constructor; try done. intros o. split_and!; [done..|]. by intros ?. Qed.
#[export] Instance calm_trans : Transitive calm.
Proof.
  intros d1 d2 d3 [(A1 & A2 & A3) (B1 & B2) C L S] [(A1' & A2' & A3') (B1' & B2') C' L' S'].
  constructor; [split_and!; congruence|split; congruence|congruence..|].
  intros o. destruct (S o) as (E1 & E2 & E3), (S' o) as (F1 & F2 & F3). split_and!; [congruence..|].
  unfold no_new_mark in *. auto.
Qed.

Lemma nth_alter {A} (g : A -> A) o o' (l : list A) d : (o < length l)%nat ->
  nth o' (alter g o l) d = if decide (o = o') then g (nth o' l d) else nth o' l d.
Proof.
  intros Ho. rewrite !nth_lookup. destruct (decide (o = o')) as [<-|Hne].
  - rewrite list_lookup_alter_eq. destruct (lookup_lt_is_Some_2 l o Ho) as [x ->]. done.
  - by rewrite list_lookup_alter_ne.
Qed.
Lemma alter_out {A} (g : A -> A) o (l : list A) : (length l <= o)%nat -> alter g o l = l.
Proof.
  revert l. induction o as [|o IH]; intros [|x l] H; cbn in *; [done|lia|done|]. unfold alter in *. cbn.
  f_equal. apply IH. lia.
Qed.

Lemma calm_upd_sta o g d : (forall s, hwaddr (g s) = hwaddr s /\ aid (g s) = aid s /\ no_new_mark s (g s)) ->
  calm d (upd_sta o g d).
Proof.
  intros Hg. destruct (decide (o < length (stas (stapriv d)))%nat) as [Ho|Ho].
  - constructor; try done; cbn; [by rewrite length_alter|].
    intros o'. unfold entry. cbn. rewrite nth_alter by done. destruct (decide (o = o')); [apply Hg|].
    split_and!; [done..|]. by intros ?.
  - constructor; try done; cbn; [by rewrite length_alter|].
    intros o'. unfold entry. cbn. rewrite alter_out by lia. split_and!; [done..|]. by intros ?.
Qed.

Lemma calm_same_table d d' : stapriv d' = stapriv d -> calm d d'.
Proof.
  intros H. constructor; unfold entry; rewrite ?H; try done. intros o. split_and!; [done..|]. by intros ?.
Qed.

Lemma calm_bitmaps dz tm d : calm d (set_stapriv (set_bitmaps dz tm (stapriv d)) d).
Proof. constructor; try done. intros o. split_and!; [done..|]. by intros ?. Qed.

(** The same for a whole access point. *)
Record quiet (a a' : ap) : Prop := {
  q_calm : calm (aad a) (aad a');
  q_asoc : asoc_list a' = asoc_list a /\ asoc_list_cnt a' = asoc_list_cnt a;
  q_mlme : length (mlme a') = length (mlme a);
  q_excess : forall k, excess k a' = excess k a;
  q_log : exists l, alog a' = alog a ++ l
}.

#[export] Instance quiet_refl : Reflexive quiet.
Proof. intros a. constructor; try done. by exists []; rewrite app_nil_r. Qed.
#[export] Instance quiet_trans : Transitive quiet.
Proof.
  intros a b c [A1 (A2 & A3) A4 A5 (l & A6)] [B1 (B2 & B3) B4 B5 (m & B6)].
  constructor; [by etransitivity|split; congruence|congruence|intros k; by rewrite B5, A5|].
  exists (l ++ m). by rewrite B6, A6, app_assoc.
Qed.

Lemma admitted_app addr l m : admitted addr l -> admitted addr (l ++ m).
Proof. intros (alg & seq & H & Hc). exists alg, seq. split; [|done]. apply elem_of_app. by left. Qed.

Lemma table_inv_same sp sp' :
  length (stas sp') = length (stas sp) -> (forall o, sta_addr sp' o = sta_addr sp o) ->
  free_sta_queue sp' = free_sta_queue sp -> sta_hash sp' = sta_hash sp -> asoc_sta_count sp' = asoc_sta_count sp ->
  table_inv (set_lock 0 sp) -> table_inv (set_lock 0 sp').
Proof.
  intros H1 H2 H3 H4 H5 [T1 T2 T3 T4 T5 T6]. constructor; cbn in *; rewrite ?H1, ?H3, ?H4, ?H5; try done.
  intros i l o Hl Ho. change (Z.to_nat (wifi_mac_hash (sta_addr sp' o)) = i). rewrite H2. by eapply T4.
Qed.

Lemma sta_addr_nth sp o : (o < length (stas sp))%nat -> sta_addr sp o = hwaddr (nth o (stas sp) _rtw_init_stainfo).
Proof. intros H. unfold sta_addr. rewrite nth_lookup. by destruct (lookup_lt_is_Some_2 (stas sp) o H) as [s ->]. Qed.

Lemma calm_table d d' : calm d d' -> table_inv (set_lock 0 (stapriv d)) -> table_inv (set_lock 0 (stapriv d')).
Proof.
  intros [(H1 & H2 & H3) _ _ L S]. apply table_inv_same; try done.
  intros o. destruct (decide (o < length (stas (stapriv d)))%nat) as [Ho|Ho].
  - rewrite !sta_addr_nth by lia. apply (S o).
  - unfold sta_addr. by rewrite !lookup_ge_None_2 by lia.
Qed.

Lemma quiet_used a a' : quiet a a' -> used a' = used a.
Proof. intros [[(_ & H & _) _ _ _ _] _ _ _ _]. unfold used, table. by rewrite H. Qed.

Lemma quiet_inv X a a' : quiet a a' -> ap_inv_but X a -> ap_inv_but X a'.
Proof.
  intros Hq [I1 I2 I3 I4 I5 I6 I7 I8 I9 I10]. pose proof (quiet_used _ _ Hq) as HU.
  destruct Hq as [Hc (Q1 & Q2) Q3 Q4 (m & Q5)]. pose proof (calm_table _ _ Hc I1) as T.
  destruct Hc as [_ (C1 & C2) C3 _ C5]. constructor; unfold table in *; rewrite ?C1, ?C2, ?C3, ?HU, ?Q1, ?Q2, ?Q3; try done.
  - intros o Ho Ha. destruct (C5 o) as (_ & Ea & _). unfold sta_of, table in *.
    change (nth o (stas (stapriv (aad a'))) _rtw_init_stainfo) with (entry (aad a') o) in *.
    rewrite Ea in *. by apply I8.
  - intros o Ho HX Hm. destruct (C5 o) as (Eh & _ & Em). unfold known, addr_of, sta_of, table in *.
    change (nth o (stas (stapriv (aad a'))) _rtw_init_stainfo) with (entry (aad a') o) in *.
    rewrite Eh, Q5. apply admitted_app. apply I9; [done|done|]. destruct Hm as [Hm|Hm]; [left|by right].
    apply Em, Hm.
  - intros k. by rewrite Q4.
Qed.

(** Steps on parts of the access point. *)
Lemma quiet_aw w a : calm (aad a) (ad w) -> quiet a (set_aw w a).
Proof.
  intros Hc. constructor; try done; [|by exists []; rewrite app_nil_r].
  intros k. unfold excess. change (used (set_aw w a)) with (concat (sta_hash (stapriv (ad w)))).
  by destruct Hc as [(_ & -> & _) _ _ _ _].
Qed.
Lemma quiet_on_aad g a : calm (aad a) (g (aad a)) -> quiet a (on_aad g a).
Proof. exact (quiet_aw (on_ad g (aw a)) a). Qed.

Lemma tally_ext f U l l' : (forall o, f (nth o l' init_caps) = f (nth o l init_caps)) -> tally f U l' = tally f U l.
Proof. intros H. induction U as [|o U IH]; cbn; [done|]. by rewrite IH, H. Qed.

Lemma caps_nth a o : nth o (caps_of a) init_caps = caps (mlme_of a o).
Proof. unfold caps_of, mlme_of. change init_caps with (caps init_mlme). apply map_nth. Qed.

Lemma mlme_upd o g a o' : mlme_of (upd_mlme o g a) o' =
  if decide (o = o') then if decide (o < length (mlme a))%nat then g (mlme_of a o') else mlme_of a o' else mlme_of a o'.
Proof.
  unfold mlme_of, upd_mlme, set_mlme. cbn. destruct (decide (o < length (mlme a))%nat) as [Ho|Ho].
  - by rewrite nth_alter.
  - rewrite alter_out by lia. by destruct (decide _).
Qed.

(** The entry of [mlme] changes but for its flags. *)
Lemma quiet_upd_mlme_at o g a : (forall k, flagged k (caps (g (mlme_of a o))) = flagged k (caps (mlme_of a o))) ->
  quiet a (upd_mlme o g a).
Proof.
  intros Hg. constructor; try done; [by apply length_alter| |by exists []; rewrite app_nil_r].
  intros k. unfold excess. change (abss (upd_mlme o g a)) with (abss a). change (used (upd_mlme o g a)) with (used a).
  f_equal. apply tally_ext. intros o'.
  rewrite !caps_nth, mlme_upd. destruct (decide (o = o')) as [<-|]; [|done]. destruct (decide _); [apply Hg|done].
Qed.
Lemma quiet_upd_mlme o g a : (forall k m, flagged k (caps (g m)) = flagged k (caps m)) -> quiet a (upd_mlme o g a).
Proof. intros Hg. apply quiet_upd_mlme_at. intros k. apply Hg. Qed.

Lemma quiet_say e a : quiet a (say e a).
Proof. constructor; try done. by exists [e]. Qed.
Lemma quiet_sec s g a : quiet a (set_sec s g a).
Proof. constructor; try done. by exists []; rewrite app_nil_r. Qed.
Lemma quiet_bss b a : counts b = counts (abss a) -> quiet a (set_bss b a).
Proof.
  intros Hb. constructor; try done; [|by exists []; rewrite app_nil_r]. intros k. unfold excess. cbn. by rewrite Hb.
Qed.

(** A change of fields other than the address, the id and the state. *)
Ltac calm_fields := apply calm_upd_sta; intros ?; split_and!; [done..|by intros ?].

(** ** Waking a sleeping station *)

Lemma calm_hal_enqueue f w : calm (ad w) (ad (hal_enqueue f w)).
Proof.
  assert (Hc : calm (ad w) (rtw_xmit_classifier f (ad w)).1).
  { unfold rtw_xmit_classifier, upd_servq. repeat case_match; try reflexivity; cbn [fst];
      (etransitivity; [|calm_fields]); by apply calm_same_table. }
  unfold hal_enqueue, rtl8812au_hal_xmitframe_enqueue, rtw_xmitframe_enqueue, on_ad. cbn [ad].
  destruct (rtw_xmit_classifier f (ad w)) as [d err]. cbn [fst] in Hc.
  repeat case_match; simplify_eq; cbn; (etransitivity; [exact Hc|]); by apply calm_same_table || done.
Qed.

Lemma calm_unsleep o w : calm (ad w) (ad (unsleep o w)).
Proof. calm_fields. Qed.
Lemma calm_dec_ac_len o w : calm (ad w) (ad (dec_ac_len o w)).
Proof. calm_fields. Qed.

Lemma calm_wakeup_frames o p fs : forall w, calm (ad w) (ad (wakeup_frames o p fs w)).
Proof.
  induction fs as [|f fs IH]; intros w; cbn [wakeup_frames]; [done|].
  destruct (has_bit 1 _); (etransitivity; [|apply IH]); (etransitivity; [|apply calm_hal_enqueue]);
    [etransitivity; [apply calm_unsleep|apply calm_dec_ac_len]|apply calm_unsleep].
Qed.

Lemma calm_release_bmc np hf hiq b fs : forall w, calm (ad w) (ad (release_bmc_frames np hf hiq b fs w)).
Proof.
  induction fs as [|f fs IH]; intros w; cbn [release_bmc_frames]; [done|].
  etransitivity; [|apply IH]. etransitivity; [|apply calm_hal_enqueue]. apply calm_unsleep.
Qed.

Lemma has_ldiff m x y : has m (Z.ldiff x y) = true -> has m x = true.
Proof.
  unfold has. rewrite !negb_true_iff, !Z.eqb_neq. intros H E. apply H.
  apply Z.bits_inj'. intros i Hi. rewrite Z.land_spec, Z.ldiff_spec, Z.bits_0.
  assert (Z.testbit (x .& m) i = false) as Hx by by rewrite E, Z.bits_0.
  rewrite Z.land_spec in Hx. by destruct (Z.testbit x i), (Z.testbit m i), (Z.testbit y i).
Qed.

(** Toggling bits off. *)
Lemma lxor_ldiff x n : 0 <= n -> Z.testbit x n = true -> x .^ 2 ^ n = Z.ldiff x (2 ^ n).
Proof.
  intros Hn Hx. apply Z.bits_inj'. intros i Hi. rewrite Z.lxor_spec, Z.ldiff_spec, Z.pow2_bits_eqb by done.
  destruct (Z.eqb_spec n i) as [<-|]; [by rewrite Hx|]. by destruct (Z.testbit x i).
Qed.

Lemma calm_wake_state e o s d : calm d (wake_state e o s d).
Proof.
  unfold wake_state. etransitivity; [|apply calm_bitmaps].
  etransitivity; [|apply calm_upd_sta]; [etransitivity; [|apply calm_upd_sta]; [apply calm_bitmaps|]|].
  - intros s1. destruct (state s1 .& WIFI_SLEEP_STATE =? 0) eqn:E; cbn [negb]; split_and!; try done; intros H; [done|].
    apply (has_ldiff _ _ (2 ^ 2)). rewrite <- lxor_ldiff; [exact H|done|]. rewrite sleep_flag in E.
    by destruct (Z.testbit (state s1) 2).
  - intros s1. destruct (state s1 .& WIFI_STA_ALIVE_CHK_STATE =? 0) eqn:E; cbn [negb]; split_and!; try done; intros H; [done|].
    apply (has_ldiff _ _ (2 ^ 10)). rewrite <- lxor_ldiff; [exact H|done|]. rewrite alive_flag in E.
    by destruct (Z.testbit (state s1) 10).
Qed.

Lemma calm_wakeup np hf e o w : calm (ad w) (ad (wakeup_sta_to_xmit np hf e o w)).
Proof.
  unfold wakeup_sta_to_xmit. destruct (stas _ !! o) as [s|]; [|done].
  set (w1 := wakeup_frames o (ps s) (sleep_q s) w). assert (H1 : calm (ad w) (ad w1)) by apply calm_wakeup_frames.
  set (w2 := if sleeping_len o w1 =? 0 then _ else _).
  assert (H2 : calm (ad w) (ad w2.1)).
  { unfold w2. destruct (_ =? 0); [|done]. etransitivity; [exact H1|]. apply calm_wake_state. }
  destruct w2 as [w2 mask0]. cbn [fst] in H2. destruct (rtw_get_bcmc_stainfo _) as [b|]; [|by destruct mask0].
  set (w3 := if _ =? 0 then _ else (w2, false)). assert (H3 : calm (ad w) (ad w3.1)).
  { unfold w3. destruct (_ =? 0); [|done]. etransitivity; [exact H2|].
    etransitivity; [apply (calm_release_bmc np hf false b (sleeping_of b (ad w2)))|].
    destruct (_ =? 0); [|done]. etransitivity; apply calm_bitmaps. }
  destruct w3 as [w3 mask1]. cbn [fst] in H3. by destruct (mask0 || mask1).
Qed.

(** ** Freeing and allocating *)

Definition unlocked (d : adapter) : adapter := set_stapriv (set_lock 0 (stapriv d)) d.

Lemma free_unlocked my o d : stapriv (rtw_free_stainfo my o (unlocked d)) = set_lock 0 (stapriv (rtw_free_stainfo my o d)).
Proof.
  unfold rtw_free_stainfo, unlocked. cbn. destruct (stas (stapriv d) !! o); [|done].
  by destruct (rtw_release_macid _ _ _ _).
Qed.

Lemma filter_elem (o x : nat) (l : list nat) : x ∈ filter (fun y => y <> o) l <-> x <> o /\ x ∈ l.
Proof. by rewrite list_elem_of_filter. Qed.

(** What the table is after a station is freed. *)
Lemma free_entries my o d s : stas (stapriv d) !! o = Some s ->
  let d' := rtw_free_stainfo my o d in
  (forall o', o' <> o -> entry d' o' = entry d o') /\
  auth_list (stapriv d') = filter (fun x => x <> o) (auth_list (stapriv d)) /\
  auth_list_cnt (stapriv d') =
    (if decide (o ∈ auth_list (stapriv d)) then u8 (auth_list_cnt (stapriv d) - 1) else auth_list_cnt (stapriv d)) /\
  length (sta_aid (stapriv d')) = length (sta_aid (stapriv d)) /\
  (forall i o', o' <> o -> sta_aid (stapriv d) !! i = Some (Some o') -> sta_aid (stapriv d') !! i = Some (Some o')).
Proof.
  intros Hs. unfold rtw_free_stainfo. rewrite Hs. destruct (rtw_release_macid _ _ _ _) as [mc i]. cbn.
  split_and!.
  - intros o' Hne. unfold entry. cbn. by apply nth_insert_ne.
  - case_bool_decide; [done|]. symmetry. by apply filter_absent.
  - by case_bool_decide; destruct (decide _).
  - destruct (_ && _); [by rewrite length_insert|done].
  - intros j o' Hne Hj. destruct (_ && _) eqn:E; [|done].
    apply andb_true_iff in E as [_ E]. apply bool_decide_eq_true in E.
    rewrite list_lookup_insert_ne; [done|]. intros <-. congruence.
Qed.

Lemma free_entry_addr my o d s : stas (stapriv d) !! o = Some s ->
  forall o', hwaddr (entry (rtw_free_stainfo my o d) o') = hwaddr (entry d o').
Proof.
  intros Hs o'. pose proof (free_addr my o d o') as HA. destruct (free_table my o d s Hs) as (s' & _ & E & _).
  destruct (decide (o' < length (stas (stapriv d)))%nat) as [Hl|Hl].
  - by rewrite !sta_addr_nth in HA by (by rewrite ?E, ?length_insert).
  - unfold entry. by rewrite !nth_overflow by (rewrite ?E, ?length_insert; lia).
Qed.

Lemma u8_len_dec {A} (l : list A) n : zlen l <= 32 -> n = zlen l -> 0 < zlen l -> u8 (n - 1) = zlen l - 1.
Proof. intros H -> H0. apply u8_id. lia. Qed.

Lemma nodup_small (l : list nat) : NoDup l -> (forall o, o ∈ l -> (o < 32)%nat) -> zlen l <= 32.
Proof.
  intros Hnd Hl. assert (length l <= length (seq 0 32))%nat as H.
  { apply submseteq_length, NoDup_submseteq; [done|]. intros o Ho. apply list_elem_of_In, in_seq. specialize (Hl o Ho). lia. }
  rewrite length_seq in H. unfold zlen. lia.
Qed.

Lemma filter_zlen (o : nat) l : NoDup l -> o ∈ l -> zlen (filter (fun x => x <> o) l) = zlen l - 1.
Proof. intros Hnd Ho. pose proof (Permutation_length (filter_remove o l Hnd Ho)). unfold zlen. cbn in H. lia. Qed.

Section inv.
Context (c : ap_cfg).

Lemma inv_used_lt X a o : ap_inv_but X a -> o ∈ used a -> (o < 32)%nat.
Proof. intros H Ho. apply (table_member _ o (ai_table _ _ H)). by right. Qed.

Lemma inv_entry X a o : ap_inv_but X a -> o ∈ used a -> exists s, stas (table a) !! o = Some s /\ sta_of a o = s.
Proof.
  intros H Ho. pose proof (inv_used_lt _ _ _ H Ho). pose proof (ti_stas _ (ai_table _ _ H)) as Hl. cbn in Hl.
  destruct (lookup_lt_is_Some_2 (stas (table a)) o ltac:(lia)) as [s Hs]. exists s. split; [done|].
  unfold sta_of. by rewrite nth_lookup, Hs.
Qed.

Lemma inv_used_nodup X a : ap_inv_but X a -> NoDup (used a).
Proof. intros H. pose proof (table_nodup _ (ai_table _ _ H)) as Hn. by apply list.NoDup_app in Hn as (_ & _ & Hn). Qed.

Lemma free_sta_inv X o a : o ∈ used a -> o ∉ asoc_list a -> ap_inv_but X a -> ap_inv_but X (free_sta c o a).
Proof.
  intros Ho Hno H. destruct (inv_entry _ _ _ H Ho) as (s & Hs & _).
  pose proof (inv_used_nodup _ _ H) as Hund. pose proof (inv_used_lt _ _ _ H Ho) as Hlt.
  destruct (free_entries (cmyid c) o (aad a) s Hs) as (E1 & E2 & E3 & E4 & E5).
  set (d' := rtw_free_stainfo (cmyid c) o (aad a)) in *. change (free_sta c o a) with (on_aad (fun _ => d') a).
  pose proof (free_inv (cmyid c) o (unlocked (aad a)) (ai_table _ _ H) Ho) as HT.
  rewrite free_unlocked in HT. fold d' in HT.
  assert (HU : forall o', o' ∈ concat (sta_hash (stapriv d')) <-> o' <> o /\ o' ∈ used a).
  { pose proof (free_members (cmyid c) o (unlocked (aad a)) (ai_table _ _ H) Hlt) as HM.
    rewrite free_unlocked in HM. exact HM. }
  assert (HP : Permutation (o :: concat (sta_hash (stapriv d'))) (used a)).
  { destruct (free_table (cmyid c) o (aad a) s Hs) as (_ & _ & _ & _ & E & _). unfold d'. rewrite E, hash_delete_concat.
    by apply filter_remove. }
  pose proof (free_entry_addr (cmyid c) o (aad a) s Hs : forall o', hwaddr (entry d' o') = addr_of a o') as HA.
  destruct H as [I1 I2 I3 I4 I5 I6 I7 I8 I9 I10].
  pose proof I4 as (N1 & N2 & N3)%list.NoDup_app.
  assert (HL : zlen (auth_list (table a)) <= 32).
  { apply nodup_small; [done|]. intros x Hx. apply (table_member _ x I1). right. apply I5. by left. }
  constructor; try done; change (table (on_aad (fun _ => d') a)) with (stapriv d');
    change (asoc_list (on_aad (fun _ => d') a)) with (asoc_list a); change (used (on_aad (fun _ => d') a)) with (concat (sta_hash (stapriv d'))).
  - rewrite E4. done.
  - rewrite E2. apply list.NoDup_app. split_and!; [by apply list.NoDup_filter| |done].
    intros x [_ Hx]%filter_elem. by apply N2.
  - intros x Hx. apply HU. rewrite E2, filter_elem in Hx. destruct Hx as [[? Hx]|Hx].
    + split; [done|]. apply I5. by left.
    + split; [by intros ->|]. apply I5. by right.
  - rewrite E3, E2. change (stapriv (aad a)) with (table a). destruct (decide (o ∈ auth_list (table a))) as [Hin|Hin].
    + rewrite filter_zlen by done. apply u8_len_dec; [done|done|].
      destruct (auth_list (table a)); [by apply elem_of_nil in Hin|]. rewrite zlen_cons. pose proof (zlen_nonneg l). lia.
    + by rewrite filter_absent.
  - intros x [Hne Hx]%HU Ha. change (sta_of (on_aad (fun _ => d') a) x) with (entry d' x) in *.
    rewrite E1 in * by done. destruct (I8 x Hx Ha) as [J1 J2]. split; [done|]. by apply E5.
  - intros x [Hne Hx]%HU HX Hm. unfold known, marked in *.
    change (addr_of (on_aad (fun _ => d') a) x) with (hwaddr (entry d' x)). rewrite HA.
    change (sta_of (on_aad (fun _ => d') a) x) with (entry d' x) in *. rewrite E1 in * by done. by apply I9.
  - intros k. specialize (I10 k). unfold excess in *. change (abss (on_aad (fun _ => d') a)) with (abss a).
    change (used (on_aad (fun _ => d') a)) with (concat (sta_hash (stapriv d'))).
    change (caps_of (on_aad (fun _ => d') a)) with (caps_of a).
    rewrite <- (tally_perm _ _ _ (caps_of a) HP) in I10. cbn [tally] in I10. destruct (flagged k _); cbn in I10; lia.
Qed.

(** Allocation: nothing but the lock changes when the table is full. *)
Lemma alloc_unlocked my i addr d : free_sta_queue (stapriv d) <> [] ->
  stapriv (rtw_alloc_stainfo my i addr (unlocked d)).1 = set_lock 0 (stapriv (rtw_alloc_stainfo my i addr d).1) /\
  (rtw_alloc_stainfo my i addr (unlocked d)).2 = (rtw_alloc_stainfo my i addr d).2.
Proof.
  intros Hne. destruct (free_sta_queue (stapriv d)) as [|o fr] eqn:Hfr; [done|].
  destruct (alloc_eq my i addr d o fr Hfr) as (j & mc & E0 & ->).
  destruct (alloc_eq my i addr (unlocked d) o fr Hfr) as (j' & mc' & E0' & ->).
  change (macid (unlocked d)) with (macid d) in E0'. rewrite E0 in E0'. by injection E0' as -> ->.
Qed.

Lemma alloc_full addr a : free_sta_queue (table a) = [] -> quiet a (alloc_sta c addr a).1 /\ (alloc_sta c addr a).2 = None.
Proof.
  intros Hfr. unfold alloc_sta, rtw_alloc_stainfo. cbn. unfold table in Hfr. rewrite Hfr. cbn. split; [|done].
  apply quiet_on_aad. constructor; try done. intros o. split_and!; [done..|]. by intros ?.
Qed.

Lemma alloc_sta_inv X addr a : ap_inv_but X a -> free_sta_queue (table a) <> [] ->
  exists o, (alloc_sta c addr a).2 = Some o /\ ap_inv_but X (alloc_sta c addr a).1 /\
    o ∈ used (alloc_sta c addr a).1 /\ (o ∉ used a) /\
    asoc_list (alloc_sta c addr a).1 = asoc_list a /\ alog (alloc_sta c addr a).1 = alog a.
Proof.
  intros H Hne. destruct (free_sta_queue (table a)) as [|o fr] eqn:Hfr; [done|].
  destruct (alloc_eq (cmyid c) (ciface c) addr (aad a) o fr Hfr) as (j & mc & E0 & E).
  pose proof (alloc_inv (cmyid c) (ciface c) addr (unlocked (aad a)) (ai_table _ _ H)) as HT.
  destruct (alloc_members (cmyid c) (ciface c) addr (unlocked (aad a)) o fr (ai_table _ _ H) Hfr) as (_ & Hni & Hmem & _ & _).
  destruct (alloc_unlocked (cmyid c) (ciface c) addr (aad a)) as [E1 E2]; [unfold table in Hfr; by rewrite Hfr|].
  specialize (HT ltac:(unfold unlocked; cbn; unfold table in Hfr; by rewrite Hfr)).
  rewrite E1 in *. rewrite E in *. cbn [fst snd] in *. clear E1 E2.
  unfold alloc_sta. rewrite E. cbn [fst snd].
  set (d' := mk_adapter _ mc _ _) in *. set (a1 := set_mlme _ _).
  assert (Ho32 : (o < 32)%nat). { apply (table_member _ o (ai_table _ _ H)). left. cbn. unfold table in *. rewrite Hfr. by left. }
  assert (Hni' : o ∉ used a) by exact Hni.
  assert (HU : forall o', o' ∈ used a1 <-> o' = o \/ o' ∈ used a) by exact Hmem.
  assert (HP : Permutation (used a1) (o :: used a)).
  { apply hash_insert_concat. pose proof (wifi_mac_hash_range addr). pose proof (ti_hash _ (ai_table _ _ H)) as Hh. cbn in Hh.
    unfold zlen. change (sta_hash (stapriv (aad a))) with (sta_hash (table a)). lia. }
  pose proof (ti_stas _ (ai_table _ _ H)) as Hl. cbn in Hl.
  assert (HE : forall o', o' <> o -> sta_of a1 o' = sta_of a o').
  { intros o' Hne'. unfold sta_of. apply nth_insert_ne. by intros ->. }
  destruct H as [I1 I2 I3 I4 I5 I6 I7 I8 I9 I10].
  exists o. split; [done|]. split; [|split_and!; [apply HU; by left|done..]].
  constructor; try done.
  - unfold a1. cbn. by rewrite length_insert.
  - intros x Hx. apply HU. right. by apply I5.
  - intros x Hx Ha. destruct (decide (x = o)) as [->|Hne'].
    + exfalso. unfold sta_of, a1, table in Ha. cbn in Ha. rewrite nth_insert_eq in Ha by (unfold table in Hl; lia). cbn in Ha. lia.
    + apply HU in Hx as [|Hx]; [done|]. rewrite HE in * by done. by apply I8.
  - intros x Hx HX Hm. destruct (decide (x = o)) as [->|Hne'].
    + exfalso. destruct Hm as [Hm|Hm]; [|apply Hni', I5; by right].
      unfold marked, sta_of, a1, table in Hm. cbn in Hm. rewrite nth_insert_eq in Hm by (unfold table in Hl; lia). done.
    + apply HU in Hx as [|Hx]; [done|]. unfold known, marked, addr_of in *. rewrite HE in * by done. by apply I9.
  - intros k. specialize (I10 k). unfold excess in *. rewrite (tally_perm _ _ _ _ HP). cbn [tally].
    change (abss a1) with (abss a). change (caps_of a1) with (map caps (<[o := init_mlme]> (mlme a))).
    rewrite list_fmap_insert. fold (caps_of a). rewrite tally_out by done.
    rewrite nth_insert_eq by (unfold caps_of; rewrite length_map; lia). by destruct k.
Qed.

(** The lists of stations. *)
Lemma inv_counts_lists X a : ap_inv_but X a -> zlen (auth_list (table a)) <= 32 /\ zlen (asoc_list a) <= 32.
Proof.
  intros H. pose proof (ai_lists _ _ H) as (N1 & _ & N3)%list.NoDup_app.
  split; apply nodup_small; try done; intros o Ho; apply (inv_used_lt _ _ _ H), (ai_used _ _ H); auto.
Qed.

Lemma used_small X a (l : list nat) : ap_inv_but X a -> NoDup l -> (forall o, o ∈ l -> o ∈ used a) -> zlen l <= 32.
Proof. intros H Hn Hl. apply nodup_small; [done|]. intros o Ho. by eapply inv_used_lt, Hl. Qed.

Lemma unlink_asoc_inv X o a : ap_inv_but X a -> ap_inv_but X (unlink_asoc o a).
Proof.
  intros H. unfold unlink_asoc. destruct (decide _) as [Ho|]; [|done].
  pose proof (inv_counts_lists _ _ H) as [_ HL]. destruct H as [I1 I2 I3 I4 I5 I6 I7 I8 I9 I10].
  pose proof I4 as (N1 & N2 & N3)%list.NoDup_app. constructor; try done; cbn [asoc_list asoc_list_cnt set_asoc].
  - apply list.NoDup_app. split_and!; [done| |by apply list.NoDup_filter]. intros x Hx [_ Hx']%filter_elem. by eapply N2.
  - intros x [Hx|[_ Hx]%filter_elem]; apply I5; auto.
  - rewrite filter_zlen by done. apply u8_len_dec; [done|done|].
    destruct (asoc_list a); [by apply elem_of_nil in Ho|]. rewrite zlen_cons. pose proof (zlen_nonneg l). lia.
  - intros x Hx HX [Hm|[_ Hm]%filter_elem]; apply I9; auto.
Qed.

Lemma unlink_asoc_out o a : o ∉ asoc_list (unlink_asoc o a).
Proof. unfold unlink_asoc. destruct (decide _) as [|Hn]; [|done]. cbn. by intros [? _]%filter_elem. Qed.

Lemma link_asoc_inv X o a : ap_inv_but X a -> o ∈ used a -> o ∉ auth_list (table a) -> o ∉ asoc_list a ->
  known a o -> ap_inv_but X (link_asoc o a).
Proof.
  intros H Ho Hna Hns Hk. pose proof H as [I1 I2 I3 I4 I5 I6 I7 I8 I9 I10].
  pose proof I4 as (N1 & N2 & N3)%list.NoDup_app.
  assert (NoDup (asoc_list a ++ [o])) as N4.
  { apply list.NoDup_app. split_and!; [done| |apply NoDup_singleton]. by intros x Hx ->%list_elem_of_singleton. }
  constructor; try done; cbn [asoc_list asoc_list_cnt set_asoc link_asoc].
  - apply list.NoDup_app. split_and!; [done| |done].
    intros x Hx [Hx'| ->%list_elem_of_singleton]%elem_of_app; [by eapply N2|done].
  - intros x [Hx|[Hx| ->%list_elem_of_singleton]%elem_of_app]; [by apply I5; left|by apply I5; right|done].
  - assert (zlen (asoc_list a ++ [o]) <= 32) as HL.
    { eapply used_small; [exact H|done|]. intros x [Hx| ->%list_elem_of_singleton]%elem_of_app; [by apply I5; right|done]. }
    rewrite zlen_app in *. change (zlen [o]) with 1 in *. pose proof (zlen_nonneg (asoc_list a)).
    rewrite I7. apply u8_id. lia.
  - intros x Hx HX [Hm|[Hm| ->%list_elem_of_singleton]%elem_of_app]; [by apply I9; auto|by apply I9; auto|done].
Qed.

Lemma link_auth_inv X o a : ap_inv_but X a -> o ∈ used a -> o ∉ asoc_list a -> ap_inv_but X (link_auth o a).
Proof.
  intros H Ho Hns. unfold link_auth. destruct (decide _) as [|Hna]; [done|].
  pose proof H as [I1 I2 I3 I4 I5 I6 I7 I8 I9 I10]. pose proof I4 as (N1 & N2 & N3)%list.NoDup_app.
  assert (NoDup (auth_list (table a) ++ [o])) as N4.
  { apply list.NoDup_app. split_and!; [done| |apply NoDup_singleton]. by intros x Hx ->%list_elem_of_singleton. }
  set (a1 := upd_table _ a). assert (auth_list (table a1) = auth_list (table a) ++ [o]) as E1 by done.
  assert (auth_list_cnt (table a1) = u8 (auth_list_cnt (table a) + 1)) as E2 by done.
  constructor; try done; rewrite ?E1, ?E2; [by apply (table_inv_same (table a))|..].
  - apply list.NoDup_app. split_and!; [done| |done].
    intros x [Hx| ->%list_elem_of_singleton]%elem_of_app; [by apply N2|done].
  - intros x [[Hx| ->%list_elem_of_singleton]%elem_of_app|Hx]; [by apply I5; left|done|by apply I5; right].
  - assert (zlen (auth_list (table a) ++ [o]) <= 32) as HL.
    { eapply used_small; [exact H|done|]. intros x [Hx| ->%list_elem_of_singleton]%elem_of_app; [by apply I5; left|done]. }
    rewrite zlen_app in *. change (zlen [o]) with 1 in *. pose proof (zlen_nonneg (auth_list (table a))).
    rewrite I6. apply u8_id. lia.
Qed.

Lemma unlink_auth_inv X o a : ap_inv_but X a -> ap_inv_but X (unlink_auth o a).
Proof.
  intros H. unfold unlink_auth. destruct (decide _) as [Ho|]; [|done].
  pose proof (inv_counts_lists _ _ H) as [HL _]. pose proof H as [I1 I2 I3 I4 I5 I6 I7 I8 I9 I10].
  pose proof I4 as (N1 & N2 & N3)%list.NoDup_app.
  set (a1 := upd_table _ a). assert (auth_list (table a1) = filter (fun x => x <> o) (auth_list (table a))) as E1 by done.
  assert (auth_list_cnt (table a1) = u8 (auth_list_cnt (table a) - 1)) as E2 by done.
  constructor; try done; rewrite ?E1, ?E2; [by apply (table_inv_same (table a))|..].
  - apply list.NoDup_app. split_and!; [by apply list.NoDup_filter| |done]. intros x [_ Hx]%filter_elem. by apply N2.
  - intros x [[_ Hx]%filter_elem|Hx]; apply I5; auto.
  - rewrite filter_zlen by done. apply u8_len_dec; [done|done|].
    destruct (auth_list (table a)); [by apply elem_of_nil in Ho|]. rewrite zlen_cons. pose proof (zlen_nonneg l). lia.
Qed.

Lemma unlink_auth_out o a : o ∉ auth_list (table (unlink_auth o a)).
Proof.
  unfold unlink_auth. destruct (decide _) as [|Hn]; [|done].
  change (o ∉ filter (fun x => x <> o) (auth_list (table a))). by intros [? _]%filter_elem.
Qed.

(** ** Stations joining and leaving *)

Lemma entry_upd o g d o' : entry (upd_sta o g d) o' =
  if decide (o = o') then if decide (o < length (stas (stapriv d)))%nat then g (entry d o') else entry d o' else entry d o'.
Proof.
  unfold entry. cbn. destruct (decide (o < length (stas (stapriv d)))%nat) as [Ho|Ho].
  - by rewrite nth_alter.
  - rewrite alter_out by lia. by destruct (decide _).
Qed.

Lemma quiet_caps o p b a : NoDup (used a) -> o ∈ used a -> (o < length (mlme a))%nat ->
  balanced (caps (mlme_of a o)) p (abss a) b -> quiet a (set_bss b (upd_mlme o (set_caps p) a)).
Proof.
  intros Hnd Ho Hl Hb. constructor; try done; [by apply length_alter| |by exists []; rewrite app_nil_r].
  intros k. unfold excess. change (abss (set_bss b (upd_mlme o (set_caps p) a))) with b.
  change (used (set_bss b (upd_mlme o (set_caps p) a))) with (used a).
  assert (caps_of (set_bss b (upd_mlme o (set_caps p) a)) = <[o := p]> (caps_of a)) as ->.
  { unfold caps_of. cbn. destruct (lookup_lt_is_Some_2 (mlme a) o Hl) as [m Hm].
    rewrite <- (list_insert_id (alter (set_caps p) o (mlme a)) o (set_caps p m)) by by rewrite list_lookup_alter_eq, Hm.
    rewrite list_fmap_insert. apply list_eq. intros i. destruct (decide (i = o)) as [->|Hne].
    - rewrite !list_lookup_insert_eq; [done|by rewrite length_map|by rewrite length_map, length_alter].
    - by rewrite !list_lookup_insert_ne, !list_lookup_fmap, list_lookup_alter_ne by done. }
  rewrite tally_in by (done || unfold caps_of; by rewrite length_map). rewrite caps_nth. specialize (Hb k). lia.
Qed.

(** An entry of the table changes, its address and id apart. *)
Lemma upd_sta_inv X o g a : ap_inv_but X a ->
  hwaddr (g (sta_of a o)) = addr_of a o -> aid (g (sta_of a o)) = aid (sta_of a o) ->
  (has MARKS (state (g (sta_of a o))) = true -> marked a o \/ known a o \/ X = Some o) ->
  ap_inv_but X (on_aad (upd_sta o g) a).
Proof.
  intros H Hh Hd Hg. set (a1 := on_aad (upd_sta o g) a).
  destruct H as [I1 I2 I3 I4 I5 I6 I7 I8 I9 I10].
  assert (HE : forall x, sta_of a1 x = if decide (o = x) then
    if decide (o < length (stas (table a)))%nat then g (sta_of a x) else sta_of a x else sta_of a x).
  { intros x. exact (entry_upd o g (aad a) x). }
  assert (HA : forall x, addr_of a1 x = addr_of a x /\ aid (sta_of a1 x) = aid (sta_of a x)).
  { intros x. unfold addr_of. rewrite HE. destruct (decide (o = x)) as [<-|]; [|done]. by destruct (decide _). }
  assert (HL : length (stas (table a1)) = length (stas (table a))) by apply length_alter.
  constructor; try done.
  - apply (table_inv_same (table a)); try done. intros x.
    destruct (decide (x < length (stas (table a)))%nat) as [Hx|Hx].
    + rewrite !sta_addr_nth by (by rewrite ?HL). apply (HA x).
    + unfold sta_addr. by rewrite !lookup_ge_None_2 by (rewrite ?HL; lia).
  - intros x Hx. destruct (HA x) as [_ ->]. by apply I8.
  - intros x Hx HX Hm. unfold known. destruct (HA x) as [-> _].
    destruct Hm as [Hm|Hm]; [|by apply I9; auto]. unfold marked in Hm. rewrite HE in Hm.
    destruct (decide (o = x)) as [<-|]; [|by apply I9; auto]. destruct (decide _); [|by apply I9; auto].
    destruct (Hg Hm) as [Hm'|[Hk|Hk]]; [by apply I9; auto|done|congruence].
Qed.
Lemma upd_state_inv X o g a : ap_inv_but X a ->
  (has MARKS (g (state (sta_of a o))) = true -> marked a o \/ known a o \/ X = Some o) ->
  ap_inv_but X (upd_state o g a).
Proof. intros H Hg. by apply upd_sta_inv. Qed.

Lemma quiet_expire o g a : quiet a (upd_expire o g a).
Proof. apply quiet_on_aad. calm_fields. Qed.

Lemma quiet_clients u a : quiet a (associated_clients_update c u a).
Proof.
  unfold associated_clients_update. destruct u; [|done]. generalize (asoc_list a) as os. intros os.
  revert a. induction os as [|o os IH]; intros a; cbn; [done|]. etransitivity; [|apply IH].
  by apply quiet_upd_mlme.
Qed.

(** The goal, an invariant after a quiet step, becomes the invariant before it. *)
Ltac back := eapply quiet_inv;
  [first [apply quiet_say|apply quiet_expire|apply quiet_clients|apply quiet_sec|by apply quiet_upd_mlme]|].

Lemma ap_free_sta_inv X o active reason a a' u : ap_inv_but X a -> o ∈ used a -> o ∉ asoc_list a ->
  ap_free_sta c o active reason a = Done (a', u) ->
  ap_inv_but X a' /\ asoc_list a' = asoc_list a.
Proof.
  intros H Ho Hno. unfold ap_free_sta. cbv zeta.
  set (a1 := if active then _ else a). set (a2 := say _ (upd_state _ _ _)).
  intros ([[p b] u'] & E & [= <- <-])%res_bind_Done.
  assert (H1 : ap_inv_but X a1 /\ used a1 = used a /\ asoc_list a1 = asoc_list a).
  { unfold a1. destruct active; [|done]. split; [|done]. by do 3 back. }
  destruct H1 as (H1 & U1 & L1).
  assert (H2 : ap_inv_but X a2 /\ used a2 = used a /\ asoc_list a2 = asoc_list a).
  { split; [|done]. unfold a2. back. apply upd_state_inv.
    - by do 2 back.
    - intros Hm%has_ldiff. by left. }
  destruct H2 as (H2 & U2 & L2). apply leave_balanced in E as [Hb _].
  assert (Q : quiet a2 (set_bss b (upd_mlme o (set_caps p) a2))).
  { apply quiet_caps; [by eapply inv_used_nodup|by rewrite U2| |done].
    rewrite (ai_mlme _ _ H2). eapply inv_used_lt; [exact H2|by rewrite U2]. }
  split; [|exact L2]. apply free_sta_inv; [|change (o ∉ asoc_list a2); by rewrite L2|by eapply quiet_inv].
  rewrite (quiet_used _ _ Q). by rewrite U2.
Qed.

Lemma expel_inv X o active reason a a' u : ap_inv_but X a -> expel c o active reason a = Done (a', u) ->
  ap_inv_but X a' /\ asoc_list a' = filter (fun x => x <> o) (asoc_list a).
Proof.
  intros H. unfold expel. destruct (decide _) as [Ho|Hno].
  - intros E. apply (ap_free_sta_inv X) in E as [H' L]; [|by apply unlink_asoc_inv| |apply unlink_asoc_out].
    + split; [done|]. rewrite L. unfold unlink_asoc. by destruct (decide _).
    + unfold unlink_asoc. destruct (decide _); apply (ai_used _ _ H); by right.
  - intros [= <- <-]. split; [done|]. symmetry. by apply filter_absent.
Qed.

Lemma sta_left_inv X sa reason a a' : ap_inv_but X a -> sta_left c sa reason a = Done a' -> ap_inv_but X a'.
Proof.
  intros H. unfold sta_left. destruct (rtw_get_stainfo _ sa) as [o|]; [|by intros [= <-]].
  intros ([a1 u] & E & [= <-])%res_bind_Done. apply (expel_inv X) in E as [H1 _]; [|done]. by back.
Qed.

Lemma OnDeAuth_inv X f a a' r : ap_inv_but X a -> OnDeAuth c f a = Done (a', r) -> ap_inv_but X a'.
Proof.
  intros H. unfold OnDeAuth. intros (a3 & _ & E)%res_bind_Done. destruct (negb _); [by simplify_eq|].
  apply res_bind_Done in E as (reason & _ & E). destruct (is_ap c).
  - apply res_bind_Done in E as (sa & _ & E). apply res_bind_Done in E as (a1 & E & [= <- _]).
    by eapply sta_left_inv.
  - simplify_eq. destruct (_ && _); [done|]. by back.
Qed.

Lemma OnDisassoc_inv X f a a' r : ap_inv_but X a -> OnDisassoc c f a = Done (a', r) -> ap_inv_but X a'.
Proof.
  intros H. unfold OnDisassoc. intros (a3 & _ & E)%res_bind_Done. destruct (negb _); [by simplify_eq|].
  apply res_bind_Done in E as (reason & _ & E). destruct (is_ap c).
  - apply res_bind_Done in E as (sa & _ & E). apply res_bind_Done in E as (a1 & E & [= <- _]).
    by eapply sta_left_inv.
  - simplify_eq. by back.
Qed.

Lemma flush_loop_inv X os : forall a a', ap_inv_but X a -> flush_loop c os a = Done a' -> ap_inv_but X a'.
Proof.
  induction os as [|o os IH]; intros a a' H E; cbn in E; [by simplify_eq|].
  apply res_bind_Done in E as ([a2 u] & E2 & E). apply (expel_inv X) in E2 as [H2 _]; [|done]. by eapply IH.
Qed.

Lemma rtw_sta_flush_inv X a a' : ap_inv_but X a -> rtw_sta_flush c a = Done a' -> ap_inv_but X a'.
Proof.
  intros H. unfold rtw_sta_flush. destruct (negb _); [by intros [= <-]|].
  intros (a1 & E & [= <-])%res_bind_Done. apply (flush_loop_inv X) in E; [|done].
  exact (quiet_inv X _ _ (quiet_trans _ _ _ (quiet_say (IssueDeauth bc_addr WLAN_REASON_DEAUTH_LEAVING) a1) (quiet_clients true _)) E).
Qed.

(** ** Authentication *)

Lemma get_used a sa o : rtw_get_stainfo (table a) sa = Some o -> o ∈ used a.
Proof. by intros [H _]%get_sound. Qed.

Lemma auth_decrypt_quiet f a f' off a' : auth_decrypt f a = Done (f', off, a') -> quiet a a'.
Proof.
  unfold auth_decrypt. intros (fc & _ & E)%res_bind_Done. destruct (has _ fc); [|by simplify_eq].
  apply res_bind_Done in E as (iv & _ & E). apply res_bind_Done in E as ([[f1 g] s] & _ & E).
  simplify_eq. apply quiet_sec.
Qed.

Lemma alloc_inv_both addr a : ap_inv a ->
  let '(a', r) := alloc_sta c addr a in
  ap_inv a' /\ asoc_list a' = asoc_list a /\ (forall o, r = Some o -> o ∈ used a' /\ (o ∉ used a)).
Proof.
  intros H. destruct (free_sta_queue (table a)) eqn:Hf.
  - destruct (alloc_full addr a Hf) as [Q E]. destruct (alloc_sta c addr a) as [a' r]. cbn in *. subst r.
    split_and!; [by eapply quiet_inv|apply Q|done].
  - destruct (alloc_sta_inv None addr a H) as (o & E & H' & U & N & L & _); [by rewrite Hf|].
    destruct (alloc_sta c addr a) as [a' r]. cbn in *. subst r. split_and!; [done|done|]. by intros ? [= <-].
Qed.

(** The station of the frame is in the table and not associated. *)
Definition candidate (a : ap) (o : nat) : Prop := o ∈ used a /\ (o ∉ asoc_list a).

Lemma quiet_candidate a a' o : quiet a a' -> candidate a o -> candidate a' o.
Proof. intros Hq [H1 H2]. split; [by rewrite (quiet_used _ _ Hq)|]. destruct Hq as [_ [-> _] _ _ _]. done. Qed.

Lemma auth_station_inv sa a a' r : ap_inv a -> auth_station c sa a = (a', r) ->
  ap_inv a' /\ match r with Some o => candidate a' o | None => True end.
Proof.
  intros H. unfold auth_station.
  assert (Hk : forall a1 o, ap_inv a1 -> candidate a1 o ->
    let a2 := link_auth o a1 in
    let a3 := if auth_seq (mlme_of a2 o) =? 0 then upd_expire o (fun _ => cauth_to c) a2 else a2 in
    ap_inv a3 /\ candidate a3 o).
  { intros a1 o H1 [U1 N1] a2 a3.
    assert (ap_inv a2 /\ candidate a2 o) as [H2 C2].
    { split; [by apply link_auth_inv|]. unfold a2, link_auth. by destruct (decide _). }
    unfold a3. destruct (_ =? 0); [|done]. split; [by back|by eapply quiet_candidate; [apply quiet_expire|]]. }
  destruct (rtw_get_stainfo (table a) sa) as [o|] eqn:Eg.
  - intros [= <- <-]. apply Hk; [by apply unlink_asoc_inv|]. split; [|apply unlink_asoc_out].
    unfold unlink_asoc. destruct (decide _); by eapply get_used.
  - pose proof (alloc_inv_both sa a H) as Ha. destruct (alloc_sta c sa a) as [a1 [o|]]; [|intros [= <- <-]; by destruct Ha].
    destruct Ha as (H1 & L1 & Hr). destruct (Hr o eq_refl) as [U1 N1].
    intros [= <- <-]. apply Hk.
    + back. by apply upd_state_inv.
    + split; [exact U1|]. change (o ∉ asoc_list a1). rewrite L1. intros Hin. apply N1, (ai_used _ _ H). by right.
Qed.

(** The message after which the station counts as authenticated. *)
Definition last_message (seq : Z) (m : sta_mlme) : Prop := seq = 1 /\ authalg m = 0 \/ seq = 3.

Lemma mlme_upd_eq X o g a : ap_inv_but X a -> o ∈ used a -> mlme_of (upd_mlme o g a) o = g (mlme_of a o).
Proof.
  intros H Ho. rewrite mlme_upd, decide_True by done. rewrite decide_True; [done|].
  rewrite (ai_mlme _ _ H). by eapply inv_used_lt.
Qed.

Lemma inv_weaken o a : ap_inv a -> ap_inv_but (Some o) a.
Proof. intros [I1 I2 I3 I4 I5 I6 I7 I8 I9 I10]. constructor; try done. intros x Hx _ Hm. by apply I9. Qed.
Lemma inv_strengthen o a : ap_inv_but (Some o) a -> known a o -> ap_inv a.
Proof.
  intros [I1 I2 I3 I4 I5 I6 I7 I8 I9 I10] Hk. constructor; try done. intros x Hx _ Hm.
  destruct (decide (x = o)) as [->|]; [done|]. apply I9; [done|congruence|done].
Qed.

Lemma has_lor m x y : has m (x .| y) = has m x || has m y.
Proof.
  unfold has. rewrite Z.land_lor_distr_l. destruct (Z.eqb_spec (x .& m) 0) as [->|Hx], (Z.eqb_spec (y .& m) 0) as [->|Hy]; cbn; [done| | |];
    apply negb_true_iff, Z.eqb_neq; intros [? ?]%Z.lor_eq_0_iff; done.
Qed.

Lemma auth_message_inv m len o mode alg seq a a' status : ap_inv a -> candidate a o ->
  auth_message c m len o mode alg seq a = Done (a', status) ->
  candidate a' o /\ (ap_inv a' \/ status = _STATS_SUCCESSFUL_ /\ ap_inv_but (Some o) a' /\ last_message seq (mlme_of a' o)).
Proof.
  intros H Hc. unfold auth_message. destruct (negb _); [intros [= <- <-]; auto|].
  destruct ((alg =? 0) && _) eqn:Ho.
  - apply andb_true_iff in Ho as [->%Z.eqb_eq _]. destruct (Z.eqb_spec seq 1) as [->|]; [|intros [= <- <-]; auto].
    intros [= <- <-]. set (a1 := upd_expire o _ _). assert (ap_inv_but (Some o) a1) as H1.
    { unfold a1. back. apply upd_state_inv; [by apply inv_weaken|by auto]. }
    split; [exact Hc|]. right. split; [done|]. split; [by back|]. left. by rewrite (mlme_upd_eq _ _ _ _ H1) by apply Hc.
  - destruct (Z.eqb_spec seq 1) as [->|].
    + intros [= <- <-]. split; [exact Hc|]. left. back. apply upd_state_inv; [done|]. rewrite has_lor.
      intros [Hm|Hm]%orb_true_iff; [|done]. left. by eapply has_ldiff.
    + destruct (Z.eqb_spec seq 3) as [->|]; [|intros [= <- <-]; auto].
      intros ([[p|] ie_len] & _ & E)%res_bind_Done; [|simplify_eq; auto].
      destruct (ie_len =? 0); [simplify_eq; auto|]. apply res_bind_Done in E as (same & _ & E).
      destruct same; [|simplify_eq; auto]. simplify_eq. split; [exact Hc|]. right. split; [done|].
      split; [|by right]. back. apply upd_state_inv; [by apply inv_weaken|by auto].
Qed.

Lemma auth_reply_inv o seq a : candidate a o ->
  ap_inv a \/ ap_inv_but (Some o) a /\ last_message seq (mlme_of a o) -> ap_inv (auth_reply o seq a).
Proof.
  intros [Ho _] H. unfold auth_reply. set (a1 := upd_mlme o _ a). set (a2 := say _ a1).
  assert (ap_inv a2) as H2.
  { destruct H as [H|[H Hl]]; [by do 2 back|]. apply (inv_strengthen o); [by do 2 back|].
    assert (mlme_of a1 o = set_auth_seq (u32 (seq + 1)) (mlme_of a o)) as E1 by by eapply mlme_upd_eq.
    change (admitted (addr_of a1 o) (alog a1 ++ [issue_auth (addr_of a1 o) (mlme_of a1 o) (state (sta_of a1 o)) 0])).
    rewrite E1. generalize (state (sta_of a1 o)) as st, (addr_of a1 o) as addr. intros st addr. unfold issue_auth.
    destruct Hl as [[-> Hl]| ->]; cbn [auth_seq authalg set_auth_seq set_auth]; rewrite ?Hl.
    - exists 0, 2. split; [|by left]. apply elem_of_app. right. apply list_elem_of_singleton.
      by rewrite andb_false_r.
    - eexists _, 4. split; [|by right]. apply elem_of_app. right. by apply list_elem_of_singleton. }
  destruct (has _ _); [by back|done].
Qed.

Lemma OnAuth_inv f a a' r : ap_inv a -> OnAuth c f a = Done (a', r) -> ap_inv a'.
Proof.
  intros H. unfold OnAuth. destruct (negb _); [by intros [= <- <-]|].
  intros (sa & _ & E)%res_bind_Done. apply res_bind_Done in E as ([[f1 off] a1] & Ed & E).
  assert (ap_inv a1) as H1 by by eapply quiet_inv; [eapply auth_decrypt_quiet|].
  apply res_bind_Done in E as (alg & _ & E). apply res_bind_Done in E as (seq & _ & E).
  assert (Hf : forall st, ap_inv (auth_fail c None sa st a1).1) by (intros st; by back).
  destruct (_ || _); [simplify_eq; apply Hf|]. destruct (negb _); [simplify_eq; apply Hf|].
  destruct (auth_station c sa a1) as [a2 [o|]] eqn:Es; apply auth_station_inv in Es as [H2 Hc]; try done.
  - apply res_bind_Done in E as ([a3 status] & Em & E). apply auth_message_inv in Em as [Hc3 Hm]; try done.
    destruct (Z.eqb_spec status _STATS_SUCCESSFUL_) as [->|Hs]; simplify_eq.
    + apply auth_reply_inv; [done|]. destruct Hm as [|(_ & ? & ?)]; auto.
    + destruct Hm as [Hm|[? _]]; [|done]. unfold auth_fail. back. by apply free_sta_inv; [apply Hc3..|].
  - simplify_eq. by back.
Qed.

(** ** Expiry *)

Lemma expire_auth_inv o os a : ap_inv a -> NoDup (o :: os) -> (forall x, x ∈ o :: os -> x ∈ auth_list (table a)) ->
  ap_inv (expire_auth c o a) /\ (forall x, x ∈ os -> x ∈ auth_list (table (expire_auth c o a))) /\
  asoc_list (expire_auth c o a) = asoc_list a.
Proof.
  intros H [Hno _]%list.NoDup_cons Hin. unfold expire_auth.
  destruct (0 <? _); [|split_and!; [done| |done]; intros x Hx; apply Hin; by right].
  set (a1 := upd_expire _ _ _). assert (ap_inv a1) as H1 by by back.
  destruct (_ =? 0); [|split_and!; [done| |done]; intros x Hx; apply Hin; by right].
  assert (o ∈ auth_list (table a1)) as Ho by (apply Hin; by left).
  pose proof (unlink_auth_inv None o a1 H1) as H2.
  assert (o ∈ used (unlink_auth o a1)) as Hu.
  { unfold unlink_auth. destruct (decide _); apply (ai_used _ _ H1); by left. }
  assert (asoc_list (unlink_auth o a1) = asoc_list a) as L by (unfold unlink_auth; by destruct (decide _)).
  assert (o ∉ asoc_list (unlink_auth o a1)) as Hn.
  { rewrite L. pose proof (ai_lists _ _ H1) as (_ & N & _)%list.NoDup_app. by apply N. }
  split_and!; [by apply free_sta_inv| |by rewrite <- L].
  intros x Hx. destruct (inv_entry _ _ _ H2 Hu) as (s & Hs & _).
  destruct (free_entries (cmyid c) o (aad (unlink_auth o a1)) s Hs) as (_ & E2 & _).
  change (x ∈ auth_list (stapriv (rtw_free_stainfo (cmyid c) o (aad (unlink_auth o a1))))). rewrite E2, filter_elem.
  assert (x <> o) as Hne by by intros ->. split; [done|]. unfold unlink_auth. rewrite decide_True by done.
  change (x ∈ filter (fun y => y <> o) (auth_list (table a1))). rewrite filter_elem. split; [done|].
  apply Hin. by right.
Qed.

Lemma expire_auths_inv os : forall a, ap_inv a -> NoDup os -> (forall x, x ∈ os -> x ∈ auth_list (table a)) ->
  ap_inv (fold_left (fun a o => expire_auth c o a) os a) /\
  asoc_list (fold_left (fun a o => expire_auth c o a) os a) = asoc_list a.
Proof.
  induction os as [|o os IH]; intros a H Hnd Hin; cbn; [done|].
  destruct (expire_auth_inv o os a H Hnd Hin) as (H1 & Hin1 & L). apply list.NoDup_cons in Hnd as [_ Hnd].
  destruct (IH _ H1 Hnd Hin1) as [H2 L2]. split; [done|]. by rewrite L2.
Qed.

Lemma filter_rest (o : nat) (os l : list nat) : (o ∉ os) -> (forall x, x ∈ o :: os -> x ∈ l) ->
  forall x, x ∈ os -> x ∈ filter (fun y => y <> o) l.
Proof. intros Hno Hin x Hx. rewrite filter_elem. split; [by intros ->|]. apply Hin. by right. Qed.

(** Every station but [o] that was associated is still. *)
Definition others_stay (o : nat) (a a' : ap) : Prop :=
  asoc_list a' = asoc_list a \/ asoc_list a' = filter (fun x => x <> o) (asoc_list a).

Lemma asleep_inv o a b : ap_inv a -> o ∈ asoc_list a ->
  let a1 := upd_state o (fun st => st .| WIFI_STA_ALIVE_CHK_STATE) (upd_expire o (fun _ => cexpire_to c) a) in
  let a2 := on_aad (upd_tim (set_bit (aid (sta_of a1 o)))) a1 in
  counts b = counts (abss a2) -> ap_inv (set_bss b a2).
Proof.
  intros H Ho a1 a2 Hb. eapply quiet_inv; [by apply quiet_bss|].
  eapply quiet_inv; [apply quiet_on_aad, calm_bitmaps|]. assert (ap_inv (upd_expire o (fun _ => cexpire_to c) a)) as H1 by by back.
  apply upd_state_inv; [done|]. intros _. right. left. apply (ai_known _ _ H1); [|done|by right].
  apply (ai_used _ _ H1). by right.
Qed.

Lemma expire_asoc_inv alive o u a a' u' ask : ap_inv a -> o ∈ asoc_list a ->
  expire_asoc c alive o u a = Done (a', u', ask) -> ap_inv a' /\ others_stay o a a'.
Proof.
  intros H Ho. unfold expire_asoc. set (a1 := if _ : bool then _ else upd_expire o (fun n => n - 1) a). cbv zeta.
  assert (ap_inv a1 /\ asoc_list a1 = asoc_list a) as [H1 L1].
  { unfold a1. destruct (_ || _); (split; [|done]); [by do 2 back|by back]. }
  clearbody a1.
  destruct (_ =? 0).
  - destruct (cwifi_spec c); [intros [= <- <- <-]; split; [by back|by left]|].
    set (asleep := has _ _ && _). intros (a2 & E2 & E)%res_bind_Done.
    assert (ap_inv a2 /\ asoc_list a2 = asoc_list a1) as [H2 L2].
    { destruct asleep; [|by simplify_eq]. apply res_bind_Done in E2 as (b & Eb & [= <-]).
      split; [|done]. apply asleep_inv; [done|by rewrite L1|]. by eapply update_beacon_counts. }
    rewrite L1 in L2. destruct (asleep && _); [simplify_eq; split; [done|by left]|].
    destruct (cactive_keep_alive c); [simplify_eq; split; [done|by left]|].
    apply res_bind_Done in E as ([a3 u3] & E & [= <- <- <-]). apply (expel_inv None) in E as [H3 L3]; [|done].
    split; [done|]. right. by rewrite L3, L2.
  - destruct (_ && _); intros [= <- <- <-]; (split; [|by left]); [|done].
    eapply quiet_inv; [apply quiet_aw, calm_wakeup|done].
Qed.

Lemma expire_asocs_inv alive os : forall chk u a a' chk' u', ap_inv a -> NoDup os ->
  (forall x, x ∈ os -> x ∈ asoc_list a) -> expire_asocs c alive os chk u a = Done (a', chk', u') -> ap_inv a'.
Proof.
  induction os as [|o os IH]; intros chk u a a' chk' u' H Hnd Hin E; cbn in E; [by simplify_eq|].
  apply res_bind_Done in E as ([[a1 u1] ask] & E1 & E). apply list.NoDup_cons in Hnd as [Hno Hnd].
  apply expire_asoc_inv in E1 as [H1 L1]; [|done|apply Hin; by left].
  eapply IH; [exact H1|done| |exact E]. destruct L1 as [-> | ->]; [|by apply filter_rest].
  intros x Hx. apply Hin. by right.
Qed.

Lemma keep_alive_inv acks o u a a' u' : ap_inv a -> keep_alive c acks o u a = Done (a', u') -> ap_inv a'.
Proof.
  intros H. unfold keep_alive. cbv zeta. destruct (_ =? 0); [by intros [= <- <-]|].
  set (a1 := upd_mlme o (fun m => set_trycnt (u8 _) m) _). assert (ap_inv a1) as H1 by by do 2 back.
  clearbody a1. destruct (acks o); [intros [= <- <-]; by do 2 back|].
  destruct (_ <=? 3); [intros [= <- <-]; by back|]. set (a2 := upd_mlme o _ a1). assert (ap_inv a2) as H2 by by back.
  destruct (decide _); [|by intros [= <- <-]]. intros E. by apply (expel_inv None) in E as [? _].
Qed.

Lemma keep_alives_inv acks os : forall u a a' u', ap_inv a -> keep_alives c acks os u a = Done (a', u') -> ap_inv a'.
Proof.
  induction os as [|o os IH]; intros u a a' u' H E; cbn in E; [by simplify_eq|].
  apply res_bind_Done in E as ([a1 u1] & E1 & E). apply keep_alive_inv in E1; [|done]. by eapply IH.
Qed.

Lemma expire_timeout_chk_inv alive acks a a' : ap_inv a -> expire_timeout_chk c alive acks a = Done a' -> ap_inv a'.
Proof.
  intros H. unfold expire_timeout_chk. set (a1 := fold_left _ _ _).
  pose proof (ai_lists _ _ H) as (N1 & _ & N3)%list.NoDup_app.
  destruct (expire_auths_inv (auth_list (table a)) a H N1 (fun _ Hx => Hx)) as [H1 L1]. fold a1 in H1, L1.
  intros ([[a2 chk] u] & E2 & E)%res_bind_Done. apply expire_asocs_inv in E2; [|done|by rewrite L1|done].
  apply res_bind_Done in E as ([a3 u3] & E3 & E). apply keep_alives_inv in E3; [|done].
  injection E as <-. eapply quiet_inv; [apply quiet_clients|done].
Qed.

(** ** Association *)

(** A stage leaves the address, the association id, the state and the counted flags. *)
Record same (s s' : station) : Prop := {
  sm_hwaddr : hwaddr (info s') = hwaddr (info s);
  sm_aid : aid (info s') = aid (info s);
  sm_state : state (info s') = state (info s);
  sm_flags : forall k, flagged k (caps (rest s')) = flagged k (caps (rest s))
}.
#[local] Instance same_refl : Reflexive same.
Proof. by constructor. Qed.
#[local] Instance same_trans : Transitive same.
Proof. intros s1 s2 s3 [] []. constructor; [congruence..|]. intros k. congruence. Qed.
Definition keeps (g : stage) : Prop := forall s s' st, g s = Done (s', st) -> same s s'.

Lemma keeps_then g h : keeps g -> keeps h -> keeps (g ▷ h).
Proof.
  intros Hg Hh s s' st ([s1 st1] & E1 & E)%res_bind_Done. apply Hg in E1. destruct (st1 =? _).
  - etransitivity; [exact E1|]. by eapply Hh.
  - by simplify_eq.
Qed.

(** Following a stage to its end. *)
Ltac follow := repeat (match goal with
  | H : mbind _ _ = Done _ |- _ => let x := fresh "x" in apply res_bind_Done in H as (x & _ & H)
  | H : (let '(_, _) := ?x in _) = _ |- _ => destruct x
  | H : (match ?x with _ => _ end) = Done _ |- _ => destruct x
  end; cbv beta zeta in * ).
Ltac keeps_stage := intros s s' st E; follow; by (simplify_eq; constructor).

Section stages.
Context (ac : assoc_cfg) (p2p_ie : bytes -> Z -> Z) (fuel : nat) (m : bytes) (len ies left : Z).

Lemma keeps_ssid : keeps (check_ssid ac m ies left).
Proof. unfold check_ssid, refuse, pass. keeps_stage. Qed.
Lemma keeps_rates : keeps (check_rates m ies left).
Proof. unfold check_rates, refuse, pass. keeps_stage. Qed.
Lemma keeps_security elems : keeps (check_security ac m elems).
Proof. unfold check_security, refuse, pass. keeps_stage. Qed.
Lemma keeps_wps elems : keeps (check_wps c ac fuel m elems).
Proof. unfold check_wps, refuse, pass. keeps_stage. Qed.
Lemma wmm_same n : forall p s s', wmm_loop m left n p s = Done s' -> same s s'.
Proof.
  induction n as [|n IH]; intros p s s' E; cbn [wmm_loop] in E; [done|]. follow; simplify_eq; [|by eapply IH|done].
  by constructor.
Qed.
Lemma keeps_wmm : keeps (check_wmm ac m ies left).
Proof.
  intros s s' st. unfold check_wmm, pass. set (s1 := set_sta_ps _ _). assert (same s s1) as H1 by by constructor.
  destruct (ap_qos_option ac); [|by intros [= <- <-]]. intros (s2 & E2%wmm_same & [= <- <-])%res_bind_Done.
  by etransitivity.
Qed.
Lemma keeps_ht elems : keeps (check_ht c m elems).
Proof. unfold check_ht, refuse, pass. intros s s' st (s1 & E1 & E)%res_bind_Done. follow; simplify_eq; by constructor. Qed.
Lemma keeps_vht elems : keeps (check_vht ac m elems).
Proof. unfold check_vht, refuse, pass. intros s s' st (s1 & E1 & E)%res_bind_Done. follow; simplify_eq; by constructor. Qed.
Lemma keeps_erp : keeps set_erp_flags.
Proof. unfold set_erp_flags, pass. intros s s' st [= <- <-]. by constructor. Qed.
Lemma keeps_p2p : keeps (check_p2p ac p2p_ie m len ies left).
Proof.
  unfold check_p2p, refuse, pass. intros s s' st E. destruct (p2p_role_go ac).
  - apply res_bind_Done in E as ([[p ?] ?] & _ & E). destruct p; follow; by (simplify_eq; constructor).
  - simplify_eq. by constructor.
Qed.

Lemma keeps_checks capab : keeps (assoc_checks c ac p2p_ie fuel m len ies left capab).
Proof.
  intros s s' st. unfold assoc_checks. intros ([r elems] & _ & E)%res_bind_Done.
  set (s1 := set_capability capab s) in *. assert (same s s1) as H1 by by constructor.
  etransitivity; [exact H1|]. clearbody s1. clear H1.
  assert (K : keeps (check_ssid ac m ies left ▷ check_rates m ies left ▷ check_security ac m elems ▷
    check_wps c ac fuel m elems ▷ check_wmm ac m ies left ▷ check_ht c m elems ▷ check_vht ac m elems ▷
    set_erp_flags ▷ check_p2p ac p2p_ie m len ies left)).
  { repeat apply keeps_then; eauto using keeps_ssid, keeps_rates, keeps_security, keeps_wps, keeps_wmm, keeps_ht,
      keeps_vht, keeps_erp, keeps_p2p. }
  unfold refuse in E. destruct r, (elems IeElems.ssid); try by (simplify_eq; constructor).
  all: exact (K _ _ _ E).
Qed.
End stages.

Lemma store_inv o s a : ap_inv a -> known a o ->
  same (Station (sta_of a o) (mlme_of a o)) (Station (set_state (state (sta_of a o)) (info s)) (rest s)) ->
  ap_inv (store o s a) /\ known (store o s a) o.
Proof.
  intros H Hk [S1 S2 _ S4]. cbn [info rest] in *. set (a1 := on_aad (upd_sta o (fun _ => info s)) a).
  assert (ap_inv a1) as H1 by (apply upd_sta_inv; [done|exact S1|exact S2|by auto]). split.
  - eapply quiet_inv; [apply quiet_upd_mlme_at|exact H1]. exact S4.
  - unfold known, addr_of, sta_of, store. change (admitted (hwaddr (entry (upd_sta o (fun _ => info s) (aad a)) o)) (alog a)).
    rewrite entry_upd, decide_True by done. destruct (decide _); [|exact Hk]. unfold known, addr_of in Hk. by rewrite <- S1 in Hk.
Qed.

(** The association id of a station becomes [n], with its slot, or zero. *)
Lemma set_aid_inv o n l a : ap_inv a -> o ∈ used a ->
  (n = 0 /\ l = sta_aid (table a)) \/
  (1 <= n <= 32 /\ sta_aid (table a) !! Z.to_nat (n - 1) = Some None /\ l = <[Z.to_nat (n - 1) := Some o]> (sta_aid (table a))) ->
  ap_inv (upd_table (set_slots l) (on_aad (upd_sta o (set_aid n)) a)).
Proof.
  intros H Ho Hn. set (a1 := upd_table _ _). destruct H as [I1 I2 I3 I4 I5 I6 I7 I8 I9 I10].
  assert (HE : forall x, sta_of a1 x = if decide (o = x) then
    if decide (o < length (stas (table a)))%nat then set_aid n (sta_of a x) else sta_of a x else sta_of a x).
  { intros x. exact (entry_upd o (set_aid n) (aad a) x). }
  assert (HA : forall x, addr_of a1 x = addr_of a x /\ state (sta_of a1 x) = state (sta_of a x)).
  { intros x. unfold addr_of. rewrite HE. destruct (decide (o = x)) as [<-|]; [|done]. by destruct (decide _). }
  assert (HL : length (stas (table a1)) = length (stas (table a))) by apply length_alter.
  assert (Hlt : (o < length (stas (table a)))%nat).
  { pose proof (ti_stas _ I1) as L. cbn in L. rewrite L. apply (table_member _ o I1). by right. }
  constructor; try done.
  - apply (table_inv_same (table a)); try done. intros x.
    destruct (decide (x < length (stas (table a)))%nat) as [Hx|Hx].
    + rewrite !sta_addr_nth by (by rewrite ?HL). apply (HA x).
    + unfold sta_addr. by rewrite !lookup_ge_None_2 by (rewrite ?HL; lia).
  - change (length l = 32%nat). destruct Hn as [[_ ->]|(_ & _ & ->)]; [done|by rewrite length_insert].
  - intros x Hx. rewrite HE. change (sta_aid (table a1)) with l. change (used a1) with (used a) in Hx.
    destruct (decide (o = x)) as [<-|Hne].
    + rewrite decide_True by done. cbn [aid set_aid]. intros Hp. destruct Hn as [[-> _]|(? & Hs & ->)]; [lia|].
      split; [lia|]. rewrite list_lookup_insert_eq; [done|by eapply lookup_lt_Some].
    + intros Hp. destruct (I8 x Hx Hp) as [J1 J2]. split; [done|]. destruct Hn as [[_ ->]|(_ & Hs & ->)]; [done|].
      rewrite list_lookup_insert_ne; [done|]. intros E. congruence.
  - intros x Hx HX Hm. unfold known, marked in *. destruct (HA x) as [-> E]. rewrite E in Hm. by apply I9.
Qed.

Lemma first_aid_spec l : length l = 32%nat ->
  first_aid l = 33 \/ 1 <= first_aid l <= 32 /\ l !! Z.to_nat (first_aid l - 1) = Some None.
Proof.
  intros Hl. unfold first_aid. rewrite take_ge by lia. destruct (list_find _ l) as [[i x]|] eqn:E; [right|by left].
  apply list_find_Some in E as (Hi & -> & _). pose proof (lookup_lt_Some _ _ _ Hi).
  replace (Z.to_nat (Z.of_nat i + 1 - 1)) with i by lia. split; [lia|done].
Qed.

Section request.
Context (ac : assoc_cfg) (p2p_ie : bytes -> Z -> Z) (fuel : nat).
Context (Hmax : max_num_sta ac <= 32).

Lemma set_aid_zero_inv o a : ap_inv a -> o ∈ used a -> ap_inv (on_aad (upd_sta o (set_aid 0)) a).
Proof.
  intros H Ho. pose proof (set_aid_inv o 0 (sta_aid (table a)) a H Ho (or_introl (conj eq_refl eq_refl))) as H1.
  eapply quiet_inv; [|exact H1]. constructor; try done. by exists []; rewrite app_nil_r.
Qed.

Lemma assign_aid_inv o a a' st : ap_inv a -> o ∈ used a -> known a o -> assign_aid ac o a = (a', st) ->
  ap_inv a' /\ o ∈ used a' /\ known a' o.
Proof.
  intros H Ho Hk. unfold assign_aid. destruct (0 <? _); [by intros [= <- <-]|].
  assert (K : forall n l, known (upd_table (set_slots l) (on_aad (upd_sta o (set_aid n)) a)) o).
  { intros n l. unfold known. change (admitted (hwaddr (entry (upd_sta o (set_aid n) (aad a)) o)) (alog a)).
    rewrite entry_upd, decide_True by done. by destruct (decide _). }
  destruct (Z.ltb_spec (max_num_sta ac) (first_aid (sta_aid (table a)))) as [Hlt|Hlt]; intros [= <- <-].
  - split_and!; [by apply set_aid_zero_inv|done|exact (K 0 (sta_aid (table a)))].
  - split_and!; [|done|apply K]. apply set_aid_inv; [done..|]. right.
    destruct (first_aid_spec _ (ai_slots _ _ H)) as [E|[? ?]]; [lia|done].
Qed.

Lemma has_state_known a o b : b .& MARKS = b -> ap_inv a -> o ∈ used a -> has b (state (sta_of a o)) = true -> known a o.
Proof.
  intros Hb H Ho Hs. apply (ai_known _ _ H); [done|done|]. left. unfold marked. unfold has in *.
  apply negb_true_iff, Z.eqb_neq in Hs. apply negb_true_iff, Z.eqb_neq. intros E. apply Hs.
  by rewrite <- Hb, (Z.land_comm b), Z.land_assoc, E.
Qed.

Lemma has_linked x : has MARKS (x .| _FW_LINKED) = true -> has MARKS x = true.
Proof. rewrite has_lor. by intros [Hm|Hm]%orb_true_iff. Qed.

Lemma quiet_back a1 a2 a3 : quiet a2 a3 -> quiet a1 a2 -> quiet a1 a3.
Proof. intros H1 H2. by etransitivity. Qed.
Ltac qback := eapply quiet_back; [first [apply quiet_say|apply quiet_expire|apply quiet_clients|by apply quiet_upd_mlme]|].

Lemma quiet_info_update o a : quiet a (sta_info_update c ac o a).
Proof.
  unfold sta_info_update. cbv zeta. eapply quiet_back.
  - apply quiet_on_aad, calm_upd_sta. intros s. split_and!; [done..|]. exact (has_linked (state s)).
  - do 4 qback. eapply quiet_back; [apply quiet_on_aad; calm_fields|]. by qback.
Qed.

Lemma known_entry a a' o : hwaddr (sta_of a' o) = addr_of a o -> alog a' = alog a -> known a o -> known a' o.
Proof. unfold known, addr_of. by intros -> ->. Qed.

Lemma unlink_auth_keeps o a : used (unlink_auth o a) = used a /\ addr_of (unlink_auth o a) o = addr_of a o /\
  alog (unlink_auth o a) = alog a.
Proof. unfold unlink_auth. by destruct (decide _). Qed.

Lemma unlink_auth_aid o a : aid (sta_of (unlink_auth o a) o) = aid (sta_of a o).
Proof. unfold unlink_auth. by destruct (decide _). Qed.

Lemma upd_entry o g a : (forall s, hwaddr (g s) = hwaddr s /\ aid (g s) = aid s) ->
  addr_of (on_aad (upd_sta o g) a) o = addr_of a o /\ aid (sta_of (on_aad (upd_sta o g) a) o) = aid (sta_of a o).
Proof.
  intros Hg. unfold addr_of. change (sta_of (on_aad (upd_sta o g) a) o) with (entry (upd_sta o g (aad a)) o).
  rewrite entry_upd, decide_True by done. by destruct (decide _).
Qed.

Lemma assoc_lists_inv o e a : ap_inv a -> o ∈ used a -> known a o ->
  let a1 := unlink_auth o (upd_state o (fun st => Z.ldiff st WIFI_FW_ASSOC_STATE .| WIFI_FW_ASSOC_SUCCESS) a) in
  let a2 := if decide (o ∈ asoc_list a1) then a1 else link_asoc o (upd_expire o e a1) in
  ap_inv a2 /\ o ∈ used a2 /\ o ∈ asoc_list a2 /\ addr_of a2 o = addr_of a o /\ aid (sta_of a2 o) = aid (sta_of a o).
Proof.
  intros H Ho Hk a1 a2. set (a0 := upd_state _ _ _) in *.
  assert (ap_inv a0) as H0 by (apply upd_state_inv; auto).
  assert (addr_of a0 o = addr_of a o /\ aid (sta_of a0 o) = aid (sta_of a o)) as [A0 D0] by by apply upd_entry.
  assert (ap_inv a1) as H1 by by apply unlink_auth_inv.
  destruct (unlink_auth_keeps o a0) as (U1 & A1 & G1). pose proof (unlink_auth_aid o a0) as D1.
  pose proof (unlink_auth_out o a0) as N1. fold a1 in U1, A1, G1, D1, N1.
  assert (o ∈ used a1) as U by by rewrite U1.
  assert (known a1 o) as K1 by (apply (known_entry a); [exact (eq_trans A1 A0)|exact G1|done]).
  clearbody a1. unfold a2. destruct (decide _) as [Hi|Hn]; [split_and!; congruence|].
  set (a3 := upd_expire o e a1).
  assert (addr_of a3 o = addr_of a1 o /\ aid (sta_of a3 o) = aid (sta_of a1 o)) as [A3 D3] by by apply upd_entry.
  split_and!; [|exact U|apply elem_of_app; right; by apply list_elem_of_singleton|
    exact (eq_trans A3 (eq_trans A1 A0))|exact (eq_trans D3 (eq_trans D1 D0))].
  apply link_asoc_inv; [by back|exact U|exact N1|exact Hn|]. by apply (known_entry a1).
Qed.

(** Acceptance: the station is listed, and what follows is quiet. *)
Lemma assoc_accept_spec o re frame a a' : ap_inv a -> o ∈ used a -> known a o ->
  assoc_accept c ac o re frame a = Done a' ->
  ap_inv a' /\ o ∈ asoc_list a' /\ aid (sta_of a' o) = aid (sta_of a o) /\
  IssueAsocRsp (addr_of a o) _STATS_SUCCESSFUL_ (aid (sta_of a o)) re ∈ alog a'.
Proof.
  intros H Ho Hk. unfold assoc_accept. cbv zeta.
  destruct (assoc_lists_inv o (fun _ => cexpire_to c) a H Ho Hk) as (H2 & U2 & L2 & A2 & D2).
  set (a2 := if decide _ then _ else _) in *.
  clearbody a2. intros ([[p b] u] & E & [= <-])%res_bind_Done. apply join_balanced in E as Hb.
  set (a3 := set_bss b (upd_mlme o (set_caps p) a2)). set (a4 := sta_info_update c ac o (associated_clients_update c u a3)).
  assert (quiet a2 a3) as Q3.
  { apply quiet_caps; [by eapply inv_used_nodup|done| |exact Hb]. rewrite (ai_mlme _ _ H2). by eapply inv_used_lt. }
  assert (quiet a2 a4) as Q4.
  { eapply quiet_back; [apply quiet_info_update|]. by qback. }
  assert (aid (sta_of a4 o) = aid (sta_of a o) /\ addr_of a4 o = addr_of a o) as [D4 A4].
  { destruct (cl_entry _ _ (q_calm _ _ Q4) o) as (Ea & Ed & _). rewrite <- D2, <- A2. by split. }
  split_and!.
  - do 3 back. by eapply quiet_inv.
  - destruct (q_asoc _ _ Q4) as [L4 _]. change (o ∈ asoc_list a4). by rewrite L4.
  - exact D4.
  - rewrite <- D4, <- A4. apply elem_of_app. left. apply elem_of_app. right. by apply list_elem_of_singleton.
Qed.

(** The end of the request, after the checks. *)
Lemma request_end_inv o st s m n re status a a' r : ap_inv a -> o ∈ used a -> known a o ->
  same (Station (set_state st (sta_of a o)) (mlme_of a o)) s ->
  (if negb (status =? _STATS_SUCCESSFUL_) then Done (assoc_fail o re status (store o s a))
   else
     let '(a, status) := assign_aid ac o (store o s a) in
     if negb (status =? _STATS_SUCCESSFUL_) then Done (assoc_fail o re status a)
     else
       frame ← rdr m 0 n;
       a ← assoc_accept c ac o re frame a;
       Done (a, _SUCCESS)) = Done (a', r) -> ap_inv a'.
Proof.
  intros H Ho Hk [S1 S2 S3 S4] E. destruct (store_inv o s a H Hk) as [H1 K1]; [by constructor|].
  assert (o ∈ used (store o s a)) as U1 by exact Ho. generalize dependent (store o s a). intros a1 E H1 K1 U1.
  assert (Hf : forall a2 st2, ap_inv a2 -> o ∈ used a2 -> ap_inv (assoc_fail o re st2 a2).1).
  { intros a2 st2 H2 U2. cbn. back. by apply set_aid_zero_inv. }
  destruct (negb (status =? _STATS_SUCCESSFUL_)); [simplify_eq; by apply Hf|].
  destruct (assign_aid ac o a1) as [a2 st2] eqn:Ea. apply assign_aid_inv in Ea as (H2 & U2 & K2); [|done..].
  destruct (negb (st2 =? _STATS_SUCCESSFUL_)); [simplify_eq; by apply Hf|].
  apply res_bind_Done in E as (frame & _ & E). apply res_bind_Done in E as (a3 & E3 & [= <- <-]).
  by apply (assoc_accept_spec o re frame a2 a3 H2 U2 K2) in E3 as [? _].
Qed.

Lemma OnAssocReq_inv f a a' r : ap_inv a -> OnAssocReq c ac p2p_ie fuel f a = Done (a', r) -> ap_inv a'.
Proof.
  intros H. unfold OnAssocReq. cbv zeta. destruct (negb _); [by intros [= <- <-]|].
  intros (fc & _ & E)%res_bind_Done. destruct (rx_len f <? _); [by simplify_eq|].
  apply res_bind_Done in E as (sa & _ & E). destruct (rtw_get_stainfo _ sa) as [o|] eqn:Eg; [|simplify_eq; by back].
  apply get_used in Eg as Ho. apply res_bind_Done in E as (capab & _ & E).
  assert (K : has WIFI_FW_AUTH_SUCCESS (state (sta_of a o)) = true \/ has WIFI_FW_ASSOC_SUCCESS (state (sta_of a o)) = true ->
    known a o) by (intros [Hs|Hs]; by eapply (has_state_known a o _ eq_refl)).
  destruct (has WIFI_FW_AUTH_SUCCESS (state (sta_of a o))), (has WIFI_FW_ASSOC_SUCCESS (state (sta_of a o)));
    cbn [negb andb] in E; try (simplify_eq; by back);
    apply res_bind_Done in E as ([s st] & Ec%keeps_checks & E); by (eapply request_end_inv; eauto).
Qed.
End request.
End inv.

(** ** Runs *)

(** One handler or timer of the access point; the settings may change between steps. *)
Inductive ap_step : ap -> ap -> Prop :=
  | step_auth c f a a' r : OnAuth c f a = Done (a', r) -> ap_step a a'
  | step_assoc c ac p2p_ie fuel f a a' r : max_num_sta ac <= NUM_STA ->
      OnAssocReq c ac p2p_ie fuel f a = Done (a', r) -> ap_step a a'
  | step_deauth c f a a' r : OnDeAuth c f a = Done (a', r) -> ap_step a a'
  | step_disassoc c f a a' r : OnDisassoc c f a = Done (a', r) -> ap_step a a'
  | step_expire c alive acks a a' : expire_timeout_chk c alive acks a = Done a' -> ap_step a a'
  | step_flush c a a' : rtw_sta_flush c a = Done a' -> ap_step a a'.

Lemma ap_step_inv a a' : ap_step a a' -> ap_inv a -> ap_inv a'.
Proof.
  intros Hs H; destruct Hs; [by eapply OnAuth_inv|by eapply OnAssocReq_inv|by eapply OnDeAuth_inv|by eapply OnDisassoc_inv|
    by eapply expire_timeout_chk_inv|by eapply rtw_sta_flush_inv].
Qed.
Lemma ap_run_inv a a' : rtc ap_step a a' -> ap_inv a -> ap_inv a'.
Proof. induction 1; eauto using ap_step_inv. Qed.

(** The access point when it starts: the table made by [_rtw_init_sta_priv], with the
    station for group frames, then [start_ap_mode]. *)
Definition open_table (a : ap) : ap :=
  set_asoc [] 0 (set_mlme (replicate 32 init_mlme) (upd_table _rtw_init_sta_priv a)).
Definition ap_init (c : ap_cfg) (a : ap) : ap := start_ap_mode (alloc_sta c bc_addr (open_table a)).1.

Lemma start_alloc c a : ap_init c a = (alloc_sta c bc_addr (start_ap_mode (open_table a))).1.
Proof.
  unfold ap_init, alloc_sta, rtw_alloc_stainfo. cbn. by destruct (rtw_alloc_macid _ _ _ _).
Qed.

Lemma ap_init_inv c a : ap_inv (ap_init c a).
Proof.
  rewrite start_alloc. set (a1 := start_ap_mode (open_table a)).
  assert (ap_inv a1) as H1.
  { assert (used a1 = []) as U by done. constructor; try done.
    - apply (table_inv_same (_rtw_init_sta_priv (table a))); try done. exact (init_inv (table a)).
    - by apply list.NoDup_nil.
    - intros o [Ho|Ho]; by apply elem_of_nil in Ho.
    - intros o. rewrite U. by intros Ho%elem_of_nil.
    - intros o. rewrite U. by intros Ho%elem_of_nil.
    - intros k. unfold excess. rewrite U. by destruct k. }
  pose proof (alloc_inv_both c bc_addr a1 H1) as H. destruct (alloc_sta c bc_addr a1). apply H.
Qed.
