(* ===== verification/ApRun.v ===== *)
(** * Stations of an access point: what its runs guarantee

    The theorems on the handlers of ApAuth and ApAssoc that follow from the invariant of
    ApInv, and examples: runs in which the code does not do what it means to. *)

From stdpp Require Import relations.
From S2P Require Import Prelude Ie Crc32 RxFrame Reorder MacId StaMgt TxQueue PowerSave SecFrames ApCap ApAuth ApAssoc ApInv.

(** ** The stations of a running access point *)

(** C11: However authentication and association requests, deauthentications, disassociations,
    expiries and flushes follow each other at an access point, whatever the frames hold:
    no station is twice in the two lists together, all of them are in the table and the
    counts are right; every associated station, and every one whose state says that it is
    authenticated or associated, was sent the last message of a successful authentication;
    two stations in use never have the same association id and the ids are in 1..32; and no
    counter of [struct mlme_priv] is below the number of stations that set its flag, so that
    none wraps when one of them leaves. *)
Theorem ap_run_invariant c a0 a : rtc ap_step (ap_init c a0) a ->
  NoDup (auth_list (table a) ++ asoc_list a) /\
  auth_list_cnt (table a) = zlen (auth_list (table a)) /\ asoc_list_cnt a = zlen (asoc_list a) /\
  (forall o, o ∈ auth_list (table a) \/ o ∈ asoc_list a -> o ∈ used a) /\
  (forall o, o ∈ used a -> o ∈ asoc_list a \/ has MARKS (state (sta_of a o)) = true -> admitted (addr_of a o) (alog a)) /\
  (forall o o', o ∈ used a -> o' ∈ used a -> 0 < aid (sta_of a o) -> aid (sta_of a o') = aid (sta_of a o) ->
     aid (sta_of a o) <= 32 /\ o' = o) /\
  (forall k, tally (flagged k) (used a) (map caps (mlme a)) <= counted k (counts (abss a))).
Proof.
  intros Hr. pose proof (ap_run_inv _ _ Hr (ap_init_inv c a0)) as [I1 I2 I3 I4 I5 I6 I7 I8 I9 I10].
  split_and!; try done.
  - intros o Ho Hm. apply I9; [done|done|]. destruct Hm; auto.
  - intros o o' Ho Ho' Hp E. destruct (I8 o Ho Hp) as [Hle Hs]. split; [done|].
    destruct (I8 o' Ho') as [_ Hs']; [by rewrite E|]. rewrite E in Hs'. congruence.
  - intros k. specialize (I10 k). unfold excess, caps_of in I10. lia.
Qed.

(** ** Association *)

Lemma then_ok m k s s' : then_ m k s = Done (s', _STATS_SUCCESSFUL_) ->
  exists s1, m s = Done (s1, _STATS_SUCCESSFUL_) /\ k s1 = Done (s', _STATS_SUCCESSFUL_).
Proof.
  intros ([s1 st] & E1 & E)%res_bind_Done. destruct (Z.eqb_spec st _STATS_SUCCESSFUL_) as [->|]; [by exists s1|].
  simplify_eq.
Qed.

(** The SSID element of the frame is the one of the access point. *)
Definition ssid_matches (ac : assoc_cfg) (m : bytes) (ies left : Z) : Prop :=
  exists p, rtw_get_ie m ies _SSID_IE_ 0 left = Done (Some p, zlen (cur_ssid ac)) /\
    rdr m (p + 2) (zlen (cur_ssid ac)) = Done (cur_ssid ac) /\ cur_ssid ac <> [].

Lemma check_ssid_ok ac m ies left s s' : check_ssid ac m ies left s = Done (s', _STATS_SUCCESSFUL_) ->
  ssid_matches ac m ies left.
Proof.
  unfold check_ssid. intros ([[p|] n] & Eg & E)%res_bind_Done; [|done].
  destruct (Z.eqb_spec n 0) as [|Hn]; [done|]. apply res_bind_Done in E as (same & Es & E).
  destruct same; [|done]. cbn [negb orb] in E. destruct (Z.eqb_spec n (zlen (cur_ssid ac))) as [->|]; [|done].
  unfold _rtw_memcmp in Es. apply res_bind_Done in Es as (b & Eb & [= ->%bool_decide_eq_true]).
  exists p. split_and!; [done|done|]. intros E0. by rewrite E0 in Hn.
Qed.

Lemma checks_ssid c ac p2p_ie fuel m len ies left capab s s' :
  assoc_checks c ac p2p_ie fuel m len ies left capab s = Done (s', _STATS_SUCCESSFUL_) -> ssid_matches ac m ies left.
Proof.
  unfold assoc_checks. intros ([r elems] & _ & E)%res_bind_Done. unfold refuse in E.
  destruct r, (elems IeElems.ssid); simplify_eq; apply then_ok in E as (s1 & E & _); by eapply check_ssid_ok.
Qed.

(** *** The search for the WMM element ends *)

Lemma ldr_Done m p x : bytes_ok m -> ldr m p = Done x -> 0 <= p < zlen m /\ 0 <= x.
Proof.
  unfold ldr, ld. intros Hb. destruct ((0 <=? p) && (p <? zlen m)) eqn:E; [|done]. intros [= <-].
  split; [lia|]. apply (ld0_u8 m p Hb).
Qed.

Lemma ldr_fuel m p : ldr m p <> NoFuel.
Proof. unfold ldr. by destruct (ld m p). Qed.

(** The loop of the search: where it stops, and that its fuel is enough. *)
Lemma get_ie_loop_run m index limit : bytes_ok m -> forall fuel p i, limit - i <= Z.of_nat fuel -> i < limit ->
  get_ie_loop fuel m index limit p i <> NoFuel /\
  forall q len, get_ie_loop fuel m index limit p i = Done (Some q, len) -> p <= q < zlen m /\ 0 <= len.
Proof.
  intros Hb. induction fuel as [|fuel IH]; intros p i Hf Hi; cbn [get_ie_loop]; [lia|].
  destruct (ldr m p) as [x| |] eqn:Ex; [|done|by apply ldr_fuel in Ex]. cbn [mbind res_bind].
  apply (ldr_Done _ _ _ Hb) in Ex as [Hp _].
  destruct (x =? index); (destruct (ldr m (p + 1)) as [tmp| |] eqn:El; [|done|by apply ldr_fuel in El]); cbn [mbind res_bind];
    apply (ldr_Done _ _ _ Hb) in El as [_ Ht].
  - split; [done|]. intros q len [= <- <-]. lia.
  - destruct (Z.leb_spec limit (i + (tmp + 2))); [done|]. destruct (IH (p + (tmp + 2)) (i + (tmp + 2))) as [H1 H2]; [lia..|].
    split; [done|]. intros q len E. apply H2 in E. lia.
Qed.

Lemma wmm_loop_ends m left : bytes_ok m -> forall fuel p s, (1 <= fuel)%nat -> zlen m - p < Z.of_nat fuel ->
  wmm_loop m left fuel p s <> NoFuel.
Proof.
  intros Hb. induction fuel as [|fuel IH]; intros p s H1 Hf; cbn [wmm_loop]; [lia|]. unfold rtw_get_ie.
  destruct (Z.ltb_spec left 1); cbn [mbind res_bind]; [done|].
  destruct (get_ie_loop_run m _VENDOR_SPECIFIC_IE_ left Hb (Z.to_nat left) p 0) as [N R]; [lia..|].
  destruct (get_ie_loop _ _ _ _ _ _) as [[[q|] len]| |] eqn:E; cbn [mbind res_bind]; try done.
  destruct (R q len eq_refl) as [Hq Hl]. unfold _rtw_memcmp, rdr.
  destruct (rd m (q + 2) _) as [b|]; cbn [lift mbind res_bind]; [|done]. destruct (bool_decide _).
  - destruct (ldr m (q + 8)) eqn:Ex; [done|done|by apply ldr_fuel in Ex].
  - apply IH; lia.
Qed.

(** The search for the WMM element in a request ends, whatever the frame holds and
    wherever its elements begin. *)
Theorem check_wmm_ends ac m ies left s : bytes_ok m -> 0 <= ies -> check_wmm ac m ies left s <> NoFuel.
Proof.
  intros Hb Hi. unfold check_wmm, pass. destruct (ap_qos_option ac); [|done].
  set (s1 := set_sta_ps _ _). pose proof (wmm_loop_ends m left Hb (S (length m)) ies s1) as H.
  destruct (wmm_loop m left (S (length m)) ies s1); [done|done|]. intros _. apply H; [lia|unfold zlen; lia|done].
Qed.

Section association.
Context (c : ap_cfg) (ac : assoc_cfg) (p2p_ie : bytes -> Z -> Z) (fuel : nat).
Context (Hmax : max_num_sta ac <= NUM_STA).

Lemma assign_aid_ok o a a' : ap_inv a -> o ∈ used a -> assign_aid ac o a = (a', _STATS_SUCCESSFUL_) ->
  0 < aid (sta_of a' o).
Proof.
  intros H Ho. unfold assign_aid. destruct (Z.ltb_spec 0 (aid (sta_of a o))) as [Hp|_]; [by intros [= <-]|].
  destruct (Z.ltb_spec (max_num_sta ac) (first_aid (sta_aid (table a)))) as [|Hle]; [done|].
  intros [= <-]. set (n := first_aid _) in *.
  change (0 < aid (entry (upd_sta o (set_aid n) (aad a)) o)). rewrite entry_upd, !decide_True; [|..|done].
  - change (0 < n). unfold n. destruct (first_aid_spec _ (ai_slots _ _ H)) as [E|[? _]]; lia.
  - pose proof (ti_stas _ (ai_table _ _ H)) as Hl. cbn in Hl. unfold table in Hl. rewrite Hl. by eapply inv_used_lt.
Qed.

(** What an accepted request leaves: the station is associated, with an id of its own. *)
Definition associated (a a' : ap) (o : nat) (reassoc : bool) : Prop :=
  o ∈ asoc_list a' /\ (o ∉ auth_list (table a')) /\ 1 <= aid (sta_of a' o) <= 32 /\
  sta_aid (table a') !! Z.to_nat (aid (sta_of a' o) - 1) = Some (Some o) /\
  IssueAsocRsp (addr_of a o) _STATS_SUCCESSFUL_ (aid (sta_of a' o)) reassoc ∈ alog a'.

Lemma inv_associated a a' o re : ap_inv a' -> o ∈ asoc_list a' -> 0 < aid (sta_of a' o) ->
  IssueAsocRsp (addr_of a o) _STATS_SUCCESSFUL_ (aid (sta_of a' o)) re ∈ alog a' -> associated a a' o re.
Proof.
  intros H Ho Hp Hl. destruct (ai_aid _ _ H o) as [Hd Hs]; [apply (ai_used _ _ H); by right|done|].
  split_and!; [done| |lia|done|done|done]. pose proof (ai_lists _ _ H) as (_ & N & _)%list.NoDup_app.
  intros Hin. by eapply N.
Qed.

Lemma upd_addr o g a : (forall s, hwaddr (g s) = hwaddr s) -> addr_of (on_aad (upd_sta o g) a) o = addr_of a o.
Proof.
  intros Hg. unfold addr_of. change (sta_of (on_aad (upd_sta o g) a) o) with (entry (upd_sta o g (aad a)) o).
  rewrite entry_upd, decide_True by done. by destruct (decide _).
Qed.

Lemma assign_aid_addr o a a' st : assign_aid ac o a = (a', st) -> addr_of a' o = addr_of a o.
Proof.
  unfold assign_aid. destruct (0 <? _); [by intros [= <- <-]|].
  destruct (_ <? _); intros [= <- <-]; exact (upd_addr o (set_aid _) a (fun _ => eq_refl)).
Qed.

(** The end of an accepted request. *)
Lemma request_end_ok o st s m n re status a a' : ap_inv a -> o ∈ used a -> known a o ->
  same (Station (set_state st (sta_of a o)) (mlme_of a o)) s ->
  (if negb (status =? _STATS_SUCCESSFUL_) then Done (assoc_fail o re status (store o s a))
   else
     let '(a, status) := assign_aid ac o (store o s a) in
     if negb (status =? _STATS_SUCCESSFUL_) then Done (assoc_fail o re status a)
     else
       frame ← rdr m 0 n;
       a ← assoc_accept c ac o re frame a;
       Done (a, _SUCCESS)) = Done (a', _SUCCESS) ->
  status = _STATS_SUCCESSFUL_ /\ ap_inv a' /\ associated a a' o re.
Proof.
  intros H Ho Hk [S1 S2 S3 S4] E. destruct (store_inv o s a H Hk) as [H1 K1]; [by constructor|].
  assert (addr_of (store o s a) o = addr_of a o) as A1.
  { unfold addr_of. change (sta_of (store o s a) o) with (entry (upd_sta o (fun _ => info s) (aad a)) o).
    rewrite entry_upd, decide_True by done. destruct (decide _); [exact S1|done]. }
  assert (o ∈ used (store o s a)) as U1 by exact Ho.
  destruct (Z.eqb_spec status _STATS_SUCCESSFUL_) as [->|]; [|done]. split; [done|].
  destruct (assign_aid ac o (store o s a)) as [a2 st2] eqn:Ea.
  destruct (Z.eqb_spec st2 _STATS_SUCCESSFUL_) as [->|]; [|done].
  pose proof (assign_aid_ok o _ _ H1 U1 Ea) as Hp. pose proof (assign_aid_addr _ _ _ _ Ea) as A2.
  apply (assign_aid_inv ac Hmax) in Ea as (H2 & U2 & K2); [|done..].
  apply res_bind_Done in E as (frame & _ & E). apply res_bind_Done in E as (a3 & E3 & [= <-]).
  apply (assoc_accept_spec c ac o re frame a2 a3 H2 U2 K2) in E3 as (H3 & Hin & D3 & Hl).
  split; [done|]. apply inv_associated; [done|done|by rewrite D3|]. by rewrite D3, <- A1, <- A2.
Qed.

(** C12: An association or reassociation request is accepted only from a station of the table
    that authenticated (or is associated), with the SSID of the access point; the station is
    then associated, out of the list of authenticating ones, and answered with status 0 and an
    association id in 1..32 whose slot is its own. *)
Theorem association_accepted f a a' : ap_inv a -> OnAssocReq c ac p2p_ie fuel f a = Done (a', _SUCCESS) ->
  exists sa o reassoc, rdr (rx_data f) 10 6 = Done sa /\ rtw_get_stainfo (table a) sa = Some o /\
    (has WIFI_FW_AUTH_SUCCESS (state (sta_of a o)) = true \/ has WIFI_FW_ASSOC_SUCCESS (state (sta_of a o)) = true) /\
    admitted (addr_of a o) (alog a) /\
    let ies := if reassoc : bool then 34 else 28 in
    ssid_matches ac (rx_data f) ies (rx_len f - ies) /\ associated a a' o reassoc.
Proof.
  intros H. unfold OnAssocReq. cbv zeta. destruct (negb _); [done|].
  intros (fc & _ & E)%res_bind_Done. set (re := negb (fc .& 0xfc =? WIFI_ASSOCREQ)) in *.
  destruct (rx_len f <? _); [done|].
  apply res_bind_Done in E as (sa & Esa & E). destruct (rtw_get_stainfo _ sa) as [o|] eqn:Eg; [|done].
  apply get_used in Eg as Ho. apply res_bind_Done in E as (capab & _ & E). exists sa, o, re.
  assert (K : has WIFI_FW_AUTH_SUCCESS (state (sta_of a o)) = true \/ has WIFI_FW_ASSOC_SUCCESS (state (sta_of a o)) = true ->
    known a o) by (intros [Hs|Hs]; by eapply (has_state_known a o _ eq_refl)).
  destruct (negb _ && negb _) eqn:Eb; [done|].
  assert (Hs : has WIFI_FW_AUTH_SUCCESS (state (sta_of a o)) = true \/ has WIFI_FW_ASSOC_SUCCESS (state (sta_of a o)) = true)
    by (apply andb_false_iff in Eb as [Eb|Eb]; apply negb_false_iff in Eb; auto).
  apply res_bind_Done in E as ([s st] & Ec & E). pose proof (keeps_checks _ _ _ _ _ _ _ _ _ _ _ _ Ec) as Hk.
  eapply request_end_ok in E as (-> & _ & Ha); [|done|done|by apply K|exact Hk]. apply checks_ssid in Ec.
  split_and!; [done|done|done|by apply K| |done]. by destruct re.
Qed.
End association.

(** ** Open authentication *)

Definition in_pool (a : ap) (o : nat) : Prop := (o < length (stas (table a)))%nat /\ (o < length (mlme a))%nat.
Lemma inv_in_pool X a o : ap_inv_but X a -> o ∈ used a -> in_pool a o.
Proof.
  intros H Ho. pose proof (inv_used_lt _ _ _ H Ho) as Hl. split; [|by rewrite (ai_mlme _ _ H)].
  pose proof (ti_stas _ (ai_table _ _ H)) as Hs. cbn in Hs. by rewrite Hs.
Qed.

Lemma on_sta o g a : in_pool a o -> sta_of (on_aad (upd_sta o g) a) o = g (sta_of a o) /\ in_pool (on_aad (upd_sta o g) a) o.
Proof.
  intros [H1 H2]. split.
  - change (sta_of (on_aad (upd_sta o g) a) o) with (entry (upd_sta o g (aad a)) o).
    rewrite entry_upd, !decide_True; [done|exact H1|done].
  - split; [|exact H2]. change (o < length (alter g o (stas (table a))))%nat. by rewrite length_alter.
Qed.
Lemma on_mlme o g a : in_pool a o -> mlme_of (upd_mlme o g a) o = g (mlme_of a o) /\ in_pool (upd_mlme o g a) o.
Proof.
  intros [H1 H2]. split; [by rewrite mlme_upd, !decide_True|]. split; [exact H1|].
  change (o < length (alter g o (mlme a)))%nat. by rewrite length_alter.
Qed.

Lemma alloc_new c sa a : ap_inv a -> free_sta_queue (table a) <> [] ->
  exists o a1, alloc_sta c sa a = (a1, Some o) /\ (o ∉ used a) /\ o ∈ used a1 /\ in_pool a1 o /\
    hwaddr (sta_of a1 o) = sa /\ mlme_of a1 o = init_mlme /\ auth_list (table a1) = auth_list (table a) /\
    asoc_list a1 = asoc_list a /\ alog a1 = alog a.
Proof.
  intros H Hne. destruct (alloc_sta_inv c None sa a H Hne) as (o & E & H1 & U1 & N1 & L1 & G1).
  destruct (alloc_sta c sa a) as [a1 r] eqn:Ea. cbn [fst snd] in *. subst r.
  pose proof (inv_in_pool _ _ _ H1 U1) as HP. exists o, a1. split_and!; try done.
  all: unfold alloc_sta in Ea; destruct (free_sta_queue (table a)) as [|o' fr] eqn:Hfr; [done|];
    destruct (alloc_eq (cmyid c) (ciface c) sa (aad a) o' fr Hfr) as (j & mc & _ & Eq);
    rewrite Eq in Ea; injection Ea as <- ->; destruct HP as [P1 P2].
  - unfold sta_of, table. cbn. rewrite nth_insert_eq; [done|]. change (o < length (stas (table a)))%nat.
    pose proof (ti_stas _ (ai_table _ _ H)) as Hs. cbn in Hs. rewrite Hs. by eapply inv_used_lt.
  - unfold mlme_of. cbn. rewrite nth_insert_eq; [done|]. rewrite (ai_mlme _ _ H). by eapply inv_used_lt.
  - done.
Qed.

(** The station [auth_station] makes of a sender that the table does not have. *)
Lemma auth_station_new c sa a : ap_inv a -> rtw_get_stainfo (table a) sa = None -> free_sta_queue (table a) <> [] ->
  exists o a3, auth_station c sa a = (a3, Some o) /\ (o ∉ used a) /\ o ∈ used a3 /\ in_pool a3 o /\
    addr_of a3 o = sa /\ state (sta_of a3 o) = WIFI_FW_AUTH_NULL /\ mlme_of a3 o = init_mlme /\
    auth_list (table a3) = auth_list (table a) ++ [o] /\ asoc_list a3 = asoc_list a /\ alog a3 = alog a.
Proof.
  intros H Hg Hfree. destruct (alloc_new c sa a H Hfree) as (o & a1 & Ea & Nu & U1 & P1 & A1 & M1 & L1 & L2 & G1).
  set (a2 := upd_mlme o (set_auth_seq 0) (upd_state o (fun _ => WIFI_FW_AUTH_NULL) a1)).
  destruct (on_sta o (fun s => set_state WIFI_FW_AUTH_NULL s) a1 P1) as [S P].
  destruct (on_mlme o (set_auth_seq 0) _ P) as [M2 P2].
  change (mlme_of (on_aad _ a1) o) with (mlme_of a1 o) in M2. rewrite M1 in M2.
  assert (o ∉ auth_list (table a2)) as Hn.
  { change (o ∉ auth_list (table a1)). rewrite L1. intros Hin. apply Nu, (ai_used _ _ H). by left. }
  set (a3 := upd_expire o (fun _ => cauth_to c) (link_auth o a2)).
  assert (auth_station c sa a = (a3, Some o)) as Es.
  { unfold auth_station. rewrite Hg, Ea. fold a2.
    assert (mlme_of (link_auth o a2) o = mlme_of a2 o) as -> by (unfold link_auth; by rewrite decide_False).
    assert (mlme_of a2 o = init_mlme) as -> by exact M2. done. }
  set (a2' := upd_table (fun sp => set_auth_list (auth_list sp ++ [o]) (u8 (auth_list_cnt sp + 1)) sp) a2).
  assert (link_auth o a2 = a2') as El by (unfold link_auth; by rewrite decide_False).
  unfold a3 in Es. rewrite El in Es.
  destruct (on_sta o (fun s => set_ps (set_expire (cauth_to c) (ps s)) s) a2' P2) as [S3 P3].
  eexists o, _. split; [exact Es|]. unfold addr_of. split_and!; [done|exact U1|exact P3|..|exact M2| |exact L2|exact G1].
  - refine (eq_trans (f_equal hwaddr S3) _). refine (eq_trans (f_equal hwaddr S) A1).
  - refine (eq_trans (f_equal state S3) _). exact (f_equal state S).
  - by rewrite <- L1.
Qed.

(** The first message from it, and the reply. *)
Lemma open_message c m len o a3 : in_pool a3 o -> mlme_of a3 o = init_mlme -> state (sta_of a3 o) = WIFI_FW_AUTH_NULL ->
  auth_mode c = 0 \/ auth_mode c = 2 \/ auth_mode c = 3 ->
  exists a5, auth_message c m len o (auth_mode c) 0 1 a3 = Done (a5, _STATS_SUCCESSFUL_) /\
    let a' := auth_reply o 1 a5 in
    used a' = used a3 /\ addr_of a' o = addr_of a3 o /\ state (sta_of a' o) = WIFI_FW_AUTH_SUCCESS /\
    expire_to (ps (sta_of a' o)) = cassoc_to c /\ auth_list (table a') = auth_list (table a3) /\
    asoc_list a' = asoc_list a3 /\ alog a' = alog a3 ++ [IssueAuth (addr_of a3 o) 0 2 _STATS_SUCCESSFUL_ None].
Proof.
  intros P3 M3 T3 Hm. set (a4 := upd_expire o (fun _ => cassoc_to c) (upd_state o authenticated_state a3)).
  set (a5 := upd_mlme o (fun m => set_auth (auth_seq m) 0 (chg_txt m) m) a4).
  destruct (on_sta o (fun s => set_state (authenticated_state (state s)) s) _ P3) as [S P].
  destruct (on_sta o (fun s => set_ps (set_expire (cassoc_to c) (ps s)) s) _ P) as [S4 P4]. rewrite S, T3 in S4.
  change (sta_of (on_aad _ (on_aad _ a3)) o) with (sta_of a5 o) in S4.
  destruct (on_mlme o (fun m => set_auth (auth_seq m) 0 (chg_txt m) m) a4 P4) as [M5 P5].
  change (mlme_of a4 o) with (mlme_of a3 o) in M5. rewrite M3 in M5. fold a5 in M5, P5.
  destruct (on_mlme o (set_auth_seq (u32 (1 + 1))) a5 P5) as [M6 _]. rewrite M5 in M6.
  assert (addr_of a5 o = addr_of a3 o) as A5 by exact (f_equal hwaddr S4).
  set (a6 := upd_mlme o (set_auth_seq (u32 (1 + 1))) a5) in *.
  exists a5. split; [unfold auth_message; rewrite M3; cbn; by destruct Hm as [E|[E|E]]; rewrite E|].
  assert (auth_reply o 1 a5 = upd_mlme o (set_auth_seq 0) (say (IssueAuth (addr_of a3 o) 0 2 _STATS_SUCCESSFUL_ None) a6)) as ->.
  { unfold auth_reply. fold a6. change (addr_of a6 o) with (addr_of a5 o). change (sta_of a6 o) with (sta_of a5 o).
    change (sta_of (say _ a6) o) with (sta_of a5 o). by rewrite M6, A5, S4. }
  cbv zeta. split_and!; try done; [exact (f_equal state S4)|exact (f_equal (fun s => expire_to (ps s)) S4)].
Qed.

(** The first message of an open authentication from a station that the table does not have,
    that the access list admits and for which an entry is free, at an access point that does
    not require shared keys: the station gets a free entry with the sender's address, counts
    as authenticated, waits in the list of authenticating stations (and in no other) for the
    association with its time to expire, and is answered with message 2 and status 0. *)
Theorem open_authentication c f a sa fc : ap_inv a ->
  mlme_state c .& 3 = WIFI_FW_AP_STATE -> rdr (rx_data f) 10 6 = Done sa ->
  RTW_GET_LE16 (rx_data f) 0 = Done fc -> has _PRIVACY_ fc = false ->
  RTW_GET_LE16 (rx_data f) 24 = Done 0 -> RTW_GET_LE16 (rx_data f) 26 = Done 1 ->
  auth_mode c = 0 \/ auth_mode c = 2 \/ auth_mode c = 3 ->
  rtw_access_ctrl (table a) sa = true -> rtw_get_stainfo (table a) sa = None -> free_sta_queue (table a) <> [] ->
  exists o a', OnAuth c f a = Done (a', _SUCCESS) /\ ap_inv a' /\ (o ∉ used a) /\ o ∈ used a' /\
    addr_of a' o = sa /\ state (sta_of a' o) = WIFI_FW_AUTH_SUCCESS /\ expire_to (ps (sta_of a' o)) = cassoc_to c /\
    auth_list (table a') = auth_list (table a) ++ [o] /\ asoc_list a' = asoc_list a /\
    alog a' = alog a ++ [IssueAuth sa 0 2 _STATS_SUCCESSFUL_ None].
Proof.
  intros H Hap Esa Efc Hfc Ealg Eseq Hm Hacl Hg Hfree.
  destruct (auth_station_new c sa a H Hg Hfree) as (o & a3 & Es & Nu & U3 & P3 & A3 & T3 & M3 & L3 & L3' & G3).
  destruct (open_message c (rx_data f) (rx_len f) o a3 P3 M3 T3 Hm) as (a5 & Em & U & A & T & X & L & L' & G).
  assert (OnAuth c f a = Done (auth_reply o 1 a5, _SUCCESS)) as E.
  { assert ((auth_mode c =? 1) = false) as Hm1 by (by destruct Hm as [E|[E|E]]; rewrite E).
    unfold OnAuth, auth_decrypt. rewrite Hap, Esa, Efc. cbn -[Z.add]. rewrite Hfc. cbn -[Z.add].
    change (WLAN_HDR_A3_LEN + 0) with 24. rewrite Ealg. cbn -[Z.add]. change (24 + 2) with 26. rewrite Eseq.
    cbn -[Z.add auth_message auth_reply]. by rewrite Hm1, Hacl, Es, Em. }
  exists o, (auth_reply o 1 a5). split; [exact E|]. split; [by eapply OnAuth_inv|].
  rewrite U, A, L, L', G, A3. by rewrite <- L3, <- G3.
Qed.

(** ** Examples *)

(** An access point with open or shared key authentication, [ex_peer] as the station. *)
Definition ex_cfg (mode privacy : Z) : ap_cfg :=
  ApCfg ex_env 3 true mode privacy 4 4 30 false false ex_me ex_me 0 true 0.
Definition ex_assoc_cfg : assoc_cfg := AssocCfg [65; 66] 0 0 0 0 0 false false 32 false true.
Definition ex_down : ap :=
  Ap (mk_psw ex_adapter []) [] [] 0 (ex_bss start_ap_counts 0 0 0) (ex_sec false) crc32_globals0 [].
Definition ex_up (mode privacy : Z) : ap := ap_init (ex_cfg mode privacy) ex_down.

Definition ex_frame (fc : Z) (body : bytes) : recv_frame :=
  let m := [fc; 0; 0; 0] ++ ex_me ++ ex_peer ++ ex_me ++ [0; 0] ++ body in
  mk_recv 0 0 0 0 false ex_me ex_peer m (zlen m).
Definition ex_auth (alg seq : Z) (rest : bytes) : recv_frame := ex_frame 0xb0 ([alg; 0; seq; 0; 0; 0] ++ rest).
Definition ex_assoc (ssid : bytes) : recv_frame :=
  ex_frame 0 ([0; 0; 0; 0] ++ encode [(0, ssid); (1, [2; 4; 11; 22])]).

Definition after (r : res (ap * Z)) (a : ap) : ap := match r with Done (a, _) => a | _ => a end.
Definition ex_open : ap := let a := ex_up 0 0 in after (OnAuth (ex_cfg 0 0) (ex_auth 0 1 []) a) a.
Definition ex_joined : ap :=
  after (OnAssocReq (ex_cfg 0 0) ex_assoc_cfg (fun _ _ => 0) 0 (ex_assoc [65; 66]) ex_open) ex_open.
Definition is_done {A} (r : res (A * Z)) (n : Z) : Prop := match r with Done (_, m) => m = n | _ => False end.

Definition ex_shared_cfg : ap_cfg := ex_cfg 1 _WEP40_.

Lemma ex_auth_done : OnAuth (ex_cfg 0 0) (ex_auth 0 1 []) (ex_up 0 0) = Done (ex_open, _SUCCESS).
Proof. vm_compute. reflexivity. Qed.
Lemma ex_assoc_done : OnAssocReq (ex_cfg 0 0) ex_assoc_cfg (fun _ _ => 0) 0 (ex_assoc [65; 66]) ex_open = Done (ex_joined, _SUCCESS).
Proof. vm_compute. reflexivity. Qed.
Lemma ex_open_inv : ap_inv ex_open.
Proof. exact (OnAuth_inv (ex_cfg 0 0) _ _ _ _ (ap_init_inv (ex_cfg 0 0) ex_down) ex_auth_done). Qed.

Lemma ap_run_invariant_witness :
  asoc_list ex_joined = [1%nat] /\ asoc_list_cnt ex_joined = 1 /\ auth_list (table ex_joined) = [] /\
  admitted ex_peer (alog ex_joined) /\ num_sta_non_erp (counts (abss ex_joined)) = 1 /\
  tally (flagged NonErp) (used ex_joined) (map caps (mlme ex_joined)) <= 1.
Proof.
  assert (rtc ap_step (ap_init (ex_cfg 0 0) ex_down) ex_joined) as Hr.
  { eapply rtc_l; [exact (step_auth _ _ _ _ _ ex_auth_done)|].
    apply rtc_once. exact (step_assoc (ex_cfg 0 0) ex_assoc_cfg (fun _ _ => 0) 0%nat _ _ _ _ (Z.le_refl 32) ex_assoc_done). }
  destruct (ap_run_invariant _ _ _ Hr) as (_ & _ & H2 & H3 & H4 & _ & H6).
  assert (asoc_list ex_joined = [1%nat]) as E by (vm_compute; reflexivity).
  assert (num_sta_non_erp (counts (abss ex_joined)) = 1) as En by (vm_compute; reflexivity).
  assert (1%nat ∈ asoc_list ex_joined) as Hin by (rewrite E; left).
  split; [exact E|]. split; [by rewrite H2, E|]. split; [vm_compute; reflexivity|].
  split; [exact (H4 1%nat (H3 1%nat (or_intror Hin)) (or_introl Hin))|]. split; [exact En|].
  rewrite <- En. exact (H6 NonErp).
Defined.

Lemma association_accepted_witness : exists o re,
  rtw_get_stainfo (table ex_open) ex_peer = Some o /\ ssid_matches ex_assoc_cfg (rx_data (ex_assoc [65; 66])) 28 10 /\
  associated ex_open ex_joined o re.
Proof.
  destruct (association_accepted (ex_cfg 0 0) ex_assoc_cfg (fun _ _ => 0) 0%nat (Z.le_refl 32)
    (ex_assoc [65; 66]) ex_open ex_joined ex_open_inv ex_assoc_done) as (sa & o & re & Es & Eg & _ & _ & _ & Ha).
  vm_compute in Es. injection Es as <-. exists o, re. split; [exact Eg|]. split; [|exact Ha].
  exists 28. split; [vm_compute; reflexivity|]. split; [vm_compute; reflexivity|discriminate].
Defined.

Lemma open_authentication_witness : exists o a',
  OnAuth (ex_cfg 0 0) (ex_auth 0 1 []) (ex_up 0 0) = Done (a', _SUCCESS) /\
  state (sta_of a' o) = WIFI_FW_AUTH_SUCCESS /\ alog a' = [IssueAuth ex_peer 0 2 0 None].
Proof.
  destruct (open_authentication (ex_cfg 0 0) (ex_auth 0 1 []) (ex_up 0 0) ex_peer 0xb0) as
    (o & a' & E & _ & _ & _ & _ & H1 & _ & _ & _ & H2); try (vm_compute; reflexivity).
  - apply ap_init_inv.
  - left. vm_compute. reflexivity.
  - vm_compute. discriminate.
  - exists o, a'. split; [exact E|]. split; [exact H1|]. rewrite H2. vm_compute. reflexivity.
Defined.

(** *** What the code does not mean to do *)

(** Shared key authentication needs no key: the challenge is 128 times the same byte, and
    the third message is accepted in clear, when the challenge follows four bytes after
    where it stands in a frame that is not encrypted. *)
Example shared_key_needs_no_key :
  let a0 := ex_up 1 _WEP40_ in
  let a1 := after (OnAuth ex_shared_cfg (ex_auth 1 1 []) a0) a0 in
  let r := OnAuth ex_shared_cfg (ex_auth 1 3 ([0; 0; 0; 0; 16; 128] ++ replicate 128 78)) a1 in
  is_done r _SUCCESS /\ state (sta_of (after r a1) 1) = WIFI_FW_AUTH_SUCCESS.
Proof. vm_compute. by split. Qed.

(** A station associated with an 802.11b rate set that begins a new authentication with a
    wrong message is freed without a word; the count of such stations stays 1. *)
Example failed_authentication_leaves_count :
  let a := after (OnAuth (ex_cfg 0 0) (ex_auth 0 2 []) ex_joined) ex_joined in
  asoc_list a = [] /\ used a = [0%nat] /\ num_sta_non_erp (counts (abss a)) = 1 /\
  (forall addr reason, DelStaEvent addr reason ∉ alog a).
Proof.
  split_and!; [vm_compute; reflexivity..|]. intros addr reason.
  set (l := alog _). vm_compute in l. subst l. intros Hin. repeat apply elem_of_cons in Hin as [Hin|Hin]; try done.
  by apply elem_of_nil in Hin.
Qed.

(** A reassociation with another SSID is refused, but the station stays associated with
    the id 0, and the slot of its id stays taken. *)
Example failed_association_leaves_id :
  let r := OnAssocReq (ex_cfg 0 0) ex_assoc_cfg (fun _ _ => 0) 0 (ex_assoc [65; 67]) ex_joined in
  let a := after r ex_joined in
  is_done r _FAIL /\ asoc_list a = [1%nat] /\ aid (sta_of a 1) = 0 /\ sta_aid (table a) !! 0%nat = Some (Some 1%nat).
Proof. vm_compute. by split_and!. Qed.
