(* ===== verification/MgtDispatch.v ===== *)
(** * Dispatch of management frames (src/core/rtw_mlme_ext.c)

    [mgt_dispatcher] chooses the handler of a received management frame in the table
    [mlme_sta_tbl], which it also writes; duplicates are dropped by the sequence number of the
    last frame of the station.  [rtw_hostapd_mlme_rx] does nothing in this configuration
    (CONFIG_NATIVEAP_MLME) and is left out.  The second part runs the handlers of an access
    point (ApAuth, ApAssoc) as the dispatcher calls them. *)

From stdpp Require Import relations.
From S2P Require Import Prelude Ie Crc32 RxFrame Reorder MacId StaMgt TxQueue PowerSave SecFrames ApCap ApAuth ApAssoc ApInv ApRun.

(** ** Data *)

Definition WIFI_REASSOCREQ : Z := 0x20.
Definition WIFI_AUTH : Z := 0xb0.
Definition _RETRY_ : Z := 0x800.

(** The functions of [mlme_sta_tbl], and the two that [mgt_dispatcher] writes into it. *)
Inductive mlme_func :=
  | F_OnAssocReq | F_OnAssocRsp | F_OnProbeReq | F_OnProbeRsp | F_DoReserved | F_OnBeacon | F_OnAtim
  | F_OnDisassoc | F_OnAuth | F_OnAuthClient | F_OnDeAuth | F_OnAction.

Definition mlme_sta_tbl : list mlme_func :=
  [F_OnAssocReq; F_OnAssocRsp; F_OnAssocReq; F_OnAssocRsp; F_OnProbeReq; F_OnProbeRsp; F_DoReserved; F_DoReserved;
   F_OnBeacon; F_OnAtim; F_OnDisassoc; F_OnAuthClient; F_OnDeAuth; F_OnAction; F_OnAction].

(** The state it changes: the table, the station table and
    [dbg_rx_dup_mgt_frame_drop_count]. *)
Record mgt := Mgt { tbl : list mlme_func; mgt_ad : adapter; dup_mgt_drops : Z }.

Definition set_mgt_seq (n : Z) (s : sta_info) : sta_info :=
  mk_sta (hwaddr s) (state s) (aid s) (mac_id s) (ieee8021x_blocked s) (dot118021x_UncstKey s)
    (dot11tkiprxmickey s) (sleep_q s) (sleepq_len s) (servqs s) (defrag_q s) (tid_rxseq s)
    (recvreorder_ctrl s) (addba_retry_timer s) n (ps s).

(** ** Dispatch *)

Section dispatch.
(** [myid], and whether [fw_state] has [WIFI_AP_STATE]. *)
Context (my : bytes) (ap_mode : bool).

Definition for_us (a1 : bytes) : bool := bool_decide (a1 = my) || bool_decide (a1 = bc_addr).

(** [_mgt_dispatcher]: the function called, if any. *)
Definition _mgt_dispatcher (func : option mlme_func) (m : bytes) : res (option mlme_func) :=
  a1 ← rdr m 4 6; Done (if for_us a1 then func else None).

(** The duplicate check: [None] for a frame that is dropped. *)
Definition mgt_duplicate (psta : option nat) (fc seq_num : Z) (x : mgt) : mgt * bool :=
  match psta with
  | Some o =>
      let last := RxMgmtFrameSeqNum (nth o (stas (stapriv (mgt_ad x))) _rtw_init_stainfo) in
      if has _RETRY_ fc && (seq_num =? last) then (Mgt (tbl x) (mgt_ad x) (dup_mgt_drops x + 1), true)
      else (Mgt (tbl x) (upd_sta o (set_mgt_seq seq_num) (mgt_ad x)) (dup_mgt_drops x), false)
  | None => (x, false)
  end.

Definition mgt_dispatcher (m : bytes) (seq_num : Z) (x : mgt) : res (mgt * option mlme_func) :=
  a2 ← rdr m 10 6;
  let psta := rtw_get_stainfo (stapriv (mgt_ad x)) a2 in
  fc ← RTW_GET_LE16 m 0;
  if negb (fc .& 0xc =? 0) then Done (x, None)
  else
    a1 ← rdr m 4 6;
    if negb (for_us a1) then Done (x, None)
    else
      let subtype := fc .& 0xfc in
      let index := subtype .>> 4 in
      if zlen (tbl x) <=? index then Done (x, None)
      else
        let '(x, dup) := mgt_duplicate psta fc seq_num x in
        if dup then Done (x, None)
        else if (subtype =? WIFI_AUTH) || (subtype =? WIFI_ASSOCREQ) || (subtype =? WIFI_REASSOCREQ) then
          let func := if ap_mode then F_OnAuth else F_OnAuthClient in
          let x := Mgt (<[Z.to_nat index := func]> (tbl x)) (mgt_ad x) (dup_mgt_drops x) in
          if (subtype =? WIFI_ASSOCREQ) || (subtype =? WIFI_REASSOCREQ) then
            f ← _mgt_dispatcher (tbl x !! Z.to_nat index) m; Done (x, f)
          else Done (x, None)
        else f ← _mgt_dispatcher (tbl x !! Z.to_nat index) m; Done (x, f).
End dispatch.

(** ** Which handler is called *)

(** The entries of the table that the dispatcher does not write are the initial ones. *)
Definition written (i : nat) : Prop := i = 0%nat \/ i = 2%nat \/ i = 11%nat.
Definition table_kept (t : list mlme_func) : Prop :=
  length t = 15%nat /\ forall i, ~ written i -> t !! i = mlme_sta_tbl !! i.

(** What is called for a frame of a subtype that is not a duplicate. *)
Definition called (ap_mode : bool) (subtype : Z) : option mlme_func :=
  if subtype =? WIFI_AUTH then None
  else if (subtype =? WIFI_ASSOCREQ) || (subtype =? WIFI_REASSOCREQ) then Some (if ap_mode then F_OnAuth else F_OnAuthClient)
  else mlme_sta_tbl !! Z.to_nat (subtype .>> 4).

Definition is_duplicate (psta : option nat) (fc seq_num : Z) (d : adapter) : bool :=
  match psta with
  | Some o => has _RETRY_ fc && (seq_num =? RxMgmtFrameSeqNum (nth o (stas (stapriv d)) _rtw_init_stainfo))
  | None => false
  end.

Lemma duplicate_spec psta fc seq x x' dup : mgt_duplicate psta fc seq x = (x', dup) ->
  dup = is_duplicate psta fc seq (mgt_ad x) /\ tbl x' = tbl x.
Proof. unfold mgt_duplicate, is_duplicate. destruct psta as [o|]; [destruct (_ && _)|]; by intros [= <- <-]. Qed.

Lemma kept_insert i g t : written i -> table_kept t -> table_kept (<[i := g]> t).
Proof.
  intros Hi [H1 H2]. split; [by rewrite length_insert|]. intros j Hj. rewrite list_lookup_insert_ne; [by apply H2|].
  by intros ->.
Qed.

(** A subtype is one of sixteen. *)
Definition subtype_ok (n : nat) : bool :=
  let b := Z.of_nat n in negb (b .& 0xc =? 0) || (b .& 0xfc =? ((b .& 0xfc) .>> 4) * 16) && ((b .& 0xfc) .>> 4 <? 16).
Lemma subtypes fc : fc .& 0xc = 0 -> exists i : nat, (i < 16)%nat /\ fc .& 0xfc = Z.of_nat i * 16.
Proof.
  intros H. set (b := fc mod 256). assert (0 <= b < 256) as Hb by (apply Z.mod_pos_bound; lia).
  assert (E : forall k, 0 <= k < 256 -> b .& k = fc .& k).
  { intros k Hk. unfold b. change 256 with (2 ^ 8). rewrite <- (land_ones_mod fc 8) by done. rewrite <- Z.land_assoc.
    f_equal. rewrite Z.land_comm. rewrite land_ones_mod by done. by apply Z.mod_small. }
  assert (forallb subtype_ok (seq 0 256) = true) as Hall by (vm_compute; reflexivity).
  rewrite forallb_forall in Hall. specialize (Hall (Z.to_nat b)).
  rewrite in_seq in Hall. specialize (Hall ltac:(lia)). unfold subtype_ok in Hall. rewrite Z2Nat.id in Hall by lia.
  rewrite !E in Hall by lia. rewrite H in Hall. cbn [Z.eqb negb orb] in Hall. apply andb_true_iff in Hall as [H1 H2].
  apply Z.eqb_eq in H1. apply Z.ltb_lt in H2. assert (0 <= fc .& 252) by (apply Z.land_nonneg; lia).
  exists (Z.to_nat ((fc .& 252) .>> 4)). lia.
Qed.

Lemma dispatch_spec my ap_mode m seq x a1 a2 fc : table_kept (tbl x) ->
  rdr m 10 6 = Done a2 -> RTW_GET_LE16 m 0 = Done fc -> rdr m 4 6 = Done a1 ->
  exists x' f, mgt_dispatcher my ap_mode m seq x = Done (x', f) /\ table_kept (tbl x') /\
    f = (if (fc .& 0xc =? 0) && for_us my a1 && negb (is_duplicate (rtw_get_stainfo (stapriv (mgt_ad x)) a2) fc seq (mgt_ad x))
         then called ap_mode (fc .& 0xfc) else None).
Proof.
  intros Ht E2 Efc E1. unfold mgt_dispatcher, _mgt_dispatcher. rewrite E2. cbn [mbind res_bind]. rewrite Efc.
  cbn [mbind res_bind]. rewrite E1. cbn [mbind res_bind].
  destruct (Z.eqb_spec (fc .& 0xc) 0) as [Hc|]; cbn [negb andb]; [|by exists x, None].
  destruct (for_us my a1); cbn [negb andb]; [|by exists x, None].
  destruct (subtypes fc Hc) as (i & Hi & Es). rewrite Es.
  assert (Hshift : (Z.of_nat i * 16) .>> 4 = Z.of_nat i) by (rewrite Z.shiftr_div_pow2 by lia; by apply Z.div_mul).
  destruct (mgt_duplicate _ fc seq x) as [x' dup] eqn:Ed. apply duplicate_spec in Ed as [<- Etbl].
  assert (table_kept (tbl x')) as Ht' by by rewrite Etbl.
  pose proof Ht' as [Hl Hsame]. rewrite Etbl in Hl. unfold zlen. rewrite Hl, Hshift. rewrite !Nat2Z.id.
  destruct (decide (i = 15%nat)) as [->|H15]; [exists x, None; by destruct dup, ap_mode|].
  rewrite (proj2 (Z.leb_gt (Z.of_nat 15) (Z.of_nat i))) by lia.
  destruct dup; cbn [negb]; [by exists x', None|]. rewrite <- Etbl in Hl.
  assert (Hcall : written i \/ ~ written i /\ called ap_mode (Z.of_nat i * 16) = mlme_sta_tbl !! i /\
    (Z.of_nat i * 16 =? WIFI_AUTH) || (Z.of_nat i * 16 =? WIFI_ASSOCREQ) || (Z.of_nat i * 16 =? WIFI_REASSOCREQ) = false /\
    mlme_sta_tbl !! i <> Some F_OnAssocReq /\ Z.of_nat i * 16 <> WIFI_AUTH).
  { clear -Hi. do 16 (destruct i as [|i]; [first [left; unfold written; lia|right; split; [unfold written; lia|by vm_compute; split_and!]]|]). lia. }
  destruct Hcall as [Hw|(Hw & E & -> & Hne & Hna)].
  - set (g := if ap_mode then F_OnAuth else F_OnAuthClient).
    pose proof (kept_insert i g _ Hw Ht') as Hk. assert (<[i := g]> (tbl x') !! i = Some g) as Hg.
    { apply list_lookup_insert_eq. destruct Hw as [->|[-> | ->]]; lia. }
    destruct Hw as [->|[-> | ->]]; cbn -[insert lookup table_kept]; rewrite ?Hg; eexists _, _; (split; [reflexivity|]);
      (split; [exact Hk|]); done.
  - eexists _, _. split; [reflexivity|]. rewrite E, Hsame by done. done.
Qed.


Lemma called_never ap_mode fc b d : (if (fc .& 0xc =? 0) && b && d then called ap_mode (fc .& 0xfc) else None) <> Some F_OnAssocReq.
Proof.
  destruct (_ && _) eqn:Ec; [|done]. apply andb_true_iff in Ec as [[Ec _]%andb_true_iff _]. apply Z.eqb_eq in Ec.
  destruct (subtypes fc Ec) as (i & Hi & ->). clear -Hi. do 16 (destruct i as [|i]; [by destruct ap_mode|]). lia.
Qed.

(** C14: The dispatcher calls [called]'s handler for a management frame that is addressed to the
    adapter or broadcast and no duplicate, and none for others, whatever frames it was given
    before.  In particular an authentication frame reaches no handler, and no frame reaches
    [OnAssocReq]: the entry of an association request is overwritten by [OnAuth] at an access
    point and by [OnAuthClient] elsewhere. *)
Theorem mgt_dispatcher_calls my ap_mode m seq x a1 a2 fc : table_kept (tbl x) ->
  rdr m 10 6 = Done a2 -> RTW_GET_LE16 m 0 = Done fc -> rdr m 4 6 = Done a1 ->
  exists x' f, mgt_dispatcher my ap_mode m seq x = Done (x', f) /\ table_kept (tbl x') /\
    f = (if (fc .& 0xc =? 0) && for_us my a1 && negb (is_duplicate (rtw_get_stainfo (stapriv (mgt_ad x)) a2) fc seq (mgt_ad x))
         then called ap_mode (fc .& 0xfc) else None) /\
    f <> Some F_OnAssocReq /\ (fc .& 0xfc = WIFI_AUTH -> f = None).
Proof.
  intros Ht E2 Efc E1. destruct (dispatch_spec my ap_mode m seq x a1 a2 fc Ht E2 Efc E1) as (x' & f & E & Ht' & Ef).
  exists x', f. split_and!; [done..|rewrite Ef; apply called_never|].
  intros Es. rewrite Ef, Es. by destruct (_ && _).
Qed.

(** ** An access point behind the dispatcher *)

(** The handler called, where it is one of ApAuth and ApAssoc.  The others (probe requests,
    beacons, action frames) change neither list of stations; they are left out. *)
Definition run_func (c : ap_cfg) (ac : assoc_cfg) (p2p_ie : bytes -> Z -> Z) (fuel : nat)
    (call : option mlme_func) (f : recv_frame) (a : ap) : res ap :=
  match call with
  | Some F_OnAuth => '(a, _) ← OnAuth c f a; Done a
  | Some F_OnAssocReq => '(a, _) ← OnAssocReq c ac p2p_ie fuel f a; Done a
  | Some F_OnDeAuth => '(a, _) ← OnDeAuth c f a; Done a
  | Some F_OnDisassoc => '(a, _) ← OnDisassoc c f a; Done a
  | _ => Done a
  end.

(** [mlme_sta_tbl] and the count of duplicates with the access point. *)
Record mgt_ap := MgtAp { func_tbl : list mlme_func; dups : Z; the_ap : ap }.

Definition recv_mgt (c : ap_cfg) (ac : assoc_cfg) (p2p_ie : bytes -> Z -> Z) (fuel : nat) (f : recv_frame) (seq : Z)
    (x : mgt_ap) : res mgt_ap :=
  '(d, call) ← mgt_dispatcher (cmyid c) (is_ap c) (rx_data f) seq (Mgt (func_tbl x) (aad (the_ap x)) (dups x));
  a ← run_func c ac p2p_ie fuel call f (on_aad (fun _ => mgt_ad d) (the_ap x));
  Done (MgtAp (tbl d) (dup_mgt_drops d) a).

Inductive mgt_ap_step : mgt_ap -> mgt_ap -> Prop :=
  | ms_frame c ac p2p_ie fuel f seq x x' : recv_mgt c ac p2p_ie fuel f seq x = Done x' -> mgt_ap_step x x'
  | ms_expire c alive acks t n a a' : expire_timeout_chk c alive acks a = Done a' ->
      mgt_ap_step (MgtAp t n a) (MgtAp t n a')
  | ms_flush c t n a a' : rtw_sta_flush c a = Done a' -> mgt_ap_step (MgtAp t n a) (MgtAp t n a').

Lemma dispatcher_call my ap_mode m seq x x' f : table_kept (tbl x) ->
  mgt_dispatcher my ap_mode m seq x = Done (x', f) -> table_kept (tbl x') /\ f <> Some F_OnAssocReq.
Proof.
  intros Ht E. pose proof E as E0. unfold mgt_dispatcher in E0.
  apply res_bind_Done in E0 as (a2 & E2 & E0). apply res_bind_Done in E0 as (fc & Efc & E0).
  destruct (negb _) in E0; [by simplify_eq|]. apply res_bind_Done in E0 as (a1 & E1 & _).
  destruct (dispatch_spec my ap_mode m seq x a1 a2 fc Ht E2 Efc E1) as (x1 & f1 & E' & Ht' & Ef).
  rewrite E in E'. injection E' as <- <-. split; [done|]. rewrite Ef. apply called_never.
Qed.

Definition no_assoc (a : ap) : Prop := asoc_list a = [].

Lemma expel_none c o active reason a a' u : no_assoc a -> expel c o active reason a = Done (a', u) -> a' = a.
Proof.
  unfold no_assoc, expel. intros H. destruct (decide _) as [Ho|]; [|by intros [= <- _]].
  rewrite H in Ho. by apply elem_of_nil in Ho.
Qed.

Lemma quiet_no_assoc a a' : quiet a a' -> no_assoc a -> no_assoc a'.
Proof. unfold no_assoc. intros Hq <-. apply Hq. Qed.

Lemma alloc_no_assoc c sa a : no_assoc a -> no_assoc (alloc_sta c sa a).1.
Proof. intros H. unfold alloc_sta. destruct (rtw_alloc_stainfo _ _ _ _) as [d [o|]]; exact H. Qed.

Lemma auth_station_no_assoc c sa a : no_assoc a -> no_assoc (auth_station c sa a).1.
Proof.
  intros H. unfold auth_station.
  assert (K : forall a1 o, no_assoc a1 -> no_assoc
    (if auth_seq (mlme_of (link_auth o a1) o) =? 0 then upd_expire o (fun _ => cauth_to c) (link_auth o a1) else link_auth o a1)).
  { intros a1 o H1. assert (no_assoc (link_auth o a1)) by (unfold link_auth; by destruct (decide _)). by destruct (_ =? 0). }
  destruct (rtw_get_stainfo (table a) sa) as [o|].
  - apply K. unfold unlink_asoc. destruct (decide _) as [Ho|]; [|done]. rewrite H in Ho. by apply elem_of_nil in Ho.
  - apply (alloc_no_assoc c sa) in H. destruct (alloc_sta c sa a) as [a1 [o|]]; [|exact H]. by apply K.
Qed.

Lemma auth_message_no_assoc c m len o mode alg seq a a' st : no_assoc a ->
  auth_message c m len o mode alg seq a = Done (a', st) -> no_assoc a'.
Proof.
  unfold auth_message. intros H. destruct (negb _); [by intros [= <- <-]|].
  destruct (_ && _); [by destruct (seq =? 1); intros [= <- <-]|].
  destruct (seq =? 1); [by intros [= <- <-]|]. destruct (seq =? 3); [|by intros [= <- <-]].
  intros ([[p|] ie_len] & _ & E)%res_bind_Done; [|by simplify_eq].
  destruct (ie_len =? 0); [by simplify_eq|].
  apply res_bind_Done in E as (same & _ & E). by destruct same; simplify_eq.
Qed.

Lemma OnAuth_no_assoc c f a a' r : no_assoc a -> OnAuth c f a = Done (a', r) -> no_assoc a'.
Proof.
  unfold OnAuth. intros H. destruct (negb _); [by intros [= <- <-]|].
  intros (sa & _ & E)%res_bind_Done. apply res_bind_Done in E as ([[f1 off] a1] & Ed%auth_decrypt_quiet & E).
  apply (quiet_no_assoc _ _ Ed) in H. clear Ed.
  apply res_bind_Done in E as (alg & _ & E). apply res_bind_Done in E as (seq & _ & E).
  destruct (_ || _) in E; [by simplify_eq|]. destruct (negb _) in E; [by simplify_eq|].
  apply (auth_station_no_assoc c sa) in H. destruct (auth_station c sa a1) as [a2 [o|]]; [|by simplify_eq].
  apply res_bind_Done in E as ([a3 st] & E3 & E). apply (auth_message_no_assoc _ _ _ _ _ _ _ _ _ _ H) in E3.
  destruct (st =? _); simplify_eq; [|done]. unfold auth_reply. by destruct (has _ _).
Qed.

Lemma left_no_assoc c sa reason a a' : no_assoc a -> sta_left c sa reason a = Done a' -> no_assoc a'.
Proof.
  intros H. unfold sta_left. destruct (rtw_get_stainfo _ _) as [o|]; [|by intros [= <-]].
  intros ([a1 u] & E & [= <-])%res_bind_Done. apply (expel_none _ _ _ _ _ _ _ H) in E as ->.
  by eapply quiet_no_assoc; [apply quiet_clients|].
Qed.

Lemma expire_auths_no_assoc c os : forall a, no_assoc a -> no_assoc (fold_left (fun a o => expire_auth c o a) os a).
Proof.
  induction os as [|o os IH]; intros a H; cbn [fold_left]; [done|]. apply IH. unfold expire_auth.
  destruct (0 <? _); [|done]. destruct (_ =? 0); [|done]. unfold unlink_auth. by destruct (decide _).
Qed.

Lemma expire_no_assoc c alive acks a a' : no_assoc a -> expire_timeout_chk c alive acks a = Done a' -> no_assoc a'.
Proof.
  intros H. unfold expire_timeout_chk. set (a1 := fold_left _ _ _).
  assert (no_assoc a1) as H1 by by apply expire_auths_no_assoc. rewrite H1. cbn [expire_asocs keep_alives mbind res_bind].
  by intros [= <-].
Qed.

Lemma flush_no_assoc c a a' : no_assoc a -> rtw_sta_flush c a = Done a' -> no_assoc a'.
Proof.
  intros H. unfold rtw_sta_flush. destruct (negb _); [by intros [= <-]|]. rewrite H. cbn [flush_loop mbind res_bind].
  intros [= <-]. exact (quiet_no_assoc _ _ (quiet_clients c true (say _ a)) H).
Qed.

Lemma leave_no_assoc c f a a' r : no_assoc a -> (OnDeAuth c f a = Done (a', r) \/ OnDisassoc c f a = Done (a', r)) -> no_assoc a'.
Proof.
  intros H. unfold OnDeAuth, OnDisassoc. intros [E|E]; apply res_bind_Done in E as (a3 & _ & E);
    (destruct (negb _) in E; [by simplify_eq|]); apply res_bind_Done in E as (reason & _ & E);
    (destruct (is_ap c); [apply res_bind_Done in E as (sa & _ & E); apply res_bind_Done in E as (a1 & E & [= <- _]);
      by eapply left_no_assoc|]); [by destruct (_ && _) in E; simplify_eq|by simplify_eq].
Qed.

Lemma run_func_no_assoc c ac p2p_ie fuel call f a a' : call <> Some F_OnAssocReq -> no_assoc a ->
  run_func c ac p2p_ie fuel call f a = Done a' -> no_assoc a'.
Proof.
  intros Hc H. destruct call as [[]|]; cbn [run_func]; try (by intros [= <-]); [done|..];
    intros ([a1 r] & E & [= <-])%res_bind_Done; [by eapply leave_no_assoc; [|right]|by eapply OnAuth_no_assoc|
      by eapply leave_no_assoc; [|left]].
Qed.

Lemma quiet_mgt_seq c f seq x d call : mgt_dispatcher (cmyid c) (is_ap c) (rx_data f) seq (Mgt (func_tbl x) (aad (the_ap x)) (dups x)) = Done (d, call) ->
  quiet (the_ap x) (on_aad (fun _ => mgt_ad d) (the_ap x)).
Proof.
  intros E. apply quiet_on_aad. unfold mgt_dispatcher in E.
  apply res_bind_Done in E as (a2 & _ & E). apply res_bind_Done in E as (fc & _ & E).
  destruct (negb _) in E; [by simplify_eq|]. apply res_bind_Done in E as (a1 & _ & E).
  destruct (negb _) in E; [by simplify_eq|]. destruct (_ <=? _) in E; [by simplify_eq|].
  destruct (mgt_duplicate _ fc seq _) as [x1 dup] eqn:Ed.
  assert (calm (aad (the_ap x)) (mgt_ad x1)) as Hc.
  { unfold mgt_duplicate in Ed. destruct (rtw_get_stainfo _ _); [|by simplify_eq].
    destruct (_ && _) in Ed; simplify_eq; [done|]. cbn. calm_fields. }
  destruct dup; [by simplify_eq|]. destruct (_ || _) in E; [destruct (_ || _) in E|]; [|by simplify_eq|];
    by apply res_bind_Done in E as (g & _ & [= <- _]).
Qed.

(** C15: An access point that receives its management frames from the dispatcher never has an
    associated station, whatever frames come and whatever time passes: authentication
    frames are not handled, and association requests are handled as authentications. *)
Theorem no_station_associates c a0 t n x : table_kept t ->
  rtc mgt_ap_step (MgtAp t n (ap_init c a0)) x -> asoc_list (the_ap x) = [] /\ table_kept (func_tbl x).
Proof.
  intros Ht Hr. change (no_assoc (the_ap x) /\ table_kept (func_tbl x)).
  assert (H0 : no_assoc (the_ap (MgtAp t n (ap_init c a0))) /\ table_kept (func_tbl (MgtAp t n (ap_init c a0)))).
  { split; [|done]. rewrite start_alloc. by apply alloc_no_assoc. }
  revert H0. induction Hr as [|x y z Hs _ IH]; [done|]. intros [Ha Hk]. apply IH. clear IH.
  destruct Hs as [c' ac p2p_ie fuel f seq x x' E|c' alive acks t' n' a a' E|c' t' n' a a' E].
  - unfold recv_mgt in E. apply res_bind_Done in E as ([d call] & Ed & E).
    apply res_bind_Done in E as (a & E & [= <-]). pose proof (quiet_mgt_seq _ _ _ _ _ _ Ed) as Q.
    apply dispatcher_call in Ed as [Hk' Hc]; [|done]. split; [|done].
    eapply run_func_no_assoc; [exact Hc| |exact E]. by eapply quiet_no_assoc.
  - split; [|done]. by eapply expire_no_assoc.
  - split; [|done]. by eapply flush_no_assoc.
Qed.

(** ** Examples *)

Lemma initial_table_kept : table_kept mlme_sta_tbl.
Proof. by split. Qed.

Definition ex_mgt : mgt := Mgt mlme_sta_tbl (aad (ex_up 0 0)) 0.

(** An association request to an access point: the first entry becomes [OnAuth]. *)
Lemma mgt_dispatcher_calls_witness : exists x,
  mgt_dispatcher ex_me true (rx_data (ex_assoc [65; 66])) 7 ex_mgt = Done (x, Some F_OnAuth) /\
  table_kept (tbl x) /\ tbl x !! 0%nat = Some F_OnAuth.
Proof.
  destruct (mgt_dispatcher_calls ex_me true (rx_data (ex_assoc [65; 66])) 7 ex_mgt ex_me ex_peer 0 initial_table_kept)
    as (x & f & E & Ht & Ef & _); [vm_compute; reflexivity..|].
  assert (f = Some F_OnAuth) as -> by (rewrite Ef; vm_compute; reflexivity).
  exists x. split; [exact E|]. split; [exact Ht|]. vm_compute in E. injection E as <-. reflexivity.
Defined.

(** An authentication and an association request arrive. *)
Definition ex_mgt_ap : mgt_ap := MgtAp mlme_sta_tbl 0 (ex_up 0 0).
Definition ex_recv (f : recv_frame) (x : mgt_ap) : mgt_ap :=
  match recv_mgt (ex_cfg 0 0) ex_assoc_cfg (fun _ _ => 0) 0 f 7 x with Done x => x | _ => x end.

Lemma no_station_associates_witness :
  let x := ex_recv (ex_assoc [65; 66]) (ex_recv (ex_auth 0 1 []) ex_mgt_ap) in
  asoc_list (the_ap x) = [] /\ alog (the_ap x) = [IssueAuth ex_peer 0 2 _STATS_OUT_OF_AUTH_SEQ_ None].
Proof.
  intros x. split; [|vm_compute; reflexivity].
  refine (proj1 (no_station_associates (ex_cfg 0 0) ex_down mlme_sta_tbl 0 x initial_table_kept _)).
  apply (rtc_l _ _ (ex_recv (ex_auth 0 1 []) ex_mgt_ap)).
  - eapply (ms_frame (ex_cfg 0 0) ex_assoc_cfg (fun _ _ => 0) 0 (ex_auth 0 1 []) 7). vm_compute. reflexivity.
  - apply rtc_once. eapply (ms_frame (ex_cfg 0 0) ex_assoc_cfg (fun _ _ => 0) 0 (ex_assoc [65; 66]) 7). vm_compute. reflexivity.
Defined.
