(* ===== verification/StaElems.v ===== *)
(** * Elements of an association response (src/core/rtw_wlan_util.c, src/core/rtw_vht.c)

    The handlers that [OnAssocRsp] of src/core/rtw_mlme_ext.c calls for the elements of the
    response: WMM parameters, HT capabilities and information, VHT capabilities and operation,
    Wi-Fi Display, ERP; the walk over the elements, and the basic rates.  An element is an
    offset into the frame.  The arrays of [struct mlme_ext_info] and the local buffers have
    their sizes, and a write beyond them is [OutOfBounds].  Byte order is little-endian. *)

From S2P Require Import Prelude Ie IeAttr ApCap.

(** ** Data *)

Definition WMM_PARA_OUI : bytes := [0x00; 0x50; 0xf2; 0x02; 0x01; 0x01].
Definition WFD_OUI : bytes := [0x50; 0x6f; 0x9a; 0x0a].
Definition _HT_EXTRA_INFO_IE_ : Z := 61.
Definition EID_VHTCapability : Z := 191.
Definition EID_VHTOperation : Z := 192.
Definition WFD_ATTR_DEVICE_INFO : Z := 0.

(** Bits 0 and 1 of the capabilities of the interface: receive and transmit (LDPC, STBC), or
    beamformer and beamformee; bit 3: the peer takes it. *)
Definition LDPC_ENABLE_TX : Z := 2.
Definition LDPC_CAP_TX : Z := 8.
Definition STBC_ENABLE_TX : Z := 2.
Definition STBC_CAP_TX : Z := 8.
Definition BEAMFORMER_ENABLE : Z := 1.
Definition BEAMFORMEE_ENABLE : Z := 2.

Definition RF_1T2R : Z := 0.
Definition RF_2T2R : Z := 2.
Definition RF_1T1R : Z := 3.
Definition MCS_RATE_1R : Z := 0x000000ff.
Definition MCS_RATE_2R : Z := 0x0000ffff.
Definition MGN_VHT1SS_MCS7 : Z := 0xa7.

(** The capabilities of the interface that a response narrows: [htpriv] and [vhtpriv]. *)
Record ht_priv := HtPriv { ldpc_cap : Z; stbc_cap : Z; beamform_cap : Z }.
Record vht_priv := VhtPriv {
  vht_ldpc_cap : Z; vht_stbc_cap : Z; vht_beamform_cap : Z; sgi_80m : bool; ampdu_len : Z;
  vht_mcs_map : bytes; vht_highest_rate : Z
}.

(** [sizeof(struct HT_caps_element)]: the element has 26 bytes, but only the outer structure is
    packed, so that [Beamforming_caps] is aligned and the whole has 32.  The A-MPDU parameters
    and the MCS set, which the code uses, are where the element has them. *)
Definition sizeof_HT_caps : Z := 32.

(** What the handlers write: the fields of [struct mlme_ext_info] ([WMM_param] has 18 bytes,
    [HT_caps] 32, [HT_info] 22; [erp] is [ERP_enable] and [ERP_IE]), the capabilities, and
    [wfd_info.peer_rtsp_ctrlport]. *)
Record sta_elems := StaElems {
  WMM_enable : bool; WMM_param : bytes;
  HT_caps_enable : bool; HT_caps : bytes; HT_info_enable : bool; HT_info : bytes;
  htpriv : ht_priv; VHT_enable : bool; vhtpriv : vht_priv; erp : bool * Z;
  peer_rtsp_ctrlport : Z
}.

(** What they read: [qos_option], [ht_option], [vht_option], whether [fw_state] has
    [WIFI_AP_STATE], the type of the radio and [default_supported_mcs_set]. *)
Record elem_cfg := ElemCfg {
  c_qos_option : bool; c_ht_option : bool; c_vht_option : bool; c_ap_mode : bool;
  c_rf_type : Z; default_supported_mcs_set : bytes
}.

Definition set_wmm (en : bool) (w : bytes) (s : sta_elems) : sta_elems :=
  StaElems en w (HT_caps_enable s) (HT_caps s) (HT_info_enable s) (HT_info s) (htpriv s) (VHT_enable s)
    (vhtpriv s) (erp s) (peer_rtsp_ctrlport s).
Definition set_ht_caps (caps : bytes) (h : ht_priv) (s : sta_elems) : sta_elems :=
  StaElems (WMM_enable s) (WMM_param s) true caps (HT_info_enable s) (HT_info s) h (VHT_enable s)
    (vhtpriv s) (erp s) (peer_rtsp_ctrlport s).
Definition set_ht_info (info : bytes) (s : sta_elems) : sta_elems :=
  StaElems (WMM_enable s) (WMM_param s) (HT_caps_enable s) (HT_caps s) true info (htpriv s) (VHT_enable s)
    (vhtpriv s) (erp s) (peer_rtsp_ctrlport s).
Definition set_vht (v : vht_priv) (s : sta_elems) : sta_elems :=
  StaElems (WMM_enable s) (WMM_param s) (HT_caps_enable s) (HT_caps s) (HT_info_enable s) (HT_info s) (htpriv s)
    true v (erp s) (peer_rtsp_ctrlport s).
Definition set_sta_erp (e : bool * Z) (s : sta_elems) : sta_elems :=
  StaElems (WMM_enable s) (WMM_param s) (HT_caps_enable s) (HT_caps s) (HT_info_enable s) (HT_info s) (htpriv s)
    (VHT_enable s) (vhtpriv s) e (peer_rtsp_ctrlport s).
Definition set_peer_port (n : Z) (s : sta_elems) : sta_elems :=
  StaElems (WMM_enable s) (WMM_param s) (HT_caps_enable s) (HT_caps s) (HT_info_enable s) (HT_info s) (htpriv s)
    (VHT_enable s) (vhtpriv s) (erp s) n.

(** [if (test && field) value], the field read only when the test holds: the flags a peer's
    capability adds. *)
Definition flag_if (test : bool) (field : res bool) (v : Z) : res Z :=
  if test then b ← field; Done (if b : bool then v else 0) else Done 0.

(** A field of a capability element at [p]: [width] bits from bit [off] of the byte at [p]. *)
Definition cap_bits (m : bytes) (p off width : Z) : res bool :=
  b ← ldr m p; Done (negb ((b .>> off) .& (2 ^ width - 1) =? 0)).
(** The same of four bytes, of which the machine reads all. *)
Definition cap_bits4 (m : bytes) (p off width : Z) : res bool :=
  b ← rdr m p 4;
  let v := ld0 b 0 .| (ld0 b 1 .<< 8) .| (ld0 b 2 .<< 16) .| (ld0 b 3 .<< 24) in
  Done (negb ((v .>> off) .& (2 ^ width - 1) =? 0)).

Section handlers.
Context (c : elem_cfg).

(** ** WMM *)

(** The result is not used.  Parameters that are those stored leave [WMM_enable] as it is. *)
Definition WMM_param_handler (m : bytes) (p : Z) (s : sta_elems) : res sta_elems :=
  if negb (c_qos_option c) then Done (set_wmm false (WMM_param s) s)
  else
    w ← rdr m (p + 2 + 6) 18;
    if bool_decide (w = WMM_param s) then Done s else Done (set_wmm true w s).

(** ** HT *)

(** The minimum of the lengths and the maximum of the spacings. *)
Definition min_ampdu_para (own peer : Z) : Z :=
  let len := if (peer .& 0x3) <? (own .& 0x3) then peer .& 0x3 else own .& 0x3 in
  let spacing := if (peer .& 0x1c) <? (own .& 0x1c) then own .& 0x1c else peer .& 0x1c in
  len .| spacing.

Fixpoint ht_caps_loop (n : nat) (i : Z) (m : bytes) (p : Z) (caps : bytes) : res bytes :=
  match n with
  | O => Done caps
  | S n =>
      d ← ldr m (p + 2 + i);
      own ← ldr caps i;
      caps ← wrr caps i [if i =? 2 then min_ampdu_para own d else own .& d];
      ht_caps_loop n (i + 1) m p caps
  end.

Definition set_mcs_rate_by_mask (mcs_set : bytes) (mask : Z) : bytes :=
  zip_with Z.land (take 4 mcs_set) [mask .& 0xff; (mask .>> 8) .& 0xff; (mask .>> 16) .& 0xff; (mask .>> 24) .& 0xff]
    ++ drop 4 mcs_set.

(** The MCS set, at offset 3, is cut to the supported one and to the number of chains. *)
Definition ht_mcs (caps : bytes) : bytes :=
  let mcs := zip_with Z.land (take 16 (drop 3 caps)) (default_supported_mcs_set c) in
  let mask := if (c_rf_type c =? RF_1T1R) || (c_rf_type c =? RF_1T2R) then MCS_RATE_1R else MCS_RATE_2R in
  take 3 caps ++ set_mcs_rate_by_mask mcs mask ++ drop 19 caps.

Definition ht_settings (m : bytes) (p : Z) (h : ht_priv) : res ht_priv :=
  let data := p + 2 in
  let steering := cap_bits4 m (data + 21) 10 1 in
  let feedback := cap_bits4 m (data + 21) 15 2 in
  if c_ap_mode c then
    stbc ← flag_if (has STBC_ENABLE_TX (stbc_cap h)) (cap_bits m data 7 1) STBC_ENABLE_TX;
    former ← flag_if (has BEAMFORMER_ENABLE (beamform_cap h)) steering BEAMFORMER_ENABLE;
    formee ← flag_if (has BEAMFORMEE_ENABLE (beamform_cap h)) feedback BEAMFORMEE_ENABLE;
    Done (HtPriv (ldpc_cap h) stbc (former .| formee))
  else
    ldpc ← flag_if (has LDPC_ENABLE_TX (ldpc_cap h)) (cap_bits m data 0 1) (LDPC_ENABLE_TX .| LDPC_CAP_TX);
    stbc ← flag_if (has STBC_ENABLE_TX (stbc_cap h)) (cap_bits m (data + 1) 0 2) (STBC_ENABLE_TX .| STBC_CAP_TX);
    former ← flag_if (has BEAMFORMEE_ENABLE (beamform_cap h)) steering BEAMFORMER_ENABLE;
    formee ← flag_if (has BEAMFORMER_ENABLE (beamform_cap h)) feedback BEAMFORMEE_ENABLE;
    Done (HtPriv ldpc stbc (former .| formee)).

Definition HT_caps_handler (m : bytes) (p : Z) (s : sta_elems) : res sta_elems :=
  if negb (c_ht_option c) then Done s
  else
    Length ← ldr m (p + 1);
    caps ← ht_caps_loop (Z.to_nat Length) 0 m p (HT_caps s);
    h ← ht_settings m p (htpriv s);
    Done (set_ht_caps (ht_mcs caps) h s).

Definition HT_info_handler (m : bytes) (p : Z) (s : sta_elems) : res sta_elems :=
  if negb (c_ht_option c) then Done s
  else
    Length ← ldr m (p + 1);
    if 22 <? Length then Done s
    else
      info ← rdr m (p + 2) Length;
      info ← wrr (HT_info s) 0 info;
      Done (set_ht_info info s).

(** ** VHT *)

(** One byte of the map: streams of two bits, 3 for none; the result is a [u8]. *)
Definition vht_rate_step (i : Z) (b : Z) (rate : Z) : Z :=
  if b =? 0xff then rate
  else fold_left (fun r j => let bit_map := (b .>> j) .& 3 in
                             if bit_map =? 3 then r else u8 (MGN_VHT1SS_MCS7 + 10 * j / 2 + i * 40 + bit_map))
         [0; 2; 4; 6] rate.
Definition rtw_get_vht_highest_rate (pvht_mcs_map : bytes) : Z :=
  vht_rate_step 1 (ld0 pvht_mcs_map 1) (vht_rate_step 0 (ld0 pvht_mcs_map 0) 0).

Definition VHT_caps_handler (m : bytes) (p : Z) (s : sta_elems) : res sta_elems :=
  if negb (c_vht_option c) then Done s
  else
    let v := vhtpriv s in
    let data := p + 2 in
    ldpc ← flag_if (has LDPC_ENABLE_TX (vht_ldpc_cap v)) (cap_bits m data 4 1) (LDPC_ENABLE_TX .| LDPC_CAP_TX);
    sgi ← cap_bits m data 5 1;
    stbc ← flag_if (has STBC_ENABLE_TX (vht_stbc_cap v)) (cap_bits m (data + 1) 0 3) (STBC_ENABLE_TX .| STBC_CAP_TX);
    formee ← flag_if (has BEAMFORMER_ENABLE (vht_beamform_cap v)) (cap_bits m (data + 1) 4 1) BEAMFORMEE_ENABLE;
    former ← flag_if (has BEAMFORMEE_ENABLE (vht_beamform_cap v)) (cap_bits m (data + 1) 3 1) BEAMFORMER_ENABLE;
    factor ← RTW_GET_LE16 m (data + 2);
    mcs ← rdr m (data + 4) 2;
    let mcs0 := if (c_rf_type c =? RF_1T1R) || (c_rf_type c =? RF_1T2R) then ld0 mcs 0 .| 0xfc
                else if c_rf_type c =? RF_2T2R then ld0 mcs 0 .| 0xf0 else ld0 mcs 0 in
    let mcs := [mcs0; ld0 mcs 1] in
    Done (set_vht (VhtPriv ldpc stbc (formee .| former) (sgi && sgi_80m v) ((factor .>> 7) .& 7) mcs
                     (rtw_get_vht_highest_rate mcs)) s).

Definition VHT_operation_handler (m : bytes) (p : Z) (s : sta_elems) : res sta_elems := Done s.

(** ** Wi-Fi Display and ERP *)

Definition WFD_info_handler (m : bytes) (p : Z) (s : sta_elems) : res sta_elems :=
  Length ← ldr m (p + 1);
  '(hit, wfd_ie, wfd_ielen) ← rtw_get_wfd_ie m p Length (Some (replicate 128 0)) 0;
  if hit =? 0 then Done s
  else
    '(_, attr, attr_contentlen) ←
      rtw_get_wfd_attr_content (default [] wfd_ie) 0 wfd_ielen WFD_ATTR_DEVICE_INFO (Some (replicate 10 0)) 0;
    if attr_contentlen =? 0 then Done s
    else port ← RTW_GET_BE16 (default [] attr) 2; Done (set_peer_port port s).

(** [ERP_IE_handler] on the two fields. *)
Definition erp_handler (m : bytes) (p : Z) (s : sta_elems) : res sta_elems :=
  b ← ERP_IE_handler m p (BssBcn [] 0 (erp s).1 (erp s).2 false 0);
  Done (set_sta_erp (ERP_enable b, ERP_IE b) s).

(** ** The walk *)

Definition assoc_rsp_elem (m : bytes) (p : Z) (s : sta_elems) : res sta_elems :=
  ElementID ← ldr m p;
  if ElementID =? _VENDOR_SPECIFIC_IE_ then
    wmm ← _rtw_memcmp m (p + 2) WMM_PARA_OUI;
    if (wmm : bool) then WMM_param_handler m p s
    else
      wfd ← _rtw_memcmp m (p + 2) WFD_OUI;
      if (wfd : bool) then WFD_info_handler m p s else Done s
  else if ElementID =? _HT_CAPABILITY_IE_ then HT_caps_handler m p s
  else if ElementID =? _HT_EXTRA_INFO_IE_ then HT_info_handler m p s
  else if ElementID =? EID_VHTCapability then VHT_caps_handler m p s
  else if ElementID =? EID_VHTOperation then VHT_operation_handler m p s
  else if ElementID =? _ERPINFO_IE_ then erp_handler m p s
  else Done s.

(** [for (i = ...; i < pkt_len;)]: an element takes two bytes or more. *)
Fixpoint assoc_rsp_elems (fuel : nat) (m : bytes) (i pkt_len : Z) (s : sta_elems) : res sta_elems :=
  if i <? pkt_len then
    match fuel with
    | O => NoFuel
    | S fuel =>
        s ← assoc_rsp_elem m i s;
        Length ← ldr m (i + 1);
        assoc_rsp_elems fuel m (i + (Length + 2)) pkt_len s
    end
  else Done s.
End handlers.

(** ** Basic rates *)

(** 1, 2, 5.5, 11, 6, 12 and 24 Mb/s, in units of 500 kb/s. *)
Definition mandatory_rate (r : Z) : bool :=
  (r =? 2) || (r =? 4) || (r =? 11) || (r =? 22) || (r =? 12) || (r =? 24) || (r =? 48).
Definition UpdateBrateTbl (mBratesOS : bytes) : bytes :=
  map (fun b => if mandatory_rate (b .& 0x7f) then b .| 0x80 else b) mBratesOS.

(** ** Single bytes *)

Lemma wrr_one (l : bytes) i x : 0 <= i < zlen l -> wrr l i [x] = Done (<[Z.to_nat i := x]> l).
Proof.
  intros Hi. unfold wrr, wr. rewrite (proj2 (Z.leb_le 0 i)), (proj2 (Z.leb_le (i + zlen [x]) _)) by (rewrite ?zlen_cons, ?zlen_nil; lia).
  cbn [andb lift length]. f_equal. rewrite insert_take_drop by (unfold zlen in Hi; lia).
  by rewrite Nat.add_1_r.
Qed.
Lemma ld0_insert (l : bytes) i k x : 0 <= i < zlen l -> 0 <= k ->
  ld0 (<[Z.to_nat i := x]> l) k = if k =? i then x else ld0 l k.
Proof.
  intros Hi Hk. unfold ld0. rewrite !nth_lookup. destruct (Z.eqb_spec k i) as [->|].
  - rewrite list_lookup_insert_eq; [done|unfold zlen in Hi; lia].
  - by rewrite list_lookup_insert_ne by lia.
Qed.
Lemma ldr_out m p : zlen m <= p -> ldr m p = OutOfBounds.
Proof. intros H. unfold ldr, ld. rewrite (proj2 (Z.ltb_ge p (zlen m))) by lia. by rewrite andb_false_r. Qed.
Lemma zlen_insert (l : bytes) i x : zlen (<[i := x]> l) = zlen l.
Proof. unfold zlen. by rewrite length_insert. Qed.

(** ** HT capabilities *)

(** What one byte becomes. *)
Definition narrowed (k own peer : Z) : Z := if k =? 2 then min_ampdu_para own peer else own .& peer.

Lemma ht_caps_loop_run : forall n i m p caps,
  0 <= i -> 0 <= p -> i + Z.of_nat n <= zlen caps -> p + 2 + i + Z.of_nat n <= zlen m ->
  exists caps', ht_caps_loop n i m p caps = Done caps' /\ zlen caps' = zlen caps /\
    forall k, 0 <= k -> ld0 caps' k =
      if (i <=? k) && (k <? i + Z.of_nat n) then narrowed k (ld0 caps k) (ld0 m (p + 2 + k)) else ld0 caps k.
Proof.
  induction n as [|n IH]; intros i m p caps Hi Hp Hc Hm.
  - exists caps. split_and!; [done..|]. intros k Hk. destruct (Z.leb_spec i k), (Z.ltb_spec k (i + Z.of_nat 0)); try done; lia.
  - cbn [ht_caps_loop]. rewrite (ldr_ok m), (ldr_ok caps), !done_bind, wrr_one, done_bind by lia.
    change (if i =? 2 then _ else _) with (narrowed i (ld0 caps i) (ld0 m (p + 2 + i))).
    destruct (IH (i + 1) m p (<[Z.to_nat i := narrowed i (ld0 caps i) (ld0 m (p + 2 + i))]> caps)) as (c' & -> & El & Ek);
      rewrite ?zlen_insert; try lia.
    exists c'. split_and!; [done|by rewrite El, zlen_insert|]. intros k Hk. rewrite Ek by done.
    rewrite ld0_insert by lia. destruct (Z.eqb_spec k i) as [->|].
    + by rewrite (proj2 (Z.leb_gt (i + 1) i)), (proj2 (Z.leb_le i i)), (proj2 (Z.ltb_lt i (i + Z.of_nat (S n)))) by lia.
    + assert ((i + 1 <=? k) = (i <=? k)) as -> by (apply eq_true_iff_eq; rewrite !Z.leb_le; lia).
      by replace (i + 1 + Z.of_nat n) with (i + Z.of_nat (S n)) by lia.
Qed.

(** More bytes than the array has: the array is left. *)
Lemma ht_caps_loop_over : forall n i m p caps,
  0 <= i <= zlen caps -> zlen caps < i + Z.of_nat n -> 0 <= p -> ht_caps_loop n i m p caps = OutOfBounds.
Proof.
  induction n as [|n IH]; intros i m p caps Hi Hn Hp; [lia|]. cbn [ht_caps_loop].
  destruct (ldr m (p + 2 + i)) as [d| |] eqn:E; [|done|unfold ldr in E; by destruct (ld _ _)].
  rewrite done_bind. destruct (decide (i = zlen caps)) as [->|]; [by rewrite ldr_out by lia|].
  rewrite ldr_ok, done_bind, wrr_one, done_bind by lia. apply IH; rewrite ?zlen_insert; lia.
Qed.

(** The mask of a byte of the capabilities: of the MCS set, what the driver supports with the
    chains it has; of the rest, everything. *)
Definition mcs_mask (c : elem_cfg) (k : Z) : Z :=
  if (3 <=? k) && (k <? 19) then
    let chains := if (c_rf_type c =? RF_1T1R) || (c_rf_type c =? RF_1T2R) then 1 else 2 in
    ld0 (default_supported_mcs_set c) (k - 3) .& (if k <? 7 then (if k <? 3 + chains then 0xff else 0) else -1)
  else -1.

Lemma ht_mcs_run c caps : zlen caps = sizeof_HT_caps -> zlen (default_supported_mcs_set c) = 16 ->
  zlen (ht_mcs c caps) = sizeof_HT_caps /\ forall k, 0 <= k < sizeof_HT_caps -> ld0 (ht_mcs c caps) k = ld0 caps k .& mcs_mask c k.
Proof.
  unfold sizeof_HT_caps. intros Hc Hd. unfold ht_mcs, mcs_mask. set (b := (c_rf_type c =? RF_1T1R) || (c_rf_type c =? RF_1T2R)). clearbody b.
  destruct (default_supported_mcs_set c) as [|d0 l]; [done|].
  do 15 (destruct l as [|? l]; [done|]). destruct l; [|unfold zlen in Hd; cbn in Hd; lia].
  do 32 (destruct caps as [|? caps]; [done|]). destruct caps; [|unfold zlen in Hc; cbn in Hc; lia].
  split; [by destruct b|]. intros k Hk.
  assert (exists j, (j < 32)%nat /\ k = Z.of_nat j) as (j & Hj & ->) by (exists (Z.to_nat k); lia).
  do 32 (destruct j as [|j];
    [destruct b; cbv -[Z.land]; change (65535 .& 255) with 255; change (255 .& 255) with 255; change (0 .& 255) with 0;
     by rewrite ?Z.land_m1_r, ?Z.land_assoc|]).
  lia.
Qed.

Lemma cap_bits_done m p off w : 0 <= p < zlen m -> exists b, cap_bits m p off w = Done b.
Proof. intros H. unfold cap_bits. rewrite ldr_ok by done. by eexists. Qed.
Lemma cap_bits4_done m p off w : 0 <= p -> p + 4 <= zlen m -> exists b, cap_bits4 m p off w = Done b.
Proof. intros. unfold cap_bits4. rewrite rdr_ok by lia. by eexists. Qed.
Lemma flag_if_done t f v : (exists b, f = Done b) -> exists z, flag_if t f v = Done z.
Proof. intros [b ->]. unfold flag_if. destruct t; by eexists. Qed.

(** A chain of flags, each of which is read within the frame. *)
Ltac read_flags :=
  repeat match goal with
  | |- exists x, (flag_if ?t ?f ?v ≫= _) = Done x =>
      let E := fresh in
      let z := fresh "z" in
      destruct (flag_if_done t f v) as [z E]; [first [apply cap_bits_done | apply cap_bits4_done]; lia|];
      rewrite E, done_bind; clear E
  end.

Lemma ht_settings_done c m p h : 0 <= p -> p + 27 <= zlen m -> exists h', ht_settings c m p h = Done h'.
Proof. intros Hp Hm. unfold ht_settings. cbv zeta. destruct (c_ap_mode c); read_flags; by eexists. Qed.

Lemma VHT_caps_handler_done c m p s : 0 <= p -> p + 8 <= zlen m ->
  exists s', VHT_caps_handler c m p s = Done s' /\ WMM_param s' = WMM_param s /\ HT_caps s' = HT_caps s /\ HT_info s' = HT_info s.
Proof.
  intros Hp Hm. assert (exists s', VHT_caps_handler c m p s = Done s') as [s' E].
  { unfold VHT_caps_handler. destruct (c_vht_option c); [|by eexists]. cbn [negb]. cbv zeta. read_flags.
    destruct (cap_bits_done m (p + 2) 5 1) as [b E]; [lia|]. rewrite E, done_bind. read_flags.
    unfold RTW_GET_LE16. rewrite !ldr_ok, !done_bind, rdr_ok, done_bind by lia. by eexists. }
  exists s'. split; [done|]. revert E. unfold VHT_caps_handler. destruct (negb _); [by intros [= <-]|]. cbv zeta.
  intros E. repeat (apply res_bind_Done in E as (? & _ & E)). by injection E as <-.
Qed.

(** ** HT capabilities: properties *)

(** C21: The HT capabilities element of an association response, when the interface uses HT: an element
    of at most 32 bytes leaves of every byte of the own capabilities (the A-MPDU parameters
    apart) the bits that the access point has too and, of the MCS set, only what the driver
    and its radio support; bytes beyond the element's length keep the own value; the maximum
    A-MPDU length becomes the smaller and the minimum spacing the larger of the two.  A longer
    element makes the code write behind the 32 bytes of [HT_caps]. *)
Theorem ht_caps_negotiated c m p s len : c_ht_option c = true -> 0 <= p -> ldr m (p + 1) = Done len ->
  p + 2 + Z.max len 25 <= zlen m -> 0 <= len -> zlen (HT_caps s) = sizeof_HT_caps -> zlen (default_supported_mcs_set c) = 16 ->
  (len <= sizeof_HT_caps -> exists s', HT_caps_handler c m p s = Done s' /\ HT_caps_enable s' = true /\ zlen (HT_caps s') = sizeof_HT_caps /\
    (forall k, 0 <= k < sizeof_HT_caps -> k <> 2 ->
       ld0 (HT_caps s') k = ld0 (HT_caps s) k .& (if k <? len then ld0 m (p + 2 + k) else -1) .& mcs_mask c k) /\
    (2 < len -> let own := ld0 (HT_caps s) 2 in let peer := ld0 m (p + 4) in
       ld0 (HT_caps s') 2 = Z.min (own .& 0x3) (peer .& 0x3) .| Z.max (own .& 0x1c) (peer .& 0x1c))) /\
  (sizeof_HT_caps < len -> HT_caps_handler c m p s = OutOfBounds).
Proof.
  unfold sizeof_HT_caps. intros Ho Hp El Hm Hl Hc Hd. unfold HT_caps_handler. rewrite Ho, El, done_bind. cbn [negb]. split; intros H26.
  - destruct (ht_caps_loop_run (Z.to_nat len) 0 m p (HT_caps s)) as (caps & -> & Ec & Ek); [lia..|]. rewrite done_bind.
    destruct (ht_settings_done c m p (htpriv s)) as [h ->]; [lia..|]. rewrite done_bind. eexists. split; [done|].
    destruct (ht_mcs_run c caps) as [Ez Em]; [by rewrite Ec|done|]. unfold sizeof_HT_caps in *. split_and!; [done|exact Ez|..].
    + intros k Hk H2. cbn [HT_caps set_ht_caps]. rewrite Em, Ek by lia. rewrite (proj2 (Z.leb_le 0 k)) by lia. cbn [andb].
      replace (0 + Z.of_nat (Z.to_nat len)) with len by lia. unfold narrowed. rewrite (proj2 (Z.eqb_neq k 2)) by done.
      destruct (k <? len); by rewrite ?Z.land_m1_r.
    + intros H2. cbn [HT_caps set_ht_caps]. rewrite Em, Ek by lia.
      replace (0 + Z.of_nat (Z.to_nat len)) with len by lia. rewrite (proj2 (Z.ltb_lt 2 len)) by done. cbn [andb].
      change (mcs_mask c 2) with (-1). rewrite Z.land_m1_r. change (0 <=? 2) with true.
      replace (p + 2 + 2) with (p + 4) by lia. cbn [andb]. unfold narrowed, min_ampdu_para. cbn [Z.eqb Pos.eqb].
      f_equal; [destruct (Z.ltb_spec (ld0 m (p + 4) .& 3) (ld0 (HT_caps s) 2 .& 3)); lia|].
      destruct (Z.ltb_spec (ld0 m (p + 4) .& 28) (ld0 (HT_caps s) 2 .& 28)); lia.
  - rewrite ht_caps_loop_over; [done|rewrite ?Hc; lia..].
Qed.

(** ** The walk over the elements *)

(** The arrays have their sizes. *)
Definition elems_ok (s : sta_elems) : Prop :=
  zlen (WMM_param s) = 18 /\ zlen (HT_caps s) = sizeof_HT_caps /\ zlen (HT_info s) = 22.

(** The positions of the elements. *)
Inductive walk (m : bytes) : Z -> Z -> Prop :=
  | walk_here i : walk m i i
  | walk_next i j len : ldr m (i + 1) = Done len -> walk m (i + (len + 2)) j -> walk m i j.

(** No HT capabilities longer than their array, and no Wi-Fi Display element. *)
Definition benign (m : bytes) (i pkt_len : Z) : Prop :=
  forall p, walk m i p -> p < pkt_len ->
    (ldr m p = Done _HT_CAPABILITY_IE_ -> forall len, ldr m (p + 1) = Done len -> len <= sizeof_HT_caps) /\
    (ldr m p = Done _VENDOR_SPECIFIC_IE_ -> rdr m (p + 2) 4 <> Done WFD_OUI).

Lemma zlen_take_drop (m : bytes) p n : 0 <= p -> 0 <= n -> p + n <= zlen m ->
  zlen (take (Z.to_nat n) (drop (Z.to_nat p) m)) = n.
Proof. unfold zlen. rewrite length_take, length_drop. lia. Qed.

Lemma HT_caps_handler_done c m p s : bytes_ok m -> elems_ok s -> zlen (default_supported_mcs_set c) = 16 ->
  0 <= p -> p + 257 <= zlen m -> ld0 m (p + 1) <= sizeof_HT_caps ->
  exists s', HT_caps_handler c m p s = Done s' /\ elems_ok s'.
Proof.
  intros Hm (H1 & H2 & H3) Hd Hp Hl H26. pose proof (ld0_u8 m (p + 1) Hm). unfold HT_caps_handler, sizeof_HT_caps in *.
  destruct (c_ht_option c); [|by exists s]. cbn [negb]. rewrite ldr_ok, done_bind by lia.
  destruct (ht_caps_loop_run (Z.to_nat (ld0 m (p + 1))) 0 m p (HT_caps s)) as (caps & -> & Ec & _); [lia..|].
  destruct (ht_settings_done c m p (htpriv s)) as [h E]; [lia..|]. rewrite done_bind, E, done_bind.
  eexists. split; [done|]. destruct (ht_mcs_run c caps) as [Ez _]; [by rewrite Ec|done|]. by split_and!.
Qed.

Lemma HT_info_handler_done c m p s : bytes_ok m -> elems_ok s -> 0 <= p -> p + 257 <= zlen m ->
  exists s', HT_info_handler c m p s = Done s' /\ elems_ok s'.
Proof.
  intros Hm (H1 & H2 & H3) Hp Hl. pose proof (ld0_u8 m (p + 1) Hm). unfold HT_info_handler.
  destruct (c_ht_option c); [|by exists s]. cbn [negb]. rewrite ldr_ok, done_bind by lia.
  destruct (Z.ltb_spec 22 (ld0 m (p + 1))); [by exists s|]. rewrite rdr_ok, done_bind by lia.
  set (b := take _ _). assert (zlen b = ld0 m (p + 1)) as Eb by (apply zlen_take_drop; lia).
  unfold wrr, wr. rewrite (proj2 (Z.leb_le (0 + zlen b) _)) by lia. cbn [Z.leb Z.compare andb lift]. rewrite done_bind.
  eexists. split; [done|]. split_and!; [done..|]. cbn [HT_info set_ht_info].
  change (Z.to_nat 0) with 0%nat. rewrite take_0. unfold zlen in *. rewrite !length_app, length_drop. cbn [length]. lia.
Qed.

Lemma WMM_param_handler_done c m p s : elems_ok s -> 0 <= p -> p + 257 <= zlen m ->
  exists s', WMM_param_handler c m p s = Done s' /\ elems_ok s'.
Proof.
  intros (H1 & H2 & H3) Hp Hl. unfold WMM_param_handler. destruct (c_qos_option c); [|eexists; split; [done|by split_and!]].
  cbn [negb]. rewrite rdr_ok, done_bind by lia. case_bool_decide; [by exists s|]. eexists. split; [done|].
  split_and!; [|done..]. cbn [WMM_param set_wmm]. apply (zlen_take_drop m (p + 2 + 6) 18); lia.
Qed.

Lemma erp_handler_done m p s : elems_ok s -> 0 <= p -> p + 257 <= zlen m ->
  exists s', erp_handler m p s = Done s' /\ elems_ok s'.
Proof.
  intros Hs Hp Hl. unfold erp_handler, ERP_IE_handler. rewrite (ldr_ok m (p + 1)), done_bind by lia.
  destruct (1 <? _); [by eexists|]. destruct (_ =? 0); [by eexists|]. rewrite ldr_ok, done_bind by lia. by eexists.
Qed.

Lemma assoc_rsp_elem_done c m p s : bytes_ok m -> elems_ok s -> zlen (default_supported_mcs_set c) = 16 ->
  0 <= p -> p + 257 <= zlen m ->
  (ldr m p = Done _HT_CAPABILITY_IE_ -> ld0 m (p + 1) <= sizeof_HT_caps) ->
  (ldr m p = Done _VENDOR_SPECIFIC_IE_ -> rdr m (p + 2) 4 <> Done WFD_OUI) ->
  exists s', assoc_rsp_elem c m p s = Done s' /\ elems_ok s'.
Proof.
  intros Hm Hs Hd Hp Hl Hht Hwfd. unfold assoc_rsp_elem. rewrite (ldr_ok m p), done_bind by lia.
  rewrite (ldr_ok m p) in Hht, Hwfd by lia. set (id := ld0 m p) in *.
  destruct (Z.eqb_spec id _VENDOR_SPECIFIC_IE_) as [E|].
  { rewrite (memcmp_ok m _ WFD_OUI) by (change (zlen WFD_OUI) with 4; lia).
    rewrite (memcmp_ok m _ WMM_PARA_OUI), !done_bind by (change (zlen WMM_PARA_OUI) with 6; lia).
    case_bool_decide; [by apply WMM_param_handler_done|]. case_bool_decide as Ew; [|by exists s].
    exfalso. apply Hwfd; [by rewrite E|]. rewrite rdr_ok by lia. by f_equal. }
  destruct (Z.eqb_spec id _HT_CAPABILITY_IE_) as [E|].
  { apply HT_caps_handler_done; try done. apply Hht. by rewrite E. }
  destruct (_ =? _HT_EXTRA_INFO_IE_); [by apply HT_info_handler_done|].
  destruct (_ =? EID_VHTCapability).
  { destruct (VHT_caps_handler_done c m p s) as (s' & E & E1 & E2 & E3); [lia..|]. exists s'. split; [done|].
    unfold elems_ok. by rewrite E1, E2, E3. }
  destruct (_ =? EID_VHTOperation); [by exists s|]. destruct (_ =? _ERPINFO_IE_); [by apply erp_handler_done|by exists s].
Qed.

Lemma assoc_rsp_elems_run c m pkt_len : bytes_ok m -> zlen (default_supported_mcs_set c) = 16 ->
  pkt_len + 257 <= zlen m -> forall fuel i s, elems_ok s -> 0 <= i -> pkt_len - i <= Z.of_nat fuel ->
  benign m i pkt_len -> exists s', assoc_rsp_elems c fuel m i pkt_len s = Done s' /\ elems_ok s'.
Proof.
  intros Hm Hd Hl. induction fuel as [|fuel IH]; intros i s Hs Hi Hf Hb; cbn [assoc_rsp_elems];
    destruct (Z.ltb_spec i pkt_len); try (by exists s); [lia|].
  pose proof (ld0_u8 m (i + 1) Hm). assert (ldr m (i + 1) = Done (ld0 m (i + 1))) as El by (apply ldr_ok; lia).
  destruct (assoc_rsp_elem_done c m i s) as (s' & -> & Hs'); [done..|lia| | |].
  { intros E. by apply (proj1 (Hb i (walk_here m i) ltac:(lia)) E). }
  { intros E. by apply (proj2 (Hb i (walk_here m i) ltac:(lia))). }
  rewrite done_bind, El, done_bind. apply IH; [done|lia..|].
  intros p Hw. apply Hb. by eapply walk_next.
Qed.

(** C22: An association response in a receive buffer with 257 bytes behind the frame, whose
    elements (anything else about them may be wrong) include no Wi-Fi Display element and no
    HT capabilities longer than 32 bytes: the walk over its elements ends, accesses nothing
    outside the buffer and the arrays of the driver, and keeps the sizes of these. *)
Theorem assoc_rsp_elems_safe c m i pkt_len s : bytes_ok m -> zlen (default_supported_mcs_set c) = 16 -> 0 <= i ->
  pkt_len + 257 <= zlen m -> elems_ok s -> benign m i pkt_len ->
  exists s', assoc_rsp_elems c (Z.to_nat pkt_len) m i pkt_len s = Done s' /\ elems_ok s'.
Proof. intros. apply assoc_rsp_elems_run; try done. lia. Qed.

(** ** A check for [benign] *)

Fixpoint benignb (fuel : nat) (m : bytes) (i pkt_len : Z) : bool :=
  if i <? pkt_len then
    match fuel with
    | O => false
    | S fuel =>
        match ldr m i, ldr m (i + 1), rdr m (i + 2) 4 with
        | Done id, Done len, Done oui =>
            (0 <=? len) && (negb (id =? _HT_CAPABILITY_IE_) || (len <=? sizeof_HT_caps)) &&
            (negb (id =? _VENDOR_SPECIFIC_IE_) || negb (bool_decide (oui = WFD_OUI))) &&
            benignb fuel m (i + (len + 2)) pkt_len
        | _, _, _ => false
        end
    end
  else true.

Lemma walk_forward m i p : bytes_ok m -> walk m i p -> i <= p.
Proof.
  intros Hm. induction 1 as [i|i j len E _ IH]; [lia|]. assert (is_u8 len) by
    (unfold ldr, ld in E; destruct (_ && _); [injection E as <-; by apply (ld0_u8 m (i + 1))|done]). lia.
Qed.
Lemma benignb_sound m pkt_len : bytes_ok m -> forall fuel i, benignb fuel m i pkt_len = true -> benign m i pkt_len.
Proof.
  intros Hm. induction fuel as [|fuel IH]; intros i Hb p Hw Hp; cbn [benignb] in Hb;
    pose proof (walk_forward _ _ _ Hm Hw); rewrite (proj2 (Z.ltb_lt i pkt_len)) in Hb by lia; [done|].
  destruct (ldr m i) as [id| |] eqn:Ei, (ldr m (i + 1)) as [len| |] eqn:El; try done.
  destruct (rdr m (i + 2) 4) as [oui| |] eqn:Eo; try done.
  apply andb_prop in Hb as [Hb Hnext]. apply andb_prop in Hb as [Hb Hwfd]. apply andb_prop in Hb as [_ Hht].
  inversion Hw as [|? ? len' El' Hw' Ea Ec]; subst.
  - rewrite Ei, El, Eo. split.
    + intros [= ->] ? [= <-]. by apply Z.leb_le.
    + intros [= ->] [= ->]. done.
  - rewrite El in El'. injection El' as <-. by apply (IH _ Hnext).
Qed.

(** ** Examples *)

Definition ex_elem_cfg : elem_cfg := ElemCfg true true true false RF_2T2R (replicate 16 0xff).
Definition ex_elems : sta_elems :=
  StaElems false (replicate 18 0) false ([0x6e; 0x08; 0x17] ++ replicate 4 0xff ++ replicate 25 0) false (replicate 22 0)
    (HtPriv 2 2 3) false (VhtPriv 2 2 3 true 0 [0; 0] 0) (false, 0) 0.
(** HT capabilities that allow 40 MHz but not the short guard interval, a smaller A-MPDU, and
    one chain; then WMM parameters. *)
Definition ex_rsp_elems : bytes :=
  encode [(45, [0x2e; 0x00; 0x1a; 0xff; 0] ++ replicate 21 0); (221, WMM_PARA_OUI ++ replicate 18 7)].
Definition ex_rsp_frame (els : bytes) : bytes := replicate 30 0 ++ els ++ replicate 257 0.

Lemma ht_caps_negotiated_witness : exists s', HT_caps_handler ex_elem_cfg (ex_rsp_frame ex_rsp_elems) 30 ex_elems = Done s' /\
  take 5 (HT_caps s') = [0x2e; 0x00; 0x1a .& 3 .| 0x18; 0xff; 0].
Proof.
  assert (exists s', HT_caps_handler ex_elem_cfg (ex_rsp_frame ex_rsp_elems) 30 ex_elems = Done s' /\ zlen (HT_caps s') = sizeof_HT_caps /\
    ld0 (HT_caps s') 0 = 0x2e) as (s' & E & _ & _).
  { destruct (ht_caps_negotiated ex_elem_cfg (ex_rsp_frame ex_rsp_elems) 30 ex_elems 26) as [H _];
      [vm_compute; congruence..|]. destruct H as (s' & E & _ & Hz & Hk & _); [vm_compute; congruence|]. exists s'. split_and!; [done..|].
    rewrite Hk by (vm_compute; first [by split|congruence]). vm_compute. reflexivity. }
  exists s'. split; [done|]. vm_compute in E. injection E as <-. vm_compute. reflexivity.
Defined.

Lemma assoc_rsp_elems_safe_witness : exists s',
  assoc_rsp_elems ex_elem_cfg (Z.to_nat (30 + zlen ex_rsp_elems)) (ex_rsp_frame ex_rsp_elems) 30 (30 + zlen ex_rsp_elems) ex_elems
    = Done s' /\ elems_ok s'.
Proof.
  assert (bytes_ok (ex_rsp_frame ex_rsp_elems)) as Hm by (apply bytes_ok_spec; vm_compute; reflexivity).
  apply (assoc_rsp_elems_safe ex_elem_cfg (ex_rsp_frame ex_rsp_elems) 30 (30 + zlen ex_rsp_elems) ex_elems);
    [exact Hm|vm_compute; congruence..|vm_compute; by split_and!|].
  apply (benignb_sound _ _ Hm 100). vm_compute. reflexivity.
Defined.

(** A Wi-Fi Display element longer than 126 bytes overflows the local copy of it, and a device
    information attribute of more than ten bytes the local copy of that. *)
Example wfd_element_overflows :
  WFD_info_handler (ex_rsp_frame (encode [(221, WFD_OUI ++ replicate 123 0)])) 30 ex_elems = OutOfBounds /\
  WFD_info_handler (ex_rsp_frame (encode [(221, WFD_OUI ++ [0; 0; 11] ++ replicate 11 0)])) 30 ex_elems = OutOfBounds /\
  WFD_info_handler (ex_rsp_frame (encode [(221, WFD_OUI ++ [0; 0; 6; 0; 17; 28; 68; 1; 44])])) 30 ex_elems =
    Done (set_peer_port 7236 ex_elems).
Proof. vm_compute. by split_and!. Qed.

(** Joining again, with the parameters that are stored from the last time, leaves WMM off. *)
Example wmm_stays_off :
  let m := ex_rsp_frame (encode [(221, WMM_PARA_OUI ++ replicate 18 7)]) in
  WMM_param_handler ex_elem_cfg m 30 ex_elems = Done (set_wmm true (replicate 18 7) ex_elems) /\
  (let again := set_wmm false (replicate 18 7) ex_elems in WMM_param_handler ex_elem_cfg m 30 again = Done again).
Proof. vm_compute. by split. Qed.
