(* ===== verification/StaReq.v ===== *)
(** * The association request of a station (src/core/rtw_mlme_ext.c, src/core/rtw_wlan_util.c)

    [issue_assocreq] and what it calls: the rates of the interface ([ratetbl2rateset],
    [get_rate_set]), [is_ap_in_tkip], the P2P element and [build_assoc_req_wfd_ie] of
    src/core/rtw_p2p.c.  The frame is the list of bytes written so far; writing more than the
    room of its buffer, or reading a source beyond its end, is [OutOfBounds].  The network is
    the [WLAN_BSSID_EX] of BssInfo.  The transmit attributes of the frame are left out. *)

From S2P Require Import Prelude Ie IeAttr BssInfo StaElems.

(** ** Data *)

Definition NumRates : nat := 13.
Definition IEEE80211_BASIC_RATE_MASK : Z := 0x80.
Definition cap_SpecMgmt : Z := 1 .<< 8.
Definition WLAN_CAPABILITY_PRIVACY : Z := 1 .<< 4.
Definition EID_PowerCap : Z := 33.
Definition EID_SupportedChannels : Z := 36.
Definition EID_HTCapability : Z := 45.
Definition EID_WPA2 : Z := 48.
Definition EID_EXTCapability : Z := 127.
Definition EID_OpModeNotification : Z := 199.

Definition RTW_WPA_OUI : bytes := [0x00; 0x50; 0xf2; 0x01].
Definition WMM_OUI : bytes := [0x00; 0x50; 0xf2; 0x02].
Definition WPS_OUI : bytes := [0x00; 0x50; 0xf2; 0x04].
Definition WPA_TKIP_CIPHER : bytes := [0x00; 0x50; 0xf2; 0x02].
Definition RSN_TKIP_CIPHER : bytes := [0x00; 0x0f; 0xac; 0x02].
Definition REALTEK_96B_IE : bytes := [0x00; 0xe0; 0x4c; 0x02; 0x01; 0x20].

(** P2P and Wi-Fi Display: [p2p_cfg80211] tells that P2P is enabled through cfg80211, and
    [p2p_idle] that the P2P state is NONE or IDLE. *)
Record p2p_cfg := P2pCfg {
  p2p_cfg80211 : bool; p2p_assoc_req_ie : bytes; p2p_idle : bool; persistent_supported : bool;
  got_display_pin : bool; device_name : bytes; device_addr : bytes;
  wfd_enable : bool; wfd_assoc_req_ie : bytes; wfd_device_type : Z; rtsp_ctrlport : Z;
  wfd_linked : bool; assoc_bssid : bytes
}.

(** What [issue_assocreq] reads besides the network: the settings, the channels of the channel
    plan, the rate tables, whether the access point is one of the vendor's, the own address,
    P2P; the room for the frame and whether a frame can be allocated. *)
Record req_cfg := ReqCfg {
  q_wifi_spec : bool; q_ht_option : bool; q_vht_option : bool; q_cur_channel : Z;
  channel_set : bytes; datarate : bytes; basicrate : bytes; assoc_AP_realtek : bool;
  q_myid : bytes; q_p2p : p2p_cfg; room : Z; xmitframe_ok : bool
}.

(** ** The rates of the interface *)

Definition ratetbl_val_2wifirate (rate : Z) : Z :=
  nth (Z.to_nat (rate .& 0x7f)) [2; 4; 11; 22; 12; 18; 24; 36; 48; 72; 96; 108] 0.

Definition is_basicrate (basic : bytes) (rate : Z) : bool :=
  existsb (fun v => negb (v =? 0xff) && negb (v =? 0xfe) && (rate =? ratetbl_val_2wifirate v)) (take NumRates basic).

(** 0xff ends the table, 0xfe is a hole. *)
Fixpoint ratetbl2rateset (basic : bytes) (tbl : bytes) : bytes :=
  match tbl with
  | [] => []
  | rate :: tbl =>
      if rate =? 0xff then []
      else if rate =? 0xfe then ratetbl2rateset basic tbl
      else
        let rate := ratetbl_val_2wifirate rate in
        (if is_basicrate basic rate then rate .| IEEE80211_BASIC_RATE_MASK else rate) :: ratetbl2rateset basic tbl
  end.

Section req.
Context (c : req_cfg).

Definition get_rate_set : bytes := ratetbl2rateset (basicrate c) (take NumRates (datarate c)).

(** ** is_ap_in_tkip *)

Fixpoint tkip_loop (fuel : nat) (ies : bytes) (i IELength : Z) : res bool :=
  if i <? IELength then
    match fuel with
    | O => NoFuel
    | S fuel =>
        ElementID ← ldr ies i;
        hit ← (if ElementID =? _VENDOR_SPECIFIC_IE_ then
                 wpa ← _rtw_memcmp ies (i + 2) RTW_WPA_OUI;
                 if (wpa : bool) then _rtw_memcmp ies (i + 2 + 12) WPA_TKIP_CIPHER else Done false
               else if ElementID =? _WPA2_IE_ID_ then _rtw_memcmp ies (i + 2 + 8) RSN_TKIP_CIPHER
               else Done false);
        if (hit : bool) then Done true
        else Length ← ldr ies (i + 1); tkip_loop fuel ies (i + (Length + 2)) IELength
    end
  else Done false.

Definition is_ap_in_tkip (n : WLAN_BSSID_EX) : res bool :=
  cap ← rtw_get_capability (IEs n);
  if negb (cap .& WLAN_CAPABILITY_PRIVACY =? 0)
  then tkip_loop (Z.to_nat (IELength n)) (IEs n) _FIXED_IE_LENGTH_ (IELength n) else Done false.

(** ** Building *)

(** Bytes behind the frame so far; [rtw_set_ie] there. *)
Definition put (bs frame : bytes) : res bytes :=
  let frame := frame ++ bs in if room c <? zlen frame then OutOfBounds else Done frame.
Definition put_ie (index len : Z) (source frame : bytes) : res bytes :=
  s ← rdr source 0 len; put (u8 index :: u8 len :: s) frame.

(** [sup_ch]: channels 1 up to the last of the 2.4 GHz band, and each 5 GHz channel by itself;
    the list ends with a zero. *)
Fixpoint sup_ch_loop (fuel : nat) (idx : Z) (sup_ch : bytes) (idx_5g : Z) : res (bytes * Z) :=
  match fuel with
  | O => NoFuel
  | S fuel =>
      ch ← ldr (channel_set c) idx;
      '(sup_ch, idx_5g) ← (if ch <=? 14 then s ← wrr sup_ch 0 [1; ch]; Done (s, idx_5g)
                           else s ← wrr sup_ch idx_5g [ch; 1]; Done (s, idx_5g + 2));
      next ← ldr (channel_set c) (idx + 1);
      if next =? 0 then Done (sup_ch, idx_5g) else sup_ch_loop fuel (idx + 1) sup_ch idx_5g
  end.

Definition put_dot_h (frame : bytes) : res bytes :=
  if 14 <? q_cur_channel c then
    frame ← put_ie EID_PowerCap 2 [13; 21] frame;
    '(sup_ch, idx_5g) ← sup_ch_loop (length (channel_set c)) 0 (replicate 60 0) 2;
    put_ie EID_SupportedChannels idx_5g sup_ch frame
  else Done frame.

(** The rates of the network that the station has too, in [bssrate], an array of 13. *)
Definition same_rate (a b : Z) : bool := (a .| IEEE80211_BASIC_RATE_MASK) =? (b .| IEEE80211_BASIC_RATE_MASK).
Fixpoint joint_rates (own rates bssrate : bytes) : res bytes :=
  match rates with
  | [] => Done bssrate
  | r :: rates =>
      if r =? 0 then Done bssrate
      else if existsb (same_rate r) own then
        if Z.of_nat NumRates <=? zlen bssrate then OutOfBounds else joint_rates own rates (bssrate ++ [r])
      else joint_rates own rates bssrate
  end.

Definition put_rates (bssrate frame : bytes) : res bytes :=
  if 8 <? zlen bssrate then
    frame ← put_ie _SUPPORTEDRATES_IE_ 8 bssrate frame;
    put_ie _EXT_SUPPORTEDRATES_IE_ (zlen bssrate - 8) (drop 8 bssrate) frame
  else if 0 <? zlen bssrate then put_ie _SUPPORTEDRATES_IE_ (zlen bssrate) bssrate frame
  else Done frame.

(** One element of the network: what of it goes into the request.  The state is
    [mlmext_info.HT_caps] and the frame. *)
Definition echo_elem (n : WLAN_BSSID_EX) (i : Z) (x : bytes * bytes) : res (bytes * bytes) :=
  let '(ht, frame) := x in
  let put_copy id :=
    Length ← ldr (IEs n) (i + 1); d ← rdr (IEs n) (i + 2) Length; frame ← put_ie id Length d frame; Done (ht, frame) in
  ElementID ← ldr (IEs n) i;
  if ElementID =? _VENDOR_SPECIFIC_IE_ then
    oui ← rdr (IEs n) (i + 2) 4;
    if bool_decide (oui = RTW_WPA_OUI) || bool_decide (oui = WMM_OUI) || bool_decide (oui = WPS_OUI) then
      Length ← ldr (IEs n) (i + 1);
      let vs_ie_length := if negb (q_wifi_spec c) && bool_decide (oui = WPS_OUI) then 14 else Length in
      d ← rdr (IEs n) (i + 2) vs_ie_length;
      frame ← put_ie _VENDOR_SPECIFIC_IE_ vs_ie_length d frame; Done (ht, frame)
    else Done x
  else if ElementID =? EID_WPA2 then put_copy EID_WPA2
  else if ElementID =? EID_HTCapability then
    if q_ht_option c then
      tkip ← is_ap_in_tkip n;
      if (tkip : bool) then Done x
      else
        ht ← rdr (IEs n) (i + 2) sizeof_HT_caps;
        Length ← ldr (IEs n) (i + 1);
        frame ← put_ie EID_HTCapability Length ht frame; Done (ht, frame)
    else Done x
  else if ElementID =? EID_EXTCapability then (if q_ht_option c then put_copy EID_EXTCapability else Done x)
  else if ElementID =? EID_VHTCapability then (if q_vht_option c then put_copy EID_VHTCapability else Done x)
  else if ElementID =? EID_OpModeNotification then (if q_vht_option c then put_copy EID_OpModeNotification else Done x)
  else Done x.

Fixpoint echo_loop (fuel : nat) (n : WLAN_BSSID_EX) (i : Z) (x : bytes * bytes) : res (bytes * bytes) :=
  if i <? IELength n then
    match fuel with
    | O => NoFuel
    | S fuel =>
        x ← echo_elem n i x;
        Length ← ldr (IEs n) (i + 1);
        echo_loop fuel n (i + (Length + 2)) x
    end
  else Done x.

(** ** P2P and Wi-Fi Display *)

Definition le16 (x : Z) : bytes := [u8 x; u8 (x .>> 8)].
Definition be16 (x : Z) : bytes := [u8 (x .>> 8); u8 x].

(** Capability, extended listen timing, device info and interface. *)
Definition p2pie : bytes :=
  let p := q_p2p c in
  let name_len := zlen (device_name p) in
  [0x50; 0x6f; 0x9a; 0x09] ++
  ([2] ++ le16 2 ++ [0x27; if persistent_supported p then 0x0a else 0x08]) ++
  ([8] ++ le16 4 ++ le16 0xffff ++ le16 0xffff) ++
  ([13] ++ le16 (21 + name_len) ++ q_myid c ++ be16 (if got_display_pin p then 0x0008 else 0x0080) ++
   be16 0x0008 ++ [0x00; 0x50; 0xf2; 0x04] ++ be16 0x0005 ++ [0] ++ be16 0x1011 ++ be16 name_len ++ device_name p) ++
  ([16] ++ le16 13 ++ device_addr p ++ [1] ++ device_addr p).

Definition put_p2p (frame : bytes) : res bytes :=
  let p := q_p2p c in
  if p2p_cfg80211 p then put (p2p_assoc_req_ie p) frame
  else if p2p_idle p then Done frame
  else put_ie _VENDOR_SPECIFIC_IE_ (zlen p2pie) p2pie frame.

Definition WFD_DEVINFO_SESSION_AVAIL : Z := 0x0010.
Definition WFD_DEVINFO_WSD : Z := 0x0040.

(** [build_assoc_req_wfd_ie]: device information, associated BSSID, coupled sink. *)
Definition wfdie : bytes :=
  let p := q_p2p c in
  [0x50; 0x6f; 0x9a; 0x0a] ++
  ([0] ++ be16 6 ++ be16 (wfd_device_type p .| WFD_DEVINFO_SESSION_AVAIL .| WFD_DEVINFO_WSD) ++ be16 (rtsp_ctrlport p) ++ be16 300) ++
  ([1] ++ be16 6 ++ (if wfd_linked p then assoc_bssid p else replicate 6 0)) ++
  ([6] ++ be16 7 ++ replicate 7 0).

Definition put_wfd (frame : bytes) : res bytes :=
  let p := q_p2p c in
  if wfd_enable p then
    if p2p_idle p then Done frame else put_ie _VENDOR_SPECIFIC_IE_ (zlen wfdie) wfdie frame
  else put (wfd_assoc_req_ie p) frame.

(** ** issue_assocreq *)

(** Frame control of an association request, duration, receiver, sender, BSSID and sequence. *)
Definition req_header (n : WLAN_BSSID_EX) (mgnt_seq : Z) : bytes :=
  [0; 0; 0; 0] ++ MacAddress n ++ q_myid c ++ MacAddress n ++ le16 (u16 (mgnt_seq .<< 4)).

(** [HT_caps] and [mgnt_seq] afterwards, and the frame that is sent.  On channel 14 four rates
    are used, however many there are. *)
Definition issue_assocreq (n : WLAN_BSSID_EX) (HT_caps : bytes) (mgnt_seq : Z) : res (bytes * Z * option bytes) :=
  if negb (xmitframe_ok c) then Done (HT_caps, mgnt_seq, None)
  else
    frame ← put (req_header n mgnt_seq) [];
    let mgnt_seq := u16 (mgnt_seq + 1) in
    cap ← rtw_get_capability (IEs n);
    frame ← put (le16 (cap .| cap_SpecMgmt)) frame;
    frame ← put (le16 3) frame;
    frame ← put_ie _SSID_IE_ (SsidLength (ssid n)) (Ssid (ssid n)) frame;
    frame ← put_dot_h frame;
    sta_bssrate ← (if q_cur_channel c =? 14 then rdr get_rate_set 0 4 else Done get_rate_set);
    bssrate ← joint_rates sta_bssrate (take 16 (SupportedRates n)) [];
    if (zlen bssrate =? 0) && negb (ld0 (SupportedRates n) 0 =? 0) then Done (HT_caps, mgnt_seq, None)
    else
      frame ← put_rates bssrate frame;
      '(HT_caps, frame) ← echo_loop (Z.to_nat (IELength n)) n _FIXED_IE_LENGTH_ (HT_caps, frame);
      frame ← (if assoc_AP_realtek c then put_ie _VENDOR_SPECIFIC_IE_ 6 REALTEK_96B_IE frame else Done frame);
      frame ← put_p2p frame;
      frame ← put_wfd frame;
      Done (HT_caps, mgnt_seq, Some frame).
End req.

(** ** Specification *)

(** The rates before the first zero, and those of them that the station has. *)
Fixpoint until_zero (rates : bytes) : bytes :=
  match rates with [] => [] | r :: rates => if r =? 0 then [] else r :: until_zero rates end.
Definition common_rates (own rates : bytes) : bytes :=
  List.filter (fun r => existsb (same_rate r) own) (until_zero rates).

(** The elements of the network that TKIP protects unicast frames of. *)
Definition tkip_elem (e : elem) : bool :=
  if e.1 =? 221 then bool_decide (take 4 e.2 = RTW_WPA_OUI) && bool_decide (take 4 (drop 12 e.2) = WPA_TKIP_CIPHER)
  else (e.1 =? 48) && bool_decide (take 4 (drop 8 e.2) = RSN_TKIP_CIPHER).

(** What the request repeats of an element of the network. *)
Definition wps_elem (e : elem) : bool := bool_decide (take 4 e.2 = WPS_OUI).
Definition echo (c : req_cfg) (tkip : bool) (e : elem) : list elem :=
  if e.1 =? 221 then
    if bool_decide (take 4 e.2 = RTW_WPA_OUI) || bool_decide (take 4 e.2 = WMM_OUI) || wps_elem e then
      [(221, if negb (q_wifi_spec c) && wps_elem e then take 14 e.2 else e.2)]
    else []
  else if e.1 =? 48 then [e]
  else if e.1 =? 45 then (if q_ht_option c && negb tkip then [e] else [])
  else if e.1 =? 127 then (if q_ht_option c then [e] else [])
  else if (e.1 =? 191) || (e.1 =? 199) then (if q_vht_option c then [e] else [])
  else [].

(** The elements are as long as the code takes them to be. *)
Definition echoable (e : elem) : Prop :=
  elem_ok e /\
  (e.1 = 221 -> 4 <= zlen e.2 /\ (wps_elem e = true -> 14 <= zlen e.2) /\ (take 4 e.2 = RTW_WPA_OUI -> 16 <= zlen e.2)) /\
  (e.1 = 48 -> 12 <= zlen e.2) /\ (e.1 = 45 -> zlen e.2 <= sizeof_HT_caps).

Definition rate_elems (rates : bytes) : list elem :=
  if 8 <? zlen rates then [(1, take 8 rates); (50, drop 8 rates)]
  else if 0 <? zlen rates then [(1, rates)] else [].

Definition p2p_part (c : req_cfg) : bytes :=
  let p := q_p2p c in
  if p2p_cfg80211 p then p2p_assoc_req_ie p else if p2p_idle p then [] else encode1 (221, p2pie c).
Definition wfd_part (c : req_cfg) : bytes :=
  let p := q_p2p c in
  if wfd_enable p then (if p2p_idle p then [] else encode1 (221, wfdie c)) else wfd_assoc_req_ie p.

(** The HT capabilities that stay in [HT_caps]: those of the last element that was repeated, and
    what follows it in the network's elements up to the size of the structure. *)
Fixpoint ht_after (c : req_cfg) (tkip : bool) (rest : bytes) (els : list elem) (ht : bytes) : bytes :=
  match els with
  | [] => ht
  | e :: els => ht_after c tkip rest els
      (if (e.1 =? 45) && q_ht_option c && negb tkip then take (Z.to_nat sizeof_HT_caps) (e.2 ++ encode els ++ rest) else ht)
  end.

(** ** Lemmas *)

Lemma memcmp_body_at a e c p k o : p = zlen a + 2 + Z.of_nat k -> Z.of_nat k + zlen o <= zlen e.2 ->
  _rtw_memcmp (a ++ encode1 e ++ c) p o = Done (bool_decide (take (length o) (drop k e.2) = o)).
Proof.
  intros -> Ho. unfold _rtw_memcmp.
  set (x := take k e.2). set (y := take (length o) (drop k e.2)). set (z := drop (length o) (drop k e.2)).
  assert (a ++ encode1 e ++ c = (a ++ [e.1; zlen e.2] ++ x) ++ y ++ (z ++ c)) as ->.
  { unfold encode1. rewrite <- !app_assoc. f_equal. cbn [app]. do 2 f_equal. unfold x, y, z.
    by rewrite (app_assoc (take (length o) _)), take_drop, app_assoc, take_drop. }
  rewrite rdr_mid; [by rewrite done_bind| |].
  - rewrite !zlen_app. unfold x, zlen in *. cbn [length]. rewrite length_take. lia.
  - unfold y, zlen in *. rewrite length_take, length_drop. lia.
Qed.

(** The array takes 13 rates. *)
Lemma joint_rates_run own : forall rates acc, zlen acc <= 13 ->
  joint_rates own rates acc =
    if zlen (acc ++ common_rates own rates) <=? 13 then Done (acc ++ common_rates own rates) else OutOfBounds.
Proof.
  unfold common_rates. induction rates as [|r rates IH]; intros acc Ha; cbn [joint_rates until_zero];
    [|destruct (r =? 0)]; cbn [List.filter]; rewrite ?app_nil_r, ?(proj2 (Z.leb_le (zlen acc) 13)) by done; try done.
  destruct (existsb _ own); [|by apply IH]. change (Z.of_nat NumRates) with 13. destruct (Z.leb_spec 13 (zlen acc)).
  - rewrite (proj2 (Z.leb_gt _ 13)); [done|]. rewrite zlen_app, zlen_cons. pose proof (zlen_nonneg (List.filter (fun r => existsb (same_rate r) own) (until_zero rates))). lia.
  - rewrite IH by (rewrite zlen_app, zlen_cons, zlen_nil; lia). by rewrite <- app_assoc.
Qed.

Lemma put_run c bs frame : zlen (frame ++ bs) <= room c -> put c bs frame = Done (frame ++ bs).
Proof. intros H. unfold put. by rewrite (proj2 (Z.ltb_ge _ _) H). Qed.
Lemma put_ie_run c id len source frame : 0 <= len <= 255 -> len <= zlen source -> is_u8 id ->
  zlen (frame ++ encode1 (id, take (Z.to_nat len) source)) <= room c ->
  put_ie c id len source frame = Done (frame ++ encode1 (id, take (Z.to_nat len) source)).
Proof.
  intros Hl Hs Hid Hr. unfold put_ie. rewrite rdr_ok, done_bind by lia. rewrite drop_0, !u8_id by lia.
  assert (zlen (take (Z.to_nat len) source) = len) as El by (unfold zlen in *; rewrite length_take; lia).
  unfold encode1 in *. cbn [fst snd] in *. rewrite El in *. by apply put_run.
Qed.
Lemma put_elem_run c id body frame : is_u8 id -> zlen body <= 255 -> zlen (frame ++ encode1 (id, body)) <= room c ->
  put_ie c id (zlen body) body frame = Done (frame ++ encode1 (id, body)).
Proof.
  intros Hid Hb Hr. pose proof (zlen_nonneg body). assert (take (Z.to_nat (zlen body)) body = body) as Et.
  { unfold zlen. rewrite Nat2Z.id. apply take_ge. lia. }
  rewrite put_ie_run; rewrite ?Et; done || lia.
Qed.

Lemma tkip_loop_run rest : forall els fuel a, Forall echoable els -> (length els <= fuel)%nat ->
  tkip_loop fuel (a ++ encode els ++ rest) (zlen a) (zlen a + zlen (encode els)) = Done (existsb tkip_elem els).
Proof.
  induction els as [|e els IH]; intros fuel a Hels Hf.
  - destruct fuel; cbn [tkip_loop]; by rewrite (proj2 (Z.ltb_ge _ _)) by (change (zlen (encode [])) with 0; lia).
  - apply list.Forall_cons in Hels as [(_ & H221 & H48 & _) Hels]. destruct fuel as [|fuel]; [cbn in Hf; lia|]. cbn [tkip_loop existsb].
    pose proof (zlen_nonneg (encode els)). pose proof (zlen_nonneg e.2). rewrite zlen_encode_cons.
    rewrite (proj2 (Z.ltb_lt _ _)) by lia. rewrite encode_cons, <- app_assoc.
    rewrite (ld_id a e _ (zlen a)), (ld_len a e _ (zlen a + 1)), !done_bind by done.
    assert (forall hit, hit = tkip_elem e ->
      (if hit : bool then Done true
       else tkip_loop fuel (a ++ encode1 e ++ encode els ++ rest) (zlen a + (zlen e.2 + 2)) (zlen a + (zlen e.2 + 2 + zlen (encode els)))) =
      Done (tkip_elem e || existsb tkip_elem els)) as Hnext.
    { intros hit ->. destruct (tkip_elem e); [done|]. cbn [orb].
      rewrite <- (IH fuel (a ++ encode1 e)) by (done || cbn in Hf; lia). rewrite zlen_app, zlen_encode1, <- !app_assoc.
      f_equal; lia. }
    unfold tkip_elem at 1 in Hnext. change _VENDOR_SPECIFIC_IE_ with 221. change _WPA2_IE_ID_ with 48.
    destruct (Z.eqb_spec e.1 221) as [E|].
    + rewrite (memcmp_body a e _ _ RTW_WPA_OUI) by (done || (change (zlen RTW_WPA_OUI) with 4; by apply H221)). rewrite done_bind.
      change (length RTW_WPA_OUI) with 4%nat. case_bool_decide as Eo; [|rewrite done_bind; by apply (Hnext false)].
      rewrite (memcmp_body_at a e _ _ 12 WPA_TKIP_CIPHER), done_bind;
        [by apply Hnext|lia|change (zlen WPA_TKIP_CIPHER) with 4; destruct (H221 E) as (_ & _ & H16); specialize (H16 Eo); lia].
    + destruct (Z.eqb_spec e.1 48) as [E|]; [|rewrite done_bind; by apply (Hnext false)].
      rewrite (memcmp_body_at a e _ _ 8 RSN_TKIP_CIPHER), done_bind;
        [by apply Hnext|lia|change (zlen RSN_TKIP_CIPHER) with 4; specialize (H48 E); lia].
Qed.


Definition net_tkip (cap : Z) (els : list elem) : bool :=
  negb (cap .& WLAN_CAPABILITY_PRIVACY =? 0) && existsb tkip_elem els.

(** [sizeof_HT_caps] bytes from the data of an element on. *)
Lemma rd_behind a e c0 : sizeof_HT_caps <= zlen c0 ->
  rdr (a ++ encode1 e ++ c0) (zlen a + 2) sizeof_HT_caps = Done (take (Z.to_nat sizeof_HT_caps) (e.2 ++ c0)).
Proof.
  intros H. pose proof (zlen_nonneg a). pose proof (zlen_nonneg e.2).
  rewrite rdr_ok by (rewrite ?zlen_app, ?zlen_encode1; unfold sizeof_HT_caps in *; lia). do 2 f_equal.
  replace (Z.to_nat (zlen a + 2)) with (length (a ++ [e.1; zlen e.2])) by (rewrite length_app; unfold zlen; cbn [length]; lia).
  unfold encode1. change ((e.1 :: zlen e.2 :: e.2) ++ c0) with ([e.1; zlen e.2] ++ e.2 ++ c0).
  by rewrite app_assoc, drop_app_length.
Qed.

Section network.
Context (c : req_cfg) (n : WLAN_BSSID_EX) (fixed rest : bytes) (els : list elem) (cap : Z).
Context (HIEs : IEs n = fixed ++ encode els ++ rest) (Hfixed : zlen fixed = 12).
Context (Hlen : IELength n = 12 + zlen (encode els)) (Hels : Forall echoable els).
Context (Hcap : rtw_get_capability (IEs n) = Done cap) (Hrest : sizeof_HT_caps <= zlen rest).

Lemma is_ap_in_tkip_run : is_ap_in_tkip n = Done (net_tkip cap els).
Proof.
  unfold is_ap_in_tkip, net_tkip. rewrite Hcap, done_bind. destruct (_ =? 0); [done|]. cbn [negb andb].
  rewrite HIEs, Hlen. change _FIXED_IE_LENGTH_ with 12. rewrite <- Hfixed. apply tkip_loop_run; [done|].
  pose proof (length_encode els). unfold zlen. lia.
Qed.

Lemma echo_elem_run a e c0 ht frame : IEs n = a ++ encode1 e ++ c0 -> echoable e -> sizeof_HT_caps <= zlen c0 ->
  zlen (frame ++ encode (echo c (net_tkip cap els) e)) <= room c ->
  echo_elem c n (zlen a) (ht, frame) =
    Done (if (e.1 =? 45) && q_ht_option c && negb (net_tkip cap els) then take (Z.to_nat sizeof_HT_caps) (e.2 ++ c0) else ht,
          frame ++ encode (echo c (net_tkip cap els) e)).
Proof.
  intros E ((Hid & _ & Hl) & H221 & _ & H45) Hc0 Hroom. pose proof (zlen_nonneg e.2). destruct e as [id body]. cbn [fst snd] in *.
  assert (take (Z.to_nat (zlen body)) body = body) as Et' by (unfold zlen; rewrite Nat2Z.id; apply take_ge; lia).
  assert (forall id' k, is_u8 id' -> zlen (frame ++ encode [(id', body)]) <= room c ->
    (Length ← ldr (IEs n) (zlen a + 1); d ← rdr (IEs n) (zlen a + 2) Length; frame ← put_ie c id' Length d frame; Done (k, frame)) =
    Done (k : bytes, frame ++ encode [(id', body)])) as Hcopy.
  { intros id' k Hid' Hr. cbn [encode map concat] in *. rewrite app_nil_r in *. rewrite E, ld_len, done_bind by done.
    cbn [snd]. rewrite rd_body, done_bind by (cbn [snd]; lia). cbn [snd]. rewrite Et', put_elem_run by done. by rewrite done_bind. }
  revert Hroom. unfold echo_elem, echo. cbn [fst snd]. rewrite E at 1. rewrite ld_id, done_bind by done. cbn [fst].
  change _VENDOR_SPECIFIC_IE_ with 221. change EID_WPA2 with 48. change EID_HTCapability with 45. change EID_EXTCapability with 127.
  change EID_VHTCapability with 191. change EID_OpModeNotification with 199.
  destruct (Z.eqb_spec id 221) as [->|N1].
  { destruct (H221 eq_refl) as (H4 & Hwps & _). rewrite E at 1. rewrite rd_body, done_bind by (cbn [snd]; lia).
    change (Z.to_nat 4) with 4%nat. cbn [fst snd Z.eqb Pos.eqb andb]. unfold wps_elem in *. cbn [snd] in *.
    destruct (bool_decide (take 4 body = RTW_WPA_OUI) || bool_decide (take 4 body = WMM_OUI) || bool_decide (take 4 body = WPS_OUI));
      intros Hroom; [|cbn; by rewrite app_nil_r].
    rewrite E at 1. rewrite ld_len, done_bind by done. cbn [snd encode map concat] in *. rewrite app_nil_r in *.
    destruct (negb (q_wifi_spec c) && bool_decide (take 4 body = WPS_OUI)) eqn:Ew.
    - apply andb_prop in Ew as [_ Ew]. specialize (Hwps Ew). rewrite E, rd_body, done_bind by (cbn [snd]; lia).
      change (Z.to_nat 14) with 14%nat in *. cbn [snd].
      assert (zlen (take 14 body) = 14) as E14 by (unfold zlen in *; rewrite length_take; lia).
      rewrite <- E14 at 1. rewrite put_elem_run by (done || lia). by rewrite done_bind.
    - rewrite E, rd_body, done_bind by (cbn [snd]; lia). cbn [snd]. rewrite Et', put_elem_run by done. by rewrite done_bind. }
  destruct (Z.eqb_spec id 48) as [->|N2]; [intros; by apply Hcopy|].
  destruct (Z.eqb_spec id 45) as [->|N3].
  { cbn [andb]. destruct (q_ht_option c); cbn [andb]; [|cbn; by rewrite app_nil_r].
    rewrite is_ap_in_tkip_run, done_bind. destruct (net_tkip cap els); cbn [negb]; [cbn; by rewrite app_nil_r|].
    intros Hroom. specialize (H45 eq_refl). rewrite E, rd_behind, done_bind, ld_len, done_bind by done. cbn [snd].
    set (ht' := take _ (body ++ c0)). assert (take (Z.to_nat (zlen body)) ht' = body) as Eb.
    { unfold ht'. rewrite take_take, Nat.min_l by (unfold zlen, sizeof_HT_caps in *; lia). rewrite take_app_le by (unfold zlen; lia). done. }
    assert (zlen body <= zlen ht') as Hb by (unfold ht', zlen, sizeof_HT_caps in *; rewrite length_take, length_app; lia).
    cbn [encode map concat] in *. rewrite app_nil_r in *.
    rewrite (put_ie_run c 45 (zlen body) ht'); rewrite ?Eb; [by rewrite done_bind|lia|done..]. }
  cbn [andb]. destruct (Z.eqb_spec id 127) as [->|N4]; [destruct (q_ht_option c); [intros; by apply Hcopy|cbn; by rewrite app_nil_r]|].
  destruct (Z.eqb_spec id 191) as [->|N5]; cbn [orb]; [destruct (q_vht_option c); [intros; by apply Hcopy|cbn; by rewrite app_nil_r]|].
  destruct (Z.eqb_spec id 199) as [->|N6]; [destruct (q_vht_option c); [intros; by apply Hcopy|cbn; by rewrite app_nil_r]|].
  cbn. by rewrite app_nil_r.
Qed.

Definition echoes (l : list elem) : list elem := concat (map (echo c (net_tkip cap els)) l).

Lemma echo_loop_run : forall more fuel a ht frame, IEs n = a ++ encode more ++ rest -> IELength n = zlen a + zlen (encode more) ->
  Forall echoable more -> (length more <= fuel)%nat -> zlen (frame ++ encode (echoes more)) <= room c ->
  echo_loop c fuel n (zlen a) (ht, frame) =
    Done (ht_after c (net_tkip cap els) rest more ht, frame ++ encode (echoes more)).
Proof.
  induction more as [|e more IH]; intros fuel a ht frame E El Hm Hf Hroom.
  - change (zlen (encode [])) with 0 in El. destruct fuel; cbn [echo_loop]; rewrite (proj2 (Z.ltb_ge _ _)) by lia; cbn; by rewrite app_nil_r.
  - apply list.Forall_cons in Hm as [He Hm]. destruct fuel as [|fuel]; [cbn in Hf; lia|]. cbn [echo_loop].
    pose proof (zlen_nonneg (encode more)). pose proof (zlen_nonneg e.2). rewrite zlen_encode_cons in El.
    rewrite (proj2 (Z.ltb_lt _ _)) by lia.
    change (echoes (e :: more)) with (echo c (net_tkip cap els) e ++ echoes more) in *.
    rewrite encode_app, app_assoc in Hroom. pose proof (zlen_nonneg (encode (echoes more))).
    rewrite encode_cons, <- app_assoc in E. assert (sizeof_HT_caps <= zlen (encode more ++ rest)) by (rewrite zlen_app; lia).
    rewrite (echo_elem_run a e (encode more ++ rest) ht frame E He) by (done || rewrite zlen_app in Hroom; lia).
    rewrite done_bind, E, ld_len, done_bind by done.
    replace (zlen a + (zlen e.2 + 2)) with (zlen (a ++ encode1 e)) by (rewrite zlen_app, zlen_encode1; lia).
    rewrite IH; [by rewrite encode_app, <- app_assoc|by rewrite <- app_assoc|rewrite zlen_app, zlen_encode1; lia|done|cbn in Hf; lia|done].
Qed.

(** What the request holds behind its header. *)
Definition request_body (common : bytes) : bytes :=
  le16 (cap .| cap_SpecMgmt) ++ le16 3 ++
  encode ((0, take (Z.to_nat (SsidLength (ssid n))) (Ssid (ssid n))) :: rate_elems common ++ echoes els ++
          (if assoc_AP_realtek c then [(221, REALTEK_96B_IE)] else [])) ++
  p2p_part c ++ wfd_part c.
End network.

(** The addresses have six bytes, and the name of the device at most 32. *)
Definition p2p_ok (c : req_cfg) : Prop :=
  zlen (q_myid c) = 6 /\ zlen (device_name (q_p2p c)) <= 32 /\ zlen (device_addr (q_p2p c)) = 6 /\ zlen (assoc_bssid (q_p2p c)) = 6.

Lemma put_p2p_run c frame : p2p_ok c -> zlen (frame ++ p2p_part c) <= room c -> put_p2p c frame = Done (frame ++ p2p_part c).
Proof.
  intros (H1 & H2 & H3 & _). unfold put_p2p, p2p_part. destruct (p2p_cfg80211 _); [apply put_run|].
  destruct (p2p_idle _); [by rewrite app_nil_r|]. apply put_elem_run; [done|]. unfold p2pie, le16, be16.
  rewrite ?zlen_app, ?zlen_cons, ?zlen_nil. lia.
Qed.
Lemma put_wfd_run c frame : p2p_ok c -> zlen (frame ++ wfd_part c) <= room c -> put_wfd c frame = Done (frame ++ wfd_part c).
Proof.
  intros (_ & _ & _ & H4). unfold put_wfd, wfd_part. destruct (wfd_enable _); [|apply put_run].
  destruct (p2p_idle _); [by rewrite app_nil_r|]. apply put_elem_run; [done|]. unfold wfdie, be16.
  destruct (wfd_linked _); rewrite ?zlen_app, ?zlen_cons, ?zlen_nil;
    change (zlen (replicate 7 0)) with 7;
    rewrite ?H4; change (zlen (replicate 6 0)) with 6; lia.
Qed.

Lemma put_rates_run c rates frame : zlen rates <= 13 -> zlen (frame ++ encode (rate_elems rates)) <= room c ->
  put_rates c rates frame = Done (frame ++ encode (rate_elems rates)).
Proof.
  intros Hr. unfold put_rates, rate_elems. destruct (Z.ltb_spec 8 (zlen rates)) as [H8|].
  - change [(1, take 8 rates); (50, drop 8 rates)] with ([(1, take 8 rates)] ++ [(50, drop 8 rates)]).
    rewrite encode_app, app_assoc. intros Hroom.
    assert (E1 : forall e, encode [e] = encode1 e) by (intros; cbn; by rewrite app_nil_r). rewrite !E1 in *.
    pose proof (zlen_nonneg (encode1 (50, drop 8 rates))).
    rewrite (put_ie_run c _SUPPORTEDRATES_IE_ 8 rates) by (lia || done || (change (Z.to_nat 8) with 8%nat; rewrite zlen_app in Hroom; unfold _SUPPORTEDRATES_IE_; lia)).
    rewrite done_bind. change (Z.to_nat 8) with 8%nat.
    assert (zlen rates - 8 = zlen (drop 8 rates)) as -> by (unfold zlen in *; rewrite length_drop; lia).
    rewrite put_elem_run; [done|done|unfold zlen in *; rewrite length_drop; lia|done].
  - destruct (Z.ltb_spec 0 (zlen rates)); [|cbn; by rewrite app_nil_r]. intros Hroom.
    cbn [encode map concat] in *. rewrite app_nil_r in *. apply put_elem_run; done || lia.
Qed.

(** ** Properties *)

(** C20: The association request that a station sends on a channel below 14 to a network whose
    description is a list of elements as long as the code takes them to be, with room for an
    HT structure behind them, when both have rates in common (at most 13): it goes to the
    network's address with the next sequence number, and holds the network's capabilities with
    spectrum management, listen interval 3, the SSID, exactly the network's rates that the
    station has, in the network's order and split after eight, the network's WPA, WMM, WPS and
    RSN elements (WPS cut to 14 bytes), its HT elements when the station uses HT and the
    network does not use TKIP, its VHT elements when the station uses VHT, and then what P2P
    and Wi-Fi Display add. *)
Theorem association_request c n ht seq fixed rest els cap :
  IEs n = fixed ++ encode els ++ rest -> zlen fixed = 12 -> IELength n = 12 + zlen (encode els) -> sizeof_HT_caps <= zlen rest ->
  Forall echoable els -> rtw_get_capability (IEs n) = Done cap -> 0 <= SsidLength (ssid n) <= zlen (Ssid (ssid n)) -> SsidLength (ssid n) <= 32 ->
  q_cur_channel c < 14 -> xmitframe_ok c = true -> p2p_ok c ->
  let common := common_rates (get_rate_set c) (take 16 (SupportedRates n)) in
  0 < zlen common <= 13 ->
  let frame := req_header c n seq ++ request_body c n els cap common in
  zlen frame <= room c ->
  issue_assocreq c n ht seq = Done (ht_after c (net_tkip cap els) rest els ht, u16 (seq + 1), Some frame).
Proof.
  intros HIEs Hfixed Hlen Hrest Hels Hcap [Hs0 Hs1] Hs2 Hch Hx Hp2p common Hcom frame.
  assert (frame = ((((((((req_header c n seq ++ le16 (cap .| cap_SpecMgmt)) ++ le16 3) ++
      encode1 (0, take (Z.to_nat (SsidLength (ssid n))) (Ssid (ssid n)))) ++ encode (rate_elems common)) ++
      encode (echoes c els cap els)) ++ encode (if assoc_AP_realtek c then [(221, REALTEK_96B_IE)] else [])) ++
      p2p_part c) ++ wfd_part c)) as ->.
  { unfold frame, request_body. rewrite encode_cons, !encode_app, <- !app_assoc. done. }
  set (h := req_header c n seq). set (b1 := le16 (cap .| _)). set (b2 := le16 3). set (s := encode1 (0, _)).
  intros Hroom. pose proof Hroom as Hroom'. rewrite !zlen_app in Hroom'.
  pose proof (zlen_nonneg (wfd_part c)). pose proof (zlen_nonneg (p2p_part c)).
  pose proof (zlen_nonneg (encode (if assoc_AP_realtek c then [(221, REALTEK_96B_IE)] else []))).
  pose proof (zlen_nonneg (encode (echoes c els cap els))). pose proof (zlen_nonneg (encode (rate_elems common))).
  pose proof (zlen_nonneg s). pose proof (zlen_nonneg b2). pose proof (zlen_nonneg b1).
  unfold issue_assocreq. rewrite Hx, Hcap. cbn [negb]. fold h b1 b2. cbv zeta.
  rewrite (put_run c h []), done_bind by (cbn [app]; lia). rewrite done_bind. cbn [app]. fold b1.
  rewrite (put_run c b1 h), done_bind by (rewrite ?zlen_app; lia).
  rewrite (put_run c b2), done_bind by (rewrite ?zlen_app; lia).
  change _SSID_IE_ with 0.
  rewrite (put_ie_run c 0), done_bind by (done || lia || (fold s; rewrite ?zlen_app; lia)). fold s.
  unfold put_dot_h. rewrite (proj2 (Z.ltb_ge 14 _)), done_bind by lia.
  rewrite (proj2 (Z.eqb_neq _ 14)), done_bind by lia.
  rewrite joint_rates_run by (rewrite zlen_nil; lia). cbn [app]. fold common. rewrite (proj2 (Z.leb_le _ 13)), done_bind by lia.
  rewrite (proj2 (Z.eqb_neq _ 0)) by lia. cbn [andb].
  rewrite put_rates_run, done_bind by (rewrite ?zlen_app; lia). change _FIXED_IE_LENGTH_ with 12. rewrite <- Hfixed.
  rewrite (echo_loop_run c n fixed rest els cap HIEs Hfixed Hlen Hels Hcap Hrest els), done_bind; [|done|lia|done| |rewrite ?zlen_app; lia].
  2:{ pose proof (length_encode els). unfold zlen in Hlen. lia. }
  assert (forall x, zlen (x ++ encode (if assoc_AP_realtek c then [(221, REALTEK_96B_IE)] else [])) <= room c ->
    (if assoc_AP_realtek c then put_ie c _VENDOR_SPECIFIC_IE_ 6 REALTEK_96B_IE x else Done x) =
    Done (x ++ encode (if assoc_AP_realtek c then [(221, REALTEK_96B_IE)] else []))) as Hrk.
  { intros x. destruct (assoc_AP_realtek c); [|cbn; by rewrite app_nil_r]. intros Hr. by apply put_ie_run. }
  rewrite Hrk, done_bind by (rewrite ?zlen_app; lia).
  rewrite put_p2p_run, done_bind by (done || (rewrite ?zlen_app; lia)).
  by rewrite put_wfd_run, done_bind by (done || (rewrite ?zlen_app; lia)).
Qed.

(** ** Examples *)

(** All rates, 1 to 11 Mb/s basic, channel 6, no P2P. *)
Definition ex_p2p : p2p_cfg := P2pCfg false [] true false false [] (replicate 6 0) true [] 0 0 false (replicate 6 0).
Definition ex_req_cfg : req_cfg :=
  ReqCfg false true true 6 [1; 6; 11; 36; 40; 0] (zseq 0 12 ++ [0xff]) ([0; 1; 2; 3] ++ replicate 9 0xff) false
    [2; 0; 0; 0; 0; 1] ex_p2p 1488 true.

Definition ex_rsn : bytes :=
  [1; 0; 0; 15; 172; 4; 1; 0; 0; 15; 172; 4; 1; 0; 0; 15; 172; 2; 0; 0].
Definition ex_els : list elem :=
  [(0, [65; 66]); (1, [0x82; 0x84; 0x8b; 0x96; 0x2c]); (48, ex_rsn); (45, replicate 26 0x0f); (221, WMM_OUI ++ [1; 1] ++ replicate 18 9)].
Definition ex_net (rates : bytes) (els : list elem) : WLAN_BSSID_EX :=
  let m := replicate 10 0 ++ [0x11; 0x04] ++ encode els in
  WlanBssidEx 0 [2; 0; 0; 0; 0; 9] (0, 0) (NdisSsid 2 ([65; 66] ++ replicate 30 0)) 1 0 0
    (Configuration 0 100 0 6 (FHConfiguration 0 0 0 0)) 1 (rates ++ replicate (16 - length rates) 0) (PhyInfo 0 0 0 0)
    (zlen m) (m ++ replicate (768 - length m) 0).

(** A check for [echoable]. *)
Definition echoableb (e : elem) : bool :=
  (0 <=? e.1) && (e.1 <? 256) && bytes_okb e.2 && (zlen e.2 <=? 255) &&
  (negb (e.1 =? 221) || (4 <=? zlen e.2) && (negb (wps_elem e) || (14 <=? zlen e.2)) &&
    (negb (bool_decide (take 4 e.2 = RTW_WPA_OUI)) || (16 <=? zlen e.2))) &&
  (negb (e.1 =? 48) || (12 <=? zlen e.2)) && (negb (e.1 =? 45) || (zlen e.2 <=? sizeof_HT_caps)).
Lemma echoableb_ok els : forallb echoableb els = true -> Forall echoable els.
Proof.
  intros H. apply list.Forall_forall. intros e He. rewrite forallb_forall in H. apply list_elem_of_In in He.
  specialize (H e He). unfold echoableb in H. repeat (apply andb_prop in H as [H ?]). unfold echoable, elem_ok.
  split_and!; [by apply Z.leb_le|by apply Z.ltb_lt|by apply bytes_ok_spec|by apply Z.leb_le|..];
    intros E; rewrite E in *; cbn [Z.eqb Pos.eqb negb orb] in *; bool_to_prop; try done.
  split_and!; [done|intros Ew; rewrite Ew in *|intros Eo; rewrite (bool_decide_eq_true_2 _ Eo) in *];
    cbn [negb orb] in *; by apply Z.leb_le.
Qed.

Lemma ex_echoable : Forall echoable ex_els.
Proof. apply echoableb_ok. vm_compute. reflexivity. Qed.

Lemma association_request_witness :
  issue_assocreq ex_req_cfg (ex_net [0x82; 0x84; 0x8b; 0x96; 0x2c] ex_els) (replicate 32 0) 7 =
    Done (replicate 26 0x0f ++ [221; 24; 0; 0x50; 0xf2; 2], 8, Some ([0; 0; 0; 0; 2; 0; 0; 0; 0; 9; 2; 0; 0; 0; 0; 1; 2; 0; 0; 0; 0; 9; 0x70; 0] ++ [0x11; 0x05; 3; 0] ++
      encode [(0, [65; 66]); (1, [0x82; 0x84; 0x8b; 0x96]); (48, ex_rsn); (45, replicate 26 0x0f); (221, WMM_OUI ++ [1; 1] ++ replicate 18 9)])).
Proof.
  rewrite (association_request ex_req_cfg (ex_net [0x82; 0x84; 0x8b; 0x96; 0x2c] ex_els) (replicate 32 0) 7
    (replicate 10 0 ++ [0x11; 0x04]) (replicate (768 - 12 - length (encode ex_els)) 0) ex_els 0x0411).
  - vm_compute. reflexivity.
  - vm_compute. reflexivity.
  - vm_compute. reflexivity.
  - vm_compute. reflexivity.
  - vm_compute. congruence.
  - exact ex_echoable.
  - vm_compute. reflexivity.
  - vm_compute. split; congruence.
  - vm_compute. congruence.
  - vm_compute. reflexivity.
  - vm_compute. reflexivity.
  - vm_compute. split_and!; congruence.
  - vm_compute. split; congruence.
  - vm_compute. congruence.
Defined.

(** A network that lists a rate sixteen times overflows the array of the common rates; HT
    capabilities of more than 32 bytes are repeated from behind [HT_caps]; and a network with
    which there is no common rate gets no request. *)
Example request_overflows :
  issue_assocreq ex_req_cfg (ex_net (replicate 16 2) ex_els) (replicate 32 0) 7 = OutOfBounds /\
  issue_assocreq ex_req_cfg (ex_net [2] [(45, replicate 33 0)]) (replicate 32 0) 7 = OutOfBounds /\
  issue_assocreq ex_req_cfg (ex_net [0x2c] ex_els) (replicate 32 0) 7 = Done (replicate 32 0, 8, None).
Proof. vm_compute. by split_and!. Qed.
