(* ===== verification/StaLink.v ===== *)
(** * Linking of a station (src/core/rtw_mlme_ext.c, src/core/rtw_wlan_util.c)

    The state machine by which a station joins a network: [start_clnt_join], [start_clnt_auth],
    [start_clnt_assoc], the client's branch of [issue_auth], [OnAuthClient], [OnAssocRsp],
    [receive_disconnect], the client's branches of [OnDeAuth] and [OnDisassoc], what [OnBeacon]
    does to the link, [link_timer_hdl], and [rtw_mlmeext_disconnect].  Frames and reports are
    the events of a log; the WEP encryption of the third message of a shared key
    authentication (SecFrames) is left to the transmitter of the event.  An abstract machine
    [join_step] says what the handlers are for.  Left out: registers of the chip, the beacon's
    description of the network (BssInfo, ScanTable). *)

From stdpp Require Import relations.
From S2P Require Import Prelude WifiHdr Ie IeAttr BssInfo StaElems StaReq.

(** ** Data *)

Definition WIFI_FW_NULL_STATE : Z := 0.
Definition WIFI_FW_ADHOC_STATE : Z := 1.
Definition WIFI_FW_STATION_STATE : Z := 2.
Definition WIFI_FW_AUTH_NULL : Z := 0x100.
Definition WIFI_FW_AUTH_STATE : Z := 0x200.
Definition WIFI_FW_AUTH_SUCCESS : Z := 0x400.
Definition WIFI_FW_ASSOC_STATE : Z := 0x2000.
Definition WIFI_FW_ASSOC_SUCCESS : Z := 0x4000.
Definition WIFI_FW_LINKING_STATE : Z :=
  WIFI_FW_AUTH_NULL .| WIFI_FW_AUTH_STATE .| WIFI_FW_AUTH_SUCCESS .| WIFI_FW_ASSOC_STATE.

Definition REAUTH_TO : Z := 300.
Definition REASSOC_TO : Z := 300.
Definition REAUTH_LIMIT : Z := 4.
Definition REASSOC_LIMIT : Z := 4.
Definition WAIT_FOR_BCN_TO_MIN : Z := 6000.
Definition WAIT_FOR_BCN_TO_MAX : Z := 20000.

Definition dot11AuthAlgrthm_Open : Z := 0.
Definition dot11AuthAlgrthm_Shared : Z := 1.
Definition _AUTH_IE_OFFSET_ : Z := 6.
Definition _CHLGETXT_IE_ : Z := 16.
Definition WLAN_HDR_A3_LEN : Z := 24.
Definition WLAN_REASON_PREV_AUTH_NOT_VALID : Z := 2.
Definition WLAN_REASON_DEAUTH_LEAVING : Z := 3.
Definition WLAN_REASON_CLASS2_FRAME_FROM_NONAUTH_STA : Z := 6.
Definition cap_ESS : Z := 1.
Definition cap_IBSS : Z := 2.

Inductive link_event :=
  | TxAuth (frame : bytes) (wep : bool)
  | TxAssocReq (frame : bytes)
  | TxDeauth (addr : bytes) (reason : Z)
  | JoinRes (res : Z)
  | DelSta (addr : bytes) (reason : Z).

(** The fields of authentication of [struct mlme_ext_info]; [chg_txt] has 128 bytes. *)
Record sta_auth := StaAuth { auth_seq : Z; auth_algo : Z; key_index : Z; iv : Z; chg_txt : bytes }.
(** Those that describe the network joined, besides the elements. *)
Record sta_bss := StaBss {
  laid : Z; capability : Z; slotTime : Z; short_preamble : bool; HT_enable : bool; cur_wireless_mode : Z
}.

(** The link.  A timer is the time it was set to, or [None]; [assoc_req] and [assoc_rsp] are
    copies of frames; [net] is [mlmext_info.network]. *)
Record link := Link {
  lstate : Z; reauth_count : Z; reassoc_count : Z; auth : sta_auth; lbss : sta_bss;
  link_timer : option Z; assoc_timer : option Z; net : WLAN_BSSID_EX; elems : sta_elems;
  mgnt_seq : Z; assoc_req : option bytes; assoc_rsp : option bytes; llog : list link_event
}.

(** What the handlers read: the settings for the request and the elements, the wireless modes
    allowed, the beacon interval of the network, the networks in the scan table, and whether an
    event and a copy of a frame can be allocated. *)
Record link_cfg := LinkCfg {
  k_req : req_cfg; k_elem : elem_cfg; k_wireless_mode : Z; k_bcn_interval : Z;
  k_scanned : list WLAN_BSSID_EX; k_event_ok : bool; k_buf_ok : bool
}.

Definition set_lstate (s : Z) (l : link) : link :=
  Link s (reauth_count l) (reassoc_count l) (auth l) (lbss l) (link_timer l) (assoc_timer l) (net l) (elems l)
    (mgnt_seq l) (assoc_req l) (assoc_rsp l) (llog l).
Definition set_counts (a b : Z) (l : link) : link :=
  Link (lstate l) a b (auth l) (lbss l) (link_timer l) (assoc_timer l) (net l) (elems l)
    (mgnt_seq l) (assoc_req l) (assoc_rsp l) (llog l).
Definition upd_auth (f : sta_auth -> sta_auth) (l : link) : link :=
  Link (lstate l) (reauth_count l) (reassoc_count l) (f (auth l)) (lbss l) (link_timer l) (assoc_timer l) (net l) (elems l)
    (mgnt_seq l) (assoc_req l) (assoc_rsp l) (llog l).
Definition upd_bss (f : sta_bss -> sta_bss) (l : link) : link :=
  Link (lstate l) (reauth_count l) (reassoc_count l) (auth l) (f (lbss l)) (link_timer l) (assoc_timer l) (net l) (elems l)
    (mgnt_seq l) (assoc_req l) (assoc_rsp l) (llog l).
Definition set_timer (t : option Z) (l : link) : link :=
  Link (lstate l) (reauth_count l) (reassoc_count l) (auth l) (lbss l) t (assoc_timer l) (net l) (elems l)
    (mgnt_seq l) (assoc_req l) (assoc_rsp l) (llog l).
Definition set_assoc_timer (t : Z) (l : link) : link :=
  Link (lstate l) (reauth_count l) (reassoc_count l) (auth l) (lbss l) (link_timer l) (Some t) (net l) (elems l)
    (mgnt_seq l) (assoc_req l) (assoc_rsp l) (llog l).
Definition set_net (n : WLAN_BSSID_EX) (l : link) : link :=
  Link (lstate l) (reauth_count l) (reassoc_count l) (auth l) (lbss l) (link_timer l) (assoc_timer l) n (elems l)
    (mgnt_seq l) (assoc_req l) (assoc_rsp l) (llog l).
Definition set_elems (s : sta_elems) (l : link) : link :=
  Link (lstate l) (reauth_count l) (reassoc_count l) (auth l) (lbss l) (link_timer l) (assoc_timer l) (net l) s
    (mgnt_seq l) (assoc_req l) (assoc_rsp l) (llog l).
Definition set_seq (n : Z) (l : link) : link :=
  Link (lstate l) (reauth_count l) (reassoc_count l) (auth l) (lbss l) (link_timer l) (assoc_timer l) (net l) (elems l)
    n (assoc_req l) (assoc_rsp l) (llog l).
Definition set_assoc_req (m : option bytes) (l : link) : link :=
  Link (lstate l) (reauth_count l) (reassoc_count l) (auth l) (lbss l) (link_timer l) (assoc_timer l) (net l) (elems l)
    (mgnt_seq l) m (assoc_rsp l) (llog l).
Definition set_assoc_rsp (m : option bytes) (l : link) : link :=
  Link (lstate l) (reauth_count l) (reassoc_count l) (auth l) (lbss l) (link_timer l) (assoc_timer l) (net l) (elems l)
    (mgnt_seq l) (assoc_req l) m (llog l).
Definition say (e : link_event) (l : link) : link :=
  Link (lstate l) (reauth_count l) (reassoc_count l) (auth l) (lbss l) (link_timer l) (assoc_timer l) (net l) (elems l)
    (mgnt_seq l) (assoc_req l) (assoc_rsp l) (llog l ++ [e]).

Definition has (mask x : Z) : bool := negb (x .& mask =? 0).

Definition set_auth_seq (n : Z) (a : sta_auth) : sta_auth := StaAuth n (auth_algo a) (key_index a) (iv a) (chg_txt a).
Definition set_auth_algo (n : Z) (a : sta_auth) : sta_auth := StaAuth (auth_seq a) n (key_index a) (iv a) (chg_txt a).
Definition set_iv (n : Z) (a : sta_auth) : sta_auth := StaAuth (auth_seq a) (auth_algo a) (key_index a) n (chg_txt a).
Definition set_chg_txt (m : bytes) (a : sta_auth) : sta_auth := StaAuth (auth_seq a) (auth_algo a) (key_index a) (iv a) m.

(** The HT capabilities that [issue_assocreq] copies. *)
Definition set_req_caps (ht : bytes) (s : sta_elems) : sta_elems :=
  StaElems (WMM_enable s) (WMM_param s) (HT_caps_enable s) ht (HT_info_enable s) (HT_info s) (htpriv s) (VHT_enable s)
    (vhtpriv s) (erp s) (peer_rtsp_ctrlport s).

Section link.
Context (c : link_cfg).

Definition my : bytes := q_myid (k_req c).
Definition report_join_res (r : Z) (l : link) : link := if k_event_ok c then say (JoinRes r) l else l.
Definition report_del_sta_event (addr : bytes) (reason : Z) (l : link) : link :=
  if k_event_ok c then say (DelSta addr reason) l else l.
Definition copy_buf (m : bytes) : option bytes := if k_buf_ok c then Some m else None.

(** ** Sending *)

(** The client's branch: [mlmext_info.auth_seq] 3 of a shared key authentication carries the
    IV and the challenge, and is encrypted. *)
Definition issue_auth (status : Z) (l : link) : link :=
  if negb (xmitframe_ok (k_req c)) then l
  else
    let a := auth l in
    let bssid := MacAddress (net l) in
    let val16 := if auth_algo a =? dot11AuthAlgrthm_Shared then 1 else 0 in
    let third := (auth_seq a =? 3) && has WIFI_FW_AUTH_STATE (lstate l) && (val16 =? 1) in
    let val32 := iv a .| u32 (key_index a .<< 30) in
    let frame :=
      [0xb0; if third then 0x40 else 0; 0; 0] ++ bssid ++ my ++ bssid ++ le16 (u16 (mgnt_seq l .<< 4)) ++
      (if third then le16 (u16 val32) ++ le16 (val32 .>> 16) else []) ++
      le16 val16 ++ le16 (u16 (auth_seq a)) ++ le16 status ++
      (if third then [_CHLGETXT_IE_; 128] ++ chg_txt a else []) in
    let l := if third then upd_auth (set_iv (u32 (iv a + 1))) l else l in
    say (TxAuth frame third) (set_seq (u16 (mgnt_seq l + 1)) l).

Definition send_assocreq (l : link) : res link :=
  '(ht, seq, frame) ← issue_assocreq (k_req c) (net l) (HT_caps (elems l)) (mgnt_seq l);
  let l := set_seq seq (set_elems (set_req_caps ht (elems l)) l) in
  Done (match frame with
        | Some m => set_assoc_req (copy_buf m) (say (TxAssocReq m) l)
        | None => set_assoc_req None l
        end).

(** ** Joining *)

Definition decide_wait_for_beacon_timeout (bcn_interval : Z) : Z :=
  let t := u32 (bcn_interval .<< 2) in
  if t <? WAIT_FOR_BCN_TO_MIN then WAIT_FOR_BCN_TO_MIN
  else if WAIT_FOR_BCN_TO_MAX <? t then WAIT_FOR_BCN_TO_MAX else t.

(** At most 13; a zero ends the set. *)
Fixpoint rateset_len (n : nat) (rateset : bytes) : nat :=
  match n, rateset with
  | S n, r :: rest => if r =? 0 then O else S (rateset_len n rest)
  | _, _ => O
  end.
Definition rtw_get_rateset_len (rateset : bytes) : nat := rateset_len 13 rateset.
Definition is_cck (r : Z) : bool := let r := r .& 0x7f in (r =? 2) || (r =? 4) || (r =? 11) || (r =? 22).
Definition cckrates_included (rate : bytes) (n : nat) : bool := existsb is_cck (take n rate).
Definition cckratesonly_included (rate : bytes) (n : nat) : bool := forallb is_cck (take n rate).

(** The bits are 1 for 11b, 2 for 11g, 4 for 11a, 8 and 16 for 11n at 2.4 and 5 GHz, 64 for
    11ac. *)
Definition update_wireless_mode (l : link) : link :=
  let rate := SupportedRates (net l) in
  let ratelen := rtw_get_rateset_len rate in
  let s := elems l in
  let HT_enable := HT_enable (lbss l) || (HT_info_enable s && HT_caps_enable s) in
  let five := 14 <? q_cur_channel (k_req c) in
  let network_type := if VHT_enable s then 64 else if HT_enable then (if five then 16 else 8) else 0 in
  let network_type :=
    if five then network_type .| 4
    else if cckratesonly_included rate ratelen then network_type .| 1
    else if cckrates_included rate ratelen then network_type .| 3
    else network_type .| 2 in
  upd_bss (fun b => StaBss (laid b) (capability b) (slotTime b) (short_preamble b) HT_enable
                      (network_type .& k_wireless_mode c)) l.

Definition update_capinfo (updateCap : Z) (l : link) : link :=
  let mode := cur_wireless_mode (lbss l) in
  let slot :=
    if has 0x0002 updateCap then 20
    else if has (8 .| 4 .| 16 .| 64) mode then 9
    else if has 2 mode then (if has 0x0400 updateCap then 9 else 20)
    else 20 in
  upd_bss (fun b => StaBss (laid b) (capability b) slot (has 0x0020 updateCap) (HT_enable b) (cur_wireless_mode b)) l.

(** The network's entry in the scan table, and whether it has a P2P element: a
    deauthentication is sent unless it does. *)
Fixpoint find_scanned (n : WLAN_BSSID_EX) (q : list WLAN_BSSID_EX) : option WLAN_BSSID_EX :=
  match q with
  | [] => None
  | x :: q => if (SsidLength (ssid x) =? SsidLength (ssid n)) && bool_decide (Ssid (ssid x) = Ssid (ssid n))
                 && bool_decide (MacAddress x = MacAddress n) then Some x else find_scanned n q
  end.
Definition deauth_before_connect (l : link) : res link :=
  let n := net l in
  has_p2p_ie ← match find_scanned n (k_scanned c) with
               | Some x =>
                   let ie_offset := if (Reserved x).1 =? 2 then 0 else 12 in
                   '(p, _, _) ← rtw_get_p2p_ie (IEs x) ie_offset (u32 (IELength x - ie_offset)) None;
                   Done (bool_decide (p <> None))
               | None => Done false
               end;
  Done (if (has_p2p_ie : bool) then l else say (TxDeauth (MacAddress n) WLAN_REASON_DEAUTH_LEAVING) l).

Definition start_clnt_join (l : link) : res link :=
  let l := update_wireless_mode l in
  caps ← rtw_get_capability (IEs (net l));
  let l := update_capinfo caps l in
  if has cap_ESS caps then
    l ← deauth_before_connect l;
    let beacon_timeout := decide_wait_for_beacon_timeout (k_bcn_interval c) in
    let l := set_timer (Some beacon_timeout) l in
    let l := set_assoc_timer (REAUTH_TO * REAUTH_LIMIT + REASSOC_TO * REASSOC_LIMIT + beacon_timeout) l in
    Done (set_lstate (WIFI_FW_AUTH_NULL .| WIFI_FW_STATION_STATE) l)
  else if has cap_IBSS caps then Done (report_join_res 1 (set_lstate WIFI_FW_ADHOC_STATE l))
  else Done l.

Definition start_clnt_auth (l : link) : link :=
  let l := set_timer None l in
  let l := set_lstate (Z.ldiff (lstate l) WIFI_FW_AUTH_NULL .| WIFI_FW_AUTH_STATE) l in
  let l := set_counts 0 0 (upd_auth (set_auth_seq 1) l) in
  set_timer (Some REAUTH_TO) (issue_auth 0 l).

Definition start_clnt_assoc (l : link) : res link :=
  let l := set_timer None l in
  let l := set_lstate (Z.ldiff (lstate l) (WIFI_FW_AUTH_NULL .| WIFI_FW_AUTH_STATE)
                         .| (WIFI_FW_AUTH_SUCCESS .| WIFI_FW_ASSOC_STATE)) l in
  l ← send_assocreq l;
  Done (set_timer (Some REASSOC_TO) l).

Definition receive_disconnect (MacAddr : bytes) (reason : Z) (l : link) : link :=
  if negb (bool_decide (MacAddr = MacAddress (net l))) then l
  else if lstate l .& 3 =? WIFI_FW_STATION_STATE then
    if has WIFI_FW_ASSOC_SUCCESS (lstate l) then
      report_del_sta_event MacAddr reason (set_lstate WIFI_FW_NULL_STATE l)
    else if has WIFI_FW_LINKING_STATE (lstate l) then report_join_res (-2) (set_lstate WIFI_FW_NULL_STATE l)
    else l
  else l.

(** The link's part of the disconnect command. *)
Definition rtw_mlmeext_disconnect (l : link) : link := set_timer None (set_lstate WIFI_FW_NULL_STATE l).

(** ** Frames *)

(** A beacon of the network; [scanning] tells that a scan is under way, [changed] that the
    station of the sender is known and [rtw_check_bcn_info] finds another network. *)
Definition beacon_link (scanning changed : bool) (m : bytes) (l : link) : res link :=
  if scanning then Done l
  else
    a3 ← rdr m 16 6;
    if negb (bool_decide (a3 = MacAddress (net l))) then Done l
    else if has WIFI_FW_AUTH_NULL (lstate l) then Done (start_clnt_auth l)
    else if (lstate l .& 3 =? WIFI_FW_STATION_STATE) && has WIFI_FW_ASSOC_SUCCESS (lstate l) && changed then
      Done (receive_disconnect (MacAddress (net l)) 0 l)
    else Done l.

Definition OnAuthClient (m : bytes) (pkt_len : Z) (l : link) : res (link * Z) :=
  if negb (bool_decide (my = get_da m)) then Done (l, _SUCCESS)
  else if negb (has WIFI_FW_AUTH_STATE (lstate l)) then Done (l, _SUCCESS)
  else
    let offset := if GetPrivacy m then 4 else 0 in
    algthm ← RTW_GET_LE16 m (WLAN_HDR_A3_LEN + offset);
    seq ← RTW_GET_LE16 m (WLAN_HDR_A3_LEN + offset + 2);
    status ← RTW_GET_LE16 m (WLAN_HDR_A3_LEN + offset + 4);
    let shared := auth_algo (auth l) =? dot11AuthAlgrthm_Shared in
    if negb (status =? 0) then
      let l := if status =? 13
               then upd_auth (set_auth_algo (if shared then dot11AuthAlgrthm_Open else dot11AuthAlgrthm_Shared)) l else l in
      Done (set_timer (Some 1) l, _FAIL)
    else if seq =? 2 then
      if shared then
        '(p, len) ← rtw_get_ie m (WLAN_HDR_A3_LEN + _AUTH_IE_OFFSET_) _CHLGETXT_IE_ 0
                      (s32 (pkt_len - WLAN_HDR_A3_LEN - _AUTH_IE_OFFSET_));
        match p with
        | None => Done (l, _FAIL)
        | Some p =>
            text ← rdr m (p + 2) len;
            chg_txt ← wrr (chg_txt (auth l)) 0 text;
            let l := upd_auth (fun a => set_auth_seq 3 (set_chg_txt chg_txt a)) l in
            Done (set_timer (Some REAUTH_TO) (issue_auth 0 l), _SUCCESS)
        end
      else l ← start_clnt_assoc l; Done (l, _SUCCESS)
    else if seq =? 4 then
      if shared then l ← start_clnt_assoc l; Done (l, _SUCCESS) else Done (l, _FAIL)
    else Done (l, _FAIL).

(** The end of [OnAssocRsp]: what is kept of the frame, and the report. *)
Definition report_assoc_result (m : bytes) (pkt_len r : Z) (l : link) : res link :=
  rsp ← (if (0 <? r) && (0 <? pkt_len) then f ← rdr m 0 pkt_len; Done (copy_buf f) else Done None);
  Done (report_join_res r (set_assoc_rsp rsp l)).

Definition set_rates (f : bytes -> bytes) (n : WLAN_BSSID_EX) : WLAN_BSSID_EX :=
  WlanBssidEx (Length n) (MacAddress n) (Reserved n) (ssid n) (Privacy n) (Rssi n) (NetworkTypeInUse n) (config n)
    (InfrastructureMode n) (f (SupportedRates n)) (phy n) (IELength n) (IEs n).

Definition OnAssocRsp (m : bytes) (pkt_len : Z) (l : link) : res (link * Z) :=
  if negb (bool_decide (my = get_da m)) then Done (l, _SUCCESS)
  else if negb (has (WIFI_FW_AUTH_SUCCESS .| WIFI_FW_ASSOC_STATE) (lstate l)) then Done (l, _SUCCESS)
  else if has WIFI_FW_ASSOC_SUCCESS (lstate l) then Done (l, _SUCCESS)
  else
    let l := set_timer None l in
    status ← RTW_GET_LE16 m (WLAN_HDR_A3_LEN + 2);
    if 0 <? status then
      l ← report_assoc_result m pkt_len (-4) (set_lstate WIFI_FW_NULL_STATE l); Done (l, _SUCCESS)
    else
      cap ← RTW_GET_LE16 m WLAN_HDR_A3_LEN;
      id ← RTW_GET_LE16 m (WLAN_HDR_A3_LEN + 4);
      let r := id .& 0x3fff in
      let l := upd_bss (fun b => StaBss r cap (if has (1 .<< 10) cap then 9 else 20) (short_preamble b) (HT_enable b)
                                   (cur_wireless_mode b)) l in
      s ← assoc_rsp_elems (k_elem c) (Z.to_nat pkt_len) m (6 + WLAN_HDR_A3_LEN) pkt_len (elems l);
      let l := set_elems s l in
      let l := set_lstate (Z.ldiff (lstate l) WIFI_FW_ASSOC_STATE .| WIFI_FW_ASSOC_SUCCESS) l in
      let l := set_net (set_rates UpdateBrateTbl (net l)) l in
      l ← report_assoc_result m pkt_len r l;
      Done (l, _SUCCESS).

(** A deauthentication, of a station that is not an access point. *)
Definition sta_OnDeAuth (m : bytes) (l : link) : res link :=
  a3 ← rdr m 16 6;
  if negb (bool_decide (a3 = MacAddress (net l))) then Done l
  else
    reason ← RTW_GET_LE16 m WLAN_HDR_A3_LEN;
    let ignore := (has WIFI_FW_AUTH_STATE (lstate l) || has WIFI_FW_ASSOC_STATE (lstate l)) &&
      ((reason =? WLAN_REASON_CLASS2_FRAME_FROM_NONAUTH_STA) || (reason =? WLAN_REASON_PREV_AUTH_NOT_VALID)) in
    Done (if ignore then l else receive_disconnect a3 reason l).

Definition sta_OnDisassoc (m : bytes) (l : link) : res link :=
  a3 ← rdr m 16 6;
  if negb (bool_decide (a3 = MacAddress (net l))) then Done l
  else reason ← RTW_GET_LE16 m WLAN_HDR_A3_LEN; Done (receive_disconnect a3 reason l).

(** ** The timer *)

Definition link_timer_hdl (l : link) : res link :=
  if has WIFI_FW_AUTH_NULL (lstate l) then
    Done (report_join_res (-3) (set_lstate WIFI_FW_NULL_STATE l))
  else if has WIFI_FW_AUTH_STATE (lstate l) then
    let l := set_counts (u32 (reauth_count l + 1)) (reassoc_count l) l in
    if REAUTH_LIMIT <? reauth_count l then Done (report_join_res (-1) (set_lstate 0 l))
    else Done (set_timer (Some REAUTH_TO) (issue_auth 0 (upd_auth (set_auth_seq 1) l)))
  else if has WIFI_FW_ASSOC_STATE (lstate l) then
    let l := set_counts (reauth_count l) (u32 (reassoc_count l + 1)) l in
    if REASSOC_LIMIT <? reassoc_count l then Done (report_join_res (-2) (set_lstate WIFI_FW_NULL_STATE l))
    else l ← send_assocreq l; Done (set_timer (Some REASSOC_TO) l)
  else Done l.

(** The timer expires: it is not set when the handler starts. *)
Definition link_timer_expires (l : link) : res link := link_timer_hdl (set_timer None l).
End link.

(** ** What the handlers are for *)

(** The states of a join, with the numbers of retries. *)
Inductive join := Idle | Waiting | Authing (k : Z) | Associng (k : Z) | Joined | Ibss.

Definition linking (j : join) : bool := match j with Waiting | Authing _ | Associng _ => true | _ => false end.

(** The machine: whether the step is an expiry of the timer, and the results reported. *)
Inductive join_step : bool -> join -> list Z -> join -> Prop :=
  | js_stay j : join_step false j [] j
  | js_start : join_step false Waiting [] (Authing 0)
  | js_authenticated k : join_step false (Authing k) [] (Associng 0)
  | js_joined k aid : 0 <= aid < 2 ^ 14 -> join_step false (Associng k) [aid] Joined
  | js_rejected k : join_step false (Associng k) [-4] Idle
  | js_dropped j : linking j = true -> join_step false j [-2] Idle
  | js_lost : join_step false Joined [] Idle
  | js_no_beacon : join_step true Waiting [-3] Idle
  | js_reauth k : k < 4 -> join_step true (Authing k) [] (Authing (k + 1))
  | js_no_auth : join_step true (Authing 4) [-1] Idle
  | js_reassoc k : k < 4 -> join_step true (Associng k) [] (Associng (k + 1))
  | js_no_assoc : join_step true (Associng 4) [-2] Idle
  | js_stale j : linking j = false -> join_step true j [] j.

(** The link is in a state of the machine: while it is being set up, the timer runs. *)
Definition link_is (l : link) (j : join) : Prop :=
  match j with
  | Idle => lstate l = 0
  | Waiting => lstate l = 0x102 /\ link_timer l <> None
  | Authing k => lstate l = 0x202 /\ reauth_count l = k /\ 0 <= k <= 4 /\ reassoc_count l = 0 /\ link_timer l <> None
  | Associng k => lstate l = 0x2402 /\ reassoc_count l = k /\ 0 <= k <= 4 /\ link_timer l <> None
  | Joined => lstate l = 0x4402
  | Ibss => lstate l = 1
  end.

Definition state_of (j : join) : Z :=
  match j with Idle => 0 | Waiting => 0x102 | Authing _ => 0x202 | Associng _ => 0x2402 | Joined => 0x4402 | Ibss => 1 end.

(** The results reported so far. *)
Definition reports (l : link) : list Z := omap (fun e => match e with JoinRes r => Some r | _ => None end) (llog l).

(** One handler, with its memory accesses in bounds ([Done]).  The first label tells whether an
    event could be allocated while it ran, the second that it is the timer's. *)
Inductive link_step : bool -> bool -> link -> link -> Prop :=
  | ls_beacon c scanning changed m l l' :
      beacon_link c scanning changed m l = Done l' -> link_step (k_event_ok c) false l l'
  | ls_auth c m len l l' r : OnAuthClient c m len l = Done (l', r) -> link_step (k_event_ok c) false l l'
  | ls_assoc_rsp c m len l l' r : OnAssocRsp c m len l = Done (l', r) -> link_step (k_event_ok c) false l l'
  | ls_deauth c m l l' : sta_OnDeAuth c m l = Done l' -> link_step (k_event_ok c) false l l'
  | ls_disassoc c m l l' : sta_OnDisassoc c m l = Done l' -> link_step (k_event_ok c) false l l'
  | ls_timer c l l' : link_timer l <> None -> link_timer_expires c l = Done l' -> link_step (k_event_ok c) true l l'.

(** What is reported of the results of a step: nothing when no event can be allocated. *)
Definition reported (ok : bool) (rs : list Z) : list Z := if ok then rs else [].

(** ** Lemmas *)

(** The same link as far as the machine goes. *)
Definition same_link (l l' : link) : Prop :=
  lstate l' = lstate l /\ reauth_count l' = reauth_count l /\ reassoc_count l' = reassoc_count l /\
  link_timer l' = link_timer l /\ reports l' = reports l.

Lemma reports_say e l : reports (say e l) = reports l ++ match e with JoinRes r => [r] | _ => [] end.
Proof. unfold reports. cbn [llog say]. rewrite omap_app. by destruct e. Qed.

Lemma issue_auth_same c status l : same_link l (issue_auth c status l).
Proof.
  unfold issue_auth, same_link. destruct (negb _); [done|]. cbv zeta. destruct (_ && _ && _);
    split_and!; try done; rewrite reports_say; by rewrite app_nil_r.
Qed.

Lemma send_assocreq_same c l l' : send_assocreq c l = Done l' -> same_link l l'.
Proof.
  unfold send_assocreq. intros ([[ht seq] [f|]] & _ & [= <-])%res_bind_Done; [|done].
  unfold same_link. split_and!; try done. change (reports (set_assoc_req _ ?x)) with (reports x).
  rewrite reports_say. by rewrite app_nil_r.
Qed.

Lemma start_clnt_auth_is c l : lstate l = 0x102 -> link_is (start_clnt_auth c l) (Authing 0) /\ reports (start_clnt_auth c l) = reports l.
Proof.
  intros E. unfold start_clnt_auth. cbv zeta. set (l1 := set_counts 0 0 _).
  destruct (issue_auth_same c 0 l1) as (H1 & H2 & H3 & _ & H5). split; [|exact H5].
  cbn [link_is lstate reauth_count reassoc_count link_timer set_timer]. rewrite H1, H2, H3. subst l1. cbn. rewrite E. by split_and!.
Qed.

Lemma start_clnt_assoc_is c l l' : start_clnt_assoc c l = Done l' -> lstate l = 0x202 -> reassoc_count l = 0 ->
  link_is l' (Associng 0) /\ reports l' = reports l.
Proof.
  unfold start_clnt_assoc. cbv zeta. set (l1 := set_lstate _ _). intros (l2 & E2 & [= <-])%res_bind_Done E Er.
  apply send_assocreq_same in E2 as (H1 & H2 & H3 & _ & H5). split; [|exact H5].
  cbn [link_is lstate reassoc_count link_timer set_timer]. rewrite H1, H3. subst l1. cbn. rewrite E, Er. by split_and!.
Qed.

(** What a step does, in terms of the machine. *)
Definition does (ok b : bool) (j : join) (l l' : link) : Prop :=
  exists j' rs, link_is l' j' /\ reports l' = reports l ++ reported ok rs /\ join_step b j rs j'.

Lemma reported_nil ok : reported ok [] = [].
Proof. by destruct ok. Qed.

(** A step without a result. *)
Lemma does_silent ok b j j' l l' : link_is l' j' -> reports l' = reports l -> join_step b j [] j' -> does ok b j l l'.
Proof. intros H E Hs. exists j', []. by rewrite reported_nil, app_nil_r. Qed.

Lemma does_stay ok j l l' : link_is l' j -> reports l' = reports l -> does ok false j l l'.
Proof. intros H E. apply (does_silent _ _ _ j); [done..|constructor]. Qed.

Lemma report_is c r l : reports (report_join_res c r l) = reports l ++ reported (k_event_ok c) [r] /\
  lstate (report_join_res c r l) = lstate l.
Proof.
  unfold report_join_res. destruct (k_event_ok c); cbn [reported]; [by rewrite reports_say|by rewrite app_nil_r].
Qed.

Lemma link_is_state l j : link_is l j -> lstate l = state_of j.
Proof. destruct j; [done|by intros [? _]..|done|done]. Qed.

Lemma disconnect_does c a reason j l : link_is l j -> does (k_event_ok c) false j l (receive_disconnect c a reason l).
Proof.
  intros Hj. unfold receive_disconnect. destruct (negb _); [by apply does_stay|].
  assert (Hd : linking j = true -> does (k_event_ok c) false j l (report_join_res c (-2) (set_lstate WIFI_FW_NULL_STATE l))).
  { intros Hl. destruct (report_is c (-2) (set_lstate WIFI_FW_NULL_STATE l)) as [H1 H2]. exists Idle, [-2].
    split_and!; [exact H2|exact H1|by constructor]. }
  rewrite (link_is_state l j Hj).
  destruct j; cbn [state_of Z.eqb]; first [by apply does_stay | by apply Hd | idtac].
  apply (does_silent _ _ _ Idle); [| |constructor]; unfold report_del_sta_event; destruct (k_event_ok c); try done.
  exact (eq_trans (reports_say (DelSta a reason) (set_lstate WIFI_FW_NULL_STATE l)) (app_nil_r _)).
Qed.

(** ** Every handler is a step of the machine *)

(** The parts of [link_is]. *)
Ltac link_done := split_and!; first [done | lia].

Lemma auth_client_does c m len l l' r j : link_is l j ->
  OnAuthClient c m len l = Done (l', r) -> does (k_event_ok c) false j l l'.
Proof.
  intros Hj. unfold OnAuthClient. destruct (negb _); [intros [= <- _]; by apply does_stay|].
  rewrite (link_is_state l j Hj). destruct j; try (intros [= <- _]; by apply does_stay). cbn [negb state_of].
  change (negb (has WIFI_FW_AUTH_STATE 514)) with false. cbv iota zeta.
  destruct Hj as (E & Ek & Hk & Er & Ht). set (sh := _ =? dot11AuthAlgrthm_Shared). clearbody sh.
  intros (alg & _ & H)%res_bind_Done. apply res_bind_Done in H as (seq & _ & H). apply res_bind_Done in H as (status & _ & H).
  assert (Hassoc : forall l' r, (l ← start_clnt_assoc c l; Done (l, _SUCCESS)) = Done (l', r) -> does (k_event_ok c) false (Authing k) l l').
  { clear -E Er. intros l' r (l1 & E1 & [= <- _])%res_bind_Done. destruct (start_clnt_assoc_is c l l1 E1 E Er) as [H1 H2].
    apply (does_silent _ _ _ (Associng 0)); [done..|constructor]. }
  destruct (negb _); [|destruct (seq =? 2); [|destruct (seq =? 4)]]; [| | |injection H as <- _; by apply does_stay].
  - injection H as <- _. apply does_stay; [|by destruct (status =? 13)]. cbn [link_is]. destruct (status =? 13); link_done.
  - destruct sh; [|by eapply Hassoc]. apply res_bind_Done in H as ([[p|] n] & _ & H); [|injection H as <- _; by apply does_stay].
    apply res_bind_Done in H as (text & _ & H). apply res_bind_Done in H as (chg & _ & H). injection H as <- _.
    set (l1 := upd_auth _ l). destruct (issue_auth_same c 0 l1) as (H1 & H2 & H3 & _ & H5).
    apply does_stay; [|exact H5]. cbn [link_is lstate reauth_count reassoc_count link_timer set_timer].
    rewrite H1, H2, H3. link_done.
  - destruct sh; [by eapply Hassoc|]. injection H as <- _. by apply does_stay.
Qed.

Lemma assoc_result_same c m n r l l' : report_assoc_result c m n r l = Done l' ->
  lstate l' = lstate l /\ reports l' = reports l ++ reported (k_event_ok c) [r].
Proof.
  unfold report_assoc_result. intros (rsp & _ & [= <-])%res_bind_Done.
  by destruct (report_is c r (set_assoc_rsp rsp l)) as [-> ->].
Qed.

Lemma assoc_rsp_does c m len l l' r j : link_is l j ->
  OnAssocRsp c m len l = Done (l', r) -> does (k_event_ok c) false j l l'.
Proof.
  intros Hj. unfold OnAssocRsp. destruct (negb _); [intros [= <- _]; by apply does_stay|].
  rewrite (link_is_state l j Hj). destruct j; try (intros [= <- _]; by apply does_stay). cbn [negb state_of].
  change (negb (has _ 9218)) with false. change (has WIFI_FW_ASSOC_SUCCESS 9218) with false. cbv iota zeta.
  destruct Hj as (E & Ek & Hk & Ht). intros (status & _ & H)%res_bind_Done. destruct (0 <? status).
  - apply res_bind_Done in H as (l1 & H & [= <- _]). apply assoc_result_same in H as [H1 H2].
    exists Idle, [-4]. split_and!; [exact H1|exact H2|constructor].
  - apply res_bind_Done in H as (cap & _ & H). apply res_bind_Done in H as (id & _ & H).
    apply res_bind_Done in H as (s & _ & H). apply res_bind_Done in H as (l1 & H & [= <- _]).
    apply assoc_result_same in H as [H1 H2].
    exists Joined, [id .& 0x3fff]. split_and!; [|exact H2|constructor; by apply (land_range_r 14)].
    cbn [link_is]. rewrite H1. cbn [lstate set_net set_lstate set_elems upd_bss set_timer]. by rewrite E.
Qed.

Lemma timer_does c l l' j : link_is l j -> link_timer_expires c l = Done l' -> does (k_event_ok c) true j l l'.
Proof.
  intros Hj. unfold link_timer_expires, link_timer_hdl. change (lstate (set_timer None l)) with (lstate l).
  assert (Hend : forall r l1, reports l1 = reports l -> join_step true j [r] Idle ->
    does (k_event_ok c) true j l (report_join_res c r (set_lstate 0 l1))).
  { intros r l1 E1 Hs. destruct (report_is c r (set_lstate 0 l1)) as [H1 H2]. exists Idle, [r].
    split_and!; [exact H2|by rewrite H1; change (reports (set_lstate 0 l1)) with (reports l1); rewrite E1|done]. }
  assert (Hstale : linking j = false -> does (k_event_ok c) true j l (set_timer None l)).
  { intros Hl. apply (does_silent _ _ _ j); [by destruct j|done|by constructor]. }
  rewrite (link_is_state l j Hj). destruct j as [| |k|k| |]; try (cbn; intros [= <-]; by apply Hstale).
  - cbn. intros [= <-]. apply (Hend (-3) (set_timer None l)); [done|constructor].
  - cbn [state_of]. change (has WIFI_FW_AUTH_NULL 514) with false. change (has WIFI_FW_AUTH_STATE 514) with true. cbv iota zeta.
    destruct Hj as (E & Ek & Hk & Er & Ht). cbn [reauth_count set_counts set_timer]. rewrite Ek, u32_id by lia.
    destruct (Z.ltb_spec REAUTH_LIMIT (k + 1)) as [H4|H4]; unfold REAUTH_LIMIT in H4.
    + intros [= <-]. apply (Hend (-1)); [done|]. replace k with 4 by lia. constructor.
    + intros [= <-]. set (l1 := upd_auth _ _). destruct (issue_auth_same c 0 l1) as (H1 & H2 & H3 & _ & H5).
      apply (does_silent _ _ _ (Authing (k + 1))); [|exact H5|constructor; lia].
      cbn [link_is lstate reauth_count reassoc_count link_timer set_timer]. rewrite H1, H2, H3. subst l1. cbn.
      split_and!; try done; lia.
  - cbn [state_of]. change (has WIFI_FW_AUTH_NULL 9218) with false. change (has WIFI_FW_AUTH_STATE 9218) with false.
    change (has WIFI_FW_ASSOC_STATE 9218) with true. cbv iota zeta.
    destruct Hj as (E & Ek & Hk & Ht). cbn [reassoc_count reauth_count set_counts set_timer]. rewrite Ek, u32_id by lia.
    destruct (Z.ltb_spec REASSOC_LIMIT (k + 1)) as [H4|H4]; unfold REASSOC_LIMIT in H4.
    + intros [= <-]. apply (Hend (-2)); [done|]. replace k with 4 by lia. constructor.
    + intros (l1 & H & [= <-])%res_bind_Done. apply send_assocreq_same in H as (H1 & H2 & H3 & _ & H5).
      apply (does_silent _ _ _ (Associng (k + 1))); [|exact H5|constructor; lia].
      cbn [link_is lstate reassoc_count link_timer set_timer]. rewrite H1, H3. cbn. split_and!; try done; lia.
Qed.

Lemma link_step_does ok b l l' j : link_is l j -> link_step ok b l l' -> does ok b j l l'.
Proof.
  intros Hj Hs. destruct Hs as [c sc ch m l l' H|c m len l l' r H|c m len l l' r H|c m l l' H|c m l l' H|c l l' Ht H].
  - unfold beacon_link in H. destruct sc; [injection H as <-; by apply does_stay|].
    apply res_bind_Done in H as (a3 & _ & H). destruct (negb _); [injection H as <-; by apply does_stay|].
    rewrite (link_is_state l j Hj) in H. destruct j;
      try (injection H as <-; by apply does_stay);
      try (cbn in H; destruct ch; injection H as <-; [by apply disconnect_does|by apply does_stay]).
    destruct Hj as [E Ht]. cbn in H. injection H as <-. destruct (start_clnt_auth_is c l E) as [H1 H2].
    apply (does_silent _ _ _ (Authing 0)); [done..|constructor].
  - by eapply auth_client_does.
  - by eapply assoc_rsp_does.
  - unfold sta_OnDeAuth in H. apply res_bind_Done in H as (a3 & _ & H). destruct (negb _); [injection H as <-; by apply does_stay|].
    apply res_bind_Done in H as (reason & _ & H). cbv zeta in H. destruct (_ && _) in H; injection H as <-; [by apply does_stay|].
    by apply disconnect_does.
  - unfold sta_OnDisassoc in H. apply res_bind_Done in H as (a3 & _ & H). destruct (negb _); [injection H as <-; by apply does_stay|].
    apply res_bind_Done in H as (reason & _ & H). injection H as <-. by apply disconnect_does.
  - by eapply timer_does.
Qed.
