(* ===== verification/StaRun.v ===== *)
(** * Runs of a joining station

    What follows from the state machine of StaLink for every sequence of frames and expiries
    of its timer: a join reports one result (none if the event cannot be allocated), and ends
    after finitely many expiries; and what the dispatcher of management frames
    (MgtDispatch) makes of it: behind it no join succeeds.  Runs in which the code does not do
    what it means to follow at the end. *)

From stdpp Require Import relations.
From S2P Require Import Prelude WifiHdr Ie IeAttr BssInfo MacId StaMgt MgtDispatch StaElems StaReq StaLink.

(** ** Runs *)

Definition is_linking (l : link) : bool := has (WIFI_FW_AUTH_NULL .| WIFI_FW_AUTH_STATE .| WIFI_FW_ASSOC_STATE) (lstate l).

(** A run of handlers, whose memory accesses are in bounds ([link_step]).  The first label tells
    whether an event could be allocated at every step of it; the number counts the expiries of the
    timer while the link is set up. *)
Inductive link_run : bool -> nat -> link -> link -> Prop :=
  | run_nil l : link_run true 0 l l
  | run_step ok b oks n l l1 l2 : link_step ok b l l1 -> link_run oks n l1 l2 ->
      link_run (ok && oks) (if b && is_linking l then S n else n) l l2.

(** The expiries that a join can still take. *)
Definition rank (j : join) : Z :=
  match j with Waiting => 11 | Authing k => 10 - k | Associng k => 5 - k | _ => 0 end.

Lemma is_linking_spec l j : link_is l j -> is_linking l = linking j.
Proof. intros Hj. unfold is_linking. rewrite (link_is_state l j Hj). by destruct j. Qed.

Lemma link_is_timer l j : link_is l j -> linking j = true -> link_timer l <> None.
Proof. destruct j; try done; cbn [link_is]; tauto. Qed.

Definition retries_ok (j : join) : Prop := match j with Authing k | Associng k => 0 <= k <= 4 | _ => True end.
Lemma link_is_retries l j : link_is l j -> retries_ok j.
Proof. destruct j; cbn [link_is retries_ok]; tauto. Qed.
Lemma rank_nonneg j : retries_ok j -> 0 <= rank j.
Proof. destruct j; cbn [retries_ok rank]; lia. Qed.

(** While a join is being made it has reported nothing; once it has ended, one result, which
    is an association id when the station has joined. *)
Definition outcome (j : join) (rs : list Z) : Prop :=
  match j with
  | Waiting | Authing _ | Associng _ => rs = []
  | Joined => exists aid, rs = [aid] /\ 0 <= aid < 2 ^ 14
  | Idle => exists r, rs = [r]
  | Ibss => False
  end.

Lemma step_outcome b j rs j' rs0 : join_step b j rs j' -> outcome j rs0 -> outcome j' (rs0 ++ rs).
Proof.
  intros Hs. destruct Hs as [j| |k|k aid Ha|k|j H| | |k H| |k H| |j H]; cbn [outcome]; rewrite ?app_nil_r; try done;
    try (by intros ->; eexists).
  - destruct j; try done; intros ->; by eexists.
  - intros (aid & -> & _). by eexists.
Qed.

Lemma step_rank b j rs j' : join_step b j rs j' -> retries_ok j ->
  rank j' + (if b && linking j then 1 else 0) <= rank j.
Proof.
  destruct 1 as [j| |k|k aid Ha|k|j H| | |k H| |k H| |j H]; cbn [rank andb linking retries_ok]; try lia.
  - intros Hk. apply rank_nonneg in Hk. cbn [rank]. lia.
  - rewrite H. lia.
Qed.

(** The results that are reported in a run, of those that the machine gives. *)
Definition reports_of (oks : bool) (rs out : list Z) : Prop := sublist out rs /\ (oks = true -> out = rs).

Lemma reports_of_app ok rs oks rs2 out2 : reports_of oks rs2 out2 -> reports_of (ok && oks) (rs ++ rs2) (reported ok rs ++ out2).
Proof.
  intros [Hs He]. split.
  - apply sublist_app; [|done]. destruct ok; cbn [reported]; [done|apply sublist_nil_l].
  - by intros [-> ->%He]%andb_prop.
Qed.

Lemma run_does oks n l l' : link_run oks n l l' -> forall j rs0, link_is l j -> outcome j rs0 ->
  exists j' rs out, link_is l' j' /\ reports l' = reports l ++ out /\ reports_of oks rs out /\
    outcome j' (rs0 ++ rs) /\ Z.of_nat n + rank j' <= rank j.
Proof.
  induction 1 as [l|ok b oks n l l1 l2 Hs _ IH]; intros j rs0 Hj Ho.
  - exists j, [], []. rewrite !app_nil_r. split_and!; [done..|lia].
  - destruct (link_step_does ok b l l1 j Hj Hs) as (j1 & rs1 & H1 & E1 & Hs1).
    destruct (IH j1 (rs0 ++ rs1) H1 (step_outcome _ _ _ _ _ Hs1 Ho)) as (j2 & rs2 & out2 & H2 & E2 & Hout & Ho2 & Hr).
    exists j2, (rs1 ++ rs2), (reported ok rs1 ++ out2).
    split_and!; [done|by rewrite E2, E1, app_assoc|by apply reports_of_app|by rewrite app_assoc|].
    pose proof (step_rank _ _ _ _ Hs1 (link_is_retries _ _ Hj)) as Hk. rewrite (is_linking_spec l j Hj).
    destruct (b && linking j); lia.
Qed.

Lemma find_deauth_same c l l' : deauth_before_connect c l = Done l' -> same_link l l'.
Proof.
  unfold deauth_before_connect. cbv zeta. intros ([] & _ & [= <-])%res_bind_Done; [by split_and!|].
  unfold same_link. split_and!; try done. rewrite reports_say. by rewrite app_nil_r.
Qed.

Lemma start_clnt_join_is c l l0 caps : start_clnt_join c l = Done l0 ->
  rtw_get_capability (IEs (net l)) = Done caps -> has cap_ESS caps = true -> link_is l0 Waiting /\ reports l0 = reports l.
Proof.
  unfold start_clnt_join. cbv zeta. intros (caps' & Ec & H)%res_bind_Done Ec' He.
  change (net (update_wireless_mode c l)) with (net l) in Ec. rewrite Ec in Ec'. injection Ec' as ->. rewrite He in H.
  apply res_bind_Done in H as (l1 & (_ & _ & _ & _ & H5)%find_deauth_same & [= <-]). by split; [split|].
Qed.

(** ** Properties *)

(** C18: Every handler of a station that is in a state of the join machine (a beacon, an
    authentication or association response, a deauthentication or disassociation, or an expiry
    of the timer) takes one step of that machine, whatever is in the frame, provided that it
    completes, with its memory accesses in bounds (the frames that make it overflow are the
    subject of other theorems and findings).  It reports the results of the step if memory for
    the event can be allocated, and none if it cannot: at most four retries of each message, no
    state left without a running timer before the join has ended, and no way from one state to
    another but the machine's. *)
Theorem link_refines_join ok b l l' j : link_is l j -> link_step ok b l l' ->
  exists j' rs, link_is l' j' /\ reports l' = reports l ++ (if ok then rs else []) /\ join_step b j rs j'.
Proof. apply link_step_does. Qed.

(** C16: A join of an infrastructure network, in every run of handlers that complete (with their
    memory accesses in bounds), whatever frames are received and however often the timer
    expires: as long as the link is being set up no result is reported, and once it is not, at
    most one.  It is exactly one if an event could be allocated at every step; a handler that
    cannot allocate the event returns silently, and leaves the join without a result.  The result
    that is reported while the station has joined is an association id. *)
Theorem join_reports_once c l l0 caps oks n l' : start_clnt_join c l = Done l0 ->
  rtw_get_capability (IEs (net l)) = Done caps -> has cap_ESS caps = true -> link_run oks n l0 l' ->
  exists rs, reports l' = reports l ++ rs /\ (is_linking l' = true -> rs = []) /\
    (is_linking l' = false -> (rs = [] /\ oks = false) \/
       exists r, rs = [r] /\ (has WIFI_FW_ASSOC_SUCCESS (lstate l') = true -> 0 <= r < 2 ^ 14)).
Proof.
  intros Hj Hc He Hr. destruct (start_clnt_join_is c l l0 caps Hj Hc He) as [H0 E0].
  destruct (run_does oks n l0 l' Hr Waiting [] H0 eq_refl) as (j & rs & out & Hl' & E & [Hsub Hall] & Ho & _).
  cbn [app] in Ho. exists out. rewrite E, E0. split; [done|].
  rewrite (is_linking_spec l' j Hl'), (link_is_state l' j Hl').
  assert (Hone : forall r, rs = [r] -> (out = [] /\ oks = false) \/ out = [r]).
  { intros r ->. destruct oks; [right; by apply Hall|]. apply sublist_cons_r in Hsub as [->%sublist_nil_r|(k & -> & ->%sublist_nil_r)]; auto. }
  split; [destruct j; try done; cbn [outcome] in Ho; subst rs; intros _; by apply sublist_nil_r|].
  destruct j; try done; intros _.
  - destruct Ho as [r Er]. destruct (Hone r Er) as [?| ->]; [by left|right; by exists r].
  - destruct Ho as (r & Er & Hr'). destruct (Hone r Er) as [?| ->]; [by left|right; by exists r].
Qed.

(** C17: A join takes at most eleven expiries of the timer: in every run from the start of a
    join at most eleven expiries find the link being set up, and after eleven it is not; while
    it is, the timer runs.  Frames, the same again and again or none at all, and events that
    cannot be allocated change nothing of that. *)
Theorem join_ends c l l0 caps oks n l' : start_clnt_join c l = Done l0 ->
  rtw_get_capability (IEs (net l)) = Done caps -> has cap_ESS caps = true -> link_run oks n l0 l' ->
  (n <= 11)%nat /\ (n = 11%nat -> is_linking l' = false) /\ (is_linking l' = true -> link_timer l' <> None).
Proof.
  intros Hj Hc He Hr. destruct (start_clnt_join_is c l l0 caps Hj Hc He) as [H0 E0].
  destruct (run_does oks n l0 l' Hr Waiting [] H0 eq_refl) as (j & rs & out & Hl' & E & _ & Ho & Hn). cbn [rank] in Hn.
  pose proof (rank_nonneg _ (link_is_retries _ _ Hl')) as Hk. rewrite (is_linking_spec l' j Hl'). split_and!; [lia| |by apply link_is_timer].
  intros ->. destruct j; try done; cbn [rank] in *; cbn [link_is] in Hl'; lia.
Qed.

(** ** Behind the dispatcher *)

(** The handler called, where it is one of StaLink's; the others (probe requests and responses,
    action frames, and [OnAssocReq], which returns at once at a station) leave the link alone. *)
Definition sta_func (c : link_cfg) (call : option mlme_func) (scanning changed : bool) (m : bytes) (len : Z) (l : link) : res link :=
  match call with
  | Some F_OnAuthClient => '(l, _) ← OnAuthClient c m len l; Done l
  | Some F_OnAssocRsp => '(l, _) ← OnAssocRsp c m len l; Done l
  | Some F_OnBeacon => beacon_link c scanning changed m l
  | Some F_OnDeAuth => sta_OnDeAuth c m l
  | Some F_OnDisassoc => sta_OnDisassoc c m l
  | _ => Done l
  end.

(** A frame for the station, or an expiry.  No station or access point sends an association
    request to a station. *)
Definition no_request (m : bytes) : Prop :=
  forall fc, RTW_GET_LE16 m 0 = Done fc -> fc .& 0xfc <> ApAssoc.WIFI_ASSOCREQ /\ fc .& 0xfc <> WIFI_REASSOCREQ.

Inductive mgt_sta_step : mgt * link -> mgt * link -> Prop :=
  | mss_frame c scanning changed m len seq x x' call l l' : no_request m ->
      mgt_dispatcher (my c) false m seq x = Done (x', call) -> sta_func c call scanning changed m len l = Done l' ->
      mgt_sta_step (x, l) (x', l')
  | mss_timer c x l l' : link_timer_expires c l = Done l' -> mgt_sta_step (x, l) (x, l').

(** Before the association request. *)
Definition early (j : join) : bool := match j with Idle | Waiting | Authing _ => true | _ => false end.

(** The link stays there, and what is reported is a failure. *)
Definition stays_early (l l' : link) : Prop :=
  exists j' rs, link_is l' j' /\ early j' = true /\ reports l' = reports l ++ rs /\ Forall (fun r => r < 0) rs.

Lemma early_same l j : link_is l j -> early j = true -> stays_early l l.
Proof. intros Hj He. exists j, []. rewrite app_nil_r. by split_and!. Qed.

Lemma reported_early ok rs : Forall (fun r => r < 0) rs -> Forall (fun r => r < 0) (reported ok rs).
Proof. by destruct ok; cbn [reported]. Qed.

Lemma disconnect_early c a reason l j : link_is l j -> early j = true ->
  stays_early l (receive_disconnect c a reason l).
Proof.
  intros Hj He. pose proof (early_same l j Hj He) as Hs. unfold receive_disconnect. destruct (negb _); [done|].
  rewrite (link_is_state l j Hj).
  assert (stays_early l (report_join_res c (-2) (set_lstate WIFI_FW_NULL_STATE l))) as Hd.
  { destruct (report_is c (-2) (set_lstate WIFI_FW_NULL_STATE l)) as [H1 H2]. exists Idle, (reported (k_event_ok c) [-2]).
    split_and!; [exact H2|done|exact H1|apply reported_early; by repeat constructor]. }
  by destruct j.
Qed.

Lemma timer_early c l l' j : link_is l j -> early j = true ->
  link_timer_expires c l = Done l' -> stays_early l l'.
Proof.
  intros Hj He Ht. destruct (timer_does c l l' j Hj Ht) as (j' & rs & Hj' & E & Hs). exists j', (reported (k_event_ok c) rs).
  inversion Hs; subst; try done; split_and!; try done; apply reported_early; by repeat constructor.
Qed.

Lemma call_not_auth my m seq x x' call : table_kept (tbl x) -> no_request m ->
  mgt_dispatcher my false m seq x = Done (x', call) -> table_kept (tbl x') /\ call <> Some F_OnAuthClient.
Proof.
  intros Ht Hm E. pose proof E as E0. unfold mgt_dispatcher in E0.
  apply res_bind_Done in E0 as (a2 & E2 & E0). apply res_bind_Done in E0 as (fc & Efc & E0).
  destruct (negb _) in E0; [by simplify_eq|]. apply res_bind_Done in E0 as (a1 & E1 & _).
  destruct (dispatch_spec my false m seq x a1 a2 fc Ht E2 Efc E1) as (x1 & f1 & E' & Ht' & Ef).
  rewrite E in E'. injection E' as <- <-. split; [done|]. rewrite Ef.
  destruct (_ && _) eqn:Ec; [|done]. apply andb_true_iff in Ec as [[Ec _]%andb_true_iff _]. apply Z.eqb_eq in Ec.
  destruct (Hm fc Efc) as [N1 N2]. destruct (subtypes fc Ec) as (i & Hi & Es). rewrite Es in *. clear -Hi N1 N2.
  do 16 (destruct i as [|i]; [first [done | by vm_compute]|]). lia.
Qed.

Lemma func_early c call scanning changed m len l l' j : call <> Some F_OnAuthClient ->
  link_is l j -> early j = true -> sta_func c call scanning changed m len l = Done l' -> stays_early l l'.
Proof.
  intros Hcall Hj He. pose proof (early_same l j Hj He) as Hsame.
  destruct call as [[]|]; cbn [sta_func]; try (by intros [= <-]); [|intros H|intros H|done|intros H].
  - unfold OnAssocRsp. rewrite (link_is_state l j Hj). destruct (negb _); [by intros [= <-]|].
    destruct j; try done; by intros [= <-].
  - unfold beacon_link in H. destruct scanning; [by injection H as <-|]. apply res_bind_Done in H as (a3 & _ & H).
    destruct (negb _); [by injection H as <-|]. rewrite (link_is_state l j Hj) in H.
    destruct j; try done; try (by injection H as <-). injection H as <-.
    destruct (start_clnt_auth_is c l (link_is_state l Waiting Hj)) as [H1 H2].
    exists (Authing 0), []. rewrite app_nil_r. by split_and!.
  - unfold sta_OnDisassoc in H. apply res_bind_Done in H as (a3 & _ & H). destruct (negb _); [by injection H as <-|].
    apply res_bind_Done in H as (reason & _ & H). injection H as <-. by eapply disconnect_early.
  - unfold sta_OnDeAuth in H. apply res_bind_Done in H as (a3 & _ & H). destruct (negb _); [by injection H as <-|].
    apply res_bind_Done in H as (reason & _ & H). cbv zeta in H. destruct (_ && _) in H; injection H as <-; [done|].
    by eapply disconnect_early.
Qed.

(** C19: A station that receives its management frames from the dispatcher never joins a network
    that requires the usual exchange: from the start of a join, whatever frames come (no one
    sends association requests to a station) and however often the timer expires, the link
    never gets behind authentication, and whatever it reports is a failure. *)
Theorem station_never_joins c l l0 caps x0 x l' : start_clnt_join c l = Done l0 ->
  rtw_get_capability (IEs (net l)) = Done caps -> has cap_ESS caps = true -> table_kept (tbl x0) ->
  rtc mgt_sta_step (x0, l0) (x, l') ->
  has (WIFI_FW_AUTH_SUCCESS .| WIFI_FW_ASSOC_STATE .| WIFI_FW_ASSOC_SUCCESS) (lstate l') = false /\
  exists rs, reports l' = reports l ++ rs /\ Forall (fun r => r < 0) rs.
Proof.
  intros Hj Hc He Ht Hr. destruct (start_clnt_join_is c l l0 caps Hj Hc He) as [H0 E0]. rewrite <- E0. clear -Ht Hr H0.
  assert (forall y y', rtc mgt_sta_step y y' -> forall j, table_kept (tbl y.1) -> link_is y.2 j -> early j = true -> stays_early y.2 y'.2) as Hrun.
  { clear. induction 1 as [y|y1 y2 y3 Hs _ IH]; intros j Ht Hj He; [by eapply early_same|].
    assert (table_kept (tbl y2.1) /\ stays_early y1.2 y2.2) as (Ht2 & j2 & rs2 & Hj2 & He2 & E2 & Hf2).
    { destruct Hs as [c sc ch m len seq x x' call l l' Hm Hd Hh|c x l l' Hh]; cbn [fst snd] in *.
      - destruct (call_not_auth _ _ _ _ _ _ Ht Hm Hd) as [Ht' Hn]. split; [done|by eapply func_early].
      - split; [done|by eapply timer_early]. }
    destruct (IH j2 Ht2 Hj2 He2) as (j3 & rs3 & Hj3 & He3 & E3 & Hf3). exists j3, (rs2 ++ rs3).
    split_and!; [done..|by rewrite E3, E2, app_assoc|by apply Forall_app]. }
  destruct (Hrun _ _ Hr Waiting Ht H0 eq_refl) as (j & rs & Hl & Hej & E & Hf). cbn [fst snd] in *.
  rewrite (link_is_state l' j Hl). split; [by destruct j|by exists rs].
Qed.

(** ** Examples *)

(** A station that joins the network of StaReq's example, with open or shared key
    authentication. *)
Definition ex_link_cfg : link_cfg := LinkCfg ex_req_cfg ex_elem_cfg 0x1b 100 [] true true.
Definition ex_link (algo : Z) : link :=
  Link 0 0 0 (StaAuth 0 algo 1 5 (replicate 128 0)) (StaBss 0 0 0 false false 0) None None
    (ex_net [0x82; 0x84; 0x8b; 0x96; 0x2c] StaReq.ex_els) ex_elems 7 None None [].
Definition ex_bssid : bytes := [2; 0; 0; 0; 0; 9].
Definition ex_sta_frame (subtype : Z) (from : bytes) (body : bytes) : bytes :=
  [subtype; 0; 0; 0] ++ my ex_link_cfg ++ from ++ from ++ [0; 0] ++ body.
Definition ex_beacon : bytes := ex_sta_frame 0x80 ex_bssid (replicate 12 0).
Definition ex_auth_body (algo seq status : Z) : bytes := le16 algo ++ le16 seq ++ le16 status.
(** The challenge, and bytes of the receive buffer behind it. *)
Definition ex_challenge (n : Z) : bytes :=
  ex_sta_frame 0xb0 ex_bssid (ex_auth_body 1 2 0 ++ [16; n] ++ replicate (Z.to_nat n) 0xab).
Definition ex_rsp_body (status aid : Z) : bytes := [0x11; 0x04] ++ le16 status ++ le16 aid.

(** The handlers, one after the other. *)
Definition ex_then (h : link -> res link) (x : res link) : res link := l ← x; h l.
Definition ex_auth (m : bytes) (l : link) : res link := '(l, _) ← OnAuthClient ex_link_cfg m (zlen m) l; Done l.
Definition ex_rsp (m : bytes) (l : link) : res link :=
  '(l, _) ← OnAssocRsp ex_link_cfg (m ++ replicate 257 0) (zlen m) l; Done l.
Definition ex_bcn (l : link) : res link := beacon_link ex_link_cfg false false ex_beacon l.
Definition ex_expire (l : link) : res link := link_timer_expires ex_link_cfg l.
Definition ex_joining (algo : Z) : res link := ex_then ex_bcn (start_clnt_join ex_link_cfg (ex_link algo)).
Definition ex_associating : res link :=
  ex_then (ex_auth (ex_sta_frame 0xb0 ex_bssid (ex_auth_body 0 2 0))) (ex_joining 0).
Definition ex_joined : res link := ex_then (ex_rsp (ex_sta_frame 0x10 ex_bssid (ex_rsp_body 0 0xc003 ++ ex_rsp_elems))) ex_associating.

Definition got (x : res link) : link := match x with Done l => l | _ => ex_link 0 end.

Lemma link_refines_join_witness : exists j rs, link_is (got (ex_joining 0)) j /\
  reports (got (ex_joining 0)) = reports (got (start_clnt_join ex_link_cfg (ex_link 0))) ++ rs /\ join_step false Waiting rs j.
Proof.
  apply (link_refines_join true false (got (start_clnt_join ex_link_cfg (ex_link 0)))).
  - vm_compute. split; congruence.
  - apply (ls_beacon ex_link_cfg false false ex_beacon); vm_compute; reflexivity.
Defined.

(** A join step by step: the beacon, a retry of the authentication, its response, and the
    association response, which gives the station the association id 3. *)
Definition ex_l0 : link := got (start_clnt_join ex_link_cfg (ex_link 0)).
Definition ex_l1 : link := got (ex_bcn ex_l0).
Definition ex_l2 : link := got (ex_expire ex_l1).
Definition ex_l3 : link := got (ex_auth (ex_sta_frame 0xb0 ex_bssid (ex_auth_body 0 2 0)) ex_l2).
Definition ex_rsp_frame3 : bytes := ex_sta_frame 0x10 ex_bssid (ex_rsp_body 0 0xc003 ++ ex_rsp_elems).
Definition ex_l4 : link := got (ex_rsp ex_rsp_frame3 ex_l3).

Lemma ex_run : link_run true 1 ex_l0 ex_l4.
Proof.
  apply (run_step true false true 1 ex_l0 ex_l1 ex_l4).
  { apply (ls_beacon ex_link_cfg false false ex_beacon); vm_compute; reflexivity. }
  apply (run_step true true true 0 ex_l1 ex_l2 ex_l4).
  { apply (ls_timer ex_link_cfg); vm_compute; congruence. }
  apply (run_step true false true 0 ex_l2 ex_l3 ex_l4).
  { apply (ls_auth ex_link_cfg (ex_sta_frame 0xb0 ex_bssid (ex_auth_body 0 2 0)) 30 _ _ 1); vm_compute; reflexivity. }
  apply (run_step true false true 0 ex_l3 ex_l4 ex_l4); [|constructor].
  apply (ls_assoc_rsp ex_link_cfg (ex_rsp_frame3 ++ replicate 257 0) (zlen ex_rsp_frame3) _ _ 1); vm_compute; reflexivity.
Qed.

Lemma ex_start : start_clnt_join ex_link_cfg (ex_link 0) = Done ex_l0.
Proof. vm_compute. reflexivity. Qed.

(** The same with an event that cannot be allocated: the join ends without a result. *)
Definition ex_deaf_cfg : link_cfg := LinkCfg ex_req_cfg ex_elem_cfg 0x1b 100 [] false true.
Definition ex_deaf : link := got (link_timer_expires ex_deaf_cfg ex_l0).
Lemma ex_deaf_run : link_run false 1 ex_l0 ex_deaf.
Proof.
  apply (run_step false true true 0 ex_l0 ex_deaf ex_deaf); [|constructor].
  apply (ls_timer ex_deaf_cfg); vm_compute; congruence.
Qed.

Lemma join_reports_once_witness : ((exists rs, reports ex_l4 = [] ++ rs /\ exists r, rs = [r] /\ 0 <= r < 2 ^ 14) /\ reports ex_l4 = [3]) /\
  (exists rs, reports ex_deaf = [] ++ rs /\ (rs = [] /\ false = false \/ exists r, rs = [r])) /\ reports ex_deaf = [].
Proof.
  split; [split; [|vm_compute; reflexivity]|split; [|vm_compute; reflexivity]].
  - destruct (join_reports_once ex_link_cfg (ex_link 0) ex_l0 0x0411 true 1 ex_l4 ex_start) as (rs & E & _ & H);
      [vm_compute; reflexivity..|exact ex_run|].
    exists rs. split; [exact E|]. destruct H as [[_ H]|(r & Er & Hr)]; [vm_compute; reflexivity|discriminate|].
    exists r. split; [exact Er|]. apply Hr. vm_compute. reflexivity.
  - destruct (join_reports_once ex_link_cfg (ex_link 0) ex_l0 0x0411 false 1 ex_deaf ex_start) as (rs & E & _ & H);
      [vm_compute; reflexivity..|exact ex_deaf_run|].
    exists rs. split; [exact E|]. destruct H as [H|(r & Er & _)]; [vm_compute; reflexivity|by left|right; by exists r].
Defined.

(** Nothing is received: the timer ends the join. *)
Fixpoint expiries (n : nat) (l : link) : link :=
  match n with O => l | S n => expiries n (got (ex_expire l)) end.
Definition silent (l : link) (n : nat) : bool :=
  is_linking l && match link_timer l with Some _ => true | None => false end &&
  match ex_expire l with Done _ => true | _ => false end.
Lemma expiries_run n : forall l, (forall k, (k < n)%nat -> silent (expiries k l) k = true) -> link_run true n l (expiries n l).
Proof.
  induction n as [|n IH]; intros l H; cbn [expiries]; [constructor|].
  pose proof (H 0%nat ltac:(lia)) as H0. unfold silent in H0. cbn [expiries] in H0. apply andb_prop in H0 as [[Hl Ht]%andb_prop He].
  assert (link_run (true && true) (if true && is_linking l then S n else n) l (expiries n (got (ex_expire l)))) as Hr.
  { apply run_step with (l1 := got (ex_expire l)).
    - apply (ls_timer ex_link_cfg); [by destruct (link_timer l)|]. unfold ex_expire in *. by destruct (link_timer_expires _ l).
    - apply IH. intros k Hk. apply (H (S k)). lia. }
  by rewrite Hl in Hr.
Qed.

(** No response to the authentication, which is sent five times. *)
Lemma join_ends_witness : (5 <= 11)%nat /\ is_linking (expiries 4 ex_l1) = true /\ link_timer (expiries 4 ex_l1) <> None /\
  is_linking (expiries 5 ex_l1) = false /\ reports (expiries 5 ex_l1) = [-1].
Proof.
  assert (forall n, (n <= 5)%nat -> link_run true n ex_l0 (expiries n ex_l1)) as Hr.
  { intros n Hn. apply (run_step true false true n ex_l0 ex_l1).
    - apply (ls_beacon ex_link_cfg false false ex_beacon); vm_compute; reflexivity.
    - apply expiries_run. intros k Hk. do 5 (destruct k as [|k]; [vm_compute; reflexivity|]). lia. }
  destruct (join_ends ex_link_cfg (ex_link 0) ex_l0 0x0411 true 5 (expiries 5 ex_l1) ex_start) as [H5 _];
    [vm_compute; reflexivity..|by apply Hr|].
  destruct (join_ends ex_link_cfg (ex_link 0) ex_l0 0x0411 true 4 (expiries 4 ex_l1) ex_start) as (_ & _ & H4);
    [vm_compute; reflexivity..|apply Hr; lia|].
  split; [exact H5|]. split; [vm_compute; reflexivity|]. split; [apply H4; vm_compute; reflexivity|].
  split; vm_compute; reflexivity.
Defined.

(** Behind the dispatcher the beacon starts the authentication, whose response comes to
    nothing. *)
Definition mgt_after (m : bytes) (seq : Z) (x : mgt) : mgt :=
  match mgt_dispatcher (my ex_link_cfg) false m seq x with Done (x, _) => x | _ => x end.
Definition ex_auth_rsp : bytes := ex_sta_frame 0xb0 ex_bssid (ex_auth_body 0 2 0).
Definition ex_x1 : mgt := mgt_after ex_beacon 1 ex_mgt.
Definition ex_x2 : mgt := mgt_after ex_auth_rsp 2 ex_x1.

Lemma le16_no_request fc m : RTW_GET_LE16 m 0 = Done fc -> fc .& 0xfc <> ApAssoc.WIFI_ASSOCREQ ->
  fc .& 0xfc <> WIFI_REASSOCREQ -> no_request m.
Proof. intros E H1 H2 fc' E'. rewrite E in E'. by injection E' as <-. Qed.

Lemma ex_sta_frames : rtc mgt_sta_step (ex_mgt, ex_l0) (ex_x2, ex_l1).
Proof.
  apply (rtc_l _ _ (ex_x1, ex_l1)).
  { apply (mss_frame ex_link_cfg false false ex_beacon 36 1 _ _ (Some F_OnBeacon)); [|vm_compute; reflexivity..].
    apply (le16_no_request 0x80); vm_compute; congruence. }
  apply rtc_once.
  apply (mss_frame ex_link_cfg false false ex_auth_rsp 30 2 _ _ None); [|vm_compute; reflexivity..].
  apply (le16_no_request 0xb0); vm_compute; congruence.
Qed.

Lemma station_never_joins_witness : lstate ex_l1 = 0x202 /\
  has (WIFI_FW_AUTH_SUCCESS .| WIFI_FW_ASSOC_STATE .| WIFI_FW_ASSOC_SUCCESS) (lstate ex_l1) = false.
Proof.
  split; [vm_compute; reflexivity|].
  refine (proj1 (station_never_joins ex_link_cfg (ex_link 0) ex_l0 0x0411 ex_mgt ex_x2 ex_l1 ex_start _ _ _ ex_sta_frames));
    [vm_compute; reflexivity..|exact initial_table_kept].
Defined.

(** ** What the code does not mean *)

(** The length of the challenge is not checked: 128 bytes fill [chg_txt], and more run over the
    fields behind it. *)
Example challenge_overflows :
  (let a := auth (got (ex_then (ex_auth (ex_challenge 128)) (ex_joining 1))) in
   auth_seq a = 3 /\ chg_txt a = replicate 128 0xab) /\
  ex_then (ex_auth (ex_challenge 129)) (ex_joining 1) = OutOfBounds.
Proof. vm_compute. by split_and!. Qed.

(** Responses are not compared with the network that is joined: those of another sender
    complete the join. *)
Definition ex_stranger : bytes := [2; 0; 0; 0; 0; 66].
Example responses_from_anyone :
  let x := ex_then (ex_rsp (ex_sta_frame 0x10 ex_stranger (ex_rsp_body 0 0xc003 ++ ex_rsp_elems)))
             (ex_then (ex_auth (ex_sta_frame 0xb0 ex_stranger (ex_auth_body 0 2 0))) (ex_joining 0)) in
  lstate (got x) = 0x4402 /\ reports (got x) = [3].
Proof. vm_compute. by split. Qed.

(** An association id of zero is reported as such, though the link counts as joined. *)
Example association_id_zero :
  let x := ex_then (ex_rsp (ex_sta_frame 0x10 ex_bssid (ex_rsp_body 0 0xc000 ++ ex_rsp_elems))) ex_associating in
  lstate (got x) = 0x4402 /\ reports (got x) = [0].
Proof. vm_compute. by split. Qed.

(** Any management frame with the status of an unknown algorithm changes the algorithm. *)
Example algorithm_switches :
  auth_algo (auth (got (ex_then (ex_auth (ex_sta_frame 0xb0 ex_stranger (ex_auth_body 0 2 13))) (ex_joining 0)))) = dot11AuthAlgrthm_Shared /\
  auth_algo (auth (got (ex_then (ex_auth (ex_sta_frame 0xb0 ex_stranger (ex_auth_body 0 2 13))) (ex_joining 1)))) = dot11AuthAlgrthm_Open.
Proof. vm_compute. by split. Qed.
